(* ===== verification/_CoqProject ===== *)
-Q . S2P
Prelude.v
XorCode.v
Bitmap.v
PacketHeader.v
PoolInterface.v
TranPool.v
TranPoolSpec.v
Reorder.v
ReorderSpec.v
ReorderRun.v
FecGeometry.v
FecState.v
FecBuffer.v
FecInv.v
FecBufferSpec.v
FecAbstract.v
FecBlock.v
FecEncode.v
FecRefused.v
FecEncodeSpec.v
FecEncodeRefine.v
FecDecode.v
FecLines.v
FecDecodeSpec.v
FecDecodeSafe.v
FecTop.v
FecDemo.v
FecProtect.v
FecRecover.v
FecOverrun.v
ItemPool.v
MemPool.v
MemPoolSpec.v
ArqList.v
Arq.v
ArqSpec.v
ArqAck.v
ArqTimer.v
ArqRun.v
Float32.v
SlidWinState.v
SlidWin.v
SlidWinScan.v
SlidWinSpec.v
SlidWinRun.v
SlidWinSend.v
SlidWinRtt.v
SlidWinSendSpec.v
FloatWire.v
LinkStat.v
Frame.v
FrameSpec.v
FrameRun.v
FrameSend.v
FrameSendRun.v
SendRun.v
Feedback.v
FeedbackRun.v
Factor.v
Quality.v
QualitySpec.v
SessRecv.v
SessRecvRun.v
SessTimer.v
SessRun.v
EndToEnd.v
SessKey.v
GoodTp.v
GoodTpSpec.v
Mgr.v
MgrSpec.v
Entry.v
StreamKey.v
EntrySpec.v
