(* ===== verification/Prelude.v ===== *)
(** * udpfec: a verification library for the GoodTP transport core

    GoodTP is a UDP transport with forward error correction.  An application
    hands frames to a session; the session wraps them in packets, the fec
    engine adds parity packets, the peer's engine rebuilds lost packets from
    them, and a reorder buffer hands the frames on in sequence.  All of them
    work on reference counted buffers of one transport pool.  The sources are
    under src/src/ (C++); this library models their core and proves it correct.

    ** The parts and their files

    - Prelude.v: machine integers as [Z] with the wrap-around written out
      ([u8] ... [u64], [i32]), bit fields, memory blocks ([mem_load],
      [mem_store], [memset0]), the state-and-fault monad in which the
      stateful code is written ([ST]; [fault] is a memory error or an exhausted
      round count), its weakest precondition [wp] with the tactics [wp_steps],
      [wp_use], bounded loops ([for_up]).
    - XorCode.v: [XorEncode] (fec2/goodtp_fec2.cpp), in all four compile-time
      variants.
    - PacketHeader.v: [GTP_PACK_HEADER] (utils/goodtp_comstruct.h) as ten
      bytes of bit fields, the version conversion macros, the packet checks of
      interface/goodtp_interface.cpp.
    - PoolInterface.v: the class [PackPool] (allocate, add a reference,
      release) and its laws [PackPoolLaws]: what the clients of the pool rely
      on.  TranPool.v, TranPoolSpec.v: [TranMemPool] (tranmempool.h), its
      seven element pools with bitmap, reference counters and statistics, and
      the proof that it satisfies the class.
    - Reorder.v, ReorderSpec.v, ReorderRun.v: [ReorderClear], [ReorderFlush],
      [ReorderEnqueue] and the gap timer of [GtpSession]
      (session/goodtp_session.cpp); an abstract queue keyed by unbounded
      sequence numbers, the refinement to it, and runs.
    - The fec engine [GtpFec2] (fec2/, the matrices of
      utils/goodtp_comstruct.h, the code books of mgr/goodtp_mgr.cpp):
      FecGeometry.v (placement arithmetic), FecState.v (one record for the
      objects of the engine), FecBuffer.v ([Fec2Buffer]), FecEncode.v
      (sending half), FecDecode.v (receiving half).  The invariant is in
      FecInv.v; the correctness of the parts in FecBufferSpec.v,
      FecEncodeSpec.v, FecDecodeSpec.v, FecDecodeSafe.v; the abstract encoder
      in FecAbstract.v with FecBlock.v (whole blocks), FecRefused.v (refused
      allocations), FecEncodeRefine.v (refinement), FecProtect.v (protection
      of a block); FecLines.v (encoder and decoder agree on the lines),
      FecRecover.v (recovery), FecOverrun.v (the fault of a short buffer);
      FecTop.v (entry points), FecDemo.v (concrete surroundings for the
      instances).
    - Bitmap.v: words of 64 bits as a bitmap.  ItemPool.v: the class of a pool
      of equal items.  MemPool.v, MemPoolSpec.v: [GtpMemPool] (mempool/), which
      satisfies it.
    - The retransmission [GtpArq] (arq/goodtp_arq.cpp): ArqList.v (the
      intrusive list: [PopArqNode], [PushPack]), Arq.v (the operations),
      ArqSpec.v (the invariant and the walk of an acknowledgement), ArqAck.v
      (acknowledgements), ArqTimer.v (new packets, timer, clearing), ArqRun.v
      (the theorems about them and concrete surroundings).
    - The sliding windows [SlidWin] (slidwin/): Float32.v (single and double
      precision as rounded operations), SlidWinState.v (the members and the
      reports), SlidWin.v (entering, moving, the loss rates, repeated packets),
      SlidWinSend.v (what only a sender does: packets sent, acknowledgements,
      nacks), SlidWinRtt.v (round trip times, congestion, factors, timer).
      SlidWinScan.v: the ring and the search for missing packets;
      SlidWinSpec.v: a receiving window as the set of the numbers entered;
      SlidWinRun.v: the duplicate filter of the session; SlidWinSendSpec.v:
      the sender's search.  The model is that of the built configuration
      (APPLICATION_TYPE 2, a ring of 8192 positions, a window of 4096).
    - The session [GtpSession] (session/goodtp_session.cpp and .h), between the
      application and these parts: FloatWire.v (floats as bits), LinkStat.v
      (counters and rates), Frame.v (the header and its optional fields:
      [FramePrepHandler], and how the receiver reads them; FrameSpec.v,
      FrameRun.v), FrameSend.v ([GtpFrameSend], [PackRetransmit], control
      packets; FrameSendRun.v; SendRun.v: a sending session at work), Feedback.v ([WinSnBitmapCallback] and the
      reading of acks and nacks; FeedbackRun.v), Factor.v
      (session/goodtp_factorcalulation.cpp), Quality.v
      ([LinkQualityCallback], [CalcLossStd]; QualitySpec.v), SessRecv.v
      ([GtpPacketReceive], [PackPrepHandler], [PackPostHandler],
      [Fec2RestoreFrameReceive]; SessRecvRun.v), SessTimer.v ([TimerHandler]),
      SessRun.v (packets and ticks in any order), EndToEnd.v (a sender, the
      network and a receiver).
    - The instances (mgr/goodtp_mgr.cpp and .h): SessKey.v ([GtpSessionKey] of
      utils/goodtp_comstruct.h and how it is built from addresses), GoodTp.v
      (the class [SessionOps] of what an instance asks of its sessions, and the
      table of sessions: [GetSession], [BuildNewSession], [DelSpsSession], the
      wheel [CheckResourceActiveStatus], the destructor; GoodTpSpec.v), Mgr.v
      (the global manager: [CreateGtpInstance], [DeleteGtpInstance], handles,
      the errors of each thread, and the entry points of
      interface/goodtp_interface.cpp on a handle; MgrSpec.v), Entry.v (the first
      half of [GtpFrameSend] and [GtpPacketReceive], from the handle to the
      session; StreamKey.v: the packets of a stream with a key; EntrySpec.v).
      The table is a list: a new session in front, visited from the front; the
      code leaves the order to [unordered_map].

    Names of operations and fields are those of the C++ code; a field [x] of a
    record is updated by [put_x] or [set_x].

    ** What the theorems show

    - Recovery: [line_recovery] (a fec packet whose line misses one packet
      yields that packet, byte for byte), on [lines_agree] (the decoder walks
      the lines the encoder wrote) and [XorEncode_correct].
    - The encoder: [Encode_refines] (a step of the abstract encoder for every
      packet and every answer of the pool), [block_protection] (a whole block
      is covered by exactly one fec packet per line), [ChangeFecMode_spec],
      [fec2_ctor_ok], [PopAllPack_empties].
    - Safety of the decoder on packets with any fields, when data packets lie
      inside their buffers and those of fec packets have room for the largest
      packet: [Decode_safe], [CacheDataPack_safe], [ClearResource_safe]; in a
      shorter buffer the code writes past the end ([short_code_overruns]).
    - Reordering: [reorder_in_order], [ReorderEnqueue_refines],
      [ReorderEnqueue_no_loss], [gap_timer_drains], [ReorderClear_releases].
    - Buffers: [MallocTranBuf_new], [reference_counting], [PoolInit_ok],
      [remalloc_inside]; [remalloc_diverges] and [small_pool_overread] state
      two faults of the code.
    - The wire format: round trips of the header, exactness of the checks.
    - Retransmission: [ProcAck_spec] (acknowledged packets go, nothing else
      is lost), [CheckRtoRetran_spec] (what the timer does to every packet),
      [PacketEntryList_spec], [PopAllPack_releases], [ProcAck_width] (32 and 64
      bit machines agree); [ProcAck_overread] states a fault of the code.
    - Items: [MallocItem_new], [item_counting].
    - The filter: [filter_packet_exact] (a packet passes exactly when its number
      is in the window and new), [filter_once] (over whole deliveries), with
      the limits [filter_stuck] and [filter_wrap_wrong].
    - Loss rates: [CalcRcvLoss_keeps], [CalcSndLoss_ends] (both searches end
      inside their arrays), [nack_hangs_sender] (a peer can make the second one
      loop for ever), [SetRttUs_tolerances]; [block_word_by_lowest_bit] states
      what the sender makes of the bitmap of an ack.
    - Framing: [FramePrepHandler_roundtrip] (the receiver reads what was
      written), [frame_copies_agree] (so do all repetitions of a frame);
      [long_frame_cut] and [reliable_sort_sn_misread] state faults of the code.
    - Feedback: [feedback_roundtrip] (the packet holds what the window
      reported), with the fault [feedback_wrap_short].
    - Loss reports: [CalcLossStd_window], [quality_bounds], [switch_stays_off];
      [switch_reopens_at_wrap] and [one_loss_turns_bad] state what the code does
      instead of what it means.  [Factor1_total] (the factor of fec, in the
      default configuration), [Factor1_counts_empty].
    - The whole way: [end_to_end] (what the receiving application gets is a
      part of the frames the sending one handed over, in their order, under the
      conditions of [session_delivers_once]), from
      [frame_copies_agree], [session_delivers_once] and the reorder buffer.
    - The session: [session_delivers_once] (a running session hands every frame
      on at most once and in order, as long as the numbers stay near each other
      and the session is not reset), with the limits
      [retransmission_leaves_hole] and, as a run, [outage_delivers_twice];
      [Calc_second],
      [clock_sync_exact].
    - The entry points: [api_safe] (nine calls of an application, in any order,
      keep the invariant of the manager and never fault while the module is
      loaded; [unloaded_faults] otherwise), [stream_keeps_session] (over any
      traffic, the packets of a keyed stream reach one session, wherever they
      come from, until a timer or a call deletes it).
    - The instances: [same_flow_same_key] (a session is found by its flow),
      [GetSession_serves], [DelSpsSession_removes], [CheckResourceActiveStatus_sweeps]
      (no session is lost, leaked, ticked twice or forgotten),
      [CreateGtpInstance_handle], [DeleteGtpInstance_ends] (an instance lives
      under one handle, and ends with all its sessions), [error_info_read_once], [InsLoadGtpModule_ready]; the
      faults [GetLinkerQuality_blind] and [refused_creation_spoils].

    ** Bounds

    Every loop of the code is a [for_up] with the bound of the code, a
    structural recursion, or a recursion with a round count.  The counts are
    [TRY_FUEL] = 19 for the mutual recovery of lines by restored packets (every
    nested call follows the release of one of the 18 lines of the matrix), 1 for the jump back in [Encode], 16 for [ReorderFlush] (each
    round empties one of 16 slots).  Exhausting a count is a [fault], so every
    theorem that excludes faults shows that the count is enough.
    The loops of the arq count rounds: an acknowledgement passes or removes a
    node or counts a repetition of an 8-bit counter in each ([proc_list], 256
    rounds per node), the timer visits a node once and its early repetition
    once more ([CheckRtoRetran], two per node), clearing and removal by number
    visit each node once.  The search of [GtpMemPool] makes at most two rounds
    over its bitmap.  A list of the arq has fewer than 2^32 / 3 nodes.
    The buffers of the fec engine have a size, [fe_room]: what [XorEncode] reads
    and writes in them is checked against it ([xor_in_bounds]), and an access
    past the end is a fault.
    The searches of a window ([SCAN_FUEL] = 129) visit each of the 128 blocks of
    the ring once, unless they never end, which [nack_hangs_sender] states for
    every count; the binary searches halve at most 64 positions; clearing a part
    of the ring visits each entry at most once.
    The recursion of [Formula] (Factor.v) has the size of the ring as its count;
    every step moves one slot towards the head.
    [MallocTranBuf] inside a full buffer has no such count: its loop does not
    end, which [remalloc_diverges] states for every number of rounds.

    ** Parameters

    The engine calls its host through callbacks (hand a fec packet to the
    network, deliver a restored packet): the class [FecEnv], with the laws
    [FecEnvLaws] of FecInv.v (a callback may change its own world and
    take or drop its own references, never those of the engine).  FecDemo.v
    has a host that satisfies them.  The arq calls the session to rebuild and
    send a packet ([ArqEnv], [ArqEnvLaws] of ArqSpec.v: the packet stays in its
    buffer, its counter grows by one, its time is the time given; ArqRun.v has
    an instance), and is proved against [PackPool] and [ItemPool].  [fe_path] and [fe_sys_id] stand for the
    compile-time variant and the configured system id.
    The session calls the arq, the fec engine and the network.  FrameSend.v and
    SessRecv.v keep these calls in order as a trace; the packets the fec engine
    rebuilds while it is called, and what [Decode] answers, are arguments, and
    are handled where the callback runs.  A report of a window is kept until the
    operation of the window ends, and then handled ([heed] in SessTimer.v).  The
    time of the system, the width of a pointer and the alignment of the buffer
    are arguments; what the code leaves uninitialised on the stack or in an
    object is an argument too.

    ** Not modelled

    Log messages, text dumps ([Print...]) and system time (a parameter of the
    operations).  Threads: the code asks that one session is used by one
    thread.  The timeout recovery queue of the pool (TIMEOUT_FREE_SWITCH is
    0).  In the
    session, the text of its addresses, the read-out of the quality, the
    estimate before a session dies.  In the manager, texts, addresses as
    strings, the clock and the stack of a thread, and the entry points that
    only print or read counters; the lock around the creation and deletion of
    instances is taken to work.  The text dump of a window. The older src/src/win code is not compiled by any
    build file; socks5udpf, udp_echo and lib-demo-doc are programs around the
    library, with sockets and configuration files. *)
From Stdlib Require Export ZArith Lia.
From stdpp Require Export base tactics numbers option list gmap.

Global Open Scope Z_scope.

(** ** Machine integers

    A C++ unsigned integer of [w] bits is a [Z] in [0, 2^w); every arithmetic
    result is wrapped explicitly. *)
Definition wrap (w z : Z) : Z := z mod 2 ^ w.
Definition u8 (z : Z) : Z := z mod 256.
Definition u16 (z : Z) : Z := z mod 65536.
Definition u32 (z : Z) : Z := z mod 4294967296.
Definition u64 (z : Z) : Z := z mod 18446744073709551616.
Definition U32_MAX : Z := 4294967295.

(** Two's complement reading of a [w]-bit pattern. *)
Definition swrap (w z : Z) : Z :=
  let m := z mod 2 ^ w in if m <? 2 ^ (w - 1) then m else m - 2 ^ w.
Definition i16 (z : Z) : Z := swrap 16 z.
Definition i32 (z : Z) : Z := swrap 32 z.

Definition GTP_NO : Z := 0.
Definition GTP_YES : Z := 1.
Definition GTP_OK : Z := 0.

(** [GEN_ERR(module, errno)] of mgr/goodtp_mgr.h; [sys_id] is what the host
    configured with [GtpGetSysId]. *)
Definition GEN_ERR (sys_id md err : Z) : Z :=
  Z.lor (Z.lor (Z.land (u32 (Z.shiftl sys_id 24)) 0xff000000) (Z.land (Z.shiftl md 16) 0x00ff0000))
        (Z.land err 0x0000ffff).

(** A bit field of [n] bits at bit [lo] of the word [w], and its update. *)
Definition get_bits (w lo n : Z) : Z := Z.land (Z.shiftr w lo) (Z.ones n).
Definition set_bits (w lo n v : Z) : Z :=
  Z.lor (Z.ldiff w (Z.shiftl (Z.ones n) lo)) (Z.shiftl (Z.land v (Z.ones n)) lo).

Ltac u_range :=
  unfold u8, u16, u32, u64 in *;
  repeat match goal with
         | |- context [?a mod ?b] =>
             lazymatch goal with
             | _ : 0 <= a mod b < b |- _ => fail
             | _ => pose proof (Z.mod_pos_bound a b ltac:(lia))
             end
         | _ : context [?a mod ?b] |- _ =>
             lazymatch goal with
             | _ : 0 <= a mod b < b |- _ => fail
             | _ => pose proof (Z.mod_pos_bound a b ltac:(lia))
             end
         end;
  try lia.

Lemma u8_range z : 0 <= u8 z < 256.
Proof. u_range. Qed.
Lemma u16_range z : 0 <= u16 z < 65536.
Proof. u_range. Qed.
Lemma u32_range z : 0 <= u32 z < 4294967296.
Proof. u_range. Qed.
Lemma u8_small z : 0 <= z < 256 -> u8 z = z.
Proof. apply Z.mod_small. Qed.
Lemma u16_small z : 0 <= z < 65536 -> u16 z = z.
Proof. apply Z.mod_small. Qed.
Lemma u32_small z : 0 <= z < 4294967296 -> u32 z = z.
Proof. apply Z.mod_small. Qed.

Create HintDb udp.
#[export] Hint Resolve u8_range u16_range u32_range : udp.

(** Masks by [2^k - 1] are remainders. *)
Lemma land_mask (z k : Z) : 0 <= k -> Z.land z (2 ^ k - 1) = z mod 2 ^ k.
Proof.
  intros Hk. replace (2 ^ k - 1) with (Z.ones k) by (rewrite Z.ones_equiv; lia).
  by apply Z.land_ones.
Qed.

Lemma land_mask31 z : Z.land z 31 = z mod 32.
Proof. exact (land_mask z 5 ltac:(lia)). Qed.
Create Rewrite HintDb udp_rw.
#[export] Hint Rewrite land_mask31 : udp_rw.

(** ** Bytes, little-endian words *)
Definition byte_ok (b : Z) : Prop := 0 <= b < 256.
Definition bytes_ok (l : list Z) : Prop := Forall byte_ok l.

(** The value of a little-endian byte sequence, and its [n]-byte encoding. *)
Fixpoint le_val (l : list Z) : Z :=
  match l with
  | [] => 0
  | b :: l' => b + 256 * le_val l'
  end.

Fixpoint le_bytes (n : nat) (z : Z) : list Z :=
  match n with
  | O => []
  | S n' => z mod 256 :: le_bytes n' (z / 256)
  end.

(** A byte list is the known prefix of a memory block.  [mem_load n m off]
    reads [n] bytes at [off] (a byte past the known prefix reads as 0),
    [mem_store m off bs] writes the bytes [bs] at [off]. *)
Definition pad_to (n : nat) (l : list Z) : list Z := l ++ replicate (n - length l) 0.
Definition mem_load (n : nat) (m : list Z) (off : nat) : list Z :=
  pad_to n (take n (drop off m)).
Definition mem_store (m : list Z) (off : nat) (bs : list Z) : list Z :=
  take off (pad_to off m) ++ bs ++ drop (off + length bs) m.
Definition mem_byte (m : list Z) (off : nat) : Z := nth off m 0.
Definition load32 (m : list Z) (off : nat) : Z := le_val (mem_load 4 m off).

Lemma le_bytes_length n z : length (le_bytes n z) = n.
Proof. revert z; induction n as [|n IH]; intros z; [done|]; cbn. by rewrite IH. Qed.

Lemma le_bytes_ok n z : bytes_ok (le_bytes n z).
Proof.
  revert z; induction n as [|n IH]; intros z; constructor; [|apply IH].
  apply Z.mod_pos_bound; lia.
Qed.

Lemma le_val_bytes n z : le_val (le_bytes n z) = z mod 256 ^ Z.of_nat n.
Proof.
  revert z; induction n as [|n IH]; intros z.
  - cbn. by rewrite Z.mod_1_r.
  - cbn [le_val le_bytes]. rewrite IH, Nat2Z.inj_succ, Z.pow_succ_r by lia.
    rewrite Z.rem_mul_r by (try apply Z.pow_pos_nonneg; lia). lia.
Qed.

Lemma le_bytes_val l : bytes_ok l -> le_bytes (length l) (le_val l) = l.
Proof.
  induction 1 as [|b l Hb _ IH]; [done|]. unfold byte_ok in Hb. cbn [length le_bytes le_val].
  replace (b + 256 * le_val l) with (b + le_val l * 256) by lia.
  rewrite Z.mod_add, Z.div_add, Z.mod_small, Z.div_small by lia. f_equal. by rewrite Z.add_0_l.
Qed.

Lemma le_val_range l : bytes_ok l -> 0 <= le_val l < 256 ^ Z.of_nat (length l).
Proof.
  induction 1 as [|b l Hb _ IH]; [cbn; lia|]. unfold byte_ok in Hb.
  cbn [length le_val]. rewrite Nat2Z.inj_succ, Z.pow_succ_r by lia. lia.
Qed.

(** Bitwise exclusive or of two little-endian words acts byte by byte. *)
Lemma lxor_low_byte (a b q r : Z) :
  byte_ok a -> byte_ok b -> Z.lxor (a + 256 * q) (b + 256 * r) = Z.lxor a b + 256 * Z.lxor q r.
Proof.
  unfold byte_ok; intros Ha Hb.
  assert (Hdis : forall x y, 0 <= x < 256 -> x + 256 * y = Z.lor x (Z.shiftl y 8)).
  { intros x y Hx. rewrite Z.shiftl_mul_pow2 by lia. rewrite (Z.mul_comm y).
    change (2 ^ 8) with 256. rewrite <- Z.lxor_lor, <- Z.add_nocarry_lxor; [done| |];
    apply Z.bits_inj'; intros n Hn; rewrite Z.land_spec, Z.bits_0;
    (destruct (Z.ltb_spec n 8);
     [ change 256 with (2 ^ 8); rewrite Z.mul_comm, Z.mul_pow2_bits_low by lia; apply andb_false_r
     | rewrite <- (Z.mod_small x (2 ^ 8)) by lia; by rewrite Z.mod_pow2_bits_high by lia ]). }
  assert (Hx : 0 <= Z.lxor a b < 256).
  { split; [apply Z.lxor_nonneg; lia|].
    assert (Z.lxor a b = Z.lxor a b mod 2 ^ 8) as ->; [|apply Z.mod_pos_bound; lia].
    apply Z.bits_inj'; intros n Hn. destruct (Z.ltb_spec n 8).
    - by rewrite Z.mod_pow2_bits_low by lia.
    - rewrite Z.mod_pow2_bits_high by lia. rewrite Z.lxor_spec.
      rewrite <- (Z.mod_small a (2 ^ 8)), <- (Z.mod_small b (2 ^ 8)) by lia.
      by rewrite !Z.mod_pow2_bits_high by lia. }
  rewrite !Hdis by done. apply Z.bits_inj'; intros n Hn.
  rewrite Z.lxor_spec, !Z.lor_spec, !Z.lxor_spec.
  destruct (Z.ltb_spec n 8).
  - rewrite !Z.shiftl_spec_low by lia. by rewrite !orb_false_r.
  - rewrite !Z.shiftl_spec by lia. rewrite Z.lxor_spec.
    rewrite <- (Z.mod_small a (2 ^ 8)), <- (Z.mod_small b (2 ^ 8)) by lia.
    by rewrite !Z.mod_pow2_bits_high by lia.
Qed.

Lemma byte_ok_lxor a b : byte_ok a -> byte_ok b -> byte_ok (Z.lxor a b).
Proof.
  unfold byte_ok; intros Ha Hb. split; [apply Z.lxor_nonneg; lia|].
  assert (Z.lxor a b = Z.lxor a b mod 2 ^ 8) as ->; [|apply Z.mod_pos_bound; lia].
  apply Z.bits_inj'; intros n Hn. destruct (Z.ltb_spec n 8).
  - by rewrite Z.mod_pow2_bits_low by lia.
  - rewrite Z.mod_pow2_bits_high by lia. rewrite Z.lxor_spec.
    rewrite <- (Z.mod_small a (2 ^ 8)), <- (Z.mod_small b (2 ^ 8)) by lia.
    by rewrite !Z.mod_pow2_bits_high by lia.
Qed.
#[export] Hint Resolve byte_ok_lxor : udp.

Lemma le_val_lxor l k :
  length l = length k -> bytes_ok l -> bytes_ok k ->
  le_val (zip_with Z.lxor l k) = Z.lxor (le_val l) (le_val k).
Proof.
  intros Hlen Hl. revert k Hlen. induction Hl as [|a l Ha Hl IH]; intros [|b k] Hlen Hk;
    try done; simpl in Hlen. inversion_clear Hk as [|?? Hb Hk'].
  cbn [zip_with le_val]. rewrite IH by (done || lia). by rewrite lxor_low_byte.
Qed.

(** ** A state monad with faults

    Stateful code is a function [S -> option (A * S)]; [None] is a fault: a
    null or out-of-range access, or a loop that exceeds its bound.  A theorem
    [wp m Q s] therefore says at once that [m] returns from [s] without a
    fault and that its result and final state satisfy [Q]. *)
Definition ST (S A : Type) : Type := S -> option (A * S).

Section StateMonad.
Context {S : Type}.

#[global] Instance ST_ret : MRet (ST S) := fun A a s => Some (a, s).
#[global] Instance ST_bind : MBind (ST S) := fun A B f m s =>
  match m s with
  | Some (a, s') => f a s'
  | None => None
  end.

Definition fault {A} : ST S A := fun _ => None.
Definition get_st : ST S S := fun s => Some (s, s).
Definition mod_st (f : S -> S) : ST S unit := fun s => Some (tt, f s).
(** Dereference: the value of an option, a fault on [None]. *)
Definition deref {A} (o : option A) : ST S A := fun s =>
  match o with Some a => Some (a, s) | None => None end.
Definition when (b : bool) (m : ST S unit) : ST S unit := if b then m else mret tt.

(** [for_up n f a]: the body [f] run [n] times on an accumulator. *)
Fixpoint for_up {A} (n : nat) (f : A -> ST S A) (a : A) : ST S A :=
  match n with
  | O => mret a
  | Datatypes.S n' => a' ← f a; for_up n' f a'
  end.

(** [while_fuel n c f a]: a loop with its condition; more than [n] rounds is
    a fault. *)
Fixpoint while_fuel {A} (n : nat) (c : A -> bool) (f : A -> ST S A) (a : A) : ST S A :=
  if c a then
    match n with
    | O => fault
    | Datatypes.S n' => a' ← f a; while_fuel n' c f a'
    end
  else mret a.

Definition wp {A} (m : ST S A) (Q : A -> S -> Prop) (s : S) : Prop :=
  match m s with Some (a, s') => Q a s' | None => False end.

Lemma wp_ret {A} (a : A) Q s : Q a s -> wp (mret a) Q s.
Proof. done. Qed.
Lemma wp_bind {A B} (m : ST S A) (f : A -> ST S B) Q s :
  wp m (fun a s' => wp (f a) Q s') s -> wp (m ≫= f) Q s.
Proof.
  unfold wp, mbind, ST_bind. by destruct (m s) as [[a s']|].
Qed.
Lemma wp_mono {A} (m : ST S A) (Q Q' : A -> S -> Prop) s :
  wp m Q s -> (forall a s', Q a s' -> Q' a s') -> wp m Q' s.
Proof. unfold wp. destruct (m s) as [[a s']|]; auto. Qed.

(** [m] faults in [s]: at once, or after a part that runs. *)
Definition faults {A} (m : ST S A) (s : S) : Prop := m s = None.
Lemma faults_here {A B} (m : ST S A) (f : A -> ST S B) s : faults m s -> faults (m ≫= f) s.
Proof. unfold faults, mbind, ST_bind. by intros ->. Qed.
Lemma faults_after {A B} (m : ST S A) (f : A -> ST S B) s :
  wp m (fun a s' => faults (f a) s') s -> faults (m ≫= f) s.
Proof. unfold wp, faults, mbind, ST_bind. by destruct (m s) as [[a s']|]. Qed.
Lemma wp_get Q s : Q s s -> wp get_st Q s.
Proof. done. Qed.
Lemma wp_mod f Q s : Q tt (f s) -> wp (mod_st f) Q s.
Proof. done. Qed.
Lemma wp_deref {A} (o : option A) a Q s : o = Some a -> Q a s -> wp (deref o) Q s.
Proof. by intros ->. Qed.
Lemma wp_when (b : bool) m Q s :
  (b = true -> wp m Q s) -> (b = false -> Q tt s) -> wp (when b m) Q s.
Proof. destruct b; cbn; auto. Qed.
Lemma wp_if {A} (b : bool) (m1 m2 : ST S A) Q s :
  (b = true -> wp m1 Q s) -> (b = false -> wp m2 Q s) -> wp (if b then m1 else m2) Q s.
Proof. destruct b; auto. Qed.
(** Equal continuations. *)
Lemma bind_ext {A B} (m : ST S A) (f g : A -> ST S B) s : (forall a s', f a s' = g a s') -> (m ≫= f) s = (m ≫= g) s.
Proof. intros Hfg. unfold mbind, ST_bind. destruct (m s) as [[a s']|]; [apply Hfg|done]. Qed.
Lemma wp_total {A} (m : ST S A) Q s :
  wp m Q s -> exists a s', m s = Some (a, s') /\ Q a s'.
Proof. unfold wp. destruct (m s) as [[a s']|]; [eauto|done]. Qed.
Lemma wp_intro {A} (m : ST S A) (Q : A -> S -> Prop) s a s' :
  m s = Some (a, s') -> Q a s' -> wp m Q s.
Proof. unfold wp. by intros ->. Qed.
Lemma wp_conj {A} (m : ST S A) (Q1 Q2 : A -> S -> Prop) s :
  wp m Q1 s -> wp m Q2 s -> wp m (fun a s' => Q1 a s' /\ Q2 a s') s.
Proof. unfold wp. destruct (m s) as [[a s']|]; auto. Qed.

(** Loop rule: an invariant indexed by the number of rounds left. *)
Lemma wp_for {A} (I : nat -> A -> S -> Prop) n (f : A -> ST S A) a s :
  I n a s ->
  (forall k a s, I (Datatypes.S k) a s -> wp (f a) (I k) s) ->
  wp (for_up n f a) (I O) s.
Proof.
  intros HI Hstep. revert a s HI. induction n as [|n IH]; intros a s HI; cbn.
  - by apply wp_ret.
  - apply wp_bind. eapply wp_mono; [by apply Hstep|]. cbn. auto.
Qed.

Lemma wp_while {A} (I : A -> S -> Prop) (mu : A -> nat) n c (f : A -> ST S A) a s :
  I a s -> (mu a <= n)%nat ->
  (forall a s, I a s -> c a = true -> (0 < mu a)%nat /\
     wp (f a) (fun a' s' => I a' s' /\ (mu a' < mu a)%nat) s) ->
  wp (while_fuel n c f a) (fun a' s' => I a' s' /\ c a' = false) s.
Proof.
  intros HI Hmu Hstep. revert a s HI Hmu. induction n as [|n IH]; intros a s HI Hmu; cbn.
  - destruct (c a) eqn:Hc; [|by apply wp_ret].
    destruct (Hstep a s HI Hc) as [Hpos _]. lia.
  - destruct (c a) eqn:Hc; [|by apply wp_ret].
    destruct (Hstep a s HI Hc) as [Hpos Hf]. apply wp_bind.
    eapply wp_mono; [exact Hf|]. cbn. intros a' s' [HI' Hlt]. apply IH; [done|lia].
Qed.
End StateMonad.

(** One step of weakest-precondition reasoning. *)
Ltac wp_step :=
  lazymatch goal with
  | |- wp (mret _) _ _ => apply wp_ret
  | |- wp (_ ≫= _) _ _ => apply wp_bind
  | |- wp get_st _ _ => apply wp_get
  | |- wp (mod_st _) _ _ => apply wp_mod
  | |- wp (if true then ?a else _) ?Q ?s => change (wp a Q s)
  | |- wp (if false then _ else ?b) ?Q ?s => change (wp b Q s)
  | |- wp (when true ?a) ?Q ?s => change (wp a Q s)
  | |- wp (when false _) ?Q ?s => change (Q tt s)
  | |- wp (when _ _) _ _ => apply wp_when; intros
  | |- wp (if _ then _ else _) _ _ => apply wp_if; intros
  end.
Ltac wp_steps := cbn beta; repeat (wp_step; cbn beta).

(** Use a triple already proved for the operation at the head of the goal. *)
Tactic Notation "wp_use" uconstr(H) := eapply wp_mono; [eapply H|cbn beta].

(** ** Bit fields *)
Lemma get_bits_spec w lo n : 0 <= lo -> 0 <= n -> get_bits w lo n = (w / 2 ^ lo) mod 2 ^ n.
Proof. intros. unfold get_bits. by rewrite Z.land_ones, Z.shiftr_div_pow2. Qed.

Lemma get_bits_range w lo n : 0 <= lo -> 0 <= n -> 0 <= get_bits w lo n < 2 ^ n.
Proof. intros. rewrite get_bits_spec by done. apply Z.mod_pos_bound. lia. Qed.

Lemma testbit_ones_full n i : 0 <= n -> 0 <= i -> Z.testbit (Z.ones n) i = (i <? n).
Proof.
  intros Hn Hi. destruct (Z.ltb_spec i n).
  - by rewrite Z.ones_spec_low by lia.
  - by rewrite Z.ones_spec_high by lia.
Qed.

Lemma testbit_get_bits w lo n i :
  0 <= lo -> 0 <= n -> 0 <= i -> Z.testbit (get_bits w lo n) i = Z.testbit w (i + lo) && (i <? n).
Proof.
  intros. unfold get_bits. rewrite Z.land_spec, testbit_ones_full, Z.shiftr_spec by done. done.
Qed.

Lemma testbit_set_bits w lo n v i :
  0 <= lo -> 0 <= n -> 0 <= i ->
  Z.testbit (set_bits w lo n v) i =
    if (lo <=? i) && (i <? lo + n) then Z.testbit v (i - lo) else Z.testbit w i.
Proof.
  intros. unfold set_bits. rewrite Z.lor_spec, Z.ldiff_spec.
  destruct (Z.leb_spec lo i); cbn.
  - rewrite !Z.shiftl_spec by lia. rewrite Z.land_spec, testbit_ones_full by lia.
    destruct (Z.ltb_spec i (lo + n)); destruct (Z.ltb_spec (i - lo) n); try lia; cbn.
    + by rewrite andb_false_r, andb_true_r.
    + by rewrite !andb_false_r, andb_true_r, orb_false_r.
  - rewrite !Z.shiftl_spec_low by lia. cbn. by rewrite andb_true_r, orb_false_r.
Qed.

Lemma get_set_bits_same w lo n v :
  0 <= lo -> 0 <= n -> 0 <= v < 2 ^ n -> get_bits (set_bits w lo n v) lo n = v.
Proof.
  intros Hlo Hn Hv. apply Z.bits_inj'. intros i Hi.
  rewrite testbit_get_bits, testbit_set_bits by lia.
  destruct (Z.ltb_spec i n).
  - rewrite andb_true_r. destruct (Z.leb_spec lo (i + lo)), (Z.ltb_spec (i + lo) (lo + n)); try lia.
    cbn. f_equal. lia.
  - rewrite andb_false_r. rewrite <- (Z.mod_small v (2 ^ n)) by done.
    by rewrite Z.mod_pow2_bits_high by lia.
Qed.

Lemma get_set_bits_trunc w lo n v :
  0 <= lo -> 0 <= n -> get_bits (set_bits w lo n v) lo n = v mod 2 ^ n.
Proof.
  intros Hlo Hn. rewrite <- Z.land_ones by done.
  assert (set_bits w lo n v = set_bits w lo n (Z.land v (Z.ones n))) as ->.
  { unfold set_bits. rewrite <- (Z.land_assoc v), Z.land_diag. done. }
  apply get_set_bits_same; [done..|]. rewrite Z.land_ones by done. apply Z.mod_pos_bound. lia.
Qed.

Lemma get_set_bits_other w lo n v lo' n' :
  0 <= lo -> 0 <= n -> 0 <= lo' -> 0 <= n' -> lo + n <= lo' \/ lo' + n' <= lo ->
  get_bits (set_bits w lo n v) lo' n' = get_bits w lo' n'.
Proof.
  intros. apply Z.bits_inj'. intros i Hi. rewrite !testbit_get_bits, testbit_set_bits by lia.
  destruct (Z.ltb_spec i n'); [|by rewrite !andb_false_r]. rewrite !andb_true_r.
  destruct (Z.leb_spec lo (i + lo')), (Z.ltb_spec (i + lo') (lo + n)); try lia; done.
Qed.

(** Reduce reads of a word built by a chain of field updates. *)
Ltac bit_fields :=
  repeat first
    [ rewrite get_set_bits_same by lia
    | rewrite get_set_bits_other by lia ].

Definition some_b {A} (o : option A) : bool := match o with Some _ => true | None => false end.

(** ** Reference counting of pointers held in slots *)
Section Held.
Context {E : Type} `{EqDecision E}.

Definition ind (b : bool) : Z := if b then 1 else 0.

(** How often the pointer [e] occurs in a list of slots. *)
Fixpoint held_in (l : list (option E)) (e : E) : Z :=
  match l with
  | [] => 0
  | o :: l' => ind (bool_decide (o = Some e)) + held_in l' e
  end.

Lemma held_in_nonneg l e : 0 <= held_in l e.
Proof. induction l as [|o l IH]; cbn; [lia|]. unfold ind. case_bool_decide; lia. Qed.

Lemma held_in_length l e : held_in l e <= Z.of_nat (length l).
Proof. induction l as [|o l IH]; cbn [held_in length]; [lia|]. unfold ind. case_bool_decide; lia. Qed.

Lemma held_in_app l k e : held_in (l ++ k) e = held_in l e + held_in k e.
Proof. induction l as [|o l IH]; cbn; [done|]. rewrite IH. lia. Qed.

Lemma held_in_insert l i o n e :
  l !! i = Some o ->
  held_in (<[i := n]> l) e =
    held_in l e - ind (bool_decide (o = Some e)) + ind (bool_decide (n = Some e)).
Proof.
  revert i. induction l as [|x l IH]; intros [|i] Hi; try done; simpl in Hi |- *.
  - simplify_eq. lia.
  - rewrite (IH i Hi). lia.
Qed.

Lemma held_in_pos l i e : l !! i = Some (Some e) -> 0 < held_in l e.
Proof.
  revert i. induction l as [|x l IH]; intros [|i] Hi; try done; cbn in Hi |- *.
  - simplify_eq. rewrite bool_decide_true by done. pose proof (held_in_nonneg l e). cbn; lia.
  - specialize (IH i Hi). unfold ind. case_bool_decide; lia.
Qed.

Lemma held_in_lookup l e : 0 < held_in l e -> exists i, l !! i = Some (Some e).
Proof.
  induction l as [|o l IH]; cbn [held_in]; [lia|].
  destruct (decide (o = Some e)) as [->|Hne]; [by exists O|]. rewrite bool_decide_false by done.
  intros Hp. destruct IH as [i Hi]; [exact Hp|]. by exists (S i).
Qed.

Lemma held_in_replicate n e : held_in (replicate n None) e = 0.
Proof. induction n; cbn; [done|]. rewrite bool_decide_false by done. done. Qed.

Lemma held_in_zero l e : held_in l e = 0 -> forall i, l !! i <> Some (Some e).
Proof. intros Hz i Hi. pose proof (held_in_pos l i e Hi). lia. Qed.
End Held.

(** ** List lemmas *)
Lemma zip_with_replicate_zero_r (l : list Z) n :
  length l = n -> zip_with Z.lxor l (replicate n 0) = l.
Proof.
  intros <-. induction l as [|a l IH]; cbn; [done|]. by rewrite Z.lxor_0_r, IH.
Qed.

Lemma pad_to_length n l : length (pad_to n l) = Nat.max n (length l).
Proof. unfold pad_to. rewrite length_app, length_replicate. lia. Qed.

Lemma pad_to_id n l : (n <= length l)%nat -> pad_to n l = l.
Proof. intros H. unfold pad_to. replace (n - length l)%nat with O by lia. apply app_nil_r. Qed.

Lemma bytes_ok_replicate n : bytes_ok (replicate n 0).
Proof. apply Forall_replicate. unfold byte_ok; lia. Qed.
Lemma bytes_ok_pad n l : bytes_ok l -> bytes_ok (pad_to n l).
Proof. intros. apply Forall_app; split; [done|apply bytes_ok_replicate]. Qed.
#[export] Hint Resolve bytes_ok_replicate bytes_ok_pad : udp.

Lemma lookup_Z_range {A} (l : list A) (i : Z) (n : nat) :
  length l = n -> 0 <= i < Z.of_nat n -> is_Some (l !! Z.to_nat i).
Proof. intros Hl Hi. apply lookup_lt_is_Some_2. lia. Qed.

(** ** Memory lemmas: every access is characterised byte by byte *)
Lemma nth_replicate_Z n i : nth i (replicate n 0) 0 = 0.
Proof. revert i; induction n as [|n IH]; intros [|i]; cbn; auto. Qed.

Lemma nth_pad n l i : nth i (pad_to n l) 0 = nth i l 0.
Proof.
  unfold pad_to. destruct (Nat.lt_ge_cases i (length l)) as [H|H].
  - by rewrite app_nth1.
  - rewrite app_nth2, nth_overflow with (l := l) by done. apply nth_replicate_Z.
Qed.

Lemma mem_load_length n m off : length (mem_load n m off) = n.
Proof. unfold mem_load. rewrite pad_to_length, length_take, length_drop. lia. Qed.

Lemma nth_take_Z n (l : list Z) i : (i < n)%nat -> nth i (take n l) 0 = nth i l 0.
Proof. revert n l; induction i as [|i IH]; intros [|n] [|x l] H; cbn; try lia; auto with lia. Qed.
Lemma nth_drop_Z n (l : list Z) i : nth i (drop n l) 0 = nth (n + i) l 0.
Proof. revert l; induction n as [|n IH]; intros [|x l]; cbn; auto. by destruct i. Qed.

Lemma mem_load_byte n m off i : (i < n)%nat -> nth i (mem_load n m off) 0 = mem_byte m (off + i).
Proof. intros H. unfold mem_load, mem_byte. by rewrite nth_pad, nth_take_Z, nth_drop_Z. Qed.

Lemma mem_byte_store m off bs i :
  mem_byte (mem_store m off bs) i =
    if decide (off <= i < off + length bs)%nat then nth (i - off) bs 0 else mem_byte m i.
Proof.
  unfold mem_byte, mem_store.
  assert (Hl : length (take off (pad_to off m)) = off)
    by (rewrite length_take, pad_to_length; lia).
  case_decide as H.
  - rewrite app_nth2 by lia. rewrite Hl, app_nth1 by lia. done.
  - destruct (Nat.lt_ge_cases i off).
    + rewrite app_nth1 by lia. rewrite nth_take_Z by lia. apply nth_pad.
    + rewrite app_nth2, Hl by lia. rewrite app_nth2 by lia. rewrite nth_drop_Z. f_equal. lia.
Qed.

Lemma nth_eq_Z (l k : list Z) :
  length l = length k -> (forall i, (i < length l)%nat -> nth i l 0 = nth i k 0) -> l = k.
Proof. intros Hl H. apply (nth_ext l k 0 0 Hl H). Qed.

Lemma mem_load_ext n m m' off off' :
  (forall i, (i < n)%nat -> mem_byte m (off + i) = mem_byte m' (off' + i)) ->
  mem_load n m off = mem_load n m' off'.
Proof.
  intros H. apply nth_eq_Z; rewrite !mem_load_length; [done|].
  intros i Hi. rewrite !mem_load_byte by done. auto.
Qed.

Lemma nth_zip_lxor (l k : list Z) i :
  length l = length k -> nth i (zip_with Z.lxor l k) 0 = Z.lxor (nth i l 0) (nth i k 0).
Proof.
  revert k i; induction l as [|a l IH]; intros [|b k] [|i] Hl; simpl in *; try done; auto with lia.
Qed.

Lemma bytes_ok_nth l i : bytes_ok l -> byte_ok (nth i l 0).
Proof.
  intros H. destruct (nth_in_or_default i l 0) as [Hin| ->]; [|unfold byte_ok; lia].
  by apply (proj1 (List.Forall_forall _ _) H).
Qed.

Lemma bytes_ok_of_nth l : (forall i, (i < length l)%nat -> byte_ok (nth i l 0)) -> bytes_ok l.
Proof.
  intros H. apply List.Forall_forall. intros x Hx.
  destruct (In_nth l x 0 Hx) as (i & Hi & <-). auto.
Qed.

Lemma bytes_ok_load n m off : bytes_ok m -> bytes_ok (mem_load n m off).
Proof.
  intros H. apply bytes_ok_of_nth. rewrite mem_load_length. intros i Hi.
  rewrite mem_load_byte by done. by apply bytes_ok_nth.
Qed.

Lemma mem_store_length m off bs :
  length (mem_store m off bs) = Nat.max (off + length bs) (length m).
Proof.
  unfold mem_store. rewrite !length_app, length_take, pad_to_length, length_drop. lia.
Qed.

Lemma bytes_ok_store m off bs : bytes_ok m -> bytes_ok bs -> bytes_ok (mem_store m off bs).
Proof.
  intros Hm Hb. apply bytes_ok_of_nth. intros i _.
  change (nth i (mem_store m off bs) 0) with (mem_byte (mem_store m off bs) i).
  rewrite mem_byte_store. case_decide; by apply bytes_ok_nth.
Qed.
#[export] Hint Resolve bytes_ok_load bytes_ok_store bytes_ok_nth : udp.

Lemma load32_range m off : bytes_ok m -> 0 <= load32 m off < 4294967296.
Proof.
  intros H. unfold load32. pose proof (le_val_range _ (bytes_ok_load 4 m off H)) as Hr.
  rewrite mem_load_length in Hr. exact Hr.
Qed.

Lemma GEN_ERR_nonzero sys_id md err : Z.land err 0xffff <> 0 -> GEN_ERR sys_id md err <> GTP_OK.
Proof. unfold GEN_ERR, GTP_OK. intros He H. apply Z.lor_eq_0_iff in H. tauto. Qed.
