(* ===== verification/XorCode.v ===== *)
(** * The exclusive-or code: [XorEncode] (src/src/fec2/goodtp_fec2.cpp)

    The C++ routine is compiled in one of four variants that process 16, 8 or
    4 bytes per iteration and finish the rest byte by byte.  This file models
    every variant on memory blocks and shows that they all compute the padded
    bytewise exclusive or of the two packets. *)
From S2P Require Import Prelude.

Module XorCode.

(** The compile-time variants of the vector loop and their word width. *)
Inductive XorPath := PathSse2 | PathNeon | PathWord64 | PathWord32.

Definition path_width (p : XorPath) : nat :=
  match p with
  | PathSse2 | PathNeon => 16
  | PathWord64 => 8
  | PathWord32 => 4
  end.

(** [memset(m + off, 0, n)] *)
Definition memset0 (m : list Z) (off n : nat) : list Z := mem_store m off (replicate n 0).

(** [code_ptr[k] ^= data_ptr[k]] on words of [w] bytes. *)
Definition xor_word (w : nat) (data code : list Z) (k : nat) : list Z :=
  mem_store code (k * w)
    (le_bytes w (Z.lxor (le_val (mem_load w code (k * w))) (le_val (mem_load w data (k * w))))).

(** The word loop: [for (nloop = 0; nloop < n; ++nloop)]. *)
Fixpoint xor_words (w : nat) (data code : list Z) (nloop n : nat) : list Z :=
  match n with
  | O => code
  | S n' => xor_words w data (xor_word w data code nloop) (S nloop) n'
  end.

(** The tail: [while (data_size > encoded_num) code[encoded_num] ^= data[encoded_num]]. *)
Fixpoint xor_tail (data code : list Z) (encoded_num n : nat) : list Z :=
  match n with
  | O => code
  | S n' =>
      xor_tail data
        (mem_store code encoded_num [Z.lxor (mem_byte code encoded_num) (mem_byte data encoded_num)])
        (S encoded_num) n'
  end.

(** The result memory of [code] and [*out_coded_size]. *)
Definition XorEncode (p : XorPath) (data : list Z) (data_size : Z)
    (code : list Z) (code_size : Z) : list Z * Z :=
  let (result_size, code0) :=
    if data_size >? code_size then
      (data_size, memset0 code (Z.to_nat code_size) (Z.to_nat (data_size - code_size)))
    else if data_size <? code_size then (code_size, code)
    else (data_size, code) in
  let w := path_width p in
  let loops := (Z.to_nat data_size / w)%nat in
  let encoded_num := (loops * w)%nat in
  let code1 := xor_words w data code0 O loops in
  (xor_tail data code1 encoded_num (Z.to_nat data_size - encoded_num), result_size).

(** ** Specification *)

(** The exclusive or of two packets, the shorter one extended with zeros. *)
Definition xor_pad (a b : list Z) : list Z :=
  let n := Nat.max (length a) (length b) in
  zip_with Z.lxor (pad_to n a) (pad_to n b).

#[global] Arguments xor_pad : simpl never.

(** The parity of a list of packets. *)
Definition parity (ps : list (list Z)) : list Z := foldr xor_pad [] ps.
#[global] Arguments parity : simpl never.

(** ** Lemmas *)

(** What one pass of a loop does to each byte: [code] is xored with [data] on
    the range [lo, hi) and is left alone elsewhere. *)
Definition xored_on (lo hi : nat) (data code code' : list Z) : Prop :=
  forall i, mem_byte code' i =
    if decide (lo <= i < hi)%nat then Z.lxor (mem_byte code i) (mem_byte data i)
    else mem_byte code i.

Lemma xored_on_refl lo data code : xored_on lo lo data code code.
Proof. intros i. case_decide; [lia|done]. Qed.

Lemma xored_on_trans lo mid hi data c1 c2 c3 :
  (lo <= mid <= hi)%nat ->
  xored_on lo mid data c1 c2 -> xored_on mid hi data c2 c3 -> xored_on lo hi data c1 c3.
Proof.
  intros Hm H1 H2 i. rewrite H2, H1. repeat case_decide; try done; lia.
Qed.

Lemma xor_word_spec w data code k :
  bytes_ok data -> bytes_ok code ->
  bytes_ok (xor_word w data code k) /\
  xored_on (k * w) (S k * w) data code (xor_word w data code k).
Proof.
  intros Hd Hc. unfold xor_word.
  rewrite <- le_val_lxor by (rewrite ?mem_load_length; auto with udp).
  set (z := zip_with _ _ _).
  assert (Hz : length z = w) by (unfold z; rewrite length_zip_with, !mem_load_length; lia).
  assert (Hzn : forall i, (i < w)%nat -> nth i z 0 = Z.lxor (mem_byte code (k * w + i)) (mem_byte data (k * w + i))).
  { intros i Hi. unfold z. rewrite nth_zip_lxor by (rewrite !mem_load_length; done).
    by rewrite !mem_load_byte by done. }
  assert (Hzok : bytes_ok z).
  { apply bytes_ok_of_nth. rewrite Hz. intros i Hi. rewrite Hzn by done.
    apply byte_ok_lxor; by apply bytes_ok_nth. }
  replace (le_bytes w (le_val z)) with z by (rewrite <- Hz at 1; by rewrite le_bytes_val).
  split; [by apply bytes_ok_store|]. intros i. rewrite mem_byte_store, Hz.
  repeat case_decide; try done; try lia. rewrite Hzn by lia. by replace (k * w + (i - k * w))%nat with i by lia.
Qed.

Lemma xor_words_spec w data code k n :
  bytes_ok data -> bytes_ok code ->
  bytes_ok (xor_words w data code k n) /\
  xored_on (k * w) ((k + n) * w) data code (xor_words w data code k n).
Proof.
  intros Hd. revert code k. induction n as [|n IH]; intros code k Hc; cbn [xor_words].
  - rewrite Nat.add_0_r. split; [done|]. apply xored_on_refl.
  - destruct (xor_word_spec w data code k Hd Hc) as [Hok Hx].
    destruct (IH _ (S k) Hok) as [Hok' Hx']. split; [done|].
    replace (k + S n)%nat with (S k + n)%nat by lia.
    eapply xored_on_trans; [|exact Hx|exact Hx']. nia.
Qed.

Lemma xor_tail_spec data code k n :
  bytes_ok data -> bytes_ok code ->
  bytes_ok (xor_tail data code k n) /\ xored_on k (k + n) data code (xor_tail data code k n).
Proof.
  intros Hd. revert code k. induction n as [|n IH]; intros code k Hc; cbn [xor_tail].
  - rewrite Nat.add_0_r. split; [done|]. apply xored_on_refl.
  - set (c1 := mem_store _ _ _).
    assert (Hok : bytes_ok c1).
    { apply bytes_ok_store; [done|]. constructor; [|constructor].
      apply byte_ok_lxor; by apply bytes_ok_nth. }
    destruct (IH c1 (S k) Hok) as [Hok' Hx']. split; [done|].
    replace (k + S n)%nat with (S k + n)%nat by lia.
    eapply xored_on_trans; [| |exact Hx']; [lia|].
    intros i. unfold c1. rewrite mem_byte_store; cbn [length].
    repeat case_decide; try done; try lia. by replace i with k by lia; rewrite Nat.sub_diag.
Qed.

(** The memory [code] as the word loop finds it. *)
Definition xor_start (data_size : Z) (code : list Z) (code_size : Z) : list Z :=
  if data_size >? code_size then
    memset0 code (Z.to_nat code_size) (Z.to_nat (data_size - code_size))
  else code.

Lemma XorEncode_bytes p data data_size code code_size :
  bytes_ok data -> bytes_ok code ->
  let (code', out) := XorEncode p data data_size code code_size in
  out = Z.max data_size code_size /\ bytes_ok code' /\
  xored_on 0 (Z.to_nat data_size) data (xor_start data_size code code_size) code'.
Proof.
  intros Hd Hc. unfold XorEncode, xor_start.
  set (c0 := if data_size >? code_size then memset0 code (Z.to_nat code_size)
               (Z.to_nat (data_size - code_size)) else code).
  assert (Hc0 : bytes_ok c0).
  { unfold c0. destruct (data_size >? code_size); [|done]. by apply bytes_ok_store; auto with udp. }
  set (n := Z.to_nat data_size). set (w := path_width p).
  assert (Hw : (n / w * w <= n)%nat)
    by (rewrite Nat.mul_comm; apply Nat.Div0.mul_div_le).
  assert (Hgoal : bytes_ok (xor_tail data (xor_words w data c0 0 (n / w)) (n / w * w) (n - n / w * w)) /\
     xored_on 0 n data c0 (xor_tail data (xor_words w data c0 0 (n / w)) (n / w * w) (n - n / w * w))).
  { destruct (xor_words_spec w data c0 0 (n / w) Hd Hc0) as [Hok Hx].
    destruct (xor_tail_spec data _ (n / w * w) (n - n / w * w) Hd Hok) as [Hok' Hx'].
    split; [done|].
    replace (n / w * w + (n - n / w * w))%nat with n in Hx' by lia.
    eapply xored_on_trans; [|exact Hx|exact Hx']. lia. }
  unfold c0 in *. destruct (data_size >? code_size) eqn:E1; [|destruct (data_size <? code_size) eqn:E2];
    (split; [lia|exact Hgoal]).
Qed.

(** *** The algebra of padded exclusive or *)
Lemma xor_pad_length a b : length (xor_pad a b) = Nat.max (length a) (length b).
Proof. unfold xor_pad. rewrite length_zip_with, !pad_to_length. lia. Qed.

Lemma nth_xor_pad a b i : nth i (xor_pad a b) 0 = Z.lxor (nth i a 0) (nth i b 0).
Proof. unfold xor_pad. rewrite nth_zip_lxor by (rewrite !pad_to_length; lia). by rewrite !nth_pad. Qed.

Lemma xor_pad_comm a b : xor_pad a b = xor_pad b a.
Proof.
  apply nth_eq_Z; rewrite !xor_pad_length; [lia|]. intros i _. rewrite !nth_xor_pad. apply Z.lxor_comm.
Qed.

Lemma xor_pad_assoc a b c : xor_pad a (xor_pad b c) = xor_pad (xor_pad a b) c.
Proof.
  apply nth_eq_Z; rewrite !xor_pad_length; [lia|]. intros i _. rewrite !nth_xor_pad.
  symmetry; apply Z.lxor_assoc.
Qed.

Lemma xor_pad_nil_l a : xor_pad [] a = a.
Proof.
  apply nth_eq_Z; rewrite !xor_pad_length; [done|]. intros i _. rewrite nth_xor_pad.
  replace (nth i [] 0) with 0 by (by destruct i). apply Z.lxor_0_l.
Qed.
Lemma xor_pad_nil_r a : xor_pad a [] = a.
Proof. rewrite xor_pad_comm. apply xor_pad_nil_l. Qed.

(** Adding a packet twice leaves only its length behind. *)
Lemma xor_pad_cancel a b : xor_pad (xor_pad a b) b = pad_to (Nat.max (length a) (length b)) a.
Proof.
  apply nth_eq_Z; rewrite !xor_pad_length, ?pad_to_length; [lia|]. intros i _.
  rewrite !nth_xor_pad, nth_pad, Z.lxor_assoc, Z.lxor_nilpotent. apply Z.lxor_0_r.
Qed.

Lemma parity_nil : parity [] = [].
Proof. done. Qed.
Lemma parity_cons a l : parity (a :: l) = xor_pad a (parity l).
Proof. done. Qed.

Lemma parity_app l k : parity (l ++ k) = xor_pad (parity l) (parity k).
Proof.
  induction l as [|a l IH]; cbn; [by rewrite xor_pad_nil_l|]. rewrite !parity_cons, IH. apply xor_pad_assoc.
Qed.

Lemma parity_snoc l a : parity (l ++ [a]) = xor_pad (parity l) a.
Proof. rewrite parity_app, parity_cons, parity_nil. by rewrite xor_pad_nil_r. Qed.

Lemma parity_perm l k : Permutation l k -> parity l = parity k.
Proof.
  induction 1 as [|a l k _ IH|a b l|l k m _ IH1 _ IH2]; [done| | |congruence].
  - by rewrite !parity_cons, IH.
  - rewrite !parity_cons, !xor_pad_assoc. by rewrite (xor_pad_comm b a).
Qed.

Lemma parity_length_le a l : In a l -> (length a <= length (parity l))%nat.
Proof.
  induction l as [|b l IH]; [done|]. rewrite parity_cons, xor_pad_length. intros [->|H]; [lia|].
  specialize (IH H). lia.
Qed.

(** Erasure decoding: the parity of a set of packets, xored again with all but
    one of them, is the missing one padded to the length of the parity. *)
Lemma parity_recover x others :
  xor_pad (parity (x :: others)) (parity others) = pad_to (length (parity (x :: others))) x.
Proof. by rewrite parity_cons, xor_pad_cancel, xor_pad_length. Qed.

Lemma foldl_xor_pad l a : foldl xor_pad a l = xor_pad a (parity l).
Proof.
  revert a. induction l as [|b l IH]; intros a; cbn; [by rewrite parity_nil, xor_pad_nil_r|].
  rewrite IH, parity_cons. symmetry. apply xor_pad_assoc.
Qed.

Lemma bytes_ok_xor_pad a b : bytes_ok a -> bytes_ok b -> bytes_ok (xor_pad a b).
Proof.
  intros Ha Hb. apply bytes_ok_of_nth. intros i _. rewrite nth_xor_pad. apply byte_ok_lxor; auto with udp.
Qed.

Lemma bytes_ok_parity l : Forall bytes_ok l -> bytes_ok (parity l).
Proof. induction 1; [constructor|]. rewrite parity_cons. by apply bytes_ok_xor_pad. Qed.

(** What the code gets from [XorEncode], in the form its callers use. *)
Lemma XorEncode_code p data data_size code code_size code' out :
  0 <= data_size -> 0 <= code_size -> bytes_ok data -> bytes_ok code ->
  XorEncode p data data_size code code_size = (code', out) ->
  out = Z.max data_size code_size /\ bytes_ok code' /\
  mem_load (Z.to_nat out) code' 0 =
    xor_pad (mem_load (Z.to_nat code_size) code 0) (mem_load (Z.to_nat data_size) data 0).
Proof.
  intros Hds Hcs Hd Hc He. pose proof (XorEncode_bytes p data data_size code code_size Hd Hc) as H.
  rewrite He in H. destruct H as (-> & Hok & Hx). split; [done|]. split; [done|].
  apply nth_eq_Z; rewrite ?xor_pad_length, !mem_load_length; [lia|].
  intros i Hi. rewrite mem_load_byte, Nat.add_0_l, nth_xor_pad by lia.
  assert (Hn : forall n m, nth i (mem_load n m 0) 0 = if decide (i < n)%nat then mem_byte m i else 0).
  { intros n m. case_decide; [by rewrite mem_load_byte|].
    apply nth_overflow. rewrite mem_load_length. lia. }
  rewrite Hx, !Hn. unfold xor_start, memset0. destruct (data_size >? code_size) eqn:E.
  - rewrite mem_byte_store, length_replicate, nth_replicate_Z.
    repeat case_decide; try lia; by rewrite ?Z.lxor_0_l, ?Z.lxor_0_r.
  - repeat case_decide; try lia; by rewrite ?Z.lxor_0_l, ?Z.lxor_0_r.
Qed.

(** C31: whatever vector path the routine is compiled for, [XorEncode] leaves
    in [code] the exclusive or of the two packets, the shorter one extended
    with zeros, reports the larger of the two sizes, and changes no byte of
    the buffer past that size. *)
Theorem XorEncode_correct (p : XorPath) (data code : list Z) (data_size code_size : Z) :
  0 <= data_size -> 0 <= code_size -> bytes_ok data -> bytes_ok code ->
  let d := mem_load (Z.to_nat data_size) data 0 in
  let c := mem_load (Z.to_nat code_size) code 0 in
  let (code', out) := XorEncode p data data_size code code_size in
  out = Z.max data_size code_size /\
  mem_load (Z.to_nat out) code' 0 = xor_pad d c /\
  forall i, (Z.to_nat out <= i)%nat -> mem_byte code' i = mem_byte code i.
Proof.
  intros Hds Hcs Hd Hc. pose proof (XorEncode_bytes p data data_size code code_size Hd Hc) as H.
  cbv zeta. destruct (XorEncode p data data_size code code_size) as [code' out] eqn:He.
  destruct H as (-> & _ & Hx).
  assert (Hstart : forall i, mem_byte (xor_start data_size code code_size) i =
    if decide (Z.to_nat code_size <= i < Z.to_nat data_size)%nat then 0 else mem_byte code i).
  { intros i. unfold xor_start, memset0. destruct (data_size >? code_size) eqn:E.
    - rewrite mem_byte_store, length_replicate. repeat case_decide; try done; try lia.
      apply nth_replicate_Z.
    - case_decide; [lia|done]. }
  split; [done|]. split.
  - rewrite xor_pad_comm. by destruct (XorEncode_code p _ _ _ _ _ _ Hds Hcs Hd Hc He) as (_ & _ & ->).
  - intros i Hi. rewrite Hx, Hstart. repeat case_decide; try lia; done.
Qed.

Example XorEncode_correct_witness :
  let (code', out) := XorEncode PathWord32 [1;2;3;4;5;6] 6 [255;1] 2 in
  out = 6 /\ mem_load 6 code' 0 = [254;3;3;4;5;6] /\
  forall i, (6 <= i)%nat -> mem_byte code' i = mem_byte [255;1] i.
Proof.
  apply (XorEncode_correct PathWord32 [1;2;3;4;5;6] [255;1] 6 2);
    [lia|lia|repeat (constructor; [unfold byte_ok; lia|]); constructor
    |repeat (constructor; [unfold byte_ok; lia|]); constructor].
Defined.

End XorCode.
