(* ===== verification/Bitmap.v ===== *)
(** * Bitmaps of 64-bit words

    The buffer pool and the item pool mark their used elements in an array of
    64-bit words, element [i] in bit [i mod 64] of word [i / 64]. *)
From S2P Require Import Prelude.

Module Bitmap.

Definition bit_of (bm : list Z) (i : Z) : bool :=
  match bm !! Z.to_nat (i / 64) with Some w => Z.testbit w (i mod 64) | None => false end.

Lemma words_insert bm i w :
  Forall (fun w => 0 <= w < 2 ^ 64) bm -> 0 <= w < 2 ^ 64 -> Forall (fun w => 0 <= w < 2 ^ 64) (<[i := w]> bm).
Proof. intros. by apply Forall_insert. Qed.

Lemma testbit_word w i : 0 <= w < 2 ^ 64 -> 64 <= i -> Z.testbit w i = false.
Proof. intros Hw Hi. rewrite <- (Z.mod_small w (2 ^ 64)) by done. apply Z.mod_pow2_bits_high. lia. Qed.

Lemma word_range w : (forall i, 64 <= i -> Z.testbit w i = false) -> 0 <= w -> 0 <= w < 2 ^ 64.
Proof.
  intros Hb Hw. split; [done|]. assert (w = w mod 2 ^ 64) as ->; [|apply Z.mod_pos_bound; lia].
  apply Z.bits_inj'. intros n Hn. destruct (Z.ltb_spec n 64).
  - by rewrite Z.mod_pow2_bits_low.
  - rewrite Z.mod_pow2_bits_high by lia. by apply Hb.
Qed.

Lemma word_lor w j : 0 <= w < 2 ^ 64 -> 0 <= j < 64 -> 0 <= Z.lor w (2 ^ j) < 2 ^ 64.
Proof.
  intros Hw Hj. apply word_range; [|apply Z.lor_nonneg; lia]. intros i Hi.
  rewrite Z.lor_spec, testbit_word, Z.pow2_bits_false by lia. done.
Qed.
Lemma word_ldiff w v : 0 <= w < 2 ^ 64 -> 0 <= Z.ldiff w v < 2 ^ 64.
Proof.
  intros Hw. apply word_range; [|apply Z.ldiff_nonneg; lia]. intros i Hi.
  by rewrite Z.ldiff_spec, testbit_word by lia.
Qed.

(** A word with a set bit changes exactly that bit of the map. *)
Lemma bit_of_insert bm k w j b i :
  0 <= k -> 0 <= j < 64 -> 0 <= i -> bm !! Z.to_nat k = Some w ->
  bit_of (<[Z.to_nat k := if b : bool then Z.lor w (2 ^ j) else Z.ldiff w (2 ^ j)]> bm) i =
    if i =? 64 * k + j then b else bit_of bm i.
Proof.
  intros Hk Hj Hi Hw. unfold bit_of.
  pose proof (Z.div_mod i 64 ltac:(lia)) as Hdm. pose proof (Z.mod_pos_bound i 64 ltac:(lia)) as Hm.
  pose proof (Z.div_pos i 64 ltac:(lia) ltac:(lia)) as Hd.
  destruct (decide (i / 64 = k)) as [He|Hne].
  - rewrite He, list_lookup_insert_eq by (by eapply lookup_lt_Some). rewrite Hw.
    assert ((i =? 64 * k + j) = (j =? i mod 64)) as -> by lia.
    destruct b; [rewrite Z.lor_spec|rewrite Z.ldiff_spec]; rewrite Z.pow2_bits_eqb by lia;
      destruct (j =? i mod 64), (Z.testbit w (i mod 64)); done.
  - rewrite list_lookup_insert_ne by lia. destruct (Z.eqb_spec i (64 * k + j)); [|done].
    exfalso. apply Hne. lia.
Qed.

(** A word whose bits below 64 are all set is full. *)
Lemma full_word w : 0 <= w < 2 ^ 64 -> (forall i, 0 <= i < 64 -> Z.testbit w i = true) -> w = 0xFFFFFFFFFFFFFFFF.
Proof.
  intros Hw Hall. change 0xFFFFFFFFFFFFFFFF with (Z.ones 64). apply Z.bits_inj'. intros i Hi.
  destruct (Z.ltb_spec i 64); [by rewrite Hall, Z.ones_spec_low by lia|].
  by rewrite testbit_word, Z.ones_spec_high by lia.
Qed.

(** Testing one bit with a mask. *)
Lemma land_pow2_zero w j : 0 <= j -> (Z.land w (2 ^ j) =? 0) = negb (Z.testbit w j).
Proof.
  intros Hj. destruct (Z.testbit w j) eqn:Ht; cbn [negb].
  - apply Z.eqb_neq. intros H0. apply (f_equal (fun z => Z.testbit z j)) in H0.
    rewrite Z.land_spec, Ht, Z.pow2_bits_true, Z.bits_0 in H0 by lia. done.
  - apply Z.eqb_eq. apply Z.bits_inj'. intros k Hk. rewrite Z.land_spec, Z.pow2_bits_eqb, Z.bits_0 by lia.
    destruct (Z.eqb_spec j k) as [<-|]; [by rewrite Ht|apply andb_false_r].
Qed.

Lemma lor_pow2_id w j : 0 <= j -> Z.testbit w j = true -> Z.lor w (2 ^ j) = w.
Proof.
  intros Hj Ht. apply Z.bits_inj'. intros k Hk. rewrite Z.lor_spec, Z.pow2_bits_eqb by lia.
  destruct (Z.eqb_spec j k) as [<-|]; [by rewrite Ht|apply orb_false_r].
Qed.

(** ** Counting the elements in use *)
Section Count.
Context {A : Type} (f : A -> bool).
Implicit Types l : list A.

Definition countb l : Z := Z.of_nat (length (filter (fun x => f x = true) l)).

Lemma countb_cons x l : countb (x :: l) = ind (f x) + countb l.
Proof.
  unfold countb. rewrite filter_cons. destruct (f x); [rewrite decide_True by done|rewrite decide_False by done];
    cbn [length ind]; lia.
Qed.
Lemma countb_insert l i x y : l !! i = Some x -> countb (<[i := y]> l) = countb l - ind (f x) + ind (f y).
Proof.
  revert i. induction l as [|a l IH]; intros [|i] Hi; try done; cbn in Hi.
  - simplify_eq. change (<[O := y]> (x :: l)) with (y :: l). rewrite !countb_cons. lia.
  - change (<[S i := y]> (a :: l)) with (a :: <[i := y]> l). rewrite !countb_cons, IH by done. lia.
Qed.
Lemma countb_le l : 0 <= countb l <= Z.of_nat (length l).
Proof. unfold countb. split; [lia|]. apply inj_le, length_filter. Qed.
Lemma countb_all l : (forall x, x ∈ l -> f x = true) -> countb l = Z.of_nat (length l).
Proof.
  induction l as [|x l IH]; intros Hl; [done|]. rewrite countb_cons, (Hl x) by (by left).
  rewrite IH by (intros; apply Hl; by right). cbn [ind length]. lia.
Qed.
Lemma countb_none l : (forall i x, l !! i = Some x -> f x = false) -> countb l = 0.
Proof.
  induction l as [|x l IH]; intros Hl; [done|]. rewrite countb_cons, (Hl O x) by done.
  rewrite IH by (intros i; exact (Hl (S i))). done.
Qed.
(** Fewer than all: one is free. *)
Lemma countb_free l : countb l < Z.of_nat (length l) -> exists i x, l !! i = Some x /\ f x = false.
Proof.
  induction l as [|x l IH]; [change (countb []) with 0; cbn; lia|]. rewrite countb_cons. destruct (f x) eqn:Hx; unfold ind; cbn [length].
  - intros Hlt. destruct IH as (i & y & Hi & Hy); [lia|]. by exists (S i), y.
  - intros _. by exists O, x.
Qed.
End Count.

End Bitmap.
