(* ===== verification/PacketHeader.v ===== *)
(** * The wire header and its validation

    [GTP_PACK_HEADER] (src/src/utils/goodtp_comstruct.h): ten packed bytes of
    bit fields that open every packet; the conversion macros between the
    current and the version-0 layout of its first word; the checks of
    src/src/interface/goodtp_interface.cpp that every received packet passes
    before anything else reads it. *)
From S2P Require Import Prelude.

Module PacketHeader.

Record PackHeader := mkHeader {
  goodtp_ver : Z;
  header_offset : Z;
  cache_us_flag : Z;
  has_loss_flag : Z;
  pack_type : Z;
  pack_size : Z;
  pack_sn : Z;
  has_check_flag : Z;
  has_ts_flag : Z;
  has_rtt_flag : Z;
  init_flag : Z;
  repeat_counter : Z;
  is_qos_flg : Z;
  share_zone : Z;
  has_chg_zone : Z;
  stream_type : Z
}.

(** [sizeof(GtpPacket)], [sizeof(Fec2CodePack)] *)
Definition GTP_PACKET_SIZE : Z := 10.
Definition FEC2_CODE_PACK_SIZE : Z := 24.

Definition kGtpDataPackType : Z := 1.
Definition kGtpFecPackType : Z := 3.
Definition GtpPackTypeButt : Z := 7.

(** Every field is within its width. *)
Definition header_ok (h : PackHeader) : Prop :=
  (0 <= goodtp_ver h < 2 ^ 8 /\ 0 <= header_offset h < 2 ^ 6 /\ 0 <= cache_us_flag h < 2 ^ 1 /\
   0 <= has_loss_flag h < 2 ^ 1 /\ 0 <= pack_type h < 2 ^ 3 /\ 0 <= pack_size h < 2 ^ 13) /\
  0 <= pack_sn h < 2 ^ 32 /\
  (0 <= has_check_flag h < 2 ^ 1 /\ 0 <= has_ts_flag h < 2 ^ 1 /\ 0 <= has_rtt_flag h < 2 ^ 1 /\
   0 <= init_flag h < 2 ^ 1 /\ 0 <= repeat_counter h < 2 ^ 3 /\ 0 <= is_qos_flg h < 2 ^ 1 /\
   0 <= share_zone h < 2 ^ 6 /\ 0 <= has_chg_zone h < 2 ^ 1 /\ 0 <= stream_type h < 2 ^ 1).

(** The three words of the header: the compiler lays bit fields out from the
    least significant bit. *)
Definition header_word0 (h : PackHeader) : Z :=
  set_bits (set_bits (set_bits (set_bits (set_bits (set_bits 0
    0 8 (goodtp_ver h)) 8 6 (header_offset h)) 14 1 (cache_us_flag h))
    15 1 (has_loss_flag h)) 16 3 (pack_type h)) 19 13 (pack_size h).
Definition header_word2 (h : PackHeader) : Z :=
  set_bits (set_bits (set_bits (set_bits (set_bits (set_bits (set_bits (set_bits (set_bits 0
    0 1 (has_check_flag h)) 1 1 (has_ts_flag h)) 2 1 (has_rtt_flag h)) 3 1 (init_flag h))
    4 3 (repeat_counter h)) 7 1 (is_qos_flg h)) 8 6 (share_zone h)) 14 1 (has_chg_zone h))
    15 1 (stream_type h).

(** The header as written to, and read from, a packet's memory. *)
Definition encode_header (h : PackHeader) : list Z :=
  le_bytes 4 (header_word0 h) ++ le_bytes 4 (pack_sn h) ++ le_bytes 2 (header_word2 h).

Definition parse_words (w0 sn w2 : Z) : PackHeader := {|
  goodtp_ver := get_bits w0 0 8; header_offset := get_bits w0 8 6;
  cache_us_flag := get_bits w0 14 1; has_loss_flag := get_bits w0 15 1;
  pack_type := get_bits w0 16 3; pack_size := get_bits w0 19 13;
  pack_sn := sn;
  has_check_flag := get_bits w2 0 1; has_ts_flag := get_bits w2 1 1;
  has_rtt_flag := get_bits w2 2 1; init_flag := get_bits w2 3 1;
  repeat_counter := get_bits w2 4 3; is_qos_flg := get_bits w2 7 1;
  share_zone := get_bits w2 8 6; has_chg_zone := get_bits w2 14 1;
  stream_type := get_bits w2 15 1 |}.

Definition parse_header (m : list Z) : PackHeader :=
  parse_words (load32 m 0) (load32 m 4) (le_val (mem_load 2 m 8)).

(** The two fields the fec code reads from a packet. *)
Definition packet_sn (m : list Z) : Z := load32 m 4.
Definition packet_size (m : list Z) : Z := get_bits (load32 m 0) 19 13.

(** [GtpHeaderOldToNew(pack)] / [GtpHeaderNewToOld(pack, peer_version)] on the
    first word of the packet: version 0 has a 4-bit type and a 12-bit size. *)
Definition GtpHeaderOldToNew (w : Z) : Z :=
  if get_bits w 0 8 =? 0 then
    set_bits (set_bits (set_bits (set_bits (set_bits (set_bits w
      0 8 (get_bits w 0 8)) 8 6 (get_bits w 8 6)) 14 1 (get_bits w 14 1))
      15 1 (get_bits w 15 1)) 16 3 (get_bits w 16 4)) 19 13 (get_bits w 20 12)
  else w.

Definition GtpHeaderNewToOld (w peer_version : Z) : Z :=
  if peer_version =? 0 then
    set_bits (set_bits (set_bits (set_bits (set_bits (set_bits w
      0 8 (get_bits w 0 8)) 8 6 (get_bits w 8 6)) 14 1 (get_bits w 14 1))
      15 1 (get_bits w 15 1)) 16 4 (get_bits w 16 3)) 20 12 (get_bits w 19 13)
  else w.

(** [CalcRightGtpVer(self_ver, peer_ver)] *)
Definition GTP_VERSION : Z := 2.
Definition CalcRightGtpVer (self_ver peer_ver : Z) : Z :=
  u8 (if self_ver =? 0 then 0 else if peer_ver =? 0xFF then GTP_VERSION else peer_ver).

Definition CalcHeaderOffset (h : PackHeader) : Z :=
  (if has_loss_flag h =? GTP_YES then 4 else 0) +
  (if has_check_flag h =? GTP_YES then 8 else 0) +
  (if has_ts_flag h =? GTP_YES then 8 else 0) +
  (if has_rtt_flag h =? GTP_YES then 4 else 0) +
  (if negb (repeat_counter h =? 0) then 4 else 0) + GTP_PACKET_SIZE.

Section Checks.
Variable sys_id : Z.

Definition kGtpInterfaceMd : Z := 0x54.
Definition kInvalidInPutParam : Z := 0x6004.
Definition kGtpPackLengthErr : Z := 0x600d.
Definition kGtpPackHeaderErr : Z := 0x600e.
Definition kUnknownPackTypeErr : Z := 0x6014.
Definition kUnknownGtpVerErr : Z := 0x6015.

Definition InnerCheckPacketInvalid (m : list Z) (size : Z) : Z :=
  let h := parse_header m in
  if (pack_type h =? 0) || (GtpPackTypeButt <=? pack_type h) then
    GEN_ERR sys_id kGtpInterfaceMd kUnknownPackTypeErr
  else if (size <? GTP_PACKET_SIZE) || negb (size =? pack_size h) ||
          (header_offset h <? GTP_PACKET_SIZE) || (size <? header_offset h) then
    GEN_ERR sys_id kGtpInterfaceMd kGtpPackLengthErr
  else if negb (goodtp_ver h =? 0x02) then
    GEN_ERR sys_id kGtpInterfaceMd kUnknownGtpVerErr
  else if header_offset h <? CalcHeaderOffset h then
    GEN_ERR sys_id kGtpInterfaceMd kGtpPackHeaderErr
  else GTP_OK.

(** The result and [*stream_key]; [want_key] says the pointer is not null,
    [m] is [None] for a null packet. *)
Definition GtpCheckPacketInvalid (m : option (list Z)) (size : Z) (want_key : bool) : Z * option Z :=
  match m with
  | None => (GEN_ERR sys_id kGtpInterfaceMd kInvalidInPutParam, None)
  | Some m =>
      if size =? 0 then (GEN_ERR sys_id kGtpInterfaceMd kInvalidInPutParam, None)
      else
        let nret := InnerCheckPacketInvalid m size in
        if negb (nret =? GTP_OK) then (nret, if want_key then Some 0 else None)
        else if want_key then
          let h := parse_header m in
          let key :=
            if pack_type h =? kGtpFecPackType then
              if FEC2_CODE_PACK_SIZE <=? size then le_val (mem_load 8 m 16) else 0
            else if has_check_flag h =? GTP_YES then
              let key_offset := GTP_PACKET_SIZE + (if negb (repeat_counter h =? 0) then 4 else 0) in
              if key_offset + 8 <=? size then
                Z.lor (Z.shiftl (load32 m (Z.to_nat key_offset)) 32)
                      (load32 m (Z.to_nat (key_offset + 4)))
              else 0
            else 0 in
          (GTP_OK, Some key)
        else (GTP_OK, None)
  end.

End Checks.

(** [CalcOnePacketLength(header)] *)
Definition CalcOnePacketLength (header : list Z) : Z :=
  let w := load32 header 0 in
  if negb (get_bits w 0 8 =? 0x02) then -1
  else if (get_bits w 16 3 =? 0) || (GtpPackTypeButt <=? get_bits w 16 3) then -1
  else get_bits w 19 13.

(** ** Lemmas *)
Lemma set_bits_range w lo n v k :
  0 <= lo -> 0 <= n -> lo + n <= k -> 0 <= w < 2 ^ k -> 0 <= set_bits w lo n v < 2 ^ k.
Proof.
  intros Hlo Hn Hk Hw.
  assert (Hpos : 0 <= set_bits w lo n v).
  { unfold set_bits. apply Z.lor_nonneg. split.
    - apply Z.ldiff_nonneg. left. lia.
    - apply Z.shiftl_nonneg, Z.land_nonneg. right. rewrite Z.ones_equiv; lia. }
  split; [done|].
  assert (set_bits w lo n v = set_bits w lo n v mod 2 ^ k) as ->; [|apply Z.mod_pos_bound; lia].
  apply Z.bits_inj'. intros i Hi. destruct (Z.ltb_spec i k).
  - by rewrite Z.mod_pow2_bits_low by lia.
  - rewrite Z.mod_pow2_bits_high, testbit_set_bits by lia.
    destruct (Z.leb_spec lo i), (Z.ltb_spec i (lo + n)); try lia; cbn;
      rewrite <- (Z.mod_small w (2 ^ k)) by done; by apply Z.mod_pow2_bits_high; lia.
Qed.

Lemma header_word0_range h : 0 <= header_word0 h < 2 ^ 32.
Proof. unfold header_word0. repeat (apply set_bits_range; [lia..|]). lia. Qed.
Lemma header_word2_range h : 0 <= header_word2 h < 2 ^ 16.
Proof. unfold header_word2. repeat (apply set_bits_range; [lia..|]). lia. Qed.

Lemma mem_load_app_l n m k : length m = n -> mem_load n (m ++ k) 0 = m.
Proof.
  intros <-. unfold mem_load. rewrite drop_0, take_app_length. apply pad_to_id. done.
Qed.
Lemma mem_load_app_r n m k off : (length m <= off)%nat -> mem_load n (m ++ k) off = mem_load n k (off - length m).
Proof. intros. unfold mem_load. by rewrite drop_app_ge. Qed.

Lemma encode_header_length h : length (encode_header h) = 10%nat.
Proof. unfold encode_header. by rewrite !length_app, !le_bytes_length. Qed.

Lemma parse_encode_words h :
  header_ok h -> parse_words (header_word0 h) (pack_sn h) (header_word2 h) = h.
Proof.
  intros (H0 & _ & H2). destruct h. cbn in *. unfold parse_words. cbn.
  unfold header_word0, header_word2. cbn. f_equal; bit_fields; done.
Qed.

(** Two words with the same fields on a partition of their bits are equal. *)
Lemma eq_by_bits k a b :
  0 <= k -> 0 <= a < 2 ^ k -> 0 <= b < 2 ^ k ->
  (forall i, 0 <= i < k -> Z.testbit a i = Z.testbit b i) -> a = b.
Proof.
  intros Hk Ha Hb H. apply Z.bits_inj'. intros i Hi. destruct (Z.ltb_spec i k); [by apply H|].
  rewrite <- (Z.mod_small a (2 ^ k)), <- (Z.mod_small b (2 ^ k)) by done.
  by rewrite !Z.mod_pow2_bits_high by lia.
Qed.

Ltac bit_cases :=
  repeat (progress (
    rewrite ?testbit_set_bits, ?testbit_get_bits, ?Z.bits_0 by lia;
    repeat match goal with
           | |- context [?a <=? ?b] => destruct (Z.leb_spec a b); try lia
           | |- context [?a <? ?b] => destruct (Z.ltb_spec a b); try lia
           end; cbn; rewrite ?andb_true_r, ?andb_false_r, ?Z.sub_add));
  try (f_equal; lia).

Lemma word0_of_fields w sn w2 :
  0 <= w < 2 ^ 32 -> header_word0 (parse_words w sn w2) = w.
Proof.
  intros Hw. apply (eq_by_bits 32); [lia|apply header_word0_range|done|].
  intros i Hi. unfold header_word0, parse_words. cbn [goodtp_ver header_offset cache_us_flag
    has_loss_flag pack_type pack_size]. bit_cases.
Qed.

Lemma word2_of_fields w sn w2 :
  0 <= w2 < 2 ^ 16 -> header_word2 (parse_words w sn w2) = w2.
Proof.
  intros Hw. apply (eq_by_bits 16); [lia|apply header_word2_range|done|].
  intros i Hi. unfold header_word2, parse_words. cbn [has_check_flag has_ts_flag has_rtt_flag
    init_flag repeat_counter is_qos_flg share_zone has_chg_zone stream_type]. bit_cases.
Qed.

Lemma le_bytes_load n m off : bytes_ok m -> le_bytes n (le_val (mem_load n m off)) = mem_load n m off.
Proof.
  intros H. rewrite <- (mem_load_length n m off) at 1. apply le_bytes_val. by apply bytes_ok_load.
Qed.

Lemma parse_header_app (h : PackHeader) (payload : list Z) :
  header_ok h -> parse_header (encode_header h ++ payload) = h.
Proof.
  intros Hok. unfold parse_header, encode_header, load32. rewrite <- !app_assoc.
  rewrite mem_load_app_l by apply le_bytes_length.
  rewrite (mem_load_app_r 4 (le_bytes 4 _)), le_bytes_length, mem_load_app_l
    by (rewrite ?le_bytes_length; done).
  rewrite (mem_load_app_r 2 (le_bytes 4 (header_word0 h))), le_bytes_length by (rewrite le_bytes_length; lia).
  rewrite mem_load_app_r, le_bytes_length, mem_load_app_l by (rewrite le_bytes_length; lia).
  rewrite !le_val_bytes, !Z.mod_small.
  - by apply parse_encode_words.
  - exact (header_word2_range h).
  - exact (proj1 (proj2 Hok)).
  - exact (header_word0_range h).
Qed.

(** The header survives the wire: parsing an encoded header, whatever
    follows it in the packet, gives back every field. *)
Theorem parse_encode_header (h : PackHeader) (payload : list Z) :
  header_ok h -> parse_header (encode_header h ++ payload) = h.
Proof. apply parse_header_app. Qed.

Example parse_encode_header_witness :
  let h := mkHeader 2 10 0 0 1 1200 77 0 1 0 0 3 0 0 0 1 in
  header_ok h /\ parse_header (encode_header h ++ [1;2;3]) = h.
Proof.
  split; [|apply parse_encode_header]; unfold header_ok; cbn; lia.
Defined.

(** No information is lost the other way round: encoding the parsed
    header of a packet reproduces its first ten bytes. *)
Theorem encode_parse_header (m : list Z) :
  bytes_ok m -> (10 <= length m)%nat -> encode_header (parse_header m) = take 10 m.
Proof.
  intros Hm Hl.
  assert (Hr : forall n off, 0 <= le_val (mem_load n m off) < 2 ^ (8 * Z.of_nat n)).
  { intros n off. rewrite Z.pow_mul_r by lia. change (2 ^ 8) with 256.
    rewrite <- (mem_load_length n m off) at 3. apply le_val_range. by apply bytes_ok_load. }
  unfold encode_header, parse_header, load32.
  rewrite word0_of_fields by exact (Hr 4%nat O).
  rewrite word2_of_fields by exact (Hr 2%nat 8%nat). cbn [pack_sn parse_words].
  rewrite !le_bytes_load by done.
  do 10 (destruct m as [|? m]; [cbn in Hl; lia|]). done.
Qed.

Example encode_parse_header_witness :
  encode_header (parse_header [2;10;217;37;1;0;0;0;128;9;55]) = [2;10;217;37;1;0;0;0;128;9].
Proof.
  apply (encode_parse_header [2;10;217;37;1;0;0;0;128;9;55]); [|cbn; lia].
  repeat (constructor; [unfold byte_ok; lia|]). constructor.
Defined.

(** Towards a version-0 peer the first word of the header is rewritten to
    the old layout and back without loss when the packet is shorter than 4096
    bytes (the old size field has 12 bits); in general the receiver sees the
    size modulo 4096. *)
Theorem header_old_new_roundtrip (w : Z) :
  0 <= w < 2 ^ 32 -> get_bits w 0 8 = 0 ->
  let w' := GtpHeaderOldToNew (GtpHeaderNewToOld w 0) in
  get_bits w' 19 13 = get_bits w 19 13 mod 4096 /\
  (get_bits w 19 13 < 4096 -> w' = w).
Proof.
  intros Hw Hver. set (z := GtpHeaderNewToOld w 0).
  assert (Hz : z = set_bits (set_bits (set_bits (set_bits (set_bits (set_bits w
      0 8 (get_bits w 0 8)) 8 6 (get_bits w 8 6)) 14 1 (get_bits w 14 1))
      15 1 (get_bits w 15 1)) 16 4 (get_bits w 16 3)) 20 12 (get_bits w 19 13)) by done.
  assert (Hr : forall lo n, 0 <= lo -> 0 <= n -> 0 <= get_bits w lo n < 2 ^ n)
    by (intros; by apply get_bits_range).
  assert (Hz0 : get_bits z 0 8 = 0).
  { rewrite Hz, !get_set_bits_other by lia. rewrite get_set_bits_same by (auto with lia). done. }
  assert (Hzs : get_bits z 20 12 = get_bits w 19 13 mod 4096)
    by (rewrite Hz; by rewrite get_set_bits_trunc by lia).
  cbv zeta. unfold GtpHeaderOldToNew. rewrite Hz0. cbn [Z.eqb]. split.
  - rewrite get_set_bits_trunc, Hzs by lia. rewrite Z.mod_small; [done|].
    pose proof (Z.mod_pos_bound (get_bits w 19 13) 4096). lia.
  - intros Hs. rewrite Hzs, (Z.mod_small (get_bits w 19 13)) by (pose proof (Hr 19 13); lia).
    rewrite Hz. apply (eq_by_bits 32); [lia| |done|].
    { repeat (apply set_bits_range; [lia..|]). done. }
    intros i Hi.
    assert (Hv : forall j, 0 <= j < 8 -> Z.testbit w j = false).
    { intros j Hj. pose proof (testbit_get_bits w 0 8 j ltac:(lia) ltac:(lia) ltac:(lia)) as Hb.
      rewrite Hver, Z.bits_0, Z.add_0_r in Hb. destruct (Z.ltb_spec j 8); [|lia].
      by rewrite andb_true_r in Hb. }
    destruct (Z.ltb_spec i 8); [rewrite Hv by lia|]; bit_cases.
Qed.

Example header_old_new_roundtrip_witness :
  let w' := GtpHeaderOldToNew (GtpHeaderNewToOld 2097154560 0) in
  get_bits w' 19 13 = 4000 mod 4096 /\ (4000 < 4096 -> w' = 2097154560).
Proof.
  exact (header_old_new_roundtrip 2097154560 ltac:(lia) ltac:(reflexivity)).
Defined.

(** The meaning of an accepted packet. *)
Definition packet_accepted (m : list Z) (size : Z) : Prop :=
  let h := parse_header m in
  1 <= pack_type h < GtpPackTypeButt /\ goodtp_ver h = GTP_VERSION /\
  size = pack_size h /\ GTP_PACKET_SIZE <= header_offset h <= size /\
  CalcHeaderOffset h <= header_offset h.

Lemma header_fields_range m :
  bytes_ok m -> header_ok (parse_header m).
Proof.
  intros Hm. unfold header_ok, parse_header, parse_words.
  cbn -[get_bits]. repeat split; try (apply get_bits_range; lia);
    pose proof (load32_range m 4 Hm); lia.
Qed.

Lemma InnerCheck_iff sys_id m size :
  bytes_ok m ->
  (InnerCheckPacketInvalid sys_id m size = GTP_OK <-> packet_accepted m size).
Proof.
  intros Hm. pose proof (header_fields_range m Hm) as Hok.
  assert (He : forall e, In e [kUnknownPackTypeErr; kGtpPackLengthErr; kUnknownGtpVerErr; kGtpPackHeaderErr] ->
     GEN_ERR sys_id kGtpInterfaceMd e <> GTP_OK).
  { intros e Hin. apply GEN_ERR_nonzero. cbn in Hin. intuition subst; discriminate. }
  unfold InnerCheckPacketInvalid, packet_accepted. cbv zeta.
  unfold header_ok in Hok. destruct Hok as ((_ & _ & _ & _ & Ht & _) & _).
  set (h := parse_header m) in *. unfold GtpPackTypeButt, GTP_VERSION, GTP_PACKET_SIZE in *.
  repeat match goal with
         | |- (if ?b then _ else _) = _ <-> _ =>
             destruct b eqn:?; [split; [intros H; exfalso; eapply He; [|exact H]; cbn; tauto|lia]|]
         end.
  split; [intros _|done]. lia.
Qed.

(** [InnerCheckPacketInvalid] accepts exactly the packets whose type and
    version are known, whose size field is the received size, and whose
    declared header holds every optional field its flags announce: no later
    read of an optional field can leave the packet. *)
Theorem InnerCheckPacketInvalid_correct (sys_id : Z) (m : list Z) (size : Z) :
  bytes_ok m ->
  (InnerCheckPacketInvalid sys_id m size = GTP_OK <-> packet_accepted m size).
Proof. apply InnerCheck_iff. Qed.

Example InnerCheckPacketInvalid_correct_witness :
  InnerCheckPacketInvalid 1 (encode_header (mkHeader 2 10 0 0 1 12 77 0 0 0 0 0 0 0 0 1) ++ [1;2]) 12 = GTP_OK
  <-> packet_accepted (encode_header (mkHeader 2 10 0 0 1 12 77 0 0 0 0 0 0 0 0 1) ++ [1;2]) 12.
Proof.
  apply InnerCheckPacketInvalid_correct.
  repeat (constructor; [unfold byte_ok; cbv; split; [discriminate|reflexivity]|]). constructor.
Defined.

(** For an accepted packet [GtpCheckPacketInvalid] finds the stream key
    where the sender put it: at offset 16 of a fec packet with a full header,
    after the optional first-sn field otherwise, high word first; the second
    bounds test never fails on an accepted packet. *)
Theorem GtpCheckPacketInvalid_key (sys_id : Z) (m : list Z) (size : Z) :
  bytes_ok m -> packet_accepted m size ->
  let h := parse_header m in
  let off := GTP_PACKET_SIZE + (if negb (repeat_counter h =? 0) then 4 else 0) in
  (pack_type h <> kGtpFecPackType -> has_check_flag h = GTP_YES -> off + 8 <= size) /\
  GtpCheckPacketInvalid sys_id (Some m) size true =
    (GTP_OK, Some
      (if pack_type h =? kGtpFecPackType then
         if FEC2_CODE_PACK_SIZE <=? size then le_val (mem_load 8 m 16) else 0
       else if has_check_flag h =? GTP_YES then
         Z.lor (Z.shiftl (load32 m (Z.to_nat off)) 32) (load32 m (Z.to_nat (off + 4)))
       else 0)).
Proof.
  intros Hm Hacc. cbv zeta.
  pose proof (proj2 (InnerCheck_iff sys_id m size Hm) Hacc) as Hin.
  unfold packet_accepted in Hacc. unfold GtpCheckPacketInvalid. rewrite Hin. cbn [negb Z.eqb GTP_OK].
  set (h := parse_header m) in *. destruct Hacc as (_ & _ & _ & Ho & Hc).
  assert (Hsz : has_check_flag h = GTP_YES ->
    GTP_PACKET_SIZE + (if negb (repeat_counter h =? 0) then 4 else 0) + 8 <= size).
  { intros Hk. unfold CalcHeaderOffset in Hc. rewrite Hk, Z.eqb_refl in Hc.
    destruct (has_loss_flag h =? GTP_YES), (has_ts_flag h =? GTP_YES), (has_rtt_flag h =? GTP_YES),
      (negb (repeat_counter h =? 0)); lia. }
  split; [by auto|].
  destruct (Z.eqb_spec size 0) as [->|_]; [unfold GTP_PACKET_SIZE in Ho; lia|].
  destruct (pack_type h =? kGtpFecPackType); [done|].
  destruct (Z.eqb_spec (has_check_flag h) GTP_YES) as [Hk|_]; [|done].
  specialize (Hsz Hk). by rewrite (proj2 (Z.leb_le _ _) Hsz).
Qed.

Definition example_pack : list Z :=
  encode_header (mkHeader 2 18 0 0 1 20 77 1 0 0 0 0 0 0 0 1) ++ [1;0;0;0;2;0;0;0;9;9].

Example GtpCheckPacketInvalid_key_witness :
  packet_accepted example_pack 20 /\
  (1 <> kGtpFecPackType -> 1 = GTP_YES -> 10 + 8 <= 20) /\
  GtpCheckPacketInvalid 1 (Some example_pack) 20 true = (GTP_OK, Some 4294967298).
Proof.
  assert (Hb : bytes_ok example_pack)
    by (repeat (constructor; [unfold byte_ok; cbv; split; [discriminate|reflexivity]|]); constructor).
  assert (Ha : packet_accepted example_pack 20)
    by (unfold packet_accepted; cbv; repeat split; discriminate).
  split; [exact Ha|]. exact (GtpCheckPacketInvalid_key 1 example_pack 20 Hb Ha).
Defined.

(** The framing helper agrees with the validation: the length it reads
    from the first four bytes of an accepted packet is the packet's size, and
    it rejects every packet of unknown version or type. *)
Theorem CalcOnePacketLength_frames (m : list Z) (size : Z) :
  bytes_ok m -> (4 <= length m)%nat ->
  (packet_accepted m size -> CalcOnePacketLength (take 4 m) = size) /\
  (CalcOnePacketLength (take 4 m) = -1 <->
     goodtp_ver (parse_header m) <> GTP_VERSION \/
     ~ (1 <= pack_type (parse_header m) < GtpPackTypeButt)).
Proof.
  intros Hm Hl.
  assert (Hw : load32 (take 4 m) 0 = load32 m 0).
  { unfold load32, mem_load. rewrite !drop_0, take_take. done. }
  pose proof (header_fields_range m Hm) as ((_ & _ & _ & _ & Ht & Hs) & _).
  unfold packet_accepted, CalcOnePacketLength. rewrite Hw.
  unfold parse_header, parse_words, GtpPackTypeButt, GTP_VERSION in *.
  cbn [goodtp_ver pack_type pack_size] in *.
  set (v := get_bits (load32 m 0) 0 8) in *. set (t := get_bits (load32 m 0) 16 3) in *.
  set (s := get_bits (load32 m 0) 19 13) in *. clearbody v t s.
  destruct (Z.eqb_spec v 2); cbn [negb].
  - destruct ((t =? 0) || (7 <=? t)) eqn:E; split; lia.
  - split; lia.
Qed.

Example CalcOnePacketLength_frames_witness :
  (packet_accepted example_pack 20 -> CalcOnePacketLength (take 4 example_pack) = 20) /\
  (CalcOnePacketLength (take 4 example_pack) = -1 <->
     goodtp_ver (parse_header example_pack) <> GTP_VERSION \/
     ~ (1 <= pack_type (parse_header example_pack) < GtpPackTypeButt)).
Proof.
  apply CalcOnePacketLength_frames; [|cbv; lia].
  repeat (constructor; [unfold byte_ok; cbv; split; [discriminate|reflexivity]|]). constructor.
Defined.

End PacketHeader.
