(* ===== verification/PoolInterface.v ===== *)
(** * What the transport buffer pool promises to its clients

    The fec code, like the session and the arq code, works on reference
    counted transport buffers obtained from [TranMemPool]
    (src/src/tranmempool.h).  This file states the part of the pool those
    clients rely on: an element type, the three operations they call, and how
    each one changes the reference counts.  TranPool.v models the pool itself
    and discharges the laws; the fec development is proved against the class. *)
From S2P Require Import Prelude.

(** [GtpPackSizeToMemSpec(size)] of src/src/interface/bitlinker.h and the byte
    size of each specification. *)
Definition GtpPackSizeToMemSpec (size : Z) : Z :=
  if 256 >? size then 0 else if 512 >? size then 1 else if 1024 >? size then 2
  else if 1536 >? size then 3 else if 4096 >? size then 4 else if 8192 >? size then 5 else 6.

Definition spec_bytes (spec : Z) : Z :=
  nth (Z.to_nat spec) [256; 512; 1024; 1536; 4096; 8192; 65536] 0.

(** [P] is the state of the pool, [E] identifies a buffer: every address inside
    a buffer resolves to the same element. *)
Class PackPool (P E : Type) := {
  (** [MallocTranBuf(NULL, 0, &size, &addr, spec)]: the buffer and its usable size *)
  pp_malloc : Z -> P -> option (E * Z) * P;
  (** [TranBufUseRefAddOne(buf)] *)
  pp_addref : E -> P -> P;
  (** [FreeTranBuf(buf)] *)
  pp_free : E -> P -> P;
  (** the reference counter of a buffer *)
  pp_refs : P -> E -> Z;
  (** the invariant of the pool *)
  pp_ok : P -> Prop
}.

(** The counter is a 16-bit integer: the laws hold below its limit. *)
Definition REF_LIMIT : Z := 32767.

Class PackPoolLaws (P E : Type) `{EqDecision E} `{!PackPool P E} : Prop := {
  pp_malloc_some p spec e n p' :
    pp_ok p -> 0 <= spec <= 6 -> pp_malloc spec p = (Some (e, n), p') ->
    pp_ok p' /\ pp_refs p e = 0 /\ spec_bytes spec <= n <= 65536 /\
    forall x, pp_refs p' x = pp_refs p x + ind (bool_decide (x = e));
  pp_malloc_none p spec p' :
    pp_ok p -> 0 <= spec <= 6 -> pp_malloc spec p = (None, p') ->
    pp_ok p' /\ forall x, pp_refs p' x = pp_refs p x;
  pp_addref_law p e :
    pp_ok p -> 0 < pp_refs p e < REF_LIMIT ->
    pp_ok (pp_addref e p) /\
    forall x, pp_refs (pp_addref e p) x = pp_refs p x + ind (bool_decide (x = e));
  pp_free_law p e :
    pp_ok p -> 0 < pp_refs p e ->
    pp_ok (pp_free e p) /\
    forall x, pp_refs (pp_free e p) x = pp_refs p x - ind (bool_decide (x = e))
}.

(** The buffer chosen for a packet is larger than the packet. *)
Lemma mem_spec_fits (size : Z) :
  0 <= size < 65536 ->
  0 <= GtpPackSizeToMemSpec size <= 6 /\ size < spec_bytes (GtpPackSizeToMemSpec size).
Proof.
  intros H. unfold GtpPackSizeToMemSpec.
  repeat match goal with |- context [?a >? ?b] => destruct (Z.gtb_spec a b) end;
    (split; [lia|]);
    match goal with |- _ < ?x => let y := eval vm_compute in x in change x with y end; lia.
Qed.
