(* ===== verification/TranPool.v ===== *)
(** * The transport buffer pool

    [TranMemPool] (src/src/tranmempool.h): seven pools of equal-sized elements,
    each with a bitmap of 64-bit words and a reference counter per element.
    The file models creation, allocation (with the fall through to larger
    buffers and the suballocation inside a buffer), reference counting and
    release, and discharges the interface of PoolInterface.v. *)
From S2P Require Import Prelude PoolInterface.
Export PoolInterface.

Module TranPool.

(** ** Data *)
Definition BUF_OFFSET_SIZE : Z := 288.
(** [sizeof(TranbufElement)], packed *)
Definition ELEMENT_HEAD : Z := 40.
Definition FULL_WORD : Z := 0xFFFFFFFFFFFFFFFF.

(** [InitBufElement] and the fields of [TranbufElement]; [intact] says that the
    guard words before and behind the buffer hold their magic values. *)
Record TranbufElement := mkElem {
  usedFlag : bool;
  bufType : Z;
  referenceCounter : Z;
  used_time_us : Z;
  current_pack_pos : Z;
  current_malloc_pos : Z;
  sub_last_malloc_pos : Z;
  intact : bool
}.

Record TranBufMng := mkMng {
  pool_size : Z;
  pool_header : Z;
  pool_tail : Z;
  last_free_pos : Z;
  bitmap_size : Z;
  used_bitmap : list Z;
  used_num : Z;
  free_num : Z;
  tran_buf_malloc_counter : Z;
  tran_buf_free_counter : Z;
  used_bit_abnormal_counter : Z;
  overlay_mem_counter : Z;
  tran_buf_pool : list TranbufElement
}.

(** The pool object.  [sys_time] is what [GetCurrentSysTimeUs] returns. *)
Record TranMemPool := mkPool {
  pools : list TranBufMng;
  buf_remalloc_sucess_counter : Z;
  buf_remalloc_failed_counter : Z;
  buf_malloc_failed_counter : Z;
  sys_time : Z
}.

(** [payload_size[]] and the distance between two elements. *)
Definition payload_size (t : Z) : Z := spec_bytes t.
Definition element_size (t : Z) : Z := ELEMENT_HEAD + BUF_OFFSET_SIZE + payload_size t + 8.
(** [&tran_buf_pool[i]->tran_buf_mem[BUF_OFFSET_SIZE]] *)
Definition elem_start (t header i : Z) : Z := header + element_size t * i + ELEMENT_HEAD + BUF_OFFSET_SIZE.

Definition fresh_elem (t pos : Z) : TranbufElement := mkElem false t 0 0 pos pos pos true.

(** ** Creation *)

(** [CreateTranBufPool]: [mng], [mem] and [bits] are the results of the three
    [malloc] calls. *)
Definition CreateTranBufPool (mng : bool) (mem : option Z) (bits : bool) (pool_type size : Z) : option TranBufMng :=
  if (size =? 0) || (7 <=? pool_type) then None
  else if negb mng then None
  else
    match mem with
    | None => None
    | Some header =>
        let mem_sum_size := u32 (element_size pool_type * size) in
        let elems := (fun i => fresh_elem pool_type (elem_start pool_type header (Z.of_nat i))) <$> seq 0 (Z.to_nat size) in
        let bitmap_sz := Z.shiftr size 6 in
        if bits then
          Some (mkMng size header (header + mem_sum_size) 0 bitmap_sz (replicate (Z.to_nat bitmap_sz) 0)
                  0 size 0 0 0 0 elems)
        else None
    end.

(** The constructor's limits on the number of elements of the pool of type [t]. *)
Definition MIN_BUF_SIZE : Z := 1.
Definition max_pool_size (t : Z) : Z :=
  nth (Z.to_nat t) [1048576; 1048576; 1048576; 131072; 2048; 2048; 2048] 0.
Definition limit_pool_size (t size : Z) : Z :=
  let s := if 0 =? size then MIN_BUF_SIZE else size in
  if s >? max_pool_size t then max_pool_size t else s.

(** The constructor followed by [Init]: the ring of the recovery, which the
    compile-time switch [TIMEOUT_FREE_SWITCH] leaves unused, then the seven
    pools; [None] is the error -1.  [mem t] are the results of the three
    [malloc] calls for the pool [t]. *)
Fixpoint create_pools (mem : Z -> bool * option Z * bool) (t : Z) (sizes : list Z) : option (list TranBufMng) :=
  match sizes with
  | [] => Some []
  | size :: sizes' =>
      m ← CreateTranBufPool (mem t).1.1 (mem t).1.2 (mem t).2 t (limit_pool_size t size);
      ms ← create_pools mem (t + 1) sizes'; Some (m :: ms)
  end.
Definition PoolInit (recovery : bool) (mem : Z -> bool * option Z * bool) (sizes : list Z) (now : Z)
    : option TranMemPool :=
  if recovery then ms ← create_pools mem 0 sizes; Some (mkPool ms 0 0 0 now) else None.

(** ** Allocation of an element *)
Section Mng.
Local Abbreviation M := (ST TranBufMng).

Definition word_at (i : Z) : M Z := m ← get_st; deref (used_bitmap m !! Z.to_nat i).

(** [for (pos_index = 0; bitmap_size > pos_index; ++pos_index)] *)
Fixpoint scan_words (n : nat) (pos_index bitmap_val : Z) : M (Z * Z) :=
  match n with
  | O => mret (pos_index, bitmap_val)
  | S n' =>
      v ← word_at pos_index;
      if v =? FULL_WORD then scan_words n' (pos_index + 1) v else mret (pos_index, v)
  end.

(** [while (0 != (bitmap_val & tmp_bit_val))] *)
Fixpoint zero_bit (fuel : nat) (bitmap_val tmp_bit_val j : Z) : M (Z * Z) :=
  if Z.land bitmap_val tmp_bit_val =? 0 then mret (tmp_bit_val, j)
  else match fuel with
       | O => fault
       | S fuel' => zero_bit fuel' bitmap_val (u64 (Z.shiftl tmp_bit_val 1)) (u32 (j + 1))
       end.

Definition set_word (i w : Z) (m : TranBufMng) : TranBufMng :=
  mkMng (pool_size m) (pool_header m) (pool_tail m) (last_free_pos m) (bitmap_size m)
    (<[Z.to_nat i := w]> (used_bitmap m)) (used_num m) (free_num m) (tran_buf_malloc_counter m)
    (tran_buf_free_counter m) (used_bit_abnormal_counter m) (overlay_mem_counter m) (tran_buf_pool m).
Definition set_elem (i : Z) (el : TranbufElement) (m : TranBufMng) : TranBufMng :=
  mkMng (pool_size m) (pool_header m) (pool_tail m) (last_free_pos m) (bitmap_size m) (used_bitmap m)
    (used_num m) (free_num m) (tran_buf_malloc_counter m) (tran_buf_free_counter m)
    (used_bit_abnormal_counter m) (overlay_mem_counter m) (<[Z.to_nat i := el]> (tran_buf_pool m)).
(** The position and the counters after an allocation ([malloc_stat]) or a
    release ([free_stat]). *)
Definition malloc_stat (pos : Z) (m : TranBufMng) : TranBufMng :=
  mkMng (pool_size m) (pool_header m) (pool_tail m) pos (bitmap_size m) (used_bitmap m)
    (u32 (used_num m + 1)) (u32 (free_num m - 1)) (u64 (tran_buf_malloc_counter m + 1))
    (tran_buf_free_counter m) (used_bit_abnormal_counter m) (overlay_mem_counter m) (tran_buf_pool m).
Definition free_stat (pos : Z) (m : TranBufMng) : TranBufMng :=
  mkMng (pool_size m) (pool_header m) (pool_tail m) pos (bitmap_size m) (used_bitmap m)
    (u32 (used_num m - 1)) (u32 (free_num m + 1)) (tran_buf_malloc_counter m)
    (u64 (tran_buf_free_counter m + 1)) (used_bit_abnormal_counter m) (overlay_mem_counter m) (tran_buf_pool m).
(** The checks that only count: a bit that disagrees, a damaged guard word. *)
Definition count_bad (bit guard : bool) (m : TranBufMng) : TranBufMng :=
  mkMng (pool_size m) (pool_header m) (pool_tail m) (last_free_pos m) (bitmap_size m) (used_bitmap m)
    (used_num m) (free_num m) (tran_buf_malloc_counter m) (tran_buf_free_counter m)
    (if bit then u64 (used_bit_abnormal_counter m + 1) else used_bit_abnormal_counter m)
    (if guard then u64 (overlay_mem_counter m + 1) else overlay_mem_counter m) (tran_buf_pool m).

(** [MallocTranBufElement] *)
Definition MallocTranBufElement (now : Z) : M (option Z) :=
  m ← get_st;
  let pos_index := Z.shiftr (last_free_pos m) 6 in
  bitmap_val ← word_at pos_index;
  pv ← (if bitmap_val =? FULL_WORD then scan_words (Z.to_nat (bitmap_size m)) 0 bitmap_val
        else mret (pos_index, bitmap_val));
  let (pos_index, bitmap_val) := pv : Z * Z in
  if bitmap_val =? FULL_WORD then mret None
  else
    tj ← zero_bit 64 bitmap_val 1 0;
    let (tmp_bit_val, j) := tj : Z * Z in
    _ ← mod_st (set_word pos_index (Z.lor bitmap_val tmp_bit_val));
    let pos := u32 (u32 (Z.shiftl pos_index 6) + j) in
    if pool_size m <=? pos then mret None
    else
      _ ← mod_st (malloc_stat pos);
      element ← deref (tran_buf_pool m !! Z.to_nat pos);
      _ ← mod_st (count_bad (usedFlag element) (negb (intact element)));
      let start := elem_start (bufType element) (pool_header m) pos in
      _ ← mod_st (set_elem pos (mkElem true (bufType element) 1 now start start start true));
      mret (Some start).

(** The part of [FreeTranBuf] after the element has been found. *)
Definition free_element (pos_index : Z) : M unit :=
  m ← get_st;
  element ← deref (tran_buf_pool m !! Z.to_nat pos_index);
  let refs := i16 (referenceCounter element - 1) in
  let element1 := mkElem (usedFlag element) (bufType element) refs (used_time_us element)
    (current_pack_pos element) (current_malloc_pos element) (sub_last_malloc_pos element) (intact element) in
  _ ← mod_st (set_elem pos_index element1);
  if (0 <? refs) || negb (usedFlag element) then mret tt
  else
    _ ← mod_st (free_stat pos_index);
    let bit := Z.shiftl 1 (Z.land pos_index 0x3F) in
    w ← word_at (Z.shiftr pos_index 6);
    _ ← mod_st (count_bad (Z.land w bit =? 0) (negb (intact element)));
    _ ← mod_st (set_word (Z.shiftr pos_index 6) (Z.ldiff w bit));
    let start := elem_start (bufType element) (pool_header m) pos_index in
    mod_st (set_elem pos_index (mkElem false (bufType element) 0 0 start start start true)).

(** The part of [TranBufUseRefAddOne] after the element has been found. *)
Definition addref_element (pos_index using_counter : Z) : M unit :=
  m ← get_st;
  element ← deref (tran_buf_pool m !! Z.to_nat pos_index);
  mod_st (set_elem pos_index (mkElem (usedFlag element) (bufType element)
    (i16 (referenceCounter element + using_counter)) (used_time_us element)
    (current_pack_pos element) (current_malloc_pos element) (sub_last_malloc_pos element) (intact element))).

End Mng.

(** ** The seven pools *)
Definition PM (A : Type) : Type := ST TranMemPool A.

Definition put_pool (k : Z) (m : TranBufMng) (p : TranMemPool) : TranMemPool :=
  mkPool (<[Z.to_nat k := m]> (pools p)) (buf_remalloc_sucess_counter p) (buf_remalloc_failed_counter p)
    (buf_malloc_failed_counter p) (sys_time p).
Definition count_remalloc (ok : bool) (p : TranMemPool) : TranMemPool :=
  mkPool (pools p) (u64 (buf_remalloc_sucess_counter p + ind ok))
    (u64 (buf_remalloc_failed_counter p + ind (negb ok))) (buf_malloc_failed_counter p) (sys_time p).
Definition count_failed (p : TranMemPool) : TranMemPool :=
  mkPool (pools p) (buf_remalloc_sucess_counter p) (buf_remalloc_failed_counter p)
    (u64 (buf_malloc_failed_counter p + 1)) (sys_time p).

(** An operation on the pool of type [k]. *)
Definition in_pool {A} (k : Z) (f : ST TranBufMng A) : PM A := fun p =>
  match pools p !! Z.to_nat k with
  | Some m => match f m with Some (a, m') => Some (a, put_pool k m' p) | None => None end
  | None => None
  end.

(** [TranBufToElement]: the pool and the index of the element that contains an
    address. *)
Fixpoint find_element (ms : list TranBufMng) (k : Z) (tran_buf : Z) : option (Z * Z) :=
  match ms with
  | [] => None
  | m :: ms' =>
      if (pool_header m <=? tran_buf) && (tran_buf <? pool_tail m) then
        let index := u32 (tran_buf - pool_header m) / element_size k in
        if pool_size m <=? index then None else Some (k, index)
      else find_element ms' (k + 1) tran_buf
  end.
Definition TranBufToElement (p : TranMemPool) (tran_buf : Z) : option (Z * Z) :=
  find_element (pools p) 0 tran_buf.

(** [CheckAddrIsValid]: 0 when the address is in one of the pools. *)
Definition CheckAddrIsValid (p : TranMemPool) (mem_addr : Z) : Z :=
  if existsb (fun m => (pool_header m <=? mem_addr) && (mem_addr <=? pool_tail m)) (pools p) then 0 else 1.

(** [TranBufUseRefAddOne(tran_buf, using_counter)] *)
Definition TranBufUseRefAddOne (tran_buf using_counter : Z) : PM (option Z) :=
  p ← get_st;
  match TranBufToElement p tran_buf with
  | None => mret None
  | Some (k, i) => _ ← in_pool k (addref_element i using_counter); mret (Some tran_buf)
  end.

(** [FreeTranBuf(tran_buf)] *)
Definition FreeTranBuf (tran_buf : Z) : PM unit :=
  p ← get_st;
  match TranBufToElement p tran_buf with
  | None => mret tt
  | Some (k, i) => in_pool k (free_element i)
  end.

(** [FreeTranBuf(tran_buf_vec, tran_buf_num)] *)
Fixpoint FreeTranBufVec (tran_buf_vec : list Z) : PM unit :=
  match tran_buf_vec with
  | [] => mret tt
  | tran_buf :: rest => _ ← FreeTranBuf tran_buf; FreeTranBufVec rest
  end.

(** The new buffer of [MallocTranBuf]: the pool asked for, else a larger one.
    The result is the buffer, its usable size and the address memory. *)
Fixpoint malloc_from (k : Z) (n : nat) : PM (option (Z * Z * Z)) :=
  match n with
  | O => _ ← mod_st count_failed; mret None
  | S n' =>
      p ← get_st;
      r ← in_pool k (MallocTranBufElement (sys_time p));
      match r with
      | Some new_buf => mret (Some (new_buf, payload_size k, new_buf - BUF_OFFSET_SIZE))
      | None => malloc_from (k + 1) n'
      end
  end.

(** The suballocation of [MallocTranBuf] in the buffer of [tran_buf].  The flag
    that should end the [goto] is never set: every round without room jumps
    back to the start. *)
Fixpoint remalloc (fuel : nat) (tran_buf current_pack_size : Z) : PM (option (Z * Z * Z)) :=
  p ← get_st;
  match TranBufToElement p tran_buf with
  | None => _ ← mod_st (count_remalloc false); mret None
  | Some (k, i) =>
      m ← deref (pools p !! Z.to_nat k);
      el ← deref (tran_buf_pool m !! Z.to_nat i);
      let limit := elem_start k (pool_header m) i + payload_size k - 1 in
      if limit <? current_malloc_pos el + BUF_OFFSET_SIZE + current_pack_size then
        match fuel with
        | O => fault
        | S fuel' => remalloc fuel' tran_buf current_pack_size
        end
      else
        let addr := current_malloc_pos el + current_pack_size in
        let pos := current_malloc_pos el + (BUF_OFFSET_SIZE + current_pack_size) in
        let last := if sub_last_malloc_pos el =? current_malloc_pos el then sub_last_malloc_pos el
                    else current_malloc_pos el in
        _ ← in_pool k (mod_st (set_elem i (mkElem (usedFlag el) (bufType el) (i16 (referenceCounter el + 1))
              (used_time_us el) (current_pack_pos el) pos last (intact el))));
        _ ← mod_st (count_remalloc true);
        mret (Some (pos, u32 (limit - pos), addr))
  end.

(** [MallocTranBuf]; [None] is a null [tran_buf]. *)
Definition MallocTranBuf (fuel : nat) (tran_buf : option Z) (current_pack_size buf_size_type : Z)
    : PM (option (Z * Z * Z)) :=
  match tran_buf with
  | None => if 7 <=? buf_size_type then mret None
            else malloc_from buf_size_type (Z.to_nat (7 - buf_size_type))
  | Some b => remalloc fuel b current_pack_size
  end.

(** [GetNextPack]: the packet behind the current one and its address memory. *)
Definition GetNextPack (current_pack_mem current_pack_size : Z) : PM (option (Z * Z)) :=
  if (current_pack_mem =? 0) || (current_pack_size =? 0) then mret None
  else
    p ← get_st;
    match TranBufToElement p current_pack_mem with
    | None => mret None
    | Some (k, i) =>
        m ← deref (pools p !! Z.to_nat k);
        el ← deref (tran_buf_pool m !! Z.to_nat i);
        if negb (current_pack_mem =? current_pack_pos el) then mret None
        else
          let next_pack := current_pack_pos el + current_pack_size + BUF_OFFSET_SIZE in
          if elem_start k (pool_header m) i + payload_size k <=? next_pack then mret None
          else
            _ ← in_pool k (mod_st (set_elem i (mkElem (usedFlag el) (bufType el) (referenceCounter el)
                  (used_time_us el) next_pack (current_malloc_pos el) (sub_last_malloc_pos el) (intact el))));
            mret (Some (next_pack, current_pack_pos el + current_pack_size))
    end.

(** [GetTranMemPoolUsedState] *)
Definition GetTranMemPoolUsedState (p : TranMemPool) : Z * Z :=
  (foldl (fun n m => u32 (n + used_num m)) 0 (pools p), foldl (fun n m => u32 (n + free_num m)) 0 (pools p)).

End TranPool.
