(* ===== verification/TranPoolSpec.v ===== *)
(** * Correctness of the transport buffer pool

    The bitmap, the flags, the reference counters and the statistics of a pool
    always agree; an allocation yields an unused element, the counters move by
    one, and the interface of PoolInterface.v holds. *)
From S2P Require Import Prelude Bitmap PoolInterface TranPool.
Export Bitmap TranPool.

Module TranPoolSpec.

(** ** The invariant *)

Definition elem_ok (t : Z) (bm : list Z) (i : Z) (el : TranbufElement) : Prop :=
  bufType el = t /\ 0 <= referenceCounter el <= REF_LIMIT /\
  usedFlag el = (0 <? referenceCounter el) /\ bit_of bm i = usedFlag el.

Record mng_ok (t : Z) (m : TranBufMng) : Prop := {
  mo_size : 0 < bitmap_size m /\ pool_size m = 64 * bitmap_size m /\ pool_size m <= 2 ^ 20;
  mo_mem : 0 <= pool_header m /\ pool_tail m = pool_header m + element_size t * pool_size m /\
    element_size t * pool_size m < 2 ^ 32;
  mo_bits : length (used_bitmap m) = Z.to_nat (bitmap_size m);
  mo_words : Forall (fun w => 0 <= w < 2 ^ 64) (used_bitmap m);
  mo_len : length (tran_buf_pool m) = Z.to_nat (pool_size m);
  mo_last : 0 <= last_free_pos m < pool_size m;
  mo_elems : forall i el, 0 <= i -> tran_buf_pool m !! Z.to_nat i = Some el -> elem_ok t (used_bitmap m) i el;
  mo_count : used_num m = countb usedFlag (tran_buf_pool m) /\ free_num m = pool_size m - used_num m
}.

Definition refs_of (m : TranBufMng) (i : Z) : Z :=
  match tran_buf_pool m !! Z.to_nat i with Some el => referenceCounter el | None => 0 end.

(** [zero_bit] finds the lowest clear bit. *)
Lemma wp_zero_bit fuel w j s :
  0 <= w < 2 ^ 64 -> w <> FULL_WORD -> 0 <= j <= 64 -> (Z.to_nat (64 - j) <= fuel)%nat ->
  (forall i, 0 <= i < j -> Z.testbit w i = true) ->
  wp (zero_bit fuel w (2 ^ j mod 2 ^ 64) j) (fun tj s' => s' = s /\
    exists i, tj = (2 ^ i, i) /\ j <= i < 64 /\ Z.testbit w i = false) s.
Proof.
  intros Hw Hne. revert j. induction fuel as [|fuel IH]; intros j Hj Hfuel Hlow.
  - assert (j = 64) by lia. subst j. exfalso. apply Hne. by apply full_word.
  - cbn [zero_bit]. destruct (decide (j = 64)) as [->|Hj64]; [exfalso; apply Hne; by apply full_word|].
    assert (Hsm : 2 ^ j mod 2 ^ 64 = 2 ^ j).
    { apply Z.mod_small. split; [lia|]. apply Z.pow_lt_mono_r; lia. }
    rewrite Hsm, land_pow2_zero by lia. destruct (Z.testbit w j) eqn:Ht; cbn [negb].
    + assert (u64 (Z.shiftl (2 ^ j) 1) = 2 ^ (j + 1) mod 2 ^ 64) as ->.
      { rewrite Z.shiftl_mul_pow2, Z.pow_add_r by lia. done. }
      rewrite u32_small by lia. wp_use IH; [lia|lia| |].
      * intros i Hi. destruct (decide (i = j)) as [->|]; [done|]. apply Hlow. lia.
      * intros tj s' (-> & i & -> & Hi & Hti). split; [done|]. exists i. split; [done|]. split; [lia|done].
    + apply wp_ret. split; [done|]. exists j. split; [done|]. split; [lia|done].
Qed.

(** [scan_words] finds a word that is not full, if there is one. *)
Lemma wp_scan_words n i v m :
  0 <= i -> i + Z.of_nat n = Z.of_nat (length (used_bitmap m)) -> v = FULL_WORD ->
  wp (scan_words n i v) (fun pv m' => m' = m /\
    (pv.2 = FULL_WORD /\ (forall k w, i <= k -> used_bitmap m !! Z.to_nat k = Some w -> w = FULL_WORD) \/
     (pv.2 <> FULL_WORD /\ 0 <= pv.1 /\ used_bitmap m !! Z.to_nat pv.1 = Some pv.2))) m.
Proof.
  revert i v. induction n as [|n IH]; intros i v Hi Hn Hv; cbn [scan_words].
  { apply wp_ret. split; [done|]. left. split; [done|]. intros k w Hk Hw. apply lookup_lt_Some in Hw. lia. }
  destruct (lookup_lt_is_Some_2 (used_bitmap m) (Z.to_nat i)) as [w Hw]; [lia|].
  unfold word_at. wp_steps. eapply wp_deref; [exact Hw|]. wp_steps.
  - match goal with Hq : (w =? _) = true |- _ => apply Z.eqb_eq in Hq as -> end.
    wp_use IH; [lia|lia|done|]. intros pv m' (-> & [[Hf Hall]|?]); split; auto. left. split; [done|].
    intros k w' Hk Hw'. destruct (decide (k = i)) as [->|]; [congruence|]. apply (Hall k); [lia|done].
  - split; [done|]. right. split; [by apply Z.eqb_neq|]. done.
Qed.

(** ** Updating one element *)

(** The element [pos] and its bit replaced, the statistics following. *)
Lemma mng_ok_update t m m' pos el el' w b :
  mng_ok t m -> 0 <= pos < pool_size m -> tran_buf_pool m !! Z.to_nat pos = Some el ->
  used_bitmap m !! Z.to_nat (pos / 64) = Some w ->
  pool_size m' = pool_size m -> pool_header m' = pool_header m -> pool_tail m' = pool_tail m ->
  bitmap_size m' = bitmap_size m -> 0 <= last_free_pos m' < pool_size m ->
  used_bitmap m' = <[Z.to_nat (pos / 64) := if b : bool then Z.lor w (2 ^ (pos mod 64))
                                             else Z.ldiff w (2 ^ (pos mod 64))]> (used_bitmap m) ->
  tran_buf_pool m' = <[Z.to_nat pos := el']> (tran_buf_pool m) ->
  bufType el' = t -> 0 <= referenceCounter el' <= REF_LIMIT ->
  usedFlag el' = (0 <? referenceCounter el') -> usedFlag el' = b ->
  used_num m' = used_num m - ind (usedFlag el) + ind b ->
  free_num m' = free_num m + ind (usedFlag el) - ind b -> mng_ok t m'.
Proof.
  intros [Hs Hm Hb Hw Hl Hlf He Hc] Hpos Hel Hwd E1 E2 E3 E4 E5 E6 E7 Ht Hr Hu Hub Hn Hfr.
  pose proof (Z.mod_pos_bound pos 64 ltac:(lia)) as Hmod. pose proof (Z.div_mod pos 64 ltac:(lia)) as Hdm.
  pose proof (Z.div_pos pos 64 ltac:(lia) ltac:(lia)) as Hdp.
  assert (Hword : 0 <= w < 2 ^ 64) by exact (Forall_lookup_1 _ _ _ _ Hw Hwd).
  split; rewrite ?E1, ?E2, ?E3, ?E4; try done.
  - by rewrite E6, length_insert.
  - rewrite E6. apply words_insert; [done|]. destruct b; [by apply word_lor|by apply word_ldiff].
  - by rewrite E7, length_insert.
  - intros i e Hi Hie. rewrite E7 in Hie. rewrite E6.
    assert (Hbit : bit_of (<[Z.to_nat (pos / 64) := if b then Z.lor w (2 ^ (pos mod 64))
       else Z.ldiff w (2 ^ (pos mod 64))]> (used_bitmap m)) i = if i =? pos then b else bit_of (used_bitmap m) i).
    { rewrite (bit_of_insert _ (pos / 64) w (pos mod 64)) by (done || lia). by rewrite <- Hdm. }
    unfold elem_ok. rewrite Hbit. destruct (Z.eqb_spec i pos) as [->|Hne].
    + rewrite list_lookup_insert_eq in Hie by (by eapply lookup_lt_Some). simplify_eq. done.
    + rewrite list_lookup_insert_ne in Hie by lia. exact (He i e Hi Hie).
  - destruct Hc as [Hc1 Hc2]. rewrite E7, (countb_insert _ _ _ el) by done. rewrite Hub. lia.
Qed.

Lemma refs_of_update m m' pos el el' :
  0 <= pos -> tran_buf_pool m !! Z.to_nat pos = Some el ->
  tran_buf_pool m' = <[Z.to_nat pos := el']> (tran_buf_pool m) ->
  forall i, 0 <= i -> refs_of m' i = refs_of m i + (if i =? pos then referenceCounter el' - referenceCounter el else 0).
Proof.
  intros Hp Hel Hm i Hi. unfold refs_of. rewrite Hm. destruct (Z.eqb_spec i pos) as [->|Hne].
  - rewrite list_lookup_insert_eq by (by eapply lookup_lt_Some). rewrite Hel. lia.
  - rewrite list_lookup_insert_ne by lia. lia.
Qed.

(** What an operation on a pool leaves alone. *)
Definition same_pool (m m' : TranBufMng) : Prop :=
  pool_size m' = pool_size m /\ pool_header m' = pool_header m /\ pool_tail m' = pool_tail m.

Lemma mo_elem_at t m i : mng_ok t m -> 0 <= i < pool_size m ->
  exists el, tran_buf_pool m !! Z.to_nat i = Some el /\ elem_ok t (used_bitmap m) i el.
Proof.
  intros Hm Hi. destruct (lookup_lt_is_Some_2 (tran_buf_pool m) (Z.to_nat i)) as [el Hel].
  { rewrite (mo_len _ _ Hm). lia. }
  exists el. split; [done|]. by apply (mo_elems _ _ Hm); [lia|].
Qed.
Lemma mo_word_at t m i : mng_ok t m -> 0 <= i < pool_size m ->
  exists w, used_bitmap m !! Z.to_nat (i / 64) = Some w /\ 0 <= w < 2 ^ 64.
Proof.
  intros Hm Hi. destruct (mo_size _ _ Hm) as (Hb & Hs & _).
  destruct (lookup_lt_is_Some_2 (used_bitmap m) (Z.to_nat (i / 64))) as [w Hw].
  { rewrite (mo_bits _ _ Hm). assert (i / 64 < bitmap_size m) by (apply Z.div_lt_upper_bound; lia).
    pose proof (Z.div_pos i 64). lia. }
  exists w. split; [done|]. exact (Forall_lookup_1 _ _ _ _ (mo_words _ _ Hm) Hw).
Qed.


(** ** One pool *)

(** An element of the pool is free exactly when its bit is clear. *)
Lemma full_words_used t m i el :
  mng_ok t m -> 0 <= i < pool_size m ->
  (forall k w, 0 <= k -> used_bitmap m !! Z.to_nat k = Some w -> w = FULL_WORD) ->
  tran_buf_pool m !! Z.to_nat i = Some el -> usedFlag el = true.
Proof.
  intros Hm Hi Hall Hel. destruct (mo_word_at t m i Hm Hi) as (w & Hw & _).
  pose proof (Z.div_pos i 64 ltac:(lia) ltac:(lia)) as Hd. pose proof (Z.mod_pos_bound i 64 ltac:(lia)) as Hmod.
  destruct (mo_elems _ _ Hm i el ltac:(lia) Hel) as (_ & _ & _ & Hbit).
  rewrite <- Hbit. unfold bit_of. rewrite Hw. rewrite (Hall (i / 64) w) by done.
  change FULL_WORD with (Z.ones 64). by rewrite Z.ones_spec_low.
Qed.



Definition took (t : Z) (m m' : TranBufMng) (i a : Z) : Prop :=
  0 <= i < pool_size m /\ a = elem_start t (pool_header m) i /\ refs_of m i = 0 /\
  forall j, 0 <= j -> refs_of m' j = refs_of m j + ind (j =? i).

Lemma used_free_stat t m : mng_ok t m -> 0 <= used_num m <= pool_size m /\ 0 <= free_num m <= pool_size m.
Proof.
  intros Hm. destruct (mo_count _ _ Hm) as [Hu Hf]. pose proof (countb_le usedFlag (tran_buf_pool m)) as Hc.
  rewrite (mo_len _ _ Hm) in Hc. destruct (mo_size _ _ Hm). lia.
Qed.

Lemma wp_MallocTranBufElement t now m :
  mng_ok t m ->
  wp (MallocTranBufElement now) (fun r m' => mng_ok t m' /\ same_pool m m' /\
    match r with
    | None => m' = m /\ free_num m = 0
    | Some a => exists i, took t m m' i a
    end) m.
Proof.
  intros Hm. destruct (mo_size _ _ Hm) as (Hb & Hsz & Hmax). pose proof (mo_last _ _ Hm) as Hlast.
  unfold MallocTranBufElement. wp_steps. rewrite Z.shiftr_div_pow2 by lia. change (2 ^ 6) with 64.
  destruct (mo_word_at t m _ Hm Hlast) as (w0 & Hw0 & _). unfold word_at at 1. wp_steps.
  eapply wp_deref; [exact Hw0|]. apply wp_bind.
  eapply (wp_mono _ (fun pv m' => m' = m /\
    (pv.2 = FULL_WORD /\ (forall k w, 0 <= k -> used_bitmap m !! Z.to_nat k = Some w -> w = FULL_WORD) \/
     (pv.2 <> FULL_WORD /\ 0 <= pv.1 /\ used_bitmap m !! Z.to_nat pv.1 = Some pv.2)))).
  { wp_steps.
    - wp_use wp_scan_words; [lia|rewrite (mo_bits _ _ Hm); lia|by apply Z.eqb_eq|]. done.
    - split; [done|]. right. split; [by apply Z.eqb_neq|]. split; [apply Z.div_pos; lia|done]. }
  intros [pos_index w] m1 (-> & Hfound). cbn [fst snd] in Hfound. wp_steps;
    match goal with Hq : (w =? _) = _ |- _ => rename Hq into Hfull end.
  { split; [done|]. split; [done|]. split; [done|]. apply Z.eqb_eq in Hfull.
    destruct Hfound as [[_ Hall]|[? _]]; [|done]. destruct (mo_count _ _ Hm) as [Hu Hf].
    rewrite Hf, Hu, countb_all; [rewrite (mo_len _ _ Hm); lia|]. intros el Hel.
    apply list_elem_of_lookup in Hel as [i Hi]. pose proof (lookup_lt_Some _ _ _ Hi) as Hlt.
    rewrite (mo_len _ _ Hm) in Hlt. eapply (full_words_used t m (Z.of_nat i)); [done|lia|done|].
    by rewrite Nat2Z.id. }
  apply Z.eqb_neq in Hfull. destruct Hfound as [[? _]|(_ & Hp0 & Hw)]; [done|].
  assert (Hp1 : pos_index < bitmap_size m).
  { pose proof (lookup_lt_Some _ _ _ Hw) as Hlt. rewrite (mo_bits _ _ Hm) in Hlt. lia. }
  pose proof (Forall_lookup_1 _ _ _ _ (mo_words _ _ Hm) Hw) as Hword. cbn beta in Hword.
  change 1 with (2 ^ 0 mod 2 ^ 64) at 1. wp_use wp_zero_bit; [done|done|lia|lia|lia|].
  intros tj m1 (-> & j & -> & Hj & Hclear).
  assert (Hposeq : u32 (u32 (Z.shiftl pos_index 6) + j) = pos_index * 64 + j).
  { rewrite Z.shiftl_mul_pow2 by lia. change (2 ^ 6) with 64. by rewrite !u32_small by (rewrite ?u32_small by lia; lia). }
  rewrite Hposeq. clear Hposeq.
  set (pos := pos_index * 64 + j) in *. assert (Hpos : 0 <= pos < pool_size m) by lia.
  assert (Hdiv : pos / 64 = pos_index) by (unfold pos; rewrite Z.add_comm, Z.div_add, Z.div_small by lia; lia).
  assert (Hmod : pos mod 64 = j) by (unfold pos; rewrite Z.add_comm, Z.mod_add, Z.mod_small by lia; lia).
  assert (Hin : (pool_size m <=? pos) = false) by lia. rewrite Hin.
  destruct (mo_elem_at t m pos Hm Hpos) as (el & Hel & Ht & Href & Hused & Hbit).
  assert (Hfree : usedFlag el = false).
  { rewrite <- Hbit. unfold bit_of. by rewrite Hdiv, Hw, Hmod. }
  assert (Hr0 : referenceCounter el = 0) by (rewrite Hfree in Hused; lia).
  wp_steps. eapply wp_deref; [exact Hel|]. wp_steps.
  pose proof (used_free_stat _ _ Hm) as Hstat. destruct (mo_count _ _ Hm) as [Hu Hf].
  set (el' := mkElem true _ 1 _ _ _ _ _). set (m' := set_elem _ _ _).
  assert (Hc : countb usedFlag (<[Z.to_nat pos := el']> (tran_buf_pool m)) = used_num m + 1).
  { rewrite (countb_insert _ _ _ el) by done. rewrite Hfree, Hu. cbn [ind usedFlag el']. lia. }
  pose proof (countb_le usedFlag (<[Z.to_nat pos := el']> (tran_buf_pool m))) as Hle.
  rewrite Hc, length_insert, (mo_len _ _ Hm) in Hle.
  split; [|split; [done|]].
  - eapply (mng_ok_update t m m' pos el el' w true); try done; try lia.
    + by rewrite Hdiv.
    + cbn -[insert]. by rewrite Hdiv, Hmod.
    + cbn. rewrite u32_small by lia. rewrite Hfree. cbn. lia.
    + cbn. rewrite u32_small by lia. rewrite Hfree. cbn. lia.
  - exists pos. split; [done|]. split; [by rewrite Ht|].
    split; [unfold refs_of; by rewrite Hel|]. intros i Hi.
    rewrite (refs_of_update m m' pos el el') by (done || lia). cbn [referenceCounter el']. rewrite Hr0.
    destruct (i =? pos); cbn [ind]; lia.
Qed.

Lemma i16_small z : 0 <= z <= REF_LIMIT -> i16 z = z.
Proof.
  intros Hz. unfold i16, swrap, REF_LIMIT in *. change (2 ^ 16) with 65536. change (2 ^ (16 - 1)) with 32768.
  rewrite Z.mod_small by lia. destruct (Z.ltb_spec z 32768); lia.
Qed.

Lemma wp_free_element t i m :
  mng_ok t m -> 0 <= i < pool_size m -> 0 < refs_of m i ->
  wp (free_element i) (fun _ m' => mng_ok t m' /\ same_pool m m' /\
    forall j, 0 <= j -> refs_of m' j = refs_of m j - ind (j =? i)) m.
Proof.
  intros Hm Hi Hr. destruct (mo_elem_at t m i Hm Hi) as (el & Hel & Ht & Href & Hused & Hbit).
  unfold refs_of in Hr. rewrite Hel in Hr.
  assert (Hu : usedFlag el = true) by (rewrite Hused; lia).
  destruct (mo_word_at t m i Hm Hi) as (w & Hw & Hword).
  pose proof (Z.div_pos i 64 ltac:(lia) ltac:(lia)) as Hd. pose proof (Z.mod_pos_bound i 64 ltac:(lia)) as Hmod.
  pose proof (used_free_stat _ _ Hm) as Hstat. destruct (mo_count _ _ Hm) as [Hcu Hcf].
  destruct (mo_size _ _ Hm) as (_ & Hsz & Hmax).
  assert (Hself : forall b, <[Z.to_nat (i / 64) := w]> (used_bitmap m) = used_bitmap m /\ b = b)
    by (intros; split; [by apply list_insert_id|done]).
  unfold free_element. wp_steps. eapply wp_deref; [exact Hel|]. rewrite i16_small by lia. rewrite Hu. cbn [negb].
  wp_steps; match goal with Hq : _ || _ = _ |- _ => rewrite orb_false_r in Hq; rename Hq into Hpos end.
  - set (el' := mkElem _ _ _ _ _ _ _ _). set (m' := set_elem _ _ _).
    assert (Hbm : used_bitmap m = <[Z.to_nat (i / 64) := Z.lor w (2 ^ (i mod 64))]> (used_bitmap m)).
    { assert (Z.lor w (2 ^ (i mod 64)) = w) as ->; [|by rewrite list_insert_id].
      apply Z.bits_inj'. intros k Hk. rewrite Z.lor_spec, Z.pow2_bits_eqb by lia.
      destruct (Z.eqb_spec (i mod 64) k) as [<-|]; [|by rewrite orb_false_r].
      unfold bit_of in Hbit. rewrite Hw in Hbit. rewrite Hbit, Hu. done. }
    split; [|split; [done|]].
    + eapply (mng_ok_update t m m' i el el' w true); try done; try (rewrite Hu; cbn; lia).
      * apply (mo_last _ _ Hm).
      * cbn. lia.
    + intros j Hj. rewrite (refs_of_update m m' i el el') by (done || lia). cbn [referenceCounter el'].
      destruct (j =? i); cbn [ind]; lia.
  - assert (Hr1 : referenceCounter el = 1) by lia.
    rewrite Z.shiftr_div_pow2 by lia. change (2 ^ 6) with 64. unfold word_at. wp_steps.
    eapply wp_deref; [exact Hw|]. wp_steps.
    assert (Z.land i 0x3F = i mod 64) as -> by exact (land_mask i 6 ltac:(lia)). rewrite Z.shiftl_1_l.
    set (el' := mkElem false _ _ _ _ _ _ _). set (m' := set_elem _ el' _).
    assert (Hc : countb usedFlag (<[Z.to_nat i := el']> (tran_buf_pool m)) = used_num m - 1).
    { rewrite (countb_insert _ _ _ el) by done. rewrite Hu, Hcu. cbn [ind usedFlag el']. lia. }
    pose proof (countb_le usedFlag (<[Z.to_nat i := el']> (tran_buf_pool m))) as Hle. rewrite Hc in Hle.
    split; [|split; [done|]].
    + eapply (mng_ok_update t m m' i el el' w false); try done; try (rewrite Hu; cbn; lia).
      * cbn -[insert]. by rewrite list_insert_insert_eq.
      * cbn. rewrite u32_small by lia. rewrite Hu. cbn. lia.
      * cbn. rewrite u32_small by lia. rewrite Hu. cbn. lia.
    + intros j Hj. rewrite (refs_of_update m m' i el el'); try done; try lia.
      * cbn [referenceCounter el']. destruct (j =? i); cbn [ind]; lia.
      * cbn -[insert]. by rewrite list_insert_insert_eq.
Qed.

Lemma wp_addref_element t i m :
  mng_ok t m -> 0 <= i < pool_size m -> 0 < refs_of m i < REF_LIMIT ->
  wp (addref_element i 1) (fun _ m' => mng_ok t m' /\ same_pool m m' /\
    forall j, 0 <= j -> refs_of m' j = refs_of m j + ind (j =? i)) m.
Proof.
  intros Hm Hi Hr. destruct (mo_elem_at t m i Hm Hi) as (el & Hel & Ht & Href & Hused & Hbit).
  unfold refs_of in Hr. rewrite Hel in Hr.
  assert (Hu : usedFlag el = true) by (rewrite Hused; lia).
  destruct (mo_word_at t m i Hm Hi) as (w & Hw & Hword). pose proof (Z.mod_pos_bound i 64 ltac:(lia)) as Hmod.
  pose proof (mo_count _ _ Hm) as [Hcu Hcf].
  unfold addref_element. wp_steps. eapply wp_deref; [exact Hel|]. rewrite i16_small by lia. wp_steps.
  set (el' := mkElem _ _ _ _ _ _ _ _). set (m' := set_elem _ _ _).
  assert (Hbm : used_bitmap m = <[Z.to_nat (i / 64) := Z.lor w (2 ^ (i mod 64))]> (used_bitmap m)).
  { assert (Z.lor w (2 ^ (i mod 64)) = w) as ->; [|by rewrite list_insert_id].
    apply Z.bits_inj'. intros k Hk. rewrite Z.lor_spec, Z.pow2_bits_eqb by lia.
    destruct (Z.eqb_spec (i mod 64) k) as [<-|]; [|by rewrite orb_false_r].
    unfold bit_of in Hbit. rewrite Hw in Hbit. rewrite Hbit, Hu. done. }
  split; [|split; [done|]].
  - eapply (mng_ok_update t m m' i el el' w true); try done; try (rewrite Hu; cbn; lia).
    + apply (mo_last _ _ Hm).
    + cbn. lia.
    + cbn. rewrite Hu. lia.
  - intros j Hj. rewrite (refs_of_update m m' i el el') by (done || lia). cbn [referenceCounter el'].
    destruct (j =? i); cbn [ind]; lia.
Qed.


(** ** The seven pools *)
Record pool_ok (p : TranMemPool) : Prop := {
  po_len : length (pools p) = 7%nat;
  po_mng : forall k m, 0 <= k -> pools p !! Z.to_nat k = Some m -> mng_ok k m;
  po_disjoint : forall i j m m', i <> j -> pools p !! i = Some m -> pools p !! j = Some m' ->
    pool_tail m <= pool_header m' \/ pool_tail m' <= pool_header m
}.

(** An element: the pool's type and the index. *)
Definition refs (p : TranMemPool) (e : Z * Z) : Z :=
  if (0 <=? e.1) && (0 <=? e.2) then
    match pools p !! Z.to_nat e.1 with Some m => refs_of m e.2 | None => 0 end
  else 0.
Definition elem_addr (p : TranMemPool) (e : Z * Z) : Z :=
  match pools p !! Z.to_nat e.1 with Some m => elem_start e.1 (pool_header m) e.2 | None => 0 end.
Definition is_elem (p : TranMemPool) (e : Z * Z) : Prop :=
  0 <= e.1 /\ exists m, pools p !! Z.to_nat e.1 = Some m /\ 0 <= e.2 < pool_size m.

Lemma payload_range t : 0 <= t < 7 -> 256 <= payload_size t <= 65536.
Proof.
  intros Ht. assert (t = 0 \/ t = 1 \/ t = 2 \/ t = 3 \/ t = 4 \/ t = 5 \/ t = 6) as Hc by lia.
  destruct Hc as [->|[->|[->|[->|[->|[->| ->]]]]]]; vm_compute; split; discriminate.
Qed.
Lemma payload_mono t t' : 0 <= t -> t <= t' < 7 -> payload_size t <= payload_size t'.
Proof.
  intros Ht Ht'. assert (Hc : forall x, 0 <= x < 7 -> x = 0 \/ x = 1 \/ x = 2 \/ x = 3 \/ x = 4 \/ x = 5 \/ x = 6)
    by lia.
  destruct (Hc t ltac:(lia)) as [->|[->|[->|[->|[->|[->| ->]]]]]];
    destruct (Hc t' ltac:(lia)) as [->|[->|[->|[->|[->|[->| ->]]]]]]; try lia; vm_compute; discriminate.
Qed.

Lemma find_element_at ms k j m addr :
  ms !! j = Some m -> pool_header m <= addr < pool_tail m ->
  (forall j' m', (j' < j)%nat -> ms !! j' = Some m' -> ~ (pool_header m' <= addr < pool_tail m')) ->
  find_element ms k addr =
    let index := u32 (addr - pool_header m) / element_size (k + Z.of_nat j) in
    if pool_size m <=? index then None else Some (k + Z.of_nat j, index).
Proof.
  revert k j. induction ms as [|m0 ms IH]; intros k [|j] Hm Hr Hlow; try done; cbn [find_element].
  - cbn in Hm. simplify_eq. rewrite (proj2 (Z.leb_le _ _)), (proj2 (Z.ltb_lt _ _)) by lia.
    cbn [andb]. cbv zeta. by replace (k + Z.of_nat 0) with k by lia.
  - pose proof (Hlow O m0 ltac:(lia) eq_refl) as H0.
    destruct ((pool_header m0 <=? addr) && (addr <? pool_tail m0)) eqn:Hb.
    { exfalso. apply H0. apply andb_true_iff in Hb. lia. }
    rewrite (IH (k + 1) j Hm Hr); [by replace (k + 1 + Z.of_nat j) with (k + Z.of_nat (S j)) by lia|].
    intros j' m' Hj Hm'. apply (Hlow (S j')); [lia|done].
Qed.

Lemma find_elem_addr p e : pool_ok p -> is_elem p e -> TranBufToElement p (elem_addr p e) = Some e.
Proof.
  intros [Hlen Hmng Hdis] (Hk & m & Hm & Hi). destruct e as [k i]. cbn [fst snd] in *.
  pose proof (Hmng k m Hk Hm) as Hok. destruct (mo_mem _ _ Hok) as (Hh & Ht & H32).
  assert (Hk7 : 0 <= k < 7) by (apply lookup_lt_Some in Hm; lia).
  pose proof (payload_range k Hk7) as Hpl. unfold elem_addr. cbn [fst snd]. rewrite Hm.
  assert (Hes : element_size k = payload_size k + 336) by (unfold element_size, ELEMENT_HEAD, BUF_OFFSET_SIZE; lia).
  unfold elem_start, ELEMENT_HEAD, BUF_OFFSET_SIZE.
  assert (Hlt : element_size k * i + 328 < element_size k * pool_size m) by nia.
  unfold TranBufToElement. rewrite (find_element_at _ 0 (Z.to_nat k) m).
  - cbv zeta. rewrite Z.add_0_l, Z2Nat.id by lia.
    replace (pool_header m + element_size k * i + 40 + 288 - pool_header m) with (i * element_size k + 328) by lia.
    rewrite u32_small by nia. rewrite Z.div_add_l, Z.div_small by lia. rewrite Z.add_0_r.
    by rewrite (proj2 (Z.leb_gt _ _)) by lia.
  - done.
  - nia.
  - intros j m' Hj Hm'. destruct (Hdis j (Z.to_nat k) m' m ltac:(lia) Hm' Hm) as [?|?]; nia.
Qed.

Lemma refs_pos_elem p e : pool_ok p -> 0 < refs p e -> is_elem p e.
Proof.
  intros [Hlen Hmng Hdis] Hr. unfold refs in Hr. destruct e as [k i]. cbn [fst snd] in *.
  destruct (_ && _) eqn:Hb; [|lia]. apply andb_true_iff in Hb as [Hk Hi].
  destruct (pools p !! Z.to_nat k) as [m|] eqn:Hm; [|lia]. split; [cbn; lia|]. exists m. split; [done|].
  unfold refs_of in Hr. destruct (tran_buf_pool m !! Z.to_nat i) as [el|] eqn:Hel; [|lia].
  apply lookup_lt_Some in Hel. rewrite (mo_len k m) in Hel by (apply Hmng; [lia|done]). cbn. lia.
Qed.

Lemma put_pool_ok k m m' p :
  pool_ok p -> 0 <= k -> pools p !! Z.to_nat k = Some m -> mng_ok k m' -> same_pool m m' -> pool_ok (put_pool k m' p).
Proof.
  intros [Hlen Hmng Hdis] Hk Hm Hm' (Es & Eh & Et). pose proof (lookup_lt_Some _ _ _ Hm) as Hlt.
  split; cbn -[insert].
  - by rewrite length_insert.
  - intros j mj Hj Hmj. destruct (decide (Z.to_nat j = Z.to_nat k)) as [He|Hne].
    + assert (j = k) as -> by lia. rewrite list_lookup_insert_eq in Hmj by done. by simplify_eq.
    + rewrite list_lookup_insert_ne in Hmj by done. by apply Hmng.
  - intros i j mi mj Hij Hmi Hmj.
    destruct (decide (i = Z.to_nat k)) as [->|Hi], (decide (j = Z.to_nat k)) as [->|Hj]; try done.
    + rewrite list_lookup_insert_eq in Hmi by done. rewrite list_lookup_insert_ne in Hmj by done. simplify_eq.
      rewrite Eh, Et. by apply (Hdis (Z.to_nat k) j).
    + rewrite list_lookup_insert_eq in Hmj by done. rewrite list_lookup_insert_ne in Hmi by done. simplify_eq.
      rewrite Eh, Et. by apply (Hdis i (Z.to_nat k)).
    + rewrite list_lookup_insert_ne in Hmi, Hmj by done. by apply (Hdis i j).
Qed.

(** A change of one counter of one pool is a change of one reference count. *)
Lemma refs_put_pool k m m' i c p :
  0 <= k -> pools p !! Z.to_nat k = Some m -> 0 <= i ->
  (forall j, 0 <= j -> refs_of m' j = refs_of m j + c * ind (j =? i)) ->
  forall e, refs (put_pool k m' p) e = refs p e + c * ind (bool_decide (e = (k, i))).
Proof.
  intros Hk Hm Hi Hr [k' i']. pose proof (lookup_lt_Some _ _ _ Hm) as Hlt. unfold refs. cbn -[insert Z.leb bool_decide].
  destruct (Z.leb_spec 0 k'), (Z.leb_spec 0 i'); cbn [andb];
    try (rewrite bool_decide_false by (intros [= -> ->]; lia); cbn; lia).
  destruct (decide (k' = k)) as [->|Hne].
  - rewrite list_lookup_insert_eq, Hm by done. rewrite Hr by done. f_equal. f_equal.
    destruct (Z.eqb_spec i' i) as [->|Hni]; [by rewrite bool_decide_true|].
    by rewrite bool_decide_false by congruence.
  - rewrite list_lookup_insert_ne by lia. rewrite bool_decide_false by congruence. cbn. lia.
Qed.

Lemma wp_in_pool {A} k (f : ST TranBufMng A) m (Q : A -> TranMemPool -> Prop) p :
  pools p !! Z.to_nat k = Some m -> wp f (fun a m' => Q a (put_pool k m' p)) m -> wp (in_pool k f) Q p.
Proof.
  intros Hm. unfold wp, in_pool. rewrite Hm. by destruct (f m) as [[a m']|].
Qed.

Lemma wp_TranBufUseRefAddOne p e :
  pool_ok p -> 0 < refs p e < REF_LIMIT ->
  wp (TranBufUseRefAddOne (elem_addr p e) 1) (fun r p' => r = Some (elem_addr p e) /\ pool_ok p' /\
    forall x, refs p' x = refs p x + ind (bool_decide (x = e))) p.
Proof.
  intros Hp Hr. destruct (refs_pos_elem p e Hp ltac:(lia)) as (Hk & m & Hm & Hi).
  unfold TranBufUseRefAddOne. wp_steps. rewrite find_elem_addr by (done || by split; [|exists m]).
  destruct e as [k i]. cbn [fst snd] in *. wp_steps. eapply wp_in_pool; [done|].
  unfold refs in Hr. cbn [fst snd] in Hr. rewrite Hm in Hr.
  rewrite (proj2 (Z.leb_le _ _)), (proj2 (Z.leb_le _ _)) in Hr by lia. cbn [andb] in Hr.
  wp_use (wp_addref_element k); [by eapply po_mng|done|done|]. intros _ m' (Hm' & Hs & Hrefs). wp_steps.
  split; [done|]. split; [by eapply put_pool_ok|]. intros x.
  rewrite (refs_put_pool k m m' i 1) by (done || lia || (intros; rewrite Hrefs by done; lia)). lia.
Qed.

Lemma wp_FreeTranBuf p e :
  pool_ok p -> 0 < refs p e ->
  wp (FreeTranBuf (elem_addr p e)) (fun _ p' => pool_ok p' /\
    forall x, refs p' x = refs p x - ind (bool_decide (x = e))) p.
Proof.
  intros Hp Hr. destruct (refs_pos_elem p e Hp Hr) as (Hk & m & Hm & Hi).
  unfold FreeTranBuf. wp_steps. rewrite find_elem_addr by (done || by split; [|exists m]).
  destruct e as [k i]. cbn [fst snd] in *. eapply wp_in_pool; [done|].
  unfold refs in Hr. cbn [fst snd] in Hr. rewrite Hm in Hr.
  rewrite (proj2 (Z.leb_le _ _)), (proj2 (Z.leb_le _ _)) in Hr by lia. cbn [andb] in Hr.
  wp_use (wp_free_element k); [by eapply po_mng|done|done|]. intros _ m' (Hm' & Hs & Hrefs).
  split; [by eapply put_pool_ok|]. intros x.
  rewrite (refs_put_pool k m m' i (-1)) by (done || lia || (intros; rewrite Hrefs by done; lia)). lia.
Qed.

(** The pool asked for, else a larger one. *)
Lemma wp_malloc_from n k p :
  pool_ok p -> 0 <= k -> k + Z.of_nat n = 7 ->
  wp (malloc_from k n) (fun r p' => pool_ok p' /\
    match r with
    | None => (forall x, refs p' x = refs p x) /\ pools p' = pools p /\
        forall j m, k <= j -> pools p !! Z.to_nat j = Some m -> free_num m = 0
    | Some (a, sz, addr) => exists e, is_elem p e /\ k <= e.1 < 7 /\ a = elem_addr p' e /\ sz = payload_size e.1 /\
        addr = a - BUF_OFFSET_SIZE /\ is_elem p' e /\ refs p e = 0 /\
        forall x, refs p' x = refs p x + ind (bool_decide (x = e))
    end) p.
Proof.
  revert k p. induction n as [|n IH]; intros k p Hp Hk Hn; cbn [malloc_from].
  - wp_steps. split; [by destruct Hp|]. split; [done|]. split; [done|]. intros j m Hj Hm.
    apply lookup_lt_Some in Hm. rewrite (po_len _ Hp) in Hm. lia.
  - destruct (lookup_lt_is_Some_2 (pools p) (Z.to_nat k)) as [m Hm]; [rewrite (po_len _ Hp); lia|].
    wp_steps. eapply wp_in_pool; [exact Hm|].
    wp_use (wp_MallocTranBufElement k); [by eapply po_mng|]. intros r m' (Hm' & Hs & Hr).
    destruct r as [a|]; wp_steps.
    + destruct Hr as (i & Hi & -> & Hr0 & Hrefs). split; [by eapply put_pool_ok|].
      exists (k, i). cbn [fst snd]. pose proof (lookup_lt_Some _ _ _ Hm) as Hlt.
      assert (He : is_elem p (k, i)) by (split; [done|by exists m]). split; [done|]. split; [lia|].
      split; [|split; [done|split; [done|split; [|split]]]].
      * unfold elem_addr. cbn -[insert]. rewrite list_lookup_insert_eq by done.
        by destruct Hs as (_ & -> & _).
      * split; [done|]. exists m'. cbn -[insert]. split; [by apply list_lookup_insert_eq|].
        by destruct Hs as (-> & _).
      * unfold refs. cbn. rewrite Hm. by rewrite (proj2 (Z.leb_le _ _)), (proj2 (Z.leb_le _ _)) by lia.
      * intros x. rewrite (refs_put_pool k m m' i 1) by (done || lia || (intros; rewrite Hrefs by done; lia)). lia.
    + destruct Hr as [-> Hfree]. assert (put_pool k m p = p) as ->.
      { unfold put_pool. rewrite list_insert_id by done. by destruct p. }
      wp_use IH; [done|lia|lia|]. intros r p' (Hp' & Hr'). split; [done|].
      destruct r as [[[a sz] addr]|].
      * destruct Hr' as (e & ? & ? & ?). exists e. split; [done|]. split; [lia|done].
      * destruct Hr' as (? & ? & Hall). split; [done|]. split; [done|]. intros j mj Hj Hmj.
        destruct (decide (j = k)) as [->|]; [by simplify_eq|]. apply (Hall j); [lia|done].
Qed.

(** ** The interface *)
Definition exec_pool {A} (f : PM A) (p : TranMemPool) : TranMemPool :=
  match f p with Some (_, p') => p' | None => p end.

#[global] Instance TranPool_PackPool : PackPool TranMemPool (Z * Z) := {
  pp_malloc spec p :=
    match MallocTranBuf 0 None 0 spec p with
    | Some (Some (a, sz, _), p') =>
        match TranBufToElement p' a with Some e => (Some (e, sz), p') | None => (None, p') end
    | Some (None, p') => (None, p')
    | None => (None, p)
    end;
  pp_addref e p := exec_pool (TranBufUseRefAddOne (elem_addr p e) 1) p;
  pp_free e p := exec_pool (FreeTranBuf (elem_addr p e)) p;
  pp_refs := refs;
  pp_ok := pool_ok
}.

#[global] Instance TranPool_laws : PackPoolLaws TranMemPool (Z * Z).
Proof.
  split.
  - intros p spec e n p' Hp Hs. cbn [pp_malloc TranPool_PackPool]. unfold MallocTranBuf.
    rewrite (proj2 (Z.leb_gt 7 spec)) by lia.
    destruct (wp_total _ _ _ (wp_malloc_from (Z.to_nat (7 - spec)) spec p Hp ltac:(lia) ltac:(lia)))
      as (r & p1 & -> & Hp1 & Hr).
    destruct r as [[[a sz] addr]|]; [|intros Hq; by simplify_eq].
    destruct Hr as (e1 & He & Hk & -> & -> & _ & He1 & Hr0 & Hrefs).
    rewrite find_elem_addr by done. intros [= <- <- <-]. split; [done|]. split; [done|]. split; [|done].
    pose proof (payload_mono spec e1.1 ltac:(lia) ltac:(lia)). pose proof (payload_range e1.1 ltac:(lia)).
    unfold payload_size in *. lia.
  - intros p spec p' Hp Hs. cbn [pp_malloc TranPool_PackPool]. unfold MallocTranBuf.
    rewrite (proj2 (Z.leb_gt 7 spec)) by lia.
    destruct (wp_total _ _ _ (wp_malloc_from (Z.to_nat (7 - spec)) spec p Hp ltac:(lia) ltac:(lia)))
      as (r & p1 & -> & Hp1 & Hr).
    destruct r as [[[a sz] addr]|].
    + destruct Hr as (e1 & He & Hk & -> & -> & _ & He1 & Hr0 & Hrefs). rewrite find_elem_addr by done. done.
    + intros [= <-]. split; [done|]. apply Hr.
  - intros p e Hp Hr. cbn [pp_addref pp_ok pp_refs TranPool_PackPool] in *. unfold exec_pool.
    destruct (wp_total _ _ _ (wp_TranBufUseRefAddOne p e Hp Hr)) as (r & p1 & -> & _ & ? & ?). done.
  - intros p e Hp Hr. cbn [pp_free pp_ok pp_refs TranPool_PackPool] in *. unfold exec_pool.
    destruct (wp_total _ _ _ (wp_FreeTranBuf p e Hp Hr)) as (r & p1 & -> & ? & ?). done.
Qed.


(** ** Creation *)
Lemma countb_fresh t (f : nat -> Z) l : countb usedFlag ((fun i => fresh_elem t (f i)) <$> l) = 0.
Proof. induction l as [|i l IH]; [done|]. cbn [fmap list_fmap]. by rewrite countb_cons, IH. Qed.

Lemma create_ok t header size m :
  0 <= t < 7 -> 0 <= header -> 0 < size -> size mod 64 = 0 -> size <= max_pool_size t ->
  CreateTranBufPool true (Some header) true t size = Some m ->
  mng_ok t m /\ pool_header m = header /\ pool_size m = size /\ pool_tail m = header + element_size t * size.
Proof.
  intros Ht Hh Hs Hal Hmax. unfold CreateTranBufPool. rewrite (proj2 (Z.eqb_neq size 0)) by lia.
  rewrite (proj2 (Z.leb_gt 7 t)) by lia. cbn [orb negb]. intros [= <-].
  assert (Hsum : 0 <= element_size t * size < 2 ^ 32 /\ size <= 2 ^ 20).
  { clear Hal. assert (Hc : t = 0 \/ t = 1 \/ t = 2 \/ t = 3 \/ t = 4 \/ t = 5 \/ t = 6) by lia.
    destruct Hc as [->|[->|[->|[->|[->|[->| ->]]]]]];
      match type of Hmax with _ <= ?k => let v := eval vm_compute in k in change (size <= v) in Hmax end;
      match goal with |- context [element_size ?k] =>
        let v := eval vm_compute in (element_size k) in change (element_size k) with v end;
      change (2 ^ 32) with 4294967296; change (2 ^ 20) with 1048576;
      lia. }
  rewrite u32_small by lia.
  assert (Hbm : Z.shiftr size 6 = size / 64) by (by rewrite Z.shiftr_div_pow2).
  assert (Hdm : size = 64 * (size / 64)) by (pose proof (Z.div_mod size 64 ltac:(lia)); lia).
  assert (Hpos : 0 < size / 64) by lia.
  split; [|done]. split; cbn -[seq Z.shiftr Z.mul]; rewrite ?Hbm.
  - split; [done|]. split; [done|lia].
  - split; [done|]. split; [done|lia].
  - by rewrite length_replicate.
  - apply Forall_replicate. lia.
  - by rewrite length_fmap, length_seq.
  - lia.
  - intros i el Hi Hel. rewrite list_lookup_fmap in Hel. apply fmap_Some in Hel as (j & Hj & ->).
    split; [done|]. split; [cbn; unfold REF_LIMIT; lia|]. split; [done|]. unfold bit_of.
    destruct (replicate (Z.to_nat (size / 64)) 0 !! Z.to_nat (i / 64)) as [w|] eqn:Hw; [|done].
    apply lookup_replicate in Hw as [-> _]. apply Z.bits_0.
  - rewrite countb_fresh. split; [done|lia].
Qed.

Lemma create_limited (t header size : Z) :
  0 <= t < 7 -> 0 <= header -> 0 < size -> size mod 64 = 0 ->
  exists m, CreateTranBufPool true (Some header) true t (limit_pool_size t size) = Some m /\
    mng_ok t m /\ pool_header m = header /\ free_num m = Z.min size (max_pool_size t) /\
    forall i, refs_of m i = 0.
Proof.
  intros Ht Hh Hs Hal. set (n := limit_pool_size t size).
  assert (Hmax : 0 < max_pool_size t /\ max_pool_size t mod 64 = 0).
  { assert (Hc : t = 0 \/ t = 1 \/ t = 2 \/ t = 3 \/ t = 4 \/ t = 5 \/ t = 6) by lia.
    destruct Hc as [->|[->|[->|[->|[->|[->| ->]]]]]]; vm_compute; done. }
  assert (Hn : n = Z.min size (max_pool_size t)).
  { unfold n, limit_pool_size. rewrite (proj2 (Z.eqb_neq 0 size)) by lia.
    destruct (Z.gtb_spec size (max_pool_size t)); lia. }
  assert (Hn64 : n mod 64 = 0) by (rewrite Hn; destruct (Z.min_spec size (max_pool_size t)) as [[_ ->]|[_ ->]]; tauto).
  destruct (CreateTranBufPool true (Some header) true t n) as [m|] eqn:Hc.
  2:{ unfold CreateTranBufPool in Hc. rewrite (proj2 (Z.eqb_neq n 0)) in Hc by lia.
      by rewrite (proj2 (Z.leb_gt 7 t)) in Hc by lia. }
  exists m. split; [done|]. pose proof Hc as Hc'.
  apply create_ok in Hc as (Hm & Hhd & Hsz & _); [|done|done|lia|done|lia].
  split; [done|]. split; [done|].
  assert (m = mkMng n header (header + u32 (element_size t * n)) 0 (Z.shiftr n 6)
    (replicate (Z.to_nat (Z.shiftr n 6)) 0) 0 n 0 0 0 0
    ((fun i => fresh_elem t (elem_start t header (Z.of_nat i))) <$> seq 0 (Z.to_nat n))) as ->.
  { unfold CreateTranBufPool in Hc'. rewrite (proj2 (Z.eqb_neq n 0)) in Hc' by lia.
    rewrite (proj2 (Z.leb_gt 7 t)) in Hc' by lia. by injection Hc'. }
  split; [exact Hn|]. intros i. unfold refs_of. cbn [tran_buf_pool]. rewrite list_lookup_fmap.
  destruct (seq 0 (Z.to_nat n) !! Z.to_nat i); done.
Qed.

(** The header of the pool [t] and the end of its memory. *)
Definition region_start (mem : Z -> bool * option Z * bool) (t : Z) : Z := default 0 (mem t).1.2.
Definition region_end (mem : Z -> bool * option Z * bool) (sizes : list Z) (t : Z) : Z :=
  region_start mem t + element_size t * Z.min (nth (Z.to_nat t) sizes 0) (max_pool_size t).

Lemma create_pools_ok mem sizes ts n :
  n + Z.of_nat (length ts) = 7 -> 0 <= n -> ts = drop (Z.to_nat n) sizes ->
  (forall t, 0 <= t < 7 -> mem t = (true, Some (region_start mem t), true) /\ 0 <= region_start mem t /\
     0 < nth (Z.to_nat t) sizes 0 /\ nth (Z.to_nat t) sizes 0 mod 64 = 0) ->
  exists ms, create_pools mem n ts = Some ms /\ length ms = length ts /\
    forall k m, ms !! k = Some m -> let t := n + Z.of_nat k in
      mng_ok t m /\ pool_header m = region_start mem t /\ pool_tail m = region_end mem sizes t /\
      forall i, refs_of m i = 0.
Proof.
  intros Hn H0 Hts Hmem. revert n Hn H0 Hts. induction ts as [|size ts IH]; intros n Hn H0 Hts.
  { exists []. done. }
  cbn [length] in Hn. destruct (Hmem n ltac:(lia)) as (Em & Hst & Hpos & Hal).
  assert (Hsz : nth (Z.to_nat n) sizes 0 = size).
  { rewrite <- (Nat.add_0_r (Z.to_nat n)), <- nth_drop_Z, <- Hts. done. }
  rewrite Hsz in Hpos, Hal.
  destruct (create_limited n (region_start mem n) size ltac:(lia) Hst Hpos Hal) as (m & Hm & Hok & Hh & Hf & Hr).
  destruct (IH (n + 1) ltac:(lia) ltac:(lia)) as (ms & Hms & Hl & Hall).
  { apply (f_equal (drop 1)) in Hts. rewrite drop_drop in Hts.
    etrans; [exact Hts|]. f_equal. lia. }
  exists (m :: ms). cbn [create_pools]. rewrite Em. cbn [fst snd]. rewrite Hm. cbn [mbind option_bind].
  rewrite Hms. split; [done|]. split; [cbn; congruence|]. intros [|k] mk Hk; cbn in Hk; cbv zeta.
  - injection Hk as <-. rewrite Z.add_0_r. split; [done|]. split; [done|]. split; [|done].
    unfold region_end. rewrite Hsz. destruct (mo_mem _ _ Hok) as (_ & -> & _). rewrite Hh. f_equal. f_equal.
    destruct (mo_count _ _ Hok) as [Hu Hfree].
    assert (Hu0 : used_num m = 0); [|lia]. rewrite Hu. apply countb_none. intros i el Hel.
    pose proof (lookup_lt_Some _ _ _ Hel) as Hlt. rewrite (mo_len _ _ Hok) in Hlt.
    destruct (mo_elem_at _ _ (Z.of_nat i) Hok ltac:(lia)) as (el' & Hel' & _ & _ & Hused & _).
    rewrite Nat2Z.id in Hel'. simplify_eq. specialize (Hr (Z.of_nat i)). unfold refs_of in Hr.
    rewrite Nat2Z.id, Hel in Hr. by rewrite Hused, Hr.
  - replace (n + Z.of_nat (S k)) with (n + 1 + Z.of_nat k) by lia. by apply Hall.
Qed.

Lemma pool_init_ok mem sizes now :
  length sizes = 7%nat ->
  (forall t, 0 <= t < 7 -> mem t = (true, Some (region_start mem t), true) /\ 0 <= region_start mem t /\
     0 < nth (Z.to_nat t) sizes 0 /\ nth (Z.to_nat t) sizes 0 mod 64 = 0) ->
  (forall i j, 0 <= i < 7 -> 0 <= j < 7 -> i <> j ->
     region_end mem sizes i <= region_start mem j \/ region_end mem sizes j <= region_start mem i) ->
  exists p, PoolInit true mem sizes now = Some p /\ pool_ok p /\ forall e, refs p e = 0.
Proof.
  intros Hlen Hmem Hdis. destruct (create_pools_ok mem sizes sizes 0) as (ms & Hms & Hl & Hall);
    [lia|lia|done|done|].
  unfold PoolInit. rewrite Hms. eexists. split; [done|]. rewrite Hlen in Hl. split.
  - split; cbn [pools]; [done| |].
    + intros k m Hk Hm. destruct (Hall _ _ Hm) as (Hok & _). rewrite Z2Nat.id in Hok by lia. exact Hok.
    + intros i j m m' Hij Hm Hm'. pose proof (lookup_lt_Some _ _ _ Hm). pose proof (lookup_lt_Some _ _ _ Hm').
      destruct (Hall _ _ Hm) as (_ & -> & -> & _), (Hall _ _ Hm') as (_ & -> & -> & _).
      rewrite !Z.add_0_l. apply Hdis; lia.
  - intros e. unfold refs. cbn [pools]. destruct (_ && _); [|done].
    destruct (ms !! Z.to_nat e.1) as [m|] eqn:Hm; [|done]. by apply (Hall _ _ Hm).
Qed.

(** The constructor and [Init] establish the invariant of the pool: when
    the seven regions obtained from [malloc] are disjoint and the sizes are
    positive multiples of 64, every bitmap, flag and counter is consistent and
    no element is referenced. *)
Theorem PoolInit_ok (mem : Z -> bool * option Z * bool) (sizes : list Z) (now : Z) :
  length sizes = 7%nat ->
  (forall t, 0 <= t < 7 -> mem t = (true, Some (region_start mem t), true) /\ 0 <= region_start mem t /\
     0 < nth (Z.to_nat t) sizes 0 /\ nth (Z.to_nat t) sizes 0 mod 64 = 0) ->
  (forall i j, 0 <= i < 7 -> 0 <= j < 7 -> i <> j ->
     region_end mem sizes i <= region_start mem j \/ region_end mem sizes j <= region_start mem i) ->
  exists p, PoolInit true mem sizes now = Some p /\ pool_ok p /\ forall e, refs p e = 0.
Proof. exact (pool_init_ok mem sizes now). Qed.

(** With fewer than 64 elements the bitmap has no word at all: the first
    allocation reads past its end. *)
Theorem small_pool_overread (t header size now : Z) :
  0 <= t < 7 -> 0 < size < 64 -> size <= max_pool_size t ->
  exists m, CreateTranBufPool true (Some header) true t (limit_pool_size t size) = Some m /\
    used_bitmap m = [] /\ MallocTranBufElement now m = None.
Proof.
  intros Ht Hs Hmax. unfold limit_pool_size. rewrite (proj2 (Z.eqb_neq 0 size)) by lia.
  destruct (Z.gtb_spec size (max_pool_size t)); [lia|]. unfold CreateTranBufPool.
  rewrite (proj2 (Z.eqb_neq size 0)), (proj2 (Z.leb_gt 7 t)) by lia. cbn [orb negb].
  eexists. split; [done|]. assert (Z.shiftr size 6 = 0) as ->
    by (rewrite Z.shiftr_div_pow2 by lia; apply Z.div_small; lia). done.
Qed.

Example small_pool_overread_witness :
  exists m, CreateTranBufPool true (Some 0) true 6 (limit_pool_size 6 1) = Some m /\
    used_bitmap m = [] /\ MallocTranBufElement 0 m = None.
Proof. apply (small_pool_overread 6 0 1 0); [lia|lia|vm_compute; discriminate]. Defined.


(** ** Allocation, sharing and release *)

(** C32: [MallocTranBuf] for a new buffer, on seven pools whose sizes are
    multiples of 64 (what [pool_ok] asks; for a smaller one see
    [small_pool_overread]), yields an element nobody uses, of at
    least the size asked for, that its address leads back to, with one
    reference; every other count stays.  It fails only when the pool asked for
    and all larger ones are exhausted. *)
Theorem MallocTranBuf_new (p : TranMemPool) (spec : Z) :
  pool_ok p -> 0 <= spec < 7 ->
  exists r p', MallocTranBuf 0 None 0 spec p = Some (r, p') /\ pool_ok p' /\
    match r with
    | Some (a, sz, addr) => exists e, refs p e = 0 /\ TranBufToElement p' a = Some e /\
        payload_size spec <= sz <= 65536 /\ addr = a - BUF_OFFSET_SIZE /\
        forall x, refs p' x = refs p x + ind (bool_decide (x = e))
    | None => (forall x, refs p' x = refs p x) /\
        forall j m, spec <= j -> pools p !! Z.to_nat j = Some m -> free_num m = 0
    end.
Proof.
  intros Hp Hs. unfold MallocTranBuf. rewrite (proj2 (Z.leb_gt 7 spec)) by lia.
  destruct (wp_total _ _ _ (wp_malloc_from (Z.to_nat (7 - spec)) spec p Hp ltac:(lia) ltac:(lia)))
    as (r & p1 & -> & Hp1 & Hr).
  exists r, p1. split; [done|]. split; [done|]. destruct r as [[[a sz] addr]|]; [|by destruct Hr as (? & _ & ?)].
  destruct Hr as (e & He & Hk & -> & -> & -> & He1 & Hr0 & Hrefs). exists e.
  split; [done|]. split; [by apply find_elem_addr|]. split; [|done].
  pose proof (payload_mono spec e.1 ltac:(lia) ltac:(lia)). pose proof (payload_range e.1 ltac:(lia)). lia.
Qed.

(** C33: sharing a buffer and releasing it: the counters of every element other
    than the one the address belongs to stay, releasing the last reference
    makes the element allocatable again (its bit and flag are clear), and an
    address of no pool changes nothing. *)
Theorem reference_counting (p : TranMemPool) (a : Z) :
  pool_ok p ->
  match TranBufToElement p a with
  | None => FreeTranBuf a p = Some (tt, p) /\ TranBufUseRefAddOne a 1 p = Some (None, p)
  | Some e => a = elem_addr p e -> 0 < refs p e < REF_LIMIT ->
      exists p1 p2, TranBufUseRefAddOne a 1 p = Some (Some a, p1) /\ FreeTranBuf a p = Some (tt, p2) /\
        pool_ok p1 /\ pool_ok p2 /\
        (forall x, refs p1 x = refs p x + ind (bool_decide (x = e))) /\
        (forall x, refs p2 x = refs p x - ind (bool_decide (x = e))) /\
        (refs p e = 1 -> exists m el, pools p2 !! Z.to_nat e.1 = Some m /\
           tran_buf_pool m !! Z.to_nat e.2 = Some el /\ usedFlag el = false /\
           bit_of (used_bitmap m) e.2 = false)
  end.
Proof.
  intros Hp. destruct (TranBufToElement p a) as [e|] eqn:Hf.
  2:{ unfold FreeTranBuf, TranBufUseRefAddOne, mbind, ST_bind, get_st. by rewrite Hf. }
  intros -> Hr.
  destruct (wp_total _ _ _ (wp_TranBufUseRefAddOne p e Hp Hr)) as (r & p1 & H1 & -> & Hp1 & Hr1).
  destruct (wp_total _ _ _ (wp_FreeTranBuf p e Hp ltac:(lia))) as ([] & p2 & H2 & Hp2 & Hr2).
  exists p1, p2. do 6 (split; [done|]). intros Hone.
  assert (Hz : refs p2 e = 0) by (rewrite Hr2, bool_decide_true by done; cbn; lia).
  destruct (refs_pos_elem p e Hp ltac:(lia)) as (Hk & m & Hm & Hi).
  assert (Hlen : (Z.to_nat e.1 < 7)%nat) by (apply lookup_lt_Some in Hm; by rewrite (po_len _ Hp) in Hm).
  destruct (lookup_lt_is_Some_2 (pools p2) (Z.to_nat e.1)) as [m2 Hm2]; [by rewrite (po_len _ Hp2)|].
  pose proof (po_mng _ Hp2 _ _ Hk Hm2) as Hok.
  assert (Hpos2 : 0 < refs p2 e + 1) by lia.
  assert (Hsize : pool_size m2 = pool_size m).
  { clear Hr1 H1 p1 Hp1. revert H2. unfold FreeTranBuf, mbind, ST_bind, get_st. rewrite Hf.
    destruct e as [k i]. cbn [fst snd] in *. unfold in_pool. rewrite Hm.
    pose proof (wp_free_element k i m (po_mng _ Hp _ _ Hk Hm) Hi) as Hw. unfold wp in Hw.
    assert (Hrm : 0 < refs_of m i).
    { unfold refs in Hr. cbn [fst snd] in Hr. rewrite Hm in Hr.
      rewrite (proj2 (Z.leb_le _ _)), (proj2 (Z.leb_le _ _)) in Hr by lia. cbn in Hr. lia. }
    specialize (Hw Hrm). destruct (free_element i m) as [[[] m']|]; [|done]. intros [= <-].
    cbn -[insert] in Hm2. rewrite list_lookup_insert_eq in Hm2 by (by eapply lookup_lt_Some).
    simplify_eq. apply Hw. }
  destruct (mo_elem_at _ _ e.2 Hok) as (el & Hel & _ & _ & Hused & Hbit); [lia|].
  exists m2, el. split; [done|]. split; [done|].
  unfold refs in Hz. rewrite Hm2 in Hz.
  rewrite (proj2 (Z.leb_le _ _)), (proj2 (Z.leb_le _ _)) in Hz by lia. cbn [andb] in Hz.
  unfold refs_of in Hz. rewrite Hel in Hz. rewrite Hbit, Hused, Hz. done.
Qed.

(** ** Suballocation *)
Lemma remalloc_room p e m el fuel size :
  pool_ok p -> is_elem p e -> pools p !! Z.to_nat e.1 = Some m ->
  tran_buf_pool m !! Z.to_nat e.2 = Some el ->
  current_malloc_pos el + BUF_OFFSET_SIZE + size <= elem_start e.1 (pool_header m) e.2 + payload_size e.1 - 1 ->
  exists p', remalloc fuel (elem_addr p e) size p =
    Some (Some (current_malloc_pos el + (BUF_OFFSET_SIZE + size),
            u32 (elem_start e.1 (pool_header m) e.2 + payload_size e.1 - 1 -
                 (current_malloc_pos el + (BUF_OFFSET_SIZE + size))),
            current_malloc_pos el + size), p').
Proof.
  intros Hp He Hm Hel Hroom. destruct fuel; cbn [remalloc]; unfold mbind, ST_bind, get_st;
    rewrite find_elem_addr by done; destruct e as [k i]; cbn [fst snd] in *; rewrite Hm; cbn [deref];
    rewrite Hel; cbn [deref]; rewrite (proj2 (Z.ltb_ge _ _)) by lia; unfold in_pool; rewrite Hm; cbn;
    by eexists.
Qed.

(** A packet appended to a buffer that has room gets an address inside the
    buffer's memory, behind the previous packet and its reserved area, and the
    reported free size ends one byte before the buffer does. *)
Theorem remalloc_inside (p : TranMemPool) (e : Z * Z) (m : TranBufMng) (el : TranbufElement) (size : Z) (fuel : nat) :
  pool_ok p -> is_elem p e -> pools p !! Z.to_nat e.1 = Some m ->
  tran_buf_pool m !! Z.to_nat e.2 = Some el -> 0 <= size ->
  elem_start e.1 (pool_header m) e.2 <= current_malloc_pos el ->
  current_malloc_pos el + BUF_OFFSET_SIZE + size <= elem_start e.1 (pool_header m) e.2 + payload_size e.1 - 1 ->
  exists pos usable addr p', MallocTranBuf fuel (Some (elem_addr p e)) size 0 p = Some (Some (pos, usable, addr), p') /\
    current_malloc_pos el + size = addr /\ pos = addr + BUF_OFFSET_SIZE /\ 0 <= usable < payload_size e.1 /\
    pos + usable = elem_start e.1 (pool_header m) e.2 + payload_size e.1 - 1.
Proof.
  intros Hp He Hm Hel Hs Hlow Hroom. destruct (remalloc_room p e m el fuel size Hp He Hm Hel Hroom) as [p' Hr].
  eexists _, _, _, p'. split; [exact Hr|]. split; [done|]. split; [lia|].
  assert (Hk : 0 <= e.1 < 7).
  { destruct He as [Hk _]. split; [done|]. apply lookup_lt_Some in Hm. rewrite (po_len _ Hp) in Hm. lia. }
  pose proof (payload_range e.1 Hk). unfold BUF_OFFSET_SIZE in *. rewrite u32_small by lia. lia.
Qed.

(** When the buffer has no room left, [MallocTranBuf] never returns: the
    flag that should end its [goto] is never set, so no number of rounds
    suffices. *)
Theorem remalloc_diverges (p : TranMemPool) (e : Z * Z) (m : TranBufMng) (el : TranbufElement) (size : Z) :
  pool_ok p -> is_elem p e -> pools p !! Z.to_nat e.1 = Some m ->
  tran_buf_pool m !! Z.to_nat e.2 = Some el ->
  elem_start e.1 (pool_header m) e.2 + payload_size e.1 - 1 < current_malloc_pos el + BUF_OFFSET_SIZE + size ->
  forall fuel, MallocTranBuf fuel (Some (elem_addr p e)) size 0 p = None.
Proof.
  intros Hp He Hm Hel Hroom fuel. cbn [MallocTranBuf]. destruct e as [k i]. cbn [fst snd] in *.
  induction fuel as [|fuel IH]; cbn [remalloc]; unfold mbind, ST_bind, get_st;
    rewrite find_elem_addr by done; cbn [fst snd]; rewrite Hm; cbn [deref]; rewrite Hel; cbn [deref];
    rewrite (proj2 (Z.ltb_lt _ _)) by lia; [done|exact IH].
Qed.


(** ** A small pool: 64 elements of each type *)
Definition demo_mem (t : Z) : bool * option Z * bool := (true, Some (4096 + t * 16777216), true).
Definition demo_pool : TranMemPool :=
  default (mkPool [] 0 0 0 0) (PoolInit true demo_mem (replicate 7 64) 0).
Definition demo_mng : TranBufMng := default (mkMng 0 0 0 0 0 [] 0 0 0 0 0 0 []) (pools demo_pool !! 3%nat).
Definition demo_elem : TranbufElement := fresh_elem 3 (elem_start 3 (pool_header demo_mng) 5).

Lemma seven t : 0 <= t < 7 -> t = 0 \/ t = 1 \/ t = 2 \/ t = 3 \/ t = 4 \/ t = 5 \/ t = 6.
Proof. lia. Qed.

Lemma demo_regions i j :
  0 <= i < 7 -> 0 <= j < 7 -> i <> j ->
  region_end demo_mem (replicate 7 64) i <= region_start demo_mem j \/
  region_end demo_mem (replicate 7 64) j <= region_start demo_mem i.
Proof.
  assert (Hend : forall t, 0 <= t < 7 -> region_end demo_mem (replicate 7 64) t <= region_start demo_mem t + 16777216).
  { intros t Ht. apply seven in Ht as [->|[->|[->|[->|[->|[->| ->]]]]]]; vm_compute; discriminate. }
  intros Hi Hj Hij. pose proof (Hend i Hi). pose proof (Hend j Hj).
  assert (Hs : forall t, region_start demo_mem t = 4096 + t * 16777216) by done. rewrite !Hs in *. lia.
Qed.

Lemma demo_sizes t : 0 <= t < 7 -> demo_mem t = (true, Some (region_start demo_mem t), true) /\
  0 <= region_start demo_mem t /\ 0 < nth (Z.to_nat t) (replicate 7 64) 0 /\
  nth (Z.to_nat t) (replicate 7 64) 0 mod 64 = 0.
Proof.
  intros Ht. split; [done|]. split; [change (0 <= 4096 + t * 16777216); lia|].
  by apply seven in Ht as [->|[->|[->|[->|[->|[->| ->]]]]]].
Qed.

Lemma demo_pool_ok : pool_ok demo_pool /\ forall e, refs demo_pool e = 0.
Proof.
  unfold demo_pool.
  destruct (pool_init_ok demo_mem (replicate 7 64) 0 eq_refl demo_sizes demo_regions) as (p & -> & Hp & Hr).
  done.
Qed.

(** The small pool after one allocation of 1.5K. *)
Definition demo_pool1 : TranMemPool := exec_pool (MallocTranBuf 0 None 0 3) demo_pool.
Lemma demo_pool1_ok : pool_ok demo_pool1.
Proof.
  unfold demo_pool1, exec_pool. unfold MallocTranBuf. cbn [Z.leb Z.compare Pos.compare Pos.compare_cont].
  destruct (wp_total _ _ _ (wp_malloc_from 4 3 demo_pool (proj1 demo_pool_ok) ltac:(lia) eq_refl))
    as (r & p' & Hm & Hp & _).
  change (Z.to_nat (7 - 3)) with 4%nat. by rewrite Hm.
Qed.

Example PoolInit_ok_witness :
  exists p, PoolInit true demo_mem (replicate 7 64) 0 = Some p /\ pool_ok p /\ forall e, refs p e = 0.
Proof. apply (PoolInit_ok demo_mem (replicate 7 64) 0); [reflexivity|exact demo_sizes|exact demo_regions]. Defined.

Example MallocTranBuf_new_witness :
  exists r p', MallocTranBuf 0 None 0 3 demo_pool = Some (r, p') /\ pool_ok p' /\
    match r with
    | Some (a, sz, addr) => exists e, refs demo_pool e = 0 /\ TranBufToElement p' a = Some e /\
        payload_size 3 <= sz <= 65536 /\ addr = a - BUF_OFFSET_SIZE /\
        forall x, refs p' x = refs demo_pool x + ind (bool_decide (x = e))
    | None => (forall x, refs p' x = refs demo_pool x) /\
        forall j m, 3 <= j -> pools demo_pool !! Z.to_nat j = Some m -> free_num m = 0
    end.
Proof. apply (MallocTranBuf_new demo_pool 3); [exact (proj1 demo_pool_ok)|lia]. Defined.

Definition demo_addr : Z := elem_addr demo_pool1 (3, 0).
Example reference_counting_witness :
  exists p1 p2, TranBufUseRefAddOne demo_addr 1 demo_pool1 = Some (Some demo_addr, p1) /\
    FreeTranBuf demo_addr demo_pool1 = Some (tt, p2) /\ pool_ok p1 /\ pool_ok p2 /\
    (forall x, refs p1 x = refs demo_pool1 x + ind (bool_decide (x = (3, 0)))) /\
    (forall x, refs p2 x = refs demo_pool1 x - ind (bool_decide (x = (3, 0)))) /\
    (refs demo_pool1 (3, 0) = 1 -> exists m el, pools p2 !! Z.to_nat 3 = Some m /\
       tran_buf_pool m !! Z.to_nat 0 = Some el /\ usedFlag el = false /\ bit_of (used_bitmap m) 0 = false).
Proof.
  pose proof (reference_counting demo_pool1 demo_addr demo_pool1_ok) as Hr.
  assert (He : TranBufToElement demo_pool1 demo_addr = Some (3, 0)) by (vm_compute; reflexivity).
  rewrite He in Hr. apply Hr; [reflexivity|]. vm_compute. split; reflexivity.
Defined.

Example remalloc_inside_witness :
  exists pos usable addr p', MallocTranBuf 0 (Some (elem_addr demo_pool (3, 5))) 1000 0 demo_pool =
      Some (Some (pos, usable, addr), p') /\
    current_malloc_pos demo_elem + 1000 = addr /\ pos = addr + BUF_OFFSET_SIZE /\ 0 <= usable < payload_size 3 /\
    pos + usable = elem_start 3 (pool_header demo_mng) 5 + payload_size 3 - 1.
Proof.
  apply (remalloc_inside demo_pool (3, 5) demo_mng demo_elem 1000 0);
    [exact (proj1 demo_pool_ok)|split; [cbn; lia|exists demo_mng; split; [reflexivity|vm_compute; split; [discriminate|reflexivity]]]
    |reflexivity|vm_compute; reflexivity|lia|vm_compute; discriminate|vm_compute; discriminate].
Defined.

Example remalloc_diverges_witness :
  is_elem demo_pool (3, 5) /\
  forall fuel, MallocTranBuf fuel (Some (elem_addr demo_pool (3, 5))) 1500 0 demo_pool = None.
Proof.
  split; [split; [cbn; lia|exists demo_mng; split; [reflexivity|vm_compute; split; [discriminate|reflexivity]]]|].
  apply (remalloc_diverges demo_pool (3, 5) demo_mng demo_elem 1500);
    [exact (proj1 demo_pool_ok)|split; [cbn; lia|exists demo_mng; split; [reflexivity|vm_compute; split; [discriminate|reflexivity]]]
    |reflexivity|vm_compute; reflexivity|vm_compute; reflexivity].
Defined.

End TranPoolSpec.
