(* ===== verification/Reorder.v ===== *)
(** * The receive-side reorder buffer

    [ReorderClear], [ReorderFlush], [ReorderEnqueue] and the gap timer of
    [GtpSession] (src/src/session/goodtp_session.cpp): sixteen slots indexed by
    the low bits of the sequence number hold packets that arrived early, in
    buffers of the transport pool, until the gap before them is filled, skipped
    by the timer, or becomes too large. *)
From S2P Require Import Prelude PoolInterface.
Export PoolInterface.

Module Reorder.

Definition REORDER_BUF_SIZE : Z := 16.
Definition UINT32_MAX : Z := 4294967295.

Section Reorder.
(** [A] is the address that comes with a frame ([GtpAddr]). *)
Context {P E A : Type} `{Countable E} `{!PackPool P E}.

Record ReorderSlot := mkSlot {
  frame : option E;
  placeholder_ : bool;
  frame_size : Z;
  arrive_ts_us : Z;
  tran_addr : option A
}.
Definition empty_slot : ReorderSlot := mkSlot None false 0 0 None.

(** A call of [receive_frame_cb_]: the sequence number the session delivers
    (kept for the proofs), the bytes of the frame and its address. *)
Definition delivery : Type := Z * list Z * option A.

(** The fields of [GtpSession] the buffer uses, with the pool, the memory of
    its buffers and the frames handed to the application so far. *)
Record ReSt := mkRe {
  re_pool : P;
  re_mem : gmap E (list Z);
  reorder_buf_ : list ReorderSlot;
  reorder_next_sn_ : Z;
  reorder_inited_ : bool;
  reorder_gap_since_us_ : Z;
  re_out : list delivery
}.
Local Abbreviation M := (ST ReSt).

Definition put_pool p s := mkRe p (re_mem s) (reorder_buf_ s) (reorder_next_sn_ s) (reorder_inited_ s)
  (reorder_gap_since_us_ s) (re_out s).
Definition put_mem m s := mkRe (re_pool s) m (reorder_buf_ s) (reorder_next_sn_ s) (reorder_inited_ s)
  (reorder_gap_since_us_ s) (re_out s).
Definition put_slot i x s := mkRe (re_pool s) (re_mem s) (<[Z.to_nat i := x]> (reorder_buf_ s))
  (reorder_next_sn_ s) (reorder_inited_ s) (reorder_gap_since_us_ s) (re_out s).
Definition put_next n s := mkRe (re_pool s) (re_mem s) (reorder_buf_ s) n (reorder_inited_ s)
  (reorder_gap_since_us_ s) (re_out s).
Definition put_inited b s := mkRe (re_pool s) (re_mem s) (reorder_buf_ s) (reorder_next_sn_ s) b
  (reorder_gap_since_us_ s) (re_out s).
Definition put_gap t s := mkRe (re_pool s) (re_mem s) (reorder_buf_ s) (reorder_next_sn_ s) (reorder_inited_ s)
  t (re_out s).
Definition put_out d s := mkRe (re_pool s) (re_mem s) (reorder_buf_ s) (reorder_next_sn_ s) (reorder_inited_ s)
  (reorder_gap_since_us_ s) (re_out s ++ [d]).

Definition slot_at (i : Z) : M ReorderSlot := s ← get_st; deref (reorder_buf_ s !! Z.to_nat i).
(** [FreeTranBuf], a fault when nobody references the buffer. *)
Definition free_frame (e : E) : M unit :=
  s ← get_st; if 0 <? pp_refs (re_pool s) e then mod_st (put_pool (pp_free e (re_pool s))) else fault.
(** [receive_frame_cb_] *)
Definition receive_frame (sn : Z) (bytes : list Z) (size : Z) (addr : option A) : M unit :=
  mod_st (put_out (sn, mem_load (Z.to_nat size) bytes 0, addr)).
(** The frame of a slot is delivered and its buffer released. *)
Definition deliver_slot (sn i : Z) : M unit :=
  sl ← slot_at i;
  match frame sl with
  | None => mret tt
  | Some e =>
      s ← get_st;
      bytes ← deref (re_mem s !! e);
      _ ← receive_frame sn bytes (frame_size sl) (tran_addr sl);
      _ ← free_frame e;
      mod_st (put_slot i (mkSlot None (placeholder_ sl) (frame_size sl) (arrive_ts_us sl) (tran_addr sl)))
  end.
Definition clear_placeholder (i : Z) : M unit :=
  sl ← slot_at i;
  mod_st (put_slot i (mkSlot (frame sl) false (frame_size sl) (arrive_ts_us sl) (tran_addr sl))).
Definition bump_next : M unit := mod_st (fun s => put_next (u32 (reorder_next_sn_ s + 1)) s).

Definition slot_idle (sl : ReorderSlot) : bool := negb (some_b (frame sl)) && negb (placeholder_ sl).

Definition ReorderClear : M unit :=
  _ ← for_up 16 (fun i =>
        sl ← slot_at i;
        _ ← match frame sl with
            | Some e => free_frame e
            | None => mret tt
            end;
        _ ← mod_st (put_slot i (mkSlot None false (frame_size sl) (arrive_ts_us sl) (tran_addr sl)));
        mret (i + 1)) 0;
  _ ← mod_st (put_inited false);
  _ ← mod_st (put_next 0);
  mod_st (put_gap 0).

(** The first loop of [ReorderFlush]. *)
Fixpoint flush_loop (fuel : nat) : M unit :=
  s ← get_st;
  let idx := reorder_next_sn_ s mod REORDER_BUF_SIZE in
  sl ← slot_at idx;
  if slot_idle sl then mret tt
  else match fuel with
       | O => fault
       | S fuel' =>
           _ ← deliver_slot (reorder_next_sn_ s) idx;
           _ ← clear_placeholder idx;
           _ ← bump_next;
           flush_loop fuel'
       end.

Definition ReorderFlush (ts_us : Z) : M unit :=
  _ ← flush_loop 16;
  s ← get_st;
  if forallb slot_idle (reorder_buf_ s) then mod_st (put_gap 0)
  else when (reorder_gap_since_us_ s =? 0) (mod_st (put_gap ts_us)).

(** An in-order sequence number: what follows it may follow at once. *)
Definition advance (ts_us : Z) : M unit :=
  _ ← bump_next; _ ← mod_st (put_gap 0); ReorderFlush ts_us.

(** The tail of [ReorderEnqueue] ([reorder_buffer_slot_]): the frame is copied
    into the slot. *)
Definition buffer_slot (sn : Z) (bytes : list Z) (size : Z) (addr : option A) (ts_us : Z) : M unit :=
  let idx := sn mod REORDER_BUF_SIZE in
  sl ← slot_at idx;
  _ ← match frame sl with
      | Some e =>
          _ ← free_frame e;
          mod_st (put_slot idx (mkSlot None (placeholder_ sl) (frame_size sl) (arrive_ts_us sl) (tran_addr sl)))
      | None => mret tt
      end;
  s ← get_st;
  let (r, p) := pp_malloc (GtpPackSizeToMemSpec size) (re_pool s) in
  _ ← mod_st (put_pool p);
  match r with
  | None => receive_frame sn bytes size addr
  | Some (copy, _) =>
      _ ← mod_st (fun s => put_mem (<[copy := mem_load (Z.to_nat size) bytes 0]> (re_mem s)) s);
      _ ← mod_st (put_slot idx (mkSlot (Some copy) (placeholder_ sl) size ts_us addr));
      s ← get_st;
      when (reorder_gap_since_us_ s =? 0) (mod_st (put_gap ts_us))
  end.

(** The whole window leaves in order: a gap too large to wait for. *)
Definition flush_window : M unit :=
  s ← get_st;
  _ ← for_up 16 (fun i =>
        let flush_sn := u32 (reorder_next_sn_ s + i) in
        let fidx := flush_sn mod REORDER_BUF_SIZE in
        _ ← deliver_slot flush_sn fidx;
        _ ← clear_placeholder fidx;
        mret (i + 1)) 0;
  mret tt.

(** [ReorderEnqueue]; [data] is [None] for a null [frame]. *)
Definition ReorderEnqueue (sn0 : Z) (data : option (list Z)) (size : Z) (addr : option A) (ts_us : Z)
    (first_sn_hint : Z) : M unit :=
  s ← get_st;
  _ ← when (negb (reorder_inited_ s)) (_ ← mod_st (put_next sn0); mod_st (put_inited true));
  let sn := if some_b data && negb (first_sn_hint =? UINT32_MAX) && negb (first_sn_hint =? sn0)
            then first_sn_hint else sn0 in
  s ← get_st;
  let delta := i32 (u32 (sn - reorder_next_sn_ s)) in
  if delta <? 0 then mret tt
  else
    match data with
    | None =>
        if delta =? 0 then advance ts_us
        else if delta <? REORDER_BUF_SIZE then
          let idx := sn mod REORDER_BUF_SIZE in
          sl ← slot_at idx;
          match frame sl with
          | Some _ => mret tt
          | None =>
              _ ← mod_st (put_slot idx (mkSlot None true (frame_size sl) (arrive_ts_us sl) (tran_addr sl)));
              s ← get_st;
              when (reorder_gap_since_us_ s =? 0) (mod_st (put_gap ts_us))
          end
        else mret tt
    | Some bytes =>
        if delta =? 0 then _ ← receive_frame sn bytes size addr; advance ts_us
        else if REORDER_BUF_SIZE <=? delta then
          let retry := negb (first_sn_hint =? UINT32_MAX) && negb (first_sn_hint =? sn) in
          let sn' := if retry then first_sn_hint else sn in
          let delta' := if retry then i32 (u32 (sn' - reorder_next_sn_ s)) else delta in
          if retry && (delta' <? 0) then mret tt
          else if retry && (delta' =? 0) then _ ← receive_frame sn' bytes size addr; advance ts_us
          else if retry && (delta' <? REORDER_BUF_SIZE) then buffer_slot sn' bytes size addr ts_us
          else
            _ ← flush_window;
            _ ← mod_st (put_next sn');
            _ ← mod_st (put_gap 0);
            _ ← receive_frame sn' bytes size addr;
            bump_next
        else buffer_slot sn bytes size addr ts_us
    end.

(** The gap timer at the end of the session's 100 ms handler. *)
Definition gap_timeout_us (data_pack_pps : Z) : Z :=
  let pps := if data_pack_pps =? 0 then 1 else data_pack_pps in
  let t := 2000000 / pps in
  let t := if t <? 13000 then 13000 else t in
  if t >? 500000 then 500000 else t.
Definition ReorderGapTimer (data_pack_pps ts_us : Z) : M unit :=
  s ← get_st;
  if reorder_gap_since_us_ s =? 0 then mret tt
  else when (gap_timeout_us data_pack_pps <=? u64 (ts_us - reorder_gap_since_us_ s))
         (_ ← bump_next; _ ← mod_st (put_gap 0); ReorderFlush ts_us).

End Reorder.

#[global] Arguments delivery A : clear implicits.
#[global] Arguments ReorderSlot E A : clear implicits.
#[global] Arguments ReSt P E A {_ _}.
End Reorder.
