(* ===== verification/ReorderSpec.v ===== *)
(** * The reorder buffer delivers in order

    An abstract queue keyed by unbounded sequence numbers, the refinement of
    the sixteen-slot buffer to it, and what follows for the application: every
    frame is delivered at most once and in sequence number order. *)
From Stdlib Require Import Sorting.Sorted.
From S2P Require Import Prelude PoolInterface Reorder.
Export Reorder.

Module ReorderSpec.

(** ** The abstract queue *)
(** A frame as the application sees it. *)
Abbreviation Frame A := (list Z * option A)%type.
(** What waits at a position: a frame, or only the mark that nothing will be
    delivered there (a placeholder may stay under a frame). *)
Abbreviation waiting A := (option (list Z * option A) * bool)%type.

Section Abstract.
Context {A : Type}.

Record AbsRe := mkAbsRe { ar_next : Z; ar_pending : gmap Z (waiting A) }.

Definition frames_of (pos : Z) (w : waiting A) : list (Z * Frame A) :=
  match w.1 with Some f => [(pos, f)] | None => [] end.

Fixpoint abs_flush (n : nat) (a : AbsRe) : AbsRe * list (Z * Frame A) :=
  match n with
  | O => (a, [])
  | S n' =>
      match ar_pending a !! ar_next a with
      | None => (a, [])
      | Some w =>
          let (a', out) := abs_flush n' (mkAbsRe (ar_next a + 1) (delete (ar_next a) (ar_pending a))) in
          (a', frames_of (ar_next a) w ++ out)
      end
  end.

Definition abs_advance (a : AbsRe) : AbsRe * list (Z * Frame A) :=
  abs_flush 16 (mkAbsRe (ar_next a + 1) (ar_pending a)).

(** Everything that waits, in order. *)
Definition abs_window (a : AbsRe) : list (Z * Frame A) :=
  concat ((fun k => match ar_pending a !! (ar_next a + Z.of_nat k) with
                    | Some w => frames_of (ar_next a + Z.of_nat k) w
                    | None => []
                    end) <$> seq 0 16).

(** The signed distance of [sn] from the next expected number. *)
Definition distance (sn : Z) (a : AbsRe) : Z := i32 (u32 (sn - u32 (ar_next a))).

(** [ok] tells whether a buffer could be had. *)
Definition abs_enqueue (ok : bool) (sn : Z) (data : option (Frame A)) (a : AbsRe) : AbsRe * list (Z * Frame A) :=
  let delta := distance sn a in
  let pos := ar_next a + delta in
  let old : option (waiting A) := ar_pending a !! pos in
  let placed : waiting A := (None, true) in
  if delta <? 0 then (a, [])
  else
    match data with
    | None =>
        if delta =? 0 then abs_advance a
        else if delta <? 16 then
          match old with
          | Some (Some _, _) => (a, [])
          | _ => (mkAbsRe (ar_next a) (<[pos := placed]> (ar_pending a)), [])
          end
        else (a, [])
    | Some f =>
        if delta =? 0 then let (a', out) := abs_advance a in (a', (pos, f) :: out)
        else if 16 <=? delta then (mkAbsRe (pos + 1) ∅, abs_window a ++ [(pos, f)])
        else
          let mark := match old with Some (_, b) => b | None => false end in
          let filled : waiting A := (Some f, mark) in
          if ok then (mkAbsRe (ar_next a) (<[pos := filled]> (ar_pending a)), [])
          else (mkAbsRe (ar_next a) (if mark then <[pos := placed]> (ar_pending a)
                                     else delete pos (ar_pending a)), [(pos, f)])
    end.

(** Nothing waits outside the window. *)
Definition in_window (a : AbsRe) : Prop :=
  forall p w, ar_pending a !! p = Some w -> ar_next a < p < ar_next a + 16.

(** ** What the queue guarantees *)

(** Deliveries are increasing and lie in [lo, hi). *)
Definition increasing (lo hi : Z) (out : list (Z * Frame A)) : Prop :=
  StronglySorted (fun x y => x.1 < y.1) out /\ Forall (fun x => lo <= x.1 < hi) out.

Lemma increasing_nil lo hi : increasing lo hi [].
Proof. split; constructor. Qed.
Lemma increasing_weaken lo hi lo' hi' out : increasing lo hi out -> lo' <= lo -> hi <= hi' -> increasing lo' hi' out.
Proof. intros [Hs Hf] Hl Hh. split; [done|]. eapply Forall_impl; [exact Hf|]. cbn. lia. Qed.
Lemma increasing_app lo mid hi o1 o2 :
  increasing lo mid o1 -> increasing mid hi o2 -> lo <= mid -> mid <= hi -> increasing lo hi (o1 ++ o2).
Proof.
  intros [Hs1 Hf1] [Hs2 Hf2] Hlm Hmh. split.
  - clear Hlm Hmh. induction Hs1 as [|x o1 Hs1 IH Hx]; [done|]. inversion_clear Hf1 as [|?? Hx1 Hf1'].
    cbn [app]. constructor; [by apply IH|]. apply Forall_app. split; [done|].
    eapply Forall_impl; [exact Hf2|]. cbn. lia.
  - apply Forall_app. split; (eapply Forall_impl; [eassumption|]); cbn; lia.
Qed.
Lemma increasing_one pos (f : Frame A) : increasing pos (pos + 1) [(pos, f)].
Proof. split; repeat constructor; cbn; lia. Qed.
Lemma increasing_frames pos w : increasing pos (pos + 1) (frames_of pos w).
Proof. unfold frames_of. destruct w.1; [apply increasing_one|apply increasing_nil]. Qed.

Lemma flush_increasing n a : ar_next a <= ar_next (abs_flush n a).1 /\
  increasing (ar_next a) (ar_next (abs_flush n a).1) (abs_flush n a).2.
Proof.
  revert a. induction n as [|n IH]; intros a; cbn [abs_flush].
  { split; [cbn; lia|apply increasing_nil]. }
  destruct (ar_pending a !! ar_next a) as [w|]; [|split; [cbn; lia|apply increasing_nil]].
  specialize (IH (mkAbsRe (ar_next a + 1) (delete (ar_next a) (ar_pending a)))).
  destruct (abs_flush n _) as [a' out]. cbn [fst snd ar_next] in *. destruct IH as [Hle Hi].
  split; [lia|]. eapply increasing_app; [apply increasing_frames|exact Hi|lia|lia].
Qed.

Lemma window_increasing a n j :
  increasing (ar_next a + Z.of_nat j) (ar_next a + Z.of_nat (j + n))
    (concat ((fun k => match ar_pending a !! (ar_next a + Z.of_nat k) with
                       | Some w => frames_of (ar_next a + Z.of_nat k) w
                       | None => []
                       end) <$> seq j n)).
Proof.
  revert j. induction n as [|n IH]; intros j; [apply increasing_nil|]. cbn [seq fmap list_fmap concat].
  eapply (increasing_app _ (ar_next a + Z.of_nat (S j))); [| |lia|lia].
  - destruct (_ !! _) as [w|]; [|apply increasing_nil].
    eapply increasing_weaken; [apply increasing_frames|lia|lia].
  - replace (j + S n)%nat with (S j + n)%nat by lia. apply IH.
Qed.

Lemma abs_window_increasing a : increasing (ar_next a) (ar_next a + 16) (abs_window a).
Proof.
  pose proof (window_increasing a 16 0) as Hw. unfold abs_window. rewrite Z.add_0_r in Hw. exact Hw.
Qed.

Lemma advance_increasing a : ar_next a + 1 <= ar_next (abs_advance a).1 /\
  increasing (ar_next a + 1) (ar_next (abs_advance a).1) (abs_advance a).2.
Proof. unfold abs_advance. exact (flush_increasing 16 (mkAbsRe (ar_next a + 1) (ar_pending a))). Qed.

(** ** Nothing is made up and nothing is delivered twice *)
Definition conc (x : Z * Frame A) : delivery A := (u32 x.1, x.2.1, x.2.2).
Definition frame_list (pos : Z) (o : option (Frame A)) : list (delivery A) := match o with Some f => [conc (pos, f)] | None => [] end.
Definition waiting_frames (m : gmap Z (waiting A)) : list (delivery A) :=
  omap (fun x : Z * waiting A => (fun f => conc (x.1, f)) <$> x.2.1) (map_to_list m).

Lemma frames_of_frames pos (w : waiting A) : conc <$> frames_of pos w = frame_list pos w.1.
Proof. unfold frames_of, frame_list. by destruct w.1. Qed.
Lemma waiting_delete m k w : m !! k = Some w -> waiting_frames m ≡ₚ frame_list k w.1 ++ waiting_frames (delete k m).
Proof.
  intros Hk. unfold waiting_frames. rewrite <- (map_to_list_delete m k w) by done. cbn. by destruct w.1.
Qed.
Lemma waiting_delete_sub m k : waiting_frames (delete k m) ⊆+ waiting_frames m.
Proof.
  destruct (m !! k) as [w|] eqn:Hk; [|by rewrite delete_id].
  rewrite (waiting_delete m k w) by done. by apply submseteq_inserts_l.
Qed.
Lemma waiting_insert m k (w : waiting A) : waiting_frames (<[k := w]> m) ⊆+ frame_list k w.1 ++ waiting_frames m.
Proof.
  rewrite (waiting_delete _ k w) by apply lookup_insert_eq. apply submseteq_skips_l. rewrite delete_insert_eq.
  apply waiting_delete_sub.
Qed.

(** What a step puts out and keeps comes from what waited and what came in,
    under the same numbers. *)
Definition conserves (a : AbsRe) (new : list (delivery A)) (a' : AbsRe) (out : list (Z * Frame A)) : Prop :=
  (conc <$> out) ++ waiting_frames (ar_pending a') ⊆+ new ++ waiting_frames (ar_pending a).
Lemma conserves_trans a n1 a1 o1 n2 a2 o2 :
  conserves a n1 a1 o1 -> conserves a1 n2 a2 o2 -> conserves a (n1 ++ n2) a2 (o1 ++ o2).
Proof.
  unfold conserves. intros H1 H2. rewrite fmap_app, <- app_assoc. etrans; [apply submseteq_skips_l, H2|].
  rewrite (app_assoc (conc <$> o1)), (Permutation_app_comm (conc <$> o1)), <- app_assoc. etrans; [apply submseteq_skips_l, H1|].
  by rewrite (app_assoc n2), (Permutation_app_comm n2).
Qed.

Lemma conserves_more a new : conserves a new a [].
Proof. unfold conserves. by apply submseteq_inserts_l. Qed.

Lemma flush_conserves n a : conserves a [] (abs_flush n a).1 (abs_flush n a).2.
Proof.
  revert a. induction n as [|n IH]; intros a; cbn [abs_flush]; [apply conserves_more|].
  destruct (ar_pending a !! ar_next a) as [w|] eqn:Hw; [|apply conserves_more].
  specialize (IH (mkAbsRe (ar_next a + 1) (delete (ar_next a) (ar_pending a)))). destruct (abs_flush n _) as [a' out].
  unfold conserves in *. cbn [fst snd ar_pending app] in *. rewrite fmap_app, frames_of_frames, <- app_assoc.
  rewrite (waiting_delete _ _ w Hw). by apply submseteq_skips_l.
Qed.
Lemma window_conserves (m : gmap Z (waiting A)) nx n : forall j,
  conc <$> concat ((fun k => match m !! (nx + Z.of_nat k) with Some w => frames_of (nx + Z.of_nat k) w | None => [] end) <$> seq j n)
    ⊆+ waiting_frames m.
Proof.
  revert m. induction n as [|n IH]; intros m j; [apply submseteq_nil_l|]. cbn [seq fmap list_fmap concat].
  assert (Hrest : forall m', (forall k, (j < k)%nat -> m' !! (nx + Z.of_nat k) = m !! (nx + Z.of_nat k)) ->
    conc <$> concat ((fun k => match m !! (nx + Z.of_nat k) with Some w => frames_of (nx + Z.of_nat k) w | None => [] end) <$> seq (S j) n)
      ⊆+ waiting_frames m').
  { intros m' Hm. etrans; [|apply (IH m' (S j))]. f_equiv. apply Permutation_submseteq. f_equal.
    match goal with |- ?l ≡ₚ ?k => enough (l = k) as -> by done end. f_equal.
    apply list_fmap_ext. intros i k [-> Hi]%lookup_seq. by rewrite Hm by lia. }
  destruct (m !! (nx + Z.of_nat j)) as [w|] eqn:Hw; [|by apply Hrest].
  rewrite fmap_app, frames_of_frames, (waiting_delete _ _ w Hw). apply submseteq_skips_l, Hrest.
  intros k Hk. by rewrite lookup_delete_ne by lia.
Qed.
Lemma abs_window_conserves a : conc <$> abs_window a ⊆+ waiting_frames (ar_pending a).
Proof. exact (window_conserves (ar_pending a) (ar_next a) 16 0). Qed.
Lemma advance_conserves a : conserves a [] (abs_advance a).1 (abs_advance a).2.
Proof. exact (flush_conserves 16 (mkAbsRe (ar_next a + 1) (ar_pending a))). Qed.
Opaque abs_flush abs_window.

Lemma enqueue_increasing sn data a :
  in_window a ->
  let (a', out) := abs_enqueue true sn data a in
  ar_next a <= ar_next a' /\ increasing (ar_next a) (ar_next a') out.
Proof.
  intros Hw. unfold abs_enqueue. set (d := distance sn a).
  destruct (Z.ltb_spec d 0); [split; [lia|apply increasing_nil]|].
  pose proof (advance_increasing a) as Hadv. destruct data as [f|].
  - destruct (Z.eqb_spec d 0) as [->|].
    + destruct (abs_advance a) as [a' out]. cbn [fst snd] in Hadv. destruct Hadv as [Hle Hi].
      split; [lia|]. rewrite Z.add_0_r. change ((ar_next a, f) :: out) with ([(ar_next a, f)] ++ out).
      eapply increasing_app; [apply increasing_one|exact Hi|lia|lia].
    + destruct (Z.leb_spec 16 d).
      * cbn [ar_next]. split; [lia|]. eapply (increasing_app _ (ar_next a + d)); [| |lia|lia].
        -- eapply increasing_weaken; [apply abs_window_increasing|lia|lia].
        -- apply increasing_one.
      * cbn [ar_next]. split; [lia|apply increasing_nil].
  - destruct (Z.eqb_spec d 0) as [->|].
    + destruct (abs_advance a) as [a' out]. cbn [fst snd] in Hadv. destruct Hadv as [Hle Hi].
      split; [lia|]. eapply increasing_weaken; [exact Hi|lia|lia].
    + destruct (Z.ltb_spec d 16); [|split; [lia|apply increasing_nil]].
      destruct (ar_pending a !! _) as [[[?|] ?]|]; (split; [cbn; lia|apply increasing_nil]).
Qed.

(** The position a sequence number stands for. *)
Lemma distance_pos sn (a : AbsRe) : 0 <= sn < 4294967296 -> u32 (ar_next a + distance sn a) = sn.
Proof.
  intros Hsn. unfold distance, i32, swrap, u32 in *. change (2 ^ 32) with 4294967296. change (2 ^ (32 - 1)) with 2147483648.
  rewrite Z.mod_mod by lia. rewrite Zminus_mod_idemp_r.
  assert ((ar_next a + (sn - ar_next a) mod 4294967296) mod 4294967296 = sn) as Hs.
  { rewrite Zplus_mod_idemp_r. rewrite <- (Z.mod_small sn 4294967296) at 2 by lia. f_equal. lia. }
  destruct (Z.ltb_spec ((sn - ar_next a) mod 4294967296) 2147483648); [exact Hs|].
  replace (ar_next a + ((sn - ar_next a) mod 4294967296 - 4294967296))
    with ((ar_next a + (sn - ar_next a) mod 4294967296) + (-1) * 4294967296) by lia.
  rewrite Z.mod_add by lia. exact Hs.
Qed.
Lemma distance_u32 q (a : AbsRe) : - 2 ^ 31 <= q - ar_next a < 2 ^ 31 -> distance (u32 q) a = q - ar_next a.
Proof.
  intros Hd. unfold distance, u32, i32, swrap. change (2 ^ 32) with 4294967296. change (2 ^ (32 - 1)) with 2147483648.
  rewrite Z.mod_mod, <- Zminus_mod by lia. set (d := q - ar_next a) in *. destruct (Z.ltb_spec d 0).
  - replace (d mod 4294967296) with (d + 4294967296).
    + destruct (Z.ltb_spec (d + 4294967296) 2147483648); lia.
    + apply (Z.mod_unique_pos d 4294967296 (-1)); lia.
  - rewrite Z.mod_small by lia. destruct (Z.ltb_spec d 2147483648); lia.
Qed.

Lemma enqueue_conserves ok sn data a : 0 <= sn < 4294967296 ->
  conserves a (frame_list sn data) (abs_enqueue ok sn data a).1 (abs_enqueue ok sn data a).2.
Proof.
  intros Hsn. pose proof (conserves_more a (frame_list sn data)) as Hsame. pose proof (distance_pos sn a Hsn) as Hpos.
  assert (Hc : forall f, conc (ar_next a + distance sn a, f) = conc (sn, f)) by (intros f; unfold conc; cbn; by rewrite Hpos, u32_small).
  assert (Hl : forall o, frame_list (ar_next a + distance sn a) o = frame_list sn o) by (intros [f|]; cbn; [by rewrite Hc|done]).
  unfold abs_enqueue. destruct (_ <? 0); [done|]. pose proof (advance_conserves a) as Hadv. destruct data as [f|].
  - destruct (_ =? 0).
    + destruct (abs_advance a) as [a' out]. unfold conserves in *. cbn in *. rewrite Hc. by apply submseteq_skip.
    + destruct (16 <=? _).
      * unfold conserves. cbn [fst snd ar_pending frame_list app]. rewrite fmap_app. unfold waiting_frames at 1. rewrite map_to_list_empty.
        cbn [omap list_omap fmap list_fmap]. rewrite app_nil_r, (Permutation_app_comm _ [_]), Hc. cbn. apply submseteq_skip, abs_window_conserves.
      * destruct ok; unfold conserves; cbn [fst snd ar_pending app fmap list_fmap]; [rewrite <- Hl; apply (waiting_insert _ _ (Some f, _))|].
        cbn. rewrite Hc. apply submseteq_skip. destruct (match _ with Some _ => _ | None => _ end);
          [apply (waiting_insert _ _ (None, true))|apply waiting_delete_sub].
  - destruct (_ =? 0); [destruct (abs_advance a) as [a' out]; exact Hadv|].
    destruct (_ <? 16); [|done]. destruct (ar_pending a !! _) as [[[?|] ?]|]; [done|..];
      unfold conserves; cbn; apply (waiting_insert _ _ (None, true)).
Qed.

End Abstract.

#[global] Arguments AbsRe A : clear implicits.

(** ** Slots and positions *)
Section Slots.
Context {P E A : Type} `{Countable E} `{!PackPool P E}.
Local Abbreviation Slot := (ReorderSlot E A).
Local Abbreviation St := (ReSt P E A).

(** What the slot [sl] stands for. *)
Definition slot_is (mem : gmap E (list Z)) (sl : Slot) (w : option (waiting A)) : Prop :=
  match frame sl with
  | None => w = if placeholder_ sl then Some (None, true) else None
  | Some e => exists bytes, mem !! e = Some bytes /\
      w = Some (Some (mem_load (Z.to_nat (frame_size sl)) bytes 0, tran_addr sl), placeholder_ sl)
  end.

(** The slots hold [W] at the sixteen positions from [next] on, and account for
    every reference beyond those in [other]. *)
Record re_core (other : E -> Z) (s : St) (next : Z) (W : Z -> option (waiting A)) : Prop := {
  rc_ok : pp_ok (re_pool s);
  rc_refs e : pp_refs (re_pool s) e = other e + held_in (frame <$> reorder_buf_ s) e;
  rc_len : length (reorder_buf_ s) = 16%nat;
  rc_next : reorder_next_sn_ s = u32 next;
  rc_slot p : next <= p < next + 16 ->
    exists sl, reorder_buf_ s !! Z.to_nat (p mod 16) = Some sl /\ slot_is (re_mem s) sl (W p)
}.

Definition set_at (p : Z) (w : option (waiting A)) (W : Z -> option (waiting A)) (q : Z) :=
  if q =? p then w else W q.

Lemma slot_idle_is mem sl w : slot_is mem sl w -> (slot_idle sl = true <-> w = None).
Proof.
  unfold slot_is, slot_idle. destruct (frame sl) as [e|]; cbn.
  - intros (bytes & _ & ->). by split.
  - intros ->. destruct (placeholder_ sl); by split.
Qed.

Lemma mod16_u32 p : u32 p mod 16 = p mod 16.
Proof. unfold u32. apply Z.mod_mod_divide. by exists 268435456. Qed.

Lemma mod16_inj next p q :
  next <= p < next + 16 -> next <= q < next + 16 -> Z.to_nat (p mod 16) = Z.to_nat (q mod 16) -> p = q.
Proof.
  intros Hp Hq Heq.
  pose proof (Z.mod_pos_bound p 16 ltac:(lia)). pose proof (Z.mod_pos_bound q 16 ltac:(lia)).
  assert (p mod 16 = q mod 16) as Hm by lia.
  pose proof (Z.div_mod p 16 ltac:(lia)). pose proof (Z.div_mod q 16 ltac:(lia)). lia.
Qed.

Lemma slot_at_wp other s next W p (Q : Slot -> St -> Prop) :
  re_core other s next W -> next <= p < next + 16 ->
  (forall sl, reorder_buf_ s !! Z.to_nat (p mod 16) = Some sl -> slot_is (re_mem s) sl (W p) -> Q sl s) ->
  wp (slot_at (p mod 16)) Q s.
Proof.
  intros Hc Hp HQ. destruct (rc_slot _ _ _ _ Hc p Hp) as (sl & Hsl & His).
  unfold slot_at. wp_steps. rewrite Hsl. by apply HQ.
Qed.

Lemma core_ext other s next W W' :
  re_core other s next W -> (forall p, next <= p < next + 16 -> W p = W' p) -> re_core other s next W'.
Proof.
  intros [H1 H2 H3 H4 H5] He. split; [done..|]. intros p Hp. rewrite <- He by done. auto.
Qed.

(** The fields the slots do not mention. *)
Lemma core_frame other s s' next W :
  re_core other s next W -> re_pool s' = re_pool s -> re_mem s' = re_mem s ->
  reorder_buf_ s' = reorder_buf_ s -> reorder_next_sn_ s' = reorder_next_sn_ s -> re_core other s' next W.
Proof.
  intros [H1 H2 H3 H4 H5] Ep Em Eb En. split; rewrite ?Ep, ?Em, ?Eb, ?En; done.
Qed.

(** Moving on by one position. *)
Lemma core_bump other s next W :
  re_core other s next W -> W next = None ->
  re_core other (put_next (u32 (reorder_next_sn_ s + 1)) s) (next + 1) (set_at (next + 16) None W).
Proof.
  intros [H1 H2 H3 H4 H5] Hn. split; cbn; [done..| |].
  - rewrite H4. unfold u32. by rewrite Zplus_mod_idemp_l.
  - intros p Hp. unfold set_at. destruct (Z.eqb_spec p (next + 16)) as [->|].
    + rewrite <- Hn. replace ((next + 16) mod 16) with (next mod 16); [apply H5; lia|].
      rewrite <- (Z.mul_1_l 16) at 2. by rewrite Z.mod_add by lia.
    + apply H5. lia.
Qed.

(** An empty window may be placed anywhere. *)
Lemma core_rebase other s next m W W' :
  re_core other s next W -> (forall p, next <= p < next + 16 -> W p = None) ->
  (forall p, m <= p < m + 16 -> W' p = None) ->
  re_core other (put_next (u32 m) s) m W'.
Proof.
  intros [H1 H2 H3 H4 H5] Hw Hw'. split; cbn; [done..|]. intros p Hp.
  set (q := next + (p - next) mod 16). pose proof (Z.mod_pos_bound (p - next) 16 ltac:(lia)).
  destruct (H5 q ltac:(lia)) as (sl & Hsl & His). exists sl. rewrite Hw in His by lia. rewrite Hw' by done.
  split; [|done]. replace (p mod 16) with (q mod 16); [done|]. unfold q.
  rewrite Zplus_mod_idemp_r. f_equal. lia.
Qed.

(** Storing a slot whose frame is accounted for. *)
Lemma core_slot other s next W p sl sl' w mem pool :
  re_core other s next W -> next <= p < next + 16 ->
  reorder_buf_ s !! Z.to_nat (p mod 16) = Some sl ->
  pp_ok pool ->
  (forall e, pp_refs pool e = pp_refs (re_pool s) e
     - ind (bool_decide (frame sl = Some e)) + ind (bool_decide (frame sl' = Some e))) ->
  (forall q sl2, next <= q < next + 16 -> q <> p -> reorder_buf_ s !! Z.to_nat (q mod 16) = Some sl2 ->
     slot_is (re_mem s) sl2 (W q) -> slot_is mem sl2 (W q)) ->
  slot_is mem sl' w ->
  re_core other (put_mem mem (put_pool pool (put_slot (p mod 16) sl' s))) next (set_at p w W).
Proof.
  intros [H1 H2 H3 H4 H5] Hp Hsl Hok Hr Hm Hw. split; cbn; [done| | |done|].
  - intros e. rewrite Hr, H2, list_fmap_insert.
    rewrite (held_in_insert _ _ (frame sl)) by (by rewrite list_lookup_fmap, Hsl). lia.
  - by rewrite length_insert.
  - intros q Hq. unfold set_at. destruct (Z.eqb_spec q p) as [->|Hne].
    + exists sl'. split; [|done]. apply list_lookup_insert_eq. by eapply lookup_lt_Some.
    + destruct (H5 q Hq) as (sl2 & Hsl2 & His). exists sl2. split; [|eauto].
      rewrite list_lookup_insert_ne; [done|]. intros Heq. apply Hne. symmetry. by eapply mod16_inj.
Qed.

End Slots.

(** ** The operations refine the queue *)
Section Ops.
Context {P E A : Type} `{Countable E} `{!PackPool P E} `{!PackPoolLaws P E}.
Local Abbreviation Slot := (ReorderSlot E A).
Local Abbreviation St := (ReSt P E A).

Definition frames_at (p : Z) (w : option (waiting A)) : list (Z * Frame A) :=
  match w with Some w => frames_of p w | None => [] end.

(** [s'] is [s] with [out] delivered and other slots and buffers. *)
Definition delivered (s : St) (out : list (Z * Frame A)) (s' : St) : Prop :=
  re_out s' = re_out s ++ (conc <$> out) /\ reorder_inited_ s' = reorder_inited_ s.

Lemma delivered_refl s : delivered s [] s.
Proof. split; [by rewrite app_nil_r|done]. Qed.
Lemma delivered_trans s1 o1 s2 o2 s3 : delivered s1 o1 s2 -> delivered s2 o2 s3 -> delivered s1 (o1 ++ o2) s3.
Proof. intros [Ho1 Hi1] [Ho2 Hi2]. split; [by rewrite Ho2, Ho1, fmap_app, app_assoc|congruence]. Qed.

Definition other_ok (other : E -> Z) : Prop := forall e, 0 <= other e.

(** Releasing the buffer of a slot. *)
Lemma core_release other (s : St) next W p sl sl' e :
  other_ok other -> re_core other s next W -> next <= p < next + 16 ->
  reorder_buf_ s !! Z.to_nat (p mod 16) = Some sl -> frame sl = Some e -> frame sl' = None ->
  0 < pp_refs (re_pool s) e /\
  re_core (A := A) other (put_slot (p mod 16) sl' (put_pool (pp_free e (re_pool s)) s)) next
    (set_at p (if placeholder_ sl' then Some (None, true) else None) W).
Proof.
  intros Ho Hc Hp Hsl Hf Hf'.
  assert (0 < pp_refs (re_pool s) e) as Hpos.
  { rewrite (rc_refs _ _ _ _ Hc). specialize (Ho e).
    pose proof (held_in_pos (frame <$> reorder_buf_ s) (Z.to_nat (p mod 16)) e) as Hh.
    rewrite list_lookup_fmap, Hsl in Hh. cbn in Hh. rewrite Hf in Hh. specialize (Hh eq_refl). lia. }
  split; [done|]. destruct (pp_free_law (re_pool s) e (rc_ok _ _ _ _ Hc) Hpos) as [Hok Hr].
  eapply core_frame; [eapply (core_slot other s next W p sl sl' _ (re_mem s) (pp_free e (re_pool s)))|..]; try done.
  - intros x. rewrite Hr, Hf, Hf'. rewrite (bool_decide_false (None = Some x)) by done.
    rewrite (bool_decide_ext (x = e) (Some e = Some x)) by (split; congruence). cbn. lia.
  - unfold slot_is. by rewrite Hf'.
Qed.

Lemma wp_free_frame e (s : St) Q :
  0 < pp_refs (re_pool s) e -> Q tt (put_pool (pp_free e (re_pool s)) s) -> wp (free_frame e) Q s.
Proof. intros Hp HQ. unfold free_frame. apply wp_bind, wp_get. by rewrite (proj2 (Z.ltb_lt _ _) Hp). Qed.

Lemma wp_deliver_slot other s next W p :
  other_ok other -> re_core other s next W -> next <= p < next + 16 ->
  wp (deliver_slot (u32 p) (p mod 16)) (fun _ s' =>
    re_core other s' next (set_at p (match W p with Some (_, true) => Some (None, true) | _ => None end) W) /\
    delivered s (frames_at p (W p)) s' /\ reorder_gap_since_us_ s' = reorder_gap_since_us_ s) s.
Proof.
  intros Ho Hc Hp. unfold deliver_slot. wp_steps. eapply slot_at_wp; [done..|]. intros sl Hsl His.
  destruct (frame sl) as [e|] eqn:Hf.
  2:{ wp_steps. unfold slot_is in His. rewrite Hf in His. split; [|split; [|done]].
      - eapply core_ext; [exact Hc|]. intros q Hq. unfold set_at. destruct (Z.eqb_spec q p) as [->|]; [|done].
        rewrite His. by destruct (placeholder_ sl).
      - rewrite His. destruct (placeholder_ sl); apply delivered_refl. }
  pose proof His as His0. unfold slot_is in His. rewrite Hf in His. destruct His as (bytes & Hb & HW).
  unfold receive_frame. wp_steps. rewrite Hb. cbn. wp_steps.
  set (sl' := mkSlot None _ _ _ _).
  destruct (core_release other s next W p sl sl' e Ho Hc Hp Hsl Hf eq_refl) as [Hpos Hc'].
  apply wp_free_frame; [exact Hpos|]. wp_steps. split; [|split].
  - eapply core_ext; [by eapply core_frame|]. intros q Hq. unfold set_at. cbn. rewrite HW.
    by destruct (q =? p), (placeholder_ sl).
  - rewrite HW. split; done.
  - done.
Qed.

Lemma wp_clear_placeholder other s next W p b :
  re_core other s next W -> next <= p < next + 16 -> W p = (if b : bool then Some (None, true) else None) ->
  wp (clear_placeholder (p mod 16)) (fun _ s' =>
    re_core other s' next (set_at p None W) /\ delivered s [] s' /\
    reorder_gap_since_us_ s' = reorder_gap_since_us_ s) s.
Proof.
  intros Hc Hp HW. unfold clear_placeholder. wp_steps. eapply slot_at_wp; [done..|]. intros sl Hsl His.
  wp_steps. assert (frame sl = None) as Hf.
  { unfold slot_is in His. rewrite HW in His. destruct (frame sl); [|done].
    destruct His as (? & _ & He). by destruct b. }
  split; [|split; [split; [by rewrite app_nil_r|done]|done]].
  set (sl' := mkSlot _ _ _ _ _).
  eapply core_frame; [eapply (core_slot other s next W p sl sl' None (re_mem s) (re_pool s))|..]; try done.
  - apply (rc_ok _ _ _ _ Hc).
  - intros e. cbn. lia.
  - unfold slot_is. cbn. by rewrite Hf.
Qed.

(** A slot is delivered and emptied. *)
Lemma wp_flush_slot {B} (k : ST St B) Q other s next W p :
  other_ok other -> re_core other s next W -> next <= p < next + 16 ->
  (forall s', re_core other s' next (set_at p None W) -> delivered s (frames_at p (W p)) s' ->
     reorder_gap_since_us_ s' = reorder_gap_since_us_ s -> wp k Q s') ->
  wp (_ ← deliver_slot (u32 p) (p mod 16); _ ← clear_placeholder (p mod 16); k) Q s.
Proof.
  intros Ho Hc Hp Hk. wp_steps. wp_use (wp_deliver_slot other s next W p); [done..|].
  intros _ s1 (Hc1 & Hd1 & Hg1). wp_steps.
  wp_use (wp_clear_placeholder other s1 next _ p (match W p with Some (_, b) => b | None => false end)); [done|done| |].
  { unfold set_at. rewrite Z.eqb_refl. by destruct (W p) as [[? []]|]. }
  intros _ s2 (Hc2 & Hd2 & Hg2). apply Hk.
  - eapply core_ext; [exact Hc2|]. intros q _. unfold set_at. by destruct (q =? p).
  - pose proof (delivered_trans _ _ _ _ _ Hd1 Hd2) as Hd. by rewrite app_nil_r in Hd.
  - congruence.
Qed.

Transparent abs_flush abs_window.

Definition re_rep (other : E -> Z) (s : St) (a : AbsRe A) : Prop :=
  re_core other s (ar_next a) (fun p => ar_pending a !! p).

Lemma rep_gap other s a t : re_rep other s a -> re_rep other (put_gap t s) a.
Proof. intros Hr. by eapply core_frame. Qed.

(** Everything that waits lies in the next [n] positions. *)
Definition loose (n : nat) (a : AbsRe A) : Prop :=
  forall p w, ar_pending a !! p = Some w -> ar_next a <= p < ar_next a + Z.of_nat n.

(** The gap timer runs when anything waits. *)
Definition armed (s : St) (a : AbsRe A) : Prop :=
  (exists p w, ar_pending a !! p = Some w) -> reorder_gap_since_us_ s <> 0.

Lemma flush_in_window n (a : AbsRe A) : (n <= 16)%nat -> loose n a -> in_window (abs_flush n a).1.
Proof.
  revert a. induction n as [|n IH]; intros a Hn Hl; cbn [abs_flush].
  { intros p w Hp. specialize (Hl p w Hp). lia. }
  destruct (ar_pending a !! ar_next a) as [w|] eqn:Hw.
  - set (a1 := mkAbsRe _ _). specialize (IH a1 ltac:(lia)). destruct (abs_flush n a1) as [a' out]. apply IH.
    intros p x Hp. cbn in *. apply lookup_delete_Some in Hp as [Hne Hp]. specialize (Hl p x Hp). lia.
  - cbn. intros p x Hp. pose proof (Hl p x Hp). destruct (decide (p = ar_next a)) as [->|]; [congruence|lia].
Qed.

Lemma wp_flush_loop other n s a :
  other_ok other -> (n <= 16)%nat -> loose n a -> re_rep other s a ->
  wp (flush_loop n) (fun _ s' =>
    re_rep other s' (abs_flush n a).1 /\ delivered s (abs_flush n a).2 s' /\
    reorder_gap_since_us_ s' = reorder_gap_since_us_ s) s.
Proof.
  intros Ho. revert s a. induction n as [|n IH]; intros s a Hn Hl Hr; cbn [flush_loop]; wp_steps;
    rewrite (rc_next _ _ _ _ Hr); unfold REORDER_BUF_SIZE; rewrite mod16_u32;
    (eapply slot_at_wp; [exact Hr|lia|]); intros sl Hsl His; pose proof (slot_idle_is _ _ _ His) as Hidle;
    cbn [abs_flush].
  - assert (ar_pending a !! ar_next a = None) as Hnone.
    { destruct (ar_pending a !! ar_next a) as [w|] eqn:Hw; [|done]. specialize (Hl _ _ Hw). lia. }
    rewrite (proj2 Hidle Hnone). wp_steps. split; [done|split; [apply delivered_refl|done]].
  - destruct (ar_pending a !! ar_next a) as [w|] eqn:Hw.
    2:{ rewrite (proj2 Hidle eq_refl). wp_steps. split; [done|split; [apply delivered_refl|done]]. }
    destruct (slot_idle sl); [by discriminate (proj1 Hidle)|].
    eapply (wp_flush_slot _ _ other s (ar_next a)); [done|exact Hr|lia|]. intros s1 Hc1 Hd1 Hg1. unfold bump_next. wp_steps.
    set (a1 := mkAbsRe (ar_next a + 1) (delete (ar_next a) (ar_pending a))).
    wp_use (IH _ a1); [lia| | |].
    + intros p x Hp. cbn in *. apply lookup_delete_Some in Hp as [Hne Hp]. specialize (Hl p x Hp). lia.
    + eapply core_ext; [apply core_bump; [exact Hc1|unfold set_at; by rewrite Z.eqb_refl]|].
      intros p Hp. subst a1. unfold set_at. cbn in Hp |- *. destruct (Z.eqb_spec p (ar_next a + 16)) as [->|].
      * rewrite lookup_delete_ne by lia. symmetry. apply eq_None_not_Some. intros [x Hx]. specialize (Hl _ _ Hx). lia.
      * destruct (Z.eqb_spec p (ar_next a)); [lia|]. by rewrite lookup_delete_ne by lia.
    + intros _ s2 (Hr2 & Hd2 & Hg2). destruct (abs_flush n a1) as [a' out]. split; [done|].
      split; [|rewrite Hg2; exact Hg1]. cbn beta in Hd1. rewrite Hw in Hd1. exact (delivered_trans _ _ _ _ _ Hd1 Hd2).
Qed.

(** ** Moving past the next expected number *)
Lemma idle_all other s a :
  re_rep other s a -> in_window a -> forallb slot_idle (reorder_buf_ s) = true -> forall p, ar_pending a !! p = None.
Proof.
  intros Hr Hw Hall p. destruct (ar_pending a !! p) as [w|] eqn:Hp; [|done].
  pose proof (Hw p w Hp). destruct (rc_slot _ _ _ _ Hr p ltac:(lia)) as (sl & Hsl & His).
  rewrite <- Hp. apply (slot_idle_is _ _ _ His). rewrite forallb_forall in Hall. apply Hall.
  apply list_elem_of_In. by eapply list_elem_of_lookup_2.
Qed.

Lemma wp_flush other s a ts :
  other_ok other -> loose 16 a -> re_rep other s a -> ts <> 0 ->
  wp (ReorderFlush ts) (fun _ s' =>
    re_rep other s' (abs_flush 16 a).1 /\ delivered s (abs_flush 16 a).2 s' /\ armed s' (abs_flush 16 a).1 /\
    (reorder_gap_since_us_ s = 0 -> reorder_gap_since_us_ s' = 0 \/ reorder_gap_since_us_ s' = ts)) s.
Proof.
  intros Ho Hl Hr Hts. unfold ReorderFlush. wp_steps. wp_use (wp_flush_loop other 16 s a); [done|lia|done|done|].
  intros _ s1 (Hr1 & Hd1 & Hg1). pose proof (flush_in_window 16 a ltac:(lia) Hl) as Hw. wp_steps.
  - split; [by apply rep_gap|]. split; [exact Hd1|]. split; [|by left]. intros (p & w & Hp).
    match goal with Hall : forallb _ _ = true |- _ => pose proof (idle_all _ _ _ Hr1 Hw Hall p) end. congruence.
  - split; [by apply rep_gap|]. split; [exact Hd1|]. split; [intros _; exact Hts|by right].
  - split; [done|split; [done|]]. split; [intros _; by apply Z.eqb_neq|]. left. congruence.
Qed.

Lemma wp_advance other s a ts :
  other_ok other -> in_window a -> re_rep other s a -> ts <> 0 ->
  wp (advance ts) (fun _ s' =>
    re_rep other s' (abs_advance a).1 /\ in_window (abs_advance a).1 /\
    delivered s (abs_advance a).2 s' /\ armed s' (abs_advance a).1 /\
    (reorder_gap_since_us_ s' = 0 \/ reorder_gap_since_us_ s' = ts)) s.
Proof.
  intros Ho Hw Hr Hts. unfold advance, bump_next, abs_advance. wp_steps.
  set (a1 := mkAbsRe (ar_next a + 1) (ar_pending a)).
  assert (loose 16 a1) as Hl1 by (intros p w Hp; specialize (Hw p w Hp); cbn in *; lia).
  wp_use (wp_flush other _ a1); [done|done| |done|].
  - eapply core_frame; [eapply core_ext; [apply core_bump; [exact Hr|]|]|..]; try done.
    + apply eq_None_not_Some. intros [x Hx]. specialize (Hw _ _ Hx). lia.
    + intros p Hp. unfold set_at. cbn. destruct (Z.eqb_spec p (ar_next a + 16)) as [->|]; [|done].
      symmetry. apply eq_None_not_Some. intros [x Hx]. specialize (Hw _ _ Hx). lia.
  - intros _ s1 (Hr1 & Hd1 & Ha1 & Hg1). split; [done|]. split; [by apply flush_in_window|].
    split; [done|]. split; [done|by apply Hg1].
Qed.

(** ** Buffering a frame *)
Lemma load_all n m : length m = n -> mem_load n m 0 = m.
Proof. intros <-. unfold mem_load. rewrite drop_0, firstn_all. by apply pad_to_id. Qed.

(** The pool has no buffer for a frame of [size] bytes filed under [sn], even
    with the buffer of the slot released. *)
Definition slot_pool (s : St) (sn : Z) : P :=
  match reorder_buf_ s !! Z.to_nat (sn mod REORDER_BUF_SIZE) ≫= frame with
  | Some e => pp_free e (re_pool s)
  | None => re_pool s
  end.
Definition refuses (s : St) (sn size : Z) : bool :=
  negb (some_b (pp_malloc (GtpPackSizeToMemSpec size) (slot_pool s sn)).1).

Definition mark_of (w : option (waiting A)) : bool := match w with Some (_, b) => b | None => false end.
Definition mark_only (b : bool) : option (waiting A) := if b then Some (None, true) else None.

(** The copy of a frame into a slot whose buffer is already released. *)
Lemma core_store other (s : St) next W p b sl size addr ts bytes e n pool' :
  other_ok other -> re_core other s next W -> next <= p < next + 16 -> 0 <= size < 65536 ->
  reorder_buf_ s !! Z.to_nat (p mod 16) = Some sl -> frame sl = None ->
  pp_malloc (GtpPackSizeToMemSpec size) (re_pool s) = (Some (e, n), pool') ->
  re_core other
    (put_slot (p mod 16) (mkSlot (Some e) b size ts addr)
       (put_mem (<[e := mem_load (Z.to_nat size) bytes 0]> (re_mem s)) (put_pool pool' s)))
    next (set_at p (Some (Some (mem_load (Z.to_nat size) bytes 0, addr), b)) W).
Proof.
  intros Ho Hc Hp Hsz Hsl Hf Hm.
  destruct (pp_malloc_some _ _ _ _ _ (rc_ok _ _ _ _ Hc) (proj1 (mem_spec_fits size Hsz)) Hm) as (Hok & Hz & _ & Hr).
  pose proof (rc_refs _ _ _ _ Hc e) as Hre. specialize (Ho e).
  pose proof (held_in_nonneg (frame <$> reorder_buf_ s) e) as Hnn.
  eapply core_frame; [eapply (core_slot other s next W p sl _ _
    (<[e := mem_load (Z.to_nat size) bytes 0]> (re_mem s)) pool')|..]; try done.
  - intros x. rewrite Hr, Hf. cbn [frame]. rewrite (bool_decide_false (None = Some x)) by done.
    rewrite (bool_decide_ext (x = e) (Some e = Some x)) by (split; congruence). cbn. lia.
  - intros q sl2 Hq _ Hl2. unfold slot_is. destruct (frame sl2) as [e2|] eqn:Hf2; [|done].
    intros (bs & Hb & Hw). exists bs. split; [|done]. rewrite lookup_insert_ne; [done|]. intros <-.
    assert (held_in (frame <$> reorder_buf_ s) e = 0) as Hz0 by lia.
    apply (held_in_zero _ _ Hz0 (Z.to_nat (q mod 16))).
    rewrite list_lookup_fmap, Hl2. cbn. by rewrite Hf2.
  - unfold slot_is. cbn. eexists. split; [apply lookup_insert_eq|].
    by rewrite (load_all _ (mem_load (Z.to_nat size) bytes 0)) by apply mem_load_length.
Qed.

Lemma wp_buffer_slot other (s : St) next W p size bytes addr ts :
  other_ok other -> re_core other s next W -> next <= p < next + 16 -> 0 <= size < 65536 -> ts <> 0 ->
  let f := (mem_load (Z.to_nat size) bytes 0, addr) in
  wp (buffer_slot (u32 p) bytes size addr ts) (fun _ s' =>
    reorder_inited_ s' = reorder_inited_ s /\
    (reorder_gap_since_us_ s <> 0 -> reorder_gap_since_us_ s' = reorder_gap_since_us_ s) /\
    if refuses s (u32 p) size
    then re_core other s' next (set_at p (mark_only (mark_of (W p))) W) /\ delivered s [(p, f)] s'
    else re_core other s' next (set_at p (Some (Some f, mark_of (W p))) W) /\ delivered s [] s' /\
      reorder_gap_since_us_ s' <> 0) s.
Proof.
  intros Ho Hc Hp Hsz Hts f. unfold refuses, slot_pool, buffer_slot, REORDER_BUF_SIZE. rewrite !mod16_u32. apply wp_bind.
  eapply slot_at_wp; [done..|]. intros sl Hsl His. rewrite Hsl. cbn [mbind option_bind]. wp_steps.
  assert (placeholder_ sl = mark_of (W p)) as Hmark.
  { unfold slot_is in His. destruct (frame sl); [by destruct His as (? & _ & ->)|]. rewrite His.
    by destruct (placeholder_ sl). }
  apply (wp_mono _ (fun _ s1 => re_core other s1 next (set_at p (mark_only (mark_of (W p))) W) /\
    re_out s1 = re_out s /\ reorder_inited_ s1 = reorder_inited_ s /\
    reorder_gap_since_us_ s1 = reorder_gap_since_us_ s /\
    re_pool s1 = match frame sl with Some e => pp_free e (re_pool s) | None => re_pool s end /\
    exists sl1, reorder_buf_ s1 !! Z.to_nat (p mod 16) = Some sl1 /\ frame sl1 = None)).
  { destruct (frame sl) as [e|] eqn:Hf.
    - set (sl' := mkSlot None _ _ _ _).
      destruct (core_release other s next W p sl sl' e Ho Hc Hp Hsl Hf eq_refl) as [Hpos Hc'].
      wp_steps. apply wp_free_frame; [done|]. wp_steps. rewrite <- Hmark. repeat split; try done; try apply Hc'.
      exists sl'. split; [|done]. apply list_lookup_insert_eq. by eapply lookup_lt_Some.
    - wp_steps. repeat split; eauto; try apply Hc. intros q Hq. unfold set_at.
      destruct (rc_slot _ _ _ _ Hc q Hq) as (sl2 & Hl2 & His2). destruct (Z.eqb_spec q p) as [->|]; [|eauto].
      exists sl. split; [done|]. unfold slot_is. by rewrite Hf, Hmark. }
  intros _ s1 (Hc1 & Hout & Hin & Hgap & Hpool & sl1 & Hl1 & Hf1). rewrite <- Hpool. wp_steps.
  destruct (pp_malloc _ (re_pool s1)) as [[[e n]|] pool'] eqn:Hm; cbn [some_b fst negb].
  - pose proof (core_store other s1 next _ p (placeholder_ sl) sl1 size addr ts bytes e n pool' Ho Hc1 Hp Hsz Hl1 Hf1 Hm) as Hc2.
    eapply (core_ext _ _ _ _ (set_at p (Some (Some f, mark_of (W p))) W)) in Hc2;
      [|intros q _; unfold set_at; rewrite Hmark; by destruct (q =? p)].
    wp_steps; match goal with Hz : (_ =? 0) = _ |- _ => rename Hz into Hz0; cbn in Hz0 end;
      (split; [exact Hin|]); (split; [cbn|(split; [by eapply core_frame|])]).
    + apply Z.eqb_eq in Hz0. congruence.
    + split; [|exact Hts]. split; [by rewrite app_nil_r|exact Hin].
    + by intros _.
    + apply Z.eqb_neq in Hz0. split; [|exact Hz0]. split; [by rewrite app_nil_r|exact Hin].
  - unfold receive_frame. wp_steps. split; [exact Hin|]. split; [by intros _|]. split.
    + destruct (pp_malloc_none _ _ _ (rc_ok _ _ _ _ Hc1) (proj1 (mem_spec_fits size Hsz)) Hm) as [Hok Hr].
      destruct Hc1 as [H1 H2 H3 H4 H5]. split; [exact Hok| |exact H3|exact H4|exact H5].
      intros x. cbn. by rewrite Hr.
    + split; [cbn; by rewrite Hout|exact Hin].
Qed.

(** ** The whole window leaves *)
Definition window_upto (i : nat) (a : AbsRe A) : list (Z * Frame A) :=
  concat ((fun k => frames_at (ar_next a + Z.of_nat k) (ar_pending a !! (ar_next a + Z.of_nat k))) <$> seq 0 i).

Lemma window_upto_S i a :
  window_upto (S i) a = window_upto i a ++ frames_at (ar_next a + Z.of_nat i) (ar_pending a !! (ar_next a + Z.of_nat i)).
Proof.
  unfold window_upto. rewrite seq_S, fmap_app, concat_app. cbn [fmap list_fmap concat]. by rewrite app_nil_r.
Qed.

Lemma wp_flush_window other (s : St) a :
  other_ok other -> re_rep other s a ->
  wp flush_window (fun _ s' =>
    re_core other s' (ar_next a) (fun _ => None) /\ delivered s (abs_window a) s') s.
Proof.
  intros Ho Hr. unfold flush_window. wp_steps.
  set (W i p := if p <? ar_next a + i then None else ar_pending a !! p).
  pose (I k i s' := i = 16 - Z.of_nat k /\ 0 <= i /\ re_core other s' (ar_next a) (W i) /\
    delivered s (window_upto (Z.to_nat i) a) s').
  apply (wp_mono _ (I O)).
  - apply wp_for.
    + split; [done|]. split; [lia|]. split; [|apply delivered_refl].
      eapply core_ext; [exact Hr|]. intros p Hp. unfold W. destruct (Z.ltb_spec p (ar_next a + 0)); [lia|done].
    + intros k i s1 (Hi & Hi0 & Hc & Hd). rewrite (rc_next _ _ _ _ Hr). unfold REORDER_BUF_SIZE.
      replace (u32 (u32 (ar_next a) + i)) with (u32 (ar_next a + i)) by (unfold u32; by rewrite Zplus_mod_idemp_l).
      rewrite mod16_u32. eapply (wp_flush_slot _ _ other s1 (ar_next a)); [done|exact Hc|lia|].
      intros s2 Hc2 Hd2 _. wp_steps. split; [lia|]. split; [lia|]. split.
      * eapply core_ext; [exact Hc2|]. intros p Hp. unfold set_at, W.
        destruct (Z.eqb_spec p (ar_next a + i)), (Z.ltb_spec p (ar_next a + i)),
          (Z.ltb_spec p (ar_next a + (i + 1))); try done; lia.
      * replace (Z.to_nat (i + 1)) with (S (Z.to_nat i)) by lia. rewrite window_upto_S, Z2Nat.id by lia.
        eapply delivered_trans; [exact Hd|]. unfold W in Hd2. by rewrite Z.ltb_irrefl in Hd2.
  - intros i s1 (Hi & _ & Hc & Hd). wp_steps. assert (i = 16) as -> by lia. split; [|exact Hd].
    eapply core_ext; [exact Hc|]. intros p Hp. unfold W. destruct (Z.ltb_spec p (ar_next a + 16)); [done|lia].
Qed.

(** After the window has left, the frame at [pos] follows and [pos + 1] is
    expected. *)
Lemma jump_rep other (s : St) next pos :
  re_core other s next (fun _ => None) ->
  re_rep other (put_next (u32 (u32 pos + 1)) s) (mkAbsRe (pos + 1) ∅).
Proof.
  intros Hc. replace (u32 (u32 pos + 1)) with (u32 (pos + 1)) by (unfold u32; by rewrite Zplus_mod_idemp_l).
  by eapply core_rebase.
Qed.

Lemma rep_insert other (s : St) a p w :
  re_core other s (ar_next a) (set_at p (Some w) (fun q => ar_pending a !! q)) ->
  re_rep other s (mkAbsRe (ar_next a) (<[p := w]> (ar_pending a))).
Proof.
  intros Hc. eapply core_ext; [exact Hc|]. intros q _. unfold set_at. cbn.
  destruct (Z.eqb_spec q p) as [->|]; [by rewrite lookup_insert_eq|by rewrite lookup_insert_ne].
Qed.
Lemma rep_delete other (s : St) a p :
  re_core other s (ar_next a) (set_at p None (fun q => ar_pending a !! q)) ->
  re_rep other s (mkAbsRe (ar_next a) (delete p (ar_pending a))).
Proof.
  intros Hc. eapply core_ext; [exact Hc|]. intros q _. unfold set_at. cbn.
  destruct (Z.eqb_spec q p) as [->|]; [by rewrite lookup_delete_eq|by rewrite lookup_delete_ne].
Qed.
Lemma in_window_insert (a : AbsRe A) p w :
  in_window a -> ar_next a < p < ar_next a + 16 -> in_window (mkAbsRe (ar_next a) (<[p := w]> (ar_pending a))).
Proof. intros Hw Hp q x Hq. cbn in *. apply lookup_insert_Some in Hq as [[<- _]|[_ Hq]]; [lia|by eapply Hw]. Qed.
Lemma in_window_delete (a : AbsRe A) p :
  in_window a -> in_window (mkAbsRe (ar_next a) (delete p (ar_pending a))).
Proof. intros Hw q x Hq. cbn in *. apply lookup_delete_Some in Hq as [_ Hq]. by eapply Hw. Qed.

(** What every operation re-establishes. *)
Definition settled (other : E -> Z) (s s' : St) (r : AbsRe A * list (Z * Frame A)) : Prop :=
  re_rep other s' r.1 /\ in_window r.1 /\ armed s' r.1 /\ delivered s r.2 s'.

Lemma settled_same other (s : St) a : re_rep other s a -> in_window a -> armed s a -> settled other s s (a, []).
Proof. intros. split; [done|split; [done|split; [done|apply delivered_refl]]]. Qed.

Lemma settled_deliver other (s : St) s' sn size bytes addr a r pos :
  u32 pos = sn ->
  settled other (put_out (sn, mem_load (Z.to_nat size) bytes 0, addr) s) s' (a, r) ->
  settled other s s' (a, (pos, (mem_load (Z.to_nat size) bytes 0, addr)) :: r).
Proof.
  intros <- (H1 & H2 & H3 & H4 & H5). split; [done|split; [done|split; [done|]]]. split; [|done].
  rewrite H4. cbn. by rewrite <- app_assoc.
Qed.

(** A frame that comes early is buffered, or handed over when the pool refuses. *)
Lemma wp_early other (s : St) a size bytes addr ts d :
  other_ok other -> re_rep other s a -> in_window a -> armed s a -> 0 <= size < 65536 -> ts <> 0 ->
  0 < d < 16 ->
  let f := (mem_load (Z.to_nat size) bytes 0, addr) in
  let pos := ar_next a + d in
  let mark := mark_of (ar_pending a !! pos) in
  wp (buffer_slot (u32 pos) bytes size addr ts) (fun _ s' =>
    settled other s s' (if negb (refuses s (u32 pos) size)
      then (mkAbsRe (ar_next a) (<[pos := (Some f, mark)]> (ar_pending a)), [])
      else (mkAbsRe (ar_next a) (if mark then <[pos := (None, true)]> (ar_pending a)
                                 else delete pos (ar_pending a)), [(pos, f)]))) s.
Proof.
  intros Ho Hr Hw Ha Hsz Hts Hd f pos mark.
  wp_use (wp_buffer_slot other s (ar_next a) _ pos size bytes addr ts); [done|exact Hr|lia|done|done|].
  cbn beta. fold mark. intros _ s' (Hin & Hgap & Hcase). destruct (refuses s (u32 pos) size); cbn [negb].
  - destruct Hcase as (Hc & Hdel). assert (mark = true -> exists w, ar_pending a !! pos = Some w) as Hm.
    { unfold mark. destruct (ar_pending a !! pos); [by eexists|done]. }
    assert ((exists p w, ar_pending a !! p = Some w) -> reorder_gap_since_us_ s' <> 0) as Hg.
    { intros He. specialize (Ha He). rewrite (Hgap Ha). exact Ha. }
    destruct mark; (split; [|split; [|split; [|exact Hdel]]]).
    + by apply rep_insert.
    + apply in_window_insert; [done|lia].
    + intros _. apply Hg. destruct (Hm eq_refl) as [w Hw0]; eauto.
    + by apply rep_delete.
    + by apply in_window_delete.
    + intros (p & w & Hp). apply Hg. cbn in Hp. apply lookup_delete_Some in Hp as [_ Hp]. eauto.
  - destruct Hcase as (Hc & Hdel & Hg). split; [by apply rep_insert|]. split; [apply in_window_insert; [done|lia]|]. split; [by intros _|done].
Qed.

(** The number a packet is filed under. *)
Definition filed_sn (sn0 : Z) (data : option (list Z)) (hint : Z) : Z :=
  if some_b data && negb (hint =? UINT32_MAX) && negb (hint =? sn0) then hint else sn0.
Lemma filed_range sn0 data hint : 0 <= sn0 < 4294967296 -> 0 <= hint < 4294967296 -> 0 <= filed_sn sn0 data hint < 4294967296.
Proof. unfold filed_sn. by destruct (_ && _). Qed.
Definition frame_of (data : option (list Z)) (size : Z) (addr : option A) : option (Frame A) :=
  (fun bytes => (mem_load (Z.to_nat size) bytes 0, addr)) <$> data.

(** The session and the queue before a packet [sn0]: the first one after a
    reset is the one expected. *)
Definition ready (other : E -> Z) (s : St) (sn0 : Z) (a : AbsRe A) : Prop :=
  if reorder_inited_ s then re_rep other s a /\ in_window a /\ armed s a
  else (exists next, re_core other s next (fun _ => None)) /\ a = mkAbsRe sn0 ∅.

Lemma ready_start {B} (k : ST St B) Q other (s : St) sn0 a :
  0 <= sn0 < 4294967296 -> ready other s sn0 a ->
  (forall s1, re_rep other s1 a -> in_window a -> armed s1 a -> reorder_inited_ s1 = true ->
     re_out s1 = re_out s -> re_pool s1 = re_pool s -> reorder_buf_ s1 = reorder_buf_ s -> wp k Q s1) ->
  wp (_ ← when (negb (reorder_inited_ s)) (_ ← mod_st (put_next sn0); mod_st (put_inited true)); k) Q s.
Proof.
  intros Hsn Hr Hk. unfold ready in Hr. destruct (reorder_inited_ s) eqn:Hi; cbn [negb]; wp_steps.
  - destruct Hr as (Hr & Hw & Ha). by apply Hk.
  - destruct Hr as ((next & Hc) & ->). apply Hk; try done.
    + pose proof (core_rebase other s next sn0 _ (fun q => (∅ : gmap Z (waiting A)) !! q) Hc
        ltac:(done) ltac:(intros; apply lookup_empty)) as Hb.
      rewrite (u32_small sn0) in Hb by done. by eapply core_frame.
    + intros (p & w & Hp). cbn in Hp. by rewrite lookup_empty in Hp.
Qed.

(** What [ReorderEnqueue] does once the session is initialised. *)
Lemma wp_null other (s : St) a sn ts :
  other_ok other -> re_rep other s a -> in_window a -> armed s a -> 0 <= sn < 4294967296 -> ts <> 0 ->
  0 <= distance sn a ->
  wp (if distance sn a =? 0 then advance ts
      else if distance sn a <? REORDER_BUF_SIZE then
        let idx := sn mod REORDER_BUF_SIZE in
        sl ← slot_at idx;
        match frame sl with
        | Some _ => mret tt
        | None =>
            _ ← mod_st (put_slot idx (mkSlot None true (frame_size sl) (arrive_ts_us sl) (tran_addr sl)));
            s ← get_st;
            when (reorder_gap_since_us_ s =? 0) (mod_st (put_gap ts))
        end
      else mret tt)
    (fun _ s' => settled other s s' (abs_enqueue true sn None a)) s.
Proof.
  intros Ho Hr Hw Ha Hsn Hts Hd. unfold abs_enqueue, REORDER_BUF_SIZE. cbv zeta.
  destruct (Z.ltb_spec (distance sn a) 0); [lia|].
  destruct (Z.eqb_spec (distance sn a) 0) as [Hz|Hz].
  { wp_use (wp_advance other s a ts); [done..|]. intros _ s' (H1 & H2 & H3 & H4 & H5). exact (conj H1 (conj H2 (conj H4 H3))). }
  destruct (Z.ltb_spec (distance sn a) 16); [|wp_steps; by apply settled_same].
  set (pos := ar_next a + distance sn a).
  assert (sn mod 16 = pos mod 16) as -> by (unfold pos; rewrite <- (mod16_u32 (_ + _)); by rewrite distance_pos).
  apply wp_bind. eapply slot_at_wp; [exact Hr|lia|]. intros sl Hsl His. cbn beta in His.
  pose proof His as His0. unfold slot_is in His. destruct (frame sl) as [e|] eqn:Hf.
  { destruct His as (bs & _ & ->). wp_steps. by apply settled_same. }
  apply (wp_mono _ (fun _ s' => settled other s s'
    (mkAbsRe (ar_next a) (<[pos := ((None, true) : waiting A)]> (ar_pending a)), []))).
  2:{ intros _ s' Hs. rewrite His. by destruct (placeholder_ sl). }
  assert (re_rep other (put_slot (pos mod 16) (mkSlot None true (frame_size sl) (arrive_ts_us sl) (tran_addr sl)) s)
    (mkAbsRe (ar_next a) (<[pos := ((None, true) : waiting A)]> (ar_pending a)))) as Hc'.
  { apply rep_insert. eapply core_frame; [eapply (core_slot other s _ _ pos sl (mkSlot None true (frame_size sl) (arrive_ts_us sl) (tran_addr sl))
      _ (re_mem s) (re_pool s))|..];
      [exact Hr|lia|done|apply (rc_ok _ _ _ _ Hr)|intros x; rewrite Hf; cbn [frame]; lia|done..]. }
  wp_steps; match goal with Hz : (_ =? 0) = _ |- _ => rename Hz into Hz0; cbn in Hz0 end;
    (split; [first [exact Hc'|exact (rep_gap _ _ _ _ Hc')]|]); (split; [apply in_window_insert; [done|lia]|]).
  - split; [intros _; exact Hts|]. split; [by rewrite app_nil_r|done].
  - split; [intros _; by apply Z.eqb_neq|]. split; [by rewrite app_nil_r|done].
Qed.

Lemma wp_enqueue other (s : St) a sn0 data size addr ts hint :
  other_ok other -> ready other s sn0 a -> 0 <= sn0 < 4294967296 -> 0 <= hint < 4294967296 ->
  0 <= size < 65536 -> ts <> 0 ->
  wp (ReorderEnqueue sn0 data size addr ts hint) (fun _ s' =>
    reorder_inited_ s' = true /\
    let sn := filed_sn sn0 data hint in
    let r := abs_enqueue (negb (refuses s sn size)) sn (frame_of data size addr) a in
    re_rep other s' r.1 /\ in_window r.1 /\ armed s' r.1 /\ re_out s' = re_out s ++ (conc <$> r.2)) s.
Proof.
  intros Ho Hr Hsn0 Hhint Hsz Hts. unfold ReorderEnqueue. apply wp_bind, wp_get.
  eapply (ready_start _ _ other s sn0 a); [done|done|]. intros s1 Hr1 Hw Ha Hin Hout Hpool Hbuf. fold (filed_sn sn0 data hint).
  set (sn := filed_sn sn0 data hint).
  assert (0 <= sn < 4294967296) as Hsn by (unfold sn, filed_sn; by destruct (_ && _)).
  apply (wp_mono _ (fun _ s' =>
    settled other s1 s' (abs_enqueue (negb (refuses s1 sn size)) sn (frame_of data size addr) a))).
  2:{ intros _ s' (H1 & H2 & H3 & H4 & H5). split; [congruence|].
      replace (refuses s sn size) with (refuses s1 sn size); [rewrite <- Hout; auto|].
      unfold refuses, slot_pool. by rewrite Hpool, Hbuf. }
  clear Hr Hout. apply wp_bind, wp_get. rewrite (rc_next _ _ _ _ Hr1). fold (distance sn a).
  destruct (Z.ltb_spec (distance sn a) 0) as [Hlt|Hge].
  { apply wp_ret. unfold abs_enqueue. rewrite (proj2 (Z.ltb_lt _ _) Hlt). by apply settled_same. }
  destruct data as [bytes|].
  2:{ eapply wp_mono; [by apply (wp_null other)|]. cbn beta. intros _ s' Hs. exact Hs. }
  assert (negb (hint =? UINT32_MAX) && negb (hint =? sn) = false) as ->.
  { unfold sn, filed_sn. cbn. destruct (hint =? UINT32_MAX) eqn:H1; [done|]. cbn.
    destruct (hint =? sn0) eqn:H2; cbn; by rewrite ?H2, ?Z.eqb_refl. }
  cbv zeta. cbn [andb]. set (pos := ar_next a + distance sn a).
  assert (u32 pos = sn) as Hpos by by apply distance_pos.
  unfold abs_enqueue, frame_of, REORDER_BUF_SIZE, receive_frame, bump_next. fold pos.
  cbn [fmap option_fmap option_map]. rewrite (proj2 (Z.ltb_ge _ _) Hge).
  destruct (Z.eqb_spec (distance sn a) 0) as [Hz|Hz].
  { wp_steps. set (s2 := put_out _ s1). wp_use (wp_advance other s2 a ts); [done|done|by eapply core_frame|done|].
    intros _ s' (H1 & H2 & H3 & H4 & H5). destruct (abs_advance a) as [a' out].
    apply settled_deliver with (sn := sn); [done|]. exact (conj H1 (conj H2 (conj H4 H3))). }
  destruct (Z.leb_spec 16 (distance sn a)) as [Hbig|Hsmall].
  - wp_steps. wp_use (wp_flush_window other s1 a); [done|done|]. intros _ s2 [Hc2 [Ho2 Hi2]]. wp_steps.
    pose proof (jump_rep other s2 (ar_next a) pos Hc2) as Hj. rewrite Hpos in Hj.
    split; [by eapply core_frame|].
    split; [intros p w Hp; cbn in Hp; by rewrite lookup_empty in Hp|].
    split; [intros (p & w & Hp); cbn in Hp; by rewrite lookup_empty in Hp|].
    split; [|exact Hi2]. cbn. rewrite Ho2, fmap_app, app_assoc. cbn. by rewrite <- Hpos.
  - pose proof (wp_early other s1 a size bytes addr ts (distance sn a) Ho Hr1 Hw Ha Hsz Hts ltac:(lia)) as He.
    cbv zeta in He. fold pos in He. rewrite Hpos in He. eapply wp_mono; [exact He|].
    cbn beta. intros _ s' Hs. exact Hs.
Qed.

(** ** The gap timer and the reset *)
Definition gap_due (s : St) (pps ts : Z) : bool :=
  negb (reorder_gap_since_us_ s =? 0) && (gap_timeout_us pps <=? u64 (ts - reorder_gap_since_us_ s)).

Lemma wp_timer other (s : St) a pps ts :
  other_ok other -> re_rep other s a -> in_window a -> armed s a -> ts <> 0 ->
  wp (ReorderGapTimer pps ts) (fun _ s' =>
    if gap_due s pps ts
    then settled other s s' (abs_advance a) /\ (reorder_gap_since_us_ s' = 0 \/ reorder_gap_since_us_ s' = ts)
    else s' = s) s.
Proof.
  intros Ho Hr Hw Ha Hts. unfold ReorderGapTimer, gap_due. apply wp_bind, wp_get.
  destruct (reorder_gap_since_us_ s =? 0); [by apply wp_ret|]. cbn [negb andb].
  apply wp_when; intros Hd; rewrite Hd; [|done].
  wp_use (wp_advance other s a ts); [done..|]. intros _ s' (H1 & H2 & H3 & H4 & H5).
  split; [|done]. exact (conj H1 (conj H2 (conj H4 H3))).
Qed.

(** The first [i] slots are empty. *)
Record clearing (other : E -> Z) (out : list (delivery A)) (i : Z) (s : St) : Prop := {
  cl_ok : pp_ok (re_pool s);
  cl_refs e : pp_refs (re_pool s) e = other e + held_in (frame <$> reorder_buf_ s) e;
  cl_len : length (reorder_buf_ s) = 16%nat;
  cl_out : re_out s = out;
  cl_slot j : (Z.of_nat j < i) -> exists sl, reorder_buf_ s !! j = Some sl /\ slot_idle sl = true
}.

Lemma clearing_done other out (s : St) :
  clearing other out 16 s -> forall e, held_in (frame <$> reorder_buf_ s) e = 0.
Proof.
  intros Hc e. pose proof (held_in_nonneg (frame <$> reorder_buf_ s) e) as Hnn.
  destruct (decide (held_in (frame <$> reorder_buf_ s) e = 0)) as [|Hne]; [done|].
  assert (0 < held_in (frame <$> reorder_buf_ s) e) as Hp by lia.
  destruct (held_in_lookup _ _ Hp) as [j Hj].
  pose proof (lookup_lt_Some _ _ _ Hj) as Hlt. rewrite length_fmap, (cl_len _ _ _ _ Hc) in Hlt.
  destruct (cl_slot _ _ _ _ Hc j ltac:(lia)) as (sl & Hsl & Hidle).
  rewrite list_lookup_fmap, Hsl in Hj. cbn in Hj. injection Hj as Hf. unfold slot_idle in Hidle. by rewrite Hf in Hidle.
Qed.

Lemma clearing_step other out (s : St) i sl sl' pool :
  clearing other out i s -> 0 <= i < 16 -> reorder_buf_ s !! Z.to_nat i = Some sl ->
  pp_ok pool -> (forall e, pp_refs pool e = pp_refs (re_pool s) e - ind (bool_decide (frame sl = Some e))) ->
  slot_idle sl' = true ->
  clearing other out (i + 1) (put_slot i sl' (put_pool pool s)).
Proof.
  intros [H1 H2 H3 H4 H5] Hi Hsl Hok Hr Hidle. split; cbn; [done| | |done|].
  - intros e. rewrite Hr, H2, list_fmap_insert, (held_in_insert _ _ (frame sl)) by (by rewrite list_lookup_fmap, Hsl).
    assert (frame sl' = None) as -> by (unfold slot_idle in Hidle; by destruct (frame sl')).
    rewrite (bool_decide_false (None = Some e)) by done. cbn. lia.
  - by rewrite length_insert.
  - intros j Hj. destruct (decide (j = Z.to_nat i)) as [->|Hne].
    + exists sl'. split; [|done]. apply list_lookup_insert_eq. by eapply lookup_lt_Some.
    + rewrite list_lookup_insert_ne by done. apply H5. lia.
Qed.

Lemma wp_clear other (s : St) :
  other_ok other -> clearing other (re_out s) 0 s ->
  wp ReorderClear (fun _ s' =>
    re_core other s' 0 (fun _ => None) /\ (forall e, pp_refs (re_pool s') e = other e) /\
    reorder_inited_ s' = false /\ reorder_gap_since_us_ s' = 0 /\ re_out s' = re_out s) s.
Proof.
  intros Ho Hc. unfold ReorderClear. wp_steps.
  apply (wp_mono _ (fun i s' => 0 <= i /\ i = 16 - Z.of_nat 0 /\ clearing other (re_out s) i s')).
  - apply (wp_for (fun k i s' => 0 <= i /\ i = 16 - Z.of_nat k /\ clearing other (re_out s) i s')); [done|].
    intros k i s1 (Hi0 & Hi & Hc1). unfold slot_at. wp_steps.
    destruct (lookup_Z_range (reorder_buf_ s1) i 16 (cl_len _ _ _ _ Hc1) ltac:(lia)) as [sl Hsl].
    rewrite Hsl. cbn. wp_steps. destruct (frame sl) as [e|] eqn:Hf.
    + assert (0 < pp_refs (re_pool s1) e) as Hpos.
      { rewrite (cl_refs _ _ _ _ Hc1). specialize (Ho e).
        pose proof (held_in_pos (frame <$> reorder_buf_ s1) (Z.to_nat i) e) as Hh.
        rewrite list_lookup_fmap, Hsl in Hh. cbn in Hh. rewrite Hf in Hh. specialize (Hh eq_refl). lia. }
      apply wp_free_frame; [exact Hpos|]. wp_steps. split; [lia|]. split; [lia|].
      destruct (pp_free_law _ _ (cl_ok _ _ _ _ Hc1) Hpos) as [Hok Hr].
      eapply clearing_step; [done|lia|done|done| |done]. intros x. rewrite Hr, Hf.
      by rewrite (bool_decide_ext (x = e) (Some e = Some x)) by (split; congruence).
    + wp_steps. split; [lia|]. split; [lia|].
      apply (clearing_step other (re_out s) s1 i sl _ (re_pool s1)); [done|lia|done|apply (cl_ok _ _ _ _ Hc1)| |done].
      intros x. rewrite Hf, (bool_decide_false (None = Some x)) by done. cbn. lia.
  - intros i s1 (_ & -> & Hc1). wp_steps. pose proof (clearing_done _ _ _ Hc1) as Hz.
    destruct Hc1 as [H1 H2 H3 H4 H5]. repeat split; try done.
    + intros p Hp. destruct (H5 (Z.to_nat (p mod 16))) as (sl & Hsl & Hidle).
      { pose proof (Z.mod_pos_bound p 16 ltac:(lia)). lia. }
      exists sl. split; [done|]. unfold slot_is, slot_idle in *. destruct (frame sl); [done|]. by destruct (placeholder_ sl).
    + intros e. cbn. rewrite H2, Hz. lia.
Qed.


Lemma gap_timeout_bounds pps : 0 <= pps -> 13000 <= gap_timeout_us pps <= 500000.
Proof.
  intros Hp. unfold gap_timeout_us. cbv zeta.
  destruct (_ <? 13000) eqn:H1; [cbn; lia|]. apply Z.ltb_ge in H1.
  match goal with |- context [?x >? 500000] => destruct (Z.gtb_spec x 500000); lia end.
Qed.

End Ops.
End ReorderSpec.
