(* ===== verification/ReorderRun.v ===== *)
(** * Runs of the reorder buffer

    Sequences of packets and timer ticks, and what the application sees of
    them: frames in sequence number order, none dropped that came in time, and
    a gap that never holds frames back for ever. *)
From Stdlib Require Import Sorting.Sorted.
From S2P Require Import Prelude PoolInterface TranPool TranPoolSpec Reorder ReorderSpec.
Export TranPool TranPoolSpec ReorderSpec.

Module ReorderRun.

(** ** Frames are delivered or wait *)
Section Keeps.
Context {A : Type}.

Lemma flush_keeps n (a : AbsRe A) p f b :
  ar_pending a !! p = Some (Some f, b) ->
  (p, f) ∈ (abs_flush n a).2 \/ ar_pending (abs_flush n a).1 !! p = Some (Some f, b).
Proof.
  revert a. induction n as [|n IH]; intros a Hp; cbn [abs_flush]; [by right|].
  destruct (ar_pending a !! ar_next a) as [w|] eqn:Hw; [|by right].
  pose proof (IH (mkAbsRe (ar_next a + 1) (delete (ar_next a) (ar_pending a)))) as IHa. cbn [ar_pending] in IHa.
  destruct (abs_flush n _) as [a' out]. cbn [fst snd] in *. destruct (decide (p = ar_next a)) as [->|Hne].
  - left. assert (Some w = Some (Some f, b)) as [= ->] by (rewrite <- Hw; exact Hp). cbn. set_solver.
  - rewrite lookup_delete_ne in IHa by done. destruct (IHa Hp) as [Hin|Hin]; [left; apply elem_of_app; by right|by right].
Qed.

Lemma conserve_advance (a : AbsRe A) p f b :
  ar_pending a !! p = Some (Some f, b) ->
  (p, f) ∈ (abs_advance a).2 \/ ar_pending (abs_advance a).1 !! p = Some (Some f, b).
Proof. exact (flush_keeps 16 (mkAbsRe (ar_next a + 1) (ar_pending a)) p f b). Qed.

Lemma window_keeps (a : AbsRe A) p f b :
  in_window a -> ar_pending a !! p = Some (Some f, b) -> (p, f) ∈ abs_window a.
Proof.
  intros Hw Hp. pose proof (Hw p _ Hp) as Hr. unfold abs_window. apply list_elem_of_In, in_concat.
  eexists. split.
  - apply list_elem_of_In, list_elem_of_fmap. exists (Z.to_nat (p - ar_next a)). split; [reflexivity|].
    apply elem_of_seq. lia.
  - rewrite Z2Nat.id by lia. replace (ar_next a + (p - ar_next a)) with p by lia. rewrite Hp. by left.
Qed.

(** A frame that is not late is delivered or waits at its position, and so is
    every frame that waited at another position. *)
Lemma enqueue_keeps ok sn f (a : AbsRe A) :
  in_window a -> 0 <= distance sn a ->
  let pos := ar_next a + distance sn a in
  let r := abs_enqueue ok sn (Some f) a in
  ((pos, f) ∈ r.2 \/ exists b, ar_pending r.1 !! pos = Some (Some f, b)) /\
  forall p g b, p <> pos -> ar_pending a !! p = Some (Some g, b) ->
    (p, g) ∈ r.2 \/ ar_pending r.1 !! p = Some (Some g, b).
Proof.
  intros Hw Hd pos. unfold abs_enqueue. fold pos. rewrite (proj2 (Z.ltb_ge _ _) Hd).
  destruct (Z.eqb_spec (distance sn a) 0) as [Hz|Hz].
  - pose proof (conserve_advance a) as Hk.
    destruct (abs_advance a) as [a' out]. cbn [fst snd] in *. split; [left; set_solver|].
    intros p g b _ Hp. destruct (Hk p g b Hp) as [Hin|Hin]; [left; set_solver|by right].
  - destruct (Z.leb_spec 16 (distance sn a)).
    + cbn [fst snd]. split; [left; apply elem_of_app; right; by left|]. intros p g b _ Hp. left.
      apply elem_of_app. left. by apply (window_keeps a p g b).
    + set (mark := match _ with Some (_, b) => b | None => false end). destruct ok; cbn [fst snd ar_pending].
      * split; [right; exists mark; apply lookup_insert_eq|].
        intros p g b Hne Hp. right. by rewrite lookup_insert_ne.
      * split; [left; set_solver|]. intros p g b Hne Hp. right.
        destruct mark; [by rewrite lookup_insert_ne|by rewrite lookup_delete_ne].
Qed.

(** The timer moves at least one position on and brings nothing new. *)
Lemma flush_sub n (a : AbsRe A) p w : ar_pending (abs_flush n a).1 !! p = Some w -> ar_pending a !! p = Some w.
Proof.
  revert a. induction n as [|n IH]; intros a; cbn [abs_flush]; [done|].
  destruct (ar_pending a !! ar_next a) as [x|]; [|done].
  specialize (IH (mkAbsRe (ar_next a + 1) (delete (ar_next a) (ar_pending a)))).
  destruct (abs_flush n _) as [a' out]. cbn [fst] in *. intros Hp. specialize (IH Hp). cbn in IH.
  by apply lookup_delete_Some in IH as [_ IH].
Qed.
Lemma advance_sub (a : AbsRe A) p w : ar_pending (abs_advance a).1 !! p = Some w -> ar_pending a !! p = Some w.
Proof. exact (flush_sub 16 (mkAbsRe (ar_next a + 1) (ar_pending a)) p w). Qed.

(** The queue has moved on from [lo], and to [hi] or at most [k] further; nothing
    waits at [hi] or behind it. *)
Definition near (lo hi k : Z) (a : AbsRe A) : Prop :=
  lo <= ar_next a <= hi + k /\ forall p w, ar_pending a !! p = Some w -> p < hi.
Definition below (hi : Z) (out : list (Z * Frame A)) : Prop := Forall (fun x => x.1 < hi) out.

Lemma near_more lo hi k k' a : near lo hi k a -> k <= k' -> near lo hi k' a.
Proof. intros [H1 H2] Hk. split; [lia|done]. Qed.
Lemma frames_below hi p (w : waiting A) : p < hi -> below hi (frames_of p w).
Proof. intros Hp. unfold frames_of. destruct w.1; repeat constructor. exact Hp. Qed.
Lemma flush_near lo hi k n : forall a, near lo hi k a -> 0 <= k ->
  near lo hi k (abs_flush n a).1 /\ below hi (abs_flush n a).2.
Proof.
  induction n as [|n IH]; intros a [Ha Hp] Hk; cbn [abs_flush]; [split; [done|constructor]|].
  destruct (ar_pending a !! ar_next a) as [w|] eqn:Hw; [|split; [done|constructor]]. pose proof (Hp _ _ Hw).
  specialize (IH (mkAbsRe (ar_next a + 1) (delete (ar_next a) (ar_pending a)))). destruct (abs_flush n _) as [a' out].
  destruct IH as [IH1 IH2]; [|done|split; [done|]; apply Forall_app; split; [by apply frames_below|done]].
  split; cbn; [lia|]. intros p x [_ Hx]%lookup_delete_Some. by eapply Hp.
Qed.
Lemma advance_near lo hi k (a : AbsRe A) : near lo hi k a -> 0 <= k -> ar_next a < hi + k ->
  near lo hi k (abs_advance a).1 /\ below hi (abs_advance a).2.
Proof. intros [Ha Hp] Hk Hlt. apply (flush_near lo hi k 16 (mkAbsRe (ar_next a + 1) (ar_pending a))); [split; [cbn; lia|exact Hp]|done]. Qed.
Lemma window_below hi (a : AbsRe A) : (forall p w, ar_pending a !! p = Some w -> p < hi) -> below hi (abs_window a).
Proof.
  intros Hp. unfold abs_window. generalize (seq 0 16). intros l. induction l as [|j l IH]; [constructor|]. cbn [fmap list_fmap concat].
  apply Forall_app. split; [|exact IH]. destruct (ar_pending a !! _) as [w|] eqn:Hw; [|constructor]. apply frames_below. by eapply Hp.
Qed.
(** A packet filed under a number below [hi]. *)
Lemma enqueue_near lo hi k sn data (a : AbsRe A) :
  near lo hi k a -> 0 <= k -> 0 <= lo <= sn -> sn < hi -> sn < 4294967296 -> hi + k - lo < 2 ^ 31 ->
  near lo hi k (abs_enqueue true sn data a).1 /\ below hi (abs_enqueue true sn data a).2.
Proof.
  intros Hn Hk Hlo Hhi H32 Hspan. pose proof Hn as [Ha Hp].
  assert (Hd : distance sn a = sn - ar_next a) by (rewrite <- distance_u32 by lia; by rewrite u32_small by lia).
  unfold abs_enqueue. rewrite Hd. replace (ar_next a + (sn - ar_next a)) with sn by lia.
  assert (Hput : forall w, near lo hi k (mkAbsRe (ar_next a) (<[sn := w]> (ar_pending a)))).
  { intros w. split; [done|]. cbn. intros p x [[-> _]|[_ Hx]]%lookup_insert_Some; [done|by eapply Hp]. }
  destruct (Z.ltb_spec (sn - ar_next a) 0); [split; [done|constructor]|].
  pose proof (advance_near lo hi k a Hn Hk) as Hadv. destruct data as [f|].
  - destruct (Z.eqb_spec (sn - ar_next a) 0).
    + destruct (abs_advance a) as [a' out]. destruct Hadv as [K1 K2]; [lia|]. split; [done|]. by constructor.
    + destruct (Z.leb_spec 16 (sn - ar_next a)); [|split; [apply Hput|constructor]]. split.
      * split; cbn; [lia|]. intros p w Hw. by rewrite lookup_empty in Hw.
      * apply Forall_app. split; [by apply window_below|by constructor].
  - destruct (Z.eqb_spec (sn - ar_next a) 0); [apply Hadv; lia|].
    destruct (Z.ltb_spec (sn - ar_next a) 16); [|split; [done|constructor]].
    destruct (ar_pending a !! sn) as [[[?|] ?]|]; (split; [done || apply Hput|constructor]).
Qed.

End Keeps.

(** ** Runs *)
Section Runs.
Context {P E A : Type} `{Countable E} `{!PackPool P E} `{!PackPoolLaws P E}.
Local Abbreviation St := (ReSt P E A).
Local Abbreviation M := (ST St).

(** A packet handed to [ReorderEnqueue], a tick of the 100 ms timer, or a
    buffer that somebody else gives back. *)
Inductive ReEvent :=
| EvPacket (sn : Z) (data : option (list Z)) (size : Z) (addr : option A) (ts_us hint : Z)
| EvTimer (pps ts_us : Z)
| EvFree (e : E).

Definition re_step (ev : ReEvent) : M unit :=
  match ev with
  | EvPacket sn data size addr ts_us hint => ReorderEnqueue sn data size addr ts_us hint
  | EvTimer pps ts_us => ReorderGapTimer pps ts_us
  | EvFree e => free_frame e
  end.
Fixpoint re_run (evs : list ReEvent) : M unit :=
  match evs with
  | [] => mret tt
  | ev :: evs' => _ ← re_step ev; re_run evs'
  end.

Lemma re_run_app l k : forall (s s' : St), re_run (l ++ k) s = Some (tt, s') ->
  exists s1, re_run l s = Some (tt, s1) /\ re_run k s1 = Some (tt, s').
Proof.
  induction l as [|ev l IH]; intros s s'; [by exists s|]. cbn [app re_run]. unfold mbind, ST_bind.
  destruct (re_step ev s) as [[[] s1]|]; [|done]. apply IH.
Qed.

Definition event_ok (ev : ReEvent) : Prop :=
  match ev with
  | EvPacket sn _ size _ ts_us hint =>
      0 <= sn < 4294967296 /\ 0 <= hint < 4294967296 /\ 0 <= size < 65536 /\ ts_us <> 0
  | EvTimer _ ts_us => ts_us <> 0
  | EvFree _ => True
  end.

(** The references of the others after an event, and that they have those they
    give back. *)
Definition less (other : E -> Z) (ev : ReEvent) : E -> Z :=
  match ev with EvFree e => fun x => if bool_decide (x = e) then other x - 1 else other x | _ => other end.
Fixpoint owned (other : E -> Z) (evs : list ReEvent) : Prop :=
  match evs with
  | [] => True
  | ev :: evs' => match ev with EvFree e => 0 < other e | _ => True end /\ owned (less other ev) evs'
  end.
Definition left_over (other : E -> Z) (evs : list ReEvent) : E -> Z := foldl less other evs.
Lemma less_ok other ev : other_ok other -> match ev with EvFree e => 0 < other e | _ => True end -> other_ok (less other ev).
Proof.
  intros Ho He x. specialize (Ho x). destruct ev as [| |e]; [done..|]. cbn. case_bool_decide as Hx; [subst x; lia|done].
Qed.
(** Some packet of the run finds the pool exhausted. *)
Definition ev_refused (ev : ReEvent) (s : St) : bool :=
  match ev with
  | EvPacket sn data size _ _ hint => refuses s (filed_sn sn data hint) size
  | _ => false
  end.
Fixpoint starved (evs : list ReEvent) (s : St) : bool :=
  match evs with
  | [] => false
  | ev :: evs' => ev_refused ev s || match re_step ev s with Some (_, s') => starved evs' s' | None => false end
  end.

(** The state after the session was set up or [ReorderClear] ran. *)
Definition rested (other : E -> Z) (s : St) : Prop :=
  (exists next, re_core other s next (fun _ => None)) /\ reorder_inited_ s = false /\ reorder_gap_since_us_ s = 0.

(** The buffer stands for the queue [a]. *)
Definition stands (other : E -> Z) (s : St) (a : AbsRe A) : Prop :=
  re_rep other s a /\ in_window a /\ armed s a /\ reorder_inited_ s = true.

Lemma stands_ready other s sn a : stands other s a -> ready other s sn a.
Proof. intros (Hr & Hw & Ha & Hi). unfold ready. by rewrite Hi. Qed.
Lemma rested_ready other s sn : rested other s -> ready other s sn (mkAbsRe sn ∅).
Proof. intros (Hc & Hi & _). unfold ready. by rewrite Hi. Qed.

(** The frame that comes with an event, and the number it is filed under. *)
Definition ev_frames (ev : ReEvent) : list (delivery A) :=
  match ev with EvPacket sn data size addr _ hint => frame_list (filed_sn sn data hint) (frame_of data size addr) | _ => [] end.
Definition run_frames (evs : list ReEvent) : list (delivery A) := mjoin (ev_frames <$> evs).

Lemma run_frames_app (l k : list ReEvent) : run_frames (l ++ k) = run_frames l ++ run_frames k.
Proof. unfold run_frames. by rewrite fmap_app, join_app. Qed.

(** The numbers of an event lie in [lo, hi), and how often the timer ticks. *)
Definition ev_in (lo hi : Z) (ev : ReEvent) : Prop :=
  match ev with EvPacket sn data _ _ _ hint => lo <= sn < hi /\ lo <= filed_sn sn data hint < hi | _ => True end.
Definition ticks_of (evs : list ReEvent) : Z := foldr (fun ev n => match ev with EvTimer _ _ => 1 | _ => 0 end + n) 0 evs.
Lemma ticks_nonneg evs : 0 <= ticks_of evs.
Proof. induction evs as [|ev evs IH]; [done|]. cbn [ticks_of foldr]. fold (ticks_of evs). destruct ev; lia. Qed.
Lemma ticks_app l k : ticks_of (l ++ k) = ticks_of l + ticks_of k.
Proof. induction l as [|ev l IH]; [done|]. cbn [app ticks_of foldr]. fold (ticks_of (l ++ k)) (ticks_of l). lia. Qed.

(** Where the events [evs] lead the queue: not further than their numbers and
    the ticks, if their numbers are not too far from each other. *)
Definition stays_near (a : AbsRe A) (evs : list ReEvent) (a' : AbsRe A) (out : list (Z * Frame A)) : Prop :=
  forall lo hi k, near lo hi k a -> 0 <= k -> 0 <= lo -> Forall (ev_in lo hi) evs -> hi + k + ticks_of evs - lo < 2 ^ 31 ->
    near lo hi (k + ticks_of evs) a' /\ below hi out.

(** What the application has seen when a run of [evs] from [s] and [a] stops at [s']. *)
Definition went (other : E -> Z) (s : St) (a : AbsRe A) (evs : list ReEvent) (s' : St) : Prop :=
  exists a' out, stands other s' a' /\ re_out s' = re_out s ++ (conc <$> out) /\
    ar_next a <= ar_next a' /\ increasing (ar_next a) (ar_next a') out /\ conserves a (run_frames evs) a' out /\ stays_near a evs a' out.

Lemma went_trans other s a e1 s1 a1 o1 e2 s2 :
  re_out s1 = re_out s ++ (conc <$> o1) -> ar_next a <= ar_next a1 -> increasing (ar_next a) (ar_next a1) o1 ->
  conserves a (run_frames e1) a1 o1 -> stays_near a e1 a1 o1 -> went other s1 a1 e2 s2 -> went other s a (e1 ++ e2) s2.
Proof.
  intros Ho1 Hle1 Hi1 Hc1 Hn1 (a2 & o2 & Hs2 & Ho2 & Hle2 & Hi2 & Hc2 & Hn2). exists a2, (o1 ++ o2). split; [done|].
  split; [by rewrite Ho2, Ho1, fmap_app, app_assoc|]. split; [lia|]. split; [by eapply increasing_app|].
  split; [rewrite run_frames_app; by eapply conserves_trans|]. intros lo hi k Hn Hk Hlo [Hev1 Hev2]%Forall_app Hspan.
  rewrite ticks_app in *. pose proof (ticks_nonneg e1). pose proof (ticks_nonneg e2).
  destruct (Hn1 lo hi k) as [K1 K2]; [done..|lia|]. destruct (Hn2 lo hi (k + ticks_of e1)) as [L1 L2]; [done|lia|done..|lia|].
  split; [by rewrite Z.add_assoc|]. by apply Forall_app.
Qed.
Lemma went_nothing other s a evs : stands other s a -> run_frames evs = [] -> went other s a evs s.
Proof.
  intros Hs Hf. exists a, []. split; [done|]. split; [by rewrite app_nil_r|]. split; [lia|]. split; [apply increasing_nil|].
  split; [rewrite Hf; apply conserves_more|]. intros lo hi k Hn Hk _ _ _. split; [|constructor].
  pose proof (ticks_nonneg evs). eapply near_more; [exact Hn|lia].
Qed.

(** One packet keeps the deliveries increasing unless the pool refused it. *)
Lemma step_packet other s a sn data size addr ts hint :
  other_ok other -> ready other s sn a -> event_ok (EvPacket sn data size addr ts hint) ->
  refuses s (filed_sn sn data hint) size = false ->
  wp (ReorderEnqueue sn data size addr ts hint) (fun _ s' => went other s a [EvPacket sn data size addr ts hint] s') s.
Proof.
  intros Ho Hr (Hsn & Hh & Hsz & Hts) Href. eapply wp_mono; [by apply (wp_enqueue other s a)|]. cbn beta zeta.
  rewrite Href. cbn [negb]. intros _ s' (Hi & H1 & H2 & H3 & H4).
  assert (in_window a) as Hw.
  { unfold ready in Hr. destruct (reorder_inited_ s); [by destruct Hr as (_ & ? & _)|]. destruct Hr as [_ ->].
    intros p w Hp. cbn in Hp. by rewrite lookup_empty in Hp. }
  pose proof (enqueue_increasing (filed_sn sn data hint) (frame_of data size addr) a Hw) as Hinc.
  pose proof (filed_range sn data hint Hsn Hh) as Hfr.
  pose proof (enqueue_conserves true (filed_sn sn data hint) (frame_of data size addr) a Hfr) as Hcon.
  pose proof (fun lo hi k => enqueue_near lo hi k (filed_sn sn data hint) (frame_of data size addr) a) as Hnear.
  destruct (abs_enqueue true (filed_sn sn data hint) (frame_of data size addr) a) as [a' out].
  destruct Hinc as [Hle Hinc]. exists a', out. split; [by split_and!|]. do 3 (split; [done|]).
  split; [unfold run_frames; cbn [fmap list_fmap mjoin list_join ev_frames]; by rewrite app_nil_r|].
  intros lo hi k Hn Hk Hlo [[H5 H6] _]%Forall_cons Hspan. cbn [ticks_of foldr] in *. rewrite Z.add_0_r.
  cbn [fst snd] in Hnear. apply Hnear; done || lia.
Qed.

(** A buffer that somebody else gives back. *)
Lemma core_less other (s : St) next W e :
  other_ok other -> 0 < other e -> re_core other s next W ->
  0 < pp_refs (re_pool s) e /\ re_core (less other (EvFree e)) (Reorder.put_pool (pp_free e (re_pool s)) s) next W.
Proof.
  intros Ho He [H1 H2 H3 H4 H5].
  assert (0 < pp_refs (re_pool s) e) as Hp by (rewrite H2; pose proof (held_in_nonneg (frame <$> reorder_buf_ s) e); lia).
  destruct (pp_free_law (re_pool s) e H1 Hp) as [Hok Hr]. split; [done|]. split; [exact Hok| |done..].
  intros x. cbn. rewrite Hr, H2. unfold ind. case_bool_decide; lia.
Qed.
Lemma step_free other s a e :
  other_ok other -> 0 < other e -> stands other s a ->
  wp (free_frame e) (fun _ s' => went (less other (EvFree e)) s a [EvFree e] s') s.
Proof.
  intros Ho He (Hr & Hw & Ha & Hi). destruct (core_less other s _ _ e Ho He Hr) as [Hp Hc].
  apply wp_free_frame; [done|]. by apply (went_nothing _ (Reorder.put_pool _ s)).
Qed.
Lemma rested_less other s e : other_ok other -> 0 < other e -> rested other s ->
  wp (free_frame e) (fun _ s' => rested (less other (EvFree e)) s' /\ re_out s' = re_out s) s.
Proof.
  intros Ho He ((next & Hc) & Hi & Hg). destruct (core_less other s _ _ e Ho He Hc) as [Hp Hc'].
  apply wp_free_frame; [done|]. split; [|done]. by split; [exists next|].
Qed.

Lemma step_timer other s a pps ts :
  other_ok other -> stands other s a -> ts <> 0 ->
  wp (ReorderGapTimer pps ts) (fun _ s' => went other s a [EvTimer pps ts] s') s.
Proof.
  intros Ho (Hr & Hw & Ha & Hi) Hts. eapply wp_mono; [by apply (wp_timer other s a)|]. cbn beta.
  intros _ s' Hs. destruct (gap_due s pps ts).
  - destruct Hs as [(H1 & H2 & H3 & H4 & H5) _]. destruct (advance_increasing a) as [Hle Hinc].
    exists (abs_advance a).1, (abs_advance a).2. split; [split; [done|split; [done|split; [done|congruence]]]|].
    split; [done|]. split; [lia|]. split; [eapply increasing_weaken; [exact Hinc|lia|lia]|]. split; [apply advance_conserves|].
    intros lo hi k Hn Hk Hlo _ _. change (ticks_of [EvTimer pps ts]) with 1. pose proof Hn as [Ha' _].
    apply advance_near; [|lia..]. eapply near_more; [exact Hn|lia].
  - subst s'. by apply went_nothing.
Qed.

Lemma wp_run_cons ev evs (s : St) Q :
  starved (ev :: evs) s = false ->
  (ev_refused ev s = false -> wp (re_step ev) (fun _ s' => starved evs s' = false -> wp (re_run evs) Q s') s) ->
  wp (re_run (ev :: evs)) Q s.
Proof.
  cbn [starved re_run]. intros Hst Hk. apply orb_false_iff in Hst as [Hr Hst]. specialize (Hk Hr). apply wp_bind.
  unfold wp in *. destruct (re_step ev s) as [[[] s']|]; [by apply Hk|done].
Qed.

Lemma run_from evs : forall other s a,
  other_ok other -> stands other s a -> Forall event_ok evs -> owned other evs -> starved evs s = false ->
  wp (re_run evs) (fun _ s' => went (left_over other evs) s a evs s') s.
Proof.
  induction evs as [|ev evs IH]; intros other s a Ho Hs Hok Hown Hst.
  { cbn [re_run]. wp_steps. by apply went_nothing. }
  inversion_clear Hok as [|?? Hev Hevs]. destruct Hown as [He Hown]. apply wp_run_cons; [done|]. intros Href.
  apply (wp_mono _ (fun _ s' => went (less other ev) s a [ev] s')).
  { destruct ev as [sn data size addr ts hint|pps ts|e].
    - apply step_packet; [done|by apply stands_ready|done|done].
    - by apply step_timer.
    - by apply step_free. }
  intros _ s1 (a1 & o1 & Hs1 & Ho1 & Hle1 & Hi1 & Hc1 & Hn1) Hst1.
  eapply wp_mono; [apply (IH (less other ev) s1 a1); [by apply less_ok|done..]|]. cbn beta.
  intros _ s2 Hw2. by apply (went_trans _ s a [ev] s1 a1 o1 evs).
Qed.

(** A run that starts at rest. *)
Lemma run_rested evs : forall other s,
  other_ok other -> rested other s -> Forall event_ok evs -> owned other evs -> starved evs s = false ->
  wp (re_run evs) (fun _ s' => exists out, re_out s' = re_out s ++ (conc <$> out) /\
    StronglySorted (fun x y => x.1 < y.1) out /\ conc <$> out ⊆+ run_frames evs /\
    forall lo hi, 0 <= lo -> Forall (ev_in lo hi) evs -> hi + ticks_of evs - lo < 2 ^ 31 -> Forall (fun x => lo <= x.1 < hi) out) s.
Proof.
  induction evs as [|ev evs IH]; intros other s Ho Hs Hok Hown Hst.
  { cbn [re_run]. wp_steps. exists []. split; [by rewrite app_nil_r|]. split_and!; constructor. }
  apply Forall_cons in Hok as [Hev Hevs]. destruct Hown as [He Hown].
  apply wp_run_cons; [done|]. intros Href. destruct ev as [sn data size addr ts hint|pps ts|e]; cbn [re_step].
  - eapply wp_mono; [apply (step_packet other s (mkAbsRe sn ∅)); [done|by apply rested_ready|done|done]|].
    cbn beta. intros _ s1 (a1 & o1 & Hs1 & Ho1 & Hle1 & Hi1 & Hc1 & Hn1) Hst1. eapply wp_mono; [by apply (run_from evs other s1 a1)|].
    cbn beta. intros _ s2 Hw2. destruct (went_trans _ s _ _ s1 a1 o1 evs s2 Ho1 Hle1 Hi1 Hc1 Hn1 Hw2) as (a2 & o2 & _ & Ho2 & _ & Hi2 & Hc2 & Hn2).
    exists o2. split; [done|]. split; [apply Hi2|]. split.
    2: { intros lo hi Hlo Hin Hspan. destruct Hi2 as [_ Hpos]. pose proof Hin as [[Hsn _] _]%Forall_cons.
      destruct (Hn2 lo hi 0) as [_ Hbelow]; [|done..|cbn [app]; lia|].
      - split; cbn; [lia|]. intros p w Hp. by rewrite lookup_empty in Hp.
      - apply Forall_forall. intros x Hx. eapply Forall_forall in Hpos, Hbelow; [|exact Hx..]. cbn in *. lia. }
    unfold conserves, waiting_frames in Hc2. cbn [ar_pending] in Hc2.
    rewrite map_to_list_empty in Hc2. cbn [omap list_omap] in Hc2. rewrite app_nil_r in Hc2. etrans; [|exact Hc2].
    by apply submseteq_inserts_r.
  - unfold ReorderGapTimer. apply wp_bind, wp_get. destruct Hs as (Hc & Hi & Hg). rewrite Hg. cbn [Z.eqb].
    apply wp_ret. intros Hst1.
    eapply wp_mono; [by apply (IH other)|]. cbn beta. intros _ s' (out & H1 & H2 & H3 & H4). exists out. do 3 (split; [done|]).
    intros lo hi Hlo [_ Hin]%Forall_cons Hspan. apply H4; [done..|]. change (ticks_of (EvTimer pps ts :: evs)) with (1 + ticks_of evs) in Hspan. lia.
  - eapply wp_mono; [by apply (rested_less other s e)|]. cbn beta. intros _ s1 [Hs1 Hout1] Hst1.
    eapply wp_mono; [apply (IH (less other (EvFree e)) s1); [by apply less_ok|done..]|]. cbn beta.
    intros _ s2 (out & H1 & H2 & H3 & H4). exists out. rewrite <- Hout1. do 3 (split; [done|]).
    intros lo hi Hlo [_ Hin]%Forall_cons Hspan. by apply H4.
Qed.

(** ** Gaps do not last *)
Fixpoint spaced (t0 : Z) (tss : list Z) : Prop :=
  match tss with
  | [] => True
  | t :: tss' => t0 + 500000 <= t < 18446744073709551616 /\ spaced t tss'
  end.

(** [a'] follows [a] after frames [out] left: nothing new waits, no frame is
    lost, and unless nothing waits any more at least [k] positions are passed. *)
Definition drained (k : Z) (a a' : AbsRe A) (out : list (Z * Frame A)) : Prop :=
  (forall p w, ar_pending a' !! p = Some w -> ar_pending a !! p = Some w) /\
  (forall p f b, ar_pending a !! p = Some (Some f, b) -> (p, f) ∈ out \/ ar_pending a' !! p = Some (Some f, b)) /\
  ((forall p, ar_pending a' !! p = None) \/ ar_next a + k <= ar_next a').

Lemma drained_trans k1 k2 a a1 a2 o1 o2 :
  drained k1 a a1 o1 -> drained k2 a1 a2 o2 -> 0 <= k1 -> drained (k1 + k2) a a2 (o1 ++ o2).
Proof.
  intros (Hs1 & Hc1 & Hn1) (Hs2 & Hc2 & Hn2) Hk. split; [eauto|]. split.
  - intros p f b Hp. destruct (Hc1 p f b Hp) as [Hin|Hp1]; [left; apply elem_of_app; by left|].
    destruct (Hc2 p f b Hp1) as [Hin|Hp2]; [left; apply elem_of_app; by right|by right].
  - destruct Hn2 as [He|Hn2]; [by left|]. destruct Hn1 as [He|Hn1]; [|right; lia]. left. intros p.
    destruct (ar_pending a2 !! p) as [w|] eqn:Hp; [|done]. apply Hs2 in Hp. congruence.
Qed.

Lemma tick other s a pps t0 t :
  other_ok other -> stands other s a -> 0 <= pps -> 0 <= reorder_gap_since_us_ s <= t0 ->
  t0 + 500000 <= t < 18446744073709551616 ->
  wp (ReorderGapTimer pps t) (fun _ s' => exists a' out, stands other s' a' /\
    re_out s' = re_out s ++ (conc <$> out) /\ 0 <= reorder_gap_since_us_ s' <= t /\ drained 1 a a' out) s.
Proof.
  intros Ho Hs Hpps Hg Ht. pose proof Hs as (Hr & Hw & Ha & Hi).
  eapply wp_mono; [apply (wp_timer other s a); done || lia|]. cbn beta. intros _ s' Hp.
  unfold gap_due in Hp. destruct (Z.eqb_spec (reorder_gap_since_us_ s) 0) as [Hz|Hz]; cbn [negb andb] in Hp.
  - subst s'. exists a, []. split; [done|]. split; [by rewrite app_nil_r|]. split; [lia|].
    split; [done|]. split; [by right|]. left. intros p. destruct (ar_pending a !! p) as [w|] eqn:Hp; [|done].
    exfalso. apply Ha; [by eexists _, _|done].
  - pose proof (gap_timeout_bounds pps Hpps). unfold u64 in Hp. rewrite Z.mod_small in Hp by lia.
    rewrite (proj2 (Z.leb_le _ _)) in Hp by lia. destruct Hp as [(H1 & H2 & H3 & H4 & H5) H6].
    exists (abs_advance a).1, (abs_advance a).2. split; [split; [done|split; [done|split; [done|congruence]]]|].
    split; [done|]. split; [lia|]. split; [exact (advance_sub a)|]. split; [exact (conserve_advance a)|].
    right. by destruct (advance_increasing a).
Qed.

Lemma ticks other pps tss : forall s a t0,
  other_ok other -> stands other s a -> 0 <= pps -> 0 <= reorder_gap_since_us_ s <= t0 -> spaced t0 tss ->
  wp (re_run (EvTimer pps <$> tss)) (fun _ s' => exists a' out, stands other s' a' /\
    re_out s' = re_out s ++ (conc <$> out) /\ drained (Z.of_nat (length tss)) a a' out) s.
Proof.
  induction tss as [|t tss IH]; intros s a t0 Ho Hs Hpps Hg Hsp; cbn [fmap list_fmap re_run].
  { wp_steps. exists a, []. split; [done|]. split; [by rewrite app_nil_r|]. split; [done|]. split; [by right|right; cbn; lia]. }
  destruct Hsp as [Ht Hsp]. wp_steps. cbn [re_step]. eapply wp_mono; [by apply (tick other s a pps t0 t)|]. cbn beta.
  intros _ s1 (a1 & o1 & Hs1 & Ho1 & Hg1 & Hd1). eapply wp_mono; [by apply (IH s1 a1 t)|]. cbn beta.
  intros _ s2 (a2 & o2 & Hs2 & Ho2 & Hd2). exists a2, (o1 ++ o2). split; [done|].
  split; [by rewrite Ho2, Ho1, fmap_app, app_assoc|].
  replace (Z.of_nat (length (t :: tss))) with (1 + Z.of_nat (length tss)) by (cbn [length]; lia).
  eapply drained_trans; [done|done|lia].
Qed.

Lemma empty_idle other s a :
  stands other s a -> (forall p, ar_pending a !! p = None) ->
  forall i sl, reorder_buf_ s !! i = Some sl -> slot_idle sl = true.
Proof.
  intros (Hr & _) He i sl Hsl. pose proof (lookup_lt_Some _ _ _ Hsl) as Hlt. rewrite (rc_len _ _ _ _ Hr) in Hlt.
  set (p := ar_next a + (Z.of_nat i - ar_next a) mod 16).
  pose proof (Z.mod_pos_bound (Z.of_nat i - ar_next a) 16 ltac:(lia)).
  destruct (rc_slot _ _ _ _ Hr p ltac:(unfold p; lia)) as (sl' & Hsl' & His).
  assert (p mod 16 = Z.of_nat i) as Hm.
  { unfold p. rewrite Zplus_mod_idemp_r. replace (ar_next a + (Z.of_nat i - ar_next a)) with (Z.of_nat i) by lia.
    apply Z.mod_small. lia. }
  rewrite Hm, Nat2Z.id, Hsl in Hsl'. injection Hsl' as <-. by apply (slot_idle_is _ _ _ His).
Qed.

Lemma drain other s a pps t0 tss :
  other_ok other -> stands other s a -> 0 <= pps -> 0 <= reorder_gap_since_us_ s <= t0 -> spaced t0 tss ->
  (15 <= length tss)%nat ->
  wp (re_run (EvTimer pps <$> tss)) (fun _ s' =>
    (forall i sl, reorder_buf_ s' !! i = Some sl -> slot_idle sl = true) /\
    exists out, re_out s' = re_out s ++ (conc <$> out) /\
      forall p f b, ar_pending a !! p = Some (Some f, b) -> (p, f) ∈ out) s.
Proof.
  intros Ho Hs Hpps Hg Hsp Hlen. eapply wp_mono; [by apply (ticks other pps tss s a t0)|]. cbn beta.
  intros _ s' (a' & out & Hs' & Hout & Hsub & Hkeep & Hnext).
  assert (forall p, ar_pending a' !! p = None) as He.
  { destruct Hnext as [He|Hnext]; [done|]. intros p. destruct (ar_pending a' !! p) as [w|] eqn:Hp; [|done].
    destruct Hs' as (_ & Hw' & _). destruct Hs as (_ & Hw & _). pose proof (Hw' p w Hp). pose proof (Hw p w (Hsub p w Hp)). lia. }
  split; [by eapply empty_idle|]. exists out. split; [done|]. intros p f b Hp.
  destruct (Hkeep p f b Hp) as [Hin|Hp']; [done|]. by rewrite He in Hp'.
Qed.

(** ** The properties *)


(** C18: [ReorderEnqueue] implements the abstract queue on every packet: late,
    in order, early, too early, frame or placeholder, retransmission or not,
    buffer refused or not; the buffers in use are exactly those of the waiting
    frames and the gap timer runs whenever something waits. *)
Theorem ReorderEnqueue_refines other (s : St) a sn0 data size addr ts hint :
  other_ok other -> ready other s sn0 a -> 0 <= sn0 < 4294967296 -> 0 <= hint < 4294967296 ->
  0 <= size < 65536 -> ts <> 0 ->
  let sn := filed_sn sn0 data hint in
  exists s', ReorderEnqueue sn0 data size addr ts hint s = Some (tt, s') /\
    let (a', out) := abs_enqueue (negb (refuses s sn size)) sn (frame_of data size addr) a in
    stands other s' a' /\ re_out s' = re_out s ++ (conc <$> out).
Proof.
  intros Ho Hr Hsn Hh Hsz Hts.
  destruct (wp_total _ _ _ (wp_enqueue other s a sn0 data size addr ts hint Ho Hr Hsn Hh Hsz Hts))
    as ([] & s' & Hrun & H1 & H2).
  exists s'. split; [done|]. cbv zeta in H2. destruct (abs_enqueue _ _ _ a) as [a' out].
  destruct H2 as (H3 & H4 & H5 & H6). exact (conj (conj H3 (conj H4 (conj H5 H1))) H6).
Qed.

(** C19: no frame that comes in time is dropped: it is delivered at once or
    waits in the slot of its number, and every frame that waited elsewhere is
    delivered or still waits. *)
Theorem ReorderEnqueue_no_loss other (s : St) a sn0 bytes size addr ts hint :
  other_ok other -> stands other s a -> 0 <= sn0 < 4294967296 -> 0 <= hint < 4294967296 ->
  0 <= size < 65536 -> ts <> 0 -> 0 <= distance (filed_sn sn0 (Some bytes) hint) a ->
  let pos := ar_next a + distance (filed_sn sn0 (Some bytes) hint) a in
  let f := (mem_load (Z.to_nat size) bytes 0, addr) in
  exists s' a' out, ReorderEnqueue sn0 (Some bytes) size addr ts hint s = Some (tt, s') /\
    stands other s' a' /\ re_out s' = re_out s ++ (conc <$> out) /\
    ((pos, f) ∈ out \/ exists b, ar_pending a' !! pos = Some (Some f, b)) /\
    forall p g b, p <> pos -> ar_pending a !! p = Some (Some g, b) ->
      (p, g) ∈ out \/ ar_pending a' !! p = Some (Some g, b).
Proof.
  intros Ho Hs Hsn Hh Hsz Hts Hd pos f.
  destruct (wp_total _ _ _ (wp_enqueue other s a sn0 (Some bytes) size addr ts hint Ho
    (stands_ready other s sn0 a Hs) Hsn Hh Hsz Hts)) as ([] & s' & Hrun & H1 & H2).
  cbv zeta in H2. destruct H2 as (H3 & H4 & H5 & H6). set (ok := negb _) in *.
  destruct (enqueue_keeps ok (filed_sn sn0 (Some bytes) hint) f a (proj1 (proj2 Hs)) Hd) as [K1 K2].
  eexists s', _, _. split; [exact Hrun|]. split; [exact (conj H3 (conj H4 (conj H5 H1)))|].
  split; [exact H6|]. by split.
Qed.

(** C25: a gap does not hold frames back for ever: fifteen ticks of the gap
    timer, half a second apart, leave every slot empty, and every frame that
    waited has been delivered, whatever the packet rate. *)
Theorem gap_timer_drains other (s : St) a pps t0 tss :
  other_ok other -> stands other s a -> 0 <= pps -> 0 <= reorder_gap_since_us_ s <= t0 -> spaced t0 tss ->
  (15 <= length tss)%nat ->
  exists s' out, re_run (EvTimer pps <$> tss) s = Some (tt, s') /\
    (forall i sl, reorder_buf_ s' !! i = Some sl -> slot_idle sl = true) /\
    re_out s' = re_out s ++ (conc <$> out) /\
    forall p f b, ar_pending a !! p = Some (Some f, b) -> (p, f) ∈ out.
Proof.
  intros Ho Hs Hp Hg Hsp Hl.
  destruct (wp_total _ _ _ (drain other s a pps t0 tss Ho Hs Hp Hg Hsp Hl)) as ([] & s' & Hrun & H1 & out & H2 & H3).
  by exists s', out.
Qed.

(** [ReorderClear] gives every buffer of the window back to the pool and
    leaves a session at rest; the application gets nothing. *)
Theorem ReorderClear_releases other (s : St) :
  other_ok other -> clearing other (re_out s) 0 s ->
  exists s', ReorderClear s = Some (tt, s') /\ rested other s' /\
    (forall e, pp_refs (re_pool s') e = other e) /\ re_out s' = re_out s.
Proof.
  intros Ho Hc. destruct (wp_total _ _ _ (wp_clear other s Ho Hc)) as ([] & s' & Hrun & H1 & H2 & H3 & H4 & H5).
  exists s'. split; [done|]. split; [|done]. split; [by exists 0|done].
Qed.
End Runs.

#[global] Arguments ReEvent E A : clear implicits.

(** ** The properties on the small transport pool *)
Definition demo_re : ReSt TranMemPool (Z * Z) Z := mkRe demo_pool ∅ (replicate 16 empty_slot) 0 false 0 [].
Definition no_other : Z * Z -> Z := fun _ => 0.
Definition run_re (evs : list (ReEvent (Z * Z) Z)) : ReSt TranMemPool (Z * Z) Z :=
  match re_run evs demo_re with Some (_, s) => s | None => demo_re end.

(** Packet 11 is late: 12 and 13 wait for it. *)
Definition demo_events : list (ReEvent (Z * Z) Z) :=
  [EvPacket 10 (Some [1]) 1 (Some 5) 1000 UINT32_MAX; EvPacket 12 (Some [3]) 1 (Some 5) 2000 UINT32_MAX;
   EvPacket 13 (Some [4]) 1 (Some 5) 3000 UINT32_MAX; EvPacket 20 (Some [2]) 1 (Some 5) 4000 11].
Example demo_delivery :
  re_out (run_re demo_events) = [(10, [1], Some 5); (11, [2], Some 5); (12, [3], Some 5); (13, [4], Some 5)].
Proof. vm_compute. reflexivity. Qed.

Lemma demo_other : other_ok no_other.
Proof. intros e. done. Qed.
Lemma demo_rested : rested no_other demo_re.
Proof.
  destruct demo_pool_ok as [Hp Hr]. split; [|done]. exists 0. split; [exact Hp| |done|done|].
  - intros e. change (pp_refs (re_pool demo_re) e) with (refs demo_pool e). by rewrite Hr.
  - intros p Hpos. exists empty_slot. split; [|done]. apply lookup_replicate_2.
    pose proof (Z.mod_pos_bound p 16 ltac:(lia)). lia.
Qed.
Lemma demo_ok : Forall event_ok demo_events.
Proof. repeat constructor; discriminate. Qed.
Lemma demo_owned : owned no_other demo_events.
Proof. by repeat split. Qed.

(** After the first packet. *)
Definition demo_re1 := run_re (take 1 demo_events).
Lemma demo_stands : stands no_other demo_re1 (mkAbsRe 11 ∅).
Proof.
  destruct (wp_total _ _ _ (wp_enqueue no_other demo_re (mkAbsRe 10 ∅) 10 (Some [1]) 1 (Some 5) 1000 UINT32_MAX
    demo_other (rested_ready _ _ _ demo_rested) ltac:(done) ltac:(done) ltac:(done) ltac:(done)))
    as ([] & s' & Hrun & H1 & H2).
  assert (demo_re1 = s') as -> by (unfold demo_re1, run_re; cbn [take demo_events re_run re_step]; cbn [mbind ST_bind]; unfold mbind, ST_bind; rewrite Hrun; done).
  cbv zeta in H2. destruct H2 as (H3 & H4 & H5 & H6). by split.
Qed.
(** ... and after the second, which waits. *)
Definition demo_re2 := run_re (take 2 demo_events).
Definition demo_waiting : AbsRe Z := mkAbsRe 11 (<[12 := (Some ([3], Some 5), false)]> ∅).
Lemma demo_stands2 : stands no_other demo_re2 demo_waiting.
Proof.
  destruct (wp_total _ _ _ (wp_enqueue no_other demo_re1 (mkAbsRe 11 ∅) 12 (Some [3]) 1 (Some 5) 2000 UINT32_MAX
    demo_other (stands_ready _ _ 12 _ demo_stands) ltac:(done) ltac:(done) ltac:(done) ltac:(done)))
    as ([] & s' & Hrun & H1 & H2).
  assert (demo_re2 = s') as ->.
  { assert (ReorderEnqueue 12 (Some [3]) 1 (Some 5) 2000 UINT32_MAX demo_re1 = Some (tt, demo_re2)) as Hc
      by (vm_compute; reflexivity). congruence. }
  cbv zeta in H2. change (refuses demo_re1 _ _) with (refuses demo_re1 12 1) in H2.
  assert (refuses demo_re1 12 1 = false) as Href by (vm_compute; reflexivity). rewrite Href in H2.
  destruct H2 as (H3 & H4 & H5 & H6). by split.
Qed.


Example ReorderEnqueue_refines_witness :
  exists s', ReorderEnqueue 13 (Some [4]) 1 (Some 5) 3000 UINT32_MAX demo_re2 = Some (tt, s') /\
    let (a', out) := abs_enqueue (negb (refuses demo_re2 13 1)) 13 (frame_of (Some [4]) 1 (Some 5)) demo_waiting in
    stands no_other s' a' /\ re_out s' = re_out demo_re2 ++ (conc <$> out).
Proof.
  apply (ReorderEnqueue_refines no_other demo_re2 demo_waiting 13 (Some [4]) 1 (Some 5) 3000 UINT32_MAX demo_other
    (stands_ready _ _ 13 _ demo_stands2)); done.
Defined.

Example ReorderEnqueue_no_loss_witness :
  exists s' a' out, ReorderEnqueue 20 (Some [2]) 1 (Some 5) 4000 13 demo_re2 = Some (tt, s') /\
    stands no_other s' a' /\ re_out s' = re_out demo_re2 ++ (conc <$> out) /\
    ((13, ([2], Some 5)) ∈ out \/ exists b, ar_pending a' !! 13 = Some (Some ([2], Some 5), b)) /\
    forall p g b, p <> 13 -> ar_pending demo_waiting !! p = Some (Some g, b) ->
      (p, g) ∈ out \/ ar_pending a' !! p = Some (Some g, b).
Proof.
  apply (ReorderEnqueue_no_loss no_other demo_re2 demo_waiting 20 [2] 1 (Some 5) 4000 13 demo_other demo_stands2);
    vm_compute; split || idtac; discriminate || reflexivity.
Defined.

Definition demo_ticks : list Z := (fun k => 1000000 * Z.of_nat k) <$> seq 1 15.
Example gap_timer_drains_witness :
  exists s' out, re_run (EvTimer 100 <$> demo_ticks) demo_re2 = Some (tt, s') /\
    (forall i sl, reorder_buf_ s' !! i = Some sl -> slot_idle sl = true) /\
    re_out s' = re_out demo_re2 ++ (conc <$> out) /\
    forall p f b, ar_pending demo_waiting !! p = Some (Some f, b) -> (p, f) ∈ out.
Proof.
  apply (gap_timer_drains no_other demo_re2 demo_waiting 100 2000 demo_ticks demo_other demo_stands2);
    [lia|vm_compute; split; discriminate|vm_compute; repeat split; discriminate|cbn; lia].
Defined.

Lemma demo_clearing : clearing no_other (re_out demo_re2) 0 demo_re2.
Proof. destruct demo_stands2 as ([H1 H2 H3 H4 H5] & _). split; [done..|lia]. Qed.
Example ReorderClear_releases_witness :
  exists s', ReorderClear demo_re2 = Some (tt, s') /\ rested no_other s' /\
    (forall e, pp_refs (re_pool s') e = no_other e) /\ re_out s' = re_out demo_re2.
Proof. apply (ReorderClear_releases no_other demo_re2 demo_other demo_clearing). Defined.

End ReorderRun.
