(* ===== verification/FecGeometry.v ===== *)
(** * Geometry of the fec blocks

    The arithmetic that places a packet in its fec block: the code books
    (src/src/mgr/goodtp_mgr.cpp), the plain fields of a coding matrix
    (src/src/utils/goodtp_comstruct.h) and the inline helpers at the top of
    src/src/fec2/goodtp_fec2.cpp.  A [bool] stands for GTP_YES / GTP_NO. *)
From S2P Require Import Prelude.

Module FecGeometry.

(** Constants of goodtp_macrodefine.h for APPLICATION_TYPE 2. *)
Definition MAX_FEC2_CACHE_CAPACITY : Z := 32.
Definition FEC2_CACHE_CAPACITY_MASK : Z := 31.
Definition MAX_RECV_FEC2_MATRIX_NUM : Z := 16.
Definition MAX_FEC2_MATRIX_H_SIZE : Z := 4.
Definition MAX_FEC2_MATRIX_V_SIZE : Z := 4.
Definition MAX_FEC2_HILL_SIZE : Z := 5.
Definition MAX_VALID_FEC2_BOOK_ID : Z := 5.
Definition DEFAULT_FEC2_BOOK_ID : Z := 4.
Definition INVALID_ENCODE_POS : Z := 255.
Definition INVALID_RES_POS : Z := 0xFFFF.

(** [Fec2Mode] *)
Definition kBlock : Z := 0.
Definition kConvolution : Z := 1.
Definition kFountain : Z := 2.

(** [Fec2CodeDir] *)
Inductive Fec2CodeDir := kHorizontal | kVertical | kUpHill | kDownHill.
#[global] Instance Fec2CodeDir_eq_dec : EqDecision Fec2CodeDir.
Proof. solve_decision. Defined.

Definition dir_to_Z (d : Fec2CodeDir) : Z :=
  match d with kHorizontal => 0 | kVertical => 1 | kUpHill => 2 | kDownHill => 3 end.
Definition dir_of_Z (z : Z) : option Fec2CodeDir :=
  if z =? 0 then Some kHorizontal else if z =? 1 then Some kVertical
  else if z =? 2 then Some kUpHill else if z =? 3 then Some kDownHill else None.

(** [GtpFec2Mode] *)
Record GtpFec2Mode := mkMode {
  bk_mode : Z; bk_h_flag : bool; bk_v_flag : bool; bk_uh_flag : bool; bk_dh_flag : bool;
  bk_h_size : Z; bk_v_size : Z; bk_block_size : Z
}.

(** [fec_mode_book_], filled by the constructor of [GoodTp]. *)
Definition fec_mode_book : list GtpFec2Mode := [
  mkMode kBlock true true true true 4 4 16;
  mkMode kBlock true true false false 4 4 16;
  mkMode kBlock true false false false 4 0 4;
  mkMode kBlock true true true true 2 2 4;
  mkMode kBlock true true false false 2 2 4;
  mkMode kBlock true false false false 2 0 2 ].

(** The plain fields of [Fec2EnDeCodeMatrix]. *)
Record MatHeader := mkMat {
  using_flag : bool;
  code_book_id : Z;
  matrix_size : Z;
  mode : Z;
  h_flag : bool; v_flag : bool; uh_flag : bool; dh_flag : bool;
  h_size : Z; v_size : Z;
  start_pack_sn : Z;
  start_pos : Z
}.

(** The header set from a code book entry. *)
Definition mat_of_book (u : bool) (id : Z) (b : GtpFec2Mode) (sn pos : Z) : MatHeader :=
  mkMat u id (bk_block_size b) (bk_mode b) (bk_h_flag b) (bk_v_flag b) (bk_uh_flag b)
    (bk_dh_flag b) (bk_h_size b) (bk_v_size b) sn pos.

Definition CalcPosInPackCache (pack_sn : Z) : Z := u16 (Z.land pack_sn FEC2_CACHE_CAPACITY_MASK).

Definition CheckPackSnInBlock (pack_sn start_sn end_sn : Z) : bool :=
  if start_sn <=? end_sn then
    if (start_sn >? pack_sn) || (end_sn <=? pack_sn) then false else true
  else if (start_sn >? pack_sn) && (end_sn <=? pack_sn) then false
  else true.

Definition CalcPackPosInMatrix (cache_pos matrix_size : Z) : Z :=
  if matrix_size =? 0 then 0
  else if (matrix_size =? 2) || (matrix_size =? 4) || (matrix_size =? 8) || (matrix_size =? 16) then
    Z.land cache_pos (u16 (matrix_size - 1))
  else cache_pos mod u16 matrix_size.

Definition PackSnToBlockStartPos (pack_sn block_size : Z) : Z :=
  let start_pos := CalcPosInPackCache pack_sn in
  if block_size =? 0 then start_pos
  else if (block_size =? 2) || (block_size =? 4) || (block_size =? 8) || (block_size =? 16) then
    Z.ldiff start_pos (block_size - 1)
  else start_pos / block_size * block_size.

Definition CalcHorizontalEncodePos (m : MatHeader) (pos_in_matrix : Z) : Z :=
  if h_size m =? 0 then INVALID_ENCODE_POS
  else if matrix_size m <=? pos_in_matrix then INVALID_ENCODE_POS
  else u8 (if h_size m =? 2 then Z.shiftr pos_in_matrix 1
           else if h_size m =? 4 then Z.shiftr pos_in_matrix 2
           else if h_size m =? 8 then Z.shiftr pos_in_matrix 3
           else pos_in_matrix / h_size m).

Definition CalcVerticalEncodePos (m : MatHeader) (pos_in_matrix : Z) : Z :=
  if h_size m =? 0 then INVALID_ENCODE_POS
  else if matrix_size m <=? pos_in_matrix then INVALID_ENCODE_POS
  else
    let bit_mask := h_size m in
    u8 (if (bit_mask =? 2) || (bit_mask =? 4) || (bit_mask =? 8) || (bit_mask =? 16) then
          Z.land pos_in_matrix (bit_mask - 1)
        else pos_in_matrix mod bit_mask).

Definition PackSnToStartSn (pack_sn block_size : Z) : Z :=
  if block_size =? 0 then 0
  else if (block_size =? 2) || (block_size =? 4) || (block_size =? 8) || (block_size =? 16) then
    Z.ldiff pack_sn (block_size - 1)
  else u32 (pack_sn / block_size * block_size).

Definition PackSnToMatrixId (pack_sn block_size : Z) : Z :=
  if block_size =? 0 then 0
  else
    let matrix_id := CalcPosInPackCache pack_sn in
    if block_size =? 2 then Z.shiftr matrix_id 1
    else if block_size =? 4 then Z.shiftr matrix_id 2
    else if block_size =? 8 then Z.shiftr matrix_id 3
    else if block_size =? 16 then Z.shiftr matrix_id 4
    else matrix_id / block_size.

Definition CheckCurSnIsInMatrix (cur_sn : Z) (m : MatHeader) : bool :=
  let start_sn := start_pack_sn m in
  let end_sn := u32 (start_sn + matrix_size m) in
  if start_sn <=? end_sn then
    if (start_sn <=? cur_sn) && (end_sn >? cur_sn) then true else false
  else if (start_sn <=? cur_sn) || (end_sn >? cur_sn) then true
  else false.

Definition CalcFirstHorizontalPosInCache (cache_pos v_pos : Z) : Z :=
  if v_pos <=? cache_pos then u16 (cache_pos - v_pos)
  else u16 (cache_pos + MAX_FEC2_CACHE_CAPACITY - v_pos).

Definition CalcFirstVerticalPosInCache (cache_pos h_pos h_size : Z) : Z :=
  let offset := u16 (h_size * h_pos) in
  if offset <=? cache_pos then u16 (cache_pos - offset)
  else u16 (cache_pos + MAX_FEC2_CACHE_CAPACITY - offset).

(** [delta_sn] of [Encode] and [BlockEncode]: the distance from [from] to [sn]. *)
Definition delta_sn (from sn : Z) : Z :=
  if from <=? sn then u32 (sn - from) else u32 (u32 (U32_MAX - from) + sn).

(** [CorrectionAct] and [DoCorrection] *)
Inductive CorrectionAct := kZeroAct | kAddAct | kDecAct.

Definition DoCorrection (org_value k : Z) (act : CorrectionAct) : Z :=
  match act with
  | kZeroAct => 0
  | kAddAct => i32 (u32 (Z.shiftl org_value k))
  | kDecAct => i32 (Z.shiftr org_value k)
  end.

Definition GtpLimit (lo hi value : Z) : Z :=
  if lo >? value then lo else if hi <? value then hi else value.

(** ** Shapes *)

(** Every matrix header in use is that of a code book entry, and its position
    in the cache is the one of its first sequence number. *)
Definition mat_ok (m : MatHeader) : Prop :=
  exists id b, 0 <= id /\ fec_mode_book !! Z.to_nat id = Some b /\
    m = mat_of_book (using_flag m) id b (start_pack_sn m) (start_pos m) /\
    0 <= start_pack_sn m < 2 ^ 32 /\ start_pos m = CalcPosInPackCache (start_pack_sn m).

Lemma book_cases id b :
  fec_mode_book !! Z.to_nat id = Some b -> 0 <= id ->
  (id = 0 /\ b = mkMode 0 true true true true 4 4 16) \/
  (id = 1 /\ b = mkMode 0 true true false false 4 4 16) \/
  (id = 2 /\ b = mkMode 0 true false false false 4 0 4) \/
  (id = 3 /\ b = mkMode 0 true true true true 2 2 4) \/
  (id = 4 /\ b = mkMode 0 true true false false 2 2 4) \/
  (id = 5 /\ b = mkMode 0 true false false false 2 0 2).
Proof.
  intros H Hid. assert (id < 6) by (apply lookup_lt_Some in H; cbn in H; lia).
  assert (id = 0 \/ id = 1 \/ id = 2 \/ id = 3 \/ id = 4 \/ id = 5) as Hc by lia.
  destruct Hc as [->|[->|[->|[->|[->| ->]]]]]; cbn in H; simplify_eq; naive_solver.
Qed.

(** The shapes a well-formed matrix can have, as one fact for case analysis. *)
Lemma mat_ok_cases m :
  mat_ok m ->
  mode m = kBlock /\ 0 <= start_pack_sn m < 2 ^ 32 /\
  start_pos m = CalcPosInPackCache (start_pack_sn m) /\
  ((h_size m = 4 /\ v_size m = 4 /\ matrix_size m = 16) \/
   (h_size m = 4 /\ v_size m = 0 /\ matrix_size m = 4) \/
   (h_size m = 2 /\ v_size m = 2 /\ matrix_size m = 4) \/
   (h_size m = 2 /\ v_size m = 0 /\ matrix_size m = 2)) /\
  h_flag m = true /\
  (v_size m = 0 -> v_flag m = false /\ uh_flag m = false /\ dh_flag m = false) /\
  0 <= code_book_id m <= 5.
Proof.
  intros (id & b & Hid & Hb & Hm & Hsn & Hpos).
  destruct (book_cases id b Hb Hid) as [[-> ->]|[[-> ->]|[[-> ->]|[[-> ->]|[[-> ->]|[-> ->]]]]]];
    rewrite Hm; cbn; (repeat split); try done; try lia; naive_solver.
Qed.

(** ** Lemmas *)
Lemma CalcPos_mod sn : CalcPosInPackCache sn = sn mod 32.
Proof.
  unfold CalcPosInPackCache, FEC2_CACHE_CAPACITY_MASK. rewrite land_mask31.
  apply u16_small. pose proof (Z.mod_pos_bound sn 32). lia.
Qed.

Lemma CalcPos_range sn : 0 <= CalcPosInPackCache sn < 32.
Proof. rewrite CalcPos_mod. apply Z.mod_pos_bound. lia. Qed.

Lemma PackPos_mod pos n :
  0 <= pos -> 0 < n < 65536 -> CalcPackPosInMatrix pos n = pos mod n.
Proof.
  intros Hp Hn. unfold CalcPackPosInMatrix.
  destruct (Z.eqb_spec n 0); [lia|]. rewrite !u16_small by lia.
  destruct (_ || _) eqn:E; [|done].
  assert (n = 2 ^ 1 \/ n = 2 ^ 2 \/ n = 2 ^ 3 \/ n = 2 ^ 4) as Hc by lia.
  destruct Hc as [->|[->|[->| ->]]]; by apply land_mask.
Qed.

Lemma ldiff_mask z k : 0 <= k -> Z.ldiff z (2 ^ k - 1) = z / 2 ^ k * 2 ^ k.
Proof.
  intros Hk. replace (2 ^ k - 1) with (Z.ones k) by (rewrite Z.ones_equiv; lia).
  rewrite Z.ldiff_ones_r by done. by rewrite Z.shiftl_mul_pow2, Z.shiftr_div_pow2 by done.
Qed.

Lemma PackSnToStartSn_floor sn n :
  0 <= sn < 2 ^ 32 -> 0 < n -> PackSnToStartSn sn n = sn / n * n.
Proof.
  intros Hs Hn. unfold PackSnToStartSn. destruct (Z.eqb_spec n 0); [lia|].
  destruct (_ || _) eqn:E.
  - assert (n = 2 ^ 1 \/ n = 2 ^ 2 \/ n = 2 ^ 3 \/ n = 2 ^ 4) as Hc by lia.
    destruct Hc as [->|[->|[->| ->]]]; by apply ldiff_mask.
  - apply u32_small. pose proof (Z.mul_div_le sn n Hn). pose proof (Z.div_pos sn n). nia.
Qed.

Lemma PackSnToMatrixId_div sn n :
  0 < n -> PackSnToMatrixId sn n = (sn mod 32) / n.
Proof.
  intros Hn. unfold PackSnToMatrixId. destruct (Z.eqb_spec n 0); [lia|]. rewrite CalcPos_mod.
  destruct (Z.eqb_spec n 2) as [->|]; [by rewrite Z.shiftr_div_pow2|].
  destruct (Z.eqb_spec n 4) as [->|]; [by rewrite Z.shiftr_div_pow2|].
  destruct (Z.eqb_spec n 8) as [->|]; [by rewrite Z.shiftr_div_pow2|].
  destruct (Z.eqb_spec n 16) as [->|]; [by rewrite Z.shiftr_div_pow2|done].
Qed.

(** Membership of the half-open block [s, s + n) on the circle of 2^32
    sequence numbers. *)
Definition in_block (sn s n : Z) : bool := (sn - s) mod 2 ^ 32 <? n.

Lemma CheckPackSnInBlock_iff sn s n :
  0 <= sn < 2 ^ 32 -> 0 <= s < 2 ^ 32 -> 0 <= n < 2 ^ 32 ->
  CheckPackSnInBlock sn s (u32 (s + n)) = in_block sn s n.
Proof.
  intros Hsn Hs Hn. unfold CheckPackSnInBlock, in_block.
  assert (He : u32 (s + n) = if s + n <? 2 ^ 32 then s + n else s + n - 2 ^ 32).
  { unfold u32. destruct (Z.ltb_spec (s + n) (2 ^ 32)); [by apply Z.mod_small; lia|].
    symmetry. apply (Z.mod_unique _ _ 1); lia. }
  assert (Hd : (sn - s) mod 2 ^ 32 = if s <=? sn then sn - s else sn - s + 2 ^ 32).
  { destruct (Z.leb_spec s sn); [by apply Z.mod_small; lia|].
    symmetry. apply (Z.mod_unique _ _ (-1)); lia. }
  rewrite He, Hd. clear He Hd. change (2 ^ 32) with 4294967296 in *.
  destruct (Z.ltb_spec (s + n) 4294967296), (Z.leb_spec s sn);
    repeat match goal with
           | |- context [if ?b then _ else _] => destruct b eqn:?
           end; lia.
Qed.

Lemma CheckCurSn_iff sn m :
  0 <= sn < 2 ^ 32 -> 0 <= start_pack_sn m < 2 ^ 32 -> 0 <= matrix_size m < 2 ^ 32 ->
  CheckCurSnIsInMatrix sn m = in_block sn (start_pack_sn m) (matrix_size m).
Proof.
  intros. rewrite <- CheckPackSnInBlock_iff by done.
  unfold CheckCurSnIsInMatrix, CheckPackSnInBlock. cbv zeta.
  destruct (_ <=? _);
    repeat match goal with |- context [if ?b then _ else _] => destruct b eqn:? end; lia.
Qed.

Lemma encode_pos_div m pos :
  mat_ok m -> 0 <= pos < matrix_size m ->
  CalcHorizontalEncodePos m pos = pos / h_size m /\
  CalcVerticalEncodePos m pos = pos mod h_size m.
Proof.
  intros Hm Hp. apply mat_ok_cases in Hm as (_ & _ & _ & Hc & _).
  assert (H3 : Z.land pos 3 = pos mod 4) by exact (land_mask pos 2 ltac:(lia)).
  assert (H1 : Z.land pos 1 = pos mod 2) by exact (land_mask pos 1 ltac:(lia)).
  unfold CalcHorizontalEncodePos, CalcVerticalEncodePos. cbv zeta.
  rewrite (proj2 (Z.leb_gt _ _)) by lia.
  destruct Hc as [(Eh & _ & Es)|[(Eh & _ & Es)|[(Eh & _ & Es)|(Eh & _ & Es)]]];
    rewrite Eh, Es in *; cbn [Z.eqb Pos.eqb orb];
    change (4 - 1) with 3; change (2 - 1) with 1; rewrite Z.shiftr_div_pow2 by lia; rewrite ?H3, ?H1;
    (split; apply u8_small; [change (2 ^ 2) with 4; change (2 ^ 1) with 2|]);
    try (pose proof (Z.mod_pos_bound pos 4); pose proof (Z.mod_pos_bound pos 2); lia);
    (split; [apply Z.div_pos; lia|apply Z.div_lt_upper_bound; lia]).
Qed.

Lemma CalcFirstHorizontal_mod c v :
  0 <= c < 32 -> 0 <= v < 32 -> CalcFirstHorizontalPosInCache c v = (c - v) mod 32.
Proof.
  intros Hc Hv. unfold CalcFirstHorizontalPosInCache, MAX_FEC2_CACHE_CAPACITY.
  destruct (Z.leb_spec v c); rewrite u16_small by lia.
  - symmetry. apply Z.mod_small. lia.
  - apply (Z.mod_unique _ _ (-1)); lia.
Qed.

Lemma CalcFirstVertical_mod c h n :
  0 <= c < 32 -> 0 <= n * h < 32 -> CalcFirstVerticalPosInCache c h n = (c - n * h) mod 32.
Proof.
  intros Hc Hv. unfold CalcFirstVerticalPosInCache, MAX_FEC2_CACHE_CAPACITY. cbv zeta.
  rewrite (u16_small (n * h)) by lia.
  destruct (Z.leb_spec (n * h) c); rewrite u16_small by lia.
  - symmetry. apply Z.mod_small. lia.
  - apply (Z.mod_unique _ _ (-1)); lia.
Qed.

(** With and without sequence number wrap-around, the two block tests of
    the code decide membership of the half-open interval [start, start + size)
    on the circle of 32-bit sequence numbers. *)
Theorem block_membership (sn : Z) (m : MatHeader) :
  0 <= sn < 2 ^ 32 -> mat_ok m ->
  let member := in_block sn (start_pack_sn m) (matrix_size m) in
  CheckPackSnInBlock sn (start_pack_sn m) (u32 (start_pack_sn m + matrix_size m)) = member /\
  CheckCurSnIsInMatrix sn m = member.
Proof.
  intros Hsn Hm. apply mat_ok_cases in Hm as (_ & Hs & _ & Hc & _). cbv zeta.
  by rewrite CheckCurSn_iff, CheckPackSnInBlock_iff by lia.
Qed.

Lemma div_block sn n : (n | 32) -> 0 < n -> sn mod 32 - (sn / n * n) mod 32 = sn mod n.
Proof.
  intros [k Hk] Hn.
  assert (Hkp : 0 < k) by nia.
  assert (H32 : 32 = n * k) by lia. rewrite H32.
  rewrite Z.rem_mul_r by lia. rewrite (Z.mul_comm (sn / n) n), Z.mul_mod_distr_l by lia. lia.
Qed.

(** The helpers agree on where a packet belongs: its block starts at an
    aligned sequence number, contains it, uses one of the sixteen decode
    matrices, and the packet's row and column are the coordinates of its
    distance from the start. *)
Theorem packet_placement (sn : Z) (m : MatHeader) :
  0 <= sn < 2 ^ 32 -> mat_ok m ->
  let n := matrix_size m in
  let s := PackSnToStartSn sn n in
  let pos := CalcPackPosInMatrix (CalcPosInPackCache sn) n in
  CheckPackSnInBlock sn s (u32 (s + n)) = true /\
  PackSnToMatrixId sn n = PackSnToMatrixId s n /\
  0 <= PackSnToMatrixId sn n < MAX_RECV_FEC2_MATRIX_NUM /\
  pos = sn - s /\
  CalcPosInPackCache s = PackSnToMatrixId sn n * n /\
  CalcHorizontalEncodePos m pos * h_size m + CalcVerticalEncodePos m pos = sn - s.
Proof.
  intros Hsn Hm. pose proof (mat_ok_cases m Hm) as (_ & _ & _ & Hc & _). cbv zeta.
  set (n := matrix_size m) in *.
  assert (Hn : 2 <= n <= 16 /\ (n | 32)).
  { destruct Hc as [(_ & _ & E)|[(_ & _ & E)|[(_ & _ & E)|(_ & _ & E)]]]; rewrite E; split; try lia.
    - by exists 2. - by exists 8. - by exists 8. - by exists 16. }
  destruct Hn as (Hn & Hdiv).
  pose proof (Z.mul_div_le sn n ltac:(lia)) as Hle.
  pose proof (Z.mod_pos_bound sn n ltac:(lia)) as Hmod.
  pose proof (Z.div_mod sn n ltac:(lia)) as Hdm.
  pose proof (Z.div_pos sn n ltac:(lia) ltac:(lia)) as Hdp.
  assert (Hs : 0 <= sn / n * n < 2 ^ 32) by lia.
  pose proof (div_block sn n Hdiv ltac:(lia)) as Hb.
  rewrite CalcPos_mod, PackPos_mod, PackSnToStartSn_floor, !PackSnToMatrixId_div, CalcPos_mod,
    CheckPackSnInBlock_iff by (try apply Z.mod_pos_bound; lia).
  pose proof (Z.mod_pos_bound sn 32 ltac:(lia)) as H32.
  pose proof (Z.mod_pos_bound (sn / n * n) 32 ltac:(lia)) as H32'.
  assert (Hpos : (sn mod 32) mod n = sn mod n).
  { destruct Hdiv as [k Hk]. rewrite Hk, (Z.mul_comm k), Z.rem_mul_r by nia.
    rewrite Z.mul_comm, Z.mod_add by lia. apply Z.mod_mod. lia. }
  assert (Hal : (sn / n * n) mod 32 = (sn mod 32) / n * n).
  { pose proof (Z.div_mod (sn mod 32) n ltac:(lia)) as Hd. lia. }
  assert (Hdd : (sn mod 32) / n * n / n = (sn mod 32) / n) by (apply Z.div_mul; lia).
  split; [unfold in_block; rewrite Z.mod_small by lia; apply Z.ltb_lt; lia|].
  split; [by rewrite Hal, Hdd|].
  split; [unfold MAX_RECV_FEC2_MATRIX_NUM; split; [apply Z.div_pos; lia|apply Z.div_lt_upper_bound; lia]|].
  split; [lia|]. split; [done|].
  destruct (encode_pos_div m ((sn mod 32) mod n) Hm) as [-> ->]; [apply Z.mod_pos_bound; lia|].
  rewrite Hpos. assert (0 < h_size m) by lia. pose proof (Z.div_mod (sn mod n) (h_size m)). lia.
Qed.

Example block_membership_witness :
  let m := mat_of_book true 4 (mkMode kBlock true true false false 2 2 4) 4294967294 30 in
  let member := in_block 1 4294967294 4 in
  CheckPackSnInBlock 1 4294967294 (u32 (4294967294 + 4)) = member /\ CheckCurSnIsInMatrix 1 m = member.
Proof.
  apply (block_membership 1 (mat_of_book true 4 (mkMode kBlock true true false false 2 2 4) 4294967294 30));
    [lia|]. eexists 4, _. split; [lia|]. split; [reflexivity|]. split; [reflexivity|]. split; [cbn; lia|reflexivity].
Defined.

Example packet_placement_witness :
  let m := mat_of_book true 0 (mkMode kBlock true true true true 4 4 16) 0 0 in
  mat_ok m /\
  CheckPackSnInBlock 55 48 (u32 (48 + 16)) = true /\
  PackSnToMatrixId 55 16 = PackSnToMatrixId 48 16 /\
  0 <= PackSnToMatrixId 55 16 < MAX_RECV_FEC2_MATRIX_NUM /\
  7 = 55 - 48 /\ CalcPosInPackCache 48 = PackSnToMatrixId 55 16 * 16 /\
  CalcHorizontalEncodePos m 7 * 4 + CalcVerticalEncodePos m 7 = 55 - 48.
Proof.
  assert (Hm : mat_ok (mat_of_book true 0 (mkMode kBlock true true true true 4 4 16) 0 0)).
  { eexists 0, _. split; [lia|]. split; [reflexivity|]. split; [reflexivity|]. split; [cbn; lia|reflexivity]. }
  split; [exact Hm|].
  exact (packet_placement 55 _ ltac:(lia) Hm).
Defined.

End FecGeometry.
