(* ===== verification/FecState.v ===== *)
(** * State of the fec engine

    The objects [GtpFec2], [SendFec2CodeMatrix], [RecvFec2CodeMatrix],
    [Fec2Buffer] and [Fec2EnDeCodeMatrix] of src/src/fec2/, as one record, and
    the primitive accesses the operations are written with. *)
From S2P Require Import Prelude PoolInterface PacketHeader XorCode FecGeometry.
Export PacketHeader XorCode FecGeometry.

Module FecState.

(** ** Buffers

    A pointer into a transport buffer is the element [E] that contains it.
    A buffer holds a packet received from the network or a fec code packet;
    once a lost packet has been restored in place, the cache points at the
    code area of the fec packet's own buffer. *)
Record Fec2CodePack := mkCode {
  fp_hdr : PackHeader;
  fp_code_book_id : Z;
  fp_encode_bit_map : Z;
  fp_encode_dir : Z;
  fp_encode_pos : Z;
  fp_code_len : Z;
  fp_stream_key : Z;
  fp_code : list Z
}.

Inductive BufData :=
| PackMem (bytes : list Z)
| FecMem (f : Fec2CodePack).

(** [cache_id_] and [payload_len_] live in the four bytes before the packet
    ([GtpPackCacheStru]).  How far the memory of a buffer reaches is no part of
    its content: it is [fe_room] below, and an access past it is a fault. *)
Record Buf := mkBuf { cache_id : Z; payload_len : Z; buf_data : BufData }.

(** The bytes of the data packet a buffer carries. *)
Definition payload (b : Buf) : list Z :=
  match buf_data b with PackMem m => m | FecMem f => fp_code f end.

Section State.
Context {P E W : Type} `{Countable E} `{!PackPool P E}.

(** [Fec2CodePackMgr]: [tran_addr_] always points into the buffer of
    [fec_pack_] and is set and cleared with it, so one pointer stands for both. *)
Record Fec2CodePackMgr := mkMgr { fec_pack : option E; alloc_cap : Z }.

Record Matrix := mkMatrix {
  mx_hdr : MatHeader;
  h_fec_code : list Fec2CodePackMgr;
  v_fec_code : list Fec2CodePackMgr;
  uh_fec_code : list Fec2CodePackMgr;
  dh_fec_code : list Fec2CodePackMgr
}.

Definition mx_dir (d : Fec2CodeDir) (m : Matrix) : list Fec2CodePackMgr :=
  match d with
  | kHorizontal => h_fec_code m | kVertical => v_fec_code m
  | kUpHill => uh_fec_code m | kDownHill => dh_fec_code m
  end.
Definition mx_upd (d : Fec2CodeDir) (f : list Fec2CodePackMgr -> list Fec2CodePackMgr)
    (m : Matrix) : Matrix :=
  match d with
  | kHorizontal => mkMatrix (mx_hdr m) (f (h_fec_code m)) (v_fec_code m) (uh_fec_code m) (dh_fec_code m)
  | kVertical => mkMatrix (mx_hdr m) (h_fec_code m) (f (v_fec_code m)) (uh_fec_code m) (dh_fec_code m)
  | kUpHill => mkMatrix (mx_hdr m) (h_fec_code m) (v_fec_code m) (f (uh_fec_code m)) (dh_fec_code m)
  | kDownHill => mkMatrix (mx_hdr m) (h_fec_code m) (v_fec_code m) (uh_fec_code m) (f (dh_fec_code m))
  end.
Definition mx_set_hdr (h : MatHeader) (m : Matrix) : Matrix :=
  mkMatrix h (h_fec_code m) (v_fec_code m) (uh_fec_code m) (dh_fec_code m).

(** [Fec2Buffer] *)
Record Fec2Buffer := mkFbuf {
  pack_cache : list (option E);
  pack_num_in_cache : Z;
  max_cached_sn : Z
}.

(** The part of [SessionPublicData] the engine reads. *)
Record PbData := mkPb { pb_stream_key : Z; pb_peer_version : Z; pb_data_pack_pps : Z }.

(** The engine, the pool and the memory of the buffers, the rest of the system
    behind the callbacks ([fs_world]), and the fec packets handed to
    [send_pack_cb_] and the allocations the pool refused so far ([fs_sent] and
    [fs_refused], history variables). *)
Record FecSt := mkFec {
  fs_pool : P;
  fs_world : W;
  fs_mem : gmap E Buf;
  fs_using_book : Z;
  fs_next_sn : Z;
  fs_enc : Matrix;
  fs_enc_buf : Fec2Buffer;
  fs_dec : list Matrix;
  fs_dec_book : Z;
  fs_buf : Fec2Buffer;
  fs_sucess_sum : Z;
  fs_failed_sum : Z;
  fs_repeat_sum : Z;
  fs_pb : PbData;
  fs_sent : list Fec2CodePack;
  fs_refused : Z
}.

Definition set_pool p s := mkFec p (fs_world s) (fs_mem s) (fs_using_book s) (fs_next_sn s)
  (fs_enc s) (fs_enc_buf s) (fs_dec s) (fs_dec_book s) (fs_buf s) (fs_sucess_sum s)
  (fs_failed_sum s) (fs_repeat_sum s) (fs_pb s) (fs_sent s) (fs_refused s).
Definition set_world w s := mkFec (fs_pool s) w (fs_mem s) (fs_using_book s) (fs_next_sn s)
  (fs_enc s) (fs_enc_buf s) (fs_dec s) (fs_dec_book s) (fs_buf s) (fs_sucess_sum s)
  (fs_failed_sum s) (fs_repeat_sum s) (fs_pb s) (fs_sent s) (fs_refused s).
Definition set_mem m s := mkFec (fs_pool s) (fs_world s) m (fs_using_book s) (fs_next_sn s)
  (fs_enc s) (fs_enc_buf s) (fs_dec s) (fs_dec_book s) (fs_buf s) (fs_sucess_sum s)
  (fs_failed_sum s) (fs_repeat_sum s) (fs_pb s) (fs_sent s) (fs_refused s).
Definition set_using_book b s := mkFec (fs_pool s) (fs_world s) (fs_mem s) b (fs_next_sn s)
  (fs_enc s) (fs_enc_buf s) (fs_dec s) (fs_dec_book s) (fs_buf s) (fs_sucess_sum s)
  (fs_failed_sum s) (fs_repeat_sum s) (fs_pb s) (fs_sent s) (fs_refused s).
Definition set_next_sn n s := mkFec (fs_pool s) (fs_world s) (fs_mem s) (fs_using_book s) n
  (fs_enc s) (fs_enc_buf s) (fs_dec s) (fs_dec_book s) (fs_buf s) (fs_sucess_sum s)
  (fs_failed_sum s) (fs_repeat_sum s) (fs_pb s) (fs_sent s) (fs_refused s).
Definition set_enc m s := mkFec (fs_pool s) (fs_world s) (fs_mem s) (fs_using_book s) (fs_next_sn s)
  m (fs_enc_buf s) (fs_dec s) (fs_dec_book s) (fs_buf s) (fs_sucess_sum s)
  (fs_failed_sum s) (fs_repeat_sum s) (fs_pb s) (fs_sent s) (fs_refused s).
Definition set_enc_buf b s := mkFec (fs_pool s) (fs_world s) (fs_mem s) (fs_using_book s) (fs_next_sn s)
  (fs_enc s) b (fs_dec s) (fs_dec_book s) (fs_buf s) (fs_sucess_sum s)
  (fs_failed_sum s) (fs_repeat_sum s) (fs_pb s) (fs_sent s) (fs_refused s).
Definition set_dec d s := mkFec (fs_pool s) (fs_world s) (fs_mem s) (fs_using_book s) (fs_next_sn s)
  (fs_enc s) (fs_enc_buf s) d (fs_dec_book s) (fs_buf s) (fs_sucess_sum s)
  (fs_failed_sum s) (fs_repeat_sum s) (fs_pb s) (fs_sent s) (fs_refused s).
Definition set_dec_book b s := mkFec (fs_pool s) (fs_world s) (fs_mem s) (fs_using_book s) (fs_next_sn s)
  (fs_enc s) (fs_enc_buf s) (fs_dec s) b (fs_buf s) (fs_sucess_sum s)
  (fs_failed_sum s) (fs_repeat_sum s) (fs_pb s) (fs_sent s) (fs_refused s).
Definition set_buf b s := mkFec (fs_pool s) (fs_world s) (fs_mem s) (fs_using_book s) (fs_next_sn s)
  (fs_enc s) (fs_enc_buf s) (fs_dec s) (fs_dec_book s) b (fs_sucess_sum s)
  (fs_failed_sum s) (fs_repeat_sum s) (fs_pb s) (fs_sent s) (fs_refused s).
Definition set_sums a b c s := mkFec (fs_pool s) (fs_world s) (fs_mem s) (fs_using_book s) (fs_next_sn s)
  (fs_enc s) (fs_enc_buf s) (fs_dec s) (fs_dec_book s) (fs_buf s) a b c (fs_pb s) (fs_sent s) (fs_refused s).
Definition add_sent f s := mkFec (fs_pool s) (fs_world s) (fs_mem s) (fs_using_book s) (fs_next_sn s)
  (fs_enc s) (fs_enc_buf s) (fs_dec s) (fs_dec_book s) (fs_buf s) (fs_sucess_sum s)
  (fs_failed_sum s) (fs_repeat_sum s) (fs_pb s) (fs_sent s ++ [f]) (fs_refused s).
Definition count_refused s := mkFec (fs_pool s) (fs_world s) (fs_mem s) (fs_using_book s) (fs_next_sn s)
  (fs_enc s) (fs_enc_buf s) (fs_dec s) (fs_dec_book s) (fs_buf s) (fs_sucess_sum s)
  (fs_failed_sum s) (fs_repeat_sum s) (fs_pb s) (fs_sent s) (fs_refused s + 1).

Definition FM (A : Type) : Type := ST FecSt A.

(** ** Which matrix, which cache *)
Inductive MatLoc := EncMat | DecMat (m_id : nat).
Inductive BufLoc := EncBuf | DecBuf.

Definition get_mat (loc : MatLoc) : FM Matrix :=
  s ← get_st;
  match loc with
  | EncMat => mret (fs_enc s)
  | DecMat m => deref (fs_dec s !! m)
  end.
Definition put_mat (loc : MatLoc) (x : Matrix) : FM unit :=
  match loc with
  | EncMat => mod_st (set_enc x)
  | DecMat m => mod_st (fun s => set_dec (<[m := x]> (fs_dec s)) s)
  end.
Definition get_hdr (loc : MatLoc) : FM MatHeader := m ← get_mat loc; mret (mx_hdr m).
Definition put_hdr (loc : MatLoc) (h : MatHeader) : FM unit :=
  m ← get_mat loc; put_mat loc (mx_set_hdr h m).

(** The slot [<dir>_fec_code_[i]] of a matrix; an index outside the array is a
    fault. *)
Definition get_slot (loc : MatLoc) (d : Fec2CodeDir) (i : Z) : FM Fec2CodePackMgr :=
  m ← get_mat loc;
  if i <? 0 then fault else deref (mx_dir d m !! Z.to_nat i).
Definition put_slot (loc : MatLoc) (d : Fec2CodeDir) (i : Z) (x : Fec2CodePackMgr) : FM unit :=
  m ← get_mat loc; put_mat loc (mx_upd d (fun l => <[Z.to_nat i := x]> l) m).

Definition get_fbuf (b : BufLoc) : FM Fec2Buffer :=
  s ← get_st; mret (match b with EncBuf => fs_enc_buf s | DecBuf => fs_buf s end).
Definition put_fbuf (b : BufLoc) (x : Fec2Buffer) : FM unit :=
  mod_st (match b with EncBuf => set_enc_buf x | DecBuf => set_buf x end).
(** [pack_cache_[i]] *)
Definition get_cache (b : BufLoc) (i : Z) : FM (option E) :=
  fb ← get_fbuf b; if i <? 0 then fault else deref (pack_cache fb !! Z.to_nat i).
Definition put_cache (b : BufLoc) (i : Z) (o : option E) : FM unit :=
  fb ← get_fbuf b;
  put_fbuf b (mkFbuf (<[Z.to_nat i := o]> (pack_cache fb)) (pack_num_in_cache fb) (max_cached_sn fb)).
Definition put_num (b : BufLoc) (n : Z) : FM unit :=
  fb ← get_fbuf b; put_fbuf b (mkFbuf (pack_cache fb) n (max_cached_sn fb)).
Definition put_max_sn (b : BufLoc) (n : Z) : FM unit :=
  fb ← get_fbuf b; put_fbuf b (mkFbuf (pack_cache fb) (pack_num_in_cache fb) n).

(** ** Memory and the pool.  Using or releasing a buffer nobody references is
    a fault, so that a proof of fault-freedom excludes use after free and
    double free. *)
Definition get_buf (e : E) : FM Buf := s ← get_st; deref (fs_mem s !! e).
Definition put_buf (e : E) (b : Buf) : FM unit := mod_st (fun s => set_mem (<[e := b]> (fs_mem s)) s).
Definition get_fec (e : E) : FM Fec2CodePack :=
  b ← get_buf e; match buf_data b with FecMem f => mret f | PackMem _ => fault end.
Definition put_fec (e : E) (f : Fec2CodePack) : FM unit :=
  b ← get_buf e; put_buf e (mkBuf (cache_id b) (payload_len b) (FecMem f)).

Definition MallocTranBuf (spec : Z) : FM (option (E * Z)) :=
  s ← get_st;
  let (r, p) := pp_malloc spec (fs_pool s) in
  _ ← mod_st (fun s => if some_b r then set_pool p s else count_refused (set_pool p s)); mret r.
Definition TranBufUseRefAddOne (e : E) : FM unit :=
  s ← get_st;
  if 0 <? pp_refs (fs_pool s) e then mod_st (fun s => set_pool (pp_addref e (fs_pool s)) s) else fault.
Definition FreeTranBuf (e : E) : FM unit :=
  s ← get_st;
  if 0 <? pp_refs (fs_pool s) e then mod_st (fun s => set_pool (pp_free e (fs_pool s)) s) else fault.

End State.

(** ** The surroundings of the engine

    What the constructor of [GtpFec2] receives and the library only calls:
    [send_pack_cb_] and [restorePackRecv_cb_], which may work on the pool and
    on the rest of the system; the vector path the build selects; and the
    unspecified content of freshly allocated memory. *)
Class FecEnv (P E W : Type) := {
  fe_path : XorPath;
  fe_junk : Fec2CodePack;
  fe_sys_id : Z;
  (** [send_pack_cb_(handle, pack, size, addr)] *)
  fe_send : E -> Fec2CodePack -> P -> W -> Z * P * W;
  (** [restorePackRecv_cb_(session, handle, pack, addr, &sucess, &failed, &repeat)] *)
  fe_recv : E -> list Z -> Z * Z * Z -> P -> W -> Z * (Z * Z * Z) * P * W;
  (** how many references the rest of the system holds on a buffer *)
  fe_held : W -> E -> Z;
  (** how many bytes the buffer of a received packet has, from the packet's
      first byte to the buffer's end *)
  fe_room : E -> Z
}.

(** ** The bounds of a buffer *)
Section Room.
Context {P E W : Type} `{!FecEnv P E W}.

(** What is left for [fec_code_] after the fields of the fec packet. *)
Definition code_room (e : E) : Z := fe_room e - FEC2_CODE_PACK_SIZE.
(** What is left for the data packet a buffer carries: a restored one lies in
    the code area of its buffer. *)
Definition data_room (e : E) (b : Buf) : Z :=
  match buf_data b with PackMem _ => fe_room e | FecMem _ => code_room e end.

(** [XorEncode(data, data_size, code, ..)] reads the first [data_size] bytes of
    [data] and writes the first [data_size] bytes of [code]. *)
Definition xor_in_bounds (c : E) (b : Buf) (e : E) : bool :=
  (payload_len b <=? data_room c b) && (payload_len b <=? code_room e).
End Room.

#[global] Arguments Fec2CodePackMgr : clear implicits.
#[global] Arguments Matrix : clear implicits.
#[global] Arguments Fec2Buffer : clear implicits.
#[global] Arguments FecSt P E W {_ _}.
#[global] Arguments FM P E W {_ _} A.

End FecState.
