(* ===== verification/FecBuffer.v ===== *)
(** * The receive cache of the fec engine

    [Fec2Buffer] (src/src/fec2/goodtp_fec2_buffer.cpp): thirty-two slots
    indexed by the low bits of the sequence number, each holding one reference
    on a transport buffer. *)
From S2P Require Import Prelude PoolInterface FecState.
Export FecState.

Module FecBuffer.

Section Buffer.
Context {P E W : Type} `{Countable E} `{!PackPool P E}.
Local Abbreviation M := (FM P E W).

(** [if (NULL != pack_cache_[i]) { FreeTranBuf(pack_cache_[i]); pack_cache_[i] = NULL; }];
    the result tells whether a packet was released. *)
Definition free_cache (b : BufLoc) (i : Z) : M bool :=
  o ← get_cache b i;
  match o with
  | Some e => _ ← FreeTranBuf e; _ ← put_cache b i None; mret true
  | None => mret false
  end.

Definition PopAllPack (b : BufLoc) : M unit :=
  fb ← get_fbuf b;
  if pack_num_in_cache fb =? 0 then mret tt
  else
    _ ← for_up (Z.to_nat MAX_FEC2_CACHE_CAPACITY)
          (fun i => _ ← free_cache b i; mret (i + 1)) 0;
    put_num b 0.

Definition Init (b : BufLoc) : M unit := PopAllPack b.

(** The body of the loop of [Clear]. *)
Definition clear_round (b : BufLoc) (ic : Z * Z) : M (Z * Z) :=
  let (i, counter) := ic in
  r ← free_cache b i;
  mret (Z.land (i + 1) FEC2_CACHE_CAPACITY_MASK, if r : bool then counter + 1 else counter).

Definition Clear (b : BufLoc) (start_pos end_pos : Z) : M unit :=
  ic0 ← clear_round b (start_pos, 0);
  ic ← while_fuel (Z.to_nat MAX_FEC2_CACHE_CAPACITY)
         (fun ic => negb (end_pos =? ic.1)) (clear_round b) ic0;
  r ← free_cache b ic.1;
  let counter := if r : bool then ic.2 + 1 else ic.2 in
  fb ← get_fbuf b;
  put_num b (if counter <=? pack_num_in_cache fb then pack_num_in_cache fb - counter else 0).

(** [if (0 < pack_num_in_cache_) pack_num_in_cache_ -= 1;] *)
Definition dec_num (b : BufLoc) : M unit :=
  fb ← get_fbuf b;
  when (0 <? pack_num_in_cache fb) (put_num b (pack_num_in_cache fb - 1)).

(** [PopPack(GtpPackCacheStru *pack)] *)
Definition PopPackMem (b : BufLoc) (pack : E) : M unit :=
  m ← get_buf pack;
  let pos := cache_id m in
  if MAX_FEC2_CACHE_CAPACITY <=? pos then mret tt
  else
    o ← get_cache b pos;
    match o with
    | None => FreeTranBuf pack
    | Some e =>
        _ ← dec_num b;
        if bool_decide (pack = e) then _ ← put_cache b pos None; FreeTranBuf pack
        else _ ← FreeTranBuf e; _ ← put_cache b pos None; FreeTranBuf pack
    end.

(** [PopPack(const goodtp_pos &cache_pos)] *)
Definition PopPack (b : BufLoc) (cache_pos : Z) : M unit :=
  if MAX_FEC2_CACHE_CAPACITY <=? cache_pos then mret tt
  else
    o ← get_cache b cache_pos;
    match o with
    | None => mret tt
    | Some e => _ ← dec_num b; _ ← FreeTranBuf e; put_cache b cache_pos None
    end.

(** The tail of [PushPack]: the new buffer takes its place in the cache. *)
Definition push_slot (b : BufLoc) (new_cache : E) (pos sn : Z) : M unit :=
  o ← get_cache b pos;
  _ ← match o with
      | Some old => FreeTranBuf old
      | None => fb ← get_fbuf b; put_num b (u32 (pack_num_in_cache fb + 1))
      end;
  _ ← put_cache b pos (Some new_cache);
  fb ← get_fbuf b;
  if max_cached_sn fb <=? sn then put_max_sn b sn
  else when (u32 (U32_MAX - max_cached_sn fb + sn) <=? MAX_FEC2_CACHE_CAPACITY) (put_max_sn b sn).

Context `{!FecEnv P E W}.

(** [PushPack(pack, need_new_buf)]: the packet is copied into a buffer of its
    own, or cached in place with one more reference. *)
Definition PushPack (b : BufLoc) (pack : E) (need_new_buf : bool) : M (option E) :=
  m ← get_buf pack;
  let bytes := payload m in
  let size := packet_size bytes in
  let sn := packet_sn bytes in
  let mem_spec := GtpPackSizeToMemSpec size in
  if need_new_buf then
    r ← MallocTranBuf mem_spec;
    match r with
    | None => mret None
    | Some (e, _) =>
        _ ← put_buf e (mkBuf (CalcPosInPackCache sn) size
              (PackMem (mem_store (fp_code fe_junk) 0 (mem_load (Z.to_nat size) bytes 0))));
        _ ← push_slot b e (CalcPosInPackCache sn) sn; mret (Some e)
    end
  else
    _ ← put_buf pack (mkBuf (CalcPosInPackCache sn) size (buf_data m));
    _ ← TranBufUseRefAddOne pack;
    _ ← push_slot b pack (CalcPosInPackCache sn) sn; mret (Some pack).

End Buffer.
End FecBuffer.
