(* ===== verification/FecInv.v ===== *)
(** * The invariant of the fec engine

    Who holds which transport buffer.  Every occupied slot of a matrix or of a
    cache stands for one reference; the pool's counter of a buffer must equal
    the references of the engine plus those of the rest of the system.  The
    lemmas below say how each primitive access changes that balance; the files
    on the encoder and the decoder compose them. *)
From S2P Require Import Prelude PoolInterface FecState.
Export FecState.

Module FecInv.

Section Inv.
Context {P E W : Type} `{Countable E} `{!PackPool P E} `{!FecEnv P E W}.
Local Abbreviation M := (FM P E W).
Implicit Types (s : FecSt P E W) (m : Matrix E) (e : E) (x : E -> Z).

(** ** Counting references *)
Definition held_line (l : list (Fec2CodePackMgr E)) e : Z := held_in (fec_pack <$> l) e.
Definition held_mat m e : Z :=
  held_line (h_fec_code m) e + held_line (v_fec_code m) e +
  held_line (uh_fec_code m) e + held_line (dh_fec_code m) e.
Fixpoint held_mats (l : list (Matrix E)) e : Z :=
  match l with [] => 0 | m :: l' => held_mat m e + held_mats l' e end.
Definition held_slots s e : Z := held_mat (fs_enc s) e + held_mats (fs_dec s) e.
Definition held_caches s e : Z :=
  held_in (pack_cache (fs_enc_buf s)) e + held_in (pack_cache (fs_buf s)) e.
Definition held s e : Z := held_slots s e + held_caches s e.

(** ** Shapes *)
Definition mat_len m : Prop :=
  length (h_fec_code m) = 4%nat /\ length (v_fec_code m) = 4%nat /\
  length (uh_fec_code m) = 5%nat /\ length (dh_fec_code m) = 5%nat.
Definition world_ok (w : W) : Prop := forall e, 0 <= fe_held w e <= 30000.

(** What every state satisfies, up to [x] references held by local variables
    of the running operation. *)
Record inv_core x s : Prop := {
  ic_pool : pp_ok (fs_pool s);
  ic_world : world_ok (fs_world s);
  ic_balance : forall e, pp_refs (fs_pool s) e = fe_held (fs_world s) e + held s e + x e;
  ic_enc : mat_len (fs_enc s);
  ic_dec : length (fs_dec s) = 16%nat /\ Forall mat_len (fs_dec s);
  ic_cache : length (pack_cache (fs_enc_buf s)) = 32%nat /\ length (pack_cache (fs_buf s)) = 32%nat;
  ic_book : 0 <= fs_using_book s <= 5;
  ic_fec : forall e, 0 < held_slots s e -> exists b f, fs_mem s !! e = Some b /\ buf_data b = FecMem f;
  ic_buf : forall e, 0 < held_caches s e -> exists b, fs_mem s !! e = Some b /\ payload_len b < 8192
}.

(** The number kept with a cache counts its packets. *)
Definition occupied (l : list (option E)) : Z := Z.of_nat (length (filter is_Some l)).
Definition fbuf_ok (b : Fec2Buffer E) : Prop := pack_num_in_cache b = occupied (pack_cache b).

(** The invariant between operations. *)
Record fec_inv s : Prop := {
  fi_core : inv_core (fun _ => 0) s;
  fi_enc : mat_ok (mx_hdr (fs_enc s));
  fi_dec : Forall (fun m => mat_ok (mx_hdr m)) (fs_dec s);
  fi_enc_buf : fbuf_ok (fs_enc_buf s);
  fi_buf : fbuf_ok (fs_buf s);
  fi_dec_book : 0 <= fs_dec_book s <= 5
}.

(** ** Slots as functions of the state *)
Definition mat_of (loc : MatLoc) s : option (Matrix E) :=
  match loc with EncMat => Some (fs_enc s) | DecMat i => fs_dec s !! i end.
Definition set_mat (loc : MatLoc) (m : Matrix E) s : FecSt P E W :=
  match loc with EncMat => set_enc m s | DecMat i => set_dec (<[i := m]> (fs_dec s)) s end.
Definition slot_of (loc : MatLoc) (d : Fec2CodeDir) (i : Z) s : option (Fec2CodePackMgr E) :=
  m ← mat_of loc s; mx_dir d m !! Z.to_nat i.
Definition fbuf_of (b : BufLoc) s : Fec2Buffer E :=
  match b with EncBuf => fs_enc_buf s | DecBuf => fs_buf s end.
Definition set_fbuf (b : BufLoc) (f : Fec2Buffer E) s : FecSt P E W :=
  match b with EncBuf => set_enc_buf f s | DecBuf => set_buf f s end.
Definition dir_len (d : Fec2CodeDir) : Z :=
  match d with kHorizontal | kVertical => 4 | kUpHill | kDownHill => 5 end.

(** ** Lemmas on counting *)
Lemma held_line_nonneg l e : 0 <= held_line l e.
Proof. apply held_in_nonneg. Qed.
Lemma held_mat_nonneg m e : 0 <= held_mat m e.
Proof. unfold held_mat. pose proof (held_line_nonneg (h_fec_code m) e).
  pose proof (held_line_nonneg (v_fec_code m) e). pose proof (held_line_nonneg (uh_fec_code m) e).
  pose proof (held_line_nonneg (dh_fec_code m) e). lia. Qed.
Lemma held_mats_nonneg l e : 0 <= held_mats l e.
Proof. induction l as [|m l IH]; cbn; [lia|]. pose proof (held_mat_nonneg m e). lia. Qed.
Lemma held_slots_nonneg s e : 0 <= held_slots s e.
Proof. unfold held_slots. pose proof (held_mat_nonneg (fs_enc s) e).
  pose proof (held_mats_nonneg (fs_dec s) e). lia. Qed.
Lemma held_caches_nonneg s e : 0 <= held_caches s e.
Proof. unfold held_caches. pose proof (held_in_nonneg (pack_cache (fs_enc_buf s)) e).
  pose proof (held_in_nonneg (pack_cache (fs_buf s)) e). lia. Qed.

Lemma held_line_le l e : held_line l e <= Z.of_nat (length l).
Proof. unfold held_line. rewrite <- (length_fmap fec_pack). apply held_in_length. Qed.
Lemma held_mat_le m e : mat_len m -> held_mat m e <= 18.
Proof.
  intros (H1 & H2 & H3 & H4). unfold held_mat.
  pose proof (held_line_le (h_fec_code m) e). pose proof (held_line_le (v_fec_code m) e).
  pose proof (held_line_le (uh_fec_code m) e). pose proof (held_line_le (dh_fec_code m) e). lia.
Qed.
Lemma held_mats_le l e : Forall mat_len l -> held_mats l e <= 18 * Z.of_nat (length l).
Proof.
  induction 1 as [|m l Hm _ IH]; cbn [held_mats length]; [lia|]. pose proof (held_mat_le m e Hm). lia.
Qed.

(** The engine never holds more than 370 references on one buffer. *)
Lemma held_bound x s e : inv_core x s -> 0 <= held s e <= 370.
Proof.
  intros Hi. destruct (ic_dec x s Hi) as [Hl Hf]. destruct (ic_cache x s Hi) as [H1 H2].
  pose proof (held_slots_nonneg s e). pose proof (held_caches_nonneg s e).
  unfold held. split; [lia|]. unfold held_slots, held_caches.
  pose proof (held_mat_le _ e (ic_enc x s Hi)). pose proof (held_mats_le _ e Hf).
  pose proof (held_in_length (pack_cache (fs_enc_buf s)) e).
  pose proof (held_in_length (pack_cache (fs_buf s)) e). lia.
Qed.

Lemma held_line_insert l i g g' e :
  l !! i = Some g ->
  held_line (<[i := g']> l) e =
    held_line l e - ind (bool_decide (fec_pack g = Some e)) + ind (bool_decide (fec_pack g' = Some e)).
Proof.
  intros Hi. unfold held_line. rewrite list_fmap_insert. apply held_in_insert.
  rewrite list_lookup_fmap, Hi. done.
Qed.

Lemma held_mat_upd d m i g g' e :
  mx_dir d m !! i = Some g ->
  held_mat (mx_upd d (fun l => <[i := g']> l) m) e =
    held_mat m e - ind (bool_decide (fec_pack g = Some e)) + ind (bool_decide (fec_pack g' = Some e)).
Proof.
  intros Hi. unfold held_mat. destruct d; cbn [mx_upd mx_dir h_fec_code v_fec_code uh_fec_code dh_fec_code] in *;
    rewrite (held_line_insert _ i g g') by done; lia.
Qed.

Lemma held_mats_insert l i m m' e :
  l !! i = Some m -> held_mats (<[i := m']> l) e = held_mats l e - held_mat m e + held_mat m' e.
Proof.
  revert i. induction l as [|y l IH]; intros [|i] Hi; try done; simpl in *.
  - simplify_eq. lia.
  - rewrite (IH i Hi). lia.
Qed.

Lemma held_line_pos l i g e : l !! i = Some g -> fec_pack g = Some e -> 0 < held_line l e.
Proof.
  intros Hi Hg. unfold held_line. apply (held_in_pos _ i). rewrite list_lookup_fmap, Hi. cbn. by rewrite Hg.
Qed.
Lemma held_mat_pos d m i g e : mx_dir d m !! i = Some g -> fec_pack g = Some e -> 0 < held_mat m e.
Proof.
  intros Hi Hg. unfold held_mat.
  pose proof (held_line_nonneg (h_fec_code m) e). pose proof (held_line_nonneg (v_fec_code m) e).
  pose proof (held_line_nonneg (uh_fec_code m) e). pose proof (held_line_nonneg (dh_fec_code m) e).
  destruct d; cbn in Hi; pose proof (held_line_pos _ _ _ _ Hi Hg); lia.
Qed.
Lemma held_mats_pos l i m e : l !! i = Some m -> 0 < held_mat m e -> 0 < held_mats l e.
Proof.
  revert i. induction l as [|y l IH]; intros [|i] Hi Hm; try done; simpl in *.
  - simplify_eq. pose proof (held_mats_nonneg l e). lia.
  - specialize (IH i Hi Hm). pose proof (held_mat_nonneg y e). lia.
Qed.
Lemma slot_held loc d i s g e :
  slot_of loc d i s = Some g -> fec_pack g = Some e -> 0 < held_slots s e.
Proof.
  unfold slot_of. intros Hs Hg. apply bind_Some in Hs as (m & Hm & Hi).
  pose proof (held_mat_pos d m _ g e Hi Hg) as Hp. unfold held_slots.
  pose proof (held_mat_nonneg (fs_enc s) e). pose proof (held_mats_nonneg (fs_dec s) e).
  destruct loc; cbn in Hm; simplify_eq; [lia|]. pose proof (held_mats_pos _ _ _ e Hm Hp). lia.
Qed.
Lemma cache_held b i s e :
  pack_cache (fbuf_of b s) !! i = Some (Some e) -> 0 < held_caches s e.
Proof.
  intros Hi. pose proof (held_in_pos _ _ _ Hi) as Hp. unfold held_caches.
  pose proof (held_in_nonneg (pack_cache (fs_enc_buf s)) e).
  pose proof (held_in_nonneg (pack_cache (fs_buf s)) e). destruct b; cbn in Hp; lia.
Qed.

(** ** Counting after an update of a slot *)
Definition upd_slot (loc : MatLoc) (d : Fec2CodeDir) (i : Z) (g : Fec2CodePackMgr E) s : FecSt P E W :=
  match mat_of loc s with
  | Some m => set_mat loc (mx_upd d (fun l => <[Z.to_nat i := g]> l) m) s
  | None => s
  end.

Lemma held_set_mat loc m m' s e :
  mat_of loc s = Some m ->
  held_slots (set_mat loc m' s) e = held_slots s e - held_mat m e + held_mat m' e /\
  held_caches (set_mat loc m' s) e = held_caches s e.
Proof.
  intros Hm. destruct loc; cbn in *; simplify_eq; (split; [|done]).
  - unfold held_slots. cbn. lia.
  - unfold held_slots. cbn. rewrite (held_mats_insert _ _ m m' e Hm). lia.
Qed.

Lemma held_upd_slot loc d i g g' s e :
  slot_of loc d i s = Some g ->
  held_slots (upd_slot loc d i g' s) e =
    held_slots s e - ind (bool_decide (fec_pack g = Some e)) + ind (bool_decide (fec_pack g' = Some e)) /\
  held_caches (upd_slot loc d i g' s) e = held_caches s e.
Proof.
  unfold slot_of, upd_slot. intros Hs. apply bind_Some in Hs as (m & Hm & Hi). rewrite Hm.
  destruct (held_set_mat loc m (mx_upd d (fun l => <[Z.to_nat i := g']> l) m) s e Hm) as [-> ->].
  rewrite (held_mat_upd d m _ g g' e Hi). lia.
Qed.

(** ** Primitive accesses *)
Lemma wp_get_mat loc m (Q : Matrix E -> FecSt P E W -> Prop) s :
  mat_of loc s = Some m -> Q m s -> wp (get_mat loc) Q s.
Proof. intros Hm HQ. destruct loc; cbn in Hm; unfold get_mat; wp_steps; [by simplify_eq|]. by eapply wp_deref. Qed.

Lemma wp_put_mat loc m Q s : Q tt (set_mat loc m s) -> wp (put_mat loc m) Q s.
Proof. intros HQ. destruct loc; cbn; by wp_steps. Qed.

Lemma wp_get_hdr loc m (Q : MatHeader -> FecSt P E W -> Prop) s :
  mat_of loc s = Some m -> Q (mx_hdr m) s -> wp (get_hdr loc) Q s.
Proof. intros Hm HQ. unfold get_hdr. wp_steps. eapply wp_get_mat; [done|]. by wp_steps. Qed.

Lemma wp_put_hdr loc m h Q s :
  mat_of loc s = Some m -> Q tt (set_mat loc (mx_set_hdr h m) s) -> wp (put_hdr loc h) Q s.
Proof. intros Hm HQ. unfold put_hdr. wp_steps. eapply wp_get_mat; [done|]. by apply wp_put_mat. Qed.

Lemma wp_get_slot loc d i g (Q : Fec2CodePackMgr E -> FecSt P E W -> Prop) s :
  0 <= i -> slot_of loc d i s = Some g -> Q g s -> wp (get_slot loc d i) Q s.
Proof.
  intros Hi Hs HQ. unfold slot_of in Hs. apply bind_Some in Hs as (m & Hm & Hg).
  unfold get_slot. wp_steps. eapply wp_get_mat; [done|].
  destruct (Z.ltb_spec i 0); [lia|]. by eapply wp_deref.
Qed.

Lemma wp_put_slot loc d i g g' Q s :
  slot_of loc d i s = Some g -> Q tt (upd_slot loc d i g' s) -> wp (put_slot loc d i g') Q s.
Proof.
  intros Hs HQ. unfold slot_of in Hs. apply bind_Some in Hs as (m & Hm & Hg).
  unfold put_slot. wp_steps. eapply wp_get_mat; [done|]. apply wp_put_mat.
  unfold upd_slot in HQ. by rewrite Hm in HQ.
Qed.

Lemma wp_get_fbuf b (Q : Fec2Buffer E -> FecSt P E W -> Prop) s :
  Q (fbuf_of b s) s -> wp (get_fbuf b) Q s.
Proof. intros. unfold get_fbuf. by wp_steps. Qed.
Lemma wp_put_fbuf b f Q s : Q tt (set_fbuf b f s) -> wp (put_fbuf b f) Q s.
Proof. intros. unfold put_fbuf. destruct b; by wp_steps. Qed.
Lemma wp_get_cache b i o (Q : option E -> FecSt P E W -> Prop) s :
  0 <= i -> pack_cache (fbuf_of b s) !! Z.to_nat i = Some o -> Q o s -> wp (get_cache b i) Q s.
Proof.
  intros Hi Ho HQ. unfold get_cache. wp_steps. apply wp_get_fbuf.
  destruct (Z.ltb_spec i 0); [lia|]. by eapply wp_deref.
Qed.

Definition upd_cache (b : BufLoc) (i : Z) (o : option E) s : FecSt P E W :=
  set_fbuf b (mkFbuf (<[Z.to_nat i := o]> (pack_cache (fbuf_of b s)))
    (pack_num_in_cache (fbuf_of b s)) (max_cached_sn (fbuf_of b s))) s.
Lemma wp_put_cache b i o Q s : Q tt (upd_cache b i o s) -> wp (put_cache b i o) Q s.
Proof. intros. unfold put_cache. wp_steps. apply wp_get_fbuf. by apply wp_put_fbuf. Qed.

Lemma wp_get_buf e b (Q : Buf -> FecSt P E W -> Prop) s :
  fs_mem s !! e = Some b -> Q b s -> wp (get_buf e) Q s.
Proof. intros. unfold get_buf. wp_steps. by eapply wp_deref. Qed.
Lemma wp_get_fec e b f (Q : Fec2CodePack -> FecSt P E W -> Prop) s :
  fs_mem s !! e = Some b -> buf_data b = FecMem f -> Q f s -> wp (get_fec e) Q s.
Proof. intros Hb Hf HQ. unfold get_fec. wp_steps. eapply wp_get_buf; [done|]. rewrite Hf. by wp_steps. Qed.
Lemma wp_put_buf e b Q s : Q tt (set_mem (<[e := b]> (fs_mem s)) s) -> wp (put_buf (P:=P) (W:=W) e b) Q s.
Proof. done. Qed.
Lemma wp_put_fec e b f Q s :
  fs_mem s !! e = Some b ->
  Q tt (set_mem (<[e := mkBuf (cache_id b) (payload_len b) (FecMem f)]> (fs_mem s)) s) ->
  wp (put_fec e f) Q s.
Proof. intros. unfold put_fec. wp_steps. by eapply wp_get_buf. Qed.

Lemma wp_free e Q s :
  0 < pp_refs (fs_pool s) e -> Q tt (set_pool (pp_free e (fs_pool s)) s) -> wp (FreeTranBuf e) Q s.
Proof. intros Hr HQ. unfold FreeTranBuf. wp_steps; [done|]. lia. Qed.
Lemma wp_addref e Q s :
  0 < pp_refs (fs_pool s) e -> Q tt (set_pool (pp_addref e (fs_pool s)) s) ->
  wp (TranBufUseRefAddOne e) Q s.
Proof. intros Hr HQ. unfold TranBufUseRefAddOne. wp_steps; [done|]. lia. Qed.
Lemma wp_malloc spec (Q : option (E * Z) -> FecSt P E W -> Prop) s :
  (forall r p', pp_malloc spec (fs_pool s) = (r, p') -> 
     Q r (if some_b r then set_pool p' s else count_refused (set_pool p' s))) ->
  wp (MallocTranBuf spec) Q s.
Proof.
  intros HQ. unfold MallocTranBuf. wp_steps.
  destruct (pp_malloc spec (fs_pool s)) as [r p'] eqn:Hm. wp_steps. by apply HQ.
Qed.

(** ** How the primitives change the balance *)
Lemma inv_ext x x' s : (forall e, x e = x' e) -> inv_core x s -> inv_core x' s.
Proof. intros Hx []; split; try done. intros e. by rewrite <- Hx. Qed.

(** Two states that agree on what the invariant reads. *)
Lemma inv_same x s s' :
  fs_pool s' = fs_pool s -> fs_world s' = fs_world s -> fs_mem s' = fs_mem s ->
  fs_enc s' = fs_enc s -> fs_dec s' = fs_dec s -> pack_cache (fs_enc_buf s') = pack_cache (fs_enc_buf s) ->
  pack_cache (fs_buf s') = pack_cache (fs_buf s) -> 0 <= fs_using_book s' <= 5 ->
  inv_core x s -> inv_core x s'.
Proof.
  intros E1 E2 E3 E4 E5 E6 E7 Hb [].
  split; unfold held, held_slots, held_caches in *; rewrite ?E1, ?E2, ?E3, ?E4, ?E5, ?E6, ?E7; done.
Qed.

Lemma inv_mem x s e b :
  (0 < held_slots s e -> exists f, buf_data b = FecMem f) ->
  (0 < held_caches s e -> payload_len b < 8192) ->
  inv_core x s -> inv_core x (set_mem (<[e := b]> (fs_mem s)) s).
Proof.
  intros Hf Hl []. split; try done.
  - intros e' He'. cbn. destruct (decide (e' = e)) as [->|Hne].
    + rewrite lookup_insert_eq. destruct (Hf He') as [f Hb]. eauto.
    + rewrite lookup_insert_ne by done. by apply ic_fec0.
  - intros e' He'. cbn. destruct (decide (e' = e)) as [->|Hne].
    + rewrite lookup_insert_eq. eauto.
    + rewrite lookup_insert_ne by done. by apply ic_buf0.
Qed.

(** Rewriting the code of a buffer keeps what its cache entry says. *)
Lemma inv_fec_mem x s e b f :
  fs_mem s !! e = Some b ->
  inv_core x s -> inv_core x (set_mem (<[e := mkBuf (cache_id b) (payload_len b) (FecMem f)]> (fs_mem s)) s).
Proof.
  intros Hb Hi. apply inv_mem; [by eauto| |done]. intros He.
  destruct (ic_buf _ _ Hi e He) as (b' & Hb' & Hl). by simplify_eq.
Qed.

Lemma inv_slot x s loc d i g g' :
  slot_of loc d i s = Some g ->
  (forall e, fec_pack g' = Some e -> exists b f, fs_mem s !! e = Some b /\ buf_data b = FecMem f) ->
  inv_core x s ->
  inv_core (fun e => x e + ind (bool_decide (fec_pack g = Some e)) - ind (bool_decide (fec_pack g' = Some e)))
    (upd_slot loc d i g' s).
Proof.
  intros Hs Hf Hi. pose proof (fun e => held_upd_slot loc d i g g' s e Hs) as Hh.
  unfold upd_slot in *. unfold slot_of in Hs. apply bind_Some in Hs as (m & Hm & Hg). rewrite Hm in *.
  destruct Hi as [? ? Hbal Henc [Hdl Hdf] ? ? Hfec Hbuf].
  assert (Hlen : forall y : Matrix E, mat_len y -> mat_len (mx_upd d (fun l => <[Z.to_nat i := g']> l) y)).
  { intros y (?&?&?&?). destruct d; unfold mat_len; cbn -[insert]; rewrite length_insert; done. }
  assert (Hheld : forall e, held (set_mat loc (mx_upd d (fun l => <[Z.to_nat i := g']> l) m) s) e =
     held s e - ind (bool_decide (fec_pack g = Some e)) + ind (bool_decide (fec_pack g' = Some e))).
  { intros e. unfold held. destruct (Hh e) as [-> ->]. lia. }
  set (s' := set_mat loc _ s) in *.
  assert (Hsame : fs_pool s' = fs_pool s /\ fs_world s' = fs_world s /\ fs_mem s' = fs_mem s /\
    fs_enc_buf s' = fs_enc_buf s /\ fs_buf s' = fs_buf s /\ fs_using_book s' = fs_using_book s)
    by (unfold s'; destruct loc; done).
  destruct Hsame as (Ep & Ew & Em & Eb & Ec & Eu).
  split; rewrite ?Ep, ?Ew, ?Em, ?Eb, ?Ec, ?Eu; try done.
  - intros e. rewrite Hheld, Hbal. lia.
  - unfold s'. destruct loc; cbn in *; [|done]. simplify_eq. by apply Hlen.
  - unfold s'. destruct loc; cbn -[insert] in *; [done|]. rewrite length_insert. split; [done|].
    apply Forall_insert; [done|]. apply Hlen. by eapply Forall_lookup_1.
  - intros e He. destruct (Hh e) as [Hs _]. fold s' in Hs. rewrite Hs in He.
    destruct (decide (fec_pack g' = Some e)) as [Hg'|Hg']; [by apply Hf|].
    apply Hfec. rewrite (bool_decide_false _ Hg') in He. unfold ind in He. case_bool_decide; lia.
  - intros e He. destruct (Hh e) as [_ Hc]. fold s' in Hc. rewrite Hc in He. by apply Hbuf.
Qed.

Lemma inv_cache x s b i o o' :
  pack_cache (fbuf_of b s) !! Z.to_nat i = Some o ->
  (forall e, o' = Some e -> exists b, fs_mem s !! e = Some b /\ payload_len b < 8192) ->
  inv_core x s ->
  inv_core (fun e => x e + ind (bool_decide (o = Some e)) - ind (bool_decide (o' = Some e)))
    (upd_cache b i o' s).
Proof.
  intros Ho Hf [? ? Hbal ? ? [Hl1 Hl2] ? Hfec Hbuf].
  assert (Hc : forall e, held_caches (upd_cache b i o' s) e =
    held_caches s e - ind (bool_decide (o = Some e)) + ind (bool_decide (o' = Some e))).
  { intros e. unfold held_caches, upd_cache. destruct b; cbn -[insert] in *;
      rewrite (held_in_insert _ _ o o') by done; lia. }
  assert (Hs : forall e, held_slots (upd_cache b i o' s) e = held_slots s e)
    by (intros e; destruct b; done).
  split; try (destruct b; done).
  - intros e. unfold held. rewrite Hs, Hc. unfold held in Hbal. specialize (Hbal e).
    destruct b; cbn -[insert]; lia.
  - unfold upd_cache. destruct b; cbn -[insert] in *; rewrite length_insert; done.
  - intros e He. rewrite Hc in He. assert (fs_mem (upd_cache b i o' s) = fs_mem s) as -> by (by destruct b).
    destruct (decide (o' = Some e)) as [Ho'|Ho']; [by apply Hf|].
    apply Hbuf. rewrite (bool_decide_false _ Ho') in He. unfold ind in He. case_bool_decide; lia.
Qed.

Lemma inv_hdr x s loc m h :
  mat_of loc s = Some m -> inv_core x s -> inv_core x (set_mat loc (mx_set_hdr h m) s).
Proof.
  intros Hm [? ? Hbal Henc [Hdl Hdf] ? ? Hfec Hbuf].
  assert (Hh : forall e, held_slots (set_mat loc (mx_set_hdr h m) s) e = held_slots s e /\
                         held_caches (set_mat loc (mx_set_hdr h m) s) e = held_caches s e).
  { intros e. destruct (held_set_mat loc m (mx_set_hdr h m) s e Hm) as [-> ->].
    split; [|done]. change (held_mat (mx_set_hdr h m) e) with (held_mat m e). lia. }
  destruct loc; cbn in Hm; simplify_eq; [by split|].
  split; try done; cbn -[insert held held_slots] in *.
  - intros e. unfold held. destruct (Hh e) as [Hs Hc]. rewrite Hs, Hc. apply Hbal.
  - rewrite length_insert. split; [done|]. apply Forall_insert; [done|].
    exact (Forall_lookup_1 _ _ _ _ Hdf Hm).
  - intros e He. destruct (Hh e) as [Hs _]. rewrite Hs in He. by apply Hfec.
Qed.

End Inv.

(** ** What the callbacks promise

    [send_pack_cb_] and [restorePackRecv_cb_] may take and release references
    of their own, but never one the engine holds, and leave the pool in a
    valid state; the rest of the system never piles up more than 30000
    references on one buffer (the counter is an [int16_t]).  The content of
    fresh memory is bytes. *)
Class FecEnvLaws (P E W : Type) `{Countable E} `{!PackPool P E} `{!FecEnv P E W} : Prop := {
  fe_junk_ok : bytes_ok (fp_code fe_junk);
  fe_send_law e f p w (h : E -> Z) :
    pp_ok p -> world_ok w -> (forall y, 0 <= h y <= 1000) -> 0 < h e ->
    (forall y, pp_refs p y = fe_held w y + h y) ->
    let '(_, p', w') := fe_send e f p w in
    pp_ok p' /\ world_ok w' /\ forall y, pp_refs p' y = fe_held w' y + h y;
  fe_recv_law e bytes sums p w (h : E -> Z) :
    pp_ok p -> world_ok w -> (forall y, 0 <= h y <= 1000) -> 0 < h e ->
    (forall y, pp_refs p y = fe_held w y + h y) ->
    let '(_, _, p', w') := fe_recv e bytes sums p w in
    pp_ok p' /\ world_ok w' /\ forall y, pp_refs p' y = fe_held w' y + h y
}.

Section Laws.
Context {P E W : Type} `{Countable E} `{!PackPool P E} `{!FecEnv P E W}.
Context `{!PackPoolLaws P E} `{!FecEnvLaws P E W}.
Implicit Types (s : FecSt P E W) (m : Matrix E) (e : E) (x : E -> Z).

(** Replacing the pool. *)
Lemma inv_pool x x' s p' :
  pp_ok p' -> (forall y, pp_refs p' y = pp_refs (fs_pool s) y + x' y - x y) ->
  inv_core x s -> inv_core x' (set_pool p' s).
Proof.
  intros Hok Hr []. split; try done. intros e. cbn. rewrite Hr, ic_balance0.
  change (held (set_pool p' s) e) with (held s e). lia.
Qed.

Lemma inv_refs_pos x s e : inv_core x s -> 0 < held s e + x e -> 0 < pp_refs (fs_pool s) e.
Proof. intros Hi He. rewrite (ic_balance _ _ Hi). pose proof (ic_world _ _ Hi e). lia. Qed.

Lemma inv_free x s e :
  inv_core x s -> 0 < held s e + x e ->
  inv_core (fun y => x y - ind (bool_decide (y = e))) (set_pool (pp_free e (fs_pool s)) s).
Proof.
  intros Hi He. destruct (pp_free_law (fs_pool s) e (ic_pool _ _ Hi) (inv_refs_pos _ _ _ Hi He)) as [Hok Hr].
  apply (inv_pool x); [done| |done]. intros y. rewrite Hr. lia.
Qed.

Lemma inv_addref x s e :
  inv_core x s -> 0 < pp_refs (fs_pool s) e -> x e <= 1000 ->
  inv_core (fun y => x y + ind (bool_decide (y = e))) (set_pool (pp_addref e (fs_pool s)) s).
Proof.
  intros Hi He Hx.
  assert (pp_refs (fs_pool s) e < REF_LIMIT).
  { rewrite (ic_balance _ _ Hi). pose proof (ic_world _ _ Hi e). pose proof (held_bound _ _ e Hi).
    unfold REF_LIMIT. lia. }
  destruct (pp_addref_law (fs_pool s) e (ic_pool _ _ Hi)) as [Hok Hr]; [done|].
  apply (inv_pool x); [done| |done]. intros y. rewrite Hr. lia.
Qed.

Lemma inv_malloc_some x s spec e n p' :
  inv_core x s -> (forall y, 0 <= x y) -> 0 <= spec <= 6 ->
  pp_malloc spec (fs_pool s) = (Some (e, n), p') ->
  inv_core (fun y => x y + ind (bool_decide (y = e))) (set_pool p' s) /\
  held s e = 0 /\ spec_bytes spec <= n <= 65536.
Proof.
  intros Hi Hx Hs Hm.
  destruct (pp_malloc_some _ _ _ _ _ (ic_pool _ _ Hi) Hs Hm) as (Hok & H0 & Hn & Hr).
  split; [|split; [|done]].
  - apply (inv_pool x); [done| |done]. intros y. rewrite Hr. lia.
  - rewrite (ic_balance _ _ Hi) in H0. pose proof (ic_world _ _ Hi e).
    pose proof (held_bound _ _ e Hi). specialize (Hx e). lia.
Qed.

Lemma inv_malloc_none x s spec p' :
  inv_core x s -> 0 <= spec <= 6 -> pp_malloc spec (fs_pool s) = (None, p') ->
  inv_core x (count_refused (set_pool p' s)).
Proof.
  intros Hi Hs Hm. destruct (pp_malloc_none _ _ _ (ic_pool _ _ Hi) Hs Hm) as (Hok & Hr).
  apply (inv_same x (set_pool p' s)); try done; [apply (ic_book _ _ Hi)|].
  apply (inv_pool x); [done| |done]. intros y. rewrite Hr. lia.
Qed.

Lemma held_not_slot s e : held s e = 0 -> held_slots s e = 0 /\ held_caches s e = 0.
Proof.
  unfold held. pose proof (held_slots_nonneg s e). pose proof (held_caches_nonneg s e). lia.
Qed.

Lemma inv_send x s e f r p' w' :
  inv_core x s -> (forall y, 0 <= x y <= 100) -> 0 < held s e + x e ->
  fe_send e f (fs_pool s) (fs_world s) = (r, p', w') ->
  inv_core x (set_world w' (set_pool p' s)).
Proof.
  intros Hi Hx He Hs.
  pose proof (fe_send_law e f (fs_pool s) (fs_world s) (fun y => held s y + x y)
    (ic_pool _ _ Hi) (ic_world _ _ Hi)) as Hl. cbn in Hl. rewrite Hs in Hl.
  destruct Hl as (Hok & Hw & Hr).
  { intros y. pose proof (held_bound _ _ y Hi). specialize (Hx y). lia. }
  { done. }
  { intros y. rewrite (ic_balance _ _ Hi). lia. }
  destruct Hi. split; try done. intros y. cbn. rewrite Hr.
  change (held (set_world w' (set_pool p' s)) y) with (held s y). lia.
Qed.

Lemma inv_recv x s e bytes sums r sums' p' w' :
  inv_core x s -> (forall y, 0 <= x y <= 100) -> 0 < held s e + x e ->
  fe_recv e bytes sums (fs_pool s) (fs_world s) = (r, sums', p', w') ->
  inv_core x (set_world w' (set_pool p' s)).
Proof.
  intros Hi Hx He Hs.
  pose proof (fe_recv_law e bytes sums (fs_pool s) (fs_world s) (fun y => held s y + x y)
    (ic_pool _ _ Hi) (ic_world _ _ Hi)) as Hl. cbn in Hl. rewrite Hs in Hl.
  destruct Hl as (Hok & Hw & Hr).
  { intros y. pose proof (held_bound _ _ y Hi). specialize (Hx y). lia. }
  { done. }
  { intros y. rewrite (ic_balance _ _ Hi). lia. }
  destruct Hi. split; try done. intros y. cbn. rewrite Hr.
  change (held (set_world w' (set_pool p' s)) y) with (held s y). lia.
Qed.

End Laws.

(** Close a goal [inv_core x s] from [inv_core x' s] when [x] and [x'] are the
    same sums of indicators. *)
Ltac inv_balance H :=
  eapply inv_ext; [|exact H];
  let y := fresh in intros y; cbn; unfold ind;
  repeat case_bool_decide; simplify_eq; try congruence; lia.

End FecInv.
