(* ===== verification/FecBufferSpec.v ===== *)
(** * Correctness of the receive cache

    Every operation of [Fec2Buffer] is fault-free, keeps the reference balance
    and the packet counter, and changes nothing but the cache it works on. *)
From S2P Require Import Prelude PoolInterface FecState FecBuffer FecInv.
Export FecInv FecBuffer.

Module FecBufferSpec.

Section Spec.
Context {P E W : Type} `{Countable E} `{!PackPool P E} `{!FecEnv P E W}.
Context `{!PackPoolLaws P E} `{!FecEnvLaws P E W}.
Implicit Types (s : FecSt P E W) (e : E) (x : E -> Z).

(** [s'] differs from [s] in the pool and in the cache [b] only. *)
Definition only_fbuf (b : BufLoc) s s' : Prop :=
  s' = set_fbuf b (fbuf_of b s') (set_pool (fs_pool s') s).

Lemma only_fbuf_refl b s : only_fbuf b s s.
Proof. unfold only_fbuf. by destruct b, s. Qed.
Lemma only_fbuf_trans b s1 s2 s3 : only_fbuf b s1 s2 -> only_fbuf b s2 s3 -> only_fbuf b s1 s3.
Proof. unfold only_fbuf. intros -> ->. by destruct b. Qed.
Lemma only_fbuf_pool b p s : only_fbuf b s (set_pool p s).
Proof. unfold only_fbuf. by destruct b, s. Qed.
Lemma only_fbuf_set b f s : only_fbuf b s (set_fbuf b f s).
Proof. unfold only_fbuf. by destruct b. Qed.

(** ** Counting packets *)
Lemma occupied_insert (l : list (option E)) (i : nat) (o o' : option E) :
  l !! i = Some o ->
  occupied (<[i := o']> l) =
    occupied l - ind (some_b o) + ind (some_b o').
Proof.
  unfold occupied. revert i. induction l as [|a l IH]; intros [|i] Hi; try done; cbn in Hi.
  - simplify_eq. simpl. rewrite !filter_cons.
    destruct o, o'; repeat case_decide; cbn [length some_b ind]; try lia; exfalso;
      match goal with
      | Hs : is_Some None |- _ => by destruct Hs
      | Hs : ~ is_Some (Some _) |- _ => apply Hs; eauto
      end.
  - specialize (IH i Hi). simpl. rewrite !filter_cons. case_decide; cbn [length]; lia.
Qed.

Lemma occupied_nonneg (l : list (option E)) : 0 <= occupied l.
Proof. unfold occupied. lia. Qed.
Lemma occupied_le (l : list (option E)) : occupied l <= Z.of_nat (length l).
Proof. unfold occupied. pose proof (length_filter is_Some l). lia. Qed.

Lemma occupied_zero (l : list (option E)) (i : nat) (o : option E) : occupied l = 0 -> l !! i = Some o -> o = None.
Proof.
  intros Hz Hi. destruct o as [e|]; [|done].
  pose proof (occupied_insert l i (Some e) None Hi). pose proof (occupied_nonneg (<[i:=None]> l)). cbn in *. lia.
Qed.

(** ** The slots of a cache *)
Definition cache_at (b : BufLoc) (i : Z) s : option (option E) :=
  pack_cache (fbuf_of b s) !! Z.to_nat i.

Lemma cache_at_some x b i s : inv_core x s -> 0 <= i < 32 -> exists o, cache_at b i s = Some o.
Proof.
  intros Hi Hr. destruct (ic_cache x s Hi) as [H1 H2]. unfold cache_at.
  assert (Hl : length (pack_cache (fbuf_of b s)) = 32%nat) by (by destruct b).
  destruct (lookup_Z_range _ i 32 Hl ltac:(lia)) as [o Ho]. eauto.
Qed.

Lemma cache_free_inv x b i e s :
  inv_core x s -> cache_at b i s = Some (Some e) -> (forall y, 0 <= x y) ->
  inv_core x (upd_cache b i None (set_pool (pp_free e (fs_pool s)) s)).
Proof.
  intros Hi Hc Hx.
  assert (He : 0 < held s e + x e).
  { unfold held. pose proof (cache_held b _ s e Hc). pose proof (held_slots_nonneg s e). specialize (Hx e). lia. }
  pose proof (inv_free x s e Hi He) as Hf.
  assert (Hc' : pack_cache (fbuf_of b (set_pool (pp_free e (fs_pool s)) s)) !! Z.to_nat i = Some (Some e))
    by (by destruct b).
  pose proof (inv_cache _ _ b i (Some e) None Hc' ltac:(done) Hf) as Hg. inv_balance Hg.
Qed.

Lemma cache_free_pos x b i e s :
  inv_core x s -> cache_at b i s = Some (Some e) -> (forall y, 0 <= x y) -> 0 < pp_refs (fs_pool s) e.
Proof.
  intros Hi Hc Hx. apply (inv_refs_pos x); [done|]. unfold held.
  pose proof (cache_held b _ s e Hc). pose proof (held_slots_nonneg s e). specialize (Hx e). lia.
Qed.

Lemma wp_free_cache b i x s o :
  inv_core x s -> (forall y, 0 <= x y) -> 0 <= i -> cache_at b i s = Some o ->
  wp (free_cache b i) (fun r s' => inv_core x s' /\ only_fbuf b s s' /\
    r = some_b o /\
    pack_cache (fbuf_of b s') = <[Z.to_nat i := None]> (pack_cache (fbuf_of b s)) /\
    pack_num_in_cache (fbuf_of b s') = pack_num_in_cache (fbuf_of b s) /\
    max_cached_sn (fbuf_of b s') = max_cached_sn (fbuf_of b s)) s.
Proof.
  intros Hi Hx Hr Ho. unfold free_cache. wp_steps. eapply wp_get_cache; [done|exact Ho|].
  destruct o as [e|]; wp_steps.
  - wp_steps. apply wp_free; [by eapply cache_free_pos|]. wp_steps. apply wp_put_cache. wp_steps.
    split; [by apply cache_free_inv|]. split; [|by destruct b].
    eapply only_fbuf_trans; [apply only_fbuf_pool|apply only_fbuf_set].
  - split; [done|]. split; [apply only_fbuf_refl|]. split; [done|]. by rewrite list_insert_id.
Qed.

(** ** [PopPack(cache_pos)] *)
Lemma wp_PopPack b pos x s :
  inv_core x s -> (forall y, 0 <= x y) -> fbuf_ok (fbuf_of b s) -> 0 <= pos ->
  wp (PopPack b pos) (fun _ s' => inv_core x s' /\ only_fbuf b s s' /\ fbuf_ok (fbuf_of b s') /\
    pack_cache (fbuf_of b s') = <[Z.to_nat pos := None]> (pack_cache (fbuf_of b s)) /\
    max_cached_sn (fbuf_of b s') = max_cached_sn (fbuf_of b s)) s.
Proof.
  intros Hi Hx Hn Hp. unfold PopPack.
  assert (Hlen : length (pack_cache (fbuf_of b s)) = 32%nat) by (destruct (ic_cache x s Hi); by destruct b).
  wp_steps.
  { split; [done|]. split; [apply only_fbuf_refl|]. split; [done|]. split; [|done].
    symmetry. apply list_insert_ge. unfold MAX_FEC2_CACHE_CAPACITY in *. lia. }
  unfold MAX_FEC2_CACHE_CAPACITY in *.
  destruct (cache_at_some x b pos s Hi ltac:(lia)) as [o Ho].
  eapply wp_get_cache; [done|exact Ho|]. destruct o as [e|]; wp_steps.
  2:{ split; [done|]. split; [apply only_fbuf_refl|]. split; [done|]. by rewrite list_insert_id. }
  pose proof (occupied_insert _ _ _ None Ho) as Hocc. cbn in Hocc.
  pose proof (occupied_nonneg (<[Z.to_nat pos := None]> (pack_cache (fbuf_of b s)))) as Hnn.
  unfold fbuf_ok in Hn. unfold dec_num. wp_steps. apply wp_get_fbuf. wp_steps; [|lia].
  unfold put_num. wp_steps. apply wp_get_fbuf. apply wp_put_fbuf.
  set (s1 := set_fbuf b _ s).
  assert (Hi1 : inv_core x s1) by (eapply (inv_same x s); try done; by destruct b; try apply (ic_book _ _ Hi)).
  assert (Hc1 : cache_at b pos s1 = Some (Some e)) by (by destruct b).
  wp_steps. apply wp_free; [by eapply cache_free_pos|]. wp_steps. apply wp_put_cache.
  split; [by apply cache_free_inv|]. split.
  - eapply only_fbuf_trans; [apply only_fbuf_set|].
    eapply only_fbuf_trans; [apply only_fbuf_pool|apply only_fbuf_set].
  - unfold fbuf_ok. destruct b; cbn -[insert] in *; split; try done; lia.
Qed.

(** ** [PopAllPack] and [Clear] *)
Lemma occupied_all_none (l : list (option E)) :
  occupied l = 0 <-> forall i o, l !! i = Some o -> o = None.
Proof.
  split; [intros Hz i o; by apply occupied_zero|].
  unfold occupied. induction l as [|a l IH]; intros Hn; [done|].
  rewrite filter_cons. rewrite (Hn O a eq_refl). case_decide as Hs; [by destruct Hs|].
  apply IH. intros i. exact (Hn (S i)).
Qed.

Lemma fbuf_of_only_num b f s : pack_cache (fbuf_of b (set_fbuf b f s)) = pack_cache f.
Proof. by destruct b. Qed.

Lemma wp_put_num b n x s (Q : unit -> FecSt P E W -> Prop) :
  inv_core x s ->
  (forall s', inv_core x s' -> only_fbuf b s s' ->
     pack_cache (fbuf_of b s') = pack_cache (fbuf_of b s) ->
     pack_num_in_cache (fbuf_of b s') = n ->
     max_cached_sn (fbuf_of b s') = max_cached_sn (fbuf_of b s) -> Q tt s') ->
  wp (put_num b n) Q s.
Proof.
  intros Hi HQ. unfold put_num. wp_steps. apply wp_get_fbuf. apply wp_put_fbuf.
  apply HQ; [|apply only_fbuf_set|by destruct b..].
  apply (inv_same x s); try done; try (by destruct b). pose proof (ic_book _ _ Hi). by destruct b.
Qed.

Lemma wp_PopAllPack b x s :
  inv_core x s -> (forall y, 0 <= x y) -> fbuf_ok (fbuf_of b s) ->
  wp (PopAllPack b) (fun _ s' => inv_core x s' /\ only_fbuf b s s' /\ fbuf_ok (fbuf_of b s') /\
    occupied (pack_cache (fbuf_of b s')) = 0) s.
Proof.
  intros Hi Hx Hn. unfold PopAllPack. wp_steps. apply wp_get_fbuf. wp_steps.
  { split; [done|]. split; [apply only_fbuf_refl|]. split; [done|]. unfold fbuf_ok in Hn. lia. }
  eapply wp_mono.
  { apply (wp_for (fun k i s' => i = 32 - Z.of_nat k /\ (k <= 32)%nat /\ inv_core x s' /\ only_fbuf b s s' /\
      forall j o, pack_cache (fbuf_of b s') !! j = Some o -> Z.of_nat j < i -> o = None)).
    - change (Z.to_nat MAX_FEC2_CACHE_CAPACITY) with 32%nat.
      split; [done|]. split; [done|]. split; [done|]. split; [apply only_fbuf_refl|]. intros; lia.
    - intros k i s1 (-> & Hk & Hi1 & Hf1 & Hnone). wp_steps.
      destruct (cache_at_some x b (32 - Z.of_nat (S k)) s1 Hi1 ltac:(lia)) as [o Ho].
      wp_use wp_free_cache; [done|done|lia|exact Ho|].
      intros r s2 (Hi2 & Hf2 & _ & Hc & _). wp_steps.
      split; [lia|]. split; [lia|]. split; [done|]. split; [by eapply only_fbuf_trans|].
      intros j o'. rewrite Hc. intros Hj Hlt.
      destruct (decide (j = Z.to_nat (32 - Z.of_nat (S k)))) as [->|Hne].
      + apply list_lookup_insert_Some in Hj as [(_ & <- & _)|[? ?]]; done.
      + rewrite list_lookup_insert_ne in Hj by done. eapply Hnone; [done|lia]. }
  cbn. intros i s' (-> & _ & Hi' & Hf' & Hnone).
  apply (wp_put_num b 0 x); [done|]. intros s2 Hi2 Hf2 Hc Hnum _.
  assert (Hz : occupied (pack_cache (fbuf_of b s2)) = 0).
  { apply occupied_all_none. intros j o Hj. rewrite Hc in Hj. apply (Hnone j); [done|].
    apply lookup_lt_Some in Hj. destruct (ic_cache _ _ Hi'). destruct b; cbn in Hj; lia. }
  split; [done|]. split; [by eapply only_fbuf_trans|]. split; [|done]. unfold fbuf_ok. by rewrite Hnum, Hz.
Qed.

(** The distance covered by the do-while loop of [Clear]. *)
Definition clear_span (start_pos end_pos : Z) : Z :=
  if start_pos =? end_pos then 32 else (end_pos - start_pos) mod 32.

Definition cleared (start_pos k : Z) (l l' : list (option E)) : Prop :=
  length l' = length l /\
  forall j, l' !! j = if bool_decide ((Z.of_nat j - start_pos) mod 32 < k) && some_b (l !! j)
                      then Some None else l !! j.

Lemma cleared_step start k i (l l' : list (option E)) :
  length l = 32%nat -> 0 <= start < 32 -> 0 <= k -> i = (start + k) mod 32 ->
  cleared start k l l' -> cleared start (k + 1) l (<[Z.to_nat i := None]> l').
Proof.
  intros Hl Hs Hk -> (Hl' & Hc). split; [by rewrite length_insert|]. intros j.
  pose proof (Z.mod_pos_bound (start + k) 32 ltac:(lia)) as Hm.
  destruct (decide (j = Z.to_nat ((start + k) mod 32))) as [->|Hne].
  - assert (is_Some (l !! Z.to_nat ((start + k) mod 32))) as [o Ho] by (apply lookup_lt_is_Some_2; lia).
    rewrite list_lookup_insert_eq by lia. rewrite Ho. cbn [some_b]. rewrite andb_true_r.
    case_bool_decide as Hlt; [done|]. exfalso. apply Hlt.
    rewrite Z2Nat.id by lia. rewrite Zminus_mod_idemp_l.
    replace (start + k - start) with k by lia. pose proof (Z.mod_le k 32). lia.
  - rewrite list_lookup_insert_ne by done. rewrite Hc.
    destruct (l !! j) as [o|] eqn:Hj; cbn [some_b]; rewrite ?andb_false_r, ?andb_true_r; [|done].
    apply lookup_lt_Some in Hj.
    repeat case_bool_decide; try done; try lia. exfalso. apply Hne.
    assert (Hd : (Z.of_nat j - start) mod 32 = k) by lia.
    assert (Hk32 : k mod 32 = k) by (rewrite <- Hd; apply Z.mod_mod; lia).
    rewrite <- Hd, Zplus_mod_idemp_r. replace (start + (Z.of_nat j - start)) with (Z.of_nat j) by lia.
    rewrite Z.mod_small by lia. lia.
Qed.

Lemma wp_clear_round b x s i c :
  inv_core x s -> (forall y, 0 <= x y) -> 0 <= i < 32 ->
  wp (clear_round b (i, c)) (fun ic s' => inv_core x s' /\ only_fbuf b s s' /\
    ic.1 = (i + 1) mod 32 /\
    pack_cache (fbuf_of b s') = <[Z.to_nat i := None]> (pack_cache (fbuf_of b s)) /\
    ic.2 = c + (occupied (pack_cache (fbuf_of b s)) - occupied (pack_cache (fbuf_of b s'))) /\
    pack_num_in_cache (fbuf_of b s') = pack_num_in_cache (fbuf_of b s)) s.
Proof.
  intros Hi Hx Hr. unfold clear_round. wp_steps.
  destruct (cache_at_some x b i s Hi Hr) as [o Ho].
  wp_use wp_free_cache; [done|done|lia|exact Ho|].
  intros r s1 (Hi1 & Hf1 & -> & Hc & Hnum & _). wp_steps.
  split; [done|]. split; [done|]. split; [apply land_mask31|]. split; [done|]. split; [|done].
  cbn [snd]. rewrite Hc, (occupied_insert _ _ o None Ho). destruct o; cbn; lia.
Qed.

Lemma wp_Clear b start_pos end_pos x s :
  inv_core x s -> (forall y, 0 <= x y) -> fbuf_ok (fbuf_of b s) ->
  0 <= start_pos < 32 -> 0 <= end_pos < 32 ->
  wp (Clear b start_pos end_pos) (fun _ s' => inv_core x s' /\ only_fbuf b s s' /\ fbuf_ok (fbuf_of b s') /\
    cleared start_pos (clear_span start_pos end_pos + 1)
      (pack_cache (fbuf_of b s)) (pack_cache (fbuf_of b s'))) s.
Proof.
  intros Hi Hx Hn Hs He. unfold Clear.
  set (l := pack_cache (fbuf_of b s)). set (K := clear_span start_pos end_pos).
  assert (Hl : length l = 32%nat) by (destruct (ic_cache x s Hi); by destruct b).
  assert (HK : 1 <= K <= 32 /\ (start_pos + K) mod 32 = end_pos).
  { unfold K, clear_span. destruct (Z.eqb_spec start_pos end_pos) as [->|Hne].
    - split; [lia|]. replace (end_pos + 32) with (end_pos + 1 * 32) by lia. rewrite Z.mod_add by lia.
      apply Z.mod_small. lia.
    - pose proof (Z.mod_pos_bound (end_pos - start_pos) 32 ltac:(lia)).
      assert ((end_pos - start_pos) mod 32 <> 0).
      { intros Hz. apply Z.mod_divide in Hz as [q Hq]; [|lia]. lia. }
      split; [lia|]. rewrite Zplus_mod_idemp_r.
      replace (start_pos + (end_pos - start_pos)) with end_pos by lia. apply Z.mod_small. lia. }
  destruct HK as [HK HKe].
  assert (Hc0 : cleared start_pos 0 l l).
  { split; [done|]. intros j. rewrite bool_decide_false; [done|].
    pose proof (Z.mod_pos_bound (Z.of_nat j - start_pos) 32). lia. }
  set (I := fun (ic : Z * Z) s' => exists k, 1 <= k <= K /\ inv_core x s' /\ only_fbuf b s s' /\
    ic.1 = (start_pos + k) mod 32 /\ cleared start_pos k l (pack_cache (fbuf_of b s')) /\
    ic.2 = occupied l - occupied (pack_cache (fbuf_of b s')) /\
    pack_num_in_cache (fbuf_of b s') = pack_num_in_cache (fbuf_of b s)).
  wp_steps. wp_use wp_clear_round; [done|done|done|].
  intros ic0 s0 (Hi0 & Hf0 & Hfst & Hc & Hcnt & Hnum). wp_steps.
  eapply wp_mono.
  { apply (wp_while I (fun ic => Z.to_nat (K - (ic.1 - start_pos - 1) mod 32 - 1))).
    - exists 1. split; [lia|]. split; [done|]. split; [done|]. split; [done|]. split; [|split; [unfold l; lia|done]].
      rewrite Hc. apply (cleared_step start_pos 0 start_pos l); try done.
      rewrite Z.add_0_r. symmetry. apply Z.mod_small. lia.
    - change (Z.to_nat MAX_FEC2_CACHE_CAPACITY) with 32%nat.
      pose proof (Z.mod_pos_bound (ic0.1 - start_pos - 1) 32). lia.
    - intros [i c] s1 (k & Hk & Hi1 & Hf1 & Hik & Hck & Hcc & Hnk) Hcond. cbn [fst snd] in *.
      assert (k <> K) by (intros ->; rewrite HKe in Hik; subst i; by rewrite Z.eqb_refl in Hcond).
      assert (Hmu : forall q, 1 <= q <= 32 -> ((start_pos + q) mod 32 - start_pos - 1) mod 32 = q - 1).
      { intros q Hq. rewrite <- Z.sub_add_distr, Zminus_mod_idemp_l.
        replace (start_pos + q - (start_pos + 1)) with (q - 1) by lia. apply Z.mod_small. lia. }
      rewrite Hik, Hmu by lia. split; [lia|].
      pose proof (Z.mod_pos_bound (start_pos + k) 32 ltac:(lia)).
      wp_use wp_clear_round; [done|done|lia|].
      intros [i' c'] s2 (Hi2 & Hf2 & Hfst2 & Hc2 & Hcnt2 & Hnum2). cbn [fst snd] in *. subst i'.
      rewrite Zplus_mod_idemp_l, <- Z.add_assoc. split; [|rewrite Hmu by lia; lia].
      exists (k + 1). split; [lia|]. split; [done|]. split; [by eapply only_fbuf_trans|]. split; [done|].
      split; [|split; [cbn; lia|congruence]]. rewrite Hc2. apply cleared_step; try done; lia. }
  cbn beta. intros [i c] s1 [(k & Hk & Hi1 & Hf1 & Hik & Hck & Hcc & Hnk) Hcond]. cbn [fst snd] in *.
  assert (i = end_pos) as -> by (destruct (Z.eqb_spec end_pos i); [done|by cbn in Hcond]).
  assert (k = K) as ->.
  { pose proof (Z.mod_pos_bound (start_pos + K) 32 ltac:(lia)).
    assert (Hd : ((start_pos + K) - (start_pos + k)) mod 32 = 0).
    { rewrite <- Zminus_mod_idemp_l, <- Zminus_mod_idemp_r, HKe, <- Hik, Z.sub_diag. done. }
    apply Z.mod_divide in Hd as [q Hq]; [|lia]. lia. }
  wp_steps. destruct (cache_at_some x b end_pos s1 Hi1 He) as [o Ho].
  wp_use wp_free_cache; [done|done|lia|exact Ho|].
  intros r s2 (Hi2 & Hf2 & -> & Hc2 & Hn2 & _). wp_steps. apply wp_get_fbuf.
  apply (wp_put_num b _ x); [done|]. intros s3 Hi3 Hf3 Hc3 Hn3 _.
  split; [done|]. split; [by eapply only_fbuf_trans, only_fbuf_trans|].
  pose proof (occupied_insert _ _ o None Ho) as Hocc.
  pose proof (occupied_nonneg (<[Z.to_nat end_pos:=None]> (pack_cache (fbuf_of b s1)))) as Hnn.
  split.
  - unfold fbuf_ok in *. rewrite Hn3, Hc3, Hc2, Hocc, Hn2, Hnk, Hn. fold l.
    destruct o; cbn [some_b ind]; rewrite (proj2 (Z.leb_le _ _)); cbn [some_b ind] in Hocc; lia.
  - rewrite Hc3, Hc2. apply cleared_step; try done; lia.
Qed.

(** ** [PushPack] *)
Definition new_max_sn (max sn : Z) : Z :=
  if max <=? sn then sn
  else if u32 (U32_MAX - max + sn) <=? MAX_FEC2_CACHE_CAPACITY then sn else max.

Lemma wp_put_max b n x s (Q : unit -> FecSt P E W -> Prop) :
  inv_core x s ->
  (forall s', inv_core x s' -> only_fbuf b s s' ->
     pack_cache (fbuf_of b s') = pack_cache (fbuf_of b s) ->
     pack_num_in_cache (fbuf_of b s') = pack_num_in_cache (fbuf_of b s) ->
     max_cached_sn (fbuf_of b s') = n -> Q tt s') ->
  wp (put_max_sn b n) Q s.
Proof.
  intros Hi HQ. unfold put_max_sn. wp_steps. apply wp_get_fbuf. apply wp_put_fbuf.
  apply HQ; [|apply only_fbuf_set|by destruct b..].
  apply (inv_same x s); try done; try (by destruct b). pose proof (ic_book _ _ Hi). by destruct b.
Qed.

Lemma wp_push_slot b e pos sn x s :
  inv_core x s -> (forall y, 0 <= x y) -> 0 < x e -> (exists m, fs_mem s !! e = Some m /\ payload_len m < 8192) ->
  fbuf_ok (fbuf_of b s) -> 0 <= pos < 32 ->
  wp (push_slot b e pos sn) (fun _ s' =>
    inv_core (fun y => x y - ind (bool_decide (y = e))) s' /\ only_fbuf b s s' /\ fbuf_ok (fbuf_of b s') /\
    pack_cache (fbuf_of b s') = <[Z.to_nat pos := Some e]> (pack_cache (fbuf_of b s)) /\
    max_cached_sn (fbuf_of b s') = new_max_sn (max_cached_sn (fbuf_of b s)) sn) s.
Proof.
  intros Hi Hx Hxe Hm Hn Hp. unfold push_slot.
  destruct (cache_at_some x b pos s Hi Hp) as [o Ho].
  assert (Hlen : length (pack_cache (fbuf_of b s)) = 32%nat) by (destruct (ic_cache x s Hi); by destruct b).
  wp_steps. eapply wp_get_cache; [lia|exact Ho|]. wp_steps.
  pose proof (occupied_insert _ _ o (Some e) Ho) as Hocc. cbn [some_b ind] in Hocc.
  (* the state after the first half: the old packet is released or the counter grows *)
  set (x1 := fun y => x y - ind (bool_decide (o = Some y))).
  eapply (wp_mono _ (fun _ s1 => inv_core x1 s1 /\ only_fbuf b s s1 /\
    pack_cache (fbuf_of b s1) = pack_cache (fbuf_of b s) /\
    pack_num_in_cache (fbuf_of b s1) = pack_num_in_cache (fbuf_of b s) + 1 - ind (some_b o) /\
    max_cached_sn (fbuf_of b s1) = max_cached_sn (fbuf_of b s))).
  { destruct o as [old|]; unfold x1; cbn [some_b ind].
    - apply wp_free; [by eapply cache_free_pos|].
      split; [|split; [apply only_fbuf_pool|destruct b; cbn; repeat split; lia]].
      assert (Hold : 0 < held s old + x old).
      { unfold held. pose proof (cache_held b _ s old Ho). pose proof (held_slots_nonneg s old).
        specialize (Hx old). lia. }
      pose proof (inv_free x s old Hi Hold) as Hf. inv_balance Hf.
    - wp_steps. apply wp_get_fbuf. apply (wp_put_num b _ x); [done|].
      intros s1 Hi1 Hf1 Hc1 Hn1 Hm1. split; [inv_balance Hi1|]. split; [done|]. split; [done|]. split; [|done].
      rewrite Hn1. unfold fbuf_ok in Hn. rewrite Hn. pose proof (occupied_le (pack_cache (fbuf_of b s))).
      pose proof (occupied_nonneg (pack_cache (fbuf_of b s))). rewrite u32_small by lia. lia. }
  cbn beta. intros _ s1 (Hi1 & Hf1 & Hc1 & Hn1 & Hm1). wp_steps. apply wp_put_cache. wp_steps.
  assert (Hmem : fs_mem s1 = fs_mem s) by (rewrite Hf1; by destruct b).
  assert (Ho1 : pack_cache (fbuf_of b s1) !! Z.to_nat pos = Some o) by (by rewrite Hc1).
  assert (Hi2 : inv_core (fun y => x y - ind (bool_decide (y = e))) (upd_cache b pos (Some e) s1)).
  { assert (Hd : forall y, Some e = Some y -> exists m, fs_mem s1 !! y = Some m /\ payload_len m < 8192) by (intros y [= <-]; by rewrite Hmem).
    pose proof (inv_cache x1 s1 b pos o (Some e) Ho1 Hd Hi1) as Hj. unfold x1 in Hj. inv_balance Hj. }
  set (s2 := upd_cache b pos (Some e) s1) in *.
  assert (Hf2 : only_fbuf b s s2) by (eapply only_fbuf_trans; [done|apply only_fbuf_set]).
  assert (Hc2 : pack_cache (fbuf_of b s2) = <[Z.to_nat pos := Some e]> (pack_cache (fbuf_of b s)))
    by (rewrite <- Hc1; by destruct b).
  assert (Hn2 : fbuf_ok (fbuf_of b s2)).
  { unfold fbuf_ok in *. rewrite Hc2, Hocc.
    assert (pack_num_in_cache (fbuf_of b s2) = pack_num_in_cache (fbuf_of b s1)) as -> by (by destruct b). lia. }
  assert (Hm2 : max_cached_sn (fbuf_of b s2) = max_cached_sn (fbuf_of b s)) by (rewrite <- Hm1; by destruct b).
  apply wp_get_fbuf. rewrite Hm2. unfold new_max_sn. wp_steps;
    repeat match goal with Hq : (_ <=? _) = _ |- _ => rewrite Hq; clear Hq end;
    try (split; [done|]; split; [done|]; split; [done|]; split; [done|]; done);
    (eapply wp_put_max; [exact Hi2|]; intros s3 Hi3 Hf3 Hc3 Hn3 Hm3;
     split; [done|]; split; [by eapply only_fbuf_trans|];
     split; [unfold fbuf_ok in *; congruence|]; split; congruence).
Qed.

Lemma packet_size_range bytes : 0 <= packet_size bytes < 8192.
Proof. unfold packet_size. exact (get_bits_range _ 19 13 ltac:(lia) ltac:(lia)). Qed.

(** What [PushPack] writes next to the packet it caches in place. *)
Definition cached_buf (m : Buf) : Buf :=
  mkBuf (CalcPosInPackCache (packet_sn (payload m))) (packet_size (payload m)) (buf_data m).

Lemma payload_cached m : payload (cached_buf m) = payload m.
Proof. done. Qed.

Lemma wp_PushPack_inplace b e m x s :
  inv_core x s -> (forall y, 0 <= x y <= 100) -> fs_mem s !! e = Some m -> 0 < pp_refs (fs_pool s) e ->
  fbuf_ok (fbuf_of b s) ->
  wp (PushPack b e false) (fun r s' => r = Some e /\ inv_core x s' /\
    only_fbuf b (set_mem (<[e := cached_buf m]> (fs_mem s)) s) s' /\ fbuf_ok (fbuf_of b s') /\
    pack_cache (fbuf_of b s') =
      <[Z.to_nat (CalcPosInPackCache (packet_sn (payload m))) := Some e]> (pack_cache (fbuf_of b s)) /\
    max_cached_sn (fbuf_of b s') = new_max_sn (max_cached_sn (fbuf_of b s)) (packet_sn (payload m))) s.
Proof.
  intros Hi Hx Hm Hr Hn. unfold PushPack. wp_steps. eapply wp_get_buf; [done|]. wp_steps.
  apply wp_put_buf. fold (cached_buf m). set (s1 := set_mem _ s).
  assert (Hi1 : inv_core x s1).
  { apply inv_mem; [|intros _; apply packet_size_range|done]. intros Hh.
    destruct (ic_fec _ _ Hi e Hh) as (m' & f & Hm' & Hf). exists f. rewrite Hm in Hm'. by simplify_eq. }
  wp_steps. apply wp_addref; [done|]. set (s2 := set_pool _ s1).
  assert (Hi2 : inv_core (fun y => x y + ind (bool_decide (y = e))) s2).
  { apply (inv_addref x s1 e); [done|done|]. specialize (Hx e). lia. }
  wp_steps. wp_use wp_push_slot.
  - exact Hi2.
  - intros y. specialize (Hx y). unfold ind. case_bool_decide; lia.
  - cbn. rewrite bool_decide_true by done. specialize (Hx e). cbn. lia.
  - cbn. rewrite lookup_insert_eq. eexists. split; [done|]. apply packet_size_range.
  - by destruct b.
  - apply CalcPos_range.
  - cbn beta. intros _ s3 (Hi3 & Hf3 & Hn3 & Hc3 & Hm3). wp_steps.
    split; [done|]. split; [inv_balance Hi3|].
    split; [eapply only_fbuf_trans; [apply only_fbuf_pool|exact Hf3]|].
    split; [done|]. rewrite Hc3, Hm3. by destruct b.
Qed.

(** The buffer [PushPack] fills when it copies. *)
Definition copied_buf (m : Buf) : Buf :=
  mkBuf (CalcPosInPackCache (packet_sn (payload m))) (packet_size (payload m))
    (PackMem (mem_store (fp_code fe_junk) 0 (mem_load (Z.to_nat (packet_size (payload m))) (payload m) 0))).

Lemma wp_PushPack_copy b e m x s :
  inv_core x s -> (forall y, 0 <= x y <= 100) -> fs_mem s !! e = Some m -> fbuf_ok (fbuf_of b s) ->
  wp (PushPack b e true) (fun r s' => inv_core x s' /\ fbuf_ok (fbuf_of b s') /\
    match r with
    | None => only_fbuf b (count_refused s) s'
    | Some e' =>
        held s e' + x e' = 0 /\ only_fbuf b (set_mem (<[e' := copied_buf m]> (fs_mem s)) s) s' /\
        pack_cache (fbuf_of b s') =
          <[Z.to_nat (CalcPosInPackCache (packet_sn (payload m))) := Some e']> (pack_cache (fbuf_of b s))
    end) s.
Proof.
  intros Hi Hx Hm Hn. unfold PushPack. wp_steps. eapply wp_get_buf; [done|]. wp_steps.
  pose proof (packet_size_range (payload m)) as Hsz.
  destruct (mem_spec_fits (packet_size (payload m)) ltac:(lia)) as [Hspec _].
  assert (Hx0 : forall y, 0 <= x y) by (intros y; apply Hx).
  apply wp_malloc. intros r p' Hmal. wp_steps. destruct r as [[e' n]|]; cbn [some_b].
  2:{ wp_steps. split; [by eapply inv_malloc_none|]. split; [by destruct b|].
      apply (only_fbuf_pool b p' (count_refused s)). }
  destruct (inv_malloc_some _ _ _ _ _ _ Hi Hx0 Hspec Hmal) as (Hi1 & Hh0 & _).
  assert (Hxe : x e' = 0).
  { destruct (pp_malloc_some _ _ _ _ _ (ic_pool _ _ Hi) Hspec Hmal) as (_ & Hr0 & _).
    rewrite (ic_balance _ _ Hi) in Hr0. pose proof (ic_world _ _ Hi e'). specialize (Hx0 e'). lia. }
  wp_steps. apply wp_put_buf. fold (copied_buf m). set (s2 := set_mem _ _).
  assert (Hi2 : inv_core (fun y => x y + ind (bool_decide (y = e'))) s2).
  { apply inv_mem; [|intros _; apply packet_size_range|done]. destruct (held_not_slot s e' Hh0) as [Hs0 _].
    change (held_slots (set_pool p' s) e') with (held_slots s e'). lia. }
  wp_steps. wp_use wp_push_slot.
  - exact Hi2.
  - intros y. specialize (Hx0 y). unfold ind. case_bool_decide; lia.
  - cbn. rewrite bool_decide_true by done. cbn. lia.
  - cbn. rewrite lookup_insert_eq. eexists. split; [done|]. apply packet_size_range.
  - by destruct b.
  - apply CalcPos_range.
  - cbn beta. intros _ s3 (Hi3 & Hf3 & Hn3 & Hc3 & _). wp_steps.
    split; [inv_balance Hi3|]. split; [done|]. split; [lia|].
    split; [|rewrite Hc3; by destruct b].
    eapply only_fbuf_trans; [|exact Hf3]. unfold s2. apply (only_fbuf_pool b p' (set_mem _ s)).
Qed.

End Spec.
End FecBufferSpec.
