(* ===== verification/FecAbstract.v ===== *)
(** * What the encoder promises

    The abstract encoder: a block of packets is a grid, each line of the grid
    (row, column, rising and falling diagonal) collects the packets that fall
    in it, and a complete line leaves as one fec packet.  No memory, no pool,
    no bytes: the refinement theorem of FecEncodeRefine.v says that the engine
    implements exactly this. *)
From S2P Require Import Prelude XorCode PacketHeader FecGeometry.
Export XorCode PacketHeader FecGeometry.

Module FecAbstract.

(** The packets accumulated in a line: position in the line and bytes. *)
Definition line : Type := list (Z * list Z).
Definition line_bits (ps : line) : Z := foldl (fun b p => Z.lor b (u8 (Z.shiftl 1 p.1))) 0 ps.
Definition line_parity (ps : line) : list Z := parity (snd <$> ps).

(** The first [size] bytes of a packet. *)
Definition packet_bytes (data : list Z) (size : Z) : list Z := mem_load (Z.to_nat size) data 0.

(** What one packet does to its line: [ok] is false when no buffer could be
    had; the second component is the complete line that leaves, if any. *)
Definition line_put (restart last ok : bool) (p : Z * list Z) (ps : line) : line * list line :=
  let base := if restart then [] else ps in
  if ok then if last then ([], [base ++ [p]]) else (base ++ [p], [])
  else (base, []).

(** Where the packet at row [h] and column [v] of a block falls in direction
    [d]: the line, the position in it, and whether it opens and closes it. *)
Definition place (m : MatHeader) (d : Fec2CodeDir) (h v : Z) : option (Z * Z * bool * bool) :=
  let n := h_size m in
  match d with
  | kHorizontal => Some (h, v, v =? 0, n <=? v + 1)
  | kVertical => Some (v, h, h =? 0, v_size m <=? h + 1)
  | kUpHill =>
      if (1 <=? h + v) && (h + v <=? 2 * n - 3)
      then Some (h + v - 1, h, h =? Z.max 0 (h + v - n + 1), (h =? n - 1) || (v =? 0)) else None
  | kDownHill =>
      if (- (n - 1) <? h - v) && (h - v <? n - 1)
      then Some (h - v + n - 2, h, h =? Z.max 0 (h - v), (h =? n - 1) || (v =? v_size m - 1)) else None
  end.

Definition dir_flag (m : MatHeader) (d : Fec2CodeDir) : bool :=
  match d with
  | kHorizontal => h_flag m | kVertical => v_flag m | kUpHill => uh_flag m | kDownHill => dh_flag m
  end.

(** The lines of a block. *)
Definition lines : Type := Fec2CodeDir -> Z -> line.
Definition no_lines : lines := fun _ _ => [].
Definition lines_set (d : Fec2CodeDir) (i : Z) (ps : line) (L : lines) : lines :=
  fun d' i' => if bool_decide (d = d') && (i =? i') then ps else L d' i'.

(** A line as it leaves: the block's header, direction, index and members. *)
Definition sent_line : Type := MatHeader * Fec2CodeDir * Z * line.

Record AbsEnc := mkAbs {
  ab_hdr : MatHeader;
  ab_next_sn : Z;
  ab_book : Z;
  ab_lines : lines
}.

(** One direction of [BlockEncode]. *)
Definition abs_dir (ok : bool) (m : MatHeader) (d : Fec2CodeDir) (h v : Z) (data : list Z)
    (L : lines) : lines * list sent_line :=
  if dir_flag m d then
    match place m d h v with
    | None => (L, [])
    | Some (i, bitpos, restart, last) =>
        let (ps', out) := line_put restart last ok (bitpos, data) (L d i) in
        (lines_set d i ps' L, (fun ps => (m, d, i, ps)) <$> out)
    end
  else (L, []).

(** All four directions, in the code's order. *)
Definition abs_put (ok : Fec2CodeDir -> bool) (m : MatHeader) (pos : Z) (data : list Z)
    (L0 : lines) : lines * list sent_line :=
  let h := pos / h_size m in
  let v := pos mod h_size m in
  let (L1, o1) := abs_dir (ok kHorizontal) m kHorizontal h v data L0 in
  let (L2, o2) := abs_dir (ok kVertical) m kVertical h v data L1 in
  let (L3, o3) := abs_dir (ok kUpHill) m kUpHill h v data L2 in
  let (L4, o4) := abs_dir (ok kDownHill) m kDownHill h v data L3 in
  (L4, o1 ++ o2 ++ o3 ++ o4).

(** Abandoning the block: the unfinished lines leave as they are. *)
Definition flush_dir (m : MatHeader) (d : Fec2CodeDir) (n : nat) (L : lines) : list sent_line :=
  concat ((fun k => match L d (Z.of_nat k) with
                    | [] => []
                    | ps => [(m, d, Z.of_nat k, ps)]
                    end) <$> seq 0 n).
Definition dir_count (m : MatHeader) (d : Fec2CodeDir) : Z :=
  match d with kHorizontal => h_size m | kVertical => v_size m | kUpHill | kDownHill => MAX_FEC2_HILL_SIZE end.
Definition flush_flagged (m : MatHeader) (d : Fec2CodeDir) (L : lines) : list sent_line :=
  if dir_flag m d then flush_dir m d (Z.to_nat (dir_count m d)) L else [].

Definition book_header (id : Z) : option MatHeader :=
  b ← fec_mode_book !! Z.to_nat id; Some (mat_of_book false id b 0 0).

Definition abs_flush (send : bool) (a : AbsEnc) : AbsEnc * list sent_line :=
  let m := ab_hdr a in
  (mkAbs (default m (book_header (ab_book a))) (ab_next_sn a) (ab_book a) no_lines,
   if send then flush_flagged m kHorizontal (ab_lines a) ++ flush_flagged m kVertical (ab_lines a) ++
                flush_flagged m kUpHill (ab_lines a) ++ flush_flagged m kDownHill (ab_lines a)
   else []).

(** A new block for the packet [sn]. *)
Definition abs_new_block (sn : Z) (a : AbsEnc) : AbsEnc * list sent_line :=
  let (a1, out) := abs_flush (delta_sn (start_pack_sn (ab_hdr a)) sn <=? MAX_FEC2_CACHE_CAPACITY) a in
  let m := ab_hdr a1 in
  let start := PackSnToStartSn sn (matrix_size m) in
  (mkAbs (mkMat true (code_book_id m) (matrix_size m) (mode m) (h_flag m) (v_flag m) (uh_flag m)
            (dh_flag m) (h_size m) (v_size m) start (CalcPosInPackCache start))
     (ab_next_sn a1) (ab_book a1) (ab_lines a1), out).

Definition needs_block (m : MatHeader) (sn : Z) : bool :=
  (sn mod matrix_size m =? 0) || negb (using_flag m) || (u32 (start_pack_sn m + matrix_size m) <=? sn).

Definition abs_block (ok : Fec2CodeDir -> bool) (sn : Z) (data : list Z) (a : AbsEnc) : AbsEnc * list sent_line :=
  let (a1, o1) := if needs_block (ab_hdr a) sn then abs_new_block sn a else (a, []) in
  let m := ab_hdr a1 in
  let (L, o2) := abs_put ok m (sn mod matrix_size m) data (ab_lines a1) in
  (mkAbs m (ab_next_sn a1) (ab_book a1) L, o1 ++ o2).

(** [Encode] *)
Definition abs_encode (ok : Fec2CodeDir -> bool) (sn : Z) (data : list Z) (a : AbsEnc) : AbsEnc * list sent_line :=
  let (a1, o1) := if ab_next_sn a =? sn then (a, [])
                  else abs_flush (delta_sn (ab_next_sn a) sn <=? MAX_FEC2_CACHE_CAPACITY) a in
  let a2 := mkAbs (ab_hdr a1) (u32 (sn + 1)) (ab_book a1) (ab_lines a1) in
  let (a3, o2) := abs_block ok sn data a2 in
  (a3, o1 ++ o2).

End FecAbstract.
