(* ===== verification/FecBlock.v ===== *)
(** * Whole blocks

    What the abstract encoder sends for a complete block: every row, column
    and diagonal of the code book exactly once, each with all its packets. *)
From S2P Require Import Prelude FecAbstract.
Export FecAbstract.

Module FecBlock.

(** A run of consecutive packets: their bytes, the first at [sn]. *)
Fixpoint abs_encode_run (sn : Z) (datas : list (list Z)) (a : AbsEnc) : AbsEnc * list sent_line :=
  match datas with
  | [] => (a, [])
  | data :: rest =>
      let (a1, o1) := abs_encode (fun _ => true) sn data a in
      let (a2, o2) := abs_encode_run (sn + 1) rest a1 in
      (a2, o1 ++ o2)
  end.

Definition all_dirs : list Fec2CodeDir := [kHorizontal; kVertical; kUpHill; kDownHill].

(** The packets of line [(d, i)] of a block, in order, with their positions. *)
Definition line_members (m : MatHeader) (d : Fec2CodeDir) (i : Z) (datas : list (list Z)) : line :=
  concat (imap (fun k data =>
    let pos := Z.of_nat k in
    match place m d (pos / h_size m) (pos mod h_size m) with
    | Some (i', bp, _, _) => if i =? i' then [(bp, data)] else []
    | None => []
    end) datas).

(** The lines of a block in the order in which their last packet comes. *)
Definition block_lines (m : MatHeader) (datas : list (list Z)) : list sent_line :=
  concat (imap (fun k _ =>
    let pos := Z.of_nat k in
    concat ((fun d =>
      if dir_flag m d then
        match place m d (pos / h_size m) (pos mod h_size m) with
        | Some (i, _, _, true) => [(m, d, i, line_members m d i datas)]
        | _ => []
        end
      else []) <$> all_dirs)) datas).

(** The packets of a block put one after the other. *)
Fixpoint put_run (m : MatHeader) (pos : Z) (datas : list (list Z)) (L : lines) : lines * list sent_line :=
  match datas with
  | [] => (L, [])
  | data :: rest =>
      let (L1, o1) := abs_put (fun _ => true) m pos data L in
      let (L2, o2) := put_run m (pos + 1) rest L1 in
      (L2, o1 ++ o2)
  end.

Definition block_header (id : Z) (b : GtpFec2Mode) (start : Z) : MatHeader :=
  mat_of_book true id b start (CalcPosInPackCache start).

(** All lines of the grid are empty. *)
Definition lines_empty (L : lines) : bool :=
  forallb (fun d => forallb (fun k => match L d (Z.of_nat k) with [] => true | _ => false end) (seq 0 5)) all_dirs.

Lemma list_explode {A} (l : list A) n :
  length l = S n -> exists a l', l = a :: l' /\ length l' = n.
Proof. destruct l as [|a l]; [done|]. intros [= <-]. eauto. Qed.

Ltac explode l H :=
  repeat (apply list_explode in H; let x := fresh "p" in destruct H as (x & ? & -> & H));
  apply nil_length_inv in H; subst.

(** A block of each code book, checked by evaluation with the packets left
    abstract. *)
Lemma put_run_block id b start datas :
  fec_mode_book !! Z.to_nat id = Some b -> 0 <= id -> Z.of_nat (length datas) = bk_block_size b ->
  let m := block_header id b start in
  lines_empty (put_run m 0 datas no_lines).1 = true /\
  (put_run m 0 datas no_lines).2 = block_lines m datas.
Proof.
  intros Hb Hid Hlen. unfold block_header. generalize (CalcPosInPackCache start) as pos. intros pos.
  destruct (book_cases id b Hb Hid) as [[-> ->]|[[-> ->]|[[-> ->]|[[-> ->]|[[-> ->]|[-> ->]]]]]];
    cbn [bk_block_size] in Hlen;
    match type of Hlen with _ = ?k => assert (H : length datas = Z.to_nat k) by lia end;
    cbn in H; clear Hlen Hb Hid; explode datas H; split; vm_compute; reflexivity.
Qed.

(** ** From the sequence numbers to the grid *)

(** The lines left over from earlier packets. *)
Definition leftovers (a : AbsEnc) : list sent_line := (abs_flush true a).2.

Lemma abs_flush_empty send a : ab_lines a = no_lines -> (abs_flush send a).2 = [].
Proof.
  intros HL. unfold abs_flush. cbn. destruct send; [|done]. rewrite HL.
  assert (Hf : forall d, flush_flagged (ab_hdr a) d no_lines = []).
  { intros d. unfold flush_flagged, flush_dir. destruct (dir_flag _ _); [|done].
    induction (seq 0 (Z.to_nat (dir_count (ab_hdr a) d))) as [|k l IH]; [done|]. exact IH. }
  by rewrite !Hf.
Qed.

Lemma abs_flush_out send a : (abs_flush send a).2 = if send then leftovers a else [].
Proof. unfold leftovers. by destruct send. Qed.

Section Run.
Variables (bid start : Z) (b : GtpFec2Mode).
Hypothesis Hbook : fec_mode_book !! Z.to_nat bid = Some b.
Hypothesis Hid : 0 <= bid.
Hypothesis Hstart : 0 <= start /\ start mod bk_block_size b = 0 /\ start + bk_block_size b < 2 ^ 32.

Local Abbreviation m := (block_header bid b start).

Lemma block_size_pos : 2 <= bk_block_size b <= 16.
Proof. destruct (book_cases bid b Hbook Hid) as [[_ ->]|[[_ ->]|[[_ ->]|[[_ ->]|[[_ ->]|[_ ->]]]]]]; cbn; lia. Qed.

Lemma start_aligned : PackSnToStartSn start (bk_block_size b) = start.
Proof.
  pose proof block_size_pos. destruct Hstart as (H0 & Hal & Hend).
  rewrite PackSnToStartSn_floor by lia. pose proof (Z.div_mod start (bk_block_size b) ltac:(lia)). lia.
Qed.

Lemma first_packet data a :
  ab_book a = bid -> (ab_next_sn a = start -> needs_block (ab_hdr a) start = true) ->
  exists o0, (o0 = [] \/ o0 = leftovers a) /\
    abs_encode (fun _ => true) start data a =
      (mkAbs m (start + 1) bid (abs_put (fun _ => true) m 0 data no_lines).1,
       o0 ++ (abs_put (fun _ => true) m 0 data no_lines).2).
Proof.
  intros Hb Hneed. pose proof block_size_pos as Hbs. destruct Hstart as (H0 & Hal & Hend).
  assert (Hu : u32 (start + 1) = start + 1) by (apply u32_small; lia).
  assert (Hhdr : book_header bid = Some (mat_of_book false bid b 0 0)) by (unfold book_header; by rewrite Hbook).
  (* a new block on a state whose book is [bid] *)
  assert (Hblock : forall a1, ab_book a1 = bid -> needs_block (ab_hdr a1) start = true ->
    abs_block (fun _ => true) start data a1 =
      (mkAbs m (ab_next_sn a1) bid (abs_put (fun _ => true) m 0 data no_lines).1,
       (abs_flush (delta_sn (start_pack_sn (ab_hdr a1)) start <=? MAX_FEC2_CACHE_CAPACITY) a1).2 ++
         (abs_put (fun _ => true) m 0 data no_lines).2)).
  { intros a1 Hb1 Hn1. unfold abs_block, abs_new_block. rewrite Hn1.
    destruct (abs_flush _ a1) as [a2 o2] eqn:Hfl. unfold abs_flush in Hfl. injection Hfl as <- <-.
    cbn [ab_hdr ab_next_sn ab_book ab_lines snd fst]. rewrite Hb1, Hhdr.
    cbn [from_option]. cbv [Datatypes.id].
    change (matrix_size (mat_of_book false bid b 0 0)) with (bk_block_size b). rewrite start_aligned.
    change (mkMat true _ _ _ _ _ _ _ _ _ start (CalcPosInPackCache start)) with m.
    change (matrix_size m) with (bk_block_size b).
    rewrite Hal. by destruct (abs_put (fun _ => true) m 0 data no_lines). }
  unfold abs_encode. destruct (Z.eqb_spec (ab_next_sn a) start) as [Heq|Hne].
  - rewrite Hblock by (cbn; auto). cbn [ab_next_sn app]. rewrite Hu. eexists. split; [|reflexivity].
    rewrite abs_flush_out. destruct (_ <=? _); [by right|by left].
  - destruct (abs_flush _ a) as [a1 o1] eqn:Hfl.
    assert (Ha1 : a1 = (abs_flush (delta_sn (ab_next_sn a) start <=? MAX_FEC2_CACHE_CAPACITY) a).1) by (by rewrite Hfl).
    assert (Ho1 : o1 = (abs_flush (delta_sn (ab_next_sn a) start <=? MAX_FEC2_CACHE_CAPACITY) a).2) by (by rewrite Hfl).
    rewrite Hblock.
    + cbn [ab_next_sn app]. rewrite Hu. rewrite abs_flush_empty by (by rewrite Ha1).
      exists o1. split; [|done]. rewrite Ho1, abs_flush_out. destruct (_ <=? _); [by right|by left].
    + rewrite Ha1. exact Hb.
    + rewrite Ha1. cbn [ab_hdr abs_flush fst]. rewrite Hb, Hhdr. cbn. unfold needs_block. cbn.
      by rewrite orb_true_r.
Qed.

Lemma next_packet k data a :
  0 < k < bk_block_size b -> ab_hdr a = m -> ab_next_sn a = start + k ->
  abs_encode (fun _ => true) (start + k) data a =
    (mkAbs m (start + k + 1) (ab_book a) (abs_put (fun _ => true) m k data (ab_lines a)).1,
     (abs_put (fun _ => true) m k data (ab_lines a)).2).
Proof.
  intros Hk Hh Hn. pose proof block_size_pos as Hbs. destruct Hstart as (H0 & Hal & Hend).
  unfold abs_encode. rewrite Hn, Z.eqb_refl. unfold abs_block. cbn [ab_hdr ab_lines ab_next_sn ab_book].
  rewrite Hh. assert (Hmod : (start + k) mod bk_block_size b = k).
  { rewrite <- Zplus_mod_idemp_l, Hal, Z.add_0_l. apply Z.mod_small. lia. }
  assert (Hneed : needs_block m (start + k) = false).
  { unfold needs_block. change (matrix_size m) with (bk_block_size b).
    change (using_flag m) with true. change (start_pack_sn m) with start. cbn [negb].
    rewrite Hmod, u32_small by lia. rewrite (proj2 (Z.eqb_neq k 0)) by lia.
    cbn [orb]. apply Z.leb_gt. lia. }
  rewrite Hneed. cbn beta iota zeta. cbn [ab_hdr ab_lines ab_next_sn ab_book].
  change (matrix_size m) with (bk_block_size b). rewrite Hmod, u32_small by lia.
  by destruct (abs_put (fun _ => true) _ k data (ab_lines a)).
Qed.

Lemma tail_packets datas k a :
  0 < k -> k + Z.of_nat (length datas) = bk_block_size b ->
  ab_hdr a = m -> ab_next_sn a = start + k ->
  abs_encode_run (start + k) datas a =
    (mkAbs m (start + bk_block_size b) (ab_book a) (put_run m k datas (ab_lines a)).1,
     (put_run m k datas (ab_lines a)).2).
Proof.
  revert k a. induction datas as [|data rest IH]; intros k a Hk Hlen Hh Hn; cbn [length] in Hlen.
  - assert (k = bk_block_size b) as <- by lia. cbn. destruct a; cbn in *. by subst.
  - cbn [abs_encode_run put_run]. rewrite (next_packet k data a) by lia || done.
    destruct (abs_put (fun _ => true) m k data (ab_lines a)) as [L1 o1]. cbn [fst snd].
    rewrite <- Z.add_assoc. rewrite IH by (cbn; done || lia). cbn [ab_lines ab_book].
    by destruct (put_run m (k + 1) rest L1).
Qed.

Lemma whole_block datas a :
  Z.of_nat (length datas) = bk_block_size b -> ab_book a = bid ->
  (ab_next_sn a = start -> needs_block (ab_hdr a) start = true) ->
  exists o0 L, (o0 = [] \/ o0 = leftovers a) /\ lines_empty L = true /\
    abs_encode_run start datas a =
      (mkAbs m (start + bk_block_size b) bid L, o0 ++ block_lines m datas).
Proof.
  intros Hlen Hb Hneed. pose proof block_size_pos as Hbs.
  destruct (put_run_block bid b start datas Hbook Hid Hlen) as [Hempty Hout].
  destruct datas as [|data rest]; cbn [length] in Hlen; [lia|].
  destruct (first_packet data a Hb Hneed) as (o0 & Ho0 & Hfirst).
  cbn [put_run] in Hempty, Hout. destruct (abs_put (fun _ => true) m 0 data no_lines) as [L1 o1] eqn:Hput.
  cbn [fst snd] in Hfirst.
  cbn [abs_encode_run]. rewrite Hfirst. rewrite tail_packets by (cbn; done || lia). cbn [ab_lines ab_book].
  change (0 + 1) with 1 in *. destruct (put_run m 1 rest L1) as [L2 o2] eqn:Hrun. cbn [fst snd] in *.
  exists o0, L2. split; [done|]. split; [done|]. by rewrite <- app_assoc, Hout.
Qed.
End Run.

End FecBlock.
