(* ===== verification/FecEncode.v ===== *)
(** * The encoder of the fec engine

    [Fec2EnDeCodeMatrix::Init/Clear] (src/src/utils/goodtp_comstruct.h) and the
    sending half of [GtpFec2] (src/src/fec2/goodtp_fec2.cpp): packets enter
    [Encode] in sequence number order and each line of the block they fall in
    (row, column, diagonals, as the code book asks) accumulates their parity,
    which leaves as a fec packet when the line is complete or abandoned. *)
From S2P Require Import Prelude PoolInterface FecState FecBuffer.
Export FecBuffer.

Module FecEncode.

(** ** Initial objects *)
Section Objects.
Context {P E W : Type} `{Countable E} `{!PackPool P E}.

Definition null_mgr : Fec2CodePackMgr E := mkMgr None 0.

(** The constructor [_Fec2EnDeCodeMatrix(code_book, code_book_id)]. *)
Definition matrix_ctor (id : Z) (b : GtpFec2Mode) : Matrix E :=
  mkMatrix (mat_of_book false id b 0 0)
    (replicate 4 null_mgr) (replicate 4 null_mgr) (replicate 5 null_mgr) (replicate 5 null_mgr).

(** The constructor of [Fec2Buffer]. *)
Definition fbuf_ctor : Fec2Buffer E := mkFbuf (replicate 32 None) 0 0.

(** The constructor of [GtpFec2], with [SendFec2CodeMatrix] and
    [RecvFec2CodeMatrix]. *)
Definition fec2_ctor (p : P) (w : W) (mem : gmap E Buf) (pb : PbData) : FecSt P E W :=
  let b := mkMode kBlock true true false false 2 2 4 in
  mkFec p w mem DEFAULT_FEC2_BOOK_ID 0
    (matrix_ctor DEFAULT_FEC2_BOOK_ID b) fbuf_ctor
    (replicate 16 (matrix_ctor DEFAULT_FEC2_BOOK_ID b)) DEFAULT_FEC2_BOOK_ID fbuf_ctor 0 0 0 pb [] 0.
End Objects.

Section Encoder.
Context {P E W : Type} `{Countable E} `{!PackPool P E} `{!FecEnv P E W}.
Local Abbreviation M := (FM P E W).

(** [if (NULL != fec_pack_) { FreeTranBuf; fec_pack_ = NULL; alloc_cap_ = 0; }] *)
Definition free_slot (loc : MatLoc) (d : Fec2CodeDir) (i : Z) : M unit :=
  g ← get_slot loc d i;
  match fec_pack g with
  | Some e => _ ← FreeTranBuf e; put_slot loc d i (mkMgr None 0)
  | None => mret tt
  end.

(** [FreeTranBuf(fec_pack_); fec_pack_ = NULL;] of a slot that must not be empty. *)
Definition release_slot (loc : MatLoc) (d : Fec2CodeDir) (i : Z) : M unit :=
  g ← get_slot loc d i;
  e ← deref (fec_pack g);
  _ ← FreeTranBuf e; put_slot loc d i (mkMgr None (alloc_cap g)).

(** The loops shared by [Init(code_book, id, pool)] and [Clear(pool)]. *)
Definition free_lines (loc : MatLoc) : M unit :=
  _ ← for_up 4 (fun i => _ ← free_slot loc kHorizontal i; _ ← free_slot loc kVertical i; mret (i + 1)) 0;
  hdr ← get_hdr loc;
  when (uh_flag hdr || dh_flag hdr)
    (_ ← for_up 5 (fun i => _ ← free_slot loc kUpHill i; _ ← free_slot loc kDownHill i; mret (i + 1)) 0;
     mret tt).

(** [Fec2EnDeCodeMatrix::Init(code_book, code_book_id, pack_mem_pool)] *)
Definition MatrixInit (loc : MatLoc) (id : Z) : M unit :=
  _ ← free_lines loc;
  b ← deref (fec_mode_book !! Z.to_nat id);
  put_hdr loc (mat_of_book false id b 0 0).

(** [Fec2EnDeCodeMatrix::Clear(pack_mem_pool)] *)
Definition MatrixClear (loc : MatLoc) : M unit :=
  _ ← free_lines loc;
  hdr ← get_hdr loc;
  put_hdr loc (mkMat false (code_book_id hdr) (matrix_size hdr) (mode hdr) (h_flag hdr) (v_flag hdr)
    (uh_flag hdr) (dh_flag hdr) (h_size hdr) (v_size hdr) 0 0).

(** [SendFec2CodeMatrix::Init] *)
Definition SendInit : M unit :=
  _ ← Init EncBuf;
  hdr ← get_hdr EncMat;
  MatrixInit EncMat (code_book_id hdr).

(** [SendFec2CodeMatrix::ChangeFecMode] *)
Definition SendChangeFecMode (new_code_book_id : Z) : M unit :=
  hdr ← get_hdr EncMat;
  _ ← put_hdr EncMat (mkMat (using_flag hdr) (u8 new_code_book_id) (matrix_size hdr) (mode hdr)
        (h_flag hdr) (v_flag hdr) (uh_flag hdr) (dh_flag hdr) (h_size hdr) (v_size hdr)
        (start_pack_sn hdr) (start_pos hdr));
  SendInit.

(** [GtpFec2::ChangeFecMode] *)
Definition ChangeFecMode (new_code_book_id : Z) : M unit :=
  if MAX_VALID_FEC2_BOOK_ID <? new_code_book_id then mret tt
  else mod_st (set_using_book new_code_book_id).

(** The header [SendFecCodePacket] writes; [has_chg_zone] and [stream_type]
    keep what the buffer held. *)
Definition fec_header (pb : PbData) (f : Fec2CodePack) : PackHeader :=
  let h := fp_hdr f in
  mkHeader (CalcRightGtpVer GTP_VERSION (pb_peer_version pb)) GTP_PACKET_SIZE GTP_NO GTP_NO
    kGtpFecPackType (u16 (FEC2_CODE_PACK_SIZE + fp_code_len f) mod 2 ^ 13) (pack_sn h)
    GTP_NO GTP_NO GTP_NO GTP_NO 0 GTP_NO 0 (has_chg_zone h) (stream_type h).

Definition SendFecCodePacket (d : Fec2CodeDir) (i : Z) : M unit :=
  g ← get_slot EncMat d i;
  e ← deref (fec_pack g);
  f ← get_fec e;
  s ← get_st;
  let f' := mkCode (fec_header (fs_pb s) f) (fp_code_book_id f) (fp_encode_bit_map f)
    (fp_encode_dir f) (fp_encode_pos f) (fp_code_len f) (pb_stream_key (fs_pb s)) (fp_code f) in
  _ ← put_fec e f';
  _ ← mod_st (add_sent f');
  s ← get_st;
  let '(_, p, w) := fe_send e f' (fs_pool s) (fs_world s) in
  _ ← mod_st (fun s => set_world w (set_pool p s));
  release_slot EncMat d i.

(** The fec packet a line starts with: the first packet's bytes. *)
Definition start_code (hdr : MatHeader) (d : Fec2CodeDir) (i bitpos : Z)
    (data : list Z) (data_size : Z) (f : Fec2CodePack) : Fec2CodePack :=
  let h := fp_hdr f in
  mkCode
    (mkHeader (goodtp_ver h) (header_offset h) (cache_us_flag h) (has_loss_flag h) (pack_type h)
      (pack_size h) (start_pack_sn hdr) (has_check_flag h) (has_ts_flag h) (has_rtt_flag h)
      (init_flag h) (repeat_counter h) (is_qos_flg h) (share_zone h) (has_chg_zone h) (stream_type h))
    (code_book_id hdr) (u8 (Z.shiftl 1 bitpos)) (dir_to_Z d) (u8 i) (u16 data_size) (fp_stream_key f)
    (mem_store (fp_code f) 0 (mem_load (Z.to_nat data_size) data 0)).

(** One more packet in the line. *)
Definition add_code (bitpos : Z) (data : list Z) (data_size : Z) (f : Fec2CodePack) : Fec2CodePack :=
  let (code, size) := XorEncode fe_path data data_size (fp_code f) (fp_code_len f) in
  mkCode (fp_hdr f) (fp_code_book_id f) (Z.lor (fp_encode_bit_map f) (u8 (Z.shiftl 1 bitpos)))
    (fp_encode_dir f) (fp_encode_pos f) (u16 size) (fp_stream_key f) code.

(** [ReAllocateEncodeMem]: the code moves to a larger buffer; the result tells
    whether one was found. *)
Definition ReAllocateEncodeMem (new_size : Z) (d : Fec2CodeDir) (i : Z) : M bool :=
  r ← MallocTranBuf (GtpPackSizeToMemSpec new_size);
  match r with
  | None => mret false
  | Some (e', mem_size) =>
      g ← get_slot EncMat d i;
      e ← deref (fec_pack g);
      f ← get_fec e;
      _ ← put_buf e' (mkBuf 0 0 (FecMem
            (mkCode (fp_hdr f) (fp_code_book_id f) (fp_encode_bit_map f) (fp_encode_dir f)
               (fp_encode_pos f) (fp_code_len f) (fp_stream_key f)
               (mem_store (fp_code fe_junk) 0 (mem_load (Z.to_nat (fp_code_len f)) (fp_code f) 0)))));
      _ ← FreeTranBuf e;
      _ ← put_slot EncMat d i (mkMgr (Some e') mem_size);
      mret true
  end.

(** The part of the four encode functions after [<dir>_first_fec_encode_pos_]. *)
Definition first_encode (d : Fec2CodeDir) (i bitpos : Z) (data : list Z) (data_size : Z) : M bool :=
  r ← MallocTranBuf (GtpPackSizeToMemSpec data_size);
  match r with
  | None => mret false
  | Some (e, usable) =>
      hdr ← get_hdr EncMat;
      _ ← put_buf e (mkBuf 0 0 (FecMem (start_code hdr d i bitpos data data_size fe_junk)));
      _ ← put_slot EncMat d i (mkMgr (Some e) usable);
      mret true
  end.

(** The body the four encode functions have in common: the slot [i] of
    direction [d], the packet's position [bitpos] in its line, whether it is
    the line's first packet ([restart]) and its last one ([last]). *)
Definition EncodeLine (d : Fec2CodeDir) (i bitpos : Z) (restart last : bool)
    (data : list Z) (data_size : Z) : M unit :=
  g ← get_slot EncMat d i;
  ok ← match fec_pack g with
       | None => first_encode d i bitpos data data_size
       | Some e =>
           if restart then
             if data_size <=? alloc_cap g then
               hdr ← get_hdr EncMat;
               f ← get_fec e;
               _ ← put_fec e (start_code hdr d i bitpos data data_size f); mret true
             else
               _ ← release_slot EncMat d i;
               first_encode d i bitpos data data_size
           else
             fit ← (if data_size >? alloc_cap g then ReAllocateEncodeMem data_size d i else mret true);
             if fit : bool then
               g ← get_slot EncMat d i;
               e ← deref (fec_pack g);
               f ← get_fec e;
               _ ← put_fec e (add_code bitpos data data_size f); mret true
             else mret false
       end;
  when (ok && last) (SendFecCodePacket d i).

Definition HorizontalEncode (h_pos v_pos : Z) (data : list Z) (data_size : Z) : M unit :=
  hdr ← get_hdr EncMat;
  EncodeLine kHorizontal h_pos v_pos (v_pos =? 0) (h_size hdr <=? v_pos + 1) data data_size.

Definition VerticalEncode (h_pos v_pos : Z) (data : list Z) (data_size : Z) : M unit :=
  hdr ← get_hdr EncMat;
  EncodeLine kVertical v_pos h_pos (h_pos =? 0) (v_size hdr <=? h_pos + 1) data data_size.

Definition UphillEncode (h_pos v_pos : Z) (data : list Z) (data_size : Z) : M unit :=
  hdr ← get_hdr EncMat;
  let uh_sum := h_pos + v_pos in
  let uh_h_sz := h_size hdr in
  if (uh_sum <? 1) || (uh_sum >? 2 * uh_h_sz - 3) then mret tt
  else
    let uh_idx := u8 (uh_sum - 1) in
    let h_pos_start := u8 (if uh_sum >? uh_h_sz - 1 then uh_sum - uh_h_sz + 1 else 0) in
    EncodeLine kUpHill uh_idx h_pos (h_pos =? h_pos_start)
      ((u8 (uh_h_sz - 1) =? h_pos) || (v_pos =? 0)) data data_size.

Definition DownhillEncode (h_pos v_pos : Z) (data : list Z) (data_size : Z) : M unit :=
  hdr ← get_hdr EncMat;
  let dh_diff := h_pos - v_pos in
  let dh_h_sz := h_size hdr in
  if (dh_diff <=? - (dh_h_sz - 1)) || (dh_diff >=? dh_h_sz - 1) then mret tt
  else
    let dh_idx := u8 (dh_diff + dh_h_sz - 2) in
    let h_pos_start := u8 (if dh_diff >? 0 then dh_diff else 0) in
    EncodeLine kDownHill dh_idx h_pos (h_pos =? h_pos_start)
      ((u8 (dh_h_sz - 1) =? h_pos) || (u8 (v_size hdr - 1) =? v_pos)) data data_size.

(** One loop of [SetEmptyFecEnCode]: send what the first [n] lines hold. *)
Definition flush_lines (d : Fec2CodeDir) (n : Z) : M unit :=
  _ ← for_up (Z.to_nat n) (fun i =>
        g ← get_slot EncMat d i;
        _ ← match fec_pack g with
            | None => mret tt
            | Some e => f ← get_fec e;
                        when (negb (fp_encode_bit_map f =? 0)) (SendFecCodePacket d i)
            end;
        mret (i + 1)) 0;
  mret tt.

Definition SetEmptyFecEnCode (send_fec_pack_flag : bool) : M unit :=
  _ ← when send_fec_pack_flag (
        hdr ← get_hdr EncMat;
        _ ← when (h_flag hdr) (flush_lines kHorizontal (h_size hdr));
        _ ← when (v_flag hdr) (flush_lines kVertical (v_size hdr));
        _ ← when (uh_flag hdr) (flush_lines kUpHill MAX_FEC2_HILL_SIZE);
        when (dh_flag hdr) (flush_lines kDownHill MAX_FEC2_HILL_SIZE));
  s ← get_st;
  SendChangeFecMode (fs_using_book s).

(** The start of a new block in [BlockEncode]; the result is the packet's
    position in the (possibly changed) matrix. *)
Definition new_block (sn pos : Z) : M Z :=
  hdr ← get_hdr EncMat;
  let old_size := u8 (matrix_size hdr) in
  _ ← SetEmptyFecEnCode (delta_sn (start_pack_sn hdr) sn <=? MAX_FEC2_CACHE_CAPACITY);
  hdr ← get_hdr EncMat;
  let pos' := if negb (old_size =? u8 (matrix_size hdr))
              then CalcPackPosInMatrix (CalcPosInPackCache sn) (matrix_size hdr) else pos in
  let start := PackSnToStartSn sn (matrix_size hdr) in
  _ ← put_hdr EncMat (mkMat true (code_book_id hdr) (matrix_size hdr) (mode hdr) (h_flag hdr)
        (v_flag hdr) (uh_flag hdr) (dh_flag hdr) (h_size hdr) (v_size hdr) start
        (CalcPosInPackCache start));
  mret pos'.

(** The lines of the packet at [pos]. *)
Definition encode_lines (pos : Z) (pack : list Z) : M Z :=
  hdr ← get_hdr EncMat;
  let size := packet_size pack in
  let h_pos := CalcHorizontalEncodePos hdr pos in
  if h_pos =? INVALID_ENCODE_POS then mret GTP_OK
  else
    let v_pos := CalcVerticalEncodePos hdr pos in
    if v_pos =? INVALID_ENCODE_POS then mret GTP_OK
    else
      _ ← when (h_flag hdr) (HorizontalEncode h_pos v_pos pack size);
      _ ← when (v_flag hdr) (VerticalEncode h_pos v_pos pack size);
      _ ← when (uh_flag hdr) (UphillEncode h_pos v_pos pack size);
      _ ← when (dh_flag hdr) (DownhillEncode h_pos v_pos pack size);
      mret GTP_OK.

Definition BlockEncode (pack : list Z) : M Z :=
  hdr ← get_hdr EncMat;
  let sn := packet_sn pack in
  let pos := CalcPackPosInMatrix (CalcPosInPackCache sn) (matrix_size hdr) in
  pos' ← (if (pos =? 0) || negb (using_flag hdr) then new_block sn pos
          else if u32 (start_pack_sn hdr + matrix_size hdr) <=? sn then new_block sn pos
          else mret pos);
  encode_lines pos' pack.

(** The [try_again_encode_pos_] loop of [Encode]. *)
Fixpoint try_encode (fuel : nat) (pack : list Z) : M Z :=
  hdr ← get_hdr EncMat;
  if mode hdr =? kBlock then BlockEncode pack
  else if (mode hdr =? kConvolution) || (mode hdr =? kFountain) then mret GTP_OK
  else
    match fuel with
    | O => fault
    | S fuel' =>
        _ ← SendChangeFecMode DEFAULT_FEC2_BOOK_ID;
        _ ← mod_st (set_using_book DEFAULT_FEC2_BOOK_ID);
        try_encode fuel' pack
    end.

Definition Encode (pack : list Z) : M Z :=
  s ← get_st;
  let sn := packet_sn pack in
  _ ← when (negb (fs_next_sn s =? sn))
        (SetEmptyFecEnCode (delta_sn (fs_next_sn s) sn <=? MAX_FEC2_CACHE_CAPACITY));
  _ ← mod_st (set_next_sn (u32 (sn + 1)));
  try_encode 1 pack.

End Encoder.
End FecEncode.
