(* ===== verification/FecRefused.v ===== *)
(** * Refused allocations

    The engine counts the allocations the pool refused ([fs_refused]); no
    operation of the encoder takes one back.  So a run that ends with the
    counter it started with has had every buffer it asked for. *)
From S2P Require Import Prelude PoolInterface FecState FecBuffer FecEncode.
Export FecEncode.

Module FecRefused.

Section Refused.
Context {P E W : Type} `{Countable E} `{!PackPool P E} `{!FecEnv P E W}.
Local Abbreviation M := (FM P E W).

Definition mono {A} (m : M A) : Prop :=
  forall s a s', m s = Some (a, s') -> fs_refused s <= fs_refused s'.

Lemma mono_ret {A} (a : A) : mono (mret a).
Proof. intros s a' s' [= _ <-]. lia. Qed.
Lemma mono_fault {A} : mono (fault : M A).
Proof. by intros s a s'. Qed.
Lemma mono_get : mono get_st.
Proof. intros s a s' [= _ <-]. lia. Qed.
Lemma mono_deref {A} (o : option A) : mono (deref o).
Proof. intros s a s'. destruct o; [intros [= _ <-]; lia|done]. Qed.
Lemma mono_bind {A B} (m : M A) (f : A -> M B) : mono m -> (forall a, mono (f a)) -> mono (m ≫= f).
Proof.
  intros Hm Hf s b s'. unfold mbind, ST_bind. destruct (m s) as [[a s1]|] eqn:Hs; [|done].
  intros Hfa. specialize (Hm _ _ _ Hs). specialize (Hf _ _ _ _ Hfa). lia.
Qed.
Lemma mono_mod (f : FecSt P E W -> FecSt P E W) : (forall s, fs_refused s <= fs_refused (f s)) -> mono (mod_st f).
Proof. intros Hf s a s' [= _ <-]. apply Hf. Qed.
Lemma mono_when (b : bool) (m : M unit) : mono m -> mono (when b m).
Proof. intros Hm. destruct b; [done|apply mono_ret]. Qed.
Lemma mono_for {A} n (f : A -> M A) a : (forall a, mono (f a)) -> mono (for_up n f a).
Proof. intros Hf. revert a. induction n as [|n IH]; intros a; cbn; [apply mono_ret|by apply mono_bind]. Qed.

Lemma wp_with_mono {A} (m : M A) Q s :
  mono m -> wp m Q s -> wp m (fun a s' => Q a s' /\ fs_refused s <= fs_refused s') s.
Proof. unfold wp. intros Hm. destruct (m s) as [[a s']|] eqn:Hs; [|done]. intros HQ. split; [done|by eapply Hm]. Qed.
End Refused.

Create HintDb mono.
(** Goes through an operation: its primitives keep or count. *)
Ltac mono :=
  repeat first
    [ solve [auto with mono nocore] | apply mono_ret | apply mono_fault | apply mono_get | apply mono_deref
    | apply mono_bind; [|intros ?] | apply mono_when | apply mono_for; intros ?
    | apply mono_mod; intros ?; cbn; lia
    | progress cbn beta iota zeta
    | match goal with |- mono (match ?x with _ => _ end) => destruct x end
    | assumption ].

Section Encoder.
Context {P E W : Type} `{Countable E} `{!PackPool P E} `{!FecEnv P E W}.
Local Abbreviation mono := (mono (P := P) (E := E) (W := W)).

Lemma mono_get_mat loc : mono (get_mat loc).
Proof. unfold get_mat. mono. Qed.
Lemma mono_put_mat loc x : mono (put_mat loc x).
Proof. unfold put_mat. mono. Qed.
Lemma mono_get_slot loc d i : mono (get_slot loc d i).
Proof. unfold get_slot. mono; auto using mono_get_mat. Qed.
Lemma mono_put_slot loc d i x : mono (put_slot loc d i x).
Proof. unfold put_slot. mono; auto using mono_get_mat, mono_put_mat. Qed.
Lemma mono_get_hdr loc : mono (get_hdr loc).
Proof. unfold get_hdr. mono; auto using mono_get_mat. Qed.
Lemma mono_put_hdr loc h : mono (put_hdr loc h).
Proof. unfold put_hdr. mono; auto using mono_get_mat, mono_put_mat. Qed.
Lemma mono_get_buf e : mono (get_buf e).
Proof. unfold get_buf. mono. Qed.
Lemma mono_put_buf e b : mono (put_buf e b).
Proof. unfold put_buf. mono. Qed.
Lemma mono_get_fec e : mono (get_fec e).
Proof. unfold get_fec. mono; auto using mono_get_buf. Qed.
Lemma mono_put_fec e f : mono (put_fec e f).
Proof. unfold put_fec. mono; auto using mono_get_buf, mono_put_buf. Qed.
Lemma mono_free e : mono (FreeTranBuf e).
Proof. unfold FreeTranBuf. mono. Qed.
Lemma mono_malloc spec : mono (MallocTranBuf spec).
Proof. unfold MallocTranBuf. mono. apply mono_mod. intros s. destruct o; cbn; lia. Qed.
Lemma mono_fbuf b : mono (get_fbuf b).
Proof. unfold get_fbuf. mono. Qed.
Lemma mono_put_fbuf b x : mono (put_fbuf b x).
Proof. unfold put_fbuf. apply mono_mod. intros s. destruct b; cbn; lia. Qed.
End Encoder.

#[export] Hint Resolve mono_get_mat mono_put_mat mono_get_slot mono_put_slot mono_get_hdr mono_put_hdr
  mono_get_buf mono_put_buf mono_get_fec mono_put_fec mono_free mono_malloc mono_fbuf mono_put_fbuf : mono.

Section Operations.
Context {P E W : Type} `{Countable E} `{!PackPool P E} `{!FecEnv P E W}.
Local Abbreviation mono := (mono (P := P) (E := E) (W := W)).

Lemma mono_release loc d i : mono (release_slot loc d i).
Proof. unfold release_slot. mono. Qed.
Lemma mono_Send d i : mono (SendFecCodePacket d i).
Proof. unfold SendFecCodePacket. mono; auto using mono_release. Qed.
Lemma mono_first d i bp data size : mono (first_encode d i bp data size).
Proof. unfold first_encode. mono. Qed.
Lemma mono_realloc size d i : mono (ReAllocateEncodeMem size d i).
Proof. unfold ReAllocateEncodeMem. mono. Qed.
Lemma mono_EncodeLine d i bp r l data size : mono (EncodeLine d i bp r l data size).
Proof. unfold EncodeLine. mono; auto using mono_release, mono_Send, mono_first, mono_realloc. Qed.
Lemma mono_free_slot loc d i : mono (free_slot loc d i).
Proof. unfold free_slot. mono. Qed.
Lemma mono_free_lines loc : mono (free_lines loc).
Proof. unfold free_lines. mono; auto using mono_free_slot. Qed.
Lemma mono_MatrixInit loc id : mono (MatrixInit loc id).
Proof. unfold MatrixInit. mono; auto using mono_free_lines. Qed.
Lemma mono_free_cache b i : mono (free_cache b i).
Proof. unfold free_cache, get_cache, put_cache. mono. Qed.
Lemma mono_PopAllPack b : mono (PopAllPack b).
Proof. unfold PopAllPack, put_num, put_max_sn. mono; auto using mono_free_cache. Qed.
Lemma mono_SendChangeFecMode id : mono (SendChangeFecMode id).
Proof. unfold SendChangeFecMode, SendInit, Init. mono; auto using mono_PopAllPack, mono_MatrixInit. Qed.
Lemma mono_flush_lines d n : mono (flush_lines d n).
Proof. unfold flush_lines. mono; auto using mono_Send. Qed.
Lemma mono_SetEmpty send : mono (SetEmptyFecEnCode send).
Proof. unfold SetEmptyFecEnCode. mono; auto using mono_flush_lines, mono_SendChangeFecMode. Qed.
Lemma mono_new_block sn pos : mono (new_block sn pos).
Proof. unfold new_block. mono; auto using mono_SetEmpty. Qed.
End Operations.

End FecRefused.
