(* ===== verification/FecEncodeSpec.v ===== *)
(** * Correctness of the encoder

    Every operation of the sending half is fault-free and keeps the invariant;
    a line's buffer always holds the parity of exactly the packets its bitmap
    names, and that parity is what leaves the engine. *)
From S2P Require Import Prelude PoolInterface FecState FecBuffer FecInv FecBufferSpec FecAbstract FecEncode.
From S2P Require Import FecRefused.
Export FecBufferSpec FecEncode FecRefused FecAbstract.

Module FecEncodeSpec.

Section Spec.
Context {P E W : Type} `{Countable E} `{!PackPool P E} `{!FecEnv P E W}.
Context `{!PackPoolLaws P E} `{!FecEnvLaws P E W}.
Implicit Types (s : FecSt P E W) (m : Matrix E) (e : E) (x : E -> Z).

Definition x0 : E -> Z := fun _ => 0.

(** ** Slots *)
Lemma mat_of_len x loc s m : inv_core x s -> mat_of loc s = Some m -> mat_len m.
Proof.
  intros Hi Hm. destruct loc; cbn in Hm; simplify_eq; [apply (ic_enc _ _ Hi)|].
  destruct (ic_dec _ _ Hi) as [_ Hf]. by eapply Forall_lookup_1.
Qed.

Lemma mat_len_dir d m : mat_len m -> Z.of_nat (length (mx_dir d m)) = dir_len d.
Proof. intros (?&?&?&?). destruct d; cbn; lia. Qed.

Lemma slot_of_some x loc d i s m :
  inv_core x s -> mat_of loc s = Some m -> 0 <= i < dir_len d -> exists g, slot_of loc d i s = Some g.
Proof.
  intros Hi Hm Hr. pose proof (mat_len_dir d m (mat_of_len _ _ _ _ Hi Hm)) as Hl.
  assert (is_Some (mx_dir d m !! Z.to_nat i)) as [g Hg] by (apply lookup_lt_is_Some_2; lia).
  exists g. unfold slot_of. by rewrite Hm.
Qed.

Lemma slot_mat loc d i s g : slot_of loc d i s = Some g -> exists m, mat_of loc s = Some m /\ mx_dir d m !! Z.to_nat i = Some g.
Proof. unfold slot_of. intros Hs. by apply bind_Some in Hs. Qed.

Lemma mx_dir_upd_same d f m : mx_dir d (mx_upd d f m) = f (mx_dir d m).
Proof. by destruct d. Qed.
Lemma mx_dir_upd_other d d' f m : d <> d' -> mx_dir d' (mx_upd d f m) = mx_dir d' m.
Proof. by destruct d, d'. Qed.
Lemma mx_hdr_upd d f m : mx_hdr (mx_upd d f m) = mx_hdr m.
Proof. by destruct d. Qed.

Lemma mat_of_set loc m m' s : mat_of loc s = Some m -> mat_of loc (set_mat loc m' s) = Some m'.
Proof.
  destruct loc; cbn -[insert]; [done|]. intros Hm. apply list_lookup_insert_eq. by eapply lookup_lt_Some.
Qed.

Lemma mat_of_upd_slot loc d i g s m :
  mat_of loc s = Some m ->
  mat_of loc (upd_slot loc d i g s) = Some (mx_upd d (fun l => <[Z.to_nat i := g]> l) m).
Proof. intros Hm. unfold upd_slot. rewrite Hm. by eapply mat_of_set. Qed.

Lemma slot_of_upd_same loc d i g g' s :
  slot_of loc d i s = Some g -> slot_of loc d i (upd_slot loc d i g' s) = Some g'.
Proof.
  intros Hs. destruct (slot_mat _ _ _ _ _ Hs) as (m & Hm & Hg). unfold slot_of.
  rewrite (mat_of_upd_slot _ _ _ _ _ _ Hm). cbn -[insert]. rewrite mx_dir_upd_same.
  apply list_lookup_insert_eq. by eapply lookup_lt_Some.
Qed.

(** [s'] differs from [s] in the pool and the matrix [loc] only, whose header
    is unchanged and whose slots are unchanged or emptied. *)
Definition slots_sub (m' m : Matrix E) : Prop :=
  mx_hdr m' = mx_hdr m /\ (forall d, length (mx_dir d m') = length (mx_dir d m)) /\
  forall d i g', mx_dir d m' !! i = Some g' ->
    exists g, mx_dir d m !! i = Some g /\ (g' = g \/ fec_pack g' = None).

Lemma slots_sub_refl m : slots_sub m m.
Proof. split; [done|]. split; [done|]. eauto. Qed.
Lemma slots_sub_trans m1 m2 m3 : slots_sub m1 m2 -> slots_sub m2 m3 -> slots_sub m1 m3.
Proof.
  intros (H1 & Hl1 & Hs1) (H2 & Hl2 & Hs2). split; [congruence|].
  split; [intros d; by rewrite Hl1|]. intros d i g Hg.
  destruct (Hs1 _ _ _ Hg) as (g2 & Hg2 & Hd). destruct (Hs2 _ _ _ Hg2) as (g3 & Hg3 & Hd').
  exists g3. split; [done|]. destruct Hd as [->|]; [done|by right].
Qed.
Lemma slots_sub_none d i m c :
  slots_sub (mx_upd d (fun l => <[i := mkMgr None c]> l) m) m.
Proof.
  split; [apply mx_hdr_upd|]. split.
  { intros d'. destruct (decide (d = d')) as [<-|Hne];
      [by rewrite mx_dir_upd_same, length_insert|by rewrite mx_dir_upd_other]. }
  intros d' j g' Hg. destruct (decide (d = d')) as [<-|Hne].
  - rewrite mx_dir_upd_same in Hg. apply list_lookup_insert_Some in Hg as [(<- & <- & Hlt)|[? ?]]; [|eauto].
    destruct (lookup_lt_is_Some_2 _ _ Hlt) as [g Hg]. eauto.
  - rewrite mx_dir_upd_other in Hg by done. eauto.
Qed.

Definition only_mat (loc : MatLoc) s s' : Prop :=
  exists m m', mat_of loc s = Some m /\ mat_of loc s' = Some m' /\ slots_sub m' m /\
    s' = set_mat loc m' (set_pool (fs_pool s') s).

Lemma only_mat_refl loc s m : mat_of loc s = Some m -> only_mat loc s s.
Proof.
  intros Hm. exists m, m. split; [done|]. split; [done|]. split; [apply slots_sub_refl|].
  destruct loc; cbn -[insert] in *; [simplify_eq; by destruct s|].
  destruct s; cbn -[insert] in *. unfold set_dec; cbn -[insert]. by rewrite list_insert_id.
Qed.

Lemma only_mat_trans loc s1 s2 s3 : only_mat loc s1 s2 -> only_mat loc s2 s3 -> only_mat loc s1 s3.
Proof.
  intros (m & m' & Hm & Hm' & Hs & E1) (n & n' & Hn & Hn' & Hs' & E2).
  assert (n = m') as -> by congruence. exists m, n'. split; [done|]. split; [done|].
  split; [by eapply slots_sub_trans|]. rewrite E2, E1. destruct loc; cbn -[insert]; [done|].
  unfold set_dec, set_pool; cbn -[insert]. by rewrite list_insert_insert_eq.
Qed.

(** Releasing the buffer of a slot. *)
Lemma slot_free_pos x loc d i g e s :
  inv_core x s -> (forall y, 0 <= x y) -> slot_of loc d i s = Some g -> fec_pack g = Some e ->
  0 < held s e + x e.
Proof.
  intros Hi Hx Hs Hg. unfold held. pose proof (slot_held _ _ _ _ _ _ Hs Hg).
  pose proof (held_caches_nonneg s e). specialize (Hx e). lia.
Qed.

Lemma slot_free_inv x loc d i g e c s :
  inv_core x s -> (forall y, 0 <= x y) -> slot_of loc d i s = Some g -> fec_pack g = Some e ->
  inv_core x (upd_slot loc d i (mkMgr None c) (set_pool (pp_free e (fs_pool s)) s)) /\
  only_mat loc s (upd_slot loc d i (mkMgr None c) (set_pool (pp_free e (fs_pool s)) s)).
Proof.
  intros Hi Hx Hs Hg. pose proof (slot_free_pos _ _ _ _ _ _ _ Hi Hx Hs Hg) as He.
  pose proof (inv_free x s e Hi He) as Hf.
  set (s1 := set_pool (pp_free e (fs_pool s)) s) in *.
  assert (Hs1 : slot_of loc d i s1 = Some g) by (by destruct loc). split.
  - pose proof (inv_slot _ _ loc d i g (mkMgr None c) Hs1 ltac:(done) Hf) as Hj. cbn in Hj.
    rewrite Hg in Hj. inv_balance Hj.
  - destruct (slot_mat _ _ _ _ _ Hs) as (m & Hm & Hgm).
    assert (Hm1 : mat_of loc s1 = Some m) by (by destruct loc).
    exists m, (mx_upd d (fun l => <[Z.to_nat i := mkMgr None c]> l) m).
    split; [done|]. split; [by apply mat_of_upd_slot|]. split; [apply slots_sub_none|].
    unfold upd_slot. rewrite Hm1. by destruct loc.
Qed.

Lemma wp_free_slot loc d i x s g :
  inv_core x s -> (forall y, 0 <= x y) -> 0 <= i -> slot_of loc d i s = Some g ->
  wp (free_slot loc d i) (fun _ s' => inv_core x s' /\ only_mat loc s s' /\
    exists g', slot_of loc d i s' = Some g' /\ fec_pack g' = None) s.
Proof.
  intros Hi Hx Hr Hs. unfold free_slot. wp_steps. eapply wp_get_slot; [done|done|].
  destruct (fec_pack g) as [e|] eqn:Hg; wp_steps.
  - apply wp_free; [eapply inv_refs_pos; [done|by eapply slot_free_pos]|].
    set (s1 := set_pool _ s). assert (Hs1 : slot_of loc d i s1 = Some g) by (by destruct loc).
    eapply wp_put_slot; [exact Hs1|].
    destruct (slot_free_inv x loc d i g e 0 s Hi Hx Hs Hg) as [Hj Ho].
    split; [done|]. split; [done|]. eexists. split; [by eapply slot_of_upd_same|done].
  - destruct (slot_mat _ _ _ _ _ Hs) as (m & Hm & _).
    split; [done|]. split; [by eapply only_mat_refl|]. eauto.
Qed.

Lemma wp_release_slot loc d i x s g e :
  inv_core x s -> (forall y, 0 <= x y) -> 0 <= i -> slot_of loc d i s = Some g -> fec_pack g = Some e ->
  wp (release_slot loc d i) (fun _ s' => inv_core x s' /\ only_mat loc s s' /\
    slot_of loc d i s' = Some (mkMgr None (alloc_cap g)) /\
    s' = upd_slot loc d i (mkMgr None (alloc_cap g)) (set_pool (fs_pool s') s)) s.
Proof.
  intros Hi Hx Hr Hs Hg. unfold release_slot. wp_steps. eapply wp_get_slot; [done|done|]. wp_steps.
  eapply wp_deref; [done|]. wp_steps.
  apply wp_free; [eapply inv_refs_pos; [done|by eapply slot_free_pos]|]. wp_steps.
  set (s1 := set_pool _ s). assert (Hs1 : slot_of loc d i s1 = Some g) by (by destruct loc).
  eapply wp_put_slot; [exact Hs1|].
  destruct (slot_free_inv x loc d i g e (alloc_cap g) s Hi Hx Hs Hg) as [Hj Ho].
  split; [done|]. split; [done|]. split; [by eapply slot_of_upd_same|].
  destruct (slot_mat _ _ _ _ _ Hs1) as (m & Hm & _).
  assert (Hm' : forall p, mat_of loc (set_pool p s) = Some m) by (by destruct loc).
  unfold upd_slot. rewrite Hm, Hm'. by destruct loc.
Qed.

(** ** Changing one slot of the encoder *)

(** From [s] to [s'] only the pool, the world, the sent packets, the slot
    [(d, i)] of the encoder and buffers nobody else holds have changed. *)
Definition slot_change (d : Fec2CodeDir) (i : Z) s s' : Prop :=
  exists g g', slot_of EncMat d i s = Some g /\ 0 <= i /\
    s' = mkFec (fs_pool s') (fs_world s') (fs_mem s') (fs_using_book s) (fs_next_sn s)
      (mx_upd d (fun l => <[Z.to_nat i := g']> l) (fs_enc s)) (fs_enc_buf s) (fs_dec s) (fs_dec_book s)
      (fs_buf s) (fs_sucess_sum s) (fs_failed_sum s) (fs_repeat_sum s) (fs_pb s) (fs_sent s') (fs_refused s') /\
    (forall e, fec_pack g' = Some e -> fec_pack g = Some e \/ held s e = 0) /\
    (forall y, 0 < held s y -> fec_pack g <> Some y -> fs_mem s' !! y = fs_mem s !! y).

Lemma mx_upd_id d i g m : mx_dir d m !! i = Some g -> mx_upd d (fun l => <[i := g]> l) m = m.
Proof. intros Hg. destruct m, d; simpl in *; by rewrite list_insert_id. Qed.
Lemma mx_upd_twice d i g g' m :
  mx_upd d (fun l => <[i := g']> l) (mx_upd d (fun l => <[i := g]> l) m) = mx_upd d (fun l => <[i := g']> l) m.
Proof. destruct m, d; simpl; by rewrite list_insert_insert_eq. Qed.

Lemma slot_change_intro d i g s s' :
  slot_of EncMat d i s = Some g -> 0 <= i ->
  s' = mkFec (fs_pool s') (fs_world s') (fs_mem s') (fs_using_book s) (fs_next_sn s)
      (fs_enc s) (fs_enc_buf s) (fs_dec s) (fs_dec_book s)
      (fs_buf s) (fs_sucess_sum s) (fs_failed_sum s) (fs_repeat_sum s) (fs_pb s) (fs_sent s') (fs_refused s') ->
  (forall y, 0 < held s y -> fec_pack g <> Some y -> fs_mem s' !! y = fs_mem s !! y) ->
  slot_change d i s s'.
Proof.
  intros Hs Hi He Hm. exists g, g. split; [done|]. split; [done|]. split; [|by eauto].
  destruct (slot_mat _ _ _ _ _ Hs) as (m & [= <-] & Hg). by rewrite (mx_upd_id _ _ _ _ Hg).
Qed.

Lemma slot_change_refl d i g s : slot_of EncMat d i s = Some g -> 0 <= i -> slot_change d i s s.
Proof. intros Hs Hi. eapply slot_change_intro; [done|done|by destruct s|done]. Qed.

Lemma slot_change_held d i s s' y g g' :
  slot_of EncMat d i s = Some g ->
  s' = mkFec (fs_pool s') (fs_world s') (fs_mem s') (fs_using_book s) (fs_next_sn s)
      (mx_upd d (fun l => <[Z.to_nat i := g']> l) (fs_enc s)) (fs_enc_buf s) (fs_dec s) (fs_dec_book s)
      (fs_buf s) (fs_sucess_sum s) (fs_failed_sum s) (fs_repeat_sum s) (fs_pb s) (fs_sent s') (fs_refused s') ->
  held s' y = held s y - ind (bool_decide (fec_pack g = Some y)) + ind (bool_decide (fec_pack g' = Some y)).
Proof.
  intros Hs He. destruct (held_upd_slot EncMat d i g g' s y Hs) as [H1 H2].
  unfold held. rewrite He. unfold held_slots, held_caches in *. cbn -[insert] in *. lia.
Qed.

Lemma slot_change_trans d i s1 s2 s3 : slot_change d i s1 s2 -> slot_change d i s2 s3 -> slot_change d i s1 s3.
Proof.
  intros (g1 & g2 & Hs1 & Hi & E2 & Hf2 & Hm2) (g2' & g3 & Hs2 & _ & E3 & Hf3 & Hm3).
  pose proof (fun y => slot_change_held _ _ _ _ y _ _ Hs1 E2) as Hh.
  assert (g2' = g2) as ->.
  { rewrite E2 in Hs2. unfold slot_of in Hs2. cbn -[insert] in Hs2. rewrite mx_dir_upd_same in Hs2.
    destruct (slot_mat _ _ _ _ _ Hs1) as (m & [= <-] & Hg).
    rewrite list_lookup_insert_eq in Hs2 by (by eapply lookup_lt_Some). congruence. }
  exists g1, g3. split; [done|]. split; [done|]. split; [|split].
  - rewrite E3, E2. cbn -[insert]. by rewrite mx_upd_twice.
  - intros e He. specialize (Hh e). destruct (Hf3 e He) as [Hg2|H0].
    + auto.
    + destruct (decide (fec_pack g1 = Some e)); [by left|right].
      rewrite (bool_decide_false (fec_pack g1 = Some e)) in Hh by done.
      pose proof (held_slots_nonneg s1 e). pose proof (held_caches_nonneg s1 e).
      unfold ind in Hh. unfold held in *. case_bool_decide; lia.
  - intros y Hy Hg1. specialize (Hh y). rewrite (bool_decide_false (fec_pack g1 = Some y)) in Hh by done.
    rewrite Hm3; [by apply Hm2| |].
    + unfold ind in Hh. case_bool_decide; lia.
    + intros Hg2. destruct (Hf2 y Hg2) as [?|H0]; [done|lia].
Qed.

(** ** What a line of the encoder holds *)

(** The fec packet of line [(d, i)] of the block described by [hdr] covers
    exactly the packets [ps]. *)
Record code_holds (hdr : MatHeader) (d : Fec2CodeDir) (i : Z) (f : Fec2CodePack) (ps : line) : Prop := {
  ch_bits : fp_encode_bit_map f = line_bits ps;
  ch_len : fp_code_len f = Z.of_nat (length (line_parity ps));
  ch_code : mem_load (Z.to_nat (fp_code_len f)) (fp_code f) 0 = line_parity ps;
  ch_bytes : bytes_ok (fp_code f);
  ch_small : fp_code_len f < 8192;
  ch_dir : fp_encode_dir f = dir_to_Z d;
  ch_pos : fp_encode_pos f = i;
  ch_book : fp_code_book_id f = code_book_id hdr;
  ch_sn : pack_sn (fp_hdr f) = start_pack_sn hdr;
  ch_range : Forall (fun p => 0 <= p.1 < 8) ps
}.

Definition line_holds s (d : Fec2CodeDir) (i : Z) (ps : line) : Prop :=
  0 <= i /\ exists g, slot_of EncMat d i s = Some g /\
  match fec_pack g with
  | None => ps = []
  | Some e => ps <> [] /\ held s e = 1 /\ exists b f, fs_mem s !! e = Some b /\ buf_data b = FecMem f /\
      code_holds (mx_hdr (fs_enc s)) d i f ps /\ fp_code_len f <= alloc_cap g
  end.

Lemma slot_of_upd_other d i g d' i' s :
  (d, i) <> (d', i') -> 0 <= i -> 0 <= i' ->
  mx_dir d' (mx_upd d (fun l => <[Z.to_nat i := g]> l) (fs_enc s)) !! Z.to_nat i' =
    mx_dir d' (fs_enc s) !! Z.to_nat i'.
Proof.
  intros Hne Hi Hi'. destruct (decide (d = d')) as [<-|Hd].
  - rewrite mx_dir_upd_same. apply list_lookup_insert_ne. intros Heq. apply Hne. f_equal. lia.
  - by rewrite mx_dir_upd_other.
Qed.

(** Two slots never share a buffer whose reference count is one. *)
Lemma slot_unique d i d' i' g g' e s :
  (d, i) <> (d', i') -> 0 <= i -> 0 <= i' -> slot_of EncMat d i s = Some g -> slot_of EncMat d' i' s = Some g' ->
  fec_pack g' = Some e -> held s e = 1 -> fec_pack g <> Some e.
Proof.
  intros Hne Hi Hi' Hs Hs' He' Hh He.
  destruct (held_upd_slot EncMat d i g (mkMgr None 0) s e Hs) as [H1 H2].
  rewrite (bool_decide_true (fec_pack g = Some e)), bool_decide_false in H1 by done.
  assert (Hs2 : slot_of EncMat d' i' (upd_slot EncMat d i (mkMgr None 0) s) = Some g').
  { unfold slot_of, upd_slot. cbn -[insert]. rewrite slot_of_upd_other by done. exact Hs'. }
  pose proof (slot_held _ _ _ _ _ _ Hs2 He') as Hp. pose proof (held_caches_nonneg s e).
  unfold held in Hh. cbn [ind] in H1. lia.
Qed.

Lemma line_holds_other d i s s' d' i' ps :
  slot_change d i s s' -> (d, i) <> (d', i') -> line_holds s d' i' ps -> line_holds s' d' i' ps.
Proof.
  intros (g & g1 & Hs & Hi & Es & Hf & Hm) Hne [Hi' (g' & Hs' & Hp)]. split; [done|]. exists g'.
  split.
  { rewrite Es. unfold slot_of. cbn -[insert]. by rewrite slot_of_upd_other. }
  destruct (fec_pack g') as [e|] eqn:He; [|done].
  destruct Hp as (Hps & Hh & b & f & Hb & Hd & Hc & Hl).
  pose proof (slot_unique _ _ _ _ _ _ _ _ Hne Hi Hi' Hs Hs' He Hh) as Hu.
  pose proof (slot_change_held _ _ _ _ e _ _ Hs Es) as Hh'.
  rewrite (bool_decide_false (fec_pack g = Some e)) in Hh' by done.
  rewrite (bool_decide_false (fec_pack g1 = Some e)) in Hh'.
  2:{ intros Hg1. destruct (Hf e Hg1) as [?|?]; [done|lia]. }
  split; [done|]. split; [cbn [ind] in Hh'; lia|]. exists b, f. split; [by rewrite Hm; [|lia|done]|].
  split; [done|]. split; [|done]. rewrite Es. cbn -[insert]. by rewrite mx_hdr_upd.
Qed.

(** The result of a step on line [(d, i)]: the invariant, nothing else touched,
    and what the line holds now. *)
Definition line_step (d : Fec2CodeDir) (i : Z) (ps' : line) s s' : Prop :=
  inv_core x0 s' /\ slot_change d i s s' /\ line_holds s' d i ps'.

Lemma line_step_trans d i ps2 ps3 s1 s2 s3 :
  line_step d i ps2 s1 s2 -> line_step d i ps3 s2 s3 -> line_step d i ps3 s1 s3.
Proof. intros (_ & H1 & _) (? & H2 & ?). split; [done|]. split; [by eapply slot_change_trans|done]. Qed.

Lemma slot_change_hdr d i s s' : slot_change d i s s' -> mx_hdr (fs_enc s') = mx_hdr (fs_enc s).
Proof. intros (g & g' & _ & _ & -> & _). cbn. apply mx_hdr_upd. Qed.

Lemma line_holds_pos d i ps s : line_holds s d i ps -> 0 <= i.
Proof. by intros [? _]. Qed.

(** A slot just filled with the buffer [e]. *)
Lemma line_holds_new d i g e b f s ps :
  0 <= i -> slot_of EncMat d i s = Some g -> fec_pack g = Some e -> held s e = 1 ->
  fs_mem s !! e = Some b -> buf_data b = FecMem f -> ps <> [] ->
  code_holds (mx_hdr (fs_enc s)) d i f ps -> fp_code_len f <= alloc_cap g -> line_holds s d i ps.
Proof. intros ? Hs He. intros. split; [done|]. exists g. split; [done|]. rewrite He. eauto 10. Qed.

(** ** The steps of [EncodeLine] *)

Lemma packet_bytes_length data size : 0 <= size -> Z.of_nat (length (packet_bytes data size)) = size.
Proof. intros. unfold packet_bytes. rewrite mem_load_length. lia. Qed.

Lemma mem_load_stored (mm bs : list Z) : mem_load (length bs) (mem_store mm 0 bs) 0 = bs.
Proof.
  apply nth_eq_Z; rewrite mem_load_length; [done|]. intros i Hi. rewrite mem_load_byte by done.
  rewrite mem_byte_store. case_decide; [f_equal; lia|lia].
Qed.

Lemma start_code_holds hdr d i bitpos data size f :
  0 <= i < 5 -> 0 <= bitpos < 8 -> 0 <= size < 8192 -> bytes_ok data -> bytes_ok (fp_code f) ->
  0 <= start_pack_sn hdr -> code_holds hdr d i (start_code hdr d i bitpos data size f) [(bitpos, packet_bytes data size)].
Proof.
  intros Hi Hbp Hs Hd Hf Hsn.
  assert (Hp : line_parity [(bitpos, packet_bytes data size)] = packet_bytes data size).
  { unfold line_parity. cbn -[packet_bytes]. rewrite parity_cons, parity_nil. apply xor_pad_nil_r. }
  split; cbn -[packet_bytes line_parity mem_load mem_store]; rewrite ?Hp, ?packet_bytes_length by lia; try done.
  - apply u16_small. lia.
  - rewrite u16_small by lia. fold (packet_bytes data size).
    assert (Z.to_nat size = length (packet_bytes data size)) as ->
      by (unfold packet_bytes; by rewrite mem_load_length).
    apply mem_load_stored.
  - unfold packet_bytes. auto with udp.
  - rewrite u16_small by lia. lia.
  - apply u8_small. lia.
  - constructor; [done|constructor].
Qed.

Lemma line_parity_snoc ps bitpos bs : line_parity (ps ++ [(bitpos, bs)]) = xor_pad (line_parity ps) bs.
Proof. unfold line_parity. rewrite fmap_app. apply parity_snoc. Qed.

Lemma add_code_holds hdr d i bitpos data size f ps :
  0 <= bitpos < 8 -> 0 <= size < 8192 -> bytes_ok data -> code_holds hdr d i f ps ->
  code_holds hdr d i (add_code bitpos data size f) (ps ++ [(bitpos, packet_bytes data size)]) /\
  fp_code_len (add_code bitpos data size f) = Z.max size (fp_code_len f).
Proof.
  intros Hbp Hs Hd [Hb Hl Hc Hok Hsm Hdir Hpos Hbk Hsn Hrg]. unfold add_code.
  destruct (XorEncode fe_path data size (fp_code f) (fp_code_len f)) as [code' out] eqn:Hx.
  apply XorEncode_code in Hx as (-> & Hok' & Hload); [|lia|lia|done|done].
  assert (Hout : u16 (Z.max size (fp_code_len f)) = Z.max size (fp_code_len f)) by (apply u16_small; lia).
  split; [|exact Hout].
  split; cbn -[packet_bytes line_parity mem_load]; rewrite ?Hout, ?line_parity_snoc; try done.
  - unfold line_bits. rewrite foldl_app, Hb. done.
  - rewrite xor_pad_length. pose proof (packet_bytes_length data size). lia.
  - rewrite Hload, Hc. done.
  - lia.
  - apply Forall_app; split; [done|constructor; [done|constructor]].
Qed.

Lemma x0_nonneg y : 0 <= x0 y.
Proof. unfold x0. lia. Qed.

(** A fresh buffer takes the place of an empty slot. *)
Lemma wp_first_encode d i bitpos data size s :
  inv_core x0 s -> 0 <= i < dir_len d -> 0 <= bitpos < 8 -> 0 <= size < 8192 -> bytes_ok data ->
  0 <= start_pack_sn (mx_hdr (fs_enc s)) -> line_holds s d i [] ->
  wp (first_encode d i bitpos data size) (fun ok s' =>
    line_step d i (if ok then [(bitpos, packet_bytes data size)] else []) s s' /\ fs_sent s' = fs_sent s /\
    (ok = false -> fs_refused s < fs_refused s')) s.
Proof.
  intros Hi Hr Hbp Hsz Hd Hsn [H0 (g & Hg & Hg0)].
  assert (fec_pack g = None) as Hgn by (by destruct (fec_pack g); [destruct Hg0|]). clear Hg0.
  unfold first_encode.
  destruct (mem_spec_fits size ltac:(lia)) as [Hspec Hfit]. wp_steps. apply wp_malloc. intros r p' Hmal. wp_steps.
  destruct r as [[e usable]|]; cbn [some_b].
  2:{ wp_steps. split; [|split; [done|intros _; cbn; lia]]. split; [by eapply inv_malloc_none|]. split.
      - eapply slot_change_intro; [done|done|by destruct s|done].
      - split; [done|]. exists g. split; [done|]. by rewrite Hgn. }
  destruct (inv_malloc_some _ _ _ _ _ _ Hi x0_nonneg Hspec Hmal) as (Hi1 & Hh0 & Hus).
  wp_steps. eapply wp_get_hdr; [done|]. wp_steps. apply wp_put_buf. cbn [set_pool fs_enc mx_hdr].
  set (f := start_code _ d i bitpos data size fe_junk).
  assert (Hf : code_holds (mx_hdr (fs_enc s)) d i f [(bitpos, packet_bytes data size)]).
  { apply start_code_holds; try done; [|apply fe_junk_ok]. destruct d; cbn in Hr; lia. }
  set (s1 := set_mem _ _).
  assert (Hi2 : inv_core (fun y => x0 y + ind (bool_decide (y = e))) s1).
  { apply inv_mem; [by eauto|done|done]. }
  wp_steps. eapply wp_put_slot; [exact Hg|]. wp_steps. split; [|done].
  assert (Hh1 : forall y, held s1 y = held s y) by done.
  assert (Hmem : fs_mem s1 !! e = Some (mkBuf 0 0 (FecMem f))) by apply lookup_insert_eq.
  assert (Hsc : slot_change d i s (upd_slot EncMat d i (mkMgr (Some e) usable) s1)).
  { exists g, (mkMgr (Some e) usable). split; [done|]. split; [done|]. split; [done|]. split.
    - intros y [= <-]. by right.
    - intros y Hy _. cbn -[insert]. apply lookup_insert_ne. intros ->. lia. }
  split; [|split; [exact Hsc|]].
  - pose proof (inv_slot _ s1 EncMat d i g (mkMgr (Some e) usable) Hg
      ltac:(intros y [= <-]; eauto) Hi2) as Hj. cbn in Hj. rewrite Hgn in Hj. inv_balance Hj.
  - eapply line_holds_new; [done|by eapply slot_of_upd_same|done| |exact Hmem|done|done| |].
    + destruct (held_upd_slot EncMat d i g (mkMgr (Some e) usable) s1 e Hg) as [Ha Hb].
      rewrite Hgn, bool_decide_false, bool_decide_true in Ha by done. cbn [ind] in Ha.
      unfold held. unfold held in Hh0. rewrite Ha, Hb.
      change (held_slots s1 e) with (held_slots s e). change (held_caches s1 e) with (held_caches s e). lia.
    + unfold upd_slot. cbn -[insert]. by rewrite mx_hdr_upd.
    + rewrite (ch_len _ _ _ _ _ Hf). unfold line_parity. cbn -[packet_bytes].
      rewrite parity_cons, parity_nil, xor_pad_nil_r, packet_bytes_length by lia. lia.
Qed.

(** The code of an occupied slot is rewritten in place. *)
Lemma wp_put_code d i g e b f' ps' s :
  inv_core x0 s -> 0 <= i -> slot_of EncMat d i s = Some g -> fec_pack g = Some e -> held s e = 1 ->
  fs_mem s !! e = Some b -> ps' <> [] -> code_holds (mx_hdr (fs_enc s)) d i f' ps' ->
  fp_code_len f' <= alloc_cap g ->
  wp (put_fec e f') (fun _ s' => line_step d i ps' s s' /\ fs_sent s' = fs_sent s /\
    slot_of EncMat d i s' = Some g) s.
Proof.
  intros Hi H0 Hg He Hh Hb Hps Hf Hcap. eapply wp_put_fec; [done|]. set (b' := mkBuf _ _ _).
  split; [|by split]. split; [by apply inv_fec_mem|]. split.
  - eapply slot_change_intro; [done|done|by destruct s|]. intros y _ Hy. cbn.
    apply lookup_insert_ne. congruence.
  - eapply (line_holds_new d i g e b' f'); try done. apply lookup_insert_eq.
Qed.

(** [FreeTranBuf(fec_pack_); fec_pack_ = NULL;] on an occupied slot. *)
Lemma wp_release_line d i g e s :
  inv_core x0 s -> 0 <= i -> slot_of EncMat d i s = Some g -> fec_pack g = Some e ->
  wp (release_slot EncMat d i) (fun _ s' => line_step d i [] s s' /\ fs_sent s' = fs_sent s) s.
Proof.
  intros Hi H0 Hg He. wp_use wp_release_slot; [done|apply x0_nonneg|done|done|done|].
  intros _ s' (Hi' & _ & Hs' & Heq). rewrite Heq. split; [|done]. rewrite <- Heq. split; [done|]. split.
  - exists g, (mkMgr None (alloc_cap g)). split; [done|]. split; [done|]. split; [by rewrite Heq|].
    split; [done|]. intros y _ _. by rewrite Heq.
  - split; [done|]. eexists. split; [exact Hs'|done].
Qed.

Lemma line_holds_occupied d i ps g e s :
  line_holds s d i ps -> slot_of EncMat d i s = Some g -> fec_pack g = Some e ->
  ps <> [] /\ held s e = 1 /\ exists b f, fs_mem s !! e = Some b /\ buf_data b = FecMem f /\
      code_holds (mx_hdr (fs_enc s)) d i f ps /\ fp_code_len f <= alloc_cap g.
Proof. intros [_ (g' & Hg' & Hp)] Hg He. rewrite Hg in Hg'. simplify_eq. by rewrite He in Hp. Qed.

Lemma line_holds_empty d i ps g s :
  line_holds s d i ps -> slot_of EncMat d i s = Some g -> fec_pack g = None -> ps = [].
Proof. intros [_ (g' & Hg' & Hp)] Hg He. rewrite Hg in Hg'. simplify_eq. by rewrite He in Hp. Qed.

Lemma line_holds_slot d i ps s :
  line_holds s d i ps -> exists g, slot_of EncMat d i s = Some g.
Proof. intros [_ (g & Hg & _)]. eauto. Qed.

(** Moving the code to a larger buffer keeps what the line holds, and makes
    room for the packet. *)
Lemma wp_ReAllocate d i g e ps new_size s :
  inv_core x0 s -> line_holds s d i ps -> slot_of EncMat d i s = Some g -> fec_pack g = Some e ->
  alloc_cap g < new_size < 8192 ->
  wp (ReAllocateEncodeMem new_size d i) (fun ok s' => line_step d i ps s s' /\ fs_sent s' = fs_sent s /\
    (ok = true -> exists g' e', slot_of EncMat d i s' = Some g' /\ fec_pack g' = Some e' /\
       new_size <= alloc_cap g') /\ (ok = false -> fs_refused s < fs_refused s')) s.
Proof.
  intros Hi Hl Hg He Hsz. pose proof (line_holds_pos _ _ _ _ Hl) as H0.
  destruct (line_holds_occupied _ _ _ _ _ _ Hl Hg He) as (Hps & Hh & b & f & Hb & Hf & Hc & Hcap).
  unfold ReAllocateEncodeMem.
  pose proof (ch_len _ _ _ _ _ Hc) as Hlen.
  destruct (mem_spec_fits new_size ltac:(lia)) as [Hspec Hfit].
  wp_steps. apply wp_malloc. intros r p' Hmal. wp_steps.
  destruct r as [[e' mem_size]|]; cbn [some_b].
  2:{ wp_steps. split; [|split; [done|split; [done|intros _; cbn; lia]]].
      split; [by eapply inv_malloc_none|]. split; [|done].
      eapply slot_change_intro; [done|done|by destruct s|done]. }
  destruct (inv_malloc_some _ _ _ _ _ _ Hi x0_nonneg Hspec Hmal) as (Hi1 & Hh0 & Hus).
  assert (Hne : e' <> e) by (intros ->; lia).
  wp_steps. eapply wp_get_slot; [done|exact Hg|]. wp_steps. eapply wp_deref; [done|]. wp_steps.
  eapply wp_get_fec; [exact Hb|done|]. wp_steps. apply wp_put_buf.
  set (f' := mkCode _ _ _ _ _ _ _ _). set (s1 := set_mem _ _).
  assert (Hf' : code_holds (mx_hdr (fs_enc s)) d i f' ps).
  { destruct Hc as [? ? Hcode Hok ? ? ? ? ? ?]. split; try done; cbn -[mem_load mem_store].
    - rewrite <- Hcode. fold (packet_bytes (fp_code f) (fp_code_len f)).
      assert (Z.to_nat (fp_code_len f) = length (packet_bytes (fp_code f) (fp_code_len f))) as E1
        by (unfold packet_bytes; by rewrite mem_load_length).
      rewrite E1 at 1. apply mem_load_stored.
    - pose proof fe_junk_ok. auto with udp. }
  assert (Hi2 : inv_core (fun y => x0 y + ind (bool_decide (y = e'))) s1) by (apply inv_mem; [eauto|done|done]).
  assert (He1 : slot_of EncMat d i s1 = Some g) by exact Hg.
  assert (Hx1 : forall y, 0 <= x0 y + ind (bool_decide (y = e')))
    by (intros y; unfold x0, ind; case_bool_decide; lia).
  pose proof (slot_free_pos _ _ _ _ _ _ _ Hi2 Hx1 He1 He) as Hpos.
  wp_steps. apply wp_free; [exact (inv_refs_pos _ _ _ Hi2 Hpos)|]. wp_steps.
  set (s2 := set_pool _ s1).
  assert (Hi3 : inv_core (fun y => x0 y + ind (bool_decide (y = e')) - ind (bool_decide (y = e))) s2)
    by exact (inv_free _ _ _ Hi2 Hpos).
  eapply wp_put_slot; [exact Hg|]. wp_steps.
  assert (Hh1 : forall y, held s2 y = held s y) by done.
  assert (Hmem : fs_mem s2 !! e' = Some (mkBuf 0 0 (FecMem f'))) by apply lookup_insert_eq.
  assert (Hsc : slot_change d i s (upd_slot EncMat d i (mkMgr (Some e') mem_size) s2)).
  { exists g, (mkMgr (Some e') mem_size). split; [done|]. split; [done|]. split; [done|]. split.
    - intros y [= <-]. by right.
    - intros y Hy _. cbn -[insert]. apply lookup_insert_ne. intros ->. lia. }
  split; [split; [|split; [exact Hsc|]]|split; [done|split; [|done]]].
  - pose proof (inv_slot _ s2 EncMat d i g (mkMgr (Some e') mem_size) Hg
      ltac:(intros y [= <-]; eauto) Hi3) as Hj. cbn in Hj. rewrite He in Hj. inv_balance Hj.
  - eapply line_holds_new; [done|by eapply slot_of_upd_same|done| |exact Hmem|done|done| |].
    + destruct (held_upd_slot EncMat d i g (mkMgr (Some e') mem_size) s2 e' Hg) as [Ha Hb'].
      rewrite He, bool_decide_false, bool_decide_true in Ha by (done || congruence). cbn [ind] in Ha.
      unfold held. unfold held in Hh0. rewrite Ha, Hb'.
      change (held_slots s2 e') with (held_slots s e'). change (held_caches s2 e') with (held_caches s e'). lia.
    + unfold upd_slot. cbn -[insert]. by rewrite mx_hdr_upd.
    + cbn. lia.
  - intros _. eexists _, e'. split; [by eapply slot_of_upd_same|]. split; [done|]. cbn. lia.
Qed.

(** The fec packet handed to the peer for the line [(d, i)] with packets [ps]. *)
Record fec_sent (hdr : MatHeader) (pb : PbData) (d : Fec2CodeDir) (i : Z) (ps : line)
    (f : Fec2CodePack) : Prop := {
  st_code : code_holds hdr d i f ps;
  st_members : ps <> [];
  st_key : fp_stream_key f = pb_stream_key pb;
  st_type : pack_type (fp_hdr f) = kGtpFecPackType;
  st_size : pack_size (fp_hdr f) = (FEC2_CODE_PACK_SIZE + fp_code_len f) mod 2 ^ 13
}.

Lemma fec_sent_intro hdr pb d i ps f :
  ps <> [] -> code_holds hdr d i f ps ->
  fec_sent hdr pb d i ps (mkCode (fec_header pb f) (fp_code_book_id f) (fp_encode_bit_map f)
    (fp_encode_dir f) (fp_encode_pos f) (fp_code_len f) (pb_stream_key pb) (fp_code f)).
Proof.
  intros Hps Hc. split; [|done|done|done|].
  - by destruct Hc.
  - cbn [fp_hdr fec_header pack_size fp_code_len]. pose proof (ch_len _ _ _ _ _ Hc).
    pose proof (ch_small _ _ _ _ _ Hc). rewrite u16_small; [done|]. unfold FEC2_CODE_PACK_SIZE. lia.
Qed.

Lemma slot_change_world d i g p w s :
  slot_of EncMat d i s = Some g -> 0 <= i -> slot_change d i s (set_world w (set_pool p s)).
Proof. intros Hg H0. by eapply slot_change_intro. Qed.

Lemma wp_SendFecCodePacket d i ps g e s :
  inv_core x0 s -> line_holds s d i ps -> slot_of EncMat d i s = Some g -> fec_pack g = Some e ->
  wp (SendFecCodePacket d i) (fun _ s' => line_step d i [] s s' /\
    exists f, fs_sent s' = fs_sent s ++ [f] /\ fec_sent (mx_hdr (fs_enc s)) (fs_pb s) d i ps f) s.
Proof.
  intros Hi Hl Hg He. pose proof (line_holds_pos _ _ _ _ Hl) as H0.
  destruct (line_holds_occupied _ _ _ _ _ _ Hl Hg He) as (Hps & Hh & b & f & Hb & Hf & Hc & Hcap).
  pose proof (fec_sent_intro _ (fs_pb s) _ _ _ _ Hps Hc) as Hsent.
  unfold SendFecCodePacket. wp_steps. eapply wp_get_slot; [done|exact Hg|]. wp_steps.
  eapply wp_deref; [done|]. wp_steps. eapply wp_get_fec; [exact Hb|done|]. wp_steps.
  set (f' := mkCode _ _ _ _ _ _ _ _) in *.
  wp_use (wp_put_code d i g e b f' ps); try done; [apply Hsent|].
  intros _ s1 ((Hi1 & Hc1 & Hl1) & Hs1 & Hg1). wp_steps.
  assert (Hia : inv_core x0 (add_sent f' s1))
    by (apply (inv_same x0 s1); try done; apply (ic_book _ _ Hi1)).
  destruct (fe_send e f' (fs_pool (add_sent f' s1)) (fs_world (add_sent f' s1))) as [[r p'] w'] eqn:Hfe.
  wp_steps. set (s2 := set_world w' _).
  assert (Hi2 : inv_core x0 s2).
  { eapply inv_send; [exact Hia|intros y; unfold x0; lia| |exact Hfe].
    unfold x0. destruct (line_holds_occupied _ _ _ _ _ _ Hl1 Hg1 He) as (_ & Hh1 & _).
    change (held (add_sent f' s1) e) with (held s1 e). lia. }
  wp_use (wp_release_line d i g e); try done.
  intros _ s3 ((Hi3 & Hc3 & Hl3) & Hs3). split.
  - split; [done|]. split; [|done]. eapply slot_change_trans; [exact Hc1|].
    eapply slot_change_trans; [|exact Hc3]. by eapply slot_change_intro.
  - exists f'. split; [|done]. rewrite Hs3. cbn. by rewrite Hs1.
Qed.

(** ** [EncodeLine] *)

Definition sent_lines (d : Fec2CodeDir) (i : Z) (out : list line) s s' : Prop :=
  exists fs, fs_sent s' = fs_sent s ++ fs /\
    Forall2 (fec_sent (mx_hdr (fs_enc s)) (fs_pb s) d i) out fs.

Lemma sent_lines_nil d i s s' : fs_sent s' = fs_sent s -> sent_lines d i [] s s'.
Proof. intros Hs. exists []. by rewrite app_nil_r. Qed.

(** The accumulating half of [EncodeLine]. *)
Definition line_grown (d : Fec2CodeDir) (i : Z) (restart ok : bool) (p : Z * list Z) (ps : line) s s' : Prop :=
  exists ps1, line_step d i ps1 s s' /\ fs_sent s' = fs_sent s /\
    (ok = false -> fs_refused s < fs_refused s') /\
    let base := if restart then [] else ps in
    if ok then ps1 = base ++ [p] else ps1 = base.

Lemma wp_grow_line d i bitpos (restart : bool) data size ps g s :
  inv_core x0 s -> 0 <= i < dir_len d -> 0 <= bitpos < 8 -> 0 <= size < 8192 -> bytes_ok data ->
  0 <= start_pack_sn (mx_hdr (fs_enc s)) -> line_holds s d i ps -> slot_of EncMat d i s = Some g ->
  wp (match fec_pack g with
      | None => first_encode d i bitpos data size
      | Some e =>
          if restart then
            if size <=? alloc_cap g then
              hdr ← get_hdr EncMat;
              f ← get_fec e;
              _ ← put_fec e (start_code hdr d i bitpos data size f); mret true
            else
              _ ← release_slot EncMat d i;
              first_encode d i bitpos data size
          else
            fit ← (if size >? alloc_cap g then ReAllocateEncodeMem size d i else mret true);
            if fit : bool then
              g ← get_slot EncMat d i;
              e ← deref (fec_pack g);
              f ← get_fec e;
              _ ← put_fec e (add_code bitpos data size f); mret true
            else mret false
      end)
    (fun ok s' => line_grown d i restart ok (bitpos, packet_bytes data size) ps s s') s.
Proof.
  intros Hi Hr Hbp Hsz Hd Hsn Hl Hg. destruct (fec_pack g) as [e|] eqn:He.
  2:{ pose proof (line_holds_empty _ _ _ _ _ Hl Hg He) as ->.
      wp_use wp_first_encode; try done. intros ok s' (Hst & Hse & Hre). eexists. split; [exact Hst|].
      split; [done|]. split; [done|]. destruct restart, ok; cbn; auto. }
  destruct (line_holds_occupied _ _ _ _ _ _ Hl Hg He) as (Hps & Hh & b & f & Hb & Hf & Hc & Hcap).
  pose proof (ch_len _ _ _ _ _ Hc) as Hlen.
  destruct restart; [wp_steps|apply wp_bind].
  - eapply wp_get_hdr; [done|]. wp_steps. eapply wp_get_fec; [exact Hb|done|]. wp_steps.
    wp_use (wp_put_code d i g e b _ [(bitpos, packet_bytes data size)]);
      [done|lia|done|done|done|done|done| | |].
    + apply start_code_holds; try done; [destruct d; cbn in Hr; lia|apply Hc].
    + cbn. rewrite u16_small by lia. lia.
    + intros _ s' (Hst & Hse & _). wp_steps. eexists. split; [exact Hst|]. done.
  - wp_use (wp_with_mono _ _ _ (mono_release EncMat d i) (wp_release_line d i g e s Hi ltac:(lia) Hg He)).
    intros _ s1 ((Hst1 & Hse1) & Hre1).
    destruct Hst1 as (Hi1 & Hc1 & Hl1).
    wp_use wp_first_encode; try done; [by rewrite (slot_change_hdr _ _ _ _ Hc1)|].
    intros ok s' (Hst & Hse & Hre). eexists. split; [eapply line_step_trans; [by split|exact Hst]|].
    split; [congruence|]. split; [intros Hok; specialize (Hre Hok); lia|]. destruct ok; cbn; auto.
  - eapply (wp_mono _ (fun ok s1 => line_step d i ps s s1 /\ fs_sent s1 = fs_sent s /\
      (ok = true -> exists g' e', slot_of EncMat d i s1 = Some g' /\ fec_pack g' = Some e' /\
         size <= alloc_cap g') /\ (ok = false -> fs_refused s < fs_refused s1))).
    { wp_steps; [apply wp_ReAllocate with g e; try done; lia|]. split.
      - split; [done|]. split; [by eapply slot_change_refl; [|lia]|done].
      - split; [done|]. split; [|done]. intros _. exists g, e. split; [done|]. split; [done|]. lia. }
    cbn beta. intros fit s1 (Hst1 & Hse1 & Hfit & Hre1). destruct fit; wp_steps.
    2:{ eexists. by split. }
    destruct (Hfit eq_refl) as (g1 & e1 & Hg1 & He1 & Hcap1). destruct Hst1 as (Hi1 & Hc1 & Hl1).
    destruct (line_holds_occupied _ _ _ _ _ _ Hl1 Hg1 He1) as (_ & Hh1 & b1 & f1 & Hb1 & Hf1 & Hco1 & Hcp1).
    eapply wp_get_slot; [lia|exact Hg1|]. wp_steps. eapply wp_deref; [done|]. wp_steps.
    eapply wp_get_fec; [exact Hb1|done|]. wp_steps.
    destruct (add_code_holds _ d i bitpos data size f1 ps Hbp Hsz Hd Hco1) as [Hco2 Hlen2].
    wp_use (wp_put_code d i g1 e1 b1 _ (ps ++ [(bitpos, packet_bytes data size)]));
      [done|lia|done|done|done|done|by destruct ps|done|lia|].
    intros _ s' (Hst & Hse & _). wp_steps. eexists. split; [eapply line_step_trans; [by split|exact Hst]|].
    split; [congruence|done].
Qed.

Lemma line_holds_nonempty d i ps s :
  line_holds s d i ps -> ps <> [] -> exists g e, slot_of EncMat d i s = Some g /\ fec_pack g = Some e.
Proof. intros [_ (g & Hg & Hp)] Hps. destruct (fec_pack g) eqn:He; [eauto|done]. Qed.

Lemma wp_EncodeLine d i bitpos restart last data size ps s :
  inv_core x0 s -> 0 <= i < dir_len d -> 0 <= bitpos < 8 -> 0 <= size < 8192 -> bytes_ok data ->
  0 <= start_pack_sn (mx_hdr (fs_enc s)) -> line_holds s d i ps ->
  wp (EncodeLine d i bitpos restart last data size) (fun _ s' => exists ok ps' out,
    line_put restart last ok (bitpos, packet_bytes data size) ps = (ps', out) /\
    line_step d i ps' s s' /\ sent_lines d i out s s' /\ (ok = false -> fs_refused s < fs_refused s')) s.
Proof.
  intros Hi Hr Hbp Hsz Hd Hsn Hl. destruct (line_holds_slot _ _ _ _ Hl) as [g Hg].
  unfold EncodeLine. wp_steps. eapply wp_get_slot; [lia|exact Hg|]. wp_steps.
  wp_use wp_grow_line; try done. intros ok s1 (ps1 & Hst1 & Hse1 & Hre1 & Hps1). cbn zeta in Hps1.
  destruct ok, last; cbn [andb]; wp_steps.
  2: exists true, ps1, [].
  3-4: exists false, ps1, [].
  2-4: by split; [subst ps1|split; [exact Hst1|split; [by apply sent_lines_nil|done]]].
  subst ps1. destruct Hst1 as (Hi1 & Hc1 & Hl1).
  destruct (line_holds_nonempty _ _ _ _ Hl1) as (g1 & e1 & Hg1 & He1); [by destruct restart, ps|].
  wp_use wp_SendFecCodePacket; try done. intros _ s' (Hst & f & Hse & Hf).
  eexists true, _, _. split; [done|]. split; [by eapply line_step_trans; [split|]|].
  split; [|done]. exists [f]. split; [congruence|]. constructor; [|constructor].
  rewrite (slot_change_hdr _ _ _ _ Hc1) in Hf. destruct Hc1 as (? & ? & _ & _ & Heq & _).
  by rewrite Heq in Hf.
Qed.

End Spec.
End FecEncodeSpec.
