(* ===== verification/FecEncodeRefine.v ===== *)
(** * The encoder refines the abstract encoder

    [enc_rep s a]: the state [s] of the engine represents the abstract encoder
    [a].  Each operation of the sending half is a step of the abstract encoder,
    with the fec packets it hands to the callback. *)
From S2P Require Import Prelude PoolInterface FecState FecBuffer FecInv FecBufferSpec FecAbstract FecEncode.
From S2P Require Import FecEncodeSpec.
Export FecEncodeSpec.

Module FecEncodeRefine.

Section Refine.
Context {P E W : Type} `{Countable E} `{!PackPool P E} `{!FecEnv P E W}.
Context `{!PackPoolLaws P E} `{!FecEnvLaws P E W}.
Implicit Types (s : FecSt P E W) (e : E) (x : E -> Z).

(** ** Emptying a matrix *)
Definition slot_empty (loc : MatLoc) (d : Fec2CodeDir) (i : Z) s : Prop :=
  exists g, slot_of loc d i s = Some g /\ fec_pack g = None.

Lemma slot_empty_mono loc d i s s' : only_mat loc s s' -> slot_empty loc d i s -> slot_empty loc d i s'.
Proof.
  intros (m & m' & Hm & Hm' & (_ & Hl & Hs) & _) (g & Hg & Hn).
  unfold slot_empty, slot_of in *. rewrite Hm in Hg. rewrite Hm'. cbn in *.
  destruct (lookup_lt_is_Some_2 (mx_dir d m') (Z.to_nat i)) as [g' Hg'].
  { rewrite Hl. by eapply lookup_lt_Some. }
  destruct (Hs _ _ _ Hg') as (g2 & Hg2 & [->|Hn']); simplify_eq; eauto.
Qed.

Lemma wp_free_slot_empty loc d i x s m :
  inv_core x s -> (forall y, 0 <= x y) -> mat_of loc s = Some m -> 0 <= i < dir_len d ->
  wp (free_slot loc d i) (fun _ s' => inv_core x s' /\ only_mat loc s s' /\ slot_empty loc d i s') s.
Proof.
  intros Hi Hx Hm Hr. destruct (slot_of_some _ _ _ _ _ _ Hi Hm Hr) as [g Hg].
  apply (wp_free_slot loc d i x s g); [done|done|lia|done].
Qed.

Lemma only_mat_some loc s s' : only_mat loc s s' -> exists m', mat_of loc s' = Some m'.
Proof. intros (m & m' & _ & Hm' & _). eauto. Qed.

(** One of the two loops of [Init] and [Clear]. *)
Lemma wp_free_pair loc d1 d2 n x s m :
  dir_len d1 = Z.of_nat n -> dir_len d2 = Z.of_nat n ->
  inv_core x s -> (forall y, 0 <= x y) -> mat_of loc s = Some m ->
  wp (for_up n (fun i => _ ← free_slot loc d1 i; _ ← free_slot loc d2 i; mret (i + 1)) 0)
    (fun _ s' => inv_core x s' /\ only_mat loc s s' /\
       forall i, 0 <= i < Z.of_nat n -> slot_empty loc d1 i s' /\ slot_empty loc d2 i s') s.
Proof.
  intros Hd1 Hd2 Hi Hx Hm. eapply wp_mono.
  { apply (wp_for (fun k i s' => i = Z.of_nat n - Z.of_nat k /\ (k <= n)%nat /\ inv_core x s' /\
      only_mat loc s s' /\ forall j, 0 <= j < i -> slot_empty loc d1 j s' /\ slot_empty loc d2 j s')).
    - split; [lia|]. split; [done|]. split; [done|]. split; [by eapply only_mat_refl|]. intros; lia.
    - intros k i s1 (-> & Hk & Hi1 & Ho1 & He1). set (i := Z.of_nat n - Z.of_nat (S k)) in *.
      destruct (only_mat_some _ _ _ Ho1) as [m1 Hm1].
      wp_steps. wp_use wp_free_slot_empty; [done|done|done|lia|]. intros _ s2 (Hi2 & Ho2 & He2).
      destruct (only_mat_some _ _ _ Ho2) as [m2 Hm2].
      wp_steps. wp_use wp_free_slot_empty; [done|done|done|lia|]. intros _ s3 (Hi3 & Ho3 & He3).
      wp_steps. split; [lia|]. split; [lia|]. split; [done|].
      split; [eapply only_mat_trans; [done|by eapply only_mat_trans]|].
      intros j Hj. destruct (decide (j = i)) as [->|Hne].
      + split; [by eapply slot_empty_mono|done].
      + destruct (He1 j ltac:(lia)) as [Ha Hb].
        split; (eapply slot_empty_mono; [exact Ho3|by eapply slot_empty_mono]). }
  cbn beta. intros i s' (-> & _ & Hi' & Ho' & He'). split; [done|]. split; [done|].
  intros j Hj. apply He'. lia.
Qed.

Definition hill (d : Fec2CodeDir) : bool := match d with kUpHill | kDownHill => true | _ => false end.

(** The loops empty the rows and columns, and the diagonals when the matrix
    has some. *)
Lemma wp_free_lines loc x s m :
  inv_core x s -> (forall y, 0 <= x y) -> mat_of loc s = Some m ->
  wp (free_lines loc) (fun _ s' => inv_core x s' /\ only_mat loc s s' /\
    forall d i, 0 <= i < dir_len d -> (hill d = true -> uh_flag (mx_hdr m) || dh_flag (mx_hdr m) = true) ->
      slot_empty loc d i s') s.
Proof.
  intros Hi Hx Hm. unfold free_lines. wp_steps.
  wp_use (wp_free_pair loc kHorizontal kVertical 4); try done. intros _ s1 (Hi1 & Ho1 & He1). wp_steps.
  pose proof Ho1 as (m0 & m1 & Hm0 & Hm1 & (Hh & _) & _). rewrite Hm in Hm0. simplify_eq.
  eapply wp_get_hdr; [done|]. wp_steps; rewrite Hh in *.
  - wp_use (wp_free_pair loc kUpHill kDownHill 5); try done. intros _ s2 (Hi2 & Ho2 & He2). wp_steps.
    split; [done|]. split; [by eapply only_mat_trans|]. intros d i Hr _.
    destruct d; cbn in Hr; try (by apply He2; lia); (eapply slot_empty_mono; [exact Ho2|]; by apply He1; lia).
  - split; [done|]. split; [done|]. intros d i Hr Hd.
    destruct d; cbn in Hr, Hd; try (by apply He1; lia); by (specialize (Hd eq_refl); congruence).
Qed.

(** [Fec2EnDeCodeMatrix::Init] and [Clear]. *)
Lemma wp_MatrixInit loc id b x s m :
  inv_core x s -> (forall y, 0 <= x y) -> mat_of loc s = Some m -> fec_mode_book !! Z.to_nat id = Some b ->
  wp (MatrixInit loc id) (fun _ s' => inv_core x s' /\ exists m1 m2,
    slots_sub m1 m /\ m2 = mx_set_hdr (mat_of_book false id b 0 0) m1 /\ mat_of loc s' = Some m2 /\
    s' = set_mat loc m2 (set_pool (fs_pool s') s) /\
    forall d i, 0 <= i < dir_len d -> (hill d = true -> uh_flag (mx_hdr m) || dh_flag (mx_hdr m) = true) ->
      slot_empty loc d i s') s.
Proof.
  intros Hi Hx Hm Hb. unfold MatrixInit. wp_steps. wp_use wp_free_lines; [done|done|done|].
  intros _ s1 (Hi1 & Ho1 & He1). wp_steps. eapply wp_deref; [done|]. wp_steps.
  pose proof Ho1 as (m0 & m1 & Hm0 & Hm1 & Hsub & Heq). rewrite Hm in Hm0. simplify_eq.
  eapply wp_put_hdr; [done|]. split; [by apply inv_hdr|]. eexists m1, _. split; [done|]. split; [done|].
  split; [by eapply mat_of_set|]. split.
  - rewrite Heq. destruct loc; cbn -[insert]; [done|]. unfold set_dec, set_pool; cbn -[insert].
    by rewrite list_insert_insert_eq.
  - intros d i Hr Hd. destruct (He1 d i Hr Hd) as (g & Hg & Hn). exists g. split; [|done].
    unfold slot_of in *. rewrite (mat_of_set _ _ _ _ Hm1). rewrite Hm1 in Hg. by destruct d.
Qed.

(** [s'] differs from [s] in the pool and the encoder's own objects only. *)
Definition enc_only s s' : Prop :=
  s' = set_enc (fs_enc s') (set_enc_buf (fs_enc_buf s') (set_pool (fs_pool s') s)).

Lemma book_header_some id b : fec_mode_book !! Z.to_nat id = Some b -> book_header id = Some (mat_of_book false id b 0 0).
Proof. intros Hb. unfold book_header. by rewrite Hb. Qed.

Lemma book_exists id : 0 <= id <= 5 -> exists b, fec_mode_book !! Z.to_nat id = Some b.
Proof. intros Hid. apply lookup_lt_is_Some_2. cbn. lia. Qed.

Lemma wp_SendInit s :
  inv_core x0 s -> fbuf_ok (fs_enc_buf s) -> 0 <= code_book_id (mx_hdr (fs_enc s)) <= 5 ->
  (forall d i, 0 <= i < dir_len d -> hill d = true ->
     uh_flag (mx_hdr (fs_enc s)) || dh_flag (mx_hdr (fs_enc s)) = false -> slot_empty EncMat d i s) ->
  wp SendInit (fun _ s' => inv_core x0 s' /\ fbuf_ok (fs_enc_buf s') /\ enc_only s s' /\
    book_header (code_book_id (mx_hdr (fs_enc s))) = Some (mx_hdr (fs_enc s')) /\
    forall d i, 0 <= i < dir_len d -> slot_empty EncMat d i s') s.
Proof.
  intros Hi Hn Hid Hhill. destruct (book_exists _ Hid) as [b Hb].
  unfold SendInit, Init. wp_steps. wp_use (wp_PopAllPack EncBuf x0); [done|apply x0_nonneg|done|].
  intros _ s1 (Hi1 & Ho1 & Hn1 & _). wp_steps.
  assert (He1 : fs_enc s1 = fs_enc s) by (by rewrite Ho1).
  eapply wp_get_hdr; [done|]. wp_steps. rewrite He1.
  wp_use wp_MatrixInit; [done|apply x0_nonneg|done|by rewrite ?He1|].
  intros _ s2 (Hi2 & m1 & m2 & Hsub & Hm2 & [= Hm2'] & Heq & Hem).
  assert (Hb2 : fs_enc_buf s2 = fs_enc_buf s1) by (by rewrite Heq).
  split; [done|]. split; [by rewrite Hb2|]. split.
  { unfold enc_only. rewrite Heq, Ho1. done. }
  split; [rewrite Hm2', Hm2; cbn; by apply book_header_some|].
  intros d i Hr. destruct (decide (hill d = true -> uh_flag (mx_hdr (fs_enc s1)) || dh_flag (mx_hdr (fs_enc s1)) = true))
    as [Hd|Hd]; [by apply Hem|].
  assert (hill d = true /\ uh_flag (mx_hdr (fs_enc s)) || dh_flag (mx_hdr (fs_enc s)) = false) as [Hhd Hfl].
  { rewrite He1 in Hd. destruct (hill d); [|by destruct Hd]. split; [done|].
    destruct (_ || _); [by destruct Hd|done]. }
  destruct (Hhill d i Hr Hhd Hfl) as (g & Hg & Hgn).
  unfold slot_empty, slot_of in *. cbn in *. rewrite Hm2', Hm2.
  destruct Hsub as (_ & Hl & Hs). rewrite He1 in *.
  destruct (lookup_lt_is_Some_2 (mx_dir d m1) (Z.to_nat i)) as [g' Hg']; [rewrite Hl; by eapply lookup_lt_Some|].
  exists g'. split; [by destruct d|]. destruct (Hs _ _ _ Hg') as (g2 & Hg2 & [->|?]); congruence.
Qed.

Lemma wp_SendChangeFecMode b s :
  inv_core x0 s -> fbuf_ok (fs_enc_buf s) -> 0 <= b <= 5 ->
  (forall d i, 0 <= i < dir_len d -> hill d = true ->
     uh_flag (mx_hdr (fs_enc s)) || dh_flag (mx_hdr (fs_enc s)) = false -> slot_empty EncMat d i s) ->
  wp (SendChangeFecMode b) (fun _ s' => inv_core x0 s' /\ fbuf_ok (fs_enc_buf s') /\ enc_only s s' /\
    book_header b = Some (mx_hdr (fs_enc s')) /\
    forall d i, 0 <= i < dir_len d -> slot_empty EncMat d i s') s.
Proof.
  intros Hi Hn Hb Hhill. unfold SendChangeFecMode. wp_steps. eapply wp_get_hdr; [done|]. wp_steps.
  eapply wp_put_hdr; [done|]. wp_steps. rewrite u8_small by lia. set (h := mkMat _ _ _ _ _ _ _ _ _ _ _ _).
  set (s1 := set_mat _ _ _).
  wp_use wp_SendInit; [by apply inv_hdr|done|done| |].
  - intros d i Hr Hd Hfl. destruct (Hhill d i Hr Hd Hfl) as (g & Hg & Hgn). exists g. split; [|done].
    unfold slot_of in *. cbn in *. by destruct d.
  - intros _ s2 (Hi2 & Hn2 & Ho2 & Hbk & He2). split; [done|]. split; [done|]. split; [|done].
    unfold enc_only in *. rewrite Ho2. done.
Qed.

(** ** Representation *)

(** References held by the decoder. *)
Definition held_dec s e : Z := held_mats (fs_dec s) e + held_in (pack_cache (fs_buf s)) e.

(** The decoder, its buffers and the shared data are untouched. *)
Record dec_same s s' : Prop := {
  ds_dec : fs_dec s' = fs_dec s;
  ds_book : fs_dec_book s' = fs_dec_book s;
  ds_buf : fs_buf s' = fs_buf s;
  ds_sums : (fs_sucess_sum s', fs_failed_sum s', fs_repeat_sum s') =
            (fs_sucess_sum s, fs_failed_sum s, fs_repeat_sum s);
  ds_pb : fs_pb s' = fs_pb s;
  ds_mem : forall y, 0 < held_dec s y -> fs_mem s' !! y = fs_mem s !! y
}.

Lemma dec_same_refl s : dec_same s s.
Proof. by split. Qed.
Lemma dec_same_trans s1 s2 s3 : dec_same s1 s2 -> dec_same s2 s3 -> dec_same s1 s3.
Proof.
  intros [A1 A2 A3 A4 A5 A6] [B1 B2 B3 B4 B5 B6]. split; try congruence.
  intros y Hy. rewrite B6; [by apply A6|]. unfold held_dec in *. by rewrite A1, A3.
Qed.
Lemma dec_same_only s s' : enc_only s s' -> dec_same s s'.
Proof. intros ->. by split. Qed.

Lemma dec_same_slot d i ps s s' : line_holds s d i ps -> slot_change d i s s' -> dec_same s s'.
Proof.
  intros Hl (g & g' & Hg & H0 & Heq & Hf & Hm). rewrite Heq. split; try done.
  intros y Hy. cbn -[insert]. apply Hm.
  - unfold held, held_slots, held_caches. unfold held_dec in Hy.
    pose proof (held_mat_nonneg (fs_enc s) y). pose proof (held_in_nonneg (pack_cache (fs_enc_buf s)) y). lia.
  - intros Hgy. destruct (line_holds_occupied _ _ _ _ _ _ Hl Hg Hgy) as (_ & Hh & _).
    destruct (slot_mat _ _ _ _ _ Hg) as (m & [= <-] & Hgm).
    pose proof (held_mat_pos _ _ _ _ _ Hgm Hgy) as Hp.
    unfold held, held_slots, held_caches in Hh. unfold held_dec in Hy.
    pose proof (held_in_nonneg (pack_cache (fs_enc_buf s)) y). lia.
Qed.

Record enc_rep s (a : AbsEnc) : Prop := {
  er_inv : fec_inv s;
  er_hdr : mx_hdr (fs_enc s) = ab_hdr a;
  er_next : fs_next_sn s = ab_next_sn a;
  er_book : fs_using_book s = ab_book a;
  er_lines : forall d i, 0 <= i < dir_len d -> line_holds s d i (ab_lines a d i);
  er_flags : forall d i, dir_flag (ab_hdr a) d = false -> ab_lines a d i = []
}.

(** The fec packets sent between two states are exactly those of [out]. *)
Definition sent_out (out : list sent_line) s s' : Prop :=
  exists fs, fs_sent s' = fs_sent s ++ fs /\
    Forall2 (fun '(m, d, i, ps) f => fec_sent m (fs_pb s) d i ps f) out fs.

Lemma sent_out_nil s s' : fs_sent s' = fs_sent s -> sent_out [] s s'.
Proof. intros Hs. exists []. rewrite app_nil_r. split; [done|constructor]. Qed.
Lemma sent_out_app o1 o2 s1 s2 s3 :
  fs_pb s2 = fs_pb s1 -> sent_out o1 s1 s2 -> sent_out o2 s2 s3 -> sent_out (o1 ++ o2) s1 s3.
Proof.
  intros Hpb (f1 & E1 & H1) (f2 & E2 & H2). exists (f1 ++ f2). rewrite E2, E1, app_assoc. split; [done|].
  rewrite Hpb in H2. by apply Forall2_app.
Qed.
Lemma sent_out_lines d i out s s' :
  sent_lines d i out s s' -> sent_out ((fun ps => (mx_hdr (fs_enc s), d, i, ps)) <$> out) s s'.
Proof. intros (fs & Hs & Hf). exists fs. split; [done|]. by apply Forall2_fmap_l. Qed.

(** The outcome of one operation: the new abstract state and what was sent. *)
Definition enc_post (a' : AbsEnc) (out : list sent_line) s s' : Prop :=
  enc_rep s' a' /\ dec_same s s' /\ sent_out out s s'.

Lemma enc_post_trans a1 a2 o1 o2 s1 s2 s3 :
  enc_post a1 o1 s1 s2 -> enc_post a2 o2 s2 s3 -> enc_post a2 (o1 ++ o2) s1 s3.
Proof.
  intros (_ & Hd1 & Hs1) (Hr & Hd2 & Hs2). split; [done|]. split; [by eapply dec_same_trans|].
  eapply sent_out_app; [apply (ds_pb _ _ Hd1)|done|done].
Qed.
Lemma enc_post_refl a s : enc_rep s a -> enc_post a [] s s.
Proof. intros Hr. split; [done|]. split; [apply dec_same_refl|by apply sent_out_nil]. Qed.

Lemma enc_inv_change s s' :
  inv_core x0 s' -> dec_same s s' -> mat_ok (mx_hdr (fs_enc s')) -> fbuf_ok (fs_enc_buf s') ->
  fec_inv s -> fec_inv s'.
Proof.
  intros Hi Hd Hm Hb []. split; [done|done| |done| |].
  - by rewrite (ds_dec _ _ Hd).
  - by rewrite (ds_buf _ _ Hd).
  - by rewrite (ds_book _ _ Hd).
Qed.

(** One line moves. *)
Lemma enc_rep_line d i ps' a s s' :
  enc_rep s a -> 0 <= i < dir_len d -> dir_flag (ab_hdr a) d = true -> line_step d i ps' s s' ->
  enc_rep s' (mkAbs (ab_hdr a) (ab_next_sn a) (ab_book a) (lines_set d i ps' (ab_lines a))) /\ dec_same s s'.
Proof.
  intros [Hinv Hhdr Hnext Hbook Hl Hfl] Hr Hd (Hi & Hc & Hn).
  pose proof (dec_same_slot _ _ _ _ _ (Hl d i Hr) Hc) as Hds. split; [|done].
  pose proof (slot_change_hdr _ _ _ _ Hc) as Hh.
  pose proof Hc as (g & g' & _ & _ & Heq & _).
  assert (Heb : fs_enc_buf s' = fs_enc_buf s) by (by rewrite Heq).
  split; cbn.
  - apply (enc_inv_change s); [done|done|rewrite Hh; apply Hinv|rewrite Heb; apply Hinv|done].
  - congruence.
  - rewrite Heq. done.
  - rewrite Heq. done.
  - intros d' i' Hr'. unfold lines_set. case_bool_decide as Hdd; cbn; [destruct (Z.eqb_spec i i')|]; subst; try done;
      (eapply line_holds_other; [exact Hc|congruence|by apply Hl]).
  - intros d' i' Hf'. unfold lines_set. rewrite bool_decide_false by congruence. by apply Hfl.
Qed.

(** ** Encoding one packet *)
Definition dir_encode (d : Fec2CodeDir) (h v : Z) (pack : list Z) (size : Z) : FM P E W unit :=
  match d with
  | kHorizontal => HorizontalEncode h v pack size
  | kVertical => VerticalEncode h v pack size
  | kUpHill => UphillEncode h v pack size
  | kDownHill => DownhillEncode h v pack size
  end.

(** Row and column of a packet of the block. *)
Definition grid_ok (m : MatHeader) (h v : Z) : Prop :=
  0 <= v < h_size m /\ 0 <= h /\ h * h_size m + v < matrix_size m.

Lemma place_range m d h v i bp r l :
  mat_ok m -> grid_ok m h v -> dir_flag m d = true -> place m d h v = Some (i, bp, r, l) ->
  0 <= i < dir_len d /\ 0 <= bp < 8.
Proof.
  intros Hm (Hv & Hh & Hhv) Hd Hp. destruct (mat_ok_cases m Hm) as (_ & _ & _ & Hc & _ & Hz & _).
  destruct Hc as [(E1 & E2 & E3)|[(E1 & E2 & E3)|[(E1 & E2 & E3)|(E1 & E2 & E3)]]];
    rewrite E1, E3 in *; destruct d; cbn in Hp, Hd |- *;
    rewrite ?E1, ?E2 in Hp;
    try (destruct (Hz E2) as (F1 & F2 & F3); congruence);
    repeat match type of Hp with context [if ?b then _ else _] => destruct b eqn:?; [|done] end;
    simplify_eq; lia.
Qed.

(** Each encode function calls [EncodeLine] on the line [place] names. *)
Lemma dir_encode_place d h v pack size m s (Q : unit -> FecSt P E W -> Prop) :
  mx_hdr (fs_enc s) = m -> mat_ok m -> grid_ok m h v -> dir_flag m d = true ->
  match place m d h v with
  | None => Q tt s
  | Some (i, bp, r, l) => wp (EncodeLine d i bp r l pack size) Q s
  end ->
  wp (dir_encode d h v pack size) Q s.
Proof.
  intros Hh Hm (Hv & Hp & Hhv) Hd HQ. destruct (mat_ok_cases m Hm) as (_ & _ & _ & Hc & _ & Hz & _).
  unfold dir_encode. destruct d; cbn [dir_flag] in Hd;
    unfold HorizontalEncode, VerticalEncode, UphillEncode, DownhillEncode; wp_steps;
    (eapply wp_get_hdr; [done|]); wp_steps; rewrite Hh in *; cbn [place] in HQ; try exact HQ.
  all: assert (Hs : h_size m = v_size m /\ (h_size m = 2 \/ h_size m = 4) /\ h < h_size m)
         by (destruct Hc as [(E1 & E2 & E3)|[(E1 & E2 & E3)|[(E1 & E2 & E3)|(E1 & E2 & E3)]]];
             try (destruct (Hz E2) as (F1 & F2 & F3); congruence); rewrite E1, E3 in *; lia).
  all: destruct Hs as (Es & Hn & Hlt).
  - destruct ((1 <=? h + v) && (h + v <=? 2 * h_size m - 3)) eqn:Hb; [lia|done].
  - destruct ((1 <=? h + v) && (h + v <=? 2 * h_size m - 3)) eqn:Hb; [|lia].
    rewrite (u8_small (h + v - 1)), (u8_small (h_size m - 1)) by lia.
    assert ((if h + v >? h_size m - 1 then h + v - h_size m + 1 else 0) = Z.max 0 (h + v - h_size m + 1)) as ->
      by (destruct (Z.gtb_spec (h + v) (h_size m - 1)); lia).
    rewrite (u8_small (Z.max 0 _)) by lia.
    by rewrite (Z.eqb_sym (h_size m - 1)).
  - destruct ((- (h_size m - 1) <? h - v) && (h - v <? h_size m - 1)) eqn:Hb; [lia|done].
  - destruct ((- (h_size m - 1) <? h - v) && (h - v <? h_size m - 1)) eqn:Hb; [|lia].
    rewrite (u8_small (h - v + h_size m - 2)), (u8_small (h_size m - 1)), (u8_small (v_size m - 1)) by lia.
    assert ((if h - v >? 0 then h - v else 0) = Z.max 0 (h - v)) as ->
      by (destruct (Z.gtb_spec (h - v) 0); lia).
    rewrite (u8_small (Z.max 0 _)) by lia.
    by rewrite (Z.eqb_sym (h_size m - 1)), (Z.eqb_sym (v_size m - 1)).
Qed.

Lemma wp_dir_encode d h v pack size a s :
  enc_rep s a -> grid_ok (ab_hdr a) h v -> 0 <= size < 8192 -> bytes_ok pack ->
  wp (when (dir_flag (ab_hdr a) d) (dir_encode d h v pack size)) (fun _ s' => exists ok L' out,
    abs_dir ok (ab_hdr a) d h v (packet_bytes pack size) (ab_lines a) = (L', out) /\
    enc_post (mkAbs (ab_hdr a) (ab_next_sn a) (ab_book a) L') out s s' /\
    fs_refused s <= fs_refused s' /\ (ok = false -> fs_refused s < fs_refused s')) s.
Proof.
  intros Hr Hg Hsz Hb. unfold abs_dir.
  assert (Hm : mat_ok (ab_hdr a)) by (rewrite <- (er_hdr _ _ Hr); apply (er_inv _ _ Hr)).
  assert (Hself : enc_post (mkAbs (ab_hdr a) (ab_next_sn a) (ab_book a) (ab_lines a)) [] s s)
    by (apply enc_post_refl; by destruct a).
  destruct (dir_flag (ab_hdr a) d) eqn:Hd; wp_steps; [|eexists true, _, _; split; [done|split; [done|split; [lia|done]]]].
  apply (dir_encode_place d h v pack size (ab_hdr a)); [apply (er_hdr _ _ Hr)|done|done|done|].
  destruct (place (ab_hdr a) d h v) as [[[[i bp] r] l]|] eqn:Hp; [|eexists true, _, _; split; [done|split; [done|split; [lia|done]]]].
  destruct (place_range _ _ _ _ _ _ _ _ Hm Hg Hd Hp) as [Hi Hbp].
  wp_use (wp_with_mono _ _ _ (mono_EncodeLine d i bp r l pack size)).
  { apply wp_EncodeLine; [apply (er_inv _ _ Hr)|done|done|done|done| |by apply (er_lines _ _ Hr)].
    rewrite (er_hdr _ _ Hr). destruct (mat_ok_cases _ Hm) as (_ & ? & _). lia. }
  cbn beta. intros _ s' ((ok & ps' & out & Hput & Hst & Hse & Hre) & Hmo). exists ok. rewrite Hput. eexists _, _. split; [done|].
  destruct (enc_rep_line d i ps' a s s' Hr Hi Hd Hst) as [Hr' Hds].
  split; [|done]. split; [done|]. split; [done|]. rewrite <- (er_hdr _ _ Hr). by apply sent_out_lines.
Qed.

Lemma packet_size_small pack : 0 <= packet_size pack < 8192.
Proof. apply packet_size_range. Qed.

Lemma grid_of_pos hdr pos :
  mat_ok hdr -> 0 <= pos < matrix_size hdr -> grid_ok hdr (pos / h_size hdr) (pos mod h_size hdr).
Proof.
  intros Hm Hp. destruct (mat_ok_cases hdr Hm) as (_ & _ & _ & Hc & _).
  assert (Hn : 0 < h_size hdr) by lia. unfold grid_ok.
  pose proof (Z.mod_pos_bound pos (h_size hdr) Hn). pose proof (Z.div_mod pos (h_size hdr) ltac:(lia)).
  pose proof (Z.div_pos pos (h_size hdr) ltac:(lia) Hn). lia.
Qed.

(** Nothing was refused unless the counter moved. *)
Definition granted (ok : Fec2CodeDir -> bool) s s' : Prop :=
  fs_refused s <= fs_refused s' /\ (fs_refused s' = fs_refused s -> forall d, ok d = true).
Lemma granted_after ok s s1 s' : fs_refused s <= fs_refused s1 -> granted ok s1 s' -> granted ok s s'.
Proof. intros H1 [H2 H3]. split; [lia|]. intros Heq. apply H3. lia. Qed.

Lemma wp_encode_lines pos pack a s :
  enc_rep s a -> 0 <= pos < matrix_size (ab_hdr a) -> bytes_ok pack ->
  wp (encode_lines pos pack) (fun r s' => r = GTP_OK /\ exists ok L' out,
    abs_put ok (ab_hdr a) pos (packet_bytes pack (packet_size pack)) (ab_lines a) = (L', out) /\
    enc_post (mkAbs (ab_hdr a) (ab_next_sn a) (ab_book a) L') out s s' /\ granted ok s s') s.
Proof.
  intros Hr Hp Hb. unfold encode_lines.
  assert (Hm : mat_ok (ab_hdr a)) by (rewrite <- (er_hdr _ _ Hr); apply (er_inv _ _ Hr)).
  pose proof (grid_of_pos _ _ Hm Hp) as Hg. pose proof (packet_size_small pack) as Hsz.
  destruct (encode_pos_div _ _ Hm Hp) as [Eh Ev].
  assert (Hne : 0 <= pos / h_size (ab_hdr a) < 255 /\ 0 <= pos mod h_size (ab_hdr a) < 255).
  { destruct Hg as (? & ? & ?). destruct (mat_ok_cases _ Hm) as (_ & _ & _ & Hc & _). nia. }
  wp_steps. eapply wp_get_hdr; [done|]. rewrite (er_hdr _ _ Hr), Eh, Ev. unfold INVALID_ENCODE_POS.
  rewrite !(proj2 (Z.eqb_neq _ 255)) by lia. cbn beta iota zeta. apply wp_bind.
  wp_use (wp_dir_encode kHorizontal); try done. intros _ s1 (k1 & L1 & o1 & E1 & Hp1 & M1 & R1). apply wp_bind.
  wp_use (wp_dir_encode kVertical _ _ _ _ _ _ (proj1 Hp1)); try done. intros _ s2 (k2 & L2 & o2 & E2 & Hp2 & M2 & R2). apply wp_bind.
  wp_use (wp_dir_encode kUpHill _ _ _ _ _ _ (proj1 Hp2)); try done. intros _ s3 (k3 & L3 & o3 & E3 & Hp3 & M3 & R3). apply wp_bind.
  wp_use (wp_dir_encode kDownHill _ _ _ _ _ _ (proj1 Hp3)); try done. intros _ s4 (k4 & L4 & o4 & E4 & Hp4 & M4 & R4). apply wp_ret.
  cbn [ab_hdr ab_lines] in *. split; [done|].
  exists (fun d => match d with kHorizontal => k1 | kVertical => k2 | kUpHill => k3 | kDownHill => k4 end), L4.
  eexists. split.
  { unfold abs_put. cbn [ab_hdr ab_lines]. rewrite E1, E2, E3, E4. reflexivity. }
  split; [do 3 (eapply enc_post_trans; [eassumption|]); exact Hp4|]. split; [lia|]. intros Heq d.
  destruct d; [destruct k1|destruct k2|destruct k3|destruct k4]; try done; exfalso;
    [specialize (R1 eq_refl)|specialize (R2 eq_refl)|specialize (R3 eq_refl)|specialize (R4 eq_refl)]; lia.
Qed.

(** ** Abandoning the block *)
Lemma lines_bits_nonzero hdr d i f ps :
  code_holds hdr d i f ps -> ps <> [] -> (fp_encode_bit_map f =? 0) = false.
Proof.
  intros Hc Hps. apply Z.eqb_neq. rewrite (ch_bits _ _ _ _ _ Hc). pose proof (ch_range _ _ _ _ _ Hc) as Hr.
  unfold line_bits. destruct ps as [|[bp bs] ps]; [done|]. inversion_clear Hr as [|?? Hbp Hr'].
  cbn [foldl fst]. rewrite Z.lor_0_l. cbn [fst] in Hbp.
  assert (Hb : Z.testbit (u8 (Z.shiftl 1 bp)) bp = true).
  { unfold u8. change 256 with (2 ^ 8). rewrite Z.mod_pow2_bits_low by lia.
    rewrite Z.shiftl_spec by lia. by rewrite Z.sub_diag. }
  intros Hz. assert (Ht : forall (l : line) (b : Z), Z.testbit b bp = true ->
     Z.testbit (foldl (fun b p => Z.lor b (u8 (Z.shiftl 1 p.1))) b l) bp = true).
  { induction l as [|q l IH]; intros b0 Hb0; [done|]. cbn. apply IH. by rewrite Z.lor_spec, Hb0. }
  pose proof (Ht ps _ Hb) as Hf. rewrite Hz in Hf. by rewrite Z.bits_0 in Hf.
Qed.

Definition abs_set_lines (L : lines) (a : AbsEnc) : AbsEnc := mkAbs (ab_hdr a) (ab_next_sn a) (ab_book a) L.

(** The lines of one direction before index [k] have been flushed. *)
Definition flushed (d : Fec2CodeDir) (k : Z) (L : lines) : lines :=
  fun d' i => if bool_decide (d = d') && (i <? k) then [] else L d' i.

Lemma enc_rep_lines_ext L L' a s :
  (forall d i, 0 <= i < dir_len d -> L d i = L' d i) -> (forall d i, dir_flag (ab_hdr a) d = false -> L' d i = []) ->
  enc_rep s (abs_set_lines L a) -> enc_rep s (abs_set_lines L' a).
Proof.
  intros HL Hfl' [Hinv Hhdr Hnext Hbook Hl Hfl]. split; cbn in *; try done.
  intros d i Hr. rewrite <- HL by done. by apply Hl.
Qed.

Lemma flush_dir_S hdr d n L : flush_dir hdr d (S n) L =
  flush_dir hdr d n L ++ match L d (Z.of_nat n) with [] => [] | ps => [(hdr, d, Z.of_nat n, ps)] end.
Proof. unfold flush_dir. rewrite seq_S, fmap_app, concat_app. cbn. by rewrite app_nil_r. Qed.

Lemma wp_flush_lines d n a s :
  enc_rep s a -> dir_flag (ab_hdr a) d = true -> 0 <= n <= dir_len d ->
  wp (flush_lines d n) (fun _ s' =>
    enc_post (abs_set_lines (flushed d n (ab_lines a)) a) (flush_dir (ab_hdr a) d (Z.to_nat n) (ab_lines a)) s s') s.
Proof.
  intros Hr Hd Hn. unfold flush_lines. wp_steps. eapply wp_mono.
  { apply (wp_for (fun k i s' => (k <= Z.to_nat n)%nat /\ i = n - Z.of_nat k /\
      enc_post (abs_set_lines (flushed d i (ab_lines a)) a)
        (flush_dir (ab_hdr a) d (Z.to_nat i) (ab_lines a)) s s')).
    - split; [done|]. split; [lia|]. replace (n - Z.of_nat (Z.to_nat n)) with 0 by lia. cbn.
      apply enc_post_refl. eapply (enc_rep_lines_ext (ab_lines a)); [| |by destruct a].
      + intros d' i Hi. unfold flushed. destruct (Z.ltb_spec i 0); [lia|]. by rewrite andb_false_r.
      + intros d' i Hf. unfold flushed. destruct (_ && _); [done|]. by apply (er_flags _ _ Hr).
    - intros k i s1 (Hk & Hik & Hp1). pose proof Hp1 as (Hr1 & Hd1 & Hs1).
      assert (Hi : 0 <= i < dir_len d) by lia.
      set (L1 := flushed d i (ab_lines a)) in *.
      assert (HL1 : L1 d i = ab_lines a d i).
      { unfold L1, flushed. rewrite Z.ltb_irrefl. by rewrite andb_false_r. }
      pose proof (er_lines _ _ Hr1 d i Hi) as Hl. cbn in Hl. rewrite HL1 in Hl.
      destruct (line_holds_slot _ _ _ _ Hl) as [g Hg].
      assert (Hflush : Z.to_nat (i + 1) = S (Z.to_nat i)) by lia.
      assert (Hext : forall d' i', 0 <= i' < dir_len d' ->
        lines_set d i [] L1 d' i' = flushed d (i + 1) (ab_lines a) d' i').
      { intros d' i' Hi'. unfold lines_set, L1, flushed. case_bool_decide; cbn [andb]; [|done].
        destruct (Z.eqb_spec i i'), (Z.ltb_spec i' i), (Z.ltb_spec i' (i + 1)); try done; lia. }
      assert (Hext2 : forall d' i', dir_flag (ab_hdr a) d' = false -> flushed d (i + 1) (ab_lines a) d' i' = []).
      { intros d' i' Hf. unfold flushed. destruct (_ && _); [done|]. by apply (er_flags _ _ Hr). }
      wp_steps. eapply wp_get_slot; [lia|exact Hg|]. wp_steps.
      destruct (fec_pack g) as [e|] eqn:He.
      + destruct (line_holds_occupied _ _ _ _ _ _ Hl Hg He) as (Hps & _ & b & f & Hb & Hf & Hc & _).
        wp_steps. eapply wp_get_fec; [exact Hb|done|]. wp_steps;
          [|by rewrite (lines_bits_nonzero _ _ _ _ _ Hc Hps) in *].
        wp_use wp_SendFecCodePacket; [apply (er_inv _ _ Hr1)|exact Hl|exact Hg|exact He|].
        intros _ s2 (Hst & f2 & Hse & Hf2). wp_steps. split; [lia|]. split; [lia|].
        destruct (enc_rep_line d i [] _ _ _ Hr1 Hi Hd Hst) as [Hr2 Hds2].
        rewrite Hflush, flush_dir_S. rewrite (Z2Nat.id i) by lia.
        eapply enc_post_trans; [exact Hp1|]. split; [by eapply enc_rep_lines_ext|]. split; [done|].
        exists [f2]. split; [done|]. destruct (ab_lines a d i) eqn:Hll; [done|].
        constructor; [|constructor]. by rewrite (er_hdr _ _ Hr1) in Hf2.
      + pose proof (line_holds_empty _ _ _ _ _ Hl Hg He) as Hnil. wp_steps.
        split; [lia|]. split; [lia|]. rewrite Hflush, flush_dir_S. rewrite (Z2Nat.id i), Hnil by lia.
        rewrite app_nil_r. split; [|done]. eapply (enc_rep_lines_ext L1); [|done|done].
        intros d' i' Hi'. rewrite <- Hext by done. unfold lines_set.
        case_bool_decide as Hdd; cbn; [|done]. destruct (Z.eqb_spec i i') as [Hii|]; [|done].
        rewrite <- Hii, <- Hdd. congruence. }
  cbn beta. intros i s' (_ & -> & Hp). wp_steps. by rewrite Z.sub_0_r in Hp.
Qed.

Lemma flush_dir_ext hdr d n L L' : (forall i, L d i = L' d i) -> flush_dir hdr d n L = flush_dir hdr d n L'.
Proof. intros HL. unfold flush_dir. f_equal. apply list_fmap_ext. intros k j _. by rewrite HL. Qed.

Lemma flush_flagged_ext hdr d L L' : (forall i, L d i = L' d i) -> flush_flagged hdr d L = flush_flagged hdr d L'.
Proof. intros HL. unfold flush_flagged. destruct (dir_flag hdr d); [|done]. by apply flush_dir_ext. Qed.

(** Some lines of direction [d] have been flushed, the other directions not. *)
Lemma wp_flush_flagged d a s :
  enc_rep s a ->
  wp (when (dir_flag (ab_hdr a) d) (flush_lines d (dir_count (ab_hdr a) d))) (fun _ s' => exists L',
    (forall d' i, d' <> d -> L' d' i = ab_lines a d' i) /\
    enc_post (abs_set_lines L' a) (flush_flagged (ab_hdr a) d (ab_lines a)) s s') s.
Proof.
  intros Hr. unfold flush_flagged. destruct (dir_flag (ab_hdr a) d) eqn:Hd; wp_steps.
  - wp_use wp_flush_lines; [done|done| |].
    + assert (Hm : mat_ok (ab_hdr a)) by (rewrite <- (er_hdr _ _ Hr); apply (er_inv _ _ Hr)).
      destruct (mat_ok_cases _ Hm) as (_ & _ & _ & Hc & _).
      destruct d; cbn; unfold MAX_FEC2_HILL_SIZE; lia.
    + intros _ s' Hp. exists (flushed d (dir_count (ab_hdr a) d) (ab_lines a)). split; [|done].
      intros d' i Hne. unfold flushed. by rewrite bool_decide_false.
  - exists (ab_lines a). split; [done|]. apply enc_post_refl. by destruct a.
Qed.

Lemma abs_flush_hdr send a :
  ab_hdr (abs_flush send a).1 = default (ab_hdr a) (book_header (ab_book a)).
Proof. done. Qed.

(** Resetting the encoder to the book in use. *)
(** The encoder of [a], emptied, with the header of the book [id]. *)
Definition abs_reset (id : Z) (a : AbsEnc) : AbsEnc :=
  mkAbs (default (ab_hdr a) (book_header id)) (ab_next_sn a) (ab_book a) no_lines.

Lemma enc_hills_empty a s d i :
  enc_rep s a -> 0 <= i < dir_len d -> hill d = true ->
  uh_flag (mx_hdr (fs_enc s)) || dh_flag (mx_hdr (fs_enc s)) = false -> slot_empty EncMat d i s.
Proof.
  intros Hr Hi Hh Hfl. assert (Hln : ab_lines a d i = []).
  { apply (er_flags _ _ Hr). rewrite <- (er_hdr _ _ Hr). apply orb_false_elim in Hfl as [? ?]. by destruct d. }
  destruct (er_lines _ _ Hr d i Hi) as [_ (g & Hg & Hp)]. exists g. split; [done|].
  destruct (fec_pack g); [|done]. rewrite Hln in Hp. by destruct Hp.
Qed.

Lemma reset_post id a s s' :
  enc_rep s a -> 0 <= id <= 5 -> inv_core x0 s' -> fbuf_ok (fs_enc_buf s') -> enc_only s s' ->
  book_header id = Some (mx_hdr (fs_enc s')) ->
  (forall d i, 0 <= i < dir_len d -> slot_empty EncMat d i s') ->
  enc_post (abs_reset id a) [] s s'.
Proof.
  intros Hr Hid Hi' Hn' Ho Hbk Hem. pose proof (er_inv _ _ Hr) as Hinv.
  assert (Hds : dec_same s s') by (by apply dec_same_only).
  assert (Hsame : fs_using_book s' = fs_using_book s /\ fs_next_sn s' = fs_next_sn s /\ fs_sent s' = fs_sent s)
    by (rewrite Ho; done).
  destruct Hsame as (Eb & En & Es).
  assert (Hok : mat_ok (mx_hdr (fs_enc s'))).
  { pose proof Hbk as Hbk'. unfold book_header in Hbk'.
    destruct (fec_mode_book !! Z.to_nat id) as [b|] eqn:Hb; [|done].
    cbn in Hbk'. injection Hbk' as <-. exists id, b. split; [lia|]. split; [done|].
    split; [done|]. split; [cbn; lia|done]. }
  split; [|split; [done|by apply sent_out_nil]]. split; cbn.
  - by apply (enc_inv_change s).
  - rewrite Hbk. done.
  - rewrite En. apply Hr.
  - rewrite Eb. apply Hr.
  - intros d i Hi. destruct (Hem d i Hi) as (g & Hg & Hgn). split; [lia|]. exists g. by rewrite Hgn.
  - done.
Qed.

Lemma wp_reset_lines a s :
  enc_rep s a ->
  wp (s ← get_st; SendChangeFecMode (fs_using_book s)) (fun _ s' => enc_post (abs_flush false a).1 [] s s') s.
Proof.
  intros Hr. pose proof (er_inv _ _ Hr) as Hinv. pose proof (ic_book _ _ (fi_core _ Hinv)) as Hb. wp_steps.
  wp_use wp_SendChangeFecMode; [apply Hinv|apply Hinv|exact Hb|intros d i; by apply (enc_hills_empty a)|].
  intros _ s' (Hi' & Hn' & Ho & Hbk & Hem). rewrite (er_book _ _ Hr) in Hbk, Hb.
  exact (reset_post (ab_book a) a s s' Hr Hb Hi' Hn' Ho Hbk Hem).
Qed.

(** [GtpFec2::PopAllPack], the sending half. *)
Lemma wp_SendInit_reset a s :
  enc_rep s a ->
  wp SendInit (fun _ s' => enc_post (abs_reset (code_book_id (ab_hdr a)) a) [] s s') s.
Proof.
  intros Hr. pose proof (er_inv _ _ Hr) as Hinv.
  assert (Hm : mat_ok (mx_hdr (fs_enc s))) by apply Hinv.
  destruct (mat_ok_cases _ Hm) as (_ & _ & _ & _ & _ & _ & Hid).
  wp_use wp_SendInit; [apply Hinv|apply Hinv|exact Hid|intros d i; by apply (enc_hills_empty a)|].
  intros _ s' (Hi' & Hn' & Ho & Hbk & Hem). rewrite (er_hdr _ _ Hr) in Hbk, Hid.
  exact (reset_post _ a s s' Hr Hid Hi' Hn' Ho Hbk Hem).
Qed.

Lemma wp_SetEmptyFecEnCode send a s :
  enc_rep s a ->
  wp (SetEmptyFecEnCode send) (fun _ s' =>
    enc_post (abs_flush send a).1 (abs_flush send a).2 s s') s.
Proof.
  intros Hr. unfold SetEmptyFecEnCode. apply wp_bind.
  eapply (wp_mono _ (fun _ s' => exists L', enc_post (abs_set_lines L' a) (abs_flush send a).2 s s')).
  { destruct send; wp_steps; [|exists (ab_lines a); apply enc_post_refl; by destruct a].
    eapply wp_get_hdr; [done|]. rewrite (er_hdr _ _ Hr). apply wp_bind.
    wp_use (wp_flush_flagged kHorizontal); [exact Hr|]. intros _ s1 (L1 & Hl1 & Hp1). apply wp_bind.
    wp_use (wp_flush_flagged kVertical _ _ (proj1 Hp1)). intros _ s2 (L2 & Hl2 & Hp2). apply wp_bind.
    wp_use (wp_flush_flagged kUpHill _ _ (proj1 Hp2)). intros _ s3 (L3 & Hl3 & Hp3).
    wp_use (wp_flush_flagged kDownHill _ _ (proj1 Hp3)). intros _ s4 (L4 & Hl4 & Hp4).
    exists L4. cbn [abs_flush snd] in *. cbn [abs_set_lines ab_hdr ab_lines] in *.
    rewrite (flush_flagged_ext _ kVertical (ab_lines a) L1), (flush_flagged_ext _ kUpHill (ab_lines a) L2),
      (flush_flagged_ext _ kDownHill (ab_lines a) L3);
      [|intros i; rewrite ?Hl3, ?Hl2, ?Hl1; done..].
    do 3 (eapply enc_post_trans; [eassumption|]). exact Hp4. }
  cbn beta. intros _ s1 (L' & Hp1). wp_use (wp_reset_lines _ _ (proj1 Hp1)).
  intros _ s2 Hp2. rewrite <- (app_nil_r (abs_flush send a).2). by eapply enc_post_trans.
Qed.

(** ** [BlockEncode] and [Encode] *)
Lemma wp_new_block sn pos a s :
  enc_rep s a -> 0 <= sn < 2 ^ 32 -> pos = sn mod matrix_size (ab_hdr a) ->
  wp (new_block sn pos) (fun pos' s' =>
    pos' = sn mod matrix_size (ab_hdr (abs_new_block sn a).1) /\
    enc_post (abs_new_block sn a).1 (abs_new_block sn a).2 s s') s.
Proof.
  intros Hr Hsn Hpos. unfold new_block. wp_steps. eapply wp_get_hdr; [done|]. wp_steps.
  rewrite (er_hdr _ _ Hr).
  wp_use wp_SetEmptyFecEnCode; [exact Hr|]. intros _ s1 Hp1. wp_steps.
  pose proof Hp1 as (Hr1 & Hd1 & Hs1). unfold abs_new_block. fold (abs_flush) in *.
  destruct (abs_flush _ a) as [a1 out1] eqn:Hfl. cbn [fst snd] in *.
  eapply wp_get_hdr; [done|]. wp_steps. rewrite (er_hdr _ _ Hr1).
  assert (Hm : mat_ok (ab_hdr a)) by (rewrite <- (er_hdr _ _ Hr); apply (er_inv _ _ Hr)).
  assert (Hm1 : mat_ok (ab_hdr a1)) by (rewrite <- (er_hdr _ _ Hr1); apply (er_inv _ _ Hr1)).
  eapply wp_put_hdr; [done|]. wp_steps.
  pose proof (mat_ok_cases _ Hm) as (_ & _ & _ & Hc & _).
  pose proof (mat_ok_cases _ Hm1) as (_ & _ & _ & Hc1 & _).
  cbn [ab_hdr matrix_size]. split.
  - rewrite !u8_small by lia. rewrite CalcPos_mod, PackPos_mod by (try apply Z.mod_pos_bound; lia).
    assert (Hmod : forall n, n = 2 \/ n = 4 \/ n = 16 -> (sn mod 32) mod n = sn mod n).
    { intros n Hn. destruct Hn as [->|[->| ->]];
        apply Z.mod_mod_divide; [by exists 16|by exists 8|by exists 2]. }
    destruct (Z.eqb_spec (matrix_size (ab_hdr a)) (matrix_size (ab_hdr a1))) as [Heq|]; cbn;
      [by rewrite Hpos, Heq|]. apply Hmod. lia.
  - set (hdr' := mkMat _ _ _ _ _ _ _ _ _ _ _ _). set (s2 := set_mat _ _ _).
    rewrite <- (app_nil_r out1). eapply enc_post_trans; [exact Hp1|].
    assert (Hds : dec_same s1 s2) by (by split).
    split; [|split; [done|by apply sent_out_nil]].
    pose proof Hr1 as [Hinv1 Hh1 Hn1 Hb1 Hl1 Hf1]. split; cbn; try done.
    + apply (enc_inv_change s1); try done; [apply (inv_hdr x0 s1 EncMat (fs_enc s1) hdr'); [done|apply Hinv1]| |apply Hinv1].
      destruct Hm1 as (id & b & Hid & Hb & Hmb & Hsn1 & Hps). exists id, b. split; [done|]. split; [done|].
      cbn. unfold hdr'. rewrite Hmb. cbn. split; [done|]. split; [|done].
      assert (matrix_size (ab_hdr a1) = bk_block_size b) as <- by (by rewrite Hmb).
      rewrite PackSnToStartSn_floor by lia.
      pose proof (Z.mul_div_le sn (matrix_size (ab_hdr a1)) ltac:(lia)).
      pose proof (Z.div_pos sn (matrix_size (ab_hdr a1)) ltac:(lia) ltac:(lia)). nia.
    + intros d i Hi. pose proof (Hl1 d i Hi) as Hl.
      assert (Hnil : ab_lines a1 d i = []) by (unfold abs_flush in Hfl; injection Hfl as <- _; done).
      rewrite Hnil in *. destruct Hl as [H0 (g & Hg & Hp)]. split; [done|]. exists g.
      split; [unfold slot_of in *; by destruct d|]. destruct (fec_pack g); [by destruct Hp|done].
Qed.

Lemma enc_rep_mat a s : enc_rep s a -> mat_ok (ab_hdr a).
Proof. intros Hr. rewrite <- (er_hdr _ _ Hr). apply (er_inv _ _ Hr). Qed.

Lemma PackPos_sn sn hdr :
  mat_ok hdr -> CalcPackPosInMatrix (CalcPosInPackCache sn) (matrix_size hdr) = sn mod matrix_size hdr.
Proof.
  intros Hm. destruct (mat_ok_cases _ Hm) as (_ & _ & _ & Hc & _).
  rewrite CalcPos_mod, PackPos_mod by (try apply Z.mod_pos_bound; lia).
  destruct Hc as [(_ & _ & ->)|[(_ & _ & ->)|[(_ & _ & ->)|(_ & _ & ->)]]];
    apply Z.mod_mod_divide; [by exists 2|by exists 8|by exists 8|by exists 16].
Qed.

Lemma wp_BlockEncode pack a s :
  enc_rep s a -> bytes_ok pack ->
  wp (BlockEncode pack) (fun r s' => r = GTP_OK /\ exists ok,
    (let (a', out) := abs_block ok (packet_sn pack) (packet_bytes pack (packet_size pack)) a in
     enc_post a' out s s') /\ granted ok s s') s.
Proof.
  intros Hr Hb. pose proof (enc_rep_mat _ _ Hr) as Hm. unfold BlockEncode.
  assert (Hsn : 0 <= packet_sn pack < 2 ^ 32) by (apply load32_range; done).
  wp_steps. eapply wp_get_hdr; [done|]. rewrite (er_hdr _ _ Hr), (PackPos_sn _ _ Hm). apply wp_bind.
  unfold abs_block.
  set (sn := packet_sn pack) in *. set (needs := needs_block (ab_hdr a) sn).
  eapply (wp_mono _ (fun pos' s1 => let (a1, o1) := if needs then abs_new_block sn a else (a, []) in
     (pos' = sn mod matrix_size (ab_hdr a1) /\ enc_post a1 o1 s s1) /\ fs_refused s <= fs_refused s1)).
  { unfold needs, needs_block.
    assert (Hnew : wp (new_block sn (sn mod matrix_size (ab_hdr a))) (fun pos' s1 =>
       let (a1, o1) := abs_new_block sn a in
       (pos' = sn mod matrix_size (ab_hdr a1) /\ enc_post a1 o1 s s1) /\ fs_refused s <= fs_refused s1) s).
    { wp_use (wp_with_mono _ _ _ (mono_new_block _ _)); [by apply wp_new_block|].
      intros pos' s1. by destruct (abs_new_block sn a). }
    destruct (_ || negb _); [exact Hnew|]. cbn [orb]. destruct (_ <=? _); [exact Hnew|].
    wp_steps. split; [|lia]. split; [done|]. by apply enc_post_refl. }
  cbn beta. intros pos' s1.
  destruct (if needs then abs_new_block sn a else (a, [])) as [a1 o1]. intros ((-> & Hp1) & Hm01).
  pose proof (enc_rep_mat _ _ (proj1 Hp1)) as Hm1. pose proof (mat_ok_cases _ Hm1) as (_ & _ & _ & Hc1 & _).
  wp_use (wp_encode_lines _ _ _ _ (proj1 Hp1)); [apply Z.mod_pos_bound; lia|done|].
  intros r s' (-> & ok & L' & out & Hput & Hp & Hgr). split; [done|]. exists ok. rewrite Hput.
  split; [by eapply enc_post_trans|by eapply granted_after].
Qed.

Lemma wp_Encode pack a s :
  enc_rep s a -> bytes_ok pack ->
  wp (Encode pack) (fun r s' => r = GTP_OK /\ exists ok,
    (let (a', out) := abs_encode ok (packet_sn pack) (packet_bytes pack (packet_size pack)) a in
     enc_post a' out s s') /\ granted ok s s') s.
Proof.
  intros Hr Hb. unfold Encode. wp_step. apply wp_get. cbn beta zeta. apply wp_bind.
  set (sn := packet_sn pack). unfold abs_encode.
  eapply (wp_mono _ (fun _ s1 => let (a1, o1) := if ab_next_sn a =? sn then (a, [])
      else abs_flush (delta_sn (ab_next_sn a) sn <=? MAX_FEC2_CACHE_CAPACITY) a in
      enc_post a1 o1 s s1 /\ fs_refused s <= fs_refused s1)).
  { rewrite (er_next _ _ Hr). destruct (_ =? _); cbn [negb]; wp_steps; [split; [by apply enc_post_refl|lia]|].
    wp_use (wp_with_mono _ _ _ (mono_SetEmpty _)); [by apply wp_SetEmptyFecEnCode|].
    intros ? s1. by destruct (abs_flush _ a). }
  cbn beta. intros _ s1.
  destruct (if ab_next_sn a =? sn then (a, []) else _) as [a1 o1]. intros [Hp1 Hm01]. wp_steps.
  set (s2 := set_next_sn _ s1). set (a2 := mkAbs _ _ _ _).
  assert (Hp2 : enc_post a2 [] s1 s2).
  { pose proof (proj1 Hp1) as [Hinv Hh Hn Hbk Hl Hf].
    assert (Hds : dec_same s1 s2) by (by split). split; [|split; [done|by apply sent_out_nil]].
    split; cbn; try done. apply (enc_inv_change s1); [|done|apply Hinv|apply Hinv|done].
    apply (inv_same x0 s1); try done; [apply (ic_book _ _ (fi_core _ Hinv))|apply Hinv]. }
  pose proof (enc_rep_mat _ _ (proj1 Hp2)) as Hm2. pose proof (mat_ok_cases _ Hm2) as (Hmode & _).
  cbn [try_encode]. wp_steps. eapply wp_get_hdr; [done|].
  rewrite (er_hdr _ _ (proj1 Hp2)), Hmode. cbn [Z.eqb kBlock].
  wp_use (wp_BlockEncode _ _ _ (proj1 Hp2)); [done|]. intros r s' (-> & ok & Hp & Hgr). split; [done|]. exists ok.
  split; [|by eapply (granted_after _ s s2)]. fold sn in Hp. destruct (abs_block ok sn _ a2) as [a3 o2].
  eapply enc_post_trans; [exact Hp1|]. rewrite <- (app_nil_l o2). by eapply enc_post_trans.
Qed.

(** C11: the encoder refines the abstract encoder.  From a state that
    represents [a], [Encode] returns GTP_OK without a fault: no null or stale
    pointer is followed, no buffer is released twice, no array is indexed out
    of range.  The state it reaches represents what the abstract encoder
    computes, the decoder is untouched, every reference is accounted for (the
    invariant inside [enc_rep]), and exactly the abstract lines that left were
    handed to the send callback, each as a fec packet carrying their parity,
    bitmap, direction, index and block start.  A line misses a packet only
    when the pool refused a buffer during this very call. *)
Theorem Encode_refines (s : FecSt P E W) (a : AbsEnc) (pack : list Z) :
  enc_rep s a -> bytes_ok pack ->
  exists s' ok, Encode pack s = Some (GTP_OK, s') /\
    (fs_refused s' = fs_refused s -> forall d, ok d = true) /\
    let (a', out) := abs_encode ok (packet_sn pack) (packet_bytes pack (packet_size pack)) a in
    enc_rep s' a' /\ dec_same s s' /\ sent_out out s s'.
Proof.
  intros Hr Hb. destruct (wp_total _ _ _ (wp_Encode pack a s Hr Hb)) as (r & s' & He & -> & ok & Hp & _ & Hgr).
  by exists s', ok.
Qed.

End Refine.
End FecEncodeRefine.
