(* ===== verification/FecDecode.v ===== *)
(** * The decoder of the fec engine

    The receiving half of [GtpFec2] and [RecvFec2CodeMatrix]
    (src/src/fec2/goodtp_fec2.cpp): fec packets wait in the lines of sixteen
    decode matrices, data packets in the cache, and whenever a line lacks
    exactly one packet the packet is rebuilt from the others and enters the
    cache in its turn. *)
From Stdlib Require Export Floats.SpecFloat.
From S2P Require Import Prelude PoolInterface FecState FecBuffer FecEncode.
Export FecEncode.

Module FecDecode.

(** [ENABLE_FRAME_COPY_OUT] *)
Definition ENABLE_FRAME_COPY_OUT : bool := false.
(** [kGtpFecMd], [kFecRestoreFailedErr], [kCachePackFailedErr] *)
Definition kGtpFecMd : Z := 0x56.
Definition kFecRestoreFailedErr : Z := 0x601f.
Definition kCachePackFailedErr : Z := 0x6023.
Definition MIN_CLEAR_FEC_RECV_STEP : Z := 4.
Definition MAX_CLEAR_FEC_RECV_STEP : Z := 28.

(** ** Geometry of a line in the cache *)

(** First row of a diagonal and number of its packets, as [CalcRestorePosByUHDir]
    and [RestoreDataByUHDir] compute them. *)
Definition uh_h_start (n idx : Z) : Z :=
  let sum := u8 (idx + 1) in if sum >? n - 1 then u8 (sum - n + 1) else 0.
Definition uh_count (n idx : Z) : Z :=
  let sum := u8 (idx + 1) in
  let h_pos_end := if sum <? n then sum else u8 (n - 1) in
  u8 (h_pos_end - uh_h_start n idx + 1).
Definition dh_h_start (n idx : Z) : Z :=
  let dh_diff := idx - (n - 2) in if dh_diff >? 0 then u8 dh_diff else 0.
Definition dh_count (n idx : Z) : Z :=
  let dh_diff := idx - (n - 2) in
  let h_pos_end := if n - 1 + dh_diff <? n - 1 then u8 (n - 1 + dh_diff) else u8 (n - 1) in
  u8 (h_pos_end - dh_h_start n idx + 1).

(** Number of packets of line [idx], distance between two of them in the cache
    and the bit of the first one. *)
Definition line_walk (d : Fec2CodeDir) (m : MatHeader) (idx : Z) : Z * Z * Z :=
  let n := u8 (h_size m) in
  match d with
  | kHorizontal => (n, 1, 1)
  | kVertical => (u8 (v_size m), h_size m, 1)
  | kUpHill => (uh_count n idx, n - 1, u8 (Z.shiftl 1 (uh_h_start n idx)))
  | kDownHill => (dh_count n idx, n + 1, u8 (Z.shiftl 1 (dh_h_start n idx)))
  end.

(** The position of line [idx] of a block that starts at [start_pos], as
    [TryRecoveryPackByFecPack] computes it. *)
Definition fec_line_start (d : Fec2CodeDir) (m : MatHeader) (start_pos idx : Z) : Z :=
  let n := u8 (h_size m) in
  match d with
  | kHorizontal => Z.land (u16 (start_pos + u16 (idx * h_size m))) FEC2_CACHE_CAPACITY_MASK
  | kVertical => Z.land (u16 (start_pos + idx)) FEC2_CACHE_CAPACITY_MASK
  | kUpHill =>
      let h_pos_start := uh_h_start n idx in
      let v_pos_start := u8 (u8 (idx + 1) - h_pos_start) in
      Z.land (start_pos + h_pos_start * n + v_pos_start) FEC2_CACHE_CAPACITY_MASK
  | kDownHill =>
      let dh_diff := idx - (n - 2) in
      let h_pos_start := dh_h_start n idx in
      let v_pos_start := if dh_diff <? 0 then u8 (- dh_diff) else 0 in
      Z.land (start_pos + h_pos_start * n + v_pos_start) FEC2_CACHE_CAPACITY_MASK
  end.

(** The line of direction [d] through the packet at [cache_pos] and the
    position of its first packet, as [TryRecoveryPackByDataPack] computes them. *)
Definition data_line (d : Fec2CodeDir) (m : MatHeader) (cache_pos h_pos v_pos : Z) : option (Z * Z) :=
  let n := u8 (h_size m) in
  match d with
  | kHorizontal => Some (h_pos, CalcFirstHorizontalPosInCache cache_pos v_pos)
  | kVertical => Some (v_pos, CalcFirstVerticalPosInCache cache_pos h_pos n)
  | kUpHill =>
      let sum := h_pos + v_pos in
      if (1 <=? sum) && (sum <=? 2 * h_size m - 3) then
        let uh_sum := u8 sum in
        let h_pos_start := if uh_sum >? n - 1 then u8 (uh_sum - n + 1) else 0 in
        let v_pos_start := u8 (uh_sum - h_pos_start) in
        Some (u8 (sum - 1), Z.land (start_pos m + h_pos_start * n + v_pos_start) FEC2_CACHE_CAPACITY_MASK)
      else None
  | kDownHill =>
      let diff := h_pos - v_pos in
      if (diff >? - (h_size m - 1)) && (diff <? h_size m - 1) then
        let h_pos_start := if diff >? 0 then u8 diff else 0 in
        let v_pos_start := if diff <? 0 then u8 (- diff) else 0 in
        Some (u8 (diff + h_size m - 2), Z.land (start_pos m + h_pos_start * n + v_pos_start) FEC2_CACHE_CAPACITY_MASK)
      else None
  end.

(** The only direction of the book: nothing else can use the packets of the line. *)
Definition only_dir (d : Fec2CodeDir) (m : MatHeader) : bool :=
  match d with
  | kHorizontal => negb (v_flag m) && negb (uh_flag m) && negb (dh_flag m)
  | kVertical => negb (h_flag m) && negb (uh_flag m) && negb (dh_flag m)
  | kUpHill | kDownHill => false
  end.

Definition dir_enabled (d : Fec2CodeDir) (m : MatHeader) : bool :=
  match d with
  | kHorizontal => h_flag m | kVertical => v_flag m | kUpHill => uh_flag m | kDownHill => dh_flag m
  end.

(** ** The clearing step of [ClearResource] *)

(** A [float] or [double] of the code: the loss is a binary32 value, the
    thresholds are the binary64 values of the literals, [FLOAT_ZERO] the
    binary32 value nearest to 0.000001. *)
Definition FLOAT_ZERO : spec_float := S754_finite false 8796093 (-43).
Definition loss_thresholds : list spec_float := [
  S754_finite false 4503644663366770 (-52);   (* 1.00001 *)
  S754_finite false 5629505163712654 (-49);   (* 10.00001 *)
  S754_finite false 5629502348962887 (-48);   (* 20.00001 *)
  S754_finite false 8444252116069447 (-48)    (* 30.00001 *) ].

(** The row of the correction table. *)
Definition loss_class (loss : spec_float) : Z :=
  if SFleb loss FLOAT_ZERO then 0
  else if SFltb loss (nth 0 loss_thresholds S754_nan) then 1
  else if SFltb loss (nth 1 loss_thresholds S754_nan) then 2
  else if SFltb loss (nth 2 loss_thresholds S754_nan) then 3
  else if SFltb loss (nth 3 loss_thresholds S754_nan) then 4
  else 5.

(** [correct_k]: first action and exponent, second action and exponent. *)
Definition correct_k : list (CorrectionAct * Z * (CorrectionAct * Z)) := [
  (kZeroAct, 0, (kDecAct, 3));
  (kAddAct, 0, (kDecAct, 0));
  (kAddAct, 0, (kDecAct, 1));
  (kAddAct, 0, (kDecAct, 1));
  (kAddAct, 1, (kDecAct, 0));
  (kAddAct, 1, (kDecAct, 1)) ].

Definition std_pps : list Z := [10; 50; 100; 150; 200; 300].
Definition rsv_step : list Z := [4; 4; 8; 8; 8; 12; 12].

Fixpoint pps_class (bounds : list Z) (pps : Z) : nat :=
  match bounds with
  | [] => O
  | b :: bounds' => if b >? pps then O else S (pps_class bounds' pps)
  end.

(** [correct_step] after the limits. *)
Definition clear_step (pps : Z) (loss : spec_float) : Z :=
  let step := nth (pps_class std_pps pps) rsv_step 0 in
  let '(a1, k1, (a2, k2)) := nth (Z.to_nat (loss_class loss)) correct_k (kZeroAct, 0, (kZeroAct, 0)) in
  GtpLimit MIN_CLEAR_FEC_RECV_STEP MAX_CLEAR_FEC_RECV_STEP
    (u32 (i32 (DoCorrection step k1 a1 + DoCorrection step k2 a2))).

Section Decoder.
Context {P E W : Type} `{Countable E} `{!PackPool P E} `{!FecEnv P E W}.
Local Abbreviation M := (FM P E W).

(** [CachedFecEncodePack] *)
Definition CachedFecEncodePack (m_id : nat) (d : Fec2CodeDir) (idx : Z) (fec_code_pack : E) : M unit :=
  g ← get_slot (DecMat m_id) d idx;
  _ ← match fec_pack g with Some old => FreeTranBuf old | None => mret tt end;
  _ ← TranBufUseRefAddOne fec_code_pack;
  put_slot (DecMat m_id) d idx (mkMgr (Some fec_code_pack) (alloc_cap g)).

(** The fec packet of a slot that must not be empty. *)
Definition slot_fec (m_id : nat) (d : Fec2CodeDir) (idx : Z) : M (E * Fec2CodePack) :=
  g ← get_slot (DecMat m_id) d idx;
  e ← deref (fec_pack g);
  f ← get_fec e;
  mret (e, f).

(** One position of a line: is its packet absent?  A packet of another block
    is dropped first. *)
Definition slot_absent (move_pos start_sn end_sn : Z) : M bool :=
  o ← get_cache DecBuf move_pos;
  match o with
  | None => mret true
  | Some e =>
      b ← get_buf e;
      if CheckPackSnInBlock (packet_sn (payload b)) start_sn end_sn then mret false
      else _ ← PopPack DecBuf move_pos; mret true
  end.

(** The state of the loop of [CalcRestorePosBy*Dir]. *)
Record Scan := mkScan { sc_pos : Z; sc_bitmap : Z; sc_unrcv : Z; sc_rcved : Z; sc_res : Z }.

Definition next_pos (pos stride : Z) : Z := Z.land (u16 (pos + stride)) FEC2_CACHE_CAPACITY_MASK.

Definition scan_round (m_id : nat) (d : Fec2CodeDir) (idx stride start_sn end_sn : Z) (c : Scan) : M Scan :=
  absent ← slot_absent (sc_pos c) start_sn end_sn;
  ef ← slot_fec m_id d idx;
  let hit := negb (Z.land (fp_encode_bit_map ef.2) (sc_bitmap c) =? 0) in
  let pos' := next_pos (sc_pos c) stride in
  let bitmap' := u8 (Z.shiftl (sc_bitmap c) 1) in
  mret (if hit then
          if absent : bool then mkScan pos' bitmap' (u8 (sc_unrcv c + 1)) (sc_rcved c) (sc_pos c)
          else mkScan pos' bitmap' (sc_unrcv c) (u8 (sc_rcved c + 1)) (sc_res c)
        else mkScan pos' bitmap' (sc_unrcv c) (sc_rcved c) (sc_res c)).

(** [CalcRestorePosByHDir], [..VDir], [..UHDir], [..DHDir]: the cache position
    of the only packet the line lacks, or 0xFFFF. *)
Definition CalcRestorePos (m_id : nat) (d : Fec2CodeDir) (start_cache_pos idx : Z) : M Z :=
  hdr ← get_hdr (DecMat m_id);
  let '(count, stride, bit0) := line_walk d hdr idx in
  let start_sn := start_pack_sn hdr in
  let end_sn := u32 (start_sn + matrix_size hdr) in
  c ← for_up (Z.to_nat count) (scan_round m_id d idx stride start_sn end_sn)
        (mkScan start_cache_pos bit0 0 0 INVALID_RES_POS);
  if (sc_unrcv c =? 0) || (sc_rcved c =? count) then
    _ ← release_slot (DecMat m_id) d idx; mret INVALID_RES_POS
  else if negb (sc_unrcv c =? 1) then mret INVALID_RES_POS
  else mret (sc_res c).

Definition CalcRestorePosByHDir m_id := CalcRestorePos m_id kHorizontal.
Definition CalcRestorePosByVDir m_id := CalcRestorePos m_id kVertical.
Definition CalcRestorePosByUHDir m_id := CalcRestorePos m_id kUpHill.
Definition CalcRestorePosByDHDir m_id := CalcRestorePos m_id kDownHill.

(** One position of the loop of [RestoreDataBy*Dir]: the packet there is xored
    into the code.  The code tests neither length against the two buffers: an
    access past one of them is a fault. *)
Definition restore_round (m_id : nat) (d : Fec2CodeDir) (idx stride : Z) (pb : Z * Z) : M (Z * Z) :=
  let (move_pos, bitmap) := pb in
  ef ← slot_fec m_id d idx;
  let (e, f) := ef : E * Fec2CodePack in
  _ ← (if Z.land (fp_encode_bit_map f) bitmap =? 0 then mret tt
       else
         o ← get_cache DecBuf move_pos;
         match o with
         | None => mret tt
         | Some c =>
             b ← get_buf c;
             if negb (xor_in_bounds c b e) then fault
             else
               let (code, coded_sz) :=
                 XorEncode fe_path (payload b) (payload_len b) (fp_code f) (fp_code_len f) in
               put_fec e (mkCode (fp_hdr f) (fp_code_book_id f) (fp_encode_bit_map f) (fp_encode_dir f)
                 (fp_encode_pos f) (u16 coded_sz) (fp_stream_key f) code)
         end);
  mret (next_pos move_pos stride, u8 (Z.shiftl bitmap 1)).

(** The first eight bytes of a packet, with its size and its sequence number. *)
Definition RESTORED_HEADER_SIZE : Z := 8.

(** [RestoreDataByHDir], [..VDir], [..UHDir], [..DHDir] *)
Definition RestoreData (m_id : nat) (d : Fec2CodeDir) (start_pos res_pos idx : Z) : M Z :=
  hdr ← get_hdr (DecMat m_id);
  let '(count, stride, bit0) := line_walk d hdr idx in
  _ ← for_up (Z.to_nat count) (restore_round m_id d idx stride) (start_pos, bit0);
  ef ← slot_fec m_id d idx;
  let (e, f) := ef : E * Fec2CodePack in
  if code_room e <? RESTORED_HEADER_SIZE then fault
  else if negb (res_pos =? CalcPosInPackCache (packet_sn (fp_code f))) then
    _ ← release_slot (DecMat m_id) d idx;
    mret (GEN_ERR (fe_sys_id) kGtpFecMd kFecRestoreFailedErr)
  else
    s ← get_st;
    let '(_, (a, b, c), p, w) := fe_recv e (fp_code f) (fs_sucess_sum s, fs_failed_sum s, fs_repeat_sum s)
                                   (fs_pool s) (fs_world s) in
    _ ← mod_st (fun s => set_sums a b c (set_world w (set_pool p s)));
    _ ← PushPack DecBuf e false;
    _ ← release_slot (DecMat m_id) d idx;
    mret GTP_OK.

Definition RestoreDataByHDir m_id := RestoreData m_id kHorizontal.
Definition RestoreDataByVDir m_id := RestoreData m_id kVertical.
Definition RestoreDataByUHDir m_id := RestoreData m_id kUpHill.
Definition RestoreDataByDHDir m_id := RestoreData m_id kDownHill.

(** The packets of a finished line leave the cache. *)
Definition pop_line (d : Fec2CodeDir) (hdr : MatHeader) (start_pos : Z) : M unit :=
  let count := match d with kVertical => v_size hdr | _ => h_size hdr end in
  let stride := match d with kVertical => h_size hdr | _ => 1 end in
  _ ← for_up (Z.to_nat count) (fun pos =>
        o ← get_cache DecBuf pos;
        _ ← when (some_b o) (PopPack DecBuf pos);
        mret (next_pos pos stride)) start_pos;
  mret tt.

(** One direction of [TryRecoveryPackByDataPack]; the result tells whether the
    whole function returns. *)
Definition try_line (rec : Z -> Fec2CodeDir -> M unit) (m_id : nat) (d : Fec2CodeDir)
    (restored_type : option Fec2CodeDir) (cache_pos h_pos v_pos : Z) : M bool :=
  hdr ← get_hdr (DecMat m_id);
  if bool_decide (restored_type = Some d) || negb (dir_enabled d hdr) then mret false
  else
    match data_line d hdr cache_pos h_pos v_pos with
    | None => mret false
    | Some (idx, move_pos) =>
        g ← get_slot (DecMat m_id) d idx;
        match fec_pack g with
        | None => mret false
        | Some _ =>
            res_pos ← CalcRestorePos m_id d move_pos idx;
            if MAX_FEC2_CACHE_CAPACITY <=? res_pos then mret false
            else
              filled ← match d with
                       | kHorizontal | kVertical => o ← get_cache DecBuf res_pos; mret (some_b o)
                       | _ => mret false
                       end;
              if filled : bool then mret false
              else
                _ ← RestoreData m_id d move_pos res_pos idx;
                if only_dir d hdr then _ ← pop_line d hdr move_pos; mret true
                else _ ← rec res_pos d; mret false
        end
    end.

(** [TryRecoveryPackByDataPack]: [restored_type] is [None] for
    [kFec2RestoreBoot].  Every recursive call follows the release of a slot, so
    the number of slots bounds the depth. *)
Fixpoint TryRecoveryPackByDataPack (fuel : nat) (m_id : nat) (cache_pos : Z)
    (restored_type : option Fec2CodeDir) : M unit :=
  match fuel with
  | O => fault
  | S fuel' =>
      let rec := fun pos d => TryRecoveryPackByDataPack fuel' m_id pos (Some d) in
      hdr ← get_hdr (DecMat m_id);
      let pos_in_matrix := CalcPackPosInMatrix cache_pos (matrix_size hdr) in
      let h_pos := CalcHorizontalEncodePos hdr pos_in_matrix in
      if h_pos =? INVALID_ENCODE_POS then mret tt
      else
        let v_pos := CalcVerticalEncodePos hdr pos_in_matrix in
        if v_pos =? INVALID_ENCODE_POS then mret tt
        else
          ret ← try_line rec m_id kHorizontal restored_type cache_pos h_pos v_pos;
          if ret : bool then mret tt else
          ret ← try_line rec m_id kVertical restored_type cache_pos h_pos v_pos;
          if ret : bool then mret tt else
          _ ← try_line rec m_id kUpHill restored_type cache_pos h_pos v_pos;
          _ ← try_line rec m_id kDownHill restored_type cache_pos h_pos v_pos;
          mret tt
  end.

Definition TRY_FUEL : nat := 19.

(** [TryRecoveryPackByFecPack] *)
Definition TryRecoveryPackByFecPack (fec_encode_pos : Z) (d : Fec2CodeDir) (m_id : nat) : M unit :=
  hdr ← get_hdr (DecMat m_id);
  let start_pos := CalcPosInPackCache (start_pack_sn hdr) in
  g ← get_slot (DecMat m_id) d fec_encode_pos;
  match fec_pack g with
  | None => mret tt
  | Some _ =>
      let line_pos := fec_line_start d hdr start_pos fec_encode_pos in
      res_pos ← CalcRestorePos m_id d line_pos fec_encode_pos;
      if MAX_FEC2_CACHE_CAPACITY <=? res_pos then mret tt
      else
        filled ← match d with
                 | kHorizontal | kVertical => o ← get_cache DecBuf res_pos; mret (some_b o)
                 | _ => mret false
                 end;
        if filled : bool then mret tt
        else
          nret ← RestoreData m_id d line_pos res_pos fec_encode_pos;
          if bool_decide (d = kVertical) && negb (nret =? GTP_OK) then mret tt
          else if only_dir d hdr then pop_line d hdr line_pos
          else TryRecoveryPackByDataPack TRY_FUEL m_id res_pos (Some d)
  end.

(** ** Stale packets and matrices *)

(** The inner loop of [ClearReceiveUnUsedResource]. *)
Definition clear_block_cache (keep start count : Z) : M unit :=
  _ ← for_up (Z.to_nat count) (fun pos =>
        o ← get_cache DecBuf pos;
        _ ← when (negb (pos =? keep) && some_b o) (PopPack DecBuf pos);
        mret (Z.land (pos + 1) FEC2_CACHE_CAPACITY_MASK)) start;
  mret tt.

Definition clear_unused_round (cur_pos cur_sn : Z) (m_id : nat) : M nat :=
  dm ← get_hdr (DecMat m_id);
  let block_offset := Z.land (cur_pos + MAX_FEC2_CACHE_CAPACITY - start_pos dm) FEC2_CACHE_CAPACITY_MASK in
  _ ← when (using_flag dm && (block_offset <? matrix_size dm) &&
            negb (CheckPackSnInBlock cur_sn (start_pack_sn dm) (u32 (start_pack_sn dm + matrix_size dm))))
        (_ ← clear_block_cache cur_pos (start_pos dm) (matrix_size dm); MatrixClear (DecMat m_id));
  mret (S m_id).

Definition ClearReceiveUnUsedResource (current_pos_in_cache : Z) : M unit :=
  o ← get_cache DecBuf current_pos_in_cache;
  match o with
  | None => mret tt
  | Some e =>
      b ← get_buf e;
      let cur_sn := packet_sn (payload b) in
      _ ← for_up (Z.to_nat MAX_RECV_FEC2_MATRIX_NUM)
            (clear_unused_round current_pos_in_cache cur_sn) O;
      mret tt
  end.

(** [ClearNotBelongMatrixPack] *)
Definition not_belong_round (hdr : MatHeader) (clear_pos : Z) : M Z :=
  o ← get_cache DecBuf clear_pos;
  _ ← match o with
      | None => mret tt
      | Some e =>
          b ← get_buf e;
          when (negb (CheckPackSnInBlock (packet_sn (payload b)) (start_pack_sn hdr)
                  (u32 (start_pack_sn hdr + matrix_size hdr))))
            (PopPack DecBuf clear_pos)
      end;
  mret (next_pos clear_pos 1).

Definition ClearNotBelongMatrixPack (m_id : nat) : M unit :=
  hdr ← get_hdr (DecMat m_id);
  when (using_flag hdr)
    (let end_pos := Z.land (u16 (start_pos hdr + matrix_size hdr)) FEC2_CACHE_CAPACITY_MASK in
     _ ← while_fuel (Z.to_nat MAX_FEC2_CACHE_CAPACITY) (fun pos => negb (pos =? end_pos))
           (not_belong_round hdr) (start_pos hdr);
     mret tt).

(** [CalcRecvMatrixIdByPackSn] *)
Definition matrix_matches (pack_sn size : Z) : M (option Z) :=
  let matrix_id := PackSnToMatrixId pack_sn size in
  if MAX_RECV_FEC2_MATRIX_NUM <=? matrix_id then mret None
  else
    hdr ← get_hdr (DecMat (Z.to_nat matrix_id));
    mret (if using_flag hdr && (size =? matrix_size hdr) &&
             (start_pack_sn hdr =? PackSnToStartSn pack_sn size)
          then Some matrix_id else None).

Fixpoint first_match (pack_sn : Z) (sizes : list Z) : M Z :=
  match sizes with
  | [] => mret MAX_RECV_FEC2_MATRIX_NUM
  | size :: sizes' =>
      r ← matrix_matches pack_sn size;
      match r with Some id => mret id | None => first_match pack_sn sizes' end
  end.

Definition CalcRecvMatrixIdByPackSn (pack_sn : Z) : M Z := first_match pack_sn [2; 4; 16; 8].

(** [RecvFec2CodeMatrix::ClearSpsMatrixResource] *)
Definition ClearSpsMatrixResource (m_id : nat) : M unit :=
  hdr ← get_hdr (DecMat m_id);
  when (using_flag hdr)
    (let end_pos := Z.land (u16 (start_pos hdr + matrix_size hdr - 1)) FEC2_CACHE_CAPACITY_MASK in
     _ ← Clear DecBuf (start_pos hdr) end_pos;
     MatrixClear (DecMat m_id)).

(** ** [ClearResource] *)

(** How many positions of the block, from its start, hold packets of the block. *)
Definition block_filled (hdr : MatHeader) : M Z :=
  let end_pos := Z.land (u16 (start_pos hdr + matrix_size hdr)) FEC2_CACHE_CAPACITY_MASK in
  let end_sn := u32 (start_pack_sn hdr + matrix_size hdr) in
  c ← while_fuel (Z.to_nat MAX_FEC2_CACHE_CAPACITY)
        (fun c : bool * Z * Z => c.1.1 && negb (end_pos =? c.1.2))
        (fun c =>
           o ← get_cache DecBuf c.1.2;
           match o with
           | None => mret (false, c.1.2, c.2)
           | Some e =>
               b ← get_buf e;
               mret (if CheckPackSnInBlock (packet_sn (payload b)) (start_pack_sn hdr) end_sn
                     then (true, next_pos c.1.2 1, u16 (c.2 + 1)) else (false, c.1.2, c.2))
           end)
        (true, start_pos hdr, 0);
  mret c.2.

(** No.1 step: blocks that have lost nothing. *)
Definition clear_complete_round (m_id : nat) : M nat :=
  hdr ← get_hdr (DecMat m_id);
  _ ← when (using_flag hdr)
        (n ← block_filled hdr;
         when (matrix_size hdr <=? n) (ClearSpsMatrixResource m_id));
  mret (S m_id).

(** No.2 step: the oldest packets. *)
Definition ClearResource (loss : spec_float) : M unit :=
  _ ← for_up (Z.to_nat MAX_RECV_FEC2_MATRIX_NUM) clear_complete_round O;
  fb ← get_fbuf DecBuf;
  s ← get_st;
  let mv_pos := CalcPosInPackCache (max_cached_sn fb) in
  let correct_step := clear_step (pb_data_pack_pps (fs_pb s)) loss in
  let end_pos :=
    Z.land (if u16 correct_step <=? mv_pos then u16 (mv_pos - u16 correct_step)
            else u16 (mv_pos + MAX_FEC2_CACHE_CAPACITY - u16 correct_step)) FEC2_CACHE_CAPACITY_MASK in
  _ ← while_fuel (Z.to_nat MAX_FEC2_CACHE_CAPACITY) (fun pos => negb (end_pos =? pos))
        (fun pos =>
           o ← get_cache DecBuf pos;
           _ ← when (some_b o) (PopPack DecBuf pos);
           mret (next_pos pos 1))
        (next_pos mv_pos 1);
  mret tt.

(** [RecvFec2CodeMatrix::Init] *)
Definition RecvInit : M unit :=
  _ ← Init DecBuf;
  _ ← for_up (Z.to_nat MAX_RECV_FEC2_MATRIX_NUM) (fun i =>
        s ← get_st;
        _ ← MatrixInit (DecMat i) (fs_dec_book s); mret (S i)) O;
  mret tt.

(** [GtpFec2::PopAllPack] *)
Definition PopAllPack_all : M unit := _ ← SendInit; RecvInit.

(** ** Entry points *)

(** A data packet enters the cache. *)
Definition CacheDataPack (pack : E) : M Z :=
  r ← PushPack DecBuf pack ENABLE_FRAME_COPY_OUT;
  match r with
  | None => mret (GEN_ERR fe_sys_id kGtpFecMd kCachePackFailedErr)
  | Some cache =>
      m ← get_buf pack;
      let sn := packet_sn (payload m) in
      matrix_id ← CalcRecvMatrixIdByPackSn sn;
      c ← get_buf cache;
      _ ← when (matrix_id <? MAX_RECV_FEC2_MATRIX_NUM)
            (TryRecoveryPackByDataPack TRY_FUEL (Z.to_nat matrix_id) (cache_id c) None);
      _ ← ClearReceiveUnUsedResource (CalcPosInPackCache sn);
      mret GTP_OK
  end.

(** How [Decode] treats a fec packet of a matrix already in use. *)
Inductive FecAge := SameBlock | NewerBlock | TooLate.
Definition fec_age (start_sn sn : Z) : FecAge :=
  if start_sn =? sn then SameBlock
  else if start_sn <? sn then NewerBlock
  else if u32 (u32 (U32_MAX - start_sn) + sn) <=? MAX_FEC2_CACHE_CAPACITY then NewerBlock
  else TooLate.

(** The part of [Decode] after [fec2_decode_judge_book_chg_pos_]. *)
Definition decode_line (m_id : nat) (f : Fec2CodePack) (pack : E) (init_flag : bool) : M unit :=
  hdr ← get_hdr (DecMat m_id);
  let net_book_id := fp_code_book_id f in
  _ ← when (negb (code_book_id hdr =? net_book_id))
        (_ ← mod_st (set_dec_book (u8 net_book_id));
         b ← deref (fec_mode_book !! Z.to_nat net_book_id);
         put_hdr (DecMat m_id)
           (mat_of_book (using_flag hdr) (u8 net_book_id) b (pack_sn (fp_hdr f))
              (CalcPosInPackCache (pack_sn (fp_hdr f)))));
  _ ← when init_flag (ClearNotBelongMatrixPack m_id);
  match dir_of_Z (fp_encode_dir f) with
  | None => mret tt
  | Some d =>
      let limit := match d with
                   | kHorizontal => MAX_FEC2_MATRIX_H_SIZE
                   | kVertical => MAX_FEC2_MATRIX_V_SIZE
                   | _ => MAX_FEC2_HILL_SIZE
                   end in
      if limit <=? fp_encode_pos f then mret tt
      else
        _ ← CachedFecEncodePack m_id d (fp_encode_pos f) pack;
        TryRecoveryPackByFecPack (fp_encode_pos f) d m_id
  end.

(** [fec2_decode_cache_encode_pos_]: an unused matrix takes the packet's block. *)
Definition claim_matrix (m_id : nat) (sn : Z) : M unit :=
  hdr ← get_hdr (DecMat m_id);
  when (negb (using_flag hdr))
    (put_hdr (DecMat m_id) (mkMat true (code_book_id hdr) (matrix_size hdr) (mode hdr) (h_flag hdr)
       (v_flag hdr) (uh_flag hdr) (dh_flag hdr) (h_size hdr) (v_size hdr) sn (CalcPosInPackCache sn))).

(** A fec packet arrives. *)
Definition Decode (pack : E) : M Z :=
  f ← get_fec pack;
  if MAX_VALID_FEC2_BOOK_ID <? fp_code_book_id f then mret GTP_OK
  else
    let sn := pack_sn (fp_hdr f) in
    b ← deref (fec_mode_book !! Z.to_nat (fp_code_book_id f));
    let m_id := Z.to_nat (PackSnToMatrixId sn (bk_block_size b)) in
    hdr ← get_hdr (DecMat m_id);
    if using_flag hdr then
      match fec_age (start_pack_sn hdr) sn with
      | SameBlock => _ ← decode_line m_id f pack false; mret GTP_OK
      | NewerBlock =>
          _ ← MatrixClear (DecMat m_id);
          _ ← claim_matrix m_id sn;
          _ ← decode_line m_id f pack true; mret GTP_OK
      | TooLate => mret GTP_OK
      end
    else
      _ ← claim_matrix m_id sn;
      _ ← decode_line m_id f pack false; mret GTP_OK.

End Decoder.
End FecDecode.
