(* ===== verification/FecLines.v ===== *)
(** * Encoder and decoder agree on the lines of a block

    The encoder numbers lines and positions by the row and column of a packet
    ([place]); the decoder walks the receive cache from a first position with
    a stride and a bit that shifts.  This file shows that the walks visit
    exactly the cells of the line, each with the bit the encoder gave it. *)
From S2P Require Import Prelude FecInv FecAbstract FecDecode.
Export FecInv FecAbstract FecDecode.

Module FecLines.

(** The cells of line [idx]: position in the line and position in the block. *)
Definition line_cells (m : MatHeader) (d : Fec2CodeDir) (idx : Z) : list (Z * Z) :=
  omap (fun k =>
    let pos := Z.of_nat k in
    match place m d (pos / h_size m) (pos mod h_size m) with
    | Some (i, bp, _, _) => if i =? idx then Some (bp, pos) else None
    | None => None
    end) (seq 0 (Z.to_nat (matrix_size m))).

(** The bits and cache positions a decoder loop visits. *)
Fixpoint walk_cells (stride : Z) (n : nat) (pos bit : Z) : list (Z * Z) :=
  match n with
  | O => []
  | S n' => (bit, pos) :: walk_cells stride n' (next_pos pos stride) (u8 (Z.shiftl bit 1))
  end.
Definition line_steps (m : MatHeader) (d : Fec2CodeDir) (idx : Z) : list (Z * Z) :=
  let '(count, stride, bit0) := line_walk d m idx in
  walk_cells stride (Z.to_nat count) (fec_line_start d m (start_pos m) idx) bit0.

(** A line the code book has: enabled, with at least one cell. *)
Definition has_line (m : MatHeader) (d : Fec2CodeDir) (idx : Z) : bool :=
  dir_enabled d m && match line_cells m d idx with [] => false | _ => true end.

(** ** Finite checks over the books, the directions and the start positions *)
Definition all_dirs4 : list Fec2CodeDir := [kHorizontal; kVertical; kUpHill; kDownHill].
Definition book_headers (sp : Z) : list MatHeader :=
  imap (fun k b => mat_of_book true (Z.of_nat k) b sp sp) fec_mode_book.

Lemma all_dirs4_in d : In d all_dirs4.
Proof. destruct d; cbn; auto. Qed.

(** A property of the shape and the cache position of a header, checked for
    every book and every position. *)
Lemma check_books (P : MatHeader -> bool) :
  (forall m sn u id, P (mkMat u id (matrix_size m) (mode m) (h_flag m) (v_flag m) (uh_flag m) (dh_flag m)
     (h_size m) (v_size m) sn (start_pos m)) = P m) ->
  forallb (fun k => forallb P (book_headers (Z.of_nat k))) (seq 0 32) = true ->
  forall m, mat_ok m -> P m = true.
Proof.
  intros Hext Hc m Hm. destruct (mat_ok_cases m Hm) as (_ & _ & Hp & _).
  assert (Hr : 0 <= start_pos m < 32) by (rewrite Hp; apply CalcPos_range).
  destruct Hm as (id & b & Hid & Hb & Hm & _).
  rewrite forallb_forall in Hc. specialize (Hc (Z.to_nat (start_pos m))). rewrite Z2Nat.id in Hc by lia.
  assert (Hin : In (Z.to_nat (start_pos m)) (seq 0 32)) by (apply in_seq; lia).
  specialize (Hc Hin). rewrite forallb_forall in Hc.
  specialize (Hc (mat_of_book true id b (start_pos m) (start_pos m))).
  rewrite <- Hc.
  - rewrite Hm. cbn. apply (Hext (mat_of_book true id b (start_pos m) (start_pos m))).
  - unfold book_headers. apply list_elem_of_In, list_elem_of_lookup. exists (Z.to_nat id).
    rewrite list_lookup_imap, Hb. cbn. by rewrite Z2Nat.id.
Qed.

(** The steps of the walk are the cells of the line. *)
Definition steps_agree (m : MatHeader) (d : Fec2CodeDir) (idx : Z) : bool :=
  negb (has_line m d idx) ||
  bool_decide (line_steps m d idx =
    (fun '(bp, pos) => (Z.shiftl 1 bp, Z.land (start_pos m + pos) 31)) <$> line_cells m d idx).

(** The cells of a line: distinct positions, each in the block and in a byte. *)
Definition cells_sane (m : MatHeader) (d : Fec2CodeDir) (idx : Z) : bool :=
  bool_decide (NoDup (line_cells m d idx).*1) && bool_decide (NoDup (line_cells m d idx).*2) &&
  forallb (fun '(bp, pos) => (0 <=? bp) && (bp <? 4) && (0 <=? pos) && (pos <? matrix_size m)) (line_cells m d idx).

Definition count_sane (m : MatHeader) (d : Fec2CodeDir) (idx : Z) : bool :=
  negb (has_line m d idx) || (0 <=? (line_walk d m idx).1.1) && ((line_walk d m idx).1.1 <=? 4).

(** The line and first position [TryRecoveryPackByDataPack] computes for a
    packet of an aligned block. *)
Definition data_agrees (m : MatHeader) (d : Fec2CodeDir) (pos : Z) : bool :=
  negb (dir_enabled d m) || negb (start_pos m mod matrix_size m =? 0) || negb (pos <? matrix_size m) ||
  let cache_pos := Z.land (start_pos m + pos) 31 in
  let pim := CalcPackPosInMatrix cache_pos (matrix_size m) in
  bool_decide (data_line d m cache_pos (CalcHorizontalEncodePos m pim) (CalcVerticalEncodePos m pim) =
    match place m d (pos / h_size m) (pos mod h_size m) with
    | Some (i, _, _, _) => Some (i, fec_line_start d m (start_pos m) i)
    | None => None
    end).

Definition all_lines (P : Fec2CodeDir -> Z -> bool) (n : nat) : bool :=
  forallb (fun d => forallb (fun k => P d (Z.of_nat k)) (seq 0 n)) all_dirs4.

Lemma all_lines_elim P n d i : all_lines P n = true -> 0 <= i < Z.of_nat n -> P d i = true.
Proof.
  intros Hf Hi. unfold all_lines in Hf. rewrite forallb_forall in Hf. specialize (Hf d (all_dirs4_in d)).
  rewrite forallb_forall in Hf. rewrite <- (Hf (Z.to_nat i)); [by rewrite Z2Nat.id by lia|].
  apply in_seq. lia.
Qed.

Lemma steps_agree_ok m : mat_ok m -> all_lines (steps_agree m) 5 = true.
Proof. apply (check_books (fun m => all_lines (steps_agree m) 5)); [done|]. vm_compute. reflexivity. Qed.
Lemma cells_sane_ok m : mat_ok m -> all_lines (cells_sane m) 5 = true.
Proof. apply (check_books (fun m => all_lines (cells_sane m) 5)); [done|]. vm_compute. reflexivity. Qed.
Lemma count_sane_ok m : mat_ok m -> all_lines (count_sane m) 5 = true.
Proof. apply (check_books (fun m => all_lines (count_sane m) 5)); [done|]. vm_compute. reflexivity. Qed.
Lemma data_agrees_ok m : mat_ok m -> all_lines (data_agrees m) 16 = true.
Proof. apply (check_books (fun m => all_lines (data_agrees m) 16)); [done|]. vm_compute. reflexivity. Qed.

Lemma line_steps_cells m d idx :
  mat_ok m -> 0 <= idx < 5 -> has_line m d idx = true ->
  line_steps m d idx =
    (fun '(bp, pos) => (Z.shiftl 1 bp, Z.land (start_pos m + pos) 31)) <$> line_cells m d idx.
Proof.
  intros Hm Hi Hl. pose proof (all_lines_elim _ 5 d idx (steps_agree_ok m Hm) ltac:(lia)) as Hx.
  unfold steps_agree in Hx. rewrite Hl in Hx. by apply bool_decide_eq_true in Hx.
Qed.

Lemma line_walk_count m d idx :
  mat_ok m -> 0 <= idx < 5 -> has_line m d idx = true -> 0 <= (line_walk d m idx).1.1 <= 4.
Proof.
  intros Hm Hi Hl. pose proof (all_lines_elim _ 5 d idx (count_sane_ok m Hm) ltac:(lia)) as Hx.
  unfold count_sane in Hx. rewrite Hl in Hx. cbn [negb orb] in Hx. lia.
Qed.

Lemma line_cells_sane m d idx :
  mat_ok m -> 0 <= idx < 5 ->
  NoDup (line_cells m d idx).*1 /\ NoDup (line_cells m d idx).*2 /\
  forall bp pos, In (bp, pos) (line_cells m d idx) -> 0 <= bp < 4 /\ 0 <= pos < matrix_size m.
Proof.
  intros Hm Hi. pose proof (all_lines_elim _ 5 d idx (cells_sane_ok m Hm) ltac:(lia)) as Hx.
  unfold cells_sane in Hx. apply andb_true_iff in Hx as [[Ha Hb]%andb_true_iff Hc].
  apply bool_decide_eq_true in Ha, Hb. split; [done|]. split; [done|]. intros bp pos Hin.
  rewrite forallb_forall in Hc. specialize (Hc _ Hin). cbn in Hc. lia.
Qed.


Lemma cell_cache_pos m pos :
  mat_ok m -> 0 <= pos < matrix_size m ->
  Z.land (start_pos m + pos) 31 = CalcPosInPackCache (u32 (start_pack_sn m + pos)).
Proof.
  intros Hm Hp. destruct (mat_ok_cases m Hm) as (_ & Hs & Hsp & _).
  rewrite Hsp, !CalcPos_mod, land_mask31, Zplus_mod_idemp_l. unfold u32.
  change 4294967296 with (32 * 134217728). by rewrite Z.rem_mul_r, Z.mul_comm, Z.mod_add, Z.mod_mod by lia.
Qed.

Lemma place_cell m d pos idx bp r l :
  0 <= pos < matrix_size m -> place m d (pos / h_size m) (pos mod h_size m) = Some (idx, bp, r, l) ->
  In (bp, pos) (line_cells m d idx).
Proof.
  intros Hp Hpl. unfold line_cells. apply list_elem_of_In, list_elem_of_omap.
  exists (Z.to_nat pos). split; [apply list_elem_of_In, in_seq; lia|].
  cbv zeta. rewrite Z2Nat.id by lia. by rewrite Hpl, Z.eqb_refl.
Qed.

Lemma place_index m d pos idx bp r l :
  mat_ok m -> dir_enabled d m = true -> 0 <= pos < matrix_size m ->
  place m d (pos / h_size m) (pos mod h_size m) = Some (idx, bp, r, l) -> 0 <= idx < dir_len d.
Proof.
  intros Hm Hd Hp Hpl. destruct (mat_ok_cases m Hm) as (_ & _ & _ & Hc & _ & Hz & _).
  pose proof (Z.div_mod pos (h_size m) ltac:(lia)) as Hdm.
  pose proof (Z.mod_pos_bound pos (h_size m) ltac:(lia)) as Hv.
  pose proof (Z.div_pos pos (h_size m) ltac:(lia) ltac:(lia)) as Hh.
  set (h := pos / h_size m) in *. set (v := pos mod h_size m) in *.
  assert (h < 4) by nia.
  destruct d; cbn [place dir_enabled dir_len] in *; simplify_eq; try lia;
    destruct (_ && _) eqn:Hb in Hpl; simplify_eq; lia.
Qed.

(** C17: the two halves agree on the lines of a block.  For the packet at
    [pos], the line and the first position the decoder computes from the
    packet are those it computes from the line's fec packet; and the loop over
    that line meets exactly the packets the encoder put in it, each with the
    bit the encoder recorded, the packet at [pos] among them. *)
Theorem lines_agree (m : MatHeader) (d : Fec2CodeDir) (pos idx bp : Z) (opens closes : bool) :
  mat_ok m -> start_pack_sn m mod matrix_size m = 0 -> dir_enabled d m = true ->
  0 <= pos < matrix_size m ->
  place m d (pos / h_size m) (pos mod h_size m) = Some (idx, bp, opens, closes) ->
  let cache_pos := CalcPosInPackCache (u32 (start_pack_sn m + pos)) in
  let pim := CalcPackPosInMatrix cache_pos (matrix_size m) in
  data_line d m cache_pos (CalcHorizontalEncodePos m pim) (CalcVerticalEncodePos m pim) =
    Some (idx, fec_line_start d m (start_pos m) idx) /\
  line_steps m d idx =
    (fun '(bp, pos) => (Z.shiftl 1 bp, CalcPosInPackCache (u32 (start_pack_sn m + pos)))) <$> line_cells m d idx /\
  In (bp, pos) (line_cells m d idx).
Proof.
  intros Hm Hal Hd Hp Hpl. cbv zeta. pose proof (place_cell _ _ _ _ _ _ _ Hp Hpl) as Hin.
  pose proof (place_index _ _ _ _ _ _ _ Hm Hd Hp Hpl) as Hi.
  assert (Hi5 : 0 <= idx < 5) by (destruct d; cbn in Hi; lia). split; [|split; [|exact Hin]].
  - rewrite <- cell_cache_pos by done. destruct (mat_ok_cases m Hm) as (_ & Hs & Hsp & Hc & _).
    pose proof (all_lines_elim _ 16 d pos (data_agrees_ok m Hm) ltac:(lia)) as Hx.
    unfold data_agrees in Hx. rewrite Hd in Hx.
    assert (start_pos m mod matrix_size m = 0) as Hz.
    { rewrite Hsp, CalcPos_mod. assert (exists k, 32 = matrix_size m * k /\ 0 < k) as (k & -> & Hk).
      { destruct Hc as [(_ & _ & ->)|[(_ & _ & ->)|[(_ & _ & ->)|(_ & _ & ->)]]];
          [by exists 2|by exists 8|by exists 8|by exists 16]. }
      rewrite Z.rem_mul_r, Hal, Z.add_0_l, Z.mul_comm by lia. by apply Z.mod_mul; lia. }
    rewrite Hz, (proj2 (Z.ltb_lt _ _)) in Hx by lia. cbn [negb orb Z.eqb] in Hx.
    apply bool_decide_eq_true in Hx. rewrite Hx, Hpl. done.
  - rewrite line_steps_cells; [|done|lia|].
    2:{ unfold has_line. rewrite Hd. by destruct (line_cells m d idx). }
    destruct (line_cells_sane m d idx Hm Hi5) as (_ & _ & Hr).
    apply map_ext_in. intros [bp' pos'] Hin'. by rewrite cell_cache_pos by (try done; by eapply Hr).
Qed.

Example lines_agree_witness :
  let m := mat_of_book true 0 (mkMode kBlock true true true true 4 4 16) 48 16 in
  data_line kUpHill m 22 1 2 = Some (2, 19) /\
  line_steps m kUpHill 2 = [(1, 19); (2, 22); (4, 25); (8, 28)] /\
  In (2 - 1, 6) (line_cells m kUpHill 2).
Proof.
  assert (Hm : mat_ok (mat_of_book true 0 (mkMode kBlock true true true true 4 4 16) 48 16)).
  { eexists 0, _. split; [lia|]. split; [reflexivity|]. split; [reflexivity|]. split; [cbn; lia|reflexivity]. }
  exact (lines_agree _ kUpHill 6 2 1 false false Hm eq_refl eq_refl ltac:(cbn; lia) eq_refl).
Defined.

End FecLines.
