(* ===== verification/FecDecodeSpec.v ===== *)
(** * Safety of the decoder

    Every operation of the receiving half is fault-free and terminates: it
    follows no null or stale pointer, indexes no array out of range, releases
    no buffer twice, keeps every reference accounted for and leaves the encoder
    alone. *)
From S2P Require Import Prelude PoolInterface FecState FecBuffer FecInv FecBufferSpec FecAbstract FecEncode.
From S2P Require Import FecEncodeSpec FecEncodeRefine FecDecode.
Export FecEncodeRefine FecDecode.

Module FecDecodeSpec.

(** ** Pure facts *)
Section Pure.
Context {E : Type}.
Implicit Types (l : list (option E)) (m : Matrix E).

(** Occupied slots of a matrix. *)
Definition used m : Z :=
  occupied (fec_pack <$> h_fec_code m) + occupied (fec_pack <$> v_fec_code m) +
  occupied (fec_pack <$> uh_fec_code m) + occupied (fec_pack <$> dh_fec_code m).

Lemma occupied_cons (o : option E) l : occupied (o :: l) = ind (some_b o) + occupied l.
Proof.
  unfold occupied. rewrite filter_cons. destruct o; case_decide as Hs; cbn [length some_b ind]; try lia.
  - exfalso. apply Hs. eauto.
  - by destruct Hs.
Qed.

Lemma occupied_sub l l' :
  length l' = length l -> (forall i o, l' !! i = Some o -> l !! i = Some o \/ o = None) ->
  occupied l' <= occupied l /\
  (forall i e, l !! i = Some (Some e) -> l' !! i = Some None -> occupied l' < occupied l).
Proof.
  revert l'. induction l as [|a l IH]; intros [|a' l'] Hlen Hs; try done.
  injection Hlen as Hlen. destruct (IH l' Hlen) as [Hle Hlt]; [intros i; exact (Hs (S i))|].
  rewrite !occupied_cons. pose proof (Hs O a' eq_refl) as Ha.
  assert (Hind : ind (some_b a') <= ind (some_b a))
    by (cbn in Ha; destruct Ha as [Ha|Ha]; simplify_eq; try lia; destruct a; cbn; lia).
  split; [lia|]. intros [|i] e Hi Hi'; cbn in Hi, Hi'; simplify_eq.
  - cbn. lia.
  - specialize (Hlt i e Hi Hi'). lia.
Qed.

Lemma slots_sub_dir m m' d :
  slots_sub m' m ->
  occupied (fec_pack <$> mx_dir d m') <= occupied (fec_pack <$> mx_dir d m) /\
  (forall i g e g', mx_dir d m !! i = Some g -> fec_pack g = Some e -> mx_dir d m' !! i = Some g' ->
     fec_pack g' = None -> occupied (fec_pack <$> mx_dir d m') < occupied (fec_pack <$> mx_dir d m)).
Proof.
  intros (_ & Hl & Hs).
  destruct (occupied_sub (fec_pack <$> mx_dir d m) (fec_pack <$> mx_dir d m')) as [Hle Hlt].
  - by rewrite !length_fmap.
  - intros i o Ho. rewrite list_lookup_fmap in Ho. apply fmap_Some in Ho as (g' & Hg' & ->).
    destruct (Hs _ _ _ Hg') as (g & Hg & [->|Hn]); [left|by right]. by rewrite list_lookup_fmap, Hg.
  - split; [done|]. intros i g e g' Hg He Hg' Hn. apply (Hlt i e).
    + by rewrite list_lookup_fmap, Hg, <- He.
    + by rewrite list_lookup_fmap, Hg', <- Hn.
Qed.

Lemma used_sub m m' : slots_sub m' m -> used m' <= used m.
Proof.
  intros Hs. unfold used. pose proof (proj1 (slots_sub_dir _ _ kHorizontal Hs)).
  pose proof (proj1 (slots_sub_dir _ _ kVertical Hs)). pose proof (proj1 (slots_sub_dir _ _ kUpHill Hs)).
  pose proof (proj1 (slots_sub_dir _ _ kDownHill Hs)). cbn in *. lia.
Qed.

Lemma used_sub_lt m m' d i g e g' :
  slots_sub m' m -> mx_dir d m !! i = Some g -> fec_pack g = Some e -> mx_dir d m' !! i = Some g' ->
  fec_pack g' = None -> used m' < used m.
Proof.
  intros Hs Hg He Hg' Hn. unfold used. pose proof (proj1 (slots_sub_dir _ _ kHorizontal Hs)).
  pose proof (proj1 (slots_sub_dir _ _ kVertical Hs)). pose proof (proj1 (slots_sub_dir _ _ kUpHill Hs)).
  pose proof (proj1 (slots_sub_dir _ _ kDownHill Hs)).
  pose proof (proj2 (slots_sub_dir _ _ d Hs) i g e g' Hg He Hg' Hn). destruct d; cbn in *; lia.
Qed.

Lemma used_bound m : mat_len m -> 0 <= used m <= 18.
Proof.
  intros (H1 & H2 & H3 & H4). unfold used.
  pose proof (occupied_le (fec_pack <$> h_fec_code m)). pose proof (occupied_le (fec_pack <$> v_fec_code m)).
  pose proof (occupied_le (fec_pack <$> uh_fec_code m)). pose proof (occupied_le (fec_pack <$> dh_fec_code m)).
  rewrite !length_fmap in *. unfold occupied in *. lia.
Qed.
End Pure.

Lemma next_pos_range p k : 0 <= next_pos p k < 32.
Proof.
  unfold next_pos, FEC2_CACHE_CAPACITY_MASK. rewrite land_mask31. apply Z.mod_pos_bound. lia.
Qed.

Section Spec.
Context {P E W : Type} `{Countable E} `{!PackPool P E} `{!FecEnv P E W}.
Context `{!PackPoolLaws P E} `{!FecEnvLaws P E W}.
Implicit Types (s : FecSt P E W) (e : E) (x : E -> Z).

(** ** The invariant of a running decoder operation

    [s0] is the state the operation started from and [U] the buffers it may
    touch: those the decoder held and the packet it was given. *)
Variable s0 : FecSt P E W.
Variable U : E -> Prop.

(** The buffer [e] is large enough for what the decoder does with it: a data
    packet lies inside it, and a fec packet has room for a packet of the
    largest size, 8191 bytes, behind its header. *)
Definition roomy s e : Prop := forall b, fs_mem s !! e = Some b ->
  match buf_data b with
  | PackMem m => packet_size m <= fe_room e /\ (0 < held_in (pack_cache (fs_buf s)) e -> payload_len b <= fe_room e)
  | FecMem _ => FEC2_CODE_PACK_SIZE + 8191 <= fe_room e
  end.
Definition all_roomy s : Prop := forall y, U y -> roomy s y.

Lemma all_roomy_sub s s' : fs_mem s' = fs_mem s ->
  (forall y, 0 < held_in (pack_cache (fs_buf s')) y -> 0 < held_in (pack_cache (fs_buf s)) y) ->
  all_roomy s -> all_roomy s'.
Proof.
  intros Hm Hc Hr y Hy b Hb. rewrite Hm in Hb. specialize (Hr y Hy b Hb).
  destruct (buf_data b); [|done]. destruct Hr as [Hsz Hl]. split; [done|]. intros Hh. by apply Hl, Hc.
Qed.
(** Writing to [e] keeps the other buffers as they are. *)
Lemma all_roomy_mem s e b : (roomy s e -> roomy (set_mem (<[e := b]> (fs_mem s)) s) e) ->
  all_roomy s -> all_roomy (set_mem (<[e := b]> (fs_mem s)) s).
Proof.
  intros He Hr y Hy. destruct (decide (y = e)) as [->|Hne]; [by apply He, Hr|].
  intros b' Hb'. cbn in Hb'. rewrite lookup_insert_ne in Hb' by done. exact (Hr y Hy b' Hb').
Qed.

Record dinv x s : Prop := {
  dv_core : inv_core x s;
  dv_hdr : Forall (fun m => mat_ok (mx_hdr m)) (fs_dec s);
  dv_buf : fbuf_ok (fs_buf s);
  dv_book : 0 <= fs_dec_book s <= 5;
  dv_U : forall y, 0 < held_dec s y -> U y;
  dv_enc : fs_enc s = fs_enc s0 /\ fs_enc_buf s = fs_enc_buf s0 /\ fs_using_book s = fs_using_book s0 /\
    fs_next_sn s = fs_next_sn s0 /\ fs_pb s = fs_pb s0 /\ fs_sent s = fs_sent s0;
  dv_mem : forall y, ~ U y -> fs_mem s !! y = fs_mem s0 !! y;
  dv_dom : forall y, is_Some (fs_mem s0 !! y) -> is_Some (fs_mem s !! y);
  dv_roomy : all_roomy s0 -> all_roomy s
}.

(** The matrix [m_id]: same header, some slots emptied; the others unchanged. *)
Definition dec_rel (m_id : nat) s s' : Prop :=
  exists mt mt', fs_dec s !! m_id = Some mt /\ slots_sub mt' mt /\ fs_dec s' = <[m_id := mt']> (fs_dec s).

Lemma dec_rel_same m_id s s' mt : fs_dec s !! m_id = Some mt -> fs_dec s' = fs_dec s -> dec_rel m_id s s'.
Proof.
  intros Hm He. exists mt, mt. split; [done|]. split; [apply slots_sub_refl|]. by rewrite list_insert_id.
Qed.
Lemma dec_rel_mat m_id s s' : dec_rel m_id s s' ->
  exists mt mt', fs_dec s !! m_id = Some mt /\ fs_dec s' !! m_id = Some mt' /\ slots_sub mt' mt.
Proof.
  intros (mt & mt' & Hm & Hs & He). exists mt, mt'. split; [done|]. split; [|done].
  rewrite He. apply list_lookup_insert_eq. by eapply lookup_lt_Some.
Qed.
Lemma dec_rel_trans m_id s1 s2 s3 : dec_rel m_id s1 s2 -> dec_rel m_id s2 s3 -> dec_rel m_id s1 s3.
Proof.
  intros H12 (n & n' & Hn & Hs' & E2). destruct (dec_rel_mat _ _ _ H12) as (m & m' & Hm & Hm' & Hs).
  destruct H12 as (k & k' & Hk & _ & E1). assert (n = m') as -> by congruence. exists m, n'. split; [done|].
  split; [by eapply slots_sub_trans|]. by rewrite E2, E1, list_insert_insert_eq.
Qed.

Lemma dv_mat x s m_id : dinv x s -> (m_id < 16)%nat -> exists mt, fs_dec s !! m_id = Some mt /\ mat_ok (mx_hdr mt) /\ mat_len mt.
Proof.
  intros Hd Hm. destruct (ic_dec _ _ (dv_core _ _ Hd)) as [Hl Hf].
  destruct (lookup_lt_is_Some_2 (fs_dec s) m_id) as [mt Hmt]; [lia|]. exists mt. split; [done|].
  split; [exact (Forall_lookup_1 _ _ _ _ (dv_hdr _ _ Hd) Hmt)|exact (Forall_lookup_1 _ _ _ _ Hf Hmt)].
Qed.

(** ** The cache *)
Lemma held_in_none (l : list (option E)) i e : held_in (<[i := None]> l) e <= held_in l e.
Proof.
  destruct (l !! i) as [o|] eqn:Hi.
  - rewrite (held_in_insert _ _ _ _ _ Hi). unfold ind. repeat case_bool_decide; try done; lia.
  - rewrite list_insert_ge; [lia|]. by apply lookup_ge_None_1.
Qed.

Lemma dinv_fbuf x s s' :
  dinv x s -> only_fbuf DecBuf s s' -> inv_core x s' -> fbuf_ok (fs_buf s') ->
  (forall y, 0 < held_in (pack_cache (fs_buf s')) y -> U y) -> (all_roomy s -> all_roomy s') -> dinv x s'.
Proof.
  intros [_ Hh Hb Hbk HU He Hm Hd Hro] Ho Hi Hn Hc Hrs.
  assert (Hro' : all_roomy s0 -> all_roomy s') by auto. clear Hro Hrs. unfold only_fbuf in Ho. cbn in Ho.
  rewrite Ho in *. split; cbn in *; try done. intros y Hy. unfold held_dec in *. cbn in *.
  pose proof (held_mats_nonneg (fs_dec s) y).
  destruct (decide (0 < held_in (pack_cache (fs_buf s')) y)); [by apply Hc|]. apply HU.
  pose proof (held_in_nonneg (pack_cache (fs_buf s)) y). lia.
Qed.

Lemma dinv_fbuf_sub x s s' i :
  dinv x s -> only_fbuf DecBuf s s' -> inv_core x s' -> fbuf_ok (fs_buf s') ->
  pack_cache (fs_buf s') = <[i := None]> (pack_cache (fs_buf s)) -> dinv x s'.
Proof.
  intros Hd Ho Hi Hn Hc.
  assert (Hs : forall y, 0 < held_in (pack_cache (fs_buf s')) y -> 0 < held_in (pack_cache (fs_buf s)) y).
  { intros y Hy. rewrite Hc in Hy. pose proof (held_in_none (pack_cache (fs_buf s)) i y). lia. }
  apply (dinv_fbuf x s); try done.
  - intros y Hy. apply (dv_U _ _ Hd). specialize (Hs y Hy). unfold held_dec.
    pose proof (held_mats_nonneg (fs_dec s) y). lia.
  - apply all_roomy_sub; [by rewrite Ho|done].
Qed.

Definition cache_of s (i : Z) : option (option E) := pack_cache (fs_buf s) !! Z.to_nat i.

Lemma dv_cache x s i : dinv x s -> 0 <= i < 32 -> exists o, cache_of s i = Some o.
Proof. intros Hd Hi. exact (cache_at_some x DecBuf i s (dv_core _ _ Hd) Hi). Qed.

Lemma dv_cached_len x s i e : dinv x s -> cache_of s i = Some (Some e) ->
  exists b, fs_mem s !! e = Some b /\ payload_len b < 8192.
Proof. intros Hd Hc. apply (ic_buf _ _ (dv_core _ _ Hd)). exact (cache_held DecBuf _ _ _ Hc). Qed.
Lemma dv_cached x s i e : dinv x s -> cache_of s i = Some (Some e) -> exists b, fs_mem s !! e = Some b.
Proof. intros Hd Hc. destruct (dv_cached_len _ _ _ _ Hd Hc) as (b & ? & _). eauto. Qed.

Lemma wpd_get_cache x i s (Q : option E -> FecSt P E W -> Prop) :
  dinv x s -> 0 <= i < 32 -> (forall o, cache_of s i = Some o -> Q o s) -> wp (get_cache DecBuf i) Q s.
Proof.
  intros Hd Hi HQ. destruct (dv_cache _ _ _ Hd Hi) as [o Ho]. eapply wp_get_cache; [lia|exact Ho|]. auto.
Qed.

Lemma only_dec_fields s s' : only_fbuf DecBuf s s' ->
  fs_dec s' = fs_dec s /\ fs_mem s' = fs_mem s /\ fs_dec_book s' = fs_dec_book s.
Proof. intros ->. done. Qed.

(** What the session sees of a state: the world and the counters. *)
Definition outside s : W * (Z * Z * Z) :=
  (fs_world s, (fs_sucess_sum s, fs_failed_sum s, fs_repeat_sum s)).

Lemma wpd_PopPack x i s :
  dinv x s -> (forall y, 0 <= x y) -> 0 <= i ->
  wp (PopPack DecBuf i) (fun _ s' => dinv x s' /\ fs_dec s' = fs_dec s /\ fs_mem s' = fs_mem s /\
    pack_cache (fs_buf s') = <[Z.to_nat i := None]> (pack_cache (fs_buf s)) /\
    outside s' = outside s) s.
Proof.
  intros Hd Hx Hi. wp_use (wp_PopPack DecBuf); [apply Hd|done|apply Hd|done|].
  intros _ s' (Hi' & Ho & Hn & Hc & _). destruct (only_dec_fields _ _ Ho) as (? & ? & _).
  split; [by eapply dinv_fbuf_sub|]. split; [done|]. split; [done|]. split; [done|]. by rewrite Ho.
Qed.

(** ** Slots of the decoder *)
Lemma dinv_mat x x' s s' m_id mt mt' :
  dinv x s -> fs_dec s !! m_id = Some mt -> mat_ok (mx_hdr mt') ->
  s' = set_mat (DecMat m_id) mt' (set_pool (fs_pool s') s) -> inv_core x' s' ->
  (forall y, 0 < held_mat mt' y -> U y) -> dinv x' s'.
Proof.
  intros [Hi0 Hh Hb Hbk HU He Hm Hdom Hro] Hmt Hok Hs' Hi Hu. rewrite Hs' in *. clear Hs'. cbn -[insert] in *.
  split; cbn -[insert] in *; try done; [by apply Forall_insert|].
  intros y Hy. unfold held_dec in *. cbn -[insert] in *. rewrite (held_mats_insert _ _ mt) in Hy by done.
  destruct (decide (0 < held_mat mt' y)); [by apply Hu|]. apply HU. pose proof (held_mat_nonneg mt y).
  pose proof (held_mat_nonneg mt' y). lia.
Qed.

Lemma slots_sub_held (mt mt' : Matrix E) y : slots_sub mt' mt -> 0 < held_mat mt' y -> 0 < held_mat mt y.
Proof.
  intros (_ & Hl & Hs) Hy. unfold held_mat in Hy.
  assert (Hd : forall d, 0 < held_line (mx_dir d mt') y -> 0 < held_mat mt y).
  { intros d Hd. unfold held_line in Hd.
    apply held_in_lookup in Hd as [i Hi].
    rewrite list_lookup_fmap in Hi. apply fmap_Some in Hi as (g' & Hg' & Hy').
    destruct (Hs _ _ _ Hg') as (g & Hg & [->|Hn]); [|congruence].
    by eapply (held_mat_pos d mt i g). }
  pose proof (held_line_nonneg (h_fec_code mt') y). pose proof (held_line_nonneg (v_fec_code mt') y).
  pose proof (held_line_nonneg (uh_fec_code mt') y). pose proof (held_line_nonneg (dh_fec_code mt') y).
  destruct (decide (0 < held_line (h_fec_code mt') y)); [by apply (Hd kHorizontal)|].
  destruct (decide (0 < held_line (v_fec_code mt') y)); [by apply (Hd kVertical)|].
  destruct (decide (0 < held_line (uh_fec_code mt') y)); [by apply (Hd kUpHill)|].
  apply (Hd kDownHill). cbn [mx_dir]. lia.
Qed.

Lemma mat_held_dec s m_id mt y : fs_dec s !! m_id = Some mt -> 0 < held_mat mt y -> 0 < held_dec s y.
Proof.
  intros Hm Hy. unfold held_dec. pose proof (held_mats_pos _ _ _ _ Hm Hy).
  pose proof (held_in_nonneg (pack_cache (fs_buf s)) y). lia.
Qed.

(** An operation of [FecEncodeSpec] on the matrix [m_id]. *)
Lemma dinv_only_mat x s s' m_id :
  dinv x s -> inv_core x s' -> only_mat (DecMat m_id) s s' ->
  dinv x s' /\ dec_rel m_id s s' /\ fs_mem s' = fs_mem s /\ fs_buf s' = fs_buf s /\
  fs_world s' = fs_world s.
Proof.
  intros Hd Hi (mt & mt' & Hm & Hm' & Hs & Heq). cbn in Hm, Hm'.
  assert (Hrest : fs_mem s' = fs_mem s /\ fs_buf s' = fs_buf s /\ fs_dec s' = <[m_id := mt']> (fs_dec s) /\
    fs_world s' = fs_world s) by (by rewrite Heq).
  destruct Hrest as (E1 & E2 & E3 & E4). split; [|split; [|done]].
  - eapply (dinv_mat x x s); try done.
    + rewrite (proj1 Hs). exact (Forall_lookup_1 _ _ _ _ (dv_hdr _ _ Hd) Hm).
    + intros y Hy. apply (dv_U _ _ Hd). eapply mat_held_dec; [done|]. by eapply slots_sub_held.
  - by exists mt, mt'.
Qed.

Lemma dv_slot x s m_id d i :
  dinv x s -> (m_id < 16)%nat -> 0 <= i < dir_len d -> exists g, slot_of (DecMat m_id) d i s = Some g.
Proof.
  intros Hd Hm Hi. destruct (dv_mat _ _ _ Hd Hm) as (mt & Hmt & _ & Hl).
  eapply slot_of_some; [apply Hd|done|done].
Qed.

Lemma dv_slot_fec x s m_id d i g e :
  dinv x s -> slot_of (DecMat m_id) d i s = Some g -> fec_pack g = Some e ->
  exists b f, fs_mem s !! e = Some b /\ buf_data b = FecMem f.
Proof. intros Hd Hs Hg. apply (ic_fec _ _ (dv_core _ _ Hd)). by eapply slot_held. Qed.

(** The slot a walk works on. *)
Definition slot_full (m_id : nat) (d : Fec2CodeDir) (i : Z) (e : E) s : Prop :=
  exists g, slot_of (DecMat m_id) d i s = Some g /\ fec_pack g = Some e.

Lemma slot_full_dec m_id d i e s s' : fs_dec s' = fs_dec s -> slot_full m_id d i e s -> slot_full m_id d i e s'.
Proof. unfold slot_full, slot_of. cbn. by intros ->. Qed.

Lemma wpd_slot_fec x s m_id d i e (Q : E * Fec2CodePack -> FecSt P E W -> Prop) :
  dinv x s -> 0 <= i -> slot_full m_id d i e s ->
  (forall b f, fs_mem s !! e = Some b -> buf_data b = FecMem f -> Q (e, f) s) ->
  wp (slot_fec m_id d i) Q s.
Proof.
  intros Hd Hi (g & Hg & He) HQ. destruct (dv_slot_fec _ _ _ _ _ _ _ Hd Hg He) as (b & f & Hb & Hf).
  unfold slot_fec. wp_steps. eapply wp_get_slot; [done|done|]. wp_steps. eapply wp_deref; [done|]. wp_steps.
  eapply wp_get_fec; [done|done|]. wp_steps. eauto.
Qed.

Lemma wpd_release x s m_id d i e :
  dinv x s -> (forall y, 0 <= x y) -> 0 <= i -> slot_full m_id d i e s ->
  wp (release_slot (DecMat m_id) d i) (fun _ s' => dinv x s' /\ dec_rel m_id s s' /\
    fs_mem s' = fs_mem s /\ fs_buf s' = fs_buf s /\
    (exists g, slot_of (DecMat m_id) d i s' = Some g /\ fec_pack g = None) /\ outside s' = outside s) s.
Proof.
  intros Hd Hx Hi (g & Hg & He). wp_use wp_release_slot; [apply Hd|done|done|done|done|].
  intros _ s' (Hi' & Ho & Hs' & _). destruct (dinv_only_mat _ _ _ _ Hd Hi' Ho) as (? & ? & ? & ? & _).
  repeat (split; [done|]). split; [eauto|]. by destruct Ho as (? & ? & _ & _ & _ & ->).
Qed.

(** ** Scanning a line *)

(** The cache holds, at position [p], a packet of the block. *)
Definition present s (start_sn end_sn p : Z) : bool :=
  match cache_of s p with
  | Some (Some e) =>
      match fs_mem s !! e with
      | Some b => CheckPackSnInBlock (packet_sn (payload b)) start_sn end_sn
      | None => false
      end
  | _ => false
  end.

(** Only packets of other blocks have left the cache. *)
Definition cache_sub (start_sn end_sn : Z) s s' : Prop :=
  fs_dec s' = fs_dec s /\ fs_mem s' = fs_mem s /\
  (forall p, 0 <= p < 32 ->
    cache_of s' p = cache_of s p \/ (present s start_sn end_sn p = false /\ cache_of s' p = Some None)) /\
  outside s' = outside s.

Lemma present_sub a b s s' p : cache_sub a b s s' -> 0 <= p < 32 -> present s' a b p = present s a b p.
Proof.
  intros (_ & Hm & Hc & _) Hp. unfold present at 1. rewrite Hm. destruct (Hc p Hp) as [->|[Hf ->]]; [done|].
  by rewrite Hf.
Qed.
Lemma cache_sub_refl a b s : cache_sub a b s s.
Proof. split; [done|]. split; [done|]. split; auto. Qed.
Lemma cache_sub_trans a b s1 s2 s3 : cache_sub a b s1 s2 -> cache_sub a b s2 s3 -> cache_sub a b s1 s3.
Proof.
  intros H12 (Hd' & Hm' & Hc' & Ho'). pose proof H12 as (Hd & Hm & Hc & Ho).
  split; [congruence|]. split; [congruence|]. split; [|congruence]. intros p Hp.
  destruct (Hc' p Hp) as [->|[Hf ->]]; [by apply Hc|]. right. split; [|done].
  by rewrite <- (present_sub _ _ _ _ _ H12 Hp).
Qed.

Lemma wpd_slot_absent x s p start_sn end_sn :
  dinv x s -> (forall y, 0 <= x y) -> 0 <= p < 32 ->
  wp (slot_absent p start_sn end_sn) (fun r s' => r = negb (present s start_sn end_sn p) /\ dinv x s' /\
    cache_sub start_sn end_sn s s' /\ (r = true -> cache_of s' p = Some None)) s.
Proof.
  intros Hd Hx Hp. unfold slot_absent, present. wp_steps. eapply wpd_get_cache; [done|done|].
  intros o Ho. rewrite Ho. destruct o as [e|]; wp_steps.
  2:{ split; [done|]. split; [done|]. split; [apply cache_sub_refl|]. by rewrite Ho. }
  destruct (dv_cached _ _ _ _ Hd Ho) as [b Hb]. eapply wp_get_buf; [done|]. rewrite Hb.
  wp_steps; match goal with Hq : CheckPackSnInBlock _ _ _ = _ |- _ => rewrite Hq; rename Hq into Hchk end.
  { split; [done|]. split; [done|]. split; [apply cache_sub_refl|done]. }
  wp_use wpd_PopPack; [done|done|lia|]. intros _ s' (Hd' & He & Hm & Hc & Ho'). wp_steps.
  assert (Hcl : length (pack_cache (fs_buf s)) = 32%nat) by apply (ic_cache _ _ (dv_core _ _ Hd)).
  assert (Hp' : cache_of s' p = Some None)
    by (unfold cache_of; rewrite Hc; apply list_lookup_insert_eq; lia).
  split; [done|]. split; [done|]. split; [|done]. split; [done|]. split; [done|]. split; [|done].
  intros q Hq. destruct (decide (q = p)) as [->|Hne].
  - right. split; [|done]. unfold present. by rewrite Ho, Hb, Hchk.
  - left. unfold cache_of. rewrite Hc. apply list_lookup_insert_ne. lia.
Qed.

(** One round, and the whole walk, as functions of what is present. *)
Definition scan_step (pres : Z -> bool) (bitmap stride : Z) (c : Scan) : Scan :=
  let hit := negb (Z.land bitmap (sc_bitmap c) =? 0) in
  let pos' := next_pos (sc_pos c) stride in
  let bitmap' := u8 (Z.shiftl (sc_bitmap c) 1) in
  if hit then
    if pres (sc_pos c) then mkScan pos' bitmap' (sc_unrcv c) (u8 (sc_rcved c + 1)) (sc_res c)
    else mkScan pos' bitmap' (u8 (sc_unrcv c + 1)) (sc_rcved c) (sc_pos c)
  else mkScan pos' bitmap' (sc_unrcv c) (sc_rcved c) (sc_res c).

Fixpoint scan_run (pres : Z -> bool) (bitmap stride : Z) (n : nat) (c : Scan) : Scan :=
  match n with O => c | S n' => scan_run pres bitmap stride n' (scan_step pres bitmap stride c) end.

Lemma wpd_scan_round x s m_id d idx stride a b c e bf f :
  dinv x s -> (forall y, 0 <= x y) -> 0 <= idx -> slot_full m_id d idx e s ->
  fs_mem s !! e = Some bf -> buf_data bf = FecMem f -> 0 <= sc_pos c < 32 ->
  wp (scan_round m_id d idx stride a b c) (fun c' s' =>
    c' = scan_step (present s a b) (fp_encode_bit_map f) stride c /\ dinv x s' /\ cache_sub a b s s' /\
    (sc_res c' = sc_res c \/ sc_res c' = sc_pos c /\ cache_of s' (sc_pos c) = Some None)) s.
Proof.
  intros Hd Hx Hi Hs Hb Hf Hc. unfold scan_round, scan_step. wp_steps.
  wp_use wpd_slot_absent; [done|done|done|]. intros r s1 (-> & Hd1 & Hsub & Hnone). wp_steps.
  pose proof Hsub as (He1 & Hm1 & _).
  eapply wpd_slot_fec; [exact Hd1|done|by eapply slot_full_dec|]. intros b1 f1 Hb1 Hf1. wp_steps.
  assert (f1 = f) as -> by congruence. cbv zeta. wp_steps. cbn [snd].
  destruct (negb (Z.land (fp_encode_bit_map f) (sc_bitmap c) =? 0)), (present s a b (sc_pos c));
    cbn [negb] in *; (split; [done|]; split; [done|]; split; [done|]); cbn; auto.
Qed.

Definition scan_found (c : Scan) s : Prop :=
  sc_res c = INVALID_RES_POS \/ (0 <= sc_res c < 32 /\ cache_of s (sc_res c) = Some None).

Lemma wpd_scan x s m_id d idx stride a b n c0 e bf f :
  dinv x s -> (forall y, 0 <= x y) -> 0 <= idx -> slot_full m_id d idx e s ->
  fs_mem s !! e = Some bf -> buf_data bf = FecMem f -> 0 <= sc_pos c0 < 32 -> sc_res c0 = INVALID_RES_POS ->
  wp (for_up n (scan_round m_id d idx stride a b) c0) (fun c s' =>
    c = scan_run (present s a b) (fp_encode_bit_map f) stride n c0 /\ dinv x s' /\ cache_sub a b s s' /\
    scan_found c s') s.
Proof.
  intros Hd Hx Hi Hs Hb Hf Hc Hr. set (bm := fp_encode_bit_map f).
  eapply wp_mono.
  { apply (wp_for (fun k c s' => scan_run (present s a b) bm stride k c =
      scan_run (present s a b) bm stride n c0 /\ 0 <= sc_pos c < 32 /\ dinv x s' /\ cache_sub a b s s' /\
      scan_found c s')).
    - split; [done|]. split; [done|]. split; [done|]. split; [apply cache_sub_refl|by left].
    - intros k c s1 (Heq & Hcp & Hd1 & Hsub & Hfound). pose proof Hsub as (He1 & Hm1 & _).
      wp_use (wpd_scan_round x s1); [done|done|done|by eapply slot_full_dec|by rewrite Hm1|exact Hf|done|].
      intros c' s2 (-> & Hd2 & Hsub2 & Hres).
      assert (Hstep : scan_step (present s1 a b) bm stride c = scan_step (present s a b) bm stride c).
      { unfold scan_step. by rewrite (present_sub _ _ _ _ _ Hsub Hcp). }
      fold bm in Hres |- *. rewrite Hstep in Hres |- *. split; [exact Heq|]. split; [|split; [done|split]].
      + unfold scan_step. destruct (negb _); [destruct (present s a b (sc_pos c))|]; apply next_pos_range.
      + by eapply cache_sub_trans.
      + destruct Hres as [Hres|[Hres Hn]]; unfold scan_found; rewrite Hres; [|by right].
        destruct Hfound as [?|[Hrg Hn]]; [by left|]. right. split; [done|].
        destruct (proj1 (proj2 (proj2 Hsub2)) _ Hrg) as [->|[_ ->]]; done. }
  cbn beta. intros c s' (Heq & _ & ? & ? & ?). done.
Qed.

(** The result of [CalcRestorePos] for a line with bitmap [bm]. *)
Definition calc_result (pres : Z -> bool) (bm : Z) (walk : Z * Z * Z) (start : Z) : bool * Z :=
  let '(count, stride, bit0) := walk in
  let c := scan_run pres bm stride (Z.to_nat count) (mkScan start bit0 0 0 INVALID_RES_POS) in
  if (sc_unrcv c =? 0) || (sc_rcved c =? count) then (true, INVALID_RES_POS)
  else if negb (sc_unrcv c =? 1) then (false, INVALID_RES_POS) else (false, sc_res c).

Lemma wpd_CalcRestorePos x s m_id mt d start idx e bf f :
  dinv x s -> (forall y, 0 <= x y) -> fs_dec s !! m_id = Some mt -> 0 <= idx -> slot_full m_id d idx e s ->
  fs_mem s !! e = Some bf -> buf_data bf = FecMem f -> 0 <= start < 32 ->
  let hdr := mx_hdr mt in
  let start_sn := start_pack_sn hdr in
  let end_sn := u32 (start_sn + matrix_size hdr) in
  wp (CalcRestorePos m_id d start idx) (fun r s' => dinv x s' /\ fs_mem s' = fs_mem s /\
    let (released, res) := calc_result (present s start_sn end_sn) (fp_encode_bit_map f)
                             (line_walk d hdr idx) start in
    r = res /\
    (if released : bool then dec_rel m_id s s' else cache_sub start_sn end_sn s s') /\
    (r = INVALID_RES_POS \/ (released = false /\ 0 <= r < 32 /\ cache_of s' r = Some None))) s.
Proof.
  intros Hd Hx Hm Hi Hs Hb Hf Hst. cbv zeta. unfold CalcRestorePos, calc_result. wp_steps.
  eapply wp_get_hdr; [exact Hm|]. destruct (line_walk d (mx_hdr mt) idx) as [[count stride] bit0]. wp_steps.
  wp_use wpd_scan; [done|done|done|done|done|done|done|done|].
  intros c s1 (<- & Hd1 & Hsub & Hfound). pose proof Hsub as (He1 & Hm1 & _).
  wp_steps; repeat match goal with Hq : (_ || _) = _ |- _ => rewrite Hq; clear Hq
                   | Hq : negb _ = _ |- _ => rewrite Hq; clear Hq end.
  - wp_use wpd_release; [done|done|done|by eapply slot_full_dec|].
    intros _ s2 (Hd2 & Hr2 & Hm2 & _). wp_steps. split; [done|]. split; [congruence|]. split; [done|].
    split; [|by left]. eapply dec_rel_trans; [by eapply dec_rel_same|done].
  - split; [done|]. split; [done|]. split; [done|]. split; [done|by left].
  - split; [done|]. split; [done|]. split; [done|]. split; [done|].
    destruct Hfound as [->|[? ?]]; [by left|by right].
Qed.

(** ** Rebuilding a packet *)

(** The bytes and length of the packet cached at [p]. *)
Definition cached_bytes s (p : Z) : option (list Z * Z) :=
  match cache_of s p with
  | Some (Some c) => match fs_mem s !! c with Some b => Some (payload b, payload_len b) | None => None end
  | _ => None
  end.

(** The loop of [RestoreData] as a function of what is cached. *)
Fixpoint restore_run (look : Z -> option (list Z * Z)) (bitmap stride : Z) (n : nat) (pos bit : Z)
    (code : list Z) (len : Z) : list Z * Z :=
  match n with
  | O => (code, len)
  | S n' =>
      let (code', len') :=
        if Z.land bitmap bit =? 0 then (code, len)
        else match look pos with
             | None => (code, len)
             | Some (bytes, size) =>
                 let (c, z) := XorEncode fe_path bytes size code len in (c, u16 z)
             end in
      restore_run look bitmap stride n' (next_pos pos stride) (u8 (Z.shiftl bit 1)) code' len'
  end.

Definition not_cached e s : Prop := forall p, 0 <= p < 32 -> cache_of s p <> Some (Some e).

(** [f'] differs from [f] in its code only. *)
Definition same_meta (f f' : Fec2CodePack) : Prop :=
  fp_hdr f' = fp_hdr f /\ fp_code_book_id f' = fp_code_book_id f /\
  fp_encode_bit_map f' = fp_encode_bit_map f /\ fp_encode_dir f' = fp_encode_dir f /\
  fp_encode_pos f' = fp_encode_pos f.

(** What decides whether an access to a buffer stays in bounds. *)
Definition buf_shape (b : Buf) : Z * bool :=
  (payload_len b, match buf_data b with PackMem _ => false | FecMem _ => true end).

(** From [s] to [s'] only the code of the packet in [e] has changed. *)
Definition code_change e s s' : Prop :=
  s' = set_mem (fs_mem s') s /\ (forall y, y <> e -> fs_mem s' !! y = fs_mem s !! y) /\
  buf_shape <$> fs_mem s' !! e = buf_shape <$> fs_mem s !! e.

Lemma code_change_refl e s : code_change e s s.
Proof. split; [by destruct s|done]. Qed.
Lemma code_change_trans e s1 s2 s3 : code_change e s1 s2 -> code_change e s2 s3 -> code_change e s1 s3.
Proof.
  intros (-> & H1 & R1) (-> & H2 & R2). split; [done|]. cbn in *. split; [|congruence].
  intros y Hy. rewrite H2 by done. by apply H1.
Qed.
Lemma code_change_same e s s' : code_change e s s' -> fs_dec s' = fs_dec s /\ fs_buf s' = fs_buf s.
Proof. by intros [-> _]. Qed.
Lemma code_change_shape e s s' y : code_change e s s' -> buf_shape <$> fs_mem s' !! y = buf_shape <$> fs_mem s !! y.
Proof. intros (_ & Hm & He). destruct (decide (y = e)) as [->|Hne]; [done|]. by rewrite Hm. Qed.

(** Xoring the packet cached at [p], if there is one, into the code of [e]
    stays within both buffers. *)
Definition fits_at e s (p : Z) : Prop :=
  forall c b, cache_of s p = Some (Some c) -> fs_mem s !! c = Some b -> xor_in_bounds c b e = true.

Lemma xor_in_bounds_shape c b b' e : buf_shape b' = buf_shape b -> xor_in_bounds c b' e = xor_in_bounds c b e.
Proof.
  unfold buf_shape, xor_in_bounds, data_room. intros [= -> Hf]. by destruct (buf_data b), (buf_data b').
Qed.

Lemma fits_at_change e y s s' p : code_change y s s' -> fits_at e s p -> fits_at e s' p.
Proof.
  intros Hc Hf c b' Hp Hb'. destruct (code_change_same _ _ _ Hc) as [_ Hb].
  pose proof (code_change_shape _ _ _ c Hc) as Hs. rewrite Hb' in Hs. symmetry in Hs.
  apply fmap_Some in Hs as (b & Hbc & Hs). rewrite (xor_in_bounds_shape c b b') by done.
  apply (Hf c b); [|done]. unfold cache_of in *. by rewrite <- Hb.
Qed.

(** The cache positions the bitmap of a fec packet covers, in walking order. *)
Fixpoint covered (bitmap stride : Z) (n : nat) (pos bit : Z) : list Z :=
  match n with
  | O => []
  | S n' =>
      (if Z.land bitmap bit =? 0 then [] else [pos]) ++
      covered bitmap stride n' (next_pos pos stride) (u8 (Z.shiftl bit 1))
  end.

Lemma code_change_look e s s' p :
  code_change e s s' -> not_cached e s -> 0 <= p < 32 -> cached_bytes s' p = cached_bytes s p.
Proof.
  intros Hc Hn Hp. destruct (code_change_same _ _ _ Hc) as [_ Hb]. destruct Hc as (_ & Hm & _).
  unfold cached_bytes, cache_of in *. rewrite Hb.
  destruct (pack_cache (fs_buf s) !! Z.to_nat p) as [[c|]|] eqn:Hc; [|done..].
  rewrite Hm; [done|]. intros ->. by apply (Hn p Hp).
Qed.

Lemma dinv_put_fec x s m_id d idx e b f :
  dinv x s -> slot_full m_id d idx e s -> fs_mem s !! e = Some b ->
  dinv x (set_mem (<[e := mkBuf (cache_id b) (payload_len b) (FecMem f)]> (fs_mem s)) s).
Proof.
  intros Hd (g & Hg & He) Hb. destruct (dv_slot_fec _ _ _ _ _ _ _ Hd Hg He) as (b1 & f1 & Hb1 & Hf1). simplify_eq.
  destruct Hd as [Hi Hh Hbf Hbk HU Hen Hm Hdom Hro].
  assert (Hue : U e).
  { apply HU. apply bind_Some in Hg as (mt & Hmt & Hg). cbn in Hmt.
    eapply mat_held_dec; [done|]. by eapply held_mat_pos. }
  split; cbn; try done.
  - by apply inv_fec_mem.
  - intros y Hy. rewrite lookup_insert_ne by (intros ->; done). by apply Hm.
  - intros y Hy. destruct (decide (y = e)) as [->|Hne]; [rewrite lookup_insert_eq; eauto|].
    rewrite lookup_insert_ne by done. by apply Hdom.
  - intros H0. apply all_roomy_mem; [|by apply Hro]. intros Hr b' Hb'. cbn in Hb'. rewrite lookup_insert_eq in Hb'.
    injection Hb' as <-. specialize (Hr _ Hb). by rewrite Hf1 in Hr.
Qed.

Lemma wpd_restore_round x s m_id d idx stride pos bit e b f :
  dinv x s -> 0 <= idx -> slot_full m_id d idx e s -> fs_mem s !! e = Some b -> buf_data b = FecMem f ->
  0 <= pos < 32 -> (Z.land (fp_encode_bit_map f) bit <> 0 -> fits_at e s pos) ->
  wp (restore_round m_id d idx stride (pos, bit)) (fun pb s' =>
    pb = (next_pos pos stride, u8 (Z.shiftl bit 1)) /\ dinv x s' /\ code_change e s s' /\
    exists b' f', fs_mem s' !! e = Some b' /\ buf_data b' = FecMem f' /\ same_meta f f' /\
      (fp_code f', fp_code_len f') =
        restore_run (cached_bytes s) (fp_encode_bit_map f) stride 1 pos bit (fp_code f) (fp_code_len f)) s.
Proof.
  intros Hd Hi Hs Hb Hf Hp Hfit. unfold restore_round. wp_steps.
  eapply wpd_slot_fec; [done|done|done|]. intros b1 f1 Hb1 Hf1.
  assert (f1 = f) as -> by congruence. clear b1 Hb1 Hf1. wp_steps; cbn [restore_run];
    match goal with Hq : (_ =? 0) = _ |- _ => rewrite Hq; rename Hq into Hbit end.
  { split; [done|]. split; [done|]. split; [apply code_change_refl|]. by exists b, f. }
  apply Z.eqb_neq in Hbit. specialize (Hfit Hbit). clear Hbit.
  eapply wpd_get_cache; [done|done|]. intros o Ho. unfold cached_bytes. rewrite Ho.
  destruct o as [c|]; wp_steps.
  2:{ split; [done|]. split; [done|]. split; [apply code_change_refl|]. by exists b, f. }
  destruct (dv_cached _ _ _ _ Hd Ho) as [bc Hbc]. eapply wp_get_buf; [done|]. rewrite Hbc.
  rewrite (Hfit c bc) by done. cbn [negb]. wp_steps.
  destruct (XorEncode fe_path (payload bc) (payload_len bc) (fp_code f) (fp_code_len f)) as [code z] eqn:Hx.
  eapply wp_put_fec; [done|]. wp_steps. split; [done|]. split; [by eapply dinv_put_fec|]. split.
  - split; [done|]. cbn. split; [intros y Hy; by apply lookup_insert_ne|].
    rewrite lookup_insert_eq, Hb. unfold buf_shape. cbn. by rewrite Hf.
  - eexists _, _. split; [apply lookup_insert_eq|]. split; [done|]. split; [by split|]. done.
Qed.

Lemma restore_run_ext look look' bitmap stride n pos bit code len :
  (forall p, 0 <= p < 32 -> look p = look' p) -> 0 <= pos < 32 ->
  restore_run look bitmap stride n pos bit code len = restore_run look' bitmap stride n pos bit code len.
Proof.
  intros Hl. revert pos bit code len. induction n as [|n IH]; intros pos bit code len Hp; [done|].
  cbn [restore_run]. rewrite Hl by done.
  destruct (if Z.land bitmap bit =? 0 then _ else _) as [code' len']. apply IH. apply next_pos_range.
Qed.

Lemma restore_run_1 look bitmap stride n pos bit code len :
  restore_run look bitmap stride (S n) pos bit code len =
  let (code', len') := restore_run look bitmap stride 1 pos bit code len in
  restore_run look bitmap stride n (next_pos pos stride) (u8 (Z.shiftl bit 1)) code' len'.
Proof. cbn [restore_run]. by destruct (if Z.land bitmap bit =? 0 then _ else _). Qed.

Lemma wpd_restore_loop x s m_id d idx stride n start bit0 e b f :
  dinv x s -> 0 <= idx -> slot_full m_id d idx e s -> fs_mem s !! e = Some b -> buf_data b = FecMem f ->
  0 <= start < 32 -> (forall p, In p (covered (fp_encode_bit_map f) stride n start bit0) -> fits_at e s p) ->
  wp (for_up n (restore_round m_id d idx stride) (start, bit0)) (fun _ s' =>
    dinv x s' /\ code_change e s s' /\
    exists b' f', fs_mem s' !! e = Some b' /\ buf_data b' = FecMem f' /\ same_meta f f' /\
      (not_cached e s -> (fp_code f', fp_code_len f') =
        restore_run (cached_bytes s) (fp_encode_bit_map f) stride n start bit0 (fp_code f) (fp_code_len f))) s.
Proof.
  intros Hd Hi Hs Hb Hf Hst Hfit.
  eapply wp_mono.
  { apply (wp_for (fun k pb s' => 0 <= pb.1 < 32 /\
      (forall p, In p (covered (fp_encode_bit_map f) stride k pb.1 pb.2) -> fits_at e s p) /\
      dinv x s' /\ code_change e s s' /\
      exists b' f', fs_mem s' !! e = Some b' /\ buf_data b' = FecMem f' /\ same_meta f f' /\
        (not_cached e s ->
          restore_run (cached_bytes s) (fp_encode_bit_map f) stride k pb.1 pb.2 (fp_code f') (fp_code_len f') =
          restore_run (cached_bytes s) (fp_encode_bit_map f) stride n start bit0 (fp_code f) (fp_code_len f)))).
    - split; [done|]. split; [done|]. split; [done|]. split; [apply code_change_refl|]. by exists b, f.
    - intros k [pos bit] s1 (Hp & Hcov & Hd1 & Hc1 & b1 & f1 & Hb1 & Hf1 & Hm1 & Hr1). cbn [fst snd] in *.
      destruct (code_change_same _ _ _ Hc1) as [He1 Hbuf1].
      destruct Hm1 as (M1 & M2 & M3 & M4 & M5). cbn [covered] in Hcov.
      wp_use wpd_restore_round; [exact Hd1|done|by eapply slot_full_dec|exact Hb1|exact Hf1|done| |].
      { rewrite M3. intros Hbit%Z.eqb_neq. eapply fits_at_change; [exact Hc1|]. apply Hcov.
        rewrite Hbit. by left. }
      intros pb s2 (-> & Hd2 & Hc2 & b2 & f2 & Hb2 & Hf2 & Hm2 & Hr2). cbn [fst snd].
      split; [apply next_pos_range|]. split; [intros p Hin; apply Hcov, in_app_iff; by right|].
      split; [done|]. split; [by eapply code_change_trans|]. exists b2, f2. split; [done|]. split; [done|].
      destruct Hm2 as (N1 & N2 & N3 & N4 & N5).
      split; [unfold same_meta; repeat split; congruence|]. intros Hn. rewrite <- (Hr1 Hn), restore_run_1.
      rewrite <- (restore_run_ext (cached_bytes s1) _ _ _ 1) by (try done; intros p Hpp;
        by rewrite (code_change_look _ _ _ _ Hc1 Hn Hpp)).
      rewrite <- M3, <- Hr2. done. }
  cbn beta. intros [pos bit] s' (_ & _ & Hd' & Hc' & b' & f' & Hb' & Hf' & Hm' & Hr').
  split; [done|]. split; [done|]. exists b', f'. split; [done|]. split; [done|]. split; [done|]. exact Hr'.
Qed.

Lemma slot_full_held x s m_id d idx e : dinv x s -> slot_full m_id d idx e s -> U e /\ 0 < held s e.
Proof.
  intros Hd (g & Hg & He). split.
  - apply (dv_U _ _ Hd). apply bind_Some in Hg as (mt & Hmt & Hg). cbn in Hmt.
    eapply mat_held_dec; [done|]. by eapply held_mat_pos.
  - unfold held. pose proof (slot_held _ _ _ _ _ _ Hg He). pose proof (held_caches_nonneg s e). lia.
Qed.

(** The callback worked on the pool and on the world. *)
Lemma dinv_recv x s a b c p w :
  dinv x s -> inv_core x (set_world w (set_pool p s)) ->
  dinv x (set_sums a b c (set_world w (set_pool p s))).
Proof.
  intros [Hi Hh Hbf Hbk HU Hen Hm Hdom Hro] Hi'. split; try done.
  apply (inv_same x (set_world w (set_pool p s))); try done. apply (ic_book _ _ Hi').
Qed.

Lemma dinv_mem x s e b :
  dinv x s -> U e -> (0 < held_slots s e -> exists f, buf_data b = FecMem f) -> payload_len b < 8192 ->
  (roomy s e -> roomy (set_mem (<[e := b]> (fs_mem s)) s) e) ->
  dinv x (set_mem (<[e := b]> (fs_mem s)) s).
Proof.
  intros [Hi Hh Hbf Hbk HU Hen Hm Hdom Hro] Hu Hf Hlen Hre. split; cbn; try done.
  - by apply inv_mem.
  - intros y Hy. rewrite lookup_insert_ne by (intros ->; done). by apply Hm.
  - intros y Hy. destruct (decide (y = e)) as [->|Hne]; [rewrite lookup_insert_eq; eauto|].
    rewrite lookup_insert_ne by done. by apply Hdom.
  - intros H0. apply all_roomy_mem; [done|by apply Hro].
Qed.

(** A packet that was measured when it was cached. *)
Lemma roomy_cached s s' e b : roomy s e -> fs_mem s !! e = Some b -> fs_mem s' !! e = Some (cached_buf b) -> roomy s' e.
Proof.
  intros Hr Hb Hb' b' Hb1. rewrite Hb' in Hb1. injection Hb1 as <-. specialize (Hr b Hb).
  unfold cached_buf, payload. cbn [buf_data payload_len]. destruct (buf_data b); [|done]. by destruct Hr.
Qed.

(** Caching in place a buffer the decoder may use. *)
Lemma wpd_PushPack s e b :
  dinv x0 s -> U e -> fs_mem s !! e = Some b -> 0 < pp_refs (fs_pool s) e ->
  wp (PushPack DecBuf e false) (fun r s' => r = Some e /\ dinv x0 s' /\ fs_dec s' = fs_dec s /\
    fs_mem s' = <[e := cached_buf b]> (fs_mem s) /\ fs_dec_book s' = fs_dec_book s /\
    pack_cache (fs_buf s') =
      <[Z.to_nat (CalcPosInPackCache (packet_sn (payload b))) := Some e]> (pack_cache (fs_buf s)) /\
    outside s' = outside s) s.
Proof.
  intros Hd Hu Hb Hr. assert (Hx : forall y : E, 0 <= x0 y <= 100) by (intros y; unfold x0; lia).
  wp_use (wp_PushPack_inplace DecBuf e b x0); [apply Hd|done|done|done|apply Hd|].
  intros r s' (-> & Hi' & Ho & Hn & Hc & _). split; [done|].
  destruct (only_dec_fields _ _ Ho) as (E1 & E2 & E3). cbn in E1, E2, E3.
  split; [|split; [done|split; [done|split; [done|split; [exact Hc|by rewrite Ho]]]]].
  assert (Hle : forall y, y <> e -> 0 < held_in (pack_cache (fs_buf s')) y -> 0 < held_in (pack_cache (fs_buf s)) y).
  { intros y Hne Hy. cbn in Hc. rewrite Hc in Hy. set (i := Z.to_nat _) in Hy.
    destruct (pack_cache (fs_buf s) !! i) as [o|] eqn:Hi; [|rewrite list_insert_ge in Hy by (by apply lookup_ge_None_1); done].
    rewrite (held_in_insert _ _ _ _ _ Hi), (bool_decide_false (Some e = Some y)) in Hy by congruence.
    unfold ind in Hy. case_bool_decide; lia. }
  eapply dinv_fbuf; [|exact Ho|done|exact Hn| |].
  - apply dinv_mem; [done|done| |apply packet_size_range|].
    + intros Hh. destruct (ic_fec _ _ (dv_core _ _ Hd) e Hh) as (b' & f & Hb' & Hf). exists f. rewrite Hb in Hb'. by simplify_eq.
    + intros Hro. eapply roomy_cached; [exact Hro|exact Hb|]. cbn. by rewrite lookup_insert_eq.
  - intros y Hy. destruct (decide (y = e)) as [->|Hne]; [done|]. apply (dv_U _ _ Hd).
    unfold held_dec. pose proof (held_mats_nonneg (fs_dec s) y). specialize (Hle y Hne Hy). lia.
  - intros Hro y Hy b' Hb'. rewrite E2 in Hb'. specialize (Hro y Hy b' Hb').
    destruct (buf_data b') eqn:Hf; [|done]. destruct Hro as [Hsz Hl]. split; [done|]. intros Hh.
    destruct (decide (y = e)) as [->|Hne]; [|by apply Hl, Hle]. rewrite lookup_insert_eq in Hb'. injection Hb' as <-.
    unfold cached_buf, payload in *. cbn [buf_data payload_len] in *. by rewrite Hf.
Qed.

(** The outcome of [RestoreData]. *)
Definition restored (e : E) (res r : Z) (f : Fec2CodePack) s s' : Prop :=
  if res =? CalcPosInPackCache (packet_sn (fp_code f)) then
    r = GTP_OK /\ pack_cache (fs_buf s') = <[Z.to_nat res := Some e]> (pack_cache (fs_buf s)) /\
    (exists r0 p', fe_recv e (fp_code f) (outside s).2 (fs_pool s) (fs_world s) =
      (r0, (outside s').2, p', (outside s').1)) /\
    exists b', fs_mem s' !! e = Some b' /\ payload b' = fp_code f /\ payload_len b' = packet_size (fp_code f)
  else r = GEN_ERR fe_sys_id kGtpFecMd kFecRestoreFailedErr /\ pack_cache (fs_buf s') = pack_cache (fs_buf s).

(** Rebuilding a packet in [e] stays in bounds. *)
Definition line_fits (d : Fec2CodeDir) (m : MatHeader) (start idx : Z) e (f : Fec2CodePack) s : Prop :=
  RESTORED_HEADER_SIZE <= code_room e /\
  let '(count, stride, bit0) := line_walk d m idx in
  forall p, In p (covered (fp_encode_bit_map f) stride (Z.to_nat count) start bit0) -> fits_at e s p.

Lemma wpd_RestoreData s m_id mt d start res idx e b f :
  dinv x0 s -> fs_dec s !! m_id = Some mt -> 0 <= idx -> slot_full m_id d idx e s ->
  fs_mem s !! e = Some b -> buf_data b = FecMem f -> 0 <= start < 32 -> line_fits d (mx_hdr mt) start idx e f s ->
  wp (RestoreData m_id d start res idx) (fun r s' =>
    dinv x0 s' /\ dec_rel m_id s s' /\ slot_empty (DecMat m_id) d idx s' /\
    (forall y, y <> e -> fs_mem s' !! y = fs_mem s !! y) /\
    exists f1, same_meta f f1 /\ restored e res r f1 s s' /\
      (not_cached e s ->
        let '(count, stride, bit0) := line_walk d (mx_hdr mt) idx in
        (fp_code f1, fp_code_len f1) =
          restore_run (cached_bytes s) (fp_encode_bit_map f) stride (Z.to_nat count) start bit0
            (fp_code f) (fp_code_len f))) s.
Proof.
  intros Hd Hmt Hi Hs Hb Hf Hst [Hroom Hfit]. unfold RestoreData. wp_steps. eapply wp_get_hdr; [exact Hmt|].
  destruct (line_walk d (mx_hdr mt) idx) as [[count stride] bit0]. wp_steps.
  wp_use wpd_restore_loop; [done|done|done|done|done|done|exact Hfit|].
  intros _ s1 (Hd1 & Hc1 & b1 & f1 & Hb1 & Hf1 & Hm1 & Hrun). destruct (code_change_same _ _ _ Hc1) as [He1 Hbuf1].
  pose proof Hc1 as (Heq1 & Hmem1 & _).
  assert (Hs1 : slot_full m_id d idx e s1) by (by eapply slot_full_dec).
  wp_steps. eapply wpd_slot_fec; [done|done|exact Hs1|]. intros b2 f2 Hb2 Hf2.
  assert (f2 = f1) as -> by congruence. clear b2 Hb2 Hf2.
  destruct (slot_full_held _ _ _ _ _ _ Hd1 Hs1) as [Hu Hh].
  rewrite (proj2 (Z.ltb_ge _ _) Hroom). unfold restored. wp_steps; match goal with Hq : negb _ = _ |- _ => rename Hq into Hres end.
  - wp_use wpd_release; [done|apply x0_nonneg|done|exact Hs1|].
    intros _ s2 (Hd2 & Hr2 & Hm2 & Hb2 & Hem & _). wp_steps.
    apply negb_true_iff in Hres. split; [done|].
    split; [eapply dec_rel_trans; [by eapply dec_rel_same|done]|]. split; [exact Hem|].
    split; [intros y Hy; rewrite Hm2; by apply Hmem1|]. exists f1. split; [done|]. rewrite Hres.
    split; [|exact Hrun]. split; [done|]. by rewrite Hb2, Hbuf1.
  - apply negb_false_iff in Hres.
    destruct (fe_recv e (fp_code f1) _ (fs_pool s1) (fs_world s1)) as [[[r0 [[a0 b0] c0]] p'] w'] eqn:Hrecv.
    wp_steps. set (s2 := set_sums _ _ _ _).
    assert (Hd2 : dinv x0 s2).
    { apply dinv_recv; [done|]. eapply inv_recv; [apply Hd1|intros y; unfold x0; lia| |exact Hrecv].
      unfold x0. lia. }
    assert (Hs2 : slot_full m_id d idx e s2) by exact Hs1.
    destruct (slot_full_held _ _ _ _ _ _ Hd2 Hs2) as [_ Hh2].
    wp_use wpd_PushPack; [exact Hd2|done|exact Hb1| |].
    { eapply inv_refs_pos; [apply Hd2|]. unfold x0. lia. }
    intros r s3 (_ & Hd3 & He3 & Hm3 & _ & Hcache3 & Hout3). wp_steps.
    assert (Hs3 : slot_full m_id d idx e s3) by (by eapply slot_full_dec).
    wp_use wpd_release; [exact Hd3|apply x0_nonneg|done|exact Hs3|].
    intros _ s4 (Hd4 & Hr4 & Hm4 & Hb4 & Hem & Hout4). wp_steps.
    split; [done|].
    split; [eapply dec_rel_trans; [eapply dec_rel_same; [exact Hmt|]|exact Hr4]; by rewrite He3|].
    split; [exact Hem|]. split.
    { intros y Hy. rewrite Hm4, Hm3, lookup_insert_ne by done. by apply Hmem1. }
    exists f1. split; [done|]. rewrite Hres. split; [|exact Hrun]. split; [done|]. split; [|split].
    + rewrite Hb4, Hcache3. apply Z.eqb_eq in Hres.
      assert (payload b1 = fp_code f1) as -> by (unfold payload; by rewrite Hf1).
      rewrite <- Hres. cbn -[insert]. by rewrite Hbuf1.
    + exists r0, p'. rewrite Hout4, Hout3. rewrite Heq1 in Hrecv. exact Hrecv.
    + exists (cached_buf b1). rewrite Hm4, Hm3, lookup_insert_eq. split; [done|].
      unfold cached_buf, payload. cbn. by rewrite Hf1.
Qed.

(** ** Roomy buffers

    A size field has 13 bits, so a fec packet with room for a packet of the
    largest size is never left: from here on, the buffers the operation may
    touch are such buffers at its start. *)
Hypothesis U_roomy : all_roomy s0.

Lemma dv_cached_U x s i e : dinv x s -> cache_of s i = Some (Some e) -> U e.
Proof.
  intros Hd Hc. apply (dv_U _ _ Hd). unfold held_dec. pose proof (held_mats_nonneg (fs_dec s) e).
  pose proof (held_in_pos _ _ _ Hc). lia.
Qed.

Lemma roomy_fits x s m_id d m start idx e f : dinv x s -> slot_full m_id d idx e s -> line_fits d m start idx e f s.
Proof.
  intros Hd Hs. pose proof (dv_roomy _ _ Hd U_roomy) as Hro. destruct (id Hs) as (g & Hg & He).
  destruct (dv_slot_fec _ _ _ _ _ _ _ Hd Hg He) as (be & fe & Hbe & Hfe).
  pose proof (Hro e (proj1 (slot_full_held _ _ _ _ _ _ Hd Hs)) be Hbe) as Hre. rewrite Hfe in Hre. unfold FEC2_CODE_PACK_SIZE in Hre.
  split; [unfold RESTORED_HEADER_SIZE, code_room, FEC2_CODE_PACK_SIZE; lia|].
  destruct (line_walk d m idx) as [[count stride] bit0]. intros p _ c b Hc Hb.
  pose proof (Hro c (dv_cached_U _ _ _ _ Hd Hc) b Hb) as Hr. unfold FEC2_CODE_PACK_SIZE in Hr.
  destruct (dv_cached_len _ _ _ _ Hd Hc) as (b' & Hb' & Hl). simplify_eq.
  unfold xor_in_bounds, data_room, code_room, FEC2_CODE_PACK_SIZE.
  pose proof (held_in_pos _ _ _ Hc). destruct (buf_data b); [destruct Hr as [_ Hr]; specialize (Hr ltac:(lia))|]; lia.
Qed.

(** ** The recursion over the lines of a matrix *)
Lemma wpd_pop_line d hdr start s :
  dinv x0 s -> 0 <= start < 32 ->
  wp (pop_line d hdr start) (fun _ s' => dinv x0 s' /\ fs_dec s' = fs_dec s /\ fs_mem s' = fs_mem s) s.
Proof.
  intros Hd Hst. unfold pop_line. wp_steps. eapply wp_mono.
  { apply (wp_for (fun _ pos s' => 0 <= pos < 32 /\ dinv x0 s' /\ fs_dec s' = fs_dec s /\ fs_mem s' = fs_mem s)).
    - done.
    - intros k pos s1 (Hp & Hd1 & He1 & Hm1). wp_steps. eapply wpd_get_cache; [done|done|].
      intros o Ho. wp_steps; [|split; [apply next_pos_range|done]].
      wp_use wpd_PopPack; [done|apply x0_nonneg|lia|]. intros _ s2 (Hd2 & He2 & Hm2 & _). wp_steps.
      split; [apply next_pos_range|]. split; [done|]. split; congruence. }
  cbn beta. intros pos s' (_ & ? & ? & ?). by wp_steps.
Qed.

Lemma mask_range z : 0 <= Z.land z FEC2_CACHE_CAPACITY_MASK < 32.
Proof. unfold FEC2_CACHE_CAPACITY_MASK. rewrite land_mask31. apply Z.mod_pos_bound. lia. Qed.

Lemma data_line_range d hdr cache_pos h v idx start :
  mat_ok hdr -> grid_ok hdr h v -> dir_enabled d hdr = true -> 0 <= cache_pos < 32 ->
  data_line d hdr cache_pos h v = Some (idx, start) -> 0 <= idx < dir_len d /\ 0 <= start < 32.
Proof.
  intros Hm (Hv & Hh & Hhv) Hd Hc Hl. destruct (mat_ok_cases hdr Hm) as (_ & _ & _ & Hs & _ & Hz & _).
  assert (Hh4 : h < 4) by nia.
  destruct d; cbn [data_line dir_enabled dir_len] in *.
  - injection Hl as <- <-. split; [lia|]. rewrite CalcFirstHorizontal_mod by lia. apply Z.mod_pos_bound. lia.
  - injection Hl as <- <-. split; [lia|]. rewrite u8_small by lia. rewrite CalcFirstVertical_mod by nia.
    apply Z.mod_pos_bound. lia.
  - destruct (_ && _) eqn:Hb; [|done]. injection Hl as <- <-. split; [|apply mask_range].
    rewrite u8_small by lia. lia.
  - destruct (_ && _) eqn:Hb; [|done]. injection Hl as <- <-. split; [|apply mask_range].
    rewrite u8_small by lia. lia.
Qed.

Definition guarded (d : Fec2CodeDir) : bool := match d with kHorizontal | kVertical => true | _ => false end.

(** The guard between the calculation and the restoration never fires. *)
Lemma wpd_guard d res s (Q : bool -> FecSt P E W -> Prop) :
  0 <= res -> cache_of s res = Some None -> Q false s ->
  wp (match d with
      | kHorizontal | kVertical => o ← get_cache DecBuf res; mret (some_b o)
      | _ => mret false
      end) Q s.
Proof.
  intros Hr Hc HQ. destruct d; wp_steps; try done; (eapply wp_get_cache; [done|exact Hc|]); by wp_steps.
Qed.

Lemma dec_rel_lookup m_id s s' mt :
  dec_rel m_id s s' -> fs_dec s !! m_id = Some mt ->
  exists mt', fs_dec s' !! m_id = Some mt' /\ slots_sub mt' mt /\ mx_hdr mt' = mx_hdr mt.
Proof.
  intros Hr Hm. destruct (dec_rel_mat _ _ _ Hr) as (m & m' & Hm1 & Hm2 & Hs). simplify_eq.
  exists m'. split; [done|]. split; [done|]. apply Hs.
Qed.

Lemma dec_rel_used m_id s s' mt mt' :
  dec_rel m_id s s' -> fs_dec s !! m_id = Some mt -> fs_dec s' !! m_id = Some mt' -> used mt' <= used mt.
Proof.
  intros Hr Hm Hm'. destruct (dec_rel_lookup _ _ _ _ Hr Hm) as (m' & ? & Hs & _). simplify_eq.
  by apply used_sub.
Qed.

Lemma dec_rel_emptied m_id d idx e s s' mt mt' :
  dec_rel m_id s s' -> slot_full m_id d idx e s -> slot_empty (DecMat m_id) d idx s' ->
  fs_dec s !! m_id = Some mt -> fs_dec s' !! m_id = Some mt' -> used mt' < used mt.
Proof.
  intros Hr (g & Hg & He) (g' & Hg' & Hn) Hm Hm'.
  destruct (dec_rel_lookup _ _ _ _ Hr Hm) as (m' & ? & Hs & _). simplify_eq.
  unfold slot_of in Hg, Hg'. cbn in Hg, Hg'. rewrite Hm in Hg. rewrite Hm' in Hg'. cbn in Hg, Hg'.
  by eapply used_sub_lt.
Qed.

(** The body common to [TryRecoveryPackByFecPack] and [try_line]: restore the
    missing packet, then go on from it. *)
Definition recover_spec (n : Z) (rec : Z -> Fec2CodeDir -> FM P E W unit) (m_id : nat) : Prop :=
  forall pos d s mt, dinv x0 s -> fs_dec s !! m_id = Some mt -> used mt < n -> 0 <= pos < 32 ->
    wp (rec pos d) (fun _ s' => dinv x0 s' /\ dec_rel m_id s s') s.

Lemma wpd_try_line n rec m_id d rt cache_pos h v s mt :
  recover_spec n rec m_id -> dinv x0 s -> fs_dec s !! m_id = Some mt -> used mt <= n ->
  (m_id < 16)%nat -> 0 <= cache_pos < 32 -> grid_ok (mx_hdr mt) h v ->
  wp (try_line rec m_id d rt cache_pos h v) (fun _ s' => dinv x0 s' /\ dec_rel m_id s s') s.
Proof.
  intros Hrec Hd Hmt Hu Hmid Hc Hg. unfold try_line.
  assert (Hself : dinv x0 s /\ dec_rel m_id s s) by (split; [done|by eapply dec_rel_same]).
  wp_steps. eapply wp_get_hdr; [exact Hmt|]. wp_steps; [done|].
  match goal with Hq : _ || negb _ = false |- _ => apply orb_false_elim in Hq as [_ Hen%negb_false_iff] end.
  destruct (data_line d (mx_hdr mt) cache_pos h v) as [[idx start]|] eqn:Hline; wp_steps; [|done].
  destruct (dv_mat _ _ _ Hd Hmid) as (mt0 & Hmt0 & Hok & Hlen). simplify_eq.
  destruct (data_line_range _ _ _ _ _ _ _ Hok Hg Hen Hc Hline) as [Hi Hst].
  destruct (dv_slot _ _ _ _ _ Hd Hmid Hi) as [g Hgs]. eapply wp_get_slot; [lia|exact Hgs|].
  destruct (fec_pack g) as [e|] eqn:He; wp_steps; [|done].
  assert (Hfull : slot_full m_id d idx e s) by (by exists g).
  destruct (dv_slot_fec _ _ _ _ _ _ _ Hd Hgs He) as (b & f & Hb & Hf).
  wp_use wpd_CalcRestorePos; [done|apply x0_nonneg|exact Hmt|lia|exact Hfull|exact Hb|exact Hf|done|].
  intros r s1 (Hd1 & Hm1 & Hres).
  destruct (calc_result _ _ _ _) as [rel res]. destruct Hres as (-> & Hrel & Hfound).
  assert (Hr1 : dec_rel m_id s s1) by (destruct rel; [done|by eapply dec_rel_same; [|apply Hrel]]).
  unfold MAX_FEC2_CACHE_CAPACITY. wp_steps; [done|].
  destruct Hfound as [->|(-> & Hrange & Hnone)]; [unfold INVALID_RES_POS in *; lia|].
  eapply wpd_guard; [lia|exact Hnone|]. wp_steps.
  assert (Hfull1 : slot_full m_id d idx e s1) by (eapply slot_full_dec; [apply Hrel|exact Hfull]).
  assert (Hmt1 : fs_dec s1 !! m_id = Some mt) by (by rewrite (proj1 Hrel)).
  wp_use wpd_RestoreData; [done|exact Hmt1|lia|exact Hfull1|by rewrite Hm1|exact Hf|done|
    by eapply roomy_fits|].
  intros r2 s2 (Hd2 & Hr2 & Hem & _). destruct (dec_rel_lookup _ _ _ _ Hr2 Hmt1) as (mt2 & Hmt2 & _).
  pose proof (dec_rel_emptied _ _ _ _ _ _ _ _ Hr2 Hfull1 Hem Hmt1 Hmt2) as Hlt.
  assert (Hr12 : dec_rel m_id s s2) by (by eapply dec_rel_trans).
  wp_steps.
  - wp_use wpd_pop_line; [done|done|]. intros _ s3 (Hd3 & He3 & _). wp_steps. split; [done|].
    eapply dec_rel_trans; [exact Hr12|by eapply dec_rel_same].
  - wp_use (Hrec res d); [done|exact Hmt2|lia|done|]. intros _ s3 (Hd3 & Hr3). wp_steps. split; [done|].
    by eapply dec_rel_trans.
Qed.

(** The same from a state reached from [s]. *)
Lemma wpd_try_line_from n rec m_id d rt cache_pos h v s s1 mt :
  recover_spec n rec m_id -> dinv x0 s1 /\ dec_rel m_id s s1 -> fs_dec s !! m_id = Some mt -> used mt <= n ->
  (m_id < 16)%nat -> 0 <= cache_pos < 32 -> grid_ok (mx_hdr mt) h v ->
  wp (try_line rec m_id d rt cache_pos h v) (fun _ s' => dinv x0 s' /\ dec_rel m_id s s') s1.
Proof.
  intros Hrec [Hd Hr] Hmt Hu Hmid Hc Hg. destruct (dec_rel_lookup _ _ _ _ Hr Hmt) as (mt1 & Hmt1 & Hs & Hh).
  pose proof (used_sub _ _ Hs). wp_use (wpd_try_line n); [done|done|exact Hmt1|lia|done|done|by rewrite Hh|].
  intros _ s' [? ?]. split; [done|]. by eapply dec_rel_trans.
Qed.

Lemma wpd_TryData fuel m_id pos rt s mt :
  dinv x0 s -> fs_dec s !! m_id = Some mt -> used mt < Z.of_nat fuel -> (m_id < 16)%nat -> 0 <= pos < 32 ->
  wp (TryRecoveryPackByDataPack fuel m_id pos rt) (fun _ s' => dinv x0 s' /\ dec_rel m_id s s') s.
Proof.
  revert pos rt s mt. induction fuel as [|fuel IH]; intros pos rt s mt Hd Hmt Hu Hmid Hp.
  { destruct (dv_mat _ _ _ Hd Hmid) as (mt0 & Hmt0 & _ & Hlen). simplify_eq.
    pose proof (used_bound _ Hlen). lia. }
  cbn [TryRecoveryPackByDataPack]. set (rec := fun pos d => _).
  assert (Hrec : recover_spec (Z.of_nat fuel) rec m_id).
  { intros pos' d' s' mt' Hd' Hm' Hu' Hp'. by apply (IH pos' (Some d') s' mt'). }
  destruct (dv_mat _ _ _ Hd Hmid) as (mt0 & Hmt0 & Hok & _). simplify_eq.
  wp_steps. eapply wp_get_hdr; [exact Hmt|].
  destruct (mat_ok_cases _ Hok) as (_ & _ & _ & Hc & _).
  rewrite PackPos_mod by lia.
  assert (Hpos : 0 <= pos mod matrix_size (mx_hdr mt) < matrix_size (mx_hdr mt)) by (apply Z.mod_pos_bound; lia).
  destruct (encode_pos_div _ _ Hok Hpos) as [Eh Ev]. rewrite Eh, Ev.
  pose proof (grid_of_pos _ _ Hok Hpos) as Hg.
  assert (Hself : dinv x0 s /\ dec_rel m_id s s) by (split; [done|by eapply dec_rel_same]).
  assert (Hline : forall d s1, dinv x0 s1 /\ dec_rel m_id s s1 ->
    wp (try_line rec m_id d rt pos (pos mod matrix_size (mx_hdr mt) / h_size (mx_hdr mt))
          ((pos mod matrix_size (mx_hdr mt)) mod h_size (mx_hdr mt)))
      (fun _ s' => dinv x0 s' /\ dec_rel m_id s s') s1).
  { intros d s1 Hs1. eapply (wpd_try_line_from (Z.of_nat fuel)); try done. lia. }
  wp_steps; try done.
  wp_use Hline; [done|]. intros ret1 s1 Hs1. wp_steps; [done|].
  wp_use Hline; [done|]. intros ret2 s2 Hs2. wp_steps; [done|].
  wp_use Hline; [done|]. intros ret3 s3 Hs3. wp_steps.
  wp_use Hline; [done|]. intros ret4 s4 Hs4. by wp_steps.
Qed.

End Spec.
End FecDecodeSpec.
