(* ===== verification/FecDecodeSafe.v ===== *)
(** * The entry points of the decoder

    [Decode], [CacheDataPack], [ClearResource] and [PopAllPack] run without a
    fault from every state that satisfies the invariant, and restore it. *)
From S2P Require Import Prelude PoolInterface FecState FecBuffer FecInv FecBufferSpec FecAbstract FecEncode.
From S2P Require Import FecEncodeSpec FecEncodeRefine FecDecode FecDecodeSpec.
Export FecDecodeSpec.

Module FecDecodeSafe.

Section Safe.
Context {P E W : Type} `{Countable E} `{!PackPool P E} `{!FecEnv P E W}.
Context `{!PackPoolLaws P E} `{!FecEnvLaws P E W}.
Implicit Types (s : FecSt P E W) (e : E).

Variable s0 : FecSt P E W.
Variable U : E -> Prop.
Hypothesis U_roomy : all_roomy U s0.
Local Abbreviation DI := (dinv s0 U x0).

Lemma fec_line_start_range d hdr p idx : 0 <= fec_line_start d hdr p idx < 32.
Proof. destruct d; cbn; apply mask_range. Qed.

Lemma wpd_TryFec idx d m_id s mt :
  DI s -> fs_dec s !! m_id = Some mt -> (m_id < 16)%nat -> 0 <= idx < dir_len d ->
  wp (TryRecoveryPackByFecPack idx d m_id) (fun _ s' => DI s' /\ dec_rel m_id s s') s.
Proof.
  intros Hd Hmt Hmid Hi. unfold TryRecoveryPackByFecPack. wp_steps. eapply wp_get_hdr; [exact Hmt|]. wp_steps.
  assert (Hself : DI s /\ dec_rel m_id s s) by (split; [done|by eapply dec_rel_same]).
  destruct (dv_slot _ _ _ _ _ _ _ Hd Hmid Hi) as [g Hgs]. eapply wp_get_slot; [lia|exact Hgs|].
  destruct (fec_pack g) as [e|] eqn:He; wp_steps; [|done].
  assert (Hfull : slot_full m_id d idx e s) by (by exists g).
  destruct (dv_slot_fec _ _ _ _ _ _ _ _ _ Hd Hgs He) as (b & f & Hb & Hf).
  wp_use wpd_CalcRestorePos; [done|apply x0_nonneg|exact Hmt|lia|exact Hfull|exact Hb|exact Hf|
    apply fec_line_start_range|].
  intros r s1 (Hd1 & Hm1 & Hres).
  destruct (calc_result _ _ _ _) as [rel res]. destruct Hres as (-> & Hrel & Hfound).
  assert (Hr1 : dec_rel m_id s s1) by (destruct rel; [done|by eapply dec_rel_same; [|apply Hrel]]).
  unfold MAX_FEC2_CACHE_CAPACITY. wp_steps; [done|].
  destruct Hfound as [->|(-> & Hrange & Hnone)]; [unfold INVALID_RES_POS in *; lia|].
  eapply wpd_guard; [lia|exact Hnone|]. wp_steps.
  assert (Hfull1 : slot_full m_id d idx e s1) by (eapply slot_full_dec; [apply Hrel|exact Hfull]).
  assert (Hmt1 : fs_dec s1 !! m_id = Some mt) by (by rewrite (proj1 Hrel)).
  wp_use wpd_RestoreData; [done|exact Hmt1|lia|exact Hfull1|by rewrite Hm1|exact Hf|
    apply fec_line_start_range|by eapply (roomy_fits s0 U U_roomy)|].
  intros r2 s2 (Hd2 & Hr2 & Hem & _). destruct (dec_rel_lookup _ _ _ _ Hr2 Hmt1) as (mt2 & Hmt2 & _).
  assert (Hr12 : dec_rel m_id s s2) by (by eapply dec_rel_trans).
  wp_steps; [done| |].
  - wp_use wpd_pop_line; [done|apply fec_line_start_range|]. intros _ s3 (Hd3 & He3 & _). wp_steps.
    split; [done|]. eapply dec_rel_trans; [exact Hr12|by eapply dec_rel_same].
  - wp_use (wpd_TryData s0 U U_roomy); [done|exact Hmt2| |done|done|].
    + destruct (dv_mat _ _ _ _ _ Hd2 Hmid) as (mt3 & Hmt3 & _ & Hlen). simplify_eq.
      pose proof (used_bound _ Hlen). change (Z.of_nat TRY_FUEL) with 19. lia.
    + intros _ s3 (Hd3 & Hr3). split; [done|]. by eapply dec_rel_trans.
Qed.

(** ** Clearing *)
Lemma cleared_hdr_ok hdr :
  mat_ok hdr ->
  mat_ok (mkMat false (code_book_id hdr) (matrix_size hdr) (mode hdr) (h_flag hdr) (v_flag hdr)
    (uh_flag hdr) (dh_flag hdr) (h_size hdr) (v_size hdr) 0 0).
Proof.
  intros (id & b & Hid & Hb & Hm & Hsn & Hp). exists id, b. split; [done|]. split; [done|].
  rewrite Hm. cbn. split; [done|]. split; [lia|done].
Qed.

Lemma wpd_put_hdr m_id mt h s (Q : unit -> FecSt P E W -> Prop) :
  DI s -> fs_dec s !! m_id = Some mt -> mat_ok h ->
  (forall s', DI s' -> fs_mem s' = fs_mem s -> fs_buf s' = fs_buf s -> fs_pool s' = fs_pool s ->
     fs_world s' = fs_world s -> fs_dec s' = <[m_id := mx_set_hdr h mt]> (fs_dec s) -> Q tt s') ->
  wp (put_hdr (DecMat m_id) h) Q s.
Proof.
  intros Hd Hmt Hok HQ. eapply wp_put_hdr; [exact Hmt|]. apply HQ; try done.
  eapply (dinv_mat s0 U x0 x0 s _ m_id mt (mx_set_hdr h mt)); [done|exact Hmt|exact Hok|done|apply inv_hdr; [exact Hmt|apply Hd]|].
  intros y Hy. apply (dv_U _ _ _ _ Hd). by eapply mat_held_dec.
Qed.

Lemma wpd_MatrixClear m_id s mt :
  DI s -> fs_dec s !! m_id = Some mt ->
  wp (MatrixClear (DecMat m_id)) (fun _ s' => DI s' /\ fs_mem s' = fs_mem s /\ fs_world s' = fs_world s /\
    exists mt1, slots_sub mt1 mt /\
      fs_dec s' = <[m_id := mx_set_hdr (mkMat false (code_book_id (mx_hdr mt)) (matrix_size (mx_hdr mt))
        (mode (mx_hdr mt)) (h_flag (mx_hdr mt)) (v_flag (mx_hdr mt)) (uh_flag (mx_hdr mt))
        (dh_flag (mx_hdr mt)) (h_size (mx_hdr mt)) (v_size (mx_hdr mt)) 0 0) mt1]> (fs_dec s)) s.
Proof.
  intros Hd Hmt. unfold MatrixClear. wp_steps.
  wp_use (wp_free_lines (DecMat m_id) x0); [apply Hd|apply x0_nonneg|exact Hmt|].
  intros _ s1 (Hi1 & Ho1 & _). destruct (dinv_only_mat _ _ _ _ _ _ Hd Hi1 Ho1) as (Hd1 & Hr1 & Hm1 & Hb1 & Hw1).
  destruct (dec_rel_lookup _ _ _ _ Hr1 Hmt) as (mt1 & Hmt1 & Hs1 & Hh1).
  assert (He1 : fs_dec s1 = <[m_id := mt1]> (fs_dec s)).
  { destruct Hr1 as (k & k' & _ & _ & E1). rewrite E1 in Hmt1 |- *.
    rewrite list_lookup_insert_eq in Hmt1 by (by eapply lookup_lt_Some). by simplify_eq. }
  wp_steps. eapply wp_get_hdr; [exact Hmt1|]. wp_steps.
  eapply wpd_put_hdr; [done|exact Hmt1| |].
  - apply cleared_hdr_ok. rewrite Hh1. exact (Forall_lookup_1 _ _ _ _ (dv_hdr _ _ _ _ Hd) Hmt).
  - intros s2 Hd2 Hm2 _ _ Hw2 He2. split; [done|]. split; [congruence|]. split; [congruence|].
    exists mt1. split; [done|]. rewrite He2, He1, list_insert_insert_eq. by rewrite Hh1.
Qed.

Lemma DI_mat m_id s : DI s -> (m_id < 16)%nat ->
  exists mt, fs_dec s !! m_id = Some mt /\ mat_ok (mx_hdr mt).
Proof. intros Hd Hm. destruct (dv_mat _ _ _ _ _ Hd Hm) as (mt & ? & ? & _). eauto. Qed.

Lemma hdr_pos hdr : mat_ok hdr -> 0 <= start_pos hdr < 32 /\ 2 <= matrix_size hdr <= 16.
Proof.
  intros Hm. destruct (mat_ok_cases _ Hm) as (_ & _ & Hp & Hc & _). rewrite Hp.
  split; [apply CalcPos_range|lia].
Qed.

Lemma wpd_pop_if (c : bool) pos s :
  DI s -> 0 <= pos -> wp (when c (PopPack DecBuf pos)) (fun _ s' => DI s' /\ fs_dec s' = fs_dec s /\
    fs_mem s' = fs_mem s /\ fs_world s' = fs_world s) s.
Proof.
  intros Hd Hp. wp_steps; [|done]. wp_use wpd_PopPack; [done|apply x0_nonneg|done|].
  intros _ s' (? & ? & ? & _ & [= ? _]). done.
Qed.

Lemma wpd_clear_block keep start count s :
  DI s -> 0 <= start < 32 ->
  wp (clear_block_cache keep start count) (fun _ s' => DI s' /\ fs_dec s' = fs_dec s /\ fs_mem s' = fs_mem s) s.
Proof.
  intros Hd Hst. unfold clear_block_cache. wp_steps. eapply wp_mono.
  { apply (wp_for (fun _ pos s' => 0 <= pos < 32 /\ DI s' /\ fs_dec s' = fs_dec s /\ fs_mem s' = fs_mem s)).
    - done.
    - intros k pos s1 (Hp & Hd1 & He1 & Hm1). apply wp_bind. eapply wpd_get_cache; [done|done|].
      intros o Ho. apply wp_bind. wp_use wpd_pop_if; [done|lia|]. intros _ s2 (Hd2 & He2 & Hm2 & _). wp_steps.
      split; [apply mask_range|]. split; [done|]. split; congruence. }
  cbn beta. intros pos s' (_ & ? & ? & ?). by wp_steps.
Qed.

Lemma wpd_ClearUnused pos s :
  DI s -> 0 <= pos < 32 -> wp (ClearReceiveUnUsedResource pos) (fun _ s' => DI s') s.
Proof.
  intros Hd Hp. unfold ClearReceiveUnUsedResource. wp_steps. eapply wpd_get_cache; [done|done|]. intros o Ho.
  destruct o as [e|]; wp_steps; [|done].
  destruct (dv_cached _ _ _ _ _ _ Hd Ho) as [b Hb]. eapply wp_get_buf; [done|]. wp_steps. eapply wp_mono.
  { apply (wp_for (fun k m_id s' => m_id = (16 - k)%nat /\ (k <= 16)%nat /\ DI s')).
    - done.
    - intros k m_id s1 (-> & Hk & Hd1). unfold clear_unused_round.
      destruct (DI_mat (16 - S k) s1 Hd1 ltac:(lia)) as (mt & Hmt & Hok).
      destruct (hdr_pos _ Hok) as [Hsp Hsz].
      wp_steps; (eapply wp_get_hdr; [exact Hmt|]); wp_steps; [|split; [lia|split; [lia|done]]].
      wp_use wpd_clear_block; [done|done|]. intros _ s2 (Hd2 & He2 & _). wp_steps.
      wp_use wpd_MatrixClear; [done|by rewrite He2|]. intros _ s3 (Hd3 & _). wp_steps.
      split; [lia|split; [lia|done]]. }
  cbn beta. intros _ s' (_ & _ & ?). by wp_steps.
Qed.

Lemma mod32_dist p q : 0 <= p < 32 -> (p + ((q - p) mod 32)) mod 32 = q mod 32.
Proof. intros Hp. rewrite Zplus_mod_idemp_r. f_equal. lia. Qed.

Lemma next_pos_mod p k : 0 <= p -> 0 <= k -> p + k < 65536 -> next_pos p k = (p + k) mod 32.
Proof.
  intros. unfold next_pos, FEC2_CACHE_CAPACITY_MASK. rewrite land_mask31, u16_small by lia. done.
Qed.

(** A walk through the ring that stops at [end_pos] takes fewer than 32 steps. *)
Lemma ring_dist_step pos end_pos :
  0 <= pos < 32 -> 0 <= end_pos < 32 -> pos <> end_pos ->
  (end_pos - next_pos pos 1) mod 32 = (end_pos - pos) mod 32 - 1 /\ 0 < (end_pos - pos) mod 32.
Proof.
  intros Hp He Hne. rewrite next_pos_mod by lia. rewrite Zminus_mod_idemp_r.
  assert (Hd : (end_pos - pos) mod 32 <> 0).
  { intros Hz. apply Z.mod_divide in Hz as [q Hq]; [|lia]. lia. }
  pose proof (Z.mod_pos_bound (end_pos - pos) 32 ltac:(lia)). split; [|lia].
  replace (end_pos - (pos + 1)) with ((end_pos - pos) - 1) by lia.
  rewrite <- Zminus_mod_idemp_l. apply Z.mod_small. lia.
Qed.

Lemma wpd_NotBelong m_id s :
  DI s -> (m_id < 16)%nat ->
  wp (ClearNotBelongMatrixPack m_id) (fun _ s' => DI s' /\ fs_dec s' = fs_dec s /\ fs_mem s' = fs_mem s /\ fs_world s' = fs_world s) s.
Proof.
  intros Hd Hmid. destruct (DI_mat _ _ Hd Hmid) as (mt & Hmt & Hok). destruct (hdr_pos _ Hok) as [Hsp Hsz].
  unfold ClearNotBelongMatrixPack. wp_steps. eapply wp_get_hdr; [exact Hmt|]. wp_steps; [|done].
  set (end_pos := Z.land _ _). assert (He : 0 <= end_pos < 32) by apply mask_range.
  eapply wp_mono.
  { apply (wp_while (fun pos s' => 0 <= pos < 32 /\ DI s' /\ fs_dec s' = fs_dec s /\ fs_mem s' = fs_mem s /\ fs_world s' = fs_world s)
             (fun pos => Z.to_nat ((end_pos - pos) mod 32))).
    - done.
    - change (Z.to_nat MAX_FEC2_CACHE_CAPACITY) with 32%nat.
      pose proof (Z.mod_pos_bound (end_pos - start_pos (mx_hdr mt)) 32). lia.
    - intros pos s1 (Hp & Hd1 & He1 & Hm1 & Hw1) Hc.
      assert (Hne : pos <> end_pos) by (intros ->; by rewrite Z.eqb_refl in Hc).
      destruct (ring_dist_step _ _ Hp He Hne) as [Hstep Hpos]. split; [lia|].
      unfold not_belong_round. wp_steps. eapply wpd_get_cache; [done|done|]. intros o Ho.
      apply wp_bind. eapply (wp_mono _ (fun _ s' => DI s' /\ fs_dec s' = fs_dec s1 /\ fs_mem s' = fs_mem s1 /\ fs_world s' = fs_world s1)).
      + destruct o as [e|]; wp_steps; [|done]. destruct (dv_cached _ _ _ _ _ _ Hd1 Ho) as [b Hb].
        eapply wp_get_buf; [done|]. apply wpd_pop_if; [done|lia].
      + intros _ s2 (Hd2 & He2 & Hm2 & Hw2). wp_steps. rewrite Hstep. split; [|lia].
        split; [apply next_pos_range|]. split; [done|]. split; [congruence|]. split; congruence. }
  cbn beta. intros pos s' [(_ & ? & ? & ? & ?) _]. by wp_steps.
Qed.

(** ** Which matrix a data packet belongs to *)
Definition matches s (sn size : Z) : Prop :=
  exists mt, fs_dec s !! Z.to_nat (PackSnToMatrixId sn size) = Some mt /\
    using_flag (mx_hdr mt) = true /\ matrix_size (mx_hdr mt) = size /\
    start_pack_sn (mx_hdr mt) = PackSnToStartSn sn size.

Lemma MatrixId_range sn size : 0 <= sn -> 2 <= size <= 16 -> 0 <= PackSnToMatrixId sn size < 16.
Proof.
  intros Hsn Hs. rewrite PackSnToMatrixId_div by lia. pose proof (Z.mod_pos_bound sn 32 ltac:(lia)).
  split; [apply Z.div_pos; lia|apply Z.div_lt_upper_bound; lia].
Qed.

Lemma wpd_first_match sn sizes s :
  DI s -> 0 <= sn -> Forall (fun z => 2 <= z <= 16) sizes ->
  wp (first_match sn sizes) (fun r s' => s' = s /\
    ((exists size, In size sizes /\ r = PackSnToMatrixId sn size /\ matches s sn size) \/
     (r = MAX_RECV_FEC2_MATRIX_NUM /\ forall size, In size sizes -> ~ matches s sn size))) s.
Proof.
  intros Hd Hsn Hf. induction Hf as [|size sizes Hs _ IH]; cbn [first_match]; wp_steps.
  { split; [done|]. right. split; [done|]. intros size []. }
  pose proof (MatrixId_range sn size Hsn Hs) as Hr. unfold matrix_matches, MAX_RECV_FEC2_MATRIX_NUM at 1.
  wp_steps; [lia|].
  destruct (DI_mat (Z.to_nat (PackSnToMatrixId sn size)) s Hd ltac:(lia)) as (mt & Hmt & Hok).
  eapply wp_get_hdr; [exact Hmt|]. wp_steps.
  destruct (_ && _ && _) eqn:Hb; wp_steps.
  - apply andb_true_iff in Hb as [[Hu Hsz]%andb_true_iff Hst]. apply Z.eqb_eq in Hsz, Hst.
    split; [done|]. left. exists size. split; [by left|]. split; [done|]. exists mt. auto.
  - wp_use IH. intros r s' (-> & Hres). split; [done|].
    destruct Hres as [(sz & Hin & -> & Hm)|(-> & Hno)]; [left; exists sz; split; [by right|done]|].
    right. split; [done|]. intros sz [<-|Hin]; [|by apply Hno]. intros (mt' & Hmt' & Hu & Hsz & Hst).
    assert (mt' = mt) as -> by congruence. rewrite Hu, Hsz, Z.eqb_refl, Hst, Z.eqb_refl in Hb. done.
Qed.

Lemma wpd_CacheDataPack e b s :
  DI s -> U e -> fs_mem s !! e = Some b -> bytes_ok (payload b) -> 0 < pp_refs (fs_pool s) e ->
  wp (CacheDataPack e) (fun r s' => DI s' /\ r = GTP_OK) s.
Proof.
  intros Hd Hu Hb Hbytes Hr. unfold CacheDataPack, ENABLE_FRAME_COPY_OUT. wp_steps.
  wp_use wpd_PushPack; [done|done|exact Hb|done|]. intros r s1 (-> & Hd1 & He1 & Hm1 & _ & Hc1 & _). wp_steps.
  assert (Hb1 : fs_mem s1 !! e = Some (cached_buf b)) by (by rewrite Hm1, lookup_insert_eq).
  eapply wp_get_buf; [exact Hb1|]. rewrite payload_cached. wp_steps.
  set (sn := packet_sn (payload b)). assert (Hsn : 0 <= sn < 2 ^ 32) by (apply load32_range; done).
  wp_use wpd_first_match; [done|lia|repeat constructor; lia|]. intros mid s2 (-> & Hmid). wp_steps.
  eapply wp_get_buf; [exact Hb1|]. cbn [cache_id cached_buf]. apply wp_bind.
  pose proof (CalcPos_range sn) as Hp.
  eapply (wp_mono _ (fun _ s' => DI s')).
  { wp_steps; [|done]. unfold MAX_RECV_FEC2_MATRIX_NUM in *.
    destruct Hmid as [(size & Hin & -> & Hm)|(-> & _)]; [|lia].
    assert (2 <= size <= 16) as Hsz by (repeat destruct Hin as [<-|Hin]; try lia; done).
    pose proof (MatrixId_range sn size ltac:(lia) Hsz) as Hid.
    set (m_id := Z.to_nat _). assert (Hm16 : (m_id < 16)%nat) by (unfold m_id; lia).
    destruct (dv_mat _ _ _ _ _ Hd1 Hm16) as (mt & Hmt & Hok & Hlen).
    wp_use (wpd_TryData s0 U U_roomy); [done|exact Hmt| |done|done|by intros _ s3 [? _]].
    pose proof (used_bound _ Hlen). change (Z.of_nat TRY_FUEL) with 19. lia. }
  cbn beta. intros _ s3 Hd3. wp_steps. wp_use wpd_ClearUnused; [done|done|]. intros _ s4 Hd4. by wp_steps.
Qed.

(** ** [Decode] *)
Lemma dinv_pool x x' s p :
  dinv s0 U x s -> inv_core x' (set_pool p s) -> dinv s0 U x' (set_pool p s).
Proof. intros [Hi Hh Hbf Hdb HU Hen Hm Hdom Hro] Hi'. by split. Qed.

Lemma wpd_Cached m_id d idx e b f s mt :
  DI s -> U e -> (m_id < 16)%nat -> fs_dec s !! m_id = Some mt -> 0 <= idx < dir_len d ->
  fs_mem s !! e = Some b -> buf_data b = FecMem f -> 0 < fe_held (fs_world s) e ->
  wp (CachedFecEncodePack m_id d idx e) (fun _ s' => DI s' /\ fs_mem s' = fs_mem s /\
    fs_buf s' = fs_buf s /\ slot_full m_id d idx e s' /\
    exists mt', fs_dec s' !! m_id = Some mt' /\ mx_hdr mt' = mx_hdr mt) s.
Proof.
  intros Hd Hu Hmid Hmt Hi Hb Hf Hw. unfold CachedFecEncodePack. wp_steps.
  destruct (dv_slot _ _ _ _ _ _ _ Hd Hmid Hi) as [g Hgs]. eapply wp_get_slot; [lia|exact Hgs|]. wp_steps.
  set (x1 := fun y => x0 y - ind (bool_decide (fec_pack g = Some y))).
  eapply (wp_mono _ (fun _ s1 => exists p, s1 = set_pool p s /\ inv_core x1 s1)).
  { destruct (fec_pack g) as [old|] eqn:Hold; wp_steps.
    - pose proof (slot_free_pos _ _ _ _ _ _ _ (dv_core _ _ _ _ Hd) x0_nonneg Hgs Hold) as Hpos.
      apply wp_free; [exact (inv_refs_pos _ _ _ (dv_core _ _ _ _ Hd) Hpos)|]. eexists. split; [done|].
      pose proof (inv_free _ _ _ (dv_core _ _ _ _ Hd) Hpos) as Hj. unfold x1; rewrite ?Hold; inv_balance Hj.
    - exists (fs_pool s). split; [by destruct s|]. eapply inv_ext; [|exact (dv_core _ _ _ _ Hd)].
      intros y. unfold x1. rewrite ?Hold, bool_decide_false by done. cbn. lia. }
  cbn beta. intros _ s1 (p1 & -> & Hi1). wp_steps.
  assert (Hpos : 0 < pp_refs p1 e).
  { pose proof (ic_balance _ _ Hi1 e) as Hbal. cbn in Hbal. rewrite Hbal. unfold x1, x0.
    assert (held (set_pool p1 s) e = held s e) as -> by done.
    assert (ind (bool_decide (fec_pack g = Some e)) <= held s e); [|lia].
    unfold ind. case_bool_decide as Hg; [|unfold held; pose proof (held_slots_nonneg s e);
      pose proof (held_caches_nonneg s e); lia].
    unfold held. pose proof (slot_held _ _ _ _ _ _ Hgs Hg). pose proof (held_caches_nonneg s e). lia. }
  apply wp_addref; [exact Hpos|]. wp_steps.
  assert (Hi2 : inv_core (fun y => x1 y + ind (bool_decide (y = e))) (set_pool (pp_addref e p1) s)).
  { apply (inv_addref x1 (set_pool p1 s) e Hi1 Hpos). unfold x1, x0, ind. case_bool_decide; lia. }
  set (s2 := set_pool _ _). change (set_pool (pp_addref e p1) s) with s2 in Hi2.
  assert (Hg2 : slot_of (DecMat m_id) d idx s2 = Some g) by exact Hgs.
  eapply wp_put_slot; [exact Hg2|]. set (g' := mkMgr (Some e) (alloc_cap g)).
  assert (Hi3 : inv_core x0 (upd_slot (DecMat m_id) d idx g' s2)).
  { pose proof (inv_slot _ s2 (DecMat m_id) d idx g g' Hg2 ltac:(intros y [= <-]; eauto) Hi2) as Hj.
    unfold x1 in Hj. inv_balance Hj. }
  unfold upd_slot in *. cbn [mat_of] in *. change (fs_dec s2) with (fs_dec s) in *. rewrite Hmt in *.
  set (mt' := mx_upd d _ mt) in *. set (s3 := set_mat _ mt' s2) in *.
  assert (Hok : mat_ok (mx_hdr mt)) by exact (Forall_lookup_1 _ _ _ _ (dv_hdr _ _ _ _ Hd) Hmt).
  assert (Hhdr : mx_hdr mt' = mx_hdr mt) by (unfold mt'; apply mx_hdr_upd).
  destruct (slot_mat _ _ _ _ _ Hgs) as (mt0 & Hmt0 & Hg0). cbn in Hmt0. simplify_eq.
  split; [|split; [done|split; [done|split]]].
  - eapply (dinv_mat s0 U x0 x0 s s3 m_id mt mt'); [done|exact Hmt|by rewrite Hhdr|done|done|].
    intros y Hy. unfold mt' in Hy. rewrite (held_mat_upd d mt _ g g' y Hg0) in Hy. cbn in Hy.
    destruct (decide (y = e)) as [->|Hne]; [done|]. apply (dv_U _ _ _ _ Hd). eapply mat_held_dec; [exact Hmt|].
    rewrite (bool_decide_false (Some e = Some y)) in Hy by congruence. unfold ind in Hy. case_bool_decide; lia.
  - exists g'. split; [|done]. unfold slot_of. cbn -[insert].
    rewrite list_lookup_insert_eq by (by eapply lookup_lt_Some). cbn. unfold mt'.
    rewrite mx_dir_upd_same. apply list_lookup_insert_eq. by eapply lookup_lt_Some.
  - exists mt'. split; [|done]. cbn -[insert]. apply list_lookup_insert_eq. by eapply lookup_lt_Some.
Qed.

(** What the header fields of an incoming fec packet can hold. *)
Definition fec_fields_ok (f : Fec2CodePack) : Prop :=
  0 <= fp_code_book_id f < 256 /\ 0 <= fp_encode_pos f < 256 /\ 0 <= pack_sn (fp_hdr f) < 2 ^ 32.

Lemma book_header_ok u id b sn :
  fec_mode_book !! Z.to_nat id = Some b -> 0 <= id -> 0 <= sn < 2 ^ 32 ->
  mat_ok (mat_of_book u id b sn (CalcPosInPackCache sn)).
Proof. intros Hb Hid Hsn. exists id, b. split; [done|]. split; [done|]. split; [done|]. by split. Qed.

Lemma wpd_decode_line m_id f e b init_flag s bk :
  DI s -> U e -> (m_id < 16)%nat -> fec_fields_ok f -> fec_mode_book !! Z.to_nat (fp_code_book_id f) = Some bk ->
  fs_mem s !! e = Some b -> buf_data b = FecMem f -> 0 < fe_held (fs_world s) e ->
  wp (decode_line m_id f e init_flag) (fun _ s' => DI s') s.
Proof.
  intros Hd Hu Hmid (Hbk & Hps & Hsn) Hbook Hb Hf Hw. unfold decode_line.
  destruct (DI_mat _ _ Hd Hmid) as (mt & Hmt & Hok).
  apply wp_bind. eapply wp_get_hdr; [exact Hmt|]. apply wp_bind.
  eapply (wp_mono _ (fun _ s1 => DI s1 /\ fs_mem s1 = fs_mem s /\ fs_world s1 = fs_world s)).
  { wp_steps; [|done]. eapply wp_deref; [exact Hbook|]. rewrite u8_small by lia.
    set (s1 := set_dec_book _ s).
    assert (Hd1 : DI s1).
    { destruct Hd as [Hi Hh Hbf Hdb HU Hen Hm Hdom Hro]. split; try done; [|pose proof (lookup_lt_Some _ _ _ Hbook) as Hlt; cbn in *; lia].
      apply (inv_same x0 s); try done. apply (ic_book _ _ Hi). }
    wp_steps. eapply wpd_put_hdr; [exact Hd1|exact Hmt|by apply book_header_ok; try lia|].
    intros s2 Hd2 Hm2 _ _ Hw2 _. done. }
  cbn beta. intros _ s1 (Hd1 & Hm1 & Hw1). apply wp_bind.
  eapply (wp_mono _ (fun _ s2 => DI s2 /\ fs_mem s2 = fs_mem s /\ fs_world s2 = fs_world s)).
  { wp_steps; [|done]. wp_use wpd_NotBelong; [done|done|]. intros _ s2 (Hd2 & _ & Hm2 & Hw2).
    split; [done|]. split; congruence. }
  cbn beta. intros _ s2 (Hd2 & Hm2 & Hw2).
  destruct (dir_of_Z (fp_encode_dir f)) as [d|]; wp_steps; [done| |done].
  assert (Hi : 0 <= fp_encode_pos f < dir_len d).
  { unfold MAX_FEC2_MATRIX_H_SIZE, MAX_FEC2_MATRIX_V_SIZE, MAX_FEC2_HILL_SIZE in *. destruct d; cbn; lia. }
  destruct (DI_mat _ _ Hd2 Hmid) as (mt2 & Hmt2 & _).
  wp_use wpd_Cached; [done|done|done|exact Hmt2|exact Hi|by rewrite Hm2|exact Hf|by rewrite Hw2|].
  intros _ s3 (Hd3 & _ & _ & _ & mt3 & Hmt3 & _).
  wp_use wpd_TryFec; [done|exact Hmt3|done|done|]. by intros _ s4 [? _].
Qed.

Lemma wpd_claim m_id sn s :
  DI s -> (m_id < 16)%nat -> 0 <= sn < 2 ^ 32 ->
  wp (claim_matrix m_id sn) (fun _ s' => DI s' /\ fs_mem s' = fs_mem s /\ fs_world s' = fs_world s) s.
Proof.
  intros Hd Hmid Hsn. destruct (DI_mat _ _ Hd Hmid) as (mt & Hmt & Hok). unfold claim_matrix. wp_steps.
  eapply wp_get_hdr; [exact Hmt|]. wp_steps; [|done].
  eapply wpd_put_hdr; [done|exact Hmt| |by intros s' ? ? _ _ ? _].
  destruct Hok as (id & b & Hid & Hb & Hm & _ & _). exists id, b. split; [done|]. split; [done|].
  cbn. rewrite Hm. cbn. done.
Qed.

Lemma wpd_Decode e b f s :
  DI s -> U e -> fec_fields_ok f -> fs_mem s !! e = Some b -> buf_data b = FecMem f ->
  0 < fe_held (fs_world s) e ->
  wp (Decode e) (fun r s' => DI s' /\ r = GTP_OK) s.
Proof.
  intros Hd Hu Hfok Hb Hf Hw. pose proof Hfok as (Hbk & Hps & Hsn). unfold Decode. wp_steps.
  eapply wp_get_fec; [exact Hb|exact Hf|]. wp_steps; [done|].
  unfold MAX_VALID_FEC2_BOOK_ID in *.
  destruct (book_exists (fp_code_book_id f) ltac:(lia)) as [bk Hbook].
  eapply wp_deref; [exact Hbook|]. wp_steps. set (sn := pack_sn (fp_hdr f)) in *.
  assert (Hbs : 2 <= bk_block_size bk <= 16).
  { destruct (book_cases _ _ Hbook ltac:(lia)) as [[_ ->]|[[_ ->]|[[_ ->]|[[_ ->]|[[_ ->]|[_ ->]]]]]]; cbn; lia. }
  pose proof (MatrixId_range sn (bk_block_size bk) ltac:(lia) Hbs) as Hid.
  set (m_id := Z.to_nat _). assert (Hmid : (m_id < 16)%nat) by (unfold m_id; lia).
  destruct (DI_mat _ _ Hd Hmid) as (mt & Hmt & Hok). eapply wp_get_hdr; [exact Hmt|]. wp_steps.
  - destruct (fec_age (start_pack_sn (mx_hdr mt)) sn); wp_steps; [| |done].
    + wp_use wpd_decode_line; [done|done|done|done|exact Hbook|exact Hb|exact Hf|done|].
      intros _ s1 Hd1. by wp_steps.
    + wp_use wpd_MatrixClear; [done|exact Hmt|]. intros _ s1 (Hd1 & Hm1 & Hw1 & _). wp_steps.
      wp_use wpd_claim; [done|done|done|]. intros _ s2 (Hd2 & Hm2 & Hw2). wp_steps.
      wp_use wpd_decode_line; [done|done|done|done|exact Hbook|by rewrite Hm2, Hm1|exact Hf|by rewrite Hw2, Hw1|].
      intros _ s3 Hd3. by wp_steps.
  - wp_use wpd_claim; [done|done|done|]. intros _ s2 (Hd2 & Hm2 & Hw2). wp_steps.
    wp_use wpd_decode_line; [done|done|done|done|exact Hbook|by rewrite Hm2|exact Hf|by rewrite Hw2|].
    intros _ s3 Hd3. by wp_steps.
Qed.

(** ** [ClearResource] and [PopAllPack] *)
Lemma wpd_ClearSps m_id s : DI s -> (m_id < 16)%nat -> wp (ClearSpsMatrixResource m_id) (fun _ s' => DI s') s.
Proof.
  intros Hd Hmid. destruct (DI_mat _ _ Hd Hmid) as (mt & Hmt & Hok). destruct (hdr_pos _ Hok) as [Hsp _].
  unfold ClearSpsMatrixResource. wp_steps. eapply wp_get_hdr; [exact Hmt|]. wp_steps; [|done].
  wp_use (wp_Clear DecBuf); [apply Hd|apply x0_nonneg|apply Hd|done|apply mask_range|].
  intros _ s1 (Hi1 & Ho1 & Hn1 & (Hl & Hc)).
  assert (Hd1 : DI s1).
  { assert (Hs : forall y, 0 < held_in (pack_cache (fs_buf s1)) y -> 0 < held_in (pack_cache (fs_buf s)) y).
    { intros y Hy. apply held_in_lookup in Hy as [i Hy1]. change (fs_buf s1) with (fbuf_of DecBuf s1) in Hy1.
      rewrite Hc in Hy1. destruct (_ && _); [done|]. pose proof (held_in_pos _ _ _ Hy1) as Hp.
      cbn [fbuf_of] in Hp. lia. }
    eapply dinv_fbuf; [exact Hd|exact Ho1|done|done| |].
    - intros y Hy. apply (dv_U _ _ _ _ Hd). specialize (Hs y Hy). unfold held_dec.
      pose proof (held_mats_nonneg (fs_dec s) y). lia.
    - apply all_roomy_sub; [by rewrite Ho1|exact Hs]. }
  wp_steps. destruct (DI_mat _ _ Hd1 Hmid) as (mt1 & Hmt1 & _).
  wp_use wpd_MatrixClear; [done|exact Hmt1|]. by intros _ s2 [? _].
Qed.

Lemma wpd_block_filled hdr s : DI s -> mat_ok hdr -> wp (block_filled hdr) (fun _ s' => s' = s) s.
Proof.
  intros Hd Hok. destruct (hdr_pos _ Hok) as [Hsp Hsz]. unfold block_filled. wp_steps.
  set (end_pos := Z.land _ _). assert (He : 0 <= end_pos < 32) by apply mask_range. eapply wp_mono.
  { apply (wp_while (fun c s' => 0 <= c.1.2 < 32 /\ s' = s)
      (fun c : bool * Z * Z => if c.1.1 then S (Z.to_nat ((end_pos - c.1.2) mod 32)) else O)).
    - done.
    - cbn [fst snd]. change (Z.to_nat MAX_FEC2_CACHE_CAPACITY) with 32%nat.
      pose proof (Z.mod_pos_bound (end_pos - start_pos hdr) 32). lia.
    - intros [[go pos] n] s1 (Hp & ->) Hc. cbn [fst snd] in *. apply andb_true_iff in Hc as [-> Hc].
      assert (Hne : pos <> end_pos) by (intros ->; by rewrite Z.eqb_refl in Hc).
      destruct (ring_dist_step _ _ Hp He Hne) as [Hstep Hpos]. split; [lia|].
      wp_steps. eapply wpd_get_cache; [done|done|]. intros o Ho. destruct o as [e|]; wp_steps.
      2:{ cbn. split; [done|lia]. }
      destruct (dv_cached _ _ _ _ _ _ Hd Ho) as [b Hb]. eapply wp_get_buf; [done|]. wp_steps.
      destruct (CheckPackSnInBlock _ _ _); cbn [fst snd]; [|split; [done|lia]].
      split; [split; [apply next_pos_range|done]|]. rewrite Hstep. lia. }
  cbn beta. intros c s' [(_ & ->) _]. by wp_steps.
Qed.

Lemma wpd_ClearResource loss s : DI s -> wp (ClearResource loss) (fun _ s' => DI s') s.
Proof.
  intros Hd. unfold ClearResource. wp_steps. eapply wp_mono.
  { apply (wp_for (fun k m_id s' => m_id = (16 - k)%nat /\ (k <= 16)%nat /\ DI s')).
    - done.
    - intros k m_id s1 (-> & Hk & Hd1). unfold clear_complete_round.
      destruct (DI_mat (16 - S k) s1 Hd1 ltac:(lia)) as (mt & Hmt & Hok).
      wp_steps; (eapply wp_get_hdr; [exact Hmt|]); wp_steps; [|split; [lia|split; [lia|done]]].
      wp_use wpd_block_filled; [exact Hd1|done|]. intros n s2 ->. wp_steps; [|split; [lia|split; [lia|done]]].
      wp_use wpd_ClearSps; [exact Hd1|lia|]. intros _ s2 Hd2. wp_steps. split; [lia|split; [lia|done]]. }
  cbn beta. intros _ s1 (_ & _ & Hd1). wp_steps. apply wp_get_fbuf. wp_steps.
  set (end_pos := Z.land _ _). assert (He : 0 <= end_pos < 32) by apply mask_range. eapply wp_mono.
  { apply (wp_while (fun pos s' => 0 <= pos < 32 /\ DI s') (fun pos => Z.to_nat ((end_pos - pos) mod 32))).
    - split; [apply next_pos_range|done].
    - change (Z.to_nat MAX_FEC2_CACHE_CAPACITY) with 32%nat.
      pose proof (Z.mod_pos_bound (end_pos - next_pos (CalcPosInPackCache (max_cached_sn (fs_buf s1))) 1) 32).
      cbn [fbuf_of]. lia.
    - intros pos s2 (Hp & Hd2) Hc.
      assert (Hne : pos <> end_pos) by (intros ->; by rewrite Z.eqb_refl in Hc).
      destruct (ring_dist_step _ _ Hp He Hne) as [Hstep Hpos]. split; [lia|].
      wp_steps. eapply wpd_get_cache; [done|done|]. intros o Ho. apply wp_bind.
      wp_use wpd_pop_if; [done|lia|]. intros _ s3 (Hd3 & _). wp_steps. rewrite Hstep.
      split; [split; [apply next_pos_range|done]|lia]. }
  cbn beta. intros pos s' [(_ & ?) _]. by wp_steps.
Qed.

Lemma wpd_MatrixInit m_id id s mt b :
  DI s -> fs_dec s !! m_id = Some mt -> fec_mode_book !! Z.to_nat id = Some b -> 0 <= id ->
  wp (MatrixInit (DecMat m_id) id) (fun _ s' => DI s' /\ fs_dec_book s' = fs_dec_book s) s.
Proof.
  intros Hd Hmt Hb Hid. wp_use wp_MatrixInit; [apply Hd|apply x0_nonneg|exact Hmt|exact Hb|].
  intros _ s' (Hi' & m1 & m2 & Hs & Hm2 & _ & Heq & _). split; [|by rewrite Heq].
  assert (Hok : mat_ok (mx_hdr m2)).
  { rewrite Hm2. cbn. exists id, b. split; [done|]. split; [done|]. split; [done|]. split; [cbn; lia|done]. }
  eapply (dinv_mat s0 U x0 x0 s s' m_id mt m2); try done.
  intros y Hy. apply (dv_U _ _ _ _ Hd). eapply mat_held_dec; [exact Hmt|].
  apply (slots_sub_held mt m1); [done|]. by rewrite Hm2 in Hy.
Qed.

Lemma wpd_RecvInit s :
  DI s -> wp RecvInit (fun _ s' => DI s' /\ occupied (pack_cache (fs_buf s')) = 0) s.
Proof.
  intros Hd. unfold RecvInit, Init. wp_steps.
  wp_use (wp_PopAllPack DecBuf); [apply Hd|apply x0_nonneg|apply Hd|].
  intros _ s1 (Hi1 & Ho1 & Hn1 & Hocc).
  assert (Hnone : forall y, held_in (pack_cache (fs_buf s1)) y = 0).
  { intros y. destruct (decide (0 < held_in (pack_cache (fs_buf s1)) y)) as [Hp|Hp].
    - apply held_in_lookup in Hp as [i Hi]. by pose proof (occupied_zero _ _ _ Hocc Hi).
    - pose proof (held_in_nonneg (pack_cache (fs_buf s1)) y). lia. }
  assert (Hd1 : DI s1).
  { eapply dinv_fbuf; [exact Hd|exact Ho1|done|done| |].
    - intros y. rewrite Hnone. lia.
    - apply all_roomy_sub; [by rewrite Ho1|]. intros y. rewrite Hnone. lia. }
  wp_steps. eapply wp_mono.
  { apply (wp_for (fun k m_id s' => m_id = (16 - k)%nat /\ (k <= 16)%nat /\ DI s' /\
      fs_buf s' = fs_buf s1)).
    - done.
    - intros k m_id s2 (-> & Hk & Hd2 & Hb2).
      destruct (DI_mat (16 - S k) s2 Hd2 ltac:(lia)) as (mt & Hmt & Hok).
      pose proof (dv_book _ _ _ _ Hd2) as Hbk. destruct (book_exists _ Hbk) as [b Hb].
      wp_steps. eapply wp_mono; [apply wp_conj|].
      + eapply wpd_MatrixInit; [exact Hd2|exact Hmt|exact Hb|lia].
      + eapply wp_MatrixInit; [apply Hd2|apply x0_nonneg|exact Hmt|exact Hb].
      + cbn beta. intros _ s3 ((Hd3 & _) & _ & m1 & m2 & _ & _ & _ & Heq & _). wp_steps.
        split; [lia|]. split; [lia|]. split; [done|]. by rewrite Heq. }
  cbn beta. intros _ s' (_ & _ & ? & Hb). wp_steps. split; [done|]. by rewrite Hb.
Qed.

End Safe.

(** ** From the invariant between operations *)
Section Top.
Context {P E W : Type} `{Countable E} `{!PackPool P E} `{!FecEnv P E W}.
Context `{!PackPoolLaws P E} `{!FecEnvLaws P E W}.
Implicit Types (s : FecSt P E W) (e : E).

(** The buffers the decoder may touch: those it holds and the given ones. *)
Definition touchable s (given : E -> Prop) : E -> Prop := fun y => 0 < held_dec s y \/ given y.

Lemma fec_inv_dinv s given : fec_inv s -> dinv s (touchable s given) x0 s.
Proof. intros [Hc He Hd Heb Hb Hbk]. split; try done. intros y Hy. by left. Qed.

Lemma dinv_fec_inv s s' V : fec_inv s -> dinv s V x0 s' -> fec_inv s'.
Proof.
  intros [Hc He Hd Heb Hb Hbk] [Hi Hh Hbf Hdb HU (E1 & E2 & _) Hm Hdom _].
  split; [done|by rewrite E1|done|by rewrite E2|done|done].
Qed.

(** The encoder is as it was. *)
Record enc_same (given : E -> Prop) s s' : Prop := {
  es_enc : fs_enc s' = fs_enc s;
  es_buf : fs_enc_buf s' = fs_enc_buf s;
  es_book : fs_using_book s' = fs_using_book s;
  es_next : fs_next_sn s' = fs_next_sn s;
  es_pb : fs_pb s' = fs_pb s;
  es_sent : fs_sent s' = fs_sent s;
  es_mem : forall y, held_dec s y = 0 -> ~ given y -> fs_mem s' !! y = fs_mem s !! y;
  es_held : forall y, held_dec s y = 0 -> ~ given y -> held_dec s' y = 0
}.

Lemma dinv_enc_same given s s' : dinv s (touchable s given) x0 s' -> enc_same given s s'.
Proof.
  intros [Hi Hh Hbf Hdb HU (E1 & E2 & E3 & E4 & E5 & E6) Hm Hdom _]. split; try done.
  - intros y Hy Hg. apply Hm. intros [?|?]; [lia|done].
  - intros y Hy Hg. destruct (decide (0 < held_dec s' y)) as [Hp|Hp].
    + destruct (HU y Hp) as [?|?]; [lia|done].
    + unfold held_dec in *. pose proof (held_mats_nonneg (fs_dec s') y).
      pose proof (held_in_nonneg (pack_cache (fs_buf s')) y). lia.
Qed.

(** The decoder does not disturb what the encoder represents. *)
Lemma enc_same_rep given s s' a :
  enc_rep s a -> fec_inv s' -> enc_same given s s' ->
  (forall d i g e, slot_of EncMat d i s = Some g -> fec_pack g = Some e -> ~ given e) ->
  enc_rep s' a.
Proof.
  intros [Hinv Hhdr Hnext Hbook Hl Hfl] Hinv' [E1 E2 E3 E4 E5 E6 E7 E8] Hg. split; try done; try congruence.
  intros d i Hr. destruct (Hl d i Hr) as [H0 (g & Hs & Hp)]. split; [done|]. exists g.
  assert (Hs' : slot_of EncMat d i s' = Some g) by (unfold slot_of in *; cbn in *; by rewrite E1).
  split; [done|]. destruct (fec_pack g) as [e|] eqn:He; [|done].
  destruct Hp as (Hps & Hh & b & f & Hb & Hf & Hc & Hcap). pose proof (Hg _ _ _ _ Hs He) as Hng.
  destruct (slot_mat _ _ _ _ _ Hs) as (m & [= <-] & Hgm).
  pose proof (held_mat_pos _ _ _ _ _ Hgm He) as Hp.
  assert (Hsplit : forall t : FecSt P E W, held t e = held_mat (fs_enc t) e + held_in (pack_cache (fs_enc_buf t)) e + held_dec t e).
  { intros t. unfold held, held_slots, held_caches, held_dec. lia. }
  pose proof (held_in_nonneg (pack_cache (fs_enc_buf s)) e).
  pose proof (held_mats_nonneg (fs_dec s) e). pose proof (held_in_nonneg (pack_cache (fs_buf s)) e).
  rewrite Hsplit in Hh. assert (Hd0 : held_dec s e = 0) by (unfold held_dec in *; lia).
  split; [done|]. split; [rewrite Hsplit, E1, E2, E8 by done; lia|].
  exists b, f. rewrite E7 by done. rewrite E1. done.
Qed.

End Top.
End FecDecodeSafe.
