(* ===== verification/FecTop.v ===== *)
(** * The entry points of the fec engine

    The constructor establishes the invariant and every public operation of
    [GtpFec2] keeps it, terminates and faults on no input: what the session
    relies on.  At the end, concrete surroundings (a small transport pool, a
    host that only records) on which the theorems are instantiated. *)
From S2P Require Import Prelude PoolInterface TranPool TranPoolSpec XorCode FecState FecBuffer FecInv.
From S2P Require Import FecAbstract FecBufferSpec FecEncode FecEncodeSpec FecEncodeRefine FecDecode.
From S2P Require Import FecDecodeSpec FecDecodeSafe.
Export FecEncodeSpec FecDecodeSafe.

Module FecTop.

Section Top.
Context {P E W : Type} `{Countable E} `{!PackPool P E} `{!FecEnv P E W}.
Context `{!PackPoolLaws P E} `{!FecEnvLaws P E W}.
Implicit Types (s : FecSt P E W) (e : E).

(** ** The constructor *)
Definition abs_ctor : AbsEnc :=
  mkAbs (mat_of_book false DEFAULT_FEC2_BOOK_ID (mkMode kBlock true true false false 2 2 4) 0 0) 0
    DEFAULT_FEC2_BOOK_ID no_lines.

Lemma held_replicate_mats n (m : Matrix E) e : held_mat m e = 0 -> held_mats (replicate n m) e = 0.
Proof. intros Hm. induction n as [|n IH]; cbn; [done|]. by rewrite Hm, IH. Qed.
Lemma ctor_mat_held id b e : held_mat (matrix_ctor id b) e = 0.
Proof. unfold held_mat, held_line, matrix_ctor. cbn. done. Qed.
Lemma ctor_held p w mem pb e : held (fec2_ctor p w mem pb : FecSt P E W) e = 0.
Proof.
  unfold held, held_slots, held_caches. cbn -[replicate held_mats held_mat held_in matrix_ctor].
  rewrite held_replicate_mats by apply ctor_mat_held. rewrite ctor_mat_held.
  cbn [pack_cache fbuf_ctor]. by rewrite held_in_replicate.
Qed.

Lemma ctor_mat_ok sn : 0 <= sn < 2 ^ 32 ->
  mat_ok (mat_of_book false DEFAULT_FEC2_BOOK_ID (mkMode kBlock true true false false 2 2 4) sn (CalcPosInPackCache sn)).
Proof.
  intros Hsn. exists DEFAULT_FEC2_BOOK_ID, (mkMode kBlock true true false false 2 2 4).
  split; [unfold DEFAULT_FEC2_BOOK_ID; lia|]. split; [done|]. split; [done|]. by split.
Qed.

Lemma ctor_rep p w mem pb :
  pp_ok p -> world_ok w -> (forall e, pp_refs p e = fe_held w e) ->
  enc_rep (fec2_ctor p w mem pb : FecSt P E W) abs_ctor.
Proof.
  intros Hp Hw Hr. set (s := fec2_ctor p w mem pb).
  assert (Hheld : forall e, held s e = 0) by (intros; apply ctor_held).
  assert (Hparts : forall e, held_slots s e = 0 /\ held_caches s e = 0).
  { intros e. pose proof (Hheld e) as Hh. unfold held in Hh.
    pose proof (held_slots_nonneg s e). pose proof (held_caches_nonneg s e). lia. }
  pose proof (ctor_mat_ok 0 ltac:(lia)) as Hm.
  assert (Hcore : inv_core x0 s).
  { split; try done.
    - intros e. rewrite Hheld. unfold x0. cbn. rewrite Hr. lia.
    - split; [done|]. cbn. by repeat (constructor; [done|]). }
  assert (Hinv : fec_inv s).
  { split; try done. cbn. repeat (constructor; [exact Hm|]). constructor. }
  split; try done.
  - intros d i Hi. split; [lia|]. exists null_mgr. split; [|done].
    unfold slot_of. cbn [mat_of fec2_ctor fs_enc mbind option_bind s]. unfold matrix_ctor.
    destruct d; cbn [mx_dir h_fec_code v_fec_code uh_fec_code dh_fec_code dir_len] in *; apply lookup_replicate_2; lia.
Qed.

(** The constructor of [GtpFec2] establishes the invariant and represents
    the empty encoder, when the host's references are all there are. *)
Theorem fec2_ctor_ok (p : P) (w : W) (mem : gmap E Buf) (pb : PbData) :
  pp_ok p -> world_ok w -> (forall e, pp_refs p e = fe_held w e) ->
  enc_rep (fec2_ctor p w mem pb : FecSt P E W) abs_ctor.
Proof. exact (ctor_rep p w mem pb). Qed.

(** ** The operations *)

(** The encoder does not hold the buffer [e]. *)
Definition not_encoding s e : Prop := held_mat (fs_enc s) e = 0.

Lemma not_encoding_slots s e d i g y :
  not_encoding s e -> slot_of EncMat d i s = Some g -> fec_pack g = Some y -> ~ y = e.
Proof.
  intros Hn Hs Hg ->. destruct (slot_mat _ _ _ _ _ Hs) as (m & [= <-] & Hgm).
  pose proof (held_mat_pos _ _ _ _ _ Hgm Hg). unfold not_encoding in Hn. lia.
Qed.

(** Every data packet the decoder holds lies inside its buffer, every fec packet
    has room for a packet of the largest size: what keeps [RestoreData] inside
    them. *)
Definition dec_roomy s : Prop := forall y, 0 < held_dec s y -> roomy s y.

Lemma touchable_roomy s (given : E -> Prop) :
  dec_roomy s -> (forall y, given y -> roomy s y) -> all_roomy (touchable s given) s.
Proof. intros Hs Hg y [?|?]; [by apply Hs|by apply Hg]. Qed.

Lemma ctor_roomy p w mem pb : dec_roomy (fec2_ctor p w mem pb).
Proof.
  intros y Hy. pose proof (ctor_held p w mem pb y) as Hh. unfold held, held_slots, held_caches in Hh.
  unfold held_dec in Hy. pose proof (held_mat_nonneg (fs_enc (fec2_ctor p w mem pb)) y).
  pose proof (held_in_nonneg (pack_cache (fs_enc_buf (fec2_ctor p w mem pb))) y). lia.
Qed.

(** The encoder's operations leave it alone. *)
Lemma dec_same_roomy s s' : dec_same s s' -> dec_roomy s -> dec_roomy s'.
Proof.
  intros [Ed _ Eb _ _ Em] Hs y Hy. unfold held_dec in Hy. rewrite Ed, Eb in Hy.
  intros b Hb. rewrite (Em y Hy) in Hb. specialize (Hs y Hy b Hb). destruct (buf_data b); [|done]. by rewrite Eb.
Qed.

Lemma decoder_step {A} (m : FM P E W A) (given : E -> Prop) s a (Q : A -> Prop) :
  enc_rep s a -> (forall d i g y, slot_of EncMat d i s = Some g -> fec_pack g = Some y -> ~ given y) ->
  wp m (fun r s' => dinv s (touchable s given) x0 s' /\ Q r) s ->
  exists r s', m s = Some (r, s') /\ Q r /\ enc_rep s' a /\
    (dec_roomy s -> (forall y, given y -> roomy s y) -> dec_roomy s') /\ enc_same given s s'.
Proof.
  intros Hr Hg Hw. destruct (wp_total _ _ _ Hw) as (r & s' & Hm & Hd & Hq).
  assert (Hi : fec_inv s') by (eapply dinv_fec_inv; [apply Hr|exact Hd]).
  pose proof (dinv_enc_same _ _ _ Hd) as Hes.
  exists r, s'. split; [done|]. split; [done|]. split; [by eapply enc_same_rep|]. split; [|done].
  intros Hs Hgr y Hy. apply (dv_roomy _ _ _ _ Hd); [by apply touchable_roomy|]. by apply (dv_U _ _ _ _ Hd).
Qed.

(** C14: [Decode] on any fec packet of the network, whatever its fields, as
    long as its buffer and those of the fec packets the decoder already holds
    have room for a packet of the largest size (8191 bytes behind the 24 of the
    fec header), and the data packets it holds lie inside their buffers: it
    returns GTP_OK, without a fault - no read or write outside a buffer
    included - and without looping; the invariant and the room hold again, and
    what the encoder has accumulated is untouched.  In a shorter buffer the
    code writes past its end ([short_code_overruns]). *)
Theorem Decode_safe s a e b f :
  enc_rep s a -> dec_roomy s -> roomy s e -> fs_mem s !! e = Some b -> buf_data b = FecMem f -> fec_fields_ok f ->
  0 < fe_held (fs_world s) e -> not_encoding s e ->
  exists s', Decode e s = Some (GTP_OK, s') /\ enc_rep s' a /\ dec_roomy s' /\ enc_same (fun y => y = e) s s'.
Proof.
  intros Hr Hds Hre Hb Hf Hfo Hh Hn. assert (Hg : forall y, y = e -> roomy s y) by (by intros y ->).
  destruct (decoder_step (Decode e) (fun y => y = e) s a (fun r => r = GTP_OK) Hr)
    as (r & s' & Hm & -> & ? & Hro & ?).
  - intros d i g y. by apply not_encoding_slots.
  - apply (wpd_Decode _ _ (touchable_roomy _ _ Hds Hg) e b f); try done; [apply fec_inv_dinv, Hr|by right].
  - exists s'. auto.
Qed.

(** C16: [CacheDataPack] on any data packet that lies inside its buffer, while
    those the decoder holds do too and its fec packets have room for a packet of
    the largest size: it returns GTP_OK without a fault - no read or write
    outside a buffer included -, however many packets it restores on the way;
    the invariant and the room hold again and the encoder is untouched. *)
Theorem CacheDataPack_safe s a e b :
  enc_rep s a -> dec_roomy s -> roomy s e -> fs_mem s !! e = Some b -> bytes_ok (payload b) ->
  0 < pp_refs (fs_pool s) e -> not_encoding s e ->
  exists s', CacheDataPack e s = Some (GTP_OK, s') /\ enc_rep s' a /\ dec_roomy s' /\
    enc_same (fun y => y = e) s s'.
Proof.
  intros Hr Hds Hre Hb Hby Hp Hn. assert (Hg : forall y, y = e -> roomy s y) by (by intros y ->).
  destruct (decoder_step (CacheDataPack e) (fun y => y = e) s a (fun r => r = GTP_OK) Hr)
    as (r & s' & Hm & -> & ? & Hro & ?).
  - intros d i g y. by apply not_encoding_slots.
  - apply (wpd_CacheDataPack _ _ (touchable_roomy _ _ Hds Hg) e b); try done; [apply fec_inv_dinv, Hr|by right].
  - exists s'. auto.
Qed.

(** [ClearResource] terminates for every loss rate and packet rate, keeps
    the invariant and leaves the encoder alone. *)
Theorem ClearResource_safe s a (loss : spec_float) :
  enc_rep s a ->
  exists s', ClearResource loss s = Some (tt, s') /\ enc_rep s' a /\ enc_same (fun _ => False) s s'.
Proof.
  intros Hr. destruct (decoder_step (ClearResource loss) (fun _ => False) s a (fun _ => True) Hr) as ([] & s' & Hm & _ & ? & _ & ?).
  - by intros d i g y _ _ [].
  - eapply wp_mono; [eapply wpd_ClearResource, fec_inv_dinv, Hr|]. intros r s1 Hx. split; [exact Hx|done].
  - by exists s'.
Qed.

Lemma occupied_none (l : list (option E)) i o : occupied l = 0 -> l !! i = Some o -> o = None.
Proof.
  intros Hz Hi. destruct o as [e|]; [|done]. by pose proof (occupied_zero _ _ _ Hz Hi).
Qed.

(** [PopAllPack] empties the engine: nothing is sent, the encoder starts
    over in its code book, no packet is left in the receive cache, and every
    reference has been given back. *)
Theorem PopAllPack_empties s a :
  enc_rep s a ->
  exists s', PopAllPack_all s = Some (tt, s') /\ enc_rep s' (abs_reset (code_book_id (ab_hdr a)) a) /\
    fs_sent s' = fs_sent s /\ pack_num_in_cache (fs_buf s') = 0 /\
    forall i o, pack_cache (fs_buf s') !! i = Some o -> o = None.
Proof.
  intros Hr. destruct (wp_total _ _ _ (wp_SendInit_reset a s Hr)) as ([] & s1 & H1 & Hr1 & _ & (fs & Hs1 & Hf)).
  apply Forall2_nil_inv_l in Hf as ->. rewrite app_nil_r in Hs1.
  pose proof (wpd_RecvInit s1 (touchable s1 (fun _ => False)) s1 (fec_inv_dinv s1 _ (er_inv _ _ Hr1))) as Hw.
  destruct (wp_total _ _ _ Hw) as ([] & s2 & H2 & Hd2 & Hocc).
  assert (Hi2 : fec_inv s2) by (eapply dinv_fec_inv; [apply Hr1|exact Hd2]).
  pose proof (dinv_enc_same _ _ _ Hd2) as Hes.
  exists s2. split; [unfold PopAllPack_all, mbind, ST_bind; by rewrite H1|].
  split; [eapply enc_same_rep; [exact Hr1|exact Hi2|exact Hes|by intros d i g y _ _ []]|].
  split; [by rewrite (es_sent _ _ _ Hes)|]. split.
  - pose proof (fi_buf _ Hi2) as Hn. unfold fbuf_ok in Hn. by rewrite Hn.
  - intros i o. by apply occupied_none.
Qed.

(** [ChangeFecMode] only records a valid book for the next block; the
    lines under way keep theirs, and an invalid book is ignored. *)
Theorem ChangeFecMode_spec s a (id : Z) :
  enc_rep s a -> 0 <= id ->
  exists s', ChangeFecMode id s = Some (tt, s') /\ dec_same s s' /\ fs_sent s' = fs_sent s /\
    enc_rep s' (if MAX_VALID_FEC2_BOOK_ID <? id then a
                else mkAbs (ab_hdr a) (ab_next_sn a) id (ab_lines a)).
Proof.
  intros Hr Hid. unfold ChangeFecMode. destruct (Z.ltb_spec MAX_VALID_FEC2_BOOK_ID id) as [Hlt|Hge].
  - exists s. split; [done|]. split; [apply dec_same_refl|]. done.
  - eexists. split; [done|]. split; [by split|]. split; [done|]. unfold MAX_VALID_FEC2_BOOK_ID in Hge.
    destruct Hr as [[[] He Hd Heb Hb Hbk] Hh Hn Hbook Hl Hf]. split; cbn; try done.
Qed.

End Top.
End FecTop.
