(* ===== verification/FecDemo.v ===== *)
(** * The engine on concrete surroundings

    A host that counts its own references and records the restored packets,
    the small transport pool of TranPoolSpec.v, and runs of the engine on them:
    the theorems of the fec development hold of something that exists. *)
From S2P Require Import Prelude PoolInterface TranPool TranPoolSpec XorCode PacketHeader FecState FecBuffer.
From S2P Require Import FecInv FecAbstract FecBufferSpec FecEncode FecEncodeSpec FecEncodeRefine FecDecode.
From S2P Require Import FecDecodeSpec FecDecodeSafe FecTop.
Export TranPool TranPoolSpec FecTop.

Module FecDemo.

Record Host := mkHost { h_held : list (Z * Z); h_restored : list (list Z) }.

Definition demo_junk : Fec2CodePack := mkCode (parse_header []) 0 0 0 0 0 0 [].

#[global] Instance demo_env : FecEnv TranMemPool (Z * Z) Host := {
  fe_path := PathWord64;
  fe_junk := demo_junk;
  fe_sys_id := 1;
  fe_send e f p w := (0, p, w);
  fe_recv e bytes sums p w := (0, (sums.1.1 + 1, sums.1.2, sums.2), p, mkHost (h_held w) (h_restored w ++ [bytes]));
  fe_held w e := held_in (Some <$> h_held w) e;
  fe_room e := payload_size e.1
}.

#[global] Instance demo_laws : FecEnvLaws TranMemPool (Z * Z) Host.
Proof.
  split.
  - constructor.
  - intros e f p w h Hp Hw Hh He Hr. done.
  - intros e bytes sums p w h Hp Hw Hh He Hr. done.
Qed.

Definition demo_pb : PbData := mkPb 7 1 100.

(** A data packet: its size and sequence number, then the payload. *)
Definition demo_pack (sn : Z) (data : list Z) : list Z :=
  le_bytes 4 (Z.shiftl (8 + Z.of_nat (length data)) 19) ++ le_bytes 4 sn ++ data.
Definition p0 : list Z := demo_pack 0 [1; 2; 3].
Definition p1 : list Z := demo_pack 1 [10; 20; 30; 40; 50].
Definition p2 : list Z := demo_pack 2 [7].
Definition p3 : list Z := demo_pack 3 [9; 9].

Definition sender : FecSt TranMemPool (Z * Z) Host := fec2_ctor demo_pool (mkHost [] []) ∅ demo_pb.

(** Run an operation; the state stays when it faults. *)
Definition run {A} (m : FM TranMemPool (Z * Z) Host A) (s : FecSt TranMemPool (Z * Z) Host) :=
  match m s with Some (_, s') => s' | None => s end.

(** The fec packets of the block. *)
Definition sent_packs : list Fec2CodePack :=
  fs_sent (run (Encode p3) (run (Encode p2) (run (Encode p1) (run (Encode p0) sender)))).

(** ** A receiver

    Two buffers of the 64K pool: [ed] with the data packet 1, [ef] with the fec
    packet of the first row; the host holds one reference on each. *)
Definition ed : Z * Z := (6, 0).
Definition ef : Z * Z := (6, 1).
Definition demo_pool2 : TranMemPool := (pp_malloc 6 (pp_malloc 6 demo_pool).2).2.
Definition f0 : Fec2CodePack := nth 0 sent_packs demo_junk.

(** Two allocations from the small pool. *)
Lemma two_buffers spec1 spec2 e1 n1 e2 n2 :
  0 <= spec1 <= 6 -> 0 <= spec2 <= 6 ->
  (pp_malloc spec1 demo_pool).1 = Some (e1, n1) ->
  (pp_malloc spec2 (pp_malloc spec1 demo_pool).2).1 = Some (e2, n2) ->
  let p := (pp_malloc spec2 (pp_malloc spec1 demo_pool).2).2 in
  pool_ok p /\ forall e, refs p e = held_in (Some <$> [e1; e2]) e.
Proof.
  intros Hs1 Hs2 E1 E2. destruct demo_pool_ok as [Hp0 Hr]. assert (Hp : pp_ok demo_pool) by exact Hp0.
  destruct (pp_malloc spec1 demo_pool) as [r1 q1] eqn:H1. cbn [fst snd] in *. subst r1.
  destruct (pp_malloc_some demo_pool spec1 e1 n1 q1 Hp Hs1 H1) as (Hp1 & _ & _ & Hc1).
  destruct (pp_malloc spec2 q1) as [r2 q2] eqn:H2. cbn [fst snd] in *. subst r2.
  destruct (pp_malloc_some q1 spec2 e2 n2 q2 Hp1 Hs2 H2) as (Hp2 & _ & _ & Hc2).
  split; [exact Hp2|]. intros e. change (refs q2 e) with (pp_refs q2 e). rewrite Hc2, Hc1.
  change (pp_refs demo_pool e) with (refs demo_pool e). rewrite Hr. cbn [held_in fmap list_fmap].
  assert (Hb : forall a : Z * Z, bool_decide (Some a = Some e) = bool_decide (e = a)).
  { intros a. apply bool_decide_ext. split; [by intros [= ->]|by intros ->]. }
  rewrite !Hb. lia.
Qed.

Lemma demo_pool2_ok : pool_ok demo_pool2 /\ forall e, refs demo_pool2 e = held_in (Some <$> [ed; ef]) e.
Proof. apply (two_buffers 6 6 ed 65536 ef 65536); [lia|lia|vm_compute; reflexivity..]. Qed.

Definition demo_mem : gmap (Z * Z) Buf :=
  <[ed := mkBuf 0 0 (PackMem p1)]> (<[ef := mkBuf 0 0 (FecMem f0)]> ∅).
Definition receiver : FecSt TranMemPool (Z * Z) Host :=
  fec2_ctor demo_pool2 (mkHost [ed; ef] []) demo_mem demo_pb.

Lemma demo_world_ok l r : Z.of_nat (length l) <= 30000 -> world_ok (mkHost l r).
Proof.
  intros Hl e. change (fe_held (mkHost l r) e) with (held_in (Some <$> l) e).
  pose proof (held_in_nonneg (Some <$> l) e). pose proof (held_in_length (Some <$> l) e) as Hle.
  rewrite length_fmap in Hle. lia.
Qed.

Lemma receiver_rep : enc_rep receiver abs_ctor.
Proof. apply ctor_rep; [apply demo_pool2_ok|by apply demo_world_ok; cbn; lia|apply demo_pool2_ok]. Qed.
Lemma sender_rep : enc_rep sender abs_ctor.
Proof. apply ctor_rep; [apply demo_pool_ok|by apply demo_world_ok; cbn; lia|apply demo_pool_ok]. Qed.

Lemma p_bytes_ok : bytes_ok p0 /\ bytes_ok p1.
Proof. split; repeat (constructor; [unfold byte_ok; vm_compute; split; [discriminate|reflexivity]|]); constructor. Qed.

Lemma receiver_roomy e : e = ed \/ e = ef -> roomy receiver e.
Proof.
  intros [-> | ->] b Hb.
  - change (Some (mkBuf 0 0 (PackMem p1)) = Some b) in Hb. injection Hb as <-. split; [vm_compute; discriminate|].
    intros _. vm_compute. discriminate.
  - change (Some (mkBuf 0 0 (FecMem f0)) = Some b) in Hb. injection Hb as <-. vm_compute. discriminate.
Qed.

(** ** Sanity runs *)

(** Packet 0 is lost; the row's fec packet and packet 1 arrive, in either
    order: the host gets packet 0. *)
Example restore_fec_last :
  (take 11 <$> h_restored (fs_world (run (Decode ef) (run (CacheDataPack ed) receiver)))) = [p0].
Proof. vm_compute. reflexivity. Qed.
Example restore_data_last :
  (take 11 <$> h_restored (fs_world (run (CacheDataPack ed) (run (Decode ef) receiver)))) = [p0].
Proof. vm_compute. reflexivity. Qed.
(** Nothing is restored while two packets of the row are missing. *)
Example restore_waits : h_restored (fs_world (run (Decode ef) receiver)) = [].
Proof. vm_compute. reflexivity. Qed.

(** ** Instances of the theorems *)
Example fec2_ctor_ok_witness : enc_rep receiver abs_ctor.
Proof.
  apply (fec2_ctor_ok demo_pool2 (mkHost [ed; ef] []) demo_mem demo_pb);
    [exact (proj1 demo_pool2_ok)|apply demo_world_ok; cbn; lia|exact (proj2 demo_pool2_ok)].
Defined.

Example Encode_refines_witness :
  exists s' ok, Encode p0 sender = Some (GTP_OK, s') /\
    (fs_refused s' = fs_refused sender -> forall d, ok d = true) /\
    let (a', out) := abs_encode ok (packet_sn p0) (packet_bytes p0 (packet_size p0)) abs_ctor in
    enc_rep s' a' /\ dec_same sender s' /\ sent_out out sender s'.
Proof. apply (Encode_refines sender abs_ctor p0); [exact sender_rep|exact (proj1 p_bytes_ok)]. Defined.

Example Decode_safe_witness :
  exists s', Decode ef receiver = Some (GTP_OK, s') /\ enc_rep s' abs_ctor /\ dec_roomy s' /\
    enc_same (fun y => y = ef) receiver s'.
Proof.
  apply (Decode_safe receiver abs_ctor ef (mkBuf 0 0 (FecMem f0)) f0);
    [exact receiver_rep|apply ctor_roomy|apply receiver_roomy; by right|reflexivity|reflexivity
    |vm_compute; repeat split; (reflexivity || discriminate)|reflexivity|reflexivity].
Defined.

Example CacheDataPack_safe_witness :
  exists s', CacheDataPack ed receiver = Some (GTP_OK, s') /\ enc_rep s' abs_ctor /\ dec_roomy s' /\
    enc_same (fun y => y = ed) receiver s'.
Proof.
  apply (CacheDataPack_safe receiver abs_ctor ed (mkBuf 0 0 (PackMem p1)));
    [exact receiver_rep|apply ctor_roomy|apply receiver_roomy; by left|reflexivity|exact (proj2 p_bytes_ok)|vm_compute; reflexivity|reflexivity].
Defined.

Example ClearResource_safe_witness :
  exists s', ClearResource (S754_zero false) receiver = Some (tt, s') /\ enc_rep s' abs_ctor /\
    enc_same (fun _ => False) receiver s'.
Proof. apply (ClearResource_safe receiver abs_ctor (S754_zero false)). exact receiver_rep. Defined.

Example PopAllPack_empties_witness :
  exists s', PopAllPack_all receiver = Some (tt, s') /\ enc_rep s' (abs_reset 4 abs_ctor) /\
    fs_sent s' = fs_sent receiver /\ pack_num_in_cache (fs_buf s') = 0 /\
    forall i o, pack_cache (fs_buf s') !! i = Some o -> o = None.
Proof. apply (PopAllPack_empties receiver abs_ctor). exact receiver_rep. Defined.

Example ChangeFecMode_spec_witness :
  exists s', ChangeFecMode 0 receiver = Some (tt, s') /\ dec_same receiver s' /\ fs_sent s' = fs_sent receiver /\
    enc_rep s' (mkAbs (ab_hdr abs_ctor) 0 0 no_lines).
Proof. apply (ChangeFecMode_spec receiver abs_ctor 0); [exact receiver_rep|lia]. Defined.

End FecDemo.
