(* ===== verification/FecProtect.v ===== *)
(** * A block is protected

    What the engine sends for the packets of a whole block: the refinement of
    FecEncodeRefine.v, packet by packet, and the account of whole blocks of
    FecBlock.v. *)
From S2P Require Import Prelude PoolInterface TranPool TranPoolSpec XorCode FecState FecBuffer FecInv.
From S2P Require Import FecAbstract FecBufferSpec FecBlock FecEncode FecEncodeSpec FecEncodeRefine FecDecode.
From S2P Require Import FecDecodeSpec FecDecodeSafe FecTop FecDemo.
Export FecBlock FecEncodeRefine FecDecodeSafe FecDemo.

Module FecProtect.

Section Protect.
Context {P E W : Type} `{Countable E} `{!PackPool P E} `{!FecEnv P E W}.
Context `{!PackPoolLaws P E} `{!FecEnvLaws P E W}.
Implicit Types (s : FecSt P E W) (a : AbsEnc).

(** Packets handed to [Encode] one after the other. *)
Fixpoint encode_run (packs : list (list Z)) : FM P E W unit :=
  match packs with
  | [] => mret tt
  | p :: packs' => _ ← Encode p; encode_run packs'
  end.

Definition bytes_of (p : list Z) : list Z := packet_bytes p (packet_size p).

(** The sequence numbers of the packets, from [sn] on. *)
Definition numbered (sn : Z) (packs : list (list Z)) : Prop :=
  forall k p, packs !! k = Some p -> packet_sn p = sn + Z.of_nat k.

Lemma abs_dir_ok ok m d h v data L : ok = true -> abs_dir ok m d h v data L = abs_dir true m d h v data L.
Proof. by intros ->. Qed.

Lemma abs_encode_granted ok sn data a :
  (forall d, ok d = true) -> abs_encode ok sn data a = abs_encode (fun _ => true) sn data a.
Proof. intros Hok. unfold abs_encode, abs_block, abs_put. by rewrite !Hok. Qed.

Lemma wp_encode_run packs : forall sn a s,
  enc_rep s a -> Forall bytes_ok packs -> numbered sn packs ->
  wp (encode_run packs) (fun _ s' => fs_refused s <= fs_refused s' /\
    (fs_refused s' = fs_refused s ->
     let (a', out) := abs_encode_run sn (bytes_of <$> packs) a in enc_post a' out s s')) s.
Proof.
  induction packs as [|p packs IH]; intros sn a s Hr Hb Hn; cbn [encode_run].
  { apply wp_ret. split; [lia|]. intros _. by apply enc_post_refl. }
  inversion_clear Hb as [|?? Hp Hps]. apply wp_bind.
  eapply wp_mono; [exact (wp_Encode p a s Hr Hp)|]. cbn beta. intros _ s1 (_ & ok & Hpost & Hmo & Hok).
  assert (packet_sn p = sn) as Hsn by (rewrite (Hn 0%nat p eq_refl); lia).
  assert (numbered (sn + 1) packs) as Hn' by (intros k q Hq; rewrite (Hn (S k) q Hq); lia).
  rewrite Hsn in Hpost. fold (bytes_of p) in Hpost.
  destruct (abs_encode ok sn (bytes_of p) a) as [a1 o1] eqn:He.
  eapply wp_mono; [exact (IH (sn + 1) a1 s1 (proj1 Hpost) Hps Hn')|]. cbn beta. intros _ s2 [Hmo2 H2]. split; [lia|]. intros Heq.
  rewrite abs_encode_granted in He by (apply Hok; lia).
  cbn [fmap list_fmap abs_encode_run]. rewrite He. specialize (H2 ltac:(lia)).
  change (list_fmap _ _ bytes_of packs) with (bytes_of <$> packs).
  destruct (abs_encode_run (sn + 1) (bytes_of <$> packs) a1) as [a2 o2]. by eapply enc_post_trans.
Qed.

(** The lines of the last block before the wrap-around. *)
Lemma last_block_lines b0 b1 b2 b3 :
  let out := (abs_encode_run 4294967292 [b0; b1; b2; b3] abs_ctor).2 in
  length out = 8%nat /\ Forall (fun '(_, _, _, ps) => length ps = 1%nat) out.
Proof. vm_compute. repeat constructor. Qed.

(** C12: a block is fully protected.  Whatever the encoder held before, handing
    it the packets of an aligned block that does not touch the wrap-around, in
    the code book already selected, runs without a fault.  If the engine
    expects exactly the first number, its matrix must be at the start of a
    block too (the test of [BlockEncode], which fails before the wrap-around:
    [last_block_unprotected]).  Then, unless the pool refused a buffer on the
    way, the engine sends, after at most the unfinished lines of the previous
    block, exactly one fec packet for every row, column and diagonal of the
    code book, the parity of all packets of that line, and ends with every line
    empty. *)
Theorem block_protection s a (id start : Z) (b : GtpFec2Mode) (packs : list (list Z)) :
  enc_rep s a -> fec_mode_book !! Z.to_nat id = Some b -> 0 <= id ->
  0 <= start /\ start mod bk_block_size b = 0 /\ start + bk_block_size b < 2 ^ 32 ->
  Z.of_nat (length packs) = bk_block_size b -> ab_book a = id ->
  (ab_next_sn a = start -> needs_block (ab_hdr a) start = true) ->
  Forall bytes_ok packs -> numbered start packs ->
  exists s', encode_run packs s = Some (tt, s') /\
    (fs_refused s' = fs_refused s ->
     exists o0 L, (o0 = [] \/ o0 = leftovers a) /\ lines_empty L = true /\
       enc_rep s' (mkAbs (block_header id b start) (start + bk_block_size b) id L) /\ dec_same s s' /\
       sent_out (o0 ++ block_lines (block_header id b start) (bytes_of <$> packs)) s s').
Proof.
  intros Hr Hb Hid Hst Hlen Hbk Hneed Hok Hn.
  destruct (wp_total _ _ _ (wp_encode_run packs start a s Hr Hok Hn)) as ([] & s' & Hrun & _ & Hpost).
  exists s'. split; [done|]. intros Heq. specialize (Hpost Heq).
  destruct (whole_block id start b Hb Hid Hst (bytes_of <$> packs) a) as (o0 & L & H1 & H2 & H3);
    [by rewrite length_fmap|done|done|].
  rewrite H3 in Hpost. destruct Hpost as (Hr' & Hd & Hs). by exists o0, L.
Qed.

(** The last block before the wrap-around of the sequence numbers has no
    protection.  Its end, computed in 32 bits, is 0, so every packet of it
    looks like the first of a new block: a fresh engine that encodes the four
    packets of that block sends only fec packets that cover one packet each. *)
Theorem last_block_unprotected s (p0 p1 p2 p3 : list Z) :
  enc_rep s abs_ctor -> Forall bytes_ok [p0; p1; p2; p3] -> numbered 4294967292 [p0; p1; p2; p3] ->
  exists s', encode_run [p0; p1; p2; p3] s = Some (tt, s') /\
    (fs_refused s' = fs_refused s ->
     exists out, sent_out out s s' /\ length out = 8%nat /\ Forall (fun '(_, _, _, ps) => length ps = 1%nat) out).
Proof.
  intros Hr Hok Hn.
  destruct (wp_total _ _ _ (wp_encode_run _ 4294967292 abs_ctor s Hr Hok Hn)) as ([] & s' & Hrun & _ & Hpost).
  exists s'. split; [done|]. intros Heq. specialize (Hpost Heq).
  destruct (last_block_lines (bytes_of p0) (bytes_of p1) (bytes_of p2) (bytes_of p3)) as [Hl Hf].
  change (bytes_of <$> [p0; p1; p2; p3]) with [bytes_of p0; bytes_of p1; bytes_of p2; bytes_of p3] in Hpost.
  destruct (abs_encode_run _ _ _) as [a' out]. destruct Hpost as (_ & _ & Hs). by exists out.
Qed.
End Protect.

Example block_protection_witness :
  let b := mkMode kBlock true true false false 2 2 4 in
  exists s', encode_run [p0; p1; p2; p3] sender = Some (tt, s') /\
    (fs_refused s' = fs_refused sender ->
     exists o0 L, (o0 = [] \/ o0 = leftovers abs_ctor) /\ lines_empty L = true /\
       enc_rep s' (mkAbs (block_header 4 b 0) 4 4 L) /\ dec_same sender s' /\
       sent_out (o0 ++ block_lines (block_header 4 b 0) (bytes_of <$> [p0; p1; p2; p3])) sender s').
Proof.
  apply (block_protection sender abs_ctor 4 0 (mkMode kBlock true true false false 2 2 4) [p0; p1; p2; p3]);
    [exact sender_rep|reflexivity|lia|split; [lia|split; [reflexivity|cbn; lia]]|reflexivity|reflexivity|reflexivity
    |repeat constructor; unfold byte_ok; vm_compute; (discriminate || reflexivity)|].
  intros [|[|[|[|k]]]] p [= <-]; vm_compute; reflexivity.
Defined.

Example last_block_unprotected_witness :
  let late sn := demo_pack sn [7] in
  let packs := [late 4294967292; late 4294967293; late 4294967294; late 4294967295] in
  exists s', encode_run packs sender = Some (tt, s') /\
    (fs_refused s' = fs_refused sender ->
     exists out, sent_out out sender s' /\ length out = 8%nat /\
       Forall (fun '(_, _, _, ps) => length ps = 1%nat) out).
Proof.
  cbv zeta. apply last_block_unprotected; [exact sender_rep
    |repeat constructor; unfold byte_ok; vm_compute; (discriminate || reflexivity)|].
  intros [|[|[|[|k]]]] p [= <-]; vm_compute; reflexivity.
Defined.

(** In that run no buffer is refused, and the four fec packets leave. *)
Example block_protection_run :
  fs_refused (run (encode_run [p0; p1; p2; p3]) sender) = 0 /\
  length (fs_sent (run (encode_run [p0; p1; p2; p3]) sender)) = 4%nat.
Proof. vm_compute. done. Qed.

End FecProtect.
