(* ===== verification/FecRecover.v ===== *)
(** * Recovery

    Why a restored packet is the lost one: the scan of a line finds the only
    covered packet the cache lacks, and xoring the others into the parity
    leaves exactly its bytes. *)
From S2P Require Import Prelude PoolInterface XorCode FecState FecInv FecAbstract FecBufferSpec FecEncodeSpec.
From S2P Require Import FecDecode FecLines FecDecodeSpec FecDecodeSafe TranPool TranPoolSpec FecTop FecDemo.
Export FecEncodeSpec FecLines FecDecodeSafe FecDemo.

Module FecRecover.

(** ** The positions of a line *)

(** The packets found there. *)
Definition found_bytes (look : Z -> option (list Z * Z)) (l : list Z) : list (list Z) :=
  omap (fun p => (fun '(bytes, size) => packet_bytes bytes size) <$> look p) l.

Lemma covered_range bitmap stride n pos bit :
  0 <= pos < 32 -> Forall (fun p => 0 <= p < 32) (covered bitmap stride n pos bit).
Proof.
  revert pos bit. induction n as [|n IH]; intros pos bit Hp; [constructor|]. cbn [covered].
  apply Forall_app. split; [|apply IH, next_pos_range]. destruct (_ =? 0); [constructor|by constructor; [|constructor]].
Qed.

Lemma covered_length bitmap stride n pos bit : (length (covered bitmap stride n pos bit) <= n)%nat.
Proof.
  revert pos bit. induction n as [|n IH]; intros pos bit; [done|]. cbn [covered]. rewrite length_app.
  specialize (IH (next_pos pos stride) (u8 (Z.shiftl bit 1))). destruct (_ =? 0); cbn; lia.
Qed.

Lemma last_cons {A} (q : A) k a b : List.last (q :: k) a = List.last (q :: k) b.
Proof. revert q. induction k as [|r k IH]; intros q; [done|]. exact (IH r). Qed.

(** ** The scan counts what is absent *)
Definition absent_of (pres : Z -> bool) (l : list Z) : list Z := List.filter (fun p => negb (pres p)) l.

Lemma scan_run_count pres bitmap stride n c :
  0 <= sc_unrcv c -> 0 <= sc_rcved c -> sc_unrcv c + Z.of_nat n < 256 -> sc_rcved c + Z.of_nat n < 256 ->
  let l := covered bitmap stride n (sc_pos c) (sc_bitmap c) in
  let c' := scan_run pres bitmap stride n c in
  sc_unrcv c' = sc_unrcv c + Z.of_nat (length (absent_of pres l)) /\
  sc_rcved c' = sc_rcved c + Z.of_nat (length l - length (absent_of pres l)) /\
  sc_res c' = List.last (absent_of pres l) (sc_res c).
Proof.
  revert c. induction n as [|n IH]; intros c Hu Hr Hub Hrb; cbn [covered scan_run].
  { cbn. lia. }
  cbv zeta. set (c1 := scan_step pres bitmap stride c).
  assert (Hpos : sc_pos c1 = next_pos (sc_pos c) stride /\ sc_bitmap c1 = u8 (Z.shiftl (sc_bitmap c) 1)).
  { unfold c1, scan_step. destruct (negb _); [destruct (pres _)|]; done. }
  destruct Hpos as [Ep Eb].
  assert (Hlen : forall l, (length (absent_of pres l) <= length l)%nat).
  { intros l. unfold absent_of. apply filter_length_le. }
  set (rest := covered bitmap stride n (next_pos (sc_pos c) stride) (u8 (Z.shiftl (sc_bitmap c) 1))) in *.
  specialize (Hlen rest).
  assert (Hc1 : (sc_unrcv c1, sc_rcved c1, sc_res c1) =
    if Z.land bitmap (sc_bitmap c) =? 0 then (sc_unrcv c, sc_rcved c, sc_res c)
    else if pres (sc_pos c) then (sc_unrcv c, sc_rcved c + 1, sc_res c)
         else (sc_unrcv c + 1, sc_rcved c, sc_pos c)).
  { unfold c1, scan_step. destruct (_ =? 0); cbn [negb]; [done|].
    destruct (pres (sc_pos c)); cbn [sc_unrcv sc_rcved sc_res]; by rewrite u8_small by lia. }
  specialize (IH c1). rewrite Ep, Eb in IH. fold rest in IH. cbv zeta in IH.
  destruct (Z.land bitmap (sc_bitmap c) =? 0); [|destruct (pres (sc_pos c)) eqn:Hpres];
    injection Hc1 as E1 E2 E3; rewrite E1, E2, E3 in IH;
    (destruct IH as (I1 & I2 & I3); [lia..|]); rewrite I1, I2, I3;
    unfold absent_of in *; cbn [app List.filter length]; rewrite ?Hpres; cbn [negb length].
  - done.
  - split; [done|]. split; [lia|done].
  - split; [lia|]. split; [lia|].
    destruct (List.filter (fun p => negb (pres p)) rest) as [|q k]; [done|].
    change (List.last (q :: k) (sc_pos c) = List.last (q :: k) (sc_res c)). apply last_cons.
Qed.

(** What [CalcRestorePos] decides, in terms of the covered positions. *)
Lemma calc_result_spec pres bm count stride bit0 start :
  0 <= count < 128 ->
  let l := covered bm stride (Z.to_nat count) start bit0 in
  calc_result pres bm (count, stride, bit0) start =
    match absent_of pres l with
    | [] => (true, INVALID_RES_POS)
    | [p] => if Z.of_nat (length l) - 1 =? count then (true, INVALID_RES_POS) else (false, p)
    | _ => if Z.of_nat (length l - length (absent_of pres l)) =? count
           then (true, INVALID_RES_POS) else (false, INVALID_RES_POS)
    end.
Proof.
  intros Hc. cbv zeta. unfold calc_result. set (c0 := mkScan start bit0 0 0 INVALID_RES_POS).
  destruct (scan_run_count pres bm stride (Z.to_nat count) c0) as (E1 & E2 & E3);
    [cbn; lia..|]. cbn [sc_pos sc_bitmap sc_unrcv sc_rcved sc_res c0] in E1, E2, E3.
  rewrite E1, E2, E3. set (l := covered bm stride (Z.to_nat count) start bit0).
  destruct (absent_of pres l) as [|p [|q k]] eqn:Ha; cbn [length List.last].
  - done.
  - rewrite Z.add_0_l. change (Z.of_nat 1 =? 0) with false. cbn [orb].
    assert (Z.of_nat (length l - 1) = Z.of_nat (length l) - 1) as ->.
    { assert (1 <= length l)%nat; [|lia]. change 1%nat with (length [p]). rewrite <- Ha.
      unfold absent_of. apply filter_length_le. }
    destruct (_ =? count); done.
  - rewrite (proj2 (Z.eqb_neq _ 0)) by lia. cbn [orb]. rewrite Z.add_0_l.
    destruct (_ =? count); [done|]. rewrite (proj2 (Z.eqb_neq _ 1)) by lia. done.
Qed.


(** ** The restoration is an exclusive or *)
Lemma parity_snoc_found look l p bytes size :
  look p = Some (bytes, size) -> found_bytes look (p :: l) = packet_bytes bytes size :: found_bytes look l.
Proof. intros Hp. unfold found_bytes. cbn. by rewrite Hp. Qed.

Lemma restore_run_code `{!FecEnv P E W} look bitmap stride n pos bit code len :
  (forall p, In p (covered bitmap stride n pos bit) -> forall bytes size, look p = Some (bytes, size) ->
     bytes_ok bytes /\ 0 <= size < 8192) ->
  bytes_ok code -> 0 <= len < 8192 ->
  let '(code', len') := restore_run look bitmap stride n pos bit code len in
  len <= len' < 8192 /\ bytes_ok code' /\
  mem_load (Z.to_nat len') code' 0 =
    xor_pad (mem_load (Z.to_nat len) code 0) (parity (found_bytes look (covered bitmap stride n pos bit))).
Proof.
  revert pos bit code len. induction n as [|n IH]; intros pos bit code len Hlook Hok Hlen; cbn [restore_run covered].
  { split; [lia|]. split; [done|]. unfold found_bytes. cbn [omap list_omap]. by rewrite parity_nil, xor_pad_nil_r. }
  cbn [covered] in Hlook.
  destruct (Z.land bitmap bit =? 0); cbn [app] in *; [by apply IH|].
  assert (Hrest : forall p, In p (covered bitmap stride n (next_pos pos stride) (u8 (Z.shiftl bit 1))) ->
    forall bytes size, look p = Some (bytes, size) -> bytes_ok bytes /\ 0 <= size < 8192)
    by (intros p Hp; apply Hlook; by right).
  destruct (look pos) as [[bytes size]|] eqn:Hp.
  2:{ unfold found_bytes. cbn [omap list_omap]. rewrite Hp. cbn [fmap option_fmap option_map].
      apply IH; done. }
  destruct (Hlook pos (or_introl eq_refl) _ _ Hp) as [Hb Hs]. rewrite (parity_snoc_found _ _ _ _ _ Hp).
  destruct (XorEncode fe_path bytes size code len) as [c z] eqn:Hx.
  apply XorEncode_code in Hx as (-> & Hc & Hload); [|lia..|done|done].
  rewrite u16_small by lia. set (rest := covered bitmap stride n _ _) in *.
  specialize (IH (next_pos pos stride) (u8 (Z.shiftl bit 1)) c (Z.max size len) Hrest Hc ltac:(lia)).
  destruct (restore_run look bitmap stride n _ _ c (Z.max size len)) as [code' len'].
  destruct IH as (I1 & I2 & I3). split; [lia|]. split; [done|]. fold rest in I3.
  rewrite I3, Hload, parity_cons, <- xor_pad_assoc. done.
Qed.

(** The head of a padded packet. *)
Lemma load_prefix (m x : list Z) n k :
  mem_load n m 0 = pad_to k x -> (length x <= n)%nat -> mem_load (length x) m 0 = x.
Proof.
  intros Hl Hx. apply nth_eq_Z; rewrite mem_load_length; [done|]. intros i Hi.
  rewrite mem_load_byte by done. rewrite <- (mem_load_byte n m 0 i) by lia. rewrite Hl. apply nth_pad.
Qed.

Lemma load_sub n m k off x :
  mem_load n m 0 = x -> (off + k <= n)%nat -> mem_load k m off = mem_load k x off.
Proof.
  intros <- Hk. apply mem_load_ext. intros i Hi. unfold mem_byte at 2. by rewrite mem_load_byte by lia.
Qed.

(** The header fields of a packet only depend on its own bytes. *)
Lemma packet_fields m x :
  mem_load (length x) m 0 = x -> (8 <= length x)%nat -> packet_sn m = packet_sn x /\ packet_size m = packet_size x.
Proof.
  intros Hl Hx. unfold packet_sn, packet_size, load32.
  rewrite !(load_sub (length x) m 4 _ x) by (done || lia). done.
Qed.

(** ** Members of a line *)

(** [ps] are packets of line [idx] of the block: each at its own position, with
    the sequence number of that position. *)
Record line_of_block (m : MatHeader) (d : Fec2CodeDir) (idx : Z) (ps : line) : Prop := {
  lb_nodup : NoDup (ps.*1);
  lb_cell : forall bp x, In (bp, x) ps ->
    exists pos, In (bp, pos) (line_cells m d idx) /\ packet_sn x = u32 (start_pack_sn m + pos);
  lb_size : forall bp x, In (bp, x) ps -> (8 <= length x)%nat /\ packet_size x = Z.of_nat (length x)
}.

Lemma line_bits_testbit ps j :
  Forall (fun p => 0 <= p.1 < 8) ps -> 0 <= j < 8 ->
  Z.testbit (line_bits ps) j = bool_decide (j ∈ ps.*1).
Proof.
  intros Hf Hj. unfold line_bits.
  assert (Hgen : forall b, Z.testbit (foldl (fun b p => Z.lor b (u8 (Z.shiftl 1 p.1))) b ps) j =
    Z.testbit b j || bool_decide (j ∈ ps.*1)); [|rewrite Hgen, Z.bits_0; done].
  induction Hf as [|p ps Hp Hf IH]; intros b; cbn [foldl fmap list_fmap].
  { rewrite bool_decide_false by (apply not_elem_of_nil). by rewrite orb_false_r. }
  rewrite IH, Z.lor_spec.
  assert (u8 (Z.shiftl 1 p.1) = 2 ^ p.1) as ->.
  { rewrite Z.shiftl_1_l. apply u8_small. split; [lia|]. apply (Z.pow_lt_mono_r 2 p.1 8); lia. }
  rewrite Z.pow2_bits_eqb by lia. rewrite <- orb_assoc. f_equal.
  destruct (Z.eqb_spec p.1 j) as [<-|Hne]; cbn [orb].
  - symmetry. apply bool_decide_true. by left.
  - apply bool_decide_ext. rewrite elem_of_cons. split; [by right|]. intros [->|?]; [by destruct Hne|done].
Qed.

Lemma covered_walk bm stride n pos bit :
  covered bm stride n pos bit =
  omap (fun '(b, p) => if Z.land bm b =? 0 then None else Some p) (walk_cells stride n pos bit).
Proof.
  revert pos bit. induction n as [|n IH]; intros pos bit; [done|]. cbn [covered walk_cells omap list_omap].
  rewrite IH. by destruct (_ =? 0).
Qed.

(** The position of a cell, from its bit. *)
Definition cell_pos (cells : list (Z * Z)) (bp : Z) : Z :=
  default 0 ((list_to_map cells : gmap Z Z) !! bp).

Lemma cell_pos_in cells bp pos : NoDup (cells.*1) -> In (bp, pos) cells -> cell_pos cells bp = pos.
Proof.
  intros Hn Hin. unfold cell_pos. apply list_elem_of_In in Hin.
  by rewrite (elem_of_list_to_map_1 cells bp pos Hn Hin).
Qed.

Lemma land_pow_zero bm bp :
  0 <= bp -> (Z.land bm (Z.shiftl 1 bp) =? 0) = negb (Z.testbit bm bp).
Proof.
  intros Hbp. rewrite Z.shiftl_1_l. destruct (Z.testbit bm bp) eqn:Ht; cbn [negb].
  - apply Z.eqb_neq. intros H0. apply (f_equal (fun z => Z.testbit z bp)) in H0.
    rewrite Z.land_spec, Ht, Z.pow2_bits_true, Z.bits_0 in H0 by lia. done.
  - apply Z.eqb_eq. apply Z.bits_inj'. intros k Hk. rewrite Z.land_spec, Z.pow2_bits_eqb, Z.bits_0 by lia.
    destruct (Z.eqb_spec bp k) as [<-|]; [by rewrite Ht|apply andb_false_r].
Qed.

(** The visited positions: those of the cells whose bit is set. *)
Lemma walk_filter bm (g h : Z -> Z) (cells : list (Z * Z)) :
  (forall bp pos, In (bp, pos) cells -> 0 <= bp /\ h bp = pos) ->
  omap (fun '(b, p) => if Z.land bm b =? 0 then None else Some p)
    ((fun '(bp, pos) => (Z.shiftl 1 bp, g pos)) <$> cells) =
  (fun bp => g (h bp)) <$> filter (fun bp => Z.testbit bm bp = true) (cells.*1).
Proof.
  induction cells as [|[bp pos] cells IH]; intros Hc; [done|].
  destruct (Hc bp pos ltac:(by left)) as [Hbp Hh]. cbn [fmap list_fmap omap list_omap fst].
  change (list_fmap _ _ ?f ?l) with (f <$> l). rewrite IH by (intros ???; apply Hc; by right).
  rewrite land_pow_zero, filter_cons by done. destruct (Z.testbit bm bp); cbn [negb].
  - rewrite decide_True by done. cbn. by rewrite Hh.
  - by rewrite decide_False.
Qed.

(** The positions the decoder visits are those of the members. *)
Lemma covered_members m d idx ps :
  mat_ok m -> 0 <= idx < dir_len d -> has_line m d idx = true -> line_of_block m d idx ps ->
  Forall (fun p => 0 <= p.1 < 8) ps ->
  let '(count, stride, bit0) := line_walk d m idx in
  Permutation (covered (line_bits ps) stride (Z.to_nat count) (fec_line_start d m (start_pos m) idx) bit0)
    ((fun p => CalcPosInPackCache (packet_sn p.2)) <$> ps).
Proof.
  intros Hm Hi Hl [Hnd Hcell _] Hf.
  assert (Hi5 : 0 <= idx < 5) by (destruct d; cbn in Hi; lia).
  destruct (line_walk d m idx) as [[count stride] bit0] eqn:Hw. rewrite covered_walk.
  pose proof (line_steps_cells m d idx Hm Hi5 Hl) as Hsteps. unfold line_steps in Hsteps. rewrite Hw in Hsteps.
  rewrite Hsteps. clear Hsteps. destruct (line_cells_sane m d idx Hm Hi5) as (Hn1 & _ & Hr).
  set (cells := line_cells m d idx) in *. set (g := fun pos => Z.land (start_pos m + pos) 31).
  rewrite (walk_filter _ g (cell_pos cells)).
  2:{ intros bp pos Hin. split; [apply Hr in Hin; lia|]. by apply cell_pos_in. }
  assert (Hps : (fun p => CalcPosInPackCache (packet_sn p.2)) <$> ps = (fun bp => g (cell_pos cells bp)) <$> ps.*1).
  { rewrite <- list_fmap_compose. apply map_ext_in. intros [bp x] Hin.
    destruct (Hcell _ _ Hin) as (pos & Hc & Hsn). cbn [fst snd compose]. rewrite Hsn, (cell_pos_in _ _ pos) by done.
    symmetry. apply cell_cache_pos; [done|]. by apply (Hr bp). }
  rewrite Hps. apply fmap_Permutation, NoDup_Permutation; [by apply NoDup_filter|done|].
  intros bp. rewrite list_elem_of_filter. split.
  - intros [Ht Hin]. apply list_elem_of_fmap in Hin as ([bp' pos] & -> & Hin). cbn in *.
    apply list_elem_of_In, Hr in Hin. rewrite line_bits_testbit in Ht by (done || lia).
    by apply bool_decide_eq_true in Ht.
  - intros Hin. pose proof Hin as Hin'. apply list_elem_of_fmap in Hin' as ([bp' x] & -> & Hx).
    apply list_elem_of_In in Hx. destruct (Hcell _ _ Hx) as (pos & Hc & _). cbn in *. split.
    + rewrite line_bits_testbit; [by apply bool_decide_eq_true|done|]. apply Hr in Hc. lia.
    + apply list_elem_of_fmap. exists (bp', pos). split; [done|]. by apply list_elem_of_In.
Qed.

(** ** The lost packet *)
Lemma absent_of_perm pres l k : Permutation l k -> Permutation (absent_of pres l) (absent_of pres k).
Proof.
  unfold absent_of. induction 1 as [|a l k _ IH|a b l|l k m _ IH1 _ IH2]; cbn [List.filter].
  - done.
  - destruct (negb _); [by constructor|done].
  - destruct (negb (pres a)), (negb (pres b)); [constructor|done..].
  - by etrans.
Qed.
Lemma absent_of_app pres l k : absent_of pres (l ++ k) = absent_of pres l ++ absent_of pres k.
Proof. unfold absent_of. apply List.filter_app. Qed.
Lemma absent_of_none pres l : (forall p, In p l -> pres p = true) -> absent_of pres l = [].
Proof.
  induction l as [|p l IH]; intros Hp; [done|]. unfold absent_of in *. cbn [List.filter].
  rewrite (Hp p) by (by left). apply IH. intros q Hq. apply Hp. by right.
Qed.
Lemma found_bytes_perm look l k : Permutation l k -> Permutation (found_bytes look l) (found_bytes look k).
Proof. intros Hp. unfold found_bytes. by rewrite Hp. Qed.
Lemma found_bytes_app look l k : found_bytes look (l ++ k) = found_bytes look l ++ found_bytes look k.
Proof. unfold found_bytes. apply omap_app. Qed.

Section Recover.
Context {P E W : Type} `{Countable E} `{!PackPool P E} `{!FecEnv P E W}.
Context `{!PackPoolLaws P E} `{!FecEnvLaws P E W}.
Implicit Types (s : FecSt P E W) (e : E).

(** The packet [x] waits in the cache at its position. *)
Definition holds_packet s (x : list Z) : Prop :=
  exists bytes, cached_bytes s (CalcPosInPackCache (packet_sn x)) = Some (bytes, Z.of_nat (length x)) /\
    bytes_ok bytes /\ mem_load (length x) bytes 0 = x.

Definition in_matrix_block s (m : MatHeader) : Z -> bool :=
  present s (start_pack_sn m) (u32 (start_pack_sn m + matrix_size m)).

Lemma member_present s m d idx ps bp x :
  mat_ok m -> 0 <= idx < dir_len d -> line_of_block m d idx ps -> In (bp, x) ps -> holds_packet s x ->
  in_matrix_block s m (CalcPosInPackCache (packet_sn x)) = true.
Proof.
  intros Hm Hi [_ Hcell Hsize] Hin (bytes & Hc & _ & Hl).
  destruct (mat_ok_cases m Hm) as (_ & Hs & _ & Hcs & _). change (2 ^ 32) with 4294967296 in Hs.
  destruct (Hcell _ _ Hin) as (pos & Hpos & Hsn). destruct (Hsize _ _ Hin) as [H8 _].
  assert (Hi5 : 0 <= idx < 5) by (destruct d; cbn in Hi; lia).
  destruct (line_cells_sane m d idx Hm Hi5) as (_ & _ & Hr). apply Hr in Hpos as [_ Hp].
  unfold cached_bytes in Hc. unfold in_matrix_block, present.
  destruct (cache_of s (CalcPosInPackCache (packet_sn x))) as [[c|]|]; try done.
  destruct (fs_mem s !! c) as [b|]; simplify_eq.
  destruct (packet_fields (payload b) x Hl H8) as [-> _]. rewrite Hsn.
  rewrite CheckPackSnInBlock_iff by (try apply u32_range; lia).
  unfold in_block, u32. rewrite Zminus_mod_idemp_l, Z.add_simpl_l, Z.mod_small by lia. lia.
Qed.

(** The line with the packet [x] missing. *)
Record one_missing s (m : MatHeader) (d : Fec2CodeDir) (idx : Z) (ps1 : line) (bp : Z) (x : list Z)
    (ps2 : line) : Prop := {
  om_mat : mat_ok m;
  om_idx : 0 <= idx < dir_len d;
  om_line : has_line m d idx = true;
  om_members : line_of_block m d idx (ps1 ++ (bp, x) :: ps2);
  om_range : Forall (fun p => 0 <= p.1 < 8) (ps1 ++ (bp, x) :: ps2);
  om_here : forall p, In p (ps1 ++ ps2) -> holds_packet s p.2;
  om_lost : in_matrix_block s m (CalcPosInPackCache (packet_sn x)) = false
}.

Lemma calc_finds s m d idx ps1 bp x ps2 :
  one_missing s m d idx ps1 bp x ps2 ->
  calc_result (in_matrix_block s m) (line_bits (ps1 ++ (bp, x) :: ps2)) (line_walk d m idx)
    (fec_line_start d m (start_pos m) idx) = (false, CalcPosInPackCache (packet_sn x)).
Proof.
  intros [Hm Hi Hl Hmem Hrg Hhere Hlost]. set (ps := ps1 ++ (bp, x) :: ps2) in *.
  pose proof (covered_members m d idx ps Hm Hi Hl Hmem Hrg) as Hcov.
  destruct (line_walk d m idx) as [[count stride] bit0] eqn:Hw.
  assert (Hcount : 0 <= count <= 4).
  { pose proof (line_walk_count m d idx Hm ltac:(destruct d; cbn in Hi; lia) Hl) as Hc. by rewrite Hw in Hc. }
  set (pres := in_matrix_block s m) in *.
  assert (Habs : absent_of pres (covered (line_bits ps) stride (Z.to_nat count)
    (fec_line_start d m (start_pos m) idx) bit0) = [CalcPosInPackCache (packet_sn x)]).
  { apply Permutation_singleton_r. rewrite (absent_of_perm _ _ _ Hcov). unfold ps.
    assert (Hin : forall p, In p (ps1 ++ ps2) -> pres (CalcPosInPackCache (packet_sn p.2)) = true).
    { intros [b y] Hp. eapply (member_present _ _ _ _ ps b); try done; [|by apply (Hhere (b, y))].
      unfold ps. apply in_app_iff. apply in_app_iff in Hp as [?|?]; [by left|right; by right]. }
    rewrite fmap_app, fmap_cons, absent_of_app. cbn [snd].
    rewrite absent_of_none.
    2:{ intros p Hp. apply in_map_iff in Hp as (q & <- & Hq). apply Hin, in_app_iff. by left. }
    unfold absent_of at 1. cbn [List.filter app]. rewrite Hlost. cbn [negb].
    change (List.filter _ ?l) with (absent_of pres l). rewrite absent_of_none; [done|].
    intros p Hp. apply in_map_iff in Hp as (q & <- & Hq). apply Hin, in_app_iff. by right. }
  pose proof (calc_result_spec pres (line_bits ps) count stride bit0
    (fec_line_start d m (start_pos m) idx) ltac:(lia)) as Hres. cbv zeta in Hres.
  pose proof (covered_length (line_bits ps) stride (Z.to_nat count) (fec_line_start d m (start_pos m) idx) bit0) as Hlen.
  rewrite Hres, Habs. destruct (Z.eqb_spec (Z.of_nat (length (covered (line_bits ps) stride (Z.to_nat count)
    (fec_line_start d m (start_pos m) idx) bit0)) - 1) count) as [Heq|]; [lia|done].
Qed.

(** What the loop of [RestoreData] xors into the code: everything but [x]. *)
Lemma found_others s m d idx ps1 bp x ps2 :
  one_missing s m d idx ps1 bp x ps2 -> cached_bytes s (CalcPosInPackCache (packet_sn x)) = None ->
  let '(count, stride, bit0) := line_walk d m idx in
  Permutation (found_bytes (cached_bytes s) (covered (line_bits (ps1 ++ (bp, x) :: ps2)) stride
    (Z.to_nat count) (fec_line_start d m (start_pos m) idx) bit0)) (snd <$> (ps1 ++ ps2)).
Proof.
  intros [Hm Hi Hl Hmem Hrg Hhere _] Hnone. set (ps := ps1 ++ (bp, x) :: ps2) in *.
  pose proof (covered_members m d idx ps Hm Hi Hl Hmem Hrg) as Hcov.
  destruct (line_walk d m idx) as [[count stride] bit0]. rewrite (found_bytes_perm _ _ _ Hcov).
  assert (Hall : forall qs : line, (forall p, In p qs -> holds_packet s p.2) ->
    found_bytes (cached_bytes s) ((fun p => CalcPosInPackCache (packet_sn p.2)) <$> qs) = snd <$> qs).
  { induction qs as [|q qs IH]; intros Hq; [done|].
    destruct (Hq q ltac:(by left)) as (bytes & Hc & _ & Hb).
    cbn [fmap list_fmap]. rewrite (parity_snoc_found _ _ _ _ _ Hc). f_equal.
    - unfold packet_bytes. by rewrite Nat2Z.id.
    - apply IH. intros p Hp. apply Hq. by right. }
  unfold ps. rewrite !fmap_app, found_bytes_app, fmap_cons.
  rewrite Hall by (intros p Hp; apply Hhere, in_app_iff; by left). apply Permutation_app_head.
  unfold found_bytes at 1. cbn [omap list_omap snd]. rewrite Hnone. cbn [fmap option_fmap option_map].
  change (Permutation (found_bytes (cached_bytes s) ((fun p => CalcPosInPackCache (packet_sn p.2)) <$> ps2)) (snd <$> ps2)).
  by rewrite Hall by (intros p Hp; apply Hhere, in_app_iff; by right).
Qed.

(** ** Recovery of the packet *)
Lemma cached_bytes_kept s s' m p :
  cache_sub (start_pack_sn m) (u32 (start_pack_sn m + matrix_size m)) s s' -> 0 <= p < 32 ->
  in_matrix_block s m p = true -> cached_bytes s' p = cached_bytes s p.
Proof.
  intros (_ & Hm & Hc & _) Hp Hpres. unfold cached_bytes. rewrite Hm.
  destruct (Hc p Hp) as [->|[Hf _]]; [done|]. unfold in_matrix_block in Hpres. congruence.
Qed.

Lemma one_missing_kept s s' m d idx ps1 bp x ps2 :
  cache_sub (start_pack_sn m) (u32 (start_pack_sn m + matrix_size m)) s s' ->
  one_missing s m d idx ps1 bp x ps2 -> one_missing s' m d idx ps1 bp x ps2.
Proof.
  intros Hsub [Hm Hi Hl Hmem Hrg Hhere Hlost]. split; try done.
  - intros [b y] Hp. pose proof (Hhere _ Hp) as Hy.
    assert (Hpres : in_matrix_block s m (CalcPosInPackCache (packet_sn y)) = true).
    { eapply (member_present _ _ _ _ _ b); try done. apply in_app_iff.
      apply in_app_iff in Hp as [?|?]; [by left|right; by right]. }
    destruct Hy as (bytes & Hc & ?). exists bytes. split; [|done]. cbn [snd] in *.
    by rewrite (cached_bytes_kept _ _ _ _ Hsub) by (done || apply CalcPos_range).
  - unfold in_matrix_block in *. by rewrite (present_sub _ _ _ _ _ Hsub) by apply CalcPos_range.
Qed.

(** Xoring everything but [x] into the parity leaves [x]. *)
Lemma restored_bytes s m d idx ps1 bp x ps2 f code len :
  one_missing s m d idx ps1 bp x ps2 -> cached_bytes s (CalcPosInPackCache (packet_sn x)) = None ->
  code_holds m d idx f (ps1 ++ (bp, x) :: ps2) ->
  (let '(count, stride, bit0) := line_walk d m idx in
   (code, len) = restore_run (cached_bytes s) (fp_encode_bit_map f) stride (Z.to_nat count)
                   (fec_line_start d m (start_pos m) idx) bit0 (fp_code f) (fp_code_len f)) ->
  mem_load (length x) code 0 = x.
Proof.
  intros Hom Hnone [Hbits Hlen Hcode Hok Hsmall _ _ _ _ _].
  pose proof (found_others _ _ _ _ _ _ _ _ Hom Hnone) as Hfound.
  destruct Hom as [Hm Hi Hl Hmem Hrg Hhere _].
  pose proof (covered_members m d idx _ Hm Hi Hl Hmem Hrg) as Hcov.
  destruct (line_walk d m idx) as [[count stride] bit0]. rewrite Hbits. set (ps := ps1 ++ (bp, x) :: ps2) in *.
  set (l := covered _ _ _ _ _) in *.
  assert (Hsizes : forall y, In y (snd <$> ps) -> Z.of_nat (length y) <= fp_code_len f).
  { intros y Hy. rewrite Hlen. pose proof (parity_length_le _ _ Hy). unfold line_parity. lia. }
  assert (Hlook : forall p, In p l -> forall bytes size, cached_bytes s p = Some (bytes, size) ->
    bytes_ok bytes /\ 0 <= size < 8192).
  { intros p Hp bytes size Hc. apply (Permutation_in _ Hcov) in Hp. apply in_map_iff in Hp as ([b y] & <- & Hy).
    pose proof (Hsizes y ltac:(apply in_map_iff; by exists (b, y))) as Hys. cbn [snd] in *.
    assert (Hcase : In (b, y) (ps1 ++ ps2) \/ y = x).
    { unfold ps in Hy. rewrite in_app_iff in Hy |- *. destruct Hy as [?|[[=]|?]]; auto. }
    destruct Hcase as [Hin| ->]; [|congruence].
    destruct (Hhere _ Hin) as (bytes' & Hc' & Hb' & _). cbn [snd] in Hc'. rewrite Hc in Hc'. simplify_eq.
    split; [done|]. lia. }
  intros Hrun. pose proof (restore_run_code (cached_bytes s) (line_bits ps) stride (Z.to_nat count)
    (fec_line_start d m (start_pos m) idx) bit0 (fp_code f) (fp_code_len f) Hlook Hok ltac:(lia)) as Hcor.
  rewrite <- Hrun in Hcor. destruct Hcor as (Hlen' & _ & Hload). fold l in Hload.
  rewrite Hcode in Hload. unfold line_parity in Hload.
  assert (Hperm : Permutation (snd <$> ps) (x :: found_bytes (cached_bytes s) l)).
  { rewrite Hfound. unfold ps. rewrite !fmap_app. cbn. symmetry. apply Permutation_middle. }
  rewrite (parity_perm _ _ Hperm), parity_recover in Hload.
  eapply load_prefix; [exact Hload|]. pose proof (Hsizes x) as Hx. unfold ps in Hx.
  rewrite fmap_app in Hx. specialize (Hx ltac:(apply in_app_iff; right; by left)). lia.
Qed.

(** Every packet lies inside its buffer: the parity in [e], the cached members
    in theirs. *)
Definition in_buffers s e (f : Fec2CodePack) (ps : line) : Prop :=
  fp_code_len f <= code_room e /\
  forall p c b, In p ps -> cache_of s (CalcPosInPackCache (packet_sn p.2)) = Some (Some c) ->
    fs_mem s !! c = Some b -> payload_len b <= data_room c b.

(** The restoration of a line stays in bounds. *)
Lemma recover_fits s s1 m d idx e f ps1 bp x ps2 :
  one_missing s m d idx ps1 bp x ps2 -> code_holds m d idx f (ps1 ++ (bp, x) :: ps2) ->
  in_buffers s e f (ps1 ++ ps2) -> cache_sub (start_pack_sn m) (u32 (start_pack_sn m + matrix_size m)) s s1 ->
  cache_of s1 (CalcPosInPackCache (packet_sn x)) = Some None ->
  line_fits d m (fec_line_start d m (start_pos m) idx) idx e f s1.
Proof.
  intros [Hm Hi Hl Hmem Hrg Hhere _] Hch [Hcode Hin] (_ & Em & Hsub & _) Hfree.
  set (ps := ps1 ++ (bp, x) :: ps2) in *.
  assert (Hsizes : forall p, In p ps -> Z.of_nat (length p.2) <= code_room e).
  { intros p Hp. etrans; [|exact Hcode]. rewrite (ch_len _ _ _ _ _ Hch).
    assert (Hp2 : In p.2 (snd <$> ps)) by (apply in_map_iff; by exists p).
    pose proof (parity_length_le _ _ Hp2). unfold line_parity. lia. }
  assert (Hxin : In (bp, x) ps) by (apply in_app_iff; right; by left).
  split.
  { destruct (lb_size _ _ _ _ Hmem bp x Hxin). pose proof (Hsizes _ Hxin). cbn in *.
    unfold RESTORED_HEADER_SIZE. lia. }
  pose proof (covered_members m d idx ps Hm Hi Hl Hmem Hrg) as Hcov. rewrite <- (ch_bits _ _ _ _ _ Hch) in Hcov.
  destruct (line_walk d m idx) as [[count stride] bit0]. intros q Hq c b Hc Hb.
  apply (Permutation_in _ Hcov), in_map_iff in Hq as ([b' y] & <- & Hy). cbn [snd] in *.
  assert (Hcase : In (b', y) (ps1 ++ ps2) \/ y = x).
  { unfold ps in Hy. rewrite in_app_iff in Hy |- *. destruct Hy as [?|[[=]|?]]; auto. }
  destruct Hcase as [Hin'| ->]; [|congruence].
  destruct (Hsub (CalcPosInPackCache (packet_sn y)) ltac:(apply CalcPos_range)) as [Heq|[_ Heq]]; [|congruence].
  rewrite Heq in Hc. rewrite Em in Hb. pose proof (Hin _ _ _ Hin' Hc Hb). pose proof (Hsizes _ Hy) as Hys.
  destruct (Hhere _ Hin') as (bytes & Hcb & _). unfold cached_bytes in Hcb. cbn [snd] in *.
  rewrite Hc, Hb in Hcb. injection Hcb as _ Hlen. unfold xor_in_bounds. lia.
Qed.

(** The lost packet is back: in the cache at its position, held by the fec
    packet's buffer, handed to the session, the line's slot empty. *)
Record recovered (m_id : nat) (d : Fec2CodeDir) (idx : Z) e (x : list Z) s (r : Z) s' : Prop := {
  rc_ok : r = GTP_OK;
  rc_inv : fec_inv s';
  rc_enc : enc_same (fun _ => False) s s';
  rc_cache : cache_of s' (CalcPosInPackCache (packet_sn x)) = Some (Some e);
  rc_slot : slot_empty (DecMat m_id) d idx s';
  rc_packet : exists b, fs_mem s' !! e = Some b /\ payload_len b = Z.of_nat (length x) /\
    packet_bytes (payload b) (payload_len b) = x /\
    exists p r0 p', fe_recv e (payload b) (outside s).2 p (fs_world s) = (r0, (outside s').2, p', fs_world s')
}.

Lemma recover_line s m_id mt d idx e b f ps1 bp x ps2 :
  fec_inv s -> fs_dec s !! m_id = Some mt -> slot_full m_id d idx e s ->
  fs_mem s !! e = Some b -> buf_data b = FecMem f -> not_cached e s ->
  code_holds (mx_hdr mt) d idx f (ps1 ++ (bp, x) :: ps2) ->
  one_missing s (mx_hdr mt) d idx ps1 bp x ps2 -> in_buffers s e f (ps1 ++ ps2) ->
  let start := fec_line_start d (mx_hdr mt) (start_pos (mx_hdr mt)) idx in
  wp (res ← CalcRestorePos m_id d start idx; RestoreData m_id d start res idx)
     (recovered m_id d idx e x s) s.
Proof.
  intros Hinv Hmt Hs Hb Hf Hnc Hch Hom Hbufs. cbv zeta. set (start := fec_line_start _ _ _ _).
  assert (Hst : 0 <= start < 32) by apply fec_line_start_range.
  assert (Hi : 0 <= idx) by apply (om_idx _ _ _ _ _ _ _ _ Hom).
  pose proof (fec_inv_dinv s (fun _ => False) Hinv) as Hd. set (p := CalcPosInPackCache (packet_sn x)).
  assert (Hp : 0 <= p < 32) by apply CalcPos_range.
  wp_steps. wp_use wpd_CalcRestorePos; [exact Hd|apply x0_nonneg|exact Hmt|done|exact Hs|exact Hb|exact Hf|done|].
  intros res s1 (Hd1 & Hm1 & Hres). rewrite (ch_bits _ _ _ _ _ Hch) in Hres.
  pose proof (calc_finds _ _ _ _ _ _ _ _ Hom) as Hcf. unfold in_matrix_block in Hcf. fold start in Hcf.
  rewrite Hcf in Hres. fold p in Hres. destruct Hres as (-> & Hsub & Hfree).
  destruct Hfree as [Hbad|(_ & _ & Hfree)]; [unfold INVALID_RES_POS in Hbad; lia|].
  pose proof (one_missing_kept _ _ _ _ _ _ _ _ _ Hsub Hom) as Hom1.
  pose proof Hsub as (He1 & _ & Hc1 & Ho1).
  assert (Hnc1 : not_cached e s1).
  { intros q Hq Hqc. destruct (Hc1 q Hq) as [Heq|[_ Heq]]; rewrite Heq in Hqc; [by apply (Hnc q)|done]. }
  assert (Hnone1 : cached_bytes s1 p = None) by (unfold cached_bytes; by rewrite Hfree).
  assert (Hs1 : slot_full m_id d idx e s1) by (by eapply slot_full_dec).
  wp_use wpd_RestoreData; [exact Hd1|by rewrite He1|done|exact Hs1|by rewrite Hm1|exact Hf|done
    |eapply recover_fits; [exact Hom|exact Hch|exact Hbufs|exact Hsub|exact Hfree]|].
  intros r s2 (Hd2 & Hr2 & Hem & _ & f1 & _ & Hrest & Hrun).
  assert (Hx : mem_load (length x) (fp_code f1) 0 = x).
  { eapply (restored_bytes s1); [exact Hom1|exact Hnone1|exact Hch|]. by apply Hrun. }
  destruct Hom as [Hm _ _ Hmem _ _ _].
  destruct (lb_size _ _ _ _ Hmem bp x ltac:(apply in_app_iff; right; by left)) as [H8 Hsz].
  destruct (packet_fields _ _ Hx H8) as [Esn Esz].
  unfold restored in Hrest. rewrite Esn in Hrest. fold p in Hrest. rewrite Z.eqb_refl in Hrest.
  destruct Hrest as (-> & Hcache & (r0 & p' & Hrecv) & b' & Hb' & Hpay & Hplen).
  split; [done|by eapply dinv_fec_inv|by eapply dinv_enc_same| |done|].
  - fold p. unfold cache_of. rewrite Hcache. apply list_lookup_insert_eq.
    pose proof (proj2 (ic_cache _ _ (dv_core _ _ _ _ Hd1))). lia.
  - exists b'. split; [done|]. split; [congruence|]. split.
    + unfold packet_bytes. rewrite Hplen, Esz, Hsz, Nat2Z.id, Hpay. done.
    + exists (fs_pool s1), r0, p'. rewrite Hpay. rewrite Ho1 in Hrecv.
      assert (fs_world s1 = fs_world s) as Hw by (by injection Ho1). rewrite Hw in Hrecv. exact Hrecv.
Qed.

(** C2: one lost packet of a line comes back.  Let the slot of a line hold a
    fec packet with the parity of its members, all of them cached except [x]
    (stale packets of other blocks may be in the way), every packet inside its
    buffer.  Then
    [CalcRestorePos] finds the position of [x] and [RestoreData] rebuilds it
    byte for byte: the packet is handed to the session, takes its place in the
    cache, and the line's slot is empty. *)
Theorem line_recovery s (m_id : nat) (mt : Matrix E) (d : Fec2CodeDir) (idx : Z) e (b : Buf) (f : Fec2CodePack)
    (ps1 : line) (bp : Z) (x : list Z) (ps2 : line) :
  fec_inv s -> fs_dec s !! m_id = Some mt -> slot_full m_id d idx e s ->
  fs_mem s !! e = Some b -> buf_data b = FecMem f -> not_cached e s ->
  code_holds (mx_hdr mt) d idx f (ps1 ++ (bp, x) :: ps2) ->
  one_missing s (mx_hdr mt) d idx ps1 bp x ps2 -> in_buffers s e f (ps1 ++ ps2) ->
  let start := fec_line_start d (mx_hdr mt) (start_pos (mx_hdr mt)) idx in
  exists r s', (res ← CalcRestorePos m_id d start idx; RestoreData m_id d start res idx) s = Some (r, s') /\
    recovered m_id d idx e x s r s'.
Proof.
  intros H1 H2 H3 H4 H5 H6 H7 H8 H9. cbv zeta.
  exact (wp_total _ _ _ (recover_line _ _ _ _ _ _ _ _ _ _ _ _ H1 H2 H3 H4 H5 H6 H7 H8 H9)).
Qed.

End Recover.

(** ** An instance

    The receiver of FecDemo.v once packet 1 is cached and the fec packet of the
    first row waits in its slot. *)
Definition arrived (data fec : Z * Z) : FM TranMemPool (Z * Z) Host unit :=
  _ ← PushPack DecBuf data false;
  _ ← claim_matrix 0 0;
  CachedFecEncodePack 0 kHorizontal 0 fec.
Definition waiting : FecSt TranMemPool (Z * Z) Host := run (arrived ed ef) receiver.
Definition waiting_mat : Matrix (Z * Z) :=
  default (matrix_ctor 0 (mkMode 0 false false false false 0 0 0)) (fs_dec waiting !! 0%nat).

Lemma arrived_inv s (data fec : Z * Z) bd bf f :
  fec_inv s -> data <> fec -> fs_mem s !! data = Some bd -> 0 < pp_refs (fs_pool s) data ->
  fs_mem s !! fec = Some bf -> buf_data bf = FecMem f -> 0 < fe_held (fs_world s) fec ->
  fec_inv (run (arrived data fec) s).
Proof.
  intros Hinv Hne Hbd Hr Hbf Hf Hh. set (U := touchable s (fun y => y = data \/ y = fec)).
  assert (Hw : wp (arrived data fec) (fun _ s' => dinv s U x0 s') s).
  { unfold arrived. wp_steps.
    wp_use (wpd_PushPack s U s data bd); [by apply fec_inv_dinv|right; by left|done|done|].
    intros _ s1 (_ & Hd1 & _ & Hm1 & _ & _ & Ho1). wp_steps.
    wp_use (wpd_claim s U 0 0 s1); [done|lia|lia|]. intros _ s2 (Hd2 & Hm2 & Hw2). wp_steps.
    destruct (dv_mat _ _ _ _ 0%nat Hd2 ltac:(lia)) as (mt & Hmt & _).
    wp_use (wpd_Cached s U 0 kHorizontal 0 fec bf f s2 mt);
      [done|right; by right|lia|exact Hmt|cbn; lia| |done| |by intros _ s3 (? & _)].
    - rewrite Hm2, Hm1, lookup_insert_ne by done. done.
    - rewrite Hw2. assert (fs_world s1 = fs_world s) as -> by (by injection Ho1). done. }
  unfold run. destruct (wp_total _ _ _ Hw) as ([] & s' & -> & Hd). by eapply dinv_fec_inv.
Qed.

Lemma waiting_inv : fec_inv waiting.
Proof.
  apply (arrived_inv receiver ed ef (mkBuf 0 0 (PackMem p1)) (mkBuf 0 0 (FecMem f0)) f0);
    [exact (er_inv _ _ receiver_rep)|done|reflexivity|vm_compute; reflexivity|reflexivity|done|vm_compute; reflexivity].
Qed.

Ltac bytes_by_vm := repeat (constructor; [unfold byte_ok; vm_compute; split; [discriminate|reflexivity]|]); constructor.

Lemma waiting_missing : one_missing waiting (mx_hdr waiting_mat) kHorizontal 0 [] 0 p0 [(1, p1)].
Proof.
  split.
  - exists 4, (mkMode kBlock true true false false 2 2 4). split; [lia|]. split; [reflexivity|].
    split; [vm_compute; reflexivity|]. split; [vm_compute; split; [discriminate|reflexivity]|vm_compute; reflexivity].
  - cbn. lia.
  - vm_compute. reflexivity.
  - split.
    + apply (bool_decide_unpack _). vm_compute. exact I.
    + intros bp x Hin. cbn [app In] in Hin. destruct Hin as [[= <- <-]|[[= <- <-]|[]]].
      * exists 0. split; [vm_compute; auto|vm_compute; reflexivity].
      * exists 1. split; [vm_compute; auto|vm_compute; reflexivity].
    + intros bp x Hin. cbn [app In] in Hin. destruct Hin as [[= <- <-]|[[= <- <-]|[]]];
        (split; [vm_compute; lia|vm_compute; reflexivity]).
  - repeat (constructor; [cbn; lia|]). constructor.
  - intros p Hin. cbn [app In] in Hin. destruct Hin as [<-|[]]. exists p1.
    split; [vm_compute; reflexivity|]. split; [exact (proj2 p_bytes_ok)|vm_compute; reflexivity].
  - vm_compute. reflexivity.
Qed.

Lemma waiting_code : code_holds (mx_hdr waiting_mat) kHorizontal 0 f0 [(0, p0); (1, p1)].
Proof.
  split; try (vm_compute; reflexivity).
  - assert (fp_code f0 = [0; 0; 48; 0; 1; 0; 0; 0; 11; 22; 29; 40; 50]) as -> by (vm_compute; reflexivity).
    bytes_by_vm.
  - repeat (constructor; [cbn; lia|]). constructor.
Qed.

Definition waiting_buf : Buf := default (mkBuf 0 0 (PackMem [])) (fs_mem waiting !! ef).

Example line_recovery_witness :
  exists r s', (res ← CalcRestorePos 0 kHorizontal 0 0; RestoreData 0 kHorizontal 0 res 0) waiting = Some (r, s') /\
    recovered 0 kHorizontal 0 ef p0 waiting r s'.
Proof.
  apply (line_recovery waiting 0 waiting_mat kHorizontal 0 ef waiting_buf f0 [] 0 p0 [(1, p1)]).
  - exact waiting_inv.
  - vm_compute. reflexivity.
  - eexists. split; [vm_compute; reflexivity|reflexivity].
  - vm_compute. reflexivity.
  - vm_compute. reflexivity.
  - intros p Hp Hc. assert (Hd : forallb (fun k => negb (bool_decide (cache_of waiting (Z.of_nat k) = Some (Some ef)))) (seq 0 32) = true)
      by (vm_compute; reflexivity).
    rewrite forallb_forall in Hd. specialize (Hd (Z.to_nat p)). rewrite Z2Nat.id in Hd by lia.
    specialize (Hd ltac:(apply in_seq; lia)). rewrite bool_decide_true in Hd by exact Hc. discriminate Hd.
  - exact waiting_code.
  - exact waiting_missing.
  - split; [vm_compute; discriminate|]. intros p c b [<-|[]] Hc Hb. vm_compute in Hc. injection Hc as <-.
    vm_compute in Hb. injection Hb as <-. vm_compute. discriminate.
Defined.

End FecRecover.
