(* ===== verification/FecOverrun.v ===== *)
(** * The decoder in a short buffer

    [RestoreData] xors packets into the code area of a received fec packet and
    tests no length against the buffer.  The other side of the room that
    FecTop.v asks for: whenever a packet the line covers is longer than the
    code area, the restoration leaves the buffer. *)
From S2P Require Import Prelude PoolInterface TranPool TranPoolSpec XorCode PacketHeader FecState FecBuffer.
From S2P Require Import FecInv FecAbstract FecBufferSpec FecEncode FecEncodeSpec FecEncodeRefine FecDecode.
From S2P Require Import FecDecodeSpec FecDecodeSafe FecTop FecDemo FecRecover.
Export FecRecover.

Module FecOverrun.

Section Overrun.
Context {P E W : Type} `{Countable E} `{!PackPool P E} `{!FecEnv P E W}.
Context `{!PackPoolLaws P E} `{!FecEnvLaws P E W}.
Implicit Types (s : FecSt P E W) (e : E).

(** Xoring the packet cached at [p] into the code of [e] leaves a buffer. *)
Definition misfit e s (p : Z) : Prop :=
  exists c b, cache_of s p = Some (Some c) /\ fs_mem s !! c = Some b /\ xor_in_bounds c b e = false.

Lemma misfit_change e y s s' p : code_change y s s' -> misfit e s p -> misfit e s' p.
Proof.
  intros Hc (c & b & Hp & Hb & Hx). destruct (code_change_same _ _ _ Hc) as [_ Hbuf].
  pose proof (code_change_shape _ _ _ c Hc) as Hs. rewrite Hb in Hs.
  apply fmap_Some in Hs as (b' & Hb' & Hs). exists c, b'. split; [unfold cache_of in *; by rewrite Hbuf|].
  split; [done|]. by rewrite (xor_in_bounds_shape c b b').
Qed.

Lemma fits_or_misfit x s0 U e s p : dinv s0 U x s -> 0 <= p < 32 -> fits_at e s p \/ misfit e s p.
Proof.
  intros Hd Hp. destruct (dv_cache _ _ _ _ _ Hd Hp) as [[c|] Hc].
  2:{ left. intros c b Hc'. congruence. }
  destruct (dv_cached _ _ _ _ _ _ Hd Hc) as [b Hb]. destruct (xor_in_bounds c b e) eqn:Hx.
  - left. intros c' b' Hc' Hb'. by simplify_eq.
  - right. by exists c, b.
Qed.

(** The round that meets such a packet faults. *)
Lemma faults_restore_round s0 U x s m_id d idx stride pos bit e b f :
  dinv s0 U x s -> 0 <= idx -> slot_full m_id d idx e s -> fs_mem s !! e = Some b -> buf_data b = FecMem f ->
  0 <= pos < 32 -> Z.land (fp_encode_bit_map f) bit <> 0 -> misfit e s pos ->
  faults (restore_round m_id d idx stride (pos, bit)) s.
Proof.
  intros Hd Hi Hs Hb Hf Hp Hbit (c & bc & Hc & Hbc & Hx). unfold restore_round. apply faults_after.
  eapply wpd_slot_fec; [exact Hd|done|exact Hs|]. intros b1 f1 Hb1 Hf1.
  assert (f1 = f) as -> by congruence. cbn beta iota.
  rewrite (proj2 (Z.eqb_neq _ _) Hbit). apply faults_here, faults_after.
  eapply wpd_get_cache; [exact Hd|done|]. intros o Ho. assert (o = Some c) as -> by congruence.
  apply faults_after. eapply wp_get_buf; [exact Hbc|]. by rewrite Hx.
Qed.

Lemma faults_restore_loop s0 U x m_id d idx stride e n : forall s pos bit b f p,
  dinv s0 U x s -> 0 <= idx -> slot_full m_id d idx e s -> fs_mem s !! e = Some b -> buf_data b = FecMem f ->
  0 <= pos < 32 -> In p (covered (fp_encode_bit_map f) stride n pos bit) -> misfit e s p ->
  faults (for_up n (restore_round m_id d idx stride) (pos, bit)) s.
Proof.
  induction n as [|n IH]; intros s pos bit b f p Hd Hi Hs Hb Hf Hp Hin Hmis; [done|].
  cbn [for_up covered] in *.
  assert (Hround : Z.land (fp_encode_bit_map f) bit <> 0 /\ misfit e s pos \/
    (Z.land (fp_encode_bit_map f) bit <> 0 -> fits_at e s pos)).
  { destruct (fits_or_misfit _ _ _ e _ _ Hd Hp); [by right; intros|].
    destruct (decide (Z.land (fp_encode_bit_map f) bit = 0)); [by right; intros|by left]. }
  destruct Hround as [[Hbit Hm]|Hfit].
  { apply faults_here. by eapply faults_restore_round. }
  apply faults_after. eapply wp_mono; [by eapply wpd_restore_round|].
  intros pb s1 (-> & Hd1 & Hc1 & b1 & f1 & Hb1 & Hf1 & (_ & _ & Hbm & _) & _).
  eapply (IH _ _ _ b1 f1 p); [exact Hd1|done| |exact Hb1|exact Hf1|apply next_pos_range| |exact (misfit_change _ _ _ _ _ Hc1 Hmis)].
  { eapply slot_full_dec; [|exact Hs]. by destruct (code_change_same _ _ _ Hc1). }
  rewrite Hbm. apply in_app_iff in Hin as [Hin|Hin]; [|done].
  exfalso. destruct (Z.eqb_spec (Z.land (fp_encode_bit_map f) bit) 0) as [_|Hbit]; [done|].
  destruct Hin as [<-|[]]. destruct Hmis as (c & bc & Hc & Hbc & Hx).
  rewrite (Hfit Hbit c bc Hc Hbc) in Hx. done.
Qed.

(** C34: a short buffer is overrun.  Whatever line a received fec packet claims
    to belong to, if one of the packets its bitmap covers is cached and longer
    than what the fec packet's buffer has left after its 24 header bytes, then
    [RestoreData] xors that packet past the end of the buffer: the model stops
    with a fault.  No length test of the code comes first: the sender of the
    fec packet chooses its size, hence the buffer the host receives it in. *)
Theorem short_code_overruns s (m_id : nat) (mt : Matrix E) (d : Fec2CodeDir) (start res idx : Z) e (b : Buf)
    (f : Fec2CodePack) (p : Z) (c : E) (bc : Buf) :
  fec_inv s -> fs_dec s !! m_id = Some mt -> 0 <= idx -> slot_full m_id d idx e s ->
  fs_mem s !! e = Some b -> buf_data b = FecMem f -> 0 <= start < 32 ->
  (let '(count, stride, bit0) := line_walk d (mx_hdr mt) idx in
   In p (covered (fp_encode_bit_map f) stride (Z.to_nat count) start bit0)) ->
  cache_of s p = Some (Some c) -> fs_mem s !! c = Some bc -> code_room e < payload_len bc ->
  RestoreData m_id d start res idx s = None.
Proof.
  intros Hinv Hmt Hi Hs Hb Hf Hst Hcov Hc Hbc Hlong. change (faults (RestoreData m_id d start res idx) s).
  unfold RestoreData. apply faults_after. eapply wp_get_hdr; [exact Hmt|].
  destruct (line_walk d (mx_hdr mt) idx) as [[count stride] bit0]. apply faults_here.
  eapply faults_restore_loop;
    [exact (fec_inv_dinv s (fun _ => False) Hinv)|done|exact Hs|exact Hb|exact Hf|done|exact Hcov|].
  exists c, bc. split; [done|]. split; [done|]. unfold xor_in_bounds. rewrite (proj2 (Z.leb_gt _ _) Hlong).
  apply andb_false_r.
Qed.

End Overrun.

(** ** An instance

    The fec packet of the first row arrives with one byte of code in a buffer
    of the 256-byte pool; packet 1 has 308 bytes. *)
Definition es : Z * Z := (0, 0).
Definition p1_long : list Z := demo_pack 1 (replicate 300 7).
Definition f_short : Fec2CodePack :=
  mkCode (fp_hdr f0) (fp_code_book_id f0) (fp_encode_bit_map f0) (fp_encode_dir f0) (fp_encode_pos f0) 1
    (fp_stream_key f0) [1].
Definition short_pool : TranMemPool := (pp_malloc 0 (pp_malloc 6 demo_pool).2).2.
Definition short_mem : gmap (Z * Z) Buf :=
  <[ed := mkBuf 0 0 (PackMem p1_long)]> (<[es := mkBuf 0 0 (FecMem f_short)]> ∅).
Definition short_receiver : FecSt TranMemPool (Z * Z) Host :=
  fec2_ctor short_pool (mkHost [ed; es] []) short_mem demo_pb.
Definition short_waiting : FecSt TranMemPool (Z * Z) Host := run (arrived ed es) short_receiver.
Definition short_mat : Matrix (Z * Z) :=
  default (matrix_ctor 0 (mkMode 0 false false false false 0 0 0)) (fs_dec short_waiting !! 0%nat).
Definition mem_at (e : Z * Z) : Buf := default (mkBuf 0 0 (PackMem [])) (fs_mem short_waiting !! e).

Lemma short_pool_ok : pool_ok short_pool /\ forall e, refs short_pool e = held_in (Some <$> [ed; es]) e.
Proof. apply (two_buffers 6 0 ed 65536 es 256); [lia|lia|vm_compute; reflexivity..]. Qed.

Lemma short_waiting_inv : fec_inv short_waiting.
Proof.
  apply (arrived_inv short_receiver ed es (mkBuf 0 0 (PackMem p1_long)) (mkBuf 0 0 (FecMem f_short)) f_short);
    [|done|reflexivity|vm_compute; reflexivity|reflexivity|done|vm_compute; reflexivity].
  eapply er_inv, ctor_rep; [apply short_pool_ok|by apply demo_world_ok; cbn; lia|apply short_pool_ok].
Qed.

Example short_code_overruns_witness :
  code_room es = 232 /\ payload_len (mem_at ed) = 308 /\
  RestoreData 0 kHorizontal 0 0 0 short_waiting = None.
Proof.
  split; [reflexivity|]. split; [vm_compute; reflexivity|].
  apply (short_code_overruns short_waiting 0 short_mat kHorizontal 0 0 0 es (mem_at es) f_short 1 ed (mem_at ed)).
  - exact short_waiting_inv.
  - vm_compute. reflexivity.
  - lia.
  - eexists. split; [vm_compute; reflexivity|reflexivity].
  - vm_compute. reflexivity.
  - vm_compute. reflexivity.
  - lia.
  - vm_compute. auto.
  - vm_compute. reflexivity.
  - vm_compute. reflexivity.
  - vm_compute. reflexivity.
Defined.

(** The same from the network: packet 1 is cached, the fec packet arrives. *)
Example Decode_overruns : Decode es (run (CacheDataPack ed) short_receiver) = None.
Proof. vm_compute. reflexivity. Qed.
Example Decode_overruns_first : CacheDataPack ed (run (Decode es) short_receiver) = None.
Proof. vm_compute. reflexivity. Qed.

End FecOverrun.
