(* ===== verification/ItemPool.v ===== *)
(** * What the item pool promises to its clients

    The arq list takes its nodes from a [GtpMemPool]
    (src/src/mempool/goodtp_mem_pool.cpp).  This file states what it relies on;
    MemPoolSpec.v discharges the laws. *)
From S2P Require Import Prelude.

(** [Q] is the state of the pool, [N] the address of an item. *)
Class ItemPool (Q N : Type) := {
  (** [MallocItem()] *)
  ip_malloc : Q -> option N * Q;
  (** [FreeItem(item)] *)
  ip_free : N -> Q -> Q;
  (** the item has been handed out and not given back *)
  ip_used : Q -> N -> bool;
  ip_ok : Q -> Prop
}.

Class ItemPoolLaws (Q N : Type) `{EqDecision N} `{!ItemPool Q N} : Prop := {
  ip_malloc_some q n q' :
    ip_ok q -> ip_malloc q = (Some n, q') ->
    ip_ok q' /\ ip_used q n = false /\ forall x, ip_used q' x = ip_used q x || bool_decide (x = n);
  ip_malloc_none q q' :
    ip_ok q -> ip_malloc q = (None, q') -> ip_ok q' /\ forall x, ip_used q' x = ip_used q x;
  ip_free_law q n :
    ip_ok q -> ip_used q n = true ->
    ip_ok (ip_free n q) /\ forall x, ip_used (ip_free n q) x = ip_used q x && bool_decide (x <> n)
}.
