(* ===== verification/MemPool.v ===== *)
(** * The item pool

    [GtpMemPool] (src/src/mempool/goodtp_mem_pool.cpp): one block of equal
    items, each behind a four-byte head with a use flag and a counter, and a
    bitmap of the used ones.  The sessions and the nodes of the arq list live in
    such pools.  An item is known by the address of its payload. *)
From S2P Require Import Prelude Bitmap.
Export Bitmap.

Module MemPool.

Definition MEM_GAP_SIZE : Z := 8.
(** [sizeof(PoolNode) - 1]: the head of an item. *)
Definition NODE_HEAD : Z := 4.
Definition FULL_MAP : Z := 0xFFFFFFFFFFFFFFFF.

Record PoolNode := mkNode { used_flag_ : bool; quote_counter_ : Z }.

(** [PoolMgr] and the fields of the pool object that survive [Init].  The
    bitmap ends with the eight bytes of the memory gap behind it. *)
Record GtpMemPool := mkMemPool {
  block_size_ : Z;
  pool_size_ : Z;
  using_num_ : Z;
  mem_pool_left_boundary_ : Z;
  mem_pool_right_boundary_ : Z;
  malloc_counter_ : Z;
  free_counter_ : Z;
  last_free_pos_ : Z;
  bitmap_length_ : Z;
  used_bitmap_ : list Z;
  mem_pool_ : list PoolNode
}.

(** The rounding of the constructor. *)
Definition round_block_size (block_size : Z) : Z :=
  if Z.land block_size 0xFFFFFFFC =? 0 then u32 (NODE_HEAD + block_size)
  else u32 (NODE_HEAD + (Z.land block_size 0xFFFFFFFC + 4)).
Definition round_block_num (block_num : Z) : Z :=
  if Z.land block_num 0xFFFFFFC0 =? 0 then block_num else u32 (Z.land block_num 0xFFFFFFC0 + 64).

(** The constructor and [Init]: [mem] is the result of [malloc] and [gap] the
    content of the memory gap; the head of an item is POOL_NODE_HEADER_INIT,
    whose second and fourth byte are 0.  [None] is kDistributeMemFail. *)
Definition MemPoolInit (block_size block_num : Z) (mem : option Z) (gap : Z) : option GtpMemPool :=
  let bs := round_block_size block_size in
  let bn := round_block_num block_num in
  let mgr_size := u32 (64 + 8 * bn + MEM_GAP_SIZE) in
  let bitmap_size := u32 (8 * Z.shiftr bn 6 + MEM_GAP_SIZE) in
  let total_mem_len := u32 (mgr_size + bitmap_size + u32 (bs * bn)) in
  match mem with
  | None => None
  | Some m =>
      Some (mkMemPool bs bn 0 (m + u32 (mgr_size + bitmap_size)) (m + total_mem_len) 0 0 0 (Z.shiftr bn 6)
              (replicate (Z.to_nat (Z.shiftr bn 6)) 0 ++ [gap])
              (replicate (Z.to_nat (Z.max 1 bn)) (mkNode false 0)))
  end.

Section Ops.
Local Abbreviation M := (ST GtpMemPool).

Definition node_at (pos : Z) : M PoolNode := q ← get_st; deref (mem_pool_ q !! Z.to_nat pos).
Definition map_word (i : Z) : M Z := q ← get_st; deref (used_bitmap_ q !! Z.to_nat i).

Definition put_node (pos : Z) (n : PoolNode) (q : GtpMemPool) : GtpMemPool :=
  mkMemPool (block_size_ q) (pool_size_ q) (using_num_ q) (mem_pool_left_boundary_ q) (mem_pool_right_boundary_ q)
    (malloc_counter_ q) (free_counter_ q) (last_free_pos_ q) (bitmap_length_ q) (used_bitmap_ q)
    (<[Z.to_nat pos := n]> (mem_pool_ q)).
Definition put_word (i w : Z) (q : GtpMemPool) : GtpMemPool :=
  mkMemPool (block_size_ q) (pool_size_ q) (using_num_ q) (mem_pool_left_boundary_ q) (mem_pool_right_boundary_ q)
    (malloc_counter_ q) (free_counter_ q) (last_free_pos_ q) (bitmap_length_ q)
    (<[Z.to_nat i := w]> (used_bitmap_ q)) (mem_pool_ q).
Definition put_using (n : Z) (q : GtpMemPool) : GtpMemPool :=
  mkMemPool (block_size_ q) (pool_size_ q) n (mem_pool_left_boundary_ q) (mem_pool_right_boundary_ q)
    (malloc_counter_ q) (free_counter_ q) (last_free_pos_ q) (bitmap_length_ q) (used_bitmap_ q) (mem_pool_ q).
Definition put_counters (mallocs frees : Z) (q : GtpMemPool) : GtpMemPool :=
  mkMemPool (block_size_ q) (pool_size_ q) (using_num_ q) (mem_pool_left_boundary_ q) (mem_pool_right_boundary_ q)
    mallocs frees (last_free_pos_ q) (bitmap_length_ q) (used_bitmap_ q) (mem_pool_ q).
Definition put_last (pos : Z) (q : GtpMemPool) : GtpMemPool :=
  mkMemPool (block_size_ q) (pool_size_ q) (using_num_ q) (mem_pool_left_boundary_ q) (mem_pool_right_boundary_ q)
    (malloc_counter_ q) (free_counter_ q) pos (bitmap_length_ q) (used_bitmap_ q) (mem_pool_ q).

(** [&mem_pool_[pos]->memory_[0]] *)
Definition item_addr (q : GtpMemPool) (pos : Z) : Z := mem_pool_left_boundary_ q + block_size_ q * pos + NODE_HEAD.

(** [MemAddrToElementAddr]: the position of the item an address lies in. *)
Definition MemAddrToElementAddr (q : GtpMemPool) (mem_addr : Z) : option Z :=
  if (mem_addr <? mem_pool_left_boundary_ q) || (mem_pool_right_boundary_ q <=? mem_addr) then None
  else Some (u32 ((mem_addr - mem_pool_left_boundary_ q) / block_size_ q)).

(** [directly_distribute_pos_]: the item at [last_free_pos_]. *)
Definition distribute (bitmap_pos : Z) : M Z :=
  q ← get_st;
  let pos := last_free_pos_ q in
  _ ← node_at pos;
  _ ← mod_st (put_node pos (mkNode true 1));
  w ← map_word bitmap_pos;
  _ ← mod_st (put_word bitmap_pos (Z.lor w (Z.shiftl 1 (Z.land pos 0x3F))));
  _ ← mod_st (put_counters (u32 (malloc_counter_ q + 1)) (free_counter_ q));
  _ ← mod_st (put_using (u32 (using_num_ q + 1)));
  mret (item_addr q pos).

(** The bit loop behind [indirectly_distribute_pos_]. *)
Fixpoint scan_bits (n : nat) (bitmap_value bit_mask free_pos : Z) : M (option Z) :=
  match n with
  | O => mret None
  | S n' =>
      free ← (if Z.land bitmap_value bit_mask =? 0 then nd ← node_at free_pos; mret (negb (used_flag_ nd))
              else mret false);
      if free : bool then mret (Some free_pos)
      else scan_bits n' bitmap_value (u64 (Z.shiftl bit_mask 1)) (u32 (free_pos + 1))
  end.

(** [do { ... } while (bitmap_length_ > bitmap_pos)]: the first word that is not
    full, at most [bitmap_length_] when there is none. *)
Fixpoint scan_map (n : nat) (bitmap_pos : Z) : M Z :=
  match n with
  | O => fault
  | S n' =>
      w ← map_word bitmap_pos;
      if negb (w =? FULL_MAP) then mret bitmap_pos
      else
        q ← get_st;
        if bitmap_length_ q <=? bitmap_pos + 1 then mret (bitmap_pos + 1) else scan_map n' (bitmap_pos + 1)
  end.

(** The search among the words: the word of the last free position first, then
    from the start; every jump back to [indirectly_distribute_pos_] is a round. *)
Fixpoint search (fuel : nat) (bitmap_value bitmap_pos free_pos : Z) : M (option Z) :=
  match fuel with
  | O => fault
  | S fuel' =>
      r ← (if bitmap_value =? FULL_MAP then mret None else scan_bits 64 bitmap_value 1 free_pos);
      match r with
      | Some pos => _ ← mod_st (put_last pos); a ← distribute bitmap_pos; mret (Some a)
      | None =>
          q ← get_st;
          bp ← scan_map (S (Z.to_nat (bitmap_length_ q))) 0;
          if bp <? bitmap_length_ q then
            w ← map_word bp; search fuel' w bp (u32 (Z.shiftl bp 6))
          else _ ← mod_st (put_using (pool_size_ q)); mret None
      end
  end.

(** [MallocItem(node_payload)]; [None] is a null pointer. *)
Definition MallocItem (node_payload : option Z) : M (option Z) :=
  q ← get_st;
  match node_payload ≫= MemAddrToElementAddr q with
  | Some pos =>
      nd ← node_at pos;
      _ ← mod_st (put_node pos (mkNode (used_flag_ nd) (u8 (quote_counter_ nd + 1))));
      _ ← mod_st (put_counters (u32 (malloc_counter_ q + 1)) (free_counter_ q));
      mret (Some (item_addr q pos))
  | None =>
      if pool_size_ q <=? using_num_ q then mret None
      else
        let bitmap_pos := Z.shiftr (last_free_pos_ q) 6 in
        nd ← node_at (last_free_pos_ q);
        if negb (used_flag_ nd) then a ← distribute bitmap_pos; mret (Some a)
        else
          w ← map_word bitmap_pos;
          search 2 w bitmap_pos (Z.land (last_free_pos_ q) 0xFFFFFFC0)
  end.

(** [FreeItem(mem_addr)] *)
Definition FreeItem (mem_addr : Z) : M unit :=
  q ← get_st;
  match MemAddrToElementAddr q mem_addr with
  | None => mret tt
  | Some pos =>
      nd ← node_at pos;
      if negb (used_flag_ nd) then mret tt
      else
        _ ← mod_st (put_counters (malloc_counter_ q) (u32 (free_counter_ q + 1)));
        let quote := if 0 <? quote_counter_ nd then quote_counter_ nd - 1 else quote_counter_ nd in
        _ ← mod_st (put_node pos (mkNode true quote));
        if 0 <? quote then mret tt
        else
          _ ← mod_st (put_using (if 0 <? using_num_ q then using_num_ q - 1 else using_num_ q));
          _ ← mod_st (put_node pos (mkNode false quote));
          w ← map_word (Z.shiftr pos 6);
          _ ← mod_st (put_word (Z.shiftr pos 6) (Z.ldiff w (Z.shiftl 1 (Z.land pos 0x3F))));
          mod_st (put_last pos)
  end.

End Ops.
End MemPool.
