(* ===== verification/MemPoolSpec.v ===== *)
(** * Correctness of the item pool

    Flags, counters, bitmap and statistics of [GtpMemPool] agree; an item handed
    out is unused, and every item is handed out as long as one is left. *)
From S2P Require Import Prelude Bitmap ItemPool MemPool.
Export ItemPool MemPool.

Module MemPoolSpec.

(** How often item [i] has been handed out and not yet given back. *)
Definition quote (q : GtpMemPool) (i : Z) : Z :=
  match mem_pool_ q !! Z.to_nat i with Some nd => quote_counter_ nd | None => 0 end.

Record mp_ok (q : GtpMemPool) : Prop := {
  mk_size : 0 < bitmap_length_ q /\ pool_size_ q = 64 * bitmap_length_ q;
  mk_block : NODE_HEAD < block_size_ q /\ block_size_ q * pool_size_ q < 2 ^ 32;
  mk_bounds : mem_pool_right_boundary_ q = mem_pool_left_boundary_ q + block_size_ q * pool_size_ q;
  mk_bits : length (used_bitmap_ q) = S (Z.to_nat (bitmap_length_ q));
  mk_words : Forall (fun w => 0 <= w < 2 ^ 64) (used_bitmap_ q);
  mk_len : length (mem_pool_ q) = Z.to_nat (pool_size_ q);
  mk_last : 0 <= last_free_pos_ q < pool_size_ q;
  mk_nodes : forall i nd, 0 <= i -> mem_pool_ q !! Z.to_nat i = Some nd ->
    bit_of (used_bitmap_ q) i = used_flag_ nd /\ used_flag_ nd = (0 <? quote_counter_ nd) /\
    0 <= quote_counter_ nd < 256;
  mk_count : using_num_ q = countb used_flag_ (mem_pool_ q)
}.

(** ** Access *)
Lemma mk_pool_size q : mp_ok q -> 64 <= pool_size_ q < 2 ^ 32.
Proof. intros Hq. destruct (mk_size _ Hq), (mk_block _ Hq). unfold NODE_HEAD in *. nia. Qed.

Lemma mk_node_at q i : mp_ok q -> 0 <= i < pool_size_ q ->
  exists nd, mem_pool_ q !! Z.to_nat i = Some nd /\ bit_of (used_bitmap_ q) i = used_flag_ nd /\
    used_flag_ nd = (0 <? quote_counter_ nd) /\ 0 <= quote_counter_ nd < 256.
Proof.
  intros Hq Hi. destruct (lookup_lt_is_Some_2 (mem_pool_ q) (Z.to_nat i)) as [nd Hnd].
  { rewrite (mk_len _ Hq). lia. }
  exists nd. split; [done|]. apply (mk_nodes _ Hq); [lia|done].
Qed.

Lemma mk_word_at q k : mp_ok q -> 0 <= k < bitmap_length_ q ->
  exists w, used_bitmap_ q !! Z.to_nat k = Some w /\ 0 <= w < 2 ^ 64.
Proof.
  intros Hq Hk. destruct (lookup_lt_is_Some_2 (used_bitmap_ q) (Z.to_nat k)) as [w Hw].
  { rewrite (mk_bits _ Hq). lia. }
  exists w. split; [done|]. exact (Forall_lookup_1 _ _ _ _ (mk_words _ Hq) Hw).
Qed.

(** The word and the bit of a position. *)
Lemma pos_word i n : 0 <= i < 64 * n ->
  Z.shiftr i 6 = i / 64 /\ Z.land i 0x3F = i mod 64 /\ 0 <= i / 64 < n /\ 0 <= i mod 64 < 64 /\ i = 64 * (i / 64) + i mod 64.
Proof.
  intros Hi. rewrite Z.shiftr_div_pow2 by lia. change 0x3F with (2 ^ 6 - 1). rewrite land_mask by lia.
  change (2 ^ 6) with 64. pose proof (Z.div_mod i 64 ltac:(lia)). pose proof (Z.mod_pos_bound i 64 ltac:(lia)).
  pose proof (Z.div_pos i 64). pose proof (Z.div_lt_upper_bound i 64 n). lia.
Qed.

Lemma word_start i : 0 <= i < 2 ^ 32 -> Z.land i 0xFFFFFFC0 = 64 * (i / 64).
Proof.
  intros Hi. replace (64 * (i / 64)) with (Z.shiftl (Z.shiftr i 6) 6)
    by (rewrite Z.shiftl_mul_pow2, Z.shiftr_div_pow2 by lia; change (2 ^ 6) with 64; lia).
  apply Z.bits_inj'. intros k Hk. rewrite Z.land_spec.
  change 0xFFFFFFC0 with (Z.shiftl (Z.ones 26) 6). rewrite !Z.shiftl_spec by done.
  destruct (Z.ltb_spec k 6).
  { rewrite !(Z.testbit_neg_r _ (k - 6)) by lia. apply andb_false_r. }
  rewrite Z.shiftr_spec, testbit_ones_full by lia. replace (k - 6 + 6) with k by lia.
  destruct (Z.ltb_spec (k - 6) 26); [apply andb_true_r|].
  rewrite <- (Z.mod_small i (2 ^ 32)) by done. by rewrite Z.mod_pow2_bits_high by lia.
Qed.

(** Item [i] replaced, its bit and the statistics following. *)
Lemma mp_ok_update q q' i nd nd' w :
  mp_ok q -> 0 <= i < pool_size_ q -> mem_pool_ q !! Z.to_nat i = Some nd ->
  used_bitmap_ q !! Z.to_nat (i / 64) = Some w ->
  block_size_ q' = block_size_ q -> pool_size_ q' = pool_size_ q -> bitmap_length_ q' = bitmap_length_ q ->
  mem_pool_left_boundary_ q' = mem_pool_left_boundary_ q -> mem_pool_right_boundary_ q' = mem_pool_right_boundary_ q ->
  0 <= last_free_pos_ q' < pool_size_ q ->
  used_bitmap_ q' = <[Z.to_nat (i / 64) := if used_flag_ nd' then Z.lor w (2 ^ (i mod 64))
                                            else Z.ldiff w (2 ^ (i mod 64))]> (used_bitmap_ q) ->
  mem_pool_ q' = <[Z.to_nat i := nd']> (mem_pool_ q) ->
  used_flag_ nd' = (0 <? quote_counter_ nd') -> 0 <= quote_counter_ nd' < 256 ->
  using_num_ q' = using_num_ q - ind (used_flag_ nd) + ind (used_flag_ nd') ->
  mp_ok q' /\ forall j, 0 <= j -> quote q' j = if j =? i then quote_counter_ nd' else quote q j.
Proof.
  intros [Hs Hb Hbd Hbits Hw Hl Hlast Hn Hc] Hi Hnd Hwd E1 E2 E3 E4 E5 E6 E7 E8 Hu Hqr Hcnt.
  assert (Hword : 0 <= w < 2 ^ 64) by exact (Forall_lookup_1 _ _ _ _ Hw Hwd).
  destruct (pos_word i (bitmap_length_ q)) as (_ & _ & Hd & Hm & Hdm); [lia|].
  split.
  - split; rewrite ?E1, ?E2, ?E3, ?E4, ?E5; try done.
    + by rewrite E7, length_insert.
    + rewrite E7. apply words_insert; [done|]. destruct (used_flag_ nd'); [by apply word_lor|by apply word_ldiff].
    + by rewrite E8, length_insert.
    + intros j n Hj Hjn. rewrite E8 in Hjn. rewrite E7, (bit_of_insert _ (i / 64) w (i mod 64)) by (done || lia).
      rewrite <- Hdm. destruct (Z.eqb_spec j i) as [->|Hne].
      * rewrite list_lookup_insert_eq in Hjn by (by eapply lookup_lt_Some). by simplify_eq.
      * rewrite list_lookup_insert_ne in Hjn by lia. by apply Hn.
    + rewrite E8, (countb_insert _ _ _ nd) by done. lia.
  - intros j Hj. unfold quote. rewrite E8. destruct (Z.eqb_spec j i) as [->|Hne].
    + by rewrite list_lookup_insert_eq by (by eapply lookup_lt_Some).
    + by rewrite list_lookup_insert_ne by lia.
Qed.

Lemma mk_using q : mp_ok q -> 0 <= using_num_ q <= pool_size_ q.
Proof.
  intros Hq. rewrite (mk_count _ Hq). pose proof (countb_le used_flag_ (mem_pool_ q)) as Hc.
  rewrite (mk_len _ Hq) in Hc. pose proof (mk_pool_size _ Hq). lia.
Qed.

(** The pool keeps its place and its addresses. *)
Definition same_place (q q' : GtpMemPool) : Prop :=
  block_size_ q' = block_size_ q /\ pool_size_ q' = pool_size_ q /\
  mem_pool_left_boundary_ q' = mem_pool_left_boundary_ q /\ mem_pool_right_boundary_ q' = mem_pool_right_boundary_ q.

Definition handed_out (q q' : GtpMemPool) (a : Z) : Prop :=
  exists i, 0 <= i < pool_size_ q /\ a = item_addr q i /\ quote q i = 0 /\
    forall j, 0 <= j -> quote q' j = quote q j + ind (j =? i).

(** ** Allocation *)
Lemma wp_distribute q :
  mp_ok q -> quote q (last_free_pos_ q) = 0 ->
  wp (distribute (last_free_pos_ q / 64)) (fun a q' => mp_ok q' /\ same_place q q' /\ handed_out q q' a) q.
Proof.
  intros Hq Hz. pose proof (mk_last _ Hq) as Hl. destruct (mk_size _ Hq) as [_ Hsz].
  destruct (pos_word (last_free_pos_ q) (bitmap_length_ q)) as (_ & Hm6 & Hd & Hm & Hdm); [lia|].
  destruct (mk_node_at q _ Hq Hl) as (nd & Hnd & Hbit & Hu & Hqc).
  destruct (mk_word_at q _ Hq Hd) as (w & Hw & Hwr).
  unfold quote in Hz. rewrite Hnd in Hz. pose proof (mk_using _ Hq) as Hus.
  assert (Huf : used_flag_ nd = false) by (rewrite Hu, Hz; done).
  unfold distribute, node_at, map_word. wp_steps. eapply wp_deref; [exact Hnd|]. wp_steps.
  eapply wp_deref; [exact Hw|]. wp_steps. rewrite Hm6, Z.shiftl_1_l.
  set (q' := put_using _ _). pose proof (mk_pool_size _ Hq).
  assert (Hlt : using_num_ q < pool_size_ q).
  { rewrite (mk_count _ Hq). destruct (countb_le used_flag_ (<[Z.to_nat (last_free_pos_ q) := mkNode true 1]> (mem_pool_ q))) as [_ Hc].
    rewrite length_insert, (countb_insert _ _ _ nd), (mk_len _ Hq), Huf in Hc by done.
    unfold ind in Hc. cbn [used_flag_] in Hc. lia. }
  destruct (mp_ok_update q q' (last_free_pos_ q) nd (mkNode true 1) w) as [Hok Hquote]; try done.
  { cbn. rewrite Huf, u32_small by lia. unfold ind. lia. }
  split; [done|]. split; [done|]. exists (last_free_pos_ q). split; [done|]. split; [done|].
  unfold quote at 1. rewrite Hnd. split; [done|]. intros j Hj. rewrite Hquote by done.
  destruct (Z.eqb_spec j (last_free_pos_ q)) as [->|]; cbn [ind quote_counter_]; [|lia].
  unfold quote. rewrite Hnd, Hz. done.
Qed.

(** The bit loop finds the first unused item of a word. *)
Lemma wp_scan_bits q k w n j :
  mp_ok q -> 0 <= k < bitmap_length_ q -> used_bitmap_ q !! Z.to_nat k = Some w -> 0 <= w < 2 ^ 64 ->
  0 <= j -> j + Z.of_nat n = 64 ->
  (forall i, 0 <= i < j -> Z.testbit w i = true) -> w <> FULL_MAP ->
  wp (scan_bits n w (2 ^ j mod 2 ^ 64) (64 * k + j)) (fun r q' => q' = q /\
    exists p, r = Some p /\ p / 64 = k /\ 0 <= p < pool_size_ q /\ quote q p = 0) q.
Proof.
  intros Hq Hk Hw Hwr. revert j. destruct (mk_size _ Hq) as [_ Hsz]. pose proof (mk_pool_size _ Hq).
  induction n as [|n IH]; intros j Hj Hn Hlow Hfull.
  { exfalso. apply Hfull, full_word; [done|]. intros i Hi. apply Hlow. lia. }
  cbn [scan_bits]. rewrite (Z.mod_small (2 ^ j)) by (split; [lia|apply Z.pow_lt_mono_r; lia]).
  rewrite land_pow2_zero by lia.
  assert (Hdiv : (64 * k + j) / 64 = k) by (rewrite Z.mul_comm, Z.div_add_l, Z.div_small by lia; lia).
  assert (Hmod : (64 * k + j) mod 64 = j) by (rewrite Z.add_comm, Z.mul_comm, Z.mod_add, Z.mod_small by lia; lia).
  destruct (mk_node_at q (64 * k + j) Hq ltac:(lia)) as (nd & Hnd & Hbit & Hu & Hqc).
  unfold bit_of in Hbit. rewrite Hdiv, Hmod, Hw in Hbit. rewrite Hbit. unfold node_at.
  destruct (used_flag_ nd) eqn:Huf; cbn [negb].
  - wp_steps. replace (u64 (Z.shiftl (2 ^ j) 1)) with (2 ^ (j + 1) mod 2 ^ 64)
      by (rewrite Z.shiftl_mul_pow2, Z.pow_add_r by lia; done).
    rewrite u32_small by lia. replace (64 * k + j + 1) with (64 * k + (j + 1)) by lia.
    apply IH; [lia|lia| |done]. intros i Hi. destruct (decide (i = j)) as [->|]; [done|]. apply Hlow. lia.
  - wp_steps. eapply wp_deref; [exact Hnd|]. rewrite Huf. cbn [negb]. wp_steps.
    split; [done|]. exists (64 * k + j). split; [done|]. split; [done|]. split; [lia|].
    unfold quote. rewrite Hnd. rewrite Hu in Huf. lia.
Qed.

(** The word loop finds a word that is not full when an item is left. *)
Lemma wp_scan_map q n k :
  mp_ok q -> 0 <= k < bitmap_length_ q -> (Z.to_nat (bitmap_length_ q - k) <= n)%nat ->
  (exists i w, k <= i < bitmap_length_ q /\ used_bitmap_ q !! Z.to_nat i = Some w /\ w <> FULL_MAP) ->
  wp (scan_map n k) (fun r q' => q' = q /\ 0 <= r < bitmap_length_ q /\
    exists w, used_bitmap_ q !! Z.to_nat r = Some w /\ 0 <= w < 2 ^ 64 /\ w <> FULL_MAP) q.
Proof.
  intros Hq. revert k. induction n as [|n IH]; intros k Hk Hn (i & w & Hi & Hw & Hne); [lia|].
  cbn [scan_map]. unfold map_word. destruct (mk_word_at q k Hq Hk) as (v & Hv & Hvr).
  wp_steps. eapply wp_deref; [exact Hv|].
  destruct (Z.eqb_spec v FULL_MAP) as [->|Hnf]; cbn [negb]; wp_steps.
  - exfalso. assert (i = k) by lia. subst i. congruence.
  - apply IH; [lia|lia|]. exists i, w. split; [|done]. destruct (decide (i = k)) as [->|]; [congruence|lia].
  - split; [done|]. split; [done|]. by exists v.
Qed.

Lemma free_word q : mp_ok q -> using_num_ q < pool_size_ q ->
  exists i w, 0 <= i < bitmap_length_ q /\ used_bitmap_ q !! Z.to_nat i = Some w /\ w <> FULL_MAP.
Proof.
  intros Hq Hlt. rewrite (mk_count _ Hq) in Hlt. destruct (mk_size _ Hq) as [_ Hsz]. pose proof (mk_pool_size _ Hq).
  destruct (countb_free used_flag_ (mem_pool_ q)) as (i & nd & Hi & Hnd).
  { rewrite (mk_len _ Hq). lia. }
  pose proof (lookup_lt_Some _ _ _ Hi) as Hil. rewrite (mk_len _ Hq) in Hil.
  destruct (pos_word (Z.of_nat i) (bitmap_length_ q)) as (_ & _ & Hd & Hm & Hdm); [lia|].
  destruct (mk_word_at q _ Hq Hd) as (w & Hw & Hwr). exists (Z.of_nat i / 64), w. split; [done|]. split; [done|].
  intros ->. destruct (mk_nodes _ Hq (Z.of_nat i) nd) as (Hbit & _); [lia|by rewrite Nat2Z.id|].
  unfold bit_of in Hbit. rewrite Hw, Hnd in Hbit. change FULL_MAP with (Z.ones 64) in Hbit.
  by rewrite Z.ones_spec_low in Hbit by lia.
Qed.

Definition put_last_ok q p : mp_ok q -> 0 <= p < pool_size_ q -> mp_ok (put_last p q).
Proof. intros [] Hp. by split. Qed.

(** One round of the search in a word that is not full. *)
Lemma wp_search_hit f q k w :
  mp_ok q -> 0 <= k < bitmap_length_ q -> used_bitmap_ q !! Z.to_nat k = Some w -> 0 <= w < 2 ^ 64 -> w <> FULL_MAP ->
  wp (search (S f) w k (64 * k)) (fun r q' => exists a, r = Some a /\ mp_ok q' /\ same_place q q' /\ handed_out q q' a) q.
Proof.
  intros Hq Hk Hw Hwr Hne. cbn [search]. apply Z.eqb_neq in Hne as Hb. rewrite Hb. apply wp_bind.
  change 1 with (2 ^ 0 mod 2 ^ 64). replace (64 * k) with (64 * k + 0) by lia.
  eapply wp_mono; [apply (wp_scan_bits q k w 64 0); try done; lia|]. cbn beta.
  intros r q1 (-> & p & -> & Hp & Hpr & Hz). wp_steps. rewrite <- Hp.
  change p with (last_free_pos_ (put_last p q)) at 1.
  eapply wp_mono; [apply wp_distribute; [by apply put_last_ok|done]|]. cbn beta.
  intros a q2 Ha. wp_steps. by exists a.
Qed.

(** [MallocItem(NULL)]. *)
Definition exhausted (q : GtpMemPool) : Prop := forall i, 0 <= i < pool_size_ q -> 0 < quote q i.

Lemma wp_MallocItem q :
  mp_ok q ->
  wp (MallocItem None) (fun r q' => mp_ok q' /\ same_place q q' /\
    match r with Some a => handed_out q q' a | None => q' = q /\ exhausted q end) q.
Proof.
  intros Hq. pose proof (mk_last _ Hq) as Hl. destruct (mk_size _ Hq) as [Hb Hsz]. pose proof (mk_pool_size _ Hq).
  unfold MallocItem. apply wp_bind, wp_get. cbn [mbind option_bind].
  destruct (Z.leb_spec (pool_size_ q) (using_num_ q)) as [Hge|Hlt]; wp_steps.
  { split; [done|]. split; [done|]. split; [done|]. intros i Hi.
    destruct (mk_node_at q i Hq Hi) as (nd & Hnd & _ & Hu & Hqc). unfold quote. rewrite Hnd.
    destruct (Z.ltb_spec 0 (quote_counter_ nd)) as [|Hle]; [done|]. exfalso.
    rewrite (mk_count _ Hq) in Hge.
    destruct (countb_le used_flag_ (<[Z.to_nat i := mkNode true 1]> (mem_pool_ q))) as [_ Hc].
    rewrite length_insert, (countb_insert _ _ _ nd), (mk_len _ Hq), Hu in Hc by done. unfold ind in Hc. cbn in Hc. lia. }
  destruct (pos_word (last_free_pos_ q) (bitmap_length_ q)) as (Hsh & Hm6 & Hd & Hm & Hdm); [lia|]. rewrite Hsh.
  destruct (mk_node_at q _ Hq Hl) as (nd & Hnd & Hbit & Hu & Hqc). unfold node_at, map_word. wp_steps.
  eapply wp_deref; [exact Hnd|]. destruct (used_flag_ nd) eqn:Huf; cbn [negb]; wp_steps.
  2: { eapply wp_mono; [apply wp_distribute; [done|]|].
       - unfold quote. rewrite Hnd. lia.
       - intros a q' (H1 & H2 & H3). by wp_steps. }
  destruct (mk_word_at q _ Hq Hd) as (w & Hw & Hwr). eapply wp_deref; [exact Hw|]. rewrite word_start by lia.
  destruct (decide (w = FULL_MAP)) as [->|Hne].
  2: { eapply wp_mono; [by apply wp_search_hit|]. intros r q' (a & -> & ?). tauto. }
  cbn [search]. rewrite Z.eqb_refl. wp_steps.
  eapply wp_mono; [apply wp_scan_map; [done|lia|lia|by apply free_word]|]. cbn beta.
  intros k q1 (-> & Hk & v & Hv & Hvr & Hvn). assert ((k <? bitmap_length_ q) = true) as -> by lia. wp_steps.
  eapply wp_deref; [exact Hv|].
  rewrite Z.shiftl_mul_pow2 by lia. change (2 ^ 6) with 64. rewrite u32_small, (Z.mul_comm k) by lia.
  eapply wp_mono; [by apply (wp_search_hit 0)|]. intros r q' (a & -> & ?). tauto.
Qed.

(** ** Addresses *)
Lemma MemAddr_item q i a :
  mp_ok q -> 0 <= i < pool_size_ q ->
  mem_pool_left_boundary_ q + block_size_ q * i <= a < mem_pool_left_boundary_ q + block_size_ q * (i + 1) ->
  MemAddrToElementAddr q a = Some i.
Proof.
  intros Hq Hi Ha. unfold MemAddrToElementAddr. destruct (mk_block _ Hq) as [Hb _]. unfold NODE_HEAD in Hb.
  pose proof (mk_bounds _ Hq) as Hr. pose proof (mk_pool_size _ Hq).
  destruct (Z.ltb_spec a (mem_pool_left_boundary_ q)); [nia|].
  destruct (Z.leb_spec (mem_pool_right_boundary_ q) a); [nia|]. cbn [orb]. f_equal.
  assert ((a - mem_pool_left_boundary_ q) / block_size_ q = i) as ->; [|apply u32_small; lia].
  symmetry. apply (Z.div_unique_pos _ _ _ (a - mem_pool_left_boundary_ q - block_size_ q * i)); lia.
Qed.

Lemma MemAddr_addr q i : mp_ok q -> 0 <= i < pool_size_ q -> MemAddrToElementAddr q (item_addr q i) = Some i.
Proof.
  intros Hq Hi. apply MemAddr_item; [done..|]. destruct (mk_block _ Hq) as [Hb _].
  unfold item_addr, NODE_HEAD in *. lia.
Qed.

Lemma item_addr_inj q i j : mp_ok q -> item_addr q i = item_addr q j -> i = j.
Proof. intros Hq. destruct (mk_block _ Hq) as [Hb _]. unfold item_addr, NODE_HEAD in *. nia. Qed.

(** ** Release and further references *)
Lemma wp_FreeItem q i a :
  mp_ok q -> 0 <= i < pool_size_ q -> 0 < quote q i -> MemAddrToElementAddr q a = Some i ->
  wp (FreeItem a) (fun _ q' => mp_ok q' /\ same_place q q' /\
    forall j, 0 <= j -> quote q' j = quote q j - ind (j =? i)) q.
Proof.
  intros Hq Hi Hpos Ha. destruct (mk_size _ Hq) as [_ Hsz].
  destruct (pos_word i (bitmap_length_ q)) as (Hsh & Hm6 & Hd & Hm & Hdm); [lia|].
  destruct (mk_node_at q i Hq Hi) as (nd & Hnd & Hbit & Hu & Hqc).
  destruct (mk_word_at q _ Hq Hd) as (w & Hw & Hwr). pose proof (mk_using _ Hq) as Hus.
  unfold quote in Hpos. rewrite Hnd in Hpos. assert (Huf : used_flag_ nd = true) by (rewrite Hu; lia).
  assert (Hcnt : 0 < using_num_ q).
  { rewrite (mk_count _ Hq). pose proof (countb_insert used_flag_ _ _ nd (mkNode false 0) Hnd) as Hc.
    rewrite Huf in Hc. cbn in Hc. pose proof (countb_le used_flag_ (<[Z.to_nat i := mkNode false 0]> (mem_pool_ q))). lia. }
  unfold FreeItem, node_at. apply wp_bind, wp_get. rewrite Ha. wp_steps. eapply wp_deref; [exact Hnd|].
  rewrite Huf. cbn [negb]. assert ((0 <? quote_counter_ nd) = true) as -> by lia. rewrite Hsh, Hm6, Z.shiftl_1_l.
  wp_steps.
  - assert (Hbm : used_bitmap_ q = <[Z.to_nat (i / 64) := Z.lor w (2 ^ (i mod 64))]> (used_bitmap_ q)).
    { unfold bit_of in Hbit. rewrite Hw, Huf in Hbit. by rewrite lor_pow2_id, list_insert_id by (done || lia). }
    set (q' := put_node _ _ _).
    destruct (mp_ok_update q q' i nd (mkNode true (quote_counter_ nd - 1)) w) as [Hok Hquote]; try done; cbn; try lia.
    { by apply (mk_last _ Hq). }
    { rewrite Huf. cbn. lia. }
    split; [done|]. split; [done|]. intros j Hj. rewrite Hquote by done.
    destruct (Z.eqb_spec j i) as [->|]; cbn [ind quote_counter_]; [|lia]. unfold quote. by rewrite Hnd.
  - assert (Hone : quote_counter_ nd = 1) by lia. unfold map_word. wp_steps. eapply wp_deref; [exact Hw|]. wp_steps.
    assert ((0 <? using_num_ q) = true) as Hun by lia. set (q' := put_last _ _).
    assert (Hnodes : mem_pool_ q' = <[Z.to_nat i := mkNode false 0]> (mem_pool_ q)).
    { cbn. rewrite list_insert_insert_eq, Hone. done. }
    destruct (mp_ok_update q q' i nd (mkNode false 0) w) as [Hok Hquote]; try done; cbn; try lia.
    { rewrite Hun, Huf. cbn. lia. }
    split; [done|]. split; [done|]. intros j Hj. rewrite Hquote by done.
    destruct (Z.eqb_spec j i) as [->|]; cbn [ind quote_counter_]; [|lia]. unfold quote. rewrite Hnd. lia.
Qed.

(** A further reference on an item in use: [MallocItem(payload)]. *)
Lemma wp_MallocItem_again q i a :
  mp_ok q -> 0 <= i < pool_size_ q -> 0 < quote q i < 255 -> MemAddrToElementAddr q a = Some i ->
  wp (MallocItem (Some a)) (fun r q' => r = Some (item_addr q i) /\ mp_ok q' /\ same_place q q' /\
    forall j, 0 <= j -> quote q' j = quote q j + ind (j =? i)) q.
Proof.
  intros Hq Hi Hpos Ha. destruct (mk_size _ Hq) as [_ Hsz].
  destruct (pos_word i (bitmap_length_ q)) as (Hsh & Hm6 & Hd & Hm & Hdm); [lia|].
  destruct (mk_node_at q i Hq Hi) as (nd & Hnd & Hbit & Hu & Hqc).
  destruct (mk_word_at q _ Hq Hd) as (w & Hw & Hwr).
  unfold quote in Hpos. rewrite Hnd in Hpos. assert (Huf : used_flag_ nd = true) by (rewrite Hu; lia).
  unfold MallocItem, node_at. apply wp_bind, wp_get. cbn [mbind option_bind]. rewrite Ha. wp_steps.
  eapply wp_deref; [exact Hnd|]. wp_steps. split; [done|]. rewrite u8_small by lia. set (q' := put_counters _ _ _).
  assert (Hbm : used_bitmap_ q = <[Z.to_nat (i / 64) := Z.lor w (2 ^ (i mod 64))]> (used_bitmap_ q)).
  { unfold bit_of in Hbit. rewrite Hw, Huf in Hbit. by rewrite lor_pow2_id, list_insert_id by (done || lia). }
  destruct (mp_ok_update q q' i nd (mkNode (used_flag_ nd) (quote_counter_ nd + 1)) w) as [Hok Hquote]; try done; cbn; try lia.
  { by apply (mk_last _ Hq). }
  { by rewrite Huf. }
  { rewrite Huf. lia. }
  split; [done|]. split; [done|]. intros j Hj. rewrite Hquote by done.
  destruct (Z.eqb_spec j i) as [->|]; cbn [ind quote_counter_]; [|lia]. unfold quote. by rewrite Hnd.
Qed.

(** ** Creation *)
Lemma bit_of_zeros n gap i : 0 <= i < 64 * Z.of_nat n -> bit_of (replicate n 0 ++ [gap]) i = false.
Proof.
  intros Hi. destruct (pos_word i (Z.of_nat n) Hi) as (_ & _ & Hd & _ & _). unfold bit_of.
  rewrite lookup_app_l by (rewrite length_replicate; lia). rewrite lookup_replicate_2 by lia. apply Z.bits_0.
Qed.

(** The number of items after rounding is a multiple of 64. *)
Lemma round_block_num_ok n : 64 <= n < 2 ^ 31 ->
  round_block_num n = 64 * (n / 64 + 1) /\ n <= round_block_num n <= n + 64.
Proof.
  intros Hn. unfold round_block_num. rewrite word_start by lia.
  pose proof (Z.div_mod n 64 ltac:(lia)). pose proof (Z.mod_pos_bound n 64 ltac:(lia)).
  destruct (Z.eqb_spec (64 * (n / 64)) 0); [lia|]. rewrite u32_small by lia. lia.
Qed.

Lemma MemPoolInit_mp_ok block_size block_num m gap :
  64 <= block_num < 2 ^ 31 -> 0 <= gap < 2 ^ 64 -> NODE_HEAD < round_block_size block_size ->
  64 + 8 * round_block_num block_num + 8 + 8 * (round_block_num block_num / 64) + 8 +
    round_block_size block_size * round_block_num block_num < 2 ^ 32 ->
  exists q, MemPoolInit block_size block_num (Some m) gap = Some q /\ mp_ok q /\
    pool_size_ q = round_block_num block_num /\ forall i, quote q i = 0.
Proof.
  intros Hn Hgap Hbs Hfit. destruct (round_block_num_ok _ Hn) as [Hr Hle].
  unfold MemPoolInit, MEM_GAP_SIZE. set (bn := round_block_num block_num) in *. set (bs := round_block_size block_size) in *.
  assert (Hsh : Z.shiftr bn 6 = block_num / 64 + 1).
  { rewrite Z.shiftr_div_pow2, Hr by lia. change (2 ^ 6) with 64. by rewrite Z.mul_comm, Z.div_mul. }
  assert (Hd : bn / 64 = block_num / 64 + 1) by (rewrite Hr, Z.mul_comm, Z.div_mul; lia).
  unfold NODE_HEAD in Hbs. assert (0 <= bs * bn) by nia.
  eexists. split; [done|]. rewrite Hsh. rewrite Hd in Hfit. rewrite !u32_small by (rewrite ?u32_small; lia).
  assert (Hnodes : forall i nd, replicate (Z.to_nat (Z.max 1 bn)) (mkNode false 0) !! i = Some nd -> nd = mkNode false 0).
  { intros i nd Hi. by apply lookup_replicate in Hi as [-> _]. }
  split; [split|]; cbn [bitmap_length_ pool_size_ block_size_ mem_pool_left_boundary_ mem_pool_right_boundary_
    used_bitmap_ mem_pool_ last_free_pos_ using_num_]; unfold NODE_HEAD; try lia.
  - rewrite length_app, length_replicate. cbn [length]. lia.
  - apply Forall_app. split; [apply Forall_replicate; lia|by constructor].
  - rewrite length_replicate. lia.
  - intros i nd Hi Hnd. rewrite (Hnodes _ _ Hnd). cbn. split; [|done]. apply bit_of_zeros.
    apply lookup_lt_Some in Hnd. rewrite length_replicate in Hnd. lia.
  - symmetry. apply countb_none. intros i nd Hi. by rewrite (Hnodes _ _ Hi).
  - split; [done|]. intros i. unfold quote. cbn [mem_pool_].
    destruct (replicate _ _ !! _) as [nd|] eqn:Hi; [|done]. by rewrite (Hnodes _ _ Hi).
Qed.

(** ** The interface of the clients: every item is handed out at most once *)
Definition item_used (q : GtpMemPool) (a : Z) : bool :=
  match MemAddrToElementAddr q a with
  | Some i => (a =? item_addr q i) && (i <? pool_size_ q) && (0 <=? i) && (0 <? quote q i)
  | None => false
  end.
Definition run_or {A} (d : A) (m : ST GtpMemPool A) (q : GtpMemPool) : A * GtpMemPool :=
  match m q with Some r => r | None => (d, q) end.

#[global] Instance mem_pool_items : ItemPool GtpMemPool Z := {
  ip_malloc := run_or None (MallocItem None);
  ip_free a q := (run_or tt (FreeItem a) q).2;
  ip_used := item_used;
  ip_ok q := mp_ok q /\ forall i, 0 <= i < pool_size_ q -> quote q i <= 1
}.

Lemma item_used_addr q i : mp_ok q -> 0 <= i < pool_size_ q -> item_used q (item_addr q i) = (0 <? quote q i).
Proof.
  intros Hq Hi. unfold item_used. rewrite MemAddr_addr by done. rewrite Z.eqb_refl.
  destruct (Z.ltb_spec i (pool_size_ q)); [|lia]. destruct (Z.leb_spec 0 i); [done|lia].
Qed.

Lemma item_used_inv q a : item_used q a = true -> exists i, 0 <= i < pool_size_ q /\ a = item_addr q i /\ 0 < quote q i.
Proof.
  unfold item_used. destruct (MemAddrToElementAddr q a) as [i|]; [|done]. intros H.
  exists i. repeat apply andb_prop in H as [H ?]. lia.
Qed.

Lemma item_addr_place q q' i : same_place q q' -> item_addr q' i = item_addr q i.
Proof. intros (H1 & _ & H2 & _). unfold item_addr. by rewrite H1, H2. Qed.

(** Two pools of one place that agree on the counters show the same items. *)
Lemma item_used_step q q' a (f : Z -> bool -> bool) :
  mp_ok q -> mp_ok q' -> same_place q q' ->
  (forall i, 0 <= i < pool_size_ q -> (0 <? quote q' i) = f (item_addr q i) (0 <? quote q i)) ->
  f a false = false \/ (exists i, 0 <= i < pool_size_ q /\ a = item_addr q i) ->
  item_used q' a = f a (item_used q a).
Proof.
  intros Hq Hq' Hp Hf Ha. pose proof Hp as (_ & Hs & _ & _).
  assert (Hin : forall i, 0 <= i < pool_size_ q -> a = item_addr q i -> item_used q' a = f a (item_used q a)).
  { intros i Hi ->. rewrite <- (item_addr_place q q') at 1 by done.
    rewrite !item_used_addr by (done || lia). by apply Hf. }
  destruct (item_used q a) eqn:H1.
  { apply item_used_inv in H1 as Hx. destruct Hx as (i & Hi & He & _). by apply (Hin i). }
  destruct (item_used q' a) eqn:H2.
  { apply item_used_inv in H2 as (i & Hi & -> & _). rewrite (item_addr_place q q') in * by done.
    apply (Hin i); [lia|done]. }
  destruct Ha as [->|(i & Hi & He)]; [done|]. by apply (Hin i).
Qed.

#[global] Instance mem_pool_laws : ItemPoolLaws GtpMemPool Z.
Proof.
  split; cbn [ip_ok ip_malloc ip_free ip_used mem_pool_items].
  - intros q n q' [Hq H1] Hm. unfold run_or in Hm.
    destruct (wp_total _ _ _ (wp_MallocItem q Hq)) as (r & q1 & Hrun & Hq1 & Hp & Hr). rewrite Hrun in Hm.
    simplify_eq. destruct Hr as (i & Hi & -> & Hz & Hall). pose proof Hp as (_ & Hs & _ & _).
    assert (Hu : forall j, 0 <= j < pool_size_ q -> quote q' j = quote q j + ind (j =? i)) by (intros; apply Hall; lia).
    split; [split; [done|]|].
    { intros j Hj. rewrite Hu by lia. specialize (H1 j ltac:(lia)).
      destruct (Z.eqb_spec j i) as [->|]; cbn [ind]; lia. }
    split; [rewrite item_used_addr by done; by rewrite Hz|]. intros x.
    apply (item_used_step q q' x (fun a b => b || bool_decide (a = item_addr q i))); [done..| |].
    + intros j Hj. rewrite Hu by done. destruct (Z.eqb_spec j i) as [->|Hne].
      * rewrite Hz, bool_decide_true by done. done.
      * rewrite bool_decide_false by (intros He; by apply (item_addr_inj q) in He).
        rewrite orb_false_r. f_equal. cbn. lia.
    + destruct (decide (x = item_addr q i)) as [->|]; [right; by exists i|left]. by rewrite bool_decide_false.
  - intros q q' [Hq H1] Hm. unfold run_or in Hm.
    destruct (wp_total _ _ _ (wp_MallocItem q Hq)) as (r & q1 & Hrun & Hq1 & Hp & Hr). rewrite Hrun in Hm.
    simplify_eq. destruct Hr as [-> _]. done.
  - intros q a [Hq H1] Hu. apply item_used_inv in Hu as (i & Hi & -> & Hpos).
    destruct (wp_total _ _ _ (wp_FreeItem q i _ Hq Hi Hpos (MemAddr_addr q i Hq Hi))) as ([] & q' & Hrun & Hq' & Hp & Hall).
    unfold run_or. rewrite Hrun. cbn [snd]. pose proof Hp as (_ & Hs & _ & _). specialize (H1 i Hi) as Hone.
    split; [split; [done|]|].
    { intros j Hj. rewrite Hall by lia. specialize (H1 j ltac:(lia)).
      destruct (Z.eqb_spec j i); cbn [ind]; lia. }
    intros x. apply (item_used_step q q' x (fun a b => b && bool_decide (a <> item_addr q i))); [done..| |by left].
    intros j Hj. rewrite Hall by lia. destruct (Z.eqb_spec j i) as [->|Hne].
    + rewrite bool_decide_false by tauto. rewrite andb_false_r. cbn [ind]. lia.
    + rewrite bool_decide_true by (intros He; by apply (item_addr_inj q) in He). rewrite andb_true_r. f_equal. cbn. lia.
Qed.

(** ** Results *)

(** [MallocItem] always returns, without an access outside the pool.  It
    hands out an item nobody uses, counts one reference on it and on no other
    item, keeps every item where it is, and refuses only when every item is in
    use. *)
Theorem MallocItem_new (q : GtpMemPool) :
  mp_ok q ->
  exists r q', MallocItem None q = Some (r, q') /\ mp_ok q' /\ same_place q q' /\
    match r with
    | Some a => exists i, 0 <= i < pool_size_ q /\ a = item_addr q i /\ quote q i = 0 /\
        forall j, 0 <= j -> quote q' j = quote q j + ind (j =? i)
    | None => q' = q /\ forall i, 0 <= i < pool_size_ q -> 0 < quote q i
    end.
Proof.
  intros Hq. destruct (wp_total _ _ _ (wp_MallocItem q Hq)) as (r & q' & Hrun & H1 & H2 & H3).
  exists r, q'. by destruct r.
Qed.

(** A further reference and a release change the counter of the item the
    address lies in by one and no other; the item is free again exactly when
    the last reference is gone. *)
Theorem item_counting (q : GtpMemPool) (i a : Z) :
  mp_ok q -> 0 <= i < pool_size_ q -> 0 < quote q i < 255 ->
  mem_pool_left_boundary_ q + block_size_ q * i <= a < mem_pool_left_boundary_ q + block_size_ q * (i + 1) ->
  (exists q', MallocItem (Some a) q = Some (Some (item_addr q i), q') /\ mp_ok q' /\ same_place q q' /\
     forall j, 0 <= j -> quote q' j = quote q j + ind (j =? i)) /\
  exists q', FreeItem a q = Some (tt, q') /\ mp_ok q' /\ same_place q q' /\
    (forall j, 0 <= j -> quote q' j = quote q j - ind (j =? i)) /\
    bit_of (used_bitmap_ q') i = (1 <? quote q i).
Proof.
  intros Hq Hi Hpos Ha. pose proof (MemAddr_item q i a Hq Hi Ha) as Hp. split.
  - destruct (wp_total _ _ _ (wp_MallocItem_again q i a Hq Hi Hpos Hp)) as (r & q' & Hrun & -> & ?). by exists q'.
  - destruct (wp_total _ _ _ (wp_FreeItem q i a Hq Hi (proj1 Hpos) Hp)) as ([] & q' & Hrun & Hq' & Hs & Hall).
    exists q'. split; [done|]. split; [done|]. split; [done|]. split; [done|].
    pose proof Hs as (_ & Hsz & _ & _). destruct (mk_node_at q' i Hq' ltac:(lia)) as (nd & Hnd & -> & -> & _).
    specialize (Hall i ltac:(lia)). unfold quote at 1 in Hall. rewrite Hnd, Z.eqb_refl in Hall. cbn [ind] in Hall. lia.
Qed.

(** ** An instance *)
Definition demo_items : GtpMemPool :=
  match MemPoolInit 100 64 (Some 4096) 0 with
  | Some q => q
  | None => mkMemPool 0 0 0 0 0 0 0 0 0 [] []
  end.
Lemma demo_items_ok : mp_ok demo_items /\ forall i, quote demo_items i = 0.
Proof.
  destruct (MemPoolInit_mp_ok 100 64 4096 0) as (q & Hq & Hok & _ & Hz);
    [lia|lia|vm_compute; reflexivity|vm_compute; reflexivity|].
  unfold demo_items. rewrite Hq. done.
Qed.

Example MallocItem_new_witness :
  exists r q', MallocItem None demo_items = Some (r, q') /\ mp_ok q' /\ same_place demo_items q' /\
    match r with
    | Some a => exists i, 0 <= i < pool_size_ demo_items /\ a = item_addr demo_items i /\ quote demo_items i = 0 /\
        forall j, 0 <= j -> quote q' j = quote demo_items j + ind (j =? i)
    | None => q' = demo_items /\ forall i, 0 <= i < pool_size_ demo_items -> 0 < quote demo_items i
    end.
Proof. apply (MallocItem_new demo_items (proj1 demo_items_ok)). Defined.

(** The pool after a first allocation. *)
Definition demo_items1 : GtpMemPool := (ip_malloc demo_items).2.
Lemma demo_items1_ok : mp_ok demo_items1.
Proof.
  refine (proj1 (proj1 (ip_malloc_some demo_items (item_addr demo_items 0) demo_items1 _ _))).
  - split; [exact (proj1 demo_items_ok)|]. intros i _. by rewrite (proj2 demo_items_ok).
  - vm_compute. reflexivity.
Qed.

Example item_counting_witness :
  (exists q', MallocItem (Some (item_addr demo_items1 0 + 7)) demo_items1 = Some (Some (item_addr demo_items1 0), q') /\
     mp_ok q' /\ same_place demo_items1 q' /\ forall j, 0 <= j -> quote q' j = quote demo_items1 j + ind (j =? 0)) /\
  exists q', FreeItem (item_addr demo_items1 0 + 7) demo_items1 = Some (tt, q') /\ mp_ok q' /\ same_place demo_items1 q' /\
    (forall j, 0 <= j -> quote q' j = quote demo_items1 j - ind (j =? 0)) /\
    bit_of (used_bitmap_ q') 0 = (1 <? quote demo_items1 0).
Proof.
  apply (item_counting demo_items1 0 (item_addr demo_items1 0 + 7)); [exact demo_items1_ok|..];
    vm_compute; repeat split; (discriminate || reflexivity).
Defined.

(** Creating a pool of fewer than 64 items leaves the bitmap without a word:
    only the memory gap behind it is there. *)
Example small_item_pool :
  (fun q => (pool_size_ q, bitmap_length_ q, length (used_bitmap_ q))) <$> MemPoolInit 100 10 (Some 4096) 0
    = Some (10, 0, 1%nat).
Proof. vm_compute. reflexivity. Qed.

End MemPoolSpec.
