(* ===== verification/ArqList.v ===== *)
(** * The intrusive list of the arq

    [ArqList] and [ArqNode] (src/src/utils/goodtp_comstruct.h) with the macros
    [PopArqNode] and [PushPack] of src/src/arq/goodtp_arq.cpp: a doubly linked
    list whose links live in the nodes.  [list_rep] says which sequence of
    nodes a heap holds; the two macros are removal and appending on it. *)
From S2P Require Import Prelude.

Module ArqList.

Section List.
(** [N]: the address of a node; [B]: the fields of a node besides its links. *)
Context {N B : Type} `{Countable N}.

Record ArqNode := mkArqNode { pre_node_ : option N; nxt_node_ : option N; body : B }.
Record ArqHeap := mkHeap {
  nodes : gmap N ArqNode;
  head_ : option N;
  tail_ : option N;
  node_num_ : Z
}.
Local Abbreviation M := (ST ArqHeap).

(** ** Access: a pointer that is null or leads to no node is a fault. *)
Definition node (n : N) : M ArqNode := h ← get_st; deref (nodes h !! n).
Definition put_nodes (m : gmap N ArqNode) (h : ArqHeap) : ArqHeap := mkHeap m (head_ h) (tail_ h) (node_num_ h).
Definition put_head (o : option N) (h : ArqHeap) : ArqHeap := mkHeap (nodes h) o (tail_ h) (node_num_ h).
Definition put_tail (o : option N) (h : ArqHeap) : ArqHeap := mkHeap (nodes h) (head_ h) o (node_num_ h).
Definition put_count (z : Z) (h : ArqHeap) : ArqHeap := mkHeap (nodes h) (head_ h) (tail_ h) z.
Definition store_node (n : N) (c : ArqNode) : M unit := mod_st (fun h => put_nodes (<[n := c]> (nodes h)) h).
Definition set_pre (n : N) (o : option N) : M unit :=
  c ← node n; store_node n (mkArqNode o (nxt_node_ c) (body c)).
Definition set_nxt (n : N) (o : option N) : M unit :=
  c ← node n; store_node n (mkArqNode (pre_node_ c) o (body c)).
Definition set_body (n : N) (b : B) : M unit :=
  c ← node n; store_node n (mkArqNode (pre_node_ c) (nxt_node_ c) b).

(** [PopArqNode(list, cur_node)] *)
Definition PopArqNode (cur_node : N) : M unit :=
  h ← get_st;
  _ ← (if bool_decide (Some cur_node = head_ h) then
         hd ← deref (head_ h);
         c ← node hd;
         _ ← mod_st (put_head (nxt_node_ c));
         match nxt_node_ c with
         | Some n => set_pre n None
         | None => mod_st (put_tail None)
         end
       else if bool_decide (Some cur_node = tail_ h) then
         tl ← deref (tail_ h);
         c ← node tl;
         _ ← mod_st (put_tail (pre_node_ c));
         p ← deref (pre_node_ c);
         set_nxt p None
       else
         c ← node cur_node;
         p ← deref (pre_node_ c);
         _ ← set_nxt p (nxt_node_ c);
         c ← node cur_node;
         n ← deref (nxt_node_ c);
         set_pre n (pre_node_ c));
  mod_st (fun h => if 0 <? node_num_ h then put_count (node_num_ h - 1) h else h).

(** [PushPack(list, node)] *)
Definition PushPack (n : N) : M unit :=
  _ ← set_nxt n None;
  h ← get_st;
  _ ← match head_ h with
      | None => _ ← set_pre n (Some n); mod_st (put_head (Some n))
      | Some _ =>
          tl ← deref (tail_ h);
          _ ← set_nxt tl (Some n);
          set_pre n (Some tl)
      end;
  _ ← mod_st (put_tail (Some n));
  mod_st (fun h => put_count (u32 (node_num_ h + 1)) h).

(** ** The sequence of nodes a heap holds.  The backward link of the first node
    is never followed, and the code leaves different values in it. *)
Definition linked (m : gmap N ArqNode) (l : list (N * B)) : Prop :=
  forall l1 n b l2, l = l1 ++ (n, b) :: l2 ->
    exists c, m !! n = Some c /\ body c = b /\ nxt_node_ c = head l2.*1 /\
      (l1 <> [] -> pre_node_ c = last l1.*1).

Record list_rep (h : ArqHeap) (l : list (N * B)) : Prop := {
  lr_nodup : NoDup l.*1;
  lr_linked : linked (nodes h) l;
  lr_head : head_ h = head l.*1;
  lr_tail : tail_ h = last l.*1;
  lr_num : node_num_ h = Z.of_nat (length l);
  lr_bound : Z.of_nat (length l) < 2 ^ 32
}.

Lemma head_fmap_fst (l : list (N * B)) : head l.*1 = fst <$> head l.
Proof. by destruct l. Qed.
Lemma last_snoc_fst (l : list (N * B)) n b : last (l ++ [(n, b)]).*1 = Some n.
Proof. rewrite fmap_app. cbn. apply last_snoc. Qed.
Lemma last_nonempty (l : list (N * B)) : l <> [] -> exists k n b, l = k ++ [(n, b)] /\ last l.*1 = Some n.
Proof.
  destruct l as [|[n b] k] using rev_ind; [done|]. intros _. exists k, n, b. split; [done|]. apply last_snoc_fst.
Qed.

(** The node of a place in the sequence. *)
Lemma rep_node h l1 n b l2 : list_rep h (l1 ++ (n, b) :: l2) ->
  exists c, nodes h !! n = Some c /\ body c = b /\ nxt_node_ c = head l2.*1 /\
    (l1 <> [] -> pre_node_ c = last l1.*1).
Proof. intros Hr. by apply (lr_linked _ _ Hr). Qed.

Lemma nodup_mid (l1 : list (N * B)) n b l2 : NoDup (l1 ++ (n, b) :: l2).*1 -> (n ∉ l1.*1) /\ (n ∉ l2.*1) /\ NoDup (l1 ++ l2).*1.
Proof.
  rewrite !fmap_app. cbn. intros Hnd. apply NoDup_app in Hnd as (H1 & H2 & H3). apply NoDup_cons in H3 as [H3 H4].
  split; [|split; [done|]].
  - intros Hin. apply (H2 n Hin). by left.
  - apply NoDup_app. split; [done|]. split; [|done]. intros x Hx Hx2. apply (H2 x Hx). by right.
Qed.

(** The nodes around a removed place get linked to each other. *)
Lemma linked_pop (m m' : gmap N ArqNode) l1 n b l2 :
  linked m (l1 ++ (n, b) :: l2) -> NoDup (l1 ++ (n, b) :: l2).*1 ->
  (forall k, k ∉ [n] -> Some k <> last l1.*1 -> Some k <> head l2.*1 -> m' !! k = m !! k) ->
  (forall p c, last l1.*1 = Some p -> m !! p = Some c ->
     m' !! p = Some (mkArqNode (pre_node_ c) (head l2.*1) (body c))) ->
  (forall q c, head l2.*1 = Some q -> m !! q = Some c ->
     m' !! q = Some (mkArqNode (last l1.*1) (nxt_node_ c) (body c))) ->
  linked m' (l1 ++ l2).
Proof.
  intros Hm Hnd Hsame Hp Hq. destruct (nodup_mid _ _ _ _ Hnd) as (Hn1 & Hn2 & Hnd').
  assert (Hfirst : forall q bq k2, l2 = (q, bq) :: k2 -> exists c, m' !! q = Some c /\ body c = bq /\
    nxt_node_ c = head k2.*1 /\ (l1 <> [] -> pre_node_ c = last l1.*1)).
  { intros q bq k2 ->. destruct (Hm (l1 ++ [(n, b)]) q bq k2) as (c & Hc & Hb & Hx & _); [by rewrite <- app_assoc|].
    exists (mkArqNode (last l1.*1) (nxt_node_ c) (body c)). split; [by apply Hq|]. done. }
  intros k1 x bx k2 Hk. apply app_eq_inv in Hk as [(k & Hl & Hk)|(k & Hl & Hk)].
  - destruct k as [|[y by0] k']; cbn in Hk.
    + rewrite app_nil_r in Hl. subst k1. by apply Hfirst.
    + injection Hk as <- <- ->. subst l1. destruct (Hm k1 x bx (k' ++ (n, b) :: l2)) as (c & Hc & Hb & Hx & Hpre); [by rewrite <- app_assoc|].
      destruct k' as [|[y by0] k'] using rev_ind.
      * exists (mkArqNode (pre_node_ c) (head l2.*1) (body c)). split; [|done]. apply Hp; [apply last_snoc_fst|done].
      * exists c. split; [|split; [done|split; [|done]]].
        -- rewrite Hsame; [done| | |].
           ++ intros Hin%list_elem_of_singleton. subst x. apply Hn1. rewrite fmap_app. apply elem_of_app. right. by left.
           ++ rewrite fmap_app. cbn. rewrite fmap_app. change (x :: (k'.*1 ++ [(y, by0)].*1)) with ((x :: k'.*1) ++ [y]).
              rewrite app_assoc, last_snoc. intros [= ->]. rewrite !fmap_app in Hnd'.
              apply NoDup_app in Hnd' as (Hnd1 & _). cbn in Hnd1. rewrite fmap_app in Hnd1.
              apply NoDup_app in Hnd1 as (_ & _ & Hnd1). apply NoDup_cons in Hnd1 as [Hnd1 _]. apply Hnd1.
              apply elem_of_app. right. by left.
           ++ intros Hh. destruct l2 as [|[q bq] l2]; [done|]. cbn in Hh. simplify_eq.
              rewrite fmap_app in Hnd'. apply NoDup_app in Hnd' as (_ & Hdis & _). apply (Hdis q); [|by left].
              rewrite fmap_app. apply elem_of_app. right. by left.
        -- rewrite Hx. destruct k'; done.
  - destruct k as [|[y by0] k']; cbn in Hk.
    + rewrite app_nil_r in Hl. subst k1. by apply Hfirst.
    + subst k1 l2. destruct (Hm (l1 ++ (n, b) :: (y, by0) :: k') x bx k2) as (c & Hc & Hb & Hx & Hpre); [by rewrite <- app_assoc|].
      exists c. split; [|split; [done|split; [done|]]].
      * rewrite Hsame; [done| | |].
        -- intros Hin%list_elem_of_singleton. subst x. apply Hn2. cbn. right. rewrite fmap_app. apply elem_of_app. right. by left.
        -- intros Hh. rewrite fmap_app in Hnd'. apply NoDup_app in Hnd' as (_ & Hdis & _).
           apply (Hdis x); [by apply last_Some_elem_of|]. cbn. right. rewrite fmap_app. apply elem_of_app. right. by left.
        -- cbn. intros [= ->]. rewrite fmap_app in Hnd'. apply NoDup_app in Hnd' as (_ & _ & Hnd2).
           cbn in Hnd2. apply NoDup_cons in Hnd2 as [Hnd2 _]. apply Hnd2. rewrite fmap_app. apply elem_of_app. right. by left.
      * intros _. rewrite Hpre by (by destruct l1). rewrite !fmap_app. cbn.
        change (y :: k'.*1) with ([y] ++ k'.*1). change (n :: ([y] ++ k'.*1)) with ([n] ++ ([y] ++ k'.*1)).
        rewrite !last_app. cbn. by destruct (last k'.*1).
Qed.

(** What a list operation leaves alone: the nodes outside the list. *)
Definition others_same (l : list N) (h h' : ArqHeap) : Prop := forall k, k ∉ l -> nodes h' !! k = nodes h !! k.

Lemma rep_in h (l : list (N * B)) k : list_rep h l -> k ∈ l.*1 -> exists c, nodes h !! k = Some c.
Proof.
  intros Hr Hk. apply list_elem_of_fmap in Hk as ([x b] & -> & Hk). apply list_elem_of_split in Hk as (l1 & l2 & ->).
  destruct (rep_node _ _ _ _ _ Hr) as (c & Hc & _). by exists c.
Qed.

(** The last address of a list that continues. *)
Lemma last_app_cons (l1 : list (N * B)) n b l2 : last (l1 ++ (n, b) :: l2).*1 = Some (default n (last l2.*1)).
Proof.
  rewrite fmap_app, last_app, fmap_cons, last_cons. by destruct (last l2.*1).
Qed.

(** Updating a field of a present node. *)
Lemma wp_set_pre h n o c Q : nodes h !! n = Some c ->
  Q tt (put_nodes (<[n := mkArqNode o (nxt_node_ c) (body c)]> (nodes h)) h) -> wp (set_pre n o) Q h.
Proof. intros Hc HQ. unfold set_pre, node, store_node. wp_steps. eapply wp_deref; [exact Hc|]. by wp_steps. Qed.
Lemma wp_set_nxt h n o c Q : nodes h !! n = Some c ->
  Q tt (put_nodes (<[n := mkArqNode (pre_node_ c) o (body c)]> (nodes h)) h) -> wp (set_nxt n o) Q h.
Proof. intros Hc HQ. unfold set_nxt, node, store_node. wp_steps. eapply wp_deref; [exact Hc|]. by wp_steps. Qed.

Definition popped (h h' : ArqHeap) l1 n b l2 : Prop :=
  list_rep h' (l1 ++ l2) /\ (exists c, nodes h' !! n = Some c /\ body c = b) /\
  others_same (l1 ++ (n, b) :: l2).*1 h h'.

(** The common end: the links are right, only the counter follows. *)
Lemma pop_count h h' l1 n b l2 :
  list_rep h (l1 ++ (n, b) :: l2) -> linked (nodes h') (l1 ++ l2) ->
  head_ h' = head (l1 ++ l2).*1 -> tail_ h' = last (l1 ++ l2).*1 -> node_num_ h' = node_num_ h ->
  (exists c, nodes h' !! n = Some c /\ body c = b) -> others_same (l1 ++ (n, b) :: l2).*1 h h' ->
  wp (mod_st (fun h => if 0 <? node_num_ h then put_count (node_num_ h - 1) h else h))
    (fun _ h' => popped h h' l1 n b l2) h'.
Proof.
  intros Hr Hl Hh Ht Hn Hc Ho. pose proof (lr_num _ _ Hr) as Hnum. pose proof (lr_bound _ _ Hr) as Hbd.
  rewrite length_app in *. cbn [length] in *. wp_steps. assert ((0 <? node_num_ h') = true) as -> by lia.
  split; [|by split]. destruct (nodup_mid _ _ _ _ (lr_nodup _ _ Hr)) as (_ & _ & Hnd).
  split; cbn; rewrite ?length_app; try done; lia.
Qed.

Lemma wp_PopArqNode h l1 n b l2 :
  list_rep h (l1 ++ (n, b) :: l2) -> wp (PopArqNode n) (fun _ h' => popped h h' l1 n b l2) h.
Proof.
  intros Hr. destruct (rep_node _ _ _ _ _ Hr) as (c & Hc & Hb & Hnx & Hpre).
  destruct (nodup_mid _ _ _ _ (lr_nodup _ _ Hr)) as (Hn1 & Hn2 & Hnd). pose proof (lr_linked _ _ Hr) as Hl.
  assert (Hfirst : forall q bq k, l2 = (q, bq) :: k -> exists cq, nodes h !! q = Some cq /\ q <> n).
  { intros q bq k ->. destruct (rep_in h _ q Hr) as [cq Hq].
    { rewrite fmap_app. apply elem_of_app. right. cbn. right. by left. }
    exists cq. split; [done|]. intros ->. apply Hn2. by left. }
  assert (Hlast : forall p, last l1.*1 = Some p -> exists cp, nodes h !! p = Some cp /\ p <> n).
  { intros p Hp. apply last_Some_elem_of in Hp. destruct (rep_in h _ p Hr) as [cp Hcp].
    { rewrite fmap_app. apply elem_of_app. by left. }
    exists cp. split; [done|]. by intros ->. }
  unfold PopArqNode, node. apply wp_bind, wp_get.
  rewrite (lr_head _ _ Hr), (lr_tail _ _ Hr). destruct l1 as [|[x bx] l1'].
  - cbn [app fmap list_fmap head]. rewrite bool_decide_true by done. wp_steps. eapply wp_deref; [done|]. wp_steps.
    eapply wp_deref; [exact Hc|]. wp_steps. rewrite Hnx. destruct l2 as [|[q bq] l2']; cbn [fmap list_fmap head].
    + wp_steps. eapply (pop_count h _ [] n b []); try done; [|by exists c]. intros [|? ?]; done.
    + destruct (Hfirst q bq l2' eq_refl) as (cq & Hq & Hqn). eapply wp_set_pre; [exact Hq|].
      apply (pop_count h _ [] n b ((q, bq) :: l2')); try done.
      * apply (linked_pop (nodes h) _ [] n b); [done|exact (lr_nodup _ _ Hr)|..]; cbn.
        -- intros k _ _ Hk. by rewrite lookup_insert_ne by congruence.
        -- done.
        -- intros q' c' [= <-] Hc'. rewrite lookup_insert_eq. congruence.
      * cbn. by rewrite (lr_tail _ _ Hr).
      * exists c. cbn. by rewrite lookup_insert_ne.
      * intros k Hk. cbn. rewrite lookup_insert_ne; [done|]. intros ->. apply Hk. cbn. right. by left.
  - assert (Hxn : x <> n) by (intros ->; apply Hn1; by left).
    rewrite bool_decide_false by (cbn; intros [= ->]; done). rewrite bool_decide_decide.
    set (l1 := (x, bx) :: l1') in *. specialize (Hpre ltac:(done)).
    destruct (last l1.*1) as [p|] eqn:Hp; [|destruct (last_nonempty l1) as (? & ? & ? & _ & ?); [done|congruence]].
    destruct (Hlast p eq_refl) as (cp & Hcp & Hpn).
    destruct l2 as [|[q bq] l2'].
    + rewrite !last_snoc_fst, decide_True by done. wp_steps. eapply wp_deref; [done|]. wp_steps. eapply wp_deref; [exact Hc|]. wp_steps.
      eapply wp_deref; [exact Hpre|]. eapply wp_set_nxt; [exact Hcp|].
      eapply (pop_count h _ l1 n b []); try done.
      * apply (linked_pop (nodes h) _ l1 n b []); [done|exact (lr_nodup _ _ Hr)|..]; cbn [fmap list_fmap head].
        -- intros k _ Hk _. cbn. rewrite lookup_insert_ne; [done|]. intros ->. by rewrite Hp in Hk.
        -- intros p' c' Hp' Hc'. assert (p' = p) as -> by congruence. cbn. rewrite lookup_insert_eq. congruence.
        -- done.
      * cbn. rewrite (lr_head _ _ Hr). done.
      * cbn. rewrite app_nil_r, Hpre. by rewrite <- Hp.
      * exists c. cbn. by rewrite lookup_insert_ne.
      * intros k Hk. cbn. rewrite lookup_insert_ne; [done|]. intros ->. apply Hk. rewrite fmap_app. apply elem_of_app. left.
        by apply last_Some_elem_of.
    + destruct (Hfirst q bq l2' eq_refl) as (cq & Hq & Hqn).
      assert (Hlst : last (l1 ++ (n, b) :: (q, bq) :: l2').*1 <> Some n).
      { rewrite last_app_cons. destruct (last ((q, bq) :: l2').*1) as [z|] eqn:Hz; cbn [default].
        - intros [= ->]. apply Hn2. by apply last_Some_elem_of.
        - destruct (last_nonempty ((q, bq) :: l2')) as (? & ? & ? & _ & ?); [done|congruence]. }
      rewrite decide_False by (intros He; by rewrite <- He in Hlst). wp_steps. eapply wp_deref; [exact Hc|]. wp_steps.
      eapply wp_deref; [exact Hpre|]. wp_steps. eapply wp_set_nxt; [exact Hcp|]. wp_steps.
      eapply wp_deref; [cbn; rewrite lookup_insert_ne by done; exact Hc|]. wp_steps. rewrite Hnx. cbn [fmap list_fmap head].
      eapply wp_deref; [done|]. assert (Hpq : p <> q).
      { intros ->. rewrite fmap_app in Hnd. apply NoDup_app in Hnd as (_ & Hdis & _). apply (Hdis q); [by apply last_Some_elem_of|by left]. }
      eapply wp_set_pre; [cbn; rewrite lookup_insert_ne by done; exact Hq|].
      eapply (pop_count h _ l1 n b ((q, bq) :: l2')); try done.
      * apply (linked_pop (nodes h) _ l1 n b ((q, bq) :: l2')); [done|exact (lr_nodup _ _ Hr)|..]; cbn [fmap list_fmap head].
        -- intros k _ Hk Hk2. cbn. rewrite !lookup_insert_ne; [done|intros ->; first [by apply Hk2 | by apply Hk]..].
        -- intros p' c' Hp' Hc'. assert (p' = p) as -> by congruence. cbn. rewrite lookup_insert_ne by done.
           rewrite lookup_insert_eq. congruence.
        -- intros q' c' [= <-] Hc'. cbn. rewrite lookup_insert_eq, Hpre. assert (c' = cq) as -> by congruence. change (last (x :: l1'.*1)) with (last l1.*1). by rewrite Hp.
      * cbn. by rewrite (lr_head _ _ Hr).
      * cbn [tail_ put_nodes]. rewrite (lr_tail _ _ Hr), !last_app_cons, fmap_cons, last_cons. by destruct (last l2'.*1).
      * exists c. cbn. by rewrite !lookup_insert_ne.
      * intros k Hk. cbn. rewrite fmap_app in Hk. rewrite !lookup_insert_ne; [done| |].
        -- intros ->. apply Hk, elem_of_app. left. by apply last_Some_elem_of.
        -- intros ->. apply Hk, elem_of_app. right. cbn. right. by left.
Qed.

(** The representation depends on the nodes of the sequence only. *)
Lemma list_rep_frame h h' l :
  list_rep h l -> (forall k, k ∈ l.*1 -> nodes h' !! k = nodes h !! k) ->
  head_ h' = head_ h -> tail_ h' = tail_ h -> node_num_ h' = node_num_ h -> list_rep h' l.
Proof.
  intros [Hnd Hl Hh Ht Hn Hb] Hs E1 E2 E3. split; rewrite ?E1, ?E2, ?E3; try done.
  intros l1 n b l2 ->. destruct (Hl l1 n b l2 eq_refl) as (c & Hc & ?). exists c. split; [|done].
  rewrite Hs; [done|]. rewrite fmap_app. apply elem_of_app. right. by left.
Qed.

Lemma list_rep_nodes h l m :
  list_rep h l -> (forall k, k ∈ l.*1 -> m !! k = nodes h !! k) -> list_rep (put_nodes m h) l.
Proof. intros Hr Hs. by eapply list_rep_frame. Qed.

Lemma linked_push (m m' : gmap N ArqNode) l n b c :
  linked m l -> NoDup l.*1 -> n ∉ l.*1 ->
  m' !! n = Some c -> body c = b -> nxt_node_ c = None -> (l <> [] -> pre_node_ c = last l.*1) ->
  (forall k, k <> n -> Some k <> last l.*1 -> m' !! k = m !! k) ->
  (forall p cp, last l.*1 = Some p -> m !! p = Some cp ->
     m' !! p = Some (mkArqNode (pre_node_ cp) (Some n) (body cp))) ->
  linked m' (l ++ [(n, b)]).
Proof.
  intros Hm Hnd Hn Hc Hb Hx Hp Hsame Hlast k1 x bx k2 Hk.
  destruct k2 as [|[y bz] k2' _] using rev_ind.
  - apply app_inj_tail in Hk as [-> [= -> ->]]. by exists c.
  - rewrite app_comm_cons, app_assoc in Hk. apply app_inj_tail in Hk as [-> [= <- <-]].
    destruct (Hm k1 x bx k2' eq_refl) as (cx & Hcx & Hbx & Hnx & Hpx).
    destruct k2' as [|[z bz] k2''].
    + exists (mkArqNode (pre_node_ cx) (Some n) (body cx)). split; [|done]. apply Hlast; [apply last_snoc_fst|done].
    + exists cx. split; [|split; [done|split; [|done]]].
      * rewrite Hsame; [done| |].
        -- intros ->. apply Hn. rewrite fmap_app. apply elem_of_app. right. by left.
        -- rewrite last_app_cons, fmap_cons, last_cons. intros [= He].
           rewrite fmap_app in Hnd. apply NoDup_app in Hnd as (_ & _ & Hnd). cbn in Hnd.
           apply NoDup_cons in Hnd as [Hnd _]. apply Hnd. rewrite He. destruct (last k2''.*1) eqn:Hl; cbn; [|by left].
           right. by apply last_Some_elem_of.
      * by rewrite Hnx.
Qed.

Lemma wp_PushPack h l n c :
  list_rep h l -> nodes h !! n = Some c -> n ∉ l.*1 -> Z.of_nat (length l) + 1 < 2 ^ 32 ->
  wp (PushPack n) (fun _ h' => list_rep h' (l ++ [(n, body c)]) /\ others_same (n :: l.*1) h h') h.
Proof.
  intros Hr Hc Hn Hlen. unfold PushPack. apply wp_bind. eapply wp_set_nxt; [exact Hc|]. apply wp_bind, wp_get.
  cbn [head_ put_nodes]. pose proof (lr_num _ _ Hr) as Hnum. rewrite (lr_head _ _ Hr). apply wp_bind.
  assert (Hnd : NoDup (l ++ [(n, body c)]).*1).
  { rewrite fmap_app. apply NoDup_app. split; [exact (lr_nodup _ _ Hr)|]. split; [|apply NoDup_singleton].
    intros x Hx Hx2%list_elem_of_singleton. by subst x. }
  assert (Hfin : forall h', linked (nodes h') (l ++ [(n, body c)]) -> head_ h' = head (l ++ [(n, body c)]).*1 ->
    node_num_ h' = node_num_ h -> others_same (n :: l.*1) h h' ->
    wp (_ ← mod_st (put_tail (Some n)); mod_st (fun h => put_count (u32 (node_num_ h + 1)) h))
      (fun _ h' => list_rep h' (l ++ [(n, body c)]) /\ others_same (n :: l.*1) h h') h').
  { intros h' Hl Hh Hnn Ho. wp_steps. split; [|done].
    split; cbn [nodes head_ tail_ node_num_ put_count put_tail]; rewrite ?length_app; cbn [length]; try done; try lia.
    - by rewrite last_snoc_fst.
    - rewrite Hnn, Hnum, u32_small by lia. lia. }
  destruct l as [|[y by0] l'].
  - cbn [fmap list_fmap head]. apply wp_bind. eapply wp_set_pre; [cbn; apply lookup_insert_eq|]. wp_steps. apply Hfin.
    + eapply (linked_push (nodes h) _ [] n (body c) (mkArqNode (Some n) None (body c)));
        [exact (lr_linked _ _ Hr)|exact (lr_nodup _ _ Hr)|done|..]; try done.
      * cbn. apply lookup_insert_eq.
      * intros k Hk _. cbn. by rewrite !lookup_insert_ne.
    + done.
    + done.
    + intros k Hk. cbn. rewrite !lookup_insert_ne; [done|..]; intros ->; apply Hk; by left.
  - change (head ((y, by0) :: l').*1) with (Some y). wp_steps. cbn [tail_ put_nodes]. rewrite (lr_tail _ _ Hr). remember ((y, by0) :: l') as l.
    destruct (last_nonempty l) as (k & p & bp & -> & Hp); [by subst l|]. rewrite Hp. apply wp_bind. eapply wp_deref; [done|].
    destruct (rep_in h _ p Hr) as [cp Hcp]; [by apply last_Some_elem_of|].
    assert (Hpn : p <> n) by (intros ->; apply Hn; by apply last_Some_elem_of).
    wp_steps. eapply wp_set_nxt; [cbn; rewrite lookup_insert_ne by done; exact Hcp|].
    eapply wp_set_pre; [cbn; rewrite lookup_insert_ne by done; apply lookup_insert_eq|]. apply Hfin.
    + eapply (linked_push (nodes h) _ _ n (body c) (mkArqNode (Some p) None (body c)));
        [exact (lr_linked _ _ Hr)|exact (lr_nodup _ _ Hr)|done|..]; try done.
      * cbn. apply lookup_insert_eq.
      * intros j Hj Hj2. cbn. rewrite !lookup_insert_ne; [done|..]; congruence.
      * intros p' cp' Hp' Hcp'. assert (p' = p) as -> by congruence. cbn.
        rewrite lookup_insert_ne, lookup_insert_eq by done. congruence.
    + cbn [head_ put_nodes]. rewrite (lr_head _ _ Hr), !fmap_app. by destruct k.
    + done.
    + intros j Hj. apply not_elem_of_cons in Hj as [Hj1 Hj2]. cbn. rewrite !lookup_insert_ne; [done|..]; try done.
      intros ->. by apply Hj2, last_Some_elem_of.
Qed.

(** Changing the fields of a node of the sequence. *)
Lemma list_rep_body h l1 n b l2 b' :
  list_rep h (l1 ++ (n, b) :: l2) ->
  wp (set_body n b') (fun _ h' => list_rep h' (l1 ++ (n, b') :: l2) /\ others_same [n] h h') h.
Proof.
  intros Hr. destruct (rep_node _ _ _ _ _ Hr) as (c & Hc & Hb & Hx & Hp).
  unfold set_body, node, store_node. wp_steps. eapply wp_deref; [exact Hc|]. wp_steps.
  destruct Hr as [Hnd Hl Hh Ht Hn Hbd]. destruct (nodup_mid _ _ _ _ Hnd) as (Hn1 & Hn2 & _).
  assert (Hfst : (l1 ++ (n, b') :: l2).*1 = (l1 ++ (n, b) :: l2).*1) by (by rewrite !fmap_app).
  split.
  - split; cbn [nodes head_ tail_ node_num_ put_nodes]; rewrite ?Hfst; try done;
      rewrite length_app in *; cbn [length] in *; try done.
    intros k1 x bx k2 Hk.
    destruct (decide (x = n)) as [->|Hxn].
    + assert (k1 = l1 /\ bx = b' /\ k2 = l2) as (-> & -> & ->).
      { apply app_eq_inv in Hk as [(k & H1 & H2)|(k & H1 & H2)].
        - destruct k as [|[z bz] k]; cbn in H2; [rewrite app_nil_r in H1; by simplify_eq|].
          exfalso. injection H2 as <- <- ->. apply Hn1. subst l1. rewrite fmap_app. apply elem_of_app. right. by left.
        - destruct k as [|[z bz] k]; cbn in H2; [rewrite app_nil_r in H1; by simplify_eq|].
          exfalso. injection H2 as <- <- ->. apply Hn2. rewrite fmap_app. apply elem_of_app. right. by left. }
      exists (mkArqNode (pre_node_ c) (nxt_node_ c) b'). rewrite lookup_insert_eq. done.
    + rewrite lookup_insert_ne by done.
      apply app_eq_inv in Hk as [(k & H1 & H2)|(k & H1 & H2)].
      * destruct k as [|[z bz] k]; cbn in H2; [by simplify_eq|]. injection H2 as <- <- ->.
        destruct (Hl k1 x bx (k ++ (n, b) :: l2)) as (cx & ? & ? & Hcn & ?); [subst l1; by rewrite <- app_assoc|].
        exists cx. split; [done|]. split; [done|]. split; [|done]. rewrite Hcn. by destruct k.
      * destruct k as [|[z bz] k]; cbn in H2; [by simplify_eq|]. injection H2 as <- <- ->.
        destruct (Hl (l1 ++ (n, b) :: k) x bx k2) as (cx & ? & ? & ? & Hcp); [by rewrite <- app_assoc|].
        exists cx. split; [done|]. split; [done|]. split; [done|]. intros _. subst k1. rewrite Hcp by (by destruct l1).
        by rewrite !fmap_app.
  - intros k Hk. cbn. rewrite lookup_insert_ne; [done|]. intros ->. apply Hk. by left.
Qed.

End List.

#[global] Arguments ArqNode : clear implicits.
#[global] Arguments ArqHeap N B {_ _}.
End ArqList.
