(* ===== verification/Arq.v ===== *)
(** * Retransmission

    [GtpArq] (src/src/arq/goodtp_arq.cpp): packets that wait for their
    acknowledgement in the list of ArqList.v, one node per packet and one more
    for its early repetition (boost node).  Acknowledgements remove packets and
    repeat missing ones at once, the timer repeats what nobody acknowledged and
    gives up what has been repeated often enough. *)
From Stdlib Require Export Floats.SpecFloat.
From S2P Require Import Prelude PacketHeader PoolInterface ItemPool ArqList.
Export PacketHeader ArqList.

Module Arq.

Definition SLID_WIN_SIZE : Z := 2048.
Definition MAX_RSV_WIN_SIZE : Z := 640.
Definition FREE_C3BUF_NUM_PER : Z := 512.
Definition DEFAULT_BOOST_TIMES : Z := 3.
Definition INIT_BOOST_TIMES : Z := 1.
Definition MAX_BOOST_TIMES_PER_ONCE : Z := 7.
Definition MIN_RTO_US : Z := 25000.
Definition MAX_RTO_US : Z := 500000.
Definition MIN_BOOST_PERIOD_US : Z := 1000.
Definition MAX_BOOST_PERIOD_US : Z := 10000.
Definition kReliableStream : Z := 1.
Definition kGtpArqMd : Z := 0x55.
Definition kCrtArqNodeFailed : Z := 0x6013.

Definition GtpLimit (mn mx value : Z) : Z := if mn >? value then mn else if mx <? value then mx else value.

(** [(u8)f] of a rate between 0 and 100. *)
Definition sf_u8 (f : spec_float) : Z :=
  match f with
  | S754_finite false m e => u8 (if 0 <=? e then Z.shiftl (Zpos m) e else Z.shiftr (Zpos m) (- e))
  | _ => 0
  end.

(** [GtpAddr] (src/src/interface/bitlinker.h): the fields the arq touches, and
    the rest. *)
Record Addr := mkAddr { ad_loss : Z; ad_timestamp : Z; ad_stream_type : Z; ad_rest : list Z }.

Section Body.
Context {E : Type}.
(** [ArqNode] without its links.  [tran_addr_] is the address memory in front
    of a buffer, or, [None], the address of the session. *)
Record Body := mkBody {
  last_send_ts_us_ : Z;
  pack_ : E;
  tran_addr_ : option E;
  pack_len_ : Z;
  payload_offset_ : Z;
  retran_counter_ : Z;
  boost_threshold_ : Z;
  try_agin_flg_ : bool;
  boost_node_flg_ : bool;
  failed_ack_ : bool;
  has_boost_node_ : bool;
  pack_sn_ : Z;
  first_pack_sn_ : Z
}.
Definition set_failed_ack (b : Body) : Body :=
  mkBody (last_send_ts_us_ b) (pack_ b) (tran_addr_ b) (pack_len_ b) (payload_offset_ b) (retran_counter_ b)
    (boost_threshold_ b) (try_agin_flg_ b) (boost_node_flg_ b) true (has_boost_node_ b) (pack_sn_ b) (first_pack_sn_ b).
Definition set_has_boost (b : Body) : Body :=
  mkBody (last_send_ts_us_ b) (pack_ b) (tran_addr_ b) (pack_len_ b) (payload_offset_ b) (retran_counter_ b)
    (boost_threshold_ b) (try_agin_flg_ b) (boost_node_flg_ b) (failed_ack_ b) true (pack_sn_ b) (first_pack_sn_ b).
Definition set_threshold (t : Z) (b : Body) : Body :=
  mkBody (last_send_ts_us_ b) (pack_ b) (tran_addr_ b) (pack_len_ b) (payload_offset_ b) (retran_counter_ b)
    t (try_agin_flg_ b) (boost_node_flg_ b) (failed_ack_ b) (has_boost_node_ b) (pack_sn_ b) (first_pack_sn_ b).
(** The second life of a packet of a reliable stream. *)
Definition rearm (b : Body) : Body :=
  mkBody (last_send_ts_us_ b) (pack_ b) (tran_addr_ b) (pack_len_ b) (payload_offset_ b) 0
    (boost_threshold_ b) true false false (has_boost_node_ b) (pack_sn_ b) (first_pack_sn_ b).
End Body.
#[global] Arguments Body : clear implicits.

(** The surroundings: the retransmission callback of the session
    ([GtpSession::PackRetransmit]), which rebuilds the header of the packet in
    its buffer and sends it, and what the rest of the system holds. *)
Class ArqEnv (P E W : Type) := {
  ae_sys_id : Z;
  (** [retran_cb_(session, node, addr, ts)]: the return code, the node, the
      packet and the address as it leaves them *)
  ae_retran : Body E -> list Z -> Addr -> Z -> P -> W -> Z * Body E * list Z * Addr * P * W;
  ae_held : W -> E -> Z
}.

Section State.
Context {P E Q N W : Type} `{Countable E} `{Countable N} `{!PackPool P E} `{!ItemPool Q N} `{!ArqEnv P E W}.

Record ArqSt := mkArq {
  arq_list_ : ArqHeap N (Body E);
  aq_items : Q;
  aq_pool : P;
  aq_world : W;
  aq_packs : gmap E (list Z);
  aq_addrs : gmap (option E) Addr;
  rto_timeout_us_ : Z;
  boost_period_us_ : Z;
  s_cur_loss_rate_ : spec_float;
  r_cur_loss_rate_ : spec_float;
  s_loss_dir_ : Z;
  r_loss_dir_ : Z;
  boost_switch_ : bool;
  max_retran_times_ : Z;
  max_boost_times_ : Z;
  ack_err_counter_ : Z;
  rto_resend_counter_ : Z;
  ack_resend_counter_ : Z;
  ai_repair_sum_ : Z;
  alg_top_switch_ : bool
}.

Definition put_list l s := mkArq l (aq_items s) (aq_pool s) (aq_world s) (aq_packs s) (aq_addrs s)
  (rto_timeout_us_ s) (boost_period_us_ s) (s_cur_loss_rate_ s) (r_cur_loss_rate_ s) (s_loss_dir_ s) (r_loss_dir_ s)
  (boost_switch_ s) (max_retran_times_ s) (max_boost_times_ s) (ack_err_counter_ s) (rto_resend_counter_ s)
  (ack_resend_counter_ s) (ai_repair_sum_ s) (alg_top_switch_ s).
Definition put_items q s := mkArq (arq_list_ s) q (aq_pool s) (aq_world s) (aq_packs s) (aq_addrs s)
  (rto_timeout_us_ s) (boost_period_us_ s) (s_cur_loss_rate_ s) (r_cur_loss_rate_ s) (s_loss_dir_ s) (r_loss_dir_ s)
  (boost_switch_ s) (max_retran_times_ s) (max_boost_times_ s) (ack_err_counter_ s) (rto_resend_counter_ s)
  (ack_resend_counter_ s) (ai_repair_sum_ s) (alg_top_switch_ s).
Definition put_pool p w s := mkArq (arq_list_ s) (aq_items s) p w (aq_packs s) (aq_addrs s)
  (rto_timeout_us_ s) (boost_period_us_ s) (s_cur_loss_rate_ s) (r_cur_loss_rate_ s) (s_loss_dir_ s) (r_loss_dir_ s)
  (boost_switch_ s) (max_retran_times_ s) (max_boost_times_ s) (ack_err_counter_ s) (rto_resend_counter_ s)
  (ack_resend_counter_ s) (ai_repair_sum_ s) (alg_top_switch_ s).
Definition put_mem packs addrs s := mkArq (arq_list_ s) (aq_items s) (aq_pool s) (aq_world s) packs addrs
  (rto_timeout_us_ s) (boost_period_us_ s) (s_cur_loss_rate_ s) (r_cur_loss_rate_ s) (s_loss_dir_ s) (r_loss_dir_ s)
  (boost_switch_ s) (max_retran_times_ s) (max_boost_times_ s) (ack_err_counter_ s) (rto_resend_counter_ s)
  (ack_resend_counter_ s) (ai_repair_sum_ s) (alg_top_switch_ s).
(** The counters: failed, repeated by the timer, by an acknowledgement, early. *)
Definition add_counts err rto ack ai s := mkArq (arq_list_ s) (aq_items s) (aq_pool s) (aq_world s) (aq_packs s)
  (aq_addrs s) (rto_timeout_us_ s) (boost_period_us_ s) (s_cur_loss_rate_ s) (r_cur_loss_rate_ s) (s_loss_dir_ s)
  (r_loss_dir_ s) (boost_switch_ s) (max_retran_times_ s) (max_boost_times_ s) (u32 (ack_err_counter_ s + err))
  (u32 (rto_resend_counter_ s + rto)) (u32 (ack_resend_counter_ s + ack)) (u32 (ai_repair_sum_ s + ai)) (alg_top_switch_ s).

Definition AM (A : Type) : Type := ST ArqSt A.

(** ** Access *)
Definition on_list {A} (m : ST (ArqHeap N (Body E)) A) : AM A := fun s =>
  match m (arq_list_ s) with Some (a, l) => Some (a, put_list l s) | None => None end.
Definition body_at (n : N) : AM (Body E) := c ← on_list (node n); mret (body c).
Definition next_of (n : N) : AM (option N) := c ← on_list (node n); mret (nxt_node_ c).
Definition get_pack (e : E) : AM (list Z) := s ← get_st; deref (aq_packs s !! e).
Definition get_addr (a : option E) : AM Addr := s ← get_st; deref (aq_addrs s !! a).

(** Using or releasing what nobody holds is a fault. *)
Definition TranBufUseRefAddOne (e : E) : AM unit :=
  s ← get_st;
  if 0 <? pp_refs (aq_pool s) e then mod_st (put_pool (pp_addref e (aq_pool s)) (aq_world s)) else fault.
Definition FreeTranBuf (e : E) : AM unit :=
  s ← get_st;
  if 0 <? pp_refs (aq_pool s) e then mod_st (put_pool (pp_free e (aq_pool s)) (aq_world s)) else fault.
Fixpoint FreeTranBufVec (l : list E) : AM unit :=
  match l with
  | [] => mret tt
  | e :: l' => _ ← FreeTranBuf e; FreeTranBufVec l'
  end.
Definition MallocTranBuf (spec : Z) : AM (option (E * Z)) :=
  s ← get_st;
  let (r, p) := pp_malloc spec (aq_pool s) in
  _ ← mod_st (put_pool p (aq_world s)); mret r.
Definition MallocItem : AM (option N) :=
  s ← get_st;
  let (r, q) := ip_malloc (aq_items s) in
  _ ← mod_st (put_items q); mret r.
Definition FreeItem (n : N) : AM unit :=
  s ← get_st;
  if ip_used (aq_items s) n then
    _ ← mod_st (put_items (ip_free n (aq_items s)));
    on_list (mod_st (fun h => put_nodes (delete n (nodes h)) h))
  else fault.
(** The fields of a new node; its links are written when it enters the list. *)
Definition init_node (n : N) (b : Body E) : AM unit :=
  on_list (store_node n (mkArqNode None None b)).

(** [retran_cb_(session, node, node->tran_addr_, ts)] *)
Definition call_retran (n : N) (ts : Z) : AM Z :=
  b ← body_at n;
  bytes ← get_pack (pack_ b);
  a ← get_addr (tran_addr_ b);
  s ← get_st;
  let '(r, b', bytes', a', p, w) := ae_retran b bytes a ts (aq_pool s) (aq_world s) in
  _ ← mod_st (put_pool p w);
  _ ← mod_st (fun s => put_mem (<[pack_ b := bytes']> (aq_packs s)) (<[tran_addr_ b := a']> (aq_addrs s)) s);
  _ ← on_list (set_body n b');
  mret r.

(** ** Who may be repeated *)

(** [JudgeExhautResendNum] *)
Definition JudgeExhautResendNum (max_retran : Z) (b : Body E) : bool :=
  (if boost_node_flg_ b then boost_threshold_ b else max_retran) <=? retran_counter_ b.
(** [JudgeIsTranFailed] *)
Definition JudgeIsTranFailed (max_retran : Z) (b : Body E) (rto_ts_us : Z) : bool :=
  failed_ack_ b || (JudgeExhautResendNum max_retran b && (last_send_ts_us_ b <=? rto_ts_us)).
(** [JudgeCanRtoReSend] *)
Inductive HarqReTranType := kNotRetranType | kRtoRetranType | kBoostRetranType.
Definition JudgeCanRtoReSend (max_retran : Z) (b : Body E) (rto_ts_us bst_rto_ts_us : Z) : HarqReTranType :=
  if boost_node_flg_ b then
    if (retran_counter_ b <? boost_threshold_ b) && (last_send_ts_us_ b <=? bst_rto_ts_us) then kBoostRetranType
    else kNotRetranType
  else if (retran_counter_ b <? max_retran) && (last_send_ts_us_ b <=? rto_ts_us) then kRtoRetranType
  else kNotRetranType.

(** ** New packets *)

(** [CloneBoostNode] up to the mark on the original; the result tells whether
    there was a buffer and an item for the copy. *)
Definition make_boost_node (org : Body E) (ts_us : Z) : AM bool :=
  r ← MallocTranBuf (GtpPackSizeToMemSpec (pack_len_ org));
  match r with
  | None => mret false
  | Some (pack_mem, mem_size) =>
      i ← MallocItem;
      match i with
      | None => _ ← FreeTranBuf pack_mem; mret false
      | Some bst_node =>
          bytes ← get_pack (pack_ org);
          _ ← when (mem_size <? pack_len_ org) fault;
          let copy := mem_load (Z.to_nat (pack_len_ org)) bytes 0 in
          a ← get_addr (tran_addr_ org);
          _ ← mod_st (fun s => put_mem (<[pack_mem := copy]> (aq_packs s)) (<[Some pack_mem := a]> (aq_addrs s)) s);
          _ ← init_node bst_node
                (mkBody (u64 (ts_us - 1000000)) pack_mem (Some pack_mem) (u16 (packet_size copy))
                   (u8 (header_offset (parse_header copy))) 0 (boost_threshold_ org) true true false true
                   (packet_sn copy) (first_pack_sn_ org));
          _ ← on_list (PushPack bst_node);
          mret true
      end
  end.
(** [CloneBoostNode] *)
Definition CloneBoostNode (org_node : N) (ts_us : Z) : AM unit :=
  org ← body_at org_node;
  ok ← make_boost_node org ts_us;
  when ok (org ← body_at org_node; on_list (set_body org_node (set_has_boost org))).

(** [PacketEntryList] *)
Definition PacketEntryList (pack : E) (first_pack_sn ts_us : Z) : AM Z :=
  i ← MallocItem;
  match i with
  | None => mret (GEN_ERR ae_sys_id kGtpArqMd kCrtArqNodeFailed)
  | Some n =>
      bytes ← get_pack pack;
      s ← get_st;
      _ ← init_node n
            (mkBody ts_us pack None (u16 (packet_size bytes)) (u8 (header_offset (parse_header bytes)))
               (u8 (repeat_counter (parse_header bytes)))
               (if 0 =? max_boost_times_ s then DEFAULT_BOOST_TIMES else max_boost_times_ s)
               false false false false (packet_sn bytes) first_pack_sn);
      _ ← on_list (PushPack n);
      _ ← TranBufUseRefAddOne pack;
      if negb (boost_switch_ s) || (max_boost_times_ s =? 0) then mret GTP_OK
      else _ ← CloneBoostNode n ts_us; mret GTP_OK
  end.

(** ** Acknowledgements *)

(** The distance of two sequence numbers as the code computes it. *)
Definition sn_span (head sn : Z) : Z :=
  if head <=? sn then sn - head else u32 (sn + u32 (0xFFFFFFFF - head)).

(** [JudgeIsExist]: the search runs from both ends of the array. *)
Fixpoint exist_loop (n : nat) (first_sn : Z) (sn_vec : list Z) (i j : Z) : bool :=
  match n with
  | O => false
  | S n' =>
      if i <=? j then
        if (first_sn =? nth (Z.to_nat i) sn_vec 0) || (first_sn =? nth (Z.to_nat j) sn_vec 0) then true
        else exist_loop n' first_sn sn_vec (i + 1) (j - 1)
      else false
  end.
Definition JudgeIsExist (first_sn : Z) (sn_vec : list Z) : bool :=
  exist_loop (length sn_vec) first_sn sn_vec 0 (Z.of_nat (length sn_vec) - 1).

(** [DelNodeByFirstSn] *)
Fixpoint del_loop (fuel : nat) (first_sn_vec : list Z) (cur_head : option N) : AM unit :=
  match cur_head with
  | None => mret tt
  | Some n =>
      match fuel with
      | O => fault
      | S fuel' =>
          next_node ← next_of n;
          b ← body_at n;
          _ ← (if JudgeIsExist (first_pack_sn_ b) first_sn_vec then
                 _ ← on_list (PopArqNode n);
                 _ ← FreeTranBuf (pack_ b);
                 FreeItem n
               else mret tt);
          del_loop fuel' first_sn_vec next_node
      end
  end.
Definition DelNodeByFirstSn (first_sn_vec : list Z) : AM unit :=
  s ← get_st;
  del_loop (Z.to_nat (node_num_ (arq_list_ s))) first_sn_vec (head_ (arq_list_ s)).

(** What an acknowledgement says about the packet of a node: the walk ends,
    the packet is missing and must be repeated, is not decided yet, or has
    arrived. *)
Inductive Verdict := VBreak | VResend | VKeep | VDelete.

(** The body of the loops of [ProcArqIn32BitSys], [ProcArqIn64BitSys],
    [ProcNotLossNack] and [ProcHasLossNack] after the verdict.  Packets to
    release collect in [vec], the sequence numbers of removed packets in [fs]. *)
Definition remove_node (n : N) (b : Body E) (vec : list E) (fs : list Z) : AM (option N * list E * list Z) :=
  let fs' := if Z.of_nat (length fs) <? MAX_RSV_WIN_SIZE then fs ++ [first_pack_sn_ b] else fs in
  let vec1 := vec ++ [pack_ b] in
  vec' ← (if FREE_C3BUF_NUM_PER <=? Z.of_nat (length vec1) then _ ← FreeTranBufVec vec1; mret [] else mret vec1);
  nxt ← next_of n;
  _ ← on_list (PopArqNode n);
  _ ← FreeItem n;
  mret (nxt, vec', fs').

Fixpoint proc_loop (fuel : nat) (verdict : Z -> option Verdict) (cur : option N) (vec : list E) (fs : list Z)
    : AM (list E * list Z) :=
  match cur with
  | None => mret (vec, fs)
  | Some n =>
      match fuel with
      | O => fault
      | S fuel' =>
          b ← body_at n;
          v ← deref (verdict (pack_sn_ b));
          s ← get_st;
          match v with
          | VBreak => mret (vec, fs)
          | VKeep => nxt ← next_of n; proc_loop fuel' verdict nxt vec fs
          | VDelete =>
              r ← remove_node n b vec fs;
              let '(nxt, vec', fs') := r : option N * list E * list Z in proc_loop fuel' verdict nxt vec' fs'
          | VResend =>
              if JudgeExhautResendNum (max_retran_times_ s) b then
                _ ← on_list (set_body n (set_failed_ack b));
                r ← remove_node n (set_failed_ack b) vec fs;
                let '(nxt, vec', fs') := r : option N * list E * list Z in proc_loop fuel' verdict nxt vec' fs'
              else
                _ ← mod_st (add_counts 0 0 1 0);
                nxt ← next_of n;
                _ ← on_list (PopArqNode n);
                _ ← call_retran n 0;
                _ ← on_list (PushPack n);
                proc_loop fuel' verdict nxt vec fs
          end
      end
  end.

(** The whole of the four functions but for the verdict.  Every round either
    passes or removes a node or counts a repetition of an 8-bit counter. *)
Definition proc_list (verdict : Z -> option Verdict) : AM unit :=
  s ← get_st;
  vf ← proc_loop (Z.to_nat (256 * node_num_ (arq_list_ s))) verdict (head_ (arq_list_ s)) [] [];
  let (vec, fs) := vf : list E * list Z in
  _ ← (match vec with [] => mret tt | _ => FreeTranBufVec vec end);
  match fs with [] => mret tt | _ => DelNodeByFirstSn fs end.

End State.

(** The bit of a position, read in words of [w] bytes; a word that is not
    inside the packet is a fault. *)
Definition ack_bit (w : nat) (ack_sn_bitmap : list Z) (span : Z) : option bool :=
  let bits := 8 * Z.of_nat w in
  let k := (Z.to_nat (span / bits) * w)%nat in
  if (k + w <=? length ack_sn_bitmap)%nat
  then Some (Z.testbit (le_val (mem_load w ack_sn_bitmap k)) (span mod bits)) else None.

(** The verdict of the far packets: beyond the window the walk ends unless the
    distance is larger than a window. *)
Definition far_verdict (span : Z) : Verdict := if span <=? SLID_WIN_SIZE then VBreak else VResend.

Definition ack_verdict (w : nat) (ack_sn_bitmap : list Z) (head_sn tail_sn rto_sn sn : Z) : option Verdict :=
  let span := sn_span head_sn sn in
  if sn_span head_sn tail_sn <? span then Some (far_verdict span)
  else
    bit ← ack_bit w ack_sn_bitmap span;
    Some (if bit : bool then VDelete else if span <=? sn_span head_sn rto_sn then VResend else VKeep).

Definition noloss_verdict (head_sn tail_sn sn : Z) : option Verdict :=
  let span := sn_span head_sn sn in
  Some (if sn_span head_sn tail_sn <? span then far_verdict span else VDelete).

(** [CheckCurSnIsDiscard] *)
Definition CheckCurSnIsDiscard (head_sn : Z) (nack_sn_offset : list Z) (cur_sn : Z) : bool :=
  existsb (fun off => cur_sn =? u32 (head_sn + off)) nack_sn_offset.
Definition hasloss_verdict (nack_sn_offset : list Z) (head_sn rto_sn sn : Z) : option Verdict :=
  let span := sn_span head_sn sn in
  Some (if sn_span head_sn rto_sn <? span then far_verdict span
        else if CheckCurSnIsDiscard head_sn nack_sn_offset sn
             then if span <=? sn_span head_sn rto_sn then VResend else VKeep
             else VDelete).

Section Procs.
Context {P E Q N W : Type} `{Countable E} `{Countable N} `{!PackPool P E} `{!ItemPool Q N} `{!ArqEnv P E W}.
Local Abbreviation M := (@AM P E Q N W _ _ _ _).

Definition ProcArqIn32BitSys (ack_sn_bitmap : list Z) (head_sn tail_sn rto_sn : Z) : M unit :=
  proc_list (ack_verdict 4 ack_sn_bitmap head_sn tail_sn rto_sn).
Definition ProcArqIn64BitSys (ack_sn_bitmap : list Z) (head_sn tail_sn rto_sn : Z) : M unit :=
  proc_list (ack_verdict 8 ack_sn_bitmap head_sn tail_sn rto_sn).
(** [ProcAck]; [ptr_size] is the size of a pointer. *)
Definition ProcAck (ptr_size : Z) (ack_sn_bitmap : list Z) (head_sn tail_sn rto_sn : Z) : M unit :=
  if 8 =? ptr_size then ProcArqIn64BitSys ack_sn_bitmap head_sn tail_sn rto_sn
  else ProcArqIn32BitSys ack_sn_bitmap head_sn tail_sn rto_sn.

Definition ProcNotLossNack (head_sn tail_sn : Z) : M unit := proc_list (noloss_verdict head_sn tail_sn).
Definition ProcHasLossNack (nack_sn_offset : list Z) (head_sn rto_sn : Z) : M unit :=
  proc_list (hasloss_verdict nack_sn_offset head_sn rto_sn).
(** [ProcNack] *)
Definition ProcNack (nack_sn_offset : list Z) (head_sn rto_sn : Z) : M unit :=
  match nack_sn_offset with
  | [] => ProcNotLossNack head_sn rto_sn
  | _ => ProcHasLossNack nack_sn_offset head_sn rto_sn
  end.

(** ** The timer *)

(** [ClearArqList] and [PopAllPack] *)
Fixpoint clear_loop (fuel : nat) (cur_node : option N) : M unit :=
  match cur_node with
  | None => mret tt
  | Some n =>
      match fuel with
      | O => fault
      | S fuel' =>
          nxt_node ← next_of n;
          b ← body_at n;
          _ ← FreeTranBuf (pack_ b);
          _ ← FreeItem n;
          clear_loop fuel' nxt_node
      end
  end.
Definition ClearArqList : M unit :=
  s ← get_st;
  match head_ (arq_list_ s) with
  | None => mret tt
  | Some _ =>
      _ ← clear_loop (Z.to_nat (node_num_ (arq_list_ s))) (head_ (arq_list_ s));
      on_list (mod_st (fun h => mkHeap (nodes h) None None 0))
  end.
Definition PopAllPack : M unit := ClearArqList.

(** [TranFailedPostHandler] *)
Definition TranFailedPostHandler (n : N) (cur_ts_us : Z) : M unit :=
  b ← body_at n;
  self ← get_addr None;
  s ← get_st;
  if (ad_stream_type self <? kReliableStream) || negb (alg_top_switch_ s) || boost_node_flg_ b || try_agin_flg_ b then
    _ ← FreeTranBuf (pack_ b); FreeItem n
  else
    _ ← on_list (set_body n (rearm b));
    _ ← call_retran n cur_ts_us;
    b ← body_at n;
    _ ← when (has_boost_node_ b && (boost_threshold_ b <? MAX_BOOST_TIMES_PER_ONCE))
          (on_list (set_body n (set_threshold (u8 (boost_threshold_ b + 1)) b)));
    _ ← CloneBoostNode n cur_ts_us;
    on_list (PushPack n).

Fixpoint rto_loop (fuel : nat) (cur_ts_us rto_ts_us bst_ts_us : Z) (cur_head : option N) : M unit :=
  match cur_head with
  | None => mret tt
  | Some n =>
      b ← body_at n;
      if negb (last_send_ts_us_ b <? cur_ts_us) then mret tt
      else
        match fuel with
        | O => fault
        | S fuel' =>
            nxt_node ← next_of n;
            s ← get_st;
            _ ← (if JudgeIsTranFailed (max_retran_times_ s) b rto_ts_us then
                   a ← get_addr (tran_addr_ b);
                   _ ← mod_st (fun s => put_mem (aq_packs s)
                         (<[tran_addr_ b := mkAddr (sf_u8 (s_cur_loss_rate_ s)) cur_ts_us (ad_stream_type a) (ad_rest a)]>
                            (aq_addrs s)) s);
                   _ ← mod_st (add_counts 1 0 0 0);
                   _ ← on_list (PopArqNode n);
                   TranFailedPostHandler n cur_ts_us
                 else
                   match JudgeCanRtoReSend (max_retran_times_ s) b rto_ts_us bst_ts_us with
                   | kNotRetranType => mret tt
                   | retran_type =>
                       _ ← on_list (PopArqNode n);
                       _ ← call_retran n cur_ts_us;
                       _ ← mod_st (match retran_type with
                                   | kBoostRetranType => add_counts 0 0 0 1
                                   | _ => add_counts 0 1 0 0
                                   end);
                       on_list (PushPack n)
                   end);
            rto_loop fuel' cur_ts_us rto_ts_us bst_ts_us nxt_node
        end
  end.

(** [CheckRtoRetran].  A node is visited once, and its repetition once more. *)
Definition CheckRtoRetran (cur_ts_us : Z) : M unit :=
  s ← get_st;
  if negb (alg_top_switch_ s) then ClearArqList
  else rto_loop (Z.to_nat (2 * node_num_ (arq_list_ s))) cur_ts_us (u64 (cur_ts_us - rto_timeout_us_ s))
         (u64 (cur_ts_us - boost_period_us_ s)) (head_ (arq_list_ s)).

(** ** Parameters *)
Definition AdjustRtoTimeout (rto_timeout_us rtt_us : Z) : M unit := mod_st (fun s =>
  mkArq (arq_list_ s) (aq_items s) (aq_pool s) (aq_world s) (aq_packs s) (aq_addrs s)
    (GtpLimit MIN_RTO_US MAX_RTO_US rto_timeout_us)
    (GtpLimit MIN_BOOST_PERIOD_US MAX_BOOST_PERIOD_US (Z.shiftr rtt_us 6)) (s_cur_loss_rate_ s) (r_cur_loss_rate_ s)
    (s_loss_dir_ s) (r_loss_dir_ s) (boost_switch_ s) (max_retran_times_ s) (max_boost_times_ s) (ack_err_counter_ s)
    (rto_resend_counter_ s) (ack_resend_counter_ s) (ai_repair_sum_ s) (alg_top_switch_ s)).
Definition AdjustRetranTimes (max_retran_times : Z) : M unit := mod_st (fun s =>
  mkArq (arq_list_ s) (aq_items s) (aq_pool s) (aq_world s) (aq_packs s) (aq_addrs s)
    (rto_timeout_us_ s) (boost_period_us_ s) (s_cur_loss_rate_ s) (r_cur_loss_rate_ s)
    (s_loss_dir_ s) (r_loss_dir_ s) (boost_switch_ s) (u8 max_retran_times) (max_boost_times_ s) (ack_err_counter_ s)
    (rto_resend_counter_ s) (ack_resend_counter_ s) (ai_repair_sum_ s) (alg_top_switch_ s)).
Definition AdjustSWinCurrentLossRate (cur_loss_rate : spec_float) (loss_dir : Z) : M unit := mod_st (fun s =>
  mkArq (arq_list_ s) (aq_items s) (aq_pool s) (aq_world s) (aq_packs s) (aq_addrs s)
    (rto_timeout_us_ s) (boost_period_us_ s) cur_loss_rate (r_cur_loss_rate_ s)
    (loss_dir mod 2) (r_loss_dir_ s) (boost_switch_ s) (max_retran_times_ s) (max_boost_times_ s) (ack_err_counter_ s)
    (rto_resend_counter_ s) (ack_resend_counter_ s) (ai_repair_sum_ s) (alg_top_switch_ s)).
Definition AdjustRWinCurrentLossRate (cur_loss_rate : spec_float) (loss_dir : Z) : M unit := mod_st (fun s =>
  mkArq (arq_list_ s) (aq_items s) (aq_pool s) (aq_world s) (aq_packs s) (aq_addrs s)
    (rto_timeout_us_ s) (boost_period_us_ s) (s_cur_loss_rate_ s) cur_loss_rate
    (s_loss_dir_ s) (loss_dir mod 2) (boost_switch_ s) (max_retran_times_ s) (max_boost_times_ s) (ack_err_counter_ s)
    (rto_resend_counter_ s) (ack_resend_counter_ s) (ai_repair_sum_ s) (alg_top_switch_ s)).

(** The constructor; it leaves [boost_period_us_] and [r_cur_loss_rate_] as the
    memory had them ([junk_period], [junk_rate]). *)
Definition arq_ctor (rto_timeout_us max_retran_times : Z) (items : Q) (pool : P) (world : W)
    (packs : gmap E (list Z)) (addrs : gmap (option E) Addr) (junk_period : Z) (junk_rate : spec_float)
    (alg_top : bool) : @ArqSt P E Q N W _ _ _ _ :=
  mkArq (mkHeap ∅ None None 0) items pool world packs addrs rto_timeout_us junk_period (S754_zero false) junk_rate
    0 0 true (u8 max_retran_times) INIT_BOOST_TIMES 0 0 0 0 alg_top.

End Procs.

#[global] Arguments ArqSt P E Q N W {_ _ _ _}.
#[global] Arguments AM P E Q N W {_ _ _ _} A.
End Arq.
