(* ===== verification/ArqSpec.v ===== *)
(** * Correctness of the arq

    The invariant of [GtpArq] (the list is well linked, its nodes and buffers
    are held exactly once each), the callback's contract, and the walk of an
    acknowledgement through the list as a relation on sequences of nodes. *)
From S2P Require Import Prelude PacketHeader PoolInterface ItemPool ArqList Arq.
Export Arq.

Module ArqSpec.

Section Spec.
Context {P E Q N W : Type} `{Countable E} `{Countable N} `{!PackPool P E} `{!ItemPool Q N} `{!ArqEnv P E W}.
Implicit Types (s : ArqSt P E Q N W) (b : Body E) (l : list (N * Body E)) (e : E) (n : N) (x : E -> Z).

(** ** The contract of the callback *)

(** What a repetition leaves of a node: the same packet in the same buffer, one
    more repetition, sent now. *)
Record resent (ts : Z) b b' : Prop := {
  rs_pack : pack_ b' = pack_ b;
  rs_addr : tran_addr_ b' = tran_addr_ b;
  rs_first : first_pack_sn_ b' = first_pack_sn_ b;
  rs_count : retran_counter_ b' = u8 (retran_counter_ b + 1);
  rs_threshold : boost_threshold_ b' = boost_threshold_ b;
  rs_flags : boost_node_flg_ b' = boost_node_flg_ b /\ try_agin_flg_ b' = try_agin_flg_ b /\
    failed_ack_ b' = failed_ack_ b /\ has_boost_node_ b' = has_boost_node_ b;
  rs_len : 0 <= pack_len_ b' < 65536;
  rs_time : ts <> 0 -> last_send_ts_us_ b' = ts
}.

Definition world_ok (w : W) : Prop := forall e, 0 <= ae_held w e <= 30000.

Class ArqEnvLaws : Prop := {
  ae_retran_law b bytes a ts p w (h : E -> Z) :
    pp_ok p -> world_ok w -> (forall y, 0 <= h y <= 1000) -> 0 < h (pack_ b) ->
    (forall y, pp_refs p y = ae_held w y + h y) -> 0 <= pack_len_ b < 65536 ->
    let '(_, b', _, a', p', w') := ae_retran b bytes a ts p w in
    pp_ok p' /\ world_ok w' /\ (forall y, pp_refs p' y = ae_held w' y + h y) /\ resent ts b b' /\
    ad_stream_type a' = ad_stream_type a
}.

(** ** The invariant *)

(** References held by the nodes of a sequence, and by a list of buffers. *)
Definition held_nodes l : E -> Z := held_in ((fun p => Some (pack_ p.2)) <$> l).
Definition held_vec (vec : list E) : E -> Z := held_in (Some <$> vec).

Definition body_ok (packs : gmap E (list Z)) (addrs : gmap (option E) Addr) b : Prop :=
  is_Some (packs !! pack_ b) /\ is_Some (addrs !! tran_addr_ b) /\
  0 <= retran_counter_ b < 256 /\ 0 <= boost_threshold_ b < 256 /\ 0 <= pack_len_ b < 65536.

(** [l] is the list, [x] the references of buffers the operation holds besides. *)
Record arq_ok l x s : Prop := {
  ao_list : list_rep (arq_list_ s) l;
  ao_items : ip_ok (aq_items s);
  ao_used : forall n, n ∈ l.*1 -> ip_used (aq_items s) n = true;
  ao_pool : pp_ok (aq_pool s);
  ao_world : world_ok (aq_world s);
  ao_balance : forall e, pp_refs (aq_pool s) e = ae_held (aq_world s) e + (held_nodes l e + x e);
  ao_extra : forall e, 0 <= held_nodes l e + x e <= 1000;
  ao_self : is_Some (aq_addrs s !! None);
  ao_bodies : Forall (fun p => body_ok (aq_packs s) (aq_addrs s) p.2) l;
  ao_max : 0 <= max_retran_times_ s < 256 /\ 0 <= max_boost_times_ s < 256
}.

(** A node taken out of the list. *)
Definition detached n b s : Prop :=
  (exists c, nodes (arq_list_ s) !! n = Some c /\ body c = b) /\ ip_used (aq_items s) n = true /\
  body_ok (aq_packs s) (aq_addrs s) b.

(** The parameters an operation leaves alone, the type of the session's stream
    among them. *)
Definition self_type s : option Z := ad_stream_type <$> aq_addrs s !! None.
Definition same_params s s' : Prop :=
  self_type s' = self_type s /\
  max_retran_times_ s' = max_retran_times_ s /\ max_boost_times_ s' = max_boost_times_ s /\
  boost_switch_ s' = boost_switch_ s /\ alg_top_switch_ s' = alg_top_switch_ s /\
  rto_timeout_us_ s' = rto_timeout_us_ s /\ boost_period_us_ s' = boost_period_us_ s.
Lemma same_params_refl s : same_params s s.
Proof. done. Qed.
Lemma same_params_trans s1 s2 s3 : same_params s1 s2 -> same_params s2 s3 -> same_params s1 s3.
Proof. unfold same_params. intuition congruence. Qed.

(** ** Balance *)
Lemma held_nodes_app l1 l2 e : held_nodes (l1 ++ l2) e = held_nodes l1 e + held_nodes l2 e.
Proof. unfold held_nodes. by rewrite fmap_app, held_in_app. Qed.
Lemma held_nodes_cons n b l e : held_nodes ((n, b) :: l) e = ind (bool_decide (pack_ b = e)) + held_nodes l e.
Proof.
  unfold held_nodes. cbn. f_equal. f_equal. apply bool_decide_ext. split; [by intros [=]|by intros ->].
Qed.
Lemma held_nodes_nonneg l e : 0 <= held_nodes l e.
Proof. apply held_in_nonneg. Qed.
Lemma held_nodes_mid l1 n b l2 e :
  held_nodes (l1 ++ (n, b) :: l2) e = held_nodes (l1 ++ l2) e + ind (bool_decide (pack_ b = e)).
Proof. rewrite !held_nodes_app, held_nodes_cons. lia. Qed.
Lemma held_vec_snoc vec e y : held_vec (vec ++ [e]) y = held_vec vec y + ind (bool_decide (e = y)).
Proof.
  unfold held_vec. rewrite fmap_app, held_in_app. cbn. rewrite Z.add_0_r. f_equal. f_equal. apply bool_decide_ext.
  split; [by intros [=]|by intros ->].
Qed.
Lemma held_vec_cons e vec y : held_vec (e :: vec) y = ind (bool_decide (e = y)) + held_vec vec y.
Proof.
  unfold held_vec. cbn. f_equal. f_equal. apply bool_decide_ext. split; [by intros [=]|by intros ->].
Qed.
Lemma held_vec_nonneg vec e : 0 <= held_vec vec e.
Proof. apply held_in_nonneg. Qed.

(** The extra references only matter pointwise. *)
Lemma arq_ok_ext l x x' s : (forall e, x e = x' e) -> arq_ok l x s -> arq_ok l x' s.
Proof. intros Hx []. split; try done; intros e; rewrite <- Hx; auto. Qed.

(** ** The primitive accesses *)
Lemma wp_on_list {A} (m : ST (ArqHeap N (Body E)) A) Q0 s :
  wp m (fun a h => Q0 a (put_list h s)) (arq_list_ s) -> wp (on_list m) Q0 s.
Proof. unfold wp, on_list. by destruct (m (arq_list_ s)) as [[a h]|]. Qed.

Lemma wp_body_at n c Q0 s : nodes (arq_list_ s) !! n = Some c -> Q0 (body c) s -> wp (body_at n) Q0 s.
Proof.
  intros Hc HQ. unfold body_at, node. wp_steps. apply wp_on_list. wp_steps. eapply wp_deref; [exact Hc|].
  wp_steps. by destruct s.
Qed.
Lemma wp_next_of n c Q0 s : nodes (arq_list_ s) !! n = Some c -> Q0 (nxt_node_ c) s -> wp (next_of n) Q0 s.
Proof.
  intros Hc HQ. unfold next_of, node. wp_steps. apply wp_on_list. wp_steps. eapply wp_deref; [exact Hc|].
  wp_steps. by destruct s.
Qed.

Lemma ok_node l1 n b l2 x s : arq_ok (l1 ++ (n, b) :: l2) x s ->
  exists c, nodes (arq_list_ s) !! n = Some c /\ body c = b /\ nxt_node_ c = head l2.*1.
Proof. intros Hs. destruct (rep_node _ _ _ _ _ (ao_list _ _ _ Hs)) as (c & ? & ? & ? & _). by exists c. Qed.

Lemma ok_body l1 n b l2 x s : arq_ok (l1 ++ (n, b) :: l2) x s -> body_ok (aq_packs s) (aq_addrs s) b.
Proof. intros Hs. pose proof (ao_bodies _ _ _ Hs) as Hb. apply Forall_app in Hb as [_ Hb]. by apply Forall_cons in Hb as [Hb _]. Qed.

Lemma wp_body_in l1 n b l2 x s Q0 : arq_ok (l1 ++ (n, b) :: l2) x s -> Q0 b s -> wp (body_at n) Q0 s.
Proof. intros Hs HQ. destruct (ok_node _ _ _ _ _ _ Hs) as (c & Hc & Hb & _). rewrite <- Hb in HQ. by eapply wp_body_at. Qed.
Lemma wp_next_in l1 n b l2 x s Q0 : arq_ok (l1 ++ (n, b) :: l2) x s -> Q0 (head l2.*1) s -> wp (next_of n) Q0 s.
Proof. intros Hs HQ. destruct (ok_node _ _ _ _ _ _ Hs) as (c & Hc & _ & Hx). rewrite <- Hx in HQ. by eapply wp_next_of. Qed.

(** Taking a node out of the list. *)
Lemma wp_pop l1 n b l2 x s :
  arq_ok (l1 ++ (n, b) :: l2) x s ->
  wp (on_list (PopArqNode n)) (fun _ s' =>
    arq_ok (l1 ++ l2) (fun e => x e + ind (bool_decide (pack_ b = e))) s' /\ detached n b s' /\
    (n ∉ (l1 ++ l2).*1) /\ same_params s s' /\ exists h, s' = put_list h s) s.
Proof.
  intros Hs. apply wp_on_list. pose proof (ok_body _ _ _ _ _ _ Hs) as Hbody.
  eapply wp_mono; [exact (wp_PopArqNode _ _ _ _ _ (ao_list _ _ _ Hs))|]. cbn beta.
  intros _ h (Hr & Hc & Ho). destruct (nodup_mid _ _ _ _ (lr_nodup _ _ (ao_list _ _ _ Hs))) as (Hn1 & Hn2 & _).
  destruct Hs as [Hl Hi Hu Hp Hw Hb Hx Hself Hbd Hm].
  assert (Husn : ip_used (aq_items s) n = true).
  { apply Hu. rewrite fmap_app. apply elem_of_app. right. by left. }
  split; [|split; [split; [exact Hc|by split]|split; [|split; [done|by exists h]]]].
  - split; try done.
    + intros k Hk. apply Hu. rewrite fmap_app in *. apply elem_of_app in Hk as [?|?]; apply elem_of_app; [by left|].
      right. by right.
    + intros e. cbn. rewrite Hb, held_nodes_mid. lia.
    + intros e. specialize (Hx e). rewrite held_nodes_mid in Hx. unfold ind in *. case_bool_decide; lia.
    + cbn. apply Forall_app in Hbd as [Hb1 Hb2]. apply Forall_cons in Hb2 as [_ Hb2]. by apply Forall_app.
  - rewrite fmap_app. intros [?|?]%elem_of_app; [by apply Hn1|by apply Hn2].
Qed.

(** Appending a detached node. *)
Lemma wp_push l n b x s :
  arq_ok l (fun e => x e + ind (bool_decide (pack_ b = e))) s -> detached n b s -> n ∉ l.*1 ->
  Z.of_nat (length l) + 1 < 2 ^ 32 ->
  wp (on_list (PushPack n)) (fun _ s' => arq_ok (l ++ [(n, b)]) x s' /\ same_params s s' /\
    exists h, s' = put_list h s /\ others_same (n :: l.*1) (arq_list_ s) h) s.
Proof.
  intros Hs ((c & Hc & Hcb) & Hu & Hb) Hn Hlen. apply wp_on_list.
  eapply wp_mono; [exact (wp_PushPack _ _ _ _ (ao_list _ _ _ Hs) Hc Hn Hlen)|]. cbn beta.
  intros _ h [Hr Ho]. rewrite Hcb in Hr. destruct Hs as [Hl Hi Hus Hp Hw Hbal Hx Hself Hbd Hm].
  split; [|split; [done|by exists h]]. split; try done.
  - intros k. rewrite fmap_app. intros [?|Hk%list_elem_of_singleton]%elem_of_app; [by apply Hus|by subst k].
  - intros e. cbn. rewrite Hbal, held_nodes_app, held_nodes_cons. unfold held_nodes at 3. cbn. lia.
  - intros e. specialize (Hx e). rewrite held_nodes_app, held_nodes_cons.
    unfold held_nodes at 2. cbn. lia.
  - apply Forall_app. split; [done|]. by constructor.
Qed.

(** ** Buffers and items *)
Context `{!PackPoolLaws P E} `{!ItemPoolLaws Q N} `{!ArqEnvLaws}.

Lemma ok_refs_pos l x s e : arq_ok l x s -> 0 < held_nodes l e + x e -> 0 < pp_refs (aq_pool s) e.
Proof. intros Hs He. rewrite (ao_balance _ _ _ Hs). pose proof (ao_world _ _ _ Hs e). lia. Qed.

(** A new state of the pool and of the rest of the system. *)
Lemma ok_pool l x x' s p w :
  arq_ok l x s -> pp_ok p -> world_ok w -> (forall e, pp_refs p e = ae_held w e + (held_nodes l e + x' e)) ->
  (forall e, 0 <= held_nodes l e + x' e <= 1000) -> arq_ok l x' (put_pool p w s).
Proof. intros [] Hp Hw Hb Hx. by split. Qed.

Lemma wp_arq_free l x e s :
  arq_ok l x s -> 0 < held_nodes l e + x e ->
  wp (FreeTranBuf e) (fun _ s' => arq_ok l (fun y => x y - ind (bool_decide (e = y))) s' /\
    exists p, s' = put_pool p (aq_world s) s) s.
Proof.
  intros Hs He. pose proof (ok_refs_pos l x s e Hs He) as Hpos. unfold FreeTranBuf. apply wp_bind, wp_get.
  assert ((0 <? pp_refs (aq_pool s) e) = true) as -> by lia. apply wp_mod.
  destruct (pp_free_law (aq_pool s) e (ao_pool _ _ _ Hs) Hpos) as [Hp Hr]. split; [|by eexists].
  apply (ok_pool l x); [done|done|exact (ao_world _ _ _ Hs)|..].
  - intros y. rewrite Hr, (ao_balance _ _ _ Hs). rewrite (bool_decide_ext (y = e) (e = y)) by done. lia.
  - intros y. pose proof (ao_extra _ _ _ Hs y). unfold ind. case_bool_decide; [subst y|]; lia.
Qed.

Lemma wp_free_vec l x vec s :
  arq_ok l (fun e => x e + held_vec vec e) s -> (forall e, 0 <= held_nodes l e + x e) ->
  wp (FreeTranBufVec vec) (fun _ s' => arq_ok l x s' /\ exists p, s' = put_pool p (aq_world s) s) s.
Proof.
  revert s. induction vec as [|e vec IH]; intros s Hs Hx; cbn [FreeTranBufVec].
  { apply wp_ret. split; [|exists (aq_pool s); by destruct s].
    eapply arq_ok_ext; [|exact Hs]. intros y. unfold held_vec. cbn. lia. }
  apply wp_bind. eapply wp_mono; [apply (wp_arq_free l _ e s Hs)|]; cbn beta.
  { rewrite held_vec_cons, bool_decide_true by done. cbn. pose proof (held_vec_nonneg vec e). specialize (Hx e). lia. }
  intros _ s1 (Hs1 & p & ->). eapply wp_mono; [apply IH; [|done]|cbn beta].
  { eapply arq_ok_ext; [|exact Hs1]. intros y. cbn beta. rewrite held_vec_cons. lia. }
  intros _ s2 (Hs2 & p2 & ->). split; [done|]. by exists p2.
Qed.

Lemma wp_free_item l x n s :
  arq_ok l x s -> n ∉ l.*1 -> ip_used (aq_items s) n = true ->
  wp (FreeItem n) (fun _ s' => arq_ok l x s' /\ same_params s s' /\
    (forall k, ip_used (aq_items s') k = ip_used (aq_items s) k && bool_decide (k <> n))) s.
Proof.
  intros Hs Hn Hu. destruct (ip_free_law (aq_items s) n (ao_items _ _ _ Hs) Hu) as [Hok Hall].
  unfold FreeItem. apply wp_bind, wp_get. rewrite Hu. apply wp_bind, wp_mod, wp_on_list, wp_mod.
  split; [|by split]. destruct Hs. split; try done.
  - apply list_rep_nodes; [done|]. intros k Hk. rewrite lookup_delete_ne; [done|]. by intros ->.
  - intros k Hk. cbn. rewrite Hall, ao_used0 by done. apply bool_decide_eq_true. by intros ->.
Qed.

(** ** Repetition *)
Lemma body_ok_mono packs packs' addrs addrs' b :
  (forall e, is_Some (packs !! e) -> is_Some (packs' !! e)) ->
  (forall a, is_Some (addrs !! a) -> is_Some (addrs' !! a)) -> body_ok packs addrs b -> body_ok packs' addrs' b.
Proof. intros Hp Ha (Hb1 & Hb2 & ?). split; [by apply Hp|]. split; [by apply Ha|done]. Qed.

Lemma insert_some {K A} `{Countable K} (m : gmap K A) k v j : is_Some (m !! j) -> is_Some (<[k := v]> m !! j).
Proof. intros Hj. destruct (decide (j = k)) as [->|]; [by rewrite lookup_insert_eq|by rewrite lookup_insert_ne]. Qed.

Lemma ok_mem l x s packs addrs :
  (forall e, is_Some (aq_packs s !! e) -> is_Some (packs !! e)) ->
  (forall a, is_Some (aq_addrs s !! a) -> is_Some (addrs !! a)) -> arq_ok l x s -> arq_ok l x (put_mem packs addrs s).
Proof.
  intros Hp Ha []. split; try done; [by apply Ha|]. eapply Forall_impl; [done|]. intros p. by apply body_ok_mono.
Qed.

Lemma resent_body_ok packs addrs ts b b' : resent ts b b' -> body_ok packs addrs b -> body_ok packs addrs b'.
Proof.
  intros [] (Hb1 & Hb2 & Hb3 & Hb4 & Hb5). unfold body_ok. rewrite rs_pack0, rs_addr0, rs_count0, rs_threshold0.
  split; [done|]. split; [done|]. split; [apply u8_range|]. done.
Qed.

Lemma wp_call_retran l x n b ts s :
  arq_ok l (fun e => x e + ind (bool_decide (pack_ b = e))) s -> (forall e, 0 <= x e) -> n ∉ l.*1 -> detached n b s ->
  wp (call_retran n ts) (fun _ s' => exists b', resent ts b b' /\
    arq_ok l (fun e => x e + ind (bool_decide (pack_ b' = e))) s' /\ detached n b' s' /\ same_params s s' /\
    aq_items s' = aq_items s) s.
Proof.
  intros Hs Hx0 Hn ((c & Hc & Hb) & Hu & Hbok). pose proof Hbok as ((bytes & Hby) & (a & Ha) & Hcr & Hth & Hlen).
  unfold call_retran. apply wp_bind. eapply wp_body_at; [exact Hc|]. rewrite Hb. unfold get_pack, get_addr.
  wp_steps. eapply wp_deref; [exact Hby|]. wp_steps. eapply wp_deref; [exact Ha|]. apply wp_bind, wp_get.
  pose proof (ae_retran_law b bytes a ts (aq_pool s) (aq_world s)
    (fun y => held_nodes l y + (x y + ind (bool_decide (pack_ b = y)))) (ao_pool _ _ _ Hs) (ao_world _ _ _ Hs)) as Hlaw.
  destruct (ae_retran b bytes a ts (aq_pool s) (aq_world s)) as [[[[[r b'] bytes'] a'] p'] w'].
  destruct Hlaw as (Hp & Hw & Hbal & Hres & Hst).
  { intros y. pose proof (ao_extra _ _ _ Hs y). pose proof (held_nodes_nonneg l y). lia. }
  { rewrite bool_decide_true by done. cbn. pose proof (held_nodes_nonneg l (pack_ b)). specialize (Hx0 (pack_ b)). lia. }
  { exact (ao_balance _ _ _ Hs). }
  { done. }
  pose proof (rs_pack _ _ _ Hres) as Hpk. wp_steps. apply wp_on_list. unfold set_body, node, store_node. wp_steps.
  eapply wp_deref; [exact Hc|]. wp_steps. exists b'. split; [done|].
  assert (Hs1 : arq_ok l (fun e => x e + ind (bool_decide (pack_ b' = e)))
    (put_mem (<[pack_ b := bytes']> (aq_packs s)) (<[tran_addr_ b := a']> (aq_addrs s)) (put_pool p' w' s))).
  { apply ok_mem; [intros e; apply insert_some|intros e; apply insert_some|].
    rewrite Hpk. apply (ok_pool l (fun e => x e + ind (bool_decide (pack_ b = e)))); try done. exact (ao_extra _ _ _ Hs). }
  split; [|split; [|split; [|done]]].
  - destruct Hs1. split; try done. apply list_rep_nodes; [done|]. intros k Hk. cbn. rewrite lookup_insert_ne; [done|].
    by intros ->.
  - split; [|split; [done|]].
    + exists (mkArqNode (pre_node_ c) (nxt_node_ c) b'). split; [apply lookup_insert_eq|done].
    + cbn. apply (resent_body_ok _ _ ts b); [done|].
      eapply body_ok_mono; [intros e; apply insert_some|intros e; apply insert_some|done].
  - split; [|done]. unfold self_type. cbn. destruct (tran_addr_ b) as [k|].
    + by rewrite lookup_insert_ne.
    + rewrite lookup_insert_eq, Ha. cbn. by rewrite Hst.
Qed.

(** ** Removing a node *)
Definition add_fs (fs : list Z) (sn : Z) : list Z := if Z.of_nat (length fs) <? MAX_RSV_WIN_SIZE then fs ++ [sn] else fs.

Lemma wp_remove_node l1 n b l2 vec fs s :
  arq_ok (l1 ++ (n, b) :: l2) (held_vec vec) s ->
  wp (remove_node n b vec fs) (fun r s' => exists vec', r = (head l2.*1, vec', add_fs fs (first_pack_sn_ b)) /\
    arq_ok (l1 ++ l2) (held_vec vec') s' /\ same_params s s' /\
    (forall k, ip_used (aq_items s') k = ip_used (aq_items s) k && bool_decide (k <> n))) s.
Proof.
  intros Hs. set (l := l1 ++ (n, b) :: l2) in *. unfold remove_node. apply wp_bind.
  set (y := fun (v : list E) e => held_vec v e - ind (bool_decide (pack_ b = e))).
  assert (Hy : forall v e, 0 <= held_nodes l e + y v e).
  { intros v e. unfold l, y. rewrite held_nodes_mid. pose proof (held_nodes_nonneg (l1 ++ l2) e).
    pose proof (held_vec_nonneg v e). lia. }
  eapply (wp_mono _ (fun vec' s' => exists p, s' = put_pool p (aq_world s) s /\ arq_ok l (y vec') s')).
  { apply wp_if; intros _.
    - apply wp_bind. eapply wp_mono; [apply (wp_free_vec l (y []) (vec ++ [pack_ b]))|cbn beta].
      + eapply arq_ok_ext; [|exact Hs]. intros e. unfold y. rewrite held_vec_snoc. unfold held_vec at 2. cbn. lia.
      + apply Hy.
      + intros _ s1 [Hs1 (p & ->)]. apply wp_ret. by exists p.
    - apply wp_ret. exists (aq_pool s). split; [by destruct s|]. eapply arq_ok_ext; [|exact Hs].
      intros e. unfold y. rewrite held_vec_snoc. lia. }
  cbn beta. intros vec' s1 (p & -> & Hs1). apply wp_bind. eapply wp_next_in; [exact Hs1|]. apply wp_bind.
  eapply wp_mono; [exact (wp_pop _ _ _ _ _ _ Hs1)|cbn beta].
  intros _ s2 (Hs2 & (_ & Hu & _) & Hn & Hp2 & h & ->). apply wp_bind.
  eapply wp_mono; [exact (wp_free_item _ _ _ _ Hs2 Hn Hu)|cbn beta]. intros _ s3 (Hs3 & Hp3 & Hk). apply wp_ret.
  exists vec'. split; [done|]. split; [|split; [|done]].
  - eapply arq_ok_ext; [|exact Hs3]. intros e. unfold y. lia.
  - eapply same_params_trans; [|exact Hp3]. done.
Qed.

(** ** The walk of an acknowledgement *)
Section Walk.
Context (verdict : Z -> option Verdict) (mx : Z).

(** [walk done rest fs l fs']: the walk has passed the nodes [done] and has the
    nodes [rest] before it, and has removed nodes of the sequence numbers
    [fs]; it ends with the nodes [l] and the sequence numbers [fs'].  A
    repeated node moves to the end of the list, where the walk meets it again,
    unless it was the last one. *)
Inductive walk : list (N * Body E) -> list (N * Body E) -> list Z -> list (N * Body E) -> list Z -> Prop :=
  | walk_end done fs : walk done [] fs done fs
  | walk_break done n b rest fs :
      verdict (pack_sn_ b) = Some VBreak -> walk done ((n, b) :: rest) fs (done ++ (n, b) :: rest) fs
  | walk_keep done n b rest fs l fs' :
      verdict (pack_sn_ b) = Some VKeep -> walk (done ++ [(n, b)]) rest fs l fs' -> walk done ((n, b) :: rest) fs l fs'
  | walk_delete done n b rest fs l fs' :
      verdict (pack_sn_ b) = Some VDelete \/
        (verdict (pack_sn_ b) = Some VResend /\ JudgeExhautResendNum mx b = true) ->
      walk done rest (add_fs fs (first_pack_sn_ b)) l fs' -> walk done ((n, b) :: rest) fs l fs'
  | walk_resend_last done n b b' fs :
      verdict (pack_sn_ b) = Some VResend -> JudgeExhautResendNum mx b = false -> resent 0 b b' ->
      walk done [(n, b)] fs (done ++ [(n, b')]) fs
  | walk_resend done n b b' rest fs l fs' :
      verdict (pack_sn_ b) = Some VResend -> JudgeExhautResendNum mx b = false -> resent 0 b b' ->
      rest <> [] -> walk done (rest ++ [(n, b')]) fs l fs' -> walk done ((n, b) :: rest) fs l fs'.

(** Rounds a node can cost: one more than the repetitions it has left. *)
Definition weight b : nat := S (Z.to_nat ((if boost_node_flg_ b then boost_threshold_ b else mx) - retran_counter_ b)).
Definition weights l : nat := sum_list_with (fun p => weight p.2) l.

Lemma weights_app l1 l2 : weights (l1 ++ l2) = (weights l1 + weights l2)%nat.
Proof. apply sum_list_with_app. Qed.

Lemma weight_resent ts b b' : 0 <= retran_counter_ b -> JudgeExhautResendNum mx b = false ->
  0 <= boost_threshold_ b < 256 -> 0 <= mx < 256 -> resent ts b b' -> (weight b' < weight b)%nat.
Proof.
  intros Hc Hj Ht Hm []. unfold weight, JudgeExhautResendNum in *. destruct rs_flags0 as (-> & _).
  rewrite rs_threshold0, rs_count0. apply Z.leb_gt in Hj. destruct (boost_node_flg_ b); rewrite u8_small by lia; lia.
Qed.

Lemma weight_bound packs addrs b : body_ok packs addrs b -> 0 <= mx < 256 -> (weight b <= 256)%nat.
Proof. intros (_ & _ & Hc & Ht & _) Hm. unfold weight. destruct (boost_node_flg_ b); lia. Qed.

End Walk.

(** Items outside the list are not touched. *)
Definition others_kept l s s' : Prop := forall k, k ∉ l.*1 -> ip_used (aq_items s') k = ip_used (aq_items s) k.

Lemma others_kept_trans l l' s1 s2 s3 :
  (forall k, k ∉ l.*1 -> k ∉ l'.*1) -> others_kept l s1 s2 -> others_kept l' s2 s3 -> others_kept l s1 s3.
Proof. intros Hk Ho1 Ho2 k Hn. rewrite Ho2 by auto. by apply Ho1. Qed.

Lemma notin_mid (l1 : list (N * Body E)) n b l2 k : k ∉ (l1 ++ (n, b) :: l2).*1 -> k ∉ (l1 ++ l2).*1.
Proof.
  rewrite !fmap_app. intros Hk Hin. apply Hk. apply elem_of_app in Hin as [?|?]; apply elem_of_app; [by left|].
  right. by right.
Qed.
Lemma notin_self (l1 : list (N * Body E)) n b l2 k : k ∉ (l1 ++ (n, b) :: l2).*1 -> k <> n.
Proof. intros Hk ->. apply Hk. rewrite fmap_app. apply elem_of_app. right. by left. Qed.

Lemma notin_moved (l1 l2 : list (N * Body E)) n b b' k :
  k ∉ (l1 ++ (n, b) :: l2).*1 -> k ∉ (l1 ++ l2 ++ [(n, b')]).*1.
Proof. rewrite !fmap_app. cbn. rewrite !elem_of_app, elem_of_cons, list_elem_of_singleton. tauto. Qed.

Lemma add_counts_ok l x s c1 c2 c3 c4 : arq_ok l x s -> arq_ok l x (add_counts c1 c2 c3 c4 s).
Proof. intros []. by split. Qed.

Lemma wp_proc_loop fuel verdict mx : forall done rest vec fs s,
  arq_ok (done ++ rest) (held_vec vec) s -> (weights mx rest <= fuel)%nat ->
  (forall sn, is_Some (verdict sn)) -> max_retran_times_ s = mx ->
  wp (proc_loop fuel verdict (head rest.*1) vec fs) (fun r s' => exists l',
    walk verdict mx done rest fs l' r.2 /\ arq_ok l' (held_vec r.1) s' /\ same_params s s' /\
    others_kept (done ++ rest) s s') s.
Proof.
  induction fuel as [|fuel IH]; intros done rest vec fs s Hs Hw Hv Hmx.
  { destruct rest as [|[n b] rest]; [|cbn in Hw; unfold weight in Hw; lia]. cbn [fmap list_fmap head proc_loop]. apply wp_ret.
    exists done. rewrite app_nil_r in *. split; [constructor|]. by split. }
  destruct rest as [|[n b] rest]; cbn [fmap list_fmap head proc_loop].
  { apply wp_ret. exists done. rewrite app_nil_r in *. split; [constructor|]. by split. }
  cbn [fst]. apply wp_bind. eapply wp_body_in; [exact Hs|]. apply wp_bind. destruct (Hv (pack_sn_ b)) as [v Hvb].
  eapply wp_deref; [exact Hvb|]. apply wp_bind, wp_get. change (weights mx ((n, b) :: rest)) with (weight mx b + weights mx rest)%nat in Hw.
  pose proof (ok_body _ _ _ _ _ _ Hs) as Hbok. pose proof (ao_max _ _ _ Hs) as [Hmax _]. rewrite Hmx in Hmax.
  assert (Hrm : forall s1 b1, arq_ok (done ++ (n, b1) :: rest) (held_vec vec) s1 -> same_params s s1 ->
    others_kept (done ++ (n, b) :: rest) s s1 -> first_pack_sn_ b1 = first_pack_sn_ b ->
    (verdict (pack_sn_ b) = Some VDelete \/ (verdict (pack_sn_ b) = Some VResend /\ JudgeExhautResendNum mx b = true)) ->
    wp (r ← remove_node n b1 vec fs;
        let '(nxt, vec', fs') := r : option N * list E * list Z in proc_loop fuel verdict nxt vec' fs')
      (fun r s' => exists l', walk verdict mx done ((n, b) :: rest) fs l' r.2 /\ arq_ok l' (held_vec r.1) s' /\
         same_params s s' /\ others_kept (done ++ (n, b) :: rest) s s') s1).
  { intros s1 b1 Hs1 Hp1 Ho1 Hf Hd. apply wp_bind. eapply wp_mono; [exact (wp_remove_node _ _ _ _ _ fs _ Hs1)|cbn beta].
    intros r s2 (vec' & -> & Hs2 & Hp2 & Hk). eapply wp_mono; [apply (IH done rest); try done|cbn beta].
    - unfold weight in Hw. lia.
    - rewrite <- Hmx. destruct Hp1 as (_ & ? & _), Hp2 as (_ & ? & _). congruence.
    - rewrite Hf. intros [vec3 fs3] s3 (l' & Hwalk & Hs3 & Hp3 & Ho3). exists l'. split; [|split; [done|split]].
      + by apply walk_delete.
      + eapply same_params_trans; [done|]. by eapply same_params_trans.
      + intros k Hkn. rewrite Ho3 by (by eapply notin_mid). rewrite Hk, Ho1 by done.
        rewrite bool_decide_true by (by eapply notin_self). apply andb_true_r. }
  destruct v.
  - apply wp_ret. exists (done ++ (n, b) :: rest). split; [by apply walk_break|]. by split.
  - rewrite Hmx. destruct (JudgeExhautResendNum mx b) eqn:Hj.
    + apply wp_bind, wp_on_list. eapply wp_mono; [exact (list_rep_body _ _ _ _ _ (set_failed_ack b) (ao_list _ _ _ Hs))|].
      cbn beta. intros _ h [Hr _]. apply Hrm; try done; [|by right].
      destruct Hs as [Hl Hi Hu Hp Hwd Hbal Hx Hself Hbd Hm]. split; try done.
      * intros k Hk. apply Hu. by rewrite fmap_app in *.
      * intros e. cbn. rewrite Hbal, !held_nodes_mid. done.
      * intros e. specialize (Hx e). by rewrite !held_nodes_mid in *.
      * cbn. rewrite Forall_app, Forall_cons in *. done.
    + apply wp_bind, wp_mod. apply wp_bind. pose proof (add_counts_ok _ _ _ 0 0 1 0 Hs) as Hs0.
      eapply wp_next_in; [exact Hs0|]. apply wp_bind.
      eapply wp_mono; [exact (wp_pop _ _ _ _ _ _ Hs0)|cbn beta]. intros _ s1 (Hs1 & Hdt & Hn & Hp1 & h & ->). apply wp_bind.
      eapply wp_mono; [exact (wp_call_retran _ (held_vec vec) n b 0 _ Hs1 (held_vec_nonneg vec) Hn Hdt)|cbn beta].
      intros _ s2 (b' & Hres & Hs2 & Hdt2 & Hp2 & Hi2). apply wp_bind.
      pose proof (lr_bound _ _ (ao_list _ _ _ Hs)) as Hbd. rewrite length_app in Hbd. cbn [length] in Hbd.
      eapply wp_mono; [apply (wp_push (done ++ rest) n b' (held_vec vec) _ Hs2 Hdt2 Hn);
        rewrite length_app; lia|cbn beta].
      intros _ s3 (Hs3 & Hp3 & h3 & -> & _). rewrite <- app_assoc in Hs3.
      assert (Hpar : same_params s (put_list h3 s2)).
      { eapply same_params_trans; [|exact Hp3]. eapply same_params_trans; [|exact Hp2]. done. }
      assert (Hoth : others_kept (done ++ (n, b) :: rest) s (put_list h3 s2)) by (intros k _; cbn; by rewrite Hi2).
      destruct rest as [|p0 rest'] eqn:Hrest.
      * cbn [fmap list_fmap head]. destruct fuel; cbn [proc_loop]; apply wp_ret;
          (exists (done ++ [(n, b')]); split; [by apply (walk_resend_last _ _ _ _ b b')|by split]).
      * assert (Hwt : (weight mx b' < weight mx b)%nat).
        { destruct Hbok as (_ & _ & Hc & Ht & _). by apply (weight_resent mx 0 b b'); [lia|..]. }
        assert (Hh : head (p0 :: rest').*1 = head ((p0 :: rest') ++ [(n, b')]).*1) by done.
        rewrite Hh. eapply wp_mono; [apply (IH done ((p0 :: rest') ++ [(n, b')])); try done|cbn beta].
        -- rewrite weights_app. change (weights mx [(n, b')]) with (weight mx b' + 0)%nat. lia.
        -- rewrite <- Hmx. by destruct Hpar as (_ & ? & _).
        -- intros [vec3 fs3] s4 (l' & Hwalk & Hs4 & Hp4 & Ho4). exists l'. split; [|split; [done|split]].
           ++ by apply (walk_resend _ _ _ _ b b').
           ++ by eapply same_params_trans.
           ++ eapply (others_kept_trans _ (done ++ (p0 :: rest') ++ [(n, b')])); [|exact Hoth|exact Ho4].
              apply notin_moved.
  - apply wp_bind. eapply wp_next_in; [exact Hs|].
    eapply wp_mono; [apply (IH (done ++ [(n, b)]) rest); try done|cbn beta].
    + by rewrite <- app_assoc.
    + unfold weight in Hw. lia.
    + intros [vec3 fs3] s3 (l' & Hwalk & Hs3 & Hp3 & Ho3). exists l'. split; [|split; [done|split; [done|]]].
      * by apply walk_keep.
      * by rewrite <- app_assoc in Ho3.
  - apply Hrm; try done. by left.
Qed.

(** ** Removing what carries an acknowledged packet under another number *)
Lemma exist_loop_spec k first_sn (v : list Z) : forall i j, 0 <= i -> j - i + 1 <= Z.of_nat k ->
  exist_loop k first_sn v i j = true <-> exists m, i <= m <= j /\ nth (Z.to_nat m) v 0 = first_sn.
Proof.
  induction k as [|k IH]; intros i j Hi Hk; cbn [exist_loop].
  { split; [done|]. intros (m & Hm & _). lia. }
  destruct (Z.leb_spec i j) as [Hij|Hij].
  2: { split; [done|]. intros (m & Hm & _). lia. }
  destruct (Z.eqb_spec first_sn (nth (Z.to_nat i) v 0)) as [He|Hne]; cbn [orb].
  { split; [|done]. intros _. exists i. split; [lia|done]. }
  destruct (Z.eqb_spec first_sn (nth (Z.to_nat j) v 0)) as [He|Hne2].
  { split; [|done]. intros _. exists j. split; [lia|done]. }
  rewrite IH by lia. split; intros (m & Hm & Hn); exists m; (split; [|done]); [lia|].
  assert (m <> i) by (intros ->; congruence). assert (m <> j) by (intros ->; congruence). lia.
Qed.

Lemma JudgeIsExist_spec first_sn v : JudgeIsExist first_sn v = true <-> first_sn ∈ v.
Proof.
  unfold JudgeIsExist. rewrite exist_loop_spec by lia. split.
  - intros (m & Hm & <-). apply list_elem_of_In, nth_In. lia.
  - intros Hin%list_elem_of_In. apply (In_nth v first_sn 0) in Hin as (m & Hm & He).
    exists (Z.of_nat m). rewrite Nat2Z.id. split; [lia|done].
Qed.

(** What [DelNodeByFirstSn] leaves. *)
Definition survivors (fs : list Z) l : list (N * Body E) := filter (fun p => first_pack_sn_ p.2 ∉ fs) l.

Lemma wp_del_loop fs x fuel : forall done rest s,
  arq_ok (done ++ rest) x s -> (length rest <= fuel)%nat -> (forall e, 0 <= x e) ->
  wp (del_loop fuel fs (head rest.*1)) (fun _ s' => arq_ok (done ++ survivors fs rest) x s' /\ same_params s s' /\
    others_kept (done ++ rest) s s') s.
Proof.
  induction fuel as [|fuel IH]; intros done rest s Hs Hlen Hx.
  { destruct rest; [|cbn in Hlen; lia]. cbn [fmap list_fmap head del_loop]. apply wp_ret. by split. }
  destruct rest as [|[n b] rest]; cbn [fmap list_fmap head del_loop]; [apply wp_ret; by split|].
  cbn [fst length] in *. apply wp_bind. eapply wp_next_in; [exact Hs|]. apply wp_bind. eapply wp_body_in; [exact Hs|].
  apply wp_bind. unfold survivors. rewrite filter_cons. cbn [snd]. fold (survivors fs rest).
  destruct (JudgeIsExist (first_pack_sn_ b) fs) eqn:Hj.
  - apply JudgeIsExist_spec in Hj as Hin. rewrite decide_False by tauto. apply wp_bind.
    eapply wp_mono; [exact (wp_pop _ _ _ _ _ _ Hs)|cbn beta]. intros _ s1 (Hs1 & (_ & Hu & _) & Hn & Hp1 & h & ->).
    apply wp_bind. eapply wp_mono; [apply (wp_arq_free _ _ (pack_ b) _ Hs1)|cbn beta].
    { rewrite bool_decide_true by done. cbn. pose proof (held_nodes_nonneg (done ++ rest) (pack_ b)). specialize (Hx (pack_ b)). lia. }
    intros _ s2 (Hs2 & p & ->). eapply wp_mono; [exact (wp_free_item _ _ _ _ Hs2 Hn Hu)|cbn beta].
    intros _ s3 (Hs3 & Hp3 & Hk3). eapply wp_mono; [apply (IH done rest); [|lia|done]|cbn beta].
    + eapply arq_ok_ext; [|exact Hs3]. intros e. cbn beta. lia.
    + intros _ s4 (Hs4 & Hp4 & Ho4). split; [done|]. split.
      * eapply same_params_trans; [|exact Hp4]. eapply same_params_trans; [|exact Hp3]. done.
      * intros k Hk. rewrite Ho4 by (by eapply notin_mid). rewrite Hk3, bool_decide_true by (by eapply notin_self).
        apply andb_true_r.
  - rewrite decide_True by (intros Hin%JudgeIsExist_spec; congruence). apply wp_ret.
    eapply wp_mono; [apply (IH (done ++ [(n, b)]) rest); [by rewrite <- app_assoc|lia|done]|cbn beta].
    intros _ s4. by rewrite <- !app_assoc.
Qed.

Lemma wp_DelNodeByFirstSn fs l x s :
  arq_ok l x s -> (forall e, 0 <= x e) ->
  wp (DelNodeByFirstSn fs) (fun _ s' => arq_ok (survivors fs l) x s' /\ same_params s s' /\ others_kept l s s') s.
Proof.
  intros Hs Hx. unfold DelNodeByFirstSn. apply wp_bind, wp_get.
  rewrite (lr_head _ _ (ao_list _ _ _ Hs)), (lr_num _ _ (ao_list _ _ _ Hs)), Nat2Z.id.
  by apply (wp_del_loop fs x (length l) [] l).
Qed.

(** ** What a walk does to the nodes *)
Section WalkFacts.
Context (verdict : Z -> option Verdict) (mx : Z).
Local Abbreviation repeated := (rtc (resent 0)).

(** The walk removes a node that has arrived, or is missing and has no
    repetition left. *)
Definition gone b : Prop :=
  verdict (pack_sn_ b) = Some VDelete \/ (verdict (pack_sn_ b) = Some VResend /\ JudgeExhautResendNum mx b = true).

(** Every node that is left was there before. *)
Lemma walk_from done rest fs l fs' : walk verdict mx done rest fs l fs' ->
  forall n b', (n, b') ∈ l -> exists b, (n, b) ∈ done ++ rest /\ repeated b b'.
Proof.
  induction 1 as [done fs|done n b rest fs Hv|done n b rest fs l fs' Hv Hw IH|done n b rest fs l fs' Hv Hw IH
    |done n b b' fs Hv Hj Hr|done n b b' rest fs l fs' Hv Hj Hr Hne Hw IH]; intros m c Hin.
  - exists c. rewrite app_nil_r. split; [done|apply rtc_refl].
  - exists c. split; [done|apply rtc_refl].
  - destruct (IH m c Hin) as (c0 & Hc0 & Hrep). exists c0. split; [|done]. by rewrite <- app_assoc in Hc0.
  - destruct (IH m c Hin) as (c0 & Hc0 & Hrep). exists c0. split; [|done]. rewrite elem_of_app, elem_of_cons in *. tauto.
  - apply elem_of_app in Hin as [Hin|Hin%list_elem_of_singleton].
    + exists c. split; [apply elem_of_app; by left|apply rtc_refl].
    + simplify_eq. exists b. split; [apply elem_of_app; right; by left|by apply rtc_once].
  - destruct (IH m c Hin) as (c0 & Hc0 & Hrep). rewrite !elem_of_app, list_elem_of_singleton in Hc0.
    destruct Hc0 as [Hc0|[Hc0|Hc0]].
    + exists c0. split; [apply elem_of_app; by left|done].
    + exists c0. split; [apply elem_of_app; right; by right|done].
    + simplify_eq. exists b. split; [apply elem_of_app; right; by left|by eapply rtc_l].
Qed.

(** Every recorded number belongs to a removed node. *)
Lemma walk_recorded done rest fs l fs' : walk verdict mx done rest fs l fs' ->
  forall sn, sn ∈ fs' -> sn ∈ fs \/ exists n b b', (n, b) ∈ rest /\ repeated b b' /\ first_pack_sn_ b = sn /\ gone b'.
Proof.
  induction 1 as [done fs|done n b rest fs Hv|done n b rest fs l fs' Hv Hw IH|done n b rest fs l fs' Hv Hw IH
    |done n b b' fs Hv Hj Hr|done n b b' rest fs l fs' Hv Hj Hr Hne Hw IH]; intros sn Hin; try (by left).
  - destruct (IH sn Hin) as [?|(m & c & c' & Hc & ?)]; [by left|]. right. exists m, c, c'. split; [by right|done].
  - destruct (IH sn Hin) as [Hfs|(m & c & c' & Hc & ?)].
    + unfold add_fs in Hfs. destruct (_ <? _); [|by left].
      apply elem_of_app in Hfs as [?|Hs%list_elem_of_singleton]; [by left|]. right. exists n, b, b.
      split; [by left|]. split; [apply rtc_refl|done].
    + right. exists m, c, c'. split; [by right|done].
  - destruct (IH sn Hin) as [?|(m & c & c' & Hc & Hrep & Hf & ?)]; [by left|]. right.
    apply elem_of_app in Hc as [Hc|Hc%list_elem_of_singleton].
    + exists m, c, c'. split; [by right|done].
    + simplify_eq. exists n, b, c'. split; [by left|]. split; [by eapply rtc_l|]. split; [|done].
      by rewrite (rs_first _ _ _ Hr).
Qed.

Lemma walk_fs_mono done rest fs l fs' : walk verdict mx done rest fs l fs' -> forall sn, sn ∈ fs -> sn ∈ fs'.
Proof.
  induction 1 as [| |? ? ? ? ? ? ? ? ? IH|? ? ? ? ? ? ? ? ? IH| |? ? ? ? ? ? ? ? ? ? ? ? ? IH]; intros sn Hin; try done;
    apply IH; [done| |done]. unfold add_fs. destruct (_ <? _); [|done]. apply elem_of_app. by left.
Qed.

(** A node stays, perhaps repeated, or was removed for one of the two reasons. *)
Lemma walk_stays done rest fs l fs' : walk verdict mx done rest fs l fs' ->
  (forall p, p ∈ done -> p ∈ l) /\
  forall n b, (n, b) ∈ rest -> (exists b', (n, b') ∈ l /\ repeated b b') \/ exists b', repeated b b' /\ gone b'.
Proof.
  induction 1 as [done fs|done n b rest fs Hv|done n b rest fs l fs' Hv Hw [IH1 IH2]|done n b rest fs l fs' Hv Hw [IH1 IH2]
    |done n b b' fs Hv Hj Hr|done n b b' rest fs l fs' Hv Hj Hr Hne Hw [IH1 IH2]].
  - split; [done|]. intros m c Hc. by apply elem_of_nil in Hc.
  - split; [intros p Hp; apply elem_of_app; by left|]. intros m c Hc. left. exists c.
    split; [apply elem_of_app; by right|apply rtc_refl].
  - split; [intros p Hp; apply IH1, elem_of_app; by left|]. intros m c [Hc|Hc]%elem_of_cons; [|by apply IH2].
    simplify_eq. left. exists b. split; [apply IH1, elem_of_app; right; by left|apply rtc_refl].
  - split; [done|]. intros m c [Hc|Hc]%elem_of_cons; [|by apply IH2]. simplify_eq. right. exists b.
    split; [apply rtc_refl|done].
  - split; [intros p Hp; apply elem_of_app; by left|]. intros m c Hc%list_elem_of_singleton. simplify_eq.
    left. exists b'. split; [apply elem_of_app; right; by left|by apply rtc_once].
  - split; [done|]. intros m c [Hc|Hc]%elem_of_cons.
    + simplify_eq. destruct (IH2 n b') as [(c' & Hc' & Hrep)|(c' & Hrep & Hg)];
        [apply elem_of_app; right; by left|left|right]; exists c'.
      * split; [done|by eapply rtc_l].
      * split; [by eapply rtc_l|done].
    + apply IH2, elem_of_app. by left.
Qed.

(** Nothing behind the place where the walk ends has arrived. *)
Definition ends_well l : Prop := forall l1 n b l2, l = l1 ++ (n, b) :: l2 -> verdict (pack_sn_ b) = Some VBreak ->
  forall m c, (m, c) ∈ l2 -> verdict (pack_sn_ c) <> Some VDelete.

Lemma ends_well_cons p l : ends_well (p :: l) -> ends_well l.
Proof. intros He l1 n b l2 -> Hv. by apply (He (p :: l1) n b l2). Qed.

Lemma walk_arrived done rest fs l fs' : walk verdict mx done rest fs l fs' ->
  forall o r, rest = o ++ r -> ends_well o -> Z.of_nat (length fs + length o) <= MAX_RSV_WIN_SIZE ->
  forall n b, (n, b) ∈ o -> verdict (pack_sn_ b) = Some VDelete -> first_pack_sn_ b ∈ fs'.
Proof.
  induction 1 as [done fs|done n b rest fs Hv|done n b rest fs l fs' Hv Hw IH|done n b rest fs l fs' Hv Hw IH
    |done n b b' fs Hv Hj Hr|done n b b' rest fs l fs' Hv Hj Hr Hne Hw IH]; intros o r Ho He Hlen m c Hc Hd;
    (destruct o as [|p o]; [by apply elem_of_nil in Hc|]); cbn in Ho; simplify_eq; cbn [length] in Hlen.
  - apply elem_of_cons in Hc as [Hc|Hc]; [simplify_eq; congruence|]. exfalso. by apply (He [] n b o eq_refl Hv m c Hc).
  - apply elem_of_cons in Hc as [Hc|Hc]; [simplify_eq; congruence|].
    eapply IH; [done|by eapply ends_well_cons|lia|done|done].
  - assert (Hadd : add_fs fs (first_pack_sn_ b) = fs ++ [first_pack_sn_ b]).
    { unfold add_fs. destruct (Z.ltb_spec (Z.of_nat (length fs)) MAX_RSV_WIN_SIZE); [done|lia]. }
    rewrite Hadd in *. apply elem_of_cons in Hc as [Hc|Hc].
    + simplify_eq. eapply walk_fs_mono; [done|]. apply elem_of_app. right. by left.
    + eapply IH; [done|by eapply ends_well_cons|rewrite length_app; cbn [length]; lia|done|done].
  - apply elem_of_cons in Hc as [Hc|Hc]; [simplify_eq; congruence|].
    destruct o; [by apply elem_of_nil in Hc|done].
  - apply elem_of_cons in Hc as [Hc|Hc]; [simplify_eq; congruence|].
    eapply (IH o (r ++ [(n, b')])); [by rewrite app_assoc|by eapply ends_well_cons|lia|done|done].
Qed.
End WalkFacts.

(** ** Processing an acknowledgement *)
Lemma survivors_nil l : survivors [] l = l.
Proof. unfold survivors. induction l as [|p l IH]; [done|]. rewrite filter_cons, decide_True by (by intros ?%elem_of_nil). by rewrite IH. Qed.

Lemma weights_bound packs addrs mx l :
  Forall (fun p => body_ok packs addrs p.2) l -> 0 <= mx < 256 -> (weights mx l <= 256 * length l)%nat.
Proof.
  intros Hb Hm. induction Hb as [|p l Hp _ IH]; [done|].
  change (weights mx (p :: l)) with (weight mx p.2 + weights mx l)%nat. pose proof (weight_bound mx _ _ _ Hp Hm). cbn [length]. lia.
Qed.

Definition nothing : E -> Z := fun _ => 0.

Lemma wp_proc_list verdict l s :
  arq_ok l nothing s -> (forall sn, is_Some (verdict sn)) ->
  wp (proc_list verdict) (fun _ s' => exists l' fs, walk verdict (max_retran_times_ s) [] l [] l' fs /\
    arq_ok (survivors fs l') nothing s' /\ same_params s s' /\ others_kept l s s') s.
Proof.
  intros Hs Hv. unfold proc_list. apply wp_bind, wp_get. apply wp_bind.
  rewrite (lr_head _ _ (ao_list _ _ _ Hs)), (lr_num _ _ (ao_list _ _ _ Hs)).
  assert (Hs0 : arq_ok ([] ++ l) (held_vec []) s) by (eapply arq_ok_ext; [|exact Hs]; done).
  eapply wp_mono; [apply (wp_proc_loop _ verdict (max_retran_times_ s) [] l [] [] s Hs0); [|done|done]|cbn beta].
  { pose proof (weights_bound _ _ _ _ (ao_bodies _ _ _ Hs) (proj1 (ao_max _ _ _ Hs))). lia. }
  intros [vec fs] s1 (l' & Hwalk & Hs1 & Hp1 & Ho1). cbn [fst snd] in *. apply wp_bind.
  eapply (wp_mono _ (fun _ s2 => arq_ok l' nothing s2 /\ same_params s s2 /\ others_kept l s s2)).
  { destruct vec as [|e0 vec0] eqn:Hvec.
    - apply wp_ret. split; [|done]. eapply arq_ok_ext; [|exact Hs1]. done.
    - rewrite <- Hvec in *. clear Hvec. eapply wp_mono; [apply (wp_free_vec l' nothing vec s1)|cbn beta].
      + eapply arq_ok_ext; [|exact Hs1]. intros y. unfold nothing. lia.
      + intros y. pose proof (held_nodes_nonneg l' y). unfold nothing. lia.
      + intros _ s2 (Hs2 & p & ->). done. }
  cbn beta. intros _ s2 (Hs2 & Hp2 & Ho2). destruct fs as [|f0 fs0] eqn:Hfs.
  - apply wp_ret. exists l', []. rewrite survivors_nil. done.
  - rewrite <- Hfs in *. eapply wp_mono; [apply (wp_DelNodeByFirstSn fs l' nothing s2 Hs2)|cbn beta]; [unfold nothing; lia|].
    intros _ s3 (Hs3 & Hp3 & Ho3). exists l', fs. split; [done|]. split; [done|]. split; [by eapply same_params_trans|].
    eapply others_kept_trans; [|exact Ho2|exact Ho3]. intros k Hk Hin. apply Hk.
    apply list_elem_of_fmap in Hin as ([m b'] & -> & Hin).
    destruct (walk_from _ _ _ _ _ _ _ Hwalk m b' Hin) as (b & Hb & _). apply list_elem_of_fmap. by exists (m, b).
Qed.

End Spec.
#[global] Arguments ArqEnvLaws P E W {_ _}.
End ArqSpec.
