(* ===== verification/ArqAck.v ===== *)
(** * Acknowledgements

    What [GtpArq::ProcAck] does to the packets in flight, the two widths in
    which it reads the bitmap, and what happens when the bitmap is shorter
    than the acknowledged range. *)
From S2P Require Import Prelude PacketHeader PoolInterface ItemPool ArqList Arq ArqSpec.
Export ArqSpec.

Module ArqAck.

(** ** The bit of a packet *)
Lemma le_val_testbit l i : bytes_ok l -> 0 <= i ->
  Z.testbit (le_val l) i = Z.testbit (nth (Z.to_nat (i / 8)) l 0) (i mod 8).
Proof.
  intros Hl. revert i. induction Hl as [|b l Hb Hl IH]; intros i Hi; cbn [le_val].
  { rewrite Z.bits_0. destruct (Z.to_nat (i / 8)); by rewrite Z.bits_0. }
  unfold byte_ok in Hb. destruct (Z.lt_ge_cases i 8) as [H8|H8].
  - rewrite Z.div_small, Z.mod_small by lia. cbn [Z.to_nat nth].
    rewrite <- (Z.mod_pow2_bits_low (b + 256 * le_val l) 8 i) by lia. f_equal. change (2 ^ 8) with 256.
    rewrite (Z.mul_comm 256), Z.mod_add, Z.mod_small by lia. done.
  - replace (b + 256 * le_val l) with (b + le_val l * 2 ^ 8) by lia.
    replace i with (i - 8 + 8) at 1 by lia. rewrite <- Z.div_pow2_bits by lia.
    rewrite Z.div_add, (Z.div_small b) by lia. cbn [Z.add]. rewrite IH by lia.
    replace (i / 8) with ((i - 8) / 8 + 1) by (Z.to_euclidean_division_equations; lia). rewrite Z2Nat.inj_add by (Z.to_euclidean_division_equations; lia). rewrite Nat.add_comm. cbn [Z.to_nat Pos.to_nat Pos.iter_op Nat.add nth].
    f_equal. Z.to_euclidean_division_equations; lia.
Qed.

Definition acked (ack_sn_bitmap : list Z) (span : Z) : bool :=
  Z.testbit (nth (Z.to_nat (span / 8)) ack_sn_bitmap 0) (span mod 8).

(** The words of [w] bytes up to that of [span] lie inside the bitmap. *)
Definition covers (w : nat) (ack_sn_bitmap : list Z) (span : Z) : Prop :=
  (Z.to_nat (span / (8 * Z.of_nat w)) * w + w <= length ack_sn_bitmap)%nat.

Lemma ack_bit_spec w m span :
  (0 < w)%nat -> bytes_ok m -> 0 <= span -> covers w m span -> ack_bit w m span = Some (acked m span).
Proof.
  intros Hw Hm Hs Hc. unfold covers in Hc. unfold ack_bit, acked. rewrite (proj2 (Nat.leb_le _ _) Hc). f_equal.
  set (q := span / (8 * Z.of_nat w)) in *. set (r := span mod (8 * Z.of_nat w)).
  assert (Hq : span = 8 * Z.of_nat w * q + r) by (apply Z.div_mod; lia).
  assert (Hr : 0 <= r < 8 * Z.of_nat w) by (apply Z.mod_pos_bound; lia).
  assert (Hq0 : 0 <= q) by (apply Z.div_pos; lia).
  assert (Hq8 : span = Z.of_nat w * q * 8 + r) by lia.
  assert (E1 : span / 8 = Z.of_nat w * q + r / 8) by (rewrite Hq8; apply Z.div_add_l; lia).
  assert (E2 : span mod 8 = r mod 8) by (rewrite Hq8, Z.add_comm; apply Z.mod_add; lia).
  assert (Hr8 : 0 <= r / 8 < Z.of_nat w) by (split; [apply Z.div_pos; lia|apply Z.div_lt_upper_bound; lia]).
  rewrite le_val_testbit by (done || lia || by apply bytes_ok_load). rewrite mem_load_byte by lia.
  unfold mem_byte. rewrite E1, E2. do 2 f_equal. nia.
Qed.

Lemma covers_le w m a b : (0 < w)%nat -> 0 <= a <= b -> covers w m b -> covers w m a.
Proof. unfold covers. intros Hw Hab Hb. assert (a / (8 * Z.of_nat w) <= b / (8 * Z.of_nat w)) by (apply Z.div_le_mono; lia). nia. Qed.

Lemma covers_half m a : 0 <= a -> covers 8 m a -> covers 4 m a.
Proof.
  unfold covers. intros Ha Hc. pose proof (Z.div_pos a (8 * Z.of_nat 4)).
  assert (a / (8 * Z.of_nat 4) <= 2 * (a / (8 * Z.of_nat 8)) + 1) by (Z.to_euclidean_division_equations; lia). lia.
Qed.

Lemma sn_span_nonneg head sn : 0 <= sn_span head sn.
Proof. unfold sn_span. destruct (Z.leb_spec head sn); [lia|]. pose proof (u32_range (sn + u32 (0xFFFFFFFF - head))). lia. Qed.

(** ** What an acknowledgement says of a packet, whatever the width *)
Definition ack_says (m : list Z) (head_sn tail_sn rto_sn sn : Z) : Verdict :=
  let span := sn_span head_sn sn in
  if sn_span head_sn tail_sn <? span then far_verdict span
  else if acked m span then VDelete else if span <=? sn_span head_sn rto_sn then VResend else VKeep.

Lemma ack_verdict_says w m head_sn tail_sn rto_sn sn :
  (0 < w)%nat -> bytes_ok m -> covers w m (sn_span head_sn tail_sn) ->
  ack_verdict w m head_sn tail_sn rto_sn sn = Some (ack_says m head_sn tail_sn rto_sn sn).
Proof.
  intros Hw Hm Hc. unfold ack_verdict, ack_says. pose proof (sn_span_nonneg head_sn sn).
  destruct (Z.ltb_spec (sn_span head_sn tail_sn) (sn_span head_sn sn)); [done|].
  rewrite ack_bit_spec; [done|done|done|done|]. by apply (covers_le w m _ (sn_span head_sn tail_sn)).
Qed.

Section Ack.
Context {P E Q N W : Type} `{Countable E} `{Countable N} `{!PackPool P E} `{!ItemPool Q N} `{!ArqEnv P E W}.
Implicit Types (s : ArqSt P E Q N W) (b : Body E) (l : list (N * Body E)) (e : E) (n : N).

Lemma proc_loop_ext v1 v2 fuel : (forall sn, v1 sn = v2 sn) -> forall cur vec fs s,
  proc_loop (P := P) (Q := Q) (W := W) fuel v1 cur vec fs s = proc_loop fuel v2 cur vec fs s.
Proof.
  intros Hv. induction fuel as [|fuel IH]; intros [n|] vec fs s; try done. cbn [proc_loop].
  apply bind_ext. intros b s1. rewrite Hv. apply bind_ext. intros v s2. apply bind_ext. intros s0 s3. destruct v.
  - done.
  - destruct (JudgeExhautResendNum _ _).
    + apply bind_ext. intros _ s4. apply bind_ext. intros [[nxt vec'] fs'] s5. apply IH.
    + do 5 (apply bind_ext; intros ? ?). apply IH.
  - apply bind_ext. intros ? ?. apply IH.
  - apply bind_ext. intros [[nxt vec'] fs'] s5. apply IH.
Qed.

Lemma proc_list_ext v1 v2 s : (forall sn, v1 sn = v2 sn) -> proc_list v1 s = proc_list v2 s.
Proof.
  intros Hv. unfold proc_list, mbind, ST_bind. cbn. by rewrite (proc_loop_ext v1 v2 _ Hv).
Qed.

(** On a bitmap that covers the acknowledged range, [ProcAck] does the same
    on a machine with 4-byte pointers, where it reads words of 32 bits, and on
    one with 8-byte pointers, where it reads words of 64. *)
Theorem ProcAck_width (m : list Z) (head_sn tail_sn rto_sn : Z) (s : ArqSt P E Q N W) :
  bytes_ok m -> covers 8 m (sn_span head_sn tail_sn) ->
  ProcAck 4 m head_sn tail_sn rto_sn s = ProcAck 8 m head_sn tail_sn rto_sn s.
Proof.
  intros Hm Hc. unfold ProcAck, ProcArqIn32BitSys, ProcArqIn64BitSys. cbn [Z.eqb Pos.eqb]. apply proc_list_ext. intros sn.
  pose proof (covers_half _ _ (sn_span_nonneg head_sn tail_sn) Hc).
  by rewrite !ack_verdict_says by (done || lia).
Qed.

(** ** The packets after an acknowledgement *)
Context `{!PackPoolLaws P E} `{!ItemPoolLaws Q N} `{!ArqEnvLaws P E W}.

(** The acknowledgement covers the packet and its bit is set. *)
Definition arrived (m : list Z) (head_sn tail_sn : Z) (b : Body E) : Prop :=
  sn_span head_sn (pack_sn_ b) <= sn_span head_sn tail_sn /\ acked m (sn_span head_sn (pack_sn_ b)) = true.
(** It is missing, or more than a window away, and has no repetition left. *)
Definition given_up (mx : Z) (m : list Z) (head_sn tail_sn rto_sn : Z) (b : Body E) : Prop :=
  ack_says m head_sn tail_sn rto_sn (pack_sn_ b) = VResend /\ JudgeExhautResendNum mx b = true.
(** The list in the order of sequence numbers from [head_sn] on. *)
Definition in_order (head_sn : Z) (l : list (N * Body E)) : Prop :=
  forall l1 n b l2, l = l1 ++ (n, b) :: l2 ->
    forall m c, (m, c) ∈ l2 -> sn_span head_sn (pack_sn_ b) <= sn_span head_sn (pack_sn_ c).

Lemma says_delete m head_sn tail_sn rto_sn b :
  ack_says m head_sn tail_sn rto_sn (pack_sn_ b) = VDelete <-> arrived m head_sn tail_sn b.
Proof.
  unfold ack_says, arrived, far_verdict.
  destruct (Z.ltb_spec (sn_span head_sn tail_sn) (sn_span head_sn (pack_sn_ b))).
  - destruct (_ <=? _); (split; [done|lia]).
  - destruct (acked _ _); [done|]. destruct (_ <=? _); (split; [done|by intros []]).
Qed.

Lemma says_break m head_sn tail_sn rto_sn sn :
  ack_says m head_sn tail_sn rto_sn sn = VBreak -> sn_span head_sn tail_sn < sn_span head_sn sn.
Proof.
  unfold ack_says. destruct (Z.ltb_spec (sn_span head_sn tail_sn) (sn_span head_sn sn)); [done|].
  destruct (acked _ _); [done|]. by destruct (_ <=? _).
Qed.

Lemma in_order_ends m head_sn tail_sn rto_sn l :
  in_order head_sn l -> ends_well (fun sn => Some (ack_says m head_sn tail_sn rto_sn sn)) l.
Proof.
  intros Hord l1 n b l2 Hl [= Hb%says_break] k c Hc [= [Hd _]%says_delete].
  specialize (Hord l1 n b l2 Hl k c Hc). lia.
Qed.

Lemma survivors_in fs l p : p ∈ survivors fs l <-> p ∈ l /\ first_pack_sn_ p.2 ∉ fs.
Proof. unfold survivors. rewrite list_elem_of_filter. tauto. Qed.

(** Repetitions carry the packet on. *)
Lemma repeated_first b b' : rtc (resent 0) b b' -> first_pack_sn_ b' = first_pack_sn_ b.
Proof. induction 1 as [|b1 b2 b3 Hr _ IH]; [done|]. by rewrite IH, (rs_first _ _ _ Hr). Qed.

(** C28: [ProcAck] with a bitmap that covers the acknowledged range always
    returns without a memory fault, and every reference stays accounted for.
    Of a list in order, of at most 640 packets, no copy of an acknowledged
    packet is left.  Nothing is invented: every node was in the list before,
    perhaps repeated since.  Nothing is lost: every node stays, unless a copy of
    its packet has arrived, or is missing with no repetition left. *)
Theorem ProcAck_spec (ptr_size : Z) (m : list Z) (head_sn tail_sn rto_sn : Z) l (s : ArqSt P E Q N W) :
  arq_ok l nothing s -> bytes_ok m -> covers 8 m (sn_span head_sn tail_sn) ->
  exists s' l', ProcAck ptr_size m head_sn tail_sn rto_sn s = Some (tt, s') /\ arq_ok l' nothing s' /\
    (in_order head_sn l -> Z.of_nat (length l) <= MAX_RSV_WIN_SIZE ->
     forall n b, (n, b) ∈ l -> arrived m head_sn tail_sn b ->
     forall n' b', (n', b') ∈ l' -> first_pack_sn_ b' <> first_pack_sn_ b) /\
    (forall n b', (n, b') ∈ l' -> exists b, (n, b) ∈ l /\ rtc (resent 0) b b') /\
    (forall n b, (n, b) ∈ l -> (exists b', (n, b') ∈ l' /\ rtc (resent 0) b b') \/
       exists k c c', (k, c) ∈ l /\ first_pack_sn_ c = first_pack_sn_ b /\ rtc (resent 0) c c' /\
         (arrived m head_sn tail_sn c' \/ given_up (max_retran_times_ s) m head_sn tail_sn rto_sn c')).
Proof.
  intros Hs Hm Hc. pose proof (covers_half _ _ (sn_span_nonneg head_sn tail_sn) Hc) as Hc4.
  set (v := fun sn => Some (ack_says m head_sn tail_sn rto_sn sn)).
  assert (Hrun : ProcAck ptr_size m head_sn tail_sn rto_sn s = proc_list v s).
  { unfold ProcAck, ProcArqIn32BitSys, ProcArqIn64BitSys.
    destruct (8 =? ptr_size); apply proc_list_ext; intros sn; apply ack_verdict_says; done || lia. }
  rewrite Hrun. destruct (wp_total _ _ _ (wp_proc_list v l s Hs (fun sn => ltac:(by eexists))))
    as ([] & s' & Hr & l' & fs & Hwalk & Hs' & _ & _).
  assert (Hgone : forall c, gone v (max_retran_times_ s) c ->
    arrived m head_sn tail_sn c \/ given_up (max_retran_times_ s) m head_sn tail_sn rto_sn c).
  { intros c [[= Hd%says_delete]|[[= Hd] Hj]]; [by left|right; by split]. }
  exists s', (survivors fs l'). split; [done|]. split; [done|]. split; [|split].
  - intros Hord Hlen n b Hb Ha n' b' Hin%survivors_in Heq. destruct Hin as [_ Hin]. apply Hin. cbn. rewrite Heq.
    apply (walk_arrived v _ _ _ _ _ _ Hwalk l [] (eq_sym (app_nil_r l)) (in_order_ends _ _ _ _ _ Hord) Hlen n b Hb).
    unfold v. f_equal. by apply says_delete.
  - intros n b' Hin%survivors_in. destruct Hin as [Hin _].
    by destruct (walk_from _ _ _ _ _ _ _ Hwalk n b' Hin) as (b & Hb & Hrep); exists b.
  - intros n b Hb. destruct (walk_stays _ _ _ _ _ _ _ Hwalk) as [_ Hst].
    destruct (Hst n b Hb) as [(b' & Hin & Hrep)|(b' & Hrep & Hg)].
    + destruct (decide (first_pack_sn_ b' ∈ fs)) as [Hfs|Hfs]; [right|left].
      * destruct (walk_recorded _ _ _ _ _ _ _ Hwalk _ Hfs) as [Hn|(k & c & c' & Hk & Hrc & Hf & Hg)]; [by apply elem_of_nil in Hn|].
        exists k, c, c'. split; [done|]. rewrite Hf. split; [by apply repeated_first|]. split; [done|by apply Hgone].
      * exists b'. split; [by apply survivors_in|done].
    + right. exists n, b, b'. split; [done|]. split; [done|]. split; [done|by apply Hgone].
Qed.

(** ** A bitmap that is too short *)

(** C35: nothing compares the length of the bitmap with the range it is said to
    cover: when the first packet in flight lies in the range but its word does
    not lie in the bitmap, [ProcAck] reads outside the received packet. *)
Theorem ProcAck_overread (m : list Z) (head_sn tail_sn rto_sn : Z) n b l (s : ArqSt P E Q N W) :
  arq_ok ((n, b) :: l) nothing s -> sn_span head_sn (pack_sn_ b) <= sn_span head_sn tail_sn ->
  (length m < Z.to_nat (sn_span head_sn (pack_sn_ b) / 64) * 8 + 8)%nat ->
  ProcAck 8 m head_sn tail_sn rto_sn s = None.
Proof.
  intros Hs Hspan Hlen. unfold ProcAck, ProcArqIn64BitSys. cbn [Z.eqb Pos.eqb]. unfold proc_list, mbind, ST_bind. cbn [get_st].
  rewrite (lr_head _ _ (ao_list _ _ _ Hs)), (lr_num _ _ (ao_list _ _ _ Hs)).
  destruct (Z.to_nat (256 * Z.of_nat (length ((n, b) :: l)))) as [|fuel] eqn:Hf; [cbn [length] in Hf; lia|].
  cbn [fmap list_fmap head proc_loop fst]. destruct (ok_node [] _ _ _ _ _ Hs) as (c & Hc & Hb & _).
  unfold body_at, on_list, node, mbind, ST_bind. cbn [get_st]. unfold deref. rewrite Hc. cbn. rewrite Hb.
  unfold ack_verdict. destruct (Z.ltb_spec (sn_span head_sn tail_sn) (sn_span head_sn (pack_sn_ b))); [lia|].
  unfold ack_bit. change (8 * Z.of_nat 8) with 64. by rewrite (proj2 (Nat.leb_gt _ _) Hlen).
Qed.

End Ack.

End ArqAck.
