(* ===== verification/ArqTimer.v ===== *)
(** * New packets, the timer and the end of the arq

    [PacketEntryList] with the early repetition of a packet, [CheckRtoRetran]
    and [PopAllPack], as operations on the sequence of nodes. *)
From S2P Require Import Prelude PacketHeader PoolInterface ItemPool ArqList Arq ArqSpec.
Export ArqSpec.

Module ArqTimer.

Section Timer.
Context {P E Q N W : Type} `{Countable E} `{Countable N} `{!PackPool P E} `{!ItemPool Q N} `{!ArqEnv P E W}.
Context `{!PackPoolLaws P E} `{!ItemPoolLaws Q N} `{!ArqEnvLaws P E W}.
Implicit Types (s : ArqSt P E Q N W) (b : Body E) (l : list (N * Body E)) (e : E) (n : N) (x : E -> Z).

(** ** New items and buffers *)
Lemma wp_arq_MallocItem l x s :
  arq_ok l x s ->
  wp MallocItem (fun r s' => arq_ok l x s' /\ (exists q, s' = put_items q s) /\
    match r with
    | Some n => ip_used (aq_items s) n = false /\
        forall k, ip_used (aq_items s') k = ip_used (aq_items s) k || bool_decide (k = n)
    | None => forall k, ip_used (aq_items s') k = ip_used (aq_items s) k
    end) s.
Proof.
  intros Hs. unfold MallocItem. apply wp_bind, wp_get. destruct (ip_malloc (aq_items s)) as [r q] eqn:Hm.
  apply wp_bind, wp_mod, wp_ret. destruct r as [n|].
  - destruct (ip_malloc_some _ _ _ (ao_items _ _ _ Hs) Hm) as (Hq & Hn & Hall).
    split; [|split; [by exists q|done]]. destruct Hs. split; try done.
    intros k Hk. cbn. by rewrite Hall, ao_used0.
  - destruct (ip_malloc_none _ _ (ao_items _ _ _ Hs) Hm) as (Hq & Hall).
    split; [|split; [by exists q|done]]. destruct Hs. split; try done.
    intros k Hk. cbn. by rewrite Hall, ao_used0.
Qed.

Lemma wp_MallocTranBuf l x spec s :
  arq_ok l x s -> 0 <= spec <= 6 ->
  wp (MallocTranBuf spec) (fun r s' => (exists p, s' = put_pool p (aq_world s) s) /\
    match r with
    | Some (e, size) => spec_bytes spec <= size /\ arq_ok l (fun y => x y + ind (bool_decide (e = y))) s'
    | None => arq_ok l x s'
    end) s.
Proof.
  intros Hs Hspec. unfold MallocTranBuf. apply wp_bind, wp_get. destruct (pp_malloc spec (aq_pool s)) as [r p] eqn:Hm.
  apply wp_bind, wp_mod, wp_ret. split; [by exists p|]. destruct r as [[e size]|].
  - destruct (pp_malloc_some _ _ _ _ _ (ao_pool _ _ _ Hs) Hspec Hm) as (Hp & Hz & Hsz & Hall). split; [lia|].
    pose proof (ao_balance _ _ _ Hs) as Hb. pose proof (ao_world _ _ _ Hs) as Hw.
    apply (ok_pool l x); [done|done|done|..].
    + intros y. rewrite Hall, Hb, (bool_decide_ext (y = e) (e = y)) by done. lia.
    + intros y. pose proof (ao_extra _ _ _ Hs y). unfold ind. case_bool_decide; [subst y|lia].
      specialize (Hb e). specialize (Hw e). lia.
  - destruct (pp_malloc_none _ _ _ (ao_pool _ _ _ Hs) Hspec Hm) as (Hp & Hall).
    apply (ok_pool l x); [done|done|exact (ao_world _ _ _ Hs)| |exact (ao_extra _ _ _ Hs)].
    intros y. by rewrite Hall, (ao_balance _ _ _ Hs).
Qed.

(** A new node, not yet in the list. *)
Lemma wp_init_node l x n b s :
  arq_ok l x s -> n ∉ l.*1 -> ip_used (aq_items s) n = true -> body_ok (aq_packs s) (aq_addrs s) b ->
  wp (init_node n b) (fun _ s' => arq_ok l x s' /\ detached n b s' /\ (exists h, s' = put_list h s) /\
    forall k c, k <> n -> detached k c s -> detached k c s') s.
Proof.
  intros Hs Hn Hu Hb. unfold init_node, store_node. apply wp_on_list, wp_mod.
  split; [|split; [|split; [by eexists|]]].
  - destruct Hs. split; try done. apply list_rep_nodes; [done|]. intros k Hk. rewrite lookup_insert_ne; [done|]. by intros ->.
  - split; [|done]. exists (mkArqNode None None b). cbn. by rewrite lookup_insert_eq.
  - intros k c Hk ((cc & Hc & Hcb) & ?). split; [|done]. exists cc. cbn. by rewrite lookup_insert_ne by done.
Qed.

(** ** The early repetition of a packet *)
Record boost_of (ts : Z) (org b : Body E) : Prop := {
  bo_flags : boost_node_flg_ b = true /\ try_agin_flg_ b = true /\ has_boost_node_ b = true /\ failed_ack_ b = false;
  bo_count : retran_counter_ b = 0;
  bo_threshold : boost_threshold_ b = boost_threshold_ org;
  bo_first : first_pack_sn_ b = first_pack_sn_ org;
  bo_time : last_send_ts_us_ b = u64 (ts - 1000000)
}.

(** What is held outside the list stays outside and as it is. *)
Definition frame l l' s s' : Prop :=
  same_params s s' /\ forall n b, n ∉ l.*1 -> detached n b s -> (n ∉ l'.*1) /\ detached n b s'.

Lemma detached_mono n b s s' : arq_list_ s' = arq_list_ s ->
  (forall k, ip_used (aq_items s) k = true -> ip_used (aq_items s') k = true) ->
  (forall e, is_Some (aq_packs s !! e) -> is_Some (aq_packs s' !! e)) ->
  (forall a, is_Some (aq_addrs s !! a) -> is_Some (aq_addrs s' !! a)) -> detached n b s -> detached n b s'.
Proof.
  intros Hl Hu Hp Ha (Hc & Hi & Hb). split; [by rewrite Hl|]. split; [by apply Hu|]. by eapply body_ok_mono.
Qed.

Lemma wp_make_boost_node l x org ts s :
  arq_ok l x s -> body_ok (aq_packs s) (aq_addrs s) org -> Z.of_nat (length l) + 1 < 2 ^ 32 -> (forall e, 0 <= x e) ->
  wp (make_boost_node org ts) (fun r s' => exists k,
    arq_ok (l ++ k) x s' /\ frame l (l ++ k) s s' /\
    (k = [] /\ r = false \/ exists n c, k = [(n, c)] /\ r = true /\ (n ∉ l.*1) /\ ip_used (aq_items s) n = false /\ boost_of ts org c)) s.
Proof.
  intros Hs Hb Hlen Hx. pose proof Hb as ((bytes & Hby) & (a & Ha) & _ & Hth & Hpl). unfold make_boost_node.
  destruct (mem_spec_fits (pack_len_ org) Hpl) as [Hspec Hfit]. apply wp_bind.
  eapply wp_mono; [exact (wp_MallocTranBuf l x _ s Hs Hspec)|cbn beta]. intros r s1 [(p & ->) Hr].
  destruct r as [[e size]|].
  2: { apply wp_ret. exists []. rewrite app_nil_r. split; [done|]. split; [|by left]. by split. }
  destruct Hr as [Hsize Hs1]. apply wp_bind. eapply wp_mono; [exact (wp_arq_MallocItem _ _ _ Hs1)|cbn beta].
  intros r s2 (Hs2 & (q & ->) & Hq). destruct r as [n|].
  2: { apply wp_bind. eapply wp_mono; [apply (wp_arq_free _ _ e _ Hs2)|cbn beta].
    { rewrite bool_decide_true by done. cbn. pose proof (held_nodes_nonneg l e). specialize (Hx e). lia. }
    intros _ s3 (Hs3 & p3 & ->). apply wp_ret. exists []. rewrite app_nil_r.
    split; [eapply arq_ok_ext; [|exact Hs3]; intros y; cbn beta; lia|]. split; [|by left].
    split; [done|]. intros m b Hm Hdm. split; [done|]. eapply detached_mono; [..|exact Hdm]; try done.
    intros k Hk. cbn in *. by rewrite Hq. }
  destruct Hq as [Hnu Hall]. cbn [aq_items put_pool put_items] in Hnu, Hall.
  assert (Hn : n ∉ l.*1).
  { intros Hin. pose proof (ao_used _ _ _ Hs n Hin). congruence. }
  unfold get_pack, get_addr. wp_steps. eapply wp_deref; [exact Hby|]. apply wp_bind.
  assert ((size <? pack_len_ org) = false) as -> by lia. apply wp_when; [done|]. intros _. wp_steps.
  eapply wp_deref; [exact Ha|]. set (copy := mem_load _ bytes 0). set (c := mkBody _ e _ _ _ _ _ _ _ _ _ _ _). apply wp_bind, wp_mod. apply wp_bind.
  set (s3 := put_mem _ _ _).
  assert (Hs3 : arq_ok l (fun y => x y + ind (bool_decide (pack_ c = y))) s3).
  { apply ok_mem; [intros y; apply insert_some|intros y; apply insert_some|exact Hs2]. }
  eapply wp_mono; [apply (wp_init_node l _ n c s3 Hs3 Hn)|cbn beta].
  { cbn. rewrite Hall, bool_decide_true by done. apply orb_true_r. }
  { split; [cbn; rewrite lookup_insert_eq; by eexists|]. split; [cbn; rewrite lookup_insert_eq; by eexists|].
    split; [cbn; lia|]. split; [done|]. apply u16_range. }
  intros _ s4 (Hs4 & Hd4 & (h4 & ->) & Hk4). apply wp_bind.
  eapply wp_mono; [exact (wp_push l n c x _ Hs4 Hd4 Hn Hlen)|cbn beta].
  intros _ s5 (Hs5 & Hp5 & h5 & -> & Ho5). apply wp_ret. exists [(n, c)]. split; [done|].
  split; [|right; exists n, c; by split_and!]. split.
  { split; [|done]. unfold self_type. cbn. by rewrite lookup_insert_ne. }
  intros m b Hm Hdm. assert (Hmn : m <> n) by (intros ->; destruct Hdm as (_ & Hu & _); congruence).
  split; [rewrite fmap_app; cbn; rewrite elem_of_app, list_elem_of_singleton; tauto|].
  assert (Hd3 : detached m b s3).
  { eapply detached_mono; [..|exact Hdm]; [done| |intros y; apply insert_some..].
    intros k Hk. cbn. by rewrite Hall, Hk. }
  destruct (Hk4 m b Hmn Hd3) as ((cm & Hcm & Hcb) & Hrest). split; [|exact Hrest]. exists cm. split; [|done].
  cbn. rewrite Ho5; [exact Hcm|]. by intros [?|?]%elem_of_cons.
Qed.

(** Changing the marks of a node. *)
Lemma wp_mark_in l1 n b l2 x b' s :
  arq_ok (l1 ++ (n, b) :: l2) x s -> pack_ b' = pack_ b -> tran_addr_ b' = tran_addr_ b -> retran_counter_ b' = retran_counter_ b ->
  pack_len_ b' = pack_len_ b -> 0 <= boost_threshold_ b' < 256 ->
  wp (on_list (set_body n b')) (fun _ s' => arq_ok (l1 ++ (n, b') :: l2) x s' /\ same_params s s') s.
Proof.
  intros Hs E1 E2 E3 E4 Hth. apply wp_on_list.
  eapply wp_mono; [exact (list_rep_body _ _ _ _ _ b' (ao_list _ _ _ Hs))|]. cbn beta. intros _ h [Hr _].
  split; [|done]. destruct Hs as [Hl Hi Hu Hp Hwd Hbal Hx Hself Hbd Hm]. split; try done.
  - intros k Hk. apply Hu. by rewrite fmap_app in *.
  - intros e. cbn. rewrite Hbal, !held_nodes_mid, E1. done.
  - intros e. specialize (Hx e). by rewrite !held_nodes_mid, E1 in *.
  - cbn. rewrite Forall_app, Forall_cons in *. unfold body_ok in *. cbn in *. rewrite E1, E2, E3, E4. tauto.
Qed.

Lemma wp_mark_out l x n b b' s :
  arq_ok l x s -> n ∉ l.*1 -> detached n b s -> body_ok (aq_packs s) (aq_addrs s) b' ->
  wp (on_list (set_body n b')) (fun _ s' => arq_ok l x s' /\ detached n b' s' /\ same_params s s' /\
    aq_addrs s' = aq_addrs s) s.
Proof.
  intros Hs Hn ((c & Hc & Hb) & Hu & _) Hb'. unfold set_body, node, store_node. apply wp_on_list. wp_steps.
  eapply wp_deref; [exact Hc|]. wp_steps. split; [|split; [|done]].
  - destruct Hs. split; try done. apply list_rep_nodes; [done|]. intros k Hk. rewrite lookup_insert_ne; [done|]. by intros ->.
  - split; [|done]. eexists. split; [apply lookup_insert_eq|done].
Qed.

(** What the early repetition adds at the end of the list. *)
Definition clones (ts : Z) (org : Body E) (k : list (N * Body E)) : Prop :=
  k = [] \/ exists n c, k = [(n, c)] /\ boost_of ts org c.
(** The original after it. *)
Definition marked (b b' : Body E) (k : list (N * Body E)) : Prop := b' = (match k with [] => b | _ => set_has_boost b end).

Lemma wp_clone_out l x n b ts s :
  arq_ok l x s -> n ∉ l.*1 -> detached n b s -> Z.of_nat (length l) + 1 < 2 ^ 32 -> (forall e, 0 <= x e) ->
  wp (CloneBoostNode n ts) (fun _ s' => exists k b', clones ts b k /\ marked b b' k /\
    arq_ok (l ++ k) x s' /\ (n ∉ (l ++ k).*1) /\ detached n b' s' /\ same_params s s') s.
Proof.
  intros Hs Hn Hd Hlen Hx. pose proof Hd as ((c0 & Hc0 & Hb0) & _ & Hb). unfold CloneBoostNode. apply wp_bind.
  eapply wp_body_at; [exact Hc0|]. rewrite Hb0. apply wp_bind.
  eapply wp_mono; [exact (wp_make_boost_node l x b ts s Hs Hb Hlen Hx)|cbn beta]. intros r s1 (k & Hs1 & [Hp1 Hf] & Hk).
  destruct (Hf n b Hn Hd) as [Hn1 Hd1]. destruct Hk as [[-> ->]|(m & c & -> & -> & Hm & _ & Hc)].
  - apply wp_ret. exists [], b. split; [by left|]. by split_and!.
  - cbn [when]. destruct Hd1 as ((c1 & Hc1 & Hb1) & Hu1 & Hok1). apply wp_bind. eapply wp_body_at; [exact Hc1|]. rewrite Hb1.
    eapply wp_mono; [apply (wp_mark_out _ x n b (set_has_boost b) s1 Hs1 Hn1); [split; [by exists c1|done]|done]|cbn beta].
    intros _ s2 (Hs2 & Hd2 & Hp2 & _). exists [(m, c)], (set_has_boost b). split; [right; by exists m, c|].
    split_and!; try done. by eapply same_params_trans.
Qed.

Lemma wp_clone_in l x n b ts s :
  arq_ok (l ++ [(n, b)]) x s -> Z.of_nat (length l) + 2 < 2 ^ 32 -> (forall e, 0 <= x e) ->
  wp (CloneBoostNode n ts) (fun _ s' => exists k b', clones ts b k /\ marked b b' k /\
    arq_ok (l ++ (n, b') :: k) x s' /\ same_params s s') s.
Proof.
  intros Hs Hlen Hx. unfold CloneBoostNode. apply wp_bind. eapply wp_body_in; [exact Hs|]. apply wp_bind.
  eapply wp_mono; [apply (wp_make_boost_node _ x b ts s Hs (ok_body _ _ _ _ _ _ Hs)); [|done]|cbn beta].
  { rewrite length_app. cbn [length]. lia. }
  intros r s1 (k & Hs1 & [Hp1 _] & Hk). rewrite <- app_assoc in Hs1. cbn [app] in Hs1.
  destruct Hk as [[-> ->]|(m & c & -> & -> & Hm & _ & Hc)].
  - apply wp_ret. exists [], b. split; [by left|]. by split_and!.
  - cbn [when]. apply wp_bind. eapply wp_body_in; [exact Hs1|]. pose proof (ok_body _ _ _ _ _ _ Hs1) as (_ & _ & _ & Hth & _).
    eapply wp_mono; [by apply (wp_mark_in l n b _ x (set_has_boost b) s1 Hs1)|cbn beta].
    intros _ s2 [Hs2 Hp2]. exists [(m, c)], (set_has_boost b). split; [right; by exists m, c|].
    split_and!; try done. by eapply same_params_trans.
Qed.

(** ** A new packet *)
Lemma wp_arq_addref l x e s :
  arq_ok l (fun y => x y - ind (bool_decide (e = y))) s -> 0 < pp_refs (aq_pool s) e ->
  (forall y, 0 <= held_nodes l y + x y <= 1000) ->
  wp (TranBufUseRefAddOne e) (fun _ s' => arq_ok l x s' /\ same_params s s') s.
Proof.
  intros Hs Hpos Hx. unfold TranBufUseRefAddOne. apply wp_bind, wp_get.
  assert ((0 <? pp_refs (aq_pool s) e) = true) as -> by lia. apply wp_mod.
  pose proof (ao_balance _ _ _ Hs) as Hb. pose proof (ao_world _ _ _ Hs) as Hw.
  destruct (pp_addref_law (aq_pool s) e (ao_pool _ _ _ Hs)) as [Hp Hr].
  { split; [done|]. rewrite Hb. specialize (Hw e). specialize (Hx e). rewrite bool_decide_true by done. cbn [ind].
    unfold REF_LIMIT. lia. }
  split; [|done]. eapply (ok_pool l _ x); [exact Hs|done|done| |done].
  intros y. rewrite Hr, Hb, (bool_decide_ext (y = e) (e = y)) by done. lia.
Qed.

(** The node of a packet that enters the list. *)
Record new_node (pack : E) (first_pack_sn ts : Z) (b : Body E) : Prop := {
  nn_pack : pack_ b = pack /\ tran_addr_ b = None;
  nn_first : first_pack_sn_ b = first_pack_sn;
  nn_time : last_send_ts_us_ b = ts;
  nn_flags : boost_node_flg_ b = false /\ try_agin_flg_ b = false /\ failed_ack_ b = false
}.

Lemma wp_PacketEntryList l s pack first_pack_sn ts :
  arq_ok l (fun _ => 0) s -> is_Some (aq_packs s !! pack) -> 0 < pp_refs (aq_pool s) pack ->
  held_nodes l pack < 1000 -> Z.of_nat (length l) + 2 < 2 ^ 32 ->
  wp (PacketEntryList pack first_pack_sn ts) (fun r s' => same_params s s' /\
    ((r = GEN_ERR ae_sys_id kGtpArqMd kCrtArqNodeFailed /\ arq_ok l (fun _ => 0) s') \/
     (r = GTP_OK /\ exists n b k, new_node pack first_pack_sn ts b /\ clones ts b k /\ (n ∉ l.*1) /\
       (boost_switch_ s = false -> k = []) /\ arq_ok (l ++ (n, b) :: k) (fun _ => 0) s'))) s.
Proof.
  intros Hs [bytes Hby] Hpos Hheld Hlen. unfold PacketEntryList. apply wp_bind.
  eapply wp_mono; [exact (wp_arq_MallocItem _ _ _ Hs)|cbn beta]. intros [n|] s1 (Hs1 & (q & ->) & Hq).
  2: { apply wp_ret. split; [done|]. by left. }
  destruct Hq as [Hnu Hall]. assert (Hn : n ∉ l.*1).
  { intros Hin. pose proof (ao_used _ _ _ Hs n Hin). congruence. }
  unfold get_pack. wp_steps. eapply wp_deref; [exact Hby|]. apply wp_bind, wp_get. set (b := mkBody _ _ _ _ _ _ _ _ _ _ _ _ _).
  apply wp_bind. eapply wp_mono; [apply (wp_init_node l _ n b _ Hs1 Hn)|cbn beta].
  { cbn. rewrite Hall, bool_decide_true by done. apply orb_true_r. }
  { pose proof (ao_max _ _ _ Hs) as [_ Hm]. split; [cbn; by exists bytes|]. split; [cbn; exact (ao_self _ _ _ Hs)|].
    split; [apply u8_range|]. split; [|apply u16_range]. cbn. unfold DEFAULT_BOOST_TIMES. case_match; lia. }
  intros _ s2 (Hs2 & Hd2 & (h2 & ->) & _). apply wp_bind.
  eapply wp_mono; [apply (wp_push l n b (fun y => 0 - ind (bool_decide (pack = y))) _)|cbn beta].
  { eapply arq_ok_ext; [|exact Hs2]. intros y. cbn. lia. }
  { done. } { done. } { lia. }
  intros _ s3 (Hs3 & Hp3 & h3 & -> & _). apply wp_bind.
  eapply wp_mono; [apply (wp_arq_addref _ _ _ _ Hs3 Hpos)|cbn beta].
  { intros y. rewrite held_nodes_app, held_nodes_cons. pose proof (ao_extra _ _ _ Hs y). change (pack_ b) with pack. change (held_nodes [] y) with 0. cbn beta in *.
    unfold ind. case_bool_decide; [subst y|]; lia. }
  intros _ s4 [Hs4 Hp4]. apply wp_if; intros Hsw.
  - apply wp_ret. split; [exact Hp4|]. right. split; [done|]. exists n, b, []. by split_and!; try left.
  - apply wp_bind. eapply wp_mono; [apply (wp_clone_in l _ n b ts s4 Hs4 Hlen); done|cbn beta].
    intros _ s5 (k & b' & Hk & Hm & Hs5 & Hp5). apply wp_ret. split; [by eapply same_params_trans|]. right. split; [done|].
    exists n, b', k. apply orb_false_elim in Hsw as [Hsw _]. unfold marked in Hm. split; [by destruct k; subst b'; split|].
    split; [|split; [done|split; [|done]]].
    + destruct Hk as [->|(m & c & -> & [])]; [by left|]. right. exists m, c. split; [done|]. by subst b'.
    + intros Hoff. cbn in Hsw. rewrite Hoff in Hsw. done.
Qed.

(** ** Clearing the list *)

(** The state in which the list has already lost its front. *)
Definition as_if (rest : list (N * Body E)) s : ArqSt P E Q N W :=
  put_list (mkHeap (nodes (arq_list_ s)) (head rest.*1) (last rest.*1) (Z.of_nat (length rest))) s.

Lemma list_rep_tail h n b rest : list_rep h ((n, b) :: rest) ->
  list_rep (mkHeap (nodes h) (head rest.*1) (last rest.*1) (Z.of_nat (length rest))) rest.
Proof.
  intros [Hnd Hl _ _ _ Hb]. apply NoDup_cons in Hnd as [_ Hnd]. split; try done; [|cbn [length] in Hb; lia].
  intros l1 m c l2 ->. destruct (Hl ((n, b) :: l1) m c l2 eq_refl) as (a & Ha & Hab & Hx & Hp). exists a.
  split_and!; try done. intros Hne. rewrite Hp by done. by destruct l1.
Qed.

Lemma as_if_all l x s : arq_ok l x s -> arq_ok l x (as_if l s).
Proof.
  intros []. split; try done. cbn. apply (list_rep_frame (arq_list_ s)); try done; cbn.
  - by rewrite (lr_head _ _ ao_list0).
  - by rewrite (lr_tail _ _ ao_list0).
  - by rewrite (lr_num _ _ ao_list0).
Qed.

(** One packet of the front is released. *)
Lemma wp_clear_step n b rest s Q0 :
  arq_ok ((n, b) :: rest) (fun _ => 0) (as_if ((n, b) :: rest) s) ->
  (forall s', arq_ok rest (fun _ => 0) (as_if rest s') -> same_params s s' ->
    (forall k, ip_used (aq_items s') k = ip_used (aq_items s) k && bool_decide (k <> n)) -> Q0 tt s') ->
  wp (FreeTranBuf (pack_ b)) (fun _ => wp (FreeItem n) Q0) s.
Proof.
  intros Hs HQ. pose proof (ok_refs_pos _ _ _ (pack_ b) Hs) as Hpos. cbn [aq_pool as_if put_list] in Hpos.
  rewrite held_nodes_cons, bool_decide_true in Hpos by done. pose proof (held_nodes_nonneg rest (pack_ b)).
  cbn [ind] in Hpos. unfold FreeTranBuf, FreeItem. apply wp_bind, wp_get.
  assert ((0 <? pp_refs (aq_pool s) (pack_ b)) = true) as -> by lia. apply wp_mod, wp_bind, wp_get.
  assert (Hu : ip_used (aq_items s) n = true) by (apply (ao_used _ _ _ Hs); by left). cbn. rewrite Hu.
  destruct (pp_free_law (aq_pool s) (pack_ b) (ao_pool _ _ _ Hs)) as [Hp Hr]; [lia|].
  destruct (ip_free_law (aq_items s) n (ao_items _ _ _ Hs) Hu) as [Hi Hall].
  apply wp_bind, wp_mod, wp_on_list, wp_mod. apply HQ; [|done|exact Hall].
  destruct Hs as [Hl _ Hus _ Hw Hbal Hx Hself Hbd Hm]. pose proof (lr_nodup _ _ Hl) as [Hn _]%NoDup_cons.
  split; try done.
  - cbn. apply (list_rep_frame (mkHeap (nodes (arq_list_ s)) (head rest.*1) (last rest.*1) (Z.of_nat (length rest)))); try done.
    + exact (list_rep_tail _ _ _ _ Hl).
    + intros k Hk. cbn. rewrite lookup_delete_ne; [done|]. by intros ->.
  - intros k Hk. cbn. rewrite Hall, bool_decide_true by (by intros ->). rewrite andb_true_r. apply Hus. by right.
  - intros e. change (pp_refs (pp_free (pack_ b) (aq_pool s)) e = ae_held (aq_world s) e + (held_nodes rest e + 0)).
    rewrite Hr. specialize (Hbal e). rewrite held_nodes_cons in Hbal. cbn [aq_pool aq_world as_if put_list] in Hbal. rewrite Hbal.
    rewrite (bool_decide_ext (e = pack_ b) (pack_ b = e)) by done. lia.
  - intros e. specialize (Hx e). rewrite held_nodes_cons in Hx. pose proof (held_nodes_nonneg rest e).
    unfold ind in Hx. case_bool_decide; lia.
  - by apply Forall_cons in Hbd as [_ Hbd].
Qed.

Lemma wp_clear_loop fuel : forall rest s,
  arq_ok rest (fun _ => 0) (as_if rest s) -> (length rest <= fuel)%nat ->
  wp (clear_loop fuel (head rest.*1)) (fun _ s' => arq_ok [] (fun _ => 0) (as_if [] s') /\ same_params s s' /\
    forall k, ip_used (aq_items s') k = ip_used (aq_items s) k && bool_decide (k ∉ rest.*1)) s.
Proof.
  assert (Hnil : forall s, arq_ok [] (fun _ => 0) (as_if [] s) -> arq_ok [] (fun _ => 0) (as_if [] s) /\ same_params s s /\
    forall k, ip_used (aq_items s) k = ip_used (aq_items s) k && bool_decide (k ∉ ([] : list (N * Body E)).*1)).
  { intros s Hs. split; [done|]. split; [done|]. intros k. rewrite bool_decide_true by (by intros ?%elem_of_nil).
    by rewrite andb_true_r. }
  induction fuel as [|fuel IH]; intros [|[n b] rest] s Hs Hlen; cbn [length] in Hlen; try lia;
    cbn [clear_loop fmap list_fmap head]; try (by apply wp_ret, Hnil).
  cbn [fst]. destruct (ok_node [] _ _ _ _ _ Hs) as (c & Hc & Hb & Hx). apply wp_bind.
  eapply wp_next_of; [exact Hc|]. rewrite Hx. apply wp_bind. eapply wp_body_at; [exact Hc|]. rewrite Hb.
  apply wp_bind. eapply wp_mono; [|intros u s1 Hs1; apply wp_bind; exact Hs1].
  eapply wp_clear_step; [exact Hs|]. intros s1 Hs1 Hp1 Hu1.
  eapply wp_mono; [apply (IH rest s1 Hs1); lia|cbn beta]. intros _ s2 (Hs2 & Hp2 & Hu2).
  split; [done|]. split; [by eapply same_params_trans|]. intros k. rewrite Hu2, Hu1. cbn [fmap list_fmap fst].
  rewrite <- andb_assoc. f_equal. rewrite <- bool_decide_and. apply bool_decide_ext. rewrite elem_of_cons. tauto.
Qed.

Lemma wp_ClearArqList l s :
  arq_ok l (fun _ => 0) s ->
  wp ClearArqList (fun _ s' => arq_ok [] (fun _ => 0) s' /\ same_params s s' /\
    forall k, ip_used (aq_items s') k = ip_used (aq_items s) k && bool_decide (k ∉ l.*1)) s.
Proof.
  intros Hs. unfold ClearArqList. apply wp_bind, wp_get. pose proof (lr_head _ _ (ao_list _ _ _ Hs)) as Hh.
  rewrite Hh, (lr_num _ _ (ao_list _ _ _ Hs)), Nat2Z.id. destruct (head l.*1) as [n|] eqn:Hhd.
  - rewrite <- Hhd. apply wp_bind. eapply wp_mono; [apply (wp_clear_loop (length l) l s (as_if_all _ _ _ Hs)); lia|cbn beta].
    intros _ s1 (Hs1 & Hp1 & Hu1). apply wp_on_list, wp_mod. exact (conj Hs1 (conj Hp1 Hu1)).
  - destruct l; [|done]. apply wp_ret. split; [done|]. split; [done|]. intros k.
    rewrite bool_decide_true by (by intros ?%elem_of_nil). by rewrite andb_true_r.
Qed.

(** ** The second life of a packet *)
Lemma ind_nonneg (c : bool) : 0 <= ind c.
Proof. by destruct c. Qed.

(** A stream whose packets are sent until they arrive. *)
Definition reliable s : bool := match self_type s with Some t => kReliableStream <=? t | None => false end.

Definition bump (b : Body E) : Body E :=
  if has_boost_node_ b && (boost_threshold_ b <? MAX_BOOST_TIMES_PER_ONCE)
  then set_threshold (u8 (boost_threshold_ b + 1)) b else b.
Definition rearmed (ts : Z) (b c : Body E) (k : list (N * Body E)) : Prop :=
  exists b1, resent ts (rearm b) b1 /\ clones ts (bump b1) k /\ marked (bump b1) c k.

Lemma rearm_body_ok packs addrs b : body_ok packs addrs b -> body_ok packs addrs (rearm b).
Proof. unfold body_ok. cbn. intuition lia. Qed.
Lemma bump_body_ok packs addrs b : body_ok packs addrs b -> body_ok packs addrs (bump b).
Proof.
  unfold body_ok, bump. intros Hb. destruct (_ && _); [|done]. cbn. pose proof (u8_range (boost_threshold_ b + 1)). tauto.
Qed.
Lemma bump_pack b : pack_ (bump b) = pack_ b.
Proof. unfold bump. by destruct (_ && _). Qed.
Lemma marked_pack b c k : marked b c k -> pack_ c = pack_ b.
Proof. unfold marked. by destruct k; intros ->. Qed.
Lemma wp_bump l x n b s :
  arq_ok l x s -> n ∉ l.*1 -> detached n b s ->
  wp (when (has_boost_node_ b && (boost_threshold_ b <? MAX_BOOST_TIMES_PER_ONCE))
        (on_list (set_body n (set_threshold (u8 (boost_threshold_ b + 1)) b))))
    (fun _ s' => arq_ok l x s' /\ detached n (bump b) s' /\ same_params s s') s.
Proof.
  intros Hs Hn Hd. unfold bump. destruct (_ && _) eqn:Hc; cbn [when]; [|by apply wp_ret].
  eapply wp_mono; [apply (wp_mark_out _ _ n b _ _ Hs Hn Hd)|cbn beta].
  - destruct Hd as (_ & _ & Hb). pose proof (bump_body_ok _ _ _ Hb) as Hb'. unfold bump in Hb'. by rewrite Hc in Hb'.
  - intros _ s1 (? & ? & ? & _). done.
Qed.

Lemma self_addr l x s : arq_ok l x s -> exists a, aq_addrs s !! None = Some a /\ self_type s = Some (ad_stream_type a).
Proof. intros Hs. destruct (ao_self _ _ _ Hs) as [a Ha]. exists a. split; [done|]. unfold self_type. by rewrite Ha. Qed.

Lemma wp_TranFailedPostHandler l n b ts s :
  arq_ok l (fun e => ind (bool_decide (pack_ b = e))) s -> n ∉ l.*1 -> detached n b s -> alg_top_switch_ s = true ->
  Z.of_nat (length l) + 2 < 2 ^ 32 ->
  wp (TranFailedPostHandler n ts) (fun _ s' => same_params s s' /\
    (if reliable s && negb (boost_node_flg_ b) && negb (try_agin_flg_ b)
     then exists c k, rearmed ts b c k /\ arq_ok (l ++ k ++ [(n, c)]) (fun _ => 0) s'
     else arq_ok l (fun _ => 0) s')) s.
Proof.
  intros Hs Hn Hd Htop Hlen. pose proof Hd as ((c & Hc & Hb) & Hu & Hbok). destruct (self_addr _ _ _ Hs) as (a & Ha & Hst).
  unfold TranFailedPostHandler, get_addr, reliable. rewrite Hst. apply wp_bind. eapply wp_body_at; [exact Hc|]. rewrite Hb.
  wp_steps. eapply wp_deref; [exact Ha|]. apply wp_bind, wp_get. rewrite Htop. cbn [negb]. rewrite orb_false_r.
  replace (ad_stream_type a <? kReliableStream) with (negb (kReliableStream <=? ad_stream_type a)) by lia.
  destruct (kReliableStream <=? ad_stream_type a), (boost_node_flg_ b) eqn:Hbf, (try_agin_flg_ b) eqn:Htf; cbn [negb orb andb].
  4: {
    apply wp_bind. eapply wp_mono; [apply (wp_mark_out _ _ n b (rearm b) s Hs Hn Hd), rearm_body_ok, Hbok|cbn beta].
    intros _ s1 (Hs1 & Hd1 & Hp1 & _). apply wp_bind.
    eapply wp_mono; [apply (wp_call_retran l (fun _ => 0) n (rearm b) ts s1 Hs1); done|cbn beta].
    intros _ s2 (b1 & Hres & Hs2 & Hd2 & Hp2 & _). pose proof Hd2 as ((c2 & Hc2 & Hb2) & _). apply wp_bind.
    eapply wp_body_at; [exact Hc2|]. rewrite Hb2. apply wp_bind.
    eapply wp_mono; [exact (wp_bump _ _ _ _ _ Hs2 Hn Hd2)|cbn beta]. intros _ s3 (Hs3 & Hd3 & Hp3). apply wp_bind.
    eapply wp_mono; [apply (wp_clone_out l _ n (bump b1) ts s3 Hs3 Hn Hd3)|cbn beta]; [lia|intros e; cbn; apply ind_nonneg|].
    intros _ s4 (k & c4 & Hk & Hm & Hs4 & Hn4 & Hd4 & Hp4).
    eapply wp_mono; [apply (wp_push (l ++ k) n c4 (fun _ => 0) s4)|cbn beta]; [|done|done| |].
    - eapply arq_ok_ext; [|exact Hs4]. intros e. cbn. by rewrite (marked_pack _ _ _ Hm), bump_pack.
    - rewrite length_app. destruct Hk as [->|(m & c5 & -> & _)]; cbn [length]; lia.
    - intros _ s5 (Hs5 & Hp5 & _). split; [by repeat (eapply same_params_trans; [eassumption|])|].
      exists c4, k. rewrite <- app_assoc in Hs5. split; [|done]. by exists b1. }
  all: apply wp_bind; eapply wp_mono; [apply (wp_arq_free l _ (pack_ b) s Hs)|cbn beta];
    [rewrite bool_decide_true by done; pose proof (held_nodes_nonneg l (pack_ b)); cbn; lia|];
    intros _ s1 (Hs1 & p & ->); eapply wp_mono; [apply (wp_free_item l _ n _ Hs1 Hn Hu)|cbn beta];
    intros _ s2 (Hs2 & Hp2 & _); split; [exact Hp2|]; eapply arq_ok_ext; [|exact Hs2]; intros e; cbn; lia.
Qed.

(** ** The timer *)
Section Tick.
Context (ts rto bst mx : Z) (rel : bool).

(** What the timer does with a packet sent before now. *)
Inductive Fate := FKeep | FRepeat | FDrop | FRearm.
Definition fate b : Fate :=
  if JudgeIsTranFailed mx b rto then (if rel && negb (boost_node_flg_ b) && negb (try_agin_flg_ b) then FRearm else FDrop)
  else match JudgeCanRtoReSend mx b rto bst with kNotRetranType => FKeep | _ => FRepeat end.

(** [tick done rest l]: the timer has passed [done], has [rest] before it and
    ends with [l].  What it sends goes to the end, where it ends the loop. *)
Inductive tick : list (N * Body E) -> list (N * Body E) -> list (N * Body E) -> Prop :=
  | tick_end done : tick done [] done
  | tick_stop done n b rest : ts <= last_send_ts_us_ b -> tick done ((n, b) :: rest) (done ++ (n, b) :: rest)
  | tick_keep done n b rest l :
      last_send_ts_us_ b < ts -> fate b = FKeep -> tick (done ++ [(n, b)]) rest l -> tick done ((n, b) :: rest) l
  | tick_repeat done n b b' rest l :
      last_send_ts_us_ b < ts -> fate b = FRepeat -> resent ts b b' ->
      (rest = [] -> l = done ++ [(n, b')]) -> (rest <> [] -> tick done (rest ++ [(n, b')]) l) -> tick done ((n, b) :: rest) l
  | tick_drop done n b rest l :
      last_send_ts_us_ b < ts -> fate b = FDrop -> tick done rest l -> tick done ((n, b) :: rest) l
  | tick_rearm done n b c k rest l :
      last_send_ts_us_ b < ts -> fate b = FRearm -> rearmed ts b c k ->
      (rest = [] -> l = done ++ k ++ [(n, c)]) -> (rest <> [] -> tick done (rest ++ k ++ [(n, c)]) l) ->
      tick done ((n, b) :: rest) l.

(** Rounds a node can cost. *)
Definition cost b : nat := if last_send_ts_us_ b <? ts then (if boost_node_flg_ b then 1 else 2) else 0.
Definition costs l : nat := sum_list_with (fun p => cost p.2) l.
Lemma costs_app l1 l2 : costs (l1 ++ l2) = (costs l1 + costs l2)%nat.
Proof. apply sum_list_with_app. Qed.
Lemma costs_cons n b l : costs ((n, b) :: l) = (cost b + costs l)%nat.
Proof. done. Qed.

Lemma cost_sent b : last_send_ts_us_ b = ts -> cost b = 0%nat.
Proof. intros Hb. unfold cost. by rewrite Hb, Z.ltb_irrefl. Qed.
Lemma resent_sent b b' : 0 < ts -> resent ts b b' -> last_send_ts_us_ b' = ts.
Proof. intros Hts []. apply rs_time0. lia. Qed.
Lemma marked_sent b c k : marked b c k -> last_send_ts_us_ c = last_send_ts_us_ b.
Proof. unfold marked. by destruct k; intros ->. Qed.
Lemma bump_sent b : last_send_ts_us_ (bump b) = last_send_ts_us_ b.
Proof. unfold bump. by destruct (_ && _). Qed.
Lemma rearmed_sent b c k : 0 < ts -> rearmed ts b c k -> last_send_ts_us_ c = ts.
Proof.
  intros Hts (b1 & Hr & _ & Hm). rewrite (marked_sent _ _ _ Hm), bump_sent. by eapply resent_sent.
Qed.
Lemma clones_cost org k : clones ts org k -> (costs k <= 1)%nat /\ (length k <= 1)%nat.
Proof.
  intros [->|(n & c & -> & Hc)]; [by split; cbn; lia|]. rewrite costs_cons. unfold cost.
  destruct (bo_flags _ _ _ Hc) as (-> & _). cbn. destruct (_ <? _); lia.
Qed.

Lemma fate_rearm b : fate b = FRearm -> boost_node_flg_ b = false /\ try_agin_flg_ b = false /\ JudgeIsTranFailed mx b rto = true.
Proof.
  unfold fate. destruct (JudgeIsTranFailed _ _ _); [|by destruct (JudgeCanRtoReSend _ _ _ _)].
  by destruct rel, (boost_node_flg_ b), (try_agin_flg_ b).
Qed.

(** The repetition of one packet, between taking it out and putting it back. *)
Lemma wp_repeat c1 c2 done n b rest s :
  arq_ok (done ++ (n, b) :: rest) (fun _ => 0) s -> 0 < ts ->
  wp (_ ← on_list (PopArqNode n); _ ← call_retran n ts; _ ← mod_st (add_counts 0 c1 0 c2); on_list (PushPack n))
    (fun _ s' => exists b', resent ts b b' /\ arq_ok ((done ++ rest) ++ [(n, b')]) (fun _ => 0) s' /\ same_params s s') s.
Proof.
  intros Hs Hts. pose proof (lr_bound _ _ (ao_list _ _ _ Hs)) as Hbd. rewrite length_app in Hbd. cbn [length] in Hbd.
  apply wp_bind. eapply wp_mono; [exact (wp_pop _ _ _ _ _ _ Hs)|cbn beta]. intros _ s1 (Hs1 & Hd1 & Hn & Hp1 & _).
  apply wp_bind. eapply wp_mono; [apply (wp_call_retran _ (fun _ => 0) n b ts s1 Hs1); done|cbn beta].
  intros _ s2 (b' & Hres & Hs2 & Hd2 & Hp2 & _). apply wp_bind, wp_mod.
  eapply wp_mono; [apply (wp_push (done ++ rest) n b' (fun _ => 0) (add_counts 0 c1 0 c2 s2)); [by apply add_counts_ok|done|done|]|cbn beta].
  { rewrite length_app. lia. }
  intros _ s3 (Hs3 & Hp3 & _). exists b'. split; [done|]. split; [done|]. by repeat (eapply same_params_trans; [eassumption|]).
Qed.

Lemma wp_failed done n b rest s :
  arq_ok (done ++ (n, b) :: rest) (fun _ => 0) s -> alg_top_switch_ s = true ->
  Z.of_nat (length (done ++ rest)) + 2 < 2 ^ 32 ->
  wp (a ← get_addr (tran_addr_ b);
      _ ← mod_st (fun s => put_mem (aq_packs s)
            (<[tran_addr_ b := mkAddr (sf_u8 (s_cur_loss_rate_ s)) ts (ad_stream_type a) (ad_rest a)]> (aq_addrs s)) s);
      _ ← mod_st (add_counts 1 0 0 0);
      _ ← on_list (PopArqNode n);
      TranFailedPostHandler n ts)
    (fun _ s' => same_params s s' /\
       (if reliable s && negb (boost_node_flg_ b) && negb (try_agin_flg_ b)
        then exists c k, rearmed ts b c k /\ arq_ok ((done ++ rest) ++ k ++ [(n, c)]) (fun _ => 0) s'
        else arq_ok (done ++ rest) (fun _ => 0) s')) s.
Proof.
  intros Hs Htop Hlen. destruct (ok_body _ _ _ _ _ _ Hs) as (_ & (a & Ha) & _). unfold get_addr. wp_steps.
  eapply wp_deref; [exact Ha|]. apply wp_bind, wp_mod, wp_bind, wp_mod, wp_bind. set (s0 := add_counts _ _ _ _ _).
  assert (Hs0 : arq_ok (done ++ (n, b) :: rest) (fun _ => 0) s0).
  { apply add_counts_ok, ok_mem; [done|intros k; apply insert_some|done]. }
  assert (Hp0 : same_params s s0).
  { split; [|done]. unfold self_type. cbn. destruct (tran_addr_ b); [by rewrite lookup_insert_ne|].
    by rewrite lookup_insert_eq, Ha. }
  eapply wp_mono; [exact (wp_pop _ _ _ _ _ _ Hs0)|cbn beta]. intros _ s1 (Hs1 & Hd1 & Hn & Hp1 & _).
  assert (Hp : same_params s s1) by (by eapply same_params_trans).
  assert (Hrel : reliable s = reliable s1) by (unfold reliable; by destruct Hp as (-> & _)). rewrite Hrel.
  eapply wp_mono; [apply (wp_TranFailedPostHandler _ n b ts s1 Hs1 Hn Hd1); [|done]|cbn beta].
  { destruct Hp as (_ & _ & _ & _ & Ht & _). by rewrite Ht. }
  intros _ s2 [Hp2 HQ]. split; [by eapply same_params_trans|done].
Qed.

(** One round of the loop: the rest of the list after it. *)
Lemma wp_round done n b rest s (Q0 : unit -> ArqSt P E Q N W -> Prop) :
  arq_ok (done ++ (n, b) :: rest) (fun _ => 0) s -> 0 < ts -> last_send_ts_us_ b < ts ->
  max_retran_times_ s = mx -> alg_top_switch_ s = true -> reliable s = rel ->
  Z.of_nat (length (done ++ (n, b) :: rest) + cost b) < 2 ^ 32 ->
  (forall s', same_params s s' -> fate b = FKeep -> arq_ok ((done ++ [(n, b)]) ++ rest) (fun _ => 0) s' -> Q0 tt s') ->
  (forall s' b', same_params s s' -> fate b = FRepeat -> resent ts b b' ->
     arq_ok ((done ++ rest) ++ [(n, b')]) (fun _ => 0) s' -> Q0 tt s') ->
  (forall s', same_params s s' -> fate b = FDrop -> arq_ok (done ++ rest) (fun _ => 0) s' -> Q0 tt s') ->
  (forall s' c k, same_params s s' -> fate b = FRearm -> rearmed ts b c k ->
     arq_ok ((done ++ rest) ++ k ++ [(n, c)]) (fun _ => 0) s' -> Q0 tt s') ->
  wp (if JudgeIsTranFailed (max_retran_times_ s) b rto then
        a ← get_addr (tran_addr_ b);
        _ ← mod_st (fun s => put_mem (aq_packs s)
              (<[tran_addr_ b := mkAddr (sf_u8 (s_cur_loss_rate_ s)) ts (ad_stream_type a) (ad_rest a)]> (aq_addrs s)) s);
        _ ← mod_st (add_counts 1 0 0 0);
        _ ← on_list (PopArqNode n);
        TranFailedPostHandler n ts
      else
        match JudgeCanRtoReSend (max_retran_times_ s) b rto bst with
        | kNotRetranType => mret tt
        | retran_type =>
            _ ← on_list (PopArqNode n);
            _ ← call_retran n ts;
            _ ← mod_st (match retran_type with
                        | kBoostRetranType => add_counts 0 0 0 1
                        | _ => add_counts 0 1 0 0
                        end);
            on_list (PushPack n)
        end) Q0 s.
Proof.
  intros Hs Hts Hlt Hmx Htop Hrel Hlen Hkeep Hrep Hdrop Hre. rewrite Hmx. unfold fate in *.
  destruct (JudgeIsTranFailed mx b rto) eqn:Hf.
  - eapply wp_mono; [apply (wp_failed _ _ _ _ _ Hs Htop)|cbn beta].
    { unfold cost in Hlen. rewrite length_app in *. cbn [length] in *.
      destruct (Z.ltb_spec (last_send_ts_us_ b) ts); [|lia]. destruct (boost_node_flg_ b); lia. }
    intros [] s1 [Hp1 HQ]. rewrite Hrel in HQ.
    destruct (rel && negb (boost_node_flg_ b) && negb (try_agin_flg_ b)).
    + destruct HQ as (c & k & Hc & Hs1). by apply (Hre s1 c k).
    + by apply Hdrop.
  - destruct (JudgeCanRtoReSend mx b rto bst) eqn:Hj.
    + apply wp_ret. apply Hkeep; [done|done|]. by rewrite <- app_assoc.
    + eapply wp_mono; [exact (wp_repeat 1 0 _ _ _ _ _ Hs Hts)|cbn beta]. intros [] s1 (b' & Hr & Hs1 & Hp1). by apply (Hrep s1 b').
    + eapply wp_mono; [exact (wp_repeat 0 1 _ _ _ _ _ Hs Hts)|cbn beta]. intros [] s1 (b' & Hr & Hs1 & Hp1). by apply (Hrep s1 b').
Qed.

Lemma wp_rto_loop fuel : forall pre rest s,
  arq_ok (pre ++ rest) (fun _ => 0) s -> 0 < ts -> (costs rest <= fuel)%nat ->
  max_retran_times_ s = mx -> alg_top_switch_ s = true -> reliable s = rel ->
  Z.of_nat (length (pre ++ rest) + costs rest) < 2 ^ 32 ->
  wp (rto_loop fuel ts rto bst (head rest.*1)) (fun _ s' => exists l', tick pre rest l' /\
    arq_ok l' (fun _ => 0) s' /\ same_params s s') s.
Proof.
  induction fuel as [|fuel IH]; intros pre [|[n b] rest] s Hs Hts Hfuel Hmx Htop Hrel Hlen;
    cbn [rto_loop fmap list_fmap head fst];
    [apply wp_ret; exists pre; rewrite app_nil_r in Hs; split; [apply tick_end|by split]| |apply wp_ret; exists pre; rewrite app_nil_r in Hs; split; [apply tick_end|by split]|];
    apply wp_bind; (eapply wp_body_in; [exact Hs|]); rewrite costs_cons in *;
    (destruct (Z.ltb_spec (last_send_ts_us_ b) ts) as [Hlt|Hge]; cbn [negb];
      [|apply wp_ret; eexists; split; [by apply tick_stop|done]]).
  { unfold cost in Hfuel. destruct (Z.ltb_spec (last_send_ts_us_ b) ts), (boost_node_flg_ b); lia. }
  assert (Hc : (1 <= cost b)%nat).
  { unfold cost. destruct (Z.ltb_spec (last_send_ts_us_ b) ts), (boost_node_flg_ b); lia. }
  apply wp_bind. eapply wp_next_in; [exact Hs|]. apply wp_bind, wp_get, wp_bind.
  assert (Hgo : forall s' done' rest' (R : list (N * Body E) -> Prop), same_params s s' ->
    arq_ok (done' ++ rest') (fun _ => 0) s' -> head rest'.*1 = head rest.*1 -> (costs rest' <= fuel)%nat ->
    Z.of_nat (length (done' ++ rest') + costs rest') < 2 ^ 32 ->
    (forall l', tick done' rest' l' -> R l') ->
    wp (rto_loop fuel ts rto bst (head rest.*1)) (fun _ s'' => exists l', R l' /\ arq_ok l' (fun _ => 0) s'' /\ same_params s s'') s').
  { intros s' done' rest' R Hp' Hs' Hh Hf' Hl' HR. rewrite <- Hh. pose proof Hp' as (Hty & Hmax & _ & _ & Htp & _).
    eapply wp_mono; [apply (IH done' rest' s' Hs' Hts Hf'); [congruence|congruence| |done]|cbn beta].
    { unfold reliable. by rewrite Hty. }
    intros _ s2 (l' & Ht & Hs2 & Hp2). exists l'. split; [by apply HR|]. split; [done|]. by eapply same_params_trans. }
  assert (Hstop : forall s' l' (R : list (N * Body E) -> Prop), same_params s s' -> rest = [] -> arq_ok l' (fun _ => 0) s' -> R l' ->
    wp (rto_loop fuel ts rto bst (head rest.*1)) (fun _ s'' => exists l', R l' /\ arq_ok l' (fun _ => 0) s'' /\ same_params s s'') s').
  { intros s' l' R Hp' -> Hs' HR. destruct fuel; cbn [rto_loop fmap list_fmap head]; apply wp_ret; by exists l'. }
  assert (Hhd : forall k, rest <> [] -> head (rest ++ k).*1 = head rest.*1) by (intros k Hne; by destruct rest).
  rewrite length_app in Hlen. cbn [length] in Hlen.
  apply (wp_round pre n b rest s _ Hs Hts Hlt Hmx Htop Hrel); [rewrite length_app; cbn [length]; lia|..].
  - intros s' Hp' Hfate Hs'. apply (Hgo s' (pre ++ [(n, b)]) rest); try done; [lia|rewrite !length_app; cbn [length]; lia|].
    intros l'. by apply tick_keep.
  - intros s' b' Hp' Hfate Hr Hs'. destruct (decide (rest = [])) as [Hnil|Hne].
    + eapply Hstop; [done|done|exact Hs'|]. eapply tick_repeat; try done. intros _. by rewrite Hnil, app_nil_r.
    + rewrite <- app_assoc in Hs'. apply (Hgo s' pre (rest ++ [(n, b')])); try done; [by apply Hhd|..];
        rewrite ?length_app, ?costs_app, ?costs_cons, ?(cost_sent b' (resent_sent _ _ Hts Hr)); cbn; try lia.
      intros l' Ht. by apply (tick_repeat _ _ _ b').
  - intros s' Hp' Hfate Hs'. apply (Hgo s' pre rest); try done; [lia|rewrite !length_app; lia|]. intros l'. by apply tick_drop.
  - intros s' c k Hp' Hfate Hr Hs'. pose proof (fate_rearm _ Hfate) as (Hbf & _). destruct (decide (rest = [])) as [Hnil|Hne].
    + eapply Hstop; [done|done|exact Hs'|]. eapply tick_rearm; try done. intros _. by rewrite Hnil, app_nil_r.
    + assert (Hck : (costs k <= 1 /\ length k <= 1)%nat) by (destruct Hr as (b1 & _ & Hk & _); by eapply clones_cost).
      assert (Hc2 : cost b = 2%nat).
      { unfold cost. rewrite Hbf. destruct (Z.ltb_spec (last_send_ts_us_ b) ts); lia. }
      rewrite <- app_assoc in Hs'. apply (Hgo s' pre (rest ++ k ++ [(n, c)])); try done; [by apply Hhd|..];
        rewrite ?length_app, ?costs_app, ?costs_cons, ?(cost_sent c (rearmed_sent _ _ _ Hts Hr)); cbn; try lia.
      intros l' Ht. by apply (tick_rearm _ _ _ c k).
Qed.

(** ** What a tick does to the packets *)
Definition outcome (b b' : Body E) : Prop :=
  match fate b with
  | FKeep => b' = b
  | FRepeat => resent ts b b'
  | FDrop => False
  | FRearm => exists k, rearmed ts b b' k
  end.
(** A node that was not in the list before. *)
Definition clone_from (org b' : Body E) : Prop :=
  fate org = FRearm /\ exists b1 c, resent ts (rearm org) b1 /\ boost_of ts (bump b1) c /\ (b' = c \/ resent ts c b').

Lemma tick_pre pre rest l : tick pre rest l -> forall p, p ∈ pre -> p ∈ l.
Proof.
  induction 1 as [|pre n b rest Hge|pre n b rest l Hlt Hf Ht IH|pre n b b' rest l Hlt Hf Hr Hnil Ht IH
    |pre n b rest l Hlt Hf Ht IH|pre n b c k rest l Hlt Hf Hr Hnil Ht IH]; intros p Hp; try done.
  - apply elem_of_app. by left.
  - apply IH, elem_of_app. by left.
  - destruct (decide (rest = [])) as [E0|E0]; [rewrite Hnil by done; apply elem_of_app; by left|by apply IH].
  - by apply IH.
  - destruct (decide (rest = [])) as [E0|E0]; [rewrite Hnil by done; apply elem_of_app; by left|by apply IH].
Qed.

(** What has been sent now stays. *)
Lemma tick_sent pre rest l : tick pre rest l -> forall n b, (n, b) ∈ rest -> last_send_ts_us_ b = ts -> (n, b) ∈ l.
Proof.
  induction 1 as [|pre n b rest Hge|pre n b rest l Hlt Hf Ht IH|pre n b b' rest l Hlt Hf Hr Hnil Ht IH
    |pre n b rest l Hlt Hf Ht IH|pre n b c k rest l Hlt Hf Hr Hnil Ht IH]; intros m d Hin Hd.
  - by apply elem_of_nil in Hin.
  - apply elem_of_app. by right.
  - apply elem_of_cons in Hin as [?|Hin]; [simplify_eq; lia|by apply IH].
  - apply elem_of_cons in Hin as [?|Hin]; [simplify_eq; lia|]. apply IH; [by intros ->; apply elem_of_nil in Hin| |done].
    apply elem_of_app. by left.
  - apply elem_of_cons in Hin as [?|Hin]; [simplify_eq; lia|by apply IH].
  - apply elem_of_cons in Hin as [?|Hin]; [simplify_eq; lia|]. apply IH; [by intros ->; apply elem_of_nil in Hin| |done].
    apply elem_of_app. by left.
Qed.

Lemma tick_kept pre rest l : tick pre rest l -> 0 < ts ->
  forall o r, rest = o ++ r -> (forall p, p ∈ o -> last_send_ts_us_ p.2 < ts) ->
  forall n b, (n, b) ∈ o -> fate b <> FDrop -> exists b', (n, b') ∈ l /\ outcome b b'.
Proof.
  intros Htick Hts. unfold outcome.
  induction Htick as [|pre n b rest Hge|pre n b rest l Hlt Hf Ht IH|pre n b b' rest l Hlt Hf Hr Hnil Ht IH
    |pre n b rest l Hlt Hf Ht IH|pre n b c k rest l Hlt Hf Hr Hnil Ht IH]; intros o r Ho Hold m d Hin Hd;
    (destruct o as [|p o]; [by apply elem_of_nil in Hin|]); cbn in Ho; simplify_eq; apply elem_of_cons in Hin as [Hin|Hin];
    try (assert (Hold' : forall p, p ∈ o -> last_send_ts_us_ p.2 < ts) by (intros q Hq; apply Hold; by right)).
  - simplify_eq. specialize (Hold (n, b)). cbn in Hold. assert (last_send_ts_us_ b < ts) by (apply Hold; by left). lia.
  - specialize (Hold (n, b)). cbn in Hold. assert (last_send_ts_us_ b < ts) by (apply Hold; by left). lia.
  - simplify_eq. exists b. rewrite Hf. split; [|done]. eapply tick_pre; [done|]. apply elem_of_app. right. by left.
  - by apply (IH o r).
  - simplify_eq. exists b'. rewrite Hf. split; [|done]. destruct (decide (o ++ r = [])) as [E0|E0].
    + rewrite Hnil by done. apply elem_of_app. right. by left.
    + apply (tick_sent _ _ _ (Ht E0)); [|by eapply resent_sent]. apply elem_of_app. right. by left.
  - assert (E0 : o ++ r <> []) by (destruct o; [by apply elem_of_nil in Hin|done]).
    apply (IH E0 o (r ++ [(n, b')])); try done. by rewrite app_assoc.
  - by simplify_eq.
  - by apply (IH o r).
  - simplify_eq. exists c. rewrite Hf. split; [|by exists k]. destruct (decide (o ++ r = [])) as [E0|E0].
    + rewrite Hnil by done. rewrite !elem_of_app, list_elem_of_singleton. tauto.
    + apply (tick_sent _ _ _ (Ht E0)); [|by eapply rearmed_sent]. rewrite !elem_of_app, list_elem_of_singleton. tauto.
  - assert (E0 : o ++ r <> []) by (destruct o; [by apply elem_of_nil in Hin|done]).
    apply (IH E0 o (r ++ k ++ [(n, c)])); try done. by rewrite <- app_assoc.
Qed.

(** Behind the packets of before come only packets sent now and repetitions. *)
Definition late (b : Body E) : Prop := last_send_ts_us_ b = ts \/ try_agin_flg_ b = true.
Definition came (pre o r : list (N * Body E)) (n : N) (b' : Body E) : Prop :=
  (n, b') ∈ pre \/ (exists b, (n, b) ∈ o /\ outcome b b') \/
  (exists b, (n, b) ∈ r /\ (b' = b \/ (last_send_ts_us_ b < ts /\ resent ts b b'))) \/
  exists m org, (m, org) ∈ o /\ clone_from org b'.

Lemma came_cons p pre o r n b' : came pre o r n b' -> came pre (p :: o) r n b'.
Proof.
  intros [?|[(b & ? & ?)|[?|(m & org & ? & ?)]]]; unfold came; [by left| | |].
  - right. left. exists b. split; [by right|done].
  - by right; right; left.
  - right. right. right. exists m, org. split; [by right|done].
Qed.
Lemma came_late p pre r n b' : came pre [] r n b' -> came pre [] (p :: r) n b'.
Proof.
  intros [?|[(b & Hb & ?)|[(b & ? & ?)|(m & org & Hb & ?)]]]; unfold came; [by left| | |]; try by apply elem_of_nil in Hb.
  right. right. left. exists b. split; [by right|done].
Qed.

(** What one repeated packet becomes, wherever the walk meets it again. *)
Lemma came_appended pre o r k m d :
  came pre o (r ++ k) m d ->
  came pre o r m d \/ exists b, (m, b) ∈ k /\ (d = b \/ (last_send_ts_us_ b < ts /\ resent ts b d)).
Proof.
  intros [?|[?|[(b & Hb & ?)|?]]]; unfold came; [by left; left|by left; right; left| |by left; right; right; right].
  apply elem_of_app in Hb as [Hb|Hb]; [left|right]; [right; right; left|]; by exists b.
Qed.

Lemma rearmed_clones b c k m d : rearmed ts b c k -> fate b = FRearm -> (m, d) ∈ k ->
  late d /\ clone_from b d /\ forall d', last_send_ts_us_ d < ts -> resent ts d d' -> clone_from b d'.
Proof.
  intros (b1 & Hr & [->|(n' & c' & -> & Hc)] & _) Hf Hin; [by apply elem_of_nil in Hin|].
  apply list_elem_of_singleton in Hin. simplify_eq. split; [|split].
  - right. by destruct (bo_flags _ _ _ Hc) as (_ & ? & _).
  - split; [done|]. exists b1, c'. split; [done|]. split; [done|by left].
  - intros d' _ Hd. split; [done|]. exists b1, c'. split; [done|]. split; [done|by right].
Qed.

Lemma tick_from pre rest l : tick pre rest l -> 0 < ts ->
  forall o r, rest = o ++ r -> (forall p, p ∈ o -> last_send_ts_us_ p.2 < ts) -> (forall p, p ∈ r -> late p.2) ->
  forall n b', (n, b') ∈ l -> came pre o r n b'.
Proof.
  intros Htick Hts.
  induction Htick as [|pre n b rest Hge|pre n b rest l Hlt Hf Ht IH|pre n b b1 rest l Hlt Hf Hr Hnil Ht IH
    |pre n b rest l Hlt Hf Ht IH|pre n b c k rest l Hlt Hf Hr Hnil Ht IH]; intros o r Ho Hold Hlate m d Hin;
    (destruct o as [|p o]; cbn in Ho; [subst|simplify_eq]);
    try (assert (Hold' : forall p, p ∈ o -> last_send_ts_us_ p.2 < ts) by (intros q Hq; apply Hold; by right));
    try (assert (Hlate' : forall p, p ∈ rest -> late p.2) by (intros q Hq; apply Hlate; by right)).
  - by left.
  - apply elem_of_app in Hin as [Hin|Hin]; [by left|]. right. right. left. exists d. split; [done|by left].
  - specialize (Hold (n, b)). cbn in Hold. assert (last_send_ts_us_ b < ts) by (apply Hold; by left). lia.
  - apply (IH [] rest eq_refl Hold Hlate') in Hin as [Hin|Hc]; [|apply came_late; by right].
    apply elem_of_app in Hin as [Hin|Hin%list_elem_of_singleton]; [by left|]. simplify_eq. right. right. left.
    exists b. split; [by left|by left].
  - apply (IH o r eq_refl Hold' Hlate) in Hin as [Hin|Hc]; [|apply came_cons; by right].
    apply elem_of_app in Hin as [Hin|Hin%list_elem_of_singleton]; [by left|]. simplify_eq. right. left.
    exists b. split; [by left|]. unfold outcome. by rewrite Hf.
  - pose proof (resent_sent _ _ Hts Hr) as Hs1.
    assert (Hb1 : came pre [] ((n, b) :: rest) n b1).
    { right. right. left. exists b. split; [by left|by right]. }
    destruct (decide (rest = [])) as [E0|E0].
    { rewrite Hnil in Hin by done. apply elem_of_app in Hin as [Hin|Hin%list_elem_of_singleton]; [by left|by simplify_eq]. }
    apply (IH E0 [] (rest ++ [(n, b1)]) eq_refl Hold) in Hin.
    + apply came_appended in Hin as [Hin|(x & Hx%list_elem_of_singleton & Hd)]; [by apply came_late|]. simplify_eq.
      destruct Hd as [->|[? _]]; [done|lia].
    + intros q [Hq|Hq%list_elem_of_singleton]%elem_of_app; [by apply Hlate'|subst q; by left].
  - pose proof (resent_sent _ _ Hts Hr) as Hs1.
    assert (Hb1 : came pre ((n, b) :: o) r n b1).
    { right. left. exists b. split; [by left|]. unfold outcome. by rewrite Hf. }
    destruct (decide (o ++ r = [])) as [E0|E0].
    { rewrite Hnil in Hin by done. apply elem_of_app in Hin as [Hin|Hin%list_elem_of_singleton]; [by left|by simplify_eq]. }
    apply (IH E0 o (r ++ [(n, b1)])) in Hin; [|by rewrite <- app_assoc|done|].
    + apply came_appended in Hin as [Hin|(x & Hx%list_elem_of_singleton & Hd)]; [by apply came_cons|]. simplify_eq.
      destruct Hd as [->|[? _]]; [done|lia].
    + intros q [Hq|Hq%list_elem_of_singleton]%elem_of_app; [by apply Hlate|subst q; by left].
  - apply came_late. by apply (IH [] rest eq_refl Hold Hlate').
  - apply came_cons. by apply (IH o r).
  - exfalso. destruct (fate_rearm _ Hf) as (_ & Htr & _). assert (Hl : late b) by (apply (Hlate (n, b)); by left).
    destruct Hl as [Hl|Hl]; [lia|congruence].
  - pose proof (rearmed_sent _ _ _ Hts Hr) as Hs1.
    assert (Hb1 : came pre ((n, b) :: o) r n c).
    { right. left. exists b. split; [by left|]. unfold outcome. rewrite Hf. by exists k. }
    assert (Hk : forall d, (m, d) ∈ k -> came pre ((n, b) :: o) r m d /\
      forall d', last_send_ts_us_ d < ts -> resent ts d d' -> came pre ((n, b) :: o) r m d').
    { intros d0 Hd0. destruct (rearmed_clones _ _ _ _ _ Hr Hf Hd0) as (_ & Hc1 & Hc2). split.
      - right. right. right. exists n, b. split; [by left|done].
      - intros d' Hd1 Hd2. right. right. right. exists n, b. split; [by left|by apply Hc2]. }
    destruct (decide (o ++ r = [])) as [E0|E0].
    { rewrite Hnil in Hin by done. rewrite !elem_of_app, list_elem_of_singleton in Hin.
      destruct Hin as [Hin|[Hin|Hin]]; [by left|by apply Hk|by simplify_eq]. }
    apply (IH E0 o (r ++ k ++ [(n, c)])) in Hin; [|by rewrite <- app_assoc|done|].
    + apply came_appended in Hin as [Hin|(x & Hx & Hd)]; [by apply came_cons|].
      apply elem_of_app in Hx as [Hx|Hx%list_elem_of_singleton].
      * destruct (Hk x Hx) as [Hx1 Hx2]. destruct Hd as [->|[? ?]]; [done|by apply Hx2].
      * simplify_eq. destruct Hd as [->|[? _]]; [done|lia].
    + intros [m' q]. rewrite !elem_of_app, list_elem_of_singleton. intros [Hq|[Hq|Hq]].
      * by apply Hlate.
      * by destruct (rearmed_clones _ _ _ _ _ Hr Hf Hq) as (? & _).
      * simplify_eq. by left.
Qed.

End Tick.

End Timer.
End ArqTimer.
