(* ===== verification/ArqRun.v ===== *)
(** * The timer, new packets and the end, and the arq on concrete surroundings

    The theorems about [CheckRtoRetran], [PacketEntryList] and [PopAllPack],
    and an arq on the pools of TranPoolSpec.v and MemPoolSpec.v with a callback
    that numbers the repetitions, on which every theorem is instantiated. *)
From S2P Require Import Prelude PacketHeader PoolInterface ItemPool TranPool TranPoolSpec.
From S2P Require Import MemPool MemPoolSpec ArqList Arq ArqSpec ArqAck ArqTimer.
Export TranPool TranPoolSpec MemPool MemPoolSpec.
Export ArqList Arq ArqSpec ArqAck ArqTimer.

Module ArqRun.

Section Claims.
Context {P E Q N W : Type} `{Countable E} `{Countable N} `{!PackPool P E} `{!ItemPool Q N} `{!ArqEnv P E W}.
Context `{!PackPoolLaws P E} `{!ItemPoolLaws Q N} `{!ArqEnvLaws P E W}.
Implicit Types (b : Body E) (l : list (N * Body E)) (e : E) (n : N).

(** What the timer at [ts] does with a packet of the state [s]. *)
Definition timer_fate (ts : Z) (s : ArqSt P E Q N W) : Body E -> Fate :=
  fate (u64 (ts - rto_timeout_us_ s)) (u64 (ts - boost_period_us_ s)) (max_retran_times_ s) (reliable s).
Definition timer_outcome (ts : Z) (s : ArqSt P E Q N W) : Body E -> Body E -> Prop :=
  outcome (N := N) ts (u64 (ts - rto_timeout_us_ s)) (u64 (ts - boost_period_us_ s)) (max_retran_times_ s) (reliable s).
Definition timer_clone (ts : Z) (s : ArqSt P E Q N W) : Body E -> Body E -> Prop :=
  clone_from ts (u64 (ts - rto_timeout_us_ s)) (u64 (ts - boost_period_us_ s)) (max_retran_times_ s) (reliable s).

(** C30: with the retransmission switched on (off, the timer drops the whole
    list), every packet of the list sent before now (the walk stops at the
    first younger one) and fewer than 2^32 / 3 packets in it, [CheckRtoRetran]
    always returns without a memory fault, and every reference stays accounted
    for.  A packet that the timer does not drop is still in the list
    afterwards: untouched when it is not due by the tests of the code
    ([JudgeIsTranFailed], [JudgeCanRtoReSend]), repeated once when it is, and
    with a fresh count of repetitions when it has none left on a reliable
    stream; nothing else is in the list but early repetitions of the latter.
    The timer only drops what has no repetition left and has timed out, or what
    an acknowledgement has given up. *)
Theorem CheckRtoRetran_spec (ts : Z) l (s : ArqSt P E Q N W) :
  arq_ok l nothing s -> alg_top_switch_ s = true -> 0 < ts ->
  (forall n b, (n, b) ∈ l -> last_send_ts_us_ b < ts) -> 3 * Z.of_nat (length l) < 2 ^ 32 ->
  exists s' l', CheckRtoRetran ts s = Some (tt, s') /\ arq_ok l' nothing s' /\
    (forall n b, (n, b) ∈ l -> timer_fate ts s b <> FDrop -> exists b', (n, b') ∈ l' /\ timer_outcome ts s b b') /\
    (forall n b', (n, b') ∈ l' -> (exists b, (n, b) ∈ l /\ timer_outcome ts s b b') \/
       exists k org, (k, org) ∈ l /\ timer_clone ts s org b') /\
    (forall b, timer_fate ts s b = FDrop -> failed_ack_ b = true \/
       (JudgeExhautResendNum (max_retran_times_ s) b = true /\ last_send_ts_us_ b <= u64 (ts - rto_timeout_us_ s))).
Proof.
  intros Hs Htop Hts Hold Hlen.
  set (rto := u64 (ts - rto_timeout_us_ s)). set (bst := u64 (ts - boost_period_us_ s)).
  assert (Hcost : (costs ts l <= 2 * length l)%nat).
  { clear -l. unfold costs. induction l as [|[n b] l IH]; [done|]. cbn [sum_list_with length snd].
    assert (cost ts b <= 2)%nat by (unfold cost; destruct (_ <? _), (boost_node_flg_ b); lia). lia. }
  destruct (wp_total _ _ _ (wp_rto_loop ts rto bst (max_retran_times_ s) (reliable s) (Z.to_nat (2 * node_num_ (arq_list_ s)))
    [] l s Hs Hts ltac:(rewrite (lr_num _ _ (ao_list _ _ _ Hs)); lia) eq_refl Htop eq_refl ltac:(cbn [app]; lia)))
    as ([] & s' & Hrun & l' & Htick & Hs' & _).
  assert (Hold' : forall p, p ∈ l -> last_send_ts_us_ p.2 < ts) by (intros [n b] Hp; by apply (Hold n b)).
  exists s', l'. split.
  { unfold CheckRtoRetran, mbind, ST_bind. cbn [get_st]. rewrite Htop. cbn [negb].
    rewrite (lr_head _ _ (ao_list _ _ _ Hs)). exact Hrun. }
  split; [exact Hs'|]. split; [|split].
  - intros n b Hb Hf. exact (tick_kept _ _ _ _ _ _ _ _ Htick Hts l [] (eq_sym (app_nil_r l)) Hold' n b Hb Hf).
  - intros n b' Hin.
    destruct (tick_from _ _ _ _ _ _ _ _ Htick Hts l [] (eq_sym (app_nil_r l)) Hold' ltac:(by intros p ?%elem_of_nil) n b' Hin)
      as [Hc|[Hc|[(b & Hc & _)|Hc]]]; [by apply elem_of_nil in Hc|by left|by apply elem_of_nil in Hc|by right].
  - intros b. unfold timer_fate, fate, JudgeIsTranFailed. fold rto bst. destruct (failed_ack_ b); [by left|]. cbn [orb].
    destruct (JudgeExhautResendNum _ b), (Z.leb_spec (last_send_ts_us_ b) rto); cbn [andb]; try (by right);
      by destruct (JudgeCanRtoReSend _ _ _ _).
Qed.

(** [PacketEntryList] of a packet somebody holds puts a node of it at the
    end of the list and a reference on its buffer, perhaps followed by its
    early repetition in a buffer of its own, and by none when early repetition
    is switched off; only when there is no item it refuses, and changes nothing. *)
Theorem PacketEntryList_spec l (s : ArqSt P E Q N W) (pack : E) (first_pack_sn ts : Z) :
  arq_ok l nothing s -> is_Some (aq_packs s !! pack) -> 0 < pp_refs (aq_pool s) pack ->
  held_nodes l pack < 1000 -> Z.of_nat (length l) + 2 < 2 ^ 32 ->
  exists r s', PacketEntryList pack first_pack_sn ts s = Some (r, s') /\ same_params s s' /\
    ((r = GEN_ERR ae_sys_id kGtpArqMd kCrtArqNodeFailed /\ arq_ok l nothing s') \/
     (r = GTP_OK /\ exists n b k, new_node pack first_pack_sn ts b /\ clones ts b k /\ (n ∉ l.*1) /\
       (boost_switch_ s = false -> k = []) /\ arq_ok (l ++ (n, b) :: k) nothing s')).
Proof.
  intros Hs Hp Hpos Hheld Hlen.
  destruct (wp_total _ _ _ (wp_PacketEntryList l s pack first_pack_sn ts Hs Hp Hpos Hheld Hlen)) as (r & s' & Hrun & HQ).
  by exists r, s'.
Qed.

(** [PopAllPack], and the timer with the retransmission switched off,
    empty the list: no buffer is held any more but by others, and every item
    of the list is free. *)
Theorem PopAllPack_releases l (s : ArqSt P E Q N W) :
  arq_ok l nothing s ->
  exists s', PopAllPack s = Some (tt, s') /\
    (alg_top_switch_ s = false -> forall ts, CheckRtoRetran ts s = Some (tt, s')) /\
    arq_ok [] nothing s' /\
    (forall e, pp_refs (aq_pool s') e = ae_held (aq_world s') e) /\
    forall n, ip_used (aq_items s') n = ip_used (aq_items s) n && bool_decide (n ∉ l.*1).
Proof.
  intros Hs. destruct (wp_total _ _ _ (wp_ClearArqList l s Hs)) as ([] & s' & Hrun & Hs' & _ & Hu).
  exists s'. split; [exact Hrun|]. split; [|split; [exact Hs'|split; [|exact Hu]]].
  - intros Htop ts. unfold CheckRtoRetran, mbind, ST_bind. cbn [get_st]. by rewrite Htop.
  - intros e. rewrite (ao_balance _ _ _ Hs'). unfold held_nodes, nothing. cbn. lia.
Qed.

End Claims.

(** ** The list of a state *)
Section ListOf.
Context {N B : Type} `{Countable N}.
Fixpoint list_from (fuel : nat) (m : gmap N (ArqNode N B)) (cur : option N) : list (N * B) :=
  match fuel, cur with
  | S fuel', Some n => match m !! n with Some c => (n, body c) :: list_from fuel' m (nxt_node_ c) | None => [] end
  | _, _ => []
  end.
Definition list_of (h : ArqHeap N B) : list (N * B) := list_from (Z.to_nat (node_num_ h)) (nodes h) (head_ h).

Lemma list_of_rep (h : ArqHeap N B) l : list_rep h l -> list_of h = l.
Proof.
  intros Hr. unfold list_of. rewrite (lr_num _ _ Hr), (lr_head _ _ Hr), Nat2Z.id.
  assert (Hgen : forall l2 l1, l = l1 ++ l2 -> list_from (length l2) (nodes h) (head l2.*1) = l2).
  { induction l2 as [|[n b] l2 IH]; intros l1 Hl; [done|]. subst l. destruct (rep_node _ _ _ _ _ Hr) as (c & Hc & Hb & Hx & _).
    cbn [length fmap list_fmap head fst list_from]. rewrite Hc, Hb, Hx, (IH (l1 ++ [(n, b)])); [done|]. by rewrite <- app_assoc. }
  by apply (Hgen l []).
Qed.
End ListOf.

(** ** Concrete surroundings *)
Record Net := mkNet { nt_held : list (Z * Z); nt_next : Z }.

#[global] Instance demo_arq_env : ArqEnv TranMemPool (Z * Z) Net := {
  ae_sys_id := 1;
  ae_retran b bytes a ts p w :=
    (0, mkBody (if ts =? 0 then 1 else ts) (pack_ b) (tran_addr_ b) (pack_len_ b) (payload_offset_ b)
          (u8 (retran_counter_ b + 1)) (boost_threshold_ b) (try_agin_flg_ b) (boost_node_flg_ b) (failed_ack_ b)
          (has_boost_node_ b) (nt_next w) (first_pack_sn_ b),
     bytes, mkAddr (ad_loss a) ts (ad_stream_type a) (ad_rest a), p, mkNet (nt_held w) (nt_next w + 1));
  ae_held w e := held_in (Some <$> nt_held w) e
}.
#[global] Instance demo_arq_laws : ArqEnvLaws TranMemPool (Z * Z) Net.
Proof.
  constructor. intros b bytes a ts p w h Hp Hw Hh Hpos Hbal Hlen. cbn. split; [done|]. split; [done|]. split; [done|].
  split; [|done]. split; try done. cbn. intros Hts. by destruct (Z.eqb_spec ts 0).
Qed.

Definition ed : Z * Z := (0, 0).
Definition pool_one : TranMemPool := (pp_malloc 0 demo_pool).2.
Lemma pool_one_ok : pool_ok pool_one /\ forall e, pp_refs pool_one e = held_in [Some ed] e.
Proof.
  destruct demo_pool_ok as [Hp0 Hr]. assert (Hp : pp_ok demo_pool) by exact Hp0.
  destruct (pp_malloc 0 demo_pool) as [r1 q1] eqn:H1.
  assert (Hr1 : r1 = Some (ed, 256)) by (change r1 with (r1, q1).1; rewrite <- H1; vm_compute; reflexivity).
  subst r1. destruct (pp_malloc_some demo_pool 0 ed 256 q1 Hp ltac:(lia) H1) as (Hp1 & _ & _ & Hc1).
  assert (Eq1 : pool_one = q1) by (unfold pool_one; by rewrite H1). rewrite Eq1. split; [exact Hp1|]. intros e.
  rewrite Hc1. change (pp_refs demo_pool e) with (refs demo_pool e). rewrite Hr. cbn [held_in].
  rewrite (bool_decide_ext (e = ed) (Some ed = Some e)) by (split; [by intros ->|by intros [= ->]]). lia.
Qed.

(** A packet of sequence number 10, held by the session. *)
Definition pk : list Z := le_bytes 4 (Z.shiftl 11 19) ++ le_bytes 4 10 ++ [1; 2; 3].
Definition DemoArq := ArqSt TranMemPool (Z * Z) GtpMemPool Z Net.
Definition arq0 : DemoArq :=
  arq_ctor 100000 3 demo_items pool_one (mkNet [ed] 100) {[ed := pk]} {[None := mkAddr 0 0 0 []]} 5000 (S754_zero false) true.
Definition run {A} (m : AM TranMemPool (Z * Z) GtpMemPool Z Net A) (s : DemoArq) : DemoArq :=
  match m s with Some (_, s') => s' | None => s end.
Definition arq1 : DemoArq := run (PacketEntryList ed 10 2000000) arq0.
Definition list1 : list (Z * Body (Z * Z)) := Eval vm_compute in list_of (arq_list_ arq1).

Lemma arq0_ok : arq_ok [] nothing arq0.
Proof.
  split; try done.
  - by split; try done; cbn; [constructor|intros [|] *].
  - split; [exact (proj1 demo_items_ok)|]. intros i _. by rewrite (proj2 demo_items_ok).
  - intros n Hn. by apply elem_of_nil in Hn.
  - exact (proj1 pool_one_ok).
  - intros e. cbn. unfold ind. case_bool_decide; lia.
  - intros e. change (pp_refs pool_one e = held_in [Some ed] e + (0 + 0)). rewrite (proj2 pool_one_ok). lia.
Qed.

Lemma arq1_ok : arq_ok list1 nothing arq1.
Proof.
  destruct (wp_total _ _ _ (wp_PacketEntryList [] arq0 ed 10 2000000 arq0_ok ltac:(by eexists)
    ltac:(by vm_compute) ltac:(by vm_compute) ltac:(by vm_compute))) as (r & s' & Hrun & _ & HQ).
  assert (He : arq1 = s') by (unfold arq1, run; by rewrite Hrun). rewrite <- He in HQ.
  assert (Hr : r = GTP_OK).
  { change r with ((r, s').1). assert (Hrun' : (PacketEntryList ed 10 2000000 arq0) = Some (r, s')) by exact Hrun.
    enough (Hx : fst <$> PacketEntryList ed 10 2000000 arq0 = Some GTP_OK) by (rewrite Hrun' in Hx; by injection Hx).
    vm_compute. reflexivity. }
  destruct HQ as [[Hr2 _]|(_ & n & b & k & _ & _ & _ & _ & Hok)]; [exfalso; clear -Hr Hr2; rewrite Hr in Hr2; vm_compute in Hr2; discriminate Hr2|].
  assert (Hl : list_of (arq_list_ arq1) = list1) by (vm_compute; reflexivity).
  rewrite (list_of_rep _ _ (ao_list _ _ _ Hok)) in Hl. rewrite <- Hl. exact Hok.
Qed.

(** ** Instances of the theorems *)

(** Bit 0: packet 10 has arrived.  Nothing of it is left. *)
Definition ack10 : list Z := [1; 0; 0; 0; 0; 0; 0; 0].
Example ack10_clears : list_of (arq_list_ (run (ProcAck 8 ack10 10 10 10) arq1)) = [].
Proof. vm_compute. reflexivity. Qed.
(** Unset, it is repeated, and its early repetition is. *)
Example nack10_repeats :
  ((fun p => (pack_sn_ p.2, retran_counter_ p.2)) <$> list_of (arq_list_ (run (ProcAck 8 [0; 0; 0; 0; 0; 0; 0; 0] 10 10 10) arq1))) =
  [(100, 1); (101, 1)].
Proof. vm_compute. reflexivity. Qed.

Example ProcAck_width_witness : ProcAck 4 ack10 10 10 10 arq1 = ProcAck 8 ack10 10 10 10 arq1.
Proof. apply (ProcAck_width ack10 10 10 10 arq1); [by repeat (constructor; [done|])|vm_compute; lia]. Defined.

Example ProcAck_spec_witness :
  exists s' l', ProcAck 8 ack10 10 10 10 arq1 = Some (tt, s') /\ arq_ok l' nothing s' /\
    (in_order 10 list1 -> Z.of_nat (length list1) <= MAX_RSV_WIN_SIZE ->
     forall n b, (n, b) ∈ list1 -> arrived ack10 10 10 b ->
     forall n' b', (n', b') ∈ l' -> first_pack_sn_ b' <> first_pack_sn_ b) /\
    (forall n b', (n, b') ∈ l' -> exists b, (n, b) ∈ list1 /\ rtc (resent 0) b b') /\
    (forall n b, (n, b) ∈ list1 -> (exists b', (n, b') ∈ l' /\ rtc (resent 0) b b') \/
       exists k c c', (k, c) ∈ list1 /\ first_pack_sn_ c = first_pack_sn_ b /\ rtc (resent 0) c c' /\
         (arrived ack10 10 10 c' \/ given_up (max_retran_times_ arq1) ack10 10 10 10 c')).
Proof.
  apply (ProcAck_spec 8 ack10 10 10 10 list1 arq1); [exact arq1_ok|by repeat (constructor; [done|])|vm_compute; lia].
Defined.

Example ProcAck_overread_witness : ProcAck 8 [] 10 10 10 arq1 = None.
Proof. eapply (ProcAck_overread [] 10 10 10); [exact arq1_ok|vm_compute; discriminate|vm_compute; lia]. Defined.

Example CheckRtoRetran_spec_witness :
  exists s' l', CheckRtoRetran 3000000 arq1 = Some (tt, s') /\ arq_ok l' nothing s' /\
    (forall n b, (n, b) ∈ list1 -> timer_fate 3000000 arq1 b <> FDrop ->
       exists b', (n, b') ∈ l' /\ timer_outcome 3000000 arq1 b b') /\
    (forall n b', (n, b') ∈ l' -> (exists b, (n, b) ∈ list1 /\ timer_outcome 3000000 arq1 b b') \/
       exists k org, (k, org) ∈ list1 /\ timer_clone 3000000 arq1 org b') /\
    (forall b, timer_fate 3000000 arq1 b = FDrop -> failed_ack_ b = true \/
       (JudgeExhautResendNum (max_retran_times_ arq1) b = true /\ last_send_ts_us_ b <= u64 (3000000 - rto_timeout_us_ arq1))).
Proof.
  apply (CheckRtoRetran_spec 3000000 list1 arq1); [exact arq1_ok|vm_compute; reflexivity|lia| |vm_compute; reflexivity].
  assert (Hall : Forall (fun p => last_send_ts_us_ p.2 < 3000000) list1) by (repeat (constructor; [vm_compute; reflexivity|]); constructor).
  intros n b Hin. exact (proj1 (Forall_forall _ _) Hall (n, b) Hin).
Defined.

Example PacketEntryList_spec_witness :
  exists r s', PacketEntryList ed 10 2000000 arq0 = Some (r, s') /\ same_params arq0 s' /\
    ((r = GEN_ERR (ae_sys_id (P := TranMemPool) (E := Z * Z) (W := Net)) kGtpArqMd kCrtArqNodeFailed /\ arq_ok [] nothing s') \/
     (r = GTP_OK /\ exists n b k, new_node ed 10 2000000 b /\ clones 2000000 b k /\ (n ∉ ([] : list (Z * Body (Z * Z))).*1) /\
       (boost_switch_ arq0 = false -> k = []) /\ arq_ok ([] ++ (n, b) :: k) nothing s')).
Proof.
  refine (PacketEntryList_spec [] arq0 ed 10 2000000 arq0_ok _ _ _ _); [exists pk; vm_compute; reflexivity|vm_compute; reflexivity..].
Defined.

Example PopAllPack_releases_witness :
  exists s', PopAllPack arq1 = Some (tt, s') /\
    (alg_top_switch_ arq1 = false -> forall ts, CheckRtoRetran ts arq1 = Some (tt, s')) /\
    arq_ok [] nothing s' /\
    (forall e, pp_refs (aq_pool s') e = ae_held (aq_world s') e) /\
    forall n, ip_used (aq_items s') n = ip_used (aq_items arq1) n && bool_decide (n ∉ list1.*1).
Proof. apply (PopAllPack_releases list1 arq1); exact arq1_ok. Defined.

End ArqRun.
