(* ===== verification/Float32.v ===== *)
(** * Single and double precision

    The operations on [float] and [double] the windows use, as the rounded
    operations of the standard library's [SpecFloat]. *)
From Stdlib Require Export Floats.SpecFloat.
From S2P Require Import Prelude.

Module Float32.

Definition f32_of_Z (z : Z) : spec_float := binary_normalize 24 128 z 0 false.
Definition f64_of_Z (z : Z) : spec_float := binary_normalize 53 1024 z 0 false.
(** Conversion between the formats: the value rounded to the other precision. *)
Definition f64_of_f32 (x : spec_float) : spec_float :=
  match x with S754_finite s m e => binary_normalize 53 1024 (if s then Z.neg m else Z.pos m) e s | _ => x end.
Definition f32_of_f64 (x : spec_float) : spec_float :=
  match x with S754_finite s m e => binary_normalize 24 128 (if s then Z.neg m else Z.pos m) e s | _ => x end.
(** The literal [p / q] of type [double]. *)
Definition lit64 (p q : Z) : spec_float := SFdiv 53 1024 (f64_of_Z p) (f64_of_Z q).
Definition f32_mul : spec_float -> spec_float -> spec_float := SFmul 24 128.
Definition f32_div : spec_float -> spec_float -> spec_float := SFdiv 24 128.
Definition f64_div : spec_float -> spec_float -> spec_float := SFdiv 53 1024.
(** [(u32)f] truncates; the code only converts values in range. *)
Definition f_to_Z (f : spec_float) : Z :=
  match f with
  | S754_finite s m e =>
      let v := if 0 <=? e then Z.shiftl (Z.pos m) e else Z.shiftr (Z.pos m) (- e) in if s then - v else v
  | _ => 0
  end.
Definition f32_add : spec_float -> spec_float -> spec_float := SFadd 24 128.
Definition f32_sub : spec_float -> spec_float -> spec_float := SFsub 24 128.
(** The literal [p / q] of type [float]. *)
Definition lit32 (p q : Z) : spec_float := SFdiv 24 128 (f32_of_Z p) (f32_of_Z q).
(** [a <= f] and [a >= f] for a literal of type [double] and a single precision
    value. *)
Definition lit_le_f (p q : Z) (f : spec_float) : bool := SFleb (lit64 p q) (f64_of_f32 f).
Definition lit_lt_f (p q : Z) (f : spec_float) : bool := SFltb (lit64 p q) (f64_of_f32 f).
Definition lit_ge_f (p q : Z) (f : spec_float) : bool := SFleb (f64_of_f32 f) (lit64 p q).
(** [a > f] for a literal and a single precision value. *)
Definition f_gt_lit (p q : Z) (f : spec_float) : bool := SFltb (f64_of_f32 f) (lit64 p q).

Example lit64_half : f_gt_lit 10000001 1000000 (f32_of_Z 10) = true /\ f_gt_lit 10000001 1000000 (f32_of_Z 11) = false.
Proof. vm_compute. done. Qed.

End Float32.
