(* ===== verification/SlidWinState.v ===== *)
(** * The state of a sliding window

    [SlidWin] (src/src/slidwin/slidwin_self.h): its members in five groups, with
    an update function for each, and the reports it has made. *)
From Stdlib Require Export Floats.SpecFloat.
From S2P Require Import Prelude.

Module SlidWinState.

(** The ring of positions and what is known of the sequence numbers in it. *)
Record WinGeo := mkWinGeo {
  l_border_pos_ : Z;
  r_border_pos_ : Z;
  l_border_sn_ : Z;
  r_border_sn_ : Z;
  cur_win_size_ : Z;
  max_sn_pos_ : Z;
  max_sn_ : Z;
  max_sn_span_ : Z;
  max_rcv_sn_pos_ : Z;
  expect_next_recv_sn_ : Z;
  sn_bit_map_ : list Z;
  sn_ts_ms_ : list Z
}.
Definition put_l_border_pos_ (v : Z) (r : WinGeo) : WinGeo :=
  mkWinGeo v (r_border_pos_ r) (l_border_sn_ r) (r_border_sn_ r) (cur_win_size_ r) (max_sn_pos_ r) (max_sn_ r)
    (max_sn_span_ r) (max_rcv_sn_pos_ r) (expect_next_recv_sn_ r) (sn_bit_map_ r) (sn_ts_ms_ r).
Definition put_r_border_pos_ (v : Z) (r : WinGeo) : WinGeo :=
  mkWinGeo (l_border_pos_ r) v (l_border_sn_ r) (r_border_sn_ r) (cur_win_size_ r) (max_sn_pos_ r) (max_sn_ r)
    (max_sn_span_ r) (max_rcv_sn_pos_ r) (expect_next_recv_sn_ r) (sn_bit_map_ r) (sn_ts_ms_ r).
Definition put_l_border_sn_ (v : Z) (r : WinGeo) : WinGeo :=
  mkWinGeo (l_border_pos_ r) (r_border_pos_ r) v (r_border_sn_ r) (cur_win_size_ r) (max_sn_pos_ r) (max_sn_ r)
    (max_sn_span_ r) (max_rcv_sn_pos_ r) (expect_next_recv_sn_ r) (sn_bit_map_ r) (sn_ts_ms_ r).
Definition put_r_border_sn_ (v : Z) (r : WinGeo) : WinGeo :=
  mkWinGeo (l_border_pos_ r) (r_border_pos_ r) (l_border_sn_ r) v (cur_win_size_ r) (max_sn_pos_ r) (max_sn_ r)
    (max_sn_span_ r) (max_rcv_sn_pos_ r) (expect_next_recv_sn_ r) (sn_bit_map_ r) (sn_ts_ms_ r).
Definition put_cur_win_size_ (v : Z) (r : WinGeo) : WinGeo :=
  mkWinGeo (l_border_pos_ r) (r_border_pos_ r) (l_border_sn_ r) (r_border_sn_ r) v (max_sn_pos_ r) (max_sn_ r)
    (max_sn_span_ r) (max_rcv_sn_pos_ r) (expect_next_recv_sn_ r) (sn_bit_map_ r) (sn_ts_ms_ r).
Definition put_max_sn_pos_ (v : Z) (r : WinGeo) : WinGeo :=
  mkWinGeo (l_border_pos_ r) (r_border_pos_ r) (l_border_sn_ r) (r_border_sn_ r) (cur_win_size_ r) v (max_sn_ r)
    (max_sn_span_ r) (max_rcv_sn_pos_ r) (expect_next_recv_sn_ r) (sn_bit_map_ r) (sn_ts_ms_ r).
Definition put_max_sn_ (v : Z) (r : WinGeo) : WinGeo :=
  mkWinGeo (l_border_pos_ r) (r_border_pos_ r) (l_border_sn_ r) (r_border_sn_ r) (cur_win_size_ r) (max_sn_pos_ r) v
    (max_sn_span_ r) (max_rcv_sn_pos_ r) (expect_next_recv_sn_ r) (sn_bit_map_ r) (sn_ts_ms_ r).
Definition put_max_sn_span_ (v : Z) (r : WinGeo) : WinGeo :=
  mkWinGeo (l_border_pos_ r) (r_border_pos_ r) (l_border_sn_ r) (r_border_sn_ r) (cur_win_size_ r) (max_sn_pos_ r)
    (max_sn_ r) v (max_rcv_sn_pos_ r) (expect_next_recv_sn_ r) (sn_bit_map_ r) (sn_ts_ms_ r).
Definition put_max_rcv_sn_pos_ (v : Z) (r : WinGeo) : WinGeo :=
  mkWinGeo (l_border_pos_ r) (r_border_pos_ r) (l_border_sn_ r) (r_border_sn_ r) (cur_win_size_ r) (max_sn_pos_ r)
    (max_sn_ r) (max_sn_span_ r) v (expect_next_recv_sn_ r) (sn_bit_map_ r) (sn_ts_ms_ r).
Definition put_expect_next_recv_sn_ (v : Z) (r : WinGeo) : WinGeo :=
  mkWinGeo (l_border_pos_ r) (r_border_pos_ r) (l_border_sn_ r) (r_border_sn_ r) (cur_win_size_ r) (max_sn_pos_ r)
    (max_sn_ r) (max_sn_span_ r) (max_rcv_sn_pos_ r) v (sn_bit_map_ r) (sn_ts_ms_ r).
Definition put_sn_bit_map_ (v : list Z) (r : WinGeo) : WinGeo :=
  mkWinGeo (l_border_pos_ r) (r_border_pos_ r) (l_border_sn_ r) (r_border_sn_ r) (cur_win_size_ r) (max_sn_pos_ r)
    (max_sn_ r) (max_sn_span_ r) (max_rcv_sn_pos_ r) (expect_next_recv_sn_ r) v (sn_ts_ms_ r).
Definition put_sn_ts_ms_ (v : list Z) (r : WinGeo) : WinGeo :=
  mkWinGeo (l_border_pos_ r) (r_border_pos_ r) (l_border_sn_ r) (r_border_sn_ r) (cur_win_size_ r) (max_sn_pos_ r)
    (max_sn_ r) (max_sn_span_ r) (max_rcv_sn_pos_ r) (expect_next_recv_sn_ r) (sn_bit_map_ r) v.

(** Points in time, in microseconds. *)
Record WinTime := mkWinTime {
  created_ts_us_ : Z;
  current_ts_us_ : Z;
  last_recv_ts_us : Z;
  last_calc_loss_ts_us_ : Z;
  calc_pps_ts_us_ : Z;
  lst_rpt_quality_ts_us_ : Z;
  lst_fdbk_loss_ts_us_ : Z;
  calc_loss_num_ts_us_ : Z;
  last_ts_us_ : Z;
  last_cache_rtt_ts_us_ : Z
}.
Definition put_created_ts_us_ (v : Z) (r : WinTime) : WinTime :=
  mkWinTime v (current_ts_us_ r) (last_recv_ts_us r) (last_calc_loss_ts_us_ r) (calc_pps_ts_us_ r)
    (lst_rpt_quality_ts_us_ r) (lst_fdbk_loss_ts_us_ r) (calc_loss_num_ts_us_ r) (last_ts_us_ r)
    (last_cache_rtt_ts_us_ r).
Definition put_current_ts_us_ (v : Z) (r : WinTime) : WinTime :=
  mkWinTime (created_ts_us_ r) v (last_recv_ts_us r) (last_calc_loss_ts_us_ r) (calc_pps_ts_us_ r)
    (lst_rpt_quality_ts_us_ r) (lst_fdbk_loss_ts_us_ r) (calc_loss_num_ts_us_ r) (last_ts_us_ r)
    (last_cache_rtt_ts_us_ r).
Definition put_last_recv_ts_us (v : Z) (r : WinTime) : WinTime :=
  mkWinTime (created_ts_us_ r) (current_ts_us_ r) v (last_calc_loss_ts_us_ r) (calc_pps_ts_us_ r)
    (lst_rpt_quality_ts_us_ r) (lst_fdbk_loss_ts_us_ r) (calc_loss_num_ts_us_ r) (last_ts_us_ r)
    (last_cache_rtt_ts_us_ r).
Definition put_last_calc_loss_ts_us_ (v : Z) (r : WinTime) : WinTime :=
  mkWinTime (created_ts_us_ r) (current_ts_us_ r) (last_recv_ts_us r) v (calc_pps_ts_us_ r) (lst_rpt_quality_ts_us_ r)
    (lst_fdbk_loss_ts_us_ r) (calc_loss_num_ts_us_ r) (last_ts_us_ r) (last_cache_rtt_ts_us_ r).
Definition put_calc_pps_ts_us_ (v : Z) (r : WinTime) : WinTime :=
  mkWinTime (created_ts_us_ r) (current_ts_us_ r) (last_recv_ts_us r) (last_calc_loss_ts_us_ r) v
    (lst_rpt_quality_ts_us_ r) (lst_fdbk_loss_ts_us_ r) (calc_loss_num_ts_us_ r) (last_ts_us_ r)
    (last_cache_rtt_ts_us_ r).
Definition put_lst_rpt_quality_ts_us_ (v : Z) (r : WinTime) : WinTime :=
  mkWinTime (created_ts_us_ r) (current_ts_us_ r) (last_recv_ts_us r) (last_calc_loss_ts_us_ r) (calc_pps_ts_us_ r) v
    (lst_fdbk_loss_ts_us_ r) (calc_loss_num_ts_us_ r) (last_ts_us_ r) (last_cache_rtt_ts_us_ r).
Definition put_lst_fdbk_loss_ts_us_ (v : Z) (r : WinTime) : WinTime :=
  mkWinTime (created_ts_us_ r) (current_ts_us_ r) (last_recv_ts_us r) (last_calc_loss_ts_us_ r) (calc_pps_ts_us_ r)
    (lst_rpt_quality_ts_us_ r) v (calc_loss_num_ts_us_ r) (last_ts_us_ r) (last_cache_rtt_ts_us_ r).
Definition put_calc_loss_num_ts_us_ (v : Z) (r : WinTime) : WinTime :=
  mkWinTime (created_ts_us_ r) (current_ts_us_ r) (last_recv_ts_us r) (last_calc_loss_ts_us_ r) (calc_pps_ts_us_ r)
    (lst_rpt_quality_ts_us_ r) (lst_fdbk_loss_ts_us_ r) v (last_ts_us_ r) (last_cache_rtt_ts_us_ r).
Definition put_last_ts_us_ (v : Z) (r : WinTime) : WinTime :=
  mkWinTime (created_ts_us_ r) (current_ts_us_ r) (last_recv_ts_us r) (last_calc_loss_ts_us_ r) (calc_pps_ts_us_ r)
    (lst_rpt_quality_ts_us_ r) (lst_fdbk_loss_ts_us_ r) (calc_loss_num_ts_us_ r) v (last_cache_rtt_ts_us_ r).
Definition put_last_cache_rtt_ts_us_ (v : Z) (r : WinTime) : WinTime :=
  mkWinTime (created_ts_us_ r) (current_ts_us_ r) (last_recv_ts_us r) (last_calc_loss_ts_us_ r) (calc_pps_ts_us_ r)
    (lst_rpt_quality_ts_us_ r) (lst_fdbk_loss_ts_us_ r) (calc_loss_num_ts_us_ r) (last_ts_us_ r) v.

(** Counters, the packet rate and the thresholds for packets out of order. *)
Record WinCount := mkWinCount {
  recv_out_r_counter_ : Z;
  no_calc_loss_sn_num_ : Z;
  last_calc_pps_sn_num_ : Z;
  current_sn_num_ : Z;
  cur_cache_pps_pos_ : Z;
  cache_pps_ring_flg_ : Z;
  pps_sum_ : Z;
  pps_cache_buf_ : list Z;
  avg_pps_ : Z;
  min_calc_loss_sn_num_ : Z;
  min_calc_loss_span_us_ : Z;
  disorder_threshold_ : Z;
  back_rto_sn_num_ : Z;
  rto_sn_num_ : Z;
  learn_rto_sn_std_ : Z;
  disorder_counter_ : Z;
  order_counter_ : Z
}.
Definition put_recv_out_r_counter_ (v : Z) (r : WinCount) : WinCount :=
  mkWinCount v (no_calc_loss_sn_num_ r) (last_calc_pps_sn_num_ r) (current_sn_num_ r) (cur_cache_pps_pos_ r)
    (cache_pps_ring_flg_ r) (pps_sum_ r) (pps_cache_buf_ r) (avg_pps_ r) (min_calc_loss_sn_num_ r)
    (min_calc_loss_span_us_ r) (disorder_threshold_ r) (back_rto_sn_num_ r) (rto_sn_num_ r) (learn_rto_sn_std_ r)
    (disorder_counter_ r) (order_counter_ r).
Definition put_no_calc_loss_sn_num_ (v : Z) (r : WinCount) : WinCount :=
  mkWinCount (recv_out_r_counter_ r) v (last_calc_pps_sn_num_ r) (current_sn_num_ r) (cur_cache_pps_pos_ r)
    (cache_pps_ring_flg_ r) (pps_sum_ r) (pps_cache_buf_ r) (avg_pps_ r) (min_calc_loss_sn_num_ r)
    (min_calc_loss_span_us_ r) (disorder_threshold_ r) (back_rto_sn_num_ r) (rto_sn_num_ r) (learn_rto_sn_std_ r)
    (disorder_counter_ r) (order_counter_ r).
Definition put_last_calc_pps_sn_num_ (v : Z) (r : WinCount) : WinCount :=
  mkWinCount (recv_out_r_counter_ r) (no_calc_loss_sn_num_ r) v (current_sn_num_ r) (cur_cache_pps_pos_ r)
    (cache_pps_ring_flg_ r) (pps_sum_ r) (pps_cache_buf_ r) (avg_pps_ r) (min_calc_loss_sn_num_ r)
    (min_calc_loss_span_us_ r) (disorder_threshold_ r) (back_rto_sn_num_ r) (rto_sn_num_ r) (learn_rto_sn_std_ r)
    (disorder_counter_ r) (order_counter_ r).
Definition put_current_sn_num_ (v : Z) (r : WinCount) : WinCount :=
  mkWinCount (recv_out_r_counter_ r) (no_calc_loss_sn_num_ r) (last_calc_pps_sn_num_ r) v (cur_cache_pps_pos_ r)
    (cache_pps_ring_flg_ r) (pps_sum_ r) (pps_cache_buf_ r) (avg_pps_ r) (min_calc_loss_sn_num_ r)
    (min_calc_loss_span_us_ r) (disorder_threshold_ r) (back_rto_sn_num_ r) (rto_sn_num_ r) (learn_rto_sn_std_ r)
    (disorder_counter_ r) (order_counter_ r).
Definition put_cur_cache_pps_pos_ (v : Z) (r : WinCount) : WinCount :=
  mkWinCount (recv_out_r_counter_ r) (no_calc_loss_sn_num_ r) (last_calc_pps_sn_num_ r) (current_sn_num_ r) v
    (cache_pps_ring_flg_ r) (pps_sum_ r) (pps_cache_buf_ r) (avg_pps_ r) (min_calc_loss_sn_num_ r)
    (min_calc_loss_span_us_ r) (disorder_threshold_ r) (back_rto_sn_num_ r) (rto_sn_num_ r) (learn_rto_sn_std_ r)
    (disorder_counter_ r) (order_counter_ r).
Definition put_cache_pps_ring_flg_ (v : Z) (r : WinCount) : WinCount :=
  mkWinCount (recv_out_r_counter_ r) (no_calc_loss_sn_num_ r) (last_calc_pps_sn_num_ r) (current_sn_num_ r)
    (cur_cache_pps_pos_ r) v (pps_sum_ r) (pps_cache_buf_ r) (avg_pps_ r) (min_calc_loss_sn_num_ r)
    (min_calc_loss_span_us_ r) (disorder_threshold_ r) (back_rto_sn_num_ r) (rto_sn_num_ r) (learn_rto_sn_std_ r)
    (disorder_counter_ r) (order_counter_ r).
Definition put_pps_sum_ (v : Z) (r : WinCount) : WinCount :=
  mkWinCount (recv_out_r_counter_ r) (no_calc_loss_sn_num_ r) (last_calc_pps_sn_num_ r) (current_sn_num_ r)
    (cur_cache_pps_pos_ r) (cache_pps_ring_flg_ r) v (pps_cache_buf_ r) (avg_pps_ r) (min_calc_loss_sn_num_ r)
    (min_calc_loss_span_us_ r) (disorder_threshold_ r) (back_rto_sn_num_ r) (rto_sn_num_ r) (learn_rto_sn_std_ r)
    (disorder_counter_ r) (order_counter_ r).
Definition put_pps_cache_buf_ (v : list Z) (r : WinCount) : WinCount :=
  mkWinCount (recv_out_r_counter_ r) (no_calc_loss_sn_num_ r) (last_calc_pps_sn_num_ r) (current_sn_num_ r)
    (cur_cache_pps_pos_ r) (cache_pps_ring_flg_ r) (pps_sum_ r) v (avg_pps_ r) (min_calc_loss_sn_num_ r)
    (min_calc_loss_span_us_ r) (disorder_threshold_ r) (back_rto_sn_num_ r) (rto_sn_num_ r) (learn_rto_sn_std_ r)
    (disorder_counter_ r) (order_counter_ r).
Definition put_avg_pps_ (v : Z) (r : WinCount) : WinCount :=
  mkWinCount (recv_out_r_counter_ r) (no_calc_loss_sn_num_ r) (last_calc_pps_sn_num_ r) (current_sn_num_ r)
    (cur_cache_pps_pos_ r) (cache_pps_ring_flg_ r) (pps_sum_ r) (pps_cache_buf_ r) v (min_calc_loss_sn_num_ r)
    (min_calc_loss_span_us_ r) (disorder_threshold_ r) (back_rto_sn_num_ r) (rto_sn_num_ r) (learn_rto_sn_std_ r)
    (disorder_counter_ r) (order_counter_ r).
Definition put_min_calc_loss_sn_num_ (v : Z) (r : WinCount) : WinCount :=
  mkWinCount (recv_out_r_counter_ r) (no_calc_loss_sn_num_ r) (last_calc_pps_sn_num_ r) (current_sn_num_ r)
    (cur_cache_pps_pos_ r) (cache_pps_ring_flg_ r) (pps_sum_ r) (pps_cache_buf_ r) (avg_pps_ r) v
    (min_calc_loss_span_us_ r) (disorder_threshold_ r) (back_rto_sn_num_ r) (rto_sn_num_ r) (learn_rto_sn_std_ r)
    (disorder_counter_ r) (order_counter_ r).
Definition put_min_calc_loss_span_us_ (v : Z) (r : WinCount) : WinCount :=
  mkWinCount (recv_out_r_counter_ r) (no_calc_loss_sn_num_ r) (last_calc_pps_sn_num_ r) (current_sn_num_ r)
    (cur_cache_pps_pos_ r) (cache_pps_ring_flg_ r) (pps_sum_ r) (pps_cache_buf_ r) (avg_pps_ r) (min_calc_loss_sn_num_
    r) v (disorder_threshold_ r) (back_rto_sn_num_ r) (rto_sn_num_ r) (learn_rto_sn_std_ r) (disorder_counter_ r)
    (order_counter_ r).
Definition put_disorder_threshold_ (v : Z) (r : WinCount) : WinCount :=
  mkWinCount (recv_out_r_counter_ r) (no_calc_loss_sn_num_ r) (last_calc_pps_sn_num_ r) (current_sn_num_ r)
    (cur_cache_pps_pos_ r) (cache_pps_ring_flg_ r) (pps_sum_ r) (pps_cache_buf_ r) (avg_pps_ r) (min_calc_loss_sn_num_
    r) (min_calc_loss_span_us_ r) v (back_rto_sn_num_ r) (rto_sn_num_ r) (learn_rto_sn_std_ r) (disorder_counter_ r)
    (order_counter_ r).
Definition put_back_rto_sn_num_ (v : Z) (r : WinCount) : WinCount :=
  mkWinCount (recv_out_r_counter_ r) (no_calc_loss_sn_num_ r) (last_calc_pps_sn_num_ r) (current_sn_num_ r)
    (cur_cache_pps_pos_ r) (cache_pps_ring_flg_ r) (pps_sum_ r) (pps_cache_buf_ r) (avg_pps_ r) (min_calc_loss_sn_num_
    r) (min_calc_loss_span_us_ r) (disorder_threshold_ r) v (rto_sn_num_ r) (learn_rto_sn_std_ r) (disorder_counter_
    r) (order_counter_ r).
Definition put_rto_sn_num_ (v : Z) (r : WinCount) : WinCount :=
  mkWinCount (recv_out_r_counter_ r) (no_calc_loss_sn_num_ r) (last_calc_pps_sn_num_ r) (current_sn_num_ r)
    (cur_cache_pps_pos_ r) (cache_pps_ring_flg_ r) (pps_sum_ r) (pps_cache_buf_ r) (avg_pps_ r) (min_calc_loss_sn_num_
    r) (min_calc_loss_span_us_ r) (disorder_threshold_ r) (back_rto_sn_num_ r) v (learn_rto_sn_std_ r)
    (disorder_counter_ r) (order_counter_ r).
Definition put_learn_rto_sn_std_ (v : Z) (r : WinCount) : WinCount :=
  mkWinCount (recv_out_r_counter_ r) (no_calc_loss_sn_num_ r) (last_calc_pps_sn_num_ r) (current_sn_num_ r)
    (cur_cache_pps_pos_ r) (cache_pps_ring_flg_ r) (pps_sum_ r) (pps_cache_buf_ r) (avg_pps_ r) (min_calc_loss_sn_num_
    r) (min_calc_loss_span_us_ r) (disorder_threshold_ r) (back_rto_sn_num_ r) (rto_sn_num_ r) v (disorder_counter_ r)
    (order_counter_ r).
Definition put_disorder_counter_ (v : Z) (r : WinCount) : WinCount :=
  mkWinCount (recv_out_r_counter_ r) (no_calc_loss_sn_num_ r) (last_calc_pps_sn_num_ r) (current_sn_num_ r)
    (cur_cache_pps_pos_ r) (cache_pps_ring_flg_ r) (pps_sum_ r) (pps_cache_buf_ r) (avg_pps_ r) (min_calc_loss_sn_num_
    r) (min_calc_loss_span_us_ r) (disorder_threshold_ r) (back_rto_sn_num_ r) (rto_sn_num_ r) (learn_rto_sn_std_ r) v
    (order_counter_ r).
Definition put_order_counter_ (v : Z) (r : WinCount) : WinCount :=
  mkWinCount (recv_out_r_counter_ r) (no_calc_loss_sn_num_ r) (last_calc_pps_sn_num_ r) (current_sn_num_ r)
    (cur_cache_pps_pos_ r) (cache_pps_ring_flg_ r) (pps_sum_ r) (pps_cache_buf_ r) (avg_pps_ r) (min_calc_loss_sn_num_
    r) (min_calc_loss_span_us_ r) (disorder_threshold_ r) (back_rto_sn_num_ r) (rto_sn_num_ r) (learn_rto_sn_std_ r)
    (disorder_counter_ r) v.

(** Loss rates (times 128) and their reports. *)
Record WinLoss := mkWinLoss {
  loss_ : Z;
  report_loss_ : Z;
  fdbk_loss_ : Z;
  loss_num_ : Z;
  loss_num_in_10s_ : Z;
  loss_direction_ : Z;
  reported_quality_ : Z;
  recv_rto_dec_k_ : Z;
  bit_map_update_ : Z;
  force_calc_num_ : Z;
  disconn_filter_ : Z;
  feedback_loss_span_us_ : Z
}.
Definition put_loss_ (v : Z) (r : WinLoss) : WinLoss :=
  mkWinLoss v (report_loss_ r) (fdbk_loss_ r) (loss_num_ r) (loss_num_in_10s_ r) (loss_direction_ r)
    (reported_quality_ r) (recv_rto_dec_k_ r) (bit_map_update_ r) (force_calc_num_ r) (disconn_filter_ r)
    (feedback_loss_span_us_ r).
Definition put_report_loss_ (v : Z) (r : WinLoss) : WinLoss :=
  mkWinLoss (loss_ r) v (fdbk_loss_ r) (loss_num_ r) (loss_num_in_10s_ r) (loss_direction_ r) (reported_quality_ r)
    (recv_rto_dec_k_ r) (bit_map_update_ r) (force_calc_num_ r) (disconn_filter_ r) (feedback_loss_span_us_ r).
Definition put_fdbk_loss_ (v : Z) (r : WinLoss) : WinLoss :=
  mkWinLoss (loss_ r) (report_loss_ r) v (loss_num_ r) (loss_num_in_10s_ r) (loss_direction_ r) (reported_quality_ r)
    (recv_rto_dec_k_ r) (bit_map_update_ r) (force_calc_num_ r) (disconn_filter_ r) (feedback_loss_span_us_ r).
Definition put_loss_num_ (v : Z) (r : WinLoss) : WinLoss :=
  mkWinLoss (loss_ r) (report_loss_ r) (fdbk_loss_ r) v (loss_num_in_10s_ r) (loss_direction_ r) (reported_quality_ r)
    (recv_rto_dec_k_ r) (bit_map_update_ r) (force_calc_num_ r) (disconn_filter_ r) (feedback_loss_span_us_ r).
Definition put_loss_num_in_10s_ (v : Z) (r : WinLoss) : WinLoss :=
  mkWinLoss (loss_ r) (report_loss_ r) (fdbk_loss_ r) (loss_num_ r) v (loss_direction_ r) (reported_quality_ r)
    (recv_rto_dec_k_ r) (bit_map_update_ r) (force_calc_num_ r) (disconn_filter_ r) (feedback_loss_span_us_ r).
Definition put_loss_direction_ (v : Z) (r : WinLoss) : WinLoss :=
  mkWinLoss (loss_ r) (report_loss_ r) (fdbk_loss_ r) (loss_num_ r) (loss_num_in_10s_ r) v (reported_quality_ r)
    (recv_rto_dec_k_ r) (bit_map_update_ r) (force_calc_num_ r) (disconn_filter_ r) (feedback_loss_span_us_ r).
Definition put_reported_quality_ (v : Z) (r : WinLoss) : WinLoss :=
  mkWinLoss (loss_ r) (report_loss_ r) (fdbk_loss_ r) (loss_num_ r) (loss_num_in_10s_ r) (loss_direction_ r) v
    (recv_rto_dec_k_ r) (bit_map_update_ r) (force_calc_num_ r) (disconn_filter_ r) (feedback_loss_span_us_ r).
Definition put_recv_rto_dec_k_ (v : Z) (r : WinLoss) : WinLoss :=
  mkWinLoss (loss_ r) (report_loss_ r) (fdbk_loss_ r) (loss_num_ r) (loss_num_in_10s_ r) (loss_direction_ r)
    (reported_quality_ r) v (bit_map_update_ r) (force_calc_num_ r) (disconn_filter_ r) (feedback_loss_span_us_ r).
Definition put_bit_map_update_ (v : Z) (r : WinLoss) : WinLoss :=
  mkWinLoss (loss_ r) (report_loss_ r) (fdbk_loss_ r) (loss_num_ r) (loss_num_in_10s_ r) (loss_direction_ r)
    (reported_quality_ r) (recv_rto_dec_k_ r) v (force_calc_num_ r) (disconn_filter_ r) (feedback_loss_span_us_ r).
Definition put_force_calc_num_ (v : Z) (r : WinLoss) : WinLoss :=
  mkWinLoss (loss_ r) (report_loss_ r) (fdbk_loss_ r) (loss_num_ r) (loss_num_in_10s_ r) (loss_direction_ r)
    (reported_quality_ r) (recv_rto_dec_k_ r) (bit_map_update_ r) v (disconn_filter_ r) (feedback_loss_span_us_ r).
Definition put_disconn_filter_ (v : Z) (r : WinLoss) : WinLoss :=
  mkWinLoss (loss_ r) (report_loss_ r) (fdbk_loss_ r) (loss_num_ r) (loss_num_in_10s_ r) (loss_direction_ r)
    (reported_quality_ r) (recv_rto_dec_k_ r) (bit_map_update_ r) (force_calc_num_ r) v (feedback_loss_span_us_ r).
Definition put_feedback_loss_span_us_ (v : Z) (r : WinLoss) : WinLoss :=
  mkWinLoss (loss_ r) (report_loss_ r) (fdbk_loss_ r) (loss_num_ r) (loss_num_in_10s_ r) (loss_direction_ r)
    (reported_quality_ r) (recv_rto_dec_k_ r) (bit_map_update_ r) (force_calc_num_ r) (disconn_filter_ r) v.

(** Round trip time and jitter. *)
Record WinRtt := mkWinRtt {
  cur_rtt_us_ : Z;
  jitter_us_ : Z;
  congest_rank_ : Z;
  rto_ts_us_ : Z;
  feedback_factor_ : spec_float;
  jiiter_sum_ : Z;
  jitter_cache_buf_ : list Z;
  cur_rtt_cache_pos_ : Z;
  cache_rtt_ring_flg_ : Z;
  jitter_arith_sum_ : Z;
  last_jitter_ : Z;
  rtt_dt_sum_ : spec_float;
  avg_rtt_dt_ : spec_float;
  rtt_dt_buf_ : list spec_float;
  ratio_cach_ : spec_float
}.
Definition put_cur_rtt_us_ (v : Z) (r : WinRtt) : WinRtt :=
  mkWinRtt v (jitter_us_ r) (congest_rank_ r) (rto_ts_us_ r) (feedback_factor_ r) (jiiter_sum_ r) (jitter_cache_buf_
    r) (cur_rtt_cache_pos_ r) (cache_rtt_ring_flg_ r) (jitter_arith_sum_ r) (last_jitter_ r) (rtt_dt_sum_ r)
    (avg_rtt_dt_ r) (rtt_dt_buf_ r) (ratio_cach_ r).
Definition put_jitter_us_ (v : Z) (r : WinRtt) : WinRtt :=
  mkWinRtt (cur_rtt_us_ r) v (congest_rank_ r) (rto_ts_us_ r) (feedback_factor_ r) (jiiter_sum_ r) (jitter_cache_buf_
    r) (cur_rtt_cache_pos_ r) (cache_rtt_ring_flg_ r) (jitter_arith_sum_ r) (last_jitter_ r) (rtt_dt_sum_ r)
    (avg_rtt_dt_ r) (rtt_dt_buf_ r) (ratio_cach_ r).
Definition put_congest_rank_ (v : Z) (r : WinRtt) : WinRtt :=
  mkWinRtt (cur_rtt_us_ r) (jitter_us_ r) v (rto_ts_us_ r) (feedback_factor_ r) (jiiter_sum_ r) (jitter_cache_buf_ r)
    (cur_rtt_cache_pos_ r) (cache_rtt_ring_flg_ r) (jitter_arith_sum_ r) (last_jitter_ r) (rtt_dt_sum_ r) (avg_rtt_dt_
    r) (rtt_dt_buf_ r) (ratio_cach_ r).
Definition put_rto_ts_us_ (v : Z) (r : WinRtt) : WinRtt :=
  mkWinRtt (cur_rtt_us_ r) (jitter_us_ r) (congest_rank_ r) v (feedback_factor_ r) (jiiter_sum_ r) (jitter_cache_buf_
    r) (cur_rtt_cache_pos_ r) (cache_rtt_ring_flg_ r) (jitter_arith_sum_ r) (last_jitter_ r) (rtt_dt_sum_ r)
    (avg_rtt_dt_ r) (rtt_dt_buf_ r) (ratio_cach_ r).
Definition put_feedback_factor_ (v : spec_float) (r : WinRtt) : WinRtt :=
  mkWinRtt (cur_rtt_us_ r) (jitter_us_ r) (congest_rank_ r) (rto_ts_us_ r) v (jiiter_sum_ r) (jitter_cache_buf_ r)
    (cur_rtt_cache_pos_ r) (cache_rtt_ring_flg_ r) (jitter_arith_sum_ r) (last_jitter_ r) (rtt_dt_sum_ r) (avg_rtt_dt_
    r) (rtt_dt_buf_ r) (ratio_cach_ r).
Definition put_jiiter_sum_ (v : Z) (r : WinRtt) : WinRtt :=
  mkWinRtt (cur_rtt_us_ r) (jitter_us_ r) (congest_rank_ r) (rto_ts_us_ r) (feedback_factor_ r) v (jitter_cache_buf_
    r) (cur_rtt_cache_pos_ r) (cache_rtt_ring_flg_ r) (jitter_arith_sum_ r) (last_jitter_ r) (rtt_dt_sum_ r)
    (avg_rtt_dt_ r) (rtt_dt_buf_ r) (ratio_cach_ r).
Definition put_jitter_cache_buf_ (v : list Z) (r : WinRtt) : WinRtt :=
  mkWinRtt (cur_rtt_us_ r) (jitter_us_ r) (congest_rank_ r) (rto_ts_us_ r) (feedback_factor_ r) (jiiter_sum_ r) v
    (cur_rtt_cache_pos_ r) (cache_rtt_ring_flg_ r) (jitter_arith_sum_ r) (last_jitter_ r) (rtt_dt_sum_ r) (avg_rtt_dt_
    r) (rtt_dt_buf_ r) (ratio_cach_ r).
Definition put_cur_rtt_cache_pos_ (v : Z) (r : WinRtt) : WinRtt :=
  mkWinRtt (cur_rtt_us_ r) (jitter_us_ r) (congest_rank_ r) (rto_ts_us_ r) (feedback_factor_ r) (jiiter_sum_ r)
    (jitter_cache_buf_ r) v (cache_rtt_ring_flg_ r) (jitter_arith_sum_ r) (last_jitter_ r) (rtt_dt_sum_ r)
    (avg_rtt_dt_ r) (rtt_dt_buf_ r) (ratio_cach_ r).
Definition put_cache_rtt_ring_flg_ (v : Z) (r : WinRtt) : WinRtt :=
  mkWinRtt (cur_rtt_us_ r) (jitter_us_ r) (congest_rank_ r) (rto_ts_us_ r) (feedback_factor_ r) (jiiter_sum_ r)
    (jitter_cache_buf_ r) (cur_rtt_cache_pos_ r) v (jitter_arith_sum_ r) (last_jitter_ r) (rtt_dt_sum_ r) (avg_rtt_dt_
    r) (rtt_dt_buf_ r) (ratio_cach_ r).
Definition put_jitter_arith_sum_ (v : Z) (r : WinRtt) : WinRtt :=
  mkWinRtt (cur_rtt_us_ r) (jitter_us_ r) (congest_rank_ r) (rto_ts_us_ r) (feedback_factor_ r) (jiiter_sum_ r)
    (jitter_cache_buf_ r) (cur_rtt_cache_pos_ r) (cache_rtt_ring_flg_ r) v (last_jitter_ r) (rtt_dt_sum_ r)
    (avg_rtt_dt_ r) (rtt_dt_buf_ r) (ratio_cach_ r).
Definition put_last_jitter_ (v : Z) (r : WinRtt) : WinRtt :=
  mkWinRtt (cur_rtt_us_ r) (jitter_us_ r) (congest_rank_ r) (rto_ts_us_ r) (feedback_factor_ r) (jiiter_sum_ r)
    (jitter_cache_buf_ r) (cur_rtt_cache_pos_ r) (cache_rtt_ring_flg_ r) (jitter_arith_sum_ r) v (rtt_dt_sum_ r)
    (avg_rtt_dt_ r) (rtt_dt_buf_ r) (ratio_cach_ r).
Definition put_rtt_dt_sum_ (v : spec_float) (r : WinRtt) : WinRtt :=
  mkWinRtt (cur_rtt_us_ r) (jitter_us_ r) (congest_rank_ r) (rto_ts_us_ r) (feedback_factor_ r) (jiiter_sum_ r)
    (jitter_cache_buf_ r) (cur_rtt_cache_pos_ r) (cache_rtt_ring_flg_ r) (jitter_arith_sum_ r) (last_jitter_ r) v
    (avg_rtt_dt_ r) (rtt_dt_buf_ r) (ratio_cach_ r).
Definition put_avg_rtt_dt_ (v : spec_float) (r : WinRtt) : WinRtt :=
  mkWinRtt (cur_rtt_us_ r) (jitter_us_ r) (congest_rank_ r) (rto_ts_us_ r) (feedback_factor_ r) (jiiter_sum_ r)
    (jitter_cache_buf_ r) (cur_rtt_cache_pos_ r) (cache_rtt_ring_flg_ r) (jitter_arith_sum_ r) (last_jitter_ r)
    (rtt_dt_sum_ r) v (rtt_dt_buf_ r) (ratio_cach_ r).
Definition put_rtt_dt_buf_ (v : list spec_float) (r : WinRtt) : WinRtt :=
  mkWinRtt (cur_rtt_us_ r) (jitter_us_ r) (congest_rank_ r) (rto_ts_us_ r) (feedback_factor_ r) (jiiter_sum_ r)
    (jitter_cache_buf_ r) (cur_rtt_cache_pos_ r) (cache_rtt_ring_flg_ r) (jitter_arith_sum_ r) (last_jitter_ r)
    (rtt_dt_sum_ r) (avg_rtt_dt_ r) v (ratio_cach_ r).
Definition put_ratio_cach_ (v : spec_float) (r : WinRtt) : WinRtt :=
  mkWinRtt (cur_rtt_us_ r) (jitter_us_ r) (congest_rank_ r) (rto_ts_us_ r) (feedback_factor_ r) (jiiter_sum_ r)
    (jitter_cache_buf_ r) (cur_rtt_cache_pos_ r) (cache_rtt_ring_flg_ r) (jitter_arith_sum_ r) (last_jitter_ r)
    (rtt_dt_sum_ r) (avg_rtt_dt_ r) (rtt_dt_buf_ r) v.

(** What a window tells its owner through its two callbacks: the quality of the
    link, a list of missing packets, or the bitmap of the received ones. *)
Inductive WinReport :=
  | RptNetworkQuality (rtt jitter : Z) (loss : spec_float) (discard_dir congest rto pps loss_num : Z)
  | RptNack (head_sn tail_sn recv_loss nack_num cache_ts_us rto_sn : Z) (nack_ : list Z)
  | RptAck (head_sn tail_sn recv_loss cache_ts_us rto_sn : Z) (sn_bit_map : list Z).

Record SlidWin := mkSlidWin {
  geo : WinGeo;
  tm : WinTime;
  cnt : WinCount;
  lss : WinLoss;
  rtt : WinRtt;
  min_stable_us_ : Z;
  slid_win_mode_ : Z;
  filter_win_flag_ : Z;
  reports : list WinReport
}.
Definition on_geo (f : WinGeo -> WinGeo) (s : SlidWin) : SlidWin :=
  mkSlidWin (f (geo s)) (tm s) (cnt s) (lss s) (rtt s) (min_stable_us_ s) (slid_win_mode_ s) (filter_win_flag_ s) (reports s).
Definition on_tm (f : WinTime -> WinTime) (s : SlidWin) : SlidWin :=
  mkSlidWin (geo s) (f (tm s)) (cnt s) (lss s) (rtt s) (min_stable_us_ s) (slid_win_mode_ s) (filter_win_flag_ s) (reports s).
Definition on_cnt (f : WinCount -> WinCount) (s : SlidWin) : SlidWin :=
  mkSlidWin (geo s) (tm s) (f (cnt s)) (lss s) (rtt s) (min_stable_us_ s) (slid_win_mode_ s) (filter_win_flag_ s) (reports s).
Definition on_lss (f : WinLoss -> WinLoss) (s : SlidWin) : SlidWin :=
  mkSlidWin (geo s) (tm s) (cnt s) (f (lss s)) (rtt s) (min_stable_us_ s) (slid_win_mode_ s) (filter_win_flag_ s) (reports s).
Definition on_rtt (f : WinRtt -> WinRtt) (s : SlidWin) : SlidWin :=
  mkSlidWin (geo s) (tm s) (cnt s) (lss s) (f (rtt s)) (min_stable_us_ s) (slid_win_mode_ s) (filter_win_flag_ s) (reports s).
Definition report (r : WinReport) (s : SlidWin) : SlidWin :=
  mkSlidWin (geo s) (tm s) (cnt s) (lss s) (rtt s) (min_stable_us_ s) (slid_win_mode_ s) (filter_win_flag_ s) (reports s ++ [r]).

End SlidWinState.
