(* ===== verification/SlidWin.v ===== *)
(** * Sliding windows

    [SlidWin] (src/src/slidwin/slidwin.cpp) in the configuration the library is
    built in (APPLICATION_TYPE 2: a ring of 8192 positions with a window of
    4096): entering sequence numbers, moving the window, recognising repeated
    packets, the loss and packet rates of receiver and sender. *)
From S2P Require Import Prelude Float32 SlidWinState.
Export Float32 SlidWinState.

Module SlidWin.

Definition kSendSlidWinMode : Z := 0.
Definition kRecvSlidWinMode : Z := 1.
Definition SELF_NO : Z := 0.
Definition SELF_YES : Z := 1.
Definition SELF_SUCESS : Z := 0.
Definition SELF_ERROR : Z := -1.
Definition SELF_SN_OUT_L_ERR : Z := 0x10000001.
Definition SELF_SN_OUT_R_ERR : Z := 0x20000002.
Definition kSnIsInvalid : Z := 4.
Definition kNoSupportSetParam : Z := 5.
Definition RESET_WIN_RETURN : Z := 0xA5A55A5A.
Definition kUpLinkerLoss : Z := 0.
Definition kDownLinkerLoss : Z := 1.
Definition kUnknownGenCongest : Z := 4.
Definition WIN_POS_MASK : Z := 0x1FFF.
Definition WIN_BUF_SIZE : Z := 8192.
Definition SLID_WIN_U64_BUF_SZ : Z := 128.
Definition MIN_WIN_SZ : Z := 4096.
Definition MAX_WIN_SZ : Z := 6144.
Definition MIN_MOVE_STEP : Z := 64.
Definition MAX_MOVE_STEP : Z := 3072.
Definition MIN_RSV_WIN_BIT_SZ : Z := 64.
Definition MIN_MOVE_STEP_BIT_MASK : Z := 0xFFC0.
Definition MIN_CALC_LOSS_SN_NUM : Z := 3.
Definition MIN_LEARN_THRESHOLD : Z := 3.
Definition DEFAULT_DISORDER_NUM : Z := 2.
Definition MAX_RESET_RECV_WIN_THRSHLD : Z := 4.
Definition MAX_FEEDBACK_NACK_SN_NUM : Z := 12.
(** (COM_CACHE_SIZE - sizeof(NackData)) / 2 *)
Definition MAX_SAVE_LOSS_SN_NUM : Z := 755.
Definition DEFAULT_CALC_LOSS_SPAN_US : Z := 100000.
Definition DEFAULT_RTO_TS_US : Z := 450000.
Definition MAX_DISORDER_BUF_US : Z := 10000.
Definition MIN_DISORDER_BUF_US : Z := 1000.
Definition MAX_FEEDBACK_SPAN_US : Z := 800000.
Definition MIN_RTO_TS_US : Z := 25000.
Definition DEFAULT_RECV_RTO_DEC_K : Z := 8.
Definition MIN_RECV_RTO_DEC_K : Z := 1.
Definition MAX_RECV_RTO_DEC_K : Z := 30.
Definition EXPNAD_LOSS_PACTOR_INT : Z := 12.
Definition MAX_FORCE_NUM_BITMAP_UN_CHG : Z := 3.

Local Abbreviation WM := (ST SlidWin).

(** [TsUsU64ToU16Ms], [CalcDeltaTsMs] *)
Definition TsUsToU16Ms (ts_us : Z) : Z := Z.land (ts_us / 1000) 0xFFFF.
Definition CalcDeltaTsMs (now_ms old_ms : Z) : Z :=
  u16 (if old_ms <=? now_ms then now_ms - old_ms else 0xFFFF - old_ms + now_ms).
(** The place of a position behind the left border, around the ring. *)
Definition SnPosToSpan (l_border_pos cur_sn_pos : Z) : Z :=
  if l_border_pos <=? cur_sn_pos then cur_sn_pos - l_border_pos else (WIN_BUF_SIZE - l_border_pos) + cur_sn_pos.

(** Array accesses; outside the array they are faults. *)
Definition at_pos (l : list Z) (i : Z) : option Z := if 0 <=? i then l !! Z.to_nat i else None.
Definition put_at (l : list Z) (i v : Z) : option (list Z) :=
  if (0 <=? i) && (i <? Z.of_nat (length l)) then Some (<[Z.to_nat i := v]> l) else None.

(** ** Start *)

(** [ResetWin].  It clears the bitmap of the window, not of the whole ring, and
    leaves the time stamps, [report_loss_], [reported_quality_],
    [force_calc_num_] and [ratio_cach_] as they are. *)
Definition ResetWin (current_sn ts_us : Z) (s : SlidWin) : SlidWin :=
  mkSlidWin
    (mkWinGeo 0 MIN_WIN_SZ current_sn (u32 (current_sn + MIN_WIN_SZ)) MIN_WIN_SZ 0 current_sn 0 0 current_sn
       (replicate 64 0 ++ drop 64 (sn_bit_map_ (geo s))) (sn_ts_ms_ (geo s)))
    (mkWinTime (created_ts_us_ (tm s)) ts_us ts_us ts_us (u64 (ts_us + 1000000)) ts_us 0 ts_us 0 ts_us)
    (mkWinCount 0 0 0 0 0 SELF_NO 0 (replicate 4 0) 0 MIN_CALC_LOSS_SN_NUM DEFAULT_CALC_LOSS_SPAN_US
       MIN_LEARN_THRESHOLD DEFAULT_DISORDER_NUM DEFAULT_DISORDER_NUM DEFAULT_DISORDER_NUM 0 0)
    (mkWinLoss 0 (report_loss_ (lss s)) 0 0 0
       (if kSendSlidWinMode =? slid_win_mode_ s then kUpLinkerLoss else kDownLinkerLoss)
       (reported_quality_ (lss s)) DEFAULT_RECV_RTO_DEC_K SELF_NO (force_calc_num_ (lss s)) 0 MAX_FEEDBACK_SPAN_US)
    (mkWinRtt 0 0 kUnknownGenCongest
       (if kSendSlidWinMode =? slid_win_mode_ s then DEFAULT_RTO_TS_US else MAX_DISORDER_BUF_US)
       (f32_of_Z 1) 0 (replicate 16 0) 0 SELF_NO 0 0 (S754_zero false) (S754_zero false)
       (S754_zero false :: tail (rtt_dt_buf_ (rtt s))) (ratio_cach_ (rtt s)))
    (min_stable_us_ s) (slid_win_mode_ s) (filter_win_flag_ s) (reports s).

(** The constructor, on memory that holds [junk]. *)
Definition win_ctor (current_sn ts_us min_stable_us mode filter_flag : Z) (junk : SlidWin) : SlidWin :=
  ResetWin current_sn ts_us
    (mkSlidWin (geo junk) (put_created_ts_us_ ts_us (tm junk)) (cnt junk)
       (put_bit_map_update_ SELF_NO (put_force_calc_num_ 0 (put_reported_quality_ SELF_NO (lss junk))))
       (rtt junk) min_stable_us (Z.land mode 0xF) (Z.land filter_flag 0xF) []).

(** ** Positions *)

(** The distance of a sequence number from the left border, as the code
    computes it. *)
Definition l_span (l_border_sn sn : Z) : Z :=
  if l_border_sn <=? sn then sn - l_border_sn else u32 (sn + (0xFFFFFFFF - l_border_sn)).

(** [SnIsValid] *)
Definition SnIsValid (cur_sn : Z) (g : WinGeo) : Z :=
  let l := l_border_sn_ g in
  let r := r_border_sn_ g in
  if cur_win_size_ g <? l_span l cur_sn then
    if l <=? r then
      if cur_sn <? l then SELF_SN_OUT_L_ERR else if r <? cur_sn then SELF_SN_OUT_R_ERR else SELF_ERROR
    else
      let delta_to_r := if r <? cur_sn then cur_sn - r else 0 in
      let delta_to_l := if cur_sn <? l then l - cur_sn else 0 in
      if negb (0 =? delta_to_r) && (delta_to_r <? delta_to_l) then SELF_SN_OUT_R_ERR
      else if negb (0 =? delta_to_l) && (delta_to_l <? delta_to_r) then SELF_SN_OUT_L_ERR
      else SELF_ERROR
  else SELF_SUCESS.

(** [IsMoveWin]: the step the window should move, -1 for a reset. *)
Definition IsMoveWin (cur_sn_pos : Z) (g : WinGeo) : Z :=
  let cur_span := SnPosToSpan (l_border_pos_ g) cur_sn_pos in
  let half := Z.shiftr (cur_win_size_ g) 1 in
  if cur_span <? half then 0
  else
    let mid_pos := Z.land (l_border_pos_ g + half) WIN_POS_MASK in
    let mv_step := Z.land (SnPosToSpan mid_pos cur_sn_pos) 0xFFFFFFC0 + MIN_MOVE_STEP in
    if MAX_MOVE_STEP <? mv_step then -1 else mv_step.

(** [UpdateMaxSnPos] *)
Definition UpdateMaxSnPos (current_sn_pos sn : Z) (g : WinGeo) : WinGeo :=
  let cur_span := SnPosToSpan (l_border_pos_ g) current_sn_pos in
  if cur_win_size_ g <? cur_span then g
  else
    let max_span := SnPosToSpan (l_border_pos_ g) (max_sn_pos_ g) in
    if max_span <=? cur_span then
      put_expect_next_recv_sn_ (u32 (sn + 1)) (put_max_sn_span_ max_span (put_max_sn_ sn (put_max_sn_pos_ current_sn_pos g)))
    else g.

(** [CalcFilterWinReserveSize], [CalcTranWinReserveSize]: how much of the left
    part a move leaves, by packet rate and round trip time. *)
Definition pick (table : list (list Z)) (row column : Z) : Z := nth (Z.to_nat column) (nth (Z.to_nat row) table []) 0.
(** The first threshold above [v]. *)
Fixpoint row_of (std : list Z) (v : Z) : Z :=
  match std with [] => 0 | x :: std' => if v <? x then 0 else 1 + row_of std' v end.
Definition CalcFilterWinReserveSize (avg_pps cur_rtt_us : Z) : Z :=
  pick [[256; 256; 256; 256]; [256; 256; 256; 256]; [320; 320; 320; 320]; [384; 384; 384; 384];
        [448; 448; 448; 448]; [512; 512; 512; 512]]
    (row_of [50; 100; 150; 200; 300] avg_pps) (row_of [50000; 100000; 150000] cur_rtt_us).
Definition CalcTranWinReserveSize (avg_pps cur_rtt_us : Z) : Z :=
  pick [[128; 128; 192; 192]; [192; 192; 192; 256]; [192; 256; 256; 320]; [256; 256; 320; 384];
        [320; 320; 384; 448]; [448; 448; 448; 512]; [512; 512; 512; 640]; [640; 640; 640; 768]]
    (row_of [50; 100; 150; 200; 300; 400; 500] avg_pps) (row_of [50000; 100000; 150000] cur_rtt_us).

(** [ClearMemory]: the entries from [move_pos] around the ring up to [end_pos]
    and that one. *)
Fixpoint ClearMemory (fuel : nat) (mem : list Z) (mem_size move_pos end_pos : Z) : option (list Z) :=
  match fuel with
  | O => None
  | S fuel' =>
      mem ← put_at mem move_pos 0;
      let move_pos := move_pos + 1 in
      let move_pos := if mem_size <=? move_pos then 0 else move_pos in
      if negb (move_pos =? end_pos) then ClearMemory fuel' mem mem_size move_pos end_pos
      else put_at mem move_pos 0
  end.
(** [memset] of the entries from [b] to [e]. *)
Definition clear_span (mem : list Z) (b e : Z) : option (list Z) :=
  if (0 <=? b) && (e <=? Z.of_nat (length mem))
  then Some (take (Z.to_nat b) mem ++ replicate (Z.to_nat (e - b)) 0 ++ drop (Z.to_nat e) mem) else None.
(** The new part of the ring. *)
Definition clear_new (mem : list Z) (size b e : Z) : option (list Z) :=
  if b <=? e then clear_span mem b e else ClearMemory (Z.to_nat size) mem size b e.
Definition block_of (pos : Z) : Z := let b := Z.shiftr pos 6 in if SLID_WIN_U64_BUF_SZ <=? b then 0 else b.

(** [MoveWin] *)
Definition MoveWin (move_step : Z) : WM unit :=
  s ← get_st;
  if move_step <=? MIN_RSV_WIN_BIT_SZ then mret tt
  else
    let reserve_size :=
      if SELF_YES =? filter_win_flag_ s then CalcFilterWinReserveSize (avg_pps_ (cnt s)) (cur_rtt_us_ (rtt s))
      else CalcTranWinReserveSize (avg_pps_ (cnt s)) (cur_rtt_us_ (rtt s)) in
    if move_step <=? reserve_size then mret tt
    else
      let valid_move_step := Z.land (move_step - reserve_size) MIN_MOVE_STEP_BIT_MASK in
      if 0 =? valid_move_step then mret tt
      else
        let g := geo s in
        let old_r := r_border_pos_ g in
        let new_r := Z.land (old_r + valid_move_step) WIN_POS_MASK in
        let new_l := Z.land (l_border_pos_ g + valid_move_step) WIN_POS_MASK in
        ts ← deref (clear_new (sn_ts_ms_ g) WIN_BUF_SIZE old_r new_r);
        bm ← deref (clear_new (sn_bit_map_ g) SLID_WIN_U64_BUF_SZ (block_of old_r) (block_of new_r));
        mod_st (on_geo (fun g =>
          mkWinGeo new_l new_r (u32 (l_border_sn_ g + valid_move_step)) (u32 (r_border_sn_ g + valid_move_step))
            (if new_l <=? new_r then new_r - new_l else (WIN_BUF_SIZE - new_l) + new_r)
            (max_sn_pos_ g) (max_sn_ g) (max_sn_span_ g) (max_rcv_sn_pos_ g) (expect_next_recv_sn_ g) bm ts)).

(** ** Packet rate and order *)

(** [CalcPps], once a second *)
Definition std_rto_sn : list (list Z) :=
  [[1; 1; 2; 2; 2; 3; 3]; [1; 2; 2; 2; 2; 3; 4]; [1; 2; 2; 2; 3; 3; 4]; [1; 2; 2; 2; 3; 4; 4];
   [1; 2; 2; 3; 3; 4; 4]; [1; 2; 2; 3; 3; 4; 4]; [1; 2; 2; 3; 3; 4; 4]; [1; 2; 3; 3; 3; 5; 5]].
Definition pps_shift (avg_pps : Z) : Z := nth (Z.to_nat (row_of [50; 100; 150; 200; 300; 400; 500] avg_pps)) [5; 5; 4; 4; 4; 4; 5; 6] 0.
Definition CalcPps (ts_us : Z) (s : SlidWin) : SlidWin :=
  if ts_us <? calc_pps_ts_us_ (tm s) then s
  else
    let c := cnt s in
    let n := if last_calc_pps_sn_num_ c <=? current_sn_num_ c then current_sn_num_ c - last_calc_pps_sn_num_ c
             else u32 (current_sn_num_ c + 0xFFFFFFFF - last_calc_pps_sn_num_ c + 1) in
    let sum := u32 (pps_sum_ c + n - nth (Z.to_nat (cur_cache_pps_pos_ c)) (pps_cache_buf_ c) 0) in
    let cache := <[Z.to_nat (cur_cache_pps_pos_ c) := n]> (pps_cache_buf_ c) in
    let pos := Z.land (cur_cache_pps_pos_ c + 1) 3 in
    let ring := if 0 =? pos then SELF_YES else cache_pps_ring_flg_ c in
    let avg := if SELF_YES =? ring then Z.shiftr sum 2 else sum / pos in
    let threshold := let t := u16 (Z.shiftr avg 6) in if t <? MIN_LEARN_THRESHOLD then MIN_LEARN_THRESHOLD else t in
    let back := pick std_rto_sn (row_of [50; 100; 150; 200; 300; 400; 500] avg)
                  (row_of [20000; 50000; 100000; 150000; 200000; 250000] (cur_rtt_us_ (rtt s))) in
    let m := f_to_Z (f32_mul (f32_of_Z (Z.shiftr avg (pps_shift avg))) (feedback_factor_ (rtt s))) in
    let m := if m <? MIN_CALC_LOSS_SN_NUM then MIN_CALC_LOSS_SN_NUM else m in
    on_tm (put_calc_pps_ts_us_ (u64 (ts_us + 1000000)))
      (on_cnt (fun c => mkWinCount (recv_out_r_counter_ c) (no_calc_loss_sn_num_ c) (current_sn_num_ c) (current_sn_num_ c)
         pos ring sum cache avg m (min_calc_loss_span_us_ c) threshold back (rto_sn_num_ c) (learn_rto_sn_std_ c)
         (disorder_counter_ c) (order_counter_ c)) s).

(** [CheckRealExistLoss]: whether a packet out of order calls for an
    acknowledgement at once. *)
Definition disorder_std : list (list Z) := [[0; 1]; [1; 3]; [1; 5]; [2; 7]; [3; 9]; [5; 11]].
Definition disorder_span (expect cur_sn : Z) : Z :=
  if expect <? cur_sn then
    if (expect <? 1000) && (0x7FFFFFFF <? cur_sn) then u32 (expect + (0xFFFFFFFF - cur_sn)) else cur_sn - expect
  else if (cur_sn <? 1000) && (0x7FFFFFFF <? expect) then u32 (cur_sn + (0xFFFFFFFF - expect))
  else expect - cur_sn.
Definition disorder_flag (avg_pps cur_rtt_us temp_span : Z) : Z :=
  if avg_pps <? 200 then (if negb (0 =? temp_span) then SELF_YES else SELF_NO)
  else if avg_pps <? 500 then (if 1 <? temp_span then SELF_YES else SELF_NO)
  else if avg_pps <? 1000 then (if 1 <? temp_span then SELF_YES else SELF_NO)
  else
    let std_index := if 2000 <=? avg_pps then 1 else 0 in
    let row := row_of [10001; 40001; 80001; 200001; 300001] cur_rtt_us in
    if pick disorder_std row std_index <? temp_span then SELF_YES else SELF_NO.
Definition CheckRealExistLoss (cur_sn cur_ts : Z) (s : SlidWin) : Z * SlidWin :=
  if 0 =? last_ts_us_ (tm s) then
    (SELF_NO, on_tm (fun t =>
       let t := put_last_ts_us_ (Z.land cur_ts 0xFFFFFFFF) (put_last_calc_loss_ts_us_ cur_ts t) in
       if u64 (created_ts_us_ t + 50000) <=? cur_ts then put_created_ts_us_ cur_ts t else t) s)
  else
    let s := on_tm (put_last_ts_us_ (Z.land cur_ts 0xFFFFFFFF)) s in
    let expect := expect_next_recv_sn_ (geo s) in
    if expect =? cur_sn then (SELF_NO, s)
    else (disorder_flag (avg_pps_ (cnt s)) (cur_rtt_us_ (rtt s)) (disorder_span expect cur_sn), s).

(** ** The search for missing packets *)

(** [GetRtoTmoutPos] by time and by sequence number: binary searches. *)
Fixpoint GetRtoTmoutPos_ts (fuel : nat) (ts : list Z) (begin_pos end_pos rto_ts_ms cur_ts_ms : Z) : option Z :=
  match fuel with
  | O => None
  | S fuel' =>
      if end_pos <=? begin_pos then Some begin_pos
      else
        tb ← at_pos ts begin_pos;
        if CalcDeltaTsMs cur_ts_ms tb <=? rto_ts_ms then Some begin_pos
        else
          te ← at_pos ts end_pos;
          if rto_ts_ms <=? CalcDeltaTsMs cur_ts_ms te then Some end_pos
          else
            let mid_pos := Z.shiftr (end_pos - begin_pos) 1 + begin_pos in
            tmid ← at_pos ts mid_pos;
            let delta_ms := CalcDeltaTsMs cur_ts_ms tmid in
            if rto_ts_ms =? delta_ms then Some mid_pos
            else if rto_ts_ms <? delta_ms then GetRtoTmoutPos_ts fuel' ts (begin_pos + 1) (mid_pos - 1) rto_ts_ms cur_ts_ms
            else GetRtoTmoutPos_ts fuel' ts (mid_pos + 1) (end_pos - 1) rto_ts_ms cur_ts_ms
  end.
(** The distance to the largest sequence number, one short around the ring. *)
Definition delta_to_max (pos max_sn_pos : Z) : Z :=
  u16 (if pos <=? max_sn_pos then max_sn_pos - pos else max_sn_pos + (WIN_POS_MASK - pos)).
Fixpoint GetRtoTmoutPos_sn (fuel : nat) (rto_sn_num begin_pos end_pos max_sn_pos : Z) : option Z :=
  match fuel with
  | O => None
  | S fuel' =>
      if end_pos <=? begin_pos then Some begin_pos
      else if delta_to_max begin_pos max_sn_pos <=? rto_sn_num then Some begin_pos
      else if rto_sn_num <=? delta_to_max end_pos max_sn_pos then Some end_pos
      else
        let mid_pos := Z.shiftr (end_pos - begin_pos) 1 + begin_pos in
        let delta_sn := delta_to_max mid_pos max_sn_pos in
        if rto_sn_num =? delta_sn then Some mid_pos
        else if rto_sn_num <? delta_sn then GetRtoTmoutPos_sn fuel' rto_sn_num (begin_pos + 1) (mid_pos - 1) max_sn_pos
        else GetRtoTmoutPos_sn fuel' rto_sn_num (mid_pos + 1) (end_pos - 1) max_sn_pos
  end.

(** The local variables of [CalcRcvLoss]; [sc_saved]: the offsets of the missing
    packets written for the report. *)
Record Scan := mkScan {
  sc_block_loop : Z;
  sc_move_pos : Z;
  sc_loss_num : Z;
  sc_rto_pos : Z;
  sc_block_1 : Z;
  sc_head : Z;
  sc_delta_ms : Z;
  sc_empty_hole : bool;
  sc_cur_span : Z;
  sc_saved : list Z
}.

Section Scan.
(** What the search reads: the window, the tolerances, the position behind the
    largest sequence number and its distance from the left border. *)
Context (g : WinGeo) (rto_ts_ms ts_ms rto_sn_num tmp_max_sn_pos max_sn_span : Z).

Definition save_lost (offset : Z) (saved : list Z) : list Z :=
  if Z.of_nat (length saved) <? MAX_SAVE_LOSS_SN_NUM then saved ++ [u16 offset] else saved.
Fixpoint save_run (n : nat) (offset : Z) (saved : list Z) : list Z :=
  match n with O => saved | S n' => save_run n' (offset + 1) (save_lost offset saved) end.
(** [delta_pos] of a position from the left border. *)
Definition lost_offset (pos : Z) : Z :=
  u16 (if l_border_pos_ g <=? pos then pos - l_border_pos_ g else pos + (WIN_POS_MASK - l_border_pos_ g) + 1).

(** One bit after another of the block ([calc_bit_discard_pos_]); true: the
    search ends here. *)
Fixpoint bit_scan (n : nat) (word bit_loop : Z) (c : Scan) : option (Scan * bool) :=
  match n with
  | O => Some (c, false)
  | S n' =>
      if negb (sc_cur_span c <? max_sn_span) then Some (c, false)
      else
        let pos := sc_move_pos c in
        let next (c : Scan) : option (Scan * bool) :=
          let pos' := Z.land (pos + 1) WIN_POS_MASK in
          bit_scan n' word (bit_loop + 1)
            (mkScan (sc_block_loop c) pos' (sc_loss_num c) (sc_rto_pos c) (sc_block_1 c) (sc_head c) (sc_delta_ms c)
               (sc_empty_hole c) (SnPosToSpan (l_border_pos_ g) pos') (sc_saved c)) in
        if negb (Z.testbit word bit_loop) then
          if (if sc_delta_ms c <=? rto_ts_ms then delta_to_max pos tmp_max_sn_pos <=? rto_sn_num
              else delta_to_max pos tmp_max_sn_pos <=? rto_sn_num)
          then Some (c, true)
          else next (mkScan (sc_block_loop c) pos (u32 (sc_loss_num c + 1)) pos (sc_block_1 c) (sc_head c) (sc_delta_ms c)
                       (sc_empty_hole c) (sc_cur_span c) (save_lost (lost_offset pos) (sc_saved c)))
        else
          t ← at_pos (sn_ts_ms_ g) pos;
          next (mkScan (sc_block_loop c) pos (sc_loss_num c) pos (sc_block_1 c) (sc_head c) (CalcDeltaTsMs ts_ms t)
                  (sc_empty_hole c) (sc_cur_span c) (sc_saved c))
  end.

(** A block all of whose packets have arrived. *)
Definition full_block (c : Scan) : option (Scan * bool) :=
  let tail := Z.land (sc_head c + 63) WIN_POS_MASK in
  let block_1 := if sc_empty_hole c then sc_block_1 c else Z.land (sc_block_1 c + 64) WIN_POS_MASK in
  let pos' := Z.land (sc_move_pos c + 64) WIN_POS_MASK in
  let out (delta rto_pos : Z) : option (Scan * bool) :=
    Some (mkScan (sc_block_loop c) pos' (sc_loss_num c) rto_pos block_1 (sc_head c) delta (sc_empty_hole c)
            (sc_cur_span c) (sc_saved c), false) in
  if 0 =? sc_loss_num c then t ← at_pos (sn_ts_ms_ g) tail; out (CalcDeltaTsMs ts_ms t) tail
  else
    t ← at_pos (sn_ts_ms_ g) (sc_head c);
    let delta := CalcDeltaTsMs ts_ms t in
    if delta <? rto_ts_ms then out delta (sc_rto_pos c)
    else
      t ← at_pos (sn_ts_ms_ g) tail;
      let delta := CalcDeltaTsMs ts_ms t in
      if rto_ts_ms <=? delta then out delta tail
      else r ← GetRtoTmoutPos_ts 64 (sn_ts_ms_ g) (sc_head c) tail rto_ts_ms ts_ms; out delta r.

(** A block none of whose packets has arrived. *)
Definition empty_block (c : Scan) : option (Scan * bool) :=
  let tail := Z.land (sc_head c + 63) WIN_POS_MASK in
  if sc_delta_ms c <=? rto_ts_ms then Some (c, true)
  else
    r ← GetRtoTmoutPos_sn 64 rto_sn_num (sc_head c) tail tmp_max_sn_pos;
    let c1 := mkScan (sc_block_loop c) (sc_move_pos c) (sc_loss_num c) r (sc_block_1 c) (sc_head c) (sc_delta_ms c)
                (sc_empty_hole c) (sc_cur_span c) (sc_saved c) in
    if sc_head c =? r then Some (c1, true)
    else
      let stop := negb (tail =? r) in
      let cach_pos := if stop then u32 (r - sc_head c + 1) else 64 in
      Some (mkScan (sc_block_loop c) (Z.land (sc_move_pos c + cach_pos) WIN_POS_MASK) (u32 (sc_loss_num c + cach_pos)) r
              (sc_block_1 c) (sc_head c) (sc_delta_ms c) (sc_empty_hole c) (sc_cur_span c)
              (save_run (Z.to_nat cach_pos) (lost_offset (sc_move_pos c)) (sc_saved c)), stop).

Definition mixed_block (word : Z) (c : Scan) : option (Scan * bool) :=
  let dp := delta_to_max (sc_move_pos c) tmp_max_sn_pos in
  if negb (0 =? sc_loss_num c) && ((sc_delta_ms c <=? rto_ts_ms) || (dp <=? rto_sn_num)) then Some (c, true)
  else bit_scan 64 word 0 c.

(** One block; its head and tail are the sixty-four positions it stands for. *)
Definition scan_block (c : Scan) : option (Scan * bool) :=
  let tail := Z.land (sc_head c + 63) WIN_POS_MASK in
  word ← at_pos (sn_bit_map_ g) (sc_block_loop c);
  if (sc_head c <=? tmp_max_sn_pos) && (tmp_max_sn_pos <? tail) then mixed_block word c
  else if 0xFFFFFFFFFFFFFFFF =? word then full_block c
  else
    let c := mkScan (sc_block_loop c) (sc_move_pos c) (sc_loss_num c) (sc_rto_pos c) (sc_block_1 c) (sc_head c)
               (sc_delta_ms c) true (sc_cur_span c) (sc_saved c) in
    if 0 =? word then empty_block c else mixed_block word c.

(** [next_block_loop_pos_] *)
Definition next_block (c : Scan) : Scan :=
  let pos := Z.land (sc_move_pos c) WIN_POS_MASK in
  let b := sc_block_loop c + 1 in
  mkScan (if SLID_WIN_U64_BUF_SZ <=? b then 0 else b) pos (sc_loss_num c) (sc_rto_pos c) (sc_block_1 c)
    (Z.land (sc_head c + 64) WIN_POS_MASK) (sc_delta_ms c) (sc_empty_hole c) (SnPosToSpan (l_border_pos_ g) pos) (sc_saved c).

Fixpoint scan_loop (fuel : nat) (c : Scan) : option Scan :=
  match fuel with
  | O => None
  | S fuel' =>
      r ← scan_block c;
      let (c, stop) := r : Scan * bool in
      if stop : bool then Some c
      else
        let c := next_block c in
        if sc_cur_span c <? max_sn_span then scan_loop fuel' c else Some c
  end.
End Scan.

Definition scan_start (g : WinGeo) : Scan :=
  mkScan (Z.shiftr (l_border_pos_ g) 6) (l_border_pos_ g) 0 (l_border_pos_ g) (l_border_pos_ g) (l_border_pos_ g)
    0xFFFF false 0 [].

(** ** The loss rate of the receiver *)

(** How many packets may be out of order before they count as missing. *)
Definition adjust_rto_sn_num (c : Scan) (max_sn_span : Z) (s : SlidWin) : SlidWin :=
  let in_order := (max_sn_span <=? sc_cur_span c) && (0 =? sc_loss_num c) in
  let k := cnt s in
  let order := if in_order then u16 (order_counter_ k + 1) else 0 in
  let disorder := if in_order then 0 else u16 (disorder_counter_ k + 1) in
  let upd (rto_sn disorder order : Z) : SlidWin :=
    on_cnt (fun k => put_rto_sn_num_ rto_sn (put_disorder_counter_ disorder (put_order_counter_ order k))) s in
  if disorder_threshold_ k <=? order then
    upd (if learn_rto_sn_std_ k <? rto_sn_num_ k then rto_sn_num_ k - 1 else rto_sn_num_ k) disorder 0
  else if Z.shiftr (disorder_threshold_ k) 1 <=? disorder then
    let max_sn_block_id := Z.shiftr (max_sn_pos_ (geo s)) 6 in
    let pre_block_id := let p := u32 (max_sn_block_id - 1) in if 0 =? p then SLID_WIN_U64_BUF_SZ - 1 else p in
    if (pre_block_id =? sc_block_1 c) || (max_sn_block_id =? sc_block_1 c) then
      upd (if rto_sn_num_ k <? back_rto_sn_num_ k then rto_sn_num_ k + 1 else back_rto_sn_num_ k) 0 order
    else upd (if 1 <? rto_sn_num_ k then rto_sn_num_ k - 1 else rto_sn_num_ k) disorder order
  else upd (rto_sn_num_ k) disorder order.

(** The loss rate, in units of 1/128 percent. *)
Definition loss_rate (loss_pack_num total_pack_num : Z) : Z :=
  if 0 =? loss_pack_num then 0
  else let l := u32 (Z.shiftl (u32 (loss_pack_num * 100)) 7) / total_pack_num in if 12800 <? l then 12800 else l.
Definition report_rate (loss : Z) : spec_float := f32_of_f64 (f64_div (f64_of_f32 (f32_of_Z loss)) (f64_of_Z 128)).
Definition note_loss (loss_pack_num total_pack_num ts_us : Z) (s : SlidWin) : SlidWin :=
  on_lss (fun l =>
    let in_10s := if u64 (calc_loss_num_ts_us_ (tm s) + 10000000) <=? ts_us then 0 else loss_num_in_10s_ l in
    put_loss_num_ (u16 loss_pack_num)
      (put_loss_num_in_10s_ (if 0 =? loss_pack_num then in_10s else u32 (in_10s + loss_pack_num))
         (put_loss_ (loss_rate loss_pack_num total_pack_num) l))) s.

(** [recv_rto_dec_k_] after a loss rate. *)
Definition next_dec_k (loss : spec_float) (k : Z) : Z :=
  let k' :=
    if f_gt_lit 1 1000000 loss then (if 1 <? k then k - 1 else 1)
    else if f_gt_lit 10000001 1000000 loss then u32 (k + 2)
    else if f_gt_lit 15000001 1000000 loss then u32 (k + 4)
    else if f_gt_lit 20000001 1000000 loss then u32 (k + 6)
    else if f_gt_lit 30000001 1000000 loss then u32 (k + 8)
    else if f_gt_lit 40000001 1000000 loss then u32 (k + 10)
    else if f_gt_lit 50000001 1000000 loss then u32 (k + 15)
    else u32 (k + 20) in
  if MAX_RECV_RTO_DEC_K <? k' then MAX_RECV_RTO_DEC_K else k'.

(** The members [sn_bit_map_] and, behind it, [sn_ts_ms_] as bytes. *)
Definition win_bytes (g : WinGeo) : list Z := mjoin (le_bytes 8 <$> sn_bit_map_ g) ++ mjoin (le_bytes 2 <$> sn_ts_ms_ g).
Definition ack_bytes (g : WinGeo) : list Z :=
  let first := drop (Z.to_nat (Z.shiftr (l_border_pos_ g) 6) * 8) (win_bytes g) in
  if l_border_pos_ g <=? max_sn_pos_ g then take (Z.to_nat (Z.shiftr (max_sn_pos_ g - l_border_pos_ g) 3 + 8)) first
  else take (Z.to_nat (Z.shiftr (WIN_BUF_SIZE - l_border_pos_ g) 3)) first
       ++ take (Z.to_nat (Z.shiftr (max_sn_pos_ g) 3 + 8)) (win_bytes g).

Definition rcv_report (c : Scan) (ts_us : Z) (loss : spec_float) (s : SlidWin) : SlidWin :=
  let g := geo s in
  if SELF_YES =? filter_win_flag_ s then s
  else if f_gt_lit 2000001 1000000 loss || (sc_loss_num c <? MAX_FEEDBACK_NACK_SN_NUM) then
    report (RptNack (l_border_sn_ g) (max_sn_ g) (loss_ (lss s)) (u16 (sc_loss_num c)) ts_us
      (u32 (l_border_sn_ g + SnPosToSpan (l_border_pos_ g) (sc_rto_pos c))) (sc_saved c)) s
  else report (RptAck (l_border_sn_ g) (max_sn_ g) (loss_ (lss s)) ts_us (max_sn_ g) (ack_bytes g)) s.

(** How far the window could move: past the leading blocks without a hole and
    past what counts as missing. *)
Definition rcv_step (g : WinGeo) (c : Scan) : Z :=
  Z.max (SnPosToSpan (l_border_pos_ g) (sc_rto_pos c) + 1) (SnPosToSpan (l_border_pos_ g) (sc_block_1 c) + 1).

Definition quality (loss : spec_float) (dir : Z) (s : SlidWin) : WinReport :=
  RptNetworkQuality (cur_rtt_us_ (rtt s)) (jitter_us_ (rtt s)) loss dir (congest_rank_ (rtt s)) (rto_ts_us_ (rtt s))
    (avg_pps_ (cnt s)) (loss_num_ (lss s)).
(** Whether a loss rate differs enough from the one reported last. *)
Definition worth_reporting (l : WinLoss) : bool :=
  (SELF_NO =? reported_quality_ l) ||
  ((report_loss_ l <? 12800) && (12800 <=? loss_ l)) || (negb (0 =? report_loss_ l) && (0 =? loss_ l)) ||
  (EXPNAD_LOSS_PACTOR_INT <=? Z.abs (loss_ l - report_loss_ l)).
Definition rcv_quality (ts_us : Z) (loss : spec_float) (s : SlidWin) : SlidWin :=
  if worth_reporting (lss s) then
    on_tm (put_lst_rpt_quality_ts_us_ ts_us)
      (on_lss (fun l => put_loss_direction_ kDownLinkerLoss (put_report_loss_ (loss_ l)
         (put_loss_num_ 0 (put_reported_quality_ SELF_YES l))))
         (report (quality loss (loss_direction_ (lss s)) s) s))
  else s.

(** Rounds the search is given: one for every block of the ring and one more. *)
Definition SCAN_FUEL : nat := 129.

(** [CalcRcvLoss] *)
Definition rcv_waits (ts_us force_calc : Z) (s : SlidWin) : bool :=
  let last := last_calc_loss_ts_us_ (tm s) in
  let delta_us := if ts_us <? last then last - ts_us else ts_us - last in
  (no_calc_loss_sn_num_ (cnt s) <? min_calc_loss_sn_num_ (cnt s)) &&
  ((0 =? loss_ (lss s)) || ((delta_us <? min_calc_loss_span_us_ (cnt s)) && (SELF_NO =? force_calc))).
Definition CalcRcvLoss (ts_us force_calc : Z) : WM unit :=
  s ← get_st;
  if SELF_NO =? bit_map_update_ (lss s) then mret tt
  else if rcv_waits ts_us force_calc s then mret tt
  else
    _ ← mod_st (on_tm (put_last_calc_loss_ts_us_ ts_us));
    _ ← mod_st (on_cnt (put_no_calc_loss_sn_num_ 0));
    s ← get_st;
    let g := geo s in
    let tmp_max_sn_pos := Z.land (max_sn_pos_ g + 1) WIN_POS_MASK in
    let max_sn_span := SnPosToSpan (l_border_pos_ g) tmp_max_sn_pos in
    let rto_ts_ms := let r := TsUsToU16Ms (rto_ts_us_ (rtt s)) in if 0 =? r then 1 else r in
    c ← deref (scan_loop g rto_ts_ms (TsUsToU16Ms ts_us) (rto_sn_num_ (cnt s)) tmp_max_sn_pos max_sn_span SCAN_FUEL (scan_start g));
    let total_pack_num := SnPosToSpan (l_border_pos_ g) (sc_rto_pos c) + 1 in
    _ ← mod_st (adjust_rto_sn_num c max_sn_span);
    _ ← mod_st (note_loss (sc_loss_num c) total_pack_num ts_us);
    s ← get_st;
    let loss := report_rate (loss_ (lss s)) in
    _ ← mod_st (on_lss (fun l => put_recv_rto_dec_k_ (next_dec_k loss (recv_rto_dec_k_ l)) l));
    _ ← mod_st (rcv_report c ts_us loss);
    _ ← MoveWin (rcv_step g c);
    mod_st (rcv_quality ts_us loss).

(** ** The loss rate of the sender *)

(** The local variables of [CalcSndLoss]. *)
Record SndScan := mkSndScan { ss_block_loop : Z; ss_move_pos : Z; ss_loss_num : Z; ss_head : Z; ss_cur_span : Z }.

Section SndScan.
Context (g : WinGeo) (rto_ts_ms ts_ms force_calc tmp_max_sn_pos max_sn_span : Z).

(** True: a missing packet is too young to count ([break_flag]). *)
Fixpoint snd_bits (n : nat) (word bit_loop : Z) (c : SndScan) : option (SndScan * bool) :=
  match n with
  | O => Some (c, false)
  | S n' =>
      if negb (ss_cur_span c <=? max_sn_span) then Some (c, false)
      else
        let pos := ss_move_pos c in
        let next (loss : Z) : option (SndScan * bool) :=
          let pos' := Z.land (pos + 1) WIN_POS_MASK in
          snd_bits n' word (bit_loop + 1) (mkSndScan (ss_block_loop c) pos' loss (ss_head c) (SnPosToSpan (l_border_pos_ g) pos')) in
        if Z.testbit word bit_loop then next (ss_loss_num c)
        else
          t ← at_pos (sn_ts_ms_ g) pos;
          if (CalcDeltaTsMs ts_ms t <? rto_ts_ms) && (SELF_NO =? force_calc) then Some (c, true)
          else next (u32 (ss_loss_num c + 1))
  end.

(** One block; true: the search ends here. *)
Definition snd_block (c : SndScan) : option (SndScan * bool) :=
  let tail := Z.land (ss_head c + 63) WIN_POS_MASK in
  word ← at_pos (sn_bit_map_ g) (ss_block_loop c);
  let partial := (ss_head c <=? tmp_max_sn_pos) && (tmp_max_sn_pos <? tail) in
  let pos' := Z.land (ss_move_pos c + 64) WIN_POS_MASK in
  if negb partial && (0xFFFFFFFFFFFFFFFF =? word) then
    Some (mkSndScan (ss_block_loop c) pos' (ss_loss_num c) (ss_head c) (ss_cur_span c), false)
  else if negb partial && (0 =? word) then
    Some (mkSndScan (ss_block_loop c) pos' (u32 (ss_loss_num c + 64)) (ss_head c) (ss_cur_span c), false)
  else
    r ← snd_bits 64 word 0 c;
    let (c, brk) := r : SndScan * bool in
    Some (c, (max_sn_span <? ss_cur_span c) || brk).
Definition snd_next (c : SndScan) : SndScan :=
  let b := ss_block_loop c + 1 in
  mkSndScan (if SLID_WIN_U64_BUF_SZ <=? b then 0 else b) (ss_move_pos c) (ss_loss_num c)
    (Z.land (ss_head c + 64) WIN_POS_MASK) (SnPosToSpan (l_border_pos_ g) (ss_move_pos c)).
Fixpoint snd_loop (fuel : nat) (c : SndScan) : option SndScan :=
  match fuel with
  | O => None
  | S fuel' =>
      r ← snd_block c;
      let (c, stop) := r : SndScan * bool in
      if stop : bool then Some c
      else let c := snd_next c in if ss_cur_span c <=? max_sn_span then snd_loop fuel' c else Some c
  end.
End SndScan.

(** [CalcSndLoss] *)
Definition snd_waits (ts_us force_calc : Z) (s : SlidWin) : bool :=
  let dist (a : Z) : Z := if ts_us <? a then a - ts_us else ts_us - a in
  (no_calc_loss_sn_num_ (cnt s) <? min_calc_loss_sn_num_ (cnt s)) &&
  (dist (last_calc_loss_ts_us_ (tm s)) <? min_calc_loss_span_us_ (cnt s)) &&
  ((SELF_NO =? force_calc) || (dist (created_ts_us_ (tm s)) <? Z.shiftr (min_calc_loss_span_us_ (cnt s)) 1)).
Definition snd_rate (s : SlidWin) (loss : Z) (loss_f : spec_float) (ts_us : Z) : SlidWin :=
  let sent loss_f s :=
    on_tm (put_lst_rpt_quality_ts_us_ ts_us)
      (on_lss (fun l => put_loss_num_ 0 (put_reported_quality_ SELF_YES l)) (report (quality loss_f (loss_direction_ (lss s)) s) s)) in
  let adjust s :=
    let s := on_lss (fun l => put_loss_direction_ kDownLinkerLoss (put_report_loss_ loss l)) s in
    let l := lss s in
    if (ts_us <? u64 (lst_fdbk_loss_ts_us_ (tm s) + feedback_loss_span_us_ l)) && (Z.abs (loss - fdbk_loss_ l) <? 10240) then
      sent (report_rate (fdbk_loss_ l))
        (on_lss (fun l => put_loss_direction_ kUpLinkerLoss (put_report_loss_ (fdbk_loss_ l) l)) s)
    else
      let rto := rto_ts_us_ (rtt s) in
      let min_rto := Z.max MIN_RTO_TS_US (u32 (cur_rtt_us_ (rtt s) + Z.shiftr (cur_rtt_us_ (rtt s)) 2)) in
      sent loss_f
        (if fdbk_loss_ l <=? loss
         then on_rtt (put_rto_ts_us_ (Z.max (rto - (Z.shiftr rto 2 + Z.shiftr rto 3)) min_rto)) s else s) in
  if SELF_NO =? reported_quality_ (lss s) then sent loss_f s
  else
    let s := on_lss (fun l => put_disconn_filter_ (if 11520 <=? loss then u32 (disconn_filter_ l + 1) else 0) l) s in
    let l := lss s in
    if ((report_loss_ l <? 12800) && (12800 <=? loss) && (3 <=? disconn_filter_ l)) || (negb (0 =? report_loss_ l) && (0 =? loss))
    then adjust s
    else if Z.abs (loss - report_loss_ l) <? EXPNAD_LOSS_PACTOR_INT then s else adjust s.
(** In at most [rounds] blocks. *)
Definition CalcSndLoss_in (rounds : nat) (ts_us force_calc : Z) : WM unit :=
  s ← get_st;
  if SELF_NO =? bit_map_update_ (lss s) then mret tt
  else if snd_waits ts_us force_calc s then mret tt
  else
    _ ← mod_st (on_tm (put_last_calc_loss_ts_us_ ts_us));
    _ ← mod_st (on_cnt (put_no_calc_loss_sn_num_ 0));
    s ← get_st;
    let g := geo s in
    c ← deref (snd_loop g (TsUsToU16Ms (rto_ts_us_ (rtt s))) (TsUsToU16Ms ts_us) force_calc (max_rcv_sn_pos_ g)
                 (SnPosToSpan (l_border_pos_ g) (max_rcv_sn_pos_ g)) rounds
                 (mkSndScan (Z.shiftr (l_border_pos_ g) 6) (l_border_pos_ g) 0 (l_border_pos_ g) 0));
    let total_pack_num := SnPosToSpan (l_border_pos_ g) (ss_move_pos c) in
    _ ← when (negb (0 =? ss_loss_num c) && (0 =? total_pack_num)) fault;
    _ ← mod_st (note_loss (ss_loss_num c) total_pack_num ts_us);
    _ ← MoveWin total_pack_num;
    mod_st (fun s => snd_rate s (loss_ (lss s)) (report_rate (loss_ (lss s))) ts_us).
Definition CalcSndLoss : Z -> Z -> WM unit := CalcSndLoss_in SCAN_FUEL.

(** ** Entering a sequence number *)

(** A report of the loss rate [loss] of the direction [dir], as the entries and
    the round trip times make it. *)
Definition report_loss_now (loss dir ts_us : Z) (s : SlidWin) : SlidWin :=
  on_tm (put_lst_rpt_quality_ts_us_ ts_us)
    (on_lss (fun l => put_loss_num_ 0 (put_reported_quality_ SELF_YES (put_loss_direction_ dir (put_report_loss_ loss l))))
       (report (quality (report_rate loss) dir s) s)).
(** The peer's rate when it is young enough, else the window's own. *)
Definition report_either (up : bool) (ts_us : Z) (s : SlidWin) : SlidWin :=
  if up then report_loss_now (fdbk_loss_ (lss s)) kUpLinkerLoss ts_us s
  else report_loss_now (loss_ (lss s)) kDownLinkerLoss ts_us s.

(** The report once a second at the end of the entries. *)
Definition periodic_report (ts_us : Z) (s : SlidWin) : SlidWin :=
  if 1000000 <=? u64 (ts_us - lst_rpt_quality_ts_us_ (tm s)) then
    let younger (span : Z) : bool := ts_us <=? u64 (lst_fdbk_loss_ts_us_ (tm s) + span) in
    report_either (((kSendSlidWinMode =? slid_win_mode_ s) && younger (rto_ts_us_ (rtt s))) ||
                   ((kRecvSlidWinMode =? slid_win_mode_ s) && younger (u32 (Z.shiftl (cur_rtt_us_ (rtt s)) 1)))) ts_us s
  else s.

(** The position of a valid sequence number as [SnEntryWin] computes it: behind
    the wrap-around of the numbers it is one too small. *)
Definition entry_pos (g : WinGeo) (sn : Z) : Z := Z.land (u32 (l_span (l_border_sn_ g) sn + l_border_pos_ g)) WIN_POS_MASK.

(** [sn_entry_reset_win_pos_] *)
Definition entry_reset (sn cur_sn_pos ts_us : Z) : WM Z :=
  _ ← mod_st (ResetWin (Z.land sn 0xFFFFFFF1) ts_us);
  _ ← mod_st (on_cnt (fun k => put_no_calc_loss_sn_num_ (u32 (no_calc_loss_sn_num_ k + 1)) k));
  s ← get_st;
  w ← deref (at_pos (sn_bit_map_ (geo s)) 0);
  bm ← deref (put_at (sn_bit_map_ (geo s)) 0 (Z.lor w 1));
  _ ← mod_st (on_geo (put_sn_bit_map_ bm));
  _ ← when (kRecvSlidWinMode =? slid_win_mode_ s)
        (ts ← deref (put_at (sn_ts_ms_ (geo s)) cur_sn_pos (TsUsToU16Ms ts_us)); mod_st (on_geo (put_sn_ts_ms_ ts)));
  _ ← mod_st (on_lss (put_bit_map_update_ SELF_YES));
  mret RESET_WIN_RETURN.

(** The bit and, for a receiver, the time of an entered packet. *)
Definition mark_received (sn cur_sn_pos ts_us : Z) : WM Z :=
  s ← get_st;
  let block_pos := Z.shiftr cur_sn_pos 6 in
  w ← deref (at_pos (sn_bit_map_ (geo s)) block_pos);
  bm ← deref (put_at (sn_bit_map_ (geo s)) block_pos (Z.lor w (Z.shiftl 1 (Z.land cur_sn_pos 0x3F))));
  _ ← mod_st (on_geo (put_sn_bit_map_ bm));
  if kRecvSlidWinMode =? slid_win_mode_ s then
    s ← get_st;
    let (flag, s') := CheckRealExistLoss sn ts_us s in
    _ ← mod_st (fun _ => s');
    ts ← deref (put_at (sn_ts_ms_ (geo s')) cur_sn_pos (TsUsToU16Ms ts_us));
    _ ← mod_st (on_geo (put_sn_ts_ms_ ts));
    _ ← mod_st (on_geo (UpdateMaxSnPos cur_sn_pos sn));
    mret flag
  else _ ← mod_st (on_geo (put_max_rcv_sn_pos_ cur_sn_pos)); mret SELF_NO.

(** [SnEntryWin] *)
Definition SnEntryWin (sn ts_us calc_loss_flag : Z) : WM Z :=
  s ← get_st;
  let v := SnIsValid sn (geo s) in
  if negb (SELF_SUCESS =? v) then
    if (kRecvSlidWinMode =? slid_win_mode_ s) && (SELF_SN_OUT_R_ERR =? v) then
      _ ← mod_st (on_cnt (fun k => put_recv_out_r_counter_ (u8 (recv_out_r_counter_ k + 1)) k));
      s ← get_st;
      if MAX_RESET_RECV_WIN_THRSHLD <=? recv_out_r_counter_ (cnt s) then entry_reset sn 0 ts_us else mret kSnIsInvalid
    else mret kSnIsInvalid
  else
    _ ← mod_st (on_cnt (put_recv_out_r_counter_ 0));
    _ ← mod_st (on_tm (fun t => put_last_recv_ts_us ts_us (put_current_ts_us_ ts_us t)));
    let cur_sn_pos := entry_pos (geo s) sn in
    _ ← mod_st (on_cnt (fun k => put_no_calc_loss_sn_num_ (u32 (no_calc_loss_sn_num_ k + 1)) k));
    _ ← when (kRecvSlidWinMode =? slid_win_mode_ s)
          (_ ← mod_st (on_lss (put_bit_map_update_ SELF_YES));
           _ ← mod_st (on_cnt (fun k => put_current_sn_num_ (u32 (current_sn_num_ k + 1)) k));
           mod_st (CalcPps ts_us));
    let step := IsMoveWin cur_sn_pos (geo s) in
    if step <? 0 then entry_reset sn cur_sn_pos ts_us
    else
      _ ← when (0 <? step) (MoveWin step);
      _ ← mod_st (on_lss (put_force_calc_num_ 0));
      force_flag ← mark_received sn cur_sn_pos ts_us;
      if SELF_NO =? calc_loss_flag then mret SELF_SUCESS
      else
        _ ← (if kRecvSlidWinMode =? slid_win_mode_ s then CalcRcvLoss ts_us force_flag else CalcSndLoss ts_us force_flag);
        _ ← mod_st (periodic_report ts_us);
        mret SELF_SUCESS.

(** ** Repeated packets *)
Definition ISNT_REPEAT_SN : Z := 0.
Definition IS_REPEAT_SN : Z := 1.
Definition ISNT_RECEIVE_WIN : Z := 2.

(** [CheckIsRepeatPacketSn].  Unlike [SnEntryWin] it adds the step over the
    wrap-around to the position. *)
Definition CheckIsRepeatPacketSn (cur_sn : Z) : WM Z :=
  s ← get_st;
  let g := geo s in
  if negb (kRecvSlidWinMode =? slid_win_mode_ s) then mret ISNT_RECEIVE_WIN
  else
    let cur_l_sn_span := l_span (l_border_sn_ g) cur_sn in
    if cur_win_size_ g <=? cur_l_sn_span then mret IS_REPEAT_SN
    else if l_span (l_border_sn_ g) (max_sn_ g) <? cur_l_sn_span then mret ISNT_REPEAT_SN
    else
      let pos := if l_border_sn_ g <=? cur_sn then u32 (l_border_pos_ g + cur_sn - l_border_sn_ g)
                 else u32 (l_border_pos_ g + cur_sn + 0xFFFFFFFF - l_border_sn_ g + 1) in
      let cur_sn_pos := Z.land pos WIN_POS_MASK in
      w ← deref (at_pos (sn_bit_map_ g) (Z.shiftr cur_sn_pos 6));
      mret (if negb (0 =? Z.land w (Z.shiftl 1 (Z.land cur_sn_pos 0x3F))) then IS_REPEAT_SN else ISNT_REPEAT_SN).

(** [RepeatPacketFilter] and [SnEntrySlidWin] as [GtpSession::PackPrepHandler]
    and [GtpSession::Fec2RestoreFrameReceive] use them on the filter window:
    whether the packet goes on to the application. *)
Definition filter_packet (first_sn ts_us : Z) : WM bool :=
  r ← CheckIsRepeatPacketSn first_sn;
  if IS_REPEAT_SN =? r then mret false else _ ← SnEntryWin first_sn ts_us SELF_YES; mret true.

End SlidWin.
