(* ===== verification/SlidWinScan.v ===== *)
(** * The search for missing packets

    The ring of positions, and what [CalcRcvLoss] reads while it looks for
    missing packets: its search ends within one round of the ring and inside
    the arrays, and never passes the largest sequence number by a block. *)
From S2P Require Import Prelude Bitmap SlidWin.
Export Bitmap SlidWin.

Module SlidWinScan.

(** ** The ring *)
Lemma land_ring x : Z.land x WIN_POS_MASK = x mod WIN_BUF_SIZE.
Proof. exact (land_mask x 13 ltac:(lia)). Qed.
Lemma land_63 x : Z.land x 0x3F = x mod 64.
Proof. exact (land_mask x 6 ltac:(lia)). Qed.
Lemma shiftr_6 x : Z.shiftr x 6 = x / 64.
Proof. apply Z.shiftr_div_pow2. lia. Qed.
Ltac ring_lia := unfold WIN_BUF_SIZE, MIN_WIN_SZ, SLID_WIN_U64_BUF_SZ in *; Z.to_euclidean_division_equations; lia.

(** [ring_pos l k]: the position [k] steps behind [l]. *)
Definition ring_pos (l k : Z) : Z := (l + k) mod WIN_BUF_SIZE.

Lemma ring_pos_range l k : 0 <= ring_pos l k < WIN_BUF_SIZE.
Proof. apply Z.mod_pos_bound. done. Qed.
Lemma span_ring_pos l k : 0 <= l < WIN_BUF_SIZE -> 0 <= k < WIN_BUF_SIZE -> SnPosToSpan l (ring_pos l k) = k.
Proof.
  intros Hl Hk. unfold SnPosToSpan, ring_pos. unfold WIN_BUF_SIZE in *.
  destruct (Z.lt_ge_cases (l + k) 8192).
  - rewrite Z.mod_small by lia. destruct (Z.leb_spec l (l + k)); lia.
  - replace ((l + k) mod 8192) with (l + k - 8192) by (apply (Z.mod_unique _ _ 1); lia).
    destruct (Z.leb_spec l (l + k - 8192)); lia.
Qed.
Lemma ring_pos_add l k m : Z.land (ring_pos l k + m) WIN_POS_MASK = ring_pos l (k + m).
Proof. rewrite land_ring. unfold ring_pos. rewrite Zplus_mod_idemp_l. f_equal. lia. Qed.
Lemma ring_pos_0 l : 0 <= l < WIN_BUF_SIZE -> ring_pos l 0 = l.
Proof. intros. unfold ring_pos. rewrite Z.add_0_r. by apply Z.mod_small. Qed.
Lemma ring_pos_move l m k : ring_pos (ring_pos l m) k = ring_pos l (m + k).
Proof. unfold ring_pos. rewrite Zplus_mod_idemp_l. f_equal. lia. Qed.
Lemma ring_pos_inj l a b : 0 <= a < WIN_BUF_SIZE -> 0 <= b < WIN_BUF_SIZE -> 0 <= l < WIN_BUF_SIZE ->
  ring_pos l a = ring_pos l b -> a = b.
Proof. intros Ha Hb Hl He. rewrite <- (span_ring_pos l a), <- (span_ring_pos l b) by done. by rewrite He. Qed.

(** A position of the ring inside a block whose head is a multiple of 64. *)
Lemma block_tail l k : l mod 64 = 0 -> k mod 64 = 0 -> Z.land (ring_pos l k + 63) WIN_POS_MASK = ring_pos l k + 63.
Proof.
  intros Hl Hk. rewrite land_ring. apply Z.mod_small. pose proof (ring_pos_range l k).
  assert (ring_pos l k mod 64 = 0) by (unfold ring_pos; ring_lia). ring_lia.
Qed.
Lemma ring_pos_in_block l k j : l mod 64 = 0 -> k mod 64 = 0 -> 0 <= j < 64 -> ring_pos l (k + j) = ring_pos l k + j.
Proof. intros Hl Hk Hj. unfold ring_pos. ring_lia. Qed.
Lemma block_of_ring l k : l mod 64 = 0 -> k mod 64 = 0 -> ring_pos l k / 64 = (l / 64 + k / 64) mod 128.
Proof. intros Hl Hk. unfold ring_pos. ring_lia. Qed.

(** ** Arrays *)
Lemma at_pos_some l i : 0 <= i < Z.of_nat (length l) -> exists x, at_pos l i = Some x.
Proof.
  intros Hi. unfold at_pos. destruct (Z.leb_spec 0 i); [|lia]. apply lookup_lt_is_Some_2. lia.
Qed.

(** ** The binary searches *)
Lemma GetRtoTmoutPos_ts_range fuel ts b e rto cur : 0 <= b -> b <= e + 1 -> Z.max 0 (e - b) < Z.of_nat fuel ->
  e < Z.of_nat (length ts) -> exists r, GetRtoTmoutPos_ts fuel ts b e rto cur = Some r /\ b <= r <= Z.max b e.
Proof.
  revert b e. induction fuel as [|fuel IH]; intros b e Hb Hbe Hf He; [lia|]. cbn [GetRtoTmoutPos_ts].
  destruct (Z.leb_spec e b); [exists b; split; [done|lia]|].
  destruct (at_pos_some ts b) as [tb ->]; [lia|]. cbn [mbind option_bind].
  destruct (_ <=? _); [exists b; split; [done|lia]|].
  destruct (at_pos_some ts e) as [te ->]; [lia|]. cbn [mbind option_bind].
  destruct (_ <=? _); [exists e; split; [done|lia]|]. rewrite Z.shiftr_div_pow2 by lia. change (2 ^ 1) with 2.
  assert (Hmid : b <= (e - b) / 2 + b < e) by ring_lia. set (mid := (e - b) / 2 + b) in *.
  destruct (at_pos_some ts mid) as [tm ->]; [lia|]. cbn [mbind option_bind].
  destruct (_ =? _); [exists mid; split; [done|lia]|].
  destruct (_ <? _).
  - destruct (Z.le_gt_cases (b + 1) mid).
    + destruct (IH (b + 1) (mid - 1)) as (r & -> & Hr); [lia..|]. exists r. split; [done|lia].
    + destruct fuel as [|fuel']; [lia|]. exists (b + 1). split; [|lia]. cbn. destruct (Z.leb_spec (mid - 1) (b + 1)); [done|lia].
  - destruct (Z.le_gt_cases mid (e - 1)).
    + destruct (IH (mid + 1) (e - 1)) as (r & -> & Hr); [lia..|]. exists r. split; [done|lia].
    + lia.
Qed.

Lemma GetRtoTmoutPos_sn_range fuel num b e mx : b <= e + 1 -> Z.max 0 (e - b) < Z.of_nat fuel ->
  exists r, GetRtoTmoutPos_sn fuel num b e mx = Some r /\ b <= r <= Z.max b e.
Proof.
  revert b e. induction fuel as [|fuel IH]; intros b e Hbe Hf; [lia|]. cbn [GetRtoTmoutPos_sn].
  destruct (Z.leb_spec e b); [exists b; split; [done|lia]|].
  destruct (_ <=? _); [exists b; split; [done|lia]|].
  destruct (_ <=? _); [exists e; split; [done|lia]|]. rewrite Z.shiftr_div_pow2 by lia. change (2 ^ 1) with 2.
  assert (Hmid : b <= (e - b) / 2 + b < e) by ring_lia. set (mid := (e - b) / 2 + b) in *.
  destruct (_ =? _); [exists mid; split; [done|lia]|].
  destruct (_ <? _).
  - destruct (Z.le_gt_cases (b + 1) mid).
    + destruct (IH (b + 1) (mid - 1)) as (r & -> & Hr); [lia..|]. exists r. split; [done|lia].
    + destruct fuel as [|fuel']; [lia|]. exists (b + 1). split; [|lia]. cbn. destruct (Z.leb_spec (mid - 1) (b + 1)); [done|lia].
  - destruct (Z.le_gt_cases mid (e - 1)).
    + destruct (IH (mid + 1) (e - 1)) as (r & -> & Hr); [lia..|]. exists r. split; [done|lia].
    + lia.
Qed.

(** ** The search *)
Section Search.
Context (g : WinGeo) (rto_ts_ms ts_ms rto_sn_num tmp_max_sn_pos max_sn_span : Z).
Local Abbreviation l := (l_border_pos_ g).
Hypothesis Hl : 0 <= l < WIN_BUF_SIZE /\ l mod 64 = 0.
Hypothesis Hbm : Z.of_nat (length (sn_bit_map_ g)) = SLID_WIN_U64_BUF_SZ.
Hypothesis Hts : Z.of_nat (length (sn_ts_ms_ g)) = WIN_BUF_SIZE.

Definition near (pos k : Z) : Prop := exists a, 0 <= a <= k /\ pos = ring_pos l a.
Lemma near_le pos k m : near pos k -> k <= m -> near pos m.
Proof. intros (a & Ha & ->) Hm. exists a. split; [lia|done]. Qed.
Lemma near_span pos k : near pos k -> k < WIN_BUF_SIZE -> 0 <= SnPosToSpan l pos <= k.
Proof. intros (a & Ha & ->) Hk. rewrite span_ring_pos; lia. Qed.

Lemma ts_at k : exists t, at_pos (sn_ts_ms_ g) (ring_pos l k) = Some t.
Proof. apply at_pos_some. rewrite Hts. apply ring_pos_range. Qed.

(** The search stands [k] positions behind the left border. *)
Record at_bit (k : Z) (c : Scan) : Prop := {
  ab_move : sc_move_pos c = ring_pos l k;
  ab_cur : sc_cur_span c = k;
  ab_rto : near (sc_rto_pos c) k
}.
Definition same_block (c c' : Scan) : Prop :=
  sc_block_loop c' = sc_block_loop c /\ sc_head c' = sc_head c /\ sc_block_1 c' = sc_block_1 c.

Lemma bit_scan_ok n : forall word bit c k,
  at_bit k c -> 0 <= k -> k + Z.of_nat n < WIN_BUF_SIZE ->
  exists c' stop k', bit_scan g rto_ts_ms ts_ms rto_sn_num tmp_max_sn_pos max_sn_span n word bit c = Some (c', stop) /\
    same_block c c' /\ at_bit k' c' /\ k <= k' <= k + Z.of_nat n /\
    (stop = false -> k' = k + Z.of_nat n \/ max_sn_span <= k').
Proof.
  induction n as [|n IH]; intros word bit c k Hc Hk Hn; cbn [bit_scan].
  { exists c, false, k. split; [done|]. split; [done|]. split; [done|]. split; [lia|]. intros _. left. lia. }
  destruct (Z.ltb_spec (sc_cur_span c) max_sn_span) as [Hlt|Hge]; cbn [negb].
  2: { exists c, false, k. split; [done|]. split; [done|]. split; [done|]. split; [lia|]. intros _. right. by rewrite <- (ab_cur _ _ Hc). }
  assert (Hnext : forall loss delta saved,
    at_bit (k + 1) (mkScan (sc_block_loop c) (Z.land (sc_move_pos c + 1) WIN_POS_MASK) loss (sc_move_pos c) (sc_block_1 c)
      (sc_head c) delta (sc_empty_hole c) (SnPosToSpan l (Z.land (sc_move_pos c + 1) WIN_POS_MASK)) saved)).
  { intros loss delta saved. rewrite (ab_move _ _ Hc), ring_pos_add. split; cbn; [done|apply span_ring_pos; lia|].
    exists k. split; [lia|done]. }
  assert (Hgo : forall c1, at_bit (k + 1) c1 -> same_block c c1 -> exists c' stop k',
    bit_scan g rto_ts_ms ts_ms rto_sn_num tmp_max_sn_pos max_sn_span n word (bit + 1) c1 = Some (c', stop) /\
    same_block c c' /\ at_bit k' c' /\ k <= k' <= k + Z.of_nat (S n) /\ (stop = false -> k' = k + Z.of_nat (S n) \/ max_sn_span <= k')).
  { intros c1 Hc1 Hs1. destruct (IH word (bit + 1) c1 (k + 1) Hc1) as (c' & stop & k' & Hr & Hs & Hc' & Hk' & Hstop); [lia..|].
    exists c', stop, k'. split; [done|]. split; [unfold same_block in *; intuition congruence|]. split; [done|]. split; [lia|].
    intros Hst. destruct (Hstop Hst); [left; lia|by right]. }
  destruct (Z.testbit word bit); cbn [negb].
  - rewrite (ab_move _ _ Hc). destruct (ts_at k) as [tv ->]. cbn [mbind option_bind]. rewrite <- (ab_move _ _ Hc). by apply Hgo.
  - destruct (if sc_delta_ms c <=? rto_ts_ms then _ else _); [|by apply Hgo].
    exists c, true, k. split; [done|]. split; [done|]. split; [done|]. split; [lia|done].
Qed.

(** It stands at the head of block [i]. *)
Record at_block (i : Z) (c : Scan) : Prop := {
  bl_bit : at_bit (64 * i) c;
  bl_head : sc_head c = ring_pos l (64 * i);
  bl_block : sc_block_loop c = (l / 64 + i) mod 128;
  bl_block_1 : near (sc_block_1 c) (64 * i)
}.
(** What a block leaves: where the search stands unless it ended. *)
Definition block_done (i : Z) (c c' : Scan) (stop : bool) : Prop :=
  sc_block_loop c' = sc_block_loop c /\ sc_head c' = sc_head c /\
  near (sc_rto_pos c') (64 * (i + 1)) /\ near (sc_block_1 c') (64 * (i + 1)) /\
  (stop = false -> exists k, 0 <= k <= 64 * (i + 1) /\ sc_move_pos c' = ring_pos l k /\ (k = 64 * (i + 1) \/ max_sn_span <= k)).

Lemma tail_pos i : 0 <= i -> Z.land (ring_pos l (64 * i) + 63) WIN_POS_MASK = ring_pos l (64 * i + 63) /\
  ring_pos l (64 * i + 63) = ring_pos l (64 * i) + 63.
Proof. intros Hi. split; [apply ring_pos_add|]. apply ring_pos_in_block; [tauto| |lia]. rewrite Z.mul_comm. apply Z.mod_mul. lia. Qed.

(** A position found inside a block. *)
Lemma near_in_block i r : 0 <= i -> ring_pos l (64 * i) <= r <= ring_pos l (64 * i) + 63 -> near r (64 * (i + 1)).
Proof.
  intros Hi Hr. exists (64 * i + (r - ring_pos l (64 * i))). split; [lia|]. symmetry.
  rewrite ring_pos_in_block; [lia|tauto| |lia]. rewrite Z.mul_comm. apply Z.mod_mul. lia.
Qed.

Lemma mixed_block_ok i word c : at_block i c -> 0 <= i -> 64 * (i + 1) < WIN_BUF_SIZE ->
  exists c' stop, mixed_block g rto_ts_ms ts_ms rto_sn_num tmp_max_sn_pos max_sn_span word c = Some (c', stop) /\
    block_done i c c' stop.
Proof.
  intros [Hb Hh Hbl H1] Hi Hlim. unfold mixed_block. destruct (negb _ && _).
  { exists c, true. split; [done|]. split; [done|]. split; [done|]. split; [eapply near_le; [exact (ab_rto _ _ Hb)|lia]|].
    split; [eapply near_le; [exact H1|lia]|done]. }
  destruct (bit_scan_ok 64 word 0 c (64 * i) Hb) as (c' & stop & k' & Hr & (E1 & E2 & E3) & Hc' & Hk' & Hst); [lia..|].
  exists c', stop. split; [exact Hr|]. split; [done|]. split; [done|].
  split; [eapply near_le; [exact (ab_rto _ _ Hc')|lia]|]. split; [rewrite E3; eapply near_le; [exact H1|lia]|].
  intros Hs. exists k'. split; [lia|]. split; [exact (ab_move _ _ Hc')|]. destruct (Hst Hs); [left; lia|by right].
Qed.

Lemma near_block_1 i pos : near pos (64 * i) -> near (Z.land (pos + 64) WIN_POS_MASK) (64 * (i + 1)).
Proof. intros (a & Ha & ->). rewrite ring_pos_add. exists (a + 64). split; [lia|done]. Qed.

Lemma full_block_ok i c : at_block i c -> 0 <= i -> 64 * (i + 1) < WIN_BUF_SIZE ->
  exists c' stop, full_block g rto_ts_ms ts_ms c = Some (c', stop) /\ block_done i c c' stop.
Proof.
  intros [Hb Hh Hbl H1] Hi Hlim. destruct (tail_pos i Hi) as [Ht1 Ht2].
  assert (Hd : forall delta rto, near rto (64 * (i + 1)) ->
    block_done i c (mkScan (sc_block_loop c) (Z.land (sc_move_pos c + 64) WIN_POS_MASK) (sc_loss_num c) rto
      (if sc_empty_hole c then sc_block_1 c else Z.land (sc_block_1 c + 64) WIN_POS_MASK) (ring_pos l (64 * i)) delta
      (sc_empty_hole c) (sc_cur_span c) (sc_saved c)) false).
  { intros delta rto Hr. split; [done|]. split; [exact (eq_sym Hh)|]. split; [done|]. split.
    - cbn. destruct (sc_empty_hole c); [eapply near_le; [exact H1|lia]|by apply near_block_1].
    - intros _. exists (64 * (i + 1)). split; [lia|]. cbn. rewrite (ab_move _ _ Hb), ring_pos_add. split; [f_equal; lia|by left]. }
  assert (Htail : near (ring_pos l (64 * i + 63)) (64 * (i + 1))) by (exists (64 * i + 63); split; [lia|done]).
  unfold full_block. rewrite Hh, Ht1. destruct (ts_at (64 * i + 63)) as [tt Htt]. destruct (ts_at (64 * i)) as [th Hth].
  rewrite Htt, Hth. cbn [mbind option_bind]. destruct (0 =? sc_loss_num c); [eexists _, _; split; [done|by apply Hd]|].
  destruct (_ <? _); [eexists _, _; split; [done|apply Hd; eapply near_le; [exact (ab_rto _ _ Hb)|lia]]|].
  destruct (_ <=? _); [eexists _, _; split; [done|by apply Hd]|]. rewrite Ht2.
  destruct (GetRtoTmoutPos_ts_range 64 (sn_ts_ms_ g) (ring_pos l (64 * i)) (ring_pos l (64 * i) + 63) rto_ts_ms ts_ms)
    as (r & -> & Hr); [pose proof (ring_pos_range l (64 * i)); lia..| |].
  { rewrite Hts, <- Ht2. pose proof (ring_pos_range l (64 * i + 63)). lia. }
  cbn [mbind option_bind]. eexists _, _. split; [done|]. apply Hd, near_in_block; lia.
Qed.

Lemma empty_block_ok i c : at_block i c -> 0 <= i -> 64 * (i + 1) < WIN_BUF_SIZE ->
  exists c' stop, empty_block g rto_ts_ms rto_sn_num tmp_max_sn_pos c = Some (c', stop) /\ block_done i c c' stop.
Proof.
  intros [Hb Hh Hbl H1] Hi Hlim. destruct (tail_pos i Hi) as [Ht1 Ht2]. unfold empty_block. destruct (_ <=? _).
  { exists c, true. split; [done|]. split; [done|]. split; [done|]. split; [eapply near_le; [exact (ab_rto _ _ Hb)|lia]|].
    split; [eapply near_le; [exact H1|lia]|done]. }
  rewrite Hh, Ht1, Ht2.
  destruct (GetRtoTmoutPos_sn_range 64 rto_sn_num (ring_pos l (64 * i)) (ring_pos l (64 * i) + 63) tmp_max_sn_pos) as (r & -> & Hr); [lia..|].
  cbn [mbind option_bind]. assert (Hnr : near r (64 * (i + 1))) by (apply near_in_block; lia).
  assert (Hn1 : near (sc_block_1 c) (64 * (i + 1))) by (eapply near_le; [exact H1|lia]).
  destruct (ring_pos l (64 * i) =? r); [eexists _, true; split; [done|by split_and!]|].
  eexists _, _. split; [done|]. split; [done|]. split; [done|]. split; [done|]. split; [done|].
  intros Hs. apply negb_false_iff in Hs. rewrite Hs. cbn. exists (64 * (i + 1)). split; [lia|].
  rewrite (ab_move _ _ Hb), ring_pos_add. split; [f_equal; lia|by left].
Qed.

Lemma scan_block_ok i c : at_block i c -> 0 <= i -> 64 * (i + 1) < WIN_BUF_SIZE ->
  exists c' stop, scan_block g rto_ts_ms ts_ms rto_sn_num tmp_max_sn_pos max_sn_span c = Some (c', stop) /\
    block_done i c c' stop.
Proof.
  intros Hc Hi Hlim. unfold scan_block. rewrite (bl_block _ _ Hc).
  destruct (at_pos_some (sn_bit_map_ g) ((l / 64 + i) mod 128)) as [w ->].
  { rewrite Hbm. apply (Z.mod_pos_bound _ 128). lia. }
  cbn [mbind option_bind]. destruct (_ && _); [by apply mixed_block_ok|]. destruct (_ =? w); [by apply full_block_ok|].
  set (c1 := mkScan _ _ _ _ _ _ _ true _ _).
  assert (Hc1 : at_block i c1) by (destruct Hc as [[]]; by split).
  assert (Hd : forall c' stop, block_done i c1 c' stop -> block_done i c c' stop) by (intros ? ? Hbd; unfold block_done; rewrite (bl_block _ _ Hc); exact Hbd).
  destruct (0 =? w).
  - destruct (empty_block_ok i c1 Hc1 Hi Hlim) as (c' & stop & Hr & Hdone). exists c', stop. split; [exact Hr|exact (Hd _ _ Hdone)].
  - destruct (mixed_block_ok i w c1 Hc1 Hi Hlim) as (c' & stop & Hr & Hdone). exists c', stop. split; [exact Hr|exact (Hd _ _ Hdone)].
Qed.

(** The search ends, at most a block behind the largest sequence number. *)
Lemma scan_loop_ok fuel : forall i c,
  at_block i c -> 0 <= i -> 64 * i < max_sn_span -> max_sn_span + 64 < WIN_BUF_SIZE -> max_sn_span - 64 * i <= 64 * Z.of_nat fuel ->
  exists c', scan_loop g rto_ts_ms ts_ms rto_sn_num tmp_max_sn_pos max_sn_span fuel c = Some c' /\
    near (sc_rto_pos c') (max_sn_span + 63) /\ near (sc_block_1 c') (max_sn_span + 63).
Proof.
  induction fuel as [|fuel IH]; intros i c Hc Hi Hlt Hlim Hfuel; [lia|]. cbn [scan_loop].
  destruct (scan_block_ok i c Hc Hi) as (c' & stop & -> & E1 & E2 & Hr & H1 & Hst); [lia|]. cbn [mbind option_bind].
  assert (Hr' : near (sc_rto_pos c') (max_sn_span + 63)) by (eapply near_le; [exact Hr|lia]).
  assert (H1' : near (sc_block_1 c') (max_sn_span + 63)) by (eapply near_le; [exact H1|lia]).
  destruct stop; [by exists c'|]. destruct (Hst eq_refl) as (k & Hk & Hm & Hor).
  assert (Hpos : Z.land (sc_move_pos c') WIN_POS_MASK = ring_pos l k).
  { rewrite Hm. pose proof (ring_pos_add l k 0) as He. by rewrite !Z.add_0_r in He. }
  unfold next_block at 1. cbn [sc_cur_span]. rewrite Hpos, span_ring_pos by (tauto || lia).
  destruct (Z.ltb_spec k max_sn_span) as [Hkm|Hkm]; [|by exists (next_block g c')].
  destruct Hor as [->|?]; [|lia]. apply (IH (i + 1)); [|lia..]. unfold next_block. rewrite Hpos. split; cbn.
  - split; cbn; [done|apply span_ring_pos; [tauto|lia]|done].
  - rewrite E2, (bl_head _ _ Hc), ring_pos_add. f_equal. lia.
  - rewrite E1, (bl_block _ _ Hc). unfold SLID_WIN_U64_BUF_SZ. destruct (Z.leb_spec 128 ((l / 64 + i) mod 128 + 1)); ring_lia.
  - done.
Qed.

Lemma scan_start_ok : at_block 0 (scan_start g).
Proof.
  destruct Hl as [Hl1 Hl2]. assert (Hn : near l 0) by (exists 0; split; [lia|symmetry; by apply ring_pos_0]).
  unfold scan_start. split; cbn [sc_head sc_block_loop sc_block_1 sc_move_pos].
  - split; [symmetry; by apply ring_pos_0|done|exact Hn].
  - symmetry. by apply ring_pos_0.
  - rewrite shiftr_6, Z.add_0_r. symmetry. apply Z.mod_small. ring_lia.
  - exact Hn.
Qed.
End Search.

End SlidWinScan.
