(* ===== verification/SlidWinSpec.v ===== *)
(** * The window as a set of sequence numbers

    The invariant of a receiving window: the ring holds, for the sequence
    numbers between its borders, exactly which of them have been entered.
    Entering, moving and calculating the loss preserve it. *)
From S2P Require Import Prelude Bitmap SlidWin SlidWinScan.
Export SlidWinScan.

Module SlidWinSpec.

(** ** Clearing a part of the ring *)

(** How far [i] is behind [b], around an array of [size] entries. *)
Definition steps_behind (size b i : Z) : Z := if b <=? i then i - b else i - b + size.
Lemma steps_cases size b i : (b <= i /\ steps_behind size b i = i - b) \/ (i < b /\ steps_behind size b i = i - b + size).
Proof. unfold steps_behind. destruct (Z.leb_spec b i); [by left|by right]. Qed.
(** Linear arithmetic with the distances written out. *)
Ltac steps_lia :=
  repeat match goal with
         | H : context [steps_behind ?s ?b ?i] |- _ => destruct (steps_cases s b i) as [[? ->]|[? ->]] in H
         | |- context [steps_behind ?s ?b ?i] => destruct (steps_cases s b i) as [[? ->]|[? ->]]
         end; lia.

(** What clearing from [b] to [e] does: the entries before [e] are zero, those
    behind [e] are as they were, none gets another value. *)
Definition cleared (mem mem' : list Z) (size b e : Z) : Prop :=
  length mem' = length mem /\
  (forall i, 0 <= i < size -> steps_behind size b i < steps_behind size b e -> mem' !! Z.to_nat i = Some 0) /\
  (forall i, 0 <= i < size -> steps_behind size b e < steps_behind size b i -> mem' !! Z.to_nat i = mem !! Z.to_nat i) /\
  (forall i w, mem' !! i = Some w -> w = 0 \/ mem !! i = Some w).

Lemma put_at_some mem i v : 0 <= i < Z.of_nat (length mem) -> put_at mem i v = Some (<[Z.to_nat i := v]> mem).
Proof. intros Hi. unfold put_at. destruct (Z.leb_spec 0 i), (Z.ltb_spec i (Z.of_nat (length mem))); try lia. done. Qed.

Lemma lookup_zeroed (mem : list Z) i j :
  (Z.to_nat i < length mem)%nat -> <[Z.to_nat i := 0]> mem !! j = if decide (j = Z.to_nat i) then Some 0 else mem !! j.
Proof. intros Hi. destruct (decide (j = Z.to_nat i)) as [->|Hne]; [by apply list_lookup_insert_eq|by apply list_lookup_insert_ne]. Qed.

(** The loop of [ClearMemory] with [d] steps to go. *)
Lemma ClearMemory_run size e : 0 <= e < size -> forall fuel mem b,
  0 <= b < size -> Z.of_nat (length mem) = size -> b <> e -> steps_behind size b e <= Z.of_nat fuel ->
  exists mem', ClearMemory fuel mem size b e = Some mem' /\ length mem' = length mem /\
    forall i, 0 <= i < size ->
      mem' !! Z.to_nat i = if steps_behind size b i <=? steps_behind size b e then Some 0 else mem !! Z.to_nat i.
Proof.
  intros He. induction fuel as [|fuel IH]; intros mem b Hb Hlen Hne Hfuel; [exfalso; steps_lia|]. cbn [ClearMemory].
  rewrite put_at_some by lia. cbn [mbind option_bind].
  set (b' := if size <=? b + 1 then 0 else b + 1).
  assert (Hb' : b' = b + 1 /\ b + 1 < size \/ b' = 0 /\ b + 1 = size).
  { unfold b'. destruct (Z.leb_spec size (b + 1)); [right|left]; lia. }
  clearbody b'. assert (Hz : forall i, 0 <= i < size ->
    <[Z.to_nat b := 0]> mem !! Z.to_nat i = if i =? b then Some 0 else mem !! Z.to_nat i).
  { intros i Hi. rewrite lookup_zeroed by lia. destruct (decide _), (Z.eqb_spec i b); lia || done. }
  assert (Hlen1 : Z.of_nat (length (<[Z.to_nat b := 0]> mem)) = size) by (by rewrite length_insert).
  destruct (Z.eqb_spec b' e) as [<-|Hbe]; cbn [negb].
  - rewrite put_at_some by lia. eexists. split; [done|]. split; [by rewrite !length_insert|].
    intros i Hi. rewrite lookup_zeroed, Hz by lia.
    destruct (decide _), (Z.eqb_spec i b), (Z.leb_spec (steps_behind size b i) (steps_behind size b b')); try done;
      exfalso; steps_lia.
  - destruct (IH (<[Z.to_nat b := 0]> mem) b') as (mem' & -> & Hl' & Hm'); [lia|done|done|steps_lia|].
    exists mem'. split; [done|]. split; [by rewrite Hl', length_insert|]. intros i Hi. rewrite Hm', Hz by done.
    destruct (Z.eqb_spec i b), (Z.leb_spec (steps_behind size b' i) (steps_behind size b' e)),
      (Z.leb_spec (steps_behind size b i) (steps_behind size b e)); try done; exfalso; steps_lia.
Qed.

Lemma clear_new_ok size mem b e :
  0 <= b < size -> 0 <= e < size -> b <> e -> Z.of_nat (length mem) = size ->
  exists mem', clear_new mem size b e = Some mem' /\ cleared mem mem' size b e.
Proof.
  intros Hb He Hne Hlen.
  assert (Hgen : forall mem', length mem' = length mem -> (forall i, 0 <= i < size ->
      mem' !! Z.to_nat i = if steps_behind size b i <? steps_behind size b e then Some 0 else mem !! Z.to_nat i) \/
      (forall i, 0 <= i < size ->
      mem' !! Z.to_nat i = if steps_behind size b i <=? steps_behind size b e then Some 0 else mem !! Z.to_nat i) ->
    cleared mem mem' size b e).
  { intros mem' Hl Hor. split; [done|]. split_and!.
    - intros i Hi Hlt. destruct Hor as [Hm|Hm]; rewrite Hm by done; [destruct (Z.ltb_spec (steps_behind size b i) (steps_behind size b e))|
        destruct (Z.leb_spec (steps_behind size b i) (steps_behind size b e))]; lia || done.
    - intros i Hi Hlt. destruct Hor as [Hm|Hm]; rewrite Hm by done; [destruct (Z.ltb_spec (steps_behind size b i) (steps_behind size b e))|
        destruct (Z.leb_spec (steps_behind size b i) (steps_behind size b e))]; lia || done.
    - intros i w Hw. pose proof (lookup_lt_Some _ _ _ Hw). rewrite <- (Nat2Z.id i) in Hw |- *.
      destruct Hor as [Hm|Hm]; rewrite Hm in Hw by lia; [destruct (_ <? _)|destruct (_ <=? _)]; first [by right|left; by simplify_eq]. }
  unfold clear_new. destruct (Z.leb_spec b e).
  - unfold clear_span. destruct (Z.leb_spec 0 b), (Z.leb_spec e (Z.of_nat (length mem))); try lia. cbn [andb].
    eexists. split; [done|]. apply Hgen; [rewrite !length_app, length_replicate, length_take, length_drop; lia|]. left.
    intros i Hi. destruct (Z.ltb_spec (steps_behind size b i) (steps_behind size b e)).
    + rewrite lookup_app_r, lookup_app_l by (rewrite ?length_take, ?length_replicate; steps_lia).
      apply lookup_replicate_2. rewrite length_take. steps_lia.
    + destruct (Z.lt_ge_cases i b).
      * rewrite lookup_app_l, lookup_take_lt by (rewrite ?length_take; lia). done.
      * rewrite lookup_app_r, lookup_app_r by (rewrite ?length_take, ?length_replicate; steps_lia).
        rewrite lookup_drop, length_take, length_replicate. f_equal. steps_lia.
  - destruct (ClearMemory_run size e He (Z.to_nat size) mem b Hb Hlen Hne) as (mem' & Hr & Hl & Hm); [steps_lia|].
    exists mem'. split; [exact Hr|]. apply Hgen; [done|by right].
Qed.

(** ** The invariant *)

(** The geometry of a window, whatever its numbers. *)
Record ring_ok (g : WinGeo) : Prop := {
  ro_l : 0 <= l_border_pos_ g < WIN_BUF_SIZE /\ l_border_pos_ g mod 64 = 0;
  ro_r : r_border_pos_ g = ring_pos (l_border_pos_ g) MIN_WIN_SZ;
  ro_size : cur_win_size_ g = MIN_WIN_SZ;
  ro_bm : Z.of_nat (length (sn_bit_map_ g)) = SLID_WIN_U64_BUF_SZ;
  ro_ts : Z.of_nat (length (sn_ts_ms_ g)) = WIN_BUF_SIZE
}.

(** The position of a sequence number. *)
Definition pos_of (g : WinGeo) (sn : Z) : Z := ring_pos (l_border_pos_ g) (sn - l_border_sn_ g).

(** The ring stands for [seen], the numbers that have been entered; no number
    has wrapped around. *)
Record geo_ok (seen : gset Z) (g : WinGeo) : Prop := {
  go_l : 0 <= l_border_pos_ g < WIN_BUF_SIZE /\ l_border_pos_ g mod 64 = 0;
  go_r : r_border_pos_ g = ring_pos (l_border_pos_ g) MIN_WIN_SZ;
  go_size : cur_win_size_ g = MIN_WIN_SZ;
  go_sn : 0 <= l_border_sn_ g /\ r_border_sn_ g = l_border_sn_ g + MIN_WIN_SZ;
  go_bm : Z.of_nat (length (sn_bit_map_ g)) = SLID_WIN_U64_BUF_SZ;
  go_words : Forall (fun w => 0 <= w < 2 ^ 64) (sn_bit_map_ g);
  go_ts : Z.of_nat (length (sn_ts_ms_ g)) = WIN_BUF_SIZE;
  go_max : l_border_sn_ g <= max_sn_ g < l_border_sn_ g + MIN_WIN_SZ;
  go_nowrap : max_sn_ g + MIN_WIN_SZ < 2 ^ 32;
  go_max_pos : max_sn_pos_ g = pos_of g (max_sn_ g);
  go_bits : forall sn, l_border_sn_ g <= sn < l_border_sn_ g + MIN_WIN_SZ ->
    bit_of (sn_bit_map_ g) (pos_of g sn) = bool_decide (sn ∈ seen);
  go_seen : forall sn, sn ∈ seen -> sn <= max_sn_ g
}.

Lemma geo_ring seen g : geo_ok seen g -> ring_ok g.
Proof. intros []. by split. Qed.

(** ** Moving the window *)
Lemma land_down x n : 0 <= n -> 0 <= x < 2 ^ (n + 6) -> Z.land x (Z.shiftl (Z.ones n) 6) = 64 * (x / 64).
Proof.
  intros Hn Hx. replace (64 * (x / 64)) with (Z.shiftl (Z.shiftr x 6) 6)
    by (rewrite Z.shiftl_mul_pow2, Z.shiftr_div_pow2 by lia; change (2 ^ 6) with 64; lia).
  apply Z.bits_inj'. intros i Hi. rewrite Z.land_spec. destruct (Z.lt_ge_cases i 6).
  - rewrite !Z.shiftl_spec_low by lia. apply andb_false_r.
  - rewrite !Z.shiftl_spec, Z.shiftr_spec, testbit_ones_full by lia. replace (i - 6 + 6) with i by lia.
    destruct (Z.ltb_spec (i - 6) n); [apply andb_true_r|]. rewrite <- (Z.mod_small x (2 ^ (n + 6))) by done.
    rewrite Z.mod_pow2_bits_high by lia. done.
Qed.
Lemma land_FFC0 x : 0 <= x < 65536 -> Z.land x MIN_MOVE_STEP_BIT_MASK = 64 * (x / 64).
Proof. exact (land_down x 10 ltac:(lia)). Qed.

Lemma block_of_small pos : 0 <= pos < WIN_BUF_SIZE -> block_of pos = pos / 64.
Proof. intros Hp. unfold block_of. rewrite shiftr_6. destruct (Z.leb_spec SLID_WIN_U64_BUF_SZ (pos / 64)); [ring_lia|done]. Qed.
Lemma steps_mod b k : 0 <= b < 128 -> 0 <= k < 128 -> steps_behind 128 b ((b + k) mod 128) = k.
Proof.
  intros Hb Hk. pose proof (Z.mod_pos_bound (b + k) 128 ltac:(lia)) as Hm. destruct (Z.lt_ge_cases (b + k) 128).
  - rewrite Z.mod_small by lia. steps_lia.
  - replace ((b + k) mod 128) with (b + k - 128) by (apply (Z.mod_unique _ _ 1); lia). steps_lia.
Qed.

(** The window [v] positions further on. *)
Definition move_geo (v : Z) (bm ts : list Z) (g : WinGeo) : WinGeo :=
  mkWinGeo (ring_pos (l_border_pos_ g) v) (ring_pos (l_border_pos_ g) (MIN_WIN_SZ + v)) (u32 (l_border_sn_ g + v))
    (u32 (r_border_sn_ g + v)) MIN_WIN_SZ (max_sn_pos_ g) (max_sn_ g) (max_sn_span_ g) (max_rcv_sn_pos_ g)
    (expect_next_recv_sn_ g) bm ts.

Lemma pos_of_move v bm ts g sn : 0 <= l_border_sn_ g + v < 2 ^ 32 -> pos_of (move_geo v bm ts g) sn = pos_of g sn.
Proof.
  intros Hv. unfold pos_of, move_geo. cbn [l_border_pos_ l_border_sn_]. rewrite u32_small, ring_pos_move by lia. f_equal. lia.
Qed.
Lemma move_ring_ok v bm ts g : ring_ok g -> v mod 64 = 0 -> length bm = length (sn_bit_map_ g) -> length ts = length (sn_ts_ms_ g) ->
  ring_ok (move_geo v bm ts g).
Proof.
  intros Hg Hv Hbm Hts. destruct (ro_l _ Hg) as [Hl Hl64]. split; cbn.
  - split; [apply ring_pos_range|]. unfold ring_pos. ring_lia.
  - rewrite ring_pos_move. f_equal. lia.
  - done.
  - rewrite Hbm. exact (ro_bm _ Hg).
  - rewrite Hts. exact (ro_ts _ Hg).
Qed.

Lemma bit_of_cleared bm bm' b d k : cleared bm bm' 128 b ((b + d) mod 128) -> 0 <= b < 128 -> 0 <= d < 128 ->
  0 <= k < 128 -> k <> d -> forall j, 0 <= j < 64 ->
  bit_of bm' (64 * ((b + k) mod 128) + j) = if k <? d then false else bit_of bm (64 * ((b + k) mod 128) + j).
Proof.
  intros (Hl & H0 & Hkeep & _) Hb Hd Hk Hne j Hj. set (i := (b + k) mod 128).
  assert (Hi : 0 <= i < 128) by (apply Z.mod_pos_bound; lia).
  assert (Hs : steps_behind 128 b i = k) by (by apply steps_mod).
  pose proof (steps_mod b d Hb Hd) as Hsd.
  assert (Hdiv : (64 * i + j) / 64 = i) by (symmetry; apply (Z.div_unique _ _ _ j); lia).
  unfold bit_of. rewrite Hdiv. destruct (Z.ltb_spec k d).
  - rewrite H0 by lia. apply Z.bits_0.
  - by rewrite Hkeep by lia.
Qed.

Lemma ring_pos_split l k : l mod 64 = 0 -> ring_pos l k = 64 * ((l / 64 + k / 64) mod 128) + k mod 64.
Proof. intros Hl. unfold ring_pos. ring_lia. Qed.

(** The bits of the moved window: those of the old one, and none behind it. *)
Lemma bits_moved l bm bm' v k :
  0 <= l < WIN_BUF_SIZE -> l mod 64 = 0 -> 0 < v < MIN_WIN_SZ -> v mod 64 = 0 -> v <= k < v + MIN_WIN_SZ ->
  cleared bm bm' SLID_WIN_U64_BUF_SZ (block_of (ring_pos l MIN_WIN_SZ)) (block_of (ring_pos l (MIN_WIN_SZ + v))) ->
  bit_of bm' (ring_pos l k) = if k <? MIN_WIN_SZ then bit_of bm (ring_pos l k) else false.
Proof.
  intros Hl Hl64 Hv Hv64 Hk Hcl. rewrite !block_of_small in Hcl by apply ring_pos_range.
  set (b := (l / 64 + 64) mod 128). assert (Hb : 0 <= b < 128) by (apply Z.mod_pos_bound; lia).
  assert (E1 : ring_pos l MIN_WIN_SZ / 64 = b) by (unfold b, ring_pos; ring_lia).
  assert (E2 : ring_pos l (MIN_WIN_SZ + v) / 64 = (b + v / 64) mod 128) by (unfold b, ring_pos; ring_lia).
  rewrite E1, E2 in Hcl. rewrite (ring_pos_split l k Hl64). pose proof (Z.mod_pos_bound k 64 ltac:(lia)) as Hj.
  unfold MIN_WIN_SZ in *. assert (Hd : 0 <= v / 64 < 64) by ring_lia.
  destruct (Z.ltb_spec k 4096).
  - assert (E3 : (l / 64 + k / 64) mod 128 = (b + (k / 64 + 64)) mod 128) by (unfold b; ring_lia). rewrite E3.
    rewrite (bit_of_cleared _ _ _ _ (k / 64 + 64) Hcl) by ring_lia. destruct (Z.ltb_spec (k / 64 + 64) (v / 64)); [ring_lia|done].
  - assert (E3 : (l / 64 + k / 64) mod 128 = (b + (k / 64 - 64)) mod 128) by (unfold b; ring_lia). rewrite E3.
    rewrite (bit_of_cleared _ _ _ _ (k / 64 - 64) Hcl) by ring_lia. destruct (Z.ltb_spec (k / 64 - 64) (v / 64)); [done|ring_lia].
Qed.

Lemma move_geo_ok seen g v bm ts :
  geo_ok seen g -> 0 < v -> v mod 64 = 0 -> l_border_sn_ g + v <= max_sn_ g ->
  cleared (sn_bit_map_ g) bm SLID_WIN_U64_BUF_SZ (block_of (r_border_pos_ g)) (block_of (ring_pos (l_border_pos_ g) (MIN_WIN_SZ + v))) ->
  Z.of_nat (length ts) = WIN_BUF_SIZE -> geo_ok seen (move_geo v bm ts g).
Proof.
  intros Hg Hv Hv64 Hvm Hcl Hts. pose proof Hcl as (Hlen & _ & _ & Hval). destruct (go_l _ _ Hg) as [Hl Hl64].
  pose proof (go_max _ _ Hg) as Hmax. pose proof (go_sn _ _ Hg) as [Hsn Hrsn]. pose proof (go_nowrap _ _ Hg) as Hnw.
  assert (Hvs : 0 <= l_border_sn_ g + v < 2 ^ 32) by (unfold MIN_WIN_SZ in *; lia).
  assert (Er : u32 (r_border_sn_ g + v) = l_border_sn_ g + v + MIN_WIN_SZ) by (rewrite Hrsn, u32_small; unfold MIN_WIN_SZ in *; lia).
  assert (El : u32 (l_border_sn_ g + v) = l_border_sn_ g + v) by (by apply u32_small).
  destruct (move_ring_ok v bm ts g (geo_ring _ _ Hg) Hv64 Hlen) as [Rl Rr Rs Rb Rt]; [pose proof (go_ts _ _ Hg); lia|].
  split; [exact Rl|exact Rr|exact Rs| |exact Rb| |exact Rt| | | | |]; cbn [move_geo l_border_sn_ r_border_sn_ sn_bit_map_ max_sn_ max_sn_pos_];
    rewrite ?El, ?Er.
  - lia.
  - apply Forall_lookup. intros i w Hw. destruct (Hval i w Hw) as [->|Hold]; [lia|]. exact (Forall_lookup_1 _ _ _ _ (go_words _ _ Hg) Hold).
  - unfold MIN_WIN_SZ in *. lia.
  - done.
  - rewrite pos_of_move by done. exact (go_max_pos _ _ Hg).
  - intros sn Hin. rewrite pos_of_move by done. rewrite (go_r _ _ Hg) in Hcl.
    unfold pos_of. rewrite (bits_moved _ _ _ v (sn - l_border_sn_ g) Hl Hl64 ltac:(unfold MIN_WIN_SZ in *; lia) Hv64 ltac:(lia) Hcl).
    destruct (Z.ltb_spec (sn - l_border_sn_ g) MIN_WIN_SZ); [apply (go_bits _ _ Hg); lia|].
    symmetry. apply bool_decide_eq_false. intros Hs%(go_seen _ _ Hg). lia.
  - exact (go_seen _ _ Hg).
Qed.

(** The least part of the window a move leaves on its left. *)
Definition min_reserve (s : SlidWin) : Z := if SELF_YES =? filter_win_flag_ s then 256 else 128.
Definition max_reserve (s : SlidWin) : Z := if SELF_YES =? filter_win_flag_ s then 512 else 768.
Lemma min_reserve_range s : 128 <= min_reserve s <= 256.
Proof. unfold min_reserve. destruct (_ =? _); lia. Qed.
Lemma max_reserve_range s : 512 <= max_reserve s <= 768.
Proof. unfold max_reserve. destruct (_ =? _); lia. Qed.
Lemma pick_reserve (s : SlidWin) a b :
  min_reserve s <= (if SELF_YES =? filter_win_flag_ s then CalcFilterWinReserveSize a b else CalcTranWinReserveSize a b) <= max_reserve s.
Proof.
  unfold min_reserve, max_reserve, CalcFilterWinReserveSize, CalcTranWinReserveSize. cbn [row_of].
  destruct (SELF_YES =? filter_win_flag_ s); repeat destruct (_ <? _); vm_compute; split; discriminate.
Qed.

(** What moving does to the state. *)
Record moved (seen : gset Z) (step limit : Z) (s s' : SlidWin) : Prop := {
  mv_ok : geo_ok seen (geo s');
  mv_pos : forall sn, pos_of (geo s') sn = pos_of (geo s) sn;
  mv_least : l_border_sn_ (geo s) + step - max_reserve s - 63 <= l_border_sn_ (geo s');
  mv_border : l_border_sn_ (geo s) <= l_border_sn_ (geo s') <= Z.max (l_border_sn_ (geo s)) limit;
  mv_max : max_sn_ (geo s') = max_sn_ (geo s);
  mv_rest : s' = on_geo (fun _ => geo s') s
}.
Lemma on_geo_id s : s = on_geo (fun _ => geo s) s.
Proof. by destruct s. Qed.
Lemma moved_refl seen step limit s : geo_ok seen (geo s) -> step <= max_reserve s + 63 -> moved seen step limit s s.
Proof. intros Hg Hs. split; [done|done|lia|lia|done|apply on_geo_id]. Qed.

(** Either the window stays, or its left border moves by a multiple of 64. *)
Lemma wp_MoveWin_ring step s (Q : unit -> SlidWin -> Prop) :
  ring_ok (geo s) -> step <= WIN_BUF_SIZE ->
  (step <= max_reserve s + 63 -> Q tt s) ->
  (forall v bm ts, 0 < v -> v mod 64 = 0 -> v <= step - min_reserve s -> step - max_reserve s - 63 <= v ->
     cleared (sn_bit_map_ (geo s)) bm SLID_WIN_U64_BUF_SZ (block_of (r_border_pos_ (geo s)))
       (block_of (ring_pos (l_border_pos_ (geo s)) (MIN_WIN_SZ + v))) ->
     length ts = length (sn_ts_ms_ (geo s)) -> Q tt (on_geo (fun _ => move_geo v bm ts (geo s)) s)) ->
  wp (MoveWin step) Q s.
Proof.
  intros Hg Hstep HQ0 HQ. unfold MoveWin. apply wp_bind, wp_get.
  pose proof (pick_reserve s (avg_pps_ (cnt s)) (cur_rtt_us_ (rtt s))) as Hres. set (reserve := if SELF_YES =? _ then _ else _) in *.
  pose proof (max_reserve_range s). unfold MIN_RSV_WIN_BIT_SZ.
  destruct (Z.leb_spec step 64); [apply HQ0; lia|]. destruct (Z.leb_spec step reserve); [apply HQ0; lia|].
  pose proof (min_reserve_range s). unfold WIN_BUF_SIZE in Hstep.
  rewrite land_FFC0 by lia. set (v := 64 * ((step - reserve) / 64)).
  assert (Hv : 0 <= v <= step - reserve /\ step - reserve - 63 <= v /\ v mod 64 = 0) by (unfold v; ring_lia).
  destruct (Z.eqb_spec 0 v); [apply HQ0; lia|]. destruct (ro_l _ Hg) as [Hl Hl64].
  rewrite (ro_r _ Hg), ring_pos_add.
  replace (Z.land (l_border_pos_ (geo s) + v) WIN_POS_MASK) with (ring_pos (l_border_pos_ (geo s)) v) by (by rewrite land_ring).
  set (b := ring_pos _ MIN_WIN_SZ). set (e := ring_pos _ (MIN_WIN_SZ + v)).
  assert (Hb : 0 <= b < WIN_BUF_SIZE) by apply ring_pos_range. assert (He : 0 <= e < WIN_BUF_SIZE) by apply ring_pos_range.
  assert (Hblk : b / 64 <> e / 64) by (unfold b, e, ring_pos; ring_lia).
  destruct (clear_new_ok WIN_BUF_SIZE (sn_ts_ms_ (geo s)) b e Hb He ltac:(congruence) (ro_ts _ Hg)) as (ts & Ets & Hts & _).
  destruct (clear_new_ok SLID_WIN_U64_BUF_SZ (sn_bit_map_ (geo s)) (block_of b) (block_of e)) as (bm & Ebm & Hbm).
  { rewrite block_of_small by done. ring_lia. } { rewrite block_of_small by done. ring_lia. } { by rewrite !block_of_small. }
  { exact (ro_bm _ Hg). }
  apply wp_bind, (wp_deref _ _ _ _ Ets), wp_bind, (wp_deref _ _ _ _ Ebm), wp_mod.
  assert (Esz : (if ring_pos (l_border_pos_ (geo s)) v <=? e then e - ring_pos (l_border_pos_ (geo s)) v
      else (WIN_BUF_SIZE - ring_pos (l_border_pos_ (geo s)) v) + e) = MIN_WIN_SZ).
  { change (if ring_pos (l_border_pos_ (geo s)) v <=? e then _ else _) with (SnPosToSpan (ring_pos (l_border_pos_ (geo s)) v) e).
    unfold e. rewrite (Z.add_comm MIN_WIN_SZ v), <- ring_pos_move. apply span_ring_pos; [apply ring_pos_range|done]. }
  rewrite Esz. apply (HQ v bm ts); [lia|tauto|lia|lia|rewrite (ro_r _ Hg); exact Hbm|exact Hts].
Qed.

Lemma wp_MoveWin seen step s (Q : unit -> SlidWin -> Prop) :
  geo_ok seen (geo s) -> step <= max_sn_ (geo s) - l_border_sn_ (geo s) + min_reserve s ->
  (forall s', moved seen step (l_border_sn_ (geo s) + step - min_reserve s) s s' -> Q tt s') -> wp (MoveWin step) Q s.
Proof.
  intros Hg Hstep HQ. pose proof (go_max _ _ Hg) as Hmax. unfold MIN_WIN_SZ in Hmax.
  pose proof (min_reserve_range s).
  pose proof (go_sn _ _ Hg) as [Hsn Hrsn]. pose proof (go_nowrap _ _ Hg) as Hnw. unfold MIN_WIN_SZ in Hnw.
  apply wp_MoveWin_ring; [by eapply geo_ring|unfold WIN_BUF_SIZE; lia|intros; by apply HQ, moved_refl|].
  intros v bm ts Hv Hv64 Hle Hge Hcl Hts. apply HQ.
  assert (Hvs : 0 <= l_border_sn_ (geo s) + v < 2 ^ 32) by lia.
  assert (Hgeo : geo_ok seen (move_geo v bm ts (geo s))).
  { apply move_geo_ok; [done|lia|done|lia|done|]. rewrite Hts. exact (go_ts _ _ Hg). }
  split; [done|intros sn; by apply pos_of_move|..|done|done]; cbn [geo on_geo move_geo l_border_sn_]; rewrite u32_small; lia.
Qed.

(** ** What leaves the ring alone *)
Definition same_win (s s' : SlidWin) : Prop :=
  geo s' = geo s /\ slid_win_mode_ s' = slid_win_mode_ s /\ filter_win_flag_ s' = filter_win_flag_ s.
#[global] Instance same_win_preorder : PreOrder same_win.
Proof. split; [by intros s|]. intros s1 s2 s3 (?&?&?) (?&?&?). unfold same_win. split_and!; congruence. Qed.
Ltac same_win_tac := repeat case_match; unfold same_win; cbn; done.

Lemma same_CalcPps ts s : same_win s (CalcPps ts s).
Proof. unfold CalcPps. destruct (_ <? _); done. Qed.
Lemma same_CheckRealExistLoss sn ts s : same_win s (CheckRealExistLoss sn ts s).2.
Proof. unfold CheckRealExistLoss. same_win_tac. Qed.
Lemma same_adjust_rto c span s : same_win s (adjust_rto_sn_num c span s).
Proof. unfold adjust_rto_sn_num. same_win_tac. Qed.
Lemma same_rcv_report c ts loss s : same_win s (rcv_report c ts loss s).
Proof. unfold rcv_report. same_win_tac. Qed.
Lemma same_rcv_quality ts loss s : same_win s (rcv_quality ts loss s).
Proof. unfold rcv_quality. same_win_tac. Qed.
Lemma same_periodic_report ts s : same_win s (periodic_report ts s).
Proof. unfold periodic_report, report_either. same_win_tac. Qed.
#[export] Hint Resolve same_CalcPps same_CheckRealExistLoss same_adjust_rto same_rcv_report same_rcv_quality same_periodic_report : udp.

(** ** Steps of a receiving window *)

(** The window stands for [seen] afterwards; its left border has moved at most
    to what the reserve leaves free behind the largest number, and has not
    stayed behind. *)
Record win_step (seen : gset Z) (s s' : SlidWin) : Prop := {
  ws_ok : geo_ok seen (geo s');
  ws_mode : slid_win_mode_ s' = slid_win_mode_ s;
  ws_filter : filter_win_flag_ s' = filter_win_flag_ s;
  ws_left : l_border_sn_ (geo s) <= l_border_sn_ (geo s');
  ws_margin : l_border_sn_ (geo s') <= Z.max (l_border_sn_ (geo s)) (max_sn_ (geo s') + 66 - min_reserve s);
  ws_max : max_sn_ (geo s) <= max_sn_ (geo s');
  ws_ahead : max_sn_ (geo s') - l_border_sn_ (geo s') <= Z.max (max_sn_ (geo s) - l_border_sn_ (geo s)) (2110 + max_reserve s)
}.
Lemma same_win_step seen s s' : geo_ok seen (geo s) -> same_win s s' -> win_step seen s s'.
Proof. intros Hg (E1 & E2 & E3). split; rewrite ?E1; try done; lia. Qed.
Lemma win_step_trans seen1 seen s1 s2 s3 : win_step seen1 s1 s2 -> win_step seen s2 s3 -> win_step seen s1 s3.
Proof.
  intros [_ M1 F1 L1 B1 X1 A1] [Ok M2 F2 L2 B2 X2 A2].
  assert (min_reserve s2 = min_reserve s1) by (unfold min_reserve; by rewrite F1).
  assert (max_reserve s2 = max_reserve s1) by (unfold max_reserve; by rewrite F1).
  split; [done|congruence|congruence|lia|lia|lia|lia].
Qed.
Lemma moved_step seen step limit s s' :
  moved seen step limit s s' -> limit <= max_sn_ (geo s) + 66 - min_reserve s -> win_step seen s s'.
Proof. intros [Ok _ _ HB HM HR] Hlim. rewrite HR in *. cbn in *. split; cbn; try done; lia. Qed.

Lemma pos_of_range g sn : 0 <= pos_of g sn < WIN_BUF_SIZE.
Proof. apply ring_pos_range. Qed.
Lemma span_of seen g sn : geo_ok seen g -> l_border_sn_ g <= sn < l_border_sn_ g + WIN_BUF_SIZE ->
  SnPosToSpan (l_border_pos_ g) (pos_of g sn) = sn - l_border_sn_ g.
Proof. intros Hg Hsn. apply span_ring_pos; [apply (go_l _ _ Hg)|lia]. Qed.

Lemma near_span_le g pos k : 0 <= l_border_pos_ g < WIN_BUF_SIZE /\ l_border_pos_ g mod 64 = 0 ->
  near g pos k -> k < WIN_BUF_SIZE -> 0 <= SnPosToSpan (l_border_pos_ g) pos <= k.
Proof. intros Hl Hn Hk. by eapply near_span. Qed.

(** The search of [CalcRcvLoss] ends, and moves the window by a step that
    leaves the reserve behind the largest number. *)
Lemma scan_step seen g rto_ts ts rto_sn :
  geo_ok seen g ->
  let tmp := Z.land (max_sn_pos_ g + 1) WIN_POS_MASK in
  exists c, scan_loop g rto_ts ts rto_sn tmp (SnPosToSpan (l_border_pos_ g) tmp) SCAN_FUEL (scan_start g) = Some c /\
    rcv_step g c <= max_sn_ g - l_border_sn_ g + 65.
Proof.
  intros Hg tmp. pose proof (go_max _ _ Hg) as Hmax. unfold MIN_WIN_SZ in Hmax. pose proof (go_l _ _ Hg) as Hl.
  assert (Hspan : SnPosToSpan (l_border_pos_ g) tmp = max_sn_ g - l_border_sn_ g + 1).
  { unfold tmp. rewrite (go_max_pos _ _ Hg). unfold pos_of. rewrite ring_pos_add, span_ring_pos; [done|tauto|unfold WIN_BUF_SIZE; lia]. }
  rewrite Hspan. set (mk := max_sn_ g - l_border_sn_ g) in *.
  destruct (scan_loop_ok g rto_ts ts rto_sn tmp (mk + 1) Hl (go_bm _ _ Hg) (go_ts _ _ Hg) SCAN_FUEL 0 (scan_start g))
    as (c & Hc & Hr & Hb); [by apply scan_start_ok|unfold WIN_BUF_SIZE, SCAN_FUEL; lia..|].
  exists c. split; [exact Hc|]. unfold rcv_step.
  pose proof (near_span_le g _ _ Hl Hr ltac:(unfold WIN_BUF_SIZE; lia)).
  pose proof (near_span_le g _ _ Hl Hb ltac:(unfold WIN_BUF_SIZE; lia)). lia.
Qed.

Lemma wp_CalcRcvLoss seen ts force s (Q : unit -> SlidWin -> Prop) :
  geo_ok seen (geo s) -> (forall s', win_step seen s s' -> max_sn_ (geo s') = max_sn_ (geo s) -> Q tt s') -> wp (CalcRcvLoss ts force) Q s.
Proof.
  intros Hg HQ. assert (Hrefl : win_step seen s s) by (apply same_win_step; done).
  unfold CalcRcvLoss. apply wp_bind, wp_get.
  destruct (_ =? bit_map_update_ _); [by apply HQ|]. destruct (rcv_waits _ _ _); [by apply HQ|].
  apply wp_bind, wp_mod, wp_bind, wp_mod, wp_bind, wp_get. set (s1 := on_cnt _ (on_tm _ s)).
  assert (S1 : same_win s s1) by done. clearbody s1. destruct S1 as (G1 & M1 & F1). rewrite G1.
  destruct (scan_step seen (geo s) (let r := TsUsToU16Ms (rto_ts_us_ (rtt s1)) in if 0 =? r then 1 else r) (TsUsToU16Ms ts)
    (rto_sn_num_ (cnt s1)) Hg) as (c & Hc & Hstep).
  apply wp_bind, (wp_deref _ _ _ _ Hc). apply wp_bind, wp_mod, wp_bind, wp_mod, wp_bind, wp_get, wp_bind, wp_mod, wp_bind, wp_mod.
  match goal with |- wp _ _ ?x => set (s2 := x) end.
  assert (S2 : same_win s s2).
  { transitivity s1; [done|]. unfold s2. etrans; [|apply same_rcv_report]. etrans; [|done]. etrans; [|done]. apply same_adjust_rto. }
  clearbody s2. pose proof (same_win_step seen _ _ Hg S2) as W2. destruct S2 as (G2 & M2 & F2).
  assert (Hres : min_reserve s2 = min_reserve s) by (unfold min_reserve; by rewrite F2).
  pose proof (min_reserve_range s).
  apply wp_bind, (wp_MoveWin seen); [by rewrite G2|rewrite G2, Hres; lia|]. intros s3 Hmv. apply wp_mod, HQ.
  2: { match goal with |- context [rcv_quality ts ?f s3] => destruct (same_rcv_quality ts f s3) as (-> & _) end.
    by rewrite (mv_max _ _ _ _ _ Hmv), G2. }
  eapply win_step_trans; [exact W2|]. eapply win_step_trans.
  - eapply moved_step; [exact Hmv|]. rewrite G2. lia.
  - apply same_win_step; [apply (mv_ok _ _ _ _ _ Hmv)|apply same_rcv_quality].
Qed.

(** ** Entering a number *)
Lemma words_lookup seen g i w : geo_ok seen g -> sn_bit_map_ g !! i = Some w -> 0 <= w < 2 ^ 64.
Proof. intros Hg Hw. exact (Forall_lookup_1 _ _ _ _ (go_words _ _ Hg) Hw). Qed.

Lemma pos_of_inj seen g a b : geo_ok seen g -> l_border_sn_ g <= a < l_border_sn_ g + WIN_BUF_SIZE ->
  l_border_sn_ g <= b < l_border_sn_ g + WIN_BUF_SIZE -> pos_of g a = pos_of g b -> a = b.
Proof. intros Hg Ha Hb He%ring_pos_inj; [lia..|apply (go_l _ _ Hg)]. Qed.

(** The geometry after [sn] has been marked. *)
Definition marked (sn t w : Z) (g : WinGeo) : WinGeo :=
  let pos := pos_of g sn in
  UpdateMaxSnPos pos sn (put_sn_ts_ms_ (<[Z.to_nat pos := t]> (sn_ts_ms_ g))
    (put_sn_bit_map_ (<[Z.to_nat (pos / 64) := Z.lor w (2 ^ (pos mod 64))]> (sn_bit_map_ g)) g)).

Lemma marked_ok seen g sn t w :
  geo_ok seen g -> l_border_sn_ g <= sn < l_border_sn_ g + MIN_WIN_SZ -> sn + MIN_WIN_SZ < 2 ^ 32 ->
  sn_bit_map_ g !! Z.to_nat (pos_of g sn / 64) = Some w ->
  geo_ok ({[sn]} ∪ seen) (marked sn t w g) /\ max_sn_ (marked sn t w g) = Z.max (max_sn_ g) sn /\
  l_border_sn_ (marked sn t w g) = l_border_sn_ g.
Proof.
  intros Hg Hsn Hnw Hw. pose proof (go_max _ _ Hg) as Hmax. pose proof (pos_of_range g sn) as Hp.
  set (pos := pos_of g sn) in *. unfold marked. fold pos. unfold UpdateMaxSnPos.
  cbn [put_sn_ts_ms_ put_sn_bit_map_ l_border_pos_ cur_win_size_ max_sn_pos_]. rewrite (go_size _ _ Hg), (go_max_pos _ _ Hg).
  unfold pos. rewrite !(span_of seen) by (done || (unfold MIN_WIN_SZ, WIN_BUF_SIZE in *; lia)). fold pos.
  destruct (Z.ltb_spec MIN_WIN_SZ (sn - l_border_sn_ g)); [lia|].
  set (bm := <[_ := _]> (sn_bit_map_ g)).
  assert (Hbits : forall n, l_border_sn_ g <= n < l_border_sn_ g + MIN_WIN_SZ ->
    bit_of bm (pos_of g n) = bool_decide (n ∈ {[sn]} ∪ seen)).
  { intros n Hn. pose proof (pos_of_range g n). unfold bm. pose proof (Z.mod_pos_bound pos 64 ltac:(lia)).
    rewrite (bit_of_insert _ _ w _ true) by (done || lia || ring_lia). pose proof (Z.div_mod pos 64 ltac:(lia)) as Hdm.
    destruct (Z.eqb_spec (pos_of g n) (64 * (pos / 64) + pos mod 64)) as [He|He].
    - rewrite <- Hdm in He. apply (pos_of_inj seen) in He; [|done|unfold MIN_WIN_SZ, WIN_BUF_SIZE in *; lia..]. subst n.
      symmetry. apply bool_decide_eq_true, elem_of_union_l. by apply elem_of_singleton.
    - rewrite (go_bits _ _ Hg) by done. apply bool_decide_ext. assert (n <> sn) by (intros ->; fold pos in He; lia).
      rewrite elem_of_union, elem_of_singleton. tauto. }
  assert (Hlen : length bm = length (sn_bit_map_ g)) by apply length_insert.
  assert (Hwd : Forall (fun w => 0 <= w < 2 ^ 64) bm).
  { apply words_insert; [apply (go_words _ _ Hg)|]. pose proof (words_lookup _ _ _ _ Hg Hw). apply word_lor; [lia|].
    apply Z.mod_pos_bound. lia. }
  destruct (Z.leb_spec (max_sn_ g - l_border_sn_ g) (sn - l_border_sn_ g)).
  - split; [|cbn; lia]. destruct Hg. split; cbn; try done; rewrite ?length_insert, ?Hlen; try done; try lia; [].
    intros n Hn. apply elem_of_union in Hn as [->%elem_of_singleton|Hn%go_seen0]; lia.
  - split; [|cbn; lia]. destruct Hg. split; cbn; try done; rewrite ?length_insert, ?Hlen; try done; [].
    intros n Hn. apply elem_of_union in Hn as [->%elem_of_singleton|Hn%go_seen0]; lia.
Qed.

Lemma wp_mark_received seen sn ts s (Q : Z -> SlidWin -> Prop) :
  geo_ok seen (geo s) -> slid_win_mode_ s = kRecvSlidWinMode ->
  l_border_sn_ (geo s) <= sn < l_border_sn_ (geo s) + MIN_WIN_SZ -> sn + MIN_WIN_SZ < 2 ^ 32 ->
  (forall f s', geo_ok ({[sn]} ∪ seen) (geo s') -> max_sn_ (geo s') = Z.max (max_sn_ (geo s)) sn ->
     l_border_sn_ (geo s') = l_border_sn_ (geo s) -> slid_win_mode_ s' = slid_win_mode_ s ->
     filter_win_flag_ s' = filter_win_flag_ s -> Q f s') ->
  wp (mark_received sn (pos_of (geo s) sn) ts) Q s.
Proof.
  intros Hg Hm Hsn Hnw HQ. unfold mark_received. pose proof (pos_of_range (geo s) sn) as Hp.
  set (pos := pos_of (geo s) sn) in *. rewrite shiftr_6, land_63.
  destruct (at_pos_some (sn_bit_map_ (geo s)) (pos / 64)) as [w Hw]; [rewrite (go_bm _ _ Hg); ring_lia|].
  assert (Hw' : sn_bit_map_ (geo s) !! Z.to_nat (pos / 64) = Some w).
  { unfold at_pos in Hw. by destruct (0 <=? pos / 64). }
  destruct (marked_ok seen (geo s) sn (TsUsToU16Ms ts) w Hg Hsn Hnw Hw') as (Hok & Hmx & Hl).
  apply wp_bind, wp_get, wp_bind, (wp_deref _ _ _ _ Hw), wp_bind.
  eapply wp_deref; [apply put_at_some; rewrite (go_bm _ _ Hg); ring_lia|]. apply wp_bind, wp_mod.
  rewrite Z.shiftl_1_l. set (bm := <[_ := _]> (sn_bit_map_ (geo s))).
  cbn [slid_win_mode_ on_geo]. rewrite Hm. cbn [Z.eqb kRecvSlidWinMode Pos.eqb]. apply wp_bind, wp_get.
  match goal with |- context [CheckRealExistLoss sn ts ?x] => set (s1 := x); pose proof (same_CheckRealExistLoss sn ts s1) as Hs end.
  destruct (CheckRealExistLoss sn ts s1) as [flag s2]. cbn [snd] in Hs. destruct Hs as (G & M & F).
  apply wp_bind, wp_mod, wp_bind. eapply wp_deref.
  { rewrite G. apply put_at_some. cbn. rewrite (go_ts _ _ Hg). done. }
  apply wp_bind, wp_mod, wp_bind, wp_mod, wp_ret.
  assert (Hgeo : forall u, geo (on_geo (UpdateMaxSnPos pos sn) (on_geo (put_sn_ts_ms_ u) s2)) = UpdateMaxSnPos pos sn (put_sn_ts_ms_ u (geo s2))) by done.
  apply HQ; cbn [geo on_geo slid_win_mode_ filter_win_flag_]; rewrite ?G; [exact Hok|exact Hmx|exact Hl|exact M|exact F].
Qed.

(** How far the window moves when a number is entered. *)
Lemma IsMoveWin_step seen g sn : geo_ok seen g -> l_border_sn_ g <= sn < l_border_sn_ g + MIN_WIN_SZ ->
  0 <= IsMoveWin (pos_of g sn) g <= Z.max 0 (sn - l_border_sn_ g - 1984) /\
  sn - l_border_sn_ g - 2047 <= IsMoveWin (pos_of g sn) g.
Proof.
  intros Hg Hsn. unfold MIN_WIN_SZ in Hsn. destruct (go_l _ _ Hg) as [Hl _]. unfold IsMoveWin.
  rewrite (span_of seen) by (done || (unfold WIN_BUF_SIZE; lia)). rewrite (go_size _ _ Hg). change (Z.shiftr MIN_WIN_SZ 1) with 2048.
  destruct (Z.ltb_spec (sn - l_border_sn_ g) 2048); [lia|].
  assert (Hspan : SnPosToSpan (Z.land (l_border_pos_ g + 2048) WIN_POS_MASK) (pos_of g sn) = sn - l_border_sn_ g - 2048).
  { rewrite land_ring. change ((l_border_pos_ g + 2048) mod WIN_BUF_SIZE) with (ring_pos (l_border_pos_ g) 2048). unfold pos_of.
    replace (sn - l_border_sn_ g) with (2048 + (sn - l_border_sn_ g - 2048)) at 1 by lia.
    rewrite <- ring_pos_move. apply span_ring_pos; [apply ring_pos_range|unfold WIN_BUF_SIZE; lia]. }
  rewrite Hspan. set (d := sn - l_border_sn_ g - 2048). change 0xFFFFFFC0 with (Z.shiftl (Z.ones 26) 6).
  rewrite (land_down d 26) by lia. unfold MIN_MOVE_STEP, MAX_MOVE_STEP.
  assert (d - 63 <= 64 * (d / 64) <= d) by (pose proof (Z.div_mod d 64); pose proof (Z.mod_pos_bound d 64); lia).
  destruct (Z.ltb_spec 3072 (64 * (d / 64) + 64)); lia.
Qed.

Lemma l_span_in seen g sn : geo_ok seen g -> l_border_sn_ g <= sn -> l_span (l_border_sn_ g) sn = sn - l_border_sn_ g.
Proof. intros Hg Hsn. unfold l_span. destruct (Z.leb_spec (l_border_sn_ g) sn); [done|lia]. Qed.
Lemma entry_pos_eq seen g sn : geo_ok seen g -> l_border_sn_ g <= sn < 2 ^ 31 + l_border_sn_ g -> entry_pos g sn = pos_of g sn.
Proof.
  intros Hg Hsn. unfold entry_pos. rewrite (l_span_in seen) by (done || lia). destruct (go_l _ _ Hg) as [Hl _]. unfold WIN_BUF_SIZE in Hl.
  rewrite u32_small, land_ring by lia. unfold pos_of, ring_pos. f_equal. lia.
Qed.

Lemma SnIsValid_in seen g sn : geo_ok seen g -> l_border_sn_ g <= sn < l_border_sn_ g + MIN_WIN_SZ -> SnIsValid sn g = SELF_SUCESS.
Proof.
  intros Hg Hsn. unfold SnIsValid. rewrite (l_span_in seen), (go_size _ _ Hg) by (done || lia).
  destruct (Z.ltb_spec MIN_WIN_SZ (sn - l_border_sn_ g)); [lia|done].
Qed.

(** [SnEntryWin] of a number inside the window that is not far ahead. *)
Lemma wp_SnEntryWin seen sn ts flag s (Q : Z -> SlidWin -> Prop) :
  geo_ok seen (geo s) -> slid_win_mode_ s = kRecvSlidWinMode ->
  l_border_sn_ (geo s) <= sn < l_border_sn_ (geo s) + MIN_WIN_SZ -> sn <= max_sn_ (geo s) + 2048 -> sn + MIN_WIN_SZ < 2 ^ 32 ->
  (forall s', win_step ({[sn]} ∪ seen) s s' -> max_sn_ (geo s') = Z.max (max_sn_ (geo s)) sn -> Q SELF_SUCESS s') -> wp (SnEntryWin sn ts flag) Q s.
Proof.
  intros Hg Hm Hsn Hjump Hnw HQ. unfold SnEntryWin. apply wp_bind, wp_get. rewrite (SnIsValid_in seen) by done.
  cbn [Z.eqb SELF_SUCESS negb]. apply wp_bind, wp_mod, wp_bind, wp_mod. change (geo (on_cnt _ s)) with (geo s).
  rewrite (entry_pos_eq seen) by (done || (unfold MIN_WIN_SZ in *; lia)). apply wp_bind, wp_mod. rewrite Hm.
  change (kRecvSlidWinMode =? kRecvSlidWinMode) with true. cbn [when].
  apply wp_bind, wp_bind, wp_mod, wp_bind, wp_mod, wp_mod.
  match goal with |- wp _ _ ?x => set (s1 := x) end.
  assert (S1 : same_win s s1) by (unfold s1; etrans; [|apply same_CalcPps]; done).
  clearbody s1. pose proof (same_win_step seen _ _ Hg S1) as W1. destruct S1 as (G1 & M1 & F1).
  pose proof (IsMoveWin_step seen (geo s) sn Hg Hsn) as Hstep. set (step := IsMoveWin _ _) in *.
  pose proof (min_reserve_range s).
  assert (Hres1 : min_reserve s1 = min_reserve s) by (unfold min_reserve; by rewrite F1).
  assert (Hres2 : max_reserve s1 = max_reserve s) by (unfold max_reserve; by rewrite F1).
  pose proof (max_reserve_range s).
  pose proof (go_max _ _ Hg) as Hmax. destruct (Z.ltb_spec step 0); [lia|].
  apply wp_bind. assert (Hmv : wp (when (0 <? step) (MoveWin step))
    (fun _ => moved seen step (l_border_sn_ (geo s) + Z.max 0 (sn - l_border_sn_ (geo s) - 1984) - min_reserve s) s1) s1).
  { apply wp_when; intros Hpos; [|apply moved_refl; [by rewrite G1|apply Z.ltb_ge in Hpos; lia]]. eapply wp_MoveWin; [by rewrite G1|rewrite G1, Hres1; lia|].
    intros s2 [Ok HP HLs HB HX HR]. rewrite G1, ?Hres1 in HP, HLs, HB, HX. split; rewrite ?G1; try done; lia. }
  eapply wp_mono; [exact Hmv|]. intros [] s2 [Ok2 P2 Ls2 B2 X2 R2]. rewrite G1 in *. apply wp_bind, wp_mod.
  assert (M2 : slid_win_mode_ s2 = slid_win_mode_ s1 /\ filter_win_flag_ s2 = filter_win_flag_ s1) by (by rewrite R2).
  destruct M2 as [M2 F2]. clear R2. unfold MIN_WIN_SZ in Hsn, Hmax, Hnw.
  apply wp_bind. rewrite <- P2. refine (wp_mark_received seen sn ts (on_lss (put_force_calc_num_ 0) s2) _ _ _ _ _ _); [done|cbn; congruence|unfold MIN_WIN_SZ; cbn; lia|done|].
  intros f s3 Ok3 X3 L3 M3 F3. cbn in X3, L3, M3, F3.
  assert (W3 : win_step ({[sn]} ∪ seen) s s3).
  { split; [done|congruence|congruence|lia|lia|lia|lia]. }
  destruct (_ =? flag); [apply HQ; [done|congruence]|].
  apply wp_bind, (wp_CalcRcvLoss _ _ _ _ _ Ok3). intros s4 W4 X4. apply wp_bind, wp_mod, wp_ret, HQ.
  2: { destruct (same_periodic_report ts s4) as (-> & _). congruence. }
  eapply win_step_trans; [exact W3|]. eapply win_step_trans; [exact W4|].
  apply same_win_step; [exact (ws_ok _ _ _ W4)|apply same_periodic_report].
Qed.

(** ** Repeated packets *)

(** What the window says about a number. *)
Definition is_new (seen : gset Z) (g : WinGeo) (sn : Z) : bool :=
  (l_border_sn_ g <=? sn) && (sn <? l_border_sn_ g + MIN_WIN_SZ) && negb (bool_decide (sn ∈ seen)).

Lemma CheckIsRepeatPacketSn_ok seen s sn :
  geo_ok seen (geo s) -> slid_win_mode_ s = kRecvSlidWinMode -> 0 <= sn -> sn + MIN_WIN_SZ < 2 ^ 32 ->
  CheckIsRepeatPacketSn sn s = Some (if is_new seen (geo s) sn then ISNT_REPEAT_SN else IS_REPEAT_SN, s).
Proof.
  intros Hg Hm H0 Hnw. unfold CheckIsRepeatPacketSn, mbind, ST_bind. cbn [get_st]. rewrite Hm.
  change (kRecvSlidWinMode =? kRecvSlidWinMode) with true. cbn [negb].
  rewrite (go_size _ _ Hg). unfold is_new. pose proof (go_max _ _ Hg) as Hmax. pose proof (go_nowrap _ _ Hg) as Hnw2.
  pose proof (go_sn _ _ Hg) as [Hsn _]. unfold MIN_WIN_SZ in *. destruct (Z.leb_spec (l_border_sn_ (geo s)) sn) as [Hle|Hlt].
  2: { unfold l_span. destruct (Z.leb_spec (l_border_sn_ (geo s)) sn); [lia|]. rewrite u32_small by lia.
    destruct (Z.leb_spec 4096 (sn + (0xFFFFFFFF - l_border_sn_ (geo s)))); [done|lia]. }
  rewrite !(l_span_in seen) by (done || lia). destruct (Z.leb_spec 4096 (sn - l_border_sn_ (geo s))), (Z.ltb_spec sn (l_border_sn_ (geo s) + 4096));
    try lia; [done|]. cbn [andb].
  destruct (Z.ltb_spec (max_sn_ (geo s) - l_border_sn_ (geo s)) (sn - l_border_sn_ (geo s))).
  { rewrite bool_decide_eq_false_2; [done|]. intros Hs%(go_seen _ _ Hg). lia. }
  destruct (go_l _ _ Hg) as [Hl _]. unfold WIN_BUF_SIZE in Hl.
  assert (Hpos : Z.land (u32 (l_border_pos_ (geo s) + sn - l_border_sn_ (geo s))) WIN_POS_MASK = pos_of (geo s) sn).
  { rewrite land_ring, u32_small by lia. unfold pos_of, ring_pos. f_equal. lia. }
  rewrite Hpos, shiftr_6, land_63, Z.shiftl_1_l. pose proof (pos_of_range (geo s) sn).
  destruct (at_pos_some (sn_bit_map_ (geo s)) (pos_of (geo s) sn / 64)) as [w Hw]; [rewrite (go_bm _ _ Hg); ring_lia|].
  rewrite Hw. cbn [deref]. rewrite (Z.eqb_sym 0), land_pow2_zero by (apply Z.mod_pos_bound; lia). rewrite negb_involutive.
  pose proof (go_bits _ _ Hg sn ltac:(unfold MIN_WIN_SZ; lia)) as Hb. unfold bit_of in Hb. unfold at_pos in Hw.
  destruct (0 <=? _); [|done]. rewrite Hw in Hb. rewrite Hb. by destruct (bool_decide _).
Qed.

(** A packet through the filter. *)
Lemma filter_packet_ok seen s sn ts :
  geo_ok seen (geo s) -> slid_win_mode_ s = kRecvSlidWinMode ->
  0 <= sn -> sn <= max_sn_ (geo s) + 2048 -> sn + MIN_WIN_SZ < 2 ^ 32 ->
  exists s', filter_packet sn ts s = Some (is_new seen (geo s) sn, s') /\
    win_step (if is_new seen (geo s) sn then {[sn]} ∪ seen else seen) s s' /\
    max_sn_ (geo s') = if is_new seen (geo s) sn then Z.max (max_sn_ (geo s)) sn else max_sn_ (geo s).
Proof.
  intros Hg Hm H0 Hjump Hnw. unfold filter_packet, mbind, ST_bind. rewrite (CheckIsRepeatPacketSn_ok seen) by done.
  destruct (is_new seen (geo s) sn) eqn:Hnew; cbn [Z.eqb IS_REPEAT_SN ISNT_REPEAT_SN].
  2: { exists s. split; [done|]. split; [by apply same_win_step|done]. }
  unfold is_new in Hnew. apply andb_prop in Hnew as [Hin _]. apply andb_prop in Hin as [Hlo%Z.leb_le Hhi%Z.ltb_lt].
  destruct (wp_total _ _ _ (wp_SnEntryWin seen sn ts SELF_YES s (fun _ s' => win_step ({[sn]} ∪ seen) s s' /\ max_sn_ (geo s') = Z.max (max_sn_ (geo s)) sn) Hg Hm ltac:(lia) Hjump Hnw (fun _ Hs' Hx => conj Hs' Hx)))
    as (r & s' & -> & Hw). by exists s'.
Qed.

(** The window as the constructor leaves it. *)
Lemma ResetWin_ok sn ts s :
  0 <= sn -> sn + MIN_WIN_SZ < 2 ^ 32 -> Z.of_nat (length (sn_bit_map_ (geo s))) = SLID_WIN_U64_BUF_SZ ->
  Forall (fun w => 0 <= w < 2 ^ 64) (sn_bit_map_ (geo s)) -> Z.of_nat (length (sn_ts_ms_ (geo s))) = WIN_BUF_SIZE ->
  geo_ok ∅ (geo (ResetWin sn ts s)) /\ max_sn_ (geo (ResetWin sn ts s)) = sn /\ l_border_sn_ (geo (ResetWin sn ts s)) = sn.
Proof.
  intros H0 Hnw Hbm Hw Hts. split; [|done]. unfold ResetWin. cbn [geo]. unfold MIN_WIN_SZ in *.
  assert (Hlen : length (replicate 64 0 ++ drop 64 (sn_bit_map_ (geo s))) = length (sn_bit_map_ (geo s))).
  { rewrite length_app, length_replicate, length_drop. unfold SLID_WIN_U64_BUF_SZ in *. lia. }
  split; cbn [l_border_pos_ r_border_pos_ cur_win_size_ l_border_sn_ r_border_sn_ sn_bit_map_ sn_ts_ms_ max_sn_ max_sn_pos_];
    try done; unfold MIN_WIN_SZ; try lia.
  - split; [done|]. rewrite u32_small; lia.
  - apply Forall_app. split; [apply Forall_replicate; lia|by apply Forall_drop].
  - unfold pos_of. cbn. by rewrite Z.sub_diag.
  - intros n Hn. rewrite bool_decide_eq_false_2 by set_solver. unfold pos_of. cbn [l_border_pos_ l_border_sn_].
    unfold bit_of, ring_pos. rewrite Z.add_0_l, Z.mod_small by (unfold WIN_BUF_SIZE; lia).
    assert (0 <= (n - sn) / 64 < 64) by ring_lia.
    rewrite lookup_app_l, lookup_replicate_2 by (rewrite ?length_replicate; lia). apply Z.bits_0.
Qed.

End SlidWinSpec.
