(* ===== verification/SlidWinRun.v ===== *)
(** * The window as a filter of repeated packets

    The theorems about the receiving window and the filter that
    [GtpSession::PackPrepHandler] makes of it, with runs on a window as the
    constructor leaves it. *)
From Stdlib Require Import Floats.SpecFloat.
From S2P Require Import Prelude Bitmap SlidWin SlidWinScan SlidWinSpec.
Export SlidWin SlidWinSpec.

Module SlidWinRun.

(** The packets [l], numbers with their times, through the filter one after
    another: which of them go on. *)
Fixpoint run_filter (l : list (Z * Z)) : ST SlidWin (list bool) :=
  match l with
  | [] => mret []
  | (sn, ts) :: l' => b ← filter_packet sn ts; bs ← run_filter l'; mret (b :: bs)
  end.

(** Which numbers of a list occur for the first time. *)
Fixpoint first_seen (seen : gset Z) (l : list Z) : list bool :=
  match l with [] => [] | sn :: l' => bool_decide (sn ∉ seen) :: first_seen ({[sn]} ∪ seen) l' end.

(** No packet is before [sn0], more than 190 behind the largest number so far
    or more than 1473 ahead of it, and the numbers do not wrap around. *)
Fixpoint timely (sn0 mx : Z) (l : list Z) : Prop :=
  match l with
  | [] => True
  | sn :: l' => Z.max sn0 (mx - 190) <= sn <= mx + 1473 /\ sn + MIN_WIN_SZ < 2 ^ 32 /\ timely sn0 (Z.max mx sn) l'
  end.

(** Memory of the right size for a window. *)
Definition junk_ok (junk : SlidWin) : Prop :=
  Z.of_nat (length (sn_bit_map_ (geo junk))) = SLID_WIN_U64_BUF_SZ /\
  Forall (fun w => 0 <= w < 2 ^ 64) (sn_bit_map_ (geo junk)) /\
  Z.of_nat (length (sn_ts_ms_ (geo junk))) = WIN_BUF_SIZE.

(** A window that stands for [seen] and has received nothing before [sn0]. *)
Record filter_at (sn0 : Z) (seen : gset Z) (s : SlidWin) : Prop := {
  fa_geo : geo_ok seen (geo s);
  fa_mode : slid_win_mode_ s = kRecvSlidWinMode;
  fa_filter : filter_win_flag_ s = SELF_YES;
  fa_sn0 : 0 <= sn0;
  fa_left : l_border_sn_ (geo s) <= Z.max sn0 (max_sn_ (geo s) - 190);
  fa_ahead : max_sn_ (geo s) - l_border_sn_ (geo s) <= 2622
}.

Lemma filter_step sn0 seen s sn ts :
  filter_at sn0 seen s -> Z.max sn0 (max_sn_ (geo s) - 190) <= sn <= max_sn_ (geo s) + 1473 -> sn + MIN_WIN_SZ < 2 ^ 32 ->
  exists s', filter_packet sn ts s = Some (bool_decide (sn ∉ seen), s') /\ filter_at sn0 ({[sn]} ∪ seen) s' /\
    max_sn_ (geo s') = Z.max (max_sn_ (geo s)) sn.
Proof.
  intros [Hg Hm Hf H0 Hl Ha] Hsn Hnw.
  destruct (filter_packet_ok seen s sn ts Hg Hm) as (s' & Hr & [Hok M F L B _ A] & X); [lia..|].
  assert (Hnew : is_new seen (geo s) sn = bool_decide (sn ∉ seen)).
  { unfold is_new. destruct (Z.leb_spec (l_border_sn_ (geo s)) sn), (Z.ltb_spec sn (l_border_sn_ (geo s) + MIN_WIN_SZ));
      unfold MIN_WIN_SZ in *; try lia. symmetry. apply bool_decide_not. }
  assert (Hres : min_reserve s = 256 /\ max_reserve s = 512) by (unfold min_reserve, max_reserve; by rewrite Hf).
  rewrite Hnew in *. exists s'. split; [exact Hr|]. case_bool_decide as Hs.
  - split; [|exact X]. split; [exact Hok|congruence|congruence|done|lia|lia].
  - pose proof (go_seen _ _ Hg sn Hs). rewrite X, Z.max_l by lia. split; [|done].
    assert ({[sn]} ∪ seen = seen) as -> by (apply subseteq_union_1_L, singleton_subseteq_l, Hs).
    split; [exact Hok|congruence|congruence|done|lia|lia].
Qed.

Lemma run_filter_seen sn0 l : forall seen s,
  filter_at sn0 seen s -> timely sn0 (max_sn_ (geo s)) l.*1 ->
  exists s', run_filter l s = Some (first_seen seen l.*1, s').
Proof.
  induction l as [|[sn ts] l IH]; intros seen s Hs Ht.
  { by exists s. }
  cbn [fmap list_fmap fst timely] in Ht. destruct Ht as (Hsn & Hnw & Ht).
  destruct (filter_step sn0 seen s sn ts Hs Hsn Hnw) as (s1 & Hr & Hs1 & X1).
  rewrite <- X1 in Ht. destruct (IH _ _ Hs1 Ht) as (s' & Hrun). exists s'.
  cbn [run_filter fmap list_fmap first_seen fst]. unfold mbind, ST_bind. by rewrite Hr, Hrun.
Qed.

Lemma ctor_filter_at sn0 ts stable (junk : SlidWin) : 0 <= sn0 -> sn0 + MIN_WIN_SZ < 2 ^ 32 -> junk_ok junk ->
  filter_at sn0 ∅ (win_ctor sn0 ts stable kRecvSlidWinMode SELF_YES junk) /\
  max_sn_ (geo (win_ctor sn0 ts stable kRecvSlidWinMode SELF_YES junk)) = sn0.
Proof.
  intros H0 Hnw (Hbm & Hw & Hts). split; [|done]. unfold win_ctor.
  match goal with |- context [ResetWin sn0 ts ?j] => destruct (ResetWin_ok sn0 ts j H0 Hnw Hbm Hw Hts) as (Hok & HX & HL) end.
  split; [exact Hok|done|done|done|rewrite HL; lia|rewrite HX, HL; lia].
Qed.

(** ** The theorems *)

(** A packet that comes to the filter, not more than 2048 ahead of the
    largest number so far and without wrap-around, goes on exactly when its
    number is in the window and has not been entered; the filter never faults,
    and afterwards its ring stands for the numbers entered so far and that one. *)
Theorem filter_packet_exact seen s sn ts :
  geo_ok seen (geo s) -> slid_win_mode_ s = kRecvSlidWinMode ->
  0 <= sn -> sn <= max_sn_ (geo s) + 2048 -> sn + MIN_WIN_SZ < 2 ^ 32 ->
  exists b s', filter_packet sn ts s = Some (b, s') /\
    (b = true <-> l_border_sn_ (geo s) <= sn < l_border_sn_ (geo s) + MIN_WIN_SZ /\ sn ∉ seen) /\
    geo_ok (if b then {[sn]} ∪ seen else seen) (geo s') /\
    max_sn_ (geo s') = (if b then Z.max (max_sn_ (geo s)) sn else max_sn_ (geo s)) /\
    l_border_sn_ (geo s) <= l_border_sn_ (geo s') <= Z.max (l_border_sn_ (geo s)) (max_sn_ (geo s') - 62).
Proof.
  intros Hg Hm H0 Hjump Hnw. destruct (filter_packet_ok seen s sn ts Hg Hm H0 Hjump Hnw) as (s' & Hr & [Hok _ _ HL HB _ _] & HX).
  exists (is_new seen (geo s) sn), s'. split; [exact Hr|]. split_and!; [|done|done|done|].
  - unfold is_new. rewrite !andb_true_iff, negb_true_iff, bool_decide_eq_false, Z.leb_le, Z.ltb_lt. tauto.
  - pose proof (min_reserve_range s). lia.
Qed.

(** C15: the filter of a new session hands every packet on exactly once: of
    packets that are not before the first number [sn0], not more than 190
    behind the largest number so far and not more than 1473 ahead of it, with
    numbers that do not reach the last 4096 before the wrap-around
    ([MIN_WIN_SZ]; beyond it the filter errs, [filter_wrap_wrong]), in any
    order and however often, each is handed on the first time and held back
    every other time, whatever the times they come at and whatever the window's
    memory held before. *)
Theorem filter_once sn0 ts stable (junk : SlidWin) l :
  0 <= sn0 -> sn0 + MIN_WIN_SZ < 2 ^ 32 -> junk_ok junk -> timely sn0 sn0 l.*1 ->
  exists s', run_filter l (win_ctor sn0 ts stable kRecvSlidWinMode SELF_YES junk) = Some (first_seen ∅ l.*1, s').
Proof.
  intros H0 Hnw Hj Ht. destruct (ctor_filter_at sn0 ts stable junk H0 Hnw Hj) as [Hf HX].
  rewrite <- HX in Ht at 2. destruct (run_filter_seen _ l _ _ Hf Ht) as (s' & Hr). by exists s'.
Qed.

(** C26: [CalcRcvLoss] of a receiving window always ends without leaving its
    arrays (its search needs at most 129 blocks); it changes neither the set the
    ring stands for nor the largest number, and never moves the left border
    past the reserve of a hundred and more numbers behind the largest. *)
Theorem CalcRcvLoss_keeps seen ts force s :
  geo_ok seen (geo s) ->
  exists s', CalcRcvLoss ts force s = Some (tt, s') /\ geo_ok seen (geo s') /\
    max_sn_ (geo s') = max_sn_ (geo s) /\
    l_border_sn_ (geo s) <= l_border_sn_ (geo s') <= Z.max (l_border_sn_ (geo s)) (max_sn_ (geo s) + 66 - min_reserve s).
Proof.
  intros Hg. assert (Hwp := wp_CalcRcvLoss seen ts force s
    (fun _ s' => win_step seen s s' /\ max_sn_ (geo s') = max_sn_ (geo s)) Hg (fun _ Hs Hx => conj Hs Hx)).
  destruct (wp_total _ _ _ Hwp) as ([] & s' & Hr & [Hok _ _ HL HB _ _] & HX). rewrite HX in HB.
  exists s'. by split_and!.
Qed.

(** Once every packet that comes is 4096 or more ahead of the left border,
    the filter holds them all back for good: the packets are taken for repeated
    ones, and the window does not move. *)
Theorem filter_stuck seen s l :
  geo_ok seen (geo s) -> slid_win_mode_ s = kRecvSlidWinMode ->
  Forall (fun p => l_border_sn_ (geo s) + MIN_WIN_SZ <= p.1 < 2 ^ 32 - MIN_WIN_SZ) l ->
  run_filter l s = Some (replicate (length l) false, s).
Proof.
  intros Hg Hm Hl. induction Hl as [|[sn ts] l Hsn _ IH]; [done|]. cbn [fst] in Hsn.
  cbn [run_filter length replicate]. unfold filter_packet, mbind, ST_bind.
  pose proof (go_sn _ _ Hg) as [? _]. rewrite (CheckIsRepeatPacketSn_ok seen) by (done || (unfold MIN_WIN_SZ in *; lia)).
  assert (is_new seen (geo s) sn = false) as ->; [|cbn [Z.eqb IS_REPEAT_SN Pos.eqb]; unfold mret, ST_ret; cbv beta iota; by rewrite IH].
  unfold is_new. destruct (Z.ltb_spec sn (l_border_sn_ (geo s) + MIN_WIN_SZ)); [lia|]. by rewrite andb_false_r.
Qed.

(** A window in memory that held ones. *)
Definition junk_win : SlidWin :=
  mkSlidWin (mkWinGeo 1 2 3 4 5 6 7 8 9 10 (replicate 128 0xFFFFFFFFFFFFFFFF) (replicate (Z.to_nat 8192) 7))
    (mkWinTime 1 2 3 4 5 6 7 8 9 10) (mkWinCount 1 2 3 4 0 6 7 [1; 2; 3; 4] 9 10 11 12 13 14 15 16 17)
    (mkWinLoss 1 2 3 4 5 6 7 8 9 10 11 12)
    (mkWinRtt 1 2 3 4 (S754_zero false) 6 (replicate 16 7) 8 9 10 11 (S754_zero false) (S754_zero false) (replicate 16 (S754_zero false)) (S754_zero false))
    1 2 3 [].
Lemma junk_win_ok : junk_ok junk_win.
Proof. split; [by vm_compute|]. split; [|by vm_compute]. apply Forall_replicate. lia. Qed.

(** Behind the wrap-around of the sequence numbers the filter is wrong: it
    enters a number one position too low but looks it up at the right one, so
    the repeated packet 0 goes on again and the new packet 2 does not. *)
Theorem filter_wrap_wrong :
  let sns := [0xFFFFFFFE; 0xFFFFFFFF; 0; 0; 1; 0; 3; 2; 2] in
  (fst <$> run_filter ((fun sn => (sn, 1000)) <$> sns) (win_ctor 0xFFFFFFC0 1000 0 kRecvSlidWinMode SELF_YES junk_win)) =
    Some [true; true; true; true; true; false; true; false; false] /\
  first_seen ∅ sns = [true; true; true; false; true; false; true; true; false].
Proof. split; vm_compute; reflexivity. Qed.

(** ** Instances *)
Definition demo_win : SlidWin := win_ctor 100 1000 0 kRecvSlidWinMode SELF_YES junk_win.
Lemma demo_win_ok : filter_at 100 ∅ demo_win /\ max_sn_ (geo demo_win) = 100.
Proof. apply ctor_filter_at; [lia|unfold MIN_WIN_SZ; lia|exact junk_win_ok]. Qed.

Lemma filter_packet_exact_witness :
  exists b s', filter_packet 107 2000 demo_win = Some (b, s') /\
    (b = true <-> l_border_sn_ (geo demo_win) <= 107 < l_border_sn_ (geo demo_win) + MIN_WIN_SZ /\ 107 ∉ (∅ : gset Z)) /\
    geo_ok (if b then {[107]} ∪ ∅ else ∅) (geo s') /\
    max_sn_ (geo s') = (if b then Z.max (max_sn_ (geo demo_win)) 107 else max_sn_ (geo demo_win)) /\
    l_border_sn_ (geo demo_win) <= l_border_sn_ (geo s') <= Z.max (l_border_sn_ (geo demo_win)) (max_sn_ (geo s') - 62).
Proof.
  destruct demo_win_ok as [Hf HX].
  refine (filter_packet_exact ∅ demo_win 107 2000 (fa_geo _ _ _ Hf) (fa_mode _ _ _ Hf) _ _ _);
    [lia|rewrite HX; lia|unfold MIN_WIN_SZ; lia].
Defined.

Lemma filter_once_witness :
  exists s', run_filter [(100, 1000); (103, 1100); (101, 1200); (103, 1300); (1500, 1400); (1400, 1500); (1500, 1600)]
    (win_ctor 100 1000 0 kRecvSlidWinMode SELF_YES junk_win) = Some ([true; true; true; false; true; true; false], s').
Proof.
  refine (filter_once 100 1000 0 junk_win [(100, 1000); (103, 1100); (101, 1200); (103, 1300); (1500, 1400); (1400, 1500); (1500, 1600)]
    _ _ junk_win_ok _); [lia|unfold MIN_WIN_SZ; lia|]. cbn. unfold MIN_WIN_SZ. lia.
Defined.

(** The same window with ten packets to look at. *)
Definition busy_win : SlidWin := on_cnt (put_no_calc_loss_sn_num_ 10) (on_lss (put_bit_map_update_ SELF_YES) demo_win).
Lemma CalcRcvLoss_keeps_witness :
  exists s', CalcRcvLoss 5000 1 busy_win = Some (tt, s') /\ geo_ok ∅ (geo s') /\
    max_sn_ (geo s') = max_sn_ (geo busy_win) /\
    l_border_sn_ (geo busy_win) <= l_border_sn_ (geo s') <=
      Z.max (l_border_sn_ (geo busy_win)) (max_sn_ (geo busy_win) + 66 - min_reserve busy_win).
Proof. exact (CalcRcvLoss_keeps ∅ 5000 1 busy_win (fa_geo _ _ _ (proj1 demo_win_ok))). Defined.

Lemma filter_stuck_witness :
  run_filter [(4196, 1000); (9000, 2000); (4197, 3000)] demo_win = Some ([false; false; false], demo_win).
Proof.
  refine (filter_stuck ∅ demo_win [(4196, 1000); (9000, 2000); (4197, 3000)] (fa_geo _ _ _ (proj1 demo_win_ok))
    (fa_mode _ _ _ (proj1 demo_win_ok)) _).
  repeat constructor; unfold MIN_WIN_SZ; cbn; lia.
Defined.

End SlidWinRun.
