(* ===== verification/SlidWinSend.v ===== *)
(** * The window of the sender

    The operations of [SlidWin] (src/src/slidwin/slidwin.cpp) that only a
    sending window answers: entering the packets it sends, and what the peer
    has received of them, as a bitmap or as a list of missing packets. *)
From S2P Require Import Prelude SlidWin.
Export SlidWin.

Module SlidWinSend.

Definition kInvalidNackSn : Z := 6.

Local Abbreviation WM := (ST SlidWin).

(** The distance of a number from the left border as the acknowledgements
    compute it. *)
Definition ack_span (g : WinGeo) (sn : Z) : Z :=
  if l_border_sn_ g <=? sn then sn - l_border_sn_ g else u32 (0xFFFFFFFF - l_border_sn_ g + sn).

Definition set_word (block : Z) (f : Z -> Z) : WM unit :=
  s ← get_st;
  w ← deref (at_pos (sn_bit_map_ (geo s)) block);
  bm ← deref (put_at (sn_bit_map_ (geo s)) block (f w));
  mod_st (on_geo (put_sn_bit_map_ bm)).
Definition count_no_calc (n : Z) : WM unit :=
  mod_st (on_cnt (fun k => put_no_calc_loss_sn_num_ (u32 (no_calc_loss_sn_num_ k + n)) k)).

(** [BlockSnEntryWin]: the packets from [begin_sn] on, one for every bit of a
    word of [n] bits, 64 or 32.  The loop never shifts its mask [bit_1_value]:
    every round tests the lowest bit. *)
Definition bit_1_value : Z := 1.
Fixpoint block_bits (n : nat) (bit_map nloop begin_sn ts_us calc_loss_flag : Z) : WM unit :=
  match n with
  | O => mret tt
  | S n' =>
      _ ← when (negb (0 =? Z.land bit_map bit_1_value))
            (_ ← SnEntryWin (u32 (begin_sn + nloop)) ts_us calc_loss_flag; mret tt);
      block_bits n' bit_map (nloop + 1) begin_sn ts_us calc_loss_flag
  end.
Definition full_word (n cur_sn_pos : Z) : WM unit :=
  let block_pos := Z.shiftr cur_sn_pos 6 in
  if n =? 64 then set_word block_pos (fun _ => 0xFFFFFFFFFFFFFFFF)
  else set_word block_pos (fun w => Z.lor w (if 0 =? Z.land cur_sn_pos 0x3F then 0xFFFFFFFF else 0xFFFFFFFF00000000)).
Definition BlockSnEntryWin (n bit_map begin_sn ts_us calc_loss_flag : Z) : WM Z :=
  s ← get_st;
  if negb (kSendSlidWinMode =? slid_win_mode_ s) then mret SELF_SUCESS
  else
    let cur_sn_span := ack_span (geo s) begin_sn in
    if max_sn_span_ (geo s) <? cur_sn_span then mret kSnIsInvalid
    else
      let cur_sn_pos := Z.land (u32 (l_border_pos_ (geo s) + cur_sn_span)) WIN_POS_MASK in
      _ ← mod_st (on_geo (put_max_rcv_sn_pos_ (Z.land (cur_sn_pos + (n - 1)) WIN_POS_MASK)));
      _ ← mod_st (on_lss (put_force_calc_num_ 0));
      _ ← mod_st (on_tm (fun t => put_last_recv_ts_us ts_us (put_current_ts_us_ ts_us t)));
      let step := IsMoveWin cur_sn_pos (geo s) in
      _ ← when (step <? 0) (mod_st (ResetWin begin_sn ts_us));
      _ ← when (0 <? step) (MoveWin step);
      let cur_sn_pos := if step <? 0 then 0 else cur_sn_pos in
      if Z.ones n =? bit_map then
        _ ← full_word n cur_sn_pos;
        _ ← count_no_calc n;
        if SELF_NO =? calc_loss_flag then mret SELF_SUCESS
        else
          _ ← CalcSndLoss ts_us SELF_NO;
          _ ← mod_st (periodic_report ts_us);
          mret SELF_SUCESS
      else _ ← block_bits (Z.to_nat n) bit_map 0 begin_sn ts_us calc_loss_flag; mret SELF_SUCESS.

(** [CheckNackIsValid]: the part of the window the nack speaks of. *)
Definition CheckNackIsValid (g : WinGeo) (head_sn tail_sn : Z) : option (Z * Z) :=
  let l := l_border_sn_ g in
  let mx := max_sn_ g in
  if l <=? mx then
    if tail_sn <? l then None
    else if head_sn <=? tail_sn then
      if mx <? head_sn then None
      else Some (if head_sn <? l then l else head_sn, if mx <? tail_sn then mx else tail_sn)
    else Some (if (mx <? head_sn) || (head_sn <? l) then l else head_sn, if mx <? tail_sn then mx else tail_sn)
  else if head_sn <=? tail_sn then
    if (mx <? head_sn) && (tail_sn <? l) then None
    else Some (if (mx <? head_sn) && (head_sn <? l) then l else head_sn, if (mx <? tail_sn) && (tail_sn <? l) then mx else tail_sn)
  else Some (if head_sn <? l then l else head_sn, if mx <? tail_sn then mx else tail_sn).

(** [NackSnEntryWin]: first everything of the range is received, the last block
    by single bits, then the listed packets are not. *)
Fixpoint fill_blocks (fuel : nat) (block_loop end_block : Z) : WM unit :=
  if end_block =? block_loop then mret tt
  else
    match fuel with
    | O => fault
    | S fuel' =>
        _ ← set_word block_loop (fun _ => 0xFFFFFFFFFFFFFFFF);
        _ ← count_no_calc 64;
        let b := block_loop + 1 in
        fill_blocks fuel' (if SLID_WIN_U64_BUF_SZ <=? b then 0 else b) end_block
    end.
(** The bits from [from] to [to], the latter included, but none above 63. *)
Definition span_mask (from to : Z) : Z := Z.land (Z.shiftl (Z.ones (to - from + 1)) from) 0xFFFFFFFFFFFFFFFF.
Definition fill_tail (tail_pos : Z) : WM unit :=
  let end_block := Z.shiftr tail_pos 6 in
  let move_pos := Z.land tail_pos 0x3F in
  if 0x3F =? move_pos then _ ← set_word end_block (fun _ => 0xFFFFFFFFFFFFFFFF); count_no_calc 64
  else _ ← count_no_calc (move_pos + 1); set_word end_block (fun w => Z.lor w (span_mask 0 (move_pos + 1))).
Definition fill_head (head_pos : Z) : WM unit :=
  let move_pos := Z.land head_pos 0x3F in
  when (negb (0 =? move_pos))
    (let block := Z.shiftr head_pos 6 in
     _ ← count_no_calc (64 - move_pos);
     set_word (if negb (0 =? block) then block - 1 else SLID_WIN_U64_BUF_SZ - 1) (fun w => Z.lor w (span_mask move_pos 63))).
Fixpoint clear_nacks (head_sn : Z) (nack : list Z) : WM unit :=
  match nack with
  | [] => mret tt
  | sn_offset :: nack' =>
      s ← get_st;
      let sn_span := ack_span (geo s) (u32 (head_sn + sn_offset)) in
      let move_pos := Z.land (u32 (sn_span + l_border_pos_ (geo s))) WIN_POS_MASK in
      _ ← when (negb (max_sn_span_ (geo s) <? sn_span))
            (set_word (Z.shiftr move_pos 6) (fun w => Z.ldiff w (Z.shiftl 1 (Z.land move_pos 0x3F))));
      clear_nacks head_sn nack'
  end.
Definition nack_marks (g : WinGeo) (comb_head_sn comb_tail_sn head_sn : Z) (nack : list Z) : WM unit :=
  let head_pos := Z.land (u32 (l_border_pos_ g + ack_span g comb_head_sn)) WIN_POS_MASK in
  let tail_pos := Z.land (u32 (l_border_pos_ g + ack_span g comb_tail_sn)) WIN_POS_MASK in
  _ ← mod_st (on_geo (put_max_rcv_sn_pos_ tail_pos));
  _ ← fill_blocks 128 (Z.shiftr head_pos 6) (Z.shiftr tail_pos 6);
  _ ← fill_tail tail_pos;
  _ ← fill_head head_pos;
  clear_nacks head_sn nack.
Definition NackSnEntryWin_in (rounds : nat) (head_sn tail_sn : Z) (nack : list Z) (ts_us : Z) : WM Z :=
  s ← get_st;
  if negb (kSendSlidWinMode =? slid_win_mode_ s) then mret SELF_SUCESS
  else
    match CheckNackIsValid (geo s) head_sn tail_sn with
    | None => mret kInvalidNackSn
    | Some (comb_head_sn, comb_tail_sn) =>
        _ ← nack_marks (geo s) comb_head_sn comb_tail_sn head_sn nack;
        _ ← CalcSndLoss_in rounds ts_us SELF_NO;
        mret SELF_SUCESS
    end.
Definition NackSnEntryWin : Z -> Z -> list Z -> Z -> WM Z := NackSnEntryWin_in SCAN_FUEL.

(** [SnTsEntryWin]: a packet is sent. *)
Definition SnTsEntryWin (sn ts_us : Z) : WM Z :=
  s ← get_st;
  if negb (kSendSlidWinMode =? slid_win_mode_ s) then mret SELF_SUCESS
  else if negb (SELF_SUCESS =? SnIsValid sn (geo s)) then mret kSnIsInvalid
  else
    _ ← mod_st (on_tm (put_current_ts_us_ ts_us));
    let cur_sn_pos := entry_pos (geo s) sn in
    _ ← when (u64 (last_recv_ts_us (tm s) + feedback_loss_span_us_ (lss s)) <=? ts_us) (CalcSndLoss ts_us SELF_NO);
    _ ← mod_st (on_cnt (fun k => put_current_sn_num_ (u32 (current_sn_num_ k + 1)) k));
    _ ← mod_st (CalcPps ts_us);
    s ← get_st;
    let step := IsMoveWin cur_sn_pos (geo s) in
    if step <? 0 then
      _ ← mod_st (ResetWin sn ts_us);
      s ← get_st;
      ts ← deref (put_at (sn_ts_ms_ (geo s)) 0 (TsUsToU16Ms ts_us));
      _ ← mod_st (on_geo (put_sn_ts_ms_ ts));
      _ ← mod_st (on_lss (put_bit_map_update_ SELF_YES));
      mret RESET_WIN_RETURN
    else
      _ ← when (0 <? step) (MoveWin step);
      _ ← mod_st (on_lss (fun l => put_force_calc_num_ 0 (put_bit_map_update_ SELF_YES l)));
      s ← get_st;
      ts ← deref (put_at (sn_ts_ms_ (geo s)) cur_sn_pos (TsUsToU16Ms ts_us));
      _ ← mod_st (on_geo (fun g => UpdateMaxSnPos cur_sn_pos sn (put_sn_ts_ms_ ts (put_max_rcv_sn_pos_ cur_sn_pos g))));
      _ ← mod_st (periodic_report ts_us);
      mret SELF_SUCESS.

End SlidWinSend.
