(* ===== verification/SlidWinRtt.v ===== *)
(** * Round trip times

    The operations of [SlidWin] (src/src/slidwin/slidwin.cpp) that measure:
    round trip time, jitter and the outlook for congestion, the rates the peer
    feeds back, the factors its owner sets, and the timer. *)
From Stdlib Require Import Floats.SpecFloat.
From S2P Require Import Prelude SlidWin.
Export SlidWin.

Module SlidWinRtt.

Definition kNoGenCongest : Z := 0.
Definition kMaybeGenCongest : Z := 1.
Definition kWillBeGenCongest : Z := 2.
Definition kMustBeGenCongest : Z := 3.
Definition MAX_RTT_CACHE_SZ : Z := 16.
Definition MIN_RCV_CALC_LOSS_SPAN_US : Z := 4000.
Definition MAX_RCV_CALC_LOSS_SPAN_US : Z := 55000.
Definition MIN_SND_CALC_LOSS_SPAN_US : Z := 8000.
Definition MAX_SND_CALC_LOSS_SPAN_US : Z := 110000.
Definition MIN_FEEDBACK_SPAN_US : Z := 350000.
Definition SlidWinLimit (min max value : Z) : Z := if value <? min then min else if max <? value then max else value.

(** [AddJitter], [DecJitter]; a jitter is a 32-bit signed number. *)
Definition AddJitter (jitter_sum cur_jitter : Z) : Z := u32 (jitter_sum + Z.abs cur_jitter).
Definition DecJitter (jitter_sum cur_jitter : Z) : Z := u32 (jitter_sum - Z.abs cur_jitter).

(** [SetRttUs], the ring of the last sixteen measurements: jitter, its sum, and
    the slope of the round trip time. *)
Definition cache_rtt (rtt_us jitter ts_us : Z) (s : SlidWin) : SlidWin :=
  let r := rtt s in
  let pos := cur_rtt_cache_pos_ r in
  let i := Z.to_nat pos in
  let ring := SELF_YES =? cache_rtt_ring_flg_ r in
  let old := nth i (jitter_cache_buf_ r) 0 in
  let slope := f32_div (f32_of_Z jitter) (f32_of_Z (u64 (ts_us - last_cache_rtt_ts_us_ (tm s)))) in
  let arith := if ring then i32 (jitter_arith_sum_ r - old) else jitter_arith_sum_ r in
  let jit := if ring then DecJitter (jiiter_sum_ r) old else jiiter_sum_ r in
  let cached := ring || negb (0 =? pos) in
  let dt_sum := if ring then f32_sub (rtt_dt_sum_ r) (nth i (rtt_dt_buf_ r) (S754_zero false)) else rtt_dt_sum_ r in
  let dt_buf := if cached then <[i := slope]> (rtt_dt_buf_ r) else rtt_dt_buf_ r in
  let dt_sum := if cached then f32_add dt_sum slope else dt_sum in
  let avg := if ring then f32_div dt_sum (f32_of_Z (MAX_RTT_CACHE_SZ - 1))
             else if cached then f32_div dt_sum (f32_of_Z pos) else avg_rtt_dt_ r in
  let pos' := Z.land (pos + 1) 0xF in
  let ring' := if ring || (0 =? pos') then SELF_YES else cache_rtt_ring_flg_ r in
  let sum := AddJitter jit jitter in
  let jitter_us := if SELF_YES =? ring' then Z.shiftr sum 4 else sum / pos' in
  on_tm (put_last_cache_rtt_ts_us_ ts_us)
    (on_rtt (fun r => mkWinRtt rtt_us jitter_us (congest_rank_ r) (rto_ts_us_ r) (feedback_factor_ r) sum
       (<[i := jitter]> (jitter_cache_buf_ r)) pos' ring' (i32 (arith + jitter)) jitter dt_sum avg dt_buf (ratio_cach_ r)) s).

(** [rto_sn_std_by_rtt].  The rows are picked by other packet rates than those
    they are made for. *)
Definition rto_sn_std_by_rtt : list (list Z) :=
  [[1; 1; 1; 1; 1; 2; 3]; [1; 1; 1; 1; 2; 3; 3]; [1; 1; 1; 2; 2; 3; 3]; [1; 1; 1; 2; 2; 3; 4];
   [1; 1; 2; 2; 2; 3; 4]; [1; 1; 2; 2; 3; 3; 4]; [2; 2; 2; 3; 3; 4; 4]; [2; 2; 3; 3; 3; 5; 5]].
Definition learn_rto (avg_pps cur_rtt_us : Z) : Z :=
  pick rto_sn_std_by_rtt (row_of [500; 2000; 5000; 10000; 20000; 30000; 40000] avg_pps)
    (row_of [20000; 50000; 100000; 150000; 200000; 250000] cur_rtt_us).

(** [SetCongestRank] *)
Definition SetCongestRank (last_jitter jitter_threshold rank ts_us : Z) (s : SlidWin) : SlidWin :=
  if (jitter_threshold <=? last_jitter) && (min_stable_us_ s <=? u32 (ts_us - created_ts_us_ (tm s)))
  then on_rtt (put_congest_rank_ rank) s else s.

(** [ForcastCongest]: which rank the measurements call for, and whether it has
    to pass [SetCongestRank] ([true]) or is taken at once. *)
Definition delta_threshold_cfg : list spec_float := [lit32 10000001 1000000; lit32 7000001 1000000; lit32 5000001 1000000; lit32 3200001 1000000; lit32 1800001 1000000].
Definition correct_threshold_cfg : list spec_float := [lit32 3000001 1000000; lit32 2200001 1000000; lit32 1100001 1000000; lit32 359999 1000000; lit32 249999 1000000].
Definition last_jitter_threshold_cfg : list Z := [1000; 3000; 5300; 8000; 10600].
Definition congest_verdict (avg ratio back_ratio delta_ratio correct delta_threshold correct_threshold : spec_float)
    (last_jitter : Z) : Z * bool :=
  let corrected (rank : Z) : Z * bool := if SFltb correct_threshold correct then (rank, true) else (kNoGenCongest, false) in
  if f_gt_lit 1 1000000 avg && (last_jitter <? 0) then (kNoGenCongest, false)
  else if lit_le_f 4 100 avg then (kMustBeGenCongest, true)
  else if lit_le_f 10001 1000000 avg then
    if lit_le_f 15000001 1000000 ratio then (kMustBeGenCongest, true)
    else if f_gt_lit 1 1000000 back_ratio && lit_lt_f 1 1000000 ratio then (kMustBeGenCongest, true)
    else if lit_lt_f 4000001 1000000 delta_ratio then (kMustBeGenCongest, true)
    else if lit_le_f 5000001 1000000 ratio then (kWillBeGenCongest, true)
    else if lit_le_f 1000001 1000000 ratio then (kMaybeGenCongest, true)
    else (kNoGenCongest, false)
  else if lit_le_f 1 1000000 avg then
    if lit_le_f 35000001 1000000 ratio then corrected kMustBeGenCongest
    else if f_gt_lit 1 1000000 back_ratio && lit_lt_f 1 1000000 ratio && SFltb delta_threshold delta_ratio then corrected kMustBeGenCongest
    else if lit_lt_f 25000001 1000000 delta_ratio then corrected kMustBeGenCongest
    else if lit_le_f 15000001 1000000 ratio then corrected kWillBeGenCongest
    else if lit_le_f 10000001 1000000 ratio then corrected kMaybeGenCongest
    else if SFltb delta_threshold delta_ratio then corrected kMustBeGenCongest
    else (kNoGenCongest, false)
  else if lit_ge_f 15000001 1000000 ratio then (kNoGenCongest, false)
  else if lit_ge_f 30000001 1000000 ratio then (kMaybeGenCongest, true)
  else if lit_ge_f 45000001 1000000 ratio then (kWillBeGenCongest, true)
  else corrected kMustBeGenCongest.
Definition ForcastCongest (ts_us : Z) (s : SlidWin) : SlidWin :=
  let r := rtt s in
  let percent (x : Z) : spec_float := f32_div (f32_of_Z x) (f32_of_Z (cur_rtt_us_ r)) in
  let ratio := percent (i32 (last_jitter_ r * 100)) in
  let correct := percent (u32 (jitter_us_ r * 100)) in
  let row := Z.to_nat (row_of [50000; 100000; 150000; 200000] (cur_rtt_us_ r)) in
  let (rank, checked) := congest_verdict (avg_rtt_dt_ r) ratio (ratio_cach_ r) (f32_sub ratio (ratio_cach_ r)) correct
    (nth row delta_threshold_cfg (S754_zero false)) (nth row correct_threshold_cfg (S754_zero false)) (last_jitter_ r) in
  let s := on_rtt (put_ratio_cach_ ratio) s in
  if checked : bool then SetCongestRank (last_jitter_ r) (nth row last_jitter_threshold_cfg 0) rank ts_us s
  else on_rtt (put_congest_rank_ rank) s.

(** The tolerances that follow the round trip time. *)
Definition limit_loss_span (mode span : Z) : Z :=
  if kRecvSlidWinMode =? mode then SlidWinLimit MIN_RCV_CALC_LOSS_SPAN_US MAX_RCV_CALC_LOSS_SPAN_US span
  else SlidWinLimit MIN_SND_CALC_LOSS_SPAN_US MAX_SND_CALC_LOSS_SPAN_US span.
Definition rcv_rto (cur_rtt dec_k jitter_us : Z) (by_default : bool) : Z :=
  let r := if by_default then Z.shiftr cur_rtt 3 else f_to_Z (f32_div (f32_of_Z cur_rtt) (f32_of_Z dec_k)) in
  SlidWinLimit MIN_DISORDER_BUF_US MAX_DISORDER_BUF_US (u32 (r + jitter_us)).
Definition snd_rto (cur_rtt jitter_us : Z) : Z :=
  let r := u32 (cur_rtt + jitter_us) in
  let r := u32 (r + Z.shiftr r 1 + Z.shiftr r 2) in
  if r <? MIN_RTO_TS_US then MIN_RTO_TS_US else r.
Definition rtt_tolerances (s : SlidWin) : SlidWin :=
  let r := rtt s in
  let cur := cur_rtt_us_ r in
  let recv := kRecvSlidWinMode =? slid_win_mode_ s in
  let base := if recv then Z.shiftr cur 1 else u32 (cur + Z.shiftr cur 2) in
  let span := limit_loss_span (slid_win_mode_ s) (f_to_Z (f32_mul (f32_of_Z base) (feedback_factor_ r))) in
  let k := recv_rto_dec_k_ (lss s) in
  let rto := if recv then rcv_rto cur k (jitter_us_ r) ((DEFAULT_RECV_RTO_DEC_K =? k) || (0 =? k)) else snd_rto cur (jitter_us_ r) in
  let feedback := SlidWinLimit MIN_FEEDBACK_SPAN_US MAX_FEEDBACK_SPAN_US (u32 (rto + Z.shiftr rto 1)) in
  let rto := if (kSendSlidWinMode =? slid_win_mode_ s) && negb (kDownLinkerLoss =? report_loss_ (lss s)) then feedback else rto in
  on_rtt (put_rto_ts_us_ rto) (on_lss (put_feedback_loss_span_us_ feedback) (on_cnt (put_min_calc_loss_span_us_ span) s)).

(** [SetRttUs].  The member [old_rtt_us_] is read by no other operation, and by
    this one only after it has written it; it is a local value here. *)
Definition rtt_report (ts_us : Z) (s : SlidWin) : SlidWin :=
  report_either (negb (kRecvSlidWinMode =? slid_win_mode_ s) && (ts_us <=? u64 (lst_fdbk_loss_ts_us_ (tm s) + rto_ts_us_ (rtt s)))) ts_us s.
Definition SetRttUs (rtt_us ts_us report_flag : Z) (s : SlidWin) : SlidWin :=
  let old_rtt_us := cur_rtt_us_ (rtt s) in
  let backup_jitter := jitter_us_ (rtt s) in
  let jitter := i32 (rtt_us - old_rtt_us) in
  let s := cache_rtt rtt_us jitter ts_us s in
  let s := on_cnt (put_learn_rto_sn_std_ (learn_rto (avg_pps_ (cnt s)) rtt_us)) s in
  let percent (x : Z) : spec_float := f32_div (f32_of_Z x) (f32_of_Z rtt_us) in
  let s := if lit_le_f 15000001 1000000 (percent (i32 (jitter * 100))) && lit_le_f 10000001 1000000 (percent (u32 (jitter_us_ (rtt s) * 100)))
           then SetCongestRank jitter 1000 kMustBeGenCongest ts_us s else ForcastCongest ts_us s in
  let s := rtt_tolerances s in
  if SELF_NO =? report_flag then s
  else
    let backup_rtt := Z.shiftr (u32 (Z.shiftl old_rtt_us 3)) 7 in
    if (0 =? old_rtt_us) || (negb (0 =? backup_rtt) && (backup_rtt <=? Z.abs (rtt_us - old_rtt_us))) then rtt_report ts_us s
    else
      let bound := Z.shiftr (u32 (Z.shiftl backup_jitter 4)) 7 in
      if (kMaybeGenCongest <? congest_rank_ (rtt s)) || (negb (0 =? bound) && (bound <=? Z.abs (jitter_us_ (rtt s) - backup_jitter)))
      then rtt_report ts_us s else s.

(** [SetFeedBackLoss] *)
Definition SetFeedBackLoss (loss ts_us rtt_us : Z) (s : SlidWin) : SlidWin :=
  let s := on_tm (put_lst_fdbk_loss_ts_us_ ts_us) (on_lss (put_fdbk_loss_ loss) s) in
  let s := if negb (0 =? rtt_us) then SetRttUs (u32 rtt_us) ts_us SELF_YES s else s in
  if negb (0 =? rtt_us) && (ts_us =? lst_rpt_quality_ts_us_ (tm s)) then s
  else
    let old := report_loss_ (lss s) in
    if (SELF_NO =? reported_quality_ (lss s)) || ((old <? 12800) && (12800 <=? loss)) || ((12800 <=? old) && (loss <? 12800)) ||
       (negb (0 =? old) && (0 =? loss)) || ((0 =? old) && negb (0 =? loss)) || (EXPNAD_LOSS_PACTOR_INT <=? Z.abs (loss - old))
    then report_loss_now loss kUpLinkerLoss ts_us s else s.

(** [AdjustFeedbackFactor], [SetRecvRtoDecFactor], [CalcQualityByHandler],
    [ObtainNetworkQuality] *)
Definition AdjustFeedbackFactor (k : spec_float) (ts_us : Z) (s : SlidWin) : Z * SlidWin :=
  if kSendSlidWinMode =? slid_win_mode_ s then (kNoSupportSetParam, s)
  else
    let factor := if lit_le_f 1 1 k then f32_of_Z 1 else if lit_ge_f 1 10 k then lit32 1 10 else k in
    let times (x : Z) : Z := f_to_Z (f32_mul (f32_of_Z x) factor) in
    let n := times (min_calc_loss_sn_num_ (cnt s)) in
    (SELF_SUCESS,
     on_cnt (fun c => put_min_calc_loss_span_us_ (limit_loss_span (slid_win_mode_ s) (times (min_calc_loss_span_us_ c)))
        (put_min_calc_loss_sn_num_ (if n <? MIN_CALC_LOSS_SN_NUM then MIN_CALC_LOSS_SN_NUM else n) c))
       (on_rtt (put_feedback_factor_ factor) s)).
Definition SetRecvRtoDecFactor (k : Z) (s : SlidWin) : Z * SlidWin :=
  if kSendSlidWinMode =? slid_win_mode_ s then (kNoSupportSetParam, s)
  else
    let k := SlidWinLimit MIN_RECV_RTO_DEC_K MAX_RECV_RTO_DEC_K k in
    (SELF_SUCESS, on_rtt (fun r => put_rto_ts_us_ (rcv_rto (cur_rtt_us_ r) k (jitter_us_ r) (0 =? k)) r)
       (on_lss (put_recv_rto_dec_k_ k) s)).
Definition CalcQualityByHandler (ts_us must_calc_flag : Z) : ST SlidWin Z :=
  let calc : ST SlidWin Z :=
    _ ← mod_st (CalcPps ts_us);
    s ← get_st;
    _ ← (if kRecvSlidWinMode =? slid_win_mode_ s then CalcRcvLoss ts_us SELF_YES else CalcSndLoss ts_us SELF_YES);
    mret SELF_SUCESS in
  s ← get_st;
  if SELF_YES =? must_calc_flag then calc
  else if SELF_NO =? bit_map_update_ (lss s) then mret SELF_SUCESS
  else if MAX_FORCE_NUM_BITMAP_UN_CHG <=? force_calc_num_ (lss s) then mret SELF_SUCESS
  else
    _ ← mod_st (on_lss (fun l => put_force_calc_num_ (u16 (force_calc_num_ l + 1)) l));
    if u32 (ts_us - current_ts_us_ (tm s)) <? min_stable_us_ s then mret SELF_SUCESS else calc.
Definition ObtainNetworkQuality (s : SlidWin) : Z * Z * Z * Z * Z * Z * spec_float :=
  (cur_rtt_us_ (rtt s), jitter_us_ (rtt s), congest_rank_ (rtt s), rto_ts_us_ (rtt s), avg_pps_ (cnt s),
   loss_direction_ (lss s), report_rate (report_loss_ (lss s))).

(** ** The tolerances stay in their ranges *)

Lemma limit_range lo hi v : lo <= hi -> lo <= SlidWinLimit lo hi v <= hi.
Proof. intros. unfold SlidWinLimit. destruct (Z.ltb_spec v lo); [lia|]. destruct (Z.ltb_spec hi v); lia. Qed.

Lemma learn_rto_range pps cur : 1 <= learn_rto pps cur <= 5.
Proof. unfold learn_rto. cbn [row_of]. repeat destruct (_ <? _); vm_compute; split; discriminate. Qed.

(** What the measurement changes before the tolerances follow it. *)
Record measured (s s' : SlidWin) : Prop := {
  ms_geo : geo s' = geo s;
  ms_mode : slid_win_mode_ s' = slid_win_mode_ s;
  ms_reports : reports s' = reports s;
  ms_lss : lss s' = lss s
}.
#[local] Instance measured_preorder : PreOrder measured.
Proof. split; [by intros s|]. intros s1 s2 s3 [] []. split; congruence. Qed.
Lemma measured_rank j th rank ts s : measured s (SetCongestRank j th rank ts s) /\
  cur_rtt_us_ (rtt (SetCongestRank j th rank ts s)) = cur_rtt_us_ (rtt s) /\ cnt (SetCongestRank j th rank ts s) = cnt s.
Proof. unfold SetCongestRank. by destruct (_ && _). Qed.
Lemma measured_forcast ts s : measured s (ForcastCongest ts s) /\
  cur_rtt_us_ (rtt (ForcastCongest ts s)) = cur_rtt_us_ (rtt s) /\ cnt (ForcastCongest ts s) = cnt s.
Proof.
  unfold ForcastCongest. destruct (congest_verdict _ _ _ _ _ _ _ _) as [rank checked]. destruct checked; [|done].
  set (s1 := on_rtt _ s). assert (measured s s1 /\ cur_rtt_us_ (rtt s1) = cur_rtt_us_ (rtt s) /\ cnt s1 = cnt s) as (M & E1 & E2) by done.
  match goal with |- context [SetCongestRank ?j ?th ?r ts s1] => destruct (measured_rank j th r ts s1) as (M2 & E3 & E4) end.
  split; [by etrans|]. split; congruence.
Qed.

(** The tolerances of a window, for the loss it has reported. *)
Definition tolerances_ok (report_loss : Z) (s : SlidWin) : Prop :=
  MIN_FEEDBACK_SPAN_US <= feedback_loss_span_us_ (lss s) <= MAX_FEEDBACK_SPAN_US /\
  if kRecvSlidWinMode =? slid_win_mode_ s then
    MIN_DISORDER_BUF_US <= rto_ts_us_ (rtt s) <= MAX_DISORDER_BUF_US /\
    MIN_RCV_CALC_LOSS_SPAN_US <= min_calc_loss_span_us_ (cnt s) <= MAX_RCV_CALC_LOSS_SPAN_US
  else
    MIN_RTO_TS_US <= rto_ts_us_ (rtt s) /\
    MIN_SND_CALC_LOSS_SPAN_US <= min_calc_loss_span_us_ (cnt s) <= MAX_SND_CALC_LOSS_SPAN_US /\
    (slid_win_mode_ s = kSendSlidWinMode -> report_loss <> kDownLinkerLoss -> rto_ts_us_ (rtt s) = feedback_loss_span_us_ (lss s)).

Lemma rtt_tolerances_ok s : tolerances_ok (report_loss_ (lss s)) (rtt_tolerances s).
Proof.
  unfold rtt_tolerances, tolerances_ok. set (fb := SlidWinLimit MIN_FEEDBACK_SPAN_US _ _).
  assert (Hfb : MIN_FEEDBACK_SPAN_US <= fb <= MAX_FEEDBACK_SPAN_US) by (by apply limit_range).
  clearbody fb. cbn -[Z.le Z.eqb limit_loss_span rcv_rto snd_rto]. split; [exact Hfb|]. unfold limit_loss_span.
  destruct (Z.eqb_spec kRecvSlidWinMode (slid_win_mode_ s)) as [<-|Hr].
  - change (kSendSlidWinMode =? kRecvSlidWinMode) with false. cbn [andb]. split; [unfold rcv_rto|]; by apply limit_range.
  - split; [|split; [by apply limit_range|]].
    + destruct (_ && _); [unfold MIN_FEEDBACK_SPAN_US, MIN_RTO_TS_US in *; lia|]. unfold snd_rto.
      match goal with |- context [if ?x <? MIN_RTO_TS_US then _ else _] => destruct (Z.ltb_spec x MIN_RTO_TS_US) end; lia.
    + intros -> Hl. change (kSendSlidWinMode =? kSendSlidWinMode) with true. cbn [andb].
      destruct (Z.eqb_spec kDownLinkerLoss (report_loss_ (lss s))); [congruence|done].
Qed.

(** A report changes no tolerance. *)
Lemma rtt_report_keeps ts l s : tolerances_ok l s -> tolerances_ok l (rtt_report ts s) /\ geo (rtt_report ts s) = geo s /\
  cur_rtt_us_ (rtt (rtt_report ts s)) = cur_rtt_us_ (rtt s) /\ cnt (rtt_report ts s) = cnt s /\
  exists r, reports (rtt_report ts s) = reports s ++ [r].
Proof. unfold rtt_report, report_either. destruct (_ && _); (split; [done|]; do 3 (split; [done|]); by eexists). Qed.

(** Whatever round trip time is measured, and whatever the floating point
    factors hold, the tolerances of the window are in their ranges afterwards:
    a receiver waits 1 to 10 ms for packets out of order and calculates the loss
    every 4 to 55 ms, a sender waits at least 25 ms and calculates every 8 to
    110 ms.  The sender's timeout is the feedback span, unless the reported
    loss rate happens to be 1, which the code takes for a direction.  The ring
    stays, and there is at most one report. *)
Theorem SetRttUs_tolerances (rtt_us ts_us report_flag : Z) (s : SlidWin) :
  let s' := SetRttUs rtt_us ts_us report_flag s in
  tolerances_ok (report_loss_ (lss s)) s' /\ geo s' = geo s /\ cur_rtt_us_ (rtt s') = rtt_us /\
  1 <= learn_rto_sn_std_ (cnt s') <= 5 /\
  (reports s' = reports s \/ report_flag <> SELF_NO /\ exists r, reports s' = reports s ++ [r]).
Proof.
  cbv zeta. unfold SetRttUs. set (s1 := on_cnt _ (cache_rtt _ _ _ s)).
  assert (M1 : measured s s1 /\ cur_rtt_us_ (rtt s1) = rtt_us) by done.
  assert (L1 : 1 <= learn_rto_sn_std_ (cnt s1) <= 5) by apply learn_rto_range.
  set (s2 := if _ && _ then _ else ForcastCongest ts_us s1).
  assert (H2 : measured s1 s2 /\ cur_rtt_us_ (rtt s2) = cur_rtt_us_ (rtt s1) /\ cnt s2 = cnt s1).
  { unfold s2. destruct (_ && _); [apply measured_rank|apply measured_forcast]. }
  clearbody s2. destruct M1 as [M1 C1], H2 as (M2 & C2 & N2). rewrite <- N2 in L1. rewrite C1 in C2. clear C1 N2.
  assert (M : measured s s2) by (by etrans). clear M1 M2. destruct M as [G _ R L].
  pose proof (rtt_tolerances_ok s2) as Ht. rewrite L in Ht. set (s3 := rtt_tolerances s2) in *.
  assert (H3 : geo s3 = geo s2 /\ reports s3 = reports s2 /\ cur_rtt_us_ (rtt s3) = cur_rtt_us_ (rtt s2) /\
    learn_rto_sn_std_ (cnt s3) = learn_rto_sn_std_ (cnt s2)) by done.
  clearbody s3. destruct H3 as (G3 & R3 & C3 & N3).
  assert (Hstay : tolerances_ok (report_loss_ (lss s)) s3 /\ geo s3 = geo s /\ cur_rtt_us_ (rtt s3) = rtt_us /\
    1 <= learn_rto_sn_std_ (cnt s3) <= 5 /\ (reports s3 = reports s \/ report_flag <> SELF_NO /\ exists r, reports s3 = reports s ++ [r])).
  { split; [done|]. split; [congruence|]. split; [congruence|]. split; [lia|]. left. congruence. }
  destruct (Z.eqb_spec SELF_NO report_flag) as [|Hflag]; [done|].
  assert (Hrep : tolerances_ok (report_loss_ (lss s)) (rtt_report ts_us s3) /\ geo (rtt_report ts_us s3) = geo s /\
    cur_rtt_us_ (rtt (rtt_report ts_us s3)) = rtt_us /\ 1 <= learn_rto_sn_std_ (cnt (rtt_report ts_us s3)) <= 5 /\
    (reports (rtt_report ts_us s3) = reports s \/ report_flag <> SELF_NO /\ exists r, reports (rtt_report ts_us s3) = reports s ++ [r])).
  { destruct (rtt_report_keeps ts_us _ _ Ht) as (T & G4 & C4 & N4 & r & R4). rewrite G4, C4, N4, R4, R3.
    split; [done|]. split; [congruence|]. split; [congruence|]. split; [lia|]. right. split; [done|]. exists r. by rewrite R. }
  destruct (_ || _); [done|]. destruct (_ || _); done.
Qed.

End SlidWinRtt.
