(* ===== verification/SlidWinSendSpec.v ===== *)
(** * The loss rate of the sender

    [CalcSndLoss] ends and stays inside its arrays when the last acknowledged
    number is near the left border; an acknowledgement can put it a whole round
    of the ring away, and then the search never ends. *)
From Stdlib Require Import Floats.SpecFloat.
From S2P Require Import Prelude Bitmap SlidWin SlidWinScan SlidWinSpec SlidWinRun SlidWinSend.
Export SlidWinRun SlidWinSend.

Module SlidWinSendSpec.

(** ** The search *)
Section Search.
Context (g : WinGeo) (rto_ts_ms ts_ms force_calc tmp_max max_span : Z).
Local Abbreviation l := (l_border_pos_ g).
Hypothesis Hl : 0 <= l < WIN_BUF_SIZE /\ l mod 64 = 0.
Hypothesis Hbm : Z.of_nat (length (sn_bit_map_ g)) = SLID_WIN_U64_BUF_SZ.
Hypothesis Hts : Z.of_nat (length (sn_ts_ms_ g)) = WIN_BUF_SIZE.

(** The search stands [k] positions behind the left border and has found no
    more missing packets than it has passed. *)
Record at_snd (k : Z) (c : SndScan) : Prop := {
  as_move : ss_move_pos c = ring_pos l k;
  as_span : ss_cur_span c = k;
  as_loss : 0 <= ss_loss_num c <= k
}.

Lemma snd_bits_ok n : forall word bit c k,
  at_snd k c -> 0 <= k -> k + Z.of_nat n < WIN_BUF_SIZE ->
  exists c' stop k', snd_bits g rto_ts_ms ts_ms force_calc max_span n word bit c = Some (c', stop) /\
    ss_block_loop c' = ss_block_loop c /\ ss_head c' = ss_head c /\ at_snd k' c' /\ k <= k' <= k + Z.of_nat n /\
    (stop = false -> k' = k + Z.of_nat n \/ max_span < k').
Proof.
  induction n as [|n IH]; intros word bit c k Hc Hk Hn; cbn [snd_bits].
  { exists c, false, k. do 4 (split; [done|]). split; [lia|]. intros _. left. lia. }
  destruct (Z.leb_spec (ss_cur_span c) max_span) as [Hle|Hgt]; cbn [negb].
  2: { exists c, false, k. do 4 (split; [done|]). split; [lia|]. intros _. right. by rewrite <- (as_span _ _ Hc). }
  assert (Hgo : forall loss, 0 <= loss <= k + 1 -> exists c' stop k',
    snd_bits g rto_ts_ms ts_ms force_calc max_span n word (bit + 1)
      (mkSndScan (ss_block_loop c) (Z.land (ss_move_pos c + 1) WIN_POS_MASK) loss (ss_head c)
         (SnPosToSpan l (Z.land (ss_move_pos c + 1) WIN_POS_MASK))) = Some (c', stop) /\
    ss_block_loop c' = ss_block_loop c /\ ss_head c' = ss_head c /\ at_snd k' c' /\ k <= k' <= k + Z.of_nat (S n) /\
    (stop = false -> k' = k + Z.of_nat (S n) \/ max_span < k')).
  { intros loss Hloss. rewrite (as_move _ _ Hc), ring_pos_add, span_ring_pos by (tauto || lia).
    destruct (IH word (bit + 1) (mkSndScan (ss_block_loop c) (ring_pos l (k + 1)) loss (ss_head c) (k + 1)) (k + 1))
      as (c' & stop & k' & Hr & E1 & E2 & Hc' & Hk' & Hst); [split; cbn; done || lia|lia..|].
    exists c', stop, k'. do 4 (split; [done|]). split; [lia|]. intros Hs. destruct (Hst Hs); [left; lia|by right]. }
  pose proof (as_loss _ _ Hc) as Hloss. destruct (Z.testbit word bit); [apply Hgo; lia|].
  destruct (at_pos_some (sn_ts_ms_ g) (ss_move_pos c)) as [tv ->].
  { rewrite Hts, (as_move _ _ Hc). apply ring_pos_range. }
  cbn [mbind option_bind]. destruct (_ && _).
  - exists c, true, k. do 4 (split; [done|]). split; [lia|done].
  - apply Hgo. rewrite u32_small by (unfold WIN_BUF_SIZE in *; lia). lia.
Qed.

(** It stands at the head of block [i]. *)
Record snd_at_block (i : Z) (c : SndScan) : Prop := {
  sb_at : at_snd (64 * i) c;
  sb_head : ss_head c = ring_pos l (64 * i);
  sb_block : ss_block_loop c = (l / 64 + i) mod 128
}.

Lemma snd_block_ok i c : snd_at_block i c -> 0 <= i -> 64 * (i + 1) < WIN_BUF_SIZE ->
  exists c' stop k, snd_block g rto_ts_ms ts_ms force_calc tmp_max max_span c = Some (c', stop) /\
    ss_block_loop c' = ss_block_loop c /\ ss_head c' = ss_head c /\ ss_move_pos c' = ring_pos l k /\
    0 <= ss_loss_num c' <= k /\ 64 * i <= k <= 64 * (i + 1) /\ (stop = false -> k = 64 * (i + 1)).
Proof.
  intros [Hc Hh Hb] Hi Hlim. unfold snd_block. rewrite Hb.
  destruct (at_pos_some (sn_bit_map_ g) ((l / 64 + i) mod 128)) as [w ->].
  { rewrite Hbm. apply (Z.mod_pos_bound _ 128). lia. }
  cbn [mbind option_bind]. destruct Hc as [Hm Hs Hlo]. rewrite Hm, ring_pos_add.
  destruct (_ && _).
  { eexists _, _, _. split; [done|]. cbn. do 3 (split; [done|]). split; [lia|]. split; [lia|]. intros _. lia. }
  destruct (_ && _).
  { eexists _, _, _. split; [done|]. cbn. do 3 (split; [done|]). rewrite u32_small by (unfold WIN_BUF_SIZE in *; lia).
    split; [lia|]. split; [lia|]. intros _. lia. }
  destruct (snd_bits_ok 64 w 0 c (64 * i)) as (c' & stop & k & -> & E1 & E2 & [Hm' Hs' Hlo'] & Hk & Hst); [by split|lia..|].
  cbn [mbind option_bind]. exists c', ((max_span <? ss_cur_span c') || stop), k. split; [done|].
  split; [congruence|]. do 2 (split; [done|]). split; [lia|]. split; [lia|]. intros [Hlt%Z.ltb_ge ->]%orb_false_iff.
  destruct (Hst eq_refl); lia.
Qed.

(** The search ends less than a block behind the last acknowledged number, and
    has passed something when it has found something missing. *)
Lemma snd_loop_ok fuel : forall i c,
  snd_at_block i c -> 0 <= i -> 64 * i <= max_span -> max_span + 64 < WIN_BUF_SIZE -> max_span - 64 * i < 64 * Z.of_nat fuel ->
  exists c' k, snd_loop g rto_ts_ms ts_ms force_calc tmp_max max_span fuel c = Some c' /\
    ss_move_pos c' = ring_pos l k /\ 0 <= ss_loss_num c' <= k /\ k <= max_span + 64.
Proof.
  induction fuel as [|fuel IH]; intros i c Hc Hi Hle Hlim Hfuel; [lia|]. cbn [snd_loop].
  destruct (snd_block_ok i c Hc Hi) as (c' & stop & k & -> & E1 & E2 & Hm & Hlo & Hk & Hst); [lia|]. cbn [mbind option_bind].
  destruct stop; [exists c', k; do 2 (split; [done|]); lia|]. specialize (Hst eq_refl). subst k.
  unfold snd_next at 1. cbn [ss_cur_span]. rewrite Hm, span_ring_pos by (tauto || lia).
  destruct (Z.leb_spec (64 * (i + 1)) max_span).
  2: { exists (snd_next g c'), (64 * (i + 1)). split; [done|]. unfold snd_next. cbn. split; [done|]. lia. }
  apply (IH (i + 1)); [|lia..]. unfold snd_next. rewrite Hm. split; cbn.
  - split; cbn; [done|apply span_ring_pos; tauto || lia|lia].
  - rewrite E2, (sb_head _ _ Hc), ring_pos_add. f_equal. lia.
  - rewrite E1, (sb_block _ _ Hc). unfold SLID_WIN_U64_BUF_SZ. destruct (Z.leb_spec 128 ((l / 64 + i) mod 128 + 1)); ring_lia.
Qed.
End Search.

(** ** What reporting leaves alone *)
Lemma snd_rate_keeps s loss f ts : same_win s (snd_rate s loss f ts) /\ loss_ (lss (snd_rate s loss f ts)) = loss_ (lss s).
Proof. unfold snd_rate. repeat case_match; by unfold same_win. Qed.

Lemma loss_rate_range a b : 0 < b -> 0 <= loss_rate a b <= 12800.
Proof.
  intros Hb. unfold loss_rate. destruct (_ =? _); [lia|]. set (q := _ / b).
  assert (0 <= q) by (apply Z.div_pos; [apply u32_range|lia]). destruct (Z.ltb_spec 12800 q); lia.
Qed.

(** Positions and rate of a sending window. *)
Record snd_ok (s : SlidWin) : Prop := {
  so_ring : ring_ok (geo s);
  so_rcv : 0 <= max_rcv_sn_pos_ (geo s) < WIN_BUF_SIZE;
  so_near : SnPosToSpan (l_border_pos_ (geo s)) (max_rcv_sn_pos_ (geo s)) <= 8000;
  so_loss : 0 <= loss_ (lss s) <= 12800
}.

Lemma ring_pos_of l pos : 0 <= l < WIN_BUF_SIZE -> 0 <= pos < WIN_BUF_SIZE ->
  pos = ring_pos l (SnPosToSpan l pos) /\ 0 <= SnPosToSpan l pos < WIN_BUF_SIZE.
Proof.
  intros Hl Hp. unfold SnPosToSpan, ring_pos. destruct (Z.leb_spec l pos); unfold WIN_BUF_SIZE in *.
  - split; [|lia]. rewrite Z.mod_small; lia.
  - split; [|lia]. apply (Z.mod_unique _ _ 1); lia.
Qed.

Lemma CalcSndLoss_run ts force s :
  snd_ok s -> exists s', CalcSndLoss ts force s = Some (tt, s') /\ snd_ok s' /\
    max_rcv_sn_pos_ (geo s') = max_rcv_sn_pos_ (geo s) /\
    SnPosToSpan (l_border_pos_ (geo s')) (max_rcv_sn_pos_ (geo s)) <= SnPosToSpan (l_border_pos_ (geo s)) (max_rcv_sn_pos_ (geo s)) /\
    slid_win_mode_ s' = slid_win_mode_ s.
Proof.
  intros Hs. destruct (wp_total (CalcSndLoss ts force) (fun _ s' => snd_ok s' /\ max_rcv_sn_pos_ (geo s') = max_rcv_sn_pos_ (geo s) /\
    SnPosToSpan (l_border_pos_ (geo s')) (max_rcv_sn_pos_ (geo s)) <= SnPosToSpan (l_border_pos_ (geo s)) (max_rcv_sn_pos_ (geo s)) /\
    slid_win_mode_ s' = slid_win_mode_ s) s)
    as ([] & s' & Hr & HQ); [|by exists s'].
  destruct Hs as [Hg Hrcv Hnear Hloss]. destruct (ro_l _ Hg) as [Hl Hl64].
  unfold CalcSndLoss, CalcSndLoss_in. apply wp_bind, wp_get.
  destruct (_ =? bit_map_update_ _); [by split_and!|].
  destruct (snd_waits _ _ _); [by split_and!|].
  apply wp_bind, wp_mod, wp_bind, wp_mod, wp_bind, wp_get. set (s1 := on_cnt _ (on_tm _ s)).
  assert (S1 : same_win s s1 /\ loss_ (lss s1) = loss_ (lss s)) by done. clearbody s1. destruct S1 as [(G1 & M1 & F1) L1]. rewrite G1.
  destruct (ring_pos_of _ _ Hl Hrcv) as [Epos Hspan]. set (ms := SnPosToSpan _ (max_rcv_sn_pos_ (geo s))) in *.
  destruct (snd_loop_ok (geo s) (TsUsToU16Ms (rto_ts_us_ (rtt s1))) (TsUsToU16Ms ts) force (max_rcv_sn_pos_ (geo s)) ms (ro_l _ Hg) (ro_bm _ Hg) (ro_ts _ Hg)
    SCAN_FUEL 0 (mkSndScan (Z.shiftr (l_border_pos_ (geo s)) 6) (l_border_pos_ (geo s)) 0 (l_border_pos_ (geo s)) 0))
    as (c & k & Hc & Hm & Hlo & Hk); [|lia|lia|unfold WIN_BUF_SIZE; lia|unfold SCAN_FUEL; lia|].
  { split; cbn; [split; cbn; [symmetry; by apply ring_pos_0|done|lia]|symmetry; by apply ring_pos_0|].
    rewrite shiftr_6, Z.add_0_r. symmetry. apply Z.mod_small. ring_lia. }
  apply wp_bind, (wp_deref _ _ _ _ Hc). rewrite Hm, span_ring_pos by (done || (unfold WIN_BUF_SIZE; lia)).
  apply wp_bind. apply wp_when.
  { intros [Hn Hz]%andb_prop. exfalso. apply negb_true_iff, Z.eqb_neq in Hn. apply Z.eqb_eq in Hz. lia. }
  intros Hnz. apply wp_bind, wp_mod, wp_bind.
  assert (Hl2 : 0 <= loss_rate (ss_loss_num c) k <= 12800).
  { unfold loss_rate. destruct (Z.eqb_spec 0 (ss_loss_num c)) as [|Hn]; [lia|]. pose proof (loss_rate_range (ss_loss_num c) k ltac:(lia)) as Hr.
    unfold loss_rate in Hr. by rewrite (proj2 (Z.eqb_neq 0 (ss_loss_num c)) Hn) in Hr. }
  match goal with |- wp _ _ ?x => set (s2 := x) end.
  assert (G2 : geo s2 = geo s) by exact G1. assert (M2 : slid_win_mode_ s2 = slid_win_mode_ s) by exact M1. assert (L2 : loss_ (lss s2) = loss_rate (ss_loss_num c) k) by done. clearbody s2.
  assert (Hend : forall s3, ring_ok (geo s3) -> max_rcv_sn_pos_ (geo s3) = max_rcv_sn_pos_ (geo s) -> loss_ (lss s3) = loss_ (lss s2) ->
    SnPosToSpan (l_border_pos_ (geo s3)) (max_rcv_sn_pos_ (geo s)) <= ms -> slid_win_mode_ s3 = slid_win_mode_ s ->
    wp (mod_st (fun s => snd_rate s (loss_ (lss s)) (report_rate (loss_ (lss s))) ts)) (fun _ s' => snd_ok s' /\
       max_rcv_sn_pos_ (geo s') = max_rcv_sn_pos_ (geo s) /\ SnPosToSpan (l_border_pos_ (geo s')) (max_rcv_sn_pos_ (geo s)) <= ms /\
       slid_win_mode_ s' = slid_win_mode_ s) s3).
  { intros s3 R3 X3 L3 P3 M3. apply wp_mod. destruct (snd_rate_keeps s3 (loss_ (lss s3)) (report_rate (loss_ (lss s3))) ts) as [(G4 & M4 & _) L4].
    rewrite G4, M4. split; [|done]. split; rewrite ?G4, ?X3; try done; lia. }
  apply wp_MoveWin_ring; [by rewrite G2|unfold WIN_BUF_SIZE in *; lia|intros _; apply Hend; rewrite ?G2; try done; lia|].
  intros v bm tsl Hv Hv64 Hle _ (Hbl & _) Htl. rewrite G2 in *.
  pose proof (min_reserve_range s2).
  apply Hend; cbn [geo on_geo lss move_geo l_border_pos_ max_rcv_sn_pos_]; [by apply move_ring_ok|done|done| |done].
  rewrite Epos. replace ms with (v + (ms - v)) by lia. rewrite <- ring_pos_move, span_ring_pos; [lia|apply ring_pos_range|unfold WIN_BUF_SIZE; lia].
Qed.

(** ** The search that does not end *)
Section Forever.
Context (g : WinGeo) (rto_ts_ms ts_ms force_calc : Z).
Hypothesis Hl : 0 <= l_border_pos_ g < WIN_BUF_SIZE /\ l_border_pos_ g mod 64 = 0.
Hypothesis Hfull : forall i, 0 <= i < SLID_WIN_U64_BUF_SZ -> at_pos (sn_bit_map_ g) i = Some 0xFFFFFFFFFFFFFFFF.

Lemma snd_loop_forever fuel c : 0 <= ss_head c < WIN_BUF_SIZE -> ss_head c mod 64 = 0 ->
  0 <= ss_move_pos c < WIN_BUF_SIZE -> 0 <= ss_block_loop c < SLID_WIN_U64_BUF_SZ ->
  snd_loop g rto_ts_ms ts_ms force_calc (ring_pos (l_border_pos_ g) 8191) 8191 fuel c = None.
Proof.
  revert c. induction fuel as [|fuel IH]; intros c Hh Hh64 Hm Hb; [done|]. cbn [snd_loop]. unfold snd_block.
  rewrite Hfull by done. cbn [mbind option_bind]. set (last := ring_pos _ 8191).
  assert (Hlast : last mod 64 = 63) by (unfold last, ring_pos; destruct Hl; ring_lia).
  assert (Hp : (ss_head c <=? last) && (last <? Z.land (ss_head c + 63) WIN_POS_MASK) = false).
  { rewrite land_ring. assert (Hs : (ss_head c + 63) mod WIN_BUF_SIZE = ss_head c + 63) by (apply Z.mod_small; ring_lia). rewrite Hs.
    destruct (Z.leb_spec (ss_head c) last), (Z.ltb_spec last (ss_head c + 63)); try done. exfalso. ring_lia. }
  rewrite Hp. cbn [negb andb]. change (0xFFFFFFFFFFFFFFFF =? 0xFFFFFFFFFFFFFFFF) with true. cbn [mbind option_bind].
  unfold snd_next at 1. cbn [ss_cur_span ss_move_pos ss_block_loop ss_head].
  assert (Hm' : 0 <= Z.land (ss_move_pos c + 64) WIN_POS_MASK < WIN_BUF_SIZE) by (rewrite land_ring; apply Z.mod_pos_bound; done).
  destruct (ring_pos_of (l_border_pos_ g) _ ltac:(tauto) Hm') as [_ Hspan]. unfold WIN_BUF_SIZE in Hspan.
  destruct (Z.leb_spec (SnPosToSpan (l_border_pos_ g) (Z.land (ss_move_pos c + 64) WIN_POS_MASK)) 8191); [|lia].
  apply IH; unfold snd_next; cbn [ss_head ss_move_pos ss_block_loop]; [rewrite land_ring; by apply Z.mod_pos_bound| |done|].
  - rewrite land_ring. ring_lia.
  - unfold SLID_WIN_U64_BUF_SZ in *. destruct (Z.leb_spec 128 (ss_block_loop c + 1)); lia.
Qed.
End Forever.

Lemma CalcSndLoss_forever rounds ts force s :
  bit_map_update_ (lss s) = SELF_YES -> snd_waits ts force s = false ->
  0 <= l_border_pos_ (geo s) < WIN_BUF_SIZE -> l_border_pos_ (geo s) mod 64 = 0 ->
  forallb (Z.eqb 0xFFFFFFFFFFFFFFFF) (sn_bit_map_ (geo s)) = true -> Z.of_nat (length (sn_bit_map_ (geo s))) = SLID_WIN_U64_BUF_SZ ->
  max_rcv_sn_pos_ (geo s) = ring_pos (l_border_pos_ (geo s)) 8191 -> CalcSndLoss_in rounds ts force s = None.
Proof.
  intros Hup Hw Hl Hl64 Hfull Hlen Hrcv. unfold CalcSndLoss_in, mbind, ST_bind. cbn [get_st]. rewrite Hup.
  change (SELF_NO =? SELF_YES) with false. rewrite Hw. cbn [mod_st]. cbn [geo on_cnt on_tm rtt tm].
  rewrite Hrcv, span_ring_pos by done. rewrite snd_loop_forever; [done|done| |done|done|done|].
  - intros i Hi. destruct (at_pos_some (sn_bit_map_ (geo s)) i) as [w Hw']; [by rewrite Hlen|].
    rewrite Hw'. unfold at_pos in Hw'. destruct (0 <=? i); [|done]. rewrite forallb_forall in Hfull.
    f_equal. symmetry. apply Z.eqb_eq, Hfull, list_elem_of_In. by eapply list_elem_of_lookup_2.
  - cbn. rewrite shiftr_6. unfold SLID_WIN_U64_BUF_SZ. ring_lia.
Qed.

(** ** The theorems *)

(** C27: [CalcSndLoss] of a sending window whose last acknowledged number is at
    most 8000 positions behind the left border always ends, inside its arrays
    and without a division by zero; the rate is at most 100 percent, and the
    left border does not pass that number. *)
Theorem CalcSndLoss_ends ts force s :
  snd_ok s -> exists s', CalcSndLoss ts force s = Some (tt, s') /\ snd_ok s' /\
    max_rcv_sn_pos_ (geo s') = max_rcv_sn_pos_ (geo s) /\
    SnPosToSpan (l_border_pos_ (geo s')) (max_rcv_sn_pos_ (geo s)) <= SnPosToSpan (l_border_pos_ (geo s)) (max_rcv_sn_pos_ (geo s)).
Proof. intros Hs. destruct (CalcSndLoss_run ts force s Hs) as (s' & ? & ? & ? & ? & _). by exists s'. Qed.

(** A sender that has sent the packet 100 and received an acknowledgement of the
    number 4196, which it has not sent. *)
Definition fooled : option (Z * SlidWin) :=
  (_ ← SnTsEntryWin 100 1000; SnEntryWin 4196 600000 SELF_YES) (win_ctor 100 1000 0 kSendSlidWinMode SELF_NO junk_win).
Definition fooled_win : SlidWin := default junk_win (snd <$> fooled).
(** The same after the marks of a nack of the numbers 4068 to 12259. *)
Definition full_win : SlidWin := default junk_win (snd <$> nack_marks (geo fooled_win) 4068 12259 4068 [] fooled_win).

(** C36: two packets of the peer make the sender's loss calculation loop for
    ever: the acknowledgement of a number far ahead moves the left border past
    the largest number sent, and a nack, whose range is then not checked
    against it any more, fills the whole ring and puts the last acknowledged
    position one round behind the left border.  No number of rounds suffices. *)
Theorem nack_hangs_sender :
  fooled = Some (SELF_SUCESS, fooled_win) /\
  CheckNackIsValid (geo fooled_win) 4068 12259 = Some (4068, 12259) /\
  nack_marks (geo fooled_win) 4068 12259 4068 [] fooled_win = Some (tt, full_win) /\
  (forall rounds, CalcSndLoss_in rounds 700000 SELF_NO full_win = None) /\
  forall rounds, NackSnEntryWin_in rounds 4068 12259 [] 700000 fooled_win = None.
Proof.
  assert (Hc : CheckNackIsValid (geo fooled_win) 4068 12259 = Some (4068, 12259)) by (vm_compute; reflexivity).
  assert (Hm : nack_marks (geo fooled_win) 4068 12259 4068 [] fooled_win = Some (tt, full_win)) by (vm_compute; reflexivity).
  assert (Hmode : (kSendSlidWinMode =? slid_win_mode_ fooled_win) = true) by (vm_compute; reflexivity).
  assert (Hf : forall rounds, CalcSndLoss_in rounds 700000 SELF_NO full_win = None).
  { intros rounds. apply CalcSndLoss_forever; vm_compute; try reflexivity. split; [discriminate|reflexivity]. }
  split; [vm_compute; reflexivity|]. do 3 (split; [assumption|]).
  intros rounds. unfold NackSnEntryWin_in, mbind, ST_bind. cbn [get_st]. rewrite Hmode. cbn [negb]. rewrite Hc, Hm. by rewrite Hf.
Qed.

(** ** The words of an acknowledgement *)

(** [n] numbers enter the window, from [sn] + [k] on. *)
Fixpoint enter_run (n : nat) (sn k ts flag : Z) : ST SlidWin unit :=
  match n with
  | O => mret tt
  | S n' => _ ← (_ ← SnEntryWin (u32 (sn + k)) ts flag; mret tt); enter_run n' sn (k + 1) ts flag
  end.

Lemma land_bit_1 w : Z.land w bit_1_value = w mod 2.
Proof. exact (Z.land_ones w 1 ltac:(lia)). Qed.

Lemma block_bits_odd n w k sn ts flag s :
  w mod 2 = 1 -> block_bits n w k sn ts flag s = enter_run n sn k ts flag s.
Proof.
  intros Hw. revert k s. induction n as [|n IH]; intros k s; [done|]. cbn [block_bits enter_run].
  rewrite land_bit_1, Hw. change (0 =? 1) with false. cbn [negb when].
  unfold mbind, ST_bind. destruct (SnEntryWin _ _ _ s) as [[r s']|]; [exact (IH _ _)|done].
Qed.
Lemma block_bits_even n w k sn ts flag s : w mod 2 = 0 -> block_bits n w k sn ts flag s = Some (tt, s).
Proof.
  intros Hw. revert k. induction n as [|n IH]; intros k; [done|]. cbn [block_bits].
  rewrite land_bit_1, Hw. exact (IH _).
Qed.

(** C37: of an acknowledged word that is not all ones the sender reads the
    lowest bit alone, whatever the 63 (31) others say: the word has the effect
    of its lowest bit, which is to enter every number of the word as received
    when the bit is set and none of them when it is not.  So a peer that
    reports one packet of 64 received and one that reports all but the last
    one are the same to it. *)
Theorem block_word_by_lowest_bit (n w begin_sn ts flag : Z) (s : SlidWin) :
  n = 64 \/ n = 32 -> w <> Z.ones n ->
  BlockSnEntryWin n w begin_sn ts flag s = BlockSnEntryWin n (w mod 2) begin_sn ts flag s /\
  block_bits (Z.to_nat n) w 0 begin_sn ts flag s =
    (if Z.odd w then enter_run (Z.to_nat n) begin_sn 0 ts flag else mret tt) s.
Proof.
  intros Hn Hw. pose proof (Z.mod_pos_bound w 2 ltac:(lia)) as Hb.
  assert (Hbits : forall t, block_bits (Z.to_nat n) w 0 begin_sn ts flag t =
    block_bits (Z.to_nat n) (w mod 2) 0 begin_sn ts flag t).
  { intros t. assert (w mod 2 = 0 \/ w mod 2 = 1) as [E|E] by lia.
    - rewrite !block_bits_even; rewrite ?E; done.
    - rewrite !block_bits_odd; rewrite ?E; done. }
  split.
  - assert (Hw2 : Z.ones n <> w mod 2) by (destruct Hn as [-> | ->];
      [change (Z.ones 64) with 18446744073709551615|change (Z.ones 32) with 4294967295]; lia).
    unfold BlockSnEntryWin. apply bind_ext. intros s1 t1. destruct (negb _); [done|]. cbv zeta.
    destruct (_ <? _); [done|]. repeat (apply bind_ext; intros ? ?).
    rewrite (proj2 (Z.eqb_neq (Z.ones n) w)), (proj2 (Z.eqb_neq _ _) Hw2) by done.
    unfold mbind, ST_bind. by rewrite Hbits.
  - rewrite Zodd_mod. assert (w mod 2 = 0 \/ w mod 2 = 1) as [E|E] by lia; rewrite E.
    + by rewrite block_bits_even.
    + by rewrite block_bits_odd.
Qed.

(** A window that has sent ten packets. *)
Definition ten_sent : SlidWin :=
  default junk_win (snd <$> foldl (fun (m : ST SlidWin Z) sn => _ ← m; SnTsEntryWin sn (1000 * sn)) (mret 0) (seqZ 100 10)
    (win_ctor 100 1000 0 kSendSlidWinMode SELF_NO junk_win)).
Lemma CalcSndLoss_ends_witness :
  exists s', CalcSndLoss 900000 SELF_YES ten_sent = Some (tt, s') /\ snd_ok s' /\
    max_rcv_sn_pos_ (geo s') = max_rcv_sn_pos_ (geo ten_sent) /\
    SnPosToSpan (l_border_pos_ (geo s')) (max_rcv_sn_pos_ (geo ten_sent)) <=
      SnPosToSpan (l_border_pos_ (geo ten_sent)) (max_rcv_sn_pos_ (geo ten_sent)).
Proof.
  refine (CalcSndLoss_ends 900000 SELF_YES ten_sent _).
  split; [split|..]; vm_compute; try reflexivity; repeat split; first [discriminate|reflexivity].
Defined.

Example block_word_by_lowest_bit_witness :
  let w := 0x7FFFFFFFFFFFFFFF in
  BlockSnEntryWin 64 w 100 900000 SELF_NO ten_sent = BlockSnEntryWin 64 (w mod 2) 100 900000 SELF_NO ten_sent /\
  block_bits (Z.to_nat 64) w 0 100 900000 SELF_NO ten_sent =
    (if Z.odd w then enter_run (Z.to_nat 64) 100 0 900000 SELF_NO else mret tt) ten_sent.
Proof.
  refine (block_word_by_lowest_bit 64 0x7FFFFFFFFFFFFFFF 100 900000 SELF_NO ten_sent (or_introl eq_refl) _).
  vm_compute. discriminate.
Defined.
(** The peer has received packet 100 alone; the sender's window says 64 packets. *)
Example one_of_64_read_as_all :
  (sn_bit_map_ ∘ geo ∘ snd <$> BlockSnEntryWin 64 1 100 900000 SELF_NO ten_sent) =
  Some (<[O := 0xFFFFFFFFFFFFFFFF]> (sn_bit_map_ (geo ten_sent))).
Proof. vm_compute. reflexivity. Qed.

End SlidWinSendSpec.
