(* ===== verification/FloatWire.v ===== *)
(** * Single precision values in memory

    [memcpy] of an [f32] to and from a packet (src/src/session/
    goodtp_session.cpp): the bit pattern of a value, with the sign in bit 31,
    the exponent in bits 23 to 30 and the fraction below. *)
From S2P Require Import Prelude Float32.
Export Float32.

Module FloatWire.

Definition f32_bits (x : spec_float) : Z :=
  match x with
  | S754_zero s => if s then 2 ^ 31 else 0
  | S754_infinity s => (if s then 2 ^ 31 else 0) + 255 * 2 ^ 23
  | S754_nan => 255 * 2 ^ 23 + 2 ^ 22
  | S754_finite s m e =>
      (if s then 2 ^ 31 else 0) +
      (if Z.pos m <? 2 ^ 23 then Z.pos m else (e + 150) * 2 ^ 23 + (Z.pos m - 2 ^ 23))
  end.

Definition f32_of_bits (b : Z) : spec_float :=
  let s := Z.testbit b 31 in
  let ex := get_bits b 23 8 in
  let fr := get_bits b 0 23 in
  if ex =? 255 then if fr =? 0 then S754_infinity s else S754_nan
  else if ex =? 0 then
    match fr with Z.pos m => S754_finite s m (-149) | _ => S754_zero s end
  else match fr + 2 ^ 23 with Z.pos m => S754_finite s m (ex - 150) | _ => S754_nan end.

Example f32_bits_100 : f32_bits (f32_of_Z 100) = 0x42c80000 /\ f32_of_bits 0xbf800000 = f32_of_Z (-1).
Proof. vm_compute. done. Qed.

(** A bit pattern put together from its three fields. *)
Lemma fields_of_bits (s : bool) ex fr : 0 <= ex < 256 -> 0 <= fr < 2 ^ 23 ->
  let b := (if s then 2 ^ 31 else 0) + (ex * 2 ^ 23 + fr) in
  Z.testbit b 31 = s /\ get_bits b 23 8 = ex /\ get_bits b 0 23 = fr /\ 0 <= b < 2 ^ 32.
Proof.
  intros Hex Hfr b. assert (Hb : b = ((if s then 1 else 0) * 2 ^ 8 + ex) * 2 ^ 23 + fr) by (unfold b; destruct s; lia).
  assert (Hhi : b / 2 ^ 23 = (if s then 1 else 0) * 2 ^ 8 + ex).
  { rewrite Hb, Z.add_comm, Z.div_add, Z.div_small by lia. lia. }
  split_and!.
  - rewrite Z.testbit_eqb by lia. replace (2 ^ 31) with (2 ^ 23 * 2 ^ 8) by lia.
    rewrite <- Z.div_div, Hhi by lia. rewrite Z.add_comm, Z.div_add, Z.div_small by lia. by destruct s.
  - rewrite get_bits_spec, Hhi by lia. rewrite Z.add_comm, Z.mod_add by lia. by rewrite Z.mod_small by lia.
  - rewrite get_bits_spec by lia. change (2 ^ 0) with 1. rewrite Z.div_1_r, Hb, Z.add_comm, Z.mod_add by lia.
    by rewrite Z.mod_small by lia.
  - unfold b. destruct s; lia.
  - unfold b. destruct s; lia.
Qed.

(** The mantissa and the exponent of a single precision value. *)
Lemma valid_f32 s m e : valid_binary 24 128 (S754_finite s m e) = true ->
  (Z.pos m < 2 ^ 23 /\ e = -149) \/ (2 ^ 23 <= Z.pos m < 2 ^ 24 /\ -149 <= e <= 104).
Proof.
  cbn. unfold bounded, canonical_mantissa, fexp, emin. intros H. apply andb_true_iff in H as [H1%Z.eqb_eq H2%Z.leb_le].
  assert (Hd : 2 ^ (Z.pos (digits2_pos m) - 1) <= Z.pos m < 2 ^ Z.pos (digits2_pos m)).
  { clear. revert m. induction m as [m IH|m IH|]; cbn [digits2_pos]; [..|cbn; lia];
      rewrite Pos2Z.inj_succ, Z.sub_succ_l, !Z.pow_succ_r by lia; lia. }
  destruct (Z.max_spec (Z.pos (digits2_pos m) + e - 24) (3 - 128 - 24)) as [[Hm Hx]|[Hm Hx]]; rewrite Hx in H1.
  - destruct (Z.ltb_spec (Z.pos m) (2 ^ 23)); [lia|]. right.
    pose proof (Z.pow_le_mono_r 2 (Z.pos (digits2_pos m)) 23). lia.
  - assert (Z.pos (digits2_pos m) = 24) as Hd24 by lia. rewrite Hd24 in Hd. right. lia.
Qed.

Lemma f32_bits_range x : valid_binary 24 128 x = true -> 0 <= f32_bits x < 2 ^ 32.
Proof.
  destruct x as [s|s| |s m e]; intros Hv; [destruct s; cbn; lia|destruct s; cbn; lia|cbn; lia|].
  apply valid_f32 in Hv. unfold f32_bits. destruct (Z.ltb_spec (Z.pos m) (2 ^ 23)), s; lia.
Qed.

(** Every single precision value survives its trip through memory. *)
Theorem f32_wire x : valid_binary 24 128 x = true -> f32_of_bits (f32_bits x) = x.
Proof.
  destruct x as [s|s| |s m e]; intros Hv; [by destruct s|by destruct s|done|].
  apply valid_f32 in Hv. unfold f32_of_bits, f32_bits. destruct (Z.ltb_spec (Z.pos m) (2 ^ 23)) as [Hm|Hm].
  - replace (Z.pos m) with (0 * 2 ^ 23 + Z.pos m) by lia.
    destruct (fields_of_bits s 0 (Z.pos m)) as (-> & -> & -> & _); [lia..|]. cbn. f_equal. lia.
  - destruct (fields_of_bits s (e + 150) (Z.pos m - 2 ^ 23)) as (-> & -> & -> & _); [lia..|].
    destruct (Z.eqb_spec (e + 150) 255); [lia|]. destruct (Z.eqb_spec (e + 150) 0); [lia|].
    replace (Z.pos m - 2 ^ 23 + 2 ^ 23) with (Z.pos m) by lia. f_equal. lia.
Qed.

End FloatWire.
