(* ===== verification/LinkStat.v ===== *)
(** * Link statistics and the clocks of the two ends

    [LinkerStat], [CalcSysClockSync] and the one second handler of
    [SessionPublicData] (src/src/utils/goodtp_comstruct.h): counters of bytes
    and packets, the rates per second computed from them, and the difference
    between the clocks of the sender and the receiver. *)
From Stdlib Require Import Floats.SpecFloat.
From S2P Require Import Prelude Float32.
Export Float32.

Module LinkStat.

Record LinkerStat := mkStat {
  data_bitrate_sum_ : Z;
  data_bitrate_bkup_ : Z;
  net_bitrate_sum_ : Z;
  net_bitrate_bkup_ : Z;
  data_pack_sum_ : Z;
  data_pack_bkup_ : Z;
  net_pack_sum_ : Z;
  net_pack_bkup_ : Z;
  data_bitrate_bps_ : Z;
  net_bitrate_bps_ : Z;
  data_pack_pps_ : Z;
  net_pack_pps_ : Z;
  first_frame_sum_ : Z;
  retran_frame_sum_ : Z;
  ack_sum_ : Z;
  last_calc_ts_us_ : Z
}.

(** The constructor. *)
Definition stat_ctor (create_ts_us : Z) : LinkerStat := mkStat 0 0 0 0 0 0 0 0 0 0 0 0 0 0 0 (u32 create_ts_us).

(** A packet of [size] bytes on the network: [net_pack_sum_ += 1;
    net_bitrate_sum_ += size]. *)
Definition count_net (size : Z) (s : LinkerStat) : LinkerStat :=
  mkStat (data_bitrate_sum_ s) (data_bitrate_bkup_ s) (u32 (net_bitrate_sum_ s + size)) (net_bitrate_bkup_ s)
    (data_pack_sum_ s) (data_pack_bkup_ s) (u32 (net_pack_sum_ s + 1)) (net_pack_bkup_ s)
    (data_bitrate_bps_ s) (net_bitrate_bps_ s) (data_pack_pps_ s) (net_pack_pps_ s)
    (first_frame_sum_ s) (retran_frame_sum_ s) (ack_sum_ s) (last_calc_ts_us_ s).
(** A data packet of [size] bytes. *)
Definition count_data (size : Z) (s : LinkerStat) : LinkerStat :=
  mkStat (u32 (data_bitrate_sum_ s + size)) (data_bitrate_bkup_ s) (net_bitrate_sum_ s) (net_bitrate_bkup_ s)
    (u32 (data_pack_sum_ s + 1)) (data_pack_bkup_ s) (net_pack_sum_ s) (net_pack_bkup_ s)
    (data_bitrate_bps_ s) (net_bitrate_bps_ s) (data_pack_pps_ s) (net_pack_pps_ s)
    (first_frame_sum_ s) (retran_frame_sum_ s) (ack_sum_ s) (last_calc_ts_us_ s).
(** A first or a repeated packet, by its repetition counter. *)
Definition count_frame (repeat_counter : Z) (s : LinkerStat) : LinkerStat :=
  mkStat (data_bitrate_sum_ s) (data_bitrate_bkup_ s) (net_bitrate_sum_ s) (net_bitrate_bkup_ s)
    (data_pack_sum_ s) (data_pack_bkup_ s) (net_pack_sum_ s) (net_pack_bkup_ s)
    (data_bitrate_bps_ s) (net_bitrate_bps_ s) (data_pack_pps_ s) (net_pack_pps_ s)
    (if 0 =? repeat_counter then u32 (first_frame_sum_ s + 1) else first_frame_sum_ s)
    (if 0 =? repeat_counter then retran_frame_sum_ s else u32 (retran_frame_sum_ s + 1))
    (ack_sum_ s) (last_calc_ts_us_ s).

(** The growth of a counter since its backup, as [Calc] computes it. *)
Definition grown (sum bkup : Z) : Z :=
  if bkup <=? sum then sum - bkup else u32 (sum + (0xFFFFFFFF - bkup)).

(** A rate corrected by the real length of the second. *)
Definition scaled (rate : Z) (k : spec_float) : Z := u32 (f_to_Z (f32_mul (f32_of_Z rate) k)).

Definition Calc (cur_ts_us : Z) (s : LinkerStat) : LinkerStat :=
  let now := Z.land cur_ts_us 0xFFFFFFFF in
  let dbps := u32 (Z.shiftl (grown (data_bitrate_sum_ s) (data_bitrate_bkup_ s)) 3) in
  let nbps := u32 (Z.shiftl (grown (net_bitrate_sum_ s) (net_bitrate_bkup_ s)) 3) in
  let npps := grown (net_pack_sum_ s) (net_pack_bkup_ s) in
  let dpps := grown (data_pack_sum_ s) (data_pack_bkup_ s) in
  let rates d n dp np := mkStat (data_bitrate_sum_ s) (data_bitrate_sum_ s) (net_bitrate_sum_ s) (net_bitrate_sum_ s)
    (data_pack_sum_ s) (data_pack_sum_ s) (net_pack_sum_ s) (net_pack_sum_ s) d n dp np
    (first_frame_sum_ s) (retran_frame_sum_ s) (ack_sum_ s) now in
  if now <=? last_calc_ts_us_ s then rates dbps nbps dpps npps
  else
    let delta_us := f32_of_Z (now - last_calc_ts_us_ s) in
    let k_factor := f32_of_f64 (f64_div (lit64 1000000001 1000) (f64_of_f32 delta_us)) in
    rates (scaled dbps k_factor) (scaled nbps k_factor) (scaled dpps k_factor) (scaled npps k_factor).

(** [_SessionPublicData::SecondTimerHandler], on the statistics, the largest
    receiving rate and the loss of the second. *)
Definition MAX_SUPPORT_PPS : Z := 20000.
Definition FLOAT_ZERO : spec_float := f32_of_f64 (lit64 1 1000000).
Record SecondData := mkSecond {
  send_stat_ : LinkerStat;
  recv_stat_ : LinkerStat;
  max_receive_pps_ : Z;
  max_send_loss_per_s_ : spec_float;
  bakeup_send_loss_ : spec_float
}.
Definition UpdatedMaxLoss (loss : spec_float) (d : SecondData) : SecondData :=
  mkSecond (send_stat_ d) (recv_stat_ d) (max_receive_pps_ d)
    (if SFltb (max_send_loss_per_s_ d) loss then loss else max_send_loss_per_s_ d)
    (if SFltb (bakeup_send_loss_ d) loss then loss else bakeup_send_loss_ d).
Definition SecondTimerHandler (ts_us : Z) (d : SecondData) : SecondData :=
  let snd := Calc ts_us (send_stat_ d) in
  let rcv := Calc ts_us (recv_stat_ d) in
  if max_receive_pps_ d =? MAX_SUPPORT_PPS then
    mkSecond snd rcv (data_pack_pps_ rcv) (max_send_loss_per_s_ d) (bakeup_send_loss_ d)
  else
    mkSecond snd rcv (if max_receive_pps_ d <? data_pack_pps_ rcv then data_pack_pps_ rcv else max_receive_pps_ d)
      (bakeup_send_loss_ d) FLOAT_ZERO.

(** ** Clocks *)

(** [CalcSysClockSync]: the new [clock_sync_delta_us_]. *)
Definition CalcSysClockSync (rtt_us peer_ts_us self_ts_us : Z) : Z :=
  let correct_self_ts := u64 (self_ts_us - Z.shiftr rtt_us 1) in
  if peer_ts_us <=? correct_self_ts then
    let d := i32 (correct_self_ts - peer_ts_us) in
    let d := if d <=? 10000 then 0 else d in
    d - 10000
  else
    let d := i32 (peer_ts_us - correct_self_ts) in
    if d <=? 10000 then 0 else 0 - (d - 10000).

(** ** Lemmas *)

(** A counter that did not wrap around has grown by what was added to it. *)
Lemma grown_exact bkup n : 0 <= bkup -> 0 <= n -> bkup + n < 2 ^ 32 -> grown (u32 (bkup + n)) bkup = n.
Proof. intros. rewrite u32_small by lia. unfold grown. destruct (Z.leb_spec bkup (bkup + n)); lia. Qed.

(** One that wrapped around has grown by one more than the code computes. *)
Lemma grown_wrapped bkup n : 0 <= bkup < 2 ^ 32 -> 0 <= n < 2 ^ 32 -> 2 ^ 32 <= bkup + n ->
  grown (u32 (bkup + n)) bkup = n - 1.
Proof.
  intros Hb Hn Hw. assert (Hu : u32 (bkup + n) = bkup + n - 2 ^ 32).
  { unfold u32. symmetry. apply (Z.mod_unique _ _ 1); lia. }
  rewrite Hu. unfold grown. destruct (Z.leb_spec bkup (bkup + n - 2 ^ 32)); [lia|].
  rewrite u32_small by lia. lia.
Qed.

Lemma i32_small z : 0 <= z < 2 ^ 31 -> i32 z = z.
Proof.
  intros Hz. unfold i32, swrap. rewrite Z.mod_small by lia. destruct (Z.ltb_spec z (2 ^ (32 - 1))); lia.
Qed.

(** After exactly one second the correction is 1, and leaves every supported
    rate as it is. *)
Definition one_second : spec_float :=
  f32_of_f64 (f64_div (lit64 1000000001 1000) (f64_of_f32 (f32_of_Z 1000000))).
Fixpoint rates_kept (n : nat) (r : Z) : bool :=
  match n with
  | O => true
  | S n' => (scaled r one_second =? r) && rates_kept n' (r + 1)
  end.
Lemma rates_kept_all n : forall r0, rates_kept n r0 = true -> forall r, r0 <= r < r0 + Z.of_nat n -> scaled r one_second = r.
Proof.
  induction n as [|n IH]; intros r0 H r Hr; [lia|]. cbn [rates_kept] in H. apply andb_true_iff in H as [H1%Z.eqb_eq H2].
  destruct (decide (r = r0)) as [->|]; [done|]. apply (IH (r0 + 1)); [done|lia].
Qed.
Lemma scaled_second r : 0 <= r <= MAX_SUPPORT_PPS -> scaled r one_second = r.
Proof.
  unfold MAX_SUPPORT_PPS. intros Hr. apply (rates_kept_all (Z.to_nat 20001) 0); [vm_compute; reflexivity|]. lia.
Qed.

(** ** The theorems *)

(** One second after the last calculation the packet rates are the numbers of
    packets counted since then, one less for a counter that wrapped around in
    between, whatever the state of the other counters. *)
Theorem Calc_second (s : LinkerStat) (now n : Z) :
  0 <= last_calc_ts_us_ s -> now = last_calc_ts_us_ s + 1000000 -> now < 2 ^ 32 ->
  0 <= data_pack_bkup_ s < 2 ^ 32 -> 0 <= n <= MAX_SUPPORT_PPS ->
  data_pack_sum_ s = u32 (data_pack_bkup_ s + n) ->
  let s' := Calc now s in
  data_pack_pps_ s' = (if data_pack_bkup_ s + n <? 2 ^ 32 then n else n - 1) /\
  data_pack_bkup_ s' = data_pack_sum_ s /\ last_calc_ts_us_ s' = now.
Proof.
  intros Hl Hnow Hnw Hb Hn Hsum. cbv zeta. unfold Calc.
  assert (Z.land now 0xFFFFFFFF = now) as ->.
  { change 0xFFFFFFFF with (2 ^ 32 - 1). rewrite land_mask by lia. apply Z.mod_small. lia. }
  destruct (Z.leb_spec now (last_calc_ts_us_ s)); [lia|]. cbn [data_pack_pps_ data_pack_bkup_ last_calc_ts_us_].
  replace (now - last_calc_ts_us_ s) with 1000000 by lia. fold one_second. rewrite Hsum.
  unfold MAX_SUPPORT_PPS in *. destruct (Z.ltb_spec (data_pack_bkup_ s + n) (2 ^ 32)).
  - rewrite grown_exact by lia. by rewrite scaled_second by (unfold MAX_SUPPORT_PPS; lia).
  - rewrite grown_wrapped by lia. rewrite scaled_second by (unfold MAX_SUPPORT_PPS; lia). done.
Qed.

Definition busy : LinkerStat := mkStat 0 0 0 0 4 4294967290 0 0 0 0 0 0 0 0 0 7.
Example Calc_second_witness : data_pack_pps_ (Calc 1000007 busy) = 9.
Proof. refine (proj1 (Calc_second busy 1000007 10 _ _ _ _ _ _)); vm_compute; intuition congruence. Defined.


(** The difference of the clocks, for clocks less than 2^31 microseconds (35
    minutes) apart, [d] being how far the own clock is ahead of the peer's
    after half a round trip: it is reported less a dead zone of 10 ms, but an
    own clock that is ahead by at most 10 ms is reported as 10 ms behind. *)
Theorem clock_sync_exact (rtt peer self d : Z) :
  0 <= rtt < 2 ^ 32 -> 0 <= peer < 2 ^ 64 -> rtt <= self < 2 ^ 64 ->
  d = self - rtt / 2 - peer -> - 2 ^ 31 < d < 2 ^ 31 ->
  CalcSysClockSync rtt peer self =
    if d <? -10000 then d + 10000 else if d <? 0 then 0 else if d <=? 10000 then -10000 else d - 10000.
Proof.
  intros Hrtt Hpeer Hself Hd Hr. assert (Hh : 0 <= rtt / 2 <= rtt) by (split; [apply Z.div_pos; lia|apply Z.div_le_upper_bound; lia]).
  assert (Hc : u64 (self - Z.shiftr rtt 1) = self - rtt / 2).
  { rewrite Z.shiftr_div_pow2 by lia. change (2 ^ 1) with 2. unfold u64. apply Z.mod_small. lia. }
  unfold CalcSysClockSync. rewrite Hc. cbv zeta. destruct (Z.leb_spec peer (self - rtt / 2)).
  - rewrite i32_small by lia.
    repeat match goal with
           | |- context [?a <? ?b] => destruct (Z.ltb_spec a b); try lia
           | |- context [?a <=? ?b] => destruct (Z.leb_spec a b); try lia
           end.
  - rewrite i32_small by lia.
    repeat match goal with
           | |- context [?a <? ?b] => destruct (Z.ltb_spec a b); try lia
           | |- context [?a <=? ?b] => destruct (Z.leb_spec a b); try lia
           end.
Qed.

Example clock_sync_exact_witness : CalcSysClockSync 20000 5000000 5010000 = -10000.
Proof. rewrite (clock_sync_exact 20000 5000000 5010000 0); first [lia|reflexivity]. Defined.

End LinkStat.
