(* ===== verification/Frame.v ===== *)
(** * Framing: the header in front of a frame

    The sending half of [GtpSession] (src/src/session/goodtp_session.cpp): it
    writes the packet header and the optional fields into the memory in front
    of a frame, from the frame downwards, for a new frame ([FramePrepHandler])
    and for a retransmission ([PackRetransmit]). *)
From Stdlib Require Import Floats.SpecFloat.
From S2P Require Import Prelude PacketHeader FloatWire.
Export PacketHeader FloatWire.

Module Frame.

(** The members the sending half reads and writes. *)
Record SendSess := mkSess {
  send_down_loss_ : spec_float;
  measure_rtt_ts_us_ : Z;
  last_active_ts_us_ : Z;
  rtt_us_ : Z;
  sort_sn_ : Z;
  pack_sn_ : Z;
  send_session_stat_ : Z;
  test_rtt_period_us_ : Z;
  peer_version_ : Z;
  tran_stream_type_ : Z;
  qos_ : Z;
  enable_key_ : Z;
  stream_key_ : Z
}.
Definition put_send_down_loss_ v s := mkSess v (measure_rtt_ts_us_ s) (last_active_ts_us_ s) (rtt_us_ s) (sort_sn_ s)
  (pack_sn_ s) (send_session_stat_ s) (test_rtt_period_us_ s) (peer_version_ s) (tran_stream_type_ s) (qos_ s)
  (enable_key_ s) (stream_key_ s).
Definition put_measure_rtt_ts_us_ v s := mkSess (send_down_loss_ s) v (last_active_ts_us_ s) (rtt_us_ s) (sort_sn_ s)
  (pack_sn_ s) (send_session_stat_ s) (test_rtt_period_us_ s) (peer_version_ s) (tran_stream_type_ s) (qos_ s)
  (enable_key_ s) (stream_key_ s).
Definition put_last_active_ts_us_ v s := mkSess (send_down_loss_ s) (measure_rtt_ts_us_ s) v (rtt_us_ s) (sort_sn_ s)
  (pack_sn_ s) (send_session_stat_ s) (test_rtt_period_us_ s) (peer_version_ s) (tran_stream_type_ s) (qos_ s)
  (enable_key_ s) (stream_key_ s).
Definition put_rtt_us_ v s := mkSess (send_down_loss_ s) (measure_rtt_ts_us_ s) (last_active_ts_us_ s) v (sort_sn_ s)
  (pack_sn_ s) (send_session_stat_ s) (test_rtt_period_us_ s) (peer_version_ s) (tran_stream_type_ s) (qos_ s)
  (enable_key_ s) (stream_key_ s).
Definition put_sort_sn_ v s := mkSess (send_down_loss_ s) (measure_rtt_ts_us_ s) (last_active_ts_us_ s) (rtt_us_ s) v
  (pack_sn_ s) (send_session_stat_ s) (test_rtt_period_us_ s) (peer_version_ s) (tran_stream_type_ s) (qos_ s)
  (enable_key_ s) (stream_key_ s).
Definition put_pack_sn_ v s := mkSess (send_down_loss_ s) (measure_rtt_ts_us_ s) (last_active_ts_us_ s) (rtt_us_ s)
  (sort_sn_ s) v (send_session_stat_ s) (test_rtt_period_us_ s) (peer_version_ s) (tran_stream_type_ s) (qos_ s)
  (enable_key_ s) (stream_key_ s).

(** A session at work on a buffer: [fr_mem] is the buffer, [move_pos] the
    cursor in it, [hdr_size] the length of the header so far. *)
Record FrSt := mkFr { fr_sess : SendSess; fr_mem : list Z; move_pos : Z; hdr_size : Z }.
Definition on_sess (f : SendSess -> SendSess) (s : FrSt) : FrSt := mkFr (f (fr_sess s)) (fr_mem s) (move_pos s) (hdr_size s).
Definition put_cursor (p n : Z) (s : FrSt) : FrSt := mkFr (fr_sess s) (fr_mem s) p n.
Local Abbreviation M := (ST FrSt).

Definition kReliableStream : Z := 1.
Definition kRunning : Z := 2.
Definition CHANGE_ZONE_SIZE : Z := 8.
Definition kGtpSessionMd : Z := 0x53.

(** [-1.0 < send_down_loss_] and [measure_rtt_ts_us_ <= last_active_ts_us_] *)
Definition loss_due (s : SendSess) : bool := lit_lt_f (-1) 1 (send_down_loss_ s).
Definition ts_due (s : SendSess) : bool := measure_rtt_ts_us_ s <=? last_active_ts_us_ s.
Definition rtt_due (s : SendSess) : bool := negb (0 =? rtt_us_ s).
Definition check_due (hash user_id : Z) : bool := negb (0 =? user_id) || negb (0 =? hash).
(** The frame carries a [ChangeZone]. *)
Definition zone_due (s : SendSess) (resend_num : Z) : bool := (kReliableStream <=? tran_stream_type_ s) && (0 =? resend_num).
Definition opt_size (b : bool) (n : Z) : Z := if b then n else 0.

Definition CalcHeaderSizeVersion01 (hash user_id resend_num : Z) (s : SendSess) : Z :=
  u32 (opt_size (loss_due s) 4 + opt_size (ts_due s) 8 + opt_size (rtt_due s) 4 +
       opt_size (check_due hash user_id) 8 + opt_size (0 <? resend_num) 4 + GTP_PACKET_SIZE).
Definition CalcHeaderSize (hash user_id resend_num : Z) (s : SendSess) : Z :=
  u32 (opt_size (loss_due s) 4 + opt_size (ts_due s) 8 + opt_size (rtt_due s) 4 +
       opt_size (check_due hash user_id) 8 + opt_size (0 <? resend_num) 4 +
       opt_size (zone_due s resend_num) CHANGE_ZONE_SIZE + GTP_PACKET_SIZE).

(** [move_pos -= n; hdr_size += n; memcpy(move_pos, bs, n)]: a fault in front of
    the buffer. *)
Definition push (bs : list Z) : M unit :=
  s ← get_st;
  let n := Z.of_nat (length bs) in
  if n <=? move_pos s then
    mod_st (fun s => mkFr (fr_sess s) (mem_store (fr_mem s) (Z.to_nat (move_pos s - n)) bs) (move_pos s - n) (u32 (hdr_size s + n)))
  else fault.

Section Prep.
(** The width of a pointer in bytes, the address of the first byte of the
    buffer, the answer of [GtpSysTimestampUs]. *)
Variable ptr_size base now_us : Z.

(** The bytes that align the packet. *)
Definition padding_of (pos hsize : Z) : Z :=
  u16 (if 8 =? ptr_size then Z.land (base + (pos - hsize)) 7 else Z.land (u32 (base + (pos - hsize))) 3).

Definition push_zone : M unit :=
  s ← get_st;
  _ ← push (le_bytes 4 (sort_sn_ (fr_sess s)) ++ le_bytes 4 (u32 (Z.land now_us 0xFFFFFFFF)));
  mod_st (on_sess (fun s => put_sort_sn_ (u32 (sort_sn_ s + 1)) s)).
Definition push_loss : M unit :=
  s ← get_st;
  _ ← push (le_bytes 4 (f32_bits (send_down_loss_ (fr_sess s))));
  mod_st (on_sess (put_send_down_loss_ (f32_of_Z (-1)))).
Definition push_ts (resend_num : Z) : M unit :=
  s ← get_st;
  _ ← push (le_bytes 8 (if 0 =? resend_num then last_active_ts_us_ (fr_sess s) else now_us));
  mod_st (on_sess (fun s => put_measure_rtt_ts_us_ (u64 (last_active_ts_us_ s + test_rtt_period_us_ s)) s)).
Definition push_rtt : M unit :=
  s ← get_st;
  _ ← push (le_bytes 4 (rtt_us_ (fr_sess s)));
  mod_st (on_sess (put_rtt_us_ 0)).
Definition push_check (hash user_id : Z) : M unit :=
  _ ← push (le_bytes 4 user_id); push (le_bytes 4 hash).

(** The optional fields between the zone and the fixed header, in the order in
    which they are written. *)
Definition push_fields (padding hash user_id first_pack_sn resend_num : Z) : M unit :=
  _ ← when (negb (0 =? padding)) (push (replicate (Z.to_nat padding) 0));
  s ← get_st;
  _ ← when (loss_due (fr_sess s)) push_loss;
  s ← get_st;
  _ ← when (ts_due (fr_sess s)) (push_ts resend_num);
  s ← get_st;
  _ ← when (rtt_due (fr_sess s)) push_rtt;
  _ ← when (check_due hash user_id) (push_check hash user_id);
  when (0 <? resend_num) (push (le_bytes 4 first_pack_sn)).

(** The fixed header: the size field and the counter are truncated to their
    widths by the bit fields. *)
Definition frame_header (s0 s : SendSess) (ver zone stype : Z) (hsize frame_size hash user_id resend_num : Z) : PackHeader := {|
  goodtp_ver := u8 ver;
  header_offset := u8 hsize mod 64;
  cache_us_flag := GTP_NO;
  has_loss_flag := ind (loss_due s0);
  pack_type := kGtpDataPackType;
  pack_size := u16 (hsize + frame_size) mod 8192;
  pack_sn := pack_sn_ s;
  has_check_flag := ind (check_due hash user_id);
  has_ts_flag := ind (ts_due s0);
  has_rtt_flag := ind (rtt_due s0);
  init_flag := if kRunning =? send_session_stat_ s then GTP_NO else GTP_YES;
  repeat_counter := Z.land resend_num 7;
  is_qos_flg := GTP_YES;
  share_zone := qos_ s mod 64;
  has_chg_zone := zone;
  stream_type := stype
|}.

(** The tail of both handlers; the result is the return code, [*out_pack] as
    a position in the buffer, and [*out_pack_size]. *)
Definition push_header (s0 : SendSess) (ver zone stype frame_size hash user_id resend_num : Z) : M (Z * Z * Z) :=
  s ← get_st;
  let h := frame_header s0 (fr_sess s) ver zone stype (u32 (hdr_size s + GTP_PACKET_SIZE)) frame_size hash user_id resend_num in
  _ ← push (encode_header h);
  _ ← mod_st (on_sess (fun s => put_pack_sn_ (u32 (pack_sn_ s + 1)) s));
  s ← get_st;
  mret (GTP_OK, move_pos s, pack_size h).

Definition FramePrepHandlerWithSelfVer (frame frame_size hash user_id first_pack_sn resend_num : Z) : M (Z * Z * Z) :=
  s ← get_st;
  let s0 := fr_sess s in
  let padding := padding_of frame (CalcHeaderSize hash user_id resend_num s0) in
  _ ← mod_st (put_cursor frame 0);
  _ ← when (zone_due s0 resend_num) push_zone;
  _ ← push_fields padding hash user_id first_pack_sn resend_num;
  push_header s0 GTP_VERSION (ind (zone_due s0 resend_num))
    (ind (kReliableStream <=? tran_stream_type_ s0)) frame_size hash user_id resend_num.

Definition FramePrepHandlerWith01 (frame frame_size hash user_id first_pack_sn resend_num : Z) : M (Z * Z * Z) :=
  s ← get_st;
  let s0 := fr_sess s in
  let padding := padding_of frame (CalcHeaderSizeVersion01 hash user_id resend_num s0) in
  _ ← mod_st (put_cursor frame 0);
  _ ← push_fields padding hash user_id first_pack_sn resend_num;
  push_header s0 1 GTP_NO 0 frame_size hash user_id resend_num.

Variable sys_id : Z.

Definition FramePrepHandlerWithPeerVer (frame frame_size hash user_id first_pack_sn resend_num : Z) : M (Z * Z * Z) :=
  s ← get_st;
  let v := peer_version_ (fr_sess s) in
  if v =? 1 then FramePrepHandlerWith01 frame frame_size hash user_id first_pack_sn resend_num
  else if v =? 2 then FramePrepHandlerWithSelfVer frame frame_size hash user_id first_pack_sn resend_num
  else mret (GEN_ERR sys_id kGtpSessionMd kUnknownGtpVerErr, 0, 0).

(** The hash and the user id that go out: the halves of the stream key when the
    session is known by one. *)
Definition real_hash (s : SendSess) (hash : Z) : Z :=
  if GTP_YES =? enable_key_ s then u32 (Z.shiftr (stream_key_ s) 32) else hash.
Definition real_user_id (s : SendSess) (user_id : Z) : Z :=
  if GTP_YES =? enable_key_ s then u32 (Z.land (stream_key_ s) 0xFFFFFFFF) else user_id.

Definition FramePrepHandler (frame frame_size hash user_id first_pack_sn resend_num : Z) : M (Z * Z * Z) :=
  s ← get_st;
  let h := real_hash (fr_sess s) hash in
  let u := real_user_id (fr_sess s) user_id in
  let v := peer_version_ (fr_sess s) in
  if (0xFF =? v) || (GTP_VERSION =? v) then FramePrepHandlerWithSelfVer frame frame_size h u first_pack_sn resend_num
  else FramePrepHandlerWithPeerVer frame frame_size h u first_pack_sn resend_num.

End Prep.
(** ** Reading

    What [GtpSession::PackPrepHandler] and [GtpSession::PackPostHandler] read
    from a data packet. *)

(** Where the optional fields lie, by the flags of the header. *)
Definition off_check (h : PackHeader) : Z := GTP_PACKET_SIZE + opt_size (negb (0 =? repeat_counter h)) 4.
Definition off_rtt (h : PackHeader) : Z := off_check h + opt_size (GTP_YES =? has_check_flag h) 8.
Definition off_ts (h : PackHeader) : Z := off_rtt h + opt_size (GTP_YES =? has_rtt_flag h) 4.
Definition off_loss (h : PackHeader) : Z := off_ts h + opt_size (GTP_YES =? has_ts_flag h) 8.

Definition load_at (n : nat) (m : list Z) (off : Z) : Z := le_val (mem_load n m (Z.to_nat off)).
Definition rtt_of (m : list Z) : option Z :=
  let h := parse_header m in if GTP_YES =? has_rtt_flag h then Some (load_at 4 m (off_rtt h)) else None.
Definition ts_of (m : list Z) : option Z :=
  let h := parse_header m in if GTP_YES =? has_ts_flag h then Some (load_at 8 m (off_ts h)) else None.
Definition loss_of (m : list Z) : option spec_float :=
  let h := parse_header m in
  if GTP_YES =? has_loss_flag h then Some (f32_of_bits (load_at 4 m (off_loss h))) else None.
Definition check_of (m : list Z) : option (Z * Z) :=
  let h := parse_header m in
  if GTP_YES =? has_check_flag h then Some (load_at 4 m (off_check h), load_at 4 m (off_check h + 4)) else None.

(** The number by which repeated packets are recognised; [stream_type] is that
    of the session. *)
Definition first_sn_of (stream_type : Z) (m : list Z) : Z :=
  let h := parse_header m in
  if (stream_type <? kReliableStream) || (goodtp_ver h <? 2) || (GTP_NO =? has_chg_zone h) then
    if 0 =? goodtp_ver h then load_at 4 m (header_offset h)
    else if 0 =? repeat_counter h then pack_sn h
    else load_at 4 m GTP_PACKET_SIZE
  else load_at 4 m (header_offset h).

(** [*out_frame], as a position in the packet, and [*out_frame_size]. *)
Definition frame_of (m : list Z) (size : Z) : list Z :=
  let h := parse_header m in mem_load (Z.to_nat (u32 (size - header_offset h))) m (Z.to_nat (header_offset h)).

End Frame.
