(* ===== verification/FrameSpec.v ===== *)
(** * What the framing writes

    The bytes in front of the frame as one list: the fixed header, then the
    optional fields in the order in which the receiver reads them, then the
    padding and the zone ([packet_image]); and the proof that the handlers of
    Frame.v write exactly these bytes and nothing else. *)
From Stdlib Require Import Floats.SpecFloat.
From S2P Require Import Prelude PacketHeader FloatWire Frame.
Export Frame.

Module FrameSpec.

Definition opt_bytes (b : bool) (l : list Z) : list Z := if b then l else [].

Section Image.
Variable now_us : Z.

(** The fields from the fixed header to the padding, as the session [s] sends
    them. *)
Definition option_bytes (s : SendSess) (hash user_id first_pack_sn resend_num : Z) : list Z :=
  opt_bytes (0 <? resend_num) (le_bytes 4 first_pack_sn) ++
  opt_bytes (check_due hash user_id) (le_bytes 4 hash ++ le_bytes 4 user_id) ++
  opt_bytes (rtt_due s) (le_bytes 4 (rtt_us_ s)) ++
  opt_bytes (ts_due s) (le_bytes 8 (if 0 =? resend_num then last_active_ts_us_ s else now_us)) ++
  opt_bytes (loss_due s) (le_bytes 4 (f32_bits (send_down_loss_ s))).

Definition zone_bytes (s : SendSess) (resend_num : Z) : list Z :=
  opt_bytes (zone_due s resend_num) (le_bytes 4 (sort_sn_ s) ++ le_bytes 4 (u32 (Z.land now_us 0xFFFFFFFF))).

(** The session after the optional fields, and after a packet. *)
Definition after_options (s : SendSess) : SendSess :=
  (if rtt_due s then put_rtt_us_ 0 else id)
    ((if ts_due s then put_measure_rtt_ts_us_ (u64 (last_active_ts_us_ s + test_rtt_period_us_ s)) else id)
       ((if loss_due s then put_send_down_loss_ (f32_of_Z (-1)) else id) s)).
Definition sess_after (zone : bool) (s : SendSess) : SendSess :=
  put_pack_sn_ (u32 (pack_sn_ s + 1)) (after_options ((if zone then put_sort_sn_ (u32 (sort_sn_ s + 1)) else id) s)).

(** The buffer [m0] with the bytes [hd] written in front of position [pos]. *)
Record image (m0 : list Z) (pos : Z) (hd : list Z) (s : FrSt) : Prop := {
  im_mem : fr_mem s = take (Z.to_nat pos - length hd) m0 ++ hd ++ drop (Z.to_nat pos) m0;
  im_pos : move_pos s = pos - Z.of_nat (length hd);
  im_size : hdr_size s = Z.of_nat (length hd);
  im_room : Z.of_nat (length hd) <= pos <= Z.of_nat (length m0);
  im_small : Z.of_nat (length hd) < 2 ^ 31
}.

Lemma image_start m0 pos s : fr_mem s = m0 -> 0 <= pos <= Z.of_nat (length m0) -> image m0 pos [] (put_cursor pos 0 s).
Proof.
  intros <- Hp. split; cbn; [|lia..]. by rewrite Nat.sub_0_r, take_drop.
Qed.

Lemma image_push m0 pos hd bs s : image m0 pos hd s ->
  Z.of_nat (length bs) + Z.of_nat (length hd) <= pos -> Z.of_nat (length bs) + Z.of_nat (length hd) < 2 ^ 31 ->
  wp (push bs) (fun _ s' => image m0 pos (bs ++ hd) s' /\ fr_sess s' = fr_sess s) s.
Proof.
  intros [Hm Hp Hs Hr Hsm] Hroom H31. unfold push. wp_steps; [|lia].
  split; [|done]. set (n := Z.to_nat (move_pos s - Z.of_nat (length bs))).
  assert (Hn : n = (Z.to_nat pos - length (bs ++ hd))%nat) by (unfold n; rewrite Hp, length_app; lia).
  split; cbn [fr_mem move_pos hdr_size fr_sess]; rewrite ?length_app in *; [|lia|rewrite Hs, u32_small; lia|lia|lia].
  fold n. unfold mem_store. rewrite Hm, pad_to_id.
  2: { rewrite !length_app, length_take, length_drop. lia. }
  rewrite take_app_le, take_take by (rewrite length_take; lia).
  rewrite Hn at 1. rewrite Nat.min_l by lia. rewrite <- app_assoc. f_equal. f_equal.
  rewrite drop_app_ge by (rewrite length_take; lia).
  rewrite length_take, Nat.min_l by lia. replace (n + length bs - (Z.to_nat pos - length hd))%nat with 0%nat by lia.
  apply drop_0.
Qed.

Lemma image_sess m0 pos hd f s : image m0 pos hd s -> image m0 pos hd (on_sess f s).
Proof. by intros []. Qed.

End Image.

(** [m] writes [bs] in front of what is there and takes the session from [a] to
    [b]. *)
Definition writes {A} (m0 : list Z) (pos : Z) (m : ST FrSt A) (bs : list Z) (a b : SendSess) (Q : A -> Prop) : Prop :=
  forall hd s, image m0 pos hd s -> fr_sess s = a ->
    Z.of_nat (length (bs ++ hd)) <= pos -> Z.of_nat (length (bs ++ hd)) < 2 ^ 31 ->
    wp m (fun r s' => image m0 pos (bs ++ hd) s' /\ fr_sess s' = b /\ Q r) s.

Section Writes.
Context (m0 : list Z) (pos : Z).

Lemma writes_push bs a : writes m0 pos (push bs) bs a a (fun _ => True).
Proof.
  intros hd s Hi Hs Hr H31. rewrite length_app in *. eapply wp_mono; [apply (image_push m0 pos hd); [done|lia..]|].
  intros ? s' [Hi' Hs']. split; [done|]. split; [congruence|done].
Qed.
Lemma writes_mod f a : writes m0 pos (mod_st (on_sess f)) [] a (f a) (fun _ => True).
Proof. intros hd s Hi Hs _ _. apply wp_mod. split; [by apply image_sess|]. cbn. by rewrite Hs. Qed.
Lemma writes_ret {A} (r : A) a (Q : A -> Prop) : Q r -> writes m0 pos (mret r) [] a a Q.
Proof. intros HQ hd s Hi Hs _ _. by apply wp_ret. Qed.
Lemma writes_bind {A B} (m : ST FrSt A) (f : A -> ST FrSt B) b1 b2 b3 a b c (Q : A -> Prop) (R : B -> Prop) :
  writes m0 pos m b1 a b Q -> (forall r, Q r -> writes m0 pos (f r) b2 b c R) -> b3 = b2 ++ b1 ->
  writes m0 pos (m ≫= f) b3 a c R.
Proof.
  intros H1 H2 -> hd s Hi Hs Hr H31. rewrite !length_app in *. apply wp_bind. eapply wp_mono.
  { apply (H1 hd); [done|done|rewrite length_app; lia..]. }
  intros r s' (Hi' & Hs' & HQ). rewrite <- app_assoc. apply (H2 r HQ (b1 ++ hd)); [done|done|rewrite !length_app; lia..].
Qed.
Lemma writes_seq {A B} (m : ST FrSt A) (f : A -> ST FrSt B) b1 b2 a b c (Q : A -> Prop) (R : B -> Prop) :
  writes m0 pos m b1 a b Q -> (forall r, Q r -> writes m0 pos (f r) b2 b c R) -> writes m0 pos (m ≫= f) (b2 ++ b1) a c R.
Proof. intros. by eapply writes_bind. Qed.
Lemma writes_as {A} (m : ST FrSt A) bs bs' a b Q : writes m0 pos m bs a b Q -> bs' = bs -> writes m0 pos m bs' a b Q.
Proof. by intros ? ->. Qed.
Lemma writes_get {A} (f : FrSt -> ST FrSt A) bs a b Q :
  (forall s, fr_sess s = a -> writes m0 pos (f s) bs a b Q) -> writes m0 pos (get_st ≫= f) bs a b Q.
Proof. intros H hd s Hi Hs Hr H31. apply wp_bind, wp_get. by apply H. Qed.
Lemma writes_when (c : bool) m bs f a :
  writes m0 pos m bs a (f a) (fun _ => True) ->
  writes m0 pos (when c m) (opt_bytes c bs) a ((if c then f else id) a) (fun _ => True).
Proof. destruct c; cbn [when opt_bytes]; [done|]. intros _. by apply writes_ret. Qed.

Variable now_us : Z.

Lemma writes_zone a :
  writes m0 pos (push_zone now_us) (le_bytes 4 (sort_sn_ a) ++ le_bytes 4 (u32 (Z.land now_us 0xFFFFFFFF))) a
    (put_sort_sn_ (u32 (sort_sn_ a + 1)) a) (fun _ => True).
Proof.
  apply writes_get. intros s ->. eapply writes_bind; [apply writes_push| |by rewrite app_nil_l].
  intros _ _. exact (writes_mod (fun s => put_sort_sn_ (u32 (sort_sn_ s + 1)) s) a).
Qed.
Lemma writes_loss a :
  writes m0 pos push_loss (le_bytes 4 (f32_bits (send_down_loss_ a))) a (put_send_down_loss_ (f32_of_Z (-1)) a) (fun _ => True).
Proof.
  apply writes_get. intros s ->. eapply writes_bind; [apply writes_push| |by rewrite app_nil_l].
  intros _ _. apply writes_mod.
Qed.
Lemma writes_ts a n :
  writes m0 pos (push_ts now_us n) (le_bytes 8 (if 0 =? n then last_active_ts_us_ a else now_us)) a
    (put_measure_rtt_ts_us_ (u64 (last_active_ts_us_ a + test_rtt_period_us_ a)) a) (fun _ => True).
Proof.
  apply writes_get. intros s ->. eapply writes_bind; [apply writes_push| |by rewrite app_nil_l].
  intros _ _. exact (writes_mod (fun s => put_measure_rtt_ts_us_ (u64 (last_active_ts_us_ s + test_rtt_period_us_ s)) s) a).
Qed.
Lemma writes_rtt a : writes m0 pos push_rtt (le_bytes 4 (rtt_us_ a)) a (put_rtt_us_ 0 a) (fun _ => True).
Proof.
  apply writes_get. intros s ->. eapply writes_bind; [apply writes_push| |by rewrite app_nil_l].
  intros _ _. apply writes_mod.
Qed.
Lemma writes_check h u a : writes m0 pos (push_check h u) (le_bytes 4 h ++ le_bytes 4 u) a a (fun _ => True).
Proof. eapply writes_bind; [apply writes_push|intros; apply writes_push|done]. Qed.

Lemma writes_fields a pad h u first n :
  writes m0 pos (push_fields now_us pad h u first n)
    (option_bytes now_us a h u first n ++ replicate (Z.to_nat pad) 0) a (after_options a) (fun _ => True).
Proof.
  unfold push_fields, option_bytes, after_options.
  eapply writes_as.
  { eapply writes_seq; [by apply (writes_when (negb (0 =? pad)) _ (replicate (Z.to_nat pad) 0) id), writes_push|].
  intros _ _. replace ((if negb (0 =? pad) then id else id) a) with a by by destruct (negb _).
  apply writes_get. intros s ->.
  eapply writes_seq; [apply (writes_when (loss_due a) push_loss (le_bytes 4 (f32_bits (send_down_loss_ a))) (put_send_down_loss_ (f32_of_Z (-1)))), writes_loss|].
  intros _ _. apply writes_get. intros s1 Hs1.
  set (a1 := (if loss_due a then put_send_down_loss_ (f32_of_Z (-1)) else id) a) in *.
  assert (H1 : ts_due a1 = ts_due a /\ rtt_due a1 = rtt_due a /\ rtt_us_ a1 = rtt_us_ a /\
    last_active_ts_us_ a1 = last_active_ts_us_ a /\ test_rtt_period_us_ a1 = test_rtt_period_us_ a)
    by (unfold a1; by destruct (loss_due a)).
  destruct H1 as (E1 & E2 & E3 & E4 & E5). rewrite Hs1, E1.
  eapply writes_seq.
  { apply (writes_when (ts_due a) (push_ts now_us n) (le_bytes 8 (if 0 =? n then last_active_ts_us_ a else now_us)) (put_measure_rtt_ts_us_ (u64 (last_active_ts_us_ a + test_rtt_period_us_ a)))).
    rewrite <- E4, <- E5. apply writes_ts. }
  intros _ _. apply writes_get. intros s2 Hs2.
  set (a2 := (if ts_due a then _ else id) a1) in *.
  assert (H2 : rtt_due a2 = rtt_due a /\ rtt_us_ a2 = rtt_us_ a) by (unfold a2; by destruct (ts_due a)).
  destruct H2 as (E6 & E7). rewrite Hs2, E6.
  eapply writes_seq.
  { apply (writes_when (rtt_due a) push_rtt (le_bytes 4 (rtt_us_ a)) (put_rtt_us_ 0)). rewrite <- E7. apply writes_rtt. }
  intros _ _. eapply writes_seq; [apply (writes_when (check_due h u) _ (le_bytes 4 h ++ le_bytes 4 u) id), writes_check|].
  intros _ _. replace ((if check_due h u then id else id) _) with ((if rtt_due a then put_rtt_us_ 0 else id) a2) by by destruct (check_due h u).
  pose proof (writes_when (0 <? n) (push (le_bytes 4 first)) (le_bytes 4 first) id ((if rtt_due a then put_rtt_us_ 0 else id) a2) (writes_push _ _)) as Hw.
  replace ((if 0 <? n then id else id) _) with ((if rtt_due a then put_rtt_us_ 0 else id) a2) in Hw by by destruct (0 <? n).
  exact Hw. }
  rewrite <- !app_assoc. do 5 f_equal. destruct (Z.eqb_spec 0 pad) as [<-|]; done.
Qed.

End Writes.
(** ** Lengths *)
Lemma opt_bytes_length b l : Z.of_nat (length (opt_bytes b l)) = opt_size b (Z.of_nat (length l)).
Proof. by destruct b. Qed.

Lemma option_bytes_length now a h u first n :
  Z.of_nat (length (option_bytes now a h u first n)) =
  opt_size (0 <? n) 4 + opt_size (check_due h u) 8 + opt_size (rtt_due a) 4 + opt_size (ts_due a) 8 + opt_size (loss_due a) 4.
Proof.
  unfold option_bytes. rewrite !length_app, !Nat2Z.inj_add, !opt_bytes_length, ?length_app, !le_bytes_length.
  change (Z.of_nat 4) with 4. change (Z.of_nat (4 + 4)) with 8. change (Z.of_nat 8) with 8. lia.
Qed.
Lemma zone_bytes_length now a n : Z.of_nat (length (zone_bytes now a n)) = opt_size (zone_due a n) 8.
Proof. unfold zone_bytes. by rewrite opt_bytes_length, length_app, !le_bytes_length. Qed.

Lemma opt_size_range b n : 0 <= n -> 0 <= opt_size b n <= n.
Proof. destruct b; cbn; lia. Qed.

Lemma padding_range ptr base pos hs : 0 <= padding_of ptr base pos hs < 8.
Proof.
  unfold padding_of, u16. destruct (8 =? ptr).
  - change 7 with (2 ^ 3 - 1). rewrite land_mask by lia.
    pose proof (Z.mod_pos_bound (base + (pos - hs)) (2 ^ 3) ltac:(lia)). rewrite Z.mod_small; lia.
  - change 3 with (2 ^ 2 - 1). rewrite land_mask by lia.
    pose proof (Z.mod_pos_bound (u32 (base + (pos - hs))) (2 ^ 2) ltac:(lia)). rewrite Z.mod_small; lia.
Qed.

(** The room a header can need: its largest length, the padding included. *)
Definition MAX_HEADER : Z := 49.

Lemma header_size_bound h u n s :
  CalcHeaderSize h u n s = opt_size (loss_due s) 4 + opt_size (ts_due s) 8 + opt_size (rtt_due s) 4 +
    opt_size (check_due h u) 8 + opt_size (0 <? n) 4 + opt_size (zone_due s n) 8 + 10 /\
  10 <= CalcHeaderSize h u n s <= 42.
Proof.
  assert (Hz : opt_size (0 <? n) 4 + opt_size (zone_due s n) 8 <= 8).
  { unfold zone_due. destruct (Z.ltb_spec 0 n), (Z.eqb_spec 0 n), (kReliableStream <=? tran_stream_type_ s); cbn; lia. }
  pose proof (opt_size_range (loss_due s) 4). pose proof (opt_size_range (ts_due s) 8).
  pose proof (opt_size_range (rtt_due s) 4). pose proof (opt_size_range (check_due h u) 8).
  pose proof (opt_size_range (0 <? n) 4). pose proof (opt_size_range (zone_due s n) 8).
  unfold CalcHeaderSize, CHANGE_ZONE_SIZE, GTP_PACKET_SIZE. rewrite u32_small; lia.
Qed.
Lemma header_size01_bound h u n s :
  CalcHeaderSizeVersion01 h u n s = opt_size (loss_due s) 4 + opt_size (ts_due s) 8 + opt_size (rtt_due s) 4 +
    opt_size (check_due h u) 8 + opt_size (0 <? n) 4 + 10 /\
  10 <= CalcHeaderSizeVersion01 h u n s <= 38.
Proof.
  pose proof (opt_size_range (loss_due s) 4). pose proof (opt_size_range (ts_due s) 8).
  pose proof (opt_size_range (rtt_due s) 4). pose proof (opt_size_range (check_due h u) 8).
  pose proof (opt_size_range (0 <? n) 4).
  unfold CalcHeaderSizeVersion01, GTP_PACKET_SIZE. rewrite u32_small; lia.
Qed.

(** ** The handlers *)
Lemma after_options_keeps a :
  pack_sn_ (after_options a) = pack_sn_ a /\ send_session_stat_ (after_options a) = send_session_stat_ a /\
  qos_ (after_options a) = qos_ a.
Proof. unfold after_options. by destruct (rtt_due a), (ts_due a), (loss_due a). Qed.

Section Handlers.
Context (ptr base now : Z) (m0 : list Z) (pos : Z).

(** The fixed header goes in front of the [hd] written so far. *)
Lemma push_header_spec a0 a ver zone stype fs h u n hd s :
  image m0 pos hd s -> fr_sess s = a -> 10 + Z.of_nat (length hd) <= pos -> Z.of_nat (length hd) < 64 ->
  let hs := 10 + Z.of_nat (length hd) in
  let hdr := frame_header a0 a ver zone stype hs fs h u n in
  wp (push_header a0 ver zone stype fs h u n)
    (fun r s' => r = (GTP_OK, pos - hs, pack_size hdr) /\ image m0 pos (encode_header hdr ++ hd) s' /\
       fr_sess s' = put_pack_sn_ (u32 (pack_sn_ a + 1)) a) s.
Proof.
  intros Hi Ha Hroom H64 hs hdr. unfold push_header. apply wp_bind, wp_get.
  assert (u32 (hdr_size s + GTP_PACKET_SIZE) = hs) as -> by (rewrite (im_size _ _ _ _ Hi), u32_small; unfold GTP_PACKET_SIZE; lia).
  rewrite Ha. fold hdr. apply wp_bind. eapply wp_mono.
  { apply (image_push m0 pos hd); rewrite ?encode_header_length; [done|lia..]. }
  intros _ s1 [Hi1 Hs1]. apply wp_bind, wp_mod, wp_bind, wp_get, wp_ret.
  assert (Hs2 : fr_sess s1 = a) by congruence. split_and!.
  - f_equal. f_equal. cbn [on_sess move_pos]. rewrite (im_pos _ _ _ _ Hi1), length_app, encode_header_length. unfold hs. lia.
  - by apply image_sess.
  - cbn. by rewrite Hs2.
Qed.

(** What both handlers write: the padding depends on the handler. *)
Definition packet_image (a : SendSess) (ver : Z) (zone : bool) (stype fs h u first n pad : Z) : list Z :=
  let tl := option_bytes now a h u first n ++ replicate (Z.to_nat pad) 0 ++
            (if zone then le_bytes 4 (sort_sn_ a) ++ le_bytes 4 (u32 (Z.land now 0xFFFFFFFF)) else []) in
  encode_header (frame_header a a ver (ind zone) stype (10 + Z.of_nat (length tl)) fs h u n) ++ tl.

Lemma packet_image_length a ver (zone : bool) stype fs h u first n pad : 0 <= pad ->
  Z.of_nat (length (packet_image a ver zone stype fs h u first n pad)) =
  opt_size (loss_due a) 4 + opt_size (ts_due a) 8 + opt_size (rtt_due a) 4 + opt_size (check_due h u) 8 +
  opt_size (0 <? n) 4 + opt_size zone 8 + 10 + pad.
Proof.
  intros Hp. unfold packet_image. cbv zeta. rewrite !length_app, encode_header_length, length_replicate.
  pose proof (option_bytes_length now a h u first n). destruct zone; cbn [opt_size] in *; rewrite ?length_app, ?le_bytes_length; cbn [length]; lia.
Qed.

(** The options, the padding and the header, behind a zone written before. *)
Lemma push_rest_spec a0 a ver zone stype fs h u first n pad s :
  let zb := if zone : bool then le_bytes 4 (sort_sn_ a0) ++ le_bytes 4 (u32 (Z.land now 0xFFFFFFFF)) else [] in
  a = (if zone then put_sort_sn_ (u32 (sort_sn_ a0 + 1)) else id) a0 ->
  image m0 pos zb s -> fr_sess s = a -> 0 <= pad < 8 -> MAX_HEADER <= pos -> (zone = true -> (0 <? n) = false) ->
  let img := packet_image a0 ver zone stype fs h u first n pad in
  wp (_ ← push_fields now pad h u first n; push_header a0 ver (ind zone) stype fs h u n)
    (fun r s' => r = (GTP_OK, pos - Z.of_nat (length img), u16 (Z.of_nat (length img) + fs) mod 8192) /\
       image m0 pos img s' /\ fr_sess s' = sess_after zone a0) s.
Proof.
  intros zb Ha Hi Hs Hpad Hpos Hzn img.
  assert (Hopt : option_bytes now a h u first n = option_bytes now a0 h u first n) by (rewrite Ha; by destruct zone).
  set (tl := option_bytes now a0 h u first n ++ replicate (Z.to_nat pad) 0 ++ zb).
  assert (Hlen : 10 + Z.of_nat (length tl) = Z.of_nat (length img)).
  { unfold img, packet_image. rewrite (length_app (encode_header _)), encode_header_length. fold zb. fold tl. lia. }
  assert (Hmax : Z.of_nat (length img) <= 49).
  { unfold img. rewrite packet_image_length by lia. destruct zone; [rewrite Hzn by done|];
      destruct (loss_due a0), (ts_due a0), (rtt_due a0), (check_due h u), (0 <? n); cbn; lia. }
  unfold MAX_HEADER in Hpos. apply wp_bind. eapply wp_mono.
  { apply (writes_fields m0 pos now a pad h u first n zb); [done|done|..]; rewrite Hopt, <- app_assoc; fold tl; lia. }
  rewrite Hopt. intros _ s1 (Hi1 & Hs1 & _). rewrite <- app_assoc in Hi1. fold tl in Hi1.
  eapply wp_mono.
  { apply (push_header_spec a0 (after_options a) ver (ind zone) stype fs h u n tl); [done|done|lia|lia]. }
  rewrite Hlen. intros r s2 (-> & Hi2 & Hs2).
  assert (Hh : frame_header a0 (after_options a) ver (ind zone) stype (Z.of_nat (length img)) fs h u n =
               frame_header a0 a0 ver (ind zone) stype (Z.of_nat (length img)) fs h u n).
  { destruct (after_options_keeps a) as (E1 & E2 & E3). unfold frame_header. rewrite E1, E2, E3, Ha. by destruct zone. }
  split_and!; [done| |].
  - rewrite Hh, <- Hlen in Hi2. exact Hi2.
  - rewrite Hs2. destruct (after_options_keeps a) as (-> & _ & _). unfold sess_after. rewrite <- Ha.
    f_equal. rewrite Ha. by destruct zone.
Qed.

(** [FramePrepHandlerWithSelfVer] and [FramePrepHandlerWith01]. *)
Lemma self_ver_spec s h u first n fs :
  fr_mem s = m0 -> MAX_HEADER <= pos <= Z.of_nat (length m0) ->
  let a := fr_sess s in
  let img := packet_image a 2 (zone_due a n) (ind (kReliableStream <=? tran_stream_type_ a)) fs h u first n
               (padding_of ptr base pos (CalcHeaderSize h u n a)) in
  wp (FramePrepHandlerWithSelfVer ptr base now pos fs h u first n)
    (fun r s' => r = (GTP_OK, pos - Z.of_nat (length img), u16 (Z.of_nat (length img) + fs) mod 8192) /\
       image m0 pos img s' /\ fr_sess s' = sess_after (zone_due a n) a) s.
Proof.
  intros Hm Hpos a img. unfold FramePrepHandlerWithSelfVer, MAX_HEADER in *. apply wp_bind, wp_get. fold a.
  pose proof (padding_range ptr base pos (CalcHeaderSize h u n a)) as Hpad.
  assert (Hzn : zone_due a n = true -> (0 <? n) = false).
  { unfold zone_due. destruct (Z.ltb_spec 0 n), (Z.eqb_spec 0 n); try done; [lia|]. by rewrite andb_false_r. }
  apply wp_bind, wp_mod, wp_bind. eapply wp_mono.
  { apply (writes_when m0 pos (zone_due a n) (push_zone now) (le_bytes 4 (sort_sn_ a) ++ le_bytes 4 (u32 (Z.land now 0xFFFFFFFF)))
      (put_sort_sn_ (u32 (sort_sn_ a + 1))) a (writes_zone m0 pos now a) []); [apply image_start; [done|lia]|done|..];
      destruct (zone_due a n); cbn; lia. }
  intros _ s1 (Hi & Hs & _). rewrite app_nil_r in Hi.
  apply (push_rest_spec a (fr_sess s1)); [|exact Hi|done|done|unfold MAX_HEADER; lia|done].
  rewrite Hs. by destruct (zone_due a n).
Qed.

Lemma ver01_spec s h u first n fs :
  fr_mem s = m0 -> MAX_HEADER <= pos <= Z.of_nat (length m0) ->
  let a := fr_sess s in
  let img := packet_image a 1 false 0 fs h u first n (padding_of ptr base pos (CalcHeaderSizeVersion01 h u n a)) in
  wp (FramePrepHandlerWith01 ptr base now pos fs h u first n)
    (fun r s' => r = (GTP_OK, pos - Z.of_nat (length img), u16 (Z.of_nat (length img) + fs) mod 8192) /\
       image m0 pos img s' /\ fr_sess s' = sess_after false a) s.
Proof.
  intros Hm Hpos a img. unfold FramePrepHandlerWith01, MAX_HEADER in *. apply wp_bind, wp_get. fold a.
  pose proof (padding_range ptr base pos (CalcHeaderSizeVersion01 h u n a)) as Hpad.
  apply wp_bind, wp_mod.
  apply (push_rest_spec a a 1 false); [done|apply image_start; [done|lia]|done|done|unfold MAX_HEADER; lia|done].
Qed.

End Handlers.
End FrameSpec.
