(* ===== verification/FrameRun.v ===== *)
(** * Framing and reading are inverse

    The theorems about the handlers of Frame.v: what the receiver reads from a
    packet is what the sender put in, for new frames and for retransmissions. *)
From Stdlib Require Import Floats.SpecFloat.
From S2P Require Import Prelude PacketHeader FloatWire Frame FrameSpec.
Export FrameSpec.

Module FrameRun.

(** The members of a session are within their widths. *)
Record sess_ok (s : SendSess) : Prop := {
  so_loss : valid_binary 24 128 (send_down_loss_ s) = true;
  so_active : 0 <= last_active_ts_us_ s < 2 ^ 64;
  so_rtt : 0 <= rtt_us_ s < 2 ^ 32;
  so_sort : 0 <= sort_sn_ s < 2 ^ 32;
  so_sn : 0 <= pack_sn_ s < 2 ^ 32
}.

Lemma mem_load_mid n pre x post : length x = n -> mem_load n (pre ++ x ++ post) (length pre) = x.
Proof. intros Hx. rewrite mem_load_app_r, Nat.sub_diag by lia. by apply mem_load_app_l. Qed.
Lemma load_at_mid n pre z post off : off = Z.of_nat (length pre) -> 0 <= z < 256 ^ Z.of_nat n ->
  load_at n (pre ++ le_bytes n z ++ post) off = z.
Proof.
  intros -> Hz. unfold load_at. rewrite Nat2Z.id, mem_load_mid by apply le_bytes_length.
  by rewrite le_val_bytes, Z.mod_small.
Qed.

Lemma ind_flag b : (GTP_YES =? ind b) = b.
Proof. by destruct b. Qed.
Lemma ind_range b : 0 <= ind b < 2 ^ 1.
Proof. destruct b; cbn; lia. Qed.
Lemma land7 n : 0 <= n <= 7 -> Z.land n 7 = n.
Proof. intros. change 7 with (2 ^ 3 - 1). rewrite land_mask by lia. apply Z.mod_small. lia. Qed.

(** The receiver reads from [m] the fields that the session [a] sends, the hash
    and the user id, and recognises the packet by its first number. *)
Definition reads (now : Z) (a : SendSess) (ver h u first n : Z) (m : list Z) : Prop :=
  let hdr := parse_header m in
  goodtp_ver hdr = ver /\ pack_type hdr = kGtpDataPackType /\ pack_sn hdr = pack_sn_ a /\ repeat_counter hdr = n /\
  check_of m = (if check_due h u then Some (h, u) else None) /\
  rtt_of m = (if rtt_due a then Some (rtt_us_ a) else None) /\
  ts_of m = (if ts_due a then Some (if 0 =? n then last_active_ts_us_ a else now) else None) /\
  loss_of m = (if loss_due a then Some (send_down_loss_ a) else None) /\
  first_sn_of 0 m = (if 0 <? n then first else pack_sn_ a).

Section Packet.
Context (now : Z) (a : SendSess) (ver : Z) (zone : bool) (stype fs h u first n pad : Z) (rest : list Z).
Context (Hok : sess_ok a) (Hver : 1 <= ver <= 2) (Hstype : 0 <= stype < 2) (Hh : 0 <= h < 2 ^ 32) (Hu : 0 <= u < 2 ^ 32)
  (Hfirst : 0 <= first < 2 ^ 32) (Hn : 0 <= n <= 7) (Hpad : 0 <= pad < 8) (Hnow : 0 <= now < 2 ^ 64)
  (Hzone : zone = true -> n = 0).

Local Abbreviation img := (packet_image now a ver zone stype fs h u first n pad).
Local Abbreviation hs := (Z.of_nat (length img)).
Local Abbreviation hdr := (frame_header a a ver (ind zone) stype hs fs h u n).
Local Abbreviation pk := (img ++ rest).

Lemma img_bound : 10 <= hs <= MAX_HEADER.
Proof.
  rewrite packet_image_length by lia. unfold MAX_HEADER.
  assert (opt_size (0 <? n) 4 + opt_size zone 8 <= 8).
  { destruct zone; [rewrite Hzone by done; cbn; lia|]. destruct (0 <? n); cbn; lia. }
  pose proof (opt_size_range (loss_due a) 4). pose proof (opt_size_range (ts_due a) 8).
  pose proof (opt_size_range (rtt_due a) 4). pose proof (opt_size_range (check_due h u) 8).
  pose proof (opt_size_range (0 <? n) 4). pose proof (opt_size_range zone 8). lia.
Qed.

(** The tail of the image behind the fixed header. *)
Definition tail_bytes : list Z :=
  option_bytes now a h u first n ++ replicate (Z.to_nat pad) 0 ++
  (if zone then le_bytes 4 (sort_sn_ a) ++ le_bytes 4 (u32 (Z.land now 0xFFFFFFFF)) else []).

Lemma img_split : img = encode_header hdr ++ tail_bytes.
Proof.
  assert (E : hs = 10 + Z.of_nat (length tail_bytes)).
  { unfold packet_image. cbv zeta. fold tail_bytes. rewrite length_app, encode_header_length. lia. }
  rewrite E. reflexivity.
Qed.

Lemma hdr_ok : header_ok hdr.
Proof.
  pose proof img_bound as Hb. unfold MAX_HEADER in Hb. destruct Hok as [_ _ _ _ Hsn].
  pose proof (Z.mod_pos_bound (u16 (hs + fs)) 8192 ltac:(lia)). pose proof (Z.mod_pos_bound (u8 hs) 64 ltac:(lia)).
  pose proof (Z.mod_pos_bound (qos_ a) 64 ltac:(lia)).
  unfold header_ok, frame_header.
  cbn [goodtp_ver header_offset cache_us_flag has_loss_flag pack_type pack_size pack_sn has_check_flag has_ts_flag
    has_rtt_flag init_flag repeat_counter is_qos_flg share_zone has_chg_zone stream_type]. rewrite land7, (u8_small ver) by lia.
  pose proof (ind_range (loss_due a)). pose proof (ind_range (check_due h u)). pose proof (ind_range (ts_due a)).
  pose proof (ind_range (rtt_due a)). pose proof (ind_range zone).
  unfold GTP_NO, GTP_YES, kGtpDataPackType. destruct (kRunning =? send_session_stat_ a); repeat split; lia.
Qed.

Lemma pk_header : parse_header pk = hdr.
Proof.
  pose proof img_split as E. pose proof hdr_ok as Hhdr. revert E Hhdr. generalize hdr. intros x -> Hx.
  rewrite <- app_assoc. by apply parse_header_app.
Qed.

Lemma hdr_fields :
  header_offset hdr = hs /\ repeat_counter hdr = n /\ (0 =? n) = negb (0 <? n) /\ goodtp_ver hdr = ver.
Proof.
  pose proof img_bound as Hb. unfold MAX_HEADER in Hb. unfold frame_header. cbn [header_offset repeat_counter goodtp_ver].
  rewrite land7, (u8_small ver), (u8_small hs), Z.mod_small by lia. split_and!; try done.
  destruct (Z.eqb_spec 0 n), (Z.ltb_spec 0 n); try lia; done.
Qed.

(** The optional fields and the frame, at the places the flags announce. *)
Lemma pk_offsets :
  off_check hdr = 10 + opt_size (0 <? n) 4 /\ off_rtt hdr = off_check hdr + opt_size (check_due h u) 8 /\
  off_ts hdr = off_rtt hdr + opt_size (rtt_due a) 4 /\ off_loss hdr = off_ts hdr + opt_size (ts_due a) 8.
Proof.
  destruct hdr_fields as (_ & Hr & Hn0 & _). unfold off_loss, off_ts, off_rtt, off_check, GTP_PACKET_SIZE. rewrite Hr.
  unfold frame_header. cbn [has_check_flag has_rtt_flag has_ts_flag]. rewrite !ind_flag, Hn0, negb_involutive. done.
Qed.

Local Abbreviation b_first := (opt_bytes (0 <? n) (le_bytes 4 first)).
Local Abbreviation b_check := (opt_bytes (check_due h u) (le_bytes 4 h ++ le_bytes 4 u)).
Local Abbreviation b_rtt := (opt_bytes (rtt_due a) (le_bytes 4 (rtt_us_ a))).
Local Abbreviation b_ts := (opt_bytes (ts_due a) (le_bytes 8 (if 0 =? n then last_active_ts_us_ a else now))).
Local Abbreviation b_loss := (opt_bytes (loss_due a) (le_bytes 4 (f32_bits (send_down_loss_ a)))).

(** A field of the packet, from the bytes in front of it. *)
Lemma pk_field k z pre post off :
  pk = pre ++ le_bytes k z ++ post -> off = Z.of_nat (length pre) -> 0 <= z < 256 ^ Z.of_nat k -> load_at k pk off = z.
Proof. intros -> Ho Hz. by apply load_at_mid. Qed.

Lemma pk_split : exists post, pk = encode_header hdr ++ b_first ++ b_check ++ b_rtt ++ b_ts ++ b_loss ++ post.
Proof.
  exists ((replicate (Z.to_nat pad) 0 ++
    (if zone then le_bytes 4 (sort_sn_ a) ++ le_bytes 4 (u32 (Z.land now 0xFFFFFFFF)) else [])) ++ rest).
  pose proof img_split as E. revert E. generalize hdr. intros x ->. unfold tail_bytes, option_bytes. by rewrite <- !app_assoc.
Qed.

Ltac field_len := rewrite ?length_app, ?encode_header_length, ?Nat2Z.inj_add, ?opt_bytes_length, ?length_app, ?le_bytes_length;
  change (Z.of_nat 4) with 4; change (Z.of_nat (4 + 4)) with 8; change (Z.of_nat 8) with 8; change (Z.of_nat 10) with 10; lia.

Lemma pk_first : (0 <? n) = true -> load_at 4 pk GTP_PACKET_SIZE = first.
Proof.
  intros Hb. destruct pk_split as (post & E). rewrite Hb in E.
  eapply pk_field; [exact E| |change (256 ^ Z.of_nat 4) with (2 ^ 32); lia]. by rewrite encode_header_length.
Qed.
Lemma pk_check : check_due h u = true ->
  load_at 4 pk (off_check hdr) = h /\ load_at 4 pk (off_check hdr + 4) = u.
Proof.
  intros Hb. destruct pk_split as (post & E), pk_offsets as (-> & _). rewrite Hb in E. cbn [opt_bytes] in E. split.
  - eapply (pk_field 4 h (encode_header hdr ++ b_first) (le_bytes 4 u ++ b_rtt ++ b_ts ++ b_loss ++ post)); [|field_len|lia].
    by rewrite E, <- !app_assoc.
  - eapply (pk_field 4 u (encode_header hdr ++ b_first ++ le_bytes 4 h) (b_rtt ++ b_ts ++ b_loss ++ post)); [|field_len|lia].
    by rewrite E, <- !app_assoc.
Qed.
Lemma pk_rtt : rtt_due a = true -> load_at 4 pk (off_rtt hdr) = rtt_us_ a.
Proof.
  intros Hb. destruct pk_split as (post & E), pk_offsets as (H1 & H2 & _). rewrite Hb in E. cbn [opt_bytes] in E.
  eapply (pk_field 4 (rtt_us_ a) (encode_header hdr ++ b_first ++ b_check) (b_ts ++ b_loss ++ post));
    [by rewrite E, <- !app_assoc|rewrite H2, H1; field_len|destruct Hok; lia].
Qed.
Lemma pk_ts : ts_due a = true -> load_at 8 pk (off_ts hdr) = if 0 =? n then last_active_ts_us_ a else now.
Proof.
  intros Hb. destruct pk_split as (post & E), pk_offsets as (H1 & H2 & H3 & _). rewrite Hb in E. cbn [opt_bytes] in E.
  eapply (pk_field 8 _ (encode_header hdr ++ b_first ++ b_check ++ b_rtt) (b_loss ++ post));
    [by rewrite E, <- !app_assoc|rewrite H3, H2, H1; field_len|destruct Hok, (0 =? n); lia].
Qed.
Lemma pk_loss : loss_due a = true -> load_at 4 pk (off_loss hdr) = f32_bits (send_down_loss_ a).
Proof.
  intros Hb. destruct pk_split as (post & E), pk_offsets as (H1 & H2 & H3 & H4). rewrite Hb in E. cbn [opt_bytes] in E.
  eapply (pk_field 4 _ (encode_header hdr ++ b_first ++ b_check ++ b_rtt ++ b_ts) post);
    [by rewrite E, <- !app_assoc|rewrite H4, H3, H2, H1; field_len|apply f32_bits_range, Hok].
Qed.

(** What the receiver reads from the packet. *)
Lemma pk_reads : reads now a ver h u first n pk.
Proof.
  pose proof pk_header as Eh. destruct hdr_fields as (_ & Hr & Hn0 & Hv).
  unfold reads, check_of, rtt_of, ts_of, loss_of, first_sn_of. rewrite Eh, Hr, Hv.
  replace (pack_sn hdr) with (pack_sn_ a) by done. split_and!; try done.
  - replace (has_check_flag hdr) with (ind (check_due h u)) by done. rewrite ind_flag.
    destruct (check_due h u) eqn:Hb; [|done]. by destruct pk_check as [-> ->].
  - replace (has_rtt_flag hdr) with (ind (rtt_due a)) by done. rewrite ind_flag.
    destruct (rtt_due a) eqn:Hb; [|done]. by rewrite pk_rtt.
  - replace (has_ts_flag hdr) with (ind (ts_due a)) by done. rewrite ind_flag.
    destruct (ts_due a) eqn:Hb; [|done]. by rewrite pk_ts.
  - replace (has_loss_flag hdr) with (ind (loss_due a)) by done. rewrite ind_flag.
    destruct (loss_due a) eqn:Hb; [|done]. rewrite pk_loss by done. by rewrite f32_wire by apply Hok.
  - change (0 <? kReliableStream) with true. cbn [orb]. destruct (Z.eqb_spec 0 ver); [lia|]. rewrite Hn0.
    destruct (0 <? n) eqn:Hb; cbn [negb]; [|done]. by rewrite pk_first.
Qed.

(** The size field, and the frame behind the header. *)
Lemma pk_size : hs + fs < 8192 -> 0 <= fs -> pack_size hdr = hs + fs.
Proof.
  intros Hlt Hfs. pose proof img_bound as Hb. unfold frame_header. cbn [pack_size]. rewrite u16_small by lia. by rewrite Z.mod_small by lia.
Qed.
Lemma pk_frame : Z.of_nat (length rest) = fs -> hs + fs < 8192 -> frame_of pk (hs + fs) = rest.
Proof.
  intros Hl Hlt. pose proof img_bound as Hb. unfold frame_of. rewrite pk_header. destruct hdr_fields as (-> & _).
  rewrite u32_small by lia. replace (hs + fs - hs) with fs by lia. rewrite Nat2Z.id, mem_load_app_r, Nat.sub_diag by lia.
  unfold mem_load. rewrite drop_0, <- Hl, Nat2Z.id, firstn_all. apply pad_to_id. done.
Qed.
Lemma pk_accepted : ver = 2 -> 0 <= fs -> hs + fs < 8192 -> packet_accepted pk (hs + fs).
Proof.
  intros Hv2 Hfs Hlt. pose proof img_bound as Hb. unfold packet_accepted. rewrite pk_header.
  destruct hdr_fields as (-> & Hr & Hn0 & ->). rewrite pk_size by done.
  replace (pack_type hdr) with 1 by done. unfold GtpPackTypeButt, GTP_VERSION, GTP_PACKET_SIZE in *. split_and!; try lia.
  unfold CalcHeaderOffset. rewrite Hr.
  replace (has_loss_flag hdr) with (ind (loss_due a)) by done. replace (has_check_flag hdr) with (ind (check_due h u)) by done.
  replace (has_ts_flag hdr) with (ind (ts_due a)) by done. replace (has_rtt_flag hdr) with (ind (rtt_due a)) by done.
  rewrite (Z.eqb_sym n 0), Hn0, negb_involutive. rewrite packet_image_length by lia. unfold GTP_PACKET_SIZE.
  pose proof (opt_size_range zone 8). rewrite !(Z.eqb_sym (ind _) GTP_YES), !ind_flag. unfold opt_size in *. lia.
Qed.

End Packet.
(** ** The handler *)
Section Handler.
Context (ptr base now sys_id : Z).

Definition gtp_peer (a : SendSess) : Prop := peer_version_ a = 0xFF \/ peer_version_ a = 1 \/ peer_version_ a = 2.
Definition wire_ver (a : SendSess) : Z := if peer_version_ a =? 1 then 1 else 2.

Lemma aligned_pad pos hsize : ptr = 8 -> (base + (pos - (hsize + padding_of ptr base pos hsize))) mod 8 = 0.
Proof.
  intros ->. unfold padding_of. cbn [Z.eqb Pos.eqb]. change 7 with (2 ^ 3 - 1). rewrite land_mask by lia. change (2 ^ 3) with 8.
  set (x := base + (pos - hsize)). pose proof (Z.mod_pos_bound x 8 ltac:(lia)). rewrite u16_small by lia.
  replace (base + (pos - (hsize + x mod 8))) with (x - x mod 8) by (unfold x; lia).
  rewrite Zminus_mod, Z.mod_mod, Z.sub_diag by lia. done.
Qed.

Lemma prep_image st pos fs h u first n :
  gtp_peer (fr_sess st) -> MAX_HEADER <= pos <= Z.of_nat (length (fr_mem st)) -> 0 <= n ->
  let a := fr_sess st in
  exists zone stype pad st',
    let img := packet_image now a (wire_ver a) zone stype fs (real_hash a h) (real_user_id a u) first n pad in
    0 <= stype < 2 /\ 0 <= pad < 8 /\ (zone = true -> n = 0) /\ (wire_ver a = 2 -> zone = zone_due a n) /\
    FramePrepHandler ptr base now sys_id pos fs h u first n st =
      Some ((GTP_OK, pos - Z.of_nat (length img), u16 (Z.of_nat (length img) + fs) mod 8192), st') /\
    image (fr_mem st) pos img st' /\ fr_sess st' = sess_after zone a /\
    (ptr = 8 -> (base + (pos - Z.of_nat (length img))) mod 8 = 0).
Proof.
  intros Hp Hpos Hn0 a. set (H := real_hash a h). set (U := real_user_id a u).
  assert (Hrun : forall m, FramePrepHandler ptr base now sys_id pos fs h u first n st = m ->
    m = if peer_version_ a =? 1 then FramePrepHandlerWith01 ptr base now pos fs H U first n st
        else FramePrepHandlerWithSelfVer ptr base now pos fs H U first n st).
  { intros m <-. unfold FramePrepHandler, FramePrepHandlerWithPeerVer, mbind, ST_bind, get_st. fold a. fold H. fold U.
    destruct Hp as [Hv|[Hv|Hv]]; fold a in Hv; rewrite Hv; cbn [Z.eqb Pos.eqb orb GTP_VERSION]; [done| |done].
    fold a. by rewrite Hv. }
  pose proof (Hrun _ eq_refl) as Hr. clear Hrun. unfold wire_ver. fold a. destruct (Z.eqb_spec (peer_version_ a) 1) as [Hv|Hv].
  - destruct (wp_total _ _ _ (ver01_spec ptr base now (fr_mem st) pos st H U first n fs eq_refl Hpos)) as (r & st' & E & -> & Hi & Hs).
    exists false, 0, (padding_of ptr base pos (CalcHeaderSizeVersion01 H U n a)), st'. cbv zeta.
    pose proof (padding_range ptr base pos (CalcHeaderSizeVersion01 H U n a)).
    split_and!; try lia; try done; [by rewrite Hr|]. intros H8. rewrite packet_image_length by lia.
    etransitivity; [|exact (aligned_pad pos (CalcHeaderSizeVersion01 H U n a) H8)].
    destruct (header_size01_bound H U n a) as [E1 _]. apply (f_equal (fun x => x mod 8)). cbn [opt_size]. lia.
  - destruct (wp_total _ _ _ (self_ver_spec ptr base now (fr_mem st) pos st H U first n fs eq_refl Hpos)) as (r & st' & E & -> & Hi & Hs).
    exists (zone_due a n), (ind (kReliableStream <=? tran_stream_type_ a)), (padding_of ptr base pos (CalcHeaderSize H U n a)), st'. cbv zeta.
    pose proof (padding_range ptr base pos (CalcHeaderSize H U n a)). pose proof (ind_range (kReliableStream <=? tran_stream_type_ a)).
    split_and!; try lia; try done; [|by rewrite Hr|].
    + unfold zone_due. intros Hz. apply andb_true_iff in Hz as [_ Hz%Z.eqb_eq]. done.
    + intros H8. rewrite packet_image_length by lia.
      etransitivity; [|exact (aligned_pad pos (CalcHeaderSize H U n a) H8)].
      destruct (header_size_bound H U n a) as [E1 _]. apply (f_equal (fun x => x mod 8)). lia.
Qed.

(** The packet in the buffer, and the bytes outside of the header. *)
Lemma image_packet m0 pos img st fs :
  image m0 pos img st -> 0 <= fs -> pos + fs <= Z.of_nat (length m0) -> 0 <= pos ->
  let p := pos - Z.of_nat (length img) in
  mem_load (Z.to_nat (Z.of_nat (length img) + fs)) (fr_mem st) (Z.to_nat p) = img ++ mem_load (Z.to_nat fs) m0 (Z.to_nat pos) /\
  (forall i, (i < Z.to_nat p \/ Z.to_nat pos <= i)%nat -> fr_mem st !! i = m0 !! i).
Proof.
  intros [Hm _ _ Hr _] Hfs Hb Hp0 p. assert (Hp : Z.to_nat p = (Z.to_nat pos - length img)%nat) by (unfold p; lia).
  rewrite Hm, Hp. split.
  - unfold mem_load. rewrite drop_app_length' by (rewrite length_take; lia).
    rewrite take_app_ge by lia. replace (Z.to_nat (Z.of_nat (length img) + fs) - length img)%nat with (Z.to_nat fs) by lia.
    rewrite !pad_to_id; [done|rewrite ?length_app, ?length_take, ?length_drop; lia..].
  - intros i Hi. destruct (decide (i < Z.to_nat pos - length img)%nat).
    + rewrite lookup_app_l by (rewrite length_take; lia). by apply lookup_take_lt.
    + rewrite lookup_app_r, length_take by (rewrite length_take; lia).
      rewrite lookup_app_r by lia. rewrite lookup_drop. f_equal. lia.
Qed.

End Handler.
Lemma real_range st h u : 0 <= h < 2 ^ 32 -> 0 <= u < 2 ^ 32 ->
  0 <= real_hash st h < 2 ^ 32 /\ 0 <= real_user_id st u < 2 ^ 32.
Proof.
  intros Hh Hu. unfold real_hash, real_user_id. pose proof (u32_range (Z.shiftr (stream_key_ st) 32)).
  pose proof (u32_range (Z.land (stream_key_ st) 0xFFFFFFFF)). destruct (GTP_YES =? enable_key_ st); lia.
Qed.

(** The halves of a stream key put together again. *)
Lemma key_halves k : 0 <= k < 2 ^ 64 ->
  Z.lor (Z.shiftl (u32 (Z.shiftr k 32)) 32) (u32 (Z.land k 0xFFFFFFFF)) = k.
Proof.
  intros Hk. change 0xFFFFFFFF with (2 ^ 32 - 1). rewrite land_mask by lia.
  assert (Hlo : u32 (k mod 2 ^ 32) = k mod 2 ^ 32) by (unfold u32; apply Z.mod_mod; lia). rewrite Hlo.
  assert (Hhi : u32 (Z.shiftr k 32) = k / 2 ^ 32).
  { rewrite Z.shiftr_div_pow2 by lia. apply u32_small. split; [apply Z.div_pos; lia|apply Z.div_lt_upper_bound; lia]. }
  rewrite Hhi. apply Z.bits_inj'. intros i Hi. rewrite Z.lor_spec, Z.shiftl_spec by lia. destruct (Z.ltb_spec i 32).
  - rewrite Z.mod_pow2_bits_low, Z.testbit_neg_r by lia. done.
  - rewrite Z.mod_pow2_bits_high, orb_false_r, Z.div_pow2_bits by lia. f_equal. lia.
Qed.

(** A session known by a key has something to put into the check field: the
    halves of the key. *)
Lemma keyed_check a h u : 0 <= stream_key_ a < 2 ^ 64 -> stream_key_ a <> 0 -> enable_key_ a = GTP_YES ->
  check_due (real_hash a h) (real_user_id a u) = true /\ Z.lor (Z.shiftl (real_hash a h) 32) (real_user_id a u) = stream_key_ a.
Proof.
  intros Hk Hk0 He. unfold real_hash, real_user_id. rewrite He, Z.eqb_refl. pose proof (key_halves _ Hk) as Hkey. split; [|done].
  unfold check_due. destruct (Z.eqb_spec 0 (u32 (Z.land (stream_key_ a) 0xFFFFFFFF))) as [E1|]; [|done].
  destruct (Z.eqb_spec 0 (u32 (Z.shiftr (stream_key_ a) 32))) as [E2|]; [|done]. rewrite <- E1, <- E2 in Hkey. by rewrite <- Hkey in Hk0.
Qed.
(** It shows the key to the receiver. *)
Lemma reads_halves now a ver h u first n m :
  0 <= stream_key_ a < 2 ^ 64 -> stream_key_ a <> 0 -> enable_key_ a = GTP_YES ->
  reads now a ver (real_hash a h) (real_user_id a u) first n m ->
  has_check_flag (parse_header m) = GTP_YES /\ pack_type (parse_header m) = kGtpDataPackType /\
  Z.lor (Z.shiftl (load_at 4 m (off_check (parse_header m))) 32) (load_at 4 m (off_check (parse_header m) + 4)) = stream_key_ a.
Proof.
  intros Hk Hk0 He (_ & Ht & _ & _ & Hc & _). destruct (keyed_check a h u Hk Hk0 He) as [Hdue Hkey]. rewrite Hdue in Hc. unfold check_of in Hc.
  destruct (Z.eqb_spec GTP_YES (has_check_flag (parse_header m))) as [Hf|]; [|done]. injection Hc as H1 H2. by rewrite H1, H2.
Qed.
Lemma reads_key now sys_id a h u first n m size :
  0 <= size -> 0 <= stream_key_ a < 2 ^ 64 -> stream_key_ a <> 0 -> enable_key_ a = GTP_YES -> bytes_ok m ->
  packet_accepted m size -> reads now a 2 (real_hash a h) (real_user_id a u) first n m ->
  GtpCheckPacketInvalid sys_id (Some m) size true = (GTP_OK, Some (stream_key_ a)).
Proof.
  intros Hs Hk Hk0 He Hm Hacc Hr. destruct (reads_halves _ _ _ _ _ _ _ _ Hk Hk0 He Hr) as (Hf & Ht & Hkey).
  destruct (GtpCheckPacketInvalid_key sys_id m size Hm Hacc) as [_ ->].
  rewrite Ht, Hf. cbn [Z.eqb Pos.eqb kGtpDataPackType kGtpFecPackType GTP_YES]. do 2 f_equal.
  rewrite <- Hkey. unfold load_at, off_check, load32, opt_size. by rewrite (Z.eqb_sym (repeat_counter _) 0).
Qed.

Lemma opt_bytes_ok b l : bytes_ok l -> bytes_ok (opt_bytes b l).
Proof. by destruct b; [|constructor]. Qed.
Lemma packet_bytes_ok now a ver zone stype fs h u first n pad rest : bytes_ok rest ->
  bytes_ok (packet_image now a ver zone stype fs h u first n pad ++ rest).
Proof.
  intros Hr. assert (Hb : forall k z, bytes_ok (le_bytes k z)) by apply le_bytes_ok. unfold bytes_ok in *.
  unfold packet_image, option_bytes, encode_header. cbv zeta. rewrite !Forall_app. split_and!; try done; try apply Hb.
  1-5: apply opt_bytes_ok; unfold bytes_ok; rewrite ?Forall_app; try split; apply Hb.
  - apply Forall_replicate. unfold byte_ok. lia.
  - destruct zone; [|constructor]. apply Forall_app. split; apply Hb.
Qed.

(** The packet of size [size] at position [p] of a buffer. *)
Definition pack_at (st : FrSt) (p size : Z) : list Z := mem_load (Z.to_nat size) (fr_mem st) (Z.to_nat p).

(** ** The theorems *)
Section Theorems.
Context (ptr base now sys_id : Z) (st : FrSt) (pos fs h u first n : Z).
Local Abbreviation a := (fr_sess st).
Local Abbreviation H := (real_hash a h).
Local Abbreviation U := (real_user_id a u).
Context (Hok : sess_ok a) (Hpeer : gtp_peer a) (Hnow : 0 <= now < 2 ^ 64) (Hh : 0 <= h < 2 ^ 32) (Hu : 0 <= u < 2 ^ 32)
  (Hfirst : 0 <= first < 2 ^ 32) (Hn : 0 <= n <= 7) (Hpos : MAX_HEADER <= pos) (Hfs : 0 <= fs)
  (Hroom : pos + fs <= Z.of_nat (length (fr_mem st))).

(** What framing leaves behind, for every size of the frame. *)
Lemma prep_result :
  exists zone stype pad st',
    let img := packet_image now a (wire_ver a) zone stype fs H U first n pad in
    let p := pos - Z.of_nat (length img) in
    0 <= stype < 2 /\ 0 <= pad < 8 /\ (zone = true -> n = 0) /\ (wire_ver a = 2 -> zone = zone_due a n) /\
    10 <= Z.of_nat (length img) <= MAX_HEADER /\
    FramePrepHandler ptr base now sys_id pos fs h u first n st =
      Some ((GTP_OK, p, u16 (Z.of_nat (length img) + fs) mod 8192), st') /\
    fr_sess st' = sess_after zone a /\
    (ptr = 8 -> (base + p) mod 8 = 0) /\ length (fr_mem st') = length (fr_mem st) /\
    (forall i, (i < Z.to_nat p \/ Z.to_nat pos <= i)%nat -> fr_mem st' !! i = fr_mem st !! i) /\
    pack_at st' p (Z.of_nat (length img) + fs) = img ++ pack_at st pos fs /\
    drop (Z.to_nat p) (fr_mem st') = img ++ drop (Z.to_nat pos) (fr_mem st).
Proof.
  destruct (prep_image ptr base now sys_id st pos fs h u first n Hpeer ltac:(lia) ltac:(lia))
    as (zone & stype & pad & st' & Hst & Hpad & Hzn & Hz & Hrun & Him & Hs & Hal).
  exists zone, stype, pad, st'. cbv zeta.
  pose proof (img_bound now a (wire_ver a) zone stype fs H U first n pad Hpad Hzn) as Hb.
  destruct (image_packet _ _ _ _ _ Him Hfs ltac:(lia) ltac:(unfold MAX_HEADER in *; lia)) as [Hpk Hrest].
  unfold MAX_HEADER in *. split_and!; try done; try lia; rewrite (im_mem _ _ _ _ Him).
  - rewrite !length_app, length_take, length_drop. lia.
  - apply drop_app_length'. rewrite length_take. lia.
Qed.
End Theorems.

(** C5: Framing and reading are inverse.  For every session whose peer has
    version 1, 2 or none known yet (0xFF), whatever fields it has to send, and
    every frame of up to 8142 bytes behind enough room, [FramePrepHandler]
    returns [GTP_OK], puts a packet in front of the frame, aligned when
    pointers have 8 bytes, and changes no byte in front of the packet nor of
    the frame or behind it.  A receiver recovers the frame, every optional
    field bit for bit, the sequence number and, with stream type 0, the first
    number of a packet repeated up to 7 times (for a reliable stream it does
    not: [reliable_sort_sn_misread]); when the header has version 2, the only
    one the checks know, it accepts the packet and finds the stream key of a
    session that has one. *)
Theorem FramePrepHandler_roundtrip ptr base now sys_id st pos fs h u first n :
  let a := fr_sess st in
  sess_ok a -> gtp_peer a -> bytes_ok (fr_mem st) -> 0 <= now < 2 ^ 64 -> 0 <= h < 2 ^ 32 -> 0 <= u < 2 ^ 32 -> 0 <= first < 2 ^ 32 ->
  0 <= n <= 7 -> MAX_HEADER <= pos -> 0 <= fs <= 8142 -> pos + fs <= Z.of_nat (length (fr_mem st)) ->
  exists p size st',
    FramePrepHandler ptr base now sys_id pos fs h u first n st = Some ((GTP_OK, p, size), st') /\
    pos - MAX_HEADER <= p /\ (ptr = 8 -> (base + p) mod 8 = 0) /\
    (forall i, (i < Z.to_nat p \/ Z.to_nat pos <= i)%nat -> fr_mem st' !! i = fr_mem st !! i) /\
    let m := pack_at st' p size in
    frame_of m size = pack_at st pos fs /\
    reads now a (wire_ver a) (real_hash a h) (real_user_id a u) first n m /\
    (wire_ver a = 2 -> InnerCheckPacketInvalid sys_id m size = GTP_OK) /\
    (wire_ver a = 2 -> enable_key_ a = GTP_YES -> 0 < stream_key_ a < 2 ^ 64 ->
     GtpCheckPacketInvalid sys_id (Some m) size true = (GTP_OK, Some (stream_key_ a))).
Proof.
  intros a Hok Hpeer Hmem Hnow Hh Hu Hfirst Hn Hpos Hfs Hroom.
  destruct (prep_result ptr base now sys_id st pos fs h u first n Hpeer Hn Hpos ltac:(lia) Hroom)
    as (zone & stype & pad & st' & Hst & Hpad & Hzn & _ & Hb & Hrun & _ & Hal & _ & Hrest & Hpk & _). fold a in Hb, Hrun, Hal, Hrest, Hpk.
  destruct (real_range a h u Hh Hu) as [HH HU].
  set (img := packet_image now a (wire_ver a) zone stype fs (real_hash a h) (real_user_id a u) first n pad) in *.
  assert (Hver : 1 <= wire_ver a <= 2) by (unfold wire_ver; destruct (peer_version_ a =? 1); lia).
  assert (Hlen : Z.of_nat (length (pack_at st pos fs)) = fs) by (unfold pack_at; rewrite mem_load_length; lia).
  exists (pos - Z.of_nat (length img)), (Z.of_nat (length img) + fs), st'. unfold MAX_HEADER in *.
  rewrite u16_small, Z.mod_small in Hrun by lia. cbv zeta. rewrite Hpk.
  assert (Hsz : Z.of_nat (length img) + fs < 8192) by lia.
  assert (Hbytes : bytes_ok (img ++ pack_at st pos fs)) by (apply packet_bytes_ok, bytes_ok_load, Hmem).
  assert (Hreads : reads now a (wire_ver a) (real_hash a h) (real_user_id a u) first n (img ++ pack_at st pos fs))
    by (by apply pk_reads).
  assert (Hacc : wire_ver a = 2 -> packet_accepted (img ++ pack_at st pos fs) (Z.of_nat (length img) + fs))
    by (intros Hv2; apply pk_accepted; first [done|exact Hsz|lia]).
  split_and!; try done; try lia.
  - apply pk_frame; first [done|exact Hsz|lia].
  - intros Hv2. apply InnerCheck_iff; auto.
  - intros Hv2 He Hk. rewrite Hv2 in Hreads. eapply reads_key; eauto; lia.
Qed.

(** A frame too long for the 13 bits of the size field is cut without an
    error: [FramePrepHandler] returns [GTP_OK] and a packet of the length
    modulo 8192, which is shorter than the frame. *)
Theorem long_frame_cut ptr base now sys_id st pos fs h u first n :
  gtp_peer (fr_sess st) -> 0 <= n <= 7 -> MAX_HEADER <= pos -> 8182 <= fs < 65536 - MAX_HEADER ->
  pos + fs <= Z.of_nat (length (fr_mem st)) ->
  exists p size st',
    FramePrepHandler ptr base now sys_id pos fs h u first n st = Some ((GTP_OK, p, size), st') /\
    size = (pos - p + fs) mod 8192 /\ size < fs.
Proof.
  intros Hpeer Hn Hpos Hfs Hroom. unfold MAX_HEADER in *.
  destruct (prep_result ptr base now sys_id st pos fs h u first n Hpeer Hn Hpos ltac:(lia) Hroom)
    as (zone & stype & pad & st' & _ & _ & _ & _ & Hb & Hrun & _). unfold MAX_HEADER in *.
  set (img := packet_image now _ _ zone stype fs _ _ first n pad) in *.
  exists (pos - Z.of_nat (length img)), ((Z.of_nat (length img) + fs) mod 8192), st'.
  rewrite u16_small in Hrun by lia. split_and!; [done|f_equal; lia|].
  pose proof (Z.mod_pos_bound (Z.of_nat (length img) + fs) 8192 ltac:(lia)).
  destruct (Z.lt_ge_cases fs 8192); [|lia].
  replace (Z.of_nat (length img) + fs) with (Z.of_nat (length img) + fs - 8192 + 1 * 8192) by lia.
  rewrite Z.mod_add, Z.mod_small by lia. lia.
Qed.

(** C39: In a reliable stream the receiver takes the wrong bytes for the number
    of a new packet: the sender writes [sort_sn_] into the last eight bytes of
    the header, and counts them in [header_offset_], so that the receiver,
    which looks behind the header, reads the first four bytes of the
    application's frame.  Two frames that begin alike are repeated packets to
    it, whatever their numbers. *)
Theorem reliable_sort_sn_misread ptr base now sys_id st pos fs h u first stream_type :
  let a := fr_sess st in
  sess_ok a -> gtp_peer a -> wire_ver a = 2 -> kReliableStream <= tran_stream_type_ a -> kReliableStream <= stream_type ->
  0 <= now < 2 ^ 64 -> 0 <= h < 2 ^ 32 -> 0 <= u < 2 ^ 32 -> 0 <= first < 2 ^ 32 ->
  MAX_HEADER <= pos -> 4 <= fs <= 8142 -> pos + fs <= Z.of_nat (length (fr_mem st)) ->
  exists p size st',
    FramePrepHandler ptr base now sys_id pos fs h u first 0 st = Some ((GTP_OK, p, size), st') /\
    let m := pack_at st' p size in
    load_at 4 m (header_offset (parse_header m) - 8) = sort_sn_ a /\
    first_sn_of stream_type m = le_val (mem_load 4 (fr_mem st) (Z.to_nat pos)).
Proof.
  intros a Hok Hpeer Hv Hrel Hrst Hnow Hh Hu Hfirst Hpos Hfs Hroom.
  destruct (prep_result ptr base now sys_id st pos fs h u first 0 Hpeer ltac:(lia) Hpos ltac:(lia) Hroom)
    as (zone & stype & pad & st' & Hst & Hpad & Hzn & Hz & Hb & Hrun & _ & _ & _ & _ & Hpk & _). fold a in Hz, Hb, Hrun, Hpk.
  assert (zone = true) as ->.
  { rewrite (Hz Hv). unfold zone_due. rewrite (proj2 (Z.leb_le _ _) Hrel). done. }
  destruct (real_range a h u Hh Hu) as [HH HU]. rewrite Hv in *.
  set (img := packet_image now a 2 true stype fs (real_hash a h) (real_user_id a u) first 0 pad) in *.
  exists (pos - Z.of_nat (length img)), (Z.of_nat (length img) + fs), st'. unfold MAX_HEADER in *.
  rewrite u16_small, Z.mod_small in Hrun by lia. split; [done|]. cbv zeta. rewrite Hpk.
  assert (Ehdr : parse_header (img ++ pack_at st pos fs) =
    frame_header a a 2 (ind true) stype (Z.of_nat (length img)) fs (real_hash a h) (real_user_id a u) 0)
    by (apply pk_header; done || lia).
  destruct (hdr_fields now a 2 true stype fs (real_hash a h) (real_user_id a u) first 0 pad ltac:(lia) ltac:(lia) Hpad Hzn)
    as (Ho & _ & _ & Hg). fold img in Ho, Hg.
  unfold first_sn_of. rewrite Ehdr, Ho, Hg. split.
  - set (sb := le_bytes 4 (sort_sn_ a)). set (tb := le_bytes 4 (u32 (Z.land now 0xFFFFFFFF))).
    assert (Hi : exists pre, img = pre ++ sb ++ tb).
    { eexists. unfold img, packet_image. cbv zeta. fold sb. fold tb. rewrite !app_assoc. reflexivity. }
    destruct Hi as (pre & Hi). rewrite Hi, <- !app_assoc. unfold sb at 1. apply load_at_mid.
    + rewrite !length_app. unfold sb, tb. rewrite !le_bytes_length. lia.
    + destruct Hok. change (256 ^ Z.of_nat 4) with (2 ^ 32). lia.
  - rewrite (proj2 (Z.ltb_ge _ _) Hrst). cbn [orb Z.ltb Z.compare Pos.compare Pos.compare_cont].
    replace (has_chg_zone _) with 1 by done. cbn [Z.eqb GTP_NO].
    unfold load_at, pack_at. rewrite Nat2Z.id, mem_load_app_r, Nat.sub_diag by lia.
    f_equal. unfold mem_load. rewrite drop_0. unfold pad_to. rewrite take_app_le by (rewrite length_take, length_drop; lia).
    rewrite take_take. by rewrite Nat.min_l by lia.
Qed.

(** ** Instances *)
Definition demo_sess (version stream_type : Z) : SendSess :=
  mkSess (f32_of_Z 5) 0 1000 777 9 41 2 2000000 version stream_type 5 GTP_YES 0x0123456789abcdef.
Lemma demo_sess_ok version stream_type : sess_ok (demo_sess version stream_type).
Proof. split; cbn [demo_sess send_down_loss_ last_active_ts_us_ rtt_us_ sort_sn_ pack_sn_]; [by vm_compute|lia..]. Qed.
Definition demo_buffer (n : nat) : list Z := replicate 64 0 ++ replicate n 7.
Definition demo_fr version stream_type n : FrSt := mkFr (demo_sess version stream_type) (demo_buffer n) 0 0.
Lemma demo_buffer_ok n : bytes_ok (demo_buffer n).
Proof. apply Forall_app. split; apply Forall_replicate; unfold byte_ok; lia. Qed.

Example FramePrepHandler_roundtrip_witness :
  exists p size st', FramePrepHandler 8 16 5000 1 64 10 0 0 40 3 (demo_fr 0xFF 0 10) = Some ((GTP_OK, p, size), st') /\
    frame_of (pack_at st' p size) size = replicate 10 7 /\
    GtpCheckPacketInvalid 1 (Some (pack_at st' p size)) size true = (GTP_OK, Some 0x0123456789abcdef).
Proof.
  destruct (FramePrepHandler_roundtrip 8 16 5000 1 (demo_fr 0xFF 0 10) 64 10 0 0 40 3)
    as (p & size & st' & Hr & _ & _ & _ & Hf & _ & _ & Hk);
    [apply demo_sess_ok|by left|apply demo_buffer_ok|lia|lia|lia|lia|lia|unfold MAX_HEADER; lia|lia|cbn; lia|].
  exists p, size, st'. split; [exact Hr|]. split; [exact Hf|]. apply Hk; [done|done|cbn; lia].
Defined.

Example long_frame_cut_witness :
  exists p size st', FramePrepHandler 8 16 5000 1 64 8190 0 0 0 0 (demo_fr 2 0 (Z.to_nat 8190)) = Some ((GTP_OK, p, size), st') /\
    size = (64 - p + 8190) mod 8192 /\ size < 8190.
Proof.
  apply (long_frame_cut 8 16 5000 1 (demo_fr 2 0 (Z.to_nat 8190)) 64 8190 0 0 0 0);
    [by right; right|lia|unfold MAX_HEADER; lia|unfold MAX_HEADER; lia|].
  unfold demo_fr, demo_buffer. cbn [fr_mem]. rewrite length_app, !length_replicate. lia.
Defined.

Example reliable_sort_sn_misread_witness :
  exists p size st', FramePrepHandler 8 16 5000 1 64 10 0 0 0 0 (demo_fr 2 1 10) = Some ((GTP_OK, p, size), st') /\
    let m := pack_at st' p size in
    load_at 4 m (header_offset (parse_header m) - 8) = 9 /\ first_sn_of 1 m = 0x07070707.
Proof.
  apply (reliable_sort_sn_misread 8 16 5000 1 (demo_fr 2 1 10) 64 10 0 0 0 1);
    [apply demo_sess_ok|by right; right|done|done|done|lia..|unfold MAX_HEADER; lia|lia|cbn; lia].
Defined.

End FrameRun.
