(* ===== verification/FrameSend.v ===== *)
(** * Sending: new frames, retransmissions, control packets

    [GtpFrameSend] (src/src/interface/goodtp_interface.cpp) behind the search
    for the session, and [FramePostHandler], [PackRetransmit],
    [SendSetRecvRttPacket], [SendRttTestResPacket], [AddNetStat] and
    [CalcMaxFramePeriod] of [GtpSession] (src/src/session/goodtp_session.cpp).
    Calls of other components are kept in order in a trace. *)
From Stdlib Require Import Floats.SpecFloat.
From S2P Require Import Prelude PacketHeader FloatWire LinkStat Frame Arq.
Export Frame LinkStat.

Module FrameSend.

(** A call of another component: a packet handed to the network, to the fec
    encoder, to the sending window, to the arq.  A packet in the buffer of the
    session is given by its position. *)
Inductive Call :=
| SendPack (bytes : list Z) (size : Z)
| FecEncode (pack ts_us : Z)
| SnTsEntry (sn ts_us : Z)
| ArqEntry (pack first_pack_sn ts_us : Z).

Record OutSt := mkOut {
  o_fr : FrSt;
  o_stat : LinkerStat;
  alg_top_switch_ : Z;
  rpt_snd_qualit_ : Z;
  net_quality_ : Z;
  last_send_ts_us_ : Z;
  tran_timestamp_ : Z;
  now_max_frame_period_us_ : Z;
  max_frm_prd_updt_flg_ : Z;
  o_calls : list Call
}.
Definition put_fr f s := mkOut f (o_stat s) (alg_top_switch_ s) (rpt_snd_qualit_ s) (net_quality_ s) (last_send_ts_us_ s)
  (tran_timestamp_ s) (now_max_frame_period_us_ s) (max_frm_prd_updt_flg_ s) (o_calls s).
Definition put_stat x s := mkOut (o_fr s) x (alg_top_switch_ s) (rpt_snd_qualit_ s) (net_quality_ s) (last_send_ts_us_ s)
  (tran_timestamp_ s) (now_max_frame_period_us_ s) (max_frm_prd_updt_flg_ s) (o_calls s).
Definition put_times snd tran s := mkOut (o_fr s) (o_stat s) (alg_top_switch_ s) (rpt_snd_qualit_ s) (net_quality_ s) snd
  tran (now_max_frame_period_us_ s) (max_frm_prd_updt_flg_ s) (o_calls s).
Definition put_period p f s := mkOut (o_fr s) (o_stat s) (alg_top_switch_ s) (rpt_snd_qualit_ s) (net_quality_ s)
  (last_send_ts_us_ s) (tran_timestamp_ s) p f (o_calls s).
Definition add_call c s := mkOut (o_fr s) (o_stat s) (alg_top_switch_ s) (rpt_snd_qualit_ s) (net_quality_ s)
  (last_send_ts_us_ s) (tran_timestamp_ s) (now_max_frame_period_us_ s) (max_frm_prd_updt_flg_ s) (o_calls s ++ [c]).
Definition out_sess (s : OutSt) : SendSess := fr_sess (o_fr s).
Definition out_mem (s : OutSt) : list Z := fr_mem (o_fr s).
Local Abbreviation M := (ST OutSt).

(** The framing, on the session of the state. *)
Definition framing {A} (m : ST FrSt A) : M A := fun s =>
  match m (o_fr s) with Some (r, f) => Some (r, put_fr f s) | None => None end.

(** The bytes from a position of the buffer on, and its first word replaced. *)
Definition mem_from (m : list Z) (p : Z) : list Z := drop (Z.to_nat p) m.
Definition convert_word (f : Z -> Z) (p : Z) (s : OutSt) : OutSt :=
  put_fr (mkFr (out_sess s) (mem_store (out_mem s) (Z.to_nat p) (le_bytes 4 (f (load32 (out_mem s) (Z.to_nat p)))))
            (move_pos (o_fr s)) (hdr_size (o_fr s))) s.

(** [GtpHeaderNewToOld], [send_pack_cb_], [GtpHeaderOldToNew]. *)
Definition send_pack (p size : Z) : M unit :=
  _ ← mod_st (fun s => convert_word (fun w => GtpHeaderNewToOld w (peer_version_ (out_sess s))) p s);
  _ ← mod_st (fun s => add_call (SendPack (mem_load (Z.to_nat size) (out_mem s) (Z.to_nat p)) size) s);
  mod_st (convert_word GtpHeaderOldToNew p).

(** [GetStreamQos(kSenderQuality)] *)
Definition STREAM_QOS_WITH_FEC : Z := 63.
Definition TURN_OFF_FEC : Z := 0.
Definition kNetQualityGood : Z := 0.
Definition GetStreamQos_sender (s : OutSt) : Z :=
  if GTP_NO =? rpt_snd_qualit_ s then STREAM_QOS_WITH_FEC
  else if data_pack_pps_ (o_stat s) <? 50 then STREAM_QOS_WITH_FEC
  else if kNetQualityGood =? net_quality_ s then TURN_OFF_FEC
  else STREAM_QOS_WITH_FEC.

Definition GTP_ON : Z := 1.

(** The results of the encoder and of the window are only logged. *)
Definition FramePostHandler (pack pack_size entry_arq_flag first_pack_sn : Z) : M Z :=
  s ← get_st;
  let h := parse_header (mem_from (out_mem s) pack) in
  _ ← mod_st (fun s => put_stat (count_frame (repeat_counter h) (count_net pack_size (o_stat s))) s);
  s ← get_st;
  let ts := last_active_ts_us_ (out_sess s) in
  _ ← when (negb (0 =? peer_version_ (out_sess s)) && (GTP_ON =? alg_top_switch_ s) &&
            (STREAM_QOS_WITH_FEC =? GetStreamQos_sender s)) (mod_st (add_call (FecEncode pack ts)));
  _ ← mod_st (add_call (SnTsEntry (pack_sn h) ts));
  if GTP_NO =? entry_arq_flag then mret GTP_OK
  else
    _ ← when (GTP_ON =? alg_top_switch_ s) (mod_st (add_call (ArqEntry pack first_pack_sn ts)));
    mret GTP_OK.

Definition AddNetStat (pack_size : Z) (s : OutSt) : OutSt := put_stat (count_net pack_size (o_stat s)) s.

Definition CalcMaxFramePeriod (now_ts : Z) (s : OutSt) : OutSt :=
  let period_us := u32 (now_ts - last_send_ts_us_ s) in
  if now_max_frame_period_us_ s <? period_us then put_period period_us GTP_YES s else s.

Definition put_qos_ v s := mkSess (send_down_loss_ s) (measure_rtt_ts_us_ s) (last_active_ts_us_ s) (rtt_us_ s) (sort_sn_ s)
  (pack_sn_ s) (send_session_stat_ s) (test_rtt_period_us_ s) (peer_version_ s) (tran_stream_type_ s) v
  (enable_key_ s) (stream_key_ s).
Definition on_out_sess (f : SendSess -> SendSess) (s : OutSt) : OutSt := put_fr (on_sess f (o_fr s)) s.

Section Send.
(** As for the framing; [ret] is the answer of [send_pack_cb_], which is only
    logged and so does not occur. *)
Variable ptr_size base now_us sys_id : Z.

(** [GtpFrameSend] once the session is found: [cur_ts] is
    [gtp_obj->current_ts_us_], [qos] that of the address. *)
Definition GtpFrameSend (cur_ts frame size qos token token_id : Z) : M Z :=
  _ ← mod_st (CalcMaxFramePeriod cur_ts);
  _ ← mod_st (on_out_sess (put_last_active_ts_us_ cur_ts));
  _ ← mod_st (put_times cur_ts cur_ts);
  _ ← mod_st (on_out_sess (put_qos_ qos));
  s ← get_st;
  let first_sn := pack_sn_ (out_sess s) in
  r ← framing (FramePrepHandler ptr_size base now_us sys_id frame size token token_id 0 0);
  let '(nret, pack, pack_size) := r in
  if negb (GTP_OK =? nret) then mret nret
  else
    _ ← send_pack pack pack_size;
    nret ← FramePostHandler pack pack_size GTP_YES first_sn;
    if negb (GTP_OK =? nret) then mret nret
    else
      _ ← mod_st (fun s => put_stat (count_data pack_size (o_stat s)) s);
      mret GTP_OK.

(** [PackRetransmit] on a node of the arq whose packet lies at position [pack_]
    of the buffer, and the address [a] it is sent to. *)
Definition GtpLimit (mn mx v : Z) : Z := if v <? mn then mn else if mx <? v then mx else v.

Definition PackRetransmit (b : Arq.Body Z) (a : Arq.Addr) (cur_ts_us : Z) : M (Z * Arq.Body Z * Arq.Addr) :=
  let ts := if negb (0 =? cur_ts_us) then cur_ts_us else now_us in
  let a := Arq.mkAddr (Arq.ad_loss a) ts (Arq.ad_stream_type a) (Arq.ad_rest a) in
  _ ← mod_st (on_out_sess (put_last_active_ts_us_ ts));
  s ← get_st;
  let org := mem_from (out_mem s) (Arq.pack_ b) in
  let h := parse_header org in
  let frame := Arq.pack_ b + Arq.payload_offset_ b in
  let frame_size := u32 (Arq.pack_len_ b - Arq.payload_offset_ b) in
  let off := GTP_PACKET_SIZE + opt_size (0 <? repeat_counter h) 4 in
  let hash := if negb (0 =? has_check_flag h) then load_at 4 org off else 0 in
  let user_id := if negb (0 =? has_check_flag h) then load_at 4 org (off + 4) else 0 in
  let counter := u8 (Arq.retran_counter_ b + 1) in
  let node pack len off sn := Arq.mkBody ts pack (Arq.tran_addr_ b) len off counter (Arq.boost_threshold_ b) (Arq.try_agin_flg_ b)
    (Arq.boost_node_flg_ b) (Arq.failed_ack_ b) (Arq.has_boost_node_ b) sn (Arq.first_pack_sn_ b) in
  r ← framing (FramePrepHandler ptr_size base now_us sys_id frame frame_size hash user_id (Arq.first_pack_sn_ b)
                 (GtpLimit 1 7 counter));
  let '(nret, pack, pack_size) := r in
  if negb (GTP_OK =? nret) then
    mret (nret, node (Arq.pack_ b) (Arq.pack_len_ b) (Arq.payload_offset_ b) (Arq.pack_sn_ b), a)
  else
    s ← get_st;
    let h' := parse_header (mem_from (out_mem s) pack) in
    let b' := node pack (u16 pack_size) (header_offset h') (pack_sn h') in
    _ ← send_pack pack pack_size;
    nret ← FramePostHandler pack pack_size GTP_NO (Arq.first_pack_sn_ b);
    mret (nret, b', a).

(** ** Control packets

    They are built in an array on the stack.  [junk] is what its ten first
    bytes held: the code leaves two bits of the header as they were. *)
Definition GtpWriteStreamKey (key : Z) : list Z :=
  le_bytes 4 (u32 (Z.shiftr key 32)) ++ le_bytes 4 (u32 (Z.land key 0xFFFFFFFF)).
Definition control_header (junk : PackHeader) (s : SendSess) (type size has_check has_ts has_rtt init : Z) : PackHeader := {|
  goodtp_ver := CalcRightGtpVer GTP_VERSION (peer_version_ s);
  header_offset := u8 size mod 64;
  cache_us_flag := GTP_NO;
  has_loss_flag := GTP_NO;
  pack_type := type;
  pack_size := u16 size mod 8192;
  pack_sn := 0;
  has_check_flag := has_check;
  has_ts_flag := has_ts;
  has_rtt_flag := has_rtt;
  init_flag := init;
  repeat_counter := 0;
  is_qos_flg := GTP_NO;
  share_zone := 0;
  has_chg_zone := has_chg_zone junk;
  stream_type := stream_type junk
|}.
Definition key_bytes (s : SendSess) : list Z := if GTP_YES =? enable_key_ s then GtpWriteStreamKey (stream_key_ s) else [].

(** The packet, with the header in the layout of the peer. *)
Definition control_packet (junk : PackHeader) (s : SendSess) (type init has_ts has_rtt : Z) (field : list Z) : list Z * Z :=
  let size := GTP_PACKET_SIZE + Z.of_nat (length (key_bytes s)) + Z.of_nat (length field) in
  let h := control_header junk s type size (if GTP_YES =? enable_key_ s then GTP_YES else GTP_NO) has_ts has_rtt init in
  let m := encode_header h ++ key_bytes s ++ field in
  (mem_store m 0 (le_bytes 4 (GtpHeaderNewToOld (load32 m 0) (peer_version_ s))), size).

Definition kGtpSetRecvRttPackType : Z := 4.
Definition kGtpRttTstResPackType : Z := 5.

Definition send_control (p : list Z * Z) : M unit :=
  _ ← mod_st (add_call (SendPack p.1 p.2));
  mod_st (AddNetStat p.2).

Definition SendSetRecvRttPacket (junk : PackHeader) : M unit :=
  s ← get_st;
  let x := out_sess s in
  let p := control_packet junk x kGtpSetRecvRttPackType (if kRunning =? send_session_stat_ x then GTP_NO else GTP_YES)
             GTP_NO GTP_YES (le_bytes 4 (rtt_us_ x)) in
  _ ← mod_st (on_out_sess (put_rtt_us_ 0));
  send_control p.

(** [recv_session_stat] is the state of the receiving half. *)
Definition SendRttTestResPacket (junk : PackHeader) (recv_session_stat ts_us : Z) : M unit :=
  s ← get_st;
  let x := out_sess s in
  send_control (control_packet junk x kGtpRttTstResPackType (if kRunning =? recv_session_stat then GTP_NO else GTP_YES)
                  GTP_YES GTP_NO (le_bytes 8 ts_us)).

End Send.
(** The node that [GtpArq::PacketEntryList] makes of a packet of the session:
    its address is the session's. *)
Definition entry_node (m : list Z) (pack first_pack_sn ts_us boost_threshold : Z) : Arq.Body Z :=
  let h := parse_header (mem_from m pack) in
  Arq.mkBody ts_us pack None (pack_size h) (header_offset h) (repeat_counter h) boost_threshold
    false false false false (pack_sn h) first_pack_sn.

(** One retransmission after the other, each with the session as the rest of the
    program has left it: the return codes. *)
Fixpoint retransmissions (ptr_size base sys_id : Z) (l : list (SendSess * Z * Z)) (b : Arq.Body Z) (a : Arq.Addr) : M (list Z) :=
  match l with
  | [] => mret []
  | (x, now_us, cur_ts_us) :: l' =>
      _ ← mod_st (on_out_sess (fun _ => x));
      r ← PackRetransmit ptr_size base now_us sys_id b a cur_ts_us;
      let '(nret, b', a') := r in
      rs ← retransmissions ptr_size base sys_id l' b' a';
      mret (nret :: rs)
  end.

(** The packets handed to the network. *)
Definition sent_of (l : list Call) : list (list Z * Z) :=
  omap (fun c => match c with SendPack m size => Some (m, size) | _ => None end) l.

End FrameSend.
