(* ===== verification/FrameSendRun.v ===== *)
(** * Retransmissions keep the frame

    Every packet that [PackRetransmit] sends carries the frame of the first
    packet, whatever the session has to send along with it, and is recognised
    by the number of the first packet; new frames enter the other components in
    the order of the code. *)
From Stdlib Require Import Floats.SpecFloat.
From S2P Require Import Prelude PacketHeader FloatWire LinkStat Frame FrameSpec FrameRun Arq FrameSend.
Export FrameRun FrameSend.

Module FrameSendRun.

Lemma mem_store_same n m off : bytes_ok m -> (off + n <= length m)%nat ->
  mem_store m off (le_bytes n (le_val (mem_load n m off))) = m.
Proof.
  intros Hm Hl. rewrite le_bytes_load by done. unfold mem_store. rewrite pad_to_id by lia. rewrite mem_load_length.
  unfold mem_load. rewrite pad_to_id by (rewrite length_take, length_drop; lia).
  replace (drop (off + n) m) with (drop n (drop off m)) by (rewrite drop_drop; f_equal; lia). by rewrite take_drop, take_drop.
Qed.

(** Converting the first word back and forth leaves the packets of the current
    versions as they are. *)
Lemma convert_id f p s : bytes_ok (out_mem s) -> (Z.to_nat p + 4 <= length (out_mem s))%nat ->
  f (load32 (out_mem s) (Z.to_nat p)) = load32 (out_mem s) (Z.to_nat p) -> convert_word f p s = s.
Proof.
  intros Hm Hl Hf. unfold convert_word. rewrite Hf. unfold load32. rewrite mem_store_same by done.
  unfold out_mem, out_sess, put_fr. by destruct s as [[]].
Qed.

Lemma send_pack_spec p size s : bytes_ok (out_mem s) -> (Z.to_nat p + 4 <= length (out_mem s))%nat ->
  peer_version_ (out_sess s) <> 0 -> goodtp_ver (parse_header (mem_from (out_mem s) p)) <> 0 ->
  send_pack p size s = Some (tt, add_call (SendPack (mem_load (Z.to_nat size) (out_mem s) (Z.to_nat p)) size) s).
Proof.
  intros Hm Hl Hp Hv. unfold send_pack, mbind, ST_bind, mod_st.
  rewrite (convert_id _ p s); [|done|done|unfold GtpHeaderNewToOld; by destruct (Z.eqb_spec (peer_version_ (out_sess s)) 0)].
  rewrite (convert_id _ p); [done|done|done|]. unfold GtpHeaderOldToNew.
  assert (E : goodtp_ver (parse_header (mem_from (out_mem s) p)) = get_bits (load32 (out_mem s) (Z.to_nat p)) 0 8).
  { unfold parse_header, parse_words, mem_from. cbn [goodtp_ver]. unfold load32, mem_load. by rewrite drop_0. }
  rewrite E in Hv. change (out_mem (add_call _ s)) with (out_mem s). by destruct (Z.eqb_spec (get_bits (load32 (out_mem s) (Z.to_nat p)) 0 8) 0).
Qed.

(** The node [b] holds a packet whose frame of [fs] bytes lies at [pos]. *)
Record node_ok (pos fs : Z) (b : Arq.Body Z) : Prop := {
  no_pack : 0 <= Arq.pack_ b;
  no_off : 0 <= Arq.payload_offset_ b;
  no_pos : Arq.pack_ b + Arq.payload_offset_ b = pos;
  no_len : Arq.pack_len_ b = Arq.payload_offset_ b + fs;
  no_first : 0 <= Arq.first_pack_sn_ b < 2 ^ 32
}.

(** The calls that follow a packet on the network when it does not enter the arq. *)
Definition post_calls (s : OutSt) (p sn : Z) : list Call :=
  (if negb (0 =? peer_version_ (out_sess s)) && (GTP_ON =? alg_top_switch_ s) && (STREAM_QOS_WITH_FEC =? GetStreamQos_sender s)
   then [FecEncode p (last_active_ts_us_ (out_sess s))] else []) ++
  [SnTsEntry sn (last_active_ts_us_ (out_sess s))].

Lemma post_handler_no_arq p size first s :
  let h := parse_header (mem_from (out_mem s) p) in
  exists s', FramePostHandler p size GTP_NO first s = Some (GTP_OK, s') /\ o_fr s' = o_fr s /\
    o_calls s' = o_calls s ++ post_calls s p (pack_sn h) /\ alg_top_switch_ s' = alg_top_switch_ s.
Proof.
  intros h. unfold FramePostHandler, post_calls, mbind, ST_bind, get_st, mod_st. cbn [o_fr o_stat alg_top_switch_].
  fold h. set (s1 := put_stat _ s).
  change (out_sess s1) with (out_sess s). change (alg_top_switch_ s1) with (alg_top_switch_ s).
  assert (Hq : GetStreamQos_sender s1 = GetStreamQos_sender s) by done. rewrite Hq.
  destruct (negb (0 =? peer_version_ (out_sess s)) && (GTP_ON =? alg_top_switch_ s) && (STREAM_QOS_WITH_FEC =? GetStreamQos_sender s));
    cbn [when]; unfold mret, ST_ret; eexists; (split; [reflexivity|]); cbn; rewrite <- ?app_assoc; done.
Qed.

Lemma post_handler_arq p size first s :
  let h := parse_header (mem_from (out_mem s) p) in
  exists s', FramePostHandler p size GTP_YES first s = Some (GTP_OK, s') /\ o_fr s' = o_fr s /\
    o_calls s' = o_calls s ++ post_calls s p (pack_sn h) ++
      (if GTP_ON =? alg_top_switch_ s then [ArqEntry p first (last_active_ts_us_ (out_sess s))] else []).
Proof.
  intros h. unfold FramePostHandler, post_calls, mbind, ST_bind, get_st, mod_st. cbn [o_fr o_stat alg_top_switch_].
  fold h. set (s1 := put_stat _ s).
  change (out_sess s1) with (out_sess s). change (alg_top_switch_ s1) with (alg_top_switch_ s).
  assert (Hq : GetStreamQos_sender s1 = GetStreamQos_sender s) by done. rewrite Hq.
  destruct (negb (0 =? peer_version_ (out_sess s)) && (GTP_ON =? alg_top_switch_ s) && (STREAM_QOS_WITH_FEC =? GetStreamQos_sender s)),
    (GTP_ON =? alg_top_switch_ s);
    cbn [when Z.eqb GTP_NO GTP_YES]; unfold mret, ST_ret; eexists; (split; [reflexivity|]); cbn; rewrite <- ?app_assoc; done.
Qed.

Lemma load_at_range k m off : bytes_ok m -> 0 <= load_at k m off < 256 ^ Z.of_nat k.
Proof.
  intros Hm. unfold load_at. rewrite <- (mem_load_length k m (Z.to_nat off)) at 3. by apply le_val_range, bytes_ok_load.
Qed.
Lemma GtpLimit_range c : 1 <= GtpLimit 1 7 c <= 7.
Proof. unfold GtpLimit. destruct (Z.ltb_spec c 1), (Z.ltb_spec 7 c); lia. Qed.

Section Retransmit.
Context (ptr base sys_id : Z) (pos fs : Z) (Hpos : MAX_HEADER <= pos) (Hfs : 0 <= fs <= 8142).

(** The buffer is large enough and holds bytes. *)
Definition buf_ok (s : OutSt) : Prop := bytes_ok (out_mem s) /\ pos + fs <= Z.of_nat (length (out_mem s)).
Definition frame_bytes (s : OutSt) : list Z := pack_at (o_fr s) pos fs.

(** A packet that carries the frame [bytes] of the packet [first]. *)
Definition carries (bytes : list Z) (first size : Z) (m : list Z) : Prop :=
  frame_of m size = bytes /\ first_sn_of 0 m = first /\
  (goodtp_ver (parse_header m) = 2 -> InnerCheckPacketInvalid sys_id m size = GTP_OK).

(** The data packet [sn] of [size] bytes, the last [fs] of them its frame. *)
Definition data_packet (sn size : Z) (m : list Z) : Prop :=
  let h := parse_header m in
  goodtp_ver h <> 0 /\ pack_type h = kGtpDataPackType /\ pack_sn h = sn /\ pack_size h = size /\ 0 <= header_offset h /\ header_offset h + fs = size /\ size < 8192 /\
  (repeat_counter h <> 0 -> has_chg_zone h = GTP_NO).

(** A buffer that differs below [p] in nothing, and from [p] on is [img] and
    what was behind [pos]. *)
Lemma framed_bytes m m' p img : bytes_ok m -> (forall i, (i < Z.to_nat p)%nat -> m' !! i = m !! i) ->
  drop (Z.to_nat p) m' = img ++ drop (Z.to_nat pos) m -> bytes_ok (img ++ drop (Z.to_nat pos) m) -> bytes_ok m'.
Proof.
  intros Hm Hrest Hfrom Himg. rewrite <- (take_drop (Z.to_nat p) m'), Hfrom. apply Forall_app. split; [|done].
  assert (take (Z.to_nat p) m' = take (Z.to_nat p) m) as ->; [|by apply Forall_take].
  apply list_eq. intros i. destruct (decide (i < Z.to_nat p)%nat).
  - rewrite !lookup_take_lt by done. by apply Hrest.
  - by rewrite !lookup_take_ge by lia.
Qed.
Lemma pack_at_same st st' p n :
  (forall i, (Z.to_nat p <= i)%nat -> fr_mem st' !! i = fr_mem st !! i) -> pack_at st' p n = pack_at st p n.
Proof.
  intros H. unfold pack_at, mem_load. f_equal. f_equal. apply list_eq. intros i. rewrite !lookup_drop. apply H. lia.
Qed.
Lemma sess_after_keeps zone a :
  peer_version_ (sess_after zone a) = peer_version_ a /\ last_active_ts_us_ (sess_after zone a) = last_active_ts_us_ a /\
  (pack_sn_ (sess_after zone a) = u32 (pack_sn_ a + 1)).
Proof. unfold sess_after, after_options. by destruct zone, (rtt_due _), (ts_due _), (loss_due _). Qed.

(** The framing of the frame, on the state of the sending half. *)
Lemma framed now s h u first n :
  let a := out_sess s in
  sess_ok a -> gtp_peer a -> 0 <= now < 2 ^ 64 -> buf_ok s -> 0 <= h < 2 ^ 32 -> 0 <= u < 2 ^ 32 -> 0 <= first < 2 ^ 32 -> 0 <= n <= 7 ->
  exists p size fr,
    framing (FramePrepHandler ptr base now sys_id pos fs h u first n) s = Some ((GTP_OK, p, size), put_fr fr s) /\
    0 <= p /\ size = pos - p + fs /\ size < 8192 /\ buf_ok (put_fr fr s) /\ length (fr_mem fr) = length (out_mem s) /\ pos - p <= MAX_HEADER /\
    (let hdr := parse_header (mem_from (fr_mem fr) p) in
     goodtp_ver hdr <> 0 /\ header_offset hdr = pos - p /\ pack_sn hdr = pack_sn_ a /\ repeat_counter hdr = n /\ pack_size hdr = size) /\
    peer_version_ (fr_sess fr) = peer_version_ a /\ last_active_ts_us_ (fr_sess fr) = last_active_ts_us_ a /\
    pack_sn_ (fr_sess fr) = u32 (pack_sn_ a + 1) /\
    pack_at fr pos fs = frame_bytes s /\
    carries (frame_bytes s) (if 0 <? n then first else pack_sn_ a) size (pack_at fr p size) /\
    data_packet (pack_sn_ a) size (pack_at fr p size) /\ 10 <= pos - p.
Proof.
  intros a Hok Hpeer Hnow [Hbm Hroom] Hh Hu Hfirst Hn.
  destruct (prep_result ptr base now sys_id (o_fr s) pos fs h u first n Hpeer Hn Hpos ltac:(lia) Hroom)
    as (zone & stype & pad & fr & Hst & Hpad & Hzn & _ & Hbd & Hrun & Hs & _ & Hlen & Hrest & Hpk & Hfrom).
  change (fr_sess (o_fr s)) with a in *. change (fr_mem (o_fr s)) with (out_mem s) in *.
  destruct (real_range a h u Hh Hu) as [HH HU].
  set (img := packet_image now a (wire_ver a) zone stype fs (real_hash a h) (real_user_id a u) first n pad) in *.
  assert (Hver : 1 <= wire_ver a <= 2) by (unfold wire_ver; destruct (peer_version_ a =? 1); lia).
  assert (Hsz : Z.of_nat (length img) + fs < 8192) by (unfold MAX_HEADER in *; lia).
  set (p := pos - Z.of_nat (length img)) in *. rewrite u16_small, Z.mod_small in Hrun by lia.
  assert (Hp : 0 <= p) by (unfold p, MAX_HEADER in *; lia).
  assert (Hlf : Z.of_nat (length (pack_at (o_fr s) pos fs)) = fs) by (unfold pack_at; rewrite mem_load_length; lia).
  destruct (hdr_fields now a (wire_ver a) zone stype fs (real_hash a h) (real_user_id a u) first n pad Hver Hn Hpad Hzn)
    as (Ho & Hr & _ & Hg). fold img in Ho, Hr, Hg.
  assert (Ehdr : forall rest, parse_header (img ++ rest) = frame_header a a (wire_ver a) (ind zone) stype
      (Z.of_nat (length img)) fs (real_hash a h) (real_user_id a u) n)
    by (intros rest; apply pk_header; first [done|lia]).
  assert (Hreads : reads now a (wire_ver a) (real_hash a h) (real_user_id a u) first n (img ++ pack_at (o_fr s) pos fs)) by (by apply pk_reads).
  exists p, (Z.of_nat (length img) + fs), fr. unfold framing. rewrite Hrun.
  destruct (sess_after_keeps zone a) as (E1 & E2 & E3). rewrite Hs, E1, E2, E3, Hpk.
  split_and!; try done; try (unfold p; lia).
  - unfold buf_ok. change (out_mem (put_fr fr s)) with (fr_mem fr). split; [|lia].
    eapply (framed_bytes (out_mem s) _ p img Hbm); [intros; apply Hrest; lia|done|]. by apply packet_bytes_ok, Forall_drop.
  - unfold mem_from. rewrite Hfrom, Ehdr, Hg. lia.
  - unfold mem_from. rewrite Hfrom. rewrite Ehdr, Ho. unfold p. lia.
  - unfold mem_from. rewrite Hfrom. by rewrite Ehdr.
  - unfold mem_from. rewrite Hfrom, Ehdr. by rewrite Hr.
  - unfold mem_from. rewrite Hfrom, Ehdr. apply pk_size; first [done|exact Hsz|lia].
  - apply pack_at_same. intros i Hi. apply Hrest. by right.
  - unfold frame_bytes. split_and!; [apply pk_frame; first [done|exact Hsz|lia]|apply Hreads|].
    destruct Hreads as (-> & _). intros Hv2. apply InnerCheck_iff; [by apply packet_bytes_ok, bytes_ok_load|].
    apply pk_accepted; first [done|exact Hsz|lia].
  - destruct Hreads as (R1 & R2 & R3 & R4 & _). unfold data_packet. rewrite R1, R2, R3, R4. cbv zeta. rewrite Ehdr, Ho.
    split_and!; try done; try lia; [apply pk_size; first [done|exact Hsz|lia]|]. unfold frame_header. cbn [has_chg_zone].
    destruct zone; [by rewrite Hzn|done].
Qed.
Lemma retransmit_step now s b ad cur :
  let ts := if negb (0 =? cur) then cur else now in
  let a := put_last_active_ts_us_ ts (out_sess s) in
  sess_ok a -> gtp_peer a -> 0 <= now < 2 ^ 64 -> buf_ok s -> node_ok pos fs b ->
  exists b' ad' s' size m fec,
    PackRetransmit ptr base now sys_id b ad cur s = Some ((GTP_OK, b', ad'), s') /\
    o_calls s' = o_calls s ++ SendPack m size :: fec ++ [SnTsEntry (pack_sn_ a) ts] /\
    (fec = [] \/ fec = [FecEncode (Arq.pack_ b') ts]) /\
    carries (frame_bytes s) (Arq.first_pack_sn_ b) size m /\ data_packet (pack_sn_ a) size m /\ pack_sn_ (out_sess s') = u32 (pack_sn_ a + 1) /\
    buf_ok s' /\ node_ok pos fs b' /\ Arq.first_pack_sn_ b' = Arq.first_pack_sn_ b /\ frame_bytes s' = frame_bytes s.
Proof.
  intros ts a Hok Hpeer Hnow Hbuf [Hb1 Hb2 Hb3 Hb4 Hb5]. set (s1 := on_out_sess (put_last_active_ts_us_ ts) s).
  unfold PackRetransmit. fold ts. unfold mbind, ST_bind, mod_st, get_st. fold s1.
  change (out_mem s1) with (out_mem s). set (org := mem_from (out_mem s) (Arq.pack_ b)).
  set (h := if negb (0 =? has_check_flag (parse_header org)) then load_at 4 org _ else 0).
  set (u := if negb (0 =? has_check_flag (parse_header org)) then load_at 4 org _ else 0).
  set (n := GtpLimit 1 7 _). pose proof (GtpLimit_range (u8 (Arq.retran_counter_ b + 1))) as Hn. fold n in Hn.
  assert (Hc : forall o, 0 <= (if negb (0 =? has_check_flag (parse_header org)) then load_at 4 org o else 0) < 2 ^ 32).
  { intros o. destruct (negb (0 =? has_check_flag (parse_header org))); [|lia]. apply (load_at_range 4). by apply Forall_drop, Hbuf. }
  rewrite Hb3. assert (u32 (Arq.pack_len_ b - Arq.payload_offset_ b) = fs) as -> by (rewrite Hb4, u32_small; lia).
  destruct (framed now s1 h u (Arq.first_pack_sn_ b) n) as (p & size & fr & Hrun & Hp & Hsize & Hs8 & Hbuf' & Hlen & Hmax & Hhdr
    & Ev & Ea & Esn & Hkeep & Hcar & Hsn & Hmin); [done|done|done|exact Hbuf|apply Hc|apply Hc|lia|lia|].
  change (out_sess s1) with a in *. change (frame_bytes s1) with (frame_bytes s) in *.
  change (out_mem s1) with (out_mem s) in Hlen.
  rewrite Hrun. cbn [Z.eqb GTP_OK negb]. set (s2 := put_fr fr s1) in *.
  change (fr_mem fr) with (out_mem s2) in *. destruct Hhdr as (Hver & Hoff & Hpsn & _ & _). rewrite Hoff, Hpsn.
  rewrite send_pack_spec; [|apply Hbuf'|unfold MAX_HEADER in *; destruct Hbuf as [_ Hroom]; lia| |done].
  2: { change (out_sess s2) with (fr_sess fr). rewrite Ev. destruct Hpeer as [E|[E|E]]; rewrite E; lia. }
  change (mem_load (Z.to_nat size) (out_mem s2) (Z.to_nat p)) with (pack_at fr p size). set (s3 := add_call _ s2).
  destruct (post_handler_no_arq p size (Arq.first_pack_sn_ b) s3) as (s4 & -> & Hfr & Hcalls & _).
  change (out_mem s3) with (out_mem s2) in Hcalls. rewrite Hpsn in Hcalls. unfold post_calls in Hcalls.
  change (last_active_ts_us_ (out_sess s3)) with (last_active_ts_us_ (fr_sess fr)) in Hcalls. rewrite Ea in Hcalls.
  change (last_active_ts_us_ a) with ts in Hcalls. change (o_calls s3) with (o_calls s ++ [SendPack (pack_at fr p size) size]) in Hcalls.
  assert (Hm4 : out_mem s4 = out_mem s2) by (unfold out_mem at 1; by rewrite Hfr).
  rewrite <- app_assoc in Hcalls.
  do 6 eexists. split; [reflexivity|]. split; [exact Hcalls|]. cbn [Arq.pack_ Arq.first_pack_sn_].
  assert ((0 <? n) = true) as Hn0 by lia. rewrite Hn0 in Hcar. split_and!; try done.
  - match goal with |- context [if ?c then _ else _] => destruct c end; [by right|by left].
  - unfold out_sess at 1. rewrite Hfr. exact Esn.
  - unfold buf_ok in *. by rewrite Hm4.
  - split; cbn [Arq.pack_ Arq.payload_offset_ Arq.pack_len_ Arq.first_pack_sn_]; try lia; rewrite ?u16_small; lia.
  - unfold frame_bytes. by rewrite Hfr.
Qed.
(** The states of the session at the retransmissions, and the times. *)
Definition resend_ok (x : SendSess * Z * Z) : Prop :=
  let '(a, now, cur) := x in sess_ok a /\ gtp_peer a /\ 0 <= now < 2 ^ 64 /\ 0 <= cur < 2 ^ 64.

Lemma sent_of_app l k : sent_of (l ++ k) = sent_of l ++ sent_of k.
Proof. apply omap_app. Qed.

Lemma retransmissions_run l : forall s b ad,
  Forall resend_ok l -> buf_ok s -> node_ok pos fs b ->
  exists s' k, retransmissions ptr base sys_id l b ad s = Some (replicate (length l) GTP_OK, s') /\
    sent_of (o_calls s') = sent_of (o_calls s) ++ k /\ length k = length l /\
    Forall (fun x => carries (frame_bytes s) (Arq.first_pack_sn_ b) x.2 x.1) k /\ frame_bytes s' = frame_bytes s.
Proof.
  induction l as [|[[x now] cur] l IH]; intros s b ad Hl Hbuf Hb.
  { exists s, []. rewrite app_nil_r. by split_and!. }
  apply Forall_cons in Hl as [(Hx & Hpeer & Hnow & Hcur) Hl]. cbn [retransmissions]. unfold mbind, ST_bind, mod_st.
  set (s1 := on_out_sess (fun _ => x) s).
  destruct (retransmit_step now s1 b ad cur) as (b' & ad' & s2 & size & m & fec & Hrun & Hcalls & Hfec & Hcar & _ & _ & Hbuf' & Hb' & Hfirst & Hframe);
    [|exact Hpeer|done|exact Hbuf|done|].
  { destruct Hx. split; try done. change (0 <= (if negb (0 =? cur) then cur else now) < 2 ^ 64). by destruct (negb (0 =? cur)). }
  rewrite Hrun. destruct (IH s2 b' ad' Hl Hbuf' Hb') as (s' & k & Hrun' & Hsent & Hlen & Hall & Hframe').
  rewrite Hrun'. exists s', ((m, size) :: k). change (frame_bytes s1) with (frame_bytes s) in *.
  rewrite Hfirst, Hframe in Hall. split_and!; [done| |cbn; lia| |congruence].
  - rewrite Hsent, Hcalls, sent_of_app. change (o_calls s1) with (o_calls s).
    rewrite <- app_assoc. f_equal. cbn. f_equal. by destruct Hfec as [->| ->].
  - apply Forall_cons. split; [|done]. exact Hcar.
Qed.

(** [GtpFrameSend]: the packet, the calls in their order, and the node the arq
    makes of it. *)
Lemma frame_send_step now s cur qos token token_id thr :
  let a := put_qos_ qos (put_last_active_ts_us_ cur (out_sess s)) in
  sess_ok a -> gtp_peer a -> 0 <= now < 2 ^ 64 -> buf_ok s -> 0 <= token < 2 ^ 32 -> 0 <= token_id < 2 ^ 32 ->
  exists s' p size m fec arq,
    GtpFrameSend ptr base now sys_id cur pos fs qos token token_id s = Some (GTP_OK, s') /\
    o_calls s' = o_calls s ++ SendPack m size :: fec ++ SnTsEntry (pack_sn_ a) cur :: arq /\
    (fec = [] \/ fec = [FecEncode p cur]) /\
    arq = (if GTP_ON =? alg_top_switch_ s then [ArqEntry p (pack_sn_ a) cur] else []) /\
    carries (frame_bytes s) (pack_sn_ a) size m /\ data_packet (pack_sn_ a) size m /\ pack_sn_ (out_sess s') = u32 (pack_sn_ a + 1) /\
    buf_ok s' /\ node_ok pos fs (entry_node (out_mem s') p (pack_sn_ a) cur thr) /\ frame_bytes s' = frame_bytes s.
Proof.
  intros a Hok Hpeer Hnow Hbuf Ht Htid. unfold GtpFrameSend, mbind, ST_bind, mod_st, get_st.
  set (s1 := on_out_sess (put_qos_ qos) _). assert (Hm1 : out_mem s1 = out_mem s /\ o_calls s1 = o_calls s /\
    out_sess s1 = a /\ frame_bytes s1 = frame_bytes s /\ alg_top_switch_ s1 = alg_top_switch_ s).
  { unfold s1, CalcMaxFramePeriod. by destruct (now_max_frame_period_us_ s <? _). }
  destruct Hm1 as (M1 & M2 & M3 & M4 & M5). rewrite M3.
  destruct (framed now s1 token token_id 0 0) as (p & size & fr & Hrun & Hp & Hsize & Hs8 & Hbuf' & Hlen & Hmax & Hhdr
    & Ev & Ea & Esn & Hkeep & Hcar & Hsn & Hmin); rewrite ?M3; try done; try lia; [by unfold buf_ok; rewrite M1|].
  rewrite M1, M3, M4 in *. rewrite Hrun. cbn [Z.eqb GTP_OK negb]. set (s2 := put_fr fr s1) in *.
  change (fr_mem fr) with (out_mem s2) in *. destruct Hhdr as (Hver & Hoff & Hpsn & Hrep & Hpsz).
  rewrite send_pack_spec; [|apply Hbuf'|unfold MAX_HEADER in *; destruct Hbuf as [_ Hroom]; lia| |done].
  2: { change (out_sess s2) with (fr_sess fr). rewrite Ev. destruct Hpeer as [E|[E|E]]; rewrite E; lia. }
  change (mem_load (Z.to_nat size) (out_mem s2) (Z.to_nat p)) with (pack_at fr p size). set (s3 := add_call _ s2).
  destruct (post_handler_arq p size (pack_sn_ a) s3) as (s4 & -> & Hfr & Hcalls).
  change (out_mem s3) with (out_mem s2) in Hcalls. rewrite Hpsn in Hcalls. unfold post_calls in Hcalls.
  change (last_active_ts_us_ (out_sess s3)) with (last_active_ts_us_ (fr_sess fr)) in Hcalls. rewrite Ea in Hcalls.
  change (last_active_ts_us_ a) with cur in Hcalls. change (alg_top_switch_ s3) with (alg_top_switch_ s1) in Hcalls.
  rewrite M5 in Hcalls. change (o_calls s3) with (o_calls s1 ++ [SendPack (pack_at fr p size) size]) in Hcalls. rewrite M2 in Hcalls.
  cbn [Z.eqb GTP_OK negb]. do 6 eexists. split; [reflexivity|].
  rewrite <- !app_assoc in Hcalls. cbn [app] in Hcalls. split; [exact Hcalls|]. change (0 <? 0) with false in Hcar.
  assert (Hm4 : out_mem s4 = out_mem s2) by (unfold out_mem at 1; by rewrite Hfr).
  split; [match goal with |- context [if ?c then _ else _] => destruct c end; [by right|by left]|].
  split; [done|]. split; [exact Hcar|]. split; [exact Hsn|]. set (s5 := put_stat _ s4).
  assert (H5 : o_fr s5 = fr) by exact Hfr. assert (Hm5 : out_mem s5 = out_mem s2) by exact Hm4.
  split; [by change (out_sess s5) with (fr_sess (o_fr s5)); rewrite H5|]. unfold buf_ok. rewrite Hm5.
  split; [exact Hbuf'|]. split; [|by unfold frame_bytes; rewrite H5]. unfold entry_node.
  split; cbn [Arq.pack_ Arq.payload_offset_ Arq.pack_len_ Arq.first_pack_sn_]; rewrite ?Hoff, ?Hpsz; try lia. by destruct Hok.
Qed.
End Retransmit.

(** ** The theorem *)

(** C4: All copies of a frame agree.  [GtpFrameSend] hands a packet of the
    frame, of at most 8142 bytes, to the network; the arq makes a node of it;
    however often the node is repeated, with whatever state of the session at
    each repetition - the peer's version, if known, being 1 or 2 each time -,
    exactly one more packet goes to the network each time.  Every one of these
    packets carries the frame byte for byte and is recognised by the receiver
    as the same packet (the number of the first one, as a session with stream
    type 0 reads it); those with a header of version 2, which are all for a
    peer of version 2 or of unknown version, are accepted by its checks, which
    know no other version. *)
Theorem frame_copies_agree ptr base sys_id pos fs now s cur qos token token_id thr l ad :
  let a := put_qos_ qos (put_last_active_ts_us_ cur (out_sess s)) in
  MAX_HEADER <= pos -> 0 <= fs <= 8142 -> sess_ok a -> gtp_peer a -> 0 <= now < 2 ^ 64 -> buf_ok pos fs s ->
  0 <= token < 2 ^ 32 -> 0 <= token_id < 2 ^ 32 -> Forall resend_ok l ->
  exists s1 p s2 k,
    GtpFrameSend ptr base now sys_id cur pos fs qos token token_id s = Some (GTP_OK, s1) /\
    retransmissions ptr base sys_id l (entry_node (out_mem s1) p (pack_sn_ a) cur thr) ad s1 =
      Some (replicate (length l) GTP_OK, s2) /\
    sent_of (o_calls s2) = sent_of (o_calls s) ++ k /\ length k = S (length l) /\
    Forall (fun x => carries sys_id (frame_bytes pos fs s) (pack_sn_ a) x.2 x.1) k.
Proof.
  intros a Hpos Hfs Hok Hpeer Hnow Hbuf Ht Htid Hl.
  destruct (frame_send_step ptr base sys_id pos fs Hpos Hfs now s cur qos token token_id thr Hok Hpeer Hnow Hbuf Ht Htid)
    as (s1 & p & size & m & fec & arq & Hrun & Hcalls & Hfec & Harq & Hcar & _ & _ & Hbuf1 & Hnode & Hframe).
  fold a in Hcalls, Harq, Hcar, Hnode.
  destruct (retransmissions_run ptr base sys_id pos fs Hpos Hfs l s1 _ ad Hl Hbuf1 Hnode)
    as (s2 & k & Hrun2 & Hsent & Hlen & Hall & _).
  exists s1, p, s2, ((m, size) :: k). rewrite Hframe in Hall. split_and!; [done|done| |cbn; lia|by apply Forall_cons].
  rewrite Hsent, Hcalls, sent_of_app, <- app_assoc. f_equal. cbn. f_equal. rewrite sent_of_app.
  destruct Hfec as [->| ->]; rewrite Harq; by destruct (GTP_ON =? alg_top_switch_ s).
Qed.

(** ** An instance *)
Definition demo_out : OutSt := mkOut (demo_fr 0xFF 0 10) (stat_ctor 0) 1 GTP_NO 0 0 0 0 GTP_NO [].
Definition demo_resends : list (SendSess * Z * Z) := [(demo_sess 2 0, 9000, 0); (demo_sess 1 0, 9500, 9400); (demo_sess 2 1, 9900, 0)].
Example frame_copies_agree_witness :
  exists s1 p s2 k,
    GtpFrameSend 8 16 7000 1 6000 64 10 5 0 0 demo_out = Some (GTP_OK, s1) /\
    retransmissions 8 16 1 demo_resends (entry_node (out_mem s1) p 41 6000 3) (Arq.mkAddr 0 0 0 []) s1 =
      Some ([0; 0; 0], s2) /\
    sent_of (o_calls s2) = [] ++ k /\ length k = 4%nat /\
    Forall (fun x => carries 1 (replicate 10 7) 41 x.2 x.1) k.
Proof.
  apply (frame_copies_agree 8 16 1 64 10 7000 demo_out 6000 5 0 0 3 demo_resends (Arq.mkAddr 0 0 0 []));
    [unfold MAX_HEADER; lia|lia| |by left|lia|split; [apply demo_buffer_ok|cbn; lia]|lia|lia|].
  - destruct (demo_sess_ok 0xFF 0). split; cbn in *; done || lia.
  - repeat constructor; try apply demo_sess_ok; try lia; unfold gtp_peer; cbn; lia.
Defined.

End FrameSendRun.
