(* ===== verification/SendRun.v ===== *)
(** * A sending session at work

    New frames and repetitions of earlier ones in any order: every packet that
    goes to the network carries one of the frames that were handed over, under
    the number that frame got. *)
From Stdlib Require Import Sorting.Sorted Floats.SpecFloat.
From S2P Require Import Prelude PacketHeader FloatWire LinkStat Frame FrameSpec FrameRun Arq FrameSend FrameSendRun.
Export FrameSendRun.

Module SendRun.

Section Run.
Context (ptr base sys_id : Z).

(** A packet that the arq keeps for repetition: its buffer, its node and the
    address it goes to. *)
Record Kept := mkKept { kp_mem : list Z; kp_node : Arq.Body Z; kp_addr : Arq.Addr }.
(** The session, what is kept, and the frames handed over so far with the
    numbers of their first packets. *)
Record Sender := mkSender { sd_out : OutSt; sd_kept : list Kept; sd_frames : list (Z * list Z) }.
Definition next_sn (d : Sender) : Z := pack_sn_ (out_sess (sd_out d)).

(** [GtpFrameSend] for the frame of [fs] bytes at [pos] of its buffer, or
    [PackRetransmit] for the [i]-th packet kept (if there is one).  [x] is what
    the rest of the program has made of the session since the last step: only
    the framing of packets changes [pack_sn_]. *)
Inductive SendStep :=
| NewFrame (x : OutSt) (pos fs now_us cur_ts_us qos token token_id boost_threshold : Z) (a : Arq.Addr)
| Again (i : nat) (x : OutSt) (now_us cur_ts_us : Z).

Definition on_out {A} (m : ST OutSt A) : ST Sender A := fun d =>
  match m (sd_out d) with Some (r, s) => Some (r, mkSender s (sd_kept d) (sd_frames d)) | None => None end.
Definition resume (x : OutSt) (mem : list Z) (s : OutSt) : OutSt :=
  mkOut (mkFr (put_pack_sn_ (pack_sn_ (out_sess s)) (out_sess x)) mem (move_pos (o_fr x)) (hdr_size (o_fr x))) (o_stat x) (alg_top_switch_ x)
    (rpt_snd_qualit_ x) (net_quality_ x) (last_send_ts_us_ x) (tran_timestamp_ x) (now_max_frame_period_us_ x) (max_frm_prd_updt_flg_ x)
    (o_calls s).
(** What [GtpArq::PacketEntryList] was called with. *)
Definition entries (l : list Call) : list (Z * Z * Z) :=
  omap (fun c => match c with ArqEntry p first ts => Some (p, first, ts) | _ => None end) l.
Definition keep (mem : list Z) (thr : Z) (a : Arq.Addr) (e : Z * Z * Z) : Kept := mkKept mem (entry_node mem e.1.1 e.1.2 e.2 thr) a.
Definition frame_at (mem : list Z) (pos fs : Z) : list Z := mem_load (Z.to_nat fs) mem (Z.to_nat pos).

Definition send_step (ev : SendStep) : ST Sender Z :=
  d ← get_st;
  match ev with
  | NewFrame x pos fs now cur qos token token_id thr a =>
      _ ← on_out (mod_st (resume x (out_mem x)));
      r ← on_out (GtpFrameSend ptr base now sys_id cur pos fs qos token token_id);
      _ ← mod_st (fun d' => mkSender (sd_out d')
            (sd_kept d' ++ (keep (out_mem (sd_out d')) thr a <$> entries (drop (length (o_calls (sd_out d))) (o_calls (sd_out d')))))
            (sd_frames d' ++ [(next_sn d, frame_at (out_mem x) pos fs)]));
      mret r
  | Again i x now cur =>
      match sd_kept d !! i with
      | None => mret GTP_OK
      | Some k =>
          _ ← on_out (mod_st (resume x (kp_mem k)));
          r ← on_out (PackRetransmit ptr base now sys_id (kp_node k) (kp_addr k) cur);
          _ ← mod_st (fun d' => mkSender (sd_out d') (<[i := mkKept (out_mem (sd_out d')) r.1.2 r.2]> (sd_kept d')) (sd_frames d'));
          mret r.1.1
      end
  end.
Fixpoint send_run (l : list SendStep) : ST Sender (list Z) :=
  match l with
  | [] => mret []
  | ev :: l' => r ← send_step ev; rs ← send_run l'; mret (r :: rs)
  end.

(** The packets on the network, and the frames that were handed over. *)
Definition wire (d : Sender) : list (list Z * Z) := sent_of (o_calls (sd_out d)).
Definition frames_given (l : list SendStep) : list (list Z) :=
  omap (fun ev => match ev with NewFrame x pos fs _ _ _ _ _ _ _ => Some (frame_at (out_mem x) pos fs) | Again _ _ _ _ => None end) l.

(** The members of the session are in their ranges, and the frame fits. *)
Definition step_ok (ev : SendStep) : Prop :=
  match ev with
  | NewFrame x pos fs now cur qos token token_id thr a =>
      sess_ok (out_sess x) /\ gtp_peer (out_sess x) /\ 0 <= now < 2 ^ 64 /\ 0 <= cur < 2 ^ 64 /\ MAX_HEADER <= pos /\ 0 <= fs <= 8142 /\
      bytes_ok (out_mem x) /\ pos + fs <= Z.of_nat (length (out_mem x)) /\ 0 <= token < 2 ^ 32 /\ 0 <= token_id < 2 ^ 32
  | Again i x now cur => sess_ok (out_sess x) /\ gtp_peer (out_sess x) /\ 0 <= now < 2 ^ 64 /\ 0 <= cur < 2 ^ 64
  end.

(** ** The invariant *)

(** A packet of one of the frames, numbered in [lo, hi). *)
Definition sent_as (lo hi : Z) (frames : list (Z * list Z)) (x : list Z * Z) : Prop :=
  exists f bytes n, (f, bytes) ∈ frames /\ carries sys_id bytes f x.2 x.1 /\ data_packet (Z.of_nat (length bytes)) n x.2 x.1 /\ lo <= n < hi.
Definition kept_ok (frames : list (Z * list Z)) (k : Kept) : Prop :=
  exists pos fs, MAX_HEADER <= pos /\ 0 <= fs <= 8142 /\ node_ok pos fs (kp_node k) /\ bytes_ok (kp_mem k) /\
    pos + fs <= Z.of_nat (length (kp_mem k)) /\ (Arq.first_pack_sn_ (kp_node k), frame_at (kp_mem k) pos fs) ∈ frames.
Record sender_ok (lo : Z) (d : Sender) : Prop := {
  sd_next : lo <= next_sn d < 2 ^ 32;
  sd_sorted : StronglySorted (fun p q : Z * list Z => p.1 < q.1) (sd_frames d);
  sd_range : Forall (fun p : Z * list Z => lo <= p.1 < next_sn d) (sd_frames d);
  sd_sent : Forall (sent_as lo (next_sn d) (sd_frames d)) (wire d);
  sd_keeps : Forall (kept_ok (sd_frames d)) (sd_kept d)
}.

Lemma sent_as_more lo hi hi' fr fr' x : sent_as lo hi fr x -> hi <= hi' -> fr ⊆ fr' -> sent_as lo hi' fr' x.
Proof. intros (f & b & n & H1 & H2 & H3 & H4) Hh Hs. exists f, b, n. split_and!; auto; lia. Qed.
Lemma kept_ok_more fr fr' k : kept_ok fr k -> fr ⊆ fr' -> kept_ok fr' k.
Proof. intros (pos & fs & H1 & H2 & H3 & H4 & H5 & H6) Hs. exists pos, fs. split_and!; auto; lia. Qed.
Lemma sorted_snoc (l : list (Z * list Z)) p : StronglySorted (fun p q => p.1 < q.1) l -> Forall (fun q => q.1 < p.1) l ->
  StronglySorted (fun p q => p.1 < q.1) (l ++ [p]).
Proof.
  intros Hl. induction Hl as [|q l Hl IH Hq]; intros [Hp Hps]%Forall_cons || intros _; cbn [app]; [repeat constructor|].
  constructor; [by apply IH|]. apply Forall_app. split; [done|by constructor].
Qed.
Lemma frame_at_length mem pos fs : 0 <= fs -> Z.of_nat (length (frame_at mem pos fs)) = fs.
Proof. intros Hf. unfold frame_at. rewrite mem_load_length. lia. Qed.
Lemma resumed_ok x n ts q : sess_ok (out_sess x) -> 0 <= n < 2 ^ 32 -> 0 <= ts < 2 ^ 64 ->
  sess_ok (put_last_active_ts_us_ ts (put_pack_sn_ n (out_sess x))) /\ sess_ok (put_qos_ q (put_last_active_ts_us_ ts (put_pack_sn_ n (out_sess x)))).
Proof. intros [H1 H2 H3 H4 H5] Hn Ht. by split; split. Qed.

(** A frame, handed over. *)
Lemma new_frame_step lo d x pos fs now cur qos token token_id thr a :
  sender_ok lo d -> 0 <= lo -> next_sn d + 1 < 2 ^ 32 -> step_ok (NewFrame x pos fs now cur qos token token_id thr a) ->
  wp (send_step (NewFrame x pos fs now cur qos token token_id thr a)) (fun r d' => r = GTP_OK /\ sender_ok lo d' /\
    next_sn d' = next_sn d + 1 /\ sd_frames d' = sd_frames d ++ [(next_sn d, frame_at (out_mem x) pos fs)]) d.
Proof.
  intros [H1 H2 H3 H4 H5] Hlo Hnext (Hok & Hpeer & Hnow & Hcur & Hpos & Hfs & Hmem & Hroom & Ht & Htid).
  destruct (resumed_ok x (next_sn d) cur qos Hok ltac:(lia) Hcur) as [_ Hok'].
  destruct (frame_send_step ptr base sys_id pos fs Hpos Hfs now (resume x (out_mem x) (sd_out d)) cur qos token token_id thr Hok' Hpeer Hnow
    (conj Hmem Hroom) Ht Htid) as (s' & p & size & m & fec & arq & Hrun & Hcalls & Hfec & Harq & Hcar & Hdata & Hsn & Hbuf & Hnode & Hframe).
  change (o_calls (resume x (out_mem x) (sd_out d))) with (o_calls (sd_out d)) in Hcalls.
  set (sn := pack_sn_ _) in Hcalls, Harq, Hcar, Hdata, Hsn, Hnode. change sn with (next_sn d) in *. clear sn.
  change (frame_bytes pos fs (resume x (out_mem x) (sd_out d))) with (frame_at (out_mem x) pos fs) in *. rewrite u32_small in Hsn by lia.
  change (frame_bytes pos fs s') with (frame_at (out_mem s') pos fs) in Hframe.
  unfold send_step. apply wp_bind, wp_get, wp_bind. eapply wp_intro; [reflexivity|]. apply wp_bind. eapply wp_intro.
  { unfold on_out. cbn [sd_out]. by rewrite Hrun. }
  apply wp_bind, wp_mod, wp_ret. cbn [sd_out sd_kept sd_frames]. split; [done|].
  set (p0 := (next_sn d, frame_at (out_mem x) pos fs)).
  assert (Hsub : sd_frames d ⊆ sd_frames d ++ [p0]) by (intros q Hq; apply elem_of_app; by left).
  assert (Hp0 : p0 ∈ sd_frames d ++ [p0]) by (apply elem_of_app; right; by left).
  split; [|split; [exact Hsn|done]]. split; unfold next_sn, wire; cbn [sd_out sd_kept sd_frames]; fold (next_sn d); rewrite ?Hsn.
  - lia.
  - apply sorted_snoc; [done|]. eapply Forall_impl; [exact H3|]. cbn. lia.
  - apply Forall_app. split; [eapply Forall_impl; [exact H3|]; cbn; lia|]. constructor; [cbn; lia|constructor].
  - rewrite Hcalls, sent_of_app. apply Forall_app. split; [eapply Forall_impl; [exact H4|]; intros y Hy; eapply sent_as_more; [exact Hy|lia|done]|].
    assert (Hs : sent_of (SendPack m size :: fec ++ SnTsEntry (next_sn d) cur :: arq) = [(m, size)])
      by (destruct Hfec as [->| ->]; rewrite Harq; by destruct (_ =? _)). rewrite Hs.
    constructor; [|constructor]. exists (next_sn d), (frame_at (out_mem x) pos fs), (next_sn d). rewrite frame_at_length by lia.
    split_and!; try done; lia.
  - apply Forall_app. split; [eapply Forall_impl; [exact H5|]; intros k Hk; by eapply kept_ok_more|].
    rewrite Hcalls, drop_app_length. assert (He : entries (SendPack m size :: fec ++ SnTsEntry (next_sn d) cur :: arq) = entries arq)
      by (destruct Hfec as [->| ->]; done). rewrite He, Harq. destruct (_ =? _); [|constructor].
    constructor; [|constructor]. exists pos, fs. cbn [keep kp_mem kp_node fst snd]. destruct Hbuf as [Hb1 Hb2].
    split_and!; try done; try lia. rewrite Hframe. exact Hp0.
Qed.

(** A packet, once more. *)
Lemma again_step lo d i x now cur :
  sender_ok lo d -> 0 <= lo -> next_sn d + 1 < 2 ^ 32 -> step_ok (Again i x now cur) ->
  wp (send_step (Again i x now cur)) (fun r d' => r = GTP_OK /\ sender_ok lo d' /\ next_sn d' <= next_sn d + 1 /\ sd_frames d' = sd_frames d) d.
Proof.
  intros Hd Hlo Hnext (Hok & Hpeer & Hnow & Hcur). pose proof Hd as [H1 H2 H3 H4 H5]. unfold send_step. apply wp_bind, wp_get.
  destruct (sd_kept d !! i) as [k|] eqn:Hk; [|apply wp_ret; split_and!; done || lia].
  destruct (Forall_lookup_1 _ _ _ _ H5 Hk) as (pos & fs & Hpos & Hfs & Hnode & Hmem & Hroom & Hin).
  set (s := resume x (kp_mem k) (sd_out d)).
  assert (Hts : 0 <= (if negb (0 =? cur) then cur else now) < 2 ^ 64) by (by destruct (negb _)).
  destruct (resumed_ok x (next_sn d) _ 0 Hok ltac:(lia) Hts) as [Hok' _].
  destruct (retransmit_step ptr base sys_id pos fs Hpos Hfs now s (kp_node k) (kp_addr k) cur Hok' Hpeer Hnow (conj Hmem Hroom) Hnode)
    as (b' & ad' & s' & size & m & fec & Hrun & Hcalls & Hfec & Hcar & Hdata & Hsn & Hbuf & Hnode' & Hfirst & Hframe).
  change (o_calls s) with (o_calls (sd_out d)) in Hcalls.
  change (pack_sn_ (put_last_active_ts_us_ _ (out_sess s))) with (next_sn d) in *. rewrite u32_small in Hsn by lia.
  change (frame_bytes pos fs s) with (frame_at (kp_mem k) pos fs) in *. change (frame_bytes pos fs s') with (frame_at (out_mem s') pos fs) in Hframe.
  apply wp_bind. eapply wp_intro; [reflexivity|]. apply wp_bind. eapply wp_intro.
  { unfold on_out. cbn [sd_out]. fold s. by rewrite Hrun. }
  apply wp_bind, wp_mod, wp_ret. cbn [sd_out sd_kept sd_frames fst snd]. split; [done|].
  split; [|unfold next_sn at 1; cbn [sd_out]; rewrite Hsn; split; [lia|done]].
  split; unfold next_sn, wire; cbn [sd_out sd_kept sd_frames]; fold (next_sn d); rewrite ?Hsn; try done.
  - lia.
  - eapply Forall_impl; [exact H3|]. cbn. lia.
  - rewrite Hcalls, sent_of_app. apply Forall_app. split; [eapply Forall_impl; [exact H4|]; intros y Hy; eapply sent_as_more; [exact Hy|lia|done]|].
    assert (Hs : sent_of (SendPack m size :: fec ++ [SnTsEntry (next_sn d) (if negb (0 =? cur) then cur else now)]) = [(m, size)])
      by (by destruct Hfec as [->| ->]). rewrite Hs. constructor; [|constructor].
    exists (Arq.first_pack_sn_ (kp_node k)), (frame_at (kp_mem k) pos fs), (next_sn d). rewrite frame_at_length by lia. split_and!; try done; lia.
  - apply Forall_insert; [done|]. exists pos, fs. cbn [kp_mem kp_node]. destruct Hbuf as [Hb1 Hb2].
    split_and!; try done; try lia. by rewrite Hfirst, Hframe.
Qed.

(** A run: every call succeeds, and the frames are those handed over. *)
Lemma send_run_ok lo l : forall d, sender_ok lo d -> 0 <= lo -> next_sn d + Z.of_nat (length l) < 2 ^ 32 -> Forall step_ok l ->
  exists d', send_run l d = Some (replicate (length l) GTP_OK, d') /\ sender_ok lo d' /\
    next_sn d' <= next_sn d + Z.of_nat (length l) /\ (sd_frames d').*2 = (sd_frames d).*2 ++ frames_given l.
Proof.
  induction l as [|ev l IH]; intros d Hd Hlo Hlen Hl; [exists d; split_and!; try done; [cbn; lia|by rewrite app_nil_r]|].
  apply Forall_cons in Hl as [Hev Hl]. cbn [length] in Hlen. pose proof (sd_next _ _ Hd).
  assert (Hstep : wp (send_step ev) (fun r d1 => r = GTP_OK /\ sender_ok lo d1 /\ next_sn d1 <= next_sn d + 1 /\
      (sd_frames d1).*2 = (sd_frames d).*2 ++ frames_given [ev]) d).
  { destruct ev as [x pos fs now cur qos token token_id thr a|i x now cur].
    - eapply wp_mono; [by apply (new_frame_step lo); [..|lia|]|]. cbn beta. intros r d1 (E1 & E2 & E3 & E4). split_and!; try done; [lia|].
      by rewrite E4, fmap_app.
    - eapply wp_mono; [by apply (again_step lo); [..|lia|]|]. cbn beta. intros r d1 (E1 & E2 & E3 & E4). split_and!; try done.
      by rewrite E4, app_nil_r. }
  destruct (wp_total _ _ _ Hstep) as (r & d1 & Hrun & -> & Hd1 & Hn1 & Hf1).
  destruct (IH d1 Hd1 Hlo ltac:(lia) Hl) as (d' & Hrun' & Hd' & Hn' & Hf'). exists d'. split.
  { cbn [send_run length replicate]. unfold mbind, ST_bind. by rewrite Hrun, Hrun'. }
  split; [done|]. split; [cbn [length]; lia|]. rewrite Hf', Hf1, <- app_assoc. f_equal. change (ev :: l) with ([ev] ++ l).
  unfold frames_given. by rewrite omap_app.
Qed.

(** A session that has sent nothing. *)
Definition fresh_sender (s : OutSt) : Sender := mkSender s [] [].
Lemma fresh_sender_ok s : wire (fresh_sender s) = [] -> 0 <= pack_sn_ (out_sess s) < 2 ^ 32 -> sender_ok (pack_sn_ (out_sess s)) (fresh_sender s).
Proof. intros Hw Hsn. split; [unfold next_sn; cbn; lia|constructor|constructor|by rewrite Hw|constructor]. Qed.
End Run.
End SendRun.
