(* ===== verification/Feedback.v ===== *)
(** * Acknowledgements and nacks on the wire

    [WinSnBitmapCallback] (src/src/session/goodtp_session.cpp): the receiver
    turns a report of its window into an ack or a nack packet; the branches of
    [PackPostHandler] for these packets, and [ProcAckSnBitMap], read them at
    the sender.  A packet also carries the time stamp of the sender that came
    with a data packet, moved by the time the receiver held it. *)
From Stdlib Require Import Floats.SpecFloat.
From S2P Require Import Prelude PacketHeader LinkStat Frame FrameSend SlidWinState SlidWin SlidWinSend SlidWinRtt.
Export FrameSend SlidWinState SlidWin SlidWinSend SlidWinRtt.

Module Feedback.

Definition kGtpAckPackType : Z := 2.
Definition kGtpNackPackType : Z := 6.

(** The members the callback uses, and the packets it hands to the network. *)
Record FbSt := mkFb {
  fb_sess : SendSess;
  recv_session_stat_ : Z;
  ack_sn_ : Z;
  com_cache_ts_us_ : Z;
  at_com_cache_ts_us_ : Z;
  nack_burst_detected_ : Z;
  last_feedback_nack_ts_us_ : Z;
  fb_stat : LinkerStat;
  fb_sent : list (list Z * Z)
}.

(** [ack_sum_ += 1; net_pack_sum_ += 1; net_bitrate_sum_ += pack_size] *)
Definition count_ack (size : Z) (s : LinkerStat) : LinkerStat :=
  let s := count_net size s in
  mkStat (data_bitrate_sum_ s) (data_bitrate_bkup_ s) (net_bitrate_sum_ s) (net_bitrate_bkup_ s)
    (data_pack_sum_ s) (data_pack_bkup_ s) (net_pack_sum_ s) (net_pack_bkup_ s)
    (data_bitrate_bps_ s) (net_bitrate_bps_ s) (data_pack_pps_ s) (net_pack_pps_ s)
    (first_frame_sum_ s) (retran_frame_sum_ s) (u32 (ack_sum_ s + 1)) (last_calc_ts_us_ s).

(** The distance of a number from the head, as the callback computes it. *)
Definition sn_offset (head sn : Z) : Z :=
  u16 (if head <=? sn then sn - head else u32 (sn + (0xFFFFFFFF - head))).

(** [GtpAckPacketLoad] and [GtpNackPacketLoad], fourteen bytes. *)
Definition LOAD_SIZE : Z := 14.
Definition load_bytes (num tail_off rto_off head loss : Z) : list Z :=
  le_bytes 2 num ++ le_bytes 2 tail_off ++ le_bytes 2 rto_off ++ le_bytes 4 head ++ le_bytes 4 loss.

(** The time stamp of the peer, moved by the time since it came. *)
Definition held_stamp (now : Z) (s : FbSt) : Z :=
  let held := if at_com_cache_ts_us_ s <=? now then now - at_com_cache_ts_us_ s else at_com_cache_ts_us_ s - now in
  u64 (com_cache_ts_us_ s + held).
Definition stamp_due (s : FbSt) : bool := negb (0 =? com_cache_ts_us_ s).

(** The header: two bits keep what the stack held. *)
Definition feedback_header (junk : PackHeader) (s : FbSt) (type size : Z) : PackHeader := {|
  goodtp_ver := CalcRightGtpVer GTP_VERSION (peer_version_ (fb_sess s));
  header_offset := GTP_PACKET_SIZE + Z.of_nat (length (key_bytes (fb_sess s)));
  cache_us_flag := ind (stamp_due s);
  has_loss_flag := GTP_NO;
  pack_type := type;
  pack_size := u16 size mod 8192;
  pack_sn := ack_sn_ s;
  has_check_flag := if GTP_YES =? enable_key_ (fb_sess s) then GTP_YES else GTP_NO;
  has_ts_flag := GTP_NO;
  has_rtt_flag := GTP_NO;
  init_flag := if kRunning =? recv_session_stat_ s then GTP_NO else GTP_YES;
  repeat_counter := 0;
  is_qos_flg := GTP_NO;
  share_zone := 0;
  has_chg_zone := has_chg_zone junk;
  stream_type := stream_type junk
|}.

(** The packet before the conversion for an old peer. *)
Definition feedback_packet (now : Z) (junk : PackHeader) (s : FbSt) (type num head tail rto loss : Z) (body : list Z) : list Z * Z :=
  let stamp := if stamp_due s then le_bytes 8 (held_stamp now s) else [] in
  let size := GTP_PACKET_SIZE + Z.of_nat (length (key_bytes (fb_sess s))) + LOAD_SIZE + Z.of_nat (length stamp) + Z.of_nat (length body) in
  (encode_header (feedback_header junk s type size) ++ key_bytes (fb_sess s) ++
   load_bytes num (sn_offset head tail) (sn_offset head rto) head loss ++ stamp ++ body, size).

(** A nack or an ack goes out; what is not a report of the receiving window
    ([RptNetworkQuality]) is another callback's. *)
Definition feedback_of (now : Z) (junk : PackHeader) (r : WinReport) (s : FbSt) : option (list Z * Z) :=
  match r with
  | RptNack head tail loss num _ rto nack => Some (feedback_packet now junk s kGtpNackPackType num head tail rto loss (mjoin (le_bytes 2 <$> nack)))
  | RptAck head tail loss _ rto bits => Some (feedback_packet now junk s kGtpAckPackType (u16 (Z.of_nat (length bits))) head tail rto loss bits)
  | _ => None
  end.
Definition nack_burst (r : WinReport) (s : FbSt) : Z :=
  match r with RptNack _ _ _ num _ _ _ => if 3 <=? num then 1 else nack_burst_detected_ s | _ => nack_burst_detected_ s end.

Definition WinSnBitmapCallback (now : Z) (junk : PackHeader) (r : WinReport) (s : FbSt) : FbSt :=
  match feedback_of now junk r s with
  | None => s
  | Some (m, size) =>
      let wire := mem_store m 0 (le_bytes 4 (GtpHeaderNewToOld (load32 m 0) (peer_version_ (fb_sess s)))) in
      mkFb (fb_sess s) (recv_session_stat_ s) (u32 (ack_sn_ s + 1))
        (if stamp_due s then 0 else com_cache_ts_us_ s) (if stamp_due s then 0 else at_com_cache_ts_us_ s)
        (nack_burst r s) now (count_ack size (fb_stat s)) (fb_sent s ++ [(wire, size)])
  end.

(** ** Reading *)

(** The load of an ack or nack packet as [PackPostHandler] reads it. *)
Record FbLoad := mkLoad {
  fl_num : Z;
  fl_head_sn : Z;
  fl_tail_sn : Z;
  fl_rto_sn : Z;
  fl_loss : Z;
  fl_cache_us : option Z;
  fl_zone : Z
}.
Definition read_load (m : list Z) : FbLoad :=
  let h := parse_header m in
  let p := header_offset h in
  let head := load_at 4 m (p + 6) in
  let zone := p + LOAD_SIZE in
  let stamped := GTP_YES =? cache_us_flag h in
  mkLoad (load_at 2 m p) head (u32 (head + load_at 2 m (p + 2))) (u32 (head + load_at 2 m (p + 4))) (load_at 4 m (p + 10))
    (if stamped then Some (load_at 8 m zone) else None) (if stamped then zone + 8 else zone).

(** The round trip time of a stamped packet. *)
Definition stamp_rtt (now cache_us : Z) : Z := u32 (if cache_us <=? now then now - cache_us else cache_us - now).

(** The numbers of a nack. *)
Definition read_nack (m : list Z) (l : FbLoad) : list Z :=
  (fun i => load_at 2 m (fl_zone l + 2 * Z.of_nat i)) <$> seq 0 (Z.to_nat (fl_num l)).

(** Where the handler of a nack puts its [NackData], of 26 packed bytes: it ends
    where the numbers begin. *)
Definition NACK_DATA_SIZE : Z := 26.
Definition nack_data_pos (l : FbLoad) : Z := fl_zone l - NACK_DATA_SIZE.

(** ** The bitmap of an ack enters the sending window *)
Section Bitmap.
(** The width of a pointer, the bytes from the bitmap on; a word that is not
    whole in them is a fault. *)
Variable ptr_size : Z.
Variable ack_sn_bitmap : list Z.
Variable head_sn tail_sn ts_us : Z.
Local Abbreviation WM := (ST SlidWin).

Definition bitmap_word (n i : Z) : WM Z :=
  if n / 8 * (i + 1) <=? Z.of_nat (length ack_sn_bitmap) then
    mret (le_val (mem_load (Z.to_nat (n / 8)) ack_sn_bitmap (Z.to_nat (n / 8 * i))))
  else fault.

(** The numbers up to [tail_sn] are through, for words of [n] bits; [ack_sn] is
    the number behind the word. *)
Definition word_done (n ack_sn : Z) : bool :=
  if head_sn <=? tail_sn then (ack_sn <? u32 (ack_sn - n)) || (tail_sn <? ack_sn)
  else if ack_sn <? u32 (ack_sn - n) then tail_sn <? ack_sn
  else (tail_sn <? ack_sn) && (ack_sn <? head_sn).

(** [Some] of the number reached when the words are used up, [None] when the
    tail is passed. *)
Fixpoint word_loop (k : nat) (n outloop ack_sn : Z) : WM (option Z) :=
  match k with
  | O => mret (Some ack_sn)
  | S k' =>
      w ← bitmap_word n outloop;
      _ ← BlockSnEntryWin n w ack_sn ts_us GTP_NO;
      let ack_sn := u32 (ack_sn + n) in
      if word_done n ack_sn then mret None else word_loop k' n (outloop + 1) ack_sn
  end.

Definition bit_done (ack_sn : Z) : bool :=
  if head_sn <=? tail_sn then (ack_sn <? u32 (ack_sn - 1)) || (tail_sn <? ack_sn)
  else (tail_sn <? ack_sn) && (ack_sn <? head_sn).
Fixpoint byte_bits (k : nat) (byte bit ack_sn : Z) : WM (option Z) :=
  match k with
  | O => mret (Some ack_sn)
  | S k' =>
      _ ← when (Z.testbit byte bit) (_ ← SnEntryWin ack_sn ts_us SELF_YES; mret tt);
      let ack_sn := u32 (ack_sn + 1) in
      if bit_done ack_sn then mret None else byte_bits k' byte (bit + 1) ack_sn
  end.
Fixpoint byte_loop (k : nat) (outloop ack_sn : Z) : WM unit :=
  match k with
  | O => mret tt
  | S k' =>
      b ← deref (ack_sn_bitmap !! Z.to_nat outloop);
      r ← byte_bits 8 b 0 ack_sn;
      match r with None => mret tt | Some sn => byte_loop k' (outloop + 1) sn end
  end.

Definition ProcAckSnBitMap (bitmap_sz : Z) : WM Z :=
  let n := if 8 =? ptr_size then 64 else 32 in
  r ← word_loop (Z.to_nat (Z.shiftr bitmap_sz (if 8 =? ptr_size then 3 else 2))) n 0 head_sn;
  match r with
  | None => mret GTP_OK
  | Some ack_sn =>
      let low := Z.land bitmap_sz (if 8 =? ptr_size then 7 else 3) in
      if 0 =? low then _ ← CalcQualityByHandler ts_us GTP_NO; mret GTP_OK
      else _ ← byte_loop (Z.to_nat low) (bitmap_sz - low) ack_sn; mret GTP_OK
  end.
End Bitmap.

End Feedback.
