(* ===== verification/FeedbackRun.v ===== *)
(** * Feedback is read as it was meant

    What the sender reads from an ack or a nack is the report of the receiver's
    window, over the distances the code can express; behind the wrap-around of
    the numbers it reads a tail one short. *)
From Stdlib Require Import Floats.SpecFloat.
From S2P Require Import Prelude PacketHeader Float32 LinkStat Frame FrameSpec FrameRun FrameSend FrameSendRun SlidWinState Feedback.
Export FrameSendRun SlidWinState Feedback.

Module FeedbackRun.

(** ** Distances *)
Lemma sn_offset_range head sn : 0 <= sn_offset head sn < 65536.
Proof. apply u16_range. Qed.
Lemma sn_offset_ahead head sn : 0 <= head <= sn -> sn < 2 ^ 32 -> sn - head < 65536 -> u32 (head + sn_offset head sn) = sn.
Proof.
  intros Hh Hsn Hd. unfold sn_offset. rewrite (proj2 (Z.leb_le _ _)), u16_small by lia.
  rewrite u32_small by lia. lia.
Qed.
(** Across the wrap-around the distance is one short. *)
Lemma sn_offset_wrapped head sn : 0 <= sn < head -> head < 2 ^ 32 -> sn + 2 ^ 32 - head <= 65536 ->
  u32 (head + sn_offset head sn) = u32 (sn - 1).
Proof.
  intros Hsn Hh Hd. unfold sn_offset. rewrite (proj2 (Z.leb_gt _ _)) by lia.
  rewrite (u32_small (sn + _)), u16_small by lia. unfold u32. rewrite <- (Z.mod_add (sn - 1) 1 4294967296) by lia. f_equal. lia.
Qed.

(** ** The packet *)

(** The members of the session are within their widths, and so are the two
    bits the stack left. *)
Record fb_ok (junk : PackHeader) (s : FbSt) : Prop := {
  fo_peer : gtp_peer (fb_sess s);
  fo_sn : 0 <= ack_sn_ s < 2 ^ 32;
  fo_key : enable_key_ (fb_sess s) = GTP_YES -> 0 <= stream_key_ (fb_sess s) < 2 ^ 64;
  fo_zone : 0 <= has_chg_zone junk < 2;
  fo_stream : 0 <= stream_type junk < 2
}.

Section Packet.
Context (now : Z) (junk : PackHeader) (s : FbSt) (Hok : fb_ok junk s).
Context (type num head tail rto loss : Z) (body : list Z).
Context (Htype : 1 <= type < GtpPackTypeButt) (Hnum : 0 <= num < 65536) (Hhead : 0 <= head < 2 ^ 32)
  (Hloss : 0 <= loss < 2 ^ 32) (Hbody : bytes_ok body).

Local Abbreviation sess := (fb_sess s).
Local Abbreviation keyed := (GTP_YES =? enable_key_ sess).
Local Abbreviation pk := (feedback_packet now junk s type num head tail rto loss body).
Local Abbreviation stamp := (if stamp_due s then le_bytes 8 (held_stamp now s) else []).
Local Abbreviation key := (key_bytes sess).
Context (Hsize : pk.2 <= 4096).

Lemma key_length : Z.of_nat (length key) = opt_size keyed 8.
Proof. unfold key_bytes. by destruct keyed. Qed.
Lemma stamp_length : Z.of_nat (length stamp) = opt_size (stamp_due s) 8.
Proof. by destruct (stamp_due s). Qed.
Lemma load_length : length (load_bytes num (sn_offset head tail) (sn_offset head rto) head loss) = 14%nat.
Proof. done. Qed.

Local Abbreviation hdr := (feedback_header junk s type pk.2).
Lemma pk_bytes : pk.1 = encode_header hdr ++ key ++
  load_bytes num (sn_offset head tail) (sn_offset head rto) head loss ++ stamp ++ body.
Proof. done. Qed.
Lemma pk_length : Z.of_nat (length pk.1) = pk.2.
Proof.
  rewrite pk_bytes, !length_app, encode_header_length, load_length, !Nat2Z.inj_add.
  unfold feedback_packet, LOAD_SIZE, GTP_PACKET_SIZE. cbn [snd]. lia.
Qed.
Lemma pk_version : CalcRightGtpVer GTP_VERSION (peer_version_ sess) = wire_ver sess.
Proof. unfold wire_ver. by destruct Hok as [[-> | [-> | ->]] _ _ _ _]. Qed.

Lemma pk_size_eq : pk.2 = 10 + opt_size keyed 8 + 14 + opt_size (stamp_due s) 8 + Z.of_nat (length body).
Proof. unfold feedback_packet. cbn [snd]. rewrite key_length, stamp_length. done. Qed.
Lemma hdr_offset : header_offset hdr = 10 + opt_size keyed 8.
Proof. unfold feedback_header. cbn [header_offset]. by rewrite key_length. Qed.
Lemma opt8_range b : 0 <= opt_size b 8 <= 8.
Proof. destruct b; cbn; lia. Qed.
Lemma hdr_pack_size : pack_size hdr = pk.2.
Proof.
  unfold feedback_header. cbn [pack_size]. pose proof pk_size_eq as E. pose proof (opt8_range keyed).
  pose proof (opt8_range (stamp_due s)). rewrite u16_small, Z.mod_small; lia.
Qed.
Lemma fb_hdr_ok : header_ok hdr.
Proof.
  pose proof hdr_pack_size as E1. pose proof hdr_offset as E2. pose proof pk_version as E3. destruct Hok as [_ Hsn _ Hz Hst].
  pose proof (opt8_range keyed). pose proof pk_size_eq as E4. pose proof (opt8_range (stamp_due s)).
  unfold header_ok. rewrite E1, E2. unfold feedback_header. cbn [goodtp_ver cache_us_flag has_loss_flag pack_type pack_sn has_check_flag
    has_ts_flag has_rtt_flag init_flag repeat_counter is_qos_flg share_zone has_chg_zone stream_type].
  rewrite E3. unfold wire_ver, GTP_NO, GTP_YES, GtpPackTypeButt in *. pose proof (ind_range (stamp_due s)).
  destruct (peer_version_ sess =? 1), (1 =? enable_key_ sess), (kRunning =? recv_session_stat_ s); repeat split; lia.
Qed.
Lemma fb_pk_header : parse_header pk.1 = hdr.
Proof. rewrite pk_bytes. apply parse_header_app, fb_hdr_ok. Qed.

(** What the sender reads. *)
Lemma key_val : keyed = true -> check_of pk.1 = Some (u32 (Z.shiftr (stream_key_ sess) 32), u32 (Z.land (stream_key_ sess) 0xFFFFFFFF)).
Proof.
  intros Hk. unfold check_of. rewrite fb_pk_header.
  replace (has_check_flag hdr) with GTP_YES by (unfold feedback_header; cbn [has_check_flag]; by rewrite Hk).
  rewrite Z.eqb_refl. unfold off_check. replace (repeat_counter hdr) with 0 by done. cbn [Z.eqb negb opt_size].
  rewrite pk_bytes. unfold key_bytes. rewrite Hk. unfold GtpWriteStreamKey. rewrite <- !app_assoc.
  rewrite (load_at_mid 4 (encode_header hdr)); [|by rewrite encode_header_length|apply u32_range].
  rewrite app_assoc. rewrite (load_at_mid 4); [done| |apply u32_range].
  by rewrite length_app, encode_header_length, le_bytes_length.
Qed.

Lemma pk_load : read_load pk.1 =
  mkLoad num head (u32 (head + sn_offset head tail)) (u32 (head + sn_offset head rto)) loss
    (if stamp_due s then Some (held_stamp now s) else None) (pk.2 - Z.of_nat (length body)).
Proof.
  unfold read_load. rewrite fb_pk_header, hdr_offset. replace (GTP_YES =? cache_us_flag hdr) with (stamp_due s).
  2: { unfold feedback_header. cbn [cache_us_flag]. by rewrite ind_flag. }
  set (pre := encode_header hdr ++ key).
  assert (Hpre : Z.of_nat (length pre) = 10 + opt_size keyed 8).
  { unfold pre. rewrite length_app, encode_header_length, Nat2Z.inj_add, key_length. done. }
  assert (E : pk.1 = pre ++ le_bytes 2 num ++ le_bytes 2 (sn_offset head tail) ++ le_bytes 2 (sn_offset head rto) ++
     le_bytes 4 head ++ le_bytes 4 loss ++ stamp ++ body).
  { rewrite pk_bytes. unfold pre, load_bytes. by rewrite <- !app_assoc. }
  pose proof (sn_offset_range head tail). pose proof (sn_offset_range head rto). rewrite E.
  assert (L : forall n z p q off, pre ++ le_bytes 2 num ++ le_bytes 2 (sn_offset head tail) ++ le_bytes 2 (sn_offset head rto) ++
     le_bytes 4 head ++ le_bytes 4 loss ++ stamp ++ body = (pre ++ p) ++ le_bytes n z ++ q ->
     off = 10 + opt_size keyed 8 + Z.of_nat (length p) -> 0 <= z < 256 ^ Z.of_nat n ->
     load_at n (pre ++ le_bytes 2 num ++ le_bytes 2 (sn_offset head tail) ++ le_bytes 2 (sn_offset head rto) ++
     le_bytes 4 head ++ le_bytes 4 loss ++ stamp ++ body) off = z).
  { intros n z p q off -> Ho Hz. apply load_at_mid; [|done]. rewrite length_app, Nat2Z.inj_add. lia. }
  set (b2 := le_bytes 2 num ++ le_bytes 2 (sn_offset head tail)). set (b3 := b2 ++ le_bytes 2 (sn_offset head rto)).
  assert (Lh : load_at 4 (pre ++ le_bytes 2 num ++ le_bytes 2 (sn_offset head tail) ++ le_bytes 2 (sn_offset head rto) ++
     le_bytes 4 head ++ le_bytes 4 loss ++ stamp ++ body) (10 + opt_size keyed 8 + 6) = head)
    by (eapply (L _ _ b3); [by (unfold b3, b2; rewrite <- !app_assoc)|done|lia]).
  rewrite Lh. f_equal.
  - eapply (L 2%nat num []); [by rewrite app_nil_r|cbn; lia|lia].
  - f_equal. f_equal. eapply (L _ _ (le_bytes 2 num)); [by rewrite <- !app_assoc|done|lia].
  - f_equal. f_equal. eapply (L _ _ b2); [by (unfold b2; rewrite <- !app_assoc)|done|lia].
  - eapply (L _ _ (b3 ++ le_bytes 4 head)); [by (unfold b3, b2; rewrite <- !app_assoc)|done|lia].
  - destruct (stamp_due s) eqn:Hd; [|done]. f_equal.
    eapply (L 8%nat (held_stamp now s) (load_bytes num (sn_offset head tail) (sn_offset head rto) head loss));
      [by (unfold load_bytes; rewrite <- !app_assoc)|cbn; unfold LOAD_SIZE; lia|apply Z.mod_pos_bound; lia].
  - rewrite pk_size_eq. unfold LOAD_SIZE. destruct (stamp_due s); cbn [opt_size]; lia.
Qed.
(** The bytes behind the load and the stamp, and the checks of the receiver. *)
Lemma pk_pre : exists pre, pk.1 = pre ++ body /\ Z.of_nat (length pre) = pk.2 - Z.of_nat (length body).
Proof.
  exists (encode_header hdr ++ key ++ load_bytes num (sn_offset head tail) (sn_offset head rto) head loss ++ stamp).
  split; [by rewrite pk_bytes, <- !app_assoc|].
  pose proof pk_length as E. rewrite pk_bytes in E. rewrite !length_app, !Nat2Z.inj_add in *. lia.
Qed.
Lemma pk_bytes_ok : bytes_ok pk.1.
Proof.
  rewrite pk_bytes. unfold bytes_ok, encode_header, load_bytes, key_bytes, GtpWriteStreamKey. rewrite !Forall_app.
  split_and!; try apply le_bytes_ok; try done; [|by destruct (stamp_due s); [apply le_bytes_ok|constructor]].
  destruct keyed; [|constructor]. apply Forall_app. split; apply le_bytes_ok.
Qed.
Lemma pk_ok sys_id : wire_ver sess = 2 -> InnerCheckPacketInvalid sys_id pk.1 pk.2 = GTP_OK.
Proof.
  intros Hv. apply InnerCheck_iff; [apply pk_bytes_ok|]. unfold packet_accepted. rewrite fb_pk_header, hdr_pack_size, hdr_offset.
  pose proof pk_version as E. pose proof pk_size_eq. pose proof (opt8_range keyed). pose proof (opt8_range (stamp_due s)).
  unfold CalcHeaderOffset, feedback_header.
  cbn [pack_type goodtp_ver has_loss_flag has_check_flag has_ts_flag has_rtt_flag repeat_counter].
  rewrite E, Hv. unfold GTP_PACKET_SIZE, GTP_VERSION in *. split_and!; try lia.
  destruct keyed; cbn; lia.
Qed.
(** The conversion of the header leaves it alone. *)
Lemma pk_wire : mem_store pk.1 0 (le_bytes 4 (GtpHeaderNewToOld (load32 pk.1 0) (peer_version_ sess))) = pk.1.
Proof.
  unfold GtpHeaderNewToOld. assert ((peer_version_ sess =? 0) = false) as ->.
  { destruct Hok as [[-> | [-> | ->]] _ _ _ _]; done. }
  pose proof pk_length. pose proof pk_size_eq. pose proof (opt8_range keyed). pose proof (opt8_range (stamp_due s)).
  apply mem_store_same; [apply pk_bytes_ok|lia].
Qed.
End Packet.

Lemma read_words l : forall pre, Forall (fun z => 0 <= z < 65536) l ->
  (fun i => load_at 2 (pre ++ mjoin (le_bytes 2 <$> l)) (Z.of_nat (length pre) + 2 * Z.of_nat i)) <$> seq 0 (length l) = l.
Proof.
  induction l as [|z l IH]; intros pre Hl; [done|]. apply Forall_cons in Hl as [Hz Hl].
  cbn [length seq fmap list_fmap]. f_equal.
  - cbn [mjoin list_join]. apply load_at_mid; [lia|]. change (256 ^ Z.of_nat 2) with 65536. lia.
  - rewrite <- fmap_S_seq, <- list_fmap_compose. etransitivity; [|exact (IH (pre ++ le_bytes 2 z) Hl)].
    apply list_fmap_ext. intros i x _. unfold compose. cbn [mjoin list_join]. rewrite <- app_assoc, length_app, le_bytes_length.
    f_equal. lia.
Qed.

(** ** The callback *)

(** What an ack or a nack carries besides the numbers [head], [tail], [rto]. *)
Definition carried (r : WinReport) : option (Z * Z * Z * Z * Z * Z * list Z) :=
  match r with
  | RptNack head tail loss num _ rto nack => Some (kGtpNackPackType, num, head, tail, rto, loss, mjoin (le_bytes 2 <$> nack))
  | RptAck head tail loss _ rto bits => Some (kGtpAckPackType, u16 (Z.of_nat (length bits)), head, tail, rto, loss, bits)
  | _ => None
  end.

(** The report is within the widths of the load, and the packet within the array
    of 4096 bytes it is built in. *)
Record report_ok (r : WinReport) (type num head tail rto loss : Z) (body : list Z) : Prop := {
  ro_carried : carried r = Some (type, num, head, tail, rto, loss, body);
  ro_head : 0 <= head < 2 ^ 32;
  ro_loss : 0 <= loss < 2 ^ 32;
  ro_num : 0 <= num < 65536;
  ro_body : bytes_ok body;
  ro_size : Z.of_nat (length body) <= 4000
}.

Lemma callback_run now junk s r type num head tail rto loss body :
  fb_ok junk s -> report_ok r type num head tail rto loss body ->
  let p := feedback_packet now junk s type num head tail rto loss body in
  let s' := WinSnBitmapCallback now junk r s in
  fb_sent s' = fb_sent s ++ [p] /\ ack_sn_ s' = u32 (ack_sn_ s + 1) /\ com_cache_ts_us_ s' = 0 /\
  fb_sess s' = fb_sess s /\ 1 <= type < GtpPackTypeButt /\ p.2 <= 4096.
Proof.
  intros Hok [Hc Hh Hl Hn Hb Hsz] p s'. unfold s', WinSnBitmapCallback.
  assert (Ef : feedback_of now junk r s = Some p).
  { unfold p. destruct r; cbn in Hc; [done| |]; injection Hc; intros; subst; done. }
  assert (Ht : 1 <= type < GtpPackTypeButt).
  { destruct r; cbn in Hc; try done; injection Hc; intros; subst; unfold kGtpNackPackType, kGtpAckPackType, GtpPackTypeButt; lia. }
  assert (Hps : p.2 <= 4096).
  { unfold p. rewrite pk_size_eq. pose proof (opt8_range (GTP_YES =? enable_key_ (fb_sess s))).
    pose proof (opt8_range (stamp_due s)). lia. }
  rewrite Ef. destruct p as [m size] eqn:Ep. cbn [fb_sent ack_sn_ com_cache_ts_us_ fb_sess].
  assert (Ew : mem_store m 0 (le_bytes 4 (GtpHeaderNewToOld (load32 m 0) (peer_version_ (fb_sess s)))) = m).
  { replace m with p.1 by (by rewrite Ep). unfold p. by apply pk_wire. }
  rewrite Ew. split_and!; try done; try lia.
  unfold stamp_due. by destruct (Z.eqb_spec 0 (com_cache_ts_us_ s)).
Qed.

(** The packet is on its way; with the stamp that came last. *)
Definition stamp_of (now : Z) (s : FbSt) : option Z := if stamp_due s then Some (held_stamp now s) else None.

(** C6: An ack or a nack leaves as the report and is read as it was written.
    For a report of the receiver's window whose numbers do not wrap around and
    span less than 65536 ([feedback_wrap_short] is the other case),
    [WinSnBitmapCallback] sends one packet; the receiver of the packet reads
    from it the type, the stream key, the range and the loss of the report, the
    missing packets of a nack or the bytes of the bitmap of an ack, and the time
    stamp the session held, and accepts it if its header has version 2; the
    session holds the stamp no more.  What the sending window then makes of the
    words of the bitmap is another matter ([block_word_by_lowest_bit]). *)
Theorem feedback_roundtrip sys_id now junk s r type num head tail rto loss body :
  fb_ok junk s -> report_ok r type num head tail rto loss body ->
  head <= tail < 2 ^ 32 -> tail - head < 65536 -> head <= rto < 2 ^ 32 -> rto - head < 65536 ->
  let s' := WinSnBitmapCallback now junk r s in
  exists m,
    fb_sent s' = fb_sent s ++ [(m, Z.of_nat (length m))] /\ ack_sn_ s' = u32 (ack_sn_ s + 1) /\ com_cache_ts_us_ s' = 0 /\
    pack_type (parse_header m) = type /\ pack_sn (parse_header m) = ack_sn_ s /\
    (wire_ver (fb_sess s) = 2 -> InnerCheckPacketInvalid sys_id m (Z.of_nat (length m)) = GTP_OK) /\
    (enable_key_ (fb_sess s) = GTP_YES ->
     check_of m = Some (u32 (Z.shiftr (stream_key_ (fb_sess s)) 32), u32 (Z.land (stream_key_ (fb_sess s)) 0xFFFFFFFF))) /\
    let l := read_load m in
    l = mkLoad num head tail rto loss (stamp_of now s) (fl_zone l) /\
    match r with
    | RptNack _ _ _ _ _ _ nack => Forall (fun z => 0 <= z < 65536) nack -> num = Z.of_nat (length nack) -> read_nack m l = nack
    | _ => mem_load (length body) m (Z.to_nat (fl_zone l)) = body
    end.
Proof.
  intros Hok Hr Ht Htd Hrto Hrd s'.
  destruct (callback_run now junk s r type num head tail rto loss body Hok Hr) as (Hs & Hsn & Hc & _ & Hty & Hps).
  destruct Hr as [Hcar Hh Hl Hn Hb Hsz].
  pose proof (pk_length now junk s type num head tail rto loss body) as El.
  destruct (pk_pre now junk s type num head tail rto loss body) as (pre & Epre & Hpre).
  pose proof (pk_load now junk s Hok type num head tail rto loss body Hty Hn Hh Hl Hps) as Eload.
  rewrite (sn_offset_ahead head tail), (sn_offset_ahead head rto) in Eload by lia. rewrite <- Hpre in Eload.
  exists (feedback_packet now junk s type num head tail rto loss body).1. rewrite El, <- surjective_pairing.
  cbv zeta. rewrite Eload, fb_pk_header by done. split_and!; try done.
  - intros Hv. by apply pk_ok.
  - intros Hk. apply key_val; try done. by rewrite Hk.
  - clear s' Hs Hsn Hc. destruct r as [|h0 t0 l0 n0 c0 rt0 nack|h0 t0 l0 c0 rt0 bits]; cbn in Hcar; [done| |].
    + intros Hnack En. unfold read_nack. cbn [fl_zone fl_num]. rewrite Epre. injection Hcar; intros; subst body.
      rewrite En, Nat2Z.id. by apply read_words.
    + cbn [fl_zone]. rewrite Epre, Nat2Z.id, mem_load_app_r, Nat.sub_diag by lia.
      pose proof (mem_load_app_l (length body) body [] eq_refl) as E. by rewrite app_nil_r in E.
Qed.

(** Behind the wrap-around of the numbers the sender reads a range that is
    one short: the receiver computes the distance of the tail from the head as
    [tail + (0xFFFFFFFF - head)]. *)
Theorem feedback_wrap_short now junk s r type num head tail rto loss body :
  fb_ok junk s -> report_ok r type num head tail rto loss body ->
  0 <= tail < head -> tail + 2 ^ 32 - head <= 65536 ->
  exists m size, fb_sent (WinSnBitmapCallback now junk r s) = fb_sent s ++ [(m, size)] /\
    fl_head_sn (read_load m) = head /\ fl_tail_sn (read_load m) = u32 (tail - 1).
Proof.
  intros Hok Hr Ht Hd.
  destruct (callback_run now junk s r type num head tail rto loss body Hok Hr) as (Hs & _ & _ & _ & Hty & Hps).
  destruct Hr as [Hcar Hh Hl Hn Hb Hsz]. destruct (feedback_packet _ _ _ _ _ _ _ _ _ _) as [m size] eqn:Ep.
  exists m, size. split; [done|].
  pose proof (pk_load now junk s Hok type num head tail rto loss body Hty Hn Hh Hl) as E. rewrite Ep in E.
  cbn [fst snd] in E. rewrite E by done. cbn [fl_head_sn fl_tail_sn]. split; [done|]. apply sn_offset_wrapped; lia.
Qed.

(** ** Instances *)
Definition demo_fb : FbSt := mkFb (demo_sess 2 0) kRunning 7 5000 6000 0 0 (stat_ctor 0) [].
Definition demo_junk : PackHeader := parse_words 0 0 0.
Lemma demo_fb_ok : fb_ok demo_junk demo_fb.
Proof. split; cbn; try lia; try done. by right; right. Qed.

Example feedback_roundtrip_witness :
  let s' := WinSnBitmapCallback 9000 demo_junk (RptNack 100 140 3 2 0 150 [5; 300]) demo_fb in
  exists m,
    fb_sent s' = [] ++ [(m, Z.of_nat (length m))] /\ ack_sn_ s' = 8 /\ com_cache_ts_us_ s' = 0 /\
    pack_type (parse_header m) = 6 /\ pack_sn (parse_header m) = 7 /\
    (2 = 2 -> InnerCheckPacketInvalid 1 m (Z.of_nat (length m)) = GTP_OK) /\
    (enable_key_ (demo_sess 2 0) = GTP_YES -> check_of m = Some (u32 (Z.shiftr (stream_key_ (demo_sess 2 0)) 32), u32 (Z.land (stream_key_ (demo_sess 2 0)) 0xFFFFFFFF))) /\
    let l := read_load m in
    l = mkLoad 2 100 140 150 3 (Some 8000) (fl_zone l) /\
    (Forall (fun z => 0 <= z < 65536) [5; 300] -> 2 = Z.of_nat (length [5; 300]) -> read_nack m l = [5; 300]).
Proof.
  apply (feedback_roundtrip 1 9000 demo_junk demo_fb (RptNack 100 140 3 2 0 150 [5; 300]) 6 2 100 140 150 3 [5; 0; 44; 1]);
    try lia; [exact demo_fb_ok|]. split; cbn; try lia; [done|]. repeat constructor; lia.
Defined.

Example feedback_wrap_short_witness :
  exists m size, fb_sent (WinSnBitmapCallback 9000 demo_junk (RptAck 4294967290 9 0 0 9 [255; 255]) demo_fb) = [] ++ [(m, size)] /\
    fl_head_sn (read_load m) = 4294967290 /\ fl_tail_sn (read_load m) = 8.
Proof.
  apply (feedback_wrap_short 9000 demo_junk demo_fb (RptAck 4294967290 9 0 0 9 [255; 255]) 2 2 4294967290 9 9 0 [255; 255]);
    try lia; [exact demo_fb_ok|]. split; cbn; try lia; [done|]. repeat constructor; lia.
Defined.

End FeedbackRun.
