(* ===== verification/Factor.v ===== *)
(** * The factor of the loss report

    [FactorCalculation] and [EWMA] (src/src/session/goodtp_factorcalulation.cpp
    and .h): a factor grows by multiplication while nothing is lost and shrinks
    by subtraction while the loss rate rises; a ring keeps the latest values for
    a weighted average, and what goes out is its inverse. *)
From Stdlib Require Import Floats.SpecFloat.
From S2P Require Import Prelude Float32.
Export Float32.

Module Factor.

Definition SF_MAX_NUM : Z := 16.
Definition SD_TIMEOUT_US : Z := 5000000.
Definition DEFAULT_BETA : spec_float := lit32 82 100.
Definition DEFALUT_FACTOR_1 : spec_float := lit32 2 10.
Definition MIN_FACTOR_1 : spec_float := lit32 1 10.
Definition DEFAULT_MI_F : spec_float := f32_of_Z 4.
Definition DEFAULT_AD_F : spec_float := f32_of_Z 1.
Definition MIN_FACTOR_A : spec_float := f32_of_Z 1.
Definition MAX_FACTOR_A : spec_float := f32_of_Z 10.

Record SendingFrequence := mkSf { timestamp_us : Z; factorA : spec_float }.
Record EWMA := mkEwma { arr : list SendingFrequence; beta_ : spec_float; tail_ : Z; head_ : Z; size_ : Z }.
Definition Sf_Reset : SendingFrequence := mkSf 0 (f32_of_Z 0).

(** [i] grows while [pow(beta, i) >= exp(-1)], up to [SF_MAX_NUM]; the power is
    that of double precision by repeated multiplication. *)
Definition exp_m1 : spec_float := lit64 36787944117144233 100000000000000000.
Fixpoint ewma_window (k : nat) (beta p : spec_float) (i : Z) : Z :=
  match k with
  | O => i
  | S k' => if SFltb p exp_m1 then i else ewma_window k' beta (SFmul 53 1024 p beta) (i + 1)
  end.
Definition ewma_ctor (beta : spec_float) : EWMA :=
  mkEwma (replicate (Z.to_nat SF_MAX_NUM) Sf_Reset) beta 0 0
    (ewma_window (Z.to_nat SF_MAX_NUM) (f64_of_f32 beta) (f64_of_Z 1) 0).

(** [Next] and [Prev] compute in [int], to which the 16-bit operands are promoted. *)
Definition Next (w : EWMA) (index : Z) : Z := (index + 1) mod (size_ w + 1).
Definition Prev (w : EWMA) (index : Z) : Z := (index + size_ w) mod (size_ w + 1).
Definition Full (w : EWMA) : bool := Next w (tail_ w) =? head_ w.
Definition Empty (w : EWMA) : bool := tail_ w =? head_ w.

Definition put_ring a t h w := mkEwma a (beta_ w) t h (size_ w).

Definition NewSendingFreq (sf : SendingFrequence) (w : EWMA) : option EWMA :=
  if bool_decide (is_Some (arr w !! Z.to_nat (tail_ w))) then
    let w := put_ring (<[Z.to_nat (tail_ w) := sf]> (arr w)) (tail_ w) (head_ w) w in
    let w := if Full w then put_ring (arr w) (tail_ w) (Next w (head_ w)) w else w in
    Some (put_ring (arr w) (Next w (tail_ w)) (head_ w) w)
  else None.

(** The loop looks at [size_] slots from the head on, and moves the head by one
    for each that is old. *)
Fixpoint clear_loop (k : nat) (now index : Z) (w : EWMA) : option EWMA :=
  match k with
  | O => Some w
  | S k' =>
      match arr w !! Z.to_nat index with
      | None => None
      | Some sf =>
          let w' := if SD_TIMEOUT_US <? u64 (now - timestamp_us sf)
                    then put_ring (arr w) (tail_ w) (Next w (head_ w)) w else w in
          clear_loop k' now (Next w index) w'
      end
  end.
Definition ClearTimeoutSendingFreq (now : Z) (w : EWMA) : option EWMA :=
  if Empty w then Some w else clear_loop (Z.to_nat (size_ w)) now (head_ w) w.

(** [fuel] bounds the depth of the recursion. *)
Fixpoint Formula (fuel : nat) (temp_tail : Z) (w : EWMA) : option spec_float :=
  let p := Prev w temp_tail in
  match arr w !! Z.to_nat p with
  | None => None
  | Some sf =>
      if negb (p =? head_ w) then
        match fuel with
        | O => None
        | S fuel' =>
            match Formula fuel' p w with
            | None => None
            | Some x => Some (f32_add (f32_mul (beta_ w) x) (f32_mul (f32_sub (f32_of_Z 1) (beta_ w)) (factorA sf)))
            end
        end
      else Some (factorA sf)
  end.

Definition NewFactor (now : Z) (sf : SendingFrequence) (w : EWMA) : option (spec_float * EWMA) :=
  match ClearTimeoutSendingFreq now w with
  | None => None
  | Some w =>
      match NewSendingFreq sf w with
      | None => None
      | Some w => match Formula (Z.to_nat (size_ w)) (tail_ w) w with None => None | Some f => Some (f, w) end
      end
  end.

Inductive SendingFrequenceAdjustType := kMultiplicativeIncrease | kAdditiveDecrease | kKeep | kFullSpeed.

Record FactorCalculation := mkFac {
  mi_f : spec_float;
  ad_f : spec_float;
  factorA_ : spec_float;
  feedback_link_loss_ : spec_float;
  ewma_ : EWMA
}.
Definition put_factorA f c := mkFac (mi_f c) (ad_f c) f (feedback_link_loss_ c) (ewma_ c).
Definition put_link_loss l c := mkFac (mi_f c) (ad_f c) (factorA_ c) l (ewma_ c).
Definition put_ewma w c := mkFac (mi_f c) (ad_f c) (factorA_ c) (feedback_link_loss_ c) w.

Definition fac_ctor : FactorCalculation :=
  mkFac DEFAULT_MI_F DEFAULT_AD_F (f32_div (f32_of_Z 1) DEFALUT_FACTOR_1) (f32_of_Z 0) (ewma_ctor DEFAULT_BETA).

Definition AdditiveDecreaseFactorA (c : FactorCalculation) : FactorCalculation :=
  let d := f32_sub (factorA_ c) (ad_f c) in
  put_factorA (if SFltb MIN_FACTOR_A d then d else MIN_FACTOR_A) c.
Definition MultiplicativeIncreaseFactorA (c : FactorCalculation) : FactorCalculation :=
  let p := f32_mul (factorA_ c) (mi_f c) in
  put_factorA (if SFleb MAX_FACTOR_A p then MAX_FACTOR_A else p) c.

Definition AdjustType (loss_rate : spec_float) (c : FactorCalculation) : SendingFrequenceAdjustType :=
  if SFeqb loss_rate (f32_of_Z 0) then kMultiplicativeIncrease
  else if SFleb (f32_of_Z 0) (f32_sub loss_rate (feedback_link_loss_ c)) then kAdditiveDecrease
  else kKeep.

(** [now] is the answer of [GtpSysTimestampUs]. *)
Definition Factor1 (now : Z) (loss_rate : spec_float) (ts_us : Z) (c : FactorCalculation) : option (spec_float * FactorCalculation) :=
  if SFltb loss_rate (f32_of_Z 0) || lit_lt_f 100 1 loss_rate then Some (DEFALUT_FACTOR_1, c)
  else
    let smooth (c : FactorCalculation) :=
      match NewFactor now (mkSf ts_us (factorA_ c)) (ewma_ c) with
      | None => None
      | Some (f, w) => Some (f32_div (f32_of_Z 1) f, put_link_loss loss_rate (put_ewma w c))
      end in
    match AdjustType loss_rate c with
    | kAdditiveDecrease => smooth (AdditiveDecreaseFactorA c)
    | kMultiplicativeIncrease => smooth (MultiplicativeIncreaseFactorA c)
    | kKeep => smooth c
    | kFullSpeed => Some (MIN_FACTOR_1, put_factorA MAX_FACTOR_A (put_link_loss loss_rate c))
    end.

Definition SetCfg1 (mi ad beta : spec_float) (c : FactorCalculation) : FactorCalculation :=
  let w := ewma_ c in
  mkFac mi ad (factorA_ c) (feedback_link_loss_ c) (mkEwma (arr w) beta (tail_ w) (head_ w) (size_ w)).

(** ** Every call returns and keeps the factor in its range *)

(** The ring of the default configuration. *)
Record ring_ok (w : EWMA) : Prop := {
  rg_len : length (arr w) = 16%nat;
  rg_size : size_ w = 6;
  rg_tail : 0 <= tail_ w <= 6;
  rg_head : 0 <= head_ w <= 6
}.
(** The factor is a whole number from 1 to 10. *)
Record fac_ok (c : FactorCalculation) : Prop := {
  fc_mi : mi_f c = DEFAULT_MI_F;
  fc_ad : ad_f c = DEFAULT_AD_F;
  fc_factor : exists k, (1 <= k <= 10)%nat /\ factorA_ c = f32_of_Z (Z.of_nat k);
  fc_ring : ring_ok (ewma_ c)
}.

Lemma Next_range w i : size_ w = 6 -> 0 <= Next w i <= 6.
Proof. unfold Next. intros ->. pose proof (Z.mod_pos_bound (i + 1) (6 + 1) ltac:(lia)). lia. Qed.
Lemma slot_there w i : ring_ok w -> 0 <= i <= 6 -> exists sf, arr w !! Z.to_nat i = Some sf.
Proof. intros [Hl _ _ _] Hi. apply (lookup_Z_range _ i 16); [done|lia]. Qed.
Lemma ring_put w a t h : ring_ok w -> length a = 16%nat -> 0 <= t <= 6 -> 0 <= h <= 6 -> ring_ok (put_ring a t h w).
Proof. intros [_ Hs _ _] Ha Ht Hh. by split. Qed.

Lemma clear_loop_ok k : forall now i w, ring_ok w -> 0 <= i <= 6 -> exists w', clear_loop k now i w = Some w' /\ ring_ok w'.
Proof.
  induction k as [|k IH]; intros now i w Hw Hi; [by exists w|]. cbn [clear_loop].
  destruct (slot_there w i Hw Hi) as (sf & ->). apply IH; [|by apply Next_range, Hw].
  destruct (SD_TIMEOUT_US <? _); [|done]. apply ring_put; [done|apply Hw|apply Hw|by apply Next_range, Hw].
Qed.
Lemma clear_ok now w : ring_ok w -> exists w', ClearTimeoutSendingFreq now w = Some w' /\ ring_ok w'.
Proof.
  intros Hw. unfold ClearTimeoutSendingFreq. destruct (Empty w); [by exists w|]. apply clear_loop_ok; [done|apply Hw].
Qed.
Lemma new_freq_ok sf w : ring_ok w -> exists w', NewSendingFreq sf w = Some w' /\ ring_ok w'.
Proof.
  intros Hw. unfold NewSendingFreq. destruct (slot_there w (tail_ w) Hw (rg_tail _ Hw)) as (x & Hx).
  rewrite bool_decide_true by (by exists x). set (w1 := put_ring _ _ _ w).
  assert (H1 : ring_ok w1) by (apply ring_put; [done|rewrite length_insert; apply Hw|apply Hw|apply Hw]).
  set (w2 := if Full w1 then _ else w1). assert (H2 : ring_ok w2).
  { unfold w2. destruct (Full w1); [|done]. apply ring_put; [done|apply H1|apply H1|by apply Next_range, H1]. }
  eexists. split; [done|]. apply ring_put; [done|apply H2|by apply Next_range, H2|apply H2].
Qed.

(** The recursion of the average meets the head after as many steps as there
    are slots between. *)
Lemma Formula_ok fuel : forall t w, ring_ok w -> 0 <= t <= 6 -> (t - 1 - head_ w) mod 7 <= Z.of_nat fuel ->
  exists f, Formula fuel t w = Some f.
Proof.
  induction fuel as [|fuel IH]; intros t w Hw Ht Hd; cbn [Formula];
    assert (Hp : Prev w t = (t + 6) mod 7) by (unfold Prev; by rewrite (rg_size _ Hw));
    pose proof (Z.mod_pos_bound (t + 6) 7 ltac:(lia)) as Hr; rewrite <- Hp in Hr;
    destruct (slot_there w (Prev w t) Hw ltac:(lia)) as (sf & ->);
    destruct (Z.eqb_spec (Prev w t) (head_ w)) as [He|Hne]; cbn [negb]; [eauto| |eauto|].
  - exfalso. pose proof (rg_head _ Hw). apply Hne. rewrite Hp.
    pose proof (Z.mod_pos_bound (t - 1 - head_ w) 7 ltac:(lia)). assert (H7 : (t - 1 - head_ w) mod 7 = 0) by lia.
    apply Z.mod_divide in H7 as [q Hq]; [|lia]. replace (t + 6) with (head_ w + (q + 1) * 7) by lia.
    rewrite Z.mod_add by lia. apply Z.mod_small. lia.
  - assert (Hd' : (Prev w t - 1 - head_ w) mod 7 <= Z.of_nat fuel).
    { pose proof (rg_head _ Hw).
      assert (E : (Prev w t - 1 - head_ w) mod 7 = (t - 1 - head_ w - 1) mod 7).
      { rewrite Hp. rewrite <- Z.sub_add_distr, Zminus_mod_idemp_l. replace (t + 6 - (1 + head_ w)) with (t - 1 - head_ w - 1 + 1 * 7) by lia.
        by rewrite Z.mod_add by lia. }
      rewrite E. set (x := t - 1 - head_ w) in *. pose proof (Z.mod_pos_bound x 7 ltac:(lia)).
      destruct (Z.eq_dec (x mod 7) 0) as [H7|H7].
      - exfalso. apply Hne. rewrite Hp. apply Z.mod_divide in H7 as [q Hq]; [|lia].
        replace (t + 6) with (head_ w + (q + 1) * 7) by lia. rewrite Z.mod_add by lia. apply Z.mod_small. lia.
      - rewrite <- Zminus_mod_idemp_l, Z.mod_small by lia. lia. }
    destruct (IH (Prev w t) w Hw ltac:(lia) Hd') as (f & ->). eauto.
Qed.

Lemma NewFactor_ok now sf w : ring_ok w -> exists f w', NewFactor now sf w = Some (f, w') /\ ring_ok w'.
Proof.
  intros Hw. unfold NewFactor. destruct (clear_ok now w Hw) as (w1 & -> & H1). destruct (new_freq_ok sf w1 H1) as (w2 & -> & H2).
  destruct (Formula_ok (Z.to_nat (size_ w2)) (tail_ w2) w2 H2 (rg_tail _ H2)) as (f & ->); [|by exists f, w2].
  rewrite (rg_size _ H2). pose proof (Z.mod_pos_bound (tail_ w2 - 1 - head_ w2) 7 ltac:(lia)). lia.
Qed.

(** The two adjustments on whole numbers. *)
Lemma decrease_table k : (1 <= k <= 10)%nat ->
  let d := f32_sub (f32_of_Z (Z.of_nat k)) DEFAULT_AD_F in
  (if SFltb MIN_FACTOR_A d then d else MIN_FACTOR_A) = f32_of_Z (Z.of_nat (Nat.max 1 (k - 1))).
Proof. intros Hk. do 11 (destruct k as [|k]; [first [lia|by vm_compute]|]). lia. Qed.
Lemma increase_table k : (1 <= k <= 10)%nat ->
  let p := f32_mul (f32_of_Z (Z.of_nat k)) DEFAULT_MI_F in
  (if SFleb MAX_FACTOR_A p then MAX_FACTOR_A else p) = f32_of_Z (Z.of_nat (Nat.min 10 (4 * k))).
Proof. intros Hk. do 11 (destruct k as [|k]; [first [lia|by vm_compute]|]). lia. Qed.

(** The factor after a report of the loss rate [loss] that follows one of [prev]. *)
Definition next_factor (loss prev : spec_float) (k : nat) : nat :=
  if SFeqb loss (f32_of_Z 0) then Nat.min 10 (4 * k)
  else if SFleb (f32_of_Z 0) (f32_sub loss prev) then Nat.max 1 (k - 1)
  else k.
Lemma next_factor_range loss prev k : (1 <= k <= 10)%nat -> (1 <= next_factor loss prev k <= 10)%nat.
Proof. intros Hk. unfold next_factor. repeat case_match; lia. Qed.

Lemma Factor1_run now loss ts k c :
  fac_ok c -> factorA_ c = f32_of_Z (Z.of_nat k) -> (1 <= k <= 10)%nat ->
  SFltb loss (f32_of_Z 0) = false -> lit_lt_f 100 1 loss = false ->
  exists f c', Factor1 now loss ts c = Some (f, c') /\ fac_ok c' /\
    factorA_ c' = f32_of_Z (Z.of_nat (next_factor loss (feedback_link_loss_ c) k)) /\ feedback_link_loss_ c' = loss.
Proof.
  intros Hc Hk Hr H0 H1. unfold Factor1. rewrite H0, H1. cbn [orb].
  set (k' := next_factor loss (feedback_link_loss_ c) k).
  assert (S : forall c1, mi_f c1 = mi_f c -> ad_f c1 = ad_f c -> ewma_ c1 = ewma_ c ->
    factorA_ c1 = f32_of_Z (Z.of_nat k') ->
    exists f c', match NewFactor now (mkSf ts (factorA_ c1)) (ewma_ c1) with
      | None => None | Some (f, w) => Some (f32_div (f32_of_Z 1) f, put_link_loss loss (put_ewma w c1)) end = Some (f, c') /\
      fac_ok c' /\ factorA_ c' = f32_of_Z (Z.of_nat k') /\ feedback_link_loss_ c' = loss).
  { intros c1 E1 E2 E3 E4. rewrite E3. destruct (NewFactor_ok now (mkSf ts (factorA_ c1)) (ewma_ c) (fc_ring _ Hc)) as (f & w & -> & Hw).
    do 2 eexists. split; [reflexivity|]. destruct Hc as [M A _ _]. split_and!; try done.
    split; [by rewrite <- M, <- E1|by rewrite <- A, <- E2| |exact Hw]. exists k'. split; [by apply next_factor_range|exact E4]. }
  destruct Hc as [M A F R]. unfold AdjustType. unfold k', next_factor in *.
  destruct (SFeqb loss (f32_of_Z 0)); [|destruct (SFleb (f32_of_Z 0) _)]; apply S; try done.
  - cbn. rewrite Hk, M. by apply increase_table.
  - cbn. rewrite Hk, A. by apply decrease_table.
Qed.
(** Whatever the loss rate, there is an answer. *)
Lemma Factor1_some now loss ts c : fac_ok c -> exists f c', Factor1 now loss ts c = Some (f, c') /\ fac_ok c'.
Proof.
  intros Hc. destruct (fc_factor _ Hc) as (k & Hr & Hk).
  destruct (SFltb loss (f32_of_Z 0)) eqn:E0; [|destruct (lit_lt_f 100 1 loss) eqn:E1].
  - exists DEFALUT_FACTOR_1, c. unfold Factor1. by rewrite E0.
  - exists DEFALUT_FACTOR_1, c. unfold Factor1. by rewrite E0, E1.
  - destruct (Factor1_run now loss ts k c Hc Hk Hr E0 E1) as (f & c' & Hrun & Hok & _). by exists f, c'.
Qed.

(** [Factor1] with the default configuration always returns, on any loss rate,
    not-a-number included, and any time: it never reads outside the ring and
    the recursion of the average ends after at most seven steps.  Outside
    [0, 100] it answers 0.2 and changes nothing; otherwise the factor stays a
    whole number from 1 to 10 that is multiplied by four (at most 10) when the
    rate is zero, one less (at least 1) when it is not below the last one, and
    kept otherwise, and the rate is remembered. *)
Theorem Factor1_total now loss ts k c :
  fac_ok c -> factorA_ c = f32_of_Z (Z.of_nat k) -> (1 <= k <= 10)%nat ->
  exists f c', Factor1 now loss ts c = Some (f, c') /\ fac_ok c' /\
    if SFltb loss (f32_of_Z 0) || lit_lt_f 100 1 loss then f = DEFALUT_FACTOR_1 /\ c' = c
    else feedback_link_loss_ c' = loss /\
      factorA_ c' = f32_of_Z (Z.of_nat (
        if SFeqb loss (f32_of_Z 0) then Nat.min 10 (4 * k)
        else if SFleb (f32_of_Z 0) (f32_sub loss (feedback_link_loss_ c)) then Nat.max 1 (k - 1)
        else k)).
Proof.
  intros Hc Hk Hr. destruct (SFltb loss (f32_of_Z 0)) eqn:E0; [|destruct (lit_lt_f 100 1 loss) eqn:E1]; cbn [orb].
  - exists DEFALUT_FACTOR_1, c. unfold Factor1. by rewrite E0.
  - exists DEFALUT_FACTOR_1, c. unfold Factor1. by rewrite E0, E1.
  - destruct (Factor1_run now loss ts k c Hc Hk Hr E0 E1) as (f & c' & ? & ? & ? & ?). by exists f, c'.
Qed.

(** A report without loss, at the time the clock shows. *)
Definition report (now : Z) (c : FactorCalculation) : option (spec_float * FactorCalculation) := Factor1 now (f32_of_Z 0) now c.

(** The ring after the first report of the factor 10, with its ends at [t] and [h]. *)
Definition ring_of (ts t h : Z) : EWMA :=
  mkEwma (mkSf ts (f32_of_Z 10) :: replicate 15 Sf_Reset) DEFAULT_BETA t h 6.
Lemma clear_step k now i w sf b : arr w !! Z.to_nat i = Some sf -> (SD_TIMEOUT_US <? u64 (now - timestamp_us sf)) = b ->
  clear_loop (S k) now i w = clear_loop k now (Next w i) (if b then put_ring (arr w) (tail_ w) (Next w (head_ w)) w else w).
Proof. intros H1 H2. cbn [clear_loop]. by rewrite H1, H2. Qed.
Lemma first_report t1 : exists f1 c1, report t1 fac_ctor = Some (f1, c1) /\ SFeqb f1 MIN_FACTOR_1 = true /\
  c1 = mkFac DEFAULT_MI_F DEFAULT_AD_F (f32_of_Z 10) (f32_of_Z 0) (ring_of t1 1 0).
Proof. do 2 eexists. split; [vm_compute; reflexivity|]. split; vm_compute; reflexivity. Qed.

(** The average counts slots that nothing was written to.  Two reports
    without loss less than five seconds apart: the factor is 10 at both; the
    first call answers 1/10 as it should, the second answers more than 3/10,
    since the empty slots behind the first report look old and the head of the
    ring moves past its tail. *)
Theorem Factor1_counts_empty t1 t2 :
  SD_TIMEOUT_US < t1 -> t1 <= t2 <= t1 + SD_TIMEOUT_US -> t2 < 2 ^ 64 ->
  exists f1 c1 f2 c2,
    report t1 fac_ctor = Some (f1, c1) /\ report t2 c1 = Some (f2, c2) /\
    factorA_ c1 = f32_of_Z 10 /\ factorA_ c2 = f32_of_Z 10 /\
    SFeqb f1 MIN_FACTOR_1 = true /\ SFltb (lit32 3 10) f2 = true /\ head_ (ewma_ c2) = 5 /\ tail_ (ewma_ c2) = 2.
Proof.
  intros H1 H2 H3. destruct (first_report t1) as (f1 & c1 & R1 & Ef & ->).
  assert (C : ClearTimeoutSendingFreq t2 (ring_of t1 1 0) = Some (ring_of t1 1 5)).
  { unfold ClearTimeoutSendingFreq. change (Empty (ring_of t1 1 0)) with false. cbn iota.
    change (Z.to_nat (size_ (ring_of t1 1 0))) with 6%nat. unfold SD_TIMEOUT_US in H1, H2.
    assert (Hnew : (SD_TIMEOUT_US <? u64 (t2 - t1)) = false) by (unfold u64, SD_TIMEOUT_US; rewrite Z.mod_small by lia; lia).
    assert (Hold : (SD_TIMEOUT_US <? u64 (t2 - 0)) = true) by (unfold u64, SD_TIMEOUT_US; rewrite Z.mod_small by lia; lia).
    change (head_ (ring_of t1 1 0)) with 0. erewrite clear_step; [|reflexivity|exact Hnew]. cbn iota.
    do 5 (erewrite clear_step; [|reflexivity|exact Hold]; cbn iota). reflexivity. }
  assert (R2 : report t2 (mkFac DEFAULT_MI_F DEFAULT_AD_F (f32_of_Z 10) (f32_of_Z 0) (ring_of t1 1 0)) =
    match NewSendingFreq (mkSf t2 (f32_of_Z 10)) (ring_of t1 1 5) with
    | Some w => match Formula 6 (tail_ w) w with
                | Some f => Some (f32_div (f32_of_Z 1) f, mkFac DEFAULT_MI_F DEFAULT_AD_F (f32_of_Z 10) (f32_of_Z 0) w) | None => None end
    | None => None end).
  { unfold report, Factor1. cbn [ewma_]. change (AdjustType _ _) with kMultiplicativeIncrease. cbn iota.
    unfold NewFactor. cbn [ewma_ MultiplicativeIncreaseFactorA put_factorA]. rewrite C. reflexivity. }
  do 4 eexists. split; [exact R1|]. split; [rewrite R2; vm_compute; reflexivity|].
  split_and!; try exact Ef; vm_compute; reflexivity.
Qed.

(** ** Instances *)
Lemma fac_ctor_ok : fac_ok fac_ctor.
Proof.
  split; [done|done| |by (split; vm_compute)]. exists 5%nat. split; [lia|by vm_compute].
Qed.
Example Factor1_total_witness :
  exists f c', Factor1 1700000000000000 (f32_of_Z 3) 1700000000000000 fac_ctor = Some (f, c') /\ fac_ok c' /\
    feedback_link_loss_ c' = f32_of_Z 3 /\ factorA_ c' = f32_of_Z (Z.of_nat 4).
Proof. apply (Factor1_total 1700000000000000 (f32_of_Z 3) 1700000000000000 5 fac_ctor); [exact fac_ctor_ok|by vm_compute|lia]. Defined.
Example Factor1_counts_empty_witness :
  exists f1 c1 f2 c2,
    report 1700000000000000 fac_ctor = Some (f1, c1) /\ report 1700000000010000 c1 = Some (f2, c2) /\
    factorA_ c1 = f32_of_Z 10 /\ factorA_ c2 = f32_of_Z 10 /\
    SFeqb f1 MIN_FACTOR_1 = true /\ SFltb (lit32 3 10) f2 = true /\ head_ (ewma_ c2) = 5 /\ tail_ (ewma_ c2) = 2.
Proof. apply (Factor1_counts_empty 1700000000000000 1700000000010000); unfold SD_TIMEOUT_US; lia. Defined.

End Factor.
