(* ===== verification/Quality.v ===== *)
(** * What a session makes of a loss report

    [LinkQualityCallback] and [GtpSession::CalcLossStd]
    (src/src/session/goodtp_session.cpp): the sending window reports a loss
    rate; the session switches its algorithms off under extreme loss and on
    again later, takes the network for good or bad, sets how often the arq
    repeats packets early and late, chooses the code book of the fec engine, and
    decides how often it measures the round trip time. *)
From Stdlib Require Import Floats.SpecFloat.
From S2P Require Import Prelude LinkStat.
Export LinkStat.

Module Quality.

Definition GTP_OFF : Z := 0.
Definition GTP_ON : Z := 1.
Definition kReliableStream : Z := 1.
Definition kDownLinkerLoss : Z := 1.
Definition MIN_SESSION_STABLE_TIME_US : Z := 500000.
Definition lo32 (z : Z) : Z := u32 (Z.land z 0xFFFFFFFF).

(** ** Switching off and on *)

(** [MAX_..._LOSS_THRESHLD] and [RMV_..._LOSS_THRESHLD], converted to [f32]. *)
Definition max_loss_thresheld (stream_type : Z) : spec_float :=
  f32_of_f64 (if kReliableStream <=? stream_type then lit64 8000001 100000 else lit64 6500001 100000).
Definition rmv_loss_thresheld (stream_type : Z) : spec_float :=
  f32_of_f64 (if kReliableStream <=? stream_type then lit64 6000001 100000 else lit64 4000001 100000).

Record Switch := mkSwitch { alg_top_switch_ : Z; rmv_close_alg_period_us_ : Z; rmv_close_alg_ts_us_ : Z }.

Definition top_switch (last_active create_ts stream_type : Z) (loss : spec_float) (w : Switch) : Switch :=
  if u64 (last_active - create_ts) <? Z.shiftl MIN_SESSION_STABLE_TIME_US 1 then w
  else if SFleb (max_loss_thresheld stream_type) loss then
    let period := u32 (1500000 + Z.land last_active 0xFFFFF) in
    mkSwitch GTP_OFF period (u32 (lo32 last_active + period))
  else if GTP_ON =? alg_top_switch_ w then w
  else if SFltb (rmv_loss_thresheld stream_type) loss then
    mkSwitch (alg_top_switch_ w) (rmv_close_alg_period_us_ w) (u32 (lo32 last_active + rmv_close_alg_period_us_ w))
  else if lo32 last_active <? rmv_close_alg_ts_us_ w then w
  else mkSwitch GTP_ON (rmv_close_alg_period_us_ w) (rmv_close_alg_ts_us_ w).

(** ** Good and bad networks *)

Definition kNetQualityGood : Z := 0.
Definition kNetQualityBad : Z := 1.
Definition MIN_ZERO_LOSS_EXIST_US : Z := 1000000.

(** The line of a table: the first entry of [std_pps] above the packet rate. *)
Fixpoint line_of (std_pps : list Z) (pps : Z) : nat :=
  match std_pps with
  | [] => O
  | x :: l => if pps <? x then O else S (line_of l pps)
  end.
(** The row of a table: the first literal, in millionths, above the loss. *)
Fixpoint row_of (std : list Z) (loss : spec_float) : nat :=
  match std with
  | [] => O
  | x :: l => if f_gt_lit x 1000000 loss then O else S (row_of l loss)
  end.
Definition cell (t : list (list Z)) (line row : nat) : Z := nth row (nth line t []) 0.

Definition good_book_id : list Z := [5; 5; 4; 4; 4].
Definition good_std_pps : list Z := [10; 50; 100; 150].

Definition boost_alg_param : list (list Z) :=
  [[1; 1; 2; 3; 2; 2]; [0; 0; 1; 2; 1; 0]; [0; 0; 1; 2; 1; 0]; [0; 0; 1; 2; 1; 0]; [0; 0; 1; 1; 1; 0]; [0; 0; 0; 1; 1; 0]].
Definition bad_std_pps (line : Z) : list Z := if 1 =? line then [10; 50; 100; 170; 250] else [10; 60; 100; 170; 250].
Definition boost_std : list Z := [1500001; 12000001; 23000001; 38000001; 54000001].

Definition fec2_ml_book_id : list (list Z) :=
  [[5; 5; 4; 2; 2]; [5; 5; 4; 2; 2]; [5; 5; 4; 2; 2]; [5; 5; 4; 2; 2]; [5; 5; 4; 2; 2]; [5; 5; 4; 2; 2]].
(** The row of the book tables, with the hysteresis for a session that uses
    book 2. *)
Definition book_row (using_book : Z) (loss : spec_float) : nat :=
  if f_gt_lit 2000001 1000000 loss then 0
  else if f_gt_lit 10000001 1000000 loss then 1
  else if f_gt_lit 25000001 1000000 loss then
    if (2 =? using_book) && lit_le_f 23000001 1000000 loss then 3 else 2
  else if f_gt_lit 50000001 1000000 loss then 3
  else 4.

Record Net := mkNet {
  net_quality_ : Z;
  net_bad_pending_cnt_ : Z;
  last_gen_loss_ts_us_ : Z;
  max_boost_times_ : Z;
  boost_switch_ : Z
}.

(** No loss within the last two seconds; the result is the book for
    [ChangeFecMode], when it is called. *)
Definition net_good (last_active pps : Z) (n : Net) : option Z * Net :=
  if kNetQualityBad =? net_quality_ n then
    if u64 (last_gen_loss_ts_us_ n + MIN_ZERO_LOSS_EXIST_US) <=? last_active then
      (Some (nth (line_of good_std_pps pps) good_book_id 0), mkNet kNetQualityGood 0 (last_gen_loss_ts_us_ n) 0 GTP_OFF)
    else (None, mkNet (net_quality_ n) 0 (last_gen_loss_ts_us_ n) (max_boost_times_ n) (boost_switch_ n))
  else
    let on := GTP_ON =? boost_switch_ n in
    (None, mkNet (net_quality_ n) 0 (last_gen_loss_ts_us_ n) (if on then 0 else max_boost_times_ n) (if on then GTP_OFF else boost_switch_ n)).

(** Loss; [std_line] is 1 for a reliable stream of the current version. *)
Definition net_bad (last_active pps std_line using_book : Z) (max_loss : spec_float) (n : Net) : option Z * Net :=
  let pending := (net_bad_pending_cnt_ n + 1) mod 4 in
  let good := kNetQualityGood =? net_quality_ n in
  if good && (pending <? 2) then
    (None, mkNet (net_quality_ n) pending last_active (max_boost_times_ n) (boost_switch_ n))
  else
    let line := line_of (bad_std_pps std_line) pps in
    let boost := cell boost_alg_param line (row_of boost_std max_loss) in
    (Some (cell fec2_ml_book_id line (book_row using_book max_loss)),
     mkNet kNetQualityBad (if good then 0 else net_bad_pending_cnt_ n) last_active
       (if good then u8 (u8 boost + 1) else u8 boost) GTP_ON).

Definition net_step (last_active pps std_line using_book : Z) (max_loss : spec_float) (n : Net) : option Z * Net :=
  if SFleb max_loss FLOAT_ZERO then net_good last_active pps n
  else net_bad last_active pps std_line using_book max_loss n.

(** ** The spread of the loss *)
Definition MAX_CACHE_LOSS_NUM : Z := 32.
Record LossCache := mkCache { cache_loss_ : list Z; cur_cache_loss_idx_ : Z; cache_loss_ovt_ : Z; loss_sum_ : Z }.

Definition delta_of (avg x : Z) : Z := if avg <=? x then u32 (x - avg) else u32 (avg - x).
(** The loop over the first [n] entries. *)
Definition std_sum (avg : Z) (l : list Z) : Z := foldl (fun sum x => u32 (sum + u32 (delta_of avg x * delta_of avg x))) 0 l.

(** The result, the average, and the cache. *)
Definition CalcLossStd (loss : Z) (c : LossCache) : Z * Z * LossCache :=
  if GTP_YES =? cache_loss_ovt_ c then
    let sum := u32 (u32 (loss_sum_ c + loss) - nth (Z.to_nat (cur_cache_loss_idx_ c)) (cache_loss_ c) 0) in
    let avg := Z.shiftr sum 5 in
    let cache := <[Z.to_nat (cur_cache_loss_idx_ c) := loss]> (cache_loss_ c) in
    let idx := u8 (cur_cache_loss_idx_ c + 1) in
    (Z.shiftr (std_sum avg cache) 5, avg, mkCache cache (Z.land idx 0x1F) GTP_YES sum)
  else
    let cache := <[Z.to_nat (cur_cache_loss_idx_ c) := loss]> (cache_loss_ c) in
    let idx := u8 (cur_cache_loss_idx_ c + 1) in
    let sum := u32 (loss_sum_ c + loss) in
    let avg := sum / idx in
    (std_sum avg (take (Z.to_nat idx) cache) / idx, avg,
     mkCache cache (Z.land idx 0x1F) (if MAX_CACHE_LOSS_NUM <=? idx then GTP_YES else cache_loss_ovt_ c) sum).

(** ** The arq *)

(** A call of the arq. *)
Inductive ArqCall :=
| CAdjustRtoTimeout (rto_us rtt_us : Z)
| CAdjustSWinCurrentLossRate (loss : spec_float) (dir : Z)
| CAdjustRetranTimes (times : Z)
| CAdjustRWinCurrentLossRate (loss : spec_float) (dir : Z).

Definition max_retran_std : list (list Z) :=
  [[5; 5; 4; 3; 2; 2]; [5; 4; 4; 3; 2; 1]; [5; 4; 4; 2; 1; 1]; [5; 4; 3; 2; 1; 1];
   [4; 3; 2; 1; 1; 1]; [3; 2; 1; 0; 0; 0]; [1; 1; 0; 0; 0; 0]; [0; 0; 0; 0; 0; 0]].
Fixpoint rtt_index (std : list Z) (rtt_us : Z) : nat :=
  match std with
  | [] => O
  | x :: l => if rtt_us <=? x then O else S (rtt_index l rtt_us)
  end.
(** The first literal, in millionths, not below the loss. *)
Fixpoint loss_index (std : list Z) (loss : spec_float) : nat :=
  match std with
  | [] => O
  | x :: l => if lit_ge_f x 1000000 loss then O else S (loss_index l loss)
  end.
Definition retran_times (rtt_us : Z) (loss : spec_float) : Z :=
  cell max_retran_std (loss_index [10000001; 20000001; 30000001; 40000001; 50000001; 60000001; 70000001] loss)
    (rtt_index [25000; 50000; 100000; 150000; 250000] rtt_us).

(** ** The callback *)

Inductive Win := data_win_s_ | data_win_r_ | filter_win_ | other_win.

Definition TEST_RTT_PERIOD_US : Z := 100000.
Definition MIN_START_QUICK_RTT_STD : Z := 200000.

Record QSt := mkQ {
  create_ts_us_ : Z;
  last_active_ts_us_ : Z;
  stream_type_ : Z;
  peer_version_ : Z;
  q_switch : Switch;
  q_second : SecondData;
  q_net : Net;
  q_cache : LossCache;
  test_rtt_period_us_ : Z;
  measure_rtt_ts_us_ : Z;
  send_down_loss_ : spec_float;
  rpt_snd_qualit_ : Z;
  report_quality_flag_s_ : Z
}.

(** How often the round trip time is measured: the period and the next time. *)
Definition rtt_test (avg std period measure : Z) : Z * Z :=
  if (avg <=? 100) || (std <=? MIN_START_QUICK_RTT_STD) then (TEST_RTT_PERIOD_US, measure)
  else if TEST_RTT_PERIOD_US =? period then
    (Z.shiftr TEST_RTT_PERIOD_US 2 + Z.shiftr TEST_RTT_PERIOD_US 3, u64 (measure - TEST_RTT_PERIOD_US))
  else (period, measure).

(** The branch of the sending window: the book for [ChangeFecMode], the calls
    of the arq, and the session.  [using_book] is [GetUsingBookId()]. *)
Definition sender_quality (using_book rtt_us rto_us : Z) (loss : spec_float) (loss_dir : Z) (q : QSt) : option Z * list ArqCall * QSt :=
  let w := top_switch (last_active_ts_us_ q) (create_ts_us_ q) (stream_type_ q) loss (q_switch q) in
  let d := UpdatedMaxLoss loss (q_second q) in
  let std_line := ind ((kReliableStream <=? stream_type_ q) && (1 <? peer_version_ q)) in
  let '(book, net) := net_step (last_active_ts_us_ q) (data_pack_pps_ (send_stat_ d)) std_line using_book (max_send_loss_per_s_ d) (q_net q) in
  let '(std, avg, cache) := CalcLossStd (u32 (f_to_Z (f32_mul loss (f32_of_Z 1000)))) (q_cache q) in
  let '(period, measure) := rtt_test avg std (test_rtt_period_us_ q) (measure_rtt_ts_us_ q) in
  (book,
   [CAdjustRtoTimeout rto_us rtt_us; CAdjustSWinCurrentLossRate loss loss_dir; CAdjustRetranTimes (retran_times rtt_us loss)],
   mkQ (create_ts_us_ q) (last_active_ts_us_ q) (stream_type_ q) (peer_version_ q) w d net cache period measure
     (if kDownLinkerLoss =? loss_dir then f32_of_Z 100 else send_down_loss_ q) GTP_YES GTP_YES).

(** What is reported to the application besides the addresses: the side, the
    rates, the times in milliseconds, the loss; [None] when nothing is. *)
Record LinkQuality := mkLq {
  report_pos_ : Z;
  lq_data_bitrate : Z;
  lq_net_bitrate : Z;
  lq_data_pps : Z;
  lq_net_pps : Z;
  lq_rtt_ms : Z;
  lq_jitter_ms : Z;
  lq_loss : spec_float;
  lq_dir : Z
}.
Definition kSenderQuality : Z := 0.
Definition kReceiverQuality : Z := 1.
Definition link_quality (pos : Z) (st : LinkerStat) (rtt_us jitter_us : Z) (loss : spec_float) (dir : Z) : LinkQuality :=
  mkLq pos (data_bitrate_bps_ st) (net_bitrate_bps_ st) (data_pack_pps_ st) (net_pack_pps_ st)
    (u16 (rtt_us / 1000)) (u16 (jitter_us / 1000)) loss dir.
Definition zero_stat : LinkerStat := stat_ctor 0.

Definition LinkQualityCallback (win : Win) (using_book rtt_us jitter_us rto_us : Z) (loss : spec_float) (loss_dir : Z) (q : QSt)
  : option LinkQuality * option Z * list ArqCall * QSt :=
  match win with
  | filter_win_ => (None, None, [], q)
  | data_win_s_ =>
      let '(book, calls, q') := sender_quality using_book rtt_us rto_us loss loss_dir q in
      (Some (link_quality kSenderQuality (send_stat_ (q_second q')) rtt_us jitter_us loss loss_dir), book, calls, q')
  | data_win_r_ =>
      (Some (link_quality kReceiverQuality (recv_stat_ (q_second q)) rtt_us jitter_us loss loss_dir), None,
       [CAdjustRWinCurrentLossRate loss loss_dir], q)
  | other_win => (Some (link_quality 0 zero_stat rtt_us jitter_us loss loss_dir), None, [], q)
  end.

End Quality.
