(* ===== verification/QualitySpec.v ===== *)
(** * Theorems about the loss reports

    The spread of the loss is that of the last 32 reports; the switch stays off
    as long as it should unless the 32 bits of the time wrap around; the tables
    give valid books and few repetitions. *)
From Stdlib Require Import Floats.SpecFloat.
From S2P Require Import Prelude LinkStat Quality.
Export Quality.

Module QualitySpec.

(** ** The spread of the loss *)
Definition sum_list (l : list Z) : Z := foldr Z.add 0 l.
Definition spread (avg : Z) (l : list Z) : Z := sum_list ((fun x => (x - avg) * (x - avg)) <$> l).

(** The reports the cache stands for, the oldest first. *)
Definition window (c : LossCache) : list Z :=
  let i := Z.to_nat (cur_cache_loss_idx_ c) in
  if GTP_YES =? cache_loss_ovt_ c then drop i (cache_loss_ c) ++ take i (cache_loss_ c) else take i (cache_loss_ c).
(** The last 32 of the reports and a new one. *)
Definition slide (l : list Z) (x : Z) : list Z := (if (length l =? 32)%nat then tail l else l) ++ [x].

(** The loss is at most 100 percent, in thousandths of a percent. *)
Definition MAX_LOSS : Z := 100000.
Record cache_ok (c : LossCache) : Prop := {
  co_len : length (cache_loss_ c) = 32%nat;
  co_idx : 0 <= cur_cache_loss_idx_ c < 32;
  co_ovt : cache_loss_ovt_ c = GTP_YES \/ cache_loss_ovt_ c = GTP_NO;
  co_loss : Forall (fun x => 0 <= x <= MAX_LOSS) (window c);
  co_sum : loss_sum_ c = sum_list (window c)
}.

Lemma sum_app l k : sum_list (l ++ k) = sum_list l + sum_list k.
Proof. induction l as [|x l IH]; cbn; [done|]. fold (sum_list (l ++ k)). rewrite IH. unfold sum_list. lia. Qed.
Lemma sum_range l b : Forall (fun x => 0 <= x <= b) l -> 0 <= sum_list l <= b * Z.of_nat (length l).
Proof. induction 1 as [|x l Hx _ IH]; [cbn; lia|]. cbn [sum_list foldr length]. unfold sum_list in IH. lia. Qed.
Lemma spread_app avg l k : spread avg (l ++ k) = spread avg l + spread avg k.
Proof. unfold spread. by rewrite fmap_app, sum_app. Qed.

Lemma delta_square avg x : 0 <= avg <= MAX_LOSS -> 0 <= x <= MAX_LOSS ->
  delta_of avg x * delta_of avg x = (x - avg) * (x - avg).
Proof. unfold MAX_LOSS. intros Ha Hx. unfold delta_of. destruct (Z.leb_spec avg x); rewrite u32_small by lia; lia. Qed.
Lemma u32_add_mod a b : u32 (u32 a + u32 b) = u32 (a + b).
Proof. unfold u32. by rewrite <- Z.add_mod by lia. Qed.
Lemma std_sum_from avg l : 0 <= avg <= MAX_LOSS -> Forall (fun x => 0 <= x <= MAX_LOSS) l -> forall a,
  foldl (fun sum x => u32 (sum + u32 (delta_of avg x * delta_of avg x))) (u32 a) l = u32 (a + spread avg l).
Proof.
  intros Ha. induction 1 as [|x l Hx _ IH]; intros a; cbn [foldl]; [change (spread avg []) with 0; by rewrite Z.add_0_r|].
  rewrite u32_add_mod, delta_square by done. rewrite IH. change (spread avg (x :: l)) with ((x - avg) * (x - avg) + spread avg l). by rewrite Z.add_assoc.
Qed.
(** The sum of the squares, in 32 bits. *)
Lemma std_sum_eq avg l : 0 <= avg <= MAX_LOSS -> Forall (fun x => 0 <= x <= MAX_LOSS) l -> std_sum avg l = u32 (spread avg l).
Proof. intros Ha Hl. exact (std_sum_from avg l Ha Hl 0). Qed.

Lemma mean_range l : l <> [] -> Forall (fun x => 0 <= x <= MAX_LOSS) l -> 0 <= sum_list l / Z.of_nat (length l) <= MAX_LOSS.
Proof.
  intros Hne Hl. pose proof (sum_range l MAX_LOSS Hl). unfold MAX_LOSS in *. destruct l as [|x l]; [done|].
  set (n := Z.of_nat (length (x :: l))) in *. assert (0 < n) by (unfold n; cbn [length]; lia).
  split; [apply Z.div_pos; lia|]. apply Z.div_le_upper_bound; lia.
Qed.

Lemma shift5 z : 0 <= z -> Z.shiftr z 5 = z / 32.
Proof. intros. by rewrite Z.shiftr_div_pow2 by lia. Qed.

(** A new report enters the cache. *)
Lemma enter_window loss c : cache_ok c -> 
  let i := Z.to_nat (cur_cache_loss_idx_ c) in
  let cache := <[i := loss]> (cache_loss_ c) in
  if GTP_YES =? cache_loss_ovt_ c then drop (S i) cache ++ take (S i) cache = slide (window c) loss
  else take (S i) cache = slide (window c) loss.
Proof.
  intros [Hl Hi _ _ _] i cache. unfold slide, window. fold i. assert (Hil : (i < 32)%nat) by lia.
  unfold cache. rewrite drop_insert_lt by lia. rewrite (take_S_r _ i loss) by (apply list_lookup_insert_eq; lia).
  rewrite take_insert_ge by lia. destruct (GTP_YES =? cache_loss_ovt_ c).
  - rewrite length_app, length_drop, length_take, Hl. replace (32 - i + Nat.min i 32)%nat with 32%nat by lia. cbn [Nat.eqb].
    destruct (lookup_lt_is_Some_2 (cache_loss_ c) i ltac:(lia)) as (x & Hx). rewrite (drop_S _ x i) by done. cbn [tail app].
    by rewrite <- app_assoc.
  - rewrite length_take, Hl. destruct (Nat.eqb_spec (Nat.min i 32) 32); [lia|done].
Qed.

Lemma slide_length l x : (length l <= 32)%nat -> (1 <= length (slide l x) <= 32)%nat.
Proof. intros Hl. unfold slide. rewrite length_app. cbn. destruct (Nat.eqb_spec (length l) 32); [rewrite length_tl|]; lia. Qed.
Lemma slide_Forall P l x : Forall P l -> P x -> Forall P (slide l x).
Proof. intros Hl Hx. unfold slide. apply Forall_app. split; [|by constructor]. destruct (length l =? 32)%nat; [by destruct Hl|done]. Qed.
Lemma sum_slide l x : sum_list (slide l x) = sum_list l + x - (if (length l =? 32)%nat then hd 0 l else 0).
Proof.
  unfold slide. rewrite sum_app. destruct (length l =? 32)%nat; [destruct l as [|y l]|]; cbn; unfold sum_list; lia.
Qed.
Lemma window_length c : cache_ok c ->
  length (window c) = if GTP_YES =? cache_loss_ovt_ c then 32%nat else Z.to_nat (cur_cache_loss_idx_ c).
Proof.
  intros [Hl Hi _ _ _]. unfold window. destruct (GTP_YES =? cache_loss_ovt_ c).
  - rewrite length_app, length_drop, length_take. lia.
  - rewrite length_take. lia.
Qed.

(** The sum kept with the cache stays exact. *)
Lemma enter_sum loss c : cache_ok c -> 0 <= loss <= MAX_LOSS ->
  let l := slide (window c) loss in
  (if GTP_YES =? cache_loss_ovt_ c then u32 (u32 (loss_sum_ c + loss) - nth (Z.to_nat (cur_cache_loss_idx_ c)) (cache_loss_ c) 0)
   else u32 (loss_sum_ c + loss)) = sum_list l.
Proof.
  intros Hc Hloss l. unfold l. rewrite sum_slide. pose proof (window_length c Hc) as Hlen. destruct Hc as [Hl Hi _ HF Hs].
  pose proof (sum_range _ _ HF) as Hr. rewrite Hs. unfold MAX_LOSS in *. rewrite Hlen in *.
  destruct (GTP_YES =? cache_loss_ovt_ c) eqn:Ho.
  - cbn [Nat.eqb]. assert (Hn : nth (Z.to_nat (cur_cache_loss_idx_ c)) (cache_loss_ c) 0 = hd 0 (window c)).
    { unfold window. rewrite Ho. destruct (lookup_lt_is_Some_2 (cache_loss_ c) (Z.to_nat (cur_cache_loss_idx_ c)) ltac:(lia)) as (x & Hx).
      rewrite (drop_S _ x) by done. cbn. by apply nth_lookup_Some. }
    rewrite Hn. assert (0 <= hd 0 (window c) <= 100000 /\ hd 0 (window c) <= sum_list (window c)).
    { destruct (window c) as [|x w]; [cbn in *; lia|]. apply Forall_cons in HF as [Hx HF']. pose proof (sum_range _ _ HF').
      cbn [hd]. change (sum_list (x :: w)) with (x + sum_list w). lia. }
    rewrite (u32_small (_ + _)), u32_small by lia. lia.
  - destruct (Nat.eqb_spec (Z.to_nat (cur_cache_loss_idx_ c)) 32); [lia|]. rewrite u32_small by lia. lia.
Qed.

Lemma spread_range avg l b : Forall (fun x => - b <= x - avg <= b) l -> 0 <= spread avg l <= b * b * Z.of_nat (length l).
Proof.
  induction 1 as [|x l Hx _ IH]; [cbn; lia|]. change (spread avg (x :: l)) with ((x - avg) * (x - avg) + spread avg l).
  cbn [length]. rewrite Nat2Z.inj_succ, Z.mul_succ_r. set (d := x - avg) in *.
  pose proof (Z.mul_nonneg_nonneg (b - d) (b + d) ltac:(lia) ltac:(lia)). pose proof (Z.square_nonneg d). lia.
Qed.
(** Rates below 11.585 percent. *)
Lemma spread_bound l : (1 <= length l <= 32)%nat -> Forall (fun x => 0 <= x <= MAX_LOSS) l -> Forall (fun x => x <= 11585) l ->
  0 <= spread (sum_list l / Z.of_nat (length l)) l < 4294967296.
Proof.
  intros Hl HF Hs. assert (HF' : Forall (fun x => 0 <= x <= 11585) l).
  { apply Forall_forall. intros x Hx. rewrite Forall_forall in HF, Hs. specialize (HF x Hx). specialize (Hs x Hx). lia. }
  pose proof (sum_range l 11585 HF') as Hr. set (avg := sum_list l / _).
  assert (0 <= avg <= 11585).
  { split; [apply Z.div_pos; lia|]. apply Z.div_le_upper_bound; lia. }
  pose proof (spread_range avg l 11585) as Hsp. assert (Forall (fun x => -11585 <= x - avg <= 11585) l) as HA.
  { eapply Forall_impl; [exact HF'|]. cbn. lia. }
  specialize (Hsp HA). lia.
Qed.

(** C23: [CalcLossStd] works on the last 32 reports, whatever came before: for
    loss rates of at most 100 percent it answers their mean, rounded down, and
    the sum of the squared distances from it, in 32 bits, divided by their
    number; the sum fits in 32 bits as long as the rates stay below 11.585
    percent. *)
Theorem CalcLossStd_window loss c :
  cache_ok c -> 0 <= loss <= MAX_LOSS ->
  let l := slide (window c) loss in
  let avg := sum_list l / Z.of_nat (length l) in
  exists c', CalcLossStd loss c = (u32 (spread avg l) / Z.of_nat (length l), avg, c') /\ cache_ok c' /\ window c' = l /\
    (Forall (fun x => x <= 11585) l -> u32 (spread avg l) = spread avg l).
Proof.
  intros Hc Hloss l avg. pose proof (enter_window loss c Hc) as Hw. pose proof (window_length c Hc) as Hlen.
  assert (Hl32 : (1 <= length l <= 32)%nat).
  { apply slide_length. rewrite Hlen. destruct Hc. destruct (GTP_YES =? _); lia. }
  assert (HF : Forall (fun x => 0 <= x <= MAX_LOSS) l) by (apply slide_Forall; [apply Hc|done]).
  assert (Havg : 0 <= avg <= MAX_LOSS) by (apply mean_range; [destruct l; [cbn in *; lia|done]|done]).
  pose proof (enter_sum loss c Hc Hloss) as Hsum. cbv zeta in Hsum. fold l in Hsum.
  assert (Hcache : Forall (fun x => 0 <= x <= MAX_LOSS) l -> exists c', CalcLossStd loss c = (u32 (spread avg l) / Z.of_nat (length l), avg, c') /\
    cache_ok c' /\ window c' = l).
  { intros _. unfold CalcLossStd. pose proof (co_len _ Hc) as Hl. pose proof (co_idx _ Hc) as Hi.
    set (i := Z.to_nat (cur_cache_loss_idx_ c)) in *. rewrite u8_small by lia. fold l in Hw.
    set (cache := <[i := loss]> (cache_loss_ c)) in *. assert (Hcl : length cache = 32%nat) by (unfold cache; by rewrite length_insert).
    replace (Z.to_nat (cur_cache_loss_idx_ c + 1)) with (S i) by lia.
    assert (Hm : Z.land (cur_cache_loss_idx_ c + 1) 31 = (if (S i =? 32)%nat then 0 else Z.of_nat (S i))).
    { rewrite land_mask31. destruct (Nat.eqb_spec (S i) 32); [by replace (cur_cache_loss_idx_ c + 1) with 32 by lia|].
      rewrite Z.mod_small by lia. lia. }
    rewrite Hm. destruct (Z.eqb_spec GTP_YES (cache_loss_ovt_ c)) as [Ho|Ho].
    - cbv zeta in Hw. fold cache in Hw. rewrite Hsum. rewrite (shift5 (sum_list l)) by (pose proof (sum_range l MAX_LOSS HF); lia).
      assert (Hll : length l = 32%nat) by (rewrite <- Hw, length_app, length_drop, length_take; lia).
      assert (Hsp : spread avg cache = spread avg l).
      { rewrite <- Hw, spread_app. rewrite <- (take_drop (S i) cache) at 1. rewrite spread_app. lia. }
      assert (Hcf : Forall (fun x => 0 <= x <= MAX_LOSS) cache).
      { rewrite <- (take_drop (S i) cache). pose proof HF as HF'. rewrite <- Hw in HF'. rewrite Forall_app in HF'. apply Forall_app. tauto. }
      change (sum_list l / 32) with (sum_list l / Z.of_nat 32). rewrite <- Hll. fold avg.
      rewrite std_sum_eq, Hsp by done. rewrite shift5 by apply u32_range. eexists. rewrite Hll. split; [reflexivity|].
      assert (Hwin : window (mkCache cache (if (S i =? 32)%nat then 0 else Z.of_nat (S i)) GTP_YES (sum_list l)) = l).
      { unfold window. cbn [cache_loss_ cur_cache_loss_idx_ cache_loss_ovt_]. rewrite Z.eqb_refl.
        destruct (Nat.eqb_spec (S i) 32) as [E|E]; [|by rewrite Nat2Z.id]. rewrite E, drop_ge, take_ge in Hw by lia. by rewrite app_nil_r. }
      split; [|done]. split; [done|cbn [cur_cache_loss_idx_]; destruct (Nat.eqb_spec (S i) 32); lia|by left|by rewrite Hwin|by rewrite Hwin].
    - assert (Ho' : (GTP_YES =? cache_loss_ovt_ c) = false) by (by apply Z.eqb_neq).
      cbv zeta in Hw. fold cache in Hw. rewrite Hsum. assert (Hll : length l = S i) by (rewrite <- Hw, length_take; lia).
      replace (cur_cache_loss_idx_ c + 1) with (Z.of_nat (length l)) by lia. fold avg. rewrite Hw, std_sum_eq by done.
      eexists. split; [reflexivity|]. rewrite Hll. unfold MAX_CACHE_LOSS_NUM.
      assert (Hwin : window (mkCache cache (if (S i =? 32)%nat then 0 else Z.of_nat (S i))
        (if 32 <=? Z.of_nat (S i) then GTP_YES else cache_loss_ovt_ c) (sum_list l)) = l).
      { unfold window. cbn [cache_loss_ cur_cache_loss_idx_ cache_loss_ovt_].
        destruct (Nat.eqb_spec (S i) 32) as [E|E], (Z.leb_spec 32 (Z.of_nat (S i))); try lia.
        - rewrite Z.eqb_refl. cbn [Z.to_nat]. rewrite drop_0, take_0, app_nil_r, <- Hw. by rewrite take_ge by lia.
        - rewrite Ho', Nat2Z.id. exact Hw. }
      split; [|done]. split; [done|cbn [cur_cache_loss_idx_]; destruct (Nat.eqb_spec (S i) 32); lia| |by rewrite Hwin|by rewrite Hwin].
      cbn. destruct (32 <=? Z.of_nat (S i)); [by left|by apply Hc]. }
  destruct (Hcache HF) as (c' & H1 & H2 & H3). exists c'. split_and!; [done|done|done|].
  intros Hsmall. apply u32_small. apply spread_bound; done.
Qed.

(** ** The switch *)

(** Reports one after another: when they come and the loss. *)
Definition run_switch (create_ts stream_type : Z) (l : list (Z * spec_float)) (w : Switch) : Switch :=
  foldl (fun w p => top_switch p.1 create_ts stream_type p.2 w) w l.

Lemma lo32_mod t : lo32 t = t mod 2 ^ 32.
Proof. unfold lo32. change 0xFFFFFFFF with (2 ^ 32 - 1). rewrite land_mask by lia. apply u32_small. by apply Z.mod_pos_bound. Qed.
Lemma low20 t : 0 <= Z.land t 0xFFFFF < 1048576.
Proof. change 0xFFFFF with (2 ^ 20 - 1). rewrite land_mask by lia. by apply Z.mod_pos_bound. Qed.
Lemma lo32_later t0 t d : 0 <= t0 -> t0 <= t <= t0 + d -> t0 mod 2 ^ 32 + d < 2 ^ 32 -> t mod 2 ^ 32 = t0 mod 2 ^ 32 + (t - t0).
Proof.
  intros H0 Ht Hd. pose proof (Z.mod_pos_bound t0 (2 ^ 32) ltac:(lia)).
  symmetry. apply (Z.mod_unique _ _ (t0 / 2 ^ 32)); [lia|]. pose proof (Z.div_mod t0 (2 ^ 32) ltac:(lia)). lia.
Qed.

(** Off until [t0] and a second and a half at least. *)
Definition closed (t0 : Z) (w : Switch) : Prop :=
  alg_top_switch_ w = GTP_OFF /\ 1500000 <= rmv_close_alg_period_us_ w < 2548576 /\
  t0 mod 2 ^ 32 + 1500000 <= rmv_close_alg_ts_us_ w.

Lemma closed_start t0 t create_ts stream_type loss w :
  0 <= create_ts -> create_ts + 1000000 <= t0 -> t0 <= t < t0 + 1500000 -> t < 2 ^ 64 -> t0 mod 2 ^ 32 + 4100000 < 2 ^ 32 ->
  SFleb (max_loss_thresheld stream_type) loss = true -> closed t0 (top_switch t create_ts stream_type loss w).
Proof.
  intros Hc Hold Ht Hw Hm Hloss. unfold top_switch. rewrite Hloss. change (Z.shiftl MIN_SESSION_STABLE_TIME_US 1) with 1000000.
  unfold u64. rewrite (Z.mod_small (t - create_ts)) by lia. destruct (Z.ltb_spec (t - create_ts) 1000000); [lia|].
  pose proof (low20 t). rewrite lo32_mod, (lo32_later t0 t 1500000) by lia. unfold closed. cbn [alg_top_switch_ rmv_close_alg_period_us_ rmv_close_alg_ts_us_].
  rewrite (u32_small (1500000 + _)) by lia. pose proof (Z.mod_pos_bound t0 (2 ^ 32) ltac:(lia)). rewrite u32_small by lia. split; [done|lia].
Qed.
Lemma closed_step t0 t create_ts stream_type loss w :
  0 <= create_ts -> create_ts + 1000000 <= t0 -> t0 <= t < t0 + 1500000 -> t < 2 ^ 64 -> t0 mod 2 ^ 32 + 4100000 < 2 ^ 32 ->
  closed t0 w -> closed t0 (top_switch t create_ts stream_type loss w).
Proof.
  intros Hc Hold Ht Hw Hm (Hoff & Hp & Hts). destruct (SFleb (max_loss_thresheld stream_type) loss) eqn:Hloss; [by apply closed_start|].
  unfold top_switch. rewrite Hloss. change (Z.shiftl MIN_SESSION_STABLE_TIME_US 1) with 1000000.
  unfold u64. rewrite (Z.mod_small (t - create_ts)) by lia. destruct (Z.ltb_spec (t - create_ts) 1000000); [lia|].
  rewrite Hoff. change (GTP_ON =? GTP_OFF) with false. cbn iota. rewrite lo32_mod, (lo32_later t0 t 1500000) by lia.
  pose proof (Z.mod_pos_bound t0 (2 ^ 32) ltac:(lia)).
  destruct (SFltb (rmv_loss_thresheld stream_type) loss).
  - unfold closed. cbn [alg_top_switch_ rmv_close_alg_period_us_ rmv_close_alg_ts_us_]. rewrite u32_small by lia. by split_and!; lia || done.
  - destruct (Z.ltb_spec (t0 mod 2 ^ 32 + (t - t0)) (rmv_close_alg_ts_us_ w)); [done|lia].
Qed.

(** Once a report of extreme loss has switched the algorithms off, they
    stay off for a second and a half at least, whatever is reported meanwhile
    and however often, as long as the low 32 bits of the time do not wrap around. *)
Theorem switch_stays_off t0 create_ts stream_type loss l w :
  0 <= create_ts -> create_ts + 1000000 <= t0 -> t0 + 1500000 < 2 ^ 64 -> t0 mod 2 ^ 32 + 4100000 < 2 ^ 32 ->
  SFleb (max_loss_thresheld stream_type) loss = true -> Forall (fun p => t0 <= p.1 < t0 + 1500000) l ->
  alg_top_switch_ (run_switch create_ts stream_type ((t0, loss) :: l) w) = GTP_OFF.
Proof.
  intros Hc Hold Hw Hm Hloss Hl. cbn [run_switch foldl fst snd].
  assert (H0 : closed t0 (top_switch t0 create_ts stream_type loss w)) by (apply closed_start; done || lia).
  revert H0. generalize (top_switch t0 create_ts stream_type loss w). clear w.
  induction Hl as [|[t x] l Ht _ IH]; intros w H0; [by apply H0|]. cbn [foldl fst snd] in *. apply IH.
  apply closed_step; try done; lia.
Qed.

(** Within a second and a half of a wrap-around of these 32 bits the
    algorithms do not stay off: the end of the pause is computed in 32 bits, it
    lies before the time of the report, and the next report of moderate loss, a
    microsecond later, switches them on again. *)
Theorem switch_reopens_at_wrap t0 t1 create_ts stream_type loss0 loss1 w :
  0 <= create_ts -> create_ts + 1000000 <= t0 -> t0 < t1 < 2 ^ 64 -> t1 / 2 ^ 32 = t0 / 2 ^ 32 -> 2 ^ 32 - 1500000 <= t0 mod 2 ^ 32 ->
  SFleb (max_loss_thresheld stream_type) loss0 = true ->
  SFleb (max_loss_thresheld stream_type) loss1 = false -> SFltb (rmv_loss_thresheld stream_type) loss1 = false ->
  alg_top_switch_ (run_switch create_ts stream_type [(t0, loss0)] w) = GTP_OFF /\
  alg_top_switch_ (run_switch create_ts stream_type [(t0, loss0); (t1, loss1)] w) = GTP_ON.
Proof.
  intros Hc Hold Ht He Hm H0 H1 H2. cbn [run_switch foldl fst snd]. unfold top_switch.
  change (Z.shiftl MIN_SESSION_STABLE_TIME_US 1) with 1000000. unfold u64. rewrite !(Z.mod_small (_ - create_ts)) by lia.
  rewrite H0, H1, H2. destruct (Z.ltb_spec (t0 - create_ts) 1000000); [lia|]. destruct (Z.ltb_spec (t1 - create_ts) 1000000); [lia|].
  cbn [alg_top_switch_ rmv_close_alg_period_us_ rmv_close_alg_ts_us_]. split; [done|]. change (GTP_ON =? GTP_OFF) with false. cbn iota.
  pose proof (low20 t0). rewrite !lo32_mod. pose proof (Z.mod_pos_bound t0 (2 ^ 32) ltac:(lia)).
  rewrite (u32_small (1500000 + _)) by lia.
  assert (E : u32 (t0 mod 2 ^ 32 + (1500000 + Z.land t0 0xFFFFF)) = t0 mod 2 ^ 32 + (1500000 + Z.land t0 0xFFFFF) - 2 ^ 32).
  { unfold u32. symmetry. apply (Z.mod_unique _ _ 1); lia. }
  rewrite E. pose proof (Z.div_mod t0 (2 ^ 32) ltac:(lia)). pose proof (Z.div_mod t1 (2 ^ 32) ltac:(lia)).
  destruct (Z.ltb_spec (t1 mod 2 ^ 32) (t0 mod 2 ^ 32 + (1500000 + Z.land t0 0xFFFFF) - 2 ^ 32)); [lia|done].
Qed.

(** ** The tables *)
Lemma line_of_le l pps : (line_of l pps <= length l)%nat.
Proof. induction l as [|x l IH]; cbn; [lia|]. destruct (pps <? x); lia. Qed.
Lemma row_of_le l loss : (row_of l loss <= length l)%nat.
Proof. induction l as [|x l IH]; cbn [row_of length]; [lia|]. destruct (f_gt_lit x 1000000 loss); lia. Qed.
Lemma rtt_index_le l rtt : (rtt_index l rtt <= length l)%nat.
Proof. induction l as [|x l IH]; cbn; [lia|]. destruct (rtt <=? x); lia. Qed.
Lemma loss_index_le l loss : (loss_index l loss <= length l)%nat.
Proof. induction l as [|x l IH]; cbn [loss_index length]; [lia|]. destruct (lit_ge_f x 1000000 loss); lia. Qed.
Lemma rtt_index_mono l rtt rtt' : rtt <= rtt' -> (rtt_index l rtt <= rtt_index l rtt')%nat.
Proof. intros Hr. induction l as [|x l IH]; cbn; [lia|]. destruct (Z.leb_spec rtt x), (Z.leb_spec rtt' x); lia. Qed.
Lemma book_row_le using_book loss : (book_row using_book loss <= 4)%nat.
Proof. unfold book_row. repeat match goal with |- context [if ?b then _ else _] => destruct b end; lia. Qed.

(** A statement about all cells of a table, by evaluation. *)
Definition all_cells (P : nat -> nat -> bool) (lines rows : nat) : bool :=
  forallb (fun i => forallb (P i) (seq 0 rows)) (seq 0 lines).
Lemma all_cells_spec P lines rows i j : all_cells P lines rows = true -> (i < lines)%nat -> (j < rows)%nat -> P i j = true.
Proof.
  unfold all_cells. rewrite List.forallb_forall. intros H Hi Hj. specialize (H i). rewrite List.forallb_forall in H.
  apply H; apply List.in_seq; lia.
Qed.

Lemma retran_range rtt loss : 0 <= retran_times rtt loss <= 5.
Proof.
  pose proof (loss_index_le [10000001; 20000001; 30000001; 40000001; 50000001; 60000001; 70000001] loss) as Hi.
  pose proof (rtt_index_le [25000; 50000; 100000; 150000; 250000] rtt) as Hj. cbn [length] in Hi, Hj. unfold retran_times.
  set (i := loss_index _ loss) in *. set (j := rtt_index _ rtt) in *.
  pose proof (all_cells_spec (fun i j => (0 <=? cell max_retran_std i j) && (cell max_retran_std i j <=? 5)) 8 6 i j
    ltac:(by vm_compute) ltac:(lia) ltac:(lia)) as H. cbv beta in H. lia.
Qed.
Lemma retran_columns rtt rtt' loss : rtt <= rtt' -> retran_times rtt' loss <= retran_times rtt loss.
Proof.
  intros Hr. pose proof (loss_index_le [10000001; 20000001; 30000001; 40000001; 50000001; 60000001; 70000001] loss) as Hi.
  pose proof (rtt_index_le [25000; 50000; 100000; 150000; 250000] rtt') as Hj.
  pose proof (rtt_index_mono [25000; 50000; 100000; 150000; 250000] rtt rtt' Hr) as Hm. cbn [length] in Hi, Hj. unfold retran_times.
  set (i := loss_index _ loss) in *. set (j := rtt_index _ rtt) in *. set (j' := rtt_index _ rtt') in *.
  pose proof (all_cells_spec (fun i j => forallb (fun k => cell max_retran_std i (j + k) <=? cell max_retran_std i j) (seq 0 (6 - j))) 8 6
    i j ltac:(by vm_compute) ltac:(lia) ltac:(lia)) as H.
  rewrite List.forallb_forall in H. specialize (H (j' - j)%nat). replace (j + (j' - j))%nat with j' in H by lia.
  apply Z.leb_le, H, List.in_seq. lia.
Qed.

Lemma net_step_range last_active pps std_line using_book max_loss n :
  let r := net_step last_active pps std_line using_book max_loss n in
  (forall b, r.1 = Some b -> b ∈ [2; 4; 5]) /\ (0 <= max_boost_times_ n <= 4 -> 0 <= max_boost_times_ r.2 <= 4).
Proof.
  unfold net_step. destruct (SFleb max_loss FLOAT_ZERO).
  - unfold net_good. pose proof (line_of_le good_std_pps pps) as Hl. cbn [length good_std_pps] in Hl.
    destruct (kNetQualityBad =? net_quality_ n); [destruct (_ <=? last_active)|]; cbn [fst snd max_boost_times_].
    + revert Hl. generalize (line_of good_std_pps pps). intros i Hi. split; [|lia]. intros b Hb.
      assert (b = nth i good_book_id 0) as -> by congruence.
      do 5 (destruct i as [|i]; [apply (bool_decide_unpack _); by vm_compute|]). lia.
    + split; [done|lia].
    + split; [done|]. by destruct (GTP_ON =? boost_switch_ n).
  - unfold net_bad. set (good := kNetQualityGood =? net_quality_ n). destruct (good && _); [split; [done|cbn; lia]|].
    assert (Hl : (line_of (bad_std_pps std_line) pps <= 5)%nat).
    { pose proof (line_of_le (bad_std_pps std_line) pps). unfold bad_std_pps in *. by destruct (1 =? std_line). }
    pose proof (row_of_le boost_std max_loss) as Hr. pose proof (book_row_le using_book max_loss) as Hb. cbn [length boost_std] in Hr.
    cbn [fst snd max_boost_times_]. revert Hl Hr Hb. generalize (line_of (bad_std_pps std_line) pps), (row_of boost_std max_loss), (book_row using_book max_loss).
    intros i j k Hi Hj Hk. split.
    + intros b Hb0. assert (b = cell fec2_ml_book_id i k) as -> by congruence.
      pose proof (all_cells_spec (fun i k => let b := cell fec2_ml_book_id i k in (b =? 2) || (b =? 4) || (b =? 5)) 6 5 i k ltac:(by vm_compute) ltac:(lia) ltac:(lia)) as H.
      cbv zeta in H. apply orb_true_iff in H as [H|H]; [apply orb_true_iff in H as [H|H]|]; apply Z.eqb_eq in H; rewrite H; apply (bool_decide_unpack _); by vm_compute.
    + pose proof (all_cells_spec (fun i k => let b := cell boost_alg_param i k in (0 <=? b) && (b <=? 3)) 6 6 i j ltac:(by vm_compute) ltac:(lia) ltac:(lia)) as H.
      cbv zeta in H. apply andb_true_iff in H as [?%Z.leb_le ?%Z.leb_le]. intros _. rewrite (u8_small (cell _ _ _)) by lia. destruct good; [rewrite u8_small|]; lia.
Qed.

(** C24: Whatever the loss, not-a-number included, the rates and the times: the
    code book chosen is one of the books 2, 4 and 5 of the fec engine, the arq
    gets at most five late and four early repetitions of a packet, and never
    more late ones for a longer round trip. *)
Theorem quality_bounds using_book rtt rto loss dir q :
  let '(book, calls, q') := sender_quality using_book rtt rto loss dir q in
  (forall b, book = Some b -> b ∈ [2; 4; 5]) /\
  (0 <= max_boost_times_ (q_net q) <= 4 -> 0 <= max_boost_times_ (q_net q') <= 4) /\
  (exists n, last calls = Some (CAdjustRetranTimes n) /\ 0 <= n <= 5 /\
    forall rtt', rtt <= rtt' -> exists m, last (sender_quality using_book rtt' rto loss dir q).1.2 = Some (CAdjustRetranTimes m) /\ m <= n).
Proof.
  unfold sender_quality.
  match goal with |- context [net_step ?a ?b ?c ?d ?e ?f] => pose proof (net_step_range a b c d e f) as Hn; destruct (net_step a b c d e f) as [book net] end.
  destruct (CalcLossStd _ _) as [[std avg] cache]. destruct (rtt_test _ _ _ _) as [period measure]. cbv zeta in Hn. cbn [fst snd] in Hn.
  split; [apply Hn|]. split; [apply Hn|]. exists (retran_times rtt loss). split; [done|]. split; [apply retran_range|].
  intros rtt' Hr. exists (retran_times rtt' loss). split; [done|by apply retran_columns].
Qed.

(** One report of loss is enough to take a good network for bad.  The
    counter of pending reports is to wait for a second one, but it counts
    reports while the largest loss of the second is not zero: after a single
    report of loss, a report without loss makes the network bad and chooses a
    code book for loss. *)
Theorem one_loss_turns_bad using_book rtt rto loss dir q :
  net_quality_ (q_net q) = kNetQualityGood -> net_bad_pending_cnt_ (q_net q) = 0 ->
  SFltb (max_send_loss_per_s_ (q_second q)) loss = true -> SFleb loss FLOAT_ZERO = false -> SFltb loss (f32_of_Z 0) = false ->
  let q1 := (sender_quality using_book rtt rto loss dir q).2 in
  let '(book, _, q2) := sender_quality using_book rtt rto (f32_of_Z 0) dir q1 in
  net_quality_ (q_net q1) = kNetQualityGood /\ net_quality_ (q_net q2) = kNetQualityBad /\ is_Some book.
Proof.
  intros Hg Hp Hmax Hz Hneg q1.
  assert (E1 : net_quality_ (q_net q1) = kNetQualityGood /\ net_bad_pending_cnt_ (q_net q1) = 1 /\ max_send_loss_per_s_ (q_second q1) = loss).
  { unfold q1, sender_quality. destruct (CalcLossStd _ _) as [[std avg] cache]. destruct (rtt_test _ _ _ _) as [period measure].
    unfold UpdatedMaxLoss. rewrite Hmax. cbn [max_send_loss_per_s_]. unfold net_step. rewrite Hz. unfold net_bad. rewrite Hg, Hp. done. }
  destruct E1 as (G1 & P1 & M1). revert G1 P1 M1. generalize q1. clear q1. intros q1 G1 P1 M1.
  unfold sender_quality. destruct (CalcLossStd _ _) as [[std avg] cache]. destruct (rtt_test _ _ _ _) as [period measure].
  unfold UpdatedMaxLoss. rewrite M1, Hneg. cbn [max_send_loss_per_s_]. unfold net_step. rewrite Hz. unfold net_bad. rewrite G1, P1.
  split; [done|]. split; [done|by eexists].
Qed.

(** ** Instances *)
Definition empty_cache : LossCache := mkCache (replicate 32 0) 0 GTP_NO 0.
Lemma empty_cache_ok : cache_ok empty_cache.
Proof. split; [done|cbn; lia|by right|constructor|done]. Qed.
Definition demo_q : QSt := mkQ 0 5000000 0 2 (mkSwitch GTP_ON 0 0) (mkSecond (stat_ctor 0) (stat_ctor 0) 20000 FLOAT_ZERO FLOAT_ZERO)
  (mkNet kNetQualityGood 0 0 0 GTP_OFF) empty_cache 100000 5000000 (f32_of_Z (-1)) GTP_NO GTP_NO.

(** Reports of 65.536 percent and of nothing in turn: at the fourth their spread
    is taken for none at all. *)
Definition swinging_cache : LossCache := mkCache (65536 :: 0 :: 65536 :: replicate 29 0) 3 GTP_NO 131072.
Lemma swinging_cache_ok : cache_ok swinging_cache.
Proof.
  split; [done|cbn; lia|by right| |done]. change (window swinging_cache) with [65536; 0; 65536].
  unfold MAX_LOSS. repeat constructor; lia.
Qed.
Example CalcLossStd_window_witness :
  exists c', CalcLossStd 0 swinging_cache = (u32 4294967296 / 4, 32768, c') /\ cache_ok c' /\ window c' = [65536; 0; 65536; 0] /\
    (Forall (fun x => x <= 11585) [65536; 0; 65536; 0] -> u32 4294967296 = 4294967296).
Proof. apply (CalcLossStd_window 0 swinging_cache swinging_cache_ok). unfold MAX_LOSS. lia. Defined.

Example switch_stays_off_witness :
  alg_top_switch_ (run_switch 0 0 [(3000000, f32_of_Z 80); (3500000, f32_of_Z 10); (4400000, f32_of_Z 0)] (mkSwitch GTP_ON 0 0)) = GTP_OFF.
Proof.
  apply (switch_stays_off 3000000 0 0 (f32_of_Z 80) [(3500000, f32_of_Z 10); (4400000, f32_of_Z 0)]); [lia|lia|lia|done|done|].
  repeat constructor; cbn; lia.
Defined.
Example switch_reopens_at_wrap_witness :
  alg_top_switch_ (run_switch 0 0 [(4294000000, f32_of_Z 80)] (mkSwitch GTP_ON 0 0)) = GTP_OFF /\
  alg_top_switch_ (run_switch 0 0 [(4294000000, f32_of_Z 80); (4294000001, f32_of_Z 30)] (mkSwitch GTP_ON 0 0)) = GTP_ON.
Proof.
  apply (switch_reopens_at_wrap 4294000000 4294000001 0 0 (f32_of_Z 80) (f32_of_Z 30)); first [lia|done].
Defined.
Example quality_bounds_witness :
  let '(book, calls, q') := sender_quality 2 30000 0 (f32_of_Z 30) 0 demo_q in
  (forall b, book = Some b -> b ∈ [2; 4; 5]) /\
  (0 <= max_boost_times_ (q_net demo_q) <= 4 -> 0 <= max_boost_times_ (q_net q') <= 4) /\
  (exists n, last calls = Some (CAdjustRetranTimes n) /\ 0 <= n <= 5 /\
    forall rtt', 30000 <= rtt' -> exists m, last (sender_quality 2 rtt' 0 (f32_of_Z 30) 0 demo_q).1.2 = Some (CAdjustRetranTimes m) /\ m <= n).
Proof. exact (quality_bounds 2 30000 0 (f32_of_Z 30) 0 demo_q). Defined.
Example one_loss_turns_bad_witness :
  let q1 := (sender_quality 4 30000 0 (f32_of_Z 3) 0 demo_q).2 in
  let '(book, _, q2) := sender_quality 4 30000 0 (f32_of_Z 0) 0 q1 in
  net_quality_ (q_net q1) = kNetQualityGood /\ net_quality_ (q_net q2) = kNetQualityBad /\ is_Some book.
Proof. apply (one_loss_turns_bad 4 30000 0 (f32_of_Z 3) 0 demo_q); done. Defined.

End QualitySpec.
