(* ===== verification/SessRecv.v ===== *)
(** * Receiving: the session between the network and the application

    [GtpPacketReceive] (src/src/interface/goodtp_interface.cpp) behind the
    search for the session, and [PackPrepHandler], [PackPostHandler],
    [Fec2RestoreFrameReceive], [ResetSession] and [RttHandler] of [GtpSession]
    (src/src/session/goodtp_session.cpp): the dispatch by packet type, the
    detection of a restarted or mixed up peer, the duplicate filter, the windows,
    and the way of a frame into the reorder buffer.  The windows and the reorder
    buffer are those of their components; calls of the arq and of the fec engine
    are kept in order, and the packets the fec engine rebuilds during a call are
    given with it. *)
From Stdlib Require Import Floats.SpecFloat.
From S2P Require Import Prelude PoolInterface PacketHeader FloatWire LinkStat Frame Factor Reorder SlidWinState SlidWin SlidWinSend SlidWinRtt Feedback.
Export LinkStat Frame Reorder SlidWinState SlidWin SlidWinSend SlidWinRtt.

Module SessRecv.

Definition kInitRes : Z := 1.
Definition kGtpFecPackType : Z := 3.
Definition kGtpSetRecvRttPackType : Z := 4.
Definition kGtpRttTstResPackType : Z := 5.
Definition MIN_SYNC_PERIOD_US : Z := 4000000.
Definition MAX_KEEPALIVE_TIME_LEN_US : Z := 800000.
Definition MAX_RCV_PACK_SN_UPDATE_STEP : Z := 100000.
Definition MAX_HANDLER_CALC_PERIOD_US : Z := 75000.
Definition MIN_HANDLER_CALC_PERIOD_US : Z := 4000.
Definition kDuplicatePackErr : Z := 0x6016.
Definition kGtpMgrMd : Z := 0x51.
Definition kUnknownPackTypeErr : Z := 0x6014.

(** ** State *)

(** What is known of the peer's stream. *)
Record Sync := mkSync {
  recv_session_stat_ : Z;
  recv_last_sync_ts_us_ : Z;
  last_sn_ : Z;
  last_recv_data_pack_ts_us_ : Z;
  ai_learn_sn_delta_ : Z;
  send_session_stat_ : Z;
  ack_sn_ : Z;
  recv_max_data_sn_ : Z;
  new_gap_detected_ : Z
}.

(** Times and what is measured with them. *)
Record Clocks := mkClocks {
  last_active_ts_us_ : Z;
  recv_idle_calc_loss_ts_us : Z;
  recv_idle_calc_period_us_ : Z;
  com_cache_ts_us_ : Z;
  at_com_cache_ts_us_ : Z;
  clock_sync_delta_us_ : Z;
  rtt_us_ : Z;
  gen_new_rtt_ts_us_ : Z;
  pb_rtt_us_ : Z;
  self_session_ttl_us_ : Z;
  min_session_stability_us_ : Z;
  restore_factor1_tm_span_us_ : Z;
  next_calc_factor1_ts_us_ : Z
}.

(** A call of the fec engine or the arq. *)
Inductive RvCall :=
| CFecCacheDataPack (pack : list Z) (ts_us : Z)
| CFecDecode (pack : list Z) (ts_us : Z)
| CFecPopAllPack (ts_us : Z)
| CArqProcAck (bitmap : list Z) (bitmap_sz head_sn tail_sn rto_sn : Z)
| CArqProcNack (nack : list Z) (head_sn tail_sn rto_sn : Z).

Section Recv.
Context {P E A : Type} `{Countable E} `{!PackPool P E}.

Record RvSt := mkRv {
  sy : Sync;
  ck : Clocks;
  rv_qos : Z;
  rv_stream_type : Z;
  rv_peer_version : Z;
  r_cur_loss_rate_ : spec_float;
  recv_stat : LinkerStat;
  fac : Factor.FactorCalculation;
  filter_win_ : SlidWin;
  data_win_r_ : SlidWin;
  data_win_s_ : SlidWin;
  re : ReSt P E A;
  rv_calls : list RvCall;
  fec_stats : Z * Z * Z
}.
Local Abbreviation M := (ST RvSt).

Definition put_sy x s := mkRv x (ck s) (rv_qos s) (rv_stream_type s) (rv_peer_version s) (r_cur_loss_rate_ s) (recv_stat s) (fac s)
  (filter_win_ s) (data_win_r_ s) (data_win_s_ s) (re s) (rv_calls s) (fec_stats s).
Definition put_ck x s := mkRv (sy s) x (rv_qos s) (rv_stream_type s) (rv_peer_version s) (r_cur_loss_rate_ s) (recv_stat s) (fac s)
  (filter_win_ s) (data_win_r_ s) (data_win_s_ s) (re s) (rv_calls s) (fec_stats s).
Definition put_rv_qos x s := mkRv (sy s) (ck s) x (rv_stream_type s) (rv_peer_version s) (r_cur_loss_rate_ s) (recv_stat s) (fac s)
  (filter_win_ s) (data_win_r_ s) (data_win_s_ s) (re s) (rv_calls s) (fec_stats s).
Definition put_version x s := mkRv (sy s) (ck s) (rv_qos s) (rv_stream_type s) x (r_cur_loss_rate_ s) (recv_stat s) (fac s)
  (filter_win_ s) (data_win_r_ s) (data_win_s_ s) (re s) (rv_calls s) (fec_stats s).
Definition put_recv_stat x s := mkRv (sy s) (ck s) (rv_qos s) (rv_stream_type s) (rv_peer_version s) (r_cur_loss_rate_ s) x (fac s)
  (filter_win_ s) (data_win_r_ s) (data_win_s_ s) (re s) (rv_calls s) (fec_stats s).
Definition put_fac x s := mkRv (sy s) (ck s) (rv_qos s) (rv_stream_type s) (rv_peer_version s) (r_cur_loss_rate_ s) (recv_stat s) x
  (filter_win_ s) (data_win_r_ s) (data_win_s_ s) (re s) (rv_calls s) (fec_stats s).
Definition put_filter x s := mkRv (sy s) (ck s) (rv_qos s) (rv_stream_type s) (rv_peer_version s) (r_cur_loss_rate_ s) (recv_stat s) (fac s)
  x (data_win_r_ s) (data_win_s_ s) (re s) (rv_calls s) (fec_stats s).
Definition put_win_r x s := mkRv (sy s) (ck s) (rv_qos s) (rv_stream_type s) (rv_peer_version s) (r_cur_loss_rate_ s) (recv_stat s) (fac s)
  (filter_win_ s) x (data_win_s_ s) (re s) (rv_calls s) (fec_stats s).
Definition put_win_s x s := mkRv (sy s) (ck s) (rv_qos s) (rv_stream_type s) (rv_peer_version s) (r_cur_loss_rate_ s) (recv_stat s) (fac s)
  (filter_win_ s) (data_win_r_ s) x (re s) (rv_calls s) (fec_stats s).
Definition put_re x s := mkRv (sy s) (ck s) (rv_qos s) (rv_stream_type s) (rv_peer_version s) (r_cur_loss_rate_ s) (recv_stat s) (fac s)
  (filter_win_ s) (data_win_r_ s) (data_win_s_ s) x (rv_calls s) (fec_stats s).
Definition put_calls x s := mkRv (sy s) (ck s) (rv_qos s) (rv_stream_type s) (rv_peer_version s) (r_cur_loss_rate_ s) (recv_stat s) (fac s)
  (filter_win_ s) (data_win_r_ s) (data_win_s_ s) (re s) x (fec_stats s).
Definition put_fec_stats x s := mkRv (sy s) (ck s) (rv_qos s) (rv_stream_type s) (rv_peer_version s) (r_cur_loss_rate_ s) (recv_stat s) (fac s)
  (filter_win_ s) (data_win_r_ s) (data_win_s_ s) (re s) (rv_calls s) x.

(** The operations of a component, on its part of the state. *)
Definition part {S T} (get : RvSt -> S) (put : S -> RvSt -> RvSt) (m : ST S T) : M T := fun s =>
  match m (get s) with Some (r, x) => Some (r, put x s) | None => None end.
Definition on_filter {T} : ST SlidWin T -> M T := part filter_win_ put_filter.
Definition on_win_r {T} : ST SlidWin T -> M T := part data_win_r_ put_win_r.
Definition on_win_s {T} : ST SlidWin T -> M T := part data_win_s_ put_win_s.
Definition on_re {T} : ST (ReSt P E A) T -> M T := part re put_re.
Definition call (c : RvCall) : M unit := mod_st (fun s => put_calls (rv_calls s ++ [c]) s).
Definition on_sy (f : Sync -> Sync) (s : RvSt) : RvSt := put_sy (f (sy s)) s.
Definition on_ck (f : Clocks -> Clocks) (s : RvSt) : RvSt := put_ck (f (ck s)) s.
Definition now_of (s : RvSt) : Z := last_active_ts_us_ (ck s).

(** Updates of the records. *)
Definition set_status v sync y := mkSync v sync (last_sn_ y) (last_recv_data_pack_ts_us_ y) (ai_learn_sn_delta_ y)
  (send_session_stat_ y) (ack_sn_ y) (recv_max_data_sn_ y) (new_gap_detected_ y).
Definition set_last_sn v y := mkSync (recv_session_stat_ y) (recv_last_sync_ts_us_ y) v (last_recv_data_pack_ts_us_ y)
  (ai_learn_sn_delta_ y) (send_session_stat_ y) (ack_sn_ y) (recv_max_data_sn_ y) (new_gap_detected_ y).
Definition set_last_recv v y := mkSync (recv_session_stat_ y) (recv_last_sync_ts_us_ y) (last_sn_ y) v
  (ai_learn_sn_delta_ y) (send_session_stat_ y) (ack_sn_ y) (recv_max_data_sn_ y) (new_gap_detected_ y).
Definition set_send_stat v y := mkSync (recv_session_stat_ y) (recv_last_sync_ts_us_ y) (last_sn_ y) (last_recv_data_pack_ts_us_ y)
  (ai_learn_sn_delta_ y) v (ack_sn_ y) (recv_max_data_sn_ y) (new_gap_detected_ y).
Definition set_ack_sn v y := mkSync (recv_session_stat_ y) (recv_last_sync_ts_us_ y) (last_sn_ y) (last_recv_data_pack_ts_us_ y)
  (ai_learn_sn_delta_ y) (send_session_stat_ y) v (recv_max_data_sn_ y) (new_gap_detected_ y).
Definition set_gap mx gap y := mkSync (recv_session_stat_ y) (recv_last_sync_ts_us_ y) (last_sn_ y) (last_recv_data_pack_ts_us_ y)
  (ai_learn_sn_delta_ y) (send_session_stat_ y) (ack_sn_ y) mx gap.
Definition set_active v c := mkClocks v (recv_idle_calc_loss_ts_us c) (recv_idle_calc_period_us_ c) (com_cache_ts_us_ c) (at_com_cache_ts_us_ c)
  (clock_sync_delta_us_ c) (rtt_us_ c) (gen_new_rtt_ts_us_ c) (pb_rtt_us_ c) (self_session_ttl_us_ c) (min_session_stability_us_ c)
  (restore_factor1_tm_span_us_ c) (next_calc_factor1_ts_us_ c).
Definition set_idle_ts v c := mkClocks (last_active_ts_us_ c) v (recv_idle_calc_period_us_ c) (com_cache_ts_us_ c) (at_com_cache_ts_us_ c)
  (clock_sync_delta_us_ c) (rtt_us_ c) (gen_new_rtt_ts_us_ c) (pb_rtt_us_ c) (self_session_ttl_us_ c) (min_session_stability_us_ c)
  (restore_factor1_tm_span_us_ c) (next_calc_factor1_ts_us_ c).
Definition set_cache v at_ delta c := mkClocks (last_active_ts_us_ c) (recv_idle_calc_loss_ts_us c) (recv_idle_calc_period_us_ c) v at_
  delta (rtt_us_ c) (gen_new_rtt_ts_us_ c) (pb_rtt_us_ c) (self_session_ttl_us_ c) (min_session_stability_us_ c)
  (restore_factor1_tm_span_us_ c) (next_calc_factor1_ts_us_ c).
Definition set_rtt v gen c := mkClocks (last_active_ts_us_ c) (recv_idle_calc_loss_ts_us c) (recv_idle_calc_period_us_ c) (com_cache_ts_us_ c)
  (at_com_cache_ts_us_ c) (clock_sync_delta_us_ c) v gen (pb_rtt_us_ c) (self_session_ttl_us_ c) (min_session_stability_us_ c)
  (restore_factor1_tm_span_us_ c) (next_calc_factor1_ts_us_ c).
Definition set_span v c := mkClocks (last_active_ts_us_ c) (recv_idle_calc_loss_ts_us c) (recv_idle_calc_period_us_ c) (com_cache_ts_us_ c)
  (at_com_cache_ts_us_ c) (clock_sync_delta_us_ c) (rtt_us_ c) (gen_new_rtt_ts_us_ c) (pb_rtt_us_ c) (self_session_ttl_us_ c)
  (min_session_stability_us_ c) v (next_calc_factor1_ts_us_ c).
Definition set_next_factor v c := mkClocks (last_active_ts_us_ c) (recv_idle_calc_loss_ts_us c) (recv_idle_calc_period_us_ c) (com_cache_ts_us_ c)
  (at_com_cache_ts_us_ c) (clock_sync_delta_us_ c) (rtt_us_ c) (gen_new_rtt_ts_us_ c) (pb_rtt_us_ c) (self_session_ttl_us_ c)
  (min_session_stability_us_ c) (restore_factor1_tm_span_us_ c) v.

(** The constructor of a receiving session and [Init]: the windows on the
    memory [ws], [wr], [wf], the reorder buffer [r] at rest, the packet [pack_sn]
    that the session is made for, the service class [qos] of its address. *)
Definition kInitReq : Z := 0.
Definition DEF_MIX_QUINTUPLET_THRESHOLD : Z := 2000.
Definition DEFAULT_RTT_US : Z := 500000.
Definition DEFAULT_HANDLER_CALC_PERIOD_US : Z := 50000.
Definition U64_MAX : Z := 0xFFFFFFFFFFFFFFFF.
Definition GtpSession_ctor (ts_us ttl pack_sn qos : Z) (ws wr wf : SlidWin) (loss : spec_float) (r : ReSt P E A) : RvSt :=
  let stable := Z.shiftr (u32 ttl) 6 in
  mkRv (mkSync kInitRes ts_us 0 ts_us DEF_MIX_QUINTUPLET_THRESHOLD kInitReq 0 0 0)
    (mkClocks ts_us U64_MAX DEFAULT_HANDLER_CALC_PERIOD_US 0 0 0 0 0 0 (u32 ttl) (u32 ttl) DEFAULT_RTT_US
       (Z.land (u64 (ts_us + DEFAULT_RTT_US)) 0xFFFFFFFF))
    qos 0 0xFF loss (stat_ctor ts_us) Factor.fac_ctor
    (win_ctor pack_sn ts_us stable kRecvSlidWinMode 1 wf) (win_ctor pack_sn ts_us stable kRecvSlidWinMode 0 wr)
    (win_ctor 0 ts_us stable kSendSlidWinMode 0 ws) r [] (0, 0, 0).

(** ** Operations *)

(** [RttHandler]: [loss] is the arq's loss rate of the receiving window. *)
Definition RttHandler (rtt_us : Z) (loss : spec_float) (c : Clocks) : Clocks :=
  let half := Z.shiftr rtt_us 1 in
  let period := if MAX_HANDLER_CALC_PERIOD_US <? half then MAX_HANDLER_CALC_PERIOD_US
                else if half <? MIN_HANDLER_CALC_PERIOD_US then MIN_HANDLER_CALC_PERIOD_US else half in
  let ttl := u32 (u32 (Z.shiftl rtt_us 2) + rtt_us) in
  let ttl := if ttl <? min_session_stability_us_ c then min_session_stability_us_ c else ttl in
  let stab := if min_session_stability_us_ c <? ttl then ttl else min_session_stability_us_ c in
  let ttl := if lit_le_f 10000001 1000000 loss then u32 (ttl + Z.shiftr ttl 2) else ttl in
  mkClocks (last_active_ts_us_ c) (recv_idle_calc_loss_ts_us c) period (com_cache_ts_us_ c) (at_com_cache_ts_us_ c)
    (clock_sync_delta_us_ c) (rtt_us_ c) (gen_new_rtt_ts_us_ c) rtt_us ttl stab
    (restore_factor1_tm_span_us_ c) (next_calc_factor1_ts_us_ c).
Definition rtt_handler (rtt_us : Z) : M unit := mod_st (fun s => on_ck (RttHandler rtt_us (r_cur_loss_rate_ s)) s).

(** [ResetSession]; [sort_sn] is only logged. *)
Definition ResetSession (cur_sn chg_status_flag : Z) : M unit :=
  _ ← mod_st (on_sy (set_ack_sn 0));
  _ ← mod_st (on_sy (fun y => if GTP_YES =? chg_status_flag then set_status kInitRes (recv_last_sync_ts_us_ y) y else y));
  let l_border_sn := Z.land cur_sn 0xFFFFFFC0 in
  s ← get_st;
  _ ← on_win_r (mod_st (ResetWin l_border_sn (now_of s)));
  _ ← on_filter (mod_st (ResetWin l_border_sn (now_of s)));
  _ ← on_re ReorderClear;
  call (CFecPopAllPack (now_of s)).

(** [CheckIntTurnOver] *)
Definition CheckIntTurnOver (head_val tail_val std_val : Z) : bool := u32 (0xFFFFFFFF - head_val + tail_val) <=? std_val.

Section Packet.
(** The system id, the answer of [GtpSysTimestampUs], the width of a pointer, and
    what [Decode] of the fec engine returns. *)
Variable sys_id now_us ptr_size decode_ret : Z.

Definition dup_err : Z := GEN_ERR sys_id kGtpSessionMd kDuplicatePackErr.

(** A packet that announces a new stream, or one of the running stream. *)
Definition sync_status (h : PackHeader) : M unit :=
  s ← get_st;
  let y := sy s in
  if GTP_YES =? init_flag h then
    when ((kRunning =? recv_session_stat_ y) && (u64 (recv_last_sync_ts_us_ y + MIN_SYNC_PERIOD_US) <=? now_of s))
      (ResetSession (pack_sn h) GTP_YES)
  else when (negb (kRunning =? recv_session_stat_ y)) (mod_st (on_sy (set_status kRunning (now_of s)))).

(** The jump of the numbers since the last packet, none across the wrap-around. *)
Definition sn_jump (last_sn sn : Z) : option Z :=
  if last_sn <=? sn then Some (sn - last_sn)
  else if CheckIntTurnOver last_sn sn MAX_RCV_PACK_SN_UPDATE_STEP then None
  else Some (last_sn - sn).
Definition check_mixed (h : PackHeader) : M unit :=
  s ← get_st;
  let y := sy s in
  _ ← when (u64 (now_of s - last_recv_data_pack_ts_us_ y) <? MAX_KEEPALIVE_TIME_LEN_US)
        (_ ← match sn_jump (last_sn_ y) (pack_sn h) with
             | Some d => when (ai_learn_sn_delta_ y <=? d) (ResetSession (pack_sn h) GTP_NO)
             | None => mret tt
             end;
         mod_st (on_sy (set_last_sn (pack_sn h))));
  mod_st (on_sy (set_last_recv (now_of s))).

(** [PackPrepHandler]: the return code, and the frame. *)
Definition PackPrepHandler (m : list Z) (size : Z) : M (Z * option (list Z)) :=
  let h := parse_header m in
  let t := pack_type h in
  if t =? kGtpDataPackType then
    _ ← mod_st (fun s => if GTP_YES =? is_qos_flg h then put_rv_qos (share_zone h) s else s);
    _ ← mod_st (fun s => on_ck (set_idle_ts (now_of s)) s);
    _ ← sync_status h;
    _ ← check_mixed h;
    s ← get_st;
    b ← on_filter (filter_packet (first_sn_of (rv_stream_type s) m) (now_of s));
    if (b : bool) then mret (GTP_OK, Some (frame_of m size)) else mret (dup_err, None)
  else if (t =? Feedback.kGtpAckPackType) || (t =? kGtpRttTstResPackType) || (t =? Feedback.kGtpNackPackType) then
    _ ← when (GTP_YES =? init_flag h) (mod_st (on_sy (set_send_stat kRunning)));
    mret (GTP_OK, None)
  else if t =? kGtpFecPackType then mret (GTP_OK, None)
  else if t =? kGtpSetRecvRttPackType then
    _ ← mod_st (on_sy (fun y => if negb (GTP_YES =? init_flag h) && negb (kRunning =? recv_session_stat_ y) then set_status kRunning now_us y else y));
    mret (GTP_OK, None)
  else mret (GEN_ERR sys_id kGtpMgrMd kUnknownPackTypeErr, None).

(** [Fec2RestoreFrameReceive], for a packet the fec engine has rebuilt. *)
Definition restored_first_sn (stream_type : Z) (m : list Z) : Z :=
  let h := parse_header m in
  if (stream_type <? kReliableStream) || (goodtp_ver h <? 2) || (GTP_NO =? has_chg_zone h) then
    if 0 =? repeat_counter h then pack_sn h else load_at 4 m GTP_PACKET_SIZE
  else load_at 4 m (header_offset h).
Definition Fec2RestoreFrameReceive (m : list Z) (addr : option A) : M Z :=
  let h := parse_header m in
  let nret := (GtpCheckPacketInvalid sys_id (Some m) (pack_size h) false).1 in
  if negb (GTP_OK =? nret) then
    _ ← mod_st (fun s => let '(ok, bad, rep) := fec_stats s in put_fec_stats (ok, u32 (bad + 1), rep) s);
    mret nret
  else
    _ ← mod_st (fun s => let '(ok, bad, rep) := fec_stats s in put_fec_stats (u32 (ok + 1), bad, rep) s);
    s ← get_st;
    let first_sn := restored_first_sn (rv_stream_type s) m in
    b ← on_filter (filter_packet first_sn (now_of s));
    if negb b then
      _ ← mod_st (fun s => let '(ok, bad, rep) := fec_stats s in put_fec_stats (ok, bad, u32 (rep + 1)) s);
      mret GTP_OK
    else
      let hint := if negb (0 =? repeat_counter h) && (GTP_NO =? has_chg_zone h) then first_sn else UINT32_MAX in
      _ ← on_re (ReorderEnqueue (pack_sn h) (Some (frame_of m (pack_size h))) (u32 (pack_size h - header_offset h)) addr (now_of s) hint);
      _ ← on_win_r (SnEntryWin (pack_sn h) (now_of s) SELF_YES);
      mret GTP_OK.
Fixpoint restore_all (l : list (list Z)) (addr : option A) : M unit :=
  match l with
  | [] => mret tt
  | m :: l' => _ ← Fec2RestoreFrameReceive m addr; restore_all l' addr
  end.

(** A round trip time from the peer ([SetLinkerRttUs] on the receiving window). *)
Definition take_rtt (rtt_us : Z) : M unit :=
  _ ← mod_st (on_ck (set_span rtt_us));
  s ← get_st;
  _ ← on_win_r (mod_st (SetRttUs rtt_us (now_of s) SELF_YES));
  rtt_handler rtt_us.
(** The peer's time stamp, to be sent back. *)
Definition take_ts (ts : Z) : M unit :=
  mod_st (fun s => on_ck (set_cache ts (now_of s) (CalcSysClockSync (pb_rtt_us_ (ck s)) ts (now_of s))) s).
(** The loss rate the peer has measured. *)
Definition take_loss (loss : spec_float) : M unit :=
  s ← get_st;
  r ← deref (Factor.Factor1 now_us loss (now_of s) (fac s));
  _ ← mod_st (put_fac r.2);
  _ ← on_win_r (mod_st (fun w => (AdjustFeedbackFactor r.1 (now_of s) w).2));
  mod_st (on_ck (fun c => set_next_factor (u32 (u32 (Z.land (last_active_ts_us_ c) 0xFFFFFFFF) + restore_factor1_tm_span_us_ c)) c)).

(** The largest number so far, and whether a gap opens before it. *)
Definition watch_gap (sn : Z) (y : Sync) : Sync :=
  let mx := recv_max_data_sn_ y in
  let d := i32 (u32 (sn - mx)) in
  set_gap (if (mx =? 0) || (0 <? d) then sn else mx) (if negb (mx =? 0) && (1 <? d) then 2 else new_gap_detected_ y) y.

Definition count_recv (f : LinkerStat -> LinkerStat) : M unit := mod_st (fun s => put_recv_stat (f (recv_stat s)) s).
Definition count_ack_in (s : LinkerStat) : LinkerStat :=
  mkStat (data_bitrate_sum_ s) (data_bitrate_bkup_ s) (net_bitrate_sum_ s) (net_bitrate_bkup_ s)
    (data_pack_sum_ s) (data_pack_bkup_ s) (net_pack_sum_ s) (net_pack_bkup_ s)
    (data_bitrate_bps_ s) (net_bitrate_bps_ s) (data_pack_pps_ s) (net_pack_pps_ s)
    (first_frame_sum_ s) (retran_frame_sum_ s) (u32 (ack_sum_ s + 1)) (last_calc_ts_us_ s).
Definition when_some {T} (o : option T) (f : T -> M unit) : M unit := match o with Some x => f x | None => mret tt end.

(** The data branch of [PackPostHandler]; [restored] are the packets that
    [CacheDataPack] hands to the callback while it runs. *)
Definition post_data (m : list Z) (size : Z) (restored : list (list Z)) (addr : option A) : M unit :=
  let h := parse_header m in
  _ ← count_recv (fun x => count_frame (repeat_counter h) (count_data size x));
  s ← get_st;
  _ ← when (negb (0 =? rv_peer_version s)) (_ ← call (CFecCacheDataPack m (now_of s)); restore_all restored addr);
  _ ← when_some (rtt_of m) take_rtt;
  _ ← when_some (ts_of m) take_ts;
  _ ← when_some (loss_of m) take_loss;
  s ← get_st;
  _ ← on_win_r (SnEntryWin (pack_sn h) (now_of s) SELF_YES);
  mod_st (on_sy (watch_gap (pack_sn h))).

(** The round trip time of a feedback packet. *)
Definition feedback_rtt (l : Feedback.FbLoad) : M Z :=
  match Feedback.fl_cache_us l with
  | None => mret 0
  | Some cache_us =>
      let rtt := Feedback.stamp_rtt now_us cache_us in
      _ ← mod_st (on_ck (set_rtt rtt now_us));
      _ ← rtt_handler rtt;
      mret rtt
  end.
Definition post_ack (m : list Z) : M unit :=
  _ ← count_recv count_ack_in;
  let l := Feedback.read_load m in
  rtt ← feedback_rtt l;
  _ ← on_win_s (mod_st (SetFeedBackLoss (Feedback.fl_loss l) now_us rtt));
  let bitmap := drop (Z.to_nat (Feedback.fl_zone l)) m in
  s ← get_st;
  _ ← on_win_s (Feedback.ProcAckSnBitMap ptr_size bitmap (Feedback.fl_head_sn l) (Feedback.fl_tail_sn l) (now_of s) (Feedback.fl_num l));
  call (CArqProcAck bitmap (Feedback.fl_num l) (Feedback.fl_head_sn l) (Feedback.fl_tail_sn l) (Feedback.fl_rto_sn l)).
Definition post_nack (m : list Z) : M unit :=
  _ ← count_recv count_ack_in;
  let l := Feedback.read_load m in
  rtt ← feedback_rtt l;
  _ ← on_win_s (mod_st (SetFeedBackLoss (Feedback.fl_loss l) now_us rtt));
  s ← get_st;
  let nack := Feedback.read_nack m l in
  _ ← on_win_s (NackSnEntryWin (Feedback.fl_head_sn l) (Feedback.fl_tail_sn l) nack (now_of s));
  call (CArqProcNack nack (Feedback.fl_head_sn l) (Feedback.fl_tail_sn l) (Feedback.fl_rto_sn l)).

(** The answer to a time stamp: the round trip time of the sending window. *)
Definition post_rtt_answer (m : list Z) : M unit :=
  when_some (ts_of m) (fun ts =>
    let rtt := Feedback.stamp_rtt now_us ts in
    s ← get_st;
    _ ← on_win_s (mod_st (SetRttUs rtt (now_of s) SELF_YES));
    _ ← mod_st (on_ck (set_rtt rtt now_us));
    rtt_handler rtt).

(** [PackPostHandler]; [e] is the buffer of the packet, which every branch but
    that of the data packets gives back. *)
Definition PackPostHandler (e : E) (m : list Z) (size : Z) (restored : list (list Z)) (addr : option A) : M Z :=
  let h := parse_header m in
  let t := pack_type h in
  let free : M unit := on_re (free_frame e) in
  _ ← count_recv (count_net size);
  if t =? kGtpDataPackType then _ ← post_data m size restored addr; mret GTP_OK
  else if t =? Feedback.kGtpAckPackType then _ ← post_ack m; _ ← free; mret GTP_OK
  else if t =? kGtpFecPackType then
    s ← get_st;
    let decoded := negb (0 =? rv_peer_version s) && (FEC2_CODE_PACK_SIZE <=? pack_size h) in
    _ ← when decoded (_ ← call (CFecDecode m (now_of s)); restore_all restored addr);
    _ ← free; mret (if decoded then decode_ret else GTP_OK)
  else if t =? kGtpSetRecvRttPackType then _ ← when_some (rtt_of m) take_rtt; _ ← free; mret GTP_OK
  else if t =? kGtpRttTstResPackType then _ ← post_rtt_answer m; _ ← free; mret GTP_OK
  else if t =? Feedback.kGtpNackPackType then _ ← post_nack m; _ ← free; mret GTP_OK
  else _ ← free; mret (GEN_ERR sys_id kGtpMgrMd kUnknownPackTypeErr).

(** [GtpPacketReceive] once the session is found, at the time [cur_ts]; the
    header is in the current layout. *)
Definition GtpPacketReceive (cur_ts : Z) (e : E) (m : list Z) (restored : list (list Z)) (addr : option A) : M Z :=
  let h := parse_header m in
  let data := kGtpDataPackType =? pack_type h in
  _ ← mod_st (put_version (goodtp_ver h));
  _ ← mod_st (fun s => if data then on_ck (set_active cur_ts) s else s);
  let size := pack_size h in
  r ← PackPrepHandler m size;
  let '(nret, frame) := r in
  if dup_err =? nret then
    _ ← PackPostHandler e m size restored addr;
    s ← get_st;
    _ ← when data (on_re (ReorderEnqueue (pack_sn h) None 0 addr (now_of s) UINT32_MAX));
    mret GTP_OK
  else if negb (GTP_OK =? nret) then mret nret
  else
    let first_sn := if 0 =? repeat_counter h then pack_sn h else load_at 4 m GTP_PACKET_SIZE in
    nret ← PackPostHandler e m size restored addr;
    if negb (GTP_OK =? nret) then mret nret
    else
      s ← get_st;
      _ ← when data (on_re (ReorderEnqueue (pack_sn h) frame (u32 (size - header_offset h)) addr (now_of s) first_sn));
      mret GTP_OK.

End Packet.
End Recv.

#[global] Arguments RvSt P E A {_ _}.
End SessRecv.
