(* ===== verification/SessRecvRun.v ===== *)
(** * What the application gets from a session

    Packets of a running session go through [GtpPacketReceive]: the duplicate
    filter and the reorder buffer together deliver every frame once and in
    order.  The two places where they do not: after an outage, and behind a
    retransmission. *)
From Stdlib Require Import Floats.SpecFloat Sorting.Sorted.
From S2P Require Import Prelude PoolInterface PacketHeader LinkStat Frame Factor ReorderRun SlidWinState SlidWin SlidWinSpec SlidWinRtt SlidWinRun SlidWinSendSpec Feedback SessRecv.
Export ReorderRun SlidWinRun SlidWinSendSpec Feedback SessRecv.

Module SessRecvRun.

(** ** A measured round trip time leaves the ring of a window alone *)
Lemma SetRttUs_same rtt_us ts flag s : same_win s (SetRttUs rtt_us ts flag s).
Proof.
  unfold SetRttUs. set (s1 := on_cnt _ (cache_rtt _ _ _ s)).
  assert (H1 : same_win s s1) by done. clearbody s1.
  set (s2 := if _ && _ then _ else ForcastCongest ts s1).
  assert (H2 : same_win s1 s2).
  { unfold s2, ForcastCongest. destruct (congest_verdict _ _ _ _ _ _ _ _) as [rank checked]. unfold SetCongestRank. same_win_tac. }
  clearbody s2. set (s3 := rtt_tolerances s2). assert (H3 : same_win s2 s3) by done. clearbody s3.
  etrans; [exact H1|]. etrans; [exact H2|]. etrans; [exact H3|]. unfold rtt_report, report_either. same_win_tac.
Qed.
Lemma AdjustFeedbackFactor_same k ts s : same_win s (AdjustFeedbackFactor k ts s).2.
Proof. unfold AdjustFeedbackFactor. by destruct (_ =? _). Qed.

(** ** The receiving window *)

(** The window has received nothing before [sn0], and [mx] at most. *)
Definition data_at (sn0 mx : Z) (w : SlidWin) : Prop :=
  max_sn_ (geo w) = mx /\ filter_win_flag_ w = SELF_NO /\ slid_win_mode_ w = kRecvSlidWinMode /\
  l_border_sn_ (geo w) <= Z.max sn0 (mx - 62) /\ mx - l_border_sn_ (geo w) <= 2878 /\ exists seen, geo_ok seen (geo w).

Lemma data_at_same sn0 mx w w' : same_win w w' -> data_at sn0 mx w -> data_at sn0 mx w'.
Proof. intros (E1 & E2 & E3). unfold data_at. by rewrite E1, E2, E3. Qed.
Lemma data_at_entry sn0 mx w sn ts :
  data_at sn0 mx w -> Z.max sn0 (mx - 62) <= sn <= mx + 1217 -> sn + MIN_WIN_SZ < 2 ^ 32 ->
  wp (SnEntryWin sn ts SELF_YES) (fun _ w' => data_at sn0 (Z.max mx sn) w') w.
Proof.
  intros (Hx & Hf & Hm & Hl & Ha & seen & Hg) Hsn Hnw. unfold MIN_WIN_SZ in *.
  apply (wp_SnEntryWin seen); [done|done|unfold MIN_WIN_SZ; lia|lia|unfold MIN_WIN_SZ; lia|].
  intros w' [Ok M F L B _ A] X. assert (min_reserve w = 128 /\ max_reserve w = 768) by (unfold min_reserve, max_reserve; by rewrite Hf).
  unfold data_at. split_and!; try congruence; try lia. by eexists.
Qed.
Lemma ctor_geo_ok sn0 ts stable mode flag (junk : SlidWin) : 0 <= sn0 -> sn0 + MIN_WIN_SZ < 2 ^ 32 -> junk_ok junk ->
  let w := win_ctor sn0 ts stable mode flag junk in geo_ok ∅ (geo w) /\ max_sn_ (geo w) = sn0 /\ l_border_sn_ (geo w) = sn0.
Proof. intros H0 Hnw (Hbm & Hw & Hts). apply ResetWin_ok; done. Qed.
Lemma ctor_data_at sn0 ts stable (junk : SlidWin) : 0 <= sn0 -> sn0 + MIN_WIN_SZ < 2 ^ 32 -> junk_ok junk ->
  data_at sn0 sn0 (win_ctor sn0 ts stable kRecvSlidWinMode SELF_NO junk).
Proof.
  intros H0 Hnw Hj. destruct (ctor_geo_ok sn0 ts stable kRecvSlidWinMode SELF_NO junk H0 Hnw Hj) as (Hok & HX & HL).
  unfold data_at. rewrite HX, HL. split_and!; try done; try lia. by eexists.
Qed.

(** ** One data packet *)
Section Run.
Context {P E A : Type} `{Countable E} `{!PackPool P E} `{!PackPoolLaws P E}.
Local Abbreviation St := (RvSt P E A).
Variable sys_id ptr_size decode_ret : Z.

Lemma wp_part {S T} (get : St -> S) (put : S -> St -> St) (m : ST S T) (Q : T -> St -> Prop) s :
  wp m (fun x r => Q x (put r s)) (get s) -> wp (part get put m) Q s.
Proof. unfold wp, part. by destruct (m (get s)) as [[x r]|]. Qed.

(** A packet as it arrives: its time, its buffer, its bytes, the packets the fec
    engine rebuilds while it is handled, its address, and what the clock answers
    meanwhile. *)
Record Arrival := mkArr { ar_ts : Z; ar_now : Z; ar_e : E; ar_pack : list Z; ar_rest : list (list Z); ar_addr : option A }.
Definition ar_hdr (x : Arrival) : PackHeader := parse_header (ar_pack x).
Definition is_data (x : Arrival) : bool := pack_type (ar_hdr x) =? kGtpDataPackType.
Definition receive (x : Arrival) : ST St Z :=
  GtpPacketReceive sys_id (ar_now x) ptr_size decode_ret (ar_ts x) (ar_e x) (ar_pack x) (ar_rest x) (ar_addr x).
Fixpoint receive_all (l : list Arrival) : ST St (list Z) :=
  match l with
  | [] => mret []
  | x :: l' => r ← receive x; rs ← receive_all l'; mret (r :: rs)
  end.

(** What a packet that does not look like a restart makes of the state. *)
Definition heard (x : Arrival) (y : Sync) : Sync :=
  let y := if (GTP_YES =? init_flag (ar_hdr x)) || (kRunning =? recv_session_stat_ y) then y else set_status kRunning (ar_ts x) y in
  let y := if u64 (ar_ts x - last_recv_data_pack_ts_us_ y) <? MAX_KEEPALIVE_TIME_LEN_US then set_last_sn (pack_sn (ar_hdr x)) y else y in
  set_last_recv (ar_ts x) y.
Definition restarted (x : Arrival) (y : Sync) : bool :=
  (GTP_YES =? init_flag (ar_hdr x)) && (kRunning =? recv_session_stat_ y) && (u64 (recv_last_sync_ts_us_ y + MIN_SYNC_PERIOD_US) <=? ar_ts x).
Definition jumped (x : Arrival) (y : Sync) : bool :=
  (u64 (ar_ts x - last_recv_data_pack_ts_us_ y) <? MAX_KEEPALIVE_TIME_LEN_US) &&
  match sn_jump (last_sn_ y) (pack_sn (ar_hdr x)) with Some d => ai_learn_sn_delta_ y <=? d | None => false end.

Lemma wp_sync x s (Q : unit -> St -> Prop) :
  now_of s = ar_ts x -> restarted x (sy s) = false -> jumped x (sy s) = false ->
  Q tt (put_sy (heard x (sy s)) s) ->
  wp (_ ← sync_status (ar_hdr x); check_mixed (ar_hdr x)) Q s.
Proof.
  intros Hnow Hr Hj HQ. apply wp_bind. unfold sync_status. apply wp_bind, wp_get. rewrite Hnow.
  set (y1 := if (GTP_YES =? init_flag (ar_hdr x)) || (kRunning =? recv_session_stat_ (sy s)) then sy s else set_status kRunning (ar_ts x) (sy s)).
  assert (Hmixed : wp (check_mixed (ar_hdr x)) Q (put_sy y1 s)).
  { unfold check_mixed. apply wp_bind, wp_get. change (now_of (put_sy y1 s)) with (now_of s). rewrite Hnow.
    change (sy (put_sy y1 s)) with y1.
    assert (Ey : last_recv_data_pack_ts_us_ y1 = last_recv_data_pack_ts_us_ (sy s) /\ last_sn_ y1 = last_sn_ (sy s) /\ ai_learn_sn_delta_ y1 = ai_learn_sn_delta_ (sy s))
      by (unfold y1; by destruct (_ || _)). destruct Ey as (E1 & E2 & E3). unfold heard in HQ. fold y1 in HQ. cbv zeta in HQ. rewrite E1 in *.
    unfold jumped in Hj. rewrite E2, E3. destruct (u64 _ <? _) eqn:Ew; cbn [andb when] in *; apply wp_bind.
    - apply wp_bind. destruct (sn_jump _ _) as [d|].
      + rewrite Hj. cbn [when]. apply wp_ret, wp_mod, wp_mod. exact HQ.
      + apply wp_ret, wp_mod, wp_mod. exact HQ.
    - apply wp_ret, wp_mod. exact HQ. }
  unfold restarted in Hr. unfold y1 in Hmixed. destruct (GTP_YES =? init_flag (ar_hdr x)); cbn [andb orb] in *.
  - apply wp_when; [by rewrite Hr|]. intros _. by destruct s.
  - apply wp_when; intros Hk.
    + apply negb_true_iff in Hk. rewrite Hk in Hmixed. apply wp_mod. exact Hmixed.
    + apply negb_false_iff in Hk. rewrite Hk in Hmixed. by destruct s.
Qed.

(** What a session knows of its peer is what [y] says; its tolerance for jumps
    may be larger. *)
Definition same_peer (y y' : Sync) : Prop :=
  recv_session_stat_ y' = recv_session_stat_ y /\ recv_last_sync_ts_us_ y' = recv_last_sync_ts_us_ y /\
  last_sn_ y' = last_sn_ y /\ last_recv_data_pack_ts_us_ y' = last_recv_data_pack_ts_us_ y /\
  ai_learn_sn_delta_ y <= ai_learn_sn_delta_ y'.
Lemma same_peer_calm x y y' : same_peer y y' -> restarted x y = false -> jumped x y = false ->
  restarted x y' = false /\ jumped x y' = false.
Proof.
  intros (E1 & E2 & E3 & E4 & Hai) Hr Hj. unfold restarted, jumped in *. rewrite E1, E2, E3, E4. split; [done|].
  destruct (_ <? _); [|done]. cbn [andb] in *. destruct (sn_jump _ _); [|done]. apply Z.leb_gt in Hj. apply Z.leb_gt. lia.
Qed.
Lemma same_peer_heard x y y' : same_peer y y' -> same_peer (heard x y) (heard x y').
Proof.
  intros (E1 & E2 & E3 & E4 & Hai). unfold heard, same_peer. rewrite E1.
  destruct ((GTP_YES =? _) || (kRunning =? _)); cbn; rewrite E4; destruct (_ <? _); cbn; by split_and!.
Qed.

(** A packet that brings a round trip time. *)
Definition greeted (x : Arrival) (y : Sync) : Sync :=
  if negb (GTP_YES =? init_flag (ar_hdr x)) && negb (kRunning =? recv_session_stat_ y) then set_status kRunning (ar_now x) y else y.
Lemma same_peer_greeted x y y' : same_peer y y' -> same_peer (greeted x y) (greeted x y').
Proof. intros (E1 & E2 & E3 & E4 & Hai). unfold greeted, same_peer. rewrite E1. destruct (negb _ && negb _); cbn; by split_and!. Qed.

(** What is known of a session between two packets: the largest numbers of its
    filter and of its receiving window, the numbers that have passed the filter,
    the peer, and the time of the last data packet. *)
Record Track := mkTrack { tk_fm : Z; tk_rm : Z; tk_seen : gset Z; tk_peer : Sync; tk_now : Z }.
Definition enter_first (f : Z) (t : Track) : Track := mkTrack (Z.max (tk_fm t) f) (tk_rm t) ({[f]} ∪ tk_seen t) (tk_peer t) (tk_now t).
Definition enter_sn (n : Z) (t : Track) : Track := mkTrack (tk_fm t) (Z.max (tk_rm t) n) (tk_seen t) (tk_peer t) (tk_now t).
Definition put_peer (y : Sync) (now : Z) (t : Track) : Track := mkTrack (tk_fm t) (tk_rm t) (tk_seen t) y now.

Record running (f0 r0 : Z) (t : Track) (s : St) : Prop := {
  rn_filter : filter_at f0 (tk_seen t) (filter_win_ s);
  rn_fm : max_sn_ (geo (filter_win_ s)) = tk_fm t;
  rn_data : data_at r0 (tk_rm t) (data_win_r_ s);
  rn_fac : Factor.fac_ok (fac s);
  rn_sync : same_peer (tk_peer t) (sy s);
  rn_pps : 0 <= data_pack_pps_ (recv_stat s);
  rn_snd : snd_ok (data_win_s_ s) /\ slid_win_mode_ (data_win_s_ s) = kSendSlidWinMode;
  rn_now : now_of s = tk_now t
}.

(** The parts the handlers of measurements leave alone. *)
Definition aside (s s' : St) : Prop :=
  filter_win_ s' = filter_win_ s /\ re s' = re s /\ sy s' = sy s /\ now_of s' = now_of s /\ rv_stream_type s' = rv_stream_type s /\
  rv_peer_version s' = rv_peer_version s /\ same_win (data_win_r_ s) (data_win_r_ s') /\ (Factor.fac_ok (fac s) -> Factor.fac_ok (fac s')) /\
  data_win_s_ s' = data_win_s_ s /\ data_pack_pps_ (recv_stat s') = data_pack_pps_ (recv_stat s).
#[local] Instance aside_preorder : PreOrder aside.
Proof.
  split; [by intros s|]. intros s1 s2 s3 (a1&a2&a3&a4&a5&a6&a7&a8&a9&a10) (b1&b2&b3&b4&b5&b6&b7&b8&b9&b10). unfold aside.
  split_and!; [congruence..| |by auto|congruence|congruence]. by etrans.
Qed.
Lemma wp_aside_bind {B C} (m : ST St B) (k : B -> ST St C) s0 s :
  aside s0 s -> wp m (fun _ s' => aside s s') s -> (forall x s', aside s0 s' -> wp (k x) (fun _ s2 => aside s0 s2) s') ->
  wp (m ≫= k) (fun _ s2 => aside s0 s2) s.
Proof. intros H1 H2 H3. apply wp_bind. eapply wp_mono; [exact H2|]. cbn beta. intros x s' H4. apply H3. by etrans. Qed.

Lemma take_rtt_aside rtt s : wp (take_rtt rtt) (fun _ s' => aside s s') s.
Proof.
  unfold take_rtt, rtt_handler. apply wp_bind, wp_mod, wp_bind, wp_get, wp_bind, wp_part, wp_mod, wp_mod.
  unfold aside. split_and!; try done. apply SetRttUs_same.
Qed.
Lemma take_ts_aside ts s : wp (take_ts ts) (fun _ s' => aside s s') s.
Proof. by apply wp_mod. Qed.
Lemma take_loss_aside now loss s : Factor.fac_ok (fac s) -> wp (take_loss now loss) (fun _ s' => aside s s') s.
Proof.
  intros Hf. unfold take_loss. apply wp_bind, wp_get, wp_bind.
  destruct (Factor.Factor1_some now loss (now_of s) (fac s) Hf) as (f & c & Hr & Hc). eapply wp_deref; [exact Hr|].
  apply wp_bind, wp_mod, wp_bind, wp_part, wp_mod, wp_mod. unfold aside. split_and!; try done. apply AdjustFeedbackFactor_same.
Qed.
Lemma when_some_aside {T} (o : option T) (f : T -> ST St unit) s :
  (forall v, wp (f v) (fun _ s' => aside s s') s) -> wp (when_some o f) (fun _ s' => aside s s') s.
Proof. intros Hf. destruct o; [apply Hf|by apply wp_ret]. Qed.

Lemma running_aside f0 r0 t s s' : running f0 r0 t s -> aside s s' -> running f0 r0 t s'.
Proof.
  intros [H1 H2 H3 H4 H5 H6 H7 H8] (a1&a2&a3&a4&a5&a6&a7&a8&a9&a10).
  split; rewrite ?a1, ?a3, ?a4, ?a9, ?a10; try done; [by eapply data_at_same|by apply a8].
Qed.

Lemma fec_stats_aside g s : aside s (let '(ok, bad, rep) := fec_stats s in put_fec_stats (g ok bad rep) s).
Proof. destruct (fec_stats s) as [[ok bad] rep]. unfold aside. by split_and!. Qed.

Lemma count_recv_aside f s : data_pack_pps_ (f (recv_stat s)) = data_pack_pps_ (recv_stat s) ->
  wp (count_recv f) (fun _ s' => aside s s') s.
Proof. intros Hf. apply wp_mod. unfold aside. split_and!; try exact Hf; done. Qed.

Section Steps.
Variables st f0 r0 : Z.

(** The session as [t] says, with the reorder buffer [r] and the peer's version [v]. *)
Definition holds (v : Z) (t : Track) (r : ReSt P E A) (s : St) : Prop :=
  running f0 r0 t s /\ re s = r /\ rv_stream_type s = st /\ rv_peer_version s = v.
Lemma holds_aside v t r s s' : holds v t r s -> aside s s' -> holds v t r s'.
Proof.
  intros (Hr & H1 & H2 & H3) Ha. pose proof (running_aside _ _ _ _ _ Hr Ha) as Hr'.
  destruct Ha as (a1&a2&a3&a4&a5&a6&a7&a8&a9&a10). split; [done|]. by rewrite a2, a5, a6.
Qed.
Lemma wp_holds_bind {B C} (m : ST St B) (k : B -> ST St C) v t r s Q :
  holds v t r s -> wp m (fun _ s' => aside s s') s -> (forall x s', holds v t r s' -> wp (k x) Q s') -> wp (m ≫= k) Q s.
Proof. intros Hh Hm Hk. apply wp_bind. eapply wp_mono; [exact Hm|]. cbn beta. intros x s' Ha. apply Hk. by eapply holds_aside. Qed.

(** The numbers that the filter and the window take without moving too far. *)
Definition first_fits (f : Z) (t : Track) : Prop := Z.max f0 (tk_fm t - 190) <= f <= tk_fm t + 1473 /\ f + MIN_WIN_SZ < 2 ^ 32.
Definition sn_fits (n : Z) (t : Track) : Prop := Z.max r0 (tk_rm t - 62) <= n <= tk_rm t + 1217 /\ n + MIN_WIN_SZ < 2 ^ 32.

Lemma wp_first v t r s f ts : holds v t r s -> first_fits f t ->
  wp (on_filter (filter_packet f ts)) (fun b s' => b = bool_decide (f ∉ tk_seen t) /\ holds v (enter_first f t) r s') s.
Proof.
  intros ([H1 H2 H3 H4 H5 H6 H7 H8] & Hre & Hst & Hv) [Hf Hfw]. apply wp_part.
  destruct (filter_step f0 (tk_seen t) (filter_win_ s) f ts H1 ltac:(by rewrite H2) Hfw) as (w & Hw & Hwat & Hwm).
  unfold wp. rewrite Hw. split; [done|]. split; [|done]. split; try done. cbn. by rewrite Hwm, H2.
Qed.
Lemma wp_window v t r s n ts : holds v t r s -> sn_fits n t ->
  wp (on_win_r (SnEntryWin n ts SELF_YES)) (fun _ s' => holds v (enter_sn n t) r s') s.
Proof.
  intros ([H1 H2 H3 H4 H5 H6 H7 H8] & Hre & Hst & Hv) [Hn Hnw]. apply wp_part.
  eapply wp_mono; [by apply (data_at_entry r0 (tk_rm t))|]. cbn beta. intros b w Hw. split; [|done]. by split.
Qed.
Lemma wp_buffer v t r r' s (m : ST (ReSt P E A) unit) : holds v t r s -> m r = Some (tt, r') -> wp (on_re m) (fun _ s' => holds v t r' s') s.
Proof.
  intros ([H1 H2 H3 H4 H5 H6 H7 H8] & Hre & Hst & Hv) Hm. apply wp_part. rewrite Hre. unfold wp. rewrite Hm. split; [|done]. by split.
Qed.

(** ** Packets that the fec engine rebuilt *)
Definition sound (m : list Z) : bool := GTP_OK =? (GtpCheckPacketInvalid sys_id (Some m) (pack_size (parse_header m)) false).1.
Definition rest_hint (m : list Z) : Z :=
  let h := parse_header m in
  if negb (0 =? repeat_counter h) && (GTP_NO =? has_chg_zone h) then restored_first_sn st m else UINT32_MAX.
Definition rest_event (addr : option A) (t : Track) (m : list Z) : ReEvent E A :=
  let h := parse_header m in
  EvPacket (pack_sn h) (Some (frame_of m (pack_size h))) (u32 (pack_size h - header_offset h)) addr (tk_now t) (rest_hint m).
Definition rest_new (m : list Z) (t : Track) : bool := sound m && bool_decide (restored_first_sn st m ∉ tk_seen t).
Definition rest_track (m : list Z) (t : Track) : Track :=
  if sound m then
    let t1 := enter_first (restored_first_sn st m) t in
    if rest_new m t then enter_sn (pack_sn (parse_header m)) t1 else t1
  else t.
Definition rest_fits (m : list Z) (t : Track) : Prop :=
  if sound m then
    first_fits (restored_first_sn st m) t /\ (if rest_new m t then sn_fits (pack_sn (parse_header m)) t else True)
  else True.
Fixpoint rests_track (l : list (list Z)) (t : Track) : Track :=
  match l with [] => t | m :: l' => rests_track l' (rest_track m t) end.
Fixpoint rests_fits (l : list (list Z)) (t : Track) : Prop :=
  match l with [] => True | m :: l' => rest_fits m t /\ rests_fits l' (rest_track m t) end.
Fixpoint rests_events (addr : option A) (l : list (list Z)) (t : Track) : list (ReEvent E A) :=
  match l with
  | [] => []
  | m :: l' => (if rest_new m t then [rest_event addr t m] else []) ++ rests_events addr l' (rest_track m t)
  end.

Opaque filter_packet SnEntryWin ReorderEnqueue.
Lemma restore_step addr m v t r r' s :
  holds v t r s -> rest_fits m t -> re_run (if rest_new m t then [rest_event addr t m] else []) r = Some (tt, r') ->
  wp (Fec2RestoreFrameReceive sys_id m addr) (fun _ s' => holds v (rest_track m t) r' s') s.
Proof.
  intros Hh Hf Hev. unfold Fec2RestoreFrameReceive, rest_fits, rest_track in *. cbv zeta.
  assert (Hnew : rest_new m t = sound m && bool_decide (restored_first_sn st m ∉ tk_seen t)) by done.
  unfold sound in *. destruct (GTP_OK =? _); cbn [negb andb] in *.
  2:{ rewrite Hnew in Hev. injection Hev as <-. apply wp_bind, wp_mod, wp_ret. eapply holds_aside; [exact Hh|].
      exact (fec_stats_aside (fun ok bad rep => (ok, u32 (bad + 1), rep)) s). }
  destruct Hf as [Hf Hn]. eapply wp_holds_bind; [exact Hh|apply wp_mod; exact (fec_stats_aside (fun ok bad rep => (u32 (ok + 1), bad, rep)) s)|]. clear s Hh. intros [] s Hh.
  apply wp_bind, wp_get. pose proof Hh as ([_ _ _ _ _ _ _ Hnow] & _ & Hst & _). rewrite Hst, Hnow. apply wp_bind.
  eapply wp_mono; [by apply wp_first|]. cbn beta. clear s Hh Hst Hnow. intros b s [-> Hh]. rewrite <- Hnew.
  destruct (rest_new m t); cbn [negb].
  - cbn [re_run re_step] in Hev. unfold mbind at 1, ST_bind at 1 in Hev. unfold rest_event, re_step in Hev. cbv zeta in Hev.
    destruct (ReorderEnqueue _ _ _ _ _ _ r) as [[[] r1]|] eqn:He; [|done]. injection Hev as <-.
    apply wp_bind. eapply wp_mono; [eapply wp_buffer; [exact Hh|exact He]|]. cbn beta. clear s Hh. intros [] s Hh.
    apply wp_bind. eapply wp_mono; [eapply wp_window; [exact Hh|exact Hn]|]. cbn beta. intros b s' Hs'. by apply wp_ret.
  - injection Hev as <-. apply wp_bind, wp_mod, wp_ret. eapply holds_aside; [exact Hh|].
    exact (fec_stats_aside (fun ok bad rep => (ok, bad, u32 (rep + 1))) s).
Qed.
Lemma restore_all_ok addr l : forall v t r r' s,
  holds v t r s -> rests_fits l t -> re_run (rests_events addr l t) r = Some (tt, r') ->
  wp (restore_all sys_id l addr) (fun _ s' => holds v (rests_track l t) r' s') s.
Proof.
  induction l as [|m l IH]; intros v t r r' s Hh Hf Hev; cbn [restore_all rests_track rests_fits rests_events] in *.
  { injection Hev as <-. by apply wp_ret. }
  destruct Hf as [Hf Hfs]. apply re_run_app in Hev as (r1 & H1 & H2). apply wp_bind.
  eapply wp_mono; [by apply (restore_step addr m v t r r1)|]. cbn beta. intros _ s' Hs'. by apply (IH v _ r1).
Qed.

(** ** Packets from the network *)
Definition rebuilt (x : Arrival) : list (list Z) :=
  let h := ar_hdr x in
  if (0 =? goodtp_ver h) || negb (is_data x || (pack_type h =? kGtpFecPackType) && (FEC2_CODE_PACK_SIZE <=? pack_size h)) then [] else ar_rest x.
Definition opened (t : Track) (x : Arrival) : Track :=
  if is_data x then enter_first (first_sn_of st (ar_pack x)) (put_peer (heard x (tk_peer t)) (ar_ts x) t)
  else if pack_type (ar_hdr x) =? kGtpSetRecvRttPackType then put_peer (greeted x (tk_peer t)) (tk_now t) t
  else t.
Definition track_of (t : Track) (x : Arrival) : Track :=
  let t1 := rests_track (rebuilt x) (opened t x) in
  if is_data x then enter_sn (pack_sn (ar_hdr x)) t1 else t1.

(** What the packet is to the reorder buffer: a data packet comes with its frame
    when its number is new; the buffer of any other packet goes back to the pool. *)
Definition data_hint (x : Arrival) : Z :=
  if 0 =? repeat_counter (ar_hdr x) then pack_sn (ar_hdr x) else load_at 4 (ar_pack x) GTP_PACKET_SIZE.
Definition data_event (t : Track) (x : Arrival) : ReEvent E A :=
  let h := ar_hdr x in
  if bool_decide (first_sn_of st (ar_pack x) ∈ tk_seen t) then EvPacket (pack_sn h) None 0 (ar_addr x) (ar_ts x) UINT32_MAX
  else EvPacket (pack_sn h) (Some (frame_of (ar_pack x) (pack_size h))) (u32 (pack_size h - header_offset h)) (ar_addr x) (ar_ts x) (data_hint x).
Definition events_of (t : Track) (x : Arrival) : list (ReEvent E A) :=
  rests_events (ar_addr x) (rebuilt x) (opened t x) ++ [if is_data x then data_event t x else EvFree (ar_e x)].

(** A packet that fits in: a data packet, a fec packet or a round trip time, no
    sign of a restart, its numbers near those seen before. *)
Definition fits (t : Track) (x : Arrival) : Prop :=
  let t1 := opened t x in
  rests_fits (rebuilt x) t1 /\
  if is_data x then
    restarted x (tk_peer t) = false /\ jumped x (tk_peer t) = false /\ first_fits (first_sn_of st (ar_pack x)) t /\
    sn_fits (pack_sn (ar_hdr x)) (rests_track (rebuilt x) t1)
  else pack_type (ar_hdr x) = kGtpFecPackType \/ pack_type (ar_hdr x) = kGtpSetRecvRttPackType.
Fixpoint fits_all (t : Track) (l : list Arrival) : Prop :=
  match l with [] => True | x :: l' => fits t x /\ fits_all (track_of t x) l' end.

Lemma post_data_ok x size l t r r' s :
  holds (goodtp_ver (ar_hdr x)) t r s -> l = (if 0 =? goodtp_ver (ar_hdr x) then [] else ar_rest x) -> rests_fits l t ->
  sn_fits (pack_sn (ar_hdr x)) (rests_track l t) -> re_run (rests_events (ar_addr x) l t) r = Some (tt, r') ->
  wp (post_data sys_id (ar_now x) (ar_pack x) size (ar_rest x) (ar_addr x))
    (fun _ s' => holds (goodtp_ver (ar_hdr x)) (enter_sn (pack_sn (ar_hdr x)) (rests_track l t)) r' s') s.
Proof.
  intros Hh Hl Hf Hn Hev. unfold post_data. cbv zeta. change (parse_header (ar_pack x)) with (ar_hdr x). set (v := goodtp_ver (ar_hdr x)) in *.
  eapply wp_holds_bind; [exact Hh|by apply wp_mod|]. clear s Hh. intros [] s Hh. apply wp_bind, wp_get, wp_bind.
  apply (wp_mono _ (fun _ s' => holds v (rests_track l t) r' s')).
  { destruct Hh as (Hr & Hre & Hst & Hv). rewrite Hv. apply wp_when; intros H0; subst l.
    - apply negb_true_iff in H0. rewrite H0 in *. apply wp_bind, wp_mod. eapply restore_all_ok; [|exact Hf|exact Hev].
      eapply holds_aside; [by split_and!|done].
    - apply negb_false_iff in H0. rewrite H0 in *. cbn [rests_events rests_track re_run] in *. injection Hev as <-. by split. }
  clear s Hh. intros [] s Hh. eapply wp_holds_bind; [exact Hh|apply when_some_aside; intros z; apply take_rtt_aside|]. clear s Hh. intros [] s Hh.
  eapply wp_holds_bind; [exact Hh|apply when_some_aside; intros z; apply take_ts_aside|]. clear s Hh. intros [] s Hh.
  eapply wp_holds_bind; [exact Hh|apply when_some_aside; intros z; apply take_loss_aside, Hh|]. clear s Hh. intros [] s Hh.
  apply wp_bind, wp_get, wp_bind. eapply wp_mono; [by apply wp_window|]. cbn beta. clear s Hh. intros b s ([H1 H2 H3 H4 H5 H6 H7 H8] & Hrest).
  apply wp_mod. split; [|done]. by split.
Qed.

(** Before the packet is dispatched. *)
Lemma holds_noted v0 t r s x : holds v0 t r s ->
  let s1 := put_version (goodtp_ver (ar_hdr x)) s in
  holds (goodtp_ver (ar_hdr x)) (put_peer (tk_peer t) (if is_data x then ar_ts x else tk_now t) t) r
    (if kGtpDataPackType =? pack_type (ar_hdr x) then on_ck (set_active (ar_ts x)) s1 else s1).
Proof.
  intros ([H1 H2 H3 H4 H5 H6 H7 H8] & Hre & Hst & Hv) s1. unfold is_data. rewrite (Z.eqb_sym kGtpDataPackType).
  destruct (pack_type (ar_hdr x) =? kGtpDataPackType); (split; [by split|done]).
Qed.
Lemma wp_hear v t r s x :
  holds v (put_peer (tk_peer t) (ar_ts x) t) r s -> restarted x (tk_peer t) = false -> jumped x (tk_peer t) = false ->
  wp (_ ← sync_status (ar_hdr x); check_mixed (ar_hdr x)) (fun _ s' => holds v (put_peer (heard x (tk_peer t)) (ar_ts x) t) r s') s.
Proof.
  intros ([H1 H2 H3 H4 H5 H6 H7 H8] & Hre & Hst & Hv) Hr0 Hj0. destruct (same_peer_calm x _ _ H5 Hr0 Hj0) as [Hr Hj].
  apply wp_sync; try done. split; [|done]. split; try done. by apply same_peer_heard.
Qed.
Lemma wp_assoc {B C} (m1 : ST St unit) (m2 : ST St B) (k : ST St C) Q s :
  wp (_ ← (_ ← m1; m2); k) Q s -> wp (_ ← m1; _ ← m2; k) Q s.
Proof. unfold wp, mbind, ST_bind. by destruct (m1 s) as [[[] s1]|]. Qed.

Lemma prep_data v t r s x size :
  holds v (put_peer (tk_peer t) (ar_ts x) t) r s -> is_data x = true ->
  restarted x (tk_peer t) = false -> jumped x (tk_peer t) = false -> first_fits (first_sn_of st (ar_pack x)) t ->
  wp (PackPrepHandler sys_id (ar_now x) (ar_pack x) size) (fun res s' =>
    res = (if bool_decide (first_sn_of st (ar_pack x) ∈ tk_seen t) then (dup_err sys_id, None) else (GTP_OK, Some (frame_of (ar_pack x) size))) /\
    holds v (opened t x) r s') s.
Proof.
  intros Hh Hd Hr Hj Hf. unfold opened. rewrite Hd. unfold PackPrepHandler, is_data in *.
  change (parse_header (ar_pack x)) with (ar_hdr x). rewrite Hd. cbv zeta.
  eapply wp_holds_bind; [exact Hh|by apply wp_mod; destruct (GTP_YES =? _)|]. clear s Hh. intros [] s Hh.
  eapply wp_holds_bind; [exact Hh|by apply wp_mod|]. clear s Hh. intros [] s Hh.
  apply wp_assoc, wp_bind. eapply wp_mono; [by eapply wp_hear|]. cbn beta. clear s Hh. intros [] s Hh.
  apply wp_bind, wp_get. pose proof Hh as (_ & _ & Hst & _). rewrite Hst. apply wp_bind.
  eapply wp_mono; [by eapply wp_first|]. cbn beta. clear s Hh Hst. intros b s [-> Hh]. cbn [tk_seen put_peer].
  rewrite bool_decide_not. by destruct (bool_decide (_ ∈ _)); apply wp_ret.
Qed.
(** The other packets that fit. *)
Lemma prep_other v t r s x size :
  holds v t r s -> is_data x = false -> pack_type (ar_hdr x) = kGtpFecPackType \/ pack_type (ar_hdr x) = kGtpSetRecvRttPackType ->
  wp (PackPrepHandler sys_id (ar_now x) (ar_pack x) size) (fun res s' => res = (GTP_OK, None) /\ holds v (opened t x) r s') s.
Proof.
  intros Hh Hd Ht. unfold opened. rewrite Hd. unfold PackPrepHandler, is_data in *.
  change (parse_header (ar_pack x)) with (ar_hdr x). rewrite Hd. cbv zeta. destruct Ht as [-> | ->]; cbn.
  - by apply wp_ret.
  - apply wp_bind, wp_mod, wp_ret. split; [done|]. destruct Hh as ([H1 H2 H3 H4 H5 H6 H7 H8] & Hrest).
    split; [|done]. split; try done. by apply (same_peer_greeted x).
Qed.

Lemma post_ok t r r' s x size :
  holds (goodtp_ver (ar_hdr x)) (opened t x) r s -> fits t x ->
  re_run (rests_events (ar_addr x) (rebuilt x) (opened t x) ++ (if is_data x then [] else [EvFree (ar_e x)])) r = Some (tt, r') ->
  wp (PackPostHandler sys_id (ar_now x) ptr_size decode_ret (ar_e x) (ar_pack x) size (ar_rest x) (ar_addr x)) (fun c s' =>
    (is_data x = true -> c = GTP_OK) /\ holds (goodtp_ver (ar_hdr x)) (track_of t x) r' s') s.
Proof.
  intros Hh [Hrf Hf] Hev. apply re_run_app in Hev as (r1 & Hev & Hlast). unfold PackPostHandler.
  fold (ar_hdr x). cbv zeta. unfold track_of.
  eapply wp_holds_bind; [exact Hh|by apply count_recv_aside|]. clear s Hh. intros [] s Hh.
  unfold is_data in Hf, Hlast. destruct (pack_type (ar_hdr x) =? kGtpDataPackType) eqn:Hd.
  { assert (Hdx : is_data x = true) by done. rewrite Hdx. injection Hlast as <-. destruct Hf as (_ & _ & _ & Hsn).
    assert (Hreb : rebuilt x = (if 0 =? goodtp_ver (ar_hdr x) then [] else ar_rest x)).
    { unfold rebuilt. rewrite Hdx. cbn [orb negb]. by rewrite orb_false_r. }
    apply wp_bind. eapply wp_mono; [exact (post_data_ok x _ (rebuilt x) (opened t x) r r1 s Hh Hreb Hrf Hsn Hev)|].
    cbn beta. intros [] s' Hs'. by apply wp_ret. }
  assert (Hdx : is_data x = false) by done. rewrite Hdx.
  assert (Hfree : forall (c : Z) s1, holds (goodtp_ver (ar_hdr x)) (rests_track (rebuilt x) (opened t x)) r1 s1 ->
    wp (_ ← on_re (free_frame (ar_e x)); mret c) (fun c s' => (false = true -> c = GTP_OK) /\
      holds (goodtp_ver (ar_hdr x)) (rests_track (rebuilt x) (opened t x)) r' s') s1).
  { intros c s1 Hs1. cbn [re_run re_step] in Hlast. unfold mbind at 1, ST_bind at 1 in Hlast.
    destruct (free_frame (ar_e x) r1) as [[[] r2]|] eqn:He; [|done]. injection Hlast as <-.
    apply wp_bind. eapply wp_mono; [by eapply wp_buffer|]. cbn beta. intros [] s2 Hs2. by apply wp_ret. }
  destruct Hf as [Ht|Ht]; rewrite Ht.
  - change (kGtpFecPackType =? Feedback.kGtpAckPackType) with false. change (kGtpFecPackType =? kGtpFecPackType) with true. cbv iota.
    apply wp_bind, wp_get. pose proof Hh as (_ & _ & _ & Hv). rewrite Hv. apply wp_bind.
    apply (wp_mono _ (fun _ s' => holds (goodtp_ver (ar_hdr x)) (rests_track (rebuilt x) (opened t x)) r1 s'));
      [|intros [] s1 Hs1; by apply Hfree]. clear Hfree Hlast. revert Hrf Hev. unfold rebuilt. rewrite Hdx, Ht.
    change (kGtpFecPackType =? kGtpFecPackType) with true. cbn [orb andb].
    destruct (0 =? goodtp_ver (ar_hdr x)), (FEC2_CODE_PACK_SIZE <=? pack_size (ar_hdr x)); cbn [negb andb orb when]; intros Hrf Hev.
    3: { apply wp_bind. unfold call. apply wp_mod. eapply restore_all_ok; [|exact Hrf|exact Hev].
      eapply holds_aside; [exact Hh|]. unfold aside. by split_and!. }
    all: apply wp_ret; cbn [rests_events rests_track re_run] in *; by injection Hev as <-.
  - change (kGtpSetRecvRttPackType =? Feedback.kGtpAckPackType) with false. change (kGtpSetRecvRttPackType =? kGtpFecPackType) with false.
    change (kGtpSetRecvRttPackType =? kGtpSetRecvRttPackType) with true. cbv iota. apply wp_bind. assert (Hnil : rebuilt x = []).
    { unfold rebuilt. rewrite Hdx, Ht. cbn. by rewrite orb_true_r. }
    rewrite Hnil in *. cbn [rests_events rests_track re_run] in *. injection Hev as <-.
    eapply wp_mono; [apply when_some_aside; intros z; apply take_rtt_aside|]. cbn beta. intros [] s1 Hs1. apply Hfree. by eapply holds_aside.
Qed.

Lemma rests_track_now l : forall t, tk_now (rests_track l t) = tk_now t.
Proof.
  induction l as [|m l IH]; intros t; [done|]. cbn [rests_track]. rewrite IH. unfold rest_track.
  destruct (sound m); [|done]. by destruct (rest_new m t).
Qed.
Lemma track_of_now t x : tk_now (track_of t x) = if is_data x then ar_ts x else tk_now t.
Proof.
  unfold track_of, opened. destruct (is_data x); cbn [tk_now enter_sn]; rewrite rests_track_now; [done|].
  by destruct (_ =? kGtpSetRecvRttPackType).
Qed.

Lemma dup_err_ne : (dup_err sys_id =? GTP_OK) = false.
Proof. apply Z.eqb_neq. unfold dup_err. by apply GEN_ERR_nonzero. Qed.

(** One packet. *)
Lemma receive_step v t r r' s x :
  holds v t r s -> fits t x -> re_run (events_of t x) r = Some (tt, r') ->
  exists c s', receive x s = Some (c, s') /\ holds (goodtp_ver (ar_hdr x)) (track_of t x) r' s'.
Proof.
  intros Hh Hfit Hev.
  cut (wp (receive x) (fun _ s' => holds (goodtp_ver (ar_hdr x)) (track_of t x) r' s') s).
  { intros Hwp. destruct (wp_total _ _ _ Hwp) as (c & s' & Hrun & Hrest). exists c, s'. split; [exact Hrun|exact Hrest]. }
  unfold events_of in Hev. unfold receive, GtpPacketReceive. change (parse_header (ar_pack x)) with (ar_hdr x). cbv zeta.
  apply wp_bind, wp_mod, wp_bind, wp_mod. apply (holds_noted _ _ _ _ x) in Hh. cbv zeta in Hh.
  match type of Hh with holds _ _ _ ?z => set (s1 := z) in * end. clearbody s1. clear s. apply wp_bind. pose proof Hfit as [Hrf Hf].
  destruct (is_data x) eqn:Hd.
  - destruct Hf as (Hr & Hj & Hff & Hsn). apply re_run_app in Hev as (r1 & Hev & Hlast).
    eapply wp_mono; [by eapply (prep_data _ t)|]. cbn beta. clear s1 Hh. intros res s [-> Hh].
    assert (Hpost : forall (k : Z -> ST St Z), (forall s', holds (goodtp_ver (ar_hdr x)) (track_of t x) r1 s' ->
        wp (k GTP_OK) (fun _ s' => holds (goodtp_ver (ar_hdr x)) (track_of t x) r' s') s') ->
      wp (PackPostHandler sys_id (ar_now x) ptr_size decode_ret (ar_e x) (ar_pack x) (pack_size (ar_hdr x)) (ar_rest x) (ar_addr x) ≫= k)
        (fun _ s' => holds (goodtp_ver (ar_hdr x)) (track_of t x) r' s') s).
    { intros k Hk. apply wp_bind. eapply wp_mono; [apply (post_ok t r r1); [done|done|]|].
      - rewrite Hd, app_nil_r. exact Hev.
      - cbn beta. intros c s' [Hc Hs']. rewrite (Hc Hd). by apply Hk. }
    assert (Hnow : tk_now (track_of t x) = ar_ts x).
    { rewrite track_of_now. by rewrite Hd. }
    assert (Hdt : (kGtpDataPackType =? pack_type (ar_hdr x)) = true) by (rewrite Z.eqb_sym; exact Hd). rewrite Hdt.
    assert (Hlast' : re_step (data_event t x) r1 = Some (tt, r')).
    { cbn [re_run] in Hlast. unfold mbind, ST_bind in Hlast. destruct (re_step (data_event t x) r1) as [[[] r2]|]; [exact Hlast|done]. }
    unfold data_event in Hlast'. destruct (bool_decide (first_sn_of st (ar_pack x) ∈ tk_seen t)); cbn [re_step] in Hlast'.
    + rewrite Z.eqb_refl. apply Hpost. clear Hpost s Hh. intros s Hh. apply wp_bind, wp_get.
      pose proof Hh as ([_ _ _ _ _ _ _ ->] & _). rewrite Hnow. apply wp_bind. cbn [when].
      eapply wp_mono; [by eapply wp_buffer|]. cbn beta. intros [] s' Hs'. by apply wp_ret.
    + pose proof dup_err_ne as Hne.
      rewrite Hne, Z.eqb_refl. cbn [negb]. apply Hpost. clear Hpost s Hh. intros s Hh. rewrite Z.eqb_refl. cbn [negb]. apply wp_bind, wp_get.
      pose proof Hh as ([_ _ _ _ _ _ _ ->] & _). rewrite Hnow. apply wp_bind. cbn [when].
      eapply wp_mono; [by eapply wp_buffer|]. cbn beta. intros [] s' Hs'. by apply wp_ret.
  - eapply wp_mono; [by eapply (prep_other _ _ r)|]. cbn beta. clear s1 Hh. intros res s [-> Hh].
    pose proof dup_err_ne as Hne.
    assert (Hdt : (kGtpDataPackType =? pack_type (ar_hdr x)) = false) by (rewrite Z.eqb_sym; exact Hd).
    rewrite Hne, Z.eqb_refl, Hdt. cbn [negb]. apply wp_bind. eapply wp_mono; [eapply (post_ok t r r'); [|exact Hfit|]|].
    + unfold opened in *. rewrite Hd in *. by destruct t.
    + rewrite Hd. exact Hev.
    + cbn beta. intros c s' [_ Hs']. destruct (GTP_OK =? c); cbn [negb when]; [|by apply wp_ret].
      apply wp_bind, wp_get, wp_bind, wp_ret. by apply wp_ret.
Qed.

(** ** Events of packets are fit for the buffer *)

(** A packet as the checks of the header leave it. *)
Definition whole (x : Arrival) : Prop :=
  bytes_ok (ar_pack x) /\ ar_ts x <> 0 /\ header_offset (ar_hdr x) <= pack_size (ar_hdr x) /\ Forall bytes_ok (ar_rest x).
Lemma sizes_ok m : bytes_ok m -> header_offset (parse_header m) <= pack_size (parse_header m) ->
  0 <= pack_sn (parse_header m) < 4294967296 /\ 0 <= u32 (pack_size (parse_header m) - header_offset (parse_header m)) < 65536.
Proof.
  intros Hb Hsz. split; [apply load32_range, Hb|].
  pose proof (get_bits_range (load32 m 0) 19 13 ltac:(lia) ltac:(lia)) as H13.
  pose proof (get_bits_range (load32 m 0) 8 6 ltac:(lia) ltac:(lia)) as H6.
  change (get_bits _ 19 13) with (pack_size (parse_header m)) in H13. change (get_bits _ 8 6) with (header_offset (parse_header m)) in H6.
  rewrite u32_small; lia.
Qed.
Lemma sound_sizes m : bytes_ok m -> sound m = true -> header_offset (parse_header m) <= pack_size (parse_header m).
Proof.
  intros Hb Hs. unfold sound, GtpCheckPacketInvalid in Hs. rewrite Z.eqb_sym in Hs. apply Z.eqb_eq in Hs.
  destruct (pack_size (parse_header m) =? 0); [exfalso; revert Hs; cbn [fst]; by apply GEN_ERR_nonzero|].
  assert (Hi : InnerCheckPacketInvalid sys_id m (pack_size (parse_header m)) = GTP_OK).
  { revert Hs. cbv zeta. destruct (Z.eqb_spec (InnerCheckPacketInvalid sys_id m (pack_size (parse_header m))) GTP_OK) as [->|Hne]; [done|].
    cbn [negb fst]. done. }
  apply (InnerCheck_iff sys_id m _ Hb) in Hi. unfold packet_accepted in Hi. cbv zeta in Hi. lia.
Qed.
Lemma data_event_ok t x : whole x -> event_ok (data_event t x).
Proof.
  intros (Hb & Ht & Hsz & _). destruct (sizes_ok (ar_pack x) Hb Hsz) as [H1 H2].
  unfold data_event. case_bool_decide; cbn [event_ok]; [unfold UINT32_MAX; split; [exact H1|lia]|]. split; [exact H1|]. split; [|done].
  unfold data_hint. destruct (0 =? _); [exact H1|exact (load32_range (ar_pack x) (Z.to_nat GTP_PACKET_SIZE) Hb)].
Qed.
Lemma rest_event_ok addr t m : bytes_ok m -> sound m = true -> tk_now t <> 0 -> event_ok (rest_event addr t m).
Proof.
  intros Hb Hs Ht. destruct (sizes_ok m Hb (sound_sizes m Hb Hs)) as [H1 H2]. pose proof (fun k => load32_range m k Hb) as Hl.
  unfold rest_event. cbn [event_ok]. assert (0 <= rest_hint m < 4294967296); [|split; [exact H1|by split]].
  unfold rest_hint, restored_first_sn, load_at. destruct (negb _ && _); [|by unfold UINT32_MAX].
  destruct (_ || _); [|apply Hl]. destruct (0 =? _); [apply H1|apply Hl].
Qed.
Lemma rests_events_ok addr l : forall t, Forall bytes_ok l -> tk_now t <> 0 -> Forall event_ok (rests_events addr l t).
Proof.
  induction l as [|m l IH]; intros t Hl Ht; [constructor|]. apply Forall_cons in Hl as [Hm Hl]. cbn [rests_events]. apply Forall_app. split.
  - destruct (rest_new m t) eqn:Hn; [|constructor]. constructor; [|constructor]. apply rest_event_ok; [done| |done].
    unfold rest_new in Hn. by apply andb_true_iff in Hn as [? _].
  - apply IH; [done|]. unfold rest_track. destruct (sound m); [|done]. by destruct (rest_new m t).
Qed.
Lemma rebuilt_sub x m : m ∈ rebuilt x -> m ∈ ar_rest x.
Proof. unfold rebuilt. cbv zeta. destruct (_ || _); [by intros ?%elem_of_nil|done]. Qed.
Lemma opened_now t x : tk_now (opened t x) = if is_data x then ar_ts x else tk_now t.
Proof. unfold opened. destruct (is_data x); [done|]. by destruct (_ =? kGtpSetRecvRttPackType). Qed.
Lemma events_of_ok t x : whole x -> tk_now t <> 0 -> Forall event_ok (events_of t x).
Proof.
  intros Hx Ht. unfold events_of. apply Forall_app. split.
  - apply rests_events_ok; [|rewrite opened_now; destruct (is_data x); [apply Hx|done]].
    apply Forall_forall. intros m Hm%rebuilt_sub. destruct Hx as (_ & _ & _ & Hr). by eapply Forall_forall in Hr.
  - constructor; [|constructor]. destruct (is_data x); [by apply data_event_ok|done].
Qed.

(** ** Frames of numbers that come for the first time *)
Definition tagged : Type := Z * delivery A.
(** [l] has frames of pairwise different numbers, none of [seen], all of [seen']. *)
Definition fresh_in (seen seen' : gset Z) (l : list tagged) : Prop :=
  seen ⊆ seen' /\ NoDup (l.*1) /\ (forall f, f ∈ (l.*1) -> (f ∉ seen) /\ (f ∈ seen')).
Lemma fresh_nil seen seen' : seen ⊆ seen' -> fresh_in seen seen' [].
Proof. intros Hs. split_and!; [done|constructor|]. by intros f ?%elem_of_nil. Qed.
Lemma fresh_one seen f d : f ∉ seen -> fresh_in seen ({[f]} ∪ seen) [(f, d)].
Proof. intros Hf. split_and!; [apply union_subseteq_r|apply NoDup_singleton|]. intros g ->%list_elem_of_singleton. split; [done|]. by apply elem_of_union_l, elem_of_singleton. Qed.
Lemma fresh_app s1 s2 s3 l k : fresh_in s1 s2 l -> fresh_in s2 s3 k -> fresh_in s1 s3 (l ++ k).
Proof.
  intros (A1 & A2 & A3) (B1 & B2 & B3). split_and!; [by etrans| |].
  - rewrite fmap_app. apply NoDup_app. split_and!; [done| |done]. intros f Hf Hk. destruct (A3 f Hf), (B3 f Hk). done.
  - intros f. rewrite fmap_app, elem_of_app. intros [Hf|Hf]; [destruct (A3 f Hf)|destruct (B3 f Hf)]; auto.
Qed.
Lemma fresh_perm s1 s2 l k : l ≡ₚ k -> fresh_in s1 s2 l -> fresh_in s1 s2 k.
Proof. intros Hp (A1 & A2 & A3). split_and!; [done|by rewrite <- Hp|]. intros f. rewrite <- Hp. apply A3. Qed.

(** The frames of a data packet and of a rebuilt one, as the application would get them. *)
Definition frame_in (sn hint : Z) (addr : option A) (m : list Z) : delivery A :=
  let h := parse_header m in
  let b := frame_of m (pack_size h) in
  conc (filed_sn sn (Some b) hint, (mem_load (Z.to_nat (u32 (pack_size h - header_offset h))) b 0, addr)).
Definition data_frame (x : Arrival) : tagged := (first_sn_of st (ar_pack x), frame_in (pack_sn (ar_hdr x)) (data_hint x) (ar_addr x) (ar_pack x)).
Definition rest_frame (addr : option A) (m : list Z) : tagged := (restored_first_sn st m, frame_in (pack_sn (parse_header m)) (rest_hint m) addr m).

Fixpoint rests_fresh (addr : option A) (l : list (list Z)) (t : Track) : list tagged :=
  match l with
  | [] => []
  | m :: l' => (if rest_new m t then [rest_frame addr m] else []) ++ rests_fresh addr l' (rest_track m t)
  end.
Definition fresh_of (t : Track) (x : Arrival) : list tagged :=
  rests_fresh (ar_addr x) (rebuilt x) (opened t x) ++
  (if is_data x && bool_decide (first_sn_of st (ar_pack x) ∉ tk_seen t) then [data_frame x] else []).

Lemma rests_frames addr l : forall t, run_frames (rests_events addr l t) = (rests_fresh addr l t).*2.
Proof.
  induction l as [|m l IH]; intros t; [done|]. cbn [rests_events rests_fresh]. rewrite run_frames_app, fmap_app, IH.
  by destruct (rest_new m t).
Qed.
Lemma events_frames t x : run_frames (events_of t x) = (fresh_of t x).*2.
Proof.
  unfold events_of, fresh_of. rewrite run_frames_app, rests_frames, fmap_app. f_equal. destruct (is_data x); [|done].
  unfold data_event. rewrite bool_decide_not. by case_bool_decide.
Qed.

Lemma rest_track_seen m t : tk_seen (rest_track m t) = if sound m then {[restored_first_sn st m]} ∪ tk_seen t else tk_seen t.
Proof. unfold rest_track. destruct (sound m); [|done]. by destruct (rest_new m t). Qed.
Lemma rests_fresh_in addr l : forall t, fresh_in (tk_seen t) (tk_seen (rests_track l t)) (rests_fresh addr l t).
Proof.
  induction l as [|m l IH]; intros t; [by apply fresh_nil|]. cbn [rests_fresh rests_track]. eapply fresh_app; [|apply IH].
  rewrite rest_track_seen. unfold rest_new. destruct (sound m); cbn [andb]; [|by apply fresh_nil].
  case_bool_decide; [by apply fresh_one|apply fresh_nil, union_subseteq_r].
Qed.
Lemma fresh_of_in t x : fresh_in (tk_seen t) (tk_seen (track_of t x)) (fresh_of t x).
Proof.
  unfold fresh_of. eapply fresh_perm; [apply Permutation_app_comm|].
  assert (Ht : tk_seen (track_of t x) = tk_seen (rests_track (rebuilt x) (opened t x))) by (unfold track_of; by destruct (is_data x)).
  rewrite Ht. apply (fresh_app _ (tk_seen (opened t x))); [|apply rests_fresh_in]. unfold opened. destruct (is_data x); cbn [andb].
  - cbn [tk_seen enter_first put_peer]. case_bool_decide; [by apply fresh_one|apply fresh_nil, union_subseteq_r].
  - by destruct (_ =? kGtpSetRecvRttPackType); apply fresh_nil.
Qed.

(** Where a frame comes from: a data packet, or a packet rebuilt while [x] was handled. *)
Definition brings (x : Arrival) (p : tagged) : Prop :=
  (is_data x = true /\ p = data_frame x) \/ exists m, m ∈ ar_rest x /\ sound m = true /\ p = rest_frame (ar_addr x) m.
Lemma rests_brought addr l : forall t, Forall (fun p => exists m, m ∈ l /\ sound m = true /\ p = rest_frame addr m) (rests_fresh addr l t).
Proof.
  induction l as [|m l IH]; intros t; [constructor|]. cbn [rests_fresh]. apply Forall_app. split.
  - destruct (rest_new m t) eqn:Hn; [|constructor]. constructor; [|constructor]. exists m. apply andb_true_iff in Hn as [Hs _]. by split; [left|].
  - eapply Forall_impl; [apply IH|]. cbn beta. intros p (m' & Hm & Hrest). exists m'. by split; [right|].
Qed.
Lemma fresh_brought t x : Forall (brings x) (fresh_of t x).
Proof.
  unfold fresh_of. apply Forall_app. split.
  - eapply Forall_impl; [apply rests_brought|]. cbn beta. intros p (m & Hm & Hrest). right. exists m. split; [by apply rebuilt_sub|done].
  - destruct (is_data x) eqn:Hd; cbn [andb]; [|constructor]. case_bool_decide; constructor; [by left|constructor].
Qed.
End Steps.
End Run.

#[global] Arguments Arrival E A : clear implicits.

(** ** Behind a retransmission *)
Section Hole.
Context {P E A : Type} `{Countable E} `{!PackPool P E} `{!PackPoolLaws P E}.

Lemma flush_stops n (a : AbsRe A) r : ar_pending a !! r = None -> ar_next a <= r -> ar_next (abs_flush n a).1 <= r.
Proof.
  revert a. induction n as [|n IH]; intros a Hr Hle; [done|]. cbn [abs_flush].
  destruct (ar_pending a !! ar_next a) as [w|] eqn:Hw; [|done].
  specialize (IH (mkAbsRe (ar_next a + 1) (delete (ar_next a) (ar_pending a)))). destruct (abs_flush n _) as [a' out].
  apply IH; cbn [ar_pending ar_next fst] in *; [by apply lookup_delete_None; right|].
  destruct (decide (r = ar_next a)) as [->|]; [congruence|lia].
Qed.
Lemma advance_stops (a : AbsRe A) r : ar_pending a !! r = None -> ar_next a < r ->
  ar_next (abs_advance a).1 <= r /\ ar_pending (abs_advance a).1 !! r = None.
Proof.
  intros Hr Hlt. split; [apply (flush_stops 16 (mkAbsRe (ar_next a + 1) (ar_pending a))); [done|cbn; lia]|].
  destruct (ar_pending (abs_advance a).1 !! r) as [w|] eqn:Hw; [|done]. apply advance_sub in Hw. congruence.
Qed.
Lemma filed_hint sn b hint : hint <> UINT32_MAX \/ hint = sn -> filed_sn sn (Some b) hint = hint.
Proof.
  intros Hh. unfold filed_sn. cbn [some_b andb]. destruct (Z.eqb_spec hint sn) as [->|]; [by rewrite andb_false_r|].
  destruct (Z.eqb_spec hint UINT32_MAX); [by destruct Hh|done].
Qed.

(** C38: a retransmission leaves a hole.  It brings the frame that the buffer
    waits for, under a number up to 14 ahead: its frame and then what waited
    behind it are delivered, but nothing is filed under its own number: the
    next packet waits for the gap timer, although every number up to its own
    has come.  (The pool has a buffer for it, and the frame's number is not
    0xFFFFFFFF, which stands for no number.) *)
Theorem retransmission_leaves_hole other (s : ReSt P E A) a k b1 size1 addr1 ts1 b2 size2 addr2 ts2 :
  let n := ar_next a in
  let evs := [EvPacket (u32 (n + k)) (Some b1) size1 addr1 ts1 (u32 n);
              EvPacket (u32 (n + k + 1)) (Some b2) size2 addr2 ts2 (u32 (n + k + 1))] in
  other_ok other -> stands other s a -> 1 <= k <= 14 -> ar_pending a !! (n + k) = None -> u32 n <> UINT32_MAX ->
  Forall event_ok evs -> starved evs s = false ->
  exists s' a', re_run evs s = Some (tt, s') /\ stands other s' a' /\ ar_next a' <= n + k /\
    re_out s' = re_out s ++ (conc <$> (n, (mem_load (Z.to_nat size1) b1 0, addr1)) :: (abs_advance a).2) /\
    ar_pending a' !! (n + k) = None /\
    exists b, ar_pending a' !! (n + k + 1) = Some (Some (mem_load (Z.to_nat size2) b2 0, addr2), b).
Proof.
  intros n evs Ho Hs Hk Hp Hmax Hok Hst.
  cut (wp (re_run evs) (fun _ s' => exists a', stands other s' a' /\ ar_next a' <= n + k /\
    re_out s' = re_out s ++ (conc <$> (n, (mem_load (Z.to_nat size1) b1 0, addr1)) :: (abs_advance a).2) /\
    ar_pending a' !! (n + k) = None /\ exists b, ar_pending a' !! (n + k + 1) = Some (Some (mem_load (Z.to_nat size2) b2 0, addr2), b)) s).
  { intros Hwp. destruct (wp_total _ _ _ Hwp) as ([] & s' & Hrun & a' & H1). by exists s', a'. }
  apply Forall_cons in Hok as [(E1 & E2 & E3 & E4) [(F1 & F2 & F3 & F4) _]%Forall_cons].
  apply wp_run_cons; [done|]. intros Href. cbn [ev_refused re_step] in *.
  eapply wp_mono; [apply (wp_enqueue other s a); try done; by apply stands_ready|]. cbn beta zeta.
  rewrite Href, filed_hint by (by left). intros [] s1 (Hi1 & H1). revert H1. unfold abs_enqueue.
  rewrite distance_u32 by (fold n; lia). replace (n - ar_next a) with 0 by (unfold n; lia). change (0 <? 0) with false. cbn iota zeta.
  change (0 =? 0) with true. cbn iota. destruct (advance_stops a (n + k) Hp ltac:(unfold n; lia)) as [Hle Hnone].
  pose proof (advance_increasing a) as [Hgt _].
  destruct (abs_advance a) as [a1 out1]. cbn [fst snd] in *. intros (Hrep & Hin & Harm & Hout1) Hst1.
  cbn [starved orb] in Hst1. apply wp_run_cons; [done|]. clear Hst1. intros Href1. cbn [ev_refused re_step] in *.
  eapply wp_mono; [apply (wp_enqueue other s1 a1); try done; apply stands_ready; by split_and!|]. cbn beta zeta.
  rewrite Href1, filed_hint by (by right). intros [] s2 (Hi2 & H2) _. cbn [re_run]. apply wp_ret. revert H2. unfold abs_enqueue.
  rewrite distance_u32 by (unfold n in *; lia). set (d := n + k + 1 - ar_next a1).
  replace (ar_next a1 + d) with (n + k + 1) by (unfold d; lia).
  destruct (Z.ltb_spec d 0); [unfold d, n in *; lia|]. destruct (Z.eqb_spec d 0); [unfold d, n in *; lia|].
  destruct (Z.leb_spec 16 d); [unfold d, n in *; lia|]. cbn [negb ReorderSpec.ReorderSpec.frame_of fmap option_fmap option_map fst snd].
  intros (Hrep2 & Hin2 & Harm2 & Hout2). eexists. split; [by split_and!|]. cbn [ar_next ar_pending]. split; [done|].
  split; [rewrite Hout2, Hout1, app_nil_r; rewrite Z.add_0_r; reflexivity|].
  split; [by rewrite lookup_insert_ne by lia|]. eexists. apply lookup_insert_eq.
Qed.
End Hole.

(** ** A small session *)
(** A data packet with the frame [body]; a repetition carries the number of the
    first packet. *)
Definition demo_header (type init sn off len repeat : Z) : PackHeader :=
  {| goodtp_ver := GTP_VERSION; header_offset := off; cache_us_flag := 0; has_loss_flag := 0;
    pack_type := type; pack_size := off + len; pack_sn := sn; has_check_flag := 0;
    has_ts_flag := 0; has_rtt_flag := 0; init_flag := init; repeat_counter := repeat; is_qos_flg := 0;
    share_zone := 0; has_chg_zone := 0; stream_type := 0 |}.
Definition demo_pack (init sn first : Z) (body : list Z) : list Z :=
  let zone := if sn =? first then [] else le_bytes 4 first in
  let off := GTP_PACKET_SIZE + Z.of_nat (length zone) in
  encode_header (demo_header kGtpDataPackType init sn off (Z.of_nat (length body)) (if sn =? first then 0 else 1)) ++ zone ++ body.
Definition demo_arrival (ts init sn first : Z) (body : list Z) : Arrival (Z * Z) Z :=
  mkArr ts ts (3, 0) (demo_pack init sn first body) [] None.
(** A fec packet with the packets rebuilt while it is handled. *)
Definition demo_fec_arrival (ts sn : Z) (rest : list (list Z)) : Arrival (Z * Z) Z :=
  mkArr ts ts (3, 0) (encode_header (demo_header kGtpFecPackType 0 sn 24 0 0) ++ replicate 16 0) rest None.
Definition demo_session (ts sn : Z) : RvSt TranMemPool (Z * Z) Z :=
  GtpSession_ctor ts 30000000 sn 0 junk_win junk_win junk_win (S754_zero false) demo_re.
Definition got (l : list (Arrival (Z * Z) Z)) (s : RvSt TranMemPool (Z * Z) Z) : option (list (Z * list Z)) :=
  (fun x => (fun d => (d.1.1, d.1.2)) <$> re_out (re x.2)) <$> receive_all 1 8 0 l s.

(** 41 is lost and repeated as 43, 42 is repeated as 44. *)
Definition demo_arrivals : list (Arrival (Z * Z) Z) :=
  [demo_arrival 2000 1 40 40 [1]; demo_arrival 3000 1 42 42 [3]; demo_arrival 4000 0 43 41 [2];
   demo_arrival 5000 0 44 42 [3]; demo_arrival 6000 0 45 45 [5]].
Definition demo_track (ts sn : Z) : Track := mkTrack sn sn ∅ (sy (demo_session ts sn)) ts.
Lemma demo_running : running 40 40 (demo_track 1000 40) (demo_session 1000 40).
Proof.
  destruct (ctor_filter_at 40 1000 (Z.shiftr (u32 30000000) 6) junk_win ltac:(lia) ltac:(unfold MIN_WIN_SZ; lia) junk_win_ok) as [Hf Hm].
  split; [exact Hf|exact Hm|apply ctor_data_at; [lia|unfold MIN_WIN_SZ; lia|exact junk_win_ok]|exact Factor.fac_ctor_ok| | | |].
  - unfold same_peer. by split_and!.
  - done.
  - split; [|done]. split; [apply (geo_ring ∅), ctor_geo_ok; [lia|unfold MIN_WIN_SZ; lia|exact junk_win_ok]|done|vm_compute; discriminate|vm_compute; split; discriminate].
  - done.
Qed.
(** Frame 45 waits: nothing is filed under 43. *)
Example demo_got : got demo_arrivals (demo_session 1000 40) = Some [(40, [1]); (41, [2]); (42, [3])].
Proof. vm_compute. reflexivity. Qed.

Example retransmission_leaves_hole_witness :
  exists s' a', re_run [EvPacket 13 (Some [9]) 1 (Some 5) 4000 11; EvPacket 14 (Some [8]) 1 (Some 5) 5000 14] demo_re2 = Some (tt, s') /\
    stands no_other s' a' /\ ar_next a' <= 13 /\
    re_out s' = re_out demo_re2 ++ (conc <$> (11, ([9], Some 5)) :: (abs_advance demo_waiting).2) /\
    ar_pending a' !! 13 = None /\
    exists b, ar_pending a' !! 14 = Some (Some ([8], Some 5), b).
Proof.
  apply (retransmission_leaves_hole no_other demo_re2 demo_waiting 2 [9] 1 (Some 5) 4000 [8] 1 (Some 5) 5000 demo_other demo_stands2);
    [lia|vm_compute; reflexivity|vm_compute; discriminate| |vm_compute; reflexivity].
  constructor; [vm_compute; repeat split; discriminate|]. constructor; [vm_compute; repeat split; discriminate|done].
Defined.

(** ** After an outage *)
(** Packet 40, then nothing for three seconds, then 3001, 3000 and a repetition
    of 3001. *)
Definition outage : list (Arrival (Z * Z) Z) :=
  [demo_arrival 2000 1 40 40 [1]; demo_arrival 3002000 0 3001 3001 [3]; demo_arrival 3003000 0 3000 3000 [2];
   demo_arrival 3004000 0 3002 3001 [3]].
(** After a break of more than 800 ms the number of the last packet is not
    brought up to date by the packet that ends the break, so the packet after it
    is taken for that of another stream and the session is reset: the
    application gets 3001, then 3000, then 3001 again.  A session that has just
    begun at 2999 gets the same three packets once and in order. *)
Example outage_delivers_twice :
  got outage (demo_session 1000 40) = Some [(40, [1]); (3001, [3]); (3000, [2]); (3001, [3])] /\
  got [demo_arrival 3001000 1 2999 2999 [1]; demo_arrival 3002000 0 3001 3001 [3]; demo_arrival 3003000 0 3000 3000 [2];
       demo_arrival 3004000 0 3002 3001 [3]] (demo_session 3000000 2999) = Some [(2999, [1]); (3000, [2]); (3001, [3])].
Proof. split; vm_compute; reflexivity. Qed.

End SessRecvRun.
