(* ===== verification/SessTimer.v ===== *)
(** * The timer of a session

    [GtpSession::TimerHandler] and [SecondTimerHandler]
    (src/src/session/goodtp_session.cpp): the arq is asked for packets to
    repeat, the counters of a second are closed, round trip times go out,
    the receiving window calculates its loss although no packet comes, and the
    gap timer of the reorder buffer runs.  What the receiving window reports
    meanwhile leaves the session as acknowledgements. *)
From Stdlib Require Import Floats.SpecFloat.
From S2P Require Import Prelude PoolInterface PacketHeader LinkStat Frame FrameSend Factor Reorder SlidWinState SlidWin SlidWinRtt Feedback SessRecv.
Export SessRecv.

Module SessTimer.

Definition MIN_MIX_QUINTUPLET_THRESHOLD : Z := 100.
Definition MIN_FRAME_PERIOD_US : Z := 30.
Definition DEFAULT_RTO_TIMEOUT_US : Z := 100000.
Definition MIN_RTT_EXIST_TM_SZ_US : Z := 35000.
Definition MAX_FEEDBACK_NACK_PERIOD_US : Z := 50000.

(** Calls of the arq ([CheckRtoRetran]) and the fec engine ([ClearResource]). *)
Inductive TmCall :=
| CArqCheckRtoRetran (ts_us : Z)
| CFecClearResource (loss : spec_float) (ts_us : Z).

(** The periods of the frames to send. *)
Record Periods := mkPeriods {
  max_frm_prd_updt_flg_ : Z;
  last_max_frame_period_us_ : Z;
  now_max_frame_period_us_ : Z;
  max_peak_frame_period_us_ : Z
}.

Section Timer.
Context {P E A : Type} `{Countable E} `{!PackPool P E}.

(** [tf] is the part of the callback for bitmaps; the members it shares with the
    receiving part are kept there, and [fb_view] shows them to it. *)
Record TmSt := mkTm {
  tv : RvSt P E A;
  tf : Feedback.FbSt;
  tp : Periods;
  max_receive_pps : Z;
  max_send_loss : spec_float;
  bakeup_send_loss : spec_float;
  create_ts_us_ : Z;
  second_ts_us_ : Z;
  report_quality_flag_s_ : Z;
  tm_calls : list TmCall
}.
Local Abbreviation M := (ST TmSt).

Definition put_tv v s := mkTm v (tf s) (tp s) (max_receive_pps s) (max_send_loss s) (bakeup_send_loss s) (create_ts_us_ s) (second_ts_us_ s)
  (report_quality_flag_s_ s) (tm_calls s).
Definition put_tf f s := mkTm (tv s) f (tp s) (max_receive_pps s) (max_send_loss s) (bakeup_send_loss s) (create_ts_us_ s) (second_ts_us_ s)
  (report_quality_flag_s_ s) (tm_calls s).
Definition put_tp p s := mkTm (tv s) (tf s) p (max_receive_pps s) (max_send_loss s) (bakeup_send_loss s) (create_ts_us_ s) (second_ts_us_ s)
  (report_quality_flag_s_ s) (tm_calls s).
Definition put_second v s := mkTm (tv s) (tf s) (tp s) (max_receive_pps s) (max_send_loss s) (bakeup_send_loss s) (create_ts_us_ s) v
  (report_quality_flag_s_ s) (tm_calls s).
Definition put_quality_flag v s := mkTm (tv s) (tf s) (tp s) (max_receive_pps s) (max_send_loss s) (bakeup_send_loss s) (create_ts_us_ s)
  (second_ts_us_ s) v (tm_calls s).
Definition put_rates mx ml bl s := mkTm (tv s) (tf s) (tp s) mx ml bl (create_ts_us_ s) (second_ts_us_ s)
  (report_quality_flag_s_ s) (tm_calls s).
Definition tm_call (c : TmCall) : M unit := mod_st (fun s => mkTm (tv s) (tf s) (tp s) (max_receive_pps s) (max_send_loss s) (bakeup_send_loss s)
  (create_ts_us_ s) (second_ts_us_ s) (report_quality_flag_s_ s) (tm_calls s ++ [c])).
Definition on_tv (f : RvSt P E A -> RvSt P E A) (s : TmSt) : TmSt := put_tv (f (tv s)) s.
Definition lift_rv {T} (m : ST (RvSt P E A) T) : M T := fun s =>
  match m (tv s) with Some (r, v) => Some (r, put_tv v s) | None => None end.

Definition set_ai v (y : Sync) : Sync := mkSync (recv_session_stat_ y) (recv_last_sync_ts_us_ y) (last_sn_ y) (last_recv_data_pack_ts_us_ y)
  v (send_session_stat_ y) (ack_sn_ y) (recv_max_data_sn_ y) (new_gap_detected_ y).

(** ** Acknowledgements *)
Definition sess_view (s : TmSt) : SendSess :=
  let x := Feedback.fb_sess (tf s) in
  mkSess (send_down_loss_ x) (measure_rtt_ts_us_ x) (now_of (tv s)) (SessRecv.rtt_us_ (ck (tv s))) (sort_sn_ x) (pack_sn_ x)
    (SessRecv.send_session_stat_ (sy (tv s))) (test_rtt_period_us_ x) (rv_peer_version (tv s)) (rv_stream_type (tv s)) (rv_qos (tv s))
    (enable_key_ x) (stream_key_ x).
Definition fb_view (s : TmSt) : Feedback.FbSt :=
  let f := tf s in let v := tv s in
  Feedback.mkFb (sess_view s) (recv_session_stat_ (sy v)) (ack_sn_ (sy v)) (com_cache_ts_us_ (ck v)) (at_com_cache_ts_us_ (ck v))
    (Feedback.nack_burst_detected_ f) (Feedback.last_feedback_nack_ts_us_ f) (Feedback.fb_stat f) (Feedback.fb_sent f).
Definition fb_back (f : Feedback.FbSt) (s : TmSt) : TmSt :=
  put_tf f (on_tv (fun v => on_ck (fun c => set_cache (Feedback.com_cache_ts_us_ f) (Feedback.at_com_cache_ts_us_ f) (clock_sync_delta_us_ c) c)
    (on_sy (set_ack_sn (Feedback.ack_sn_ f)) v)) s).
Definition set_burst v (f : Feedback.FbSt) : Feedback.FbSt := Feedback.mkFb (Feedback.fb_sess f) (Feedback.recv_session_stat_ f) (Feedback.ack_sn_ f)
  (Feedback.com_cache_ts_us_ f) (Feedback.at_com_cache_ts_us_ f) v (Feedback.last_feedback_nack_ts_us_ f) (Feedback.fb_stat f) (Feedback.fb_sent f).
Definition set_sent st sent (f : Feedback.FbSt) : Feedback.FbSt := Feedback.mkFb (Feedback.fb_sess f) (Feedback.recv_session_stat_ f) (Feedback.ack_sn_ f)
  (Feedback.com_cache_ts_us_ f) (Feedback.at_com_cache_ts_us_ f) (Feedback.nack_burst_detected_ f) (Feedback.last_feedback_nack_ts_us_ f) st sent.

Section Handler.
(** The answer of [GtpSysTimestampUs], and what the stack held where packets are
    built. *)
Variable now_us : Z.
Variable junk : PackHeader.

(** The reports that [m] makes the receiving window give go to the callback. *)
Definition callback (r : WinReport) (s : TmSt) : TmSt := fb_back (Feedback.WinSnBitmapCallback now_us junk r (fb_view s)) s.
Definition heed {T} (m : ST (RvSt P E A) T) : M T := fun s =>
  let n := length (reports (data_win_r_ (tv s))) in
  match m (tv s) with
  | Some (x, v) => Some (x, foldl (fun s r => callback r s) (put_tv v s) (drop n (reports (data_win_r_ v))))
  | None => None
  end.

(** ** The handler *)

Definition SecondTimerHandler (cur_ts_us : Z) (s : TmSt) : TmSt :=
  if cur_ts_us <? second_ts_us_ s then s
  else
    let s := put_second (u64 (cur_ts_us + 1000000)) s in
    let d := LinkStat.SecondTimerHandler cur_ts_us
      (mkSecond (Feedback.fb_stat (tf s)) (recv_stat (tv s)) (max_receive_pps s) (max_send_loss s) (bakeup_send_loss s)) in
    let s := put_rates (max_receive_pps_ d) (max_send_loss_per_s_ d) (bakeup_send_loss_ d)
      (put_tf (set_sent (send_stat_ d) (Feedback.fb_sent (tf s)) (tf s)) (on_tv (put_recv_stat (recv_stat_ d)) s)) in
    let pps := data_pack_pps_ (recv_stat_ d) in
    let ai := u32 (pps + Z.shiftr pps 1) in
    let s := on_tv (on_sy (set_ai (if ai <? MIN_MIX_QUINTUPLET_THRESHOLD then MIN_MIX_QUINTUPLET_THRESHOLD else ai))) s in
    let p := tp s in
    if (GTP_YES =? max_frm_prd_updt_flg_ p) && negb (last_max_frame_period_us_ p =? now_max_frame_period_us_ p) then
      let last := now_max_frame_period_us_ p in
      put_tp (mkPeriods GTP_NO (if last <? MIN_FRAME_PERIOD_US then MIN_FRAME_PERIOD_US else last) 0
                (if max_peak_frame_period_us_ p <? last then last else max_peak_frame_period_us_ p)) s
    else s.

(** The sending window calculates its loss once, after the first 94 ms. *)
Definition first_quality (ts_us : Z) : M unit :=
  s ← get_st;
  when ((GTP_NO =? report_quality_flag_s_ s) && (DEFAULT_RTO_TIMEOUT_US - Z.shiftr DEFAULT_RTO_TIMEOUT_US 4 <=? u64 (ts_us - create_ts_us_ s)))
    (_ ← lift_rv (on_win_s (CalcQualityByHandler ts_us GTP_NO)); mod_st (put_quality_flag GTP_YES)).

(** [SendSetRecvRttPacket], when no packet has taken the round trip time along. *)
Definition send_rtt (s : TmSt) : TmSt :=
  let x := sess_view s in
  let p := control_packet junk x FrameSend.kGtpSetRecvRttPackType (if kRunning =? Frame.send_session_stat_ x then GTP_NO else GTP_YES)
             GTP_NO GTP_YES (le_bytes 4 (Frame.rtt_us_ x)) in
  put_tf (set_sent (count_net p.2 (Feedback.fb_stat (tf s))) (Feedback.fb_sent (tf s) ++ [p]) (tf s))
    (on_tv (on_ck (fun c => set_rtt 0 (gen_new_rtt_ts_us_ c) (c))) s).
Definition rtt_overdue (ts_us : Z) (s : TmSt) : bool :=
  negb (SessRecv.rtt_us_ (ck (tv s)) =? 0) && (u64 (gen_new_rtt_ts_us_ (ck (tv s)) + MIN_RTT_EXIST_TM_SZ_US) <=? ts_us).

Definition idle_restart (ts_us : Z) (s : TmSt) : TmSt :=
  if recv_idle_calc_loss_ts_us (ck (tv s)) =? U64_MAX then s else on_tv (on_ck (set_idle_ts ts_us)) s.
Definition calc_recv (ts_us force : Z) : M unit := _ ← heed (on_win_r (CalcQualityByHandler ts_us force)); mret tt.

(** A new gap: the loss is calculated at this call and the next. *)
Definition new_gap (ts_us : Z) : M unit :=
  s ← get_st;
  let gap := new_gap_detected_ (sy (tv s)) in
  when (0 <? gap)
    (_ ← mod_st (on_tv (on_sy (fun y => set_gap (recv_max_data_sn_ y) (gap - 1) y)));
     _ ← calc_recv ts_us GTP_YES;
     mod_st (idle_restart ts_us)).

(** No packet for a while. *)
Definition idle_calc (ts_us : Z) : M unit :=
  s ← get_st;
  let c := ck (tv s) in
  when (negb (recv_idle_calc_loss_ts_us c =? U64_MAX) && (u64 (recv_idle_calc_loss_ts_us c + recv_idle_calc_period_us_ c) <=? ts_us))
    (let burst := Feedback.nack_burst_detected_ (tf s) in
     _ ← mod_st (fun s => put_tf (set_burst 0 (tf s)) s);
     s ← get_st;
     _ ← calc_recv ts_us (if (GTP_NO =? burst) && (u64 (ts_us - Feedback.last_feedback_nack_ts_us_ (tf s)) <=? MAX_FEEDBACK_NACK_PERIOD_US)
                          then GTP_NO else GTP_YES);
     mod_st (on_tv (on_ck (set_idle_ts ts_us)))).

(** Nothing is known of the peer's loss: the factor is that of no loss. *)
Definition factor_calc (ts_us : Z) : ST (RvSt P E A) unit :=
  s ← get_st;
  let lo := u32 (Z.land ts_us 0xFFFFFFFF) in
  when (next_calc_factor1_ts_us_ (ck s) <=? lo)
    (r ← deref (Factor.Factor1 now_us (f32_of_Z 0) ts_us (fac s));
     _ ← mod_st (put_fac r.2);
     _ ← on_win_r (mod_st (fun w => (AdjustFeedbackFactor r.1 ts_us w).2));
     mod_st (on_ck (fun c => set_next_factor (u32 (lo + restore_factor1_tm_span_us_ c)) c))).

Definition TimerHandler (ts_us : Z) : M unit :=
  _ ← tm_call (CArqCheckRtoRetran ts_us);
  _ ← mod_st (SecondTimerHandler ts_us);
  _ ← first_quality ts_us;
  _ ← mod_st (fun s => if rtt_overdue ts_us s then send_rtt s else s);
  _ ← new_gap ts_us;
  _ ← idle_calc ts_us;
  _ ← lift_rv (factor_calc ts_us);
  s ← get_st;
  _ ← tm_call (CFecClearResource (r_cur_loss_rate_ (tv s)) ts_us);
  lift_rv (on_re (ReorderGapTimer (data_pack_pps_ (recv_stat (tv s))) ts_us)).

End Handler.
End Timer.

#[global] Arguments TmSt P E A {_ _}.
End SessTimer.
