(* ===== verification/SessRun.v ===== *)
(** * A running session

    Packets and ticks of the timer in any order: what the application gets is
    in order and each frame once. *)
From Stdlib Require Import Floats.SpecFloat Sorting.Sorted.
From S2P Require Import Prelude PoolInterface PacketHeader LinkStat Frame Factor ReorderRun SlidWinState SlidWin SlidWinSpec SlidWinRtt SlidWinRun SlidWinSendSpec Feedback SessRecv SessRecvRun SessTimer.
Export SessRecvRun SessTimer.

Module SessRun.

(** ** The loss is calculated without a packet *)
Lemma wp_by_handler (I : SlidWin -> Prop) ts flag (w : SlidWin) :
  I w -> (forall w' f, I w' -> I (on_lss (put_force_calc_num_ f) w')) -> (forall w', I w' -> I (CalcPps ts w')) ->
  (forall w', I w' -> wp (if kRecvSlidWinMode =? slid_win_mode_ w' then CalcRcvLoss ts SELF_YES else CalcSndLoss ts SELF_YES) (fun _ w2 => I w2) w') ->
  wp (CalcQualityByHandler ts flag) (fun _ w' => I w') w.
Proof.
  intros Hw Hf Hp Hc. unfold CalcQualityByHandler. cbv zeta.
  match goal with |- context [_ ← mod_st (CalcPps ts); ?k] => set (calc := _ ← mod_st (CalcPps ts); k) end.
  assert (Hcalc : forall w', I w' -> wp calc (fun _ w2 => I w2) w').
  { intros w' Hw'. unfold calc. apply wp_bind, wp_mod, wp_bind, wp_get, wp_bind. eapply wp_mono; [apply Hc, Hp, Hw'|].
    cbn beta. intros _ w2 Hw2. by apply wp_ret. }
  clearbody calc. apply wp_bind, wp_get. destruct (_ =? flag); [by apply Hcalc|].
  destruct (_ =? bit_map_update_ _); [by apply wp_ret|]. destruct (_ <=? force_calc_num_ _); [by apply wp_ret|].
  apply wp_bind, wp_mod. destruct (_ <? min_stable_us_ w); [apply wp_ret|apply Hcalc]; by apply Hf.
Qed.
Lemma by_handler_data r0 rm ts flag w : data_at r0 rm w -> wp (CalcQualityByHandler ts flag) (fun _ w' => data_at r0 rm w') w.
Proof.
  intros Hw. apply wp_by_handler; [done|..].
  - intros w' f Hw'. by apply (data_at_same r0 rm w').
  - intros w' Hw'. apply (data_at_same r0 rm w'); [apply same_CalcPps|done].
  - intros w' (Hx & Hf & Hm & Hl & Ha & seen & Hg). rewrite Hm. cbn [Z.eqb kRecvSlidWinMode Pos.eqb].
    apply (wp_CalcRcvLoss seen); [done|]. intros w2 [Ok M F L B _ A] X.
    assert (min_reserve w' = 128 /\ max_reserve w' = 768) by (unfold min_reserve, max_reserve; by rewrite Hf).
    unfold data_at. split_and!; try congruence; try lia. by eexists.
Qed.
Definition send_idle (w : SlidWin) : Prop := snd_ok w /\ slid_win_mode_ w = kSendSlidWinMode.
Lemma by_handler_send ts flag w : send_idle w -> wp (CalcQualityByHandler ts flag) (fun _ w' => send_idle w') w.
Proof.
  intros Hw. apply wp_by_handler; [done|..].
  - intros w' f [[? ? ? ?] Hm]. by split.
  - intros w' [[R X N L] Hm]. assert (S : same_win w' (CalcPps ts w') /\ lss (CalcPps ts w') = lss w')
      by (split; [apply same_CalcPps|unfold CalcPps; by destruct (_ <? _)]).
    destruct S as [(E1 & E2 & _) E3]. split; [|congruence]. by split; rewrite ?E1, ?E3.
  - intros w' [Ho Hm]. rewrite Hm. cbn [Z.eqb kSendSlidWinMode kRecvSlidWinMode Pos.eqb].
    destruct (CalcSndLoss_run ts SELF_YES w' Ho) as (w2 & Hr & Ho2 & _ & _ & Hm2).
    apply (wp_intro _ _ _ tt w2); [exact Hr|]. split; [done|congruence].
Qed.

(** ** One tick *)
Section Tick.
Context {P E A : Type} `{Countable E} `{!PackPool P E} `{!PackPoolLaws P E}.
Local Abbreviation Rv := (RvSt P E A).
Local Abbreviation St := (TmSt P E A).
Section Steady.
Variables (r : ReSt P E A) (st f0 r0 : Z) (t : Track).
Hypothesis Hai : ai_learn_sn_delta_ (tk_peer t) <= MIN_MIX_QUINTUPLET_THRESHOLD.

(** Nothing has changed that matters for the packets to come; [n] is the packet rate. *)
Definition steady (n : Z) (v : Rv) : Prop :=
  running f0 r0 t v /\ re v = r /\ rv_stream_type v = st /\ data_pack_pps_ (recv_stat v) = n.

Lemma steady_ck n f v : steady n v -> (forall c, last_active_ts_us_ (f c) = last_active_ts_us_ c) -> steady n (on_ck f v).
Proof. intros ([H1 H2 H3 H4 H5 H6 H7 H8] & E1 & E2 & E3) Hf. split; [|done]. split; try done. unfold now_of. cbn. by rewrite Hf. Qed.
Lemma steady_sy n f v : steady n v -> same_peer (sy v) (f (sy v)) -> steady n (on_sy f v).
Proof.
  intros ([H1 H2 H3 H4 (S1 & S2 & S3 & S4 & S5) H6 H7 H8] & E1 & E2 & E3) (T1 & T2 & T3 & T4 & T5). split; [|done].
  split; try done. unfold same_peer. cbn. split_and!; [congruence..|lia].
Qed.
Lemma steady_win_r n w v : steady n v -> data_at r0 (tk_rm t) w -> steady n (put_win_r w v).
Proof. intros ([H1 H2 H3 H4 H5 H6 H7 H8] & E1 & E2 & E3) Hw. by split. Qed.
Lemma steady_win_s n w v : steady n v -> send_idle w -> steady n (put_win_s w v).
Proof. intros ([H1 H2 H3 H4 H5 H6 H7 H8] & E1 & E2 & E3) Hw. by split. Qed.
Lemma steady_fac n c v : steady n v -> Factor.fac_ok c -> steady n (put_fac c v).
Proof. intros ([H1 H2 H3 H4 H5 H6 H7 H8] & E1 & E2 & E3) Hc. by split. Qed.

Lemma callbacks_steady n now junk l : forall s : St, steady n (tv s) -> steady n (tv (foldl (fun s q => callback now junk q s) s l)).
Proof.
  induction l as [|q l IH]; intros s Hs; [done|]. cbn [foldl]. apply IH. unfold callback, fb_back. cbn [tv put_tf on_tv put_tv].
  apply steady_ck; [|done]. apply steady_sy; [done|]. unfold same_peer. cbn. split_and!; done || lia.
Qed.
Lemma wp_heed {T} n now junk (m : ST Rv T) s :
  wp m (fun _ v => steady n v) (tv s) -> wp (heed now junk m) (fun _ s' => steady n (tv s')) s.
Proof. unfold wp, heed. destruct (m (tv s)) as [[x v]|]; [|done]. intros Hv. by apply callbacks_steady. Qed.
Lemma wp_lift {T} (Q : T -> Rv -> Prop) (m : ST Rv T) (s : St) : wp m Q (tv s) -> wp (lift_rv m) (fun x s' => Q x (tv s')) s.
Proof. unfold wp, lift_rv. by destruct (m (tv s)) as [[x v]|]. Qed.

Lemma calc_recv_steady n now junk ts force (s : St) : steady n (tv s) -> wp (calc_recv now junk ts force) (fun _ s' => steady n (tv s')) s.
Proof.
  intros Hs. unfold calc_recv. apply wp_bind. eapply wp_mono; [apply (wp_heed n)|].
  - apply wp_part. eapply wp_mono; [apply by_handler_data, Hs|]. cbn beta. intros _ w Hw. by apply steady_win_r.
  - cbn beta. intros _ s' Hs'. by apply wp_ret.
Qed.
Lemma Calc_pps ts x : 0 <= data_pack_pps_ (Calc ts x).
Proof.
  unfold Calc. assert (Hg : 0 <= grown (data_pack_sum_ x) (data_pack_bkup_ x)).
  { unfold grown. destruct (Z.leb_spec (data_pack_bkup_ x) (data_pack_sum_ x)); [lia|apply u32_range]. }
  destruct (_ <=? _); [exact Hg|apply u32_range].
Qed.

(** Everything before the gap timer. *)
Lemma second_steady n ts (s : St) : steady n (tv s) ->
  steady (data_pack_pps_ (recv_stat (tv (SecondTimerHandler ts s)))) (tv (SecondTimerHandler ts s)).
Proof.
  intros ([H1 H2 H3 H4 (S1 & S2 & S3 & S4 & S5) H6 H7 H8] & E1 & E2 & E3). unfold SecondTimerHandler. destruct (_ <? _); [by split|].
  cbv zeta. match goal with |- context [on_sy (set_ai ?x)] => set (a := x) end.
  assert (Ha : MIN_MIX_QUINTUPLET_THRESHOLD <= a).
  { unfold a. match goal with |- context [if ?x <? MIN_MIX_QUINTUPLET_THRESHOLD then _ else _] => destruct (Z.ltb_spec x MIN_MIX_QUINTUPLET_THRESHOLD) end; lia. }
  clearbody a. destruct (_ && _); cbn [tv put_tp on_tv put_tv put_rates put_tf put_second put_recv_stat on_sy put_sy recv_stat].
  all: assert (Hp : forall d, 0 <= data_pack_pps_ (recv_stat_ (LinkStat.SecondTimerHandler ts d)))
    by (intros d; unfold LinkStat.SecondTimerHandler; destruct (_ =? _); apply Calc_pps).
  all: split; [|done]; split; try done; [unfold same_peer; cbn; split_and!; done || lia|apply Hp].
Qed.
Lemma first_quality_steady n ts (s : St) : steady n (tv s) -> wp (first_quality ts) (fun _ s' => steady n (tv s')) s.
Proof.
  intros Hs. unfold first_quality. apply wp_bind, wp_get, wp_when; intros _; [|done]. apply wp_bind.
  eapply wp_mono; [apply (wp_lift (fun _ v => steady n v))|].
  - apply wp_part. destruct Hs as (Hr & Hs). eapply wp_mono; [apply by_handler_send, Hr|]. cbn beta. intros _ w Hw. by apply steady_win_s.
  - cbn beta. intros _ s' Hs'. by apply wp_mod.
Qed.
Lemma new_gap_steady n now junk ts (s : St) : steady n (tv s) -> wp (new_gap now junk ts) (fun _ s' => steady n (tv s')) s.
Proof.
  intros Hs. unfold new_gap. apply wp_bind, wp_get, wp_when; intros _; [|done]. apply wp_bind, wp_mod, wp_bind.
  eapply wp_mono; [apply (calc_recv_steady n)|].
  - apply steady_sy; [done|]. unfold same_peer. cbn. split_and!; done || lia.
  - cbn beta. intros _ s' Hs'. apply wp_mod. unfold idle_restart. destruct (_ =? _); [done|by apply steady_ck].
Qed.
Lemma idle_calc_steady n now junk ts (s : St) : steady n (tv s) -> wp (idle_calc now junk ts) (fun _ s' => steady n (tv s')) s.
Proof.
  intros Hs. unfold idle_calc. apply wp_bind, wp_get, wp_when; intros _; [|done]. apply wp_bind, wp_mod, wp_bind, wp_get, wp_bind.
  eapply wp_mono; [by apply (calc_recv_steady n)|]. cbn beta. intros _ s' Hs'. apply wp_mod. by apply steady_ck.
Qed.
Lemma factor_calc_steady n now ts (v : Rv) : steady n v -> wp (factor_calc now ts) (fun _ v' => steady n v') v.
Proof.
  intros Hs. unfold factor_calc. apply wp_bind, wp_get, wp_when; intros _; [|done]. apply wp_bind.
  destruct (Factor.Factor1_some now (f32_of_Z 0) ts (fac v) (rn_fac _ _ _ _ (proj1 Hs))) as (f & c & Hr & Hc).
  eapply wp_deref; [exact Hr|]. apply wp_bind, wp_mod, wp_bind, wp_part, wp_mod, wp_mod. apply steady_ck; [|done]. apply steady_win_r; [by apply steady_fac|].
  cbn. eapply data_at_same; [apply AdjustFeedbackFactor_same|apply Hs].
Qed.

(** A tick is a tick of the gap timer. *)
Lemma tick_step n now junk ts (s : St) r' :
  steady n (tv s) ->
  let n' := data_pack_pps_ (recv_stat (tv (SecondTimerHandler ts s))) in
  re_step (EvTimer n' ts) r = Some (tt, r') ->
  exists s', TimerHandler now junk ts s = Some (tt, s') /\ running f0 r0 t (tv s') /\ re (tv s') = r' /\ rv_stream_type (tv s') = st.
Proof.
  intros Hs n' Hev.
  cut (wp (TimerHandler now junk ts) (fun _ s' => running f0 r0 t (tv s') /\ re (tv s') = r' /\ rv_stream_type (tv s') = st) s).
  { intros Hwp. destruct (wp_total _ _ _ Hwp) as ([] & s' & Hrun & Hrest). by exists s'. }
  unfold TimerHandler, tm_call. apply wp_bind, wp_mod, wp_bind, wp_mod.
  match goal with |- wp _ _ ?x => set (s1 := x) end. assert (H1 : steady n' (tv s1)).
  { pose proof (second_steady n ts (mkTm (tv s) (tf s) (tp s) (max_receive_pps s) (max_send_loss s) (bakeup_send_loss s) (create_ts_us_ s)
      (second_ts_us_ s) (report_quality_flag_s_ s) (tm_calls s ++ [CArqCheckRtoRetran ts])) Hs) as H1. fold s1 in H1.
    assert (n' = data_pack_pps_ (recv_stat (tv s1))) as ->; [|exact H1].
    unfold n', s1, SecondTimerHandler. cbn [second_ts_us_]. destruct (_ <? _); [done|]. cbv zeta. cbn [tp put_tp on_tv put_tv put_rates put_tf put_second].
    by destruct (_ && _). }
  clearbody s1. apply wp_bind. eapply wp_mono; [by apply (first_quality_steady n')|]. cbn beta. intros _ s2 H2.
  apply wp_bind, wp_mod. set (s3 := if rtt_overdue ts s2 then _ else _). assert (H3 : steady n' (tv s3)).
  { unfold s3. destruct (rtt_overdue ts s2); [|done]. unfold send_rtt. cbn [tv put_tf on_tv put_tv]. by apply steady_ck. }
  clearbody s3. apply wp_bind. eapply wp_mono; [by apply (new_gap_steady n')|]. cbn beta. intros _ s4 H4.
  apply wp_bind. eapply wp_mono; [by apply (idle_calc_steady n')|]. cbn beta. intros _ s5 H5.
  apply wp_bind. eapply wp_mono; [apply (wp_lift (fun _ v => steady n' v)), factor_calc_steady, H5|]. cbn beta. intros _ s6 H6.
  apply wp_bind, wp_get, wp_bind, wp_mod.
  apply (wp_lift (fun _ v => running f0 r0 t v /\ re v = r' /\ rv_stream_type v = st)). cbn [tv].
  destruct H6 as ([K1 K2 K3 K4 K5 K6 K7 K8] & E1 & E2 & E3). apply wp_part. rewrite E1, E3. cbn [re_step] in Hev. unfold wp. rewrite Hev.
  split; [by split|done].
Qed.
End Steady.

(** ** Packets and ticks *)
Inductive SessEvent :=
| SePacket (x : Arrival E A)
| SeTick (now ts : Z).

Section Session.
Variables (sys_id ptr_size decode_ret : Z) (junk : PackHeader).

Definition sess_step (ev : SessEvent) : ST St unit :=
  match ev with
  | SePacket x => _ ← heed (ar_now x) junk (receive sys_id ptr_size decode_ret x); mret tt
  | SeTick now ts => TimerHandler now junk ts
  end.
Fixpoint sess_run (l : list SessEvent) : ST St unit :=
  match l with
  | [] => mret tt
  | ev :: l' => _ ← sess_step ev; sess_run l'
  end.

(** What an event is to the reorder buffer, and what is known after it. *)
Definition re_event (st : Z) (t : Track) (s : St) (ev : SessEvent) : list (ReEvent E A) :=
  match ev with
  | SePacket x => events_of sys_id st t x
  | SeTick _ ts => [EvTimer (data_pack_pps_ (recv_stat (tv (SecondTimerHandler ts s)))) ts]
  end.
Definition track_after (st : Z) (t : Track) (ev : SessEvent) : Track :=
  match ev with SePacket x => track_of sys_id st t x | SeTick _ _ => t end.
Fixpoint re_events (st : Z) (t : Track) (l : list SessEvent) (s : St) : list (ReEvent E A) :=
  match l with
  | [] => []
  | ev :: l' => re_event st t s ev ++
      match sess_step ev s with Some (_, s') => re_events st (track_after st t ev) l' s' | None => [] end
  end.

(** The packets of a run, and the frames of those that are new. *)
Definition packets (l : list SessEvent) : list (Arrival E A) :=
  omap (fun ev => match ev with SePacket x => Some x | SeTick _ _ => None end) l.
Fixpoint fresh_all (st : Z) (t : Track) (l : list (Arrival E A)) : list (tagged (A := A)) :=
  match l with [] => [] | x :: l' => fresh_of sys_id st t x ++ fresh_all st (track_of sys_id st t x) l' end.
Definition sess_event_ok (ev : SessEvent) : Prop :=
  match ev with SePacket x => whole x | SeTick _ ts => ts <> 0 end.

Lemma fresh_all_in st l : forall t, exists seen', fresh_in (tk_seen t) seen' (fresh_all st t l).
Proof.
  induction l as [|x l IH]; intros t; cbn [fresh_all]; [exists (tk_seen t); by apply fresh_nil|].
  destruct (IH (track_of (E := E) (A := A) sys_id st t x)) as [seen' Hl]. exists seen'. eapply fresh_app; [apply fresh_of_in|exact Hl].
Qed.
Lemma fresh_all_brought st l : forall t, Forall (fun p => exists x, x ∈ l /\ brings sys_id st x p) (fresh_all st t l).
Proof.
  induction l as [|x l IH]; intros t; [constructor|]. cbn [fresh_all]. apply Forall_app. split.
  - eapply Forall_impl; [apply fresh_brought|]. cbn beta. intros p Hp. exists x. by split; [left|].
  - eapply Forall_impl; [apply IH|]. cbn beta. intros p (z & Hz & Hp). exists z. by split; [right|].
Qed.
Lemma track_of_ai st t x : ai_learn_sn_delta_ (tk_peer t) <= MIN_MIX_QUINTUPLET_THRESHOLD ->
  ai_learn_sn_delta_ (tk_peer (track_of (E := E) (A := A) sys_id st t x)) <= MIN_MIX_QUINTUPLET_THRESHOLD.
Proof.
  intros Hai. assert (Ho : ai_learn_sn_delta_ (tk_peer (opened st t x)) <= MIN_MIX_QUINTUPLET_THRESHOLD).
  { unfold opened. destruct (is_data x); cbn [tk_peer enter_first put_peer].
    - unfold heard. cbv zeta. destruct (_ || _); cbn; by destruct (_ <? _).
    - destruct (_ =? _); [|done]. cbn [tk_peer put_peer]. unfold greeted. by destruct (_ && _). }
  assert (Hr : forall l t0, tk_peer (rests_track sys_id st l t0) = tk_peer t0).
  { induction l as [|m l IH]; intros t0; [done|]. cbn [rests_track]. rewrite IH. unfold rest_track. destruct (sound sys_id m); [|done].
    by destruct (rest_new sys_id st m t0). }
  unfold track_of. destruct (is_data x); cbn [tk_peer enter_sn]; by rewrite Hr.
Qed.

Lemma packet_step st f0 r0 t x (s : St) r' :
  running f0 r0 t (tv s) -> rv_stream_type (tv s) = st -> fits sys_id st f0 r0 t x ->
  re_run (events_of sys_id st t x) (re (tv s)) = Some (tt, r') ->
  exists s', sess_step (SePacket x) s = Some (tt, s') /\ re (tv s') = r' /\ rv_stream_type (tv s') = st /\
    running f0 r0 (track_of (E := E) (A := A) sys_id st t x) (tv s').
Proof.
  intros Hr Hst Hf Hev. destruct (receive_step sys_id ptr_size decode_ret st f0 r0 (rv_peer_version (tv s)) t (re (tv s)) r' (tv s) x) as (c & v & Hv & H1 & H2 & H3 & H4);
    [by split_and!|done|done|]. set (n := data_pack_pps_ (recv_stat v)).
  pose proof (wp_heed r' st f0 r0 (track_of (E := E) (A := A) sys_id st t x) n (ar_now x) junk (receive sys_id ptr_size decode_ret x) s) as Hh.
  destruct (wp_total _ _ _ (Hh (wp_intro _ (fun _ v' => steady r' st f0 r0 _ n v') _ _ _ Hv ltac:(by split_and!)))) as (z & s' & Hs' & K1 & K2 & K3 & _).
  exists s'. split; [|done]. unfold sess_step, mbind, ST_bind. by rewrite Hs'.
Qed.

Lemma sess_event_step st f0 r0 t ev l (s : St) r1 :
  ai_learn_sn_delta_ (tk_peer t) <= MIN_MIX_QUINTUPLET_THRESHOLD -> running f0 r0 t (tv s) -> rv_stream_type (tv s) = st ->
  fits_all sys_id st f0 r0 t (packets (ev :: l)) -> re_run (re_event st t s ev) (re (tv s)) = Some (tt, r1) ->
  let t1 := track_after st t ev in
  exists s1, sess_step ev s = Some (tt, s1) /\ re (tv s1) = r1 /\ rv_stream_type (tv s1) = st /\
    ai_learn_sn_delta_ (tk_peer t1) <= MIN_MIX_QUINTUPLET_THRESHOLD /\ running f0 r0 t1 (tv s1) /\ fits_all sys_id st f0 r0 t1 (packets l).
Proof.
  intros Hai Hrun Hst Hfit Hev. destruct ev as [x|now ts]; cbn [re_event track_after packets omap list_omap] in *.
  - destruct Hfit as [Hx Hl]. destruct (packet_step st f0 r0 t x s r1 Hrun Hst Hx Hev) as (s1 & K1 & K2 & K3 & K4).
    exists s1. split_and!; try done. by apply track_of_ai.
  - assert (Hstep : re_step (EvTimer (data_pack_pps_ (recv_stat (tv (SecondTimerHandler ts s)))) ts) (re (tv s)) = Some (tt, r1)).
    { cbn [re_run] in Hev. unfold mbind, ST_bind in Hev. destruct (re_step _ (re (tv s))) as [[[] r2]|]; [exact Hev|done]. }
    destruct (tick_step (re (tv s)) st f0 r0 t Hai _ now junk ts s r1 (conj Hrun (conj eq_refl (conj Hst eq_refl))) Hstep)
      as (s1 & K1 & K2 & K3 & K4). by exists s1.
Qed.

Lemma sess_events_run st f0 r0 l : forall t (s : St) r',
  ai_learn_sn_delta_ (tk_peer t) <= MIN_MIX_QUINTUPLET_THRESHOLD ->
  running f0 r0 t (tv s) -> rv_stream_type (tv s) = st -> fits_all sys_id st f0 r0 t (packets l) ->
  re_run (re_events st t l s) (re (tv s)) = Some (tt, r') ->
  exists s', sess_run l s = Some (tt, s') /\ re (tv s') = r' /\ run_frames (re_events st t l s) = (fresh_all st t (packets l)).*2.
Proof.
  induction l as [|ev l IH]; intros t s r' Hai Hrun Hst Hfit Hev.
  { change (Some (tt, re (tv s)) = Some (tt, r')) in Hev. exists s. split; [done|]. split; [congruence|done]. }
  cbn [re_events] in Hev. apply re_run_app in Hev as (r1 & Hone & Hev).
  destruct (sess_event_step st f0 r0 t ev l s r1 Hai Hrun Hst Hfit Hone) as (s1 & K1 & K2 & K3 & K4 & K5 & K6). rewrite K1, <- K2 in Hev.
  destruct (IH _ s1 r' K4 K5 K3 K6 Hev) as (s' & Hrs & Hre & Hfr). exists s'. split.
  { cbn [sess_run]. unfold mbind, ST_bind. by rewrite K1, Hrs. }
  split; [done|]. cbn [re_events]. rewrite K1, run_frames_app, Hfr. destruct ev as [x|now ts]; [|done].
  cbn [re_event track_after packets omap list_omap fresh_all]. by rewrite events_frames, fmap_app.
Qed.
Lemma re_events_ok st l : forall t (s : St), Forall sess_event_ok l -> tk_now t <> 0 -> Forall event_ok (re_events st t l s).
Proof.
  induction l as [|ev l IH]; intros t s Hl Ht; [constructor|]. apply Forall_cons in Hl as [Hx Hl]. cbn [re_events].
  apply Forall_app. split; [destruct ev; [by apply events_of_ok|by constructor]|].
  destruct (sess_step ev s) as [[u s']|]; [|constructor]. apply IH; [done|]. destruct ev as [x|]; [|done]. cbn [track_after].
  rewrite track_of_now. destruct (is_data x); [apply Hx|done].
Qed.

(** What a run of the session is to the reorder buffer. *)
Lemma session_run other st f0 r0 t l (s : St) :
  running f0 r0 t (tv s) -> rv_stream_type (tv s) = st -> fits_all sys_id st f0 r0 t (packets l) ->
  ai_learn_sn_delta_ (tk_peer t) <= MIN_MIX_QUINTUPLET_THRESHOLD -> tk_now t <> 0 -> Forall sess_event_ok l ->
  other_ok other -> rested other (re (tv s)) -> owned other (re_events st t l s) -> starved (re_events st t l s) (re (tv s)) = false ->
  exists s' out,
    sess_run l s = Some (tt, s') /\ re_out (re (tv s')) = re_out (re (tv s)) ++ (conc <$> out) /\
    StronglySorted (fun a b => a.1 < b.1) out /\ conc <$> out ⊆+ (fresh_all st t (packets l)).*2 /\
    forall lo hi, 0 <= lo -> Forall (ev_in lo hi) (re_events st t l s) -> hi + ticks_of (re_events st t l s) - lo < 2 ^ 31 ->
      Forall (fun x => lo <= x.1 < hi) out.
Proof.
  intros Hrun Hst Hfit Hai Hnow Hl Ho Hre Hown Hsv.
  destruct (wp_total _ _ _ (run_rested (re_events st t l s) other (re (tv s)) Ho Hre (re_events_ok st l t s Hl Hnow) Hown Hsv)) as ([] & r' & Hev & out & H1 & H2 & H3 & H4).
  destruct (sess_events_run st f0 r0 l t s r' Hai Hrun Hst Hfit Hev) as (s' & Hrs & <- & Hfr). rewrite Hfr in H3. by exists s', out.
Qed.

End Session.
End Tick.
#[global] Arguments SessEvent E A : clear implicits.

(** ** An instance *)
Definition demo_sender : SendSess := mkSess (S754_zero false) 0 1000 0 0 0 0 0 0xFF 0 0 GTP_NO 0.
(** A pool that has lent one buffer, that of the fec packet. *)
Definition demo_lent : Z * Z -> Z := fun e => ind (bool_decide (e = (3, 0))).
Definition demo_lent_pool : TranMemPool := (pp_malloc 3 demo_pool).2.
Definition demo_lent_re : ReSt TranMemPool (Z * Z) Z := mkRe demo_lent_pool ∅ (replicate 16 empty_slot) 0 false 0 [].
Definition demo_tm : TmSt TranMemPool (Z * Z) Z :=
  mkTm (put_re demo_lent_re (demo_session 1000 40)) (Feedback.mkFb demo_sender kInitRes 0 0 0 0 1000 (stat_ctor 1000) []) (mkPeriods GTP_NO 0 0 0)
    MAX_SUPPORT_PPS FLOAT_ZERO FLOAT_ZERO 1000 1001000 GTP_NO [].
Definition demo_junk : PackHeader := parse_words 0 0 0.
(** The packets with a tick before the last, then a fec packet from which 46 is
    rebuilt, and 45 once more, and two ticks. *)
Definition demo_session_events : list (SessEvent (Z * Z) Z) :=
  (SePacket <$> take 4 demo_arrivals) ++ [SeTick 5500 5500] ++ (SePacket <$> drop 4 demo_arrivals) ++
  [SePacket (demo_fec_arrival 6500 9 [demo_pack 0 46 46 [6]; demo_pack 0 45 45 [5]]); SeTick 600000 600000; SeTick 1200000 1200000].
Definition demo_tm_track : Track := mkTrack 40 40 ∅ (set_ai 100 (sy (demo_session 1000 40))) 1000.

Lemma demo_running_tm : running 40 40 demo_tm_track (tv demo_tm).
Proof. destruct demo_running as [H1 H2 H3 H4 H5 H6 H7 H8]. by split. Qed.
Lemma demo_fits_tm : fits_all 1 0 40 40 demo_tm_track (packets demo_session_events).
Proof. vm_compute. repeat (split || discriminate || by left). Qed.
Definition demo_check (ev : SessEvent (Z * Z) Z) : bool :=
  match ev with
  | SePacket x => bool_decide (Forall (fun b => 0 <= b < 256) (ar_pack x) /\ ar_ts x <> 0 /\
      header_offset (ar_hdr x) <= pack_size (ar_hdr x) /\ Forall (Forall (fun b => 0 <= b < 256)) (ar_rest x))
  | SeTick _ ts => bool_decide (ts <> 0)
  end.
Lemma demo_session_events_ok : Forall sess_event_ok demo_session_events.
Proof.
  assert (Hd : forallb demo_check demo_session_events = true) by (vm_compute; reflexivity).
  apply Forall_forall. intros ev Hin%list_elem_of_In.
  rewrite forallb_forall in Hd. specialize (Hd ev Hin). by destruct ev as [x|now ts]; apply bool_decide_eq_true in Hd.
Qed.
Lemma demo_lent_ok : other_ok demo_lent.
Proof. intros e. unfold demo_lent, ind. by case_bool_decide. Qed.
Lemma demo_lent_rested : rested demo_lent demo_lent_re.
Proof.
  destruct demo_pool_ok as [Hp Hr].
  assert (Hm : exists n, pp_malloc 3 demo_pool = (Some ((3, 0), n), demo_lent_pool)) by (eexists; vm_compute; reflexivity).
  destruct Hm as [n Hm]. assert (Hpp : pp_ok demo_pool) by exact Hp.
  destruct (pp_malloc_some demo_pool 3 (3, 0) n demo_lent_pool Hpp ltac:(lia) Hm) as (Hok & _ & _ & Hrefs).
  split; [|done]. exists 0. split; [exact Hok| |done|done|].
  - intros e. change (re_pool demo_lent_re) with demo_lent_pool. rewrite Hrefs. change (pp_refs demo_pool e) with (refs demo_pool e). rewrite Hr.
    unfold demo_lent. change (held_in _ e) with 0. lia.
  - intros p Hpos. exists empty_slot. split; [|done]. apply lookup_replicate_2.
    pose proof (Z.mod_pos_bound p 16 ltac:(lia)). lia.
Qed.
(** The hole at 43 is passed at a tick; 45, and 46 which was rebuilt, follow. *)
Example demo_run_out : (fun x => (fun d => (d.1.1, d.1.2)) <$> re_out (re (tv x.2))) <$> sess_run 1 8 0 demo_junk demo_session_events demo_tm =
  Some [(40, [1]); (41, [2]); (42, [3]); (45, [5]); (46, [6])].
Proof. vm_compute. reflexivity. Qed.
End SessRun.
