(* ===== verification/EndToEnd.v ===== *)
(** * From one application to the other

    A sending session, a network that loses, repeats, delays and reorders
    packets, the fec engine that rebuilds some of them, and a receiving session:
    the receiving application gets a part of the frames that the sending
    application handed over, in their order. *)
From Stdlib Require Import Sorting.Sorted Floats.SpecFloat.
From S2P Require Import Prelude PoolInterface PacketHeader FloatWire LinkStat Frame FrameRun Arq FrameSend FrameSendRun SendRun ReorderRun SlidWinRun SessRecv SessRecvRun SessTimer SessRun.
Export SendRun SessRun.

Module EndToEnd.

(** ** Sorted lists *)
Lemma sorted_sublist {B} (k : list (Z * B)) : forall l, StronglySorted (fun p q => p.1 < q.1) l -> StronglySorted (fun p q => p.1 < q.1) k ->
  (forall x, x ∈ l -> x ∈ k) -> l `sublist_of` k.
Proof.
  induction k as [|y k IH]; intros l Hl Hk Hin.
  { destruct l as [|x l]; [apply sublist_nil_l|]. exfalso. eapply not_elem_of_nil, (Hin x). by left. }
  apply StronglySorted_inv in Hk as [Hk Hy]. destruct l as [|x l]; [apply sublist_nil_l|]. apply StronglySorted_inv in Hl as [Hl Hx].
  rewrite Forall_forall in Hx, Hy. assert (Hx0 : x ∈ y :: k) by (apply Hin; by left). apply elem_of_cons in Hx0 as [->|Hxk].
  - apply sublist_skip, IH; [exact Hl|exact Hk|]. intros z Hz. assert (Hz0 : z ∈ y :: k) by (apply Hin; by right). apply elem_of_cons in Hz0 as [->|Hz0]; [|done].
    specialize (Hx _ Hz). lia.
  - apply sublist_cons, IH; [by constructor; [|apply Forall_forall]|done|]. intros z Hz. pose proof (Hin z Hz) as Hz0. apply elem_of_cons in Hz0 as [->|Hz0]; [|done].
    specialize (Hy _ Hxk). apply elem_of_cons in Hz as [->|Hz]; [lia|]. specialize (Hx _ Hz). lia.
Qed.

(** ** What the receiver reads from a packet that was sent *)
Section Read.
Context (sys_s lo hi : Z) (frames : list (Z * list Z)) (Hhi : hi < 2 ^ 32) (Hlo : 0 <= lo)
  (Hframes : Forall (fun p : Z * list Z => lo <= p.1 < hi) frames).

(** The packet is one of those sent: the frame [bytes] with the number [f]. *)
Definition tells (m : list Z) (f : Z) (bytes : list Z) : Prop :=
  let h := parse_header m in
  lo <= f < hi /\ lo <= pack_sn h < hi /\ first_sn_of 0 m = f /\ restored_first_sn 0 m = f /\
  (if 0 =? repeat_counter h then pack_sn h else load_at 4 m GTP_PACKET_SIZE) = f /\
  (repeat_counter h <> 0 -> has_chg_zone h = GTP_NO) /\
  mem_load (Z.to_nat (u32 (pack_size h - header_offset h))) (frame_of m (pack_size h)) 0 = bytes.

Lemma sent_tells m size : sent_as sys_s lo hi frames (m, size) -> exists f bytes, (f, bytes) ∈ frames /\ tells m f bytes.
Proof.
  intros (f & bytes & n & Hin & (C1 & C2 & _) & (D1 & D2 & D3 & D4 & D0 & D5 & D6 & D7) & Hn). cbn [fst snd] in *. exists f, bytes. split; [done|].
  eapply Forall_forall in Hframes; [|exact Hin]. cbn [fst] in Hframes.
  assert (Hf : (if 0 =? repeat_counter (parse_header m) then pack_sn (parse_header m) else load_at 4 m GTP_PACKET_SIZE) = f).
  { rewrite <- C2. unfold first_sn_of. change (0 <? kReliableStream) with true. cbn [orb].
    destruct (Z.eqb_spec 0 (goodtp_ver (parse_header m))); [congruence|done]. }
  unfold tells. cbv zeta. split_and!; try done; try lia.
  rewrite D4, C1. replace (size - header_offset (parse_header m)) with (Z.of_nat (length bytes)) by lia. rewrite u32_small, Nat2Z.id by lia. by apply load_all.
Qed.

Lemma filed_first sn b f : sn = f \/ f <> UINT32_MAX -> filed_sn sn (Some b) f = f.
Proof. intros Hf. apply filed_hint. destruct Hf; auto. Qed.
Lemma tells_max m f bytes : tells m f bytes -> f <> UINT32_MAX.
Proof. intros (H1 & _). unfold UINT32_MAX. lia. Qed.
Lemma tells_rest_hint m f bytes b : tells m f bytes -> filed_sn (pack_sn (parse_header m)) (Some b) (rest_hint 0 m) = f.
Proof.
  intros Ht. pose proof (tells_max _ _ _ Ht). destruct Ht as (_ & _ & _ & Hr & Hf & Hz & _). unfold rest_hint. rewrite Hr.
  destruct (Z.eqb_spec 0 (repeat_counter (parse_header m))) as [E|E]; cbn [negb andb]; [by rewrite <- Hf|].
  rewrite (Hz (not_eq_sym E)), Z.eqb_refl. apply filed_first. by right.
Qed.

(** ** What that is to the reorder buffer *)
Section Receive.
Context {P E A : Type} `{Countable E} `{!PackPool P E} `{!PackPoolLaws P E}.
Variables (sys_id ptr_size decode_ret : Z) (junk : PackHeader).
Local Abbreviation St := (TmSt P E A).

(** A data packet that was sent, or a packet from which only sent ones are rebuilt. *)
Definition comes_from (sent : list (list Z)) (x : Arrival E A) : Prop :=
  (is_data x = true -> ar_pack x ∈ sent) /\ Forall (fun m => m ∈ sent) (ar_rest x).
Definition honest (m : list Z) : Prop := exists f bytes, (f, bytes) ∈ frames /\ tells m f bytes.
Definition honest_arrival (x : Arrival E A) : Prop := (is_data x = true -> honest (ar_pack x)) /\ Forall honest (ar_rest x).

Lemma honest_frame x (p : tagged (A := A)) : honest_arrival x -> brings sys_id 0 x p -> exists f bytes addr, p.2 = (f, bytes, addr) /\ (f, bytes) ∈ frames.
Proof.
  assert (Hgen : forall m sn hint (addr : option A) f bytes, (f, bytes) ∈ frames -> tells m f bytes -> (forall b, filed_sn sn (Some b) hint = f) ->
    exists f' bytes' addr', frame_in sn hint addr m = (f', bytes', addr') /\ (f', bytes') ∈ frames).
  { intros m sn hint addr f bytes Hin (Hf & _ & _ & _ & _ & _ & Hb) Hfiled. exists f, bytes, addr. split; [|done].
    unfold frame_in, conc. rewrite Hfiled, Hb. cbn [fst snd]. by rewrite u32_small by lia. }
  intros [Hd Hr] [(Hx & ->)|(m & Hm & _ & ->)].
  - destruct (Hd Hx) as (f & bytes & Hin & Ht). eapply Hgen; [exact Hin|exact Ht|]. intros b. destruct Ht as (H1 & _ & _ & _ & Hf & _).
    unfold data_hint. unfold ar_hdr in *. rewrite Hf. apply filed_first. right. unfold UINT32_MAX. lia.
  - eapply Forall_forall in Hr as (f & bytes & Hin & Ht); [|exact Hm]. eapply Hgen; [exact Hin|exact Ht|]. intros b. by eapply tells_rest_hint.
Qed.

Lemma rests_events_in addr l : forall t, Forall honest l -> Forall (ev_in (E := E) lo hi) (rests_events (A := A) sys_id 0 addr l t).
Proof.
  induction l as [|m l IH]; intros t Hl; [constructor|]. apply Forall_cons in Hl as [(f & bytes & _ & Ht) Hl]. cbn [rests_events].
  apply Forall_app. split; [|by apply IH]. destruct (rest_new sys_id 0 m t); [|constructor]. constructor; [|constructor].
  unfold rest_event. cbn [ev_in]. rewrite (tells_rest_hint m f bytes) by done. destruct Ht as (H1 & H2 & _). by split.
Qed.
Lemma events_in t x : honest_arrival x -> Forall (ev_in lo hi) (events_of sys_id 0 t x).
Proof.
  intros [Hd Hr]. unfold events_of. apply Forall_app. split.
  - apply rests_events_in. apply Forall_forall. intros m Hm%rebuilt_sub. by eapply Forall_forall in Hr.
  - constructor; [|constructor]. destruct (is_data x); [|done]. destruct (Hd eq_refl) as (f & bytes & _ & H1 & H2 & _ & _ & Hf & _).
    unfold data_event. fold (ar_hdr x) in *. case_bool_decide; cbn [ev_in]; [by split|]. unfold data_hint. unfold ar_hdr in *. rewrite Hf.
    rewrite filed_first by (right; unfold UINT32_MAX; lia). by split.
Qed.

(** The ticks of the timer in a run. *)
Definition ticks (l : list (SessEvent E A)) : Z := foldr (fun ev n => match ev with SeTick _ _ => 1 | SePacket _ => 0 end + n) 0 l.
Lemma ticks_pos l : 0 <= ticks l.
Proof. induction l as [|ev l IH]; [done|]. cbn [ticks foldr]. fold (ticks l). destruct ev; lia. Qed.
Lemma rests_ticks addr l : forall t, ticks_of (rests_events (E := E) (A := A) sys_id 0 addr l t) = 0.
Proof. induction l as [|m l IH]; intros t; [done|]. cbn [rests_events]. rewrite ticks_app, IH. by destruct (rest_new sys_id 0 m t). Qed.
Lemma events_ticks t x : ticks_of (events_of (E := E) (A := A) sys_id 0 t x) = 0.
Proof. unfold events_of. rewrite ticks_app, rests_ticks. destruct (is_data x); [|done]. unfold data_event. by case_bool_decide. Qed.
Lemma re_events_near l : forall t (s : St), Forall honest_arrival (packets l) ->
  Forall (ev_in lo hi) (re_events sys_id ptr_size decode_ret junk 0 t l s) /\
  ticks_of (re_events sys_id ptr_size decode_ret junk 0 t l s) <= ticks l.
Proof.
  induction l as [|ev l IH]; intros t s Hl; [split; [constructor|done]|]. cbn [re_events ticks foldr]. fold (ticks l).
  rewrite ticks_app, Forall_app. assert (Hl' : Forall honest_arrival (packets l)) by (destruct ev; [by apply Forall_cons in Hl as [_ Hl]|done]).
  assert (Hone : Forall (ev_in lo hi) (re_event sys_id 0 t s ev) /\
    ticks_of (re_event sys_id 0 t s ev) = match ev with SeTick _ _ => 1 | SePacket _ => 0 end).
  { destruct ev as [x|now ts]; cbn [re_event]; [|by repeat constructor]. apply Forall_cons in Hl as [Hx _]. split; [by apply events_in|apply events_ticks]. }
  destruct Hone as [H1 ->]. pose proof (ticks_pos l) as H0.
  destruct (sess_step sys_id ptr_size decode_ret junk ev s) as [[u s1]|]; [|split; [split; [done|constructor]|cbn; lia]].
  destruct (IH (track_after sys_id 0 t ev) s1 Hl') as [K1 K2]. split; [done|lia].
Qed.
End Receive.
End Read.

(** ** The theorem *)
Section Whole.
Context {P E A : Type} `{Countable E} `{!PackPool P E} `{!PackPoolLaws P E}.
Local Abbreviation St := (TmSt P E A).

(** The frames in the order of their numbers, and what was delivered of them. *)
Lemma delivered_sublist (lo hi : Z) frames (out : list (Z * (list Z * option A))) (fresh : list (delivery A)) :
  StronglySorted (fun p q : Z * list Z => p.1 < q.1) frames -> 0 <= lo -> hi < 2 ^ 32 ->
  StronglySorted (fun a b => a.1 < b.1) out -> Forall (fun x => lo <= x.1 < hi) out -> conc <$> out ⊆+ fresh ->
  Forall (fun d => exists f bytes addr, d = (f, bytes, addr) /\ (f, bytes) ∈ frames) fresh ->
  ((fun d : delivery A => d.1.2) <$> (conc <$> out)) `sublist_of` frames.*2.
Proof.
  intros Hfr Hlo Hhi Hs Hpos Hsub Hall.
  assert (Hsl : ((fun x : Z * (list Z * option A) => (x.1, x.2.1)) <$> out) `sublist_of` frames).
  { apply sorted_sublist; [|done|].
    - clear Hpos Hsub. induction Hs as [|x out Hs IH Hx]; [constructor|]. rewrite fmap_cons. constructor; [done|]. by apply Forall_fmap.
    - intros q (x & -> & Hx)%list_elem_of_fmap. eapply Forall_forall in Hpos; [|exact Hx].
      assert (Hc : conc x ∈ fresh) by (eapply elem_of_submseteq; [|exact Hsub]; by apply list_elem_of_fmap_2).
      eapply Forall_forall in Hall as (f & bytes & addr & E1 & E2); [|exact Hc]. unfold conc in E1. injection E1 as <- <- _.
      cbn beta in Hpos. by rewrite u32_small in E2 by lia. }
  assert (E1 : (fun d : delivery A => d.1.2) <$> (conc <$> out) = ((fun x : Z * (list Z * option A) => (x.1, x.2.1)) <$> out).*2)
    by (clear; induction out as [|x out IH]; [done|]; rewrite !fmap_cons, IH; done).
  rewrite E1. by apply fmap_sublist.
Qed.

(** C1: From one application to the other, within the bounds of the numbers.  A
    session that has sent nothing yet sends frames of up to 8142 bytes to a
    peer of version 1 or 2 (or one whose version it does not know) and repeats
    packets as often as its arq likes, with whatever the rest of the program
    makes of it in between, as long as the numbers do not wrap around; every
    call succeeds.  A session of the peer gets packets among those sent, lost,
    repeated, delayed or out of order, fec packets with the sent packets that
    are rebuilt from them, round trip times and ticks of its timer.  Let that
    session be running with stream type 0, its reorder buffer rested, the
    buffers given back their owner's, the pool never without a buffer for an
    early frame, and what arrives fit in ([fits_all]): no restart of the peer
    and no jump of the numbers that the check for mixed streams takes for
    another stream, first numbers at most 190 behind and 1473 ahead of the
    largest, packet numbers at most 62 behind and 1217 ahead, none within 4096 of the
    wrap-around.
    Then it never faults, and what its application gets is a part of the frames
    that were handed over, byte for byte, in their order and each at most
    once.  After a reset frames come twice ([outage_delivers_twice]). *)
Theorem end_to_end ptr base sys_s (s0 : OutSt) steps :
  sent_of (o_calls s0) = [] -> 0 <= pack_sn_ (out_sess s0) -> pack_sn_ (out_sess s0) + Z.of_nat (length steps) < 2 ^ 32 -> Forall step_ok steps ->
  exists d, send_run ptr base sys_s steps (fresh_sender s0) = Some (replicate (length steps) GTP_OK, d) /\
  forall sys_id ptr_size decode_ret junk other f0 r0 t l (s : St),
    running f0 r0 t (tv s) -> rv_stream_type (tv s) = 0 -> fits_all sys_id 0 f0 r0 t (packets l) ->
    ai_learn_sn_delta_ (tk_peer t) <= MIN_MIX_QUINTUPLET_THRESHOLD -> tk_now t <> 0 -> Forall sess_event_ok l ->
    other_ok other -> rested other (re (tv s)) ->
    owned other (re_events sys_id ptr_size decode_ret junk 0 t l s) ->
    starved (re_events sys_id ptr_size decode_ret junk 0 t l s) (re (tv s)) = false ->
    Forall (comes_from (wire d).*1) (packets l) -> Z.of_nat (length steps) + ticks l < 2 ^ 31 ->
    exists s' new, sess_run sys_id ptr_size decode_ret junk l s = Some (tt, s') /\ re_out (re (tv s')) = re_out (re (tv s)) ++ new /\
      ((fun x : delivery A => x.1.2) <$> new) `sublist_of` frames_given steps.
Proof.
  intros Hw Hsn Hlen Hsteps. set (lo := pack_sn_ (out_sess s0)) in *.
  destruct (send_run_ok ptr base sys_s lo steps (fresh_sender s0)) as (d & Hrun & [D1 D2 D3 D4 _] & Hnext & Hgiven);
    [apply fresh_sender_ok; [exact Hw|fold lo; lia]|done|exact Hlen|done|].
  change (next_sn (fresh_sender s0)) with lo in Hnext. exists d. split; [exact Hrun|].
  intros sys_id ptr_size decode_ret junk other f0 r0 t l s H1 H2 H3 H4 H5 H6 H7 H8 H9 H10 Hfrom Hticks.
  destruct (session_run sys_id ptr_size decode_ret junk other 0 f0 r0 t l s) as (s' & out & Hs' & Hout & Hsort & Hsub & Hpos); [done..|].
  assert (Hhonest : Forall (honest_arrival (E := E) (A := A) lo (next_sn d) (sd_frames d)) (packets l)).
  { assert (Hm : forall m, m ∈ (wire d).*1 -> honest lo (next_sn d) (sd_frames d) m).
    { intros m ([m' size] & -> & Hin)%list_elem_of_fmap. eapply Forall_forall in D4; [|exact Hin]. by eapply (sent_tells sys_s lo (next_sn d)); [lia..|exact D3|exact D4]. }
    eapply Forall_impl; [exact Hfrom|]. intros x [Hx Hr]. split; [by auto|]. by eapply Forall_impl. }
  destruct (re_events_near lo (next_sn d) (sd_frames d) ltac:(lia) sys_id ptr_size decode_ret junk l t s Hhonest) as [Hin Htk].
  exists s', (conc <$> out). split; [done|]. split; [done|].
  assert (E1 : frames_given steps = (sd_frames d).*2) by exact (eq_sym Hgiven). rewrite E1.
  eapply (delivered_sublist lo (next_sn d)); [done|done|lia|done|apply Hpos; [done|exact Hin|lia]|exact Hsub|].
  apply Forall_fmap, Forall_forall. intros p Hp. pose proof (fresh_all_brought sys_id 0 (packets l) t) as Hbr.
  eapply Forall_forall in Hbr as (x & Hx & Hb); [|exact Hp]. eapply Forall_forall in Hhonest; [|exact Hx].
  eapply honest_frame; [..|exact Hhonest|exact Hb]; done || lia.
Qed.
End Whole.

(** ** An instance *)

(** Five frames; the second packet is repeated before the fourth frame, the
    first at the end. *)
Definition demo_sends (i : Z) : OutSt :=
  mkOut (mkFr (demo_sess 2 0) (replicate 64 0 ++ replicate 10 i) 0 0) (stat_ctor 0) 1 GTP_NO 0 0 0 0 GTP_NO [].
Definition demo_new (i : Z) : SendStep := NewFrame (demo_sends i) 64 10 7000 6000 5 0 0 3 (Arq.mkAddr 0 0 0 []).
Definition demo_steps : list SendStep :=
  [demo_new 1; demo_new 2; demo_new 3; Again 1 (demo_sends 0) 9000 0; demo_new 4; demo_new 5; Again 0 (demo_sends 0) 9500 9400].
Lemma demo_steps_ok : Forall step_ok demo_steps.
Proof.
  assert (Hb : forall i, 0 <= i < 256 -> bytes_ok (replicate 64 0 ++ replicate 10 i))
    by (intros i Hi; apply Forall_app; split; apply Forall_replicate; unfold byte_ok; lia).
  assert (Hnew : forall i, 0 <= i < 256 -> step_ok (demo_new i)).
  { intros i Hi. split_and!; first [apply demo_sess_ok|by apply Hb|right; by right|unfold MAX_HEADER; lia|cbn; lia]. }
  assert (Hagain : forall i now cur, 0 <= now < 2 ^ 64 -> 0 <= cur < 2 ^ 64 -> step_ok (Again i (demo_sends 0) now cur)).
  { intros i now cur Hn Hc. split_and!; first [apply demo_sess_ok|right; by right|lia]. }
  repeat (apply Forall_cons_2; [first [apply Hnew; lia|apply Hagain; lia]|]). constructor.
Qed.
Definition demo_sender : Sender :=
  match send_run 8 16 1 demo_steps (fresh_sender (demo_sends 0)) with Some (_, d) => d | None => fresh_sender (demo_sends 0) end.
(** The second packet is lost and its repetition comes; the last frame is
    rebuilt with a fec packet; the first comes twice. *)
Definition demo_packet (i : nat) : list Z := default [] ((wire demo_sender).*1 !! i).
Definition demo_comes (ts : Z) (i : nat) : SessEvent (Z * Z) Z := SePacket (mkArr ts ts (3, 0) (demo_packet i) [] None).
Definition demo_events : list (SessEvent (Z * Z) Z) :=
  [demo_comes 2000 0; demo_comes 3000 2; demo_comes 4000 3; SeTick 4500 4500; demo_comes 5000 6; demo_comes 6000 4;
   SePacket (demo_fec_arrival 6500 9 [demo_packet 5; demo_packet 0]); SeTick 600000 600000; SeTick 1200000 1200000].
Example demo_got_all : (fun x => (fun d => d.1.2) <$> re_out (re (tv x.2))) <$> sess_run 1 8 0 demo_junk demo_events demo_tm =
  Some [replicate 10 1; replicate 10 2; replicate 10 3; replicate 10 4; replicate 10 5].
Proof. vm_compute. reflexivity. Qed.
Lemma demo_events_fit : fits_all 1 0 40 40 demo_tm_track (packets demo_events).
Proof. vm_compute. repeat (split || discriminate || by left). Qed.
Lemma demo_events_ok : Forall sess_event_ok demo_events.
Proof.
  assert (Hd : forallb demo_check demo_events = true) by (vm_compute; reflexivity).
  apply Forall_forall. intros ev Hin%list_elem_of_In.
  rewrite forallb_forall in Hd. specialize (Hd ev Hin). by destruct ev as [x|now ts]; apply bool_decide_eq_true in Hd.
Qed.
Lemma demo_events_sent : Forall (comes_from (wire demo_sender).*1) (packets demo_events).
Proof.
  assert (Hd : forallb (fun x => bool_decide ((is_data x = true -> ar_pack x ∈ (wire demo_sender).*1) /\
    Forall (fun m => m ∈ (wire demo_sender).*1) (ar_rest x))) (packets demo_events) = true) by (vm_compute; reflexivity).
  apply Forall_forall. intros x Hin%list_elem_of_In. rewrite forallb_forall in Hd. by apply (bool_decide_eq_true_1 _ (Hd x Hin)).
Qed.
Example end_to_end_witness : exists d, send_run 8 16 1 demo_steps (fresh_sender (demo_sends 0)) = Some (replicate 7 GTP_OK, d) /\
  exists s' new, sess_run 1 8 0 demo_junk demo_events demo_tm = Some (tt, s') /\
    re_out (re (tv s')) = re_out (re (tv demo_tm)) ++ new /\ ((fun x => x.1.2) <$> new) `sublist_of` frames_given demo_steps.
Proof.
  destruct (end_to_end (P := TranMemPool) (E := Z * Z) (A := Z) 8 16 1 (demo_sends 0) demo_steps eq_refl ltac:(done) ltac:(done) demo_steps_ok) as (d & Hrun & Hrecv).
  exists d. split; [exact Hrun|]. assert (Hd : demo_sender = d) by (unfold demo_sender; by rewrite Hrun). subst d.
  apply (Hrecv 1 8 0 demo_junk demo_lent 40 40 demo_tm_track demo_events demo_tm demo_running_tm eq_refl demo_events_fit
    ltac:(done) ltac:(done) demo_events_ok demo_lent_ok demo_lent_rested); [vm_compute; by repeat split|vm_compute; by repeat split|exact demo_events_sent|done].
Defined.
End EndToEnd.
