(* ===== verification/SessKey.v ===== *)
(** * Keys of sessions

    A session belongs to a flow: a socket with the addresses and ports of both
    ends, or a key of the application.  [GtpSessionKey] of
    src/src/utils/goodtp_comstruct.h, the address it is made from, and when two
    keys are the same. *)
From S2P Require Import Prelude.

Module SessKey.

Definition IPV4_BIN_IP_SIZE : Z := 4.
Definition IPV6_BIN_IP_SIZE : Z := 16.

(** A socket address of the system. *)
Inductive SockAddr :=
| AF_INET (sin_addr : list Z) (sin_port : Z)
| AF_INET6 (sin6_addr : list Z) (sin6_port : Z).
(** The members of [GtpAddr] that say which session is meant; there is a self
    address when [self_addr_len_] is not zero. *)
Record GtpAddr := mkAddr {
  stream_key_ : Z;
  enable_key_ : Z;
  addr_sfd_ : Z;
  sock_addr_ : SockAddr;
  self_addr_ : option SockAddr
}.

(** [memcpy] of [n] bytes to an array that holds [junk]. *)
Definition ip_copy (n : Z) (ip junk : list Z) : list Z := take (Z.to_nat n) ip ++ drop (Z.to_nat n) junk.
Definition no_ip : list Z := replicate 16 0.

Definition GtpSockAddrToBinAddr (a : SockAddr) : list Z * Z * Z :=
  match a with
  | AF_INET ip port => (ip_copy IPV4_BIN_IP_SIZE ip no_ip, IPV4_BIN_IP_SIZE, port)
  | AF_INET6 ip port => (ip_copy IPV6_BIN_IP_SIZE ip no_ip, IPV6_BIN_IP_SIZE, port)
  end.
Definition self_bin (a : option SockAddr) : list Z * Z * Z :=
  match a with Some s => GtpSockAddrToBinAddr s | None => (no_ip, 0, 0) end.

Record GtpSessionKey := mkKey {
  key_ : Z;
  peer_bin_ip_ : list Z;
  self_bin_ip_ : list Z;
  peer_ip_size_ : Z;
  self_ip_size_ : Z;
  peer_bin_port_ : Z;
  self_bin_port_ : Z;
  key_3rd_flag_ : Z;
  sfd_ : Z
}.

(** The low half of the socket's bits, written to the other end one by one. *)
Fixpoint swap_up (n : nat) (loop bit_val tmp swap : Z) : Z * Z :=
  match n with
  | O => (swap, bit_val)
  | S n' => swap_up n' (loop + 1) (u16 (Z.shiftl bit_val 1)) tmp
              (u16 (Z.lor swap (Z.shiftl (Z.land tmp bit_val) (Z.shiftl (7 - loop) 1 + 1))))
  end.
Fixpoint swap_down (n : nat) (loop bit_val tmp swap : Z) : Z :=
  match n with
  | O => swap
  | S n' => swap_down n' (loop + 1) (u16 (Z.shiftl bit_val 1)) tmp
              (u16 (Z.lor swap (Z.shiftr (Z.land tmp bit_val) (Z.shiftl loop 1 + 1))))
  end.
Definition swap_sfd (sfd : Z) : Z :=
  let tmp := u16 (Z.land sfd 0xFFFF) in
  let '(swap, bit_val) := swap_up 8 0 1 tmp 0 in swap_down 8 0 bit_val tmp swap.

(** The eight 16-bit words of an address. *)
Definition word_sum (ip : list Z) : Z := foldl (fun s i => s + le_val (mem_load 2 ip (2 * i))) 0 (seq 0 8).

(** The number of a flow, from what the arrays hold. *)
Definition flow_number (sfd peer_sz ports : Z) (p s : list Z) : Z :=
  let ip_value :=
    if IPV4_BIN_IP_SIZE =? peer_sz then Z.lor (u64 (load32 p 0 + load32 s 0)) (u64 (Z.shiftl ports 33))
    else Z.lor (u64 (word_sum p + word_sum s)) (u64 (Z.shiftl ports 32)) in
  Z.lor (u64 (Z.shiftl (swap_sfd sfd) 48)) ip_value.
(** The key of the flow; [junk] is what the two arrays held. *)
Definition key_of_flow (junk : list Z * list Z) (sfd : Z) (peer self : list Z * Z * Z) : GtpSessionKey :=
  let '(peer_ip, peer_sz, peer_port) := peer in
  let '(self_ip, self_sz, self_port) := self in
  let p := ip_copy peer_sz peer_ip junk.1 in
  let s := if negb (0 =? self_sz) then ip_copy self_sz self_ip junk.2 else no_ip in
  mkKey (flow_number sfd peer_sz (peer_port + self_port) p s) p s (u8 peer_sz) (u8 self_sz) peer_port self_port GTP_NO sfd.
(** The key of the application, with the flow it came from. *)
Definition key_of_stream (junk : list Z * list Z) (stream_key sfd : Z) (peer self : list Z * Z * Z) : GtpSessionKey :=
  let '(peer_ip, peer_sz, peer_port) := peer in
  let '(self_ip, self_sz, self_port) := self in
  mkKey stream_key (ip_copy peer_sz peer_ip junk.1) (if negb (0 =? self_sz) then ip_copy self_sz self_ip junk.2 else no_ip)
    (u8 peer_sz) (u8 self_sz) peer_port self_port GTP_YES sfd.
Definition key_of_number (stream_key : Z) : GtpSessionKey := mkKey stream_key no_ip no_ip 0 0 0 0 GTP_YES (-1).

(** [memcmp] of [n] bytes finds no difference. *)
Definition same_bytes (n : Z) (a b : list Z) : bool := bool_decide (take (Z.to_nat n) a = take (Z.to_nat n) b).
(** [operator ==], of the key on its left. *)
Definition key_eq (k r : GtpSessionKey) : bool :=
  if negb (key_ k =? key_ r) then false
  else if (GTP_YES =? key_3rd_flag_ k) && (GTP_YES =? key_3rd_flag_ r) then true
  else (sfd_ k =? sfd_ r) && (peer_bin_port_ k =? peer_bin_port_ r) && (self_bin_port_ k =? self_bin_port_ r) &&
       same_bytes (peer_ip_size_ k) (peer_bin_ip_ k) (peer_bin_ip_ r) &&
       ((0 =? self_ip_size_ k) || same_bytes (self_ip_size_ k) (self_bin_ip_ k) (self_bin_ip_ r)).

(** The key that [GoodTp::GetSession] looks a packet or frame up by. *)
Definition key_of_addr (junk : list Z * list Z) (a : GtpAddr) : GtpSessionKey :=
  if GTP_NO =? enable_key_ a then key_of_flow junk (addr_sfd_ a) (GtpSockAddrToBinAddr (sock_addr_ a)) (self_bin (self_addr_ a))
  else key_of_stream junk (stream_key_ a) (addr_sfd_ a) (GtpSockAddrToBinAddr (sock_addr_ a)) (self_bin (self_addr_ a)).

(** ** When two keys are the same *)

(** The addresses of a flow have their lengths, and both ends the same family. *)
Definition sock_ok (a : SockAddr) : Prop :=
  match a with AF_INET ip _ => length ip = 4%nat | AF_INET6 ip _ => length ip = 16%nat end.
Definition family (a : SockAddr) : Z := match a with AF_INET _ _ => IPV4_BIN_IP_SIZE | AF_INET6 _ _ => IPV6_BIN_IP_SIZE end.
Definition addr_ok (a : GtpAddr) : Prop :=
  sock_ok (sock_addr_ a) /\
  match self_addr_ a with Some s => sock_ok s /\ family s = family (sock_addr_ a) | None => True end.
Definition junk_pair (junk : list Z * list Z) : Prop := length junk.1 = 16%nat /\ length junk.2 = 16%nat.

Lemma same_bytes_iff n a b : same_bytes n a b = true <-> take (Z.to_nat n) a = take (Z.to_nat n) b.
Proof. unfold same_bytes. apply bool_decide_eq_true. Qed.
Lemma ip_copy_take n ip junk : (Z.to_nat n <= length ip)%nat -> take (Z.to_nat n) (ip_copy n ip junk) = take (Z.to_nat n) ip.
Proof. intros Hn. unfold ip_copy. rewrite take_app_le, take_take by (rewrite length_take; lia). f_equal. lia. Qed.
Lemma ip_copy_again n ip junk junk' : (Z.to_nat n <= length ip)%nat -> ip_copy n (ip_copy n ip junk') junk = ip_copy n ip junk.
Proof. intros Hn. unfold ip_copy at 1 3. by rewrite ip_copy_take. Qed.

(** A binary address: the bytes that count, their number and the port. *)
Lemma bin_addr a : sock_ok a -> exists ip port, GtpSockAddrToBinAddr a = (ip, family a, port) /\ (Z.to_nat (family a) <= length ip)%nat.
Proof.
  destruct a as [ip port|ip port]; intros Ha; cbn [sock_ok GtpSockAddrToBinAddr family] in *; eexists _, _; (split; [reflexivity|]);
    unfold ip_copy, no_ip; rewrite length_app, length_take, length_drop, length_replicate; unfold IPV4_BIN_IP_SIZE, IPV6_BIN_IP_SIZE; lia.
Qed.
Lemma bin_inj a b : sock_ok a -> sock_ok b -> family a = family b ->
  (GtpSockAddrToBinAddr a).2 = (GtpSockAddrToBinAddr b).2 ->
  same_bytes (family a) (GtpSockAddrToBinAddr a).1.1 (GtpSockAddrToBinAddr b).1.1 = true -> a = b.
Proof.
  intros Ha Hb Hf Hp Hs. apply same_bytes_iff in Hs. destruct a as [ip port|ip port], b as [ip' port'|ip' port']; try discriminate;
    cbn [sock_ok GtpSockAddrToBinAddr family fst snd] in *; rewrite !ip_copy_take in Hs by (unfold IPV4_BIN_IP_SIZE, IPV6_BIN_IP_SIZE; lia).
  - rewrite !take_ge in Hs by (unfold IPV4_BIN_IP_SIZE; lia). congruence.
  - rewrite !take_ge in Hs by (unfold IPV6_BIN_IP_SIZE; lia). congruence.
Qed.

(** The number of a key does not depend on the memory it was built in. *)
Lemma ip_copy_full ip junk : length ip = 16%nat -> length junk = 16%nat -> ip_copy IPV6_BIN_IP_SIZE ip junk = ip.
Proof. intros H1 H2. unfold ip_copy. change (Z.to_nat IPV6_BIN_IP_SIZE) with 16%nat. rewrite take_ge, drop_ge by lia. apply app_nil_r. Qed.
Lemma load32_copy ip junk : (4 <= length ip)%nat -> load32 (ip_copy IPV4_BIN_IP_SIZE ip junk) 0 = load32 ip 0.
Proof.
  intros Hl. unfold load32, mem_load. rewrite !drop_0. change 4%nat with (Z.to_nat IPV4_BIN_IP_SIZE).
  by rewrite ip_copy_take by (unfold IPV4_BIN_IP_SIZE; lia).
Qed.
Lemma flow_number_ext sfd sz ports p s p' s' :
  (sz = IPV4_BIN_IP_SIZE -> load32 p 0 = load32 p' 0 /\ load32 s 0 = load32 s' 0) -> (sz <> IPV4_BIN_IP_SIZE -> p = p' /\ s = s') ->
  flow_number sfd sz ports p s = flow_number sfd sz ports p' s'.
Proof.
  intros H4 H6. unfold flow_number. destruct (Z.eqb_spec IPV4_BIN_IP_SIZE sz) as [E|E].
  - destruct (H4 (eq_sym E)) as [-> ->]. reflexivity.
  - destruct (H6 (not_eq_sym E)) as [-> ->]. reflexivity.
Qed.
Definition flow_key (junk : list Z * list Z) (a : GtpAddr) : GtpSessionKey :=
  key_of_flow junk (addr_sfd_ a) (GtpSockAddrToBinAddr (sock_addr_ a)) (self_bin (self_addr_ a)).
Lemma flow_key_number junk junk' a : addr_ok a -> junk_pair junk -> junk_pair junk' -> key_ (flow_key junk a) = key_ (flow_key junk' a).
Proof.
  intros [Hp Hs] [J1 J2] [J1' J2']. destruct a as [sk en sfd peer self]. unfold flow_key. cbn [sock_addr_ self_addr_ addr_sfd_] in *.
  assert (H4 : forall ip j j', length ip = 4%nat -> load32 (ip_copy IPV4_BIN_IP_SIZE (ip_copy IPV4_BIN_IP_SIZE ip no_ip) j) 0 =
      load32 (ip_copy IPV4_BIN_IP_SIZE (ip_copy IPV4_BIN_IP_SIZE ip no_ip) j') 0).
  { intros ip j j' Hip. rewrite !ip_copy_again by (rewrite Hip; unfold IPV4_BIN_IP_SIZE; lia). by rewrite !load32_copy by lia. }
  assert (H6 : forall ip j j', length ip = 16%nat -> length j = 16%nat -> length j' = 16%nat ->
      ip_copy IPV6_BIN_IP_SIZE (ip_copy IPV6_BIN_IP_SIZE ip no_ip) j = ip_copy IPV6_BIN_IP_SIZE (ip_copy IPV6_BIN_IP_SIZE ip no_ip) j').
  { intros ip j j' Hip Hj Hj'. rewrite !ip_copy_again by (rewrite Hip; unfold IPV6_BIN_IP_SIZE; lia). by rewrite !ip_copy_full by done. }
  assert (Hne : IPV6_BIN_IP_SIZE <> IPV4_BIN_IP_SIZE) by discriminate.
  destruct peer as [ip port|ip port], self as [[ip' port'|ip' port']|]; cbn [sock_ok GtpSockAddrToBinAddr family self_bin key_of_flow key_] in *;
    try match type of Hs with _ /\ _ = _ => exfalso; destruct Hs as [_ Hs]; discriminate Hs end; apply flow_number_ext; intros Hsz; try (exfalso; by destruct Hsz); try (exfalso; by destruct Hne).
  - destruct Hs as [Hs _]. exact (conj (H4 ip _ _ Hp) (H4 ip' _ _ Hs)).
  - exact (conj (H4 ip _ _ Hp) eq_refl).
  - destruct Hs as [Hs _]. exact (conj (H6 ip _ _ Hp J1 J1') (H6 ip' _ _ Hs J2 J2')).
  - exact (conj (H6 ip _ _ Hp J1 J1') eq_refl).
Qed.

Lemma key_eq_flow k r : key_3rd_flag_ k = GTP_NO ->
  key_eq k r = true <-> key_ k = key_ r /\ sfd_ k = sfd_ r /\ peer_bin_port_ k = peer_bin_port_ r /\ self_bin_port_ k = self_bin_port_ r /\
    same_bytes (peer_ip_size_ k) (peer_bin_ip_ k) (peer_bin_ip_ r) = true /\
    (self_ip_size_ k = 0 \/ same_bytes (self_ip_size_ k) (self_bin_ip_ k) (self_bin_ip_ r) = true).
Proof.
  intros Hf. unfold key_eq. rewrite Hf. change (GTP_YES =? GTP_NO) with false. cbn [andb].
  destruct (Z.eqb_spec (key_ k) (key_ r)) as [E|E]; cbn [negb]; [|split; [discriminate|by intros [? _]]].
  rewrite !andb_true_iff, orb_true_iff, !Z.eqb_eq. split; [intros [[[[? ?] ?] ?] [?|?]]|intros (? & ? & ? & ? & ? & [?|?])]; split_and!; auto.
Qed.
(** [a] names an end of [family] [f], and none or one. *)
Definition sizes (a : GtpAddr) : Z * Z := (family (sock_addr_ a), match self_addr_ a with Some s => family s | None => 0 end).
Lemma sizes_small a : u8 (sizes a).1 = (sizes a).1 /\ u8 (sizes a).2 = (sizes a).2.
Proof. unfold sizes. by destruct (sock_addr_ a), (self_addr_ a) as [[|]|]. Qed.

(** The arrays of a key, as far as they are compared. *)
Lemma key_arrays junk a : addr_ok a ->
  let k := key_of_addr junk a in
  let p := (GtpSockAddrToBinAddr (sock_addr_ a)).1.1 in
  let s := (self_bin (self_addr_ a)).1.1 in
  peer_ip_size_ k = (sizes a).1 /\ self_ip_size_ k = (sizes a).2 /\ sfd_ k = addr_sfd_ a /\
  peer_bin_port_ k = (GtpSockAddrToBinAddr (sock_addr_ a)).2 /\ self_bin_port_ k = (self_bin (self_addr_ a)).2 /\
  take (Z.to_nat (sizes a).1) (peer_bin_ip_ k) = take (Z.to_nat (sizes a).1) p /\
  take (Z.to_nat (sizes a).2) (self_bin_ip_ k) = take (Z.to_nat (sizes a).2) s.
Proof.
  intros [Hp Hs]. destruct (sizes_small a) as [E1 E2]. unfold key_of_addr. unfold sizes in *.
  destruct (bin_addr _ Hp) as (ip & port & Ep & Hlen). rewrite Ep.
  destruct (self_addr_ a) as [self|]; cbn [self_bin fst snd] in *.
  - destruct Hs as [Hs Hfam]. destruct (bin_addr _ Hs) as (ip' & port' & Es & Hlen'). rewrite Es.
    assert (Hne : (0 =? family self) = false) by (by destruct self).
    destruct (GTP_NO =? enable_key_ a); cbn [key_of_flow key_of_stream peer_ip_size_ self_ip_size_ sfd_ peer_bin_port_ self_bin_port_ peer_bin_ip_ self_bin_ip_ fst snd];
      rewrite Hne; cbn [negb]; rewrite E1, E2, !ip_copy_take by done; by split_and!.
  - destruct (GTP_NO =? enable_key_ a); cbn [key_of_flow key_of_stream peer_ip_size_ self_ip_size_ sfd_ peer_bin_port_ self_bin_port_ peer_bin_ip_ self_bin_ip_ fst snd];
      change (0 =? 0) with true; cbn [negb]; rewrite E1, ip_copy_take by done; by split_and!.
Qed.
Lemma key_number junk junk' a : addr_ok a -> junk_pair junk -> junk_pair junk' ->
  key_ (key_of_addr junk a) = key_ (key_of_addr junk' a) /\ key_3rd_flag_ (key_of_addr junk a) = key_3rd_flag_ (key_of_addr junk' a).
Proof.
  intros Ha Hj Hj'. unfold key_of_addr. destruct (GTP_NO =? enable_key_ a).
  - split; [by apply flow_key_number|]. by destruct (GtpSockAddrToBinAddr _) as [[? ?] ?], (self_bin _) as [[? ?] ?].
  - by destruct (GtpSockAddrToBinAddr _) as [[? ?] ?], (self_bin _) as [[? ?] ?].
Qed.
(** What a key matches does not depend on the memory it was built in. *)
Lemma key_eq_junk junk junk' a r : addr_ok a -> junk_pair junk -> junk_pair junk' ->
  key_eq (key_of_addr junk a) r = key_eq (key_of_addr junk' a) r.
Proof.
  intros Ha Hj Hj'. destruct (key_number junk junk' a Ha Hj Hj') as [E1 E2].
  destruct (key_arrays junk a Ha) as (A1 & A2 & A3 & A4 & A5 & A6 & A7), (key_arrays junk' a Ha) as (B1 & B2 & B3 & B4 & B5 & B6 & B7).
  unfold key_eq, same_bytes. by rewrite E1, E2, A1, A2, A3, A4, A5, A6, A7, B1, B2, B3, B4, B5, B6, B7.
Qed.
Lemma key_eq_again junk junk' a : addr_ok a -> junk_pair junk -> junk_pair junk' ->
  key_eq (key_of_addr junk a) (key_of_addr junk' a) = true.
Proof.
  intros Ha Hj Hj'. rewrite (key_eq_junk junk junk') by done. unfold key_eq. rewrite Z.eqb_refl. cbn [negb].
  destruct (_ && _); [done|]. rewrite !Z.eqb_refl. cbn [andb]. apply andb_true_iff. split; [by apply same_bytes_iff|].
  apply orb_true_iff. right. by apply same_bytes_iff.
Qed.

(** C20: Without a key of the application a session is found exactly by its
    flow: two addresses of the same kind give equal keys when they name the same
    socket, the same peer and the same local end, and only then, whatever the
    memory held where the keys were built. *)
Theorem same_flow_same_key junk junk' a b :
  addr_ok a -> addr_ok b -> junk_pair junk -> junk_pair junk' -> enable_key_ a = GTP_NO -> enable_key_ b = GTP_NO -> sizes a = sizes b ->
  key_eq (key_of_addr junk a) (key_of_addr junk' b) = true <->
  addr_sfd_ a = addr_sfd_ b /\ sock_addr_ a = sock_addr_ b /\ self_addr_ a = self_addr_ b.
Proof.
  intros Ha Hb Hj Hj' Ea Eb Hsz. split.
  - destruct (key_arrays junk a Ha) as (A1 & A2 & A3 & A4 & A5 & A6 & A7), (key_arrays junk' b Hb) as (B1 & B2 & B3 & B4 & B5 & B6 & B7).
    assert (Hf : key_3rd_flag_ (key_of_addr junk a) = GTP_NO).
    { unfold key_of_addr. rewrite Ea. change (GTP_NO =? GTP_NO) with true. by destruct (GtpSockAddrToBinAddr _) as [[? ?] ?], (self_bin _) as [[? ?] ?]. }
    intros (_ & K1 & K2 & K3 & K4 & K5)%(key_eq_flow _ _ Hf). rewrite A3, B3 in K1. split; [done|].
    rewrite A4, B4 in K2. rewrite A5, B5 in K3. apply same_bytes_iff in K4. rewrite A1, A6, Hsz, B6 in K4.
    rewrite A2 in K5. rewrite <- Hsz in *. unfold sizes in *. injection Hsz as Hp Hs. cbn [fst snd] in *. destruct Ha as [Ha1 Ha2], Hb as [Hb1 Hb2]. split.
    + apply bin_inj; try done. by apply same_bytes_iff.
    + destruct (self_addr_ a) as [sa|], (self_addr_ b) as [sb|]; cbn [self_bin] in *.
      * f_equal. destruct Ha2 as [Ha2 _], Hb2 as [Hb2 _]. apply bin_inj; try done. destruct K5 as [K5|K5]; [by destruct sa|].
        apply same_bytes_iff. apply same_bytes_iff in K5. congruence.
      * by destruct sa.
      * by destruct sb.
      * done.
  - intros (E1 & E2 & E3). assert (key_of_addr junk' b = key_of_addr junk' a) as ->; [|by apply key_eq_again].
    unfold key_of_addr. rewrite Ea, Eb, E1, E2, E3. done.
Qed.

Example same_flow_same_key_witness :
  let a := mkAddr 0 GTP_NO 5 (AF_INET [10; 0; 0; 1] 7) (Some (AF_INET [10; 0; 0; 2] 9)) in
  let b := mkAddr 0 GTP_NO 5 (AF_INET [10; 0; 0; 1] 7) (Some (AF_INET [10; 0; 0; 3] 9)) in
  key_eq (key_of_addr (replicate 16 1, replicate 16 2) a) (key_of_addr (replicate 16 3, replicate 16 4) b) = true <->
  addr_sfd_ a = addr_sfd_ b /\ sock_addr_ a = sock_addr_ b /\ self_addr_ a = self_addr_ b.
Proof. cbv zeta. apply same_flow_same_key; by repeat split. Defined.

End SessKey.
