(* ===== verification/GoodTp.v ===== *)
(** * The sessions of an instance

    [GoodTp] of src/src/mgr/goodtp_mgr.cpp: the table of sessions by key, how a
    session is found, made, deleted by the application and timed out, and the
    memory of the sessions.  What a session does when it is made, ticks or dies
    is the interface [SessionOps]. *)
From S2P Require Import Prelude ItemPool SessKey.
Export ItemPool SessKey.

(** What the manager needs of a session of type [S]; [W] is what the sessions of
    an instance share: the pools, and the calls to the application. *)
Record SessionArgs := mkArgs {
  sa_addr : SessKey.GtpAddr;
  sa_handler : Z;
  sa_ts : Z;
  sa_ttl : Z;
  sa_app : Z;
  sa_mode : Z
}.
Class SessionOps (S W : Type) := {
  (** [GtpSession(tran_addr, handler, ..., mode)] *)
  se_ctor : SessionArgs -> W -> S * W;
  (** [Init(ts_us, win_cache, pack_sn, next_out_sn)] *)
  se_init : Z -> Z -> Z -> S -> W -> Z * S * W;
  (** [TimerHandler(ts_us, ...)] *)
  se_timer : Z -> S -> W -> S * W;
  (** [CalcSessionQualityBfDead(ts_us)] *)
  se_quality : Z -> S -> W -> S * W;
  (** [arq_.PopAllPack(ts_us)] and [fec2_obj_.PopAllPack(ts_us)] *)
  se_arq_pop : Z -> S -> W -> S * W;
  se_fec_pop : Z -> S -> W -> S * W;
  (** [~GtpSession()] *)
  se_dtor : S -> W -> W;
  (** [last_active_ts_us_] and [session_health_] *)
  se_last_active : S -> Z;
  se_health : S -> Z;
  se_set_health : Z -> S -> S
}.

Definition kHealthNoraml : Z := 0.
Definition kTimeOutDeleting : Z := 1.
Definition kDeletingByApp : Z := 2.

(** A session's own code leaves its health alone. *)
Class SessionLaws (S W : Type) `{!SessionOps S W} : Prop := {
  se_ctor_health a w : se_health (se_ctor a w).1 = kHealthNoraml;
  se_init_health ts n k s w : se_health (se_init ts n k s w).1.2 = se_health s;
  se_timer_health ts s w : se_health (se_timer ts s w).1 = se_health s
}.

Module GoodTp.

Definition MIN_SESSION_TTL_US : Z := 4000000.
Definition kSender : Z := 1.
Definition kReceiver : Z := 2.
Definition kGtpMgrMd : Z := 0x51.
Definition kGtpInterfaceMd : Z := 0x54.
Definition kCrtArqNodePoolFailed : Z := 0x6007.
Definition kCrtSessionPoolFailed : Z := 0x6009.
Definition kCrtTranMemPoolFailed : Z := 0x600a.
Definition kAppMixThreadErr : Z := 0x6026.

Section Instance.
Context {Q N S W : Type} `{Countable N} `{!ItemPool Q N} `{!SessionOps S W}.

(** [sessions] is the memory behind the session pointers of the table, [world]
    what the sessions share.  The order of [session_map_] is that of its iterator. *)
Record GoodTp := mkGoodTp {
  current_ts_us_ : Z;
  last_wheel_running_ts_us_ : Z;
  second_ts_us_ : Z;
  handler_base_ : Z;
  handler_ : Z;
  session_ttl_us_ : Z;
  m_3rd_malloc_num_ : Z;
  m_3rd_free_num_ : Z;
  session_mem_pool_ : Q;
  session_map_ : list (GtpSessionKey * N);
  app_deleted_stream_keys_ : gset Z;
  init_tid_ : Z;
  sessions : gmap N S;
  world : W
}.
Local Abbreviation M := (ST GoodTp).

Definition set_now t g := mkGoodTp t (last_wheel_running_ts_us_ g) (second_ts_us_ g) (handler_base_ g) (handler_ g) (session_ttl_us_ g)
  (m_3rd_malloc_num_ g) (m_3rd_free_num_ g) (session_mem_pool_ g) (session_map_ g) (app_deleted_stream_keys_ g) (init_tid_ g) (sessions g) (world g).
Definition set_wheel t g := mkGoodTp (current_ts_us_ g) t (second_ts_us_ g) (handler_base_ g) (handler_ g) (session_ttl_us_ g)
  (m_3rd_malloc_num_ g) (m_3rd_free_num_ g) (session_mem_pool_ g) (session_map_ g) (app_deleted_stream_keys_ g) (init_tid_ g) (sessions g) (world g).
Definition set_pool q g := mkGoodTp (current_ts_us_ g) (last_wheel_running_ts_us_ g) (second_ts_us_ g) (handler_base_ g) (handler_ g) (session_ttl_us_ g)
  (m_3rd_malloc_num_ g) (m_3rd_free_num_ g) q (session_map_ g) (app_deleted_stream_keys_ g) (init_tid_ g) (sessions g) (world g).
Definition set_map l g := mkGoodTp (current_ts_us_ g) (last_wheel_running_ts_us_ g) (second_ts_us_ g) (handler_base_ g) (handler_ g) (session_ttl_us_ g)
  (m_3rd_malloc_num_ g) (m_3rd_free_num_ g) (session_mem_pool_ g) l (app_deleted_stream_keys_ g) (init_tid_ g) (sessions g) (world g).
Definition set_deleted d g := mkGoodTp (current_ts_us_ g) (last_wheel_running_ts_us_ g) (second_ts_us_ g) (handler_base_ g) (handler_ g) (session_ttl_us_ g)
  (m_3rd_malloc_num_ g) (m_3rd_free_num_ g) (session_mem_pool_ g) (session_map_ g) d (init_tid_ g) (sessions g) (world g).
Definition set_tid t g := mkGoodTp (current_ts_us_ g) (last_wheel_running_ts_us_ g) (second_ts_us_ g) (handler_base_ g) (handler_ g) (session_ttl_us_ g)
  (m_3rd_malloc_num_ g) (m_3rd_free_num_ g) (session_mem_pool_ g) (session_map_ g) (app_deleted_stream_keys_ g) t (sessions g) (world g).
Definition set_memory m w g := mkGoodTp (current_ts_us_ g) (last_wheel_running_ts_us_ g) (second_ts_us_ g) (handler_base_ g) (handler_ g) (session_ttl_us_ g)
  (m_3rd_malloc_num_ g) (m_3rd_free_num_ g) (session_mem_pool_ g) (session_map_ g) (app_deleted_stream_keys_ g) (init_tid_ g) m w.

(** [GoodTp::GoodTp], with the pool for the sessions not yet set up. *)
Definition GoodTp_ctor (pos ttl base now_us : Z) (q : Q) (w : W) : GoodTp :=
  mkGoodTp 0 now_us now_us base (i32 (pos + base)) (if ttl <? MIN_SESSION_TTL_US then MIN_SESSION_TTL_US else ttl) 0 0 q [] ∅ 0 ∅ w.

Section Ops.
Variable sys_id : Z.

(** [Init]: the answers of the pools when they are set up, the clock and the thread. *)
Definition Init (arq_ret : Z) (sess : Z * Q) (tran_ret now_us tid : Z) (g : GoodTp) : Z * GoodTp :=
  if negb (arq_ret =? GTP_OK) then (GEN_ERR sys_id kGtpMgrMd kCrtArqNodePoolFailed, g)
  else
    let g := set_pool sess.2 g in
    if negb (sess.1 =? GTP_OK) then (GEN_ERR sys_id kGtpMgrMd kCrtSessionPoolFailed, g)
    else if negb (tran_ret =? GTP_OK) then (GEN_ERR sys_id kGtpMgrMd kCrtTranMemPoolFailed, g)
    else (GTP_OK, set_tid tid (set_now now_us g)).
Definition CheckSingleThreadCalling (tid : Z) (g : GoodTp) : Z :=
  if negb (tid =? init_tid_ g) then GEN_ERR sys_id kGtpInterfaceMd kAppMixThreadErr else GTP_OK.

(** [session_map_.find(key)]: where the iterator stands. *)
Definition find_key (k : GtpSessionKey) (l : list (GtpSessionKey * N)) : option (nat * (GtpSessionKey * N)) :=
  list_find (fun e => key_eq k e.1 = true) l.

(** A step of one session. *)
Definition on_session (n : N) (f : S -> W -> S * W) : M unit :=
  g ← get_st;
  s ← deref (sessions g !! n);
  mod_st (set_memory (<[n := (f s (world g)).1]> (sessions g)) (f s (world g)).2).
Definition get_session (n : N) : M S := g ← get_st; deref (sessions g !! n).
(** [delete session]: its destructor, and its memory goes back to the pool. *)
Definition delete_session (n : N) : M unit :=
  s ← get_session n;
  mod_st (fun g => set_pool (ip_free n (session_mem_pool_ g)) (set_memory (delete n (sessions g)) (se_dtor s (world g)) g)).

(** [BuildNewSession]: a pool without memory throws, and [NULL] is returned. *)
Definition border_sn (pack_sn : Z) : Z := if pack_sn <? 10 then 0 else if (10 <=? pack_sn) && (pack_sn <? 20) then 10 else pack_sn.
Definition BuildNewSession (k : GtpSessionKey) (a : GtpAddr) (app_gtp_hdl mode pack_sn sort_sn : Z) : M (option N) :=
  let next_out_sn := Z.land sort_sn 0xFFFFFFC0 in
  g ← get_st;
  let r := ip_malloc (session_mem_pool_ g) in
  _ ← mod_st (set_pool r.2);
  match r.1 with
  | None => mret None
  | Some n =>
      let x := se_ctor (mkArgs a (handler_ g) (current_ts_us_ g) (session_ttl_us_ g) app_gtp_hdl mode) (world g) in
      let y := se_init (current_ts_us_ g) (border_sn pack_sn) next_out_sn x.1 x.2 in
      _ ← mod_st (set_memory (<[n := y.1.2]> (sessions g)) y.2);
      if negb (y.1.1 =? GTP_OK) then _ ← delete_session n; mret None
      else _ ← mod_st (fun g => set_map ((k, n) :: session_map_ g) g); mret (Some n)
  end.

(** [GetSession(tran_addr, ...)]; [junk] is what the key's memory held. *)
Definition GetSession (junk : list Z * list Z) (a : GtpAddr) (app_gtp_hdl mode pack_sn sort_sn : Z) : M (option N) :=
  g ← get_st;
  let k := key_of_addr junk a in
  match find_key k (session_map_ g) with
  | Some (_, e) => mret (Some e.2)
  | None =>
      _ ← (if GTP_NO =? enable_key_ a then mret tt else mod_st (fun g => set_deleted (app_deleted_stream_keys_ g ∖ {[stream_key_ a]}) g));
      BuildNewSession k a app_gtp_hdl mode pack_sn sort_sn
  end.
(** [GetSession(session_key)]. *)
Definition GetSessionByKey (k : GtpSessionKey) (g : GoodTp) : option N := (fun x => x.2.2) <$> find_key k (session_map_ g).

(** What is cached for a session goes out before the session is deleted. *)
Definition pop_all (n : N) : M unit :=
  g ← get_st;
  _ ← on_session n (se_arq_pop (current_ts_us_ g));
  on_session n (se_fec_pop (current_ts_us_ g)).

Definition DelSpsSessionByKey (now_us : Z) (k : GtpSessionKey) : M unit :=
  _ ← mod_st (set_now now_us);
  g ← get_st;
  match find_key k (session_map_ g) with
  | None => mret tt
  | Some (i, e) =>
      s ← get_session e.2;
      if negb (se_health s =? kHealthNoraml) then mret tt
      else
        _ ← on_session e.2 (fun s w => (se_set_health kDeletingByApp s, w));
        _ ← pop_all e.2;
        _ ← delete_session e.2;
        mod_st (fun g => set_map (delete i (session_map_ g)) g)
  end.
Definition DelSpsSession (junk : list Z * list Z) (now_us now_us' : Z) (a : GtpAddr) : M unit :=
  _ ← mod_st (set_now now_us);
  if GTP_NO =? enable_key_ a then
    DelSpsSessionByKey now_us' (key_of_flow junk (addr_sfd_ a) (GtpSockAddrToBinAddr (sock_addr_ a)) (self_bin (self_addr_ a)))
  else
    _ ← mod_st (fun g => set_deleted ({[stream_key_ a]} ∪ app_deleted_stream_keys_ g) g);
    DelSpsSessionByKey now_us' (key_of_number (stream_key_ a)).

(** The loop of [CheckResourceActiveStatus], at entry [i] of the table. *)
Definition expired (g : GoodTp) (s : S) : bool := u64 (se_last_active s + session_ttl_us_ g) <=? current_ts_us_ g.
Fixpoint wheel (fuel : nat) (i : nat) : M unit :=
  match fuel with
  | O => fault
  | Datatypes.S fuel' =>
      g ← get_st;
      match session_map_ g !! i with
      | None => mret tt
      | Some e =>
          s ← get_session e.2;
          if expired g s then
            if negb (se_health s =? kHealthNoraml) then wheel fuel' (Datatypes.S i)
            else
              _ ← on_session e.2 (fun s w => (se_set_health kTimeOutDeleting s, w));
              _ ← on_session e.2 (se_quality (current_ts_us_ g));
              _ ← pop_all e.2;
              _ ← delete_session e.2;
              _ ← mod_st (fun g => set_map (delete i (session_map_ g)) g);
              wheel fuel' i
          else
            _ ← on_session e.2 (se_timer (current_ts_us_ g));
            wheel fuel' (Datatypes.S i)
      end
  end.
Definition CheckResourceActiveStatus (now_us : Z) : M unit :=
  _ ← mod_st (set_now now_us);
  _ ← mod_st (set_wheel now_us);
  g ← get_st;
  wheel (Datatypes.S (length (session_map_ g))) 0.

(** [SendArqCachedPackWhenDead], and the destructor of the instance. *)
Fixpoint pop_each (l : list (GtpSessionKey * N)) : M unit :=
  match l with
  | [] => mret tt
  | e :: l' => _ ← pop_all e.2; pop_each l'
  end.
Definition SendArqCachedPackWhenDead (now_us : Z) : M unit :=
  _ ← mod_st (set_now now_us);
  g ← get_st;
  pop_each (session_map_ g).
Fixpoint delete_each (l : list (GtpSessionKey * N)) : M unit :=
  match l with
  | [] => mret tt
  | e :: l' => _ ← delete_session e.2; _ ← mod_st (set_map l'); delete_each l'
  end.
Definition GoodTp_dtor : M unit := g ← get_st; delete_each (session_map_ g).

Definition SessionNumber (g : GoodTp) : Z := u32 (Z.of_nat (length (session_map_ g))).

End Ops.
End Instance.
#[global] Arguments GoodTp Q N S W {_ _} : assert.
End GoodTp.
