(* ===== verification/GoodTpSpec.v ===== *)
(** * The table of sessions

    The invariant of the table, and what finding, making, deleting and timing
    out sessions does to it: no session is lost, leaked, ticked twice or
    forgotten. *)
From Stdlib Require Import Sorting.Sorted.
From S2P Require Import Prelude MemPoolSpec SessKey GoodTp.
Export MemPoolSpec GoodTp SessKey.

Module GoodTpSpec.

Section Table.
Context {Q N S W : Type} `{Countable N} `{!ItemPool Q N} `{!ItemPoolLaws Q N} `{!SessionOps S W} `{!SessionLaws S W}.
Local Abbreviation G := (GoodTp Q N S W).
Local Abbreviation entry := (GtpSessionKey * N)%type.

Lemma wp_runs (m : ST G unit) (R : G -> Prop) g : wp m (fun _ g' => R g') g -> exists g', m g = Some (tt, g') /\ R g'.
Proof. intros Hm. destruct (wp_total _ _ _ Hm) as ([] & g' & Hrun & HR). by exists g'. Qed.

(** Every session of the table has its memory and is healthy, all memory handed
    out is that of a session, and no key was found when it was put in. *)
Record table_ok (g : G) : Prop := {
  tb_pool : ip_ok (session_mem_pool_ g);
  tb_nodup : NoDup (session_map_ g).*2;
  tb_used : forall n, ip_used (session_mem_pool_ g) n = bool_decide (n ∈ (session_map_ g).*2);
  tb_live : forall n, n ∈ (session_map_ g).*2 -> exists s, sessions g !! n = Some s /\ se_health s = kHealthNoraml;
  tb_keys : StronglySorted (fun e e' : entry => key_eq e.1 e'.1 = false) (session_map_ g)
}.

Lemma find_key_some k (l : list entry) i e : find_key k l = Some (i, e) -> l !! i = Some e /\ key_eq k e.1 = true.
Proof. intros Hf. apply list_find_Some in Hf as (H1 & H2 & _). done. Qed.
Lemma find_key_none k (l : list entry) : find_key k l = None <-> Forall (fun e => key_eq k e.1 = false) l.
Proof.
  unfold find_key. rewrite list_find_None, !Forall_forall. split; intros Hf e He; specialize (Hf e He); cbn beta in *;
    destruct (key_eq k e.1); congruence.
Qed.
Lemma find_key_ext k k' (l : list entry) : (forall r, key_eq k r = key_eq k' r) -> find_key k l = find_key k' l.
Proof. intros He. unfold find_key. apply list_find_ext. intros e. by rewrite He. Qed.

(** ** Steps of one session *)
Lemma wp_get_session n (g : G) s (R : S -> G -> Prop) : sessions g !! n = Some s -> R s g -> wp (get_session n) R g.
Proof. intros Hs HR. unfold get_session. apply wp_bind, wp_get. by eapply wp_deref. Qed.
Lemma wp_on_session n f (g : G) s (R : unit -> G -> Prop) : sessions g !! n = Some s ->
  R tt (set_memory (<[n := (f s (world g)).1]> (sessions g)) (f s (world g)).2 g) -> wp (on_session n f) R g.
Proof. intros Hs HR. unfold on_session. apply wp_bind, wp_get, wp_bind. eapply wp_deref; [exact Hs|]. by apply wp_mod. Qed.
Lemma wp_delete_session n (g : G) s (R : unit -> G -> Prop) : sessions g !! n = Some s ->
  R tt (set_pool (ip_free n (session_mem_pool_ g)) (set_memory (delete n (sessions g)) (se_dtor s (world g)) g)) ->
  wp (delete_session n) R g.
Proof. intros Hs HR. unfold delete_session. apply wp_bind. eapply wp_get_session; [exact Hs|]. by apply wp_mod. Qed.
(** What a session sends out before it dies. *)
Definition flushed (ts : Z) (s : S) (w : W) : S * W := let x := se_arq_pop ts s w in se_fec_pop ts x.1 x.2.
Lemma wp_pop_all n (g : G) s (R : unit -> G -> Prop) : sessions g !! n = Some s ->
  R tt (set_memory (<[n := (flushed (current_ts_us_ g) s (world g)).1]> (sessions g)) (flushed (current_ts_us_ g) s (world g)).2 g) ->
  wp (pop_all n) R g.
Proof.
  intros Hs HR. unfold pop_all. apply wp_bind, wp_get, wp_bind. eapply wp_on_session; [exact Hs|].
  eapply wp_on_session; [apply lookup_insert_eq|]. cbn. rewrite insert_insert_eq. exact HR.
Qed.

(** ** The table without an entry *)
Lemma sorted_delete {A} (R : A -> A -> Prop) l i : StronglySorted R l -> StronglySorted R (delete i l).
Proof.
  intros Hl. revert i. induction Hl as [|a l Hl IH Ha]; intros i; [by destruct i; constructor|]. destruct i as [|i]; cbn; [exact Hl|]. constructor; [apply IH|].
  rewrite Forall_forall in *. intros x Hx. apply Ha. eapply elem_of_submseteq; [exact Hx|]. apply sublist_submseteq, sublist_delete.
Qed.
Lemma delete_mem (l : list entry) i e n : NoDup l.*2 -> l !! i = Some e -> n ∈ (delete i l).*2 <-> n ∈ l.*2 /\ n <> e.2.
Proof.
  intros Hnd Hi. assert (Hp : l.*2 ≡ₚ e.2 :: (delete i l).*2) by (rewrite <- fmap_cons; apply fmap_Permutation, delete_Permutation, Hi).
  rewrite Hp in Hnd. apply NoDup_cons in Hnd as [Hn _]. rewrite Hp, elem_of_cons. split; [|by intros [[->|?] ?]]. intros Hin. split; [by right|]. by intros ->.
Qed.
Lemma gone_ok (g : G) i e q m w :
  table_ok g -> session_map_ g !! i = Some e -> q = ip_free e.2 (session_mem_pool_ g) ->
  (forall n, n <> e.2 -> m !! n = sessions g !! n) ->
  table_ok (set_map (delete i (session_map_ g)) (set_pool q (set_memory m w g))).
Proof.
  intros [H1 H2 H3 H4 H5] Hi -> Hm. assert (Hin : e.2 ∈ (session_map_ g).*2) by (apply list_elem_of_fmap; exists e; split; [done|by eapply list_elem_of_lookup_2]).
  destruct (ip_free_law (session_mem_pool_ g) e.2 H1) as [Hok Hu]; [rewrite H3; by apply bool_decide_eq_true|]. split; cbn.
  - exact Hok.
  - eapply sublist_NoDup; [exact H2|]. apply fmap_sublist, sublist_delete.
  - intros n. rewrite Hu, H3. rewrite <- bool_decide_and. apply bool_decide_ext. by rewrite (delete_mem _ i e).
  - intros n (Hn & Hne)%(delete_mem _ i e); [|done|done]. rewrite Hm by done. by apply H4.
  - by apply sorted_delete.
Qed.

(** ** Time *)

(** What one turn of the wheel makes of a session: nothing is left of one whose
    time is over, any other ticks. *)
Definition due (now ttl : Z) (s : S) : bool := u64 (se_last_active s + ttl) <=? now.
Definition last_words (now : Z) (s : S) (w : W) : W :=
  let x := se_quality now (se_set_health kTimeOutDeleting s) w in
  let y := flushed now x.1 x.2 in se_dtor y.1 y.2.
Definition visit (now ttl : Z) (s : S) (w : W) : option S * W :=
  if due now ttl s then (None, last_words now s w) else (Some (se_timer now s w).1, (se_timer now s w).2).
(** Every session once, in the order of the table. *)
Fixpoint sweep (now ttl : Z) (l : list entry) (m : gmap N S) (w : W) : list entry * gmap N S * W :=
  match l with
  | [] => ([], m, w)
  | e :: l' =>
      match m !! e.2 with
      | None => ([], m, w)
      | Some s =>
          match visit now ttl s w with
          | (None, w') => sweep now ttl l' (delete e.2 m) w'
          | (Some s', w') => let r := sweep now ttl l' (<[e.2 := s']> m) w' in (e :: r.1.1, r.1.2, r.2)
          end
      end
  end.

(** What the wheel leaves alone. *)
Definition same_instance (g g' : G) : Prop :=
  current_ts_us_ g' = current_ts_us_ g /\ last_wheel_running_ts_us_ g' = last_wheel_running_ts_us_ g /\ second_ts_us_ g' = second_ts_us_ g /\
  handler_base_ g' = handler_base_ g /\ handler_ g' = handler_ g /\ session_ttl_us_ g' = session_ttl_us_ g /\
  app_deleted_stream_keys_ g' = app_deleted_stream_keys_ g /\ init_tid_ g' = init_tid_ g.
#[local] Instance same_instance_preorder : PreOrder same_instance.
Proof. split; [by intros g|]. intros g1 g2 g3 (?&?&?&?&?&?&?&?) (?&?&?&?&?&?&?&?). unfold same_instance. split_and!; congruence. Qed.

Lemma wheel_gone i e (g : G) s (R : unit -> G -> Prop) k :
  table_ok g -> session_map_ g !! i = Some e -> sessions g !! e.2 = Some s -> se_health s = kHealthNoraml ->
  (forall g', table_ok g' -> same_instance g g' -> session_map_ g' = delete i (session_map_ g) -> sessions g' = delete e.2 (sessions g) ->
    world g' = last_words (current_ts_us_ g) s (world g) -> wp k R g') ->
  wp (_ ← on_session e.2 (fun s w => (se_set_health kTimeOutDeleting s, w));
      _ ← on_session e.2 (se_quality (current_ts_us_ g)); _ ← pop_all e.2; _ ← delete_session e.2;
      _ ← mod_st (fun g => set_map (delete i (session_map_ g)) g); k) R g.
Proof.
  intros Ht Hi Hs Hh Hk. apply wp_bind. eapply wp_on_session; [exact Hs|].
  apply wp_bind. eapply wp_on_session; [apply lookup_insert_eq|]. apply wp_bind. eapply wp_pop_all; [apply lookup_insert_eq|].
  apply wp_bind. eapply wp_delete_session; [apply lookup_insert_eq|]. apply wp_bind, wp_mod. apply Hk; try done.
  - apply (gone_ok g i e); [done..|]. intros n Hn. cbn. rewrite lookup_delete_ne by done. by rewrite !lookup_insert_ne by done.
  - cbn. by rewrite !insert_insert_eq, delete_insert_eq.
Qed.
Lemma tick_ok (g : G) n s w : table_ok g -> n ∈ (session_map_ g).*2 -> se_health s = kHealthNoraml ->
  table_ok (set_memory (<[n := s]> (sessions g)) w g).
Proof.
  intros [H1 H2 H3 H4 H5] Hn Hh. split; cbn; try done. intros n' Hn'. destruct (decide (n' = n)) as [->|Hne].
  - exists s. by rewrite lookup_insert_eq.
  - rewrite lookup_insert_ne by done. by apply H4.
Qed.

Lemma wheel_sweeps fuel : forall l (front : list entry) (g : G),
  table_ok g -> session_map_ g = front ++ l -> (length l < fuel)%nat ->
  wp (wheel fuel (length front)) (fun _ g' => table_ok g' /\ same_instance g g' /\
    (let r := sweep (current_ts_us_ g) (session_ttl_us_ g) l (sessions g) (world g) in
     session_map_ g' = front ++ r.1.1 /\ sessions g' = r.1.2 /\ world g' = r.2)) g.
Proof.
  induction fuel as [|fuel IH]; intros l front g Ht Hm Hf; [lia|]. cbn [wheel]. apply wp_bind, wp_get. rewrite Hm.
  destruct l as [|e l].
  { rewrite lookup_app_r by lia. rewrite Nat.sub_diag. cbn [lookup list_lookup]. apply wp_ret. split; [done|]. split; [done|]. cbn. by rewrite app_nil_r in *. }
  rewrite list_lookup_middle by done. cbn [sweep]. assert (Hi : session_map_ g !! length front = Some e) by (rewrite Hm; by apply list_lookup_middle).
  assert (Hin : e.2 ∈ (session_map_ g).*2) by (apply list_elem_of_fmap; exists e; split; [done|by eapply list_elem_of_lookup_2]).
  destruct (tb_live g Ht e.2 Hin) as (s & Hs & Hh). rewrite Hs. apply wp_bind. eapply wp_get_session; [exact Hs|]. cbn [length] in Hf.
  unfold visit. change (expired g s) with (due (current_ts_us_ g) (session_ttl_us_ g) s). destruct (due _ _ s).
  - rewrite Hh. change (kHealthNoraml =? kHealthNoraml) with true. cbn [negb]. apply (wheel_gone (length front) e g s); try done.
    intros g' Ht' Hsame Hm' Hs' Hw'. assert (Hm2 : session_map_ g' = front ++ l) by (rewrite Hm', Hm; by rewrite delete_middle).
    eapply wp_mono; [apply (IH l front g' Ht' Hm2); lia|]. cbn beta. intros _ g2 (K1 & K2 & K3). split; [done|].
    split; [by etrans|]. cbv zeta in *. rewrite Hs', Hw' in K3. destruct Hsame as (E1 & _ & _ & _ & _ & E2 & _). by rewrite E1, E2 in K3.
  - apply wp_bind. eapply wp_on_session; [exact Hs|]. set (x := se_timer (current_ts_us_ g) s (world g)).
    set (g1 := set_memory _ _ g). assert (Ht1 : table_ok g1) by (apply tick_ok; [done|done|]; unfold x; by rewrite se_timer_health).
    assert (Hm1 : session_map_ g1 = (front ++ [e]) ++ l) by (rewrite <- app_assoc; exact Hm).
    replace (Datatypes.S (length front)) with (length (front ++ [e])) by (rewrite length_app; cbn; lia).
    eapply wp_mono; [apply (IH l (front ++ [e]) g1 Ht1 Hm1); lia|]. cbn beta. intros _ g2 (K1 & K2 & K3). split; [done|]. split; [exact K2|].
    cbv zeta in *. cbn [fst snd]. rewrite <- app_assoc in K3. exact K3.
Qed.

(** What is left of the table, read off. *)
Definition stays (now ttl : Z) (m : gmap N S) (e : entry) : Prop :=
  match m !! e.2 with Some s => due now ttl s = false | None => False end.
#[global] Instance stays_dec now ttl m e : Decision (stays now ttl m e).
Proof. unfold stays. destruct (m !! e.2); exact _. Defined.
Lemma stays_frame now ttl (m m' : gmap N S) n (l : list entry) : n ∉ l.*2 -> (forall x, x <> n -> m' !! x = m !! x) ->
  filter (stays now ttl m') l = filter (stays now ttl m) l.
Proof.
  intros Hn Hm. induction l as [|e l IH]; [done|]. rewrite fmap_cons in Hn. apply not_elem_of_cons in Hn as [Hne Hn].
  rewrite !filter_cons, IH by done. assert (He : stays now ttl m' e <-> stays now ttl m e) by (unfold stays; by rewrite Hm by done).
  destruct (decide (stays now ttl m e)); [rewrite decide_True by tauto|rewrite decide_False by tauto]; done.
Qed.
Lemma sweep_keeps now ttl l : forall m w, NoDup l.*2 -> (forall n, n ∈ l.*2 -> is_Some (m !! n)) ->
  let r := sweep now ttl l m w in
  r.1.1 = filter (stays now ttl m) l /\
  (forall n, n ∉ l.*2 -> r.1.2 !! n = m !! n) /\
  (forall e, e ∈ r.1.1 -> exists s w', m !! e.2 = Some s /\ r.1.2 !! e.2 = Some (se_timer now s w').1).
Proof.
  induction l as [|e l IH]; intros m w Hnd Hl; [cbn; split_and!; try done; by intros e ?%elem_of_nil|].
  rewrite fmap_cons in Hnd. apply NoDup_cons in Hnd as [Hn Hnd]. cbn [sweep].
  destruct (Hl e.2) as [s Hs]; [by left|]. rewrite Hs. unfold visit.
  assert (Hrest : forall m' : gmap N S, (forall n, n <> e.2 -> m' !! n = m !! n) -> (forall n, n ∈ l.*2 -> is_Some (m' !! n))).
  { intros m' Hm' n Hnl. rewrite Hm' by (intros ->; done). apply Hl. by right. }
  rewrite filter_cons. destruct (due now ttl s) eqn:Hd.
  - assert (Hframe : forall n, n <> e.2 -> delete e.2 m !! n = m !! n) by (intros n Hne; by rewrite lookup_delete_ne).
    destruct (IH (delete e.2 m) (last_words now s w) Hnd (Hrest _ Hframe)) as (K1 & K2 & K3).
    rewrite decide_False by (unfold stays; by rewrite Hs, Hd). split; [rewrite K1; by eapply stays_frame|]. split.
    + intros n [Hne Hnl]%not_elem_of_cons. rewrite K2 by done. by apply Hframe.
    + intros e' He'. destruct (K3 e' He') as (s' & w' & E1 & E2). exists s', w'. split; [|done].
      apply lookup_delete_Some in E1. by destruct E1.
  - set (x := se_timer now s w). assert (Hframe : forall n, n <> e.2 -> <[e.2 := x.1]> m !! n = m !! n) by (intros n Hne; by rewrite lookup_insert_ne).
    destruct (IH (<[e.2 := x.1]> m) x.2 Hnd (Hrest _ Hframe)) as (K1 & K2 & K3). cbn [fst snd].
    rewrite decide_True by (unfold stays; by rewrite Hs). split; [rewrite K1; f_equal; by eapply stays_frame|]. split.
    + intros n [Hne Hnl]%not_elem_of_cons. rewrite K2 by done. by apply Hframe.
    + intros e' [->|He']%elem_of_cons; [exists s, w; split; [done|]; rewrite K2 by done; by rewrite lookup_insert_eq|].
      destruct (K3 e' He') as (s' & w' & E1 & E2). exists s', w'. split; [|done]. rewrite Hframe in E1; [done|].
      intros Heq. apply Hn. rewrite <- Heq. apply list_elem_of_fmap. exists e'. split; [done|]. rewrite K1 in He'. by apply list_elem_of_filter in He' as [_ ?].
Qed.

(** ** Finding and making sessions *)

(** After a session was asked for under [k] in [g]: [r] was found, or made and
    put in front, or there is none and nothing has changed. *)
Definition served (k : GtpSessionKey) (g : G) (r : option N) (g' : G) : Prop :=
  (forall n, n ∈ (session_map_ g).*2 -> sessions g' !! n = sessions g !! n) /\
  match find_key k (session_map_ g), r with
  | Some (_, e), _ => r = Some e.2 /\ g' = g
  | None, Some n => session_map_ g' = (k, n) :: session_map_ g /\ n ∉ (session_map_ g).*2
  | None, None => session_map_ g' = session_map_ g
  end.

Lemma wp_build k a app mode pack_sn sort_sn (g : G) : table_ok g -> find_key k (session_map_ g) = None ->
  wp (BuildNewSession k a app mode pack_sn sort_sn) (fun r g' => table_ok g' /\ served k g r g') g.
Proof.
  intros Ht Hf. pose proof Ht as [H1 H2 H3 H4 H5]. unfold BuildNewSession, served. rewrite Hf. cbv zeta. apply wp_bind, wp_get, wp_bind, wp_mod.
  destruct (ip_malloc (session_mem_pool_ g)) as [[n|] q] eqn:Hm; cbn [fst snd].
  2:{ destruct (ip_malloc_none _ _ H1 Hm) as [Hok Hu]. apply wp_ret. split; [split; cbn; try done; intros n'; by rewrite Hu|done]. }
  destruct (ip_malloc_some _ _ _ H1 Hm) as (Hok & Hfree & Hu). rewrite H3 in Hfree. apply bool_decide_eq_false in Hfree.
  set (x := se_ctor _ (world g)). set (y := se_init _ _ _ x.1 x.2).
  assert (Hh : se_health y.1.2 = kHealthNoraml) by (unfold y, x; by rewrite se_init_health, se_ctor_health).
  assert (Hother : forall n', n' ∈ (session_map_ g).*2 -> n' <> n) by (intros n' Hn' ->; done).
  apply wp_bind, wp_mod. destruct (y.1.1 =? GTP_OK); cbn [negb].
  - apply wp_bind, wp_mod, wp_ret. split.
    + split; cbn.
      * exact Hok.
      * by constructor.
      * intros n'. rewrite Hu, H3. rewrite <- bool_decide_or. apply bool_decide_ext. rewrite elem_of_cons. tauto.
      * intros n' [->|Hn']%elem_of_cons; [exists y.1.2; by rewrite lookup_insert_eq|]. rewrite lookup_insert_ne by (symmetry; auto). by apply H4.
      * constructor; [done|]. by apply find_key_none.
    + split; [intros n' Hn'; cbn; rewrite lookup_insert_ne; [done|symmetry; auto]|]. by split.
  - apply wp_bind. eapply wp_delete_session; [apply lookup_insert_eq|]. apply wp_ret.
    destruct (ip_free_law q n Hok) as [Hok' Hu']; [rewrite Hu, H3; rewrite (bool_decide_true (n = n)) by done; apply orb_true_r|].
    assert (Hs : forall n', n' ∈ (session_map_ g).*2 -> delete n (<[n:=y.1.2]> (sessions g)) !! n' = sessions g !! n')
      by (intros n' Hn'; rewrite lookup_delete_ne, lookup_insert_ne by (symmetry; auto); done).
    split; [|split; [exact Hs|done]]. split; cbn; try done.
    + intros n'. rewrite Hu', Hu, H3. destruct (bool_decide_reflect (n' = n)) as [->|Hne]; rewrite ?orb_true_r, ?orb_false_r.
      * rewrite (bool_decide_false (n <> n)) by (by intros ?). by rewrite (bool_decide_false (n ∈ _)).
      * by rewrite (bool_decide_true (n' <> n)), andb_true_r.
    + intros n' Hn'. rewrite Hs by done. by apply H4.
Qed.
Lemma wp_GetSession junk a app mode pack_sn sort_sn (g : G) : table_ok g ->
  wp (GetSession junk a app mode pack_sn sort_sn) (fun r g' => table_ok g' /\ served (key_of_addr junk a) g r g') g.
Proof.
  intros Ht. unfold GetSession. apply wp_bind, wp_get. cbv zeta. destruct (find_key _ _) as [[i e]|] eqn:Hf.
  - apply wp_ret. split; [done|]. unfold served. by rewrite Hf.
  - set (g1 := if GTP_NO =? enable_key_ a then g else set_deleted (app_deleted_stream_keys_ g ∖ {[stream_key_ a]}) g).
    assert (E1 : session_map_ g1 = session_map_ g /\ sessions g1 = sessions g) by (unfold g1; by destruct (_ =? _)). destruct E1 as [E1 E2].
    assert (Ht1 : table_ok g1) by (unfold g1; destruct (_ =? _); [done|]; by destruct Ht).
    apply wp_bind. apply (wp_mono _ (fun _ g' => g' = g1)); [unfold g1; destruct (_ =? _); [by apply wp_ret|by apply wp_mod]|].
    cbn beta. intros _ g' ->. eapply wp_mono; [apply wp_build; [done|by rewrite E1]|]. cbn beta. intros r g2 [K1 K2]. split; [done|].
    unfold served in *. rewrite E1, E2 in K2. by rewrite Hf in *.
Qed.
Lemma find_again junk junk' a (g g' : G) r : addr_ok a -> junk_pair junk -> junk_pair junk' ->
  served (key_of_addr junk a) g (Some r) g' -> exists i e, find_key (key_of_addr junk' a) (session_map_ g') = Some (i, e) /\ e.2 = r.
Proof.
  intros Ha Hj Hj' [_ Hs]. rewrite (find_key_ext (key_of_addr junk' a) (key_of_addr junk a)) by (intros k; by apply key_eq_junk).
  destruct (find_key (key_of_addr junk a) (session_map_ g)) as [[i e]|] eqn:Hf; [destruct Hs as [[= ->] ->]; by exists i, e|].
  destruct Hs as [-> _]. exists 0%nat, (key_of_addr junk a, r). split; [|done]. unfold find_key. cbn [list_find fst].
  by rewrite decide_True by (by apply key_eq_again).
Qed.

(** ** Deleting a session *)
Lemma wp_del_key now k (g : G) : table_ok g ->
  wp (DelSpsSessionByKey now k) (fun _ g' => table_ok g' /\
    session_map_ g' = match find_key k (session_map_ g) with Some (i, _) => delete i (session_map_ g) | None => session_map_ g end /\
    forall n, n ∈ (session_map_ g').*2 -> sessions g' !! n = sessions g !! n) g.
Proof.
  intros Ht. unfold DelSpsSessionByKey. apply wp_bind, wp_mod, wp_bind, wp_get. change (session_map_ (set_now now g)) with (session_map_ g).
  destruct (find_key k (session_map_ g)) as [[i e]|] eqn:Hf; [|apply wp_ret; split; [by destruct Ht|done]].
  destruct (find_key_some _ _ _ _ Hf) as [Hi _].
  assert (Hin : e.2 ∈ (session_map_ g).*2) by (apply list_elem_of_fmap; exists e; split; [done|by eapply list_elem_of_lookup_2]).
  destruct (tb_live g Ht e.2 Hin) as (s & Hs & Hh). apply wp_bind. eapply wp_get_session; [exact Hs|]. rewrite Hh.
  change (kHealthNoraml =? kHealthNoraml) with true. cbn [negb]. apply wp_bind. eapply wp_on_session; [exact Hs|].
  apply wp_bind. eapply wp_pop_all; [apply lookup_insert_eq|]. apply wp_bind. eapply wp_delete_session; [apply lookup_insert_eq|]. apply wp_mod.
  assert (Ht' : table_ok (set_now now g)) by (by destruct Ht).
  assert (Hframe : forall n x y, n <> e.2 -> delete e.2 (<[e.2:=x]> (<[e.2:=y]> (sessions g))) !! n = sessions g !! n)
    by (intros n x y Hn; by rewrite lookup_delete_ne, !lookup_insert_ne by done).
  split; [apply (gone_ok (set_now now g) i e); try done; intros n Hn; by apply Hframe|]. split; [done|].
  intros n [_ Hn]%(delete_mem _ i e); [|apply (tb_nodup _ Ht)|done]. by apply Hframe.
Qed.

(** ** The end of an instance *)
Lemma wp_pop_each ns : forall (g : G), table_ok g -> (forall e : entry, e ∈ ns -> e.2 ∈ (session_map_ g).*2) ->
  wp (pop_each ns) (fun _ g' => session_map_ g' = session_map_ g /\ session_mem_pool_ g' = session_mem_pool_ g /\
    forall n, is_Some (sessions g !! n) -> is_Some (sessions g' !! n)) g.
Proof.
  assert (Hgen : forall (g : G), (forall e : entry, e ∈ ns -> is_Some (sessions g !! e.2)) ->
    wp (pop_each ns) (fun _ g' => session_map_ g' = session_map_ g /\ session_mem_pool_ g' = session_mem_pool_ g /\
      forall n, is_Some (sessions g !! n) -> is_Some (sessions g' !! n)) g).
  { induction ns as [|e ns IH]; intros g Hl; cbn [pop_each]; [by apply wp_ret|]. destruct (Hl e) as [s Hs]; [by left|].
    apply wp_bind. eapply wp_pop_all; [exact Hs|]. set (m := <[e.2 := _]> (sessions g)).
    assert (Hm : forall n, is_Some (sessions g !! n) -> is_Some (m !! n)) by (intros n Hn; unfold m; apply lookup_insert_is_Some'; by right).
    eapply wp_mono; [apply IH; intros e' He'; apply Hm, Hl; by right|]. cbn beta. intros _ g' (K1 & K2 & K3). split; [done|]. split; [done|].
    intros n Hn. apply K3. by apply Hm. }
  intros g Ht Hl. apply Hgen. intros e He. destruct (tb_live g Ht e.2 (Hl e He)) as (s & Hs & _). by exists s.
Qed.
(** What the destructor needs: the memory of the sessions, and nothing else, is in use. *)
Definition ending (g : G) : Prop :=
  ip_ok (session_mem_pool_ g) /\ NoDup (session_map_ g).*2 /\
  (forall n, ip_used (session_mem_pool_ g) n = bool_decide (n ∈ (session_map_ g).*2)) /\
  forall n, n ∈ (session_map_ g).*2 -> is_Some (sessions g !! n).
Lemma table_ending (g : G) : table_ok g -> ending g.
Proof. intros [H1 H2 H3 H4 H5]. split_and!; try done. intros n Hn. destruct (H4 n Hn) as (s & Hs & _). by exists s. Qed.
Lemma wp_dtor (g : G) : ending g ->
  wp GoodTp_dtor (fun _ g' => session_map_ g' = [] /\ ip_ok (session_mem_pool_ g') /\ forall n, ip_used (session_mem_pool_ g') n = false) g.
Proof.
  intros He. unfold GoodTp_dtor. apply wp_bind, wp_get. remember (session_map_ g) as l eqn:Hl. revert g Hl He.
  induction l as [|e l IH]; intros g Hl (H1 & H2 & H3 & H4); rewrite <- Hl in *; cbn [delete_each].
  - apply wp_ret. split_and!; [done|done|]. intros n. rewrite H3. by apply bool_decide_eq_false, not_elem_of_nil.
  - rewrite fmap_cons in *. destruct (H4 e.2) as [s Hs]; [by left|]. apply wp_bind. eapply wp_delete_session; [exact Hs|].
    apply wp_bind, wp_mod. apply NoDup_cons in H2 as [Hn H2]. apply IH; [done|].
    destruct (ip_free_law (session_mem_pool_ g) e.2 H1) as [Hok Hu]; [rewrite H3; apply bool_decide_eq_true; by left|]. split_and!; [done|done| |].
    + intros n. cbn. rewrite Hu, H3. rewrite <- bool_decide_and. apply bool_decide_ext. rewrite elem_of_cons. split; [by intros [[?|?] ?]|].
      intros Hin. split; [by right|]. by intros ->.
    + intros n Hin. cbn. rewrite lookup_delete_ne by (intros <-; done). apply H4. by right.
Qed.

(** ** The properties *)

(** C7: The wheel of an instance: every session whose time is over goes out
    with its last words, its memory goes back to the pool and its entry leaves
    the table; every other session stays where it is and its timer runs exactly
    once; the whole is one pass over the table in its order, and the table is
    well formed again. *)
Theorem CheckResourceActiveStatus_sweeps now (g : G) : table_ok g ->
  exists g', CheckResourceActiveStatus now g = Some (tt, g') /\ table_ok g' /\
    (session_map_ g', sessions g', world g') = sweep now (session_ttl_us_ g) (session_map_ g) (sessions g) (world g) /\
    session_map_ g' = filter (stays now (session_ttl_us_ g) (sessions g)) (session_map_ g) /\
    forall e, e ∈ session_map_ g' -> exists s w', sessions g !! e.2 = Some s /\ sessions g' !! e.2 = Some (se_timer now s w').1.
Proof.
  intros Ht. set (g0 := set_wheel now (set_now now g)). assert (Ht0 : table_ok g0) by (by destruct Ht).
  pose proof (wheel_sweeps (Datatypes.S (length (session_map_ g))) (session_map_ g) [] g0 Ht0 eq_refl ltac:(lia)) as Hw.
  destruct (wp_total _ _ _ Hw) as ([] & g' & Hrun & Ht' & _ & K1 & K2 & K3). exists g'. split; [exact Hrun|]. split; [done|].
  change (current_ts_us_ g0) with now in *. change (session_ttl_us_ g0) with (session_ttl_us_ g) in *. change (sessions g0) with (sessions g) in *.
  change (world g0) with (world g) in *. cbn [app] in K1.
  assert (Hlive : forall n, n ∈ (session_map_ g).*2 -> is_Some (sessions g !! n)) by (intros n Hn; destruct (tb_live g Ht n Hn) as (s & Hs & _); by exists s).
  destruct (sweep_keeps now (session_ttl_us_ g) (session_map_ g) (sessions g) (world g) (tb_nodup _ Ht) Hlive) as (R1 & _ & R3).
  rewrite K1, K2, K3. split; [by destruct (sweep _ _ _ _ _) as [[? ?] ?]|]. by split.
Qed.

(** C10: Whoever asks for the session of an address gets it: the one found under
    the key, or else a new one in front of the table, built in memory that was
    free; when the pool is exhausted or the session cannot be set up there is
    none, and neither table nor memory has changed.  The other sessions are not
    touched, and asking again gives the same session and changes nothing, as
    sender or receiver and whatever the numbers. *)
Theorem GetSession_serves junk a app mode pack_sn sort_sn (g : G) : table_ok g ->
  exists r g', GetSession junk a app mode pack_sn sort_sn g = Some (r, g') /\ table_ok g' /\ served (key_of_addr junk a) g r g' /\
    forall n junk' app' mode' pack_sn' sort_sn', r = Some n -> addr_ok a -> junk_pair junk -> junk_pair junk' ->
      GetSession junk' a app' mode' pack_sn' sort_sn' g' = Some (Some n, g').
Proof.
  intros Ht. destruct (wp_total _ _ _ (wp_GetSession junk a app mode pack_sn sort_sn g Ht)) as (r & g' & Hrun & Ht' & Hs).
  exists r, g'. split_and!; [done..|]. intros n junk' app' mode' pack_sn' sort_sn' -> Ha Hj Hj'.
  destruct (find_again junk junk' a g g' n Ha Hj Hj' Hs) as (i & e & Hf & <-). unfold GetSession, mbind, ST_bind, get_st. cbv zeta. by rewrite Hf.
Qed.

(** Deleting the session of an address takes exactly the session found under
    its key out of the table; the others stay as they are. *)
Theorem DelSpsSession_removes junk now now' a (g : G) : table_ok g ->
  let k := if GTP_NO =? enable_key_ a then flow_key junk a else key_of_number (stream_key_ a) in
  exists g', DelSpsSession junk now now' a g = Some (tt, g') /\ table_ok g' /\
    session_map_ g' = match find_key k (session_map_ g) with Some (i, _) => delete i (session_map_ g) | None => session_map_ g end /\
    forall n, n ∈ (session_map_ g').*2 -> sessions g' !! n = sessions g !! n.
Proof.
  intros Ht k. apply wp_runs.
  unfold DelSpsSession, k. apply wp_bind, wp_mod. destruct (GTP_NO =? enable_key_ a).
  - assert (Ht' : table_ok (set_now now g)) by (by destruct Ht). exact (wp_del_key now' _ (set_now now g) Ht').
  - apply wp_bind, wp_mod. set (g1 := set_deleted _ _). assert (Ht' : table_ok g1) by (by destruct Ht). exact (wp_del_key now' _ g1 Ht').
Qed.

End Table.

(** ** An instance: sessions that note what happens to them *)
Inductive Deed := Made | Ticked | Judged | Popped | FecPopped | Died.
Record DemoSess := mkDemo { ds_port : Z; ds_last : Z; ds_health : Z }.
Definition peer_port (a : SockAddr) : Z := match a with AF_INET _ p | AF_INET6 _ p => p end.
Definition demo_note (d : Deed) (ts : Z) (s : DemoSess) (w : list (Z * Deed)) : DemoSess * list (Z * Deed) := (s, w ++ [(ds_port s, d)]).
#[export] Instance demo_ops : SessionOps DemoSess (list (Z * Deed)) := {
  se_ctor x w := (mkDemo (peer_port (sock_addr_ (sa_addr x))) (sa_ts x) kHealthNoraml, w);
  se_init ts _ _ s w := (GTP_OK, s, w ++ [(ds_port s, Made)]);
  se_timer := demo_note Ticked;
  se_quality := demo_note Judged;
  se_arq_pop := demo_note Popped;
  se_fec_pop := demo_note FecPopped;
  se_dtor s w := w ++ [(ds_port s, Died)];
  se_last_active := ds_last;
  se_health := ds_health;
  se_set_health h s := mkDemo (ds_port s) (ds_last s) h
}.
#[export] Instance demo_laws : SessionLaws DemoSess (list (Z * Deed)).
Proof. by split. Qed.

Definition demo_peer (port : Z) : GtpAddr := mkAddr 0 GTP_NO 5 (AF_INET [10; 0; 0; 1] port) (Some (AF_INET [10; 0; 0; 2] 9)).
Definition demo_trash (n : Z) : list Z * list Z := (replicate 16 n, replicate 16 (n + 1)).
Abbreviation DemoGtp := (GoodTp GtpMemPool Z DemoSess (list (Z * Deed))).
Definition demo_gtp : DemoGtp := GoodTp_ctor 0 0 100000 1000 demo_items [].
Definition run_gtp {A} (m : ST (DemoGtp) A) (g : DemoGtp) :=
  match m g with Some (_, g') => g' | None => g end.
Lemma demo_gtp_ok : table_ok demo_gtp.
Proof.
  destruct demo_items_ok as [Hok Hz]. split; cbn.
  - split; [exact Hok|]. intros i _. by rewrite Hz.
  - constructor.
  - intros n. rewrite bool_decide_eq_false_2 by apply not_elem_of_nil. apply not_true_is_false. intros (i & Hi & -> & Hq)%item_used_inv.
    rewrite Hz in Hq. lia.
  - by intros n ?%elem_of_nil.
  - constructor.
Qed.
(** A session of the peer 7, then at 3 seconds one of the peer 8. *)
Definition demo_gtp1 : DemoGtp := run_gtp (GetSession (demo_trash 1) (demo_peer 7) 0 kSender 0 0) demo_gtp.
Definition demo_gtp2 : DemoGtp := run_gtp (GetSession (demo_trash 3) (demo_peer 8) 0 kReceiver 55 0) (set_now 3000000 demo_gtp1).
Lemma run_gtp_ok junk a app mode n k g : table_ok g -> table_ok (run_gtp (GetSession junk a app mode n k) g).
Proof.
  intros Hg. destruct (wp_total _ _ _ (wp_GetSession junk a app mode n k g Hg)) as (r & g' & Hrun & Hg' & _). unfold run_gtp. by rewrite Hrun.
Qed.
Lemma demo_gtp1_ok : table_ok demo_gtp1.
Proof. apply run_gtp_ok, demo_gtp_ok. Qed.
Lemma demo_gtp2_ok : table_ok demo_gtp2.
Proof. apply run_gtp_ok. destruct demo_gtp1_ok. by split. Qed.

(** At 4.5 seconds the first one has been silent for too long. *)
Example demo_wheel :
  (fun x => ((fun e => peer_bin_port_ e.1) <$> session_map_ x.2, world x.2)) <$> CheckResourceActiveStatus 4500000 demo_gtp2 =
  Some ([8], [(7, Made); (8, Made); (8, Ticked); (7, Judged); (7, Popped); (7, FecPopped); (7, Died)]).
Proof. vm_compute. reflexivity. Qed.
Example CheckResourceActiveStatus_sweeps_witness :
  exists g' : DemoGtp, CheckResourceActiveStatus 4500000 demo_gtp2 = Some (tt, g') /\ table_ok g' /\
    (session_map_ g', sessions g', world g') = sweep 4500000 (session_ttl_us_ demo_gtp2) (session_map_ demo_gtp2) (sessions demo_gtp2) (world demo_gtp2) /\
    session_map_ g' = filter (stays 4500000 (session_ttl_us_ demo_gtp2) (sessions demo_gtp2)) (session_map_ demo_gtp2) /\
    forall e, e ∈ session_map_ g' -> exists s w', sessions demo_gtp2 !! e.2 = Some s /\ sessions g' !! e.2 = Some (demo_note Ticked 4500000 s w').1.
Proof. apply (CheckResourceActiveStatus_sweeps 4500000 demo_gtp2 demo_gtp2_ok). Defined.
Example GetSession_serves_witness :
  exists r (g' : DemoGtp), GetSession (demo_trash 3) (demo_peer 8) 0 kReceiver 55 0 demo_gtp1 = Some (r, g') /\ table_ok g' /\
    served (key_of_addr (demo_trash 3) (demo_peer 8)) demo_gtp1 r g' /\
    forall n junk' app' mode' pack_sn' sort_sn', r = Some n -> addr_ok (demo_peer 8) -> junk_pair (demo_trash 3) -> junk_pair junk' ->
      GetSession junk' (demo_peer 8) app' mode' pack_sn' sort_sn' g' = Some (Some n, g').
Proof. apply (GetSession_serves (demo_trash 3) (demo_peer 8) 0 kReceiver 55 0 demo_gtp1 demo_gtp1_ok). Defined.
Example DelSpsSession_removes_witness :
  exists g' : DemoGtp, DelSpsSession (demo_trash 5) 3500000 3500000 (demo_peer 7) demo_gtp2 = Some (tt, g') /\ table_ok g' /\
    session_map_ g' = match find_key (flow_key (demo_trash 5) (demo_peer 7)) (session_map_ demo_gtp2) with
      | Some (i, _) => delete i (session_map_ demo_gtp2) | None => session_map_ demo_gtp2 end /\
    forall n, n ∈ (session_map_ g').*2 -> sessions g' !! n = sessions demo_gtp2 !! n.
Proof. apply (DelSpsSession_removes (demo_trash 5) 3500000 3500000 (demo_peer 7) demo_gtp2 demo_gtp2_ok). Defined.
End GoodTpSpec.
