(* ===== verification/Mgr.v ===== *)
(** * The instances of the library

    The global manager of src/src/mgr/goodtp_mgr.cpp: instances are created and
    deleted under a lock, applications name them by handles, and what went
    wrong is kept for each thread.  The entry points of
    src/src/interface/goodtp_interface.cpp that go from a handle to the
    sessions of an instance are here too. *)
From S2P Require Import Prelude ItemPool SessKey GoodTp.
Export GoodTp SessKey.

Module Mgr.

Definition MAX_GTP_INST_NUM : Z := 64.
Definition GTP_HANDLER_BASE : Z := 100000.
Definition GTP_ERR : Z := -1.
Definition GTP_INVALID : Z := -1.
Definition kDistributeMemFail : Z := 0x6001.
Definition kInvalidGtpHandler : Z := 0x6003.
Definition kInvalidInPutParam : Z := 0x6004.
Definition kLinkerNoExistErr : Z := 0x6017.
(** What an instance needs for fec, on Linux. *)
Definition FEC_PACKETS : Z := 0x10000.

(** What is printed into the memory for errors. *)
Inductive ErrorText :=
| TextNoCallbacks
| TextNullCallback (send receive : Z)
| TextUpperLimit
| TextNoCache (find_pos inst_num : Z)
| TextNewFailed
| TextInitFailed (nret : Z)
| TextNoHandler (hdl : Z)
| TextOld (junk : Z).
Record ErrorInfoMgr := mkErr { tid_ : Z; error_info_ : ErrorText }.

(** ** Searching *)

(** The three searches look at both ends and one more place, then at what is
    left; [None] for an access out of bounds, or if the fuel is used up. *)
Fixpoint FindGtpMemIdlePos {A} (fuel : nat) (mem : list (option A)) (first last : Z) : option Z :=
  match fuel with
  | O => None
  | S fuel' =>
      if first >? last then Some (-1)
      else
        a ← mem !! Z.to_nat first;
        if negb (some_b a) then Some first
        else
          b ← mem !! Z.to_nat last;
          if negb (some_b b) then Some last
          else
            let pos := first + Z.shiftr (last - first) 1 in
            c ← mem !! Z.to_nat pos;
            if negb (some_b c) then Some pos
            else
              p ← FindGtpMemIdlePos fuel' mem (first + 1) (pos - 1);
              if -1 <? p then Some p else FindGtpMemIdlePos fuel' mem (pos + 1) (last - 1)
  end.
(** The place of the entry of thread [who]; the middle is at most one further on. *)
Fixpoint find_tid (fuel : nat) (cache : list ErrorInfoMgr) (first last who : Z) : option (option nat) :=
  match fuel with
  | O => None
  | S fuel' =>
      if first >? last then Some None
      else
        a ← cache !! Z.to_nat first;
        if who =? tid_ a then Some (Some (Z.to_nat first))
        else
          b ← cache !! Z.to_nat last;
          if who =? tid_ b then Some (Some (Z.to_nat last))
          else
            let middle := first + ind (u32 (u32 last - u32 first) >? 1) in
            c ← cache !! Z.to_nat middle;
            if who =? tid_ c then Some (Some (Z.to_nat middle))
            else
              r ← find_tid fuel' cache (middle + 1) (last - 1) who;
              match r with Some i => Some (Some i) | None => find_tid fuel' cache (first + 1) (middle - 1) who end
  end.
Definition GtpGetSelfErrorCache (cache : list ErrorInfoMgr) (tid : Z) : option (option nat) :=
  find_tid 65 cache 0 (MAX_GTP_INST_NUM - 1) tid.
(** An idle entry is taken over by the thread. *)
Definition GtpGetIdleErrorCache (cache : list ErrorInfoMgr) (tid : Z) : option (option nat * list ErrorInfoMgr) :=
  r ← find_tid 65 cache 0 (MAX_GTP_INST_NUM - 1) GTP_INVALID;
  match r with
  | Some i => Some (Some i, alter (fun e => mkErr tid (error_info_ e)) i cache)
  | None => Some (None, cache)
  end.
(** An error of the thread is noted. *)
Definition note_error (tid : Z) (text : ErrorText) (cache : list ErrorInfoMgr) : option (list ErrorInfoMgr) :=
  own ← GtpGetSelfErrorCache cache tid;
  r ← match own with Some i => Some (Some i, cache) | None => GtpGetIdleErrorCache cache tid end;
  Some (match r.1 with Some i => alter (fun e => mkErr (tid_ e) text) i r.2 | None => r.2 end).

Section Manager.
Context {Q N S W : Type} `{Countable N} `{!ItemPool Q N} `{!SessionOps S W}.
Local Abbreviation G := (GoodTp Q N S W).

(** The callbacks of the application, zero for none. *)
Record GtpCallBackParam := mkCb { send_pack_cb_ : Z; receive_frame_cb_ : Z; cb_log_level_ : Z }.
Record MemPoolConfig := mkCfg {
  m_256bytes_num_ : Z; m_512bytes_num_ : Z; m_1k_num_ : Z; m_1_5k_num_ : Z; m_4k_num_ : Z; m_8k_num_ : Z; m_64k_num_ : Z
}.
Definition set_1_5k n c := mkCfg (m_256bytes_num_ c) (m_512bytes_num_ c) (m_1k_num_ c) n (m_4k_num_ c) (m_8k_num_ c) (m_64k_num_ c).

(** [g_goodtp_inst_mgr] and [g_goodtp_handler_base]; [spin_] says the lock is there. *)
Record GtpInstMgr := mkMgr {
  spin_ : bool;
  error_cache_ : option (list ErrorInfoMgr);
  inst_num_ : Z;
  sys_id_ : Z;
  runing_flag_ : Z;
  cur_log_level_cb_ : Z;
  goodtp_inst_ : list (option G);
  g_goodtp_handler_base : Z
}.
Local Abbreviation M := (ST GtpInstMgr).
Definition set_cache e m := mkMgr (spin_ m) e (inst_num_ m) (sys_id_ m) (runing_flag_ m) (cur_log_level_cb_ m) (goodtp_inst_ m) (g_goodtp_handler_base m).
Definition set_count n s m := mkMgr (spin_ m) (error_cache_ m) n s (runing_flag_ m) (cur_log_level_cb_ m) (goodtp_inst_ m) (g_goodtp_handler_base m).
Definition set_flag f m := mkMgr (spin_ m) (error_cache_ m) (inst_num_ m) (sys_id_ m) f (cur_log_level_cb_ m) (goodtp_inst_ m) (g_goodtp_handler_base m).
Definition set_level l m := mkMgr (spin_ m) (error_cache_ m) (inst_num_ m) (sys_id_ m) (runing_flag_ m) l (goodtp_inst_ m) (g_goodtp_handler_base m).
Definition set_inst l m := mkMgr (spin_ m) (error_cache_ m) (inst_num_ m) (sys_id_ m) (runing_flag_ m) (cur_log_level_cb_ m) l (g_goodtp_handler_base m).

(** ** Handles *)
Definition out_of_range (hdl : Z) (m : GtpInstMgr) : bool :=
  (g_goodtp_handler_base m >? hdl) || (g_goodtp_handler_base m + MAX_GTP_INST_NUM <=? hdl).
(** The place and the instance behind a handle. *)
Definition GtpHandlerToObj (hdl : Z) : M (option (nat * G)) :=
  m ← get_st;
  if out_of_range hdl m then mret None
  else
    let pos := Z.to_nat (hdl - g_goodtp_handler_base m) in
    o ← deref (goodtp_inst_ m !! pos);
    if match o with Some g => negb (g_goodtp_handler_base m =? handler_base_ g) | None => false end then mret None
    else
      _ ← mod_st (set_flag (Z.lor (runing_flag_ m) (Z.shiftl 1 (Z.of_nat pos))));
      mret ((fun g => (pos, g)) <$> o).
(** [GtpObjToHandler], for the instance kept at [at_] of the table. *)
Definition GtpObjToHandler (at_ : nat) (g : G) (m : GtpInstMgr) : Z :=
  let hdl := handler_ g in
  if out_of_range hdl m then GTP_ERR
  else if negb (Nat.eqb at_ (Z.to_nat (hdl - g_goodtp_handler_base m))) || negb (g_goodtp_handler_base m =? handler_base_ g) then GTP_ERR
  else hdl.

(** The instance at [pos] makes a step. *)
Definition on_inst {T} (pos : nat) (f : ST G T) : M T :=
  m ← get_st;
  o ← deref (goodtp_inst_ m !! pos);
  g ← deref o;
  r ← deref (f g);
  _ ← mod_st (set_inst (<[pos := Some r.2]> (goodtp_inst_ m)));
  mret r.1.

(** ** Errors *)
Definition report_error (tid : Z) (text : ErrorText) : M unit :=
  m ← get_st;
  c ← deref (error_cache_ m);
  c' ← deref (note_error tid text c);
  mod_st (set_cache (Some c')).
(** [LastGtpErrorInfo]: [None] for "not find any error info". *)
Definition LastGtpErrorInfo (tid : Z) : M (option ErrorText) :=
  m ← get_st;
  c ← deref (error_cache_ m);
  own ← deref (GtpGetSelfErrorCache c tid);
  match own with
  | Some i =>
      e ← deref (c !! i);
      _ ← mod_st (set_cache (Some (alter (fun e => mkErr GTP_INVALID (error_info_ e)) i c)));
      mret (Some (error_info_ e))
  | None => mret None
  end.

(** ** Instances *)

(** How the pools of a new instance are made, and what they answer when they are
    set up, with the clock. *)
Record Birth := mkBirth {
  bi_new : MemPoolConfig -> Q * W;
  bi_now : Z;
  bi_arq : Z;
  bi_sess : Z * Q;
  bi_tran : Z;
  bi_init_now : Z
}.
(** Between the first line and the label [create_gtp_instance_exit_pos_]; the
    last component is the configuration as it stands there. *)
Definition create_body (tid system_id ttl : Z) (reg_cb : option GtpCallBackParam) (cfg : MemPoolConfig) (b : Birth) : M (Z * MemPoolConfig) :=
  match reg_cb with
  | None => _ ← report_error tid TextNoCallbacks; mret (GTP_ERR, cfg)
  | Some cb =>
      if (send_pack_cb_ cb =? 0) || (receive_frame_cb_ cb =? 0) then
        _ ← report_error tid (TextNullCallback (send_pack_cb_ cb) (receive_frame_cb_ cb)); mret (GTP_ERR, cfg)
      else
        _ ← mod_st (fun m => if cur_log_level_cb_ m =? 0 then set_level (cb_log_level_ cb) m else m);
        m ← get_st;
        if MAX_GTP_INST_NUM <=? inst_num_ m then _ ← report_error tid TextUpperLimit; mret (GTP_ERR, cfg)
        else
          pos ← deref (FindGtpMemIdlePos 65 (goodtp_inst_ m) 0 (MAX_GTP_INST_NUM - 1));
          if -1 =? pos then _ ← report_error tid (TextNoCache pos (inst_num_ m)); mret (GTP_ERR, cfg)
          else
            let cfg := set_1_5k (u32 (m_1_5k_num_ cfg + FEC_PACKETS)) cfg in
            let qw := bi_new b cfg in
            let r := Init (sys_id_ m) (bi_arq b) (bi_sess b) (bi_tran b) (bi_init_now b) tid
                       (GoodTp_ctor pos ttl (g_goodtp_handler_base m) (bi_now b) qw.1 qw.2) in
            if negb (r.1 =? GTP_OK) then _ ← report_error tid (TextInitFailed r.1); mret (GTP_ERR, cfg)
            else
              _ ← mod_st (set_inst (<[Z.to_nat pos := Some r.2]> (goodtp_inst_ m)));
              _ ← mod_st (fun m => set_count (u32 (inst_num_ m + 1)) system_id m);
              mret (i32 (pos + g_goodtp_handler_base m), cfg)
  end.
(** The handle and the configuration of the caller afterwards. *)
Definition CreateGtpInstance (tid system_id ttl : Z) (reg_cb : option GtpCallBackParam) (cfg : MemPoolConfig) (b : Birth) : M (Z * MemPoolConfig) :=
  r ← create_body tid system_id ttl reg_cb cfg b;
  mret (r.1, set_1_5k (u32 (m_1_5k_num_ r.2 - FEC_PACKETS)) r.2).

(** [DeleteGtpInstance], with what its destructor leaves of the instance, a
    history value, and what the caller gets of it. *)
Definition delete_body (tid now_us hdl : Z) : M (Z * option G) :=
  r ← GtpHandlerToObj hdl;
  match r with
  | None => _ ← report_error tid (TextNoHandler hdl); m ← get_st; mret (GEN_ERR (sys_id_ m) kGtpMgrMd kInvalidGtpHandler, None)
  | Some (pos, _) =>
      _ ← on_inst pos (SendArqCachedPackWhenDead now_us);
      _ ← mod_st (fun m => set_flag (Z.ldiff (runing_flag_ m) (Z.shiftl 1 (Z.of_nat pos))) m);
      _ ← mod_st (fun m => if 0 <? inst_num_ m then set_count (inst_num_ m - 1) (sys_id_ m) m else m);
      _ ← mod_st (fun m => if 0 =? inst_num_ m then set_level 0 m else m);
      _ ← on_inst pos GoodTp_dtor;
      m ← get_st;
      _ ← mod_st (fun m => set_inst (<[pos := None]> (goodtp_inst_ m)) m);
      mret (GTP_OK, mjoin (goodtp_inst_ m !! pos))
  end.
Definition DeleteGtpInstance (tid now_us hdl : Z) : M Z := r ← delete_body tid now_us hdl; mret r.1.

(** [InsLoadGtpModule]: whether there is memory for the errors, with what it
    holds, and for the lock; the clock gives the first handle. *)
Definition InsLoadGtpModule (errors : option (list ErrorInfoMgr)) (lock : bool) (now_us : Z) : M Z :=
  _ ← mod_st (fun m => mkMgr (spin_ m) errors 0 0 0 (cur_log_level_cb_ m) (goodtp_inst_ m) (g_goodtp_handler_base m));
  match errors with
  | None => mret (GEN_ERR 0 kGtpMgrMd kDistributeMemFail)
  | Some c =>
      _ ← mod_st (fun m => mkMgr lock (error_cache_ m) (inst_num_ m) (sys_id_ m) (runing_flag_ m) (cur_log_level_cb_ m) (goodtp_inst_ m) (g_goodtp_handler_base m));
      if negb lock then mret (GEN_ERR 0 kGtpMgrMd kDistributeMemFail)
      else
        _ ← mod_st (fun m => mkMgr (spin_ m) (Some ((fun e => mkErr GTP_INVALID (error_info_ e)) <$> c)) (inst_num_ m) (sys_id_ m) (runing_flag_ m)
          (cur_log_level_cb_ m) (replicate 64 None) (i32 (Z.land now_us 0xFFFFFFFF mod GTP_HANDLER_BASE + GTP_HANDLER_BASE)));
        mret GTP_OK
  end.
(** [RmLoadGtpModule], after it has waited for the instances at most a tenth of
    a second: every instance left is deleted. *)
Fixpoint delete_left (n : nat) : M unit :=
  match n with
  | O => mret tt
  | Datatypes.S n' =>
      _ ← delete_left n';
      m ← get_st;
      o ← deref (goodtp_inst_ m !! n');
      match o with
      | None => mret tt
      | Some _ => _ ← on_inst n' GoodTp_dtor; mod_st (fun m => set_inst (<[n' := None]> (goodtp_inst_ m)) m)
      end
  end.
Definition RmLoadGtpModule : M Z :=
  _ ← mod_st (fun m => set_count 0 (sys_id_ m) m);
  _ ← delete_left 64;
  _ ← mod_st (fun m => mkMgr false None 0 0 0 (cur_log_level_cb_ m) (goodtp_inst_ m) (g_goodtp_handler_base m));
  mret GTP_OK.

(** ** Entry points *)
Definition PeriodGtpTimer (now_us hdl : Z) : M Z :=
  r ← GtpHandlerToObj hdl;
  match r with
  | None => m ← get_st; mret (GEN_ERR (sys_id_ m) kGtpMgrMd kInvalidGtpHandler)
  | Some (pos, _) => _ ← on_inst pos (CheckResourceActiveStatus now_us); mret GTP_OK
  end.
Definition DelGtpLinker (junk : list Z * list Z) (now_us now_us' hdl : Z) (tran_addr : option GtpAddr) : M unit :=
  match tran_addr with
  | None => mret tt
  | Some a =>
      r ← GtpHandlerToObj hdl;
      match r with
      | None => mret tt
      | Some (pos, _) => on_inst pos (DelSpsSession junk now_us now_us' a)
      end
  end.
Definition GetSessionNumber (hdl : Z) : M Z :=
  r ← GtpHandlerToObj hdl;
  match r with None => mret 0 | Some (_, g) => mret (SessionNumber g) end.

(** A flow whose quality is asked for. *)
Record GtpLinkerKey := mkLinker { direction_ : Z; link_sfd_ : Z; peer_socket_addr_ : SockAddr; self_socket_addr_ : option SockAddr }.
Definition linker_key (junk : list Z * list Z) (k : GtpLinkerKey) : GtpSessionKey :=
  let peer := GtpSockAddrToBinAddr (peer_socket_addr_ k) in
  key_of_flow junk (link_sfd_ k) peer ((self_bin (self_socket_addr_ k)).1, peer.2).
(** [GetQuality(side, out)] of a session: the code, and what was written. *)
Definition kSenderQuality : Z := 0.
Definition kReceiverQuality : Z := 1.
Definition GetLinkerQuality {T} (quality : Z -> S -> Z * T) (junk : list Z * list Z) (hdl : Z) (key : option GtpLinkerKey) : M (Z * option T) :=
  m ← get_st;
  match key with
  | None => mret (GEN_ERR (sys_id_ m) kGtpMgrMd kInvalidInPutParam, None)
  | Some k =>
      r ← GtpHandlerToObj hdl;
      match r with
      | None => mret (GEN_ERR (sys_id_ m) kGtpMgrMd kInvalidGtpHandler, None)
      | Some (_, g) =>
          match GetSessionByKey (linker_key junk k) g with
          | None => mret (GEN_ERR (sys_id_ m) kGtpMgrMd kLinkerNoExistErr, None)
          | Some n =>
              s ← deref (sessions g !! n);
              let q := quality (if 1 =? direction_ k then kSenderQuality else kReceiverQuality) s in
              mret (q.1, Some q.2)
          end
      end
  end.
End Manager.
#[global] Arguments GtpInstMgr Q N S W {_ _} : assert.
#[global] Arguments Birth Q W : clear implicits.
End Mgr.
