(* ===== verification/MgrSpec.v ===== *)
(** * Correctness of the manager

    Free places and error entries are found when there are any; an instance
    lives from its creation to its deletion under one handle; a note for a
    thread is read once.  And two faults: the configuration of a caller whose
    instance could not be created, and the quality of a flow whose ends have
    different ports. *)
From S2P Require Import Prelude Bitmap MemPoolSpec SessKey GoodTp GoodTpSpec Mgr.
Import Bitmap.
Export GoodTpSpec Mgr.

Module MgrSpec.

(** ** The searches *)
Lemma slot_at {A} (l : list A) (i : Z) : 0 <= i < Z.of_nat (length l) -> exists x, l !! Z.to_nat i = Some x.
Proof. intros Hi. apply lookup_lt_is_Some_2. lia. Qed.

Definition free_slot {A} (mem : list (option A)) (i : Z) : Prop := mem !! Z.to_nat i = Some None.
Lemma idle_pos {A} (mem : list (option A)) fuel : forall first last,
  0 <= first -> last < Z.of_nat (length mem) -> 0 < Z.of_nat fuel -> last - first + 1 < Z.of_nat fuel ->
  exists p, FindGtpMemIdlePos fuel mem first last = Some p /\
    ((p = -1 /\ forall i, first <= i <= last -> ~ free_slot mem i) \/ (first <= p <= last /\ free_slot mem p)).
Proof.
  induction fuel as [|fuel IH]; intros first last Hf Hl Hpos Hfuel; [lia|]. cbn [FindGtpMemIdlePos].
  destruct (Z.gtb_spec first last); [exists (-1); split; [done|]; left; split; [done|lia]|].
  destruct (slot_at mem first ltac:(lia)) as [a Ha]. rewrite Ha. cbn [mbind option_bind]. destruct a as [a|]; cbn [some_b negb];
    [|exists first; split; [done|]; right; split; [lia|done]].
  destruct (slot_at mem last ltac:(lia)) as [b Hb]. rewrite Hb. destruct b as [b|]; cbn [some_b negb];
    [|exists last; split; [done|]; right; split; [lia|done]].
  rewrite Z.shiftr_div_pow2 by lia. change (2 ^ 1) with 2. set (pos := first + (last - first) / 2). pose proof (Z.div_mod (last - first) 2 ltac:(lia)). pose proof (Z.mod_pos_bound (last - first) 2 ltac:(lia)).
  assert (first <= pos <= last) by (unfold pos; lia).
  destruct (slot_at mem pos ltac:(lia)) as [c Hc]. rewrite Hc. destruct c as [c|]; cbn [some_b negb];
    [|exists pos; split; [done|]; right; split; [lia|done]].
  destruct (IH (first + 1) (pos - 1)) as (p & Hp & Hcase); [lia..|]. rewrite Hp. cbn [mbind option_bind].
  destruct Hcase as [[-> Hnone]|[Hin Hfree]].
  - change (-1 <? -1) with false. cbn iota. destruct (IH (pos + 1) (last - 1)) as (q & Hq & Hcase); [lia..|]. exists q. split; [exact Hq|].
    destruct Hcase as [[-> Hnone']|[Hin Hfree]]; [left|right; split; [lia|done]]. split; [done|]. intros i Hi Hfr.
    destruct (decide (i = first)) as [->|]; [unfold free_slot in Hfr; congruence|].
    destruct (decide (i = last)) as [->|]; [unfold free_slot in Hfr; congruence|].
    destruct (decide (i = pos)) as [->|]; [unfold free_slot in Hfr; congruence|].
    destruct (Z.ltb_spec i pos); [exact (Hnone i ltac:(lia) Hfr)|exact (Hnone' i ltac:(lia) Hfr)].
  - destruct (Z.ltb_spec (-1) p); [|lia]. exists p. split; [done|]. right. split; [lia|done].
Qed.

Lemma find_tid_ok (cache : list ErrorInfoMgr) who fuel : forall first last,
  0 <= first -> last < Z.of_nat (length cache) -> last < 2 ^ 32 -> 0 < Z.of_nat fuel -> last - first + 1 < Z.of_nat fuel ->
  exists r, find_tid fuel cache first last who = Some r /\
    match r with
    | Some i => exists e, cache !! i = Some e /\ tid_ e = who
    | None => forall i e, first <= Z.of_nat i <= last -> cache !! i = Some e -> tid_ e <> who
    end.
Proof.
  induction fuel as [|fuel IH]; intros first last Hf Hl H32 Hpos Hfuel; [lia|]. cbn [find_tid].
  destruct (Z.gtb_spec first last); [exists None; split; [done|lia]|].
  destruct (slot_at cache first ltac:(lia)) as [a Ha]. rewrite Ha. cbn [mbind option_bind].
  destruct (Z.eqb_spec who (tid_ a)); [exists (Some (Z.to_nat first)); split; [done|by exists a]|].
  destruct (slot_at cache last ltac:(lia)) as [b Hb]. rewrite Hb. cbn [mbind option_bind].
  destruct (Z.eqb_spec who (tid_ b)); [exists (Some (Z.to_nat last)); split; [done|by exists b]|].
  rewrite !u32_small by (rewrite ?u32_small; lia). set (middle := first + ind (last - first >? 1)).
  assert (first <= middle <= last /\ (1 < last - first -> middle = first + 1) /\ (last - first <= 1 -> middle = first)) as (Hm & Hm1 & Hm2)
    by (unfold middle; destruct (Z.gtb_spec (last - first) 1); cbn [ind]; lia).
  destruct (slot_at cache middle ltac:(lia)) as [c Hc]. rewrite Hc. cbn [mbind option_bind].
  destruct (Z.eqb_spec who (tid_ c)); [exists (Some (Z.to_nat middle)); split; [done|by exists c]|].
  destruct (IH (middle + 1) (last - 1)) as (r & Hr & Hcase); [lia..|]. rewrite Hr. cbn [mbind option_bind]. destruct r as [i|]; [by exists (Some i)|].
  destruct (IH (first + 1) (middle - 1)) as (r' & Hr' & Hcase'); [lia..|]. exists r'. split; [exact Hr'|].
  destruct r' as [i|]; [done|]. intros i e Hi He.
  destruct (decide (Z.of_nat i = first)) as [Ei|]; [rewrite <- Ei, Nat2Z.id in Ha; congruence|].
  destruct (decide (Z.of_nat i = last)) as [Ei|]; [rewrite <- Ei, Nat2Z.id in Hb; congruence|].
  destruct (decide (Z.of_nat i = middle)) as [Ei|]; [rewrite <- Ei, Nat2Z.id in Hc; congruence|].
  destruct (Z.ltb_spec (Z.of_nat i) middle); [by apply (Hcase' i); [lia|]|by apply (Hcase i); [lia|]].
Qed.

(** ** Notes of errors *)
Definition cache_ok (c : list ErrorInfoMgr) : Prop :=
  length c = 64%nat /\ forall i j e e', c !! i = Some e -> c !! j = Some e' -> tid_ e = tid_ e' -> tid_ e <> GTP_INVALID -> i = j.
(** There is an entry for the thread, or an idle one. *)
Definition has_room (tid : Z) (c : list ErrorInfoMgr) : Prop := exists i e, c !! i = Some e /\ (tid_ e = tid \/ tid_ e = GTP_INVALID).

Lemma find_tid_all (c : list ErrorInfoMgr) who : length c = 64%nat ->
  exists r, find_tid 65 c 0 (MAX_GTP_INST_NUM - 1) who = Some r /\
    match r with
    | Some i => exists e, c !! i = Some e /\ tid_ e = who
    | None => forall i e, c !! i = Some e -> tid_ e <> who
    end.
Proof.
  intros Hl. unfold MAX_GTP_INST_NUM. destruct (find_tid_ok c who 65 0 63) as (r & Hr & Hcase); [lia..|]. exists r. split; [exact Hr|].
  destruct r as [i|]; [done|]. intros i e He. apply (Hcase i e); [|done]. apply lookup_lt_Some in He. lia.
Qed.
Lemma alter_here {A} (f : A -> A) (l : list A) i x : l !! i = Some x -> alter f i l = <[i := f x]> l.
Proof.
  intros Hx. apply list_eq. intros j. rewrite list_lookup_alter. destruct (decide (i = j)) as [<-|Hne].
  - rewrite list_lookup_insert_eq by (by eapply lookup_lt_Some). by rewrite Hx.
  - by rewrite list_lookup_insert_ne.
Qed.
Lemma cache_write c i e t x : cache_ok c -> c !! i = Some e ->
  (t = GTP_INVALID \/ forall j e', c !! j = Some e' -> tid_ e' = t -> j = i) -> cache_ok (<[i := mkErr t x]> c).
Proof.
  intros [Hl Hu] He Ht. split; [by rewrite length_insert|]. intros k j y z Hk Hj Heq Hne.
  destruct (decide (k = i)) as [->|Hki], (decide (j = i)) as [->|Hji]; [done|..];
    rewrite ?list_lookup_insert_eq in Hk by (by eapply lookup_lt_Some); rewrite ?list_lookup_insert_eq in Hj by (by eapply lookup_lt_Some);
    rewrite ?list_lookup_insert_ne in Hk by done; rewrite ?list_lookup_insert_ne in Hj by done.
  - injection Hk as <-. cbn [tid_] in *. destruct Ht as [->|Ht]; [done|]. symmetry. by apply (Ht j z).
  - injection Hj as <-. cbn [tid_] in *. destruct Ht as [->|Ht]; [congruence|]. by apply (Ht k y).
  - by eapply Hu.
Qed.
(** Where a note goes. *)
Definition room_at (tid : Z) (c : list ErrorInfoMgr) (i : nat) : Prop := exists e, c !! i = Some e /\
  (tid_ e = tid \/ (tid_ e = GTP_INVALID /\ forall j e', c !! j = Some e' -> tid_ e' <> tid)).
Lemma note_error_cases tid text c : length c = 64%nat ->
  (exists i, room_at tid c i /\ note_error tid text c = Some (<[i := mkErr tid text]> c)) \/ (~ has_room tid c /\ note_error tid text c = Some c).
Proof.
  intros Hl. unfold note_error, GtpGetSelfErrorCache, GtpGetIdleErrorCache.
  destruct (find_tid_all c tid Hl) as (own & Hown & Hin). rewrite Hown. cbn [mbind option_bind]. destruct own as [i|].
  - destruct Hin as (e & He & Etid). left. exists i. split; [exists e; by split; [|left]|]. cbn [mbind option_bind fst snd]. by rewrite (alter_here _ c i e He), Etid.
  - destruct (find_tid_all c GTP_INVALID Hl) as (idle & Hidle & Hin'). rewrite Hidle. destruct idle as [i|].
    + destruct Hin' as (e & He & Etid). left. exists i. split; [exists e; by split; [|right]|]. cbn [mbind option_bind fst snd]. rewrite (alter_here _ c i e He).
      assert (Hi : <[i:=mkErr tid (error_info_ e)]> c !! i = Some (mkErr tid (error_info_ e))) by (apply list_lookup_insert_eq; by eapply lookup_lt_Some).
      by rewrite (alter_here _ _ i _ Hi), list_insert_insert_eq.
    + right. split; [|done]. intros (i & e & He & [Hte|Hte]); [by destruct (Hin i e He)|by destruct (Hin' i e He)].
Qed.
Lemma self_entry (c : list ErrorInfoMgr) tid : length c = 64%nat ->
  exists r, GtpGetSelfErrorCache c tid = Some r /\
    match r with Some i => exists e, c !! i = Some e /\ tid_ e = tid | None => forall i e, c !! i = Some e -> tid_ e <> tid end.
Proof. exact (find_tid_all c tid). Qed.
Opaque note_error GtpGetSelfErrorCache.
Lemma note_error_ok tid text c : cache_ok c -> tid <> GTP_INVALID -> exists c', note_error tid text c = Some c' /\ cache_ok c' /\
  (has_room tid c -> exists i, c' !! i = Some (mkErr tid text)).
Proof.
  intros Hc Ht. pose proof Hc as [Hl Hu]. destruct (note_error_cases tid text c Hl) as [(i & (e & He & Hroom) & ->)|[Hno ->]].
  - eexists. split; [reflexivity|]. split; [|intros _; exists i; apply list_lookup_insert_eq; by eapply lookup_lt_Some].
    eapply cache_write; [done|exact He|]. right. intros j e' Hj Hte. destruct Hroom as [Hown|[_ Hnone]]; [|by destruct (Hnone j e' Hj)].
    eapply Hu; [exact Hj|exact He|congruence|congruence].
  - exists c. by split_and!.
Qed.
(** The notes of the other threads stay. *)
Lemma note_error_others tid text c c' i j e : cache_ok c -> note_error tid text c = Some c' -> c' !! i = Some (mkErr tid text) ->
  c !! j = Some e -> tid_ e <> tid -> tid_ e <> GTP_INVALID -> c' !! j = Some e /\ j <> i.
Proof.
  intros [Hl Hu] Hn Hi Hj Hne Hni.
  assert (Hkeep : c' !! j = Some e); [|split; [done|]; intros ->; rewrite Hkeep in Hi; injection Hi as ->; by destruct Hne].
  destruct (note_error_cases tid text c Hl) as [(k & (x & Hx & Hroom) & Hk)|[_ Hk]]; rewrite Hk in Hn; injection Hn as <-; [|done].
  rewrite list_lookup_insert_ne; [done|]. intros ->. assert (x = e) as -> by congruence. destruct Hroom as [|[? _]]; done.
Qed.

(** ** The manager *)
Section Spec.
Context {Q N S W : Type} `{Countable N} `{!ItemPool Q N} `{!ItemPoolLaws Q N} `{!SessionOps S W} `{!SessionLaws S W}.
Local Abbreviation G := (GoodTp Q N S W).
Local Abbreviation Mg := (GtpInstMgr Q N S W).

(** The module is loaded; the instances are counted, and each knows its place. *)
Record mgr_ok (m : Mg) : Prop := {
  mg_len : length (goodtp_inst_ m) = 64%nat;
  mg_cache : exists c, error_cache_ m = Some c /\ cache_ok c;
  mg_base : GTP_HANDLER_BASE <= g_goodtp_handler_base m < 2 * GTP_HANDLER_BASE;
  mg_count : inst_num_ m = countb some_b (goodtp_inst_ m);
  mg_inst : forall pos g, goodtp_inst_ m !! pos = Some (Some g) ->
    handler_base_ g = g_goodtp_handler_base m /\ handler_ g = Z.of_nat pos + g_goodtp_handler_base m /\ table_ok g
}.

Lemma report_ok tid text (m : Mg) c : error_cache_ m = Some c -> cache_ok c -> tid <> GTP_INVALID ->
  exists c', report_error tid text m = Some (tt, set_cache (Some c') m) /\ note_error tid text c = Some c' /\ cache_ok c' /\
    (has_room tid c -> exists i, c' !! i = Some (mkErr tid text)).
Proof.
  intros Hm Hc Ht. destruct (note_error_ok tid text c Hc Ht) as (c' & Hn & Hok & Hroom). exists c'. split; [|done].
  unfold report_error, mbind, ST_bind, get_st, deref. by rewrite Hm, Hn.
Qed.
Lemma wp_report tid text (m : Mg) (R : unit -> Mg -> Prop) : mgr_ok m -> tid <> GTP_INVALID ->
  (forall c, cache_ok c -> R tt (set_cache (Some c) m)) -> wp (report_error tid text) R m.
Proof.
  intros Hm Ht HR. destruct (mg_cache m Hm) as (c & Hc & Hok). destruct (report_ok tid text m c Hc Hok Ht) as (c' & Hrun & _ & Hok' & _).
  apply (wp_intro _ _ _ tt (set_cache (Some c') m)); [exact Hrun|]. by apply HR.
Qed.
Lemma cached_ok c (m : Mg) : mgr_ok m -> cache_ok c -> mgr_ok (set_cache (Some c) m).
Proof. intros [H1 H2 H3 H4 H5] Hc. split; try done. by exists c. Qed.

(** ** Handles *)
Lemma wp_handler hdl (m : Mg) (R : option (nat * G) -> Mg -> Prop) : mgr_ok m ->
  (forall pos flag, 0 <= hdl - g_goodtp_handler_base m < 64 -> pos = Z.to_nat (hdl - g_goodtp_handler_base m) ->
    R (match goodtp_inst_ m !! pos with Some (Some g) => Some (pos, g) | _ => None end) (set_flag flag m)) ->
  (~ 0 <= hdl - g_goodtp_handler_base m < 64 -> R None m) -> wp (GtpHandlerToObj hdl) R m.
Proof.
  intros Hm Hin Hout. unfold GtpHandlerToObj. apply wp_bind, wp_get. unfold out_of_range, MAX_GTP_INST_NUM.
  destruct (Z.gtb_spec (g_goodtp_handler_base m) hdl); cbn [orb]; [apply wp_ret, Hout; lia|].
  destruct (Z.leb_spec (g_goodtp_handler_base m + 64) hdl); [apply wp_ret, Hout; lia|]. cbv zeta.
  destruct (slot_at (goodtp_inst_ m) (hdl - g_goodtp_handler_base m)) as [o Ho]; [rewrite (mg_len m Hm); lia|].
  apply wp_bind. eapply wp_deref; [exact Ho|]. specialize (Hin _ (Z.lor (runing_flag_ m) (Z.shiftl 1 (Z.of_nat (Z.to_nat (hdl - g_goodtp_handler_base m))))) ltac:(lia) eq_refl).
  rewrite Ho in Hin. destruct o as [g|].
  - destruct (mg_inst m Hm _ g Ho) as (-> & _ & _). rewrite Z.eqb_refl. cbn [negb]. apply wp_bind, wp_mod, wp_ret. exact Hin.
  - apply wp_bind, wp_mod, wp_ret. exact Hin.
Qed.
Lemma flagged_ok f (m : Mg) : mgr_ok m -> mgr_ok (set_flag f m).
Proof. by intros [H1 H2 H3 H4 H5]. Qed.
Lemma wp_on_inst {T} pos (f : ST G T) (m : Mg) g (R : T -> Mg -> Prop) : goodtp_inst_ m !! pos = Some (Some g) ->
  wp f (fun x g' => R x (set_inst (<[pos := Some g']> (goodtp_inst_ m)) m)) g -> wp (on_inst pos f) R m.
Proof.
  intros Hg Hf. unfold on_inst. apply wp_bind, wp_get, wp_bind. eapply wp_deref; [exact Hg|]. apply wp_bind. eapply wp_deref; [reflexivity|].
  unfold wp in Hf. destruct (f g) as [[x g']|] eqn:Hr; [|done]. apply wp_bind. eapply wp_deref; [reflexivity|].
  apply wp_bind, wp_mod, wp_ret. exact Hf.
Qed.

(** ** An instance from its creation to its deletion *)

(** A pool that was set up for the sessions has handed out nothing. *)
Definition birth_ok (b : Birth Q W) : Prop := (bi_sess b).1 = GTP_OK -> ip_ok (bi_sess b).2 /\ forall n, ip_used (bi_sess b).2 n = false.
(** A new instance: it knows its place, and has no session. *)
Definition newborn (pos base : Z) (g : G) : Prop := handler_base_ g = base /\ handler_ g = pos + base /\ session_map_ g = [] /\ table_ok g.
Lemma Init_newborn sys_id pos base ttl now tid (b : Birth Q W) q w : birth_ok b -> 0 <= pos < 64 -> GTP_HANDLER_BASE <= base < 2 * GTP_HANDLER_BASE ->
  let r := Init (N := N) (S := S) sys_id (bi_arq b) (bi_sess b) (bi_tran b) (bi_init_now b) tid (GoodTp_ctor pos ttl base now q w) in
  r.1 = GTP_OK -> newborn pos base r.2.
Proof.
  intros Hb Hp Hbase. unfold Init. assert (Herr : forall md e, Z.land e 0xffff <> 0 -> GEN_ERR sys_id md e <> GTP_OK) by (intros md e; apply GEN_ERR_nonzero).
  destruct (bi_arq b =? GTP_OK); cbn [negb]; [|by intros ?%Herr]. destruct (Z.eqb_spec (bi_sess b).1 GTP_OK) as [Es|]; cbn [negb]; [|by intros ?%Herr].
  destruct (bi_tran b =? GTP_OK); cbn [negb]; [|by intros ?%Herr]. intros _. destruct (Hb Es) as [Hok Hu]. split; [done|]. split.
  - unfold GTP_HANDLER_BASE in *. cbn. unfold i32, swrap. change (2 ^ 32) with 4294967296. change (2 ^ (32 - 1)) with 2147483648.
    rewrite Z.mod_small by lia. destruct (Z.ltb_spec (pos + base) 2147483648); lia.
  - split; [done|]. split; cbn; [exact Hok|constructor| |by intros n ?%elem_of_nil|constructor].
    intros n. rewrite Hu. symmetry. apply bool_decide_eq_false, not_elem_of_nil.
Qed.
Lemma placed_ok pos o (m : Mg) sys_id : mgr_ok m -> (pos < 64)%nat ->
  match o with Some g => handler_base_ g = g_goodtp_handler_base m /\ handler_ g = Z.of_nat pos + g_goodtp_handler_base m /\ table_ok g | None => True end ->
  mgr_ok (set_count (countb some_b (<[pos := o]> (goodtp_inst_ m))) sys_id (set_inst (<[pos := o]> (goodtp_inst_ m)) m)).
Proof.
  intros [H1 H2 H3 H4 H5] Hp Ho. split; try done; cbn; [by rewrite length_insert|]. intros p g Hg.
  destruct (decide (p = pos)) as [->|Hne]; [|rewrite list_lookup_insert_ne in Hg by done; by apply H5].
  rewrite list_lookup_insert_eq in Hg by lia. injection Hg as ->. done.
Qed.

(** How a creation can end: refused, with every instance as it was and perhaps
    an error noted, or with a new one in a free place. *)
Definition created (m : Mg) (b : Birth Q W) (cfg : MemPoolConfig) (r : Z * MemPoolConfig) (m' : Mg) : Prop :=
  mgr_ok m' /\ g_goodtp_handler_base m' = g_goodtp_handler_base m /\
  ((r.1 = GTP_ERR /\ goodtp_inst_ m' = goodtp_inst_ m) \/
   exists pos g, goodtp_inst_ m !! pos = Some None /\ goodtp_inst_ m' = <[pos := Some g]> (goodtp_inst_ m) /\ (pos < 64)%nat /\
     newborn (Z.of_nat pos) (g_goodtp_handler_base m) g /\ r.1 = Z.of_nat pos + g_goodtp_handler_base m /\
     r.2 = set_1_5k (u32 (m_1_5k_num_ cfg + FEC_PACKETS)) cfg).
Lemma wp_refuse tid text (m : Mg) b cfg cfg' m0 : mgr_ok m -> tid <> GTP_INVALID -> goodtp_inst_ m = goodtp_inst_ m0 ->
  g_goodtp_handler_base m = g_goodtp_handler_base m0 ->
  wp (_ ← report_error tid text; mret (GTP_ERR, cfg')) (created m0 b cfg) m.
Proof.
  intros Hm Ht Hi Hb. apply wp_bind, wp_report; [done|done|]. intros c Hc. apply wp_ret. split; [by apply cached_ok|]. split; [exact Hb|].
  left. by split.
Qed.
Lemma wp_create tid system_id ttl cb cfg (b : Birth Q W) (m : Mg) : mgr_ok m -> tid <> GTP_INVALID -> birth_ok b ->
  wp (create_body tid system_id ttl cb cfg b) (created m b cfg) m.
Proof.
  intros Hm Ht Hb. unfold create_body. destruct cb as [cb|]; [|by apply wp_refuse]. destruct (_ || _); [by apply wp_refuse|].
  apply wp_bind, wp_mod. set (m1 := if cur_log_level_cb_ m =? 0 then _ else m).
  assert (Hm1 : mgr_ok m1 /\ goodtp_inst_ m1 = goodtp_inst_ m /\ g_goodtp_handler_base m1 = g_goodtp_handler_base m)
    by (unfold m1; destruct (_ =? 0); [destruct Hm|]; by split_and!). clearbody m1. destruct Hm1 as (Hm1 & Hi & Hbase).
  apply wp_bind, wp_get. destruct (Z.leb_spec MAX_GTP_INST_NUM (inst_num_ m1)) as [|Hnum]; [by apply wp_refuse|].
  destruct (idle_pos (goodtp_inst_ m1) 65 0 63) as (pos & Hpos & Hcase); [rewrite ?(mg_len m1 Hm1); lia..|].
  apply wp_bind. eapply wp_deref; [exact Hpos|]. destruct (Z.eqb_spec (-1) pos); [by apply wp_refuse|].
  destruct Hcase as [[? _]|[Hin Hfree]]; [lia|]. unfold free_slot in Hfree. cbv zeta.
  set (cfg1 := set_1_5k _ cfg). set (g0 := GoodTp_ctor pos ttl _ _ _ _). set (r := Init _ _ _ _ _ _ g0).
  destruct (Z.eqb_spec r.1 GTP_OK) as [Er|Er]; cbn [negb]; [|by apply wp_refuse].
  assert (Hg : newborn pos (g_goodtp_handler_base m1) r.2) by (apply Init_newborn; [done|lia|apply (mg_base m1 Hm1)|exact Er]).
  clearbody r g0. apply wp_bind, wp_mod, wp_bind, wp_mod, wp_ret.
  assert (Hcount : u32 (inst_num_ (set_inst (<[Z.to_nat pos:=Some r.2]> (goodtp_inst_ m1)) m1) + 1) = countb some_b (<[Z.to_nat pos:=Some r.2]> (goodtp_inst_ m1))).
  { rewrite (countb_insert _ _ _ None) by exact Hfree. cbn [inst_num_ set_inst some_b ind]. rewrite (mg_count m1 Hm1) in *. unfold MAX_GTP_INST_NUM in *.
    pose proof (countb_le some_b (goodtp_inst_ m1)). rewrite u32_small; lia. }
  rewrite Hcount. split; [|split; [exact Hbase|right; exists (Z.to_nat pos), r.2]].
  - apply placed_ok; [done|lia|]. rewrite Z2Nat.id by lia. by destruct Hg as (? & ? & _ & ?).
  - rewrite <- Hi, Z2Nat.id, <- Hbase by lia. split; [exact Hfree|]. split; [done|]. split; [lia|]. split; [done|]. split; [|done].
    cbn [fst set_inst set_count g_goodtp_handler_base]. pose proof (mg_base m1 Hm1). unfold GTP_HANDLER_BASE in *. unfold i32, swrap.
    change (2 ^ 32) with 4294967296. change (2 ^ (32 - 1)) with 2147483648. rewrite Z.mod_small by lia.
    destruct (Z.ltb_spec (pos + g_goodtp_handler_base m1) 2147483648); lia.
Qed.

(** C21: Creating an instance either fails, gives no handle and leaves every
    instance alone, or puts a new instance without sessions into a free place
    and gives the handle that leads back to it; the other instances keep their
    places, and the configuration of the caller is what it was. *)
Theorem CreateGtpInstance_handle tid system_id ttl cb cfg (b : Birth Q W) (m : Mg) :
  mgr_ok m -> tid <> GTP_INVALID -> birth_ok b -> 0 <= m_1_5k_num_ cfg < 2 ^ 32 ->
  exists hdl cfg' m', CreateGtpInstance tid system_id ttl cb cfg b m = Some ((hdl, cfg'), m') /\ mgr_ok m' /\
    ((hdl = GTP_ERR /\ goodtp_inst_ m' = goodtp_inst_ m) \/
     exists pos g, goodtp_inst_ m !! pos = Some None /\ goodtp_inst_ m' = <[pos := Some g]> (goodtp_inst_ m) /\ session_map_ g = [] /\ table_ok g /\
       hdl <> GTP_ERR /\ GtpObjToHandler pos g m' = hdl /\ cfg' = cfg /\
       exists m2, GtpHandlerToObj hdl m' = Some (Some (pos, g), m2) /\ goodtp_inst_ m2 = goodtp_inst_ m').
Proof.
  intros Hm Ht Hb Hcfg. destruct (wp_total _ _ _ (wp_create tid system_id ttl cb cfg b m Hm Ht Hb)) as ([hdl cfg1] & m' & Hrun & Hm' & Hbase & Hcase).
  exists hdl, (set_1_5k (u32 (m_1_5k_num_ cfg1 - FEC_PACKETS)) cfg1), m'. split.
  { unfold CreateGtpInstance, mbind, ST_bind. by rewrite Hrun. }
  split; [done|]. destruct Hcase as [Hcase|(pos & g & Hfree & Hi & Hlt & (G1 & G2 & G3 & G4) & Hh & Hc)]; [by left|right]. cbn [fst snd] in *. subst hdl cfg1.
  pose proof (mg_base m' Hm'). unfold GTP_HANDLER_BASE in *. assert (Hat : goodtp_inst_ m' !! pos = Some (Some g)).
  { rewrite Hi. apply list_lookup_insert_eq. by apply lookup_lt_Some in Hfree. }
  exists pos, g. split; [exact Hfree|]. split; [exact Hi|]. split; [done|]. split; [done|]. split; [unfold GTP_ERR; lia|]. split.
  { unfold GtpObjToHandler, out_of_range, MAX_GTP_INST_NUM. rewrite Hbase, G1, G2, Z.eqb_refl in *. cbv zeta.
    destruct (Z.gtb_spec (g_goodtp_handler_base m) (Z.of_nat pos + g_goodtp_handler_base m)); [lia|].
    destruct (Z.leb_spec (g_goodtp_handler_base m + 64) (Z.of_nat pos + g_goodtp_handler_base m)); [lia|].
    replace (Z.to_nat (Z.of_nat pos + g_goodtp_handler_base m - g_goodtp_handler_base m)) with pos by lia. by rewrite Nat.eqb_refl. }
  split.
  { destruct cfg as [c1 c2 c3 c4 c5 c6 c7]. unfold set_1_5k, FEC_PACKETS, u32. cbn in *. f_equal. rewrite Zminus_mod_idemp_l.
    replace (c4 + 65536 - 65536) with c4 by lia. by apply Z.mod_small. }
  assert (Hw : wp (GtpHandlerToObj (Z.of_nat pos + g_goodtp_handler_base m)) (fun r m2 => r = Some (pos, g) /\ goodtp_inst_ m2 = goodtp_inst_ m') m').
  { apply wp_handler; [done| |rewrite Hbase; lia]. intros p flag _ ->. rewrite Hbase.
    replace (Z.to_nat (Z.of_nat pos + g_goodtp_handler_base m - g_goodtp_handler_base m)) with pos by lia. by rewrite Hat. }
  destruct (wp_total _ _ _ Hw) as (r & m2 & Hr & -> & Hi2). by exists m2.
Qed.

(** An instance that ends: what is cached goes out, then its sessions are deleted. *)
Lemma wp_send_cached now (g : G) : table_ok g -> wp (SendArqCachedPackWhenDead now) (fun _ g' => ending g') g.
Proof.
  intros Hg. unfold SendArqCachedPackWhenDead. apply wp_bind, wp_mod, wp_bind, wp_get.
  assert (Hg' : table_ok (set_now now g)) by (by destruct Hg). eapply wp_mono; [apply wp_pop_each; [exact Hg'|]|].
  - intros e He. apply list_elem_of_fmap. by exists e.
  - cbn beta. intros _ g2 (K1 & K2 & K3). destruct (table_ending _ Hg') as (H1 & H2 & H3 & H4). unfold ending. rewrite K1, K2.
    split_and!; try done. intros n Hn. by apply K3, H4.
Qed.
Lemma removed_ok pos (m m' : Mg) : mgr_ok m -> goodtp_inst_ m' = <[pos := None]> (goodtp_inst_ m) -> error_cache_ m' = error_cache_ m ->
  g_goodtp_handler_base m' = g_goodtp_handler_base m -> inst_num_ m' = countb some_b (goodtp_inst_ m') -> mgr_ok m'.
Proof.
  intros [H1 H2 H3 H4 H5] Hi Hc Hb Hn. split; [by rewrite Hi, length_insert|by rewrite Hc|by rewrite Hb|done|]. intros p g Hg. rewrite Hi in Hg. rewrite Hb.
  destruct (decide (p = pos)) as [->|Hne]; [|rewrite list_lookup_insert_ne in Hg by done; by apply H5].
  pose proof (lookup_lt_Some _ _ _ Hg) as Hl. rewrite length_insert in Hl. by rewrite list_lookup_insert_eq in Hg.
Qed.
(** An instance of which nothing is left: no session, and no memory of the pool
    in use. *)
Definition dead (g : G) : Prop := session_map_ g = [] /\ forall n, ip_used (session_mem_pool_ g) n = false.
(** Of the instance [g] behind the handle, [g1] is left by the sending of what is
    cached and [g2] by the destructor, and it leaves its place. *)
Definition ended (now hdl : Z) (g2 : option G) (m m' : Mg) : Prop :=
  exists pos g g1, hdl = Z.of_nat pos + g_goodtp_handler_base m /\ goodtp_inst_ m !! pos = Some (Some g) /\
    SendArqCachedPackWhenDead now g = Some (tt, g1) /\
    (exists g', GoodTp_dtor g1 = Some (tt, g') /\ g2 = Some g' /\ dead g') /\
    goodtp_inst_ m' = <[pos := None]> (goodtp_inst_ m).
Definition deleted (now hdl : Z) (m : Mg) (r : Z * option G) (m' : Mg) : Prop :=
  mgr_ok m' /\ g_goodtp_handler_base m' = g_goodtp_handler_base m /\
    ((r.1 = GTP_OK /\ ended now hdl r.2 m m') \/
     (r = (GEN_ERR (sys_id_ m) kGtpMgrMd kInvalidGtpHandler, None) /\ goodtp_inst_ m' = goodtp_inst_ m /\
        forall pos g, hdl = Z.of_nat pos + g_goodtp_handler_base m -> goodtp_inst_ m !! pos <> Some (Some g))).
Lemma wp_delete_body tid now hdl (m : Mg) : mgr_ok m -> tid <> GTP_INVALID -> wp (delete_body tid now hdl) (deleted now hdl m) m.
Proof.
  intros Hm Ht. unfold delete_body. apply wp_bind.
  assert (Hno : forall m1, mgr_ok m1 -> goodtp_inst_ m1 = goodtp_inst_ m -> sys_id_ m1 = sys_id_ m -> g_goodtp_handler_base m1 = g_goodtp_handler_base m ->
    (forall pos g, hdl = Z.of_nat pos + g_goodtp_handler_base m -> goodtp_inst_ m !! pos <> Some (Some g)) ->
    wp (_ ← report_error tid (TextNoHandler hdl); m ← get_st; mret (GEN_ERR (sys_id_ m) kGtpMgrMd kInvalidGtpHandler, None)) (deleted now hdl m) m1).
  { intros m1 Hm1 Hi Hs Hb Hnone. apply wp_bind, wp_report; [done|done|]. intros c Hc. apply wp_bind, wp_get, wp_ret.
    split; [by apply cached_ok|]. split; [exact Hb|]. right. cbn [sys_id_ goodtp_inst_ set_cache]. by rewrite Hs. }
  apply wp_handler; [done| |].
  2:{ intros Hout. apply Hno; try done. intros pos g -> Hg. apply lookup_lt_Some in Hg. rewrite (mg_len m Hm) in Hg. lia. }
  intros pos flag Hin ->. set (pos := Z.to_nat (hdl - g_goodtp_handler_base m)) in *. assert (Hhdl : hdl = Z.of_nat pos + g_goodtp_handler_base m) by (unfold pos; lia).
  destruct (goodtp_inst_ m !! pos) as [[g|]|] eqn:Hg.
  2,3: apply Hno; [by apply flagged_ok|done..|]; intros p x Hp Hx; assert (p = pos) as -> by lia; congruence.
  destruct (mg_inst m Hm pos g Hg) as (_ & _ & Htab). pose proof (lookup_lt_Some _ _ _ Hg) as Hlt.
  destruct (wp_total _ _ _ (wp_send_cached now g Htab)) as ([] & g1 & Hsend & Hend).
  apply wp_bind. eapply wp_on_inst; [exact Hg|]. eapply wp_intro; [exact Hsend|].
  apply wp_bind, wp_mod, wp_bind, wp_mod, wp_bind, wp_mod.
  assert (Hnum : countb some_b (<[pos := None]> (goodtp_inst_ m)) = inst_num_ m - 1 /\ 0 < inst_num_ m).
  { rewrite (countb_insert _ _ _ (Some g)) by exact Hg. cbn [some_b ind]. rewrite (mg_count m Hm).
    pose proof (countb_le some_b (<[pos := None]> (goodtp_inst_ m))) as Hge. rewrite (countb_insert _ _ _ (Some g)) in Hge by exact Hg. cbn [some_b ind] in Hge. lia. }
  match goal with |- wp _ _ ?x => set (m2 := x) end.
  assert (H2 : goodtp_inst_ m2 = <[pos := Some g1]> (goodtp_inst_ m) /\ error_cache_ m2 = error_cache_ m /\
    g_goodtp_handler_base m2 = g_goodtp_handler_base m /\ inst_num_ m2 = inst_num_ m - 1).
  { unfold m2. cbn [inst_num_ set_flag set_inst]. destruct (Z.ltb_spec 0 (inst_num_ m)); [|lia]. cbn [inst_num_ set_count]. by destruct (0 =? inst_num_ m - 1). }
  clearbody m2. destruct H2 as (I1 & I2 & I3 & I4).
  destruct (wp_total _ _ _ (wp_dtor g1 Hend)) as ([] & g2 & Hdtor & Hempty & _ & Hunused).
  apply wp_bind. eapply wp_on_inst; [rewrite I1; by apply list_lookup_insert_eq|]. eapply wp_intro; [exact Hdtor|].
  apply wp_bind, wp_get, wp_bind, wp_mod, wp_ret.
  assert (Hi : <[pos:=None]> (goodtp_inst_ (set_inst (<[pos:=Some g2]> (goodtp_inst_ m2)) m2)) = <[pos:=None]> (goodtp_inst_ m)).
  { cbn [goodtp_inst_ set_inst]. by rewrite I1, !list_insert_insert_eq. }
  rewrite Hi. split; [|split; [exact I3|left; split; [done|]]].
  - apply (removed_ok pos m); [done|done|exact I2|exact I3|]. cbn [inst_num_ goodtp_inst_ set_inst]. lia.
  - exists pos, g, g1. split_and!; try done. exists g2. split_and!; [exact Hdtor| |by split].
    cbn [snd goodtp_inst_ set_inst]. rewrite list_lookup_insert_eq; [done|]. by rewrite I1, length_insert.
Qed.
Lemma wp_delete tid now hdl (m : Mg) : mgr_ok m -> tid <> GTP_INVALID -> wp (DeleteGtpInstance tid now hdl) (fun _ m' => mgr_ok m') m.
Proof.
  intros Hm Ht. unfold DeleteGtpInstance. apply wp_bind. eapply wp_mono; [by apply wp_delete_body|]. intros r m' [Hm' _]. by apply wp_ret.
Qed.

(** C22: deleting by a handle ends exactly the instance behind it: what its
    sessions have cached goes out, its destructor deletes every session and
    leaves no memory of the session pool in use, its place becomes free, the
    other instances stay, and the handle leads nowhere afterwards.  A handle
    with nothing behind it is refused and changes no instance. *)
Theorem DeleteGtpInstance_ends tid now hdl (m : Mg) : mgr_ok m -> tid <> GTP_INVALID ->
  exists r left m', delete_body tid now hdl m = Some ((r, left), m') /\ DeleteGtpInstance tid now hdl m = Some (r, m') /\ mgr_ok m' /\
    (exists m2, GtpHandlerToObj hdl m' = Some (None, m2)) /\
    ((r = GTP_OK /\ ended now hdl left m m') \/
     (r = GEN_ERR (sys_id_ m) kGtpMgrMd kInvalidGtpHandler /\ left = None /\ goodtp_inst_ m' = goodtp_inst_ m /\
        forall pos g, hdl = Z.of_nat pos + g_goodtp_handler_base m -> goodtp_inst_ m !! pos <> Some (Some g))).
Proof.
  intros Hm Ht. destruct (wp_total _ _ _ (wp_delete_body tid now hdl m Hm Ht)) as ([r left] & m' & Hrun & Hm' & Hb & Hcase).
  exists r, left, m'. split; [exact Hrun|]. split; [unfold DeleteGtpInstance, mbind, ST_bind; by rewrite Hrun|]. split; [done|]. cbn [fst snd] in Hcase.
  split.
  - assert (Hw : wp (GtpHandlerToObj hdl) (fun r _ => r = None) m'); [|destruct (wp_total _ _ _ Hw) as (r2 & m2 & Hr & ->); by exists m2].
    apply wp_handler; [done| |done]. intros p flag Hin Hp. rewrite Hb in *. destruct Hcase as [(_ & pos & g & g1 & -> & Hg & _ & _ & Hi)|(_ & Hi & Hnone)].
    + assert (p = pos) as -> by lia. rewrite Hi. rewrite list_lookup_insert_eq; [done|by apply lookup_lt_Some in Hg].
    + rewrite Hi. destruct (goodtp_inst_ m !! p) as [[x|]|] eqn:Hx; [|done..]. exfalso. apply (Hnone p x); [lia|done].
  - destruct Hcase as [?|([= -> ->] & ? & ?)]; [by left|by right].
Qed.

(** C29: A note of an error is read once: after [report_error] for a thread that
    has an entry in the cache or finds one idle (with 64 unread notes of other
    threads the note is lost), the thread gets its text, and then no more; the
    notes of the other threads stay.  Of the calls on an instance only
    [CreateGtpInstance] and [DeleteGtpInstance] note their errors. *)
Theorem error_info_read_once tid text (m : Mg) c : error_cache_ m = Some c -> cache_ok c -> tid <> GTP_INVALID -> has_room tid c ->
  exists m1 m2 c2, report_error tid text m = Some (tt, m1) /\ LastGtpErrorInfo tid m1 = Some (Some text, m2) /\
    LastGtpErrorInfo tid m2 = Some (None, m2) /\ error_cache_ m2 = Some c2 /\ cache_ok c2 /\
    forall j e, c !! j = Some e -> tid_ e <> tid -> tid_ e <> GTP_INVALID -> c2 !! j = Some e.
Proof.
  intros Hm Hc Ht Hroom. destruct (report_ok tid text m c Hm Hc Ht) as (c1 & Hrun & Hn & Hc1 & Hi). destruct (Hi Hroom) as [i Hi1].
  pose proof Hc1 as [Hl1 Hu1]. set (c2 := <[i := mkErr GTP_INVALID text]> c1).
  assert (Hown : GtpGetSelfErrorCache c1 tid = Some (Some i)).
  { destruct (self_entry c1 tid Hl1) as (r & -> & Hcase). destruct r as [k|]; [|by destruct (Hcase i _ Hi1)].
    destruct Hcase as (e & He & Hte). do 2 f_equal. eapply Hu1; [exact He|exact Hi1|done|congruence]. }
  assert (Hc2 : cache_ok c2) by (eapply cache_write; [done|exact Hi1|by left]).
  assert (Hgone : GtpGetSelfErrorCache c2 tid = Some None).
  { destruct (self_entry c2 tid (proj1 Hc2)) as (r & -> & Hcase). destruct r as [k|]; [|done].
    destruct Hcase as (e & He & Hte). exfalso. unfold c2 in He. destruct (decide (k = i)) as [->|Hne].
    - rewrite list_lookup_insert_eq in He by (by eapply lookup_lt_Some). injection He as <-. cbn in Hte. congruence.
    - rewrite list_lookup_insert_ne in He by done. apply Hne. eapply Hu1; [exact He|exact Hi1|done|congruence]. }
  exists (set_cache (Some c1) m), (set_cache (Some c2) m), c2. split; [exact Hrun|]. split; [|split].
  - unfold LastGtpErrorInfo, mbind, ST_bind, get_st, deref. cbn [error_cache_ set_cache]. rewrite Hown, Hi1, (alter_here _ c1 i _ Hi1). done.
  - unfold LastGtpErrorInfo, mbind, ST_bind, get_st, deref. cbn [error_cache_ set_cache]. by rewrite Hgone.
  - split; [done|]. split; [done|]. intros j e Hj Hne Hni.
    assert (Hj1 : c1 !! j = Some e /\ j <> i); [|destruct Hj1 as [Hj1 Hji]; unfold c2; by rewrite list_lookup_insert_ne].
    apply (note_error_others tid text c c1 i j e); done.
Qed.

(** The module is loaded: no instance, no note, a first handle between one and
    two hundred thousand. *)
Lemma InsLoadGtpModule_ready errors now_us (m : Mg) : length errors = 64%nat ->
  exists m', InsLoadGtpModule (Some errors) true now_us m = Some (GTP_OK, m') /\ mgr_ok m' /\ goodtp_inst_ m' = replicate 64 None.
Proof.
  intros Hl. eexists. split; [reflexivity|]. split; [|done].
  pose proof (Z.mod_pos_bound (Z.land now_us 0xFFFFFFFF) GTP_HANDLER_BASE ltac:(done)) as Hmod.
  split; cbn [goodtp_inst_ error_cache_ g_goodtp_handler_base inst_num_].
  - done.
  - eexists. split; [reflexivity|]. split; [by rewrite length_fmap|]. intros i j e e' Hi Hj Heq Hne.
    apply list_lookup_fmap_Some in Hi as (x & -> & _). by destruct Hne.
  - unfold GTP_HANDLER_BASE in *. unfold i32, swrap. change (2 ^ 32) with 4294967296. change (2 ^ (32 - 1)) with 2147483648.
    rewrite Z.mod_small by lia. destruct (Z.ltb_spec (Z.land now_us 4294967295 mod 100000 + 100000) 2147483648); lia.
  - symmetry. apply countb_none. intros i x Hx. by apply lookup_replicate in Hx as [-> _].
  - intros pos g Hg. by apply lookup_replicate in Hg as [? _].
Qed.

(** ** Two faults *)

(** A creation that is refused before the room for fec was added to the
    configuration takes it away all the same: the caller's number of 1.5 kB
    buffers is 65536 too small, modulo [2 ^ 32]. *)
Theorem refused_creation_spoils tid system_id ttl cfg (b : Birth Q W) (m : Mg) : mgr_ok m -> tid <> GTP_INVALID -> 0 <= m_1_5k_num_ cfg < 65536 ->
  exists cfg' m', CreateGtpInstance tid system_id ttl None cfg b m = Some ((GTP_ERR, cfg'), m') /\
    m_1_5k_num_ cfg' = m_1_5k_num_ cfg + (2 ^ 32 - 65536).
Proof.
  intros Hm Ht Hcfg. destruct (mg_cache m Hm) as (c & Hc & Hok). destruct (report_ok tid TextNoCallbacks m c Hc Hok Ht) as (c' & Hrun & _).
  exists (set_1_5k (u32 (m_1_5k_num_ cfg - FEC_PACKETS)) cfg), (set_cache (Some c') m). split.
  - unfold CreateGtpInstance, create_body, mbind, ST_bind. by rewrite Hrun.
  - cbn [m_1_5k_num_ set_1_5k]. unfold u32, FEC_PACKETS. symmetry. apply (Z.mod_unique_pos _ _ (-1)); lia.
Qed.

Lemma linker_key_ports junk k (e : GtpSessionKey) : sock_ok (peer_socket_addr_ k) -> key_eq (linker_key junk k) e = true -> peer_bin_port_ e = self_bin_port_ e.
Proof.
  intros Hp He. assert (Hf : key_3rd_flag_ (linker_key junk k) = GTP_NO /\ peer_bin_port_ (linker_key junk k) = self_bin_port_ (linker_key junk k)).
  { unfold linker_key. cbv zeta. by destruct (GtpSockAddrToBinAddr _) as [[? ?] ?], (self_bin _) as [[? ?] ?]. }
  destruct Hf as [Hf Hports]. apply (key_eq_flow _ _ Hf) in He as (_ & _ & H1 & H2 & _). congruence.
Qed.
(** C40: The quality of a flow cannot be asked for: the key is built with the
    peer's port in the place of the own one.  When every session of the
    instance has two different ports, each question is answered with the error
    of a flow that does not exist, or that of an invalid handle. *)
Theorem GetLinkerQuality_blind {T} (quality : Z -> S -> Z * T) junk hdl k (m : Mg) : mgr_ok m -> sock_ok (peer_socket_addr_ k) ->
  (forall pos g e, goodtp_inst_ m !! pos = Some (Some g) -> e ∈ session_map_ g -> peer_bin_port_ e.1 <> self_bin_port_ e.1) ->
  exists r m', GetLinkerQuality quality junk hdl (Some k) m = Some ((r, None), m') /\
    (r = GEN_ERR (sys_id_ m) kGtpMgrMd kInvalidGtpHandler \/ r = GEN_ERR (sys_id_ m) kGtpMgrMd kLinkerNoExistErr).
Proof.
  intros Hm Hk Hports.
  cut (wp (GetLinkerQuality quality junk hdl (Some k)) (fun x _ => x.2 = None /\
    (x.1 = GEN_ERR (sys_id_ m) kGtpMgrMd kInvalidGtpHandler \/ x.1 = GEN_ERR (sys_id_ m) kGtpMgrMd kLinkerNoExistErr)) m).
  { intros Hw. destruct (wp_total _ _ _ Hw) as ([r q] & m' & Hrun & Hq & Hr). cbn in Hq, Hr. subst q. by exists r, m'. }
  unfold GetLinkerQuality. apply wp_bind, wp_get, wp_bind. apply wp_handler; [done| |].
  - intros pos flag _ _. destruct (goodtp_inst_ m !! pos) as [[g|]|] eqn:Hg; [|apply wp_ret; by split; [|left]..].
    unfold GetSessionByKey. destruct (find_key _ _) as [[i e]|] eqn:Hf; cbn [fmap option_fmap option_map]; [|apply wp_ret; by split; [|right]].
    apply find_key_some in Hf as [Hi He]. exfalso. apply (Hports pos g e Hg); [by eapply list_elem_of_lookup_2|]. by eapply linker_key_ports.
  - intros _. apply wp_ret. by split; [|left].
Qed.
End Spec.

(** ** An instance *)
Definition demo_mgr0 : GtpInstMgr GtpMemPool Z DemoSess (list (Z * Deed)) := mkMgr false None 1 1 1 0 (replicate 64 None) 1.
Definition demo_errors : list ErrorInfoMgr := replicate 64 (mkErr 0 (TextOld 0)).
Definition run_mgr {A} (f : ST (GtpInstMgr GtpMemPool Z DemoSess (list (Z * Deed))) A) (m : GtpInstMgr GtpMemPool Z DemoSess (list (Z * Deed))) :=
  match f m with Some (_, m') => m' | None => m end.
Definition demo_mgr : GtpInstMgr GtpMemPool Z DemoSess (list (Z * Deed)) := run_mgr (InsLoadGtpModule (Some demo_errors) true 0) demo_mgr0.
Lemma demo_mgr_ok : mgr_ok demo_mgr.
Proof.
  destruct (InsLoadGtpModule_ready demo_errors 0 demo_mgr0 eq_refl) as (m' & Hrun & Hm' & _). unfold demo_mgr, run_mgr. by rewrite Hrun.
Qed.
Definition demo_cfg : MemPoolConfig := mkCfg 64 64 64 64 64 64 64.
Definition demo_birth : Birth GtpMemPool (list (Z * Deed)) := mkBirth (fun _ => (demo_items, [])) 1000 GTP_OK (GTP_OK, demo_items) GTP_OK 2000.
Lemma demo_birth_ok : birth_ok (N := Z) demo_birth.
Proof.
  intros _. destruct demo_items_ok as [Hok Hz]. split; [split; [exact Hok|intros i _; by rewrite Hz]|].
  intros n. apply not_true_is_false. intros (i & Hi & -> & Hq)%item_used_inv. rewrite Hz in Hq. lia.
Qed.
Definition demo_mgr1 : GtpInstMgr GtpMemPool Z DemoSess (list (Z * Deed)) := run_mgr (CreateGtpInstance 77 9 0 (Some (mkCb 1 1 0)) demo_cfg demo_birth) demo_mgr.
Lemma demo_mgr1_ok : mgr_ok demo_mgr1.
Proof.
  destruct (wp_total _ _ _ (wp_create 77 9 0 (Some (mkCb 1 1 0)) demo_cfg demo_birth demo_mgr demo_mgr_ok ltac:(done) demo_birth_ok)) as ([h c] & m' & Hrun & Hm' & _).
  unfold demo_mgr1, run_mgr, CreateGtpInstance, mbind, ST_bind. by rewrite Hrun.
Qed.
Example demo_handle : fst <$> CreateGtpInstance 77 9 0 (Some (mkCb 1 1 0)) demo_cfg demo_birth demo_mgr = Some (100000, demo_cfg).
Proof. vm_compute. reflexivity. Qed.

(** The instance with the two sessions of GoodTpSpec.v, whose peers have other
    ports than they. *)
Definition demo_mgr2 : GtpInstMgr GtpMemPool Z DemoSess (list (Z * Deed)) :=
  set_count 1 9 (set_inst (<[0%nat := Some demo_gtp2]> (replicate 64 None)) demo_mgr).
Lemma demo_mgr2_at pos g : goodtp_inst_ demo_mgr2 !! pos = Some (Some g) -> pos = 0%nat /\ g = demo_gtp2.
Proof.
  unfold demo_mgr2. cbn [goodtp_inst_ set_count set_inst]. generalize demo_gtp2 as d. intros d Hg.
  apply list_lookup_insert_Some in Hg as [(<- & Hg & _)|(_ & Hg)]; [split; [done|congruence]|]. by apply lookup_replicate in Hg as [? _].
Qed.
Lemma demo_mgr2_ok : mgr_ok demo_mgr2.
Proof.
  destruct demo_mgr_ok as [H1 H2 H3 H4 H5]. split; [done|exact H2|exact H3|vm_compute; reflexivity|]. intros pos g [-> ->]%demo_mgr2_at.
  split; [vm_compute; reflexivity|]. split; [vm_compute; reflexivity|exact demo_gtp2_ok].
Qed.
Lemma demo_ports pos g (e : GtpSessionKey * Z) : goodtp_inst_ demo_mgr2 !! pos = Some (Some g) -> e ∈ session_map_ g -> peer_bin_port_ e.1 <> self_bin_port_ e.1.
Proof.
  intros [-> ->]%demo_mgr2_at He.
  assert (Hall : forallb (fun e => negb (peer_bin_port_ e.1 =? self_bin_port_ e.1)) (session_map_ demo_gtp2) = true) by (vm_compute; reflexivity).
  rewrite forallb_forall in Hall. apply list_elem_of_In in He. specialize (Hall e He). by apply negb_true_iff, Z.eqb_neq in Hall.
Qed.
Definition demo_linker : GtpLinkerKey := mkLinker 1 5 (AF_INET [10; 0; 0; 1] 8) (Some (AF_INET [10; 0; 0; 2] 9)).
(** The very flow of the second session. *)
Example GetLinkerQuality_blind_witness : exists r m',
  GetLinkerQuality (fun _ s => (GTP_OK, ds_last s)) (demo_trash 1) 100000 (Some demo_linker) demo_mgr2 = Some ((r, None), m') /\
  (r = GEN_ERR (sys_id_ demo_mgr2) kGtpMgrMd kInvalidGtpHandler \/ r = GEN_ERR (sys_id_ demo_mgr2) kGtpMgrMd kLinkerNoExistErr).
Proof. apply (GetLinkerQuality_blind _ (demo_trash 1) 100000 demo_linker demo_mgr2 demo_mgr2_ok eq_refl demo_ports). Defined.

Example CreateGtpInstance_handle_witness :
  exists hdl cfg' m', CreateGtpInstance 77 9 0 (Some (mkCb 1 1 0)) demo_cfg demo_birth demo_mgr = Some ((hdl, cfg'), m') /\ mgr_ok m' /\
    ((hdl = GTP_ERR /\ goodtp_inst_ m' = goodtp_inst_ demo_mgr) \/
     exists pos g, goodtp_inst_ demo_mgr !! pos = Some None /\ goodtp_inst_ m' = <[pos := Some g]> (goodtp_inst_ demo_mgr) /\ session_map_ g = [] /\
       table_ok g /\ hdl <> GTP_ERR /\ GtpObjToHandler pos g m' = hdl /\ cfg' = demo_cfg /\
       exists m2, GtpHandlerToObj hdl m' = Some (Some (pos, g), m2) /\ goodtp_inst_ m2 = goodtp_inst_ m').
Proof. apply (CreateGtpInstance_handle 77 9 0 (Some (mkCb 1 1 0)) demo_cfg demo_birth demo_mgr demo_mgr_ok ltac:(done) demo_birth_ok). done. Defined.
Example DeleteGtpInstance_ends_witness :
  exists r left m', delete_body 77 5000000 100000 demo_mgr2 = Some ((r, left), m') /\ DeleteGtpInstance 77 5000000 100000 demo_mgr2 = Some (r, m') /\ mgr_ok m' /\
    (exists m2, GtpHandlerToObj 100000 m' = Some (None, m2)) /\
    ((r = GTP_OK /\ ended 5000000 100000 left demo_mgr2 m') \/
     (r = GEN_ERR (sys_id_ demo_mgr2) kGtpMgrMd kInvalidGtpHandler /\ left = None /\ goodtp_inst_ m' = goodtp_inst_ demo_mgr2 /\
        forall pos g, 100000 = Z.of_nat pos + g_goodtp_handler_base demo_mgr2 -> goodtp_inst_ demo_mgr2 !! pos <> Some (Some g))).
Proof. apply (DeleteGtpInstance_ends 77 5000000 100000 demo_mgr2 demo_mgr2_ok). done. Defined.
Definition demo_cache : list ErrorInfoMgr := <[5%nat := mkErr 12 TextUpperLimit]> (replicate 64 (mkErr GTP_INVALID (TextOld 0))).
Lemma demo_cache_ok : cache_ok demo_cache.
Proof.
  split; [done|]. assert (Hin : forall i e, demo_cache !! i = Some e -> tid_ e <> GTP_INVALID -> i = 5%nat).
  { intros i e Hi Hne. destruct (decide (i = 5%nat)); [done|]. unfold demo_cache in Hi. rewrite list_lookup_insert_ne in Hi by done.
    apply lookup_replicate in Hi as [-> _]. by destruct Hne. }
  intros i j e e' Hi Hj Heq Hne. rewrite (Hin i e Hi Hne). symmetry. apply (Hin j e' Hj). by rewrite <- Heq.
Qed.
Example error_info_read_once_witness :
  exists m1 m2 c2, report_error 77 (TextNoHandler 3) (set_cache (Some demo_cache) demo_mgr) = Some (tt, m1) /\
    LastGtpErrorInfo 77 m1 = Some (Some (TextNoHandler 3), m2) /\
    LastGtpErrorInfo 77 m2 = Some (None, m2) /\ error_cache_ m2 = Some c2 /\ cache_ok c2 /\
    forall j e, demo_cache !! j = Some e -> tid_ e <> 77 -> tid_ e <> GTP_INVALID -> c2 !! j = Some e.
Proof.
  apply (error_info_read_once 77 (TextNoHandler 3) (set_cache (Some demo_cache) demo_mgr) demo_cache eq_refl demo_cache_ok ltac:(done)).
  exists 6%nat, (mkErr GTP_INVALID (TextOld 0)). split; [done|by right].
Defined.

End MgrSpec.
