(* ===== verification/Entry.v ===== *)
(** * From a handle to a session

    The first half of [GtpFrameSend] and [GtpPacketReceive] of
    src/src/interface/goodtp_interface.cpp: the checks of the parameters, the
    instance behind the handle, the version of the packet, the key that a packet
    carries for its stream, and the search for the session.  What follows with
    the session is in FrameSend.v and SessRecv.v.  Logging is left out, and with
    it the check of the thread, whose answer is only logged; the validation of
    packets is compiled out here ([ENABLE_INNER_VALID_CHCK] is 0). *)
From S2P Require Import Prelude PacketHeader ItemPool SessKey GoodTp Mgr.
Export Mgr.

Module Entry.

Definition kGetSessionFailed : Z := 0x600c.
Definition kPeerVerTooOldErr : Z := 0x6027.
Definition kRealTimeStream : Z := 0.

(** ** What is read from a packet

    [m] is the memory of the packet and what lies behind it. *)

(** The key of the stream; zero if there is none. *)
Definition embedded_key (m : list Z) (pack_sz : Z) : Z :=
  let h := PacketHeader.parse_header m in
  if PacketHeader.pack_type h =? PacketHeader.kGtpFecPackType then
    if PacketHeader.FEC2_CODE_PACK_SIZE <=? pack_sz then le_val (mem_load 8 m 16) else 0
  else if GTP_YES =? PacketHeader.has_check_flag h then
    let key_offset := PacketHeader.GTP_PACKET_SIZE + (if negb (0 =? PacketHeader.repeat_counter h) then 4 else 0) in
    if key_offset + 8 <=? pack_sz then
      Z.lor (Z.shiftl (load32 m (Z.to_nat key_offset)) 32) (load32 m (Z.to_nat (key_offset + 4)))
    else 0
  else 0.
(** The address of a packet is completed by its key, unless the caller gave one. *)
Definition stamp_key (m : list Z) (pack_sz : Z) (a : GtpAddr) : GtpAddr :=
  if GTP_NO =? enable_key_ a then
    let key := embedded_key m pack_sz in
    if negb (0 =? key) then mkAddr key GTP_YES (addr_sfd_ a) (sock_addr_ a) (self_addr_ a) else a
  else a.

(** The first word in the layout of this version. *)
Definition new_header (m : list Z) : list Z := mem_store m 0 (le_bytes 4 (PacketHeader.GtpHeaderOldToNew (load32 m 0))).
(** Before version 2 there were no zones and no reliable streams. *)
Definition plain_header (m : list Z) : list Z :=
  if PacketHeader.goodtp_ver (PacketHeader.parse_header m) <? 2 then
    mem_store m 8 (le_bytes 2 (set_bits (set_bits (le_val (mem_load 2 m 8)) 14 1 GTP_NO) 15 1 kRealTimeStream))
  else m.
Definition sort_sn_of (m : list Z) : Z :=
  let h := PacketHeader.parse_header m in
  if (1 <? PacketHeader.goodtp_ver h) && (GTP_YES =? PacketHeader.has_chg_zone h) then load32 m (Z.to_nat (PacketHeader.header_offset h)) else 0.

Section Lookup.
Context {Q N S W : Type} `{Countable N} `{!ItemPool Q N} `{!SessionOps S W}.
Local Abbreviation M := (ST (GtpInstMgr Q N S W)).

(** What the second half goes on with: the place of the instance, the session,
    the packet and its address. *)
Record Found := mkFound { fo_pos : nat; fo_session : N; fo_pack : list Z; fo_addr : GtpAddr }.
Definition err (md code : Z) : M (Z * option Found) := m ← get_st; mret (GEN_ERR (sys_id_ m) md code, None).
Definition found_or (pos : nat) (r : option N) (pack : list Z) (a : GtpAddr) : M (Z * option Found) :=
  match r with
  | None => err kGtpInterfaceMd kGetSessionFailed
  | Some n => mret (GTP_OK, Some (mkFound pos n pack a))
  end.

(** [GtpPacketReceive]; [now_us] is the clock, [None] a null pointer. *)
Definition GtpPacketReceive_entry (junk : list Z * list Z) (now_us hdl : Z) (pack : option (list Z)) (pack_sz : Z) (tran_addr : option GtpAddr) : M (Z * option Found) :=
  match pack, tran_addr with
  | Some m, Some a =>
      r ← GtpHandlerToObj hdl;
      match r with
      | None => err kGtpMgrMd kInvalidGtpHandler
      | Some (pos, _) =>
          if 0 =? PacketHeader.goodtp_ver (PacketHeader.parse_header m) then err kGtpMgrMd kPeerVerTooOldErr
          else
            let m := plain_header (new_header m) in
            let a := stamp_key m pack_sz a in
            _ ← on_inst pos (mod_st (GoodTp.set_now now_us));
            n ← on_inst pos (GoodTp.GetSession junk a hdl GoodTp.kReceiver (PacketHeader.pack_sn (PacketHeader.parse_header m)) (sort_sn_of m));
            found_or pos n m a
      end
  | _, _ => err kGtpMgrMd kInvalidInPutParam
  end.

(** [GtpFrameSend]. *)
Definition GtpFrameSend_entry (junk : list Z * list Z) (now_us hdl : Z) (frame : option (list Z)) (size : Z) (tran_addr : option GtpAddr) : M (Z * option Found) :=
  match frame, tran_addr with
  | Some m, Some a =>
      if 0 =? size then err kGtpInterfaceMd kInvalidInPutParam
      else
        r ← GtpHandlerToObj hdl;
        match r with
        | None => err kGtpInterfaceMd kInvalidGtpHandler
        | Some (pos, _) =>
            _ ← on_inst pos (mod_st (GoodTp.set_now now_us));
            n ← on_inst pos (GoodTp.GetSession junk a hdl GoodTp.kSender 0 0);
            found_or pos n m a
        end
  | _, _ => err kGtpInterfaceMd kInvalidInPutParam
  end.
End Lookup.
#[global] Arguments mkFound {N} _ _ _ _.
#[global] Arguments fo_pos {N} _.
#[global] Arguments fo_session {N} _.
#[global] Arguments fo_pack {N} _.
#[global] Arguments fo_addr {N} _.
End Entry.
