(* ===== verification/StreamKey.v ===== *)
(** * The packets of a stream

    A session that is known by a key puts the key into every packet it frames
    and every control packet; the receiver's entry point finds it there. *)
From S2P Require Import Prelude Entry PacketHeader Frame FrameSpec FrameRun FrameSend FrameSendRun SlidWinState Feedback FeedbackRun.
Export FeedbackRun.
Import Entry.

Module StreamKey.

(** ** The key of a packet *)
Lemma load_apart n m off bs k : (k + n <= off \/ off + length bs <= k)%nat -> mem_load n (mem_store m off bs) k = mem_load n m k.
Proof. intros Hk. apply mem_load_ext. intros i Hi. rewrite mem_byte_store. by rewrite decide_False by lia. Qed.
Lemma load_back m off bs : mem_load (length bs) (mem_store m off bs) off = bs.
Proof.
  apply nth_eq_Z; rewrite mem_load_length; [done|]. intros i Hi. rewrite mem_load_byte, mem_byte_store by done.
  rewrite decide_True by lia. f_equal. lia.
Qed.
Lemma new_header_id m : bytes_ok m -> (10 <= length m)%nat -> goodtp_ver (parse_header m) <> 0 -> new_header m = m.
Proof.
  intros Hm Hl Hv. unfold new_header, GtpHeaderOldToNew. change (get_bits (load32 m 0) 0 8) with (goodtp_ver (parse_header m)).
  destruct (Z.eqb_spec (goodtp_ver (parse_header m)) 0); [done|]. by apply mem_store_same; [|lia].
Qed.
(** What is cleared in the packets of the first version. *)
Lemma plain_parse m : bytes_ok m ->
  let h := parse_header m in let h' := parse_header (plain_header m) in
  goodtp_ver h' = goodtp_ver h /\ pack_type h' = pack_type h /\ pack_sn h' = pack_sn h /\ has_check_flag h' = has_check_flag h /\
  repeat_counter h' = repeat_counter h /\ forall n k, (10 <= k)%nat -> mem_load n (plain_header m) k = mem_load n m k.
Proof.
  intros Hm. unfold plain_header. cbv zeta. destruct (_ <? 2); [|done]. set (w := set_bits _ 15 1 kRealTimeStream).
  assert (Hw : le_val (mem_load 2 (mem_store m 8 (le_bytes 2 w)) 8) = w).
  { rewrite <- (le_bytes_length 2 w) at 1. rewrite load_back, le_val_bytes. change (256 ^ Z.of_nat 2) with (2 ^ 16). apply Z.mod_small.
    unfold w. repeat (apply set_bits_range; [lia..|]). pose proof (le_val_range _ (bytes_ok_load 2 m 8 Hm)) as Hr. by rewrite mem_load_length in Hr. }
  unfold parse_header, load32. rewrite Hw, !load_apart by (rewrite ?le_bytes_length; lia). unfold parse_words, w.
  cbn [goodtp_ver pack_type pack_sn has_check_flag repeat_counter]. rewrite !get_set_bits_other by lia. split_and!; try done.
  intros n k Hk. apply load_apart. rewrite le_bytes_length. lia.
Qed.
Lemma embedded_plain m size : bytes_ok m -> embedded_key (plain_header m) size = embedded_key m size.
Proof.
  intros Hm. destruct (plain_parse m Hm) as (_ & E2 & _ & E4 & E5 & El). unfold embedded_key. cbv zeta. rewrite E2, E4, E5. unfold load32.
  rewrite !El by (unfold GTP_PACKET_SIZE; repeat case_match; lia). done.
Qed.

(** ** The packets of a stream *)

(** What the session with the key [key] sends: frames, for the first time or
    again, feedback, and control packets. *)
Definition keyed_by (key : Z) (a : SendSess) : Prop := gtp_peer a /\ enable_key_ a = GTP_YES /\ stream_key_ a = key.
Inductive of_stream (key : Z) : list Z -> Z -> Prop :=
| OfFrame ptr base now sys_id st pos fs h u first n p size st' :
    keyed_by key (fr_sess st) -> sess_ok (fr_sess st) -> bytes_ok (fr_mem st) -> 0 <= now < 2 ^ 64 -> 0 <= h < 2 ^ 32 -> 0 <= u < 2 ^ 32 ->
    0 <= first < 2 ^ 32 -> 0 <= n <= 7 -> MAX_HEADER <= pos -> 0 <= fs <= 8142 -> pos + fs <= Z.of_nat (length (fr_mem st)) ->
    FramePrepHandler ptr base now sys_id pos fs h u first n st = Some ((GTP_OK, p, size), st') ->
    of_stream key (pack_at st' p size) size
| OfFeedback now junk s r type num head tail rto loss body :
    keyed_by key (fb_sess s) -> fb_ok junk s -> report_ok r type num head tail rto loss body ->
    of_stream key (feedback_packet now junk s type num head tail rto loss body).1 (feedback_packet now junk s type num head tail rto loss body).2
| OfControl junk s type init has_ts has_rtt field :
    keyed_by key s -> header_ok junk -> type = kGtpSetRecvRttPackType \/ type = kGtpRttTstResPackType -> 0 <= init < 2 -> 0 <= has_ts < 2 ->
    0 <= has_rtt < 2 -> bytes_ok field -> Z.of_nat (length field) <= 8 ->
    of_stream key (control_packet junk s type init has_ts has_rtt field).1 (control_packet junk s type init has_ts has_rtt field).2.

(** Such a packet shows the key. *)
Record shows_key (key : Z) (m : list Z) (size : Z) : Prop := {
  sh_bytes : bytes_ok m;
  sh_length : (10 <= length m)%nat;
  sh_version : goodtp_ver (parse_header m) <> 0;
  sh_key : embedded_key m size = key
}.

Lemma key_at m size key : let h := parse_header m in
  pack_type h <> kGtpFecPackType -> has_check_flag h = GTP_YES -> off_check h + 8 <= size ->
  Z.lor (Z.shiftl (load_at 4 m (off_check h)) 32) (load_at 4 m (off_check h + 4)) = key -> embedded_key m size = key.
Proof.
  intros h Ht Hc Ho Hk. unfold embedded_key. fold h. rewrite (proj2 (Z.eqb_neq _ _)), Hc, Z.eqb_refl by done.
  unfold off_check, opt_size in *. rewrite (proj2 (Z.leb_le _ _)) by done. exact Hk.
Qed.
(** A packet with the key right behind the header. *)
Lemma key_in_front key s hdr rest size : 0 <= key < 2 ^ 64 -> keyed_by key s -> header_ok hdr -> goodtp_ver hdr <> 0 -> pack_type hdr <> kGtpFecPackType ->
  has_check_flag hdr = GTP_YES -> repeat_counter hdr = 0 -> 18 <= size -> bytes_ok rest ->
  shows_key key (encode_header hdr ++ key_bytes s ++ rest) size.
Proof.
  intros Hk (_ & He & <-) Hhdr Hv Ht Hc Hr Hs Hrest. assert (Hparse : forall l, parse_header (encode_header hdr ++ l) = hdr) by (intros; by apply parse_header_app).
  unfold key_bytes. rewrite He, Z.eqb_refl. unfold GtpWriteStreamKey. split; rewrite ?Hparse; try done.
  - unfold bytes_ok, encode_header. rewrite !Forall_app. split_and!; try done; apply le_bytes_ok.
  - rewrite length_app, encode_header_length. lia.
  - apply key_at; rewrite Hparse; [done|done|unfold off_check, GTP_PACKET_SIZE; rewrite Hr; cbn; lia|].
    unfold off_check. rewrite Hr. cbn [Z.eqb negb opt_size]. rewrite <- !app_assoc.
    rewrite (load_at_mid 4 (encode_header hdr)); [|by rewrite encode_header_length|apply u32_range].
    rewrite app_assoc, (load_at_mid 4); [|by rewrite length_app, encode_header_length, le_bytes_length|apply u32_range]. by apply key_halves.
Qed.

Lemma frame_shows ptr base now sys_id st pos fs h u first n p size st' key :
  keyed_by key (fr_sess st) -> 0 < key < 2 ^ 64 -> sess_ok (fr_sess st) -> bytes_ok (fr_mem st) -> 0 <= now < 2 ^ 64 -> 0 <= h < 2 ^ 32 ->
  0 <= u < 2 ^ 32 -> 0 <= first < 2 ^ 32 -> 0 <= n <= 7 -> MAX_HEADER <= pos -> 0 <= fs <= 8142 -> pos + fs <= Z.of_nat (length (fr_mem st)) ->
  FramePrepHandler ptr base now sys_id pos fs h u first n st = Some ((GTP_OK, p, size), st') -> shows_key key (pack_at st' p size) size.
Proof.
  intros (Hpeer & He & <-) Hk Hok Hmem Hnow Hh Hu Hfirst Hn Hpos Hfs Hroom Hrun'. set (a := fr_sess st) in *.
  destruct (prep_result ptr base now sys_id st pos fs h u first n Hpeer Hn Hpos ltac:(lia) Hroom)
    as (zone & stype & pad & st2 & Hst & Hpad & Hzn & _ & Hb & Hrun & _ & _ & _ & _ & Hpk & _). fold a in Hb, Hrun, Hpk.
  destruct (real_range a h u Hh Hu) as [HH HU]. destruct (keyed_check a h u ltac:(lia) ltac:(lia) He) as [Hdue _].
  set (img := packet_image now a (wire_ver a) zone stype fs (real_hash a h) (real_user_id a u) first n pad) in *. unfold MAX_HEADER in *.
  assert (Hver : 1 <= wire_ver a <= 2) by (unfold wire_ver; destruct (peer_version_ a =? 1); lia).
  rewrite u16_small, Z.mod_small in Hrun by lia. rewrite Hrun in Hrun'.
  assert (p = pos - Z.of_nat (length img) /\ size = Z.of_nat (length img) + fs /\ st' = st2) as (-> & -> & ->) by (clearbody img; split_and!; congruence). rewrite Hpk.
  assert (Hreads : reads now a (wire_ver a) (real_hash a h) (real_user_id a u) first n (img ++ pack_at st pos fs)) by (by apply pk_reads).
  destruct (reads_halves now a (wire_ver a) h u first n _ ltac:(lia) ltac:(lia) He Hreads) as (Hc & Ht & Hhalf). pose proof Hreads as (Hv & _ & _ & Hr & _).
  split.
  - by apply packet_bytes_ok, bytes_ok_load.
  - rewrite length_app. lia.
  - rewrite Hv. lia.
  - apply key_at; [by rewrite Ht|done| |done]. unfold off_check. rewrite Hr. unfold GTP_PACKET_SIZE.
    pose proof (packet_image_length now a (wire_ver a) zone stype fs (real_hash a h) (real_user_id a u) first n pad ltac:(lia)) as Hl. fold img in Hl. rewrite Hdue in Hl.
    cbn [opt_size] in Hl. assert (opt_size (negb (0 =? n)) 4 = opt_size (0 <? n) 4) as -> by (destruct (Z.eqb_spec 0 n), (Z.ltb_spec 0 n); try lia; done).
    pose proof (opt_size_range (loss_due a) 4). pose proof (opt_size_range (ts_due a) 8). pose proof (opt_size_range (rtt_due a) 4). pose proof (opt_size_range zone 8). lia.
Qed.
Lemma feedback_shows now junk s r type num head tail rto loss body key :
  keyed_by key (fb_sess s) -> 0 < key < 2 ^ 64 -> fb_ok junk s -> report_ok r type num head tail rto loss body ->
  let p := feedback_packet now junk s type num head tail rto loss body in shows_key key p.1 p.2.
Proof.
  intros Hkey Hk Hok Hr p. destruct (callback_run now junk s r type num head tail rto loss body Hok Hr) as (_ & _ & _ & _ & Hty & Hps). fold p in Hps.
  pose proof Hkey as (_ & He & _). assert (Hht : type <> kGtpFecPackType).
  { destruct Hr as [Hc]. destruct r; cbn in Hc; try done; injection Hc; intros; subst; done. }
  pose proof (pk_bytes now junk s type num head tail rto loss body) as Hb. fold p in Hb. rewrite Hb.
  pose proof (pk_size_eq now junk s type num head tail rto loss body) as Hsz. fold p in Hsz. rewrite He, Z.eqb_refl in Hsz. cbn [opt_size] in Hsz.
  pose proof (opt8_range (stamp_due s)). destruct Hr as [_ Hh Hl Hn Hbody _].
  apply key_in_front; try done; try lia.
  - by apply fb_hdr_ok.
  - unfold feedback_header. cbn [goodtp_ver]. rewrite (pk_version junk s Hok). unfold wire_ver. destruct (peer_version_ _ =? 1); lia.
  - unfold feedback_header. cbn [has_check_flag]. by rewrite He.
  - unfold bytes_ok, load_bytes. rewrite !Forall_app. split_and!; try apply le_bytes_ok; try done. destruct (stamp_due s); [apply le_bytes_ok|constructor].
Qed.
Lemma control_shows junk s type init has_ts has_rtt field key :
  keyed_by key s -> 0 < key < 2 ^ 64 -> header_ok junk -> type = kGtpSetRecvRttPackType \/ type = kGtpRttTstResPackType -> 0 <= init < 2 -> 0 <= has_ts < 2 ->
  0 <= has_rtt < 2 -> bytes_ok field -> Z.of_nat (length field) <= 8 ->
  let p := control_packet junk s type init has_ts has_rtt field in shows_key key p.1 p.2.
Proof.
  intros Hkey Hk Hj Ht Hi Hts Hrtt Hf Hl p. pose proof Hkey as (Hpeer & He & _). unfold p, control_packet. cbn [fst snd]. rewrite He, Z.eqb_refl.
  assert (Hkl : length (key_bytes s) = 8%nat) by (unfold key_bytes; rewrite He; done). rewrite Hkl.
  set (size := GTP_PACKET_SIZE + Z.of_nat 8 + Z.of_nat (length field)). set (hdr := control_header junk s type size GTP_YES has_ts has_rtt init).
  assert (Hver : goodtp_ver hdr = wire_ver s) by (unfold hdr, wire_ver; cbn; by destruct Hpeer as [->|[->| ->]]).
  assert (Hwv : 1 <= wire_ver s <= 2) by (unfold wire_ver; destruct (peer_version_ s =? 1); lia).
  assert (Hhdr : header_ok hdr).
  { destruct Hj as (_ & _ & _ & _ & _ & _ & _ & _ & _ & Hz & Hst). unfold header_ok. rewrite Hver. unfold hdr, control_header. cbn.
    pose proof (Z.mod_pos_bound (u8 size) 64 ltac:(lia)). pose proof (Z.mod_pos_bound (u16 size) 8192 ltac:(lia)).
    unfold GTP_NO, GTP_YES, kGtpSetRecvRttPackType, kGtpRttTstResPackType in *. repeat split; lia. }
  assert (Hsh : shows_key key (encode_header hdr ++ key_bytes s ++ field) size).
  { apply key_in_front; try done; try lia; [unfold hdr; cbn; by destruct Ht as [->| ->]|unfold size, GTP_PACKET_SIZE; lia]. }
  assert (E : forall m, bytes_ok m -> (10 <= length m)%nat -> mem_store m 0 (le_bytes 4 (GtpHeaderNewToOld (load32 m 0) (peer_version_ s))) = m).
  { intros m Hm Hlm. unfold GtpHeaderNewToOld. assert ((peer_version_ s =? 0) = false) as -> by (by destruct Hpeer as [->|[->| ->]]). apply mem_store_same; [done|lia]. }
  rewrite E by apply Hsh. exact Hsh.
Qed.
Lemma stream_shows key m size : 0 < key < 2 ^ 64 -> of_stream key m size -> shows_key key m size.
Proof. intros Hk Hm. destruct Hm; [eapply frame_shows; [..|eassumption]; assumption|by eapply feedback_shows|by apply control_shows]. Qed.
End StreamKey.
