(* ===== verification/EntrySpec.v ===== *)
(** * A stream keeps its session

    What the entry points answer: the invariant of the manager holds after each
    of them, and the packets of a stream reach one session of the receiver,
    from whatever addresses they come. *)
From S2P Require Import Prelude Bitmap StreamKey MemPoolSpec SessKey GoodTp GoodTpSpec Mgr MgrSpec Entry.
Import Bitmap.
Export StreamKey MgrSpec Entry.

Module EntrySpec.

Section Spec.
Context {Q N S W : Type} `{Countable N} `{!ItemPool Q N} `{!ItemPoolLaws Q N} `{!SessionOps S W} `{!SessionLaws S W}.
Local Abbreviation G := (GoodTp Q N S W).
Local Abbreviation Mg := (GtpInstMgr Q N S W).
Local Abbreviation entry := (GtpSessionKey * N)%type.

(** ** What an instance keeps of itself *)
Definition same_place (g g' : G) : Prop := handler_base_ g' = handler_base_ g /\ handler_ g' = handler_ g.
Definition keeps {A} (f : ST G A) : Prop := forall g r g', f g = Some (r, g') -> same_place g g'.
Lemma keeps_ret {A} (x : A) : keeps (mret x).
Proof. by intros g r g' [= <- <-]. Qed.
Lemma keeps_bind {A B} (f : ST G A) (k : A -> ST G B) : keeps f -> (forall x, keeps (k x)) -> keeps (f ≫= k).
Proof.
  intros Hf Hk g r g' Hrun. unfold mbind, ST_bind in Hrun. destruct (f g) as [[x g1]|] eqn:Ef; [|done].
  destruct (Hf _ _ _ Ef) as [E1 E2], (Hk _ _ _ _ Hrun) as [E3 E4]. split; congruence.
Qed.
Lemma keeps_get {A} (k : G -> ST G A) : (forall g, keeps (k g)) -> keeps (get_st ≫= k).
Proof. intros Hk g r g' Hrun. exact (Hk g g r g' Hrun). Qed.
Lemma keeps_mod f : (forall g, same_place g (f g)) -> keeps (mod_st f).
Proof. intros Hf g r g' Hrun. unfold mod_st in Hrun. injection Hrun as _ <-. apply Hf. Qed.
Lemma keeps_deref {A} (o : option A) : keeps (deref o).
Proof. intros g r g' Hrun. unfold deref in Hrun. destruct o; [|done]. by injection Hrun as _ <-. Qed.
Lemma keeps_fault {A} : keeps (fault : ST G A).
Proof. by intros g r g' Hrun. Qed.
Ltac keeps_steps := cbv zeta; repeat
  match goal with
  | |- keeps (mret _) => apply keeps_ret
  | |- keeps fault => apply keeps_fault
  | |- keeps (deref _) => apply keeps_deref
  | |- keeps (get_st ≫= _) => apply keeps_get; intros ?
  | |- keeps (_ ≫= _) => apply keeps_bind; [|intros ?]
  | |- keeps (mod_st _) => apply keeps_mod; intros ?; by split
  | |- keeps (match ?x with _ => _ end) => destruct x
  end; cbv zeta.
Lemma keeps_on_session n f : keeps (on_session n f).
Proof. unfold on_session. keeps_steps. Qed.
Lemma keeps_delete n : keeps (delete_session n).
Proof. unfold delete_session, get_session. keeps_steps. Qed.
Lemma keeps_pop n : keeps (pop_all n).
Proof. unfold pop_all. keeps_steps; apply keeps_on_session. Qed.
Lemma keeps_GetSession junk a app mode pack_sn sort_sn : keeps (GetSession junk a app mode pack_sn sort_sn).
Proof. unfold GetSession, BuildNewSession. keeps_steps; apply keeps_delete. Qed.
Lemma keeps_DelSpsSession junk now now' a : keeps (DelSpsSession junk now now' a).
Proof. unfold DelSpsSession, DelSpsSessionByKey, get_session. keeps_steps; first [apply keeps_on_session|apply keeps_pop|apply keeps_delete]. Qed.
Lemma keeps_wheel fuel : forall i, keeps (wheel fuel i).
Proof.
  induction fuel as [|fuel IH]; intros i; cbn [wheel]; [apply keeps_fault|]. unfold get_session.
  keeps_steps; first [apply keeps_on_session|apply keeps_pop|apply keeps_delete|apply IH].
Qed.
Lemma keeps_CheckResourceActiveStatus now : keeps (CheckResourceActiveStatus now).
Proof. unfold CheckResourceActiveStatus. keeps_steps. apply keeps_wheel. Qed.
Lemma wp_keeps {A} (f : ST G A) R g : keeps f -> wp f R g -> wp f (fun r g' => R r g' /\ same_place g g') g.
Proof. intros Hk Hf. destruct (wp_total _ _ _ Hf) as (r & g' & Hrun & HR). eapply wp_intro; [exact Hrun|]. split; [done|by eapply Hk]. Qed.

(** A step of an instance that leaves its table well formed. *)
Lemma stepped_ok pos g g' (m : Mg) : mgr_ok m -> goodtp_inst_ m !! pos = Some (Some g) -> table_ok g' -> same_place g g' ->
  mgr_ok (set_inst (<[pos := Some g']> (goodtp_inst_ m)) m).
Proof.
  intros [H1 H2 H3 H4 H5] Hg Ht [E1 E2]. destruct (H5 _ _ Hg) as (B1 & B2 & _). split; try done; cbn; [by rewrite length_insert| |].
  - rewrite H4, (countb_insert _ _ _ (Some g)) by done. cbn [some_b ind]. lia.
  - intros p x Hx. destruct (decide (p = pos)) as [->|Hne]; [|rewrite list_lookup_insert_ne in Hx by done; by apply H5].
    rewrite list_lookup_insert_eq in Hx by (by eapply lookup_lt_Some). injection Hx as <-. split_and!; [congruence..|done].
Qed.
Lemma wp_inst_step {A} pos (f : ST G A) (m : Mg) g R : mgr_ok m -> goodtp_inst_ m !! pos = Some (Some g) -> keeps f ->
  wp f (fun r g' => table_ok g' /\ R r g') g ->
  wp (on_inst pos f) (fun r m' => mgr_ok m' /\ exists g', m' = set_inst (<[pos := Some g']> (goodtp_inst_ m)) m /\ R r g') m.
Proof.
  intros Hm Hg Hk Hf. eapply wp_on_inst; [exact Hg|]. eapply wp_mono; [apply (wp_keeps _ _ _ Hk Hf)|]. cbn beta.
  intros r g' [[Ht HR] Hs]. split; [by eapply stepped_ok|]. by exists g'.
Qed.

(** ** The entry points *)

(** The tables of the instances. *)
Definition tables (m : Mg) : list (option (list entry)) := (fun o : option G => (fun g : G => session_map_ g) <$> o) <$> goodtp_inst_ m.
Lemma tables_same pos g g' (m m' : Mg) : goodtp_inst_ m !! pos = Some (Some g) -> goodtp_inst_ m' = <[pos := Some g']> (goodtp_inst_ m) ->
  session_map_ g' = session_map_ g -> tables m' = tables m.
Proof.
  intros Hg Hi Hs. unfold tables. rewrite Hi, list_fmap_insert. apply list_insert_id. rewrite list_lookup_fmap, Hg. cbn. by rewrite Hs.
Qed.
Definition the_place (hdl : Z) (m : Mg) : nat := Z.to_nat (hdl - g_goodtp_handler_base m).
Definition refused (hdl : Z) (m : Mg) : Prop :=
  forall g, 0 <= hdl - g_goodtp_handler_base m < 64 -> goodtp_inst_ m !! the_place hdl m <> Some (Some g).

(** The search for the session at the end of both entry points. *)
Lemma wp_search junk now pos g a app mode psn ssn pack (m : Mg) : mgr_ok m -> goodtp_inst_ m !! pos = Some (Some g) ->
  wp (_ ← on_inst pos (mod_st (set_now now)); n ← on_inst pos (GetSession junk a app mode psn ssn); found_or pos n pack a)
    (fun r m' => mgr_ok m' /\ exists g' o, m' = set_inst (<[pos := Some g']> (goodtp_inst_ m)) m /\ served (key_of_addr junk a) (set_now now g) o g' /\
       r = match o with Some n => (GTP_OK, Some (mkFound pos n pack a)) | None => (GEN_ERR (sys_id_ m) kGtpInterfaceMd kGetSessionFailed, None) end) m.
Proof.
  intros Hm Hg. destruct (mg_inst m Hm _ _ Hg) as (_ & _ & Ht). assert (Ht' : table_ok (set_now now g)) by (by destruct Ht).
  apply wp_bind. eapply wp_mono.
  { apply (wp_inst_step pos _ m g (fun _ g' => g' = set_now now g) Hm Hg); [by apply keeps_mod|]. by apply wp_mod. }
  cbn beta. intros _ m1 (Hm1 & g1 & -> & ->). set (m1 := set_inst _ m) in *.
  assert (Hg1 : goodtp_inst_ m1 !! pos = Some (Some (set_now now g))) by (apply list_lookup_insert_eq; by eapply lookup_lt_Some).
  apply wp_bind. eapply wp_mono.
  { apply (wp_inst_step pos _ m1 _ (fun o g' => served (key_of_addr junk a) (set_now now g) o g') Hm1 Hg1); [apply keeps_GetSession|]. by apply wp_GetSession. }
  cbn beta. intros o m2 (Hm2 & g2 & -> & Hs). set (m2 := set_inst _ m1) in *.
  assert (Ei : m2 = set_inst (<[pos := Some g2]> (goodtp_inst_ m)) m) by (unfold m2, m1; cbn; by rewrite list_insert_insert_eq).
  unfold found_or. destruct o as [n|].
  - apply wp_ret. split; [done|]. by exists g2, (Some n).
  - unfold err. apply wp_bind, wp_get, wp_ret. split; [done|]. exists g2, None. split_and!; [done|done|]. by rewrite Ei.
Qed.
(** How an entry point ends: nothing is behind the handle, or the session was
    searched for. *)
Definition answered (md : Z) (k : GtpSessionKey) (now hdl : Z) (pack : list Z) (a : GtpAddr) (m : Mg) (r : Z * option (Found (N := N))) (m' : Mg) : Prop :=
  mgr_ok m' /\ g_goodtp_handler_base m' = g_goodtp_handler_base m /\
  ((refused hdl m /\ tables m' = tables m /\ r = (GEN_ERR (sys_id_ m) md kInvalidGtpHandler, None)) \/
   exists g g' o, 0 <= hdl - g_goodtp_handler_base m < 64 /\ goodtp_inst_ m !! the_place hdl m = Some (Some g) /\
     goodtp_inst_ m' = <[the_place hdl m := Some g']> (goodtp_inst_ m) /\ served k (set_now now g) o g' /\
     r = match o with Some n => (GTP_OK, Some (mkFound (the_place hdl m) n pack a)) | None => (GEN_ERR (sys_id_ m) kGtpInterfaceMd kGetSessionFailed, None) end).
Lemma wp_entry md junk now hdl a app mode psn ssn pack (m : Mg) : mgr_ok m ->
  wp (r ← GtpHandlerToObj hdl;
      match r with
      | None => err md kInvalidGtpHandler
      | Some (pos, _) => _ ← on_inst pos (mod_st (set_now now)); n ← on_inst pos (GetSession junk a app mode psn ssn); found_or pos n pack a
      end) (answered md (key_of_addr junk a) now hdl pack a m) m.
Proof.
  intros Hm. apply wp_bind. apply wp_handler; [done| |].
  - intros pos flag Hr ->. fold (the_place hdl m). destruct (goodtp_inst_ m !! the_place hdl m) as [[g|]|] eqn:Hg;
      [|unfold err; apply wp_bind, wp_get, wp_ret; split; [by apply flagged_ok|]; split; [done|]; left; split; [|done]; intros g _; by rewrite Hg..].
    eapply wp_mono; [apply (wp_search junk now (the_place hdl m) g a app mode psn ssn pack (set_flag flag m)); [by apply flagged_ok|exact Hg]|].
    cbn beta. intros r m' (Hm' & g' & o & -> & Hs & ->). split; [done|]. split; [done|]. right. by exists g, g', o.
  - intros Hr. unfold err. apply wp_bind, wp_get, wp_ret. split; [done|]. split; [done|]. left. split; [|done]. intros g Hin. lia.
Qed.
Lemma wp_receive junk now hdl p size a (m : Mg) : mgr_ok m ->
  PacketHeader.PacketHeader.goodtp_ver (PacketHeader.PacketHeader.parse_header p) <> 0 ->
  wp (GtpPacketReceive_entry junk now hdl (Some p) size (Some a))
    (answered kGtpMgrMd (key_of_addr junk (stamp_key (plain_header (new_header p)) size a)) now hdl (plain_header (new_header p))
       (stamp_key (plain_header (new_header p)) size a) m) m.
Proof.
  intros Hm Hv. unfold GtpPacketReceive_entry. rewrite (proj2 (Z.eqb_neq 0 _)) by (intros E; by symmetry in E). by apply wp_entry.
Qed.
Lemma wp_send junk now hdl p size a (m : Mg) : mgr_ok m -> size <> 0 ->
  wp (GtpFrameSend_entry junk now hdl (Some p) size (Some a)) (answered kGtpInterfaceMd (key_of_addr junk a) now hdl p a m) m.
Proof. intros Hm Hs. unfold GtpFrameSend_entry. rewrite (proj2 (Z.eqb_neq 0 _)) by (intros E; by symmetry in E). by apply wp_entry. Qed.

(** ** The session of a stream *)
Definition names (key : Z) (k : GtpSessionKey) : Prop := key_ k = key /\ key_3rd_flag_ k = GTP_YES.
Definition with_key (key : Z) (a : GtpAddr) : Prop := enable_key_ a = GTP_YES /\ stream_key_ a = key.
(** No session without a key has the number [key] by chance. *)
Definition no_flow (key : Z) (l : list entry) : Prop := Forall (fun e => key_ e.1 = key -> key_3rd_flag_ e.1 = GTP_YES) l.
Definition no_flow_in (key hdl : Z) (m : Mg) : Prop := forall g, goodtp_inst_ m !! the_place hdl m = Some (Some g) -> no_flow key (session_map_ g).

Lemma with_key_names key junk a : with_key key a -> names key (key_of_addr junk a).
Proof.
  intros [He <-]. unfold key_of_addr. rewrite He. cbn [Z.eqb GTP_NO GTP_YES].
  by destruct (GtpSockAddrToBinAddr _) as [[? ?] ?], (self_bin _) as [[? ?] ?].
Qed.
Lemma names_eq key k r : names key k -> (key_ r = key -> key_3rd_flag_ r = GTP_YES) -> key_eq k r = bool_decide (key_ r = key).
Proof.
  intros [E1 E2] Hr. unfold key_eq. rewrite E1, E2. destruct (Z.eqb_spec key (key_ r)) as [E|E]; cbn [negb].
  - rewrite (Hr (eq_sym E)). symmetry. by apply bool_decide_eq_true.
  - symmetry. apply bool_decide_eq_false. congruence.
Qed.
Lemma find_names key k k' (l : list entry) : names key k -> names key k' -> no_flow key l -> find_key k l = find_key k' l.
Proof.
  intros Hk Hk' Hl. unfold find_key. induction Hl as [|e l He Hl IH]; [done|]. cbn [list_find]. rewrite IH.
  assert (E : key_eq k e.1 = key_eq k' e.1) by (by rewrite !(names_eq key)).
  destruct (decide (key_eq k e.1 = true)); [rewrite decide_True by congruence|rewrite decide_False by congruence]; done.
Qed.
(** Once a session was found or made, every packet of the stream finds it. *)
Lemma find_stream key k k' (g : G) n (g' : G) : names key k -> names key k' -> no_flow key (session_map_ g) -> served k g (Some n) g' ->
  exists i e, find_key k' (session_map_ g') = Some (i, e) /\ e.2 = n.
Proof.
  intros Hk Hk' Hl [_ Hs]. destruct (find_key k (session_map_ g)) as [[i e]|] eqn:Hf.
  - destruct Hs as [[= ->] ->]. exists i, e. split; [|done]. by rewrite <- (find_names key k k').
  - destruct Hs as [-> _]. exists 0%nat, (k, n). split; [|done]. unfold find_key. cbn [list_find fst]. rewrite decide_True; [done|].
    rewrite (names_eq key k' k Hk'); [by apply bool_decide_eq_true, Hk|]. intros _. apply Hk.
Qed.

Lemma stamped key p size a : 0 < key -> shows_key key p size -> enable_key_ a = GTP_NO -> with_key key (stamp_key (plain_header (new_header p)) size a).
Proof.
  intros Hk [Hb Hl Hv He] Ha. unfold stamp_key. rewrite Ha, Z.eqb_refl, new_header_id, embedded_plain, He by done.
  by rewrite (proj2 (Z.eqb_neq 0 key)) by lia.
Qed.

(** ** Any traffic *)

(** Packets that arrive and frames that are sent, on any handle. *)
Inductive Traffic :=
| Arrives (junk : list Z * list Z) (now_us hdl : Z) (pack : option (list Z)) (size : Z) (a : option GtpAddr)
| Sent (junk : list Z * list Z) (now_us hdl : Z) (frame : option (list Z)) (size : Z) (a : option GtpAddr).
Definition traffic_step (c : Traffic) : ST Mg unit :=
  match c with
  | Arrives junk now hdl pack size a => _ ← GtpPacketReceive_entry junk now hdl pack size a; mret tt
  | Sent junk now hdl frame size a => _ ← GtpFrameSend_entry junk now hdl frame size a; mret tt
  end.
Fixpoint traffic_run (l : list Traffic) : ST Mg unit := match l with [] => mret tt | c :: l' => _ ← traffic_step c; traffic_run l' end.
(** The key the session of the call is searched under. *)
Definition traffic_key (c : Traffic) : option GtpSessionKey :=
  match c with
  | Arrives junk _ _ (Some p) size (Some a) => Some (key_of_addr junk (stamp_key (plain_header (new_header p)) size a))
  | Sent junk _ _ (Some _) _ (Some a) => Some (key_of_addr junk a)
  | _ => None
  end.
(** A call for a flow without a key does not have the number [key] by chance. *)
Definition no_chance (key : Z) (c : Traffic) : Prop :=
  forall k, traffic_key c = Some k -> key_ k = key -> key_3rd_flag_ k = GTP_YES.

(** The session [n] of the place [pos] is the one of the stream [key]. *)
Definition kept (key base : Z) (pos : nat) (n : N) (m : Mg) : Prop :=
  mgr_ok m /\ g_goodtp_handler_base m = base /\ exists l, tables m !! pos = Some (Some l) /\ no_flow key l /\
    forall k, names key k -> exists i e, find_key k l = Some (i, e) /\ e.2 = n.

Lemma kept_tables key base pos n (m m' : Mg) : kept key base pos n m -> mgr_ok m' ->
  g_goodtp_handler_base m' = g_goodtp_handler_base m -> tables m' = tables m -> kept key base pos n m'.
Proof. intros (_ & <- & Hl) Hm' Hb Ht. split; [done|]. split; [done|]. by rewrite Ht. Qed.
Lemma tables_at pos (m : Mg) l : tables m !! pos = Some (Some l) -> exists g, goodtp_inst_ m !! pos = Some (Some g) /\ session_map_ g = l.
Proof.
  unfold tables. rewrite list_lookup_fmap. destruct (goodtp_inst_ m !! pos) as [[g|]|]; [|done|done]. intros [= <-]. by exists g.
Qed.
Lemma tables_insert pos g' (m m' : Mg) : goodtp_inst_ m' = <[pos := Some g']> (goodtp_inst_ m) -> tables m' = <[pos := Some (session_map_ g')]> (tables m).
Proof. intros Hi. unfold tables. by rewrite Hi, list_fmap_insert. Qed.

Lemma find_key_cons k k' (n : N) (l : list entry) : key_eq k k' = false -> forall i e, find_key k l = Some (i, e) -> find_key k ((k', n) :: l) = Some (Datatypes.S i, e).
Proof. intros Hk i e Hf. unfold find_key in *. cbn [list_find fst]. rewrite Hk, decide_False by done. by rewrite Hf. Qed.

(** A search for another flow, or for the stream itself, leaves it alone. *)
Lemma kept_answered key base pos n md k now hdl p a (m m' : Mg) r : kept key base pos n m -> (key_ k = key -> key_3rd_flag_ k = GTP_YES) ->
  answered md k now hdl p a m r m' -> kept key base pos n m'.
Proof.
  intros Hkept Hk (Hm' & Hb & Hcase). destruct Hcase as [(_ & Ht & _)|(g & g' & o & _ & Hg & Hi & Hs & _)]; [by eapply kept_tables|].
  destruct Hkept as (_ & <- & l & Hl & Hno & Hf). split; [done|]. split; [done|]. rewrite (tables_insert _ _ _ _ Hi).
  destruct (decide (pos = the_place hdl m)) as [->|Hne]; [|rewrite list_lookup_insert_ne by done; by exists l].
  rewrite list_lookup_insert_eq by (by eapply lookup_lt_Some). exists (session_map_ g'). split; [done|].
  destruct (tables_at _ _ _ Hl) as (g0 & Hg0 & <-). assert (g0 = g) as -> by congruence.
  destruct Hs as [_ Hs]. change (session_map_ (set_now now g)) with (session_map_ g) in Hs.
  destruct (find_key k (session_map_ g)) as [[i e]|] eqn:Hfk; [by destruct Hs as [_ ->]|].
  destruct o as [n'|]; [|by rewrite Hs]. destruct Hs as [-> _].
  assert (Hnk : key_ k <> key).
  { intros E. destruct (Hf k (conj E (Hk E))) as (i & e & Hfe & _). congruence. }
  split; [constructor; [|done]; cbn; by intros E|].
  intros k' Hk'. destruct (Hf k' Hk') as (i & e & Hfe & He). exists (Datatypes.S i), e. split; [|done]. apply find_key_cons; [|done].
  rewrite (names_eq key k' k Hk') by done. by apply bool_decide_eq_false.
Qed.

Lemma kept_flag key base pos n f (m : Mg) : kept key base pos n m -> kept key base pos n (set_flag f m).
Proof. intros [Hm Hl]. split; [by apply flagged_ok|exact Hl]. Qed.
Lemma kept_err key base pos n md code (m : Mg) : kept key base pos n m -> wp (_ ← err (N := N) md code; mret tt) (fun _ => kept key base pos n) m.
Proof. intros Hm. apply wp_bind. unfold err. by apply wp_bind, wp_get, wp_ret, wp_ret. Qed.

Lemma kept_traffic key base pos n c (m : Mg) : kept key base pos n m -> no_chance key c -> wp (traffic_step c) (fun _ => kept key base pos n) m.
Proof.
  intros Hm Hc. pose proof (proj1 Hm) as Hok. destruct c as [junk now hdl [p|] size [a|]|junk now hdl [p|] size [a|]]; cbn [traffic_step]; try (by apply kept_err).
  - destruct (Z.eqb_spec 0 (PacketHeader.PacketHeader.goodtp_ver (PacketHeader.PacketHeader.parse_header p))) as [E|E].
    + unfold GtpPacketReceive_entry. apply wp_bind, wp_bind. apply wp_handler; [done| |].
      * intros pos' flag _ _. apply (kept_flag _ _ _ _ flag) in Hm. rewrite <- E. destruct (goodtp_inst_ m !! pos') as [[g|]|]; by apply wp_bind, wp_get, wp_ret, wp_ret.
      * intros _. by apply wp_bind, wp_get, wp_ret, wp_ret.
    + apply wp_bind. eapply wp_mono; [apply wp_receive; [done|by intros E'; symmetry in E']|]. intros r m' Ha. apply wp_ret.
      eapply kept_answered; [exact Hm| |exact Ha]. exact (Hc _ eq_refl).
  - destruct (Z.eqb_spec 0 size) as [<-|E]; [unfold GtpFrameSend_entry; cbn [Z.eqb]; by apply kept_err|].
    apply wp_bind. eapply wp_mono; [apply wp_send; [done|by intros E'; symmetry in E']|]. intros r m' Ha. apply wp_ret.
    eapply kept_answered; [exact Hm| |exact Ha]. exact (Hc _ eq_refl).
Qed.
Lemma kept_run key base pos n l : forall (m : Mg), kept key base pos n m -> Forall (no_chance key) l ->
  exists m', traffic_run l m = Some (tt, m') /\ kept key base pos n m'.
Proof.
  induction l as [|c l IH]; intros m Hm Hl; [by exists m|]. apply Forall_cons in Hl as [Hc Hl].
  destruct (wp_total _ _ _ (kept_traffic key base pos n c m Hm Hc)) as ([] & m1 & Hrun & Hm1). destruct (IH m1 Hm1 Hl) as (m' & Hrun' & Hm').
  exists m'. split; [|done]. cbn [traffic_run]. unfold mbind, ST_bind. by rewrite Hrun.
Qed.

(** The place behind a handle. *)
Definition place_of (hdl base : Z) : nat := Z.to_nat (hdl - base).

(** A search under the key finds the session. *)
Lemma kept_found key n md k now hdl base p a (m m' : Mg) r : kept key base (place_of hdl base) n m -> 0 <= hdl - base < 64 -> names key k ->
  answered md k now hdl p a m r m' -> mgr_ok m' /\ tables m' = tables m /\ r = (GTP_OK, Some (mkFound (place_of hdl base) n p a)).
Proof.
  intros (_ & <- & l & Hl & Hno & Hf) Hr Hk (Hm' & _ & Hcase). split; [done|]. destruct (tables_at _ _ _ Hl) as (g & Hg & <-).
  change (place_of hdl (g_goodtp_handler_base m)) with (the_place hdl m) in *.
  destruct Hcase as [(Href & _)|(g0 & g' & o & _ & Hg0 & Hi & [_ Hs] & ->)]; [by destruct (Href g Hr)|].
  assert (g0 = g) as -> by congruence. destruct (Hf k Hk) as (i & e & Hfe & He).
  change (session_map_ (set_now now g)) with (session_map_ g) in Hs. rewrite Hfe in Hs. destruct Hs as [-> ->].
  split; [|by rewrite He]. by eapply (tables_same _ g (set_now now g)).
Qed.

(** Once a session was found or made for the stream, it is kept. *)
Lemma answered_keeps key md k now hdl p a (m m' : Mg) f : names key k -> no_flow_in key hdl m ->
  answered md k now hdl p a m (GTP_OK, Some f) m' ->
  kept key (g_goodtp_handler_base m) (fo_pos f) (fo_session f) m' /\ fo_pos f = the_place hdl m /\ 0 <= hdl - g_goodtp_handler_base m < 64.
Proof.
  intros Hk Hno (Hm' & Hb & Hcase). destruct Hcase as [(_ & _ & ?)|(g & g' & o & Hr & Hg & Hi & Hs & Ho)]; [done|].
  destruct o as [n|]; [|done]. injection Ho as ->. cbn [fo_pos fo_session]. split; [|done]. split; [done|]. split; [done|].
  exists (session_map_ g'). rewrite (tables_insert _ _ _ _ Hi). split.
  { apply list_lookup_insert_eq. unfold tables. rewrite length_fmap. by eapply lookup_lt_Some. }
  split; [|intros k' Hk'; exact (find_stream key k k' (set_now now g) n g' Hk Hk' (Hno g Hg) Hs)].
  destruct Hs as [_ Hs]. change (session_map_ (set_now now g)) with (session_map_ g) in Hs.
  destruct (find_key k (session_map_ g)) as [[i e]|]; [destruct Hs as [_ ->]; exact (Hno g Hg)|].
  destruct Hs as [-> _]. constructor; [by intros _; apply Hk|exact (Hno g Hg)].
Qed.

(** In the state [m], every packet of the stream that arrives and every frame
    sent under its key gets the session [n], and changes no table. *)
Definition same_session (key hdl : Z) (pos : nat) (n : N) (m : Mg) : Prop :=
  (forall junk now p size a, of_stream key p size -> enable_key_ a = GTP_NO ->
     exists f m', GtpPacketReceive_entry junk now hdl (Some p) size (Some a) m = Some ((GTP_OK, Some f), m') /\ mgr_ok m' /\
       tables m' = tables m /\ fo_pos f = pos /\ fo_session f = n) /\
  (forall junk now p size a, size <> 0 -> with_key key a ->
     exists f m', GtpFrameSend_entry junk now hdl (Some p) size (Some a) m = Some ((GTP_OK, Some f), m') /\ mgr_ok m' /\
       tables m' = tables m /\ fo_pos f = pos /\ fo_session f = n).

Lemma kept_same key hdl base n (m : Mg) : 0 < key < 2 ^ 64 -> 0 <= hdl - base < 64 ->
  kept key base (place_of hdl base) n m -> same_session key hdl (place_of hdl base) n m.
Proof.
  intros Hk Hr Hm. split; intros junk now p size a H1 H2.
  - pose proof (stream_shows key p size Hk H1) as Hsh. pose proof (stamped key p size a ltac:(lia) Hsh H2) as Hw.
    destruct (wp_total _ _ _ (wp_receive junk now hdl p size a m (proj1 Hm) (sh_version _ _ _ Hsh))) as (r & m' & Hrun & Hans).
    destruct (kept_found key n _ _ _ _ _ _ _ _ _ _ Hm Hr (with_key_names key junk _ Hw) Hans) as (H3 & H4 & ->). by eexists _, m'.
  - destruct (wp_total _ _ _ (wp_send junk now hdl p size a m (proj1 Hm) H1)) as (r & m' & Hrun & Hans).
    destruct (kept_found key n _ _ _ _ _ _ _ _ _ _ Hm Hr (with_key_names key junk _ H2) Hans) as (H3 & H4 & ->). by eexists _, m'.
Qed.

(** C9: a stream keeps its session for as long as nothing is deleted.  A packet
    of a stream with a key - a frame, a repetition, an ack, a nack or a control
    packet - comes from an address that the application knows no key for, while
    no session without a key has the same 64-bit number by chance: the receiver
    reads the key from the packet and finds or makes a session of that key, or
    it answers an error and the tables of all instances are as they were.  From
    then on any packets arrive and any frames are sent, of this stream and of
    others, on any handle and in any order - only no call for a flow without a
    key whose number is the stream's by chance, and no timer and no deletion
    in between, which may end the session: after them every packet of the
    stream that arrives, from whatever address and socket, and every frame that
    is sent under the key gets the same session, and changes no table. *)
Theorem stream_keeps_session key junk now hdl p size a (m : Mg) :
  mgr_ok m -> 0 < key < 2 ^ 64 -> of_stream key p size -> enable_key_ a = GTP_NO -> no_flow_in key hdl m ->
  exists r m', GtpPacketReceive_entry junk now hdl (Some p) size (Some a) m = Some (r, m') /\ mgr_ok m' /\
    match r.2 with
    | None => r.1 <> GTP_OK /\ tables m' = tables m
    | Some f => r.1 = GTP_OK /\ with_key key (fo_addr f) /\
        forall l, Forall (no_chance key) l ->
          exists m1, traffic_run l m' = Some (tt, m1) /\ mgr_ok m1 /\ same_session key hdl (fo_pos f) (fo_session f) m1
    end.
Proof.
  intros Hm Hk Hp Ha Hno. pose proof (stream_shows key p size Hk Hp) as Hsh.
  pose proof (stamped key p size a ltac:(lia) Hsh Ha) as Hw. set (a1 := stamp_key _ size a) in *.
  destruct (wp_total _ _ _ (wp_receive junk now hdl p size a m Hm (sh_version _ _ _ Hsh))) as (r & m' & Hrun & Hans). fold a1 in Hans.
  exists r, m'. split; [exact Hrun|]. pose proof Hans as (Hm' & _ & Hcase). split; [done|].
  assert (Herr : forall md code, Z.land code 0xffff <> 0 -> GEN_ERR (sys_id_ m) md code <> GTP_OK) by (intros md code; apply GEN_ERR_nonzero).
  destruct Hcase as [(_ & Ht & ->)|(g & g' & o & _ & Hg & Hi & [_ Hs] & ->)]; [split; [by apply Herr|done]|].
  destruct o as [n|]; cbn [fst snd].
  2: { split; [by apply Herr|]. eapply tables_same; [exact Hg|exact Hi|]. by destruct (find_key _ _) as [[? ?]|]; [destruct Hs|]. }
  split; [done|]. split; [exact Hw|]. intros l Hl.
  destruct (answered_keeps key _ _ _ _ _ _ _ _ _ (with_key_names key junk a1 Hw) Hno Hans) as (Hkept & _ & Hr).
  destruct (kept_run _ _ _ _ l m' Hkept Hl) as (m1 & Hrun1 & Hkept1). exists m1. split; [done|]. split; [apply Hkept1|].
  by apply kept_same.
Qed.

(** ** Any calls of the application *)
Inductive ApiCall :=
| ApiCreate (tid system_id ttl : Z) (cb : option GtpCallBackParam) (cfg : MemPoolConfig) (b : Birth Q W)
| ApiDelete (tid now_us hdl : Z)
| ApiTimer (now_us hdl : Z)
| ApiDelLinker (junk : list Z * list Z) (now_us now_us' hdl : Z) (a : option GtpAddr)
| ApiSend (junk : list Z * list Z) (now_us hdl : Z) (frame : option (list Z)) (size : Z) (a : option GtpAddr)
| ApiReceive (junk : list Z * list Z) (now_us hdl : Z) (pack : option (list Z)) (size : Z) (a : option GtpAddr)
| ApiQuality (quality : Z -> S -> Z * Z) (junk : list Z * list Z) (hdl : Z) (key : option GtpLinkerKey)
| ApiNumber (hdl : Z)
| ApiLastError (tid : Z).
Definition api_step (c : ApiCall) : ST Mg unit :=
  match c with
  | ApiCreate tid system_id ttl cb cfg b => _ ← CreateGtpInstance tid system_id ttl cb cfg b; mret tt
  | ApiDelete tid now_us hdl => _ ← DeleteGtpInstance tid now_us hdl; mret tt
  | ApiTimer now_us hdl => _ ← PeriodGtpTimer now_us hdl; mret tt
  | ApiDelLinker junk now_us now_us' hdl a => DelGtpLinker junk now_us now_us' hdl a
  | ApiSend junk now_us hdl frame size a => _ ← GtpFrameSend_entry junk now_us hdl frame size a; mret tt
  | ApiReceive junk now_us hdl pack size a => _ ← GtpPacketReceive_entry junk now_us hdl pack size a; mret tt
  | ApiQuality quality junk hdl key => _ ← GetLinkerQuality quality junk hdl key; mret tt
  | ApiNumber hdl => _ ← GetSessionNumber hdl; mret tt
  | ApiLastError tid => _ ← LastGtpErrorInfo tid; mret tt
  end.
Fixpoint api_run (l : list ApiCall) : ST Mg unit := match l with [] => mret tt | c :: l' => _ ← api_step c; api_run l' end.
(** Threads have numbers, and a pool that was set up is empty. *)
Definition call_ok (c : ApiCall) : Prop :=
  match c with
  | ApiCreate tid _ _ _ _ b => tid <> GTP_INVALID /\ birth_ok (N := N) b
  | ApiDelete tid _ _ | ApiLastError tid => tid <> GTP_INVALID
  | _ => True
  end.

(** Behind a handle: a step of the instance, or nothing. *)
Lemma wp_on_handle {A} hdl (none : ST Mg A) (some : nat -> G -> ST Mg A) (R : Mg -> Prop) (m : Mg) : mgr_ok m ->
  (forall m1, mgr_ok m1 -> wp none (fun _ => R) m1) -> (forall pos g m1, mgr_ok m1 -> goodtp_inst_ m1 !! pos = Some (Some g) -> wp (some pos g) (fun _ => R) m1) ->
  wp (r ← GtpHandlerToObj hdl; match r with None => none | Some (pos, g) => some pos g end) (fun _ => R) m.
Proof.
  intros Hm Hnone Hsome. apply wp_bind, wp_handler; [done| |by auto]. intros pos flag _ _.
  destruct (goodtp_inst_ m !! pos) as [[g|]|] eqn:Hg; [apply Hsome; [by apply flagged_ok|exact Hg]|apply Hnone; by apply flagged_ok..].
Qed.
Lemma wp_err md code (m : Mg) : mgr_ok m -> wp (err md code) (fun _ => mgr_ok) m.
Proof. intros Hm. unfold err. by apply wp_bind, wp_get, wp_ret. Qed.
Lemma wp_step_ok {A} pos (f : ST G A) (m : Mg) g : mgr_ok m -> goodtp_inst_ m !! pos = Some (Some g) -> keeps f ->
  wp f (fun _ => table_ok) g -> wp (on_inst pos f) (fun _ => mgr_ok) m.
Proof.
  intros Hm Hg Hk Hf. eapply wp_mono; [apply (wp_inst_step pos f m g (fun _ _ => True) Hm Hg Hk); eapply wp_mono; [exact Hf|done]|]. by intros r m' [Hm' _].
Qed.
Lemma wp_search_ok junk now pos g a app mode psn ssn pack (m : Mg) : mgr_ok m -> goodtp_inst_ m !! pos = Some (Some g) ->
  wp (_ ← on_inst pos (mod_st (set_now now)); n ← on_inst pos (GetSession junk a app mode psn ssn); found_or pos n pack a) (fun _ => mgr_ok) m.
Proof. intros Hm Hg. eapply wp_mono; [by eapply wp_search|]. by intros r m' [Hm' _]. Qed.
Lemma wp_period_timer now hdl (m : Mg) : mgr_ok m -> wp (PeriodGtpTimer now hdl) (fun _ => mgr_ok) m.
Proof.
  intros Hm. unfold PeriodGtpTimer. apply wp_on_handle; [done|intros m1 H1; by apply wp_bind, wp_get, wp_ret|]. intros pos g m1 H1 Hg.
  apply wp_bind. eapply wp_mono; [eapply wp_step_ok; [exact H1|exact Hg|apply keeps_CheckResourceActiveStatus|]|by intros ? ? ?; apply wp_ret].
  destruct (mg_inst m1 H1 _ _ Hg) as (_ & _ & Ht). unfold CheckResourceActiveStatus. apply wp_bind, wp_mod, wp_bind, wp_mod, wp_bind, wp_get.
  set (g0 := set_wheel now (set_now now g)). assert (Ht0 : table_ok g0) by (by destruct Ht).
  eapply wp_mono; [apply (wheel_sweeps _ (session_map_ g0) [] g0 Ht0 eq_refl); lia|]. by intros ? ? [? _].
Qed.
Lemma wp_del_linker junk now now' hdl a (m : Mg) : mgr_ok m -> wp (DelGtpLinker junk now now' hdl a) (fun _ => mgr_ok) m.
Proof.
  intros Hm. unfold DelGtpLinker. destruct a as [a|]; [|by apply wp_ret]. apply wp_on_handle; [done|intros m1 H1; by apply wp_ret|]. intros pos g m1 H1 Hg.
  eapply wp_step_ok; [exact H1|exact Hg|apply keeps_DelSpsSession|]. destruct (mg_inst m1 H1 _ _ Hg) as (_ & _ & Ht).
  destruct (DelSpsSession_removes junk now now' a g Ht) as (g' & Hrun & Ht' & _). by eapply wp_intro.
Qed.
Lemma wp_last_error tid (m : Mg) : mgr_ok m -> wp (LastGtpErrorInfo tid) (fun _ => mgr_ok) m.
Proof.
  intros Hm. destruct (mg_cache m Hm) as (c & Hc & Hok). unfold LastGtpErrorInfo. apply wp_bind, wp_get, wp_bind. eapply wp_deref; [exact Hc|].
  destruct (self_entry c tid (proj1 Hok)) as (own & Hown & Hcase). apply wp_bind. eapply wp_deref; [exact Hown|].
  destruct own as [i|]; [|by apply wp_ret]. destruct Hcase as (e & He & _). apply wp_bind. eapply wp_deref; [exact He|]. apply wp_bind, wp_mod, wp_ret.
  apply cached_ok; [done|]. rewrite (alter_here _ c i e He). apply (cache_write c i e); [done|exact He|by left].
Qed.
Lemma wp_api c (m : Mg) : mgr_ok m -> call_ok c -> wp (api_step c) (fun _ => mgr_ok) m.
Proof.
  intros Hm Hc. destruct c as [tid system_id ttl cb cfg b|tid now hdl|now hdl|junk now now' hdl a|junk now hdl frame size a|junk now hdl pack size a|quality junk hdl key|hdl|tid];
    cbn [api_step call_ok] in *; try (apply wp_bind).
  - destruct Hc as [Ht Hb]. unfold CreateGtpInstance. apply wp_bind. eapply wp_mono; [by apply wp_create|]. intros r m' [Hm' _]. by apply wp_ret, wp_ret.
  - eapply wp_mono; [by apply wp_delete|]. intros r m' Hm'. by apply wp_ret.
  - eapply wp_mono; [by apply wp_period_timer|]. intros. by apply wp_ret.
  - by apply wp_del_linker.
  - eapply (wp_mono _ (fun _ => mgr_ok)); [|intros; by apply wp_ret]. unfold GtpFrameSend_entry. destruct frame as [p|]; [|by apply wp_err].
    destruct a as [a|]; [|by apply wp_err]. destruct (0 =? size); [by apply wp_err|]. apply wp_on_handle; [done|intros; by apply wp_err|].
    intros pos g m1 H1 Hg. by eapply wp_search_ok.
  - eapply (wp_mono _ (fun _ => mgr_ok)); [|intros; by apply wp_ret]. unfold GtpPacketReceive_entry. destruct pack as [p|]; [|by apply wp_err].
    destruct a as [a|]; [|by apply wp_err]. apply wp_on_handle; [done|intros; by apply wp_err|].
    intros pos g m1 H1 Hg. destruct (0 =? _); [by apply wp_err|]. by eapply wp_search_ok.
  - eapply (wp_mono _ (fun _ => mgr_ok)); [|intros; by apply wp_ret]. unfold GetLinkerQuality. apply wp_bind, wp_get.
    destruct key as [k|]; [|by apply wp_ret]. apply wp_on_handle; [done|intros; by apply wp_ret|]. intros pos g m1 H1 Hg.
    destruct (GetSessionByKey (linker_key junk k) g) as [n|] eqn:Hs; [|by apply wp_ret].
    destruct (mg_inst m1 H1 _ _ Hg) as (_ & _ & Ht). destruct (tb_live g Ht n) as (s & Hl & _).
    { unfold GetSessionByKey in Hs. destruct (find_key _ _) as [[i e]|] eqn:Hf; [|done]. injection Hs as <-.
      apply find_key_some in Hf as [Hi _]. apply list_elem_of_fmap. exists e. split; [done|]. by eapply list_elem_of_lookup_2. }
    apply wp_bind. eapply wp_deref; [exact Hl|]. by apply wp_ret.
  - unfold GetSessionNumber. apply wp_on_handle; [done|intros; by apply wp_ret, wp_ret|]. intros. by apply wp_ret, wp_ret.
  - eapply wp_mono; [by apply wp_last_error|]. intros. by apply wp_ret.
Qed.

(** C8: while the module is loaded, an application may make any calls of these
    nine, in any order, with whatever handles, addresses and packets (garbage
    included): CreateGtpInstance, DeleteGtpInstance, PeriodGtpTimer,
    DelGtpLinker, GetLinkerQuality, GetSessionNumber, LastGtpErrorInfo, and
    GtpFrameSend and GtpPacketReceive up to the search for the session, none of
    them from a callback of the library.  No call touches memory of a session
    or an instance that is not there, and the invariant holds at the end:
    handles lead to their instances, instances are counted, every session of a
    table is alive and owns its memory, and no memory of a pool is lost.  Loading
    and unloading the module are not among the calls: once it is unloaded, the
    next one that reads or notes an error follows a null pointer
    ([unloaded_faults]). *)
Theorem api_safe l : forall (m : Mg), mgr_ok m -> Forall call_ok l -> exists m', api_run l m = Some (tt, m') /\ mgr_ok m'.
Proof.
  induction l as [|c l IH]; intros m Hm Hl; [by exists m|]. apply Forall_cons in Hl as [Hc Hl].
  destruct (wp_total _ _ _ (wp_api c m Hm Hc)) as ([] & m1 & Hrun & Hm1). destruct (IH m1 Hm1 Hl) as (m' & Hrun' & Hm').
  exists m'. split; [|done]. cbn [api_run]. unfold mbind, ST_bind. by rewrite Hrun.
Qed.

(** After [RmLoadGtpModule] the errors cannot be read any more. *)
Theorem unloaded_faults tid (m m' : Mg) r : RmLoadGtpModule m = Some (r, m') -> LastGtpErrorInfo tid m' = None.
Proof.
  unfold RmLoadGtpModule, mbind, ST_bind. cbn [mod_st]. destruct (delete_left 64 _) as [[[] m1]|]; [|done]. by intros [= <- <-].
Qed.
End Spec.

(** ** An instance *)
Definition demo_key : Z := 0x0123456789abcdef.
(** A frame of ten bytes: the [n]-th repetition of its packet. *)
Definition demo_framed (n : Z) : list Z * Z :=
  match Frame.Frame.FramePrepHandler 8 16 5000 1 64 10 0 0 40 n (FrameRun.FrameRun.demo_fr 0xFF 0 10) with
  | Some ((_, p, size), st') => (FrameRun.FrameRun.pack_at st' p size, size)
  | None => ([], 0)
  end.
Lemma demo_framed_stream n : 0 <= n <= 7 -> of_stream demo_key (demo_framed n).1 (demo_framed n).2.
Proof.
  intros Hn. unfold demo_framed. set (st := FrameRun.FrameRun.demo_fr 0xFF 0 10).
  assert (Hpeer : FrameRun.FrameRun.gtp_peer (Frame.Frame.fr_sess st)) by (by left).
  destruct (FrameRun.FrameRun.prep_result 8 16 5000 1 st 64 10 0 0 40 n Hpeer Hn ltac:(unfold FrameSpec.FrameSpec.MAX_HEADER; lia) ltac:(lia) ltac:(cbn; lia))
    as (zone & stype & pad & st' & _ & _ & _ & _ & _ & Hrun & _). rewrite Hrun. cbn [fst snd].
  apply (OfFrame demo_key 8 16 5000 1 st 64 10 0 0 40 n); [|apply FrameRun.FrameRun.demo_sess_ok|apply FrameRun.FrameRun.demo_buffer_ok|try (unfold FrameSpec.FrameSpec.MAX_HEADER; lia)..|exact Hrun]; [by split|cbn; lia].
Qed.
(** The peer has moved to another port and another socket in between. *)
Definition demo_moved : GtpAddr := mkAddr 0 GTP_NO 6 (AF_INET [10; 0; 0; 77] 4000) None.
Abbreviation DemoMgr := (GtpInstMgr GtpMemPool Z DemoSess (list (Z * Deed))).
Definition demo_arrives (now n : Z) (a : GtpAddr) (m : DemoMgr) : option (option Z) * DemoMgr :=
  match GtpPacketReceive_entry (demo_trash n) now 100000 (Some (demo_framed n).1) (demo_framed n).2 (Some a) m with
  | Some (r, m') => (Some (fo_session <$> r.2), m')
  | None => (None, m)
  end.
Example demo_same_session :
  let x := demo_arrives 3500000 0 (demo_peer 9) demo_mgr2 in
  x.1 = (demo_arrives 3600000 3 demo_moved x.2).1 /\ some_b (mjoin x.1) = true.
Proof. vm_compute. by split. Qed.
Lemma demo_no_flow : no_flow_in demo_key 100000 demo_mgr2.
Proof.
  intros g [_ ->]%demo_mgr2_at. apply Forall_forall. intros e He.
  assert (Hall : forallb (fun e => negb (key_ e.1 =? demo_key)) (session_map_ demo_gtp2) = true) by (vm_compute; reflexivity).
  rewrite forallb_forall in Hall. apply list_elem_of_In in He. specialize (Hall e He). apply negb_true_iff, Z.eqb_neq in Hall. intros E. destruct (Hall E).
Qed.
Example stream_keeps_session_witness : exists r m',
  GtpPacketReceive_entry (demo_trash 1) 3500000 100000 (Some (demo_framed 0).1) (demo_framed 0).2 (Some (demo_peer 9)) demo_mgr2 = Some (r, m') /\ mgr_ok m' /\
  match r.2 with
  | None => r.1 <> GTP_OK /\ tables m' = tables demo_mgr2
  | Some f => r.1 = GTP_OK /\ with_key demo_key (fo_addr f) /\
      forall l, Forall (no_chance demo_key) l ->
        exists m1, traffic_run l m' = Some (tt, m1) /\ mgr_ok m1 /\ same_session demo_key 100000 (fo_pos f) (fo_session f) m1
  end.
Proof.
  apply (stream_keeps_session demo_key (demo_trash 1) 3500000 100000 (demo_framed 0).1 (demo_framed 0).2 (demo_peer 9) demo_mgr2 demo_mgr2_ok);
    [unfold demo_key; lia|apply demo_framed_stream; lia|done|exact demo_no_flow].
Defined.

(** An instance, garbage, two packets of a stream from two places, a tick after
    the time to live, the end, and a call for the instance that is no more. *)
Definition demo_calls : list (ApiCall (Q := GtpMemPool) (S := DemoSess) (W := list (Z * Deed))) :=
  [ApiCreate 77 9 0 (Some (mkCb 1 1 0)) demo_cfg demo_birth; ApiReceive (demo_trash 1) 3000000 100000 (Some [2; 255; 3]) 3 (Some (demo_peer 5));
   ApiReceive (demo_trash 1) 3500000 100000 (Some (demo_framed 0).1) (demo_framed 0).2 (Some (demo_peer 9));
   ApiReceive (demo_trash 2) 3600000 100000 (Some (demo_framed 3).1) (demo_framed 3).2 (Some demo_moved); ApiTimer 7500000 100000;
   ApiNumber 100000; ApiQuality (fun _ s => (GTP_OK, 0)) (demo_trash 1) 100000 (Some demo_linker); ApiDelete 77 7600000 100000; ApiSend (demo_trash 3) 7700000 100000 (Some [1]) 1 (Some (demo_peer 9)); ApiLastError 77].
Example demo_after_tick : (fun x : unit * DemoMgr => (fun o : option DemoGtp => (fun g : DemoGtp => SessionNumber g) <$> o) <$> take 2 (goodtp_inst_ x.2)) <$> api_run (take 4 demo_calls) demo_mgr =
  Some [Some 2; None].
Proof. vm_compute. reflexivity. Qed.
Example api_safe_witness : exists m', api_run demo_calls demo_mgr = Some (tt, m') /\ mgr_ok m'.
Proof.
  apply (api_safe demo_calls demo_mgr demo_mgr_ok). repeat (apply Forall_cons_2; [try exact I; try (split; [done|exact demo_birth_ok]); done|]). constructor.
Defined.
End EntrySpec.
